(* ===== verification/_CoqProject ===== *)
-Q . S2P
Prelude.v
Lib.v
Pmm.v
PmmFacts.v
PmmInit.v
PmmProps.v
Vmm.v
PageTables.v
VmmFacts.v
VmmProps.v
TableFacts.v
ForkFacts.v
SpaceProps.v
Checks.v
ForkProps.v
FaultProps.v
Heap.v
VirtMem.v
HeapFacts.v
HeapAlloc.v
HeapFree.v
HeapProps.v
Machine.v
Samples.v
Idt.v
IdtProps.v
Task.v
Sched.v
SchedFacts.v
SchedProps.v
Console.v
ConsoleProps.v
Kprintf.v
Keyboard.v
KeyboardProps.v
Pci.v
Virtio.v
VirtioFacts.v
VirtioProps.v
Uixfs.v
UixfsFacts.v
UixfsProps.v
Apic.v
Boot.v
Elf.v
ElfProps.v
Process.v
ProcessFacts.v
Syscall.v
Entry.v
SyscallProps.v
EntryProps.v
ProcessProps.v
TaskProps.v
Kmain.v
Host.v
Limine.v
LimineInstall.v
LimineImage.v
LimineTool.v
LimineFacts.v
LimineUndo.v
LimineSteps.v
LimineJournal.v
LimineStart.v
LimineFile.v
LimineRestore.v
LimineStages.v
LimineConvert.v
LimineProps.v
LimineEnroll.v
LimineErrors.v
LimineSamples.v
