(* ===== verification/Prelude.v ===== *)
(** * UIX kernel: a verification library

    UIX is a small x86_64 operating system in C: memory management, preemptive
    tasks, ring 3 processes with [fork], [execve] and [wait4], a PS/2 keyboard
    and a terminal, PCI and a virtio disk, and a read-only file system.  This
    library models the kernel, the tool that makes its disk image and the tool that
    installs its boot loader, and proves what makes each part correct.

    ** How the code is modelled

    The C integers are [Z] with the wrap-around of their width written out
    ([wrap8] ... [wrap64], [+w], [-w], [*w], [~w] below).  Memory is a finite map
    from addresses to bytes, read and written little endian ([ldn], [stn]).
    Every operation is a function of the kernel monad [M S A]: it threads the
    state [S] of its component and either returns ([Ok]) or stops ([Stop]) with
    [Panic], a [Fault] of the memory management unit, [Undef] where C gives no
    meaning, [Diverge] for an endless loop, or [Hlt].  [runs m s Q F] says that
    [m] returns with [Q] or stops for a reason in [F].

    The state of the kernel is a tower, as its parts build on each other:
    [Pmm.pmm_st] (physical memory, the page bitmap, the console log) inside
    [Vmm.vmm_st] (CR3 and the page tables, which live in that memory) inside
    [Heap.heap_st] inside [Machine.kst], which adds the static variables of all
    other files and the hardware.  The devices are a parameter: a type [D] with
    the class [Machine.Hardware] for port, memory-mapped, register and DMA
    accesses.  Addresses the linker fixes are the classes [Idt.CpuSymbols],
    [Sched.Symbols]; the programs linked into the kernel are [Process.Programs].

    ** Files and the code they model

    - [Prelude]: integers, outcomes and the monad, byte memory, tactics.
    - [Lib]: [core/lib.c] (memory and string functions, number printing), with
      the properties of [memmove], [strncpy], [uix_utoa].
    - [Pmm], [PmmFacts], [PmmInit], [PmmProps]: [core/memory/pmm.c].  The bitmap
      is in the modelled memory; [free_set] reads it back as a set of pages and
      [wf] is the invariant.
    - [Vmm], [PageTables], [VmmFacts], [VmmProps], [TableFacts], [SpaceProps],
      [ForkFacts], [ForkProps], [FaultProps]: [core/memory/vmm.c].  [walk] is the
      walk of the processor, [wf_vm] the invariant of a space.  [Checks] has
      decision procedures for the invariants and sample states.
    - [VirtMem]: memory seen through the page tables; [holds] states what an area
      of virtual memory contains, [spared] what work on it leaves alone.
    - [Heap], [HeapFacts], [HeapAlloc], [HeapFree], [HeapProps]:
      [core/memory/heap.c].  Headers are in virtual memory; [heap_at] relates
      memory to the list of blocks and the free list.
    - [Machine]: the hardware, the variables of every other file, port I/O
      ([include/uix/io.h]).  [Samples]: sample kernels.
    - [Idt], [IdtProps]: descriptor tables of [core/cpu/idt.c].
    - [Task], [Sched], [SchedFacts], [SchedProps]: [core/cpu/task.c],
      [core/cpu/sched.c], [arch/x86_64/switch.S].  A switch stores the registers
      on the stack of the old task and loads those of the new one from memory.
    - [Console], [ConsoleProps], [Kprintf]: [core/console.c], [drivers/serial.c],
      [core/kprintf.c].
    - [Keyboard], [KeyboardProps]: [drivers/keyboard.c], [personality/tty.c].
    - [Pci]: [drivers/pci.c].  [Apic]: [core/cpu/apic.c].
    - [Virtio], [VirtioFacts], [VirtioProps]: [drivers/virtio_blk.c].
    - [Uixfs], [UixfsFacts], [UixfsProps]: [personality/fs/uixfs.c],
      [tools/mkuixfs.py].
    - [Elf], [ElfProps]: [core/cpu/elf.c].
    - [Process], [ProcessFacts], [ProcessProps]: [core/cpu/user.c],
      [core/cpu/fork.c], [core/cpu/exec.c].  [TaskProps]: the start of tasks.
    - [Syscall], [SyscallProps]: [core/cpu/syscall.c] and the dispatch of vectors
      in [core/cpu/idt.c].
    - [Entry], [EntryProps]: [arch/x86_64/cpu.S] and the trampolines of
      [arch/x86_64/switch.S], with what the processor does on an interrupt and on
      [iretq]: [interrupt] goes from the context of the interrupted code through
      the stubs and [isr_dispatch] back to a context.
    - [Boot], [Kmain]: [boot/boot.c], [core/kmain.c], [_start] of [cpu.S].

    The installer of the boot loader, [boot/limine/limine-install.c], runs on the
    host that builds the image; its state is [Limine.lim].
    - [Host]: what it uses of the standard library.  Files are bytes with a
      length, a stream has a position and an error flag, [malloc] hands out fresh
      blocks, and a list of events says which calls fail and after how many bytes.
    - [Limine]: the block cache, [_device_read] and [_device_write], the record of
      overwritten bytes, its file, and [uninstall].
    - [LimineInstall]: [bios_install].  A step gives [None] where the code jumps to
      [cleanup].  [LimineImage]: the boot loader of [limine-bios-hdd.h].
    - [LimineTool]: [enroll_config], [version], [main].
    - [LimineFacts] (what the device shows through the cache), [LimineUndo] (the
      record and its blocks, with any faults), [LimineSteps] (invariants of the
      steps of [install]), [LimineJournal] (undoing), [LimineStart] (arguments and
      the probe), [LimineFile] (the file of undo data), [LimineRestore] (the device
      can be restored at every point), [LimineStages] and [LimineConvert] (the
      bytes an installation leaves), [LimineEnroll], [LimineErrors], and the
      theorems in [LimineProps], with runs of the tool in [LimineSamples].

    ** What the theorems show

    - Physical pages: any sequence of allocations and frees keeps the bitmap
      consistent and never hands a page out twice; each operation is exact on
      every branch; initialisation frees exactly the usable pages.  Page 0 and
      exhausted memory are not told apart, and the reference counts are then
      placed over physical address 0.
    - Address spaces: mapping, unmapping, translation, creation and cloning
      change exactly the translations they should; a fork, given enough pages,
      makes every user page copy-on-write in both spaces and the fault handler
      separates them, except that the first fork leaves a count of 1 and the next
      write is shared.
    - Heap: any sequence of [kmalloc] and [kfree] hands out disjoint areas; both
      keep the contents of the other blocks in use; after [kfree] the free list is
      sorted and free neighbours are merged; with 256 free blocks [kfree] writes
      past its local array.
    - Scheduler: round robin among kernel threads is fair, and a task that is
      switched out and in again finds its registers and stack as they were.
    - Entry and exit: an interrupt hands [isr_dispatch] the registers of the
      interrupted code and restores them, with the result of a system call.
    - Tasks: [task_create] and [do_fork] make one new task, at the end of the run
      queue, and leave all others alone; a thread starts with its function and
      argument, the child of a fork with the registers of its parent and 0 in
      [rax], a user task in ring 3 at its entry point.
    - Keyboard and terminal: the ring buffer is a queue of 255 characters, lines
      are edited as a line editor would, except for a backspace after the end.
    - Disk: against a device that follows the virtio interface
      ([VirtioFacts.VirtioDisk]), requests read and write the right sector and no
      other memory; a device faster than the driver makes it time out.
    - File system: against the interface of a sector device
      ([UixfsProps.SectorDevice], which the driver implements), every file the
      tool put into the image is read back byte for byte.
    - Loader: a program whose segments are page aligned finds the bytes of its
      file, and zeros after them, at the addresses its headers give.
    - [wait4] reaps a zombie child once; the interrupt table decodes to the right
      handlers, while the interrupt stacks of the task state segment are
      misplaced; the console never writes outside the framebuffer.
    - Installer: with any faults of the host, an installation uses its memory
      correctly and releases it.  With none, it leaves exactly the stages, the old
      partition table and the old bytes on the device, spares the partitions, is
      undone when it fails, and can be undone from its file when it succeeds.  A
      file of undo data that was cut short makes it free a block twice.
      [enroll-config] patches the first signature far enough from the end.

    ** Bounds and fuel

    Recursion that is not structural has fuel computed from the state:
    [Heap.heap_fuel] (one more than the headers that fit below the break) and the
    two rounds of [kmalloc], which the heap theorems show to be enough, and
    [Task.list_fuel] (one more than the number of tasks), which is enough for a
    list of tasks without repetition.  [Kprintf.kvprintf] has the length of the
    format, of which every round consumes a character.  Loops that wait for a
    device, and the loop of [wait4], take a bound [spin] on the number of rounds
    and give [Diverge] beyond it; the console theorem says when that does not
    happen.  The polling limit of the disk driver
    is the code's own; [Virtio.until] unfolds it in logarithmic depth.  Heap areas
    end below the kernel image ([HeapFacts.HEAP_VA_END], from [tools/linker.ld]).
    In the installer, [Limine.read_loop] and [write_loop] have one round more than
    the bytes they move, [LimineTool.search_loop] 26 rounds for every byte and 27
    more, and [free_uninstall_data] stops at index 256, which is undefined; the
    theorems show that no fuel runs out.

    ** Not modelled

    - Instructions of user programs ([user/]) and the directives that embed them
      ([arch/x86_64/userprog.S], [userprog2.S]): they are bytes to the kernel.
    - Translation caches: a change of a page table is seen at once.  The code
      does not flush them when a fork makes the pages of the parent read-only.
    - The stack frames of C functions, and interrupts between the steps of a
      function: [interrupt] is taken in a context between two operations.
    - The boot loader itself, which is there as binaries: the installer treats it
      as bytes, and the information it passes to the kernel is an argument of
      [Boot.boot_init].
    - In the installer: buffers of the standard library (a write reaches the file
      at once), [fclose], the arguments of messages, the block of the cache and of
      [empty_lba] as blocks of [malloc]; hosts with a 32-bit [long] or big-endian
      bytes.
    - [include/std*.h], [limits.h], [float.h]: compiler headers.
    - The kernel proper logs its output as events; [Kprintf.emit_events] replays
      them on the console. *)

From stdpp Require Export base gmap strings numbers list.
Global Open Scope Z_scope.

(** ** Machine integers

    The C types [u8], [u16], [u32], [u64] of [include/uix/types.h] are [Z]
    with the wrap-around of each unsigned width written out. *)

Definition wrap8 (z : Z) : Z := z mod 2 ^ 8.
Definition wrap16 (z : Z) : Z := z mod 2 ^ 16.
Definition wrap32 (z : Z) : Z := z mod 2 ^ 32.
Definition wrap64 (z : Z) : Z := z mod 2 ^ 64.

(** The value of a two's complement [int]/[i64] read from an unsigned word. *)
Definition sint32 (z : Z) : Z := (z + 2 ^ 31) mod 2 ^ 32 - 2 ^ 31.
Definition sint64 (z : Z) : Z := (z + 2 ^ 63) mod 2 ^ 64 - 2 ^ 63.

Declare Scope uix_scope.
Delimit Scope uix_scope with uix.

(** [e & f] used as a C condition. *)
Definition has (e f : Z) : bool := negb (Z.land e f =? 0).

Notation "a +w b" := (wrap64 (a + b)) (at level 50, left associativity) : uix_scope.
Notation "a -w b" := (wrap64 (a - b)) (at level 50, left associativity) : uix_scope.
Notation "a *w b" := (wrap64 (a * b)) (at level 40, left associativity) : uix_scope.
Notation "~w a" := (wrap64 (Z.lnot a)) (at level 35, right associativity) : uix_scope.
Global Open Scope uix_scope.

Definition UIX_PAGE_SIZE : Z := 4096.
Definition UIX_PAGE_SHIFT : Z := 12.

(** ** Outcomes and the kernel monad

    Every operation threads the state of its component.  It either returns, or
    the machine stops: a call of [panic] (never returns), an access the MMU
    refuses, C undefined behaviour (an out-of-bounds write to a local array), a
    loop that does not end within the bound the model gives it, or the final
    [hlt] loop.  The state at the stop is kept. *)

Inductive stop : Type :=
  | Panic (msg : string)
  | Fault (va : Z)
  | Undef (what : string)
  | Diverge
  | Hlt.

Inductive outcome (S A : Type) : Type :=
  | Ok (a : A) (s : S)
  | Stop (w : stop) (s : S).
Arguments Ok {S A} a s.
Arguments Stop {S A} w s.

Definition M (S A : Type) : Type := S → outcome S A.

Global Instance M_ret {S} : MRet (M S) := λ A a s, Ok a s.
Global Instance M_bind {S} : MBind (M S) := λ A B f m s,
  match m s with
  | Ok a s' => f a s'
  | Stop w s' => Stop w s'
  end.

Definition panic {S A} (msg : string) : M S A := λ s, Stop (Panic msg) s.
Definition fault {S A} (va : Z) : M S A := λ s, Stop (Fault va) s.
Definition undef {S A} (what : string) : M S A := λ s, Stop (Undef what) s.
Definition diverge {S A} : M S A := λ s, Stop Diverge s.
Definition hlt {S A} : M S A := λ s, Stop Hlt s.
Definition gets {S A} (f : S → A) : M S A := λ s, Ok (f s) s.
Definition modify {S} (f : S → S) : M S unit := λ s, Ok tt (f s).

(** Running an operation of a component inside the state of its caller. *)
Definition zoom {S T A} (get : S → T) (put : T → S → S) (m : M T A) : M S A := λ s,
  match m (get s) with
  | Ok a t => Ok a (put t s)
  | Stop w t => Stop w (put t s)
  end.

(** [runs m s Q F]: from [s], [m] returns with [Q], or stops for a reason in [F]. *)
Definition runs {S A} (m : M S A) (s : S) (Q : A → S → Prop) (F : stop → Prop) : Prop :=
  match m s with Ok a s' => Q a s' | Stop w _ => F w end.

(** [for (i = start; i < start + n; i++) body(i)] *)
Fixpoint for_ {S} (n : nat) (i : Z) (body : Z → M S unit) : M S unit :=
  match n with
  | O => mret tt
  | Datatypes.S n => body i ;; for_ n (i + 1) body
  end.

(** ** Byte memory

    A flat little-endian byte memory.  The finite map holds the bytes that were
    written; any initial contents of RAM is some such map. *)

Abbreviation mem := (gmap Z Z).

Definition ld8 (m : mem) (a : Z) : Z := wrap8 (default 0 (m !! a)).
Definition st8 (a v : Z) (m : mem) : mem := <[a := wrap8 v]> m.

(** An access of [n] bytes, least significant byte first. *)
Fixpoint ldn (n : nat) (m : mem) (a : Z) : Z :=
  match n with
  | O => 0
  | S n => ld8 m a + 256 * ldn n m (a + 1)
  end.

Fixpoint stn (n : nat) (a v : Z) (m : mem) : mem :=
  match n with
  | O => m
  | S n => stn n (a + 1) (v / 256) (st8 a v m)
  end.

Abbreviation ld16 := (ldn 2).
Abbreviation ld32 := (ldn 4).
Abbreviation ld64 := (ldn 8).
Abbreviation st16 := (stn 2).
Abbreviation st32 := (stn 4).
Abbreviation st64 := (stn 8).

(** The bytes [a, a + n) of the memory, and writing a list of bytes. *)
Fixpoint ld_bytes (n : nat) (m : mem) (a : Z) : list Z :=
  match n with
  | O => []
  | S n => ld8 m a :: ld_bytes n m (a + 1)
  end.

Fixpoint st_bytes (a : Z) (bs : list Z) (m : mem) : mem :=
  match bs with
  | [] => m
  | b :: bs => st_bytes (a + 1) bs (st8 a b m)
  end.

(** ** Automation *)

Create HintDb uix.
Create Rewrite HintDb uix.

(** Split a successful run of a monadic block into its steps. *)
Lemma bind_Ok_inv {S A B} (m : M S A) (k : A → M S B) (s : S) (b : B) (s' : S) :
  (m ≫= k) s = Ok b s' ↔ ∃ a s1, m s = Ok a s1 ∧ k a s1 = Ok b s'.
Proof.
  unfold mbind, M_bind. destruct (m s) as [a s1|w s1]; split.
  - intros H. eauto.
  - intros (? & ? & ? & ?). by simplify_eq.
  - done.
  - intros (? & ? & ? & ?). done.
Qed.

Lemma bind_Ok_eq {S A B} (m : M S A) (k : A → M S B) (s : S) (a : A) (s1 : S) :
  m s = Ok a s1 → (m ≫= k) s = k a s1.
Proof. intros H. unfold mbind, M_bind. by rewrite H. Qed.

Lemma bind_Stop_eq {S A B} (m : M S A) (k : A → M S B) (s : S) (w : stop) (s1 : S) :
  m s = Stop w s1 → (m ≫= k) s = Stop w s1.
Proof. intros H. unfold mbind, M_bind. by rewrite H. Qed.

Lemma zoom_Ok_inv {S T A} (get : S → T) (put : T → S → S) (m : M T A) s a s' :
  zoom get put m s = Ok a s' ↔ ∃ t, m (get s) = Ok a t ∧ s' = put t s.
Proof.
  unfold zoom. destruct (m (get s)) as [a' t|w t]; split.
  - intros H. simplify_eq. eauto.
  - intros (? & ? & ?). by simplify_eq.
  - done.
  - intros (? & ? & ?). done.
Qed.

Ltac mstep_in H :=
  lazymatch type of H with
  | (_ ≫= _) _ = Ok _ _ =>
      let a := fresh "a" in let s := fresh "s" in
      let H1 := fresh "H" in let H2 := fresh "H" in
      apply bind_Ok_inv in H; destruct H as (a & s & H1 & H2);
      mstep_in H1; mstep_in H2
  | gets _ _ = Ok _ _ => unfold gets in H; simplify_eq H; clear H; intros; try subst
  | modify _ _ = Ok _ _ => unfold modify in H; simplify_eq H; clear H; intros; try subst
  | mret _ _ = Ok _ _ => unfold mret, M_ret in H; simplify_eq H; clear H; intros; try subst
  | panic _ _ = Ok _ _ => discriminate H
  | fault _ _ = Ok _ _ => discriminate H
  | undef _ _ = Ok _ _ => discriminate H
  | (if ?b then _ else _) _ = Ok _ _ =>
      let E := fresh "E" in destruct b eqn:E; mstep_in H
  | _ => idtac
  end.

Lemma runs_ret {S A} (m : M S A) s a s' (Q : A → S → Prop) F :
  m s = Ok a s' → Q a s' → runs m s Q F.
Proof. unfold runs. by intros ->. Qed.

Lemma runs_bind {S A B} (m : M S A) (k : A → M S B) s (Q : B → S → Prop) F :
  runs m s (λ a s', runs (k a) s' Q F) F → runs (m ≫= k) s Q F.
Proof. unfold runs, mbind, M_bind. by destruct (m s). Qed.

Lemma runs_bind_Ok {S A B} (m : M S A) (k : A → M S B) s a s' (Q : B → S → Prop) F :
  m s = Ok a s' → runs (k a) s' Q F → runs (m ≫= k) s Q F.
Proof. unfold runs. intros H. by rewrite (bind_Ok_eq _ _ _ _ _ H). Qed.

Lemma runs_mono {S A} (m : M S A) s (Q Q' : A → S → Prop) (F F' : stop → Prop) :
  runs m s Q F → (∀ a s', Q a s' → Q' a s') → (∀ w, F w → F' w) → runs m s Q' F'.
Proof. unfold runs. destruct (m s); auto. Qed.

Lemma runs_Ok {S A} (m : M S A) s (Q : A → S → Prop) F :
  runs m s Q F → (∃ a s', m s = Ok a s' ∧ Q a s') ∨ (∃ w s', m s = Stop w s' ∧ F w).
Proof. unfold runs. destruct (m s); eauto 6. Qed.

Lemma runs_inv {S A} (m : M S A) s (Q : A → S → Prop) F a s' : runs m s Q F → m s = Ok a s' → Q a s'.
Proof. unfold runs. intros H E. by rewrite E in H. Qed.

(** A loop keeps what each of its rounds keeps. *)
Lemma runs_for {S} (n : nat) (i : Z) (body : Z → M S unit) (I : Z → S → Prop) F s :
  I i s →
  (∀ j t, i ≤ j < i + Z.of_nat n → I j t → runs (body j) t (λ _ t', I (j + 1) t') F) →
  runs (for_ n i body) s (λ _ t, I (i + Z.of_nat n) t) F.
Proof.
  revert i s. induction n as [|n IH]; intros i s Hi Hb.
  { unfold runs. cbn. by rewrite Z.add_0_r. }
  cbn [for_]. apply runs_bind. eapply runs_mono; [apply (Hb i s); [lia|done]| |done].
  intros [] t Ht. cbn beta in *. replace (i + Z.of_nat (Datatypes.S n)) with (i + 1 + Z.of_nat n) by lia.
  apply IH; [done|]. intros j t' Hj. apply Hb. lia.
Qed.

(** Case analysis on the boolean comparisons of [Z] in the context. *)
Ltac zify_bools :=
  repeat match goal with
  | H : (_ =? _) = true |- _ => apply Z.eqb_eq in H
  | H : (_ =? _) = false |- _ => apply Z.eqb_neq in H
  | H : (_ <? _) = true |- _ => apply Z.ltb_lt in H
  | H : (_ <? _) = false |- _ => apply Z.ltb_ge in H
  | H : (_ <=? _) = true |- _ => apply Z.leb_le in H
  | H : (_ <=? _) = false |- _ => apply Z.leb_gt in H
  | H : (_ && _)%bool = true |- _ => apply andb_true_iff in H; destruct H
  | H : (_ || _)%bool = false |- _ => apply orb_false_iff in H; destruct H
  | H : negb _ = true |- _ => apply negb_true_iff in H
  | H : negb _ = false |- _ => apply negb_false_iff in H
  end.

(** Open every test [if x <? y] of the goal. *)
Ltac case_zbool :=
  repeat match goal with
  | |- context [(?a <? ?b)] => destruct (Z.ltb_spec a b)
  | |- context [(?a <=? ?b)] => destruct (Z.leb_spec a b)
  | |- context [(?a =? ?b)] => destruct (Z.eqb_spec a b)
  end.

(** ** Facts on words *)

Lemma wrap8_range z : 0 ≤ wrap8 z < 256.
Proof. apply Z.mod_pos_bound. lia. Qed.
Lemma wrap16_range z : 0 ≤ wrap16 z < 2 ^ 16.
Proof. apply Z.mod_pos_bound. lia. Qed.
Lemma wrap32_range z : 0 ≤ wrap32 z < 2 ^ 32.
Proof. apply Z.mod_pos_bound. lia. Qed.
Lemma wrap64_range z : 0 ≤ wrap64 z < 2 ^ 64.
Proof. apply Z.mod_pos_bound. lia. Qed.

Lemma wrap8_small z : 0 ≤ z < 256 → wrap8 z = z.
Proof. intros. unfold wrap8. apply Z.mod_small. lia. Qed.
Lemma wrap16_small z : 0 ≤ z < 2 ^ 16 → wrap16 z = z.
Proof. intros. by apply Z.mod_small. Qed.
Lemma wrap32_small z : 0 ≤ z < 2 ^ 32 → wrap32 z = z.
Proof. intros. by apply Z.mod_small. Qed.
Lemma wrap64_small z : 0 ≤ z < 2 ^ 64 → wrap64 z = z.
Proof. intros. by apply Z.mod_small. Qed.

Lemma wrap8_idemp z : wrap8 (wrap8 z) = wrap8 z.
Proof. apply wrap8_small, wrap8_range. Qed.

(** ** Facts on byte memory *)

Lemma ld8_range m a : 0 ≤ ld8 m a < 256.
Proof. apply wrap8_range. Qed.

Lemma ld8_st8 a v m b : ld8 (st8 a v m) b = if a =? b then wrap8 v else ld8 m b.
Proof.
  unfold ld8, st8. destruct (Z.eqb_spec a b) as [->|Hne].
  - rewrite lookup_insert_eq. simpl. apply wrap8_idemp.
  - by rewrite lookup_insert_ne.
Qed.

Lemma ld8_st8_eq a v m : ld8 (st8 a v m) a = wrap8 v.
Proof. by rewrite ld8_st8, Z.eqb_refl. Qed.

Lemma ld8_st8_ne a v m b : a ≠ b → ld8 (st8 a v m) b = ld8 m b.
Proof. intros H. rewrite ld8_st8. by destruct (Z.eqb_spec a b). Qed.

Lemma ldn_range n m a : 0 ≤ ldn n m a < 256 ^ Z.of_nat n.
Proof.
  revert a. induction n as [|n IH]; intros a; [simpl; lia|].
  rewrite Nat2Z.inj_succ, Z.pow_succ_r by lia. cbn [ldn].
  pose proof (ld8_range m a). specialize (IH (a + 1)). lia.
Qed.

Lemma ldn_ext n m m' a :
  (∀ b, a ≤ b < a + Z.of_nat n → ld8 m b = ld8 m' b) → ldn n m a = ldn n m' a.
Proof.
  revert a. induction n as [|n IH]; intros a H; [done|]. cbn [ldn].
  rewrite (H a) by lia. rewrite (IH (a + 1)); [done|]. intros. apply H. lia.
Qed.

Lemma ld8_stn n a v m b :
  ld8 (stn n a v m) b =
    if (a <=? b) && (b <? a + Z.of_nat n)
    then (v / 256 ^ (b - a)) mod 256 else ld8 m b.
Proof.
  revert a v m. induction n as [|n IH]; intros a v m.
  { simpl. case_zbool; simpl; try lia; done. }
  cbn [stn]. rewrite IH, ld8_st8. unfold wrap8. change (2 ^ 8) with 256.
  case_zbool; simpl; subst; try lia; try done.
  - rewrite Z.div_div by lia.
    replace (b - a) with (Z.succ (b - (a + 1))) by lia.
    by rewrite Z.pow_succ_r by lia.
  - by rewrite Z.sub_diag, Z.pow_0_r, Z.div_1_r.
Qed.

Lemma ld8_stn_out n a v m b :
  b < a ∨ a + Z.of_nat n ≤ b → ld8 (stn n a v m) b = ld8 m b.
Proof. intros H. rewrite ld8_stn. case_zbool; simpl; try done; lia. Qed.

(** A store then a load at the same place gives the value at its width. *)
Lemma ldn_stn_eq n a v m : ldn n (stn n a v m) a = v mod 256 ^ Z.of_nat n.
Proof.
  revert a v m. induction n as [|n IH]; intros a v m.
  { simpl. by rewrite Z.mod_1_r. }
  rewrite Nat2Z.inj_succ, Z.pow_succ_r by lia. cbn [ldn stn].
  rewrite IH, ld8_stn_out by lia. rewrite ld8_st8_eq. unfold wrap8.
  change (2 ^ 8) with 256. rewrite Z.rem_mul_r by lia. lia.
Qed.

(** Disjoint accesses do not interfere. *)
Lemma ldn_stn_ne k n a b v m :
  b + Z.of_nat k ≤ a ∨ a + Z.of_nat n ≤ b → ldn k (stn n a v m) b = ldn k m b.
Proof. intros H. apply ldn_ext. intros c Hc. apply ld8_stn_out. lia. Qed.

Lemma ld64_st64_eq a v m : 0 ≤ v < 2 ^ 64 → ld64 (st64 a v m) a = v.
Proof. intros. rewrite ldn_stn_eq. apply Z.mod_small. done. Qed.

Lemma length_ld_bytes n m a : length (ld_bytes n m a) = n.
Proof. revert a. induction n; intros; simpl; auto. Qed.

Lemma ld_bytes_lookup n m a i :
  (i < n)%nat → ld_bytes n m a !! i = Some (ld8 m (a + Z.of_nat i)).
Proof.
  revert a i. induction n as [|n IH]; intros a [|i] Hi; try lia; cbn [ld_bytes].
  - simpl. do 2 f_equal. lia.
  - simpl. rewrite IH by lia. do 2 f_equal. lia.
Qed.

Lemma ld_bytes_ext n m m' a a' :
  (∀ i, 0 ≤ i < Z.of_nat n → ld8 m (a + i) = ld8 m' (a' + i)) →
  ld_bytes n m a = ld_bytes n m' a'.
Proof.
  intros H. apply list_eq. intros i. destruct (decide (i < n)%nat).
  - rewrite !ld_bytes_lookup by done. f_equal. apply H. lia.
  - rewrite !lookup_ge_None_2; rewrite ?length_ld_bytes; done || lia.
Qed.

Lemma ld8_st_bytes a bs m b :
  ld8 (st_bytes a bs m) b =
    if (a <=? b) && (b <? a + Z.of_nat (length bs))
    then wrap8 (default 0 (bs !! Z.to_nat (b - a))) else ld8 m b.
Proof.
  revert a m. induction bs as [|x bs IH]; intros a m.
  { simpl. case_zbool; simpl; try lia; done. }
  cbn [st_bytes length]. rewrite IH, ld8_st8.
  case_zbool; simpl; subst; try lia; try done.
  - replace (Z.to_nat (b - a)) with (S (Z.to_nat (b - (a + 1)))) by lia. done.
  - by rewrite Z.sub_diag.
Qed.

Lemma ld_bytes_st_bytes a bs m :
  Forall (λ b, 0 ≤ b < 256) bs → ld_bytes (length bs) (st_bytes a bs m) a = bs.
Proof.
  intros Hbs. apply list_eq. intros i. destruct (decide (i < length bs)%nat) as [Hi|Hi].
  - rewrite ld_bytes_lookup by done. rewrite ld8_st_bytes.
    replace (Z.to_nat (a + Z.of_nat i - a)) with i by lia.
    destruct (lookup_lt_is_Some_2 bs i Hi) as [x Hx]. rewrite Hx. simpl.
    pose proof (Forall_lookup_1 _ _ _ _ Hbs Hx) as Hr. simpl in Hr.
    rewrite wrap8_small by done. case_zbool; simpl; done || lia.
  - rewrite !lookup_ge_None_2; rewrite ?length_ld_bytes; done || lia.
Qed.

(** ** Facts on bits *)

Lemma testbit_bit (k n : Z) : 0 ≤ k → Z.testbit (Z.shiftl 1 k) n = (n =? k).
Proof.
  intros Hk. destruct (Z.eqb_spec n k) as [->|Hne].
  - rewrite Z.shiftl_spec_high, Z.sub_diag by lia. done.
  - destruct (decide (n < 0)); [by rewrite Z.testbit_neg_r by lia|].
    destruct (decide (n < k)); [by rewrite Z.shiftl_spec_low by lia|].
    rewrite Z.shiftl_spec_high by lia.
    apply (Z.bits_above_log2 1); simpl; lia.
Qed.

(** [e & (1 << k)] as a condition is the test of bit [k]. *)
Lemma has_bit e k : 0 ≤ k → has e (Z.shiftl 1 k) = Z.testbit e k.
Proof.
  intros Hk. unfold has. destruct (Z.testbit e k) eqn:E.
  - apply negb_true_iff, Z.eqb_neq. intros H0.
    assert (Z.testbit (Z.land e (Z.shiftl 1 k)) k = true) as H.
    { by rewrite Z.land_spec, testbit_bit, E, Z.eqb_refl. }
    by rewrite H0, Z.bits_0 in H.
  - apply negb_false_iff, Z.eqb_eq. apply Z.bits_inj_0. intros n.
    rewrite Z.land_spec, testbit_bit by done.
    destruct (Z.eqb_spec n k) as [->|]; [by rewrite E|by rewrite andb_false_r].
Qed.

Lemma testbit_byte_cons b r k :
  0 ≤ b < 256 → 0 ≤ k →
  Z.testbit (b + 256 * r) k = if k <? 8 then Z.testbit b k else Z.testbit r (k - 8).
Proof.
  intros Hb Hk. destruct (Z.ltb_spec k 8).
  - rewrite <-(Z.mod_pow2_bits_low _ 8) by lia. f_equal. change (2 ^ 8) with 256.
    rewrite Z.mul_comm, Z_mod_plus_full. by apply Z.mod_small.
  - replace k with ((k - 8) + 8) at 1 by lia. rewrite <-Z.div_pow2_bits by lia. f_equal.
    change (2 ^ 8) with 256. rewrite Z.mul_comm, Z.div_add by lia.
    rewrite Z.div_small by lia. lia.
Qed.

(** Bit [k] of a multi-byte word is bit [k mod 8] of its byte [k / 8]. *)
Lemma ldn_testbit n m a k :
  0 ≤ k < 8 * Z.of_nat n → Z.testbit (ldn n m a) k = Z.testbit (ld8 m (a + k / 8)) (k mod 8).
Proof.
  revert a k. induction n as [|n IH]; intros a k Hk; [lia|]. cbn [ldn].
  rewrite testbit_byte_cons by (apply ld8_range || lia). destruct (Z.ltb_spec k 8).
  - rewrite Z.div_small, Z.mod_small by lia. do 2 f_equal. lia.
  - rewrite IH by lia. replace k with ((k - 8) + 1 * 8) at 3 4 by lia.
    rewrite Z.div_add, Z_mod_plus_full by lia. do 2 f_equal. lia.
Qed.

#[export] Hint Rewrite ld8_st8_eq ldn_stn_eq length_ld_bytes : uix.
#[export] Hint Resolve ld8_range wrap8_range wrap16_range wrap32_range wrap64_range : uix.
