(* ===== verification/Lib.v ===== *)
(** * Freestanding libc ([core/lib.c])

    The memory and string routines of the kernel over the byte memory of the
    prelude, and the number formatting used by [kprintf].  A routine that scans
    for a terminating NUL takes a bound on the scan and returns [None] when the
    bound is reached first; [uix_utoa] returns [None] when it writes past the
    end of its local array [tmp[32]]. *)

From S2P Require Import Prelude.

Module Lib.

(** ** Definitions *)

Fixpoint memset (dst c : Z) (n : nat) (m : mem) : mem :=
  match n with
  | O => m
  | S n => memset (dst + 1) c n (st8 dst c m)
  end.

Fixpoint memcpy (dst src : Z) (n : nat) (m : mem) : mem :=
  match n with
  | O => m
  | S n => memcpy (dst + 1) (src + 1) n (st8 dst (ld8 m src) m)
  end.

(** [while (n--) *--d = *--s;] with [d] and [s] one past the end. *)
Fixpoint memmove_down (d s : Z) (n : nat) (m : mem) : mem :=
  match n with
  | O => m
  | S n => memmove_down (d - 1) (s - 1) n (st8 (d - 1) (ld8 m (s - 1)) m)
  end.

Definition memmove (dst src : Z) (n : nat) (m : mem) : mem :=
  if dst <? src then memcpy dst src n m
  else if src <? dst then memmove_down (dst + Z.of_nat n) (src + Z.of_nat n) n m
  else m.

Fixpoint memcmp (a b : Z) (n : nat) (m : mem) : Z :=
  match n with
  | O => 0
  | S n =>
      if negb (ld8 m a =? ld8 m b) then ld8 m a - ld8 m b
      else memcmp (a + 1) (b + 1) n m
  end.

Fixpoint strlen (fuel : nat) (s : Z) (m : mem) : option Z :=
  match fuel with
  | O => None
  | S fuel =>
      if ld8 m s =? 0 then Some 0
      else n ← strlen fuel (s + 1) m; Some (n + 1)
  end.

Fixpoint strcpy (fuel : nat) (dst src : Z) (m : mem) : option mem :=
  match fuel with
  | O => None
  | S fuel =>
      let c := ld8 m src in
      let m := st8 dst c m in
      if c =? 0 then Some m else strcpy fuel (dst + 1) (src + 1) m
  end.

(** The first loop of [strncpy], [while (n && ( *d++ = *src++)) n--;]: what is
    left of [n], the position of [d] and the memory. *)
Fixpoint strncpy_copy (n : nat) (d src : Z) (m : mem) : nat * Z * mem :=
  match n with
  | O => (O, d, m)
  | S n' =>
      let c := ld8 m src in
      let m := st8 d c m in
      if c =? 0 then (S n', d + 1, m)
      else strncpy_copy n' (d + 1) (src + 1) m
  end.

Definition strncpy (dst src : Z) (n : nat) (m : mem) : mem :=
  let '(n, d, m) := strncpy_copy n dst src m in memset d 0 n m.

Fixpoint strcmp (fuel : nat) (a b : Z) (m : mem) : option Z :=
  match fuel with
  | O => None
  | S fuel =>
      if negb (ld8 m a =? 0) && (ld8 m a =? ld8 m b)
      then strcmp fuel (a + 1) (b + 1) m
      else Some (ld8 m a - ld8 m b)
  end.

Fixpoint strncmp (a b : Z) (n : nat) (m : mem) : Z :=
  match n with
  | O => 0
  | S n =>
      if negb (ld8 m a =? 0) && (ld8 m a =? ld8 m b)
      then strncmp (a + 1) (b + 1) n m
      else ld8 m a - ld8 m b
  end.

(** The digit tables [ld] and [lu]: characters as bytes. *)
Definition lut_ld : list Z := [48; 49; 50; 51; 52; 53; 54; 55; 56; 57; 97; 98; 99; 100; 101; 102].
Definition lut_lu : list Z := [48; 49; 50; 51; 52; 53; 54; 55; 56; 57; 65; 66; 67; 68; 69; 70].
Definition lut (upper : bool) : list Z := if upper then lut_lu else lut_ld.

Definition TMP_SIZE : nat := 32.

(** [while (v) { tmp[i++] = lut[v % base]; v /= base; }]: [room] counts the
    free slots of [tmp]; the list holds the slots written, the last one first,
    which is the order [while (i--) *p++ = tmp[i];] reads them. *)
Fixpoint utoa_loop (room : nat) (v base : Z) (l : list Z) (tmp : list Z) : option (list Z) :=
  if v =? 0 then Some tmp
  else match room with
       | O => None
       | S room =>
           utoa_loop room (v / base) base l
             (default 0 (l !! Z.to_nat (v mod base)) :: tmp)
       end.

Definition utoa_chars (v base : Z) (upper : bool) : option (list Z) :=
  let base := if (base <? 2) || (16 <? base) then 10 else base in
  if v =? 0 then Some [48]
  else utoa_loop TMP_SIZE v base (lut upper) [].

Definition uix_utoa (v buf base : Z) (upper : bool) (m : mem) : option mem :=
  cs ← utoa_chars v base upper; Some (st_bytes buf (cs ++ [0]) m).

Definition uix_itoa (v buf base : Z) (m : mem) : option mem :=
  if (base =? 10) && (v <? 0)
  then uix_utoa (wrap64 (- (v + 1)) +w 1) (buf + 1) base false (st8 buf 45 m)
  else uix_utoa (wrap64 v) buf base false m.

(** ** Specifications *)

(** The NUL-terminated string [bs] is at [a]. *)
Fixpoint cstr (m : mem) (a : Z) (bs : list Z) : Prop :=
  match bs with
  | [] => ld8 m a = 0
  | b :: bs => ld8 m a = b ∧ b ≠ 0 ∧ cstr m (a + 1) bs
  end.

(** The value a digit character stands for, and a number written in a base. *)
Definition digit_val (c : Z) : Z :=
  if c <? 58 then c - 48 else if c <? 71 then c - 55 else c - 87.

Definition parse_num (base : Z) (cs : list Z) : Z :=
  foldl (λ acc c, acc * base + digit_val c) 0 cs.

(** ** Memory routines *)

Lemma ld8_memset dst c n m a :
  ld8 (memset dst c n m) a =
    if (dst <=? a) && (a <? dst + Z.of_nat n) then wrap8 c else ld8 m a.
Proof.
  revert dst m. induction n as [|n IH]; intros dst m.
  { simpl. case_zbool; simpl; try lia; done. }
  cbn [memset]. rewrite IH, ld8_st8. case_zbool; simpl; try lia; done.
Qed.

Lemma ld8_memset_in dst c n m a :
  dst ≤ a < dst + Z.of_nat n → ld8 (memset dst c n m) a = wrap8 c.
Proof. intros H. rewrite ld8_memset. case_zbool; simpl; done || lia. Qed.

Lemma ldn_memset_0 dst n m k a :
  dst ≤ a → a + Z.of_nat k ≤ dst + Z.of_nat n → ldn k (memset dst 0 n m) a = 0.
Proof.
  revert a. induction k as [|k IH]; intros a Ha Hk; [done|]. cbn [ldn].
  rewrite ld8_memset_in, IH by lia. done.
Qed.

(** Forward copying is right when the destination does not run into unread
    source bytes. *)
Lemma ld8_memcpy dst src n m a :
  dst ≤ src ∨ src + Z.of_nat n ≤ dst →
  ld8 (memcpy dst src n m) a =
    if (dst <=? a) && (a <? dst + Z.of_nat n) then ld8 m (src + (a - dst)) else ld8 m a.
Proof.
  revert dst src m. induction n as [|n IH]; intros dst src m H.
  { simpl. case_zbool; simpl; try lia; done. }
  cbn [memcpy]. rewrite IH by lia.
  case_zbool; simpl; try lia.
  - rewrite ld8_st8_ne by lia. f_equal. lia.
  - assert (dst = a) as -> by lia. rewrite ld8_st8_eq, wrap8_small by apply ld8_range.
    f_equal. lia.
  - rewrite ld8_st8_ne by lia. done.
  - rewrite ld8_st8_ne by lia. done.
Qed.

Lemma ld8_memmove_down d s n m a :
  s ≤ d →
  ld8 (memmove_down d s n m) a =
    if (d - Z.of_nat n <=? a) && (a <? d) then ld8 m (s + (a - d)) else ld8 m a.
Proof.
  revert d s m. induction n as [|n IH]; intros d s m H.
  { simpl. case_zbool; simpl; try lia; done. }
  cbn [memmove_down]. rewrite IH by lia.
  case_zbool; simpl; try lia.
  - destruct (decide (s = d)) as [->|].
    + rewrite ld8_st8. case_zbool; [lia|]. f_equal. lia.
    + rewrite ld8_st8_ne by lia. f_equal. lia.
  - rewrite ld8_st8_ne by lia. done.
  - assert (a = d - 1) as -> by lia. rewrite ld8_st8_eq, wrap8_small by apply ld8_range.
    f_equal. lia.
  - rewrite ld8_st8_ne by lia. done.
Qed.

Lemma memcmp_eq_0 a b n m :
  memcmp a b n m = 0 ↔ ld_bytes n m a = ld_bytes n m b.
Proof.
  revert a b. induction n as [|n IH]; intros a b; [done|]. cbn [memcmp ld_bytes].
  destruct (Z.eqb_spec (ld8 m a) (ld8 m b)) as [E|E]; simpl.
  - rewrite IH, E. split; [by intros ->|congruence].
  - split; [lia|congruence].
Qed.

(** ** Strings *)

Lemma strlen_cstr fuel m a bs :
  cstr m a bs → (length bs < fuel)%nat → strlen fuel a m = Some (Z.of_nat (length bs)).
Proof.
  revert a fuel. induction bs as [|b bs IH]; intros a [|fuel] H Hf; simpl in *; try lia.
  - by rewrite H.
  - destruct H as (-> & Hb & H). destruct (Z.eqb_spec b 0); [done|].
    rewrite (IH (a + 1)) by (done || lia). simpl. f_equal. lia.
Qed.

Lemma strcmp_cstr fuel m a b xs ys :
  cstr m a xs → cstr m b ys → (length xs < fuel)%nat →
  ∃ r, strcmp fuel a b m = Some r ∧ (r = 0 ↔ xs = ys).
Proof.
  revert a b ys fuel. induction xs as [|x xs IH]; intros a b ys [|fuel] Ha Hb Hf;
    simpl in *; try lia.
  - rewrite Ha. simpl. eexists. split; [done|]. destruct ys as [|y ys]; simpl in Hb.
    + rewrite Hb. done.
    + destruct Hb as (-> & ? & ?). split; [lia|done].
  - destruct Ha as (Hx & Hx0 & Ha). rewrite Hx.
    destruct (Z.eqb_spec x 0); [done|]. simpl.
    destruct ys as [|y ys]; simpl in Hb.
    + rewrite Hb. destruct (Z.eqb_spec x 0); [done|]. eexists. split; [done|].
      split; [lia|done].
    + destruct Hb as (Hy & Hy0 & Hb). rewrite Hy.
      destruct (Z.eqb_spec x y) as [->|Hxy].
      * destruct (IH (a + 1) (b + 1) ys fuel Ha Hb) as (r & Hr & Hiff); [lia|].
        exists r. split; [done|]. rewrite Hiff. split; congruence.
      * eexists. split; [done|]. split; [lia|congruence].
Qed.

Lemma cstr_st8_out m a bs d v :
  cstr m a bs → d < a ∨ a + Z.of_nat (length bs) < d → cstr (st8 d v m) a bs.
Proof.
  revert a. induction bs as [|x bs IH]; intros a H Hd; simpl in *.
  - by rewrite ld8_st8_ne by lia.
  - destruct H as (? & ? & ?). rewrite ld8_st8_ne by lia.
    split_and!; [done..|]. apply IH; [done|lia].
Qed.

(** The first loop of [strncpy] copies up to and including the NUL, but does
    not count the NUL: [n] still includes its slot. *)
Lemma strncpy_copy_spec n d src m bs :
  cstr m src bs → d + Z.of_nat n ≤ src ∨ src + Z.of_nat (length bs) < d →
  strncpy_copy n d src m =
    if decide (length bs < n)%nat
    then ((n - length bs)%nat, d + Z.of_nat (length bs) + 1, st_bytes d (bs ++ [0]) m)
    else (O, d + Z.of_nat n, st_bytes d (take n bs) m).
Proof.
  revert n d src m. induction bs as [|b bs IH]; intros [|n] d src m Hs Hd; simpl in Hs.
  - simpl. f_equal. f_equal. lia.
  - cbn [strncpy_copy]. rewrite Hs. simpl. f_equal. f_equal. lia.
  - simpl. f_equal. f_equal. lia.
  - destruct Hs as (Hb & Hb0 & Hs). cbn [strncpy_copy]. rewrite Hb.
    destruct (Z.eqb_spec b 0); [done|]. cbn [length] in Hd.
    rewrite (IH n (d + 1) (src + 1)); [|apply cstr_st8_out; [done|lia]|lia].
    cbn [length app take st_bytes].
    repeat case_decide; try lia; f_equal; [f_equal; lia|f_equal; lia].
Qed.

(** ** Numbers *)

Lemma lut_digit upper d :
  0 ≤ d < 16 → digit_val (default 0 (lut upper !! Z.to_nat d)) = d.
Proof.
  intros Hd.
  assert (∃ k, (k < 16)%nat ∧ d = Z.of_nat k) as (k & Hk & ->) by (exists (Z.to_nat d); lia).
  rewrite Nat2Z.id. clear Hd.
  do 16 (destruct k as [|k]; [by destruct upper|]). lia.
Qed.

(** The loop prepends the digits of [v], needing one slot for each. *)
Lemma utoa_loop_ok room v base upper tmp :
  2 ≤ base ≤ 16 → 0 ≤ v < base ^ Z.of_nat room →
  ∃ ds, utoa_loop room v base (lut upper) tmp = Some (ds ++ tmp) ∧
    parse_num base ds = v ∧ (length ds ≤ room)%nat.
Proof.
  revert v tmp. induction room as [|room IH]; intros v tmp Hb Hv.
  { assert (v = 0) as -> by (simpl in Hv; lia). exists []. done. }
  cbn [utoa_loop]. destruct (Z.eqb_spec v 0) as [->|Hv0].
  { exists []. split_and!; [done..|simpl; lia]. }
  rewrite Nat2Z.inj_succ, Z.pow_succ_r in Hv by lia.
  destruct (IH (v / base) (default 0 (lut upper !! Z.to_nat (v mod base)) :: tmp) Hb)
    as (ds & Hds & Hp & Hl).
  { split; [apply Z.div_pos; lia|]. apply Z.div_lt_upper_bound; lia. }
  exists (ds ++ [default 0 (lut upper !! Z.to_nat (v mod base))]).
  rewrite <-app_assoc. split_and!; [done| |rewrite length_app; simpl; lia].
  unfold parse_num in *. rewrite foldl_app, Hp. simpl.
  pose proof (Z.mod_pos_bound v base).
  rewrite lut_digit by lia. pose proof (Z.div_mod v base). lia.
Qed.

Lemma utoa_loop_overflow room v base l tmp :
  2 ≤ base → base ^ Z.of_nat room ≤ v → utoa_loop room v base l tmp = None.
Proof.
  revert v tmp. induction room as [|room IH]; intros v tmp Hb Hv; cbn [utoa_loop].
  - destruct (Z.eqb_spec v 0); [simpl in Hv; lia|done].
  - rewrite Nat2Z.inj_succ, Z.pow_succ_r in Hv by lia.
    assert (0 < base ^ Z.of_nat room) by (apply Z.pow_pos_nonneg; lia).
    destruct (Z.eqb_spec v 0); [nia|]. apply IH; [done|].
    apply Z.div_le_lower_bound; lia.
Qed.

(** ** Properties *)

(** C37 [memmove]: whatever the overlap of source and destination, the
    destination ends up with the bytes the source had before the call, and no
    byte outside the destination changes. *)
Theorem memmove_correct (dst src : Z) (n : nat) (m : mem) (a : Z) :
  ld8 (memmove dst src n m) a =
    if (dst <=? a) && (a <? dst + Z.of_nat n) then ld8 m (src + (a - dst)) else ld8 m a.
Proof.
  unfold memmove. destruct (Z.ltb_spec dst src); [apply ld8_memcpy; lia|].
  destruct (Z.ltb_spec src dst).
  - rewrite ld8_memmove_down by lia.
    replace (dst + Z.of_nat n - Z.of_nat n) with dst by lia.
    by replace (src + Z.of_nat n + (a - (dst + Z.of_nat n))) with (src + (a - dst)) by lia.
  - assert (dst = src) as -> by lia. replace (src + (a - src)) with a by lia.
    by destruct (_ && _).
Qed.

(** [strncpy] with a source shorter than [n]: the NUL copied by the first
    loop is not counted, so [n + 1] bytes are written and the byte just past
    the destination buffer is overwritten with 0. *)
Theorem strncpy_writes_past_end (dst src : Z) (n : nat) (m : mem) (bs : list Z) :
  cstr m src bs →
  (length bs < n)%nat →
  dst + Z.of_nat n < src ∨ src + Z.of_nat (length bs) < dst →
  ld8 (strncpy dst src n m) (dst + Z.of_nat n) = 0.
Proof.
  intros Hs Hn Hd. unfold strncpy. rewrite strncpy_copy_spec with (bs := bs) by (done || lia).
  rewrite decide_True by done. rewrite ld8_memset. case_zbool; simpl; try lia; done.
Qed.

Definition hi_mem : mem := st_bytes 100 [104; 105; 0] (st8 14 65 ∅).

Lemma strncpy_writes_past_end_witness :
  ld8 hi_mem 14 = 65 ∧ ld8 (strncpy 10 100 4 hi_mem) 14 = 0.
Proof.
  split; [reflexivity|].
  apply (strncpy_writes_past_end 10 100 4 hi_mem [104; 105]);
    [vm_compute; repeat split; discriminate|simpl; lia|simpl; lia].
Defined.

(** C38 [uix_utoa] round trip: for every 64-bit value and every base from 4 to
    16 the digits fit in [tmp[32]] and, read back in that base, give the value;
    they are followed by a NUL in the buffer. *)
Theorem utoa_roundtrip (v buf base : Z) (upper : bool) (m : mem) :
  4 ≤ base ≤ 16 → 0 ≤ v < 2 ^ 64 →
  ∃ cs m', uix_utoa v buf base upper m = Some m' ∧
    m' = st_bytes buf (cs ++ [0]) m ∧
    parse_num base cs = v ∧ (1 ≤ length cs ≤ 32)%nat.
Proof.
  intros Hb Hv. unfold uix_utoa, utoa_chars.
  destruct (Z.ltb_spec base 2); [lia|]. destruct (Z.ltb_spec 16 base); [lia|].
  cbn [orb]. destruct (Z.eqb_spec v 0) as [->|Hv0].
  { exists [48], (st_bytes buf ([48] ++ [0]) m). split_and!; [done..|simpl; lia|simpl; lia]. }
  assert (2 ^ 64 ≤ base ^ Z.of_nat TMP_SIZE) as Hp.
  { change (2 ^ 64) with (4 ^ 32). apply Z.pow_le_mono_l. lia. }
  destruct (utoa_loop_ok TMP_SIZE v base upper []) as (ds & Hds & Hn & Hl); [lia..|].
  rewrite app_nil_r in Hds. rewrite Hds. exists ds, (st_bytes buf (ds ++ [0]) m).
  split_and!; [done..| |done]. destruct ds; [by simpl in Hn|simpl; lia].
Qed.

Lemma utoa_roundtrip_witness :
  ∃ cs m', uix_utoa 255 10 16 true ∅ = Some m' ∧ m' = st_bytes 10 (cs ++ [0]) ∅ ∧
    parse_num 16 cs = 255 ∧ (1 ≤ length cs ≤ 32)%nat.
Proof. apply (utoa_roundtrip 255 10 16 true ∅); lia. Defined.

(** [uix_utoa] in base 2 or 3: a value of more than 32 digits overruns
    [tmp[32]]. *)
Theorem utoa_small_base_overruns (v buf base : Z) (upper : bool) (m : mem) :
  2 ≤ base ≤ 3 → base ^ 32 ≤ v → uix_utoa v buf base upper m = None.
Proof.
  intros Hb Hv. unfold uix_utoa, utoa_chars.
  destruct (Z.ltb_spec base 2); [lia|]. destruct (Z.ltb_spec 16 base); [lia|].
  assert (0 < base ^ 32) by (apply Z.pow_pos_nonneg; lia).
  cbn [orb]. destruct (Z.eqb_spec v 0); [lia|].
  by rewrite utoa_loop_overflow by (done || lia).
Qed.

Lemma utoa_small_base_overruns_witness : uix_utoa (2 ^ 32) 10 2 false ∅ = None.
Proof. apply (utoa_small_base_overruns (2 ^ 32) 10 2 false ∅); lia. Defined.

End Lib.
