(* ===== verification/Pmm.v ===== *)
(** * Physical memory manager ([core/memory/pmm.c])

    The state holds the physical memory itself, the boot information the
    manager reads ([boot_info()]), the static variables of the file and the
    console log.  The bitmap and the reference counts live in physical memory
    and are read and written through the direct map (HHDM), as in the code. *)

From S2P Require Import Prelude Lib.

Module Pmm.
Import Lib.

(** ** State *)

(** [struct limine_memmap_entry] *)
Record memmap_entry := MemmapEntry { base : Z; length_ : Z; type_ : Z }.

Definition LIMINE_MEMMAP_USABLE : Z := 0.

(** What the kernel writes on its console: calls of [kprintf] with their format
    and arguments, and single characters. *)
Inductive karg := KU (z : Z) | KS (s : string).
Inductive event := KPrintf (fmt : string) (args : list karg) | KPutc (c : Z).

Record pmm_st := PmmSt {
  memmap : list memmap_entry;
  hhdm : Z;
  pm : mem;
  out : list event;
  bitmap : Z;
  bitmap_len : Z;
  total_pages : Z;
  free_count : Z;
  bitmap_phys : Z;
  next_free_scan : Z;
  refcounts : Z;
  refcounts_pages : Z;
}.

Definition set_pm (m : mem) (s : pmm_st) : pmm_st :=
  PmmSt (memmap s) (hhdm s) m (out s) (bitmap s) (bitmap_len s) (total_pages s)
    (free_count s) (bitmap_phys s) (next_free_scan s) (refcounts s) (refcounts_pages s).
Definition set_out (o : list event) (s : pmm_st) : pmm_st :=
  PmmSt (memmap s) (hhdm s) (pm s) o (bitmap s) (bitmap_len s) (total_pages s)
    (free_count s) (bitmap_phys s) (next_free_scan s) (refcounts s) (refcounts_pages s).
Definition set_sizes (total len : Z) (s : pmm_st) : pmm_st :=
  PmmSt (memmap s) (hhdm s) (pm s) (out s) (bitmap s) len total
    (free_count s) (bitmap_phys s) (next_free_scan s) (refcounts s) (refcounts_pages s).
Definition set_bitmap (va pa : Z) (s : pmm_st) : pmm_st :=
  PmmSt (memmap s) (hhdm s) (pm s) (out s) va (bitmap_len s) (total_pages s)
    (free_count s) pa (next_free_scan s) (refcounts s) (refcounts_pages s).
Definition set_free_count (c : Z) (s : pmm_st) : pmm_st :=
  PmmSt (memmap s) (hhdm s) (pm s) (out s) (bitmap s) (bitmap_len s) (total_pages s)
    c (bitmap_phys s) (next_free_scan s) (refcounts s) (refcounts_pages s).
Definition set_next (n : Z) (s : pmm_st) : pmm_st :=
  PmmSt (memmap s) (hhdm s) (pm s) (out s) (bitmap s) (bitmap_len s) (total_pages s)
    (free_count s) (bitmap_phys s) n (refcounts s) (refcounts_pages s).
Definition set_refcounts (rc pages : Z) (s : pmm_st) : pmm_st :=
  PmmSt (memmap s) (hhdm s) (pm s) (out s) (bitmap s) (bitmap_len s) (total_pages s)
    (free_count s) (bitmap_phys s) (next_free_scan s) rc pages.

Definition kprintf (fmt : string) (args : list karg) : M pmm_st unit :=
  modify (λ s, set_out (out s ++ [KPrintf fmt args]) s).

(** ** Access through the direct map

    [hhdm + pa] is the kernel's pointer to physical address [pa].  A pointer
    below the direct map (in particular one computed from [NULL]) faults. *)

Definition pmm_phys_to_virt (s : pmm_st) (pa : Z) : Z := hhdm s +w pa.
Definition pmm_virt_to_phys (s : pmm_st) (va : Z) : Z := va -w hhdm s.

Definition in_hhdm (s : pmm_st) (va n : Z) : bool :=
  (hhdm s <=? va) && (va + n <=? 2 ^ 64).

Definition hload (n : nat) (va : Z) : M pmm_st Z := λ s,
  if in_hhdm s va (Z.of_nat n) then Ok (ldn n (pm s) (va - hhdm s)) s
  else Stop (Fault va) s.
Definition hstore (n : nat) (va v : Z) : M pmm_st unit := λ s,
  if in_hhdm s va (Z.of_nat n) then Ok tt (set_pm (stn n (va - hhdm s) v (pm s)) s)
  else Stop (Fault va) s.
Definition hmemset (va c n : Z) : M pmm_st unit := λ s,
  if in_hhdm s va n then Ok tt (set_pm (memset (va - hhdm s) c (Z.to_nat n) (pm s)) s)
  else Stop (Fault va) s.
Definition hmemcpy (dst src n : Z) : M pmm_st unit := λ s,
  if in_hhdm s dst n && in_hhdm s src n
  then Ok tt (set_pm (memcpy (dst - hhdm s) (src - hhdm s) (Z.to_nat n) (pm s)) s)
  else Stop (Fault dst) s.

(** ** Bitmap: 1 = free, 0 = used *)

Definition BM_WORD (i : Z) : Z := i ≫ 6.
Definition BM_BIT (i : Z) : Z := 1 ≪ (Z.land i 63).

Definition set_free (i : Z) : M pmm_st unit :=
  b ← gets bitmap;
  w ← hload 8 (b + 8 * BM_WORD i);
  hstore 8 (b + 8 * BM_WORD i) (Z.lor w (BM_BIT i)).

Definition set_used (i : Z) : M pmm_st unit :=
  b ← gets bitmap;
  w ← hload 8 (b + 8 * BM_WORD i);
  hstore 8 (b + 8 * BM_WORD i) (Z.land w (~w (BM_BIT i))).

Definition is_free (i : Z) : M pmm_st bool :=
  b ← gets bitmap;
  w ← hload 8 (b + 8 * BM_WORD i);
  mret (has w (BM_BIT i)).

(** ** Initialisation *)

Definition usable (e : memmap_entry) : bool := type_ e =? LIMINE_MEMMAP_USABLE.

(** The top of usable memory. *)
Definition max_pa_of (mm : list memmap_entry) : Z :=
  foldl (λ mx e, if usable e then
                   let top := base e +w length_ e in if mx <? top then top else mx
                 else mx) 0 mm.

(** The first usable region that can hold the bitmap; 0 when there is none. *)
Fixpoint find_bm_page (bm_pages : Z) (mm : list memmap_entry) : Z :=
  match mm with
  | [] => 0
  | e :: mm =>
      if usable e && ((bm_pages +w 1) *w UIX_PAGE_SIZE <=? length_ e) then base e
      else find_bm_page bm_pages mm
  end.

Fixpoint mark_usable (mm : list memmap_entry) : M pmm_st unit :=
  match mm with
  | [] => mret tt
  | e :: mm =>
      (if usable e then
         for_ (Z.to_nat (length_ e ≫ UIX_PAGE_SHIFT)) (base e ≫ UIX_PAGE_SHIFT)
           (λ p, set_free p ;; modify (λ s, set_free_count (free_count s +w 1) s))
       else mret tt) ;;
      mark_usable mm
  end.

Definition pmm_init : M pmm_st unit :=
  mm ← gets memmap;
  let max_pa := max_pa_of mm in
  let total := max_pa ≫ UIX_PAGE_SHIFT in
  modify (set_sizes total total) ;;
  let bm_bytes := (total +w 7) / 8 in
  let bm_pages := (bm_bytes +w UIX_PAGE_SIZE -w 1) / UIX_PAGE_SIZE in
  let bm_page := find_bm_page bm_pages mm in
  if bm_page =? 0 then panic "pmm: no usable memory for bitmap (%u pages)"
  else
  va ← gets (λ s, pmm_phys_to_virt s bm_page);
  modify (set_bitmap va bm_page) ;;
  hmemset va 0 bm_bytes ;;
  modify (set_free_count 0) ;;
  mark_usable mm ;;
  for_ (Z.to_nat bm_pages) 0
    (λ p, set_used ((bm_page ≫ UIX_PAGE_SHIFT) + p) ;;
          modify (λ s, set_free_count (free_count s -w 1) s)) ;;
  kprintf "[info] pmm: %u pages (%u MiB), bitmap %u KiB @ %p\n"
    [KU (wrap32 total); KU (wrap32 (total ≫ 8));
     KU (wrap32 ((total +w 7) / 8 / 1024)); KU bm_page].

(** ** Allocation *)

(** The loop of [pmm_alloc] with [k] iterations left, at offset [n]. *)
Fixpoint pmm_alloc_loop (k : nat) (n : Z) : M pmm_st Z :=
  match k with
  | O => mret 0
  | S k =>
      cur ← gets next_free_scan;
      len ← gets bitmap_len;
      let i := (cur +w n) mod len in
      free ← is_free i;
      if (free : bool) then
        set_used i ;;
        modify (set_next ((i +w 1) mod len)) ;;
        modify (λ s, set_free_count (free_count s -w 1) s) ;;
        mret (wrap64 (i ≪ UIX_PAGE_SHIFT))
      else pmm_alloc_loop k (n + 1)
  end.

Definition pmm_alloc : M pmm_st Z :=
  len ← gets bitmap_len; pmm_alloc_loop (Z.to_nat len) 0.

(** The end of the search at page [i]: the [n] pages up to [i] are taken. *)
Definition take_run (n i : Z) : M pmm_st Z :=
  let first := i -w n +w 1 in
  for_ (Z.to_nat (i + 1 - first)) first set_used ;;
  modify (λ s, set_free_count (free_count s -w n) s) ;;
  len ← gets bitmap_len;
  modify (set_next ((i +w 1) mod len)) ;;
  mret (wrap64 (first ≪ UIX_PAGE_SHIFT)).

(** The loop of [pmm_alloc_pages]: [k] iterations left, at page [i]. *)
Fixpoint pmm_alloc_pages_loop (n : Z) (k : nat) (i run : Z) : M pmm_st Z :=
  match k with
  | O => mret 0
  | S k =>
      free ← is_free i;
      if (free : bool) then
        let run := run +w 1 in
        if run =? n then take_run n i
        else pmm_alloc_pages_loop n k (i + 1) run
      else pmm_alloc_pages_loop n k (i + 1) 0
  end.

Definition pmm_alloc_pages (n : Z) : M pmm_st Z :=
  len ← gets bitmap_len; pmm_alloc_pages_loop n (Z.to_nat len) 0 0.

Definition pmm_free (page : Z) : M pmm_st unit :=
  let i := page ≫ UIX_PAGE_SHIFT in
  len ← gets bitmap_len;
  if len <=? i then panic "pmm: double free or bad page %p"
  else
    free ← is_free i;
    if (free : bool) then panic "pmm: double free or bad page %p"
    else set_free i ;; modify (λ s, set_free_count (free_count s +w 1) s).

Definition pmm_free_pages : M pmm_st Z := gets free_count.

(** ** Reference counts: one [u16] per page *)

Definition refcounts_grow : M pmm_st unit :=
  rc ← gets refcounts;
  if negb (rc =? 0) then mret tt
  else
    total ← gets total_pages;
    let need := (total *w 2 +w UIX_PAGE_SIZE -w 1) / UIX_PAGE_SIZE in
    pa ← pmm_alloc_pages need;
    va ← gets (λ s, pmm_phys_to_virt s pa);
    modify (set_refcounts va need) ;;
    hmemset va 0 (need *w UIX_PAGE_SIZE).

Definition pmm_ref (page : Z) : M pmm_st unit :=
  let i := page ≫ UIX_PAGE_SHIFT in
  total ← gets total_pages;
  if total <=? i then mret tt
  else
    refcounts_grow ;;
    rc ← gets refcounts;
    c ← hload 2 (rc + 2 * i);
    if c <? 0xFFFF then hstore 2 (rc + 2 * i) (c + 1) else mret tt.

Definition pmm_unref (page : Z) : M pmm_st unit :=
  let i := page ≫ UIX_PAGE_SHIFT in
  total ← gets total_pages;
  rc ← gets refcounts;
  if (total <=? i) || (rc =? 0) then mret tt
  else
    c ← hload 2 (rc + 2 * i);
    if 1 <? c then hstore 2 (rc + 2 * i) (c - 1)
    else hstore 2 (rc + 2 * i) 0 ;; pmm_free page.

Definition pmm_getref (page : Z) : M pmm_st Z :=
  let i := page ≫ UIX_PAGE_SHIFT in
  total ← gets total_pages;
  rc ← gets refcounts;
  if (total <=? i) || (rc =? 0) then mret 1
  else hload 2 (rc + 2 * i).

End Pmm.
