(* ===== verification/PmmFacts.v ===== *)
(** * Facts on the physical memory manager

    The abstract view of the manager is the set of free page numbers.  Every
    operation is proved to act on that set as its contract says, and the memory
    of a free page never overlaps the bitmap or the reference counts. *)

From S2P Require Import Prelude Lib Pmm.

Module PmmFacts.
Import Lib Pmm.

(** ** The abstract view *)

(** Address of the bitmap word that holds the bit of page [i]. *)
Definition bm_addr (s : pmm_st) (i : Z) : Z := bitmap_phys s + 8 * BM_WORD i.
Definition bm_bit (s : pmm_st) (i : Z) : bool :=
  Z.testbit (ld64 (pm s) (bm_addr s i)) (Z.land i 63).

(** Bytes of memory the bitmap uses. *)
Definition bm_size (len : Z) : Z := 8 * ((len + 63) / 64).

Definition free_set (s : pmm_st) : gset Z :=
  list_to_set (filter (λ i, bm_bit s i = true) (seqZ 0 (bitmap_len s))).

(** [m'] and [m] agree outside [lo, lo + n). *)
Definition eq_outside (lo n : Z) (m m' : mem) : Prop :=
  ∀ a, a < lo ∨ lo + n ≤ a → ld8 m' a = ld8 m a.

(** The page [p] does not meet the [n] bytes at [lo]. *)
Definition page_disjoint (p lo n : Z) : Prop :=
  (p + 1) * UIX_PAGE_SIZE ≤ lo ∨ lo + n ≤ p * UIX_PAGE_SIZE.

(** Bytes and physical address of the reference count array. *)
Definition rc_phys (s : pmm_st) : Z := refcounts s - hhdm s.
Definition rc_size (s : pmm_st) : Z := 2 * total_pages s.

Record wf_rc (s : pmm_st) : Prop := WfRc {
  rc_low : 0 ≤ rc_phys s;
  rc_window : refcounts s + rc_size s ≤ 2 ^ 64;
  rc_bitmap : rc_phys s + rc_size s ≤ bitmap_phys s ∨
              bitmap_phys s + bm_size (bitmap_len s) ≤ rc_phys s;
  rc_free : ∀ p, p ∈ free_set s → page_disjoint p (rc_phys s) (rc_size s);
}.

Record wf (s : pmm_st) : Prop := Wf {
  wf_hhdm : 0 < hhdm s;
  wf_bitmap : bitmap s = hhdm s + bitmap_phys s;
  wf_phys : 0 ≤ bitmap_phys s;
  wf_window : bitmap s + bm_size (bitmap_len s) ≤ 2 ^ 64;
  wf_len : 0 ≤ bitmap_len s < 2 ^ 52;
  wf_map : hhdm s + bitmap_len s * UIX_PAGE_SIZE ≤ 2 ^ 64;
  wf_total : total_pages s = bitmap_len s;
  wf_next : 0 ≤ next_free_scan s ∧ (bitmap_len s ≠ 0 → next_free_scan s < bitmap_len s);
  wf_count : free_count s = Z.of_nat (size (free_set s));
  wf_self : ∀ p, p ∈ free_set s → page_disjoint p (bitmap_phys s) (bm_size (bitmap_len s));
  wf_refs : refcounts s = 0 ∨ wf_rc s;
}.

(** What allocation may change: the bitmap, the count and the cursor. *)
Record frame (s s' : pmm_st) : Prop := Frame {
  fr_memmap : memmap s' = memmap s;
  fr_hhdm : hhdm s' = hhdm s;
  fr_out : out s' = out s;
  fr_bitmap : bitmap s' = bitmap s;
  fr_len : bitmap_len s' = bitmap_len s;
  fr_total : total_pages s' = total_pages s;
  fr_phys : bitmap_phys s' = bitmap_phys s;
  fr_rc : refcounts s' = refcounts s;
  fr_rcp : refcounts_pages s' = refcounts_pages s;
  fr_mem : eq_outside (bitmap_phys s) (bm_size (bitmap_len s)) (pm s) (pm s');
}.

(** The state with the bit of page [i] set to [b]. *)
Definition bm_upd (i : Z) (b : bool) (s : pmm_st) : pmm_st :=
  let w := ld64 (pm s) (bm_addr s i) in
  set_pm (st64 (bm_addr s i)
            (if b then Z.lor w (BM_BIT i) else Z.land w (~w (BM_BIT i))) (pm s)) s.

(** ** Bits of the bitmap *)

Lemma land63 i : 0 ≤ i → Z.land i 63 = i mod 64.
Proof. intros. change 63 with (Z.ones 6). by rewrite Z.land_ones. Qed.

Lemma land63_range i : 0 ≤ Z.land i 63 < 64.
Proof. change 63 with (Z.ones 6). rewrite Z.land_ones by lia. by apply Z.mod_pos_bound. Qed.

Lemma word_bit_inj i j :
  0 ≤ i → 0 ≤ j → BM_WORD i = BM_WORD j → Z.land i 63 = Z.land j 63 → i = j.
Proof.
  intros Hi Hj. unfold BM_WORD. rewrite !land63 by lia. rewrite !Z.shiftr_div_pow2 by lia.
  change (2 ^ 6) with 64. intros.
  pose proof (Z.div_mod i 64). pose proof (Z.div_mod j 64). lia.
Qed.

Lemma BM_BIT_range i : 0 ≤ BM_BIT i < 2 ^ 64.
Proof.
  unfold BM_BIT. pose proof (land63_range i). rewrite Z.shiftl_1_l.
  split; [lia|]. apply Z.pow_lt_mono_r; lia.
Qed.

Lemma wrap64_testbit z k : 0 ≤ k < 64 → Z.testbit (wrap64 z) k = Z.testbit z k.
Proof. intros. unfold wrap64. by rewrite Z.mod_pow2_bits_low by lia. Qed.

Lemma ld64_range m a : 0 ≤ ld64 m a < 2 ^ 64.
Proof. apply (ldn_range 8). Qed.

(** Values below [2 ^ 64] are closed under the two updates of a word. *)
Lemma below_bits z n : 0 ≤ z → 0 ≤ n → (∀ k, n ≤ k → Z.testbit z k = false) → z < 2 ^ n.
Proof.
  intros Hz Hn H. destruct (decide (z = 0)) as [->|Hz0]; [lia|].
  apply Z.log2_lt_pow2; [lia|]. apply Z.nle_gt. intros Hle.
  specialize (H (Z.log2 z) Hle). rewrite Z.bit_log2 in H by lia. done.
Qed.

Lemma bits_above z n k : 0 ≤ z < 2 ^ n → n ≤ k → Z.testbit z k = false.
Proof.
  intros Hz Hk. destruct (decide (z = 0)) as [->|]; [apply Z.bits_0|].
  apply Z.bits_above_log2; [lia|]. apply Z.lt_le_trans with n; [|done].
  apply Z.log2_lt_pow2; lia.
Qed.

Lemma lor_range a b n : 0 ≤ a < 2 ^ n → 0 ≤ b < 2 ^ n → 0 ≤ n → 0 ≤ Z.lor a b < 2 ^ n.
Proof.
  intros Ha Hb Hn. split; [apply Z.lor_nonneg; lia|].
  apply below_bits; [apply Z.lor_nonneg; lia|done|]. intros k Hk.
  by rewrite Z.lor_spec, !(bits_above _ n).
Qed.

Lemma land_range a b n : 0 ≤ a < 2 ^ n → 0 ≤ n → 0 ≤ Z.land a b < 2 ^ n.
Proof.
  intros Ha Hn. split; [apply Z.land_nonneg; lia|].
  apply below_bits; [apply Z.land_nonneg; lia|done|]. intros k Hk.
  by rewrite Z.land_spec, (bits_above _ n).
Qed.

Lemma bm_bit_upd i j b s :
  0 ≤ i → 0 ≤ j → bm_bit (bm_upd i b s) j = if j =? i then b else bm_bit s j.
Proof.
  intros Hi Hj. unfold bm_bit, bm_upd, bm_addr. cbn [pm set_pm bitmap_phys].
  pose proof (ld64_range (pm s) (bitmap_phys s + 8 * BM_WORD i)) as Hw.
  pose proof (BM_BIT_range i). pose proof (land63_range i). pose proof (land63_range j).
  destruct (decide (BM_WORD i = BM_WORD j)) as [Ew|Ew].
  - rewrite <-Ew.
    rewrite ld64_st64_eq; [|destruct b; [apply lor_range; lia|apply land_range; lia]].
    destruct (Z.eqb_spec j i) as [->|Hne].
    + destruct b.
      * rewrite Z.lor_spec. unfold BM_BIT. rewrite testbit_bit, Z.eqb_refl by lia.
        apply orb_true_r.
      * rewrite Z.land_spec, wrap64_testbit, Z.lnot_spec by lia. unfold BM_BIT.
        rewrite testbit_bit, Z.eqb_refl by lia. apply andb_false_r.
    + assert (Z.land j 63 ≠ Z.land i 63) as Hb by (intros E; apply Hne; by apply word_bit_inj).
      apply Z.eqb_neq in Hb. destruct b.
      * rewrite Z.lor_spec. unfold BM_BIT. rewrite testbit_bit, Hb by lia. apply orb_false_r.
      * rewrite Z.land_spec, wrap64_testbit, Z.lnot_spec by lia. unfold BM_BIT.
        rewrite testbit_bit, Hb by lia. apply andb_true_r.
  - rewrite ldn_stn_ne by lia. destruct (Z.eqb_spec j i) as [->|]; [done|done].
Qed.

(** Output changes nothing of the allocator. *)
Lemma wf_out o s : wf s → wf (set_out o s).
Proof. intros []. split; try done. destruct wf_refs0 as [?|[]]; [by left|right]. by split. Qed.

Lemma elem_of_free_set s i : i ∈ free_set s ↔ 0 ≤ i < bitmap_len s ∧ bm_bit s i = true.
Proof.
  unfold free_set. rewrite elem_of_list_to_set, list_elem_of_filter, elem_of_seqZ.
  split; intros [? ?]; split; done || lia.
Qed.

Lemma free_set_ext s s' :
  pm s' = pm s → bitmap_phys s' = bitmap_phys s → bitmap_len s' = bitmap_len s →
  free_set s' = free_set s.
Proof. intros Hm Hp Hl. unfold free_set, bm_bit, bm_addr. by rewrite Hm, Hp, Hl. Qed.

Lemma free_set_upd_used i s :
  0 ≤ i → free_set (bm_upd i false s) = free_set s ∖ {[i]}.
Proof.
  intros Hi. apply set_eq. intros j.
  rewrite elem_of_difference, elem_of_singleton, !elem_of_free_set.
  change (bitmap_len (bm_upd i false s)) with (bitmap_len s). split.
  - intros [Hj Hb]. rewrite bm_bit_upd in Hb by lia.
    destruct (Z.eqb_spec j i); [done|]. done.
  - intros [[Hj Hb] Hne]. split; [done|]. rewrite bm_bit_upd by lia.
    by destruct (Z.eqb_spec j i).
Qed.

Lemma free_set_upd_free i s :
  0 ≤ i < bitmap_len s → free_set (bm_upd i true s) = {[i]} ∪ free_set s.
Proof.
  intros Hi. apply set_eq. intros j.
  rewrite elem_of_union, elem_of_singleton, !elem_of_free_set.
  change (bitmap_len (bm_upd i true s)) with (bitmap_len s). split.
  - intros [Hj Hb]. rewrite bm_bit_upd in Hb by lia.
    destruct (Z.eqb_spec j i); [by left|by right].
  - intros [->|[Hj Hb]]; (split; [lia|]); rewrite bm_bit_upd by lia.
    + by rewrite Z.eqb_refl.
    + by destruct (Z.eqb_spec j i).
Qed.

(** The word of a page below [len] is inside the bitmap. *)
Lemma bm_word_bound len i : 0 ≤ i < len → 0 ≤ 8 * BM_WORD i ∧ 8 * BM_WORD i + 8 ≤ bm_size len.
Proof.
  intros Hi. unfold BM_WORD, bm_size. rewrite Z.shiftr_div_pow2 by lia. change (2 ^ 6) with 64.
  assert (0 ≤ i / 64) by (apply Z.div_pos; lia).
  assert (i / 64 + 1 ≤ (len + 63) / 64); [|lia].
  replace (i / 64 + 1) with ((i + 1 * 64) / 64) by (rewrite Z.div_add by lia; lia).
  apply Z.div_le_mono; lia.
Qed.

(** ** The bitmap operations *)

Section bitmap_ops.
Context (s : pmm_st) (i : Z).
Context (Hbm : bitmap s = hhdm s + bitmap_phys s) (Hph : 0 ≤ bitmap_phys s).
Context (Hwin : bitmap s + bm_size (bitmap_len s) ≤ 2 ^ 64).
Context (Hi : 0 ≤ i < bitmap_len s).

Lemma bm_in_hhdm : in_hhdm s (bitmap s + 8 * BM_WORD i) 8 = true.
Proof.
  pose proof (bm_word_bound _ _ Hi). unfold in_hhdm. apply andb_true_iff.
  split; apply Z.leb_le; lia.
Qed.

Lemma bm_ptr : bitmap s + 8 * BM_WORD i - hhdm s = bm_addr s i.
Proof. unfold bm_addr. lia. Qed.

Lemma is_free_run : is_free i s = Ok (bm_bit s i) s.
Proof.
  unfold is_free, gets, hload, mbind, M_bind. change (Z.of_nat 8) with 8.
  rewrite bm_in_hhdm, bm_ptr. unfold mret, M_ret, BM_BIT.
  rewrite has_bit by (pose proof (land63_range i); lia). done.
Qed.

Lemma set_used_run : set_used i s = Ok tt (bm_upd i false s).
Proof.
  unfold set_used, gets, hload, hstore, mbind, M_bind. change (Z.of_nat 8) with 8.
  rewrite bm_in_hhdm. cbn beta iota. by rewrite bm_in_hhdm, bm_ptr.
Qed.

Lemma set_free_run : set_free i s = Ok tt (bm_upd i true s).
Proof.
  unfold set_free, gets, hload, hstore, mbind, M_bind. change (Z.of_nat 8) with 8.
  rewrite bm_in_hhdm. cbn beta iota. by rewrite bm_in_hhdm, bm_ptr.
Qed.

Lemma bm_upd_mem b : eq_outside (bitmap_phys s) (bm_size (bitmap_len s)) (pm s) (pm (bm_upd i b s)).
Proof.
  intros a Ha. unfold bm_upd. cbn [pm set_pm]. apply ld8_stn_out.
  pose proof (bm_word_bound _ _ Hi). unfold bm_addr. lia.
Qed.
End bitmap_ops.

Global Instance frame_refl : Reflexive frame.
Proof. intros s. by split. Qed.

Global Instance frame_trans : Transitive frame.
Proof.
  intros s1 s2 s3 H1 H2. destruct H1, H2. split; try congruence.
  intros a Ha. rewrite fr_mem1 by (by rewrite fr_phys0, fr_len0). by apply fr_mem0.
Qed.


Lemma frame_geom s s' :
  frame s s' → bitmap s = hhdm s + bitmap_phys s → 0 ≤ bitmap_phys s →
  bitmap s + bm_size (bitmap_len s) ≤ 2 ^ 64 →
  bitmap s' = hhdm s' + bitmap_phys s' ∧ 0 ≤ bitmap_phys s' ∧
  bitmap s' + bm_size (bitmap_len s') ≤ 2 ^ 64.
Proof. intros [] ???. split_and!; congruence. Qed.

Lemma frame_bm_upd s i b : 0 ≤ i < bitmap_len s → frame s (bm_upd i b s).
Proof. intros Hi. split; try done. by apply bm_upd_mem. Qed.

(** ** Preservation of the invariant *)

Lemma size_free_set s : 0 ≤ bitmap_len s → Z.of_nat (size (free_set s)) ≤ bitmap_len s.
Proof.
  intros H. unfold free_set. rewrite size_list_to_set.
  - pose proof (length_filter (λ i, bm_bit s i = true) (seqZ 0 (bitmap_len s))) as Hl.
    rewrite length_seqZ in Hl. lia.
  - by apply NoDup_filter, NoDup_seqZ.
Qed.

(** A page that may be given back: allocated, and not one of the manager's own. *)
Record client_page (s : pmm_st) (p : Z) : Prop := ClientPage {
  cp_range : 0 ≤ p < bitmap_len s;
  cp_used : p ∉ free_set s;
  cp_bitmap : page_disjoint p (bitmap_phys s) (bm_size (bitmap_len s));
  cp_rc : refcounts s ≠ 0 → page_disjoint p (rc_phys s) (rc_size s);
}.

Lemma wf_frame s s' :
  wf s → frame s s' →
  0 ≤ next_free_scan s' ∧ (bitmap_len s ≠ 0 → next_free_scan s' < bitmap_len s) →
  free_count s' = Z.of_nat (size (free_set s')) →
  (∀ p, p ∈ free_set s' → p ∈ free_set s ∨ client_page s p) →
  wf s'.
Proof.
  intros [] [] Hn Hc Hf. split; rewrite ?fr_hhdm0, ?fr_bitmap0, ?fr_phys0, ?fr_len0, ?fr_total0; try done.
  - intros p Hp. destruct (Hf p Hp) as [?|[]]; auto.
  - destruct wf_refs0 as [H0|[]]; [left; congruence|right].
    split; unfold rc_phys, rc_size in *;
      rewrite ?fr_hhdm0, ?fr_rc0, ?fr_total0, ?fr_phys0, ?fr_len0; try done.
    intros p Hp. destruct (Hf p Hp) as [?|[]]; [auto|].
    apply cp_rc0. unfold rc_phys in *. lia.
Qed.

Lemma size_diff_elem (X : gset Z) i :
  i ∈ X → Z.of_nat (size (X ∖ {[i]})) = Z.of_nat (size X) - 1.
Proof.
  intros Hi. rewrite size_difference by set_solver. rewrite size_singleton.
  assert (size X ≠ 0%nat); [|lia]. rewrite size_non_empty_iff. set_solver.
Qed.

Lemma size_union_elem (X : gset Z) i :
  i ∉ X → Z.of_nat (size ({[i]} ∪ X)) = Z.of_nat (size X) + 1.
Proof. intros Hi. rewrite size_union by set_solver. rewrite size_singleton. lia. Qed.

Definition range_set (lo n : Z) : gset Z := list_to_set (seqZ lo n).

Lemma elem_of_range_set lo n i : i ∈ range_set lo n ↔ lo ≤ i < lo + n.
Proof. unfold range_set. by rewrite elem_of_list_to_set, elem_of_seqZ. Qed.

Lemma size_range_set lo n : 0 ≤ n → Z.of_nat (size (range_set lo n)) = n.
Proof.
  intros. unfold range_set. rewrite size_list_to_set by apply NoDup_seqZ.
  rewrite length_seqZ. lia.
Qed.

(** ** Single pages *)

Lemma page_addr i : 0 ≤ i < 2 ^ 52 → wrap64 (i ≪ UIX_PAGE_SHIFT) = i * UIX_PAGE_SIZE.
Proof.
  intros Hi. rewrite Z.shiftl_mul_pow2 by done. change (2 ^ UIX_PAGE_SHIFT) with 4096.
  unfold UIX_PAGE_SIZE. apply wrap64_small. lia.
Qed.

Lemma page_index i : (i * UIX_PAGE_SIZE) ≫ UIX_PAGE_SHIFT = i.
Proof.
  rewrite Z.shiftr_div_pow2 by done. change (2 ^ UIX_PAGE_SHIFT) with UIX_PAGE_SIZE.
  apply Z.div_mul. done.
Qed.

(** The state after handing out page [i]. *)
Definition taken (i : Z) (s : pmm_st) : pmm_st :=
  set_free_count (free_count s -w 1) (set_next ((i +w 1) mod bitmap_len s) (bm_upd i false s)).

Lemma wf_taken s i : wf s → i ∈ free_set s → wf (taken i s) ∧ frame s (taken i s) ∧
  free_set (taken i s) = free_set s ∖ {[i]} ∧ next_free_scan (taken i s) = (i + 1) mod bitmap_len s.
Proof.
  intros Hwf Hi. pose proof (proj1 (elem_of_free_set _ _) Hi) as [Hr _].
  destruct (frame_bm_upd s i false Hr).
  assert (free_set (taken i s) = free_set s ∖ {[i]}) as Hfs.
  { rewrite (free_set_ext (bm_upd i false s)) by reflexivity. apply free_set_upd_used. lia. }
  assert (frame s (taken i s)) as Hfr by (split; done).
  pose proof (wf_len _ Hwf). pose proof (size_free_set s).
  assert (wrap64 (i + 1) = i + 1) as Hw by (apply wrap64_small; lia).
  pose proof (Z.mod_pos_bound (i + 1) (bitmap_len s)).
  split_and!; [|done|done|by cbn; rewrite Hw].
  apply (wf_frame s); [done|done|cbn; rewrite Hw; lia| |intros p; rewrite Hfs, elem_of_difference; tauto].
  rewrite Hfs, size_diff_elem by done. cbn [free_count taken set_free_count].
  rewrite (wf_count _ Hwf), wrap64_small; [done|].
  pose proof (size_diff_elem _ _ Hi). lia.
Qed.

Lemma alloc_loop_spec s k n :
  wf s → n + Z.of_nat k = bitmap_len s → 0 ≤ n →
  (∀ m, 0 ≤ m < n → (next_free_scan s + m) mod bitmap_len s ∉ free_set s) →
  (pmm_alloc_loop k n s = Ok 0 s ∧
     ∀ m, 0 ≤ m < bitmap_len s → (next_free_scan s + m) mod bitmap_len s ∉ free_set s) ∨
  (∃ off, n ≤ off < bitmap_len s ∧
     let i := (next_free_scan s + off) mod bitmap_len s in
     i ∈ free_set s ∧ pmm_alloc_loop k n s = Ok (i * UIX_PAGE_SIZE) (taken i s) ∧
     ∀ m, 0 ≤ m < off → (next_free_scan s + m) mod bitmap_len s ∉ free_set s).
Proof.
  intros Hwf. revert n. induction k as [|k IH]; intros n Hk Hn Hnot.
  { left. split; [done|]. intros m Hm. apply Hnot. lia. }
  pose proof (wf_len _ Hwf). pose proof (wf_next _ Hwf).
  set (i := (next_free_scan s + n) mod bitmap_len s).
  assert (0 ≤ i < bitmap_len s) as Hi by (apply Z.mod_pos_bound; lia).
  assert (pmm_alloc_loop (S k) n s =
    if bm_bit s i then Ok (i * UIX_PAGE_SIZE) (taken i s) else pmm_alloc_loop k (n + 1) s) as ->.
  { cbn [pmm_alloc_loop]. unfold gets, mbind, M_bind.
    rewrite wrap64_small by lia. fold i.
    rewrite is_free_run by (apply Hwf || done). destruct (bm_bit s i) eqn:Eb; [|done].
    rewrite set_used_run by (apply Hwf || done). cbn.
    unfold mret, M_ret, taken. do 2 f_equal.
    apply page_addr. lia. }
  destruct (bm_bit s i) eqn:Eb.
  - right. exists n. split; [lia|]. fold i. split_and!; [|done|done].
    by apply elem_of_free_set.
  - destruct (IH (n + 1)) as [?|(off & ? & ?)]; [lia|lia| |by left|].
    + intros m Hm. destruct (decide (m = n)) as [->|]; [|apply Hnot; lia].
      fold i. rewrite elem_of_free_set. intros [? ?]. congruence.
    + right. exists off. split; [lia|done].
Qed.

Lemma cyclic_cover cur len i : 0 < len → 0 ≤ i < len → ∃ m, 0 ≤ m < len ∧ (cur + m) mod len = i.
Proof.
  intros Hl Hi. exists ((i - cur) mod len). split; [by apply Z.mod_pos_bound|].
  rewrite Zplus_mod_idemp_r. replace (cur + (i - cur)) with i by lia. by apply Z.mod_small.
Qed.

Lemma pmm_alloc_cases s :
  wf s →
  (free_set s = ∅ ∧ pmm_alloc s = Ok 0 s) ∨
  (∃ off, 0 ≤ off < bitmap_len s ∧
     let i := (next_free_scan s + off) mod bitmap_len s in
     i ∈ free_set s ∧ pmm_alloc s = Ok (i * UIX_PAGE_SIZE) (taken i s) ∧
     ∀ m, 0 ≤ m < off → (next_free_scan s + m) mod bitmap_len s ∉ free_set s).
Proof.
  intros Hwf. pose proof (wf_len _ Hwf).
  destruct (alloc_loop_spec s (Z.to_nat (bitmap_len s)) 0 Hwf) as [[He Hno]|?]; [lia..| |].
  - left. split; [|done]. apply set_eq. intros i. split; [|set_solver].
    intros Hi. pose proof (proj1 (elem_of_free_set _ _) Hi) as [Hr _].
    destruct (cyclic_cover (next_free_scan s) (bitmap_len s) i) as (m & Hm & Em); [lia..|].
    exfalso. apply (Hno m Hm). by rewrite Em.
  - by right.
Qed.

(** ** Runs of pages *)

Lemma diff_range_0 (X : gset Z) lo : X ∖ range_set lo 0 = X.
Proof.
  apply set_eq. intros p. rewrite elem_of_difference, elem_of_range_set.
  assert (¬ lo ≤ p < lo + 0) by lia. tauto.
Qed.

Lemma diff_range_S (X : gset Z) lo k :
  X ∖ {[lo]} ∖ range_set (lo + 1) (Z.of_nat k) = X ∖ range_set lo (Z.of_nat (S k)).
Proof.
  apply set_eq. intros p.
  rewrite !elem_of_difference, elem_of_singleton, !elem_of_range_set.
  assert (p ≠ lo ∧ ¬ (lo + 1 ≤ p < lo + 1 + Z.of_nat k) ↔
          ¬ (lo ≤ p < lo + Z.of_nat (S k))) by lia. tauto.
Qed.

Lemma set_used_loop s lo k :
  wf s → 0 ≤ lo → lo + Z.of_nat k ≤ bitmap_len s →
  ∃ s', for_ k lo set_used s = Ok tt s' ∧ frame s s' ∧
    free_set s' = free_set s ∖ range_set lo (Z.of_nat k) ∧
    next_free_scan s' = next_free_scan s ∧ free_count s' = free_count s.
Proof.
  intros [] Hlo Hk.
  assert (∀ t, frame s t → ∀ k lo, 0 ≤ lo → lo + Z.of_nat k ≤ bitmap_len s →
    ∃ t', for_ k lo set_used t = Ok tt t' ∧ frame t t' ∧
      free_set t' = free_set t ∖ range_set lo (Z.of_nat k) ∧
      next_free_scan t' = next_free_scan t ∧ free_count t' = free_count t) as Hgen.
  { clear k lo Hlo Hk. intros t Hst k. revert t Hst.
    induction k as [|k IH]; intros t Hst lo Hlo Hk.
    - exists t. split_and!; [done|reflexivity| |done|done].
      symmetry. apply diff_range_0.
    - destruct (frame_geom s t) as (? & ? & ?); [done..|].
      assert (0 ≤ lo < bitmap_len t) by (rewrite (fr_len _ _ Hst); lia).
      destruct (IH (bm_upd lo false t)) with (lo := lo + 1) as (t' & Hrun & Hf & Hfs & ? & ?);
        [etrans; [done|by apply frame_bm_upd]|lia|lia|].
      exists t'. split_and!; [|by etrans; [apply frame_bm_upd|]| |done|done].
      + cbn [for_]. unfold mbind, M_bind. rewrite set_used_run by done. done.
      + rewrite Hfs, free_set_upd_used by lia. apply diff_range_S. }
  apply Hgen; [reflexivity|lia|lia].
Qed.

(** All of the pages [lo, lo + n) are free. *)
Definition run_free (s : pmm_st) (lo n : Z) : Prop := ∀ p, lo ≤ p < lo + n → p ∈ free_set s.

Lemma take_run_spec s n i :
  wf s → 1 ≤ n → n ≤ i + 1 → i < bitmap_len s → run_free s (i + 1 - n) n →
  ∃ s', take_run n i s = Ok ((i + 1 - n) * UIX_PAGE_SIZE) s' ∧
    wf s' ∧ frame s s' ∧ free_set s' = free_set s ∖ range_set (i + 1 - n) n.
Proof.
  intros Hwf Hn Hni Hi Hrf. pose proof (wf_len _ Hwf). set (first := i + 1 - n).
  assert (wrap64 (wrap64 (i - n) + 1) = first) as Hfirst.
  { unfold wrap64. rewrite Zplus_mod_idemp_l. rewrite Z.mod_small by lia. lia. }
  unfold take_run. rewrite Hfirst. cbv zeta.
  replace (Z.to_nat (i + 1 - first)) with (Z.to_nat n) by lia.
  destruct (set_used_loop s first (Z.to_nat n) Hwf) as (s1 & Hs1 & Hf1 & Hfs1 & Hn1 & Hc1);
    [lia..|]. rewrite Z2Nat.id in Hfs1 by lia.
  unfold mbind, M_bind. rewrite Hs1. unfold modify, gets. cbn.
  rewrite (wrap64_small (i + 1)), (fr_len _ _ Hf1) by lia.
  assert (range_set first n ⊆ free_set s) as Hsub.
  { intros p Hp. apply Hrf. by apply elem_of_range_set. }
  assert (Z.of_nat (size (free_set s1)) = Z.of_nat (size (free_set s)) - n) as Hsz.
  { rewrite Hfs1, size_difference by done. pose proof (subseteq_size _ _ Hsub).
    pose proof (size_range_set first n). lia. }
  eexists. split_and!; [unfold mret, M_ret; f_equal; apply page_addr; lia| | |by rewrite (free_set_ext s1)].
  - apply (wf_frame s); [done|destruct Hf1; split; done| | |].
    + cbn. pose proof (Z.mod_pos_bound (i + 1) (bitmap_len s)). lia.
    + rewrite (free_set_ext s1) by reflexivity. cbn [free_count set_next set_free_count].
      rewrite Hc1, (wf_count _ Hwf), Hsz. apply wrap64_small. pose proof (size_free_set s). lia.
    + intros p. rewrite (free_set_ext s1) by reflexivity.
      rewrite Hfs1, elem_of_difference. tauto.
  - destruct Hf1. split; done.
Qed.

Lemma alloc_pages_loop_spec s n k i run :
  wf s → 1 ≤ n → i + Z.of_nat k = bitmap_len s → 0 ≤ run < n → run ≤ i →
  run_free s (i - run) run →
  (i - run = 0 ∨ i - run - 1 ∉ free_set s) →
  (∀ f, 0 ≤ f → f + n ≤ i → ¬ run_free s f n) →
  (pmm_alloc_pages_loop n k i run s = Ok 0 s ∧
     ∀ f, 0 ≤ f → f + n ≤ bitmap_len s → ¬ run_free s f n) ∨
  (∃ first s', 0 ≤ first ∧ first + n ≤ bitmap_len s ∧ run_free s first n ∧
     (∀ f, 0 ≤ f < first → ¬ run_free s f n) ∧
     pmm_alloc_pages_loop n k i run s = Ok (first * UIX_PAGE_SIZE) s' ∧
     wf s' ∧ frame s s' ∧ free_set s' = free_set s ∖ range_set first n).
Proof.
  intros Hwf Hn. pose proof (wf_len _ Hwf).
  revert i run. induction k as [|k IH]; intros i run Hk Hrun Hle Hfree Hmax Hno.
  { left. split; [done|]. intros f ? ?. apply Hno; lia. }
  assert (0 ≤ i < bitmap_len s) as Hi by lia.
  cbn [pmm_alloc_pages_loop].
  pose proof (is_free_run s i (wf_bitmap _ Hwf) (wf_phys _ Hwf) (wf_window _ Hwf) Hi) as Hrd.
  rewrite (bind_Ok_eq _ _ _ _ _ Hrd). clear Hrd. destruct (bm_bit s i) eqn:Eb.
  - assert (i ∈ free_set s) as Hin by by apply elem_of_free_set.
    rewrite (wrap64_small (run + 1)) by lia.
    assert (run_free s (i - run) (run + 1)) as Hrf.
    { intros p Hp. destruct (decide (p = i)) as [->|]; [done|]. apply Hfree. lia. }
    destruct (Z.eqb_spec (run + 1) n) as [E|E].
    + right. cbv beta iota zeta.
      replace (i - run) with (i + 1 - n) in Hrf by lia. rewrite E in Hrf.
      destruct (take_run_spec s n i) as (s1 & ? & ? & ? & ?); [done|lia..|done|].
      exists (i + 1 - n), s1. split_and!; [lia|lia|done| |assumption..].
      intros f Hf. apply Hno; lia.
    + apply IH; [lia|lia|lia| | |].
      * by replace (i + 1 - (run + 1)) with (i - run) by lia.
      * destruct Hmax as [?|?]; [left; lia|right]. by replace (i + 1 - (run + 1)) with (i - run) by lia.
      * intros f Hf0 Hf Hr. destruct (decide (f + n ≤ i)); [by apply (Hno f)|].
        destruct Hmax as [?|Hb]; [lia|]. apply Hb, Hr. lia.
  - assert (i ∉ free_set s) as Hni by (rewrite elem_of_free_set, Eb; by intros []).
    apply IH; [lia|lia|lia| | |].
    + intros p Hp. lia.
    + right. by replace (i + 1 - 0 - 1) with i by lia.
    + intros f Hf0 Hf Hr. destruct (decide (f + n ≤ i)); [by apply (Hno f)|].
      apply Hni, Hr. lia.
Qed.

Lemma alloc_pages_zero s k i run :
  wf s → 0 ≤ i → i + Z.of_nat k = bitmap_len s → 0 ≤ run ≤ i → pmm_alloc_pages_loop 0 k i run s = Ok 0 s.
Proof.
  intros Hwf. pose proof (wf_len _ Hwf). revert i run.
  induction k as [|k IH]; intros i run Hi Hk Hr; [done|].
  cbn [pmm_alloc_pages_loop]. unfold mbind, M_bind.
  rewrite is_free_run by (apply Hwf || lia). destruct (bm_bit s i).
  - rewrite wrap64_small by lia. destruct (Z.eqb_spec (run + 1) 0); [lia|].
    apply IH; lia.
  - apply IH; lia.
Qed.

(** ** Freeing *)

(** The state after giving page [i] back. *)
Definition given (i : Z) (s : pmm_st) : pmm_st :=
  set_free_count (free_count s +w 1) (bm_upd i true s).

Lemma pmm_free_run s i :
  wf s → 0 ≤ i < bitmap_len s → i ∉ free_set s →
  pmm_free (i * UIX_PAGE_SIZE) s = Ok tt (given i s) ∧
  frame s (given i s) ∧ free_set (given i s) = {[i]} ∪ free_set s.
Proof.
  intros Hwf Hi Hni. split_and!.
  - unfold pmm_free, gets, mbind, M_bind. rewrite page_index.
    destruct (Z.leb_spec (bitmap_len s) i); [lia|].
    rewrite is_free_run by (apply Hwf || done).
    destruct (bm_bit s i) eqn:Eb; [by destruct Hni; apply elem_of_free_set|].
    by rewrite set_free_run by (apply Hwf || done).
  - destruct (frame_bm_upd s i true Hi). by split.
  - rewrite (free_set_ext (bm_upd i true s)) by reflexivity. by apply free_set_upd_free.
Qed.

Lemma wf_given s i : wf s → client_page s i → wf (given i s).
Proof.
  intros Hwf Hc. pose proof (cp_range _ _ Hc). pose proof (wf_len _ Hwf).
  destruct (pmm_free_run s i) as (_ & Hf & Hfs); [apply Hwf||apply Hc..|].
  pose proof (size_union_elem _ _ (cp_used _ _ Hc)) as Hsz.
  pose proof (size_free_set (given i s)) as Hb. rewrite Hfs in Hb.
  change (bitmap_len (given i s)) with (bitmap_len s) in Hb.
  apply (wf_frame s); [done|done|apply Hwf| |].
  - rewrite Hfs, Hsz. cbn. rewrite (wf_count _ Hwf). apply wrap64_small. lia.
  - intros p. rewrite Hfs, elem_of_union, elem_of_singleton. intros [->|?]; auto.
Qed.

Lemma pmm_free_stop s i :
  wf s → 0 ≤ i → bitmap_len s ≤ i ∨ i ∈ free_set s →
  pmm_free (i * UIX_PAGE_SIZE) s = Stop (Panic "pmm: double free or bad page %p") s.
Proof.
  intros Hwf Hi Hbad. unfold pmm_free, gets, mbind, M_bind. rewrite page_index.
  destruct (Z.leb_spec (bitmap_len s) i) as [|Hlt]; [done|].
  destruct Hbad as [?|Hin]; [lia|]. apply elem_of_free_set in Hin as [? Hb].
  rewrite is_free_run by (apply Hwf || done). by rewrite Hb.
Qed.

(** ** Reference counts *)

Definition rc_addr (s : pmm_st) (i : Z) : Z := rc_phys s + 2 * i.
Definition rc_get (s : pmm_st) (i : Z) : Z := ld16 (pm s) (rc_addr s i).
Definition rc_upd (i v : Z) (s : pmm_st) : pmm_st := set_pm (st16 (rc_addr s i) v (pm s)) s.

Lemma rc_get_range s i : 0 ≤ rc_get s i < 2 ^ 16.
Proof. apply (ldn_range 2). Qed.

Lemma rc_get_upd s i j v :
  0 ≤ v < 2 ^ 16 → rc_get (rc_upd i v s) j = if j =? i then v else rc_get s j.
Proof.
  intros Hv. unfold rc_get, rc_upd, rc_addr, rc_phys. cbn [pm set_pm hhdm refcounts].
  destruct (Z.eqb_spec j i) as [->|].
  - rewrite ldn_stn_eq. by apply Z.mod_small.
  - apply ldn_stn_ne. lia.
Qed.

(** Writes that leave the bytes of the bitmap alone change nothing. *)
Definition eq_bitmap (s : pmm_st) (m : mem) : Prop :=
  ∀ a, bitmap_phys s ≤ a < bitmap_phys s + bm_size (bitmap_len s) → ld8 m a = ld8 (pm s) a.

Lemma mem_free_set s m : eq_bitmap s m → free_set (set_pm m s) = free_set s.
Proof.
  intros Hm. apply set_eq. intros p. rewrite !elem_of_free_set.
  change (bitmap_len (set_pm m s)) with (bitmap_len s).
  assert (0 ≤ p < bitmap_len s → bm_bit (set_pm m s) p = bm_bit s p) as Hb.
  { intros Hp. unfold bm_bit. f_equal. apply ldn_ext. intros a Ha. apply Hm.
    change (bm_addr (set_pm m s) p) with (bm_addr s p) in Ha. unfold bm_addr in Ha.
    pose proof (bm_word_bound _ _ Hp). lia. }
  split; intros [Hp Hbit]; (split; [done|]); rewrite Hb in * by done; done.
Qed.

Lemma wf_mem s m : wf s → eq_bitmap s m → wf (set_pm m s).
Proof.
  intros Hwf Hm. pose proof (mem_free_set s m Hm) as Hfs.
  destruct Hwf. split; rewrite ?Hfs; try done.
  destruct wf_refs0 as [?|[]]; [by left|right]. split; rewrite ?Hfs; done.
Qed.

Lemma wf_rc_write s m :
  wf s → wf_rc s → eq_outside (rc_phys s) (rc_size s) (pm s) m →
  wf (set_pm m s) ∧ free_set (set_pm m s) = free_set s.
Proof.
  intros Hwf Hrc Hm. assert (eq_bitmap s m) as He.
  { intros a Ha. apply Hm. pose proof (rc_bitmap _ Hrc). lia. }
  split; [by apply wf_mem|by apply mem_free_set].
Qed.

Lemma rc_upd_mem s i v :
  0 ≤ i < total_pages s → eq_outside (rc_phys s) (rc_size s) (pm s) (pm (rc_upd i v s)).
Proof.
  intros Hi a Ha. unfold rc_upd. cbn [pm set_pm]. apply ld8_stn_out.
  unfold rc_addr. unfold rc_size in Ha. lia.
Qed.

Lemma rc_upd_wf s i v :
  wf s → wf_rc s → 0 ≤ i < total_pages s →
  wf (rc_upd i v s) ∧ free_set (rc_upd i v s) = free_set s.
Proof. intros Hwf Hrc Hi. apply (wf_rc_write s); [done|done|by apply (rc_upd_mem s i v)]. Qed.

Section refcount_ops.
Context (s : pmm_st) (i : Z).
Context (Hwf : wf s) (Hrc : wf_rc s) (Hnz : refcounts s ≠ 0) (Hi : 0 ≤ i < total_pages s).

Lemma rc_in_hhdm : in_hhdm s (refcounts s + 2 * i) (Z.of_nat 2) = true.
Proof.
  pose proof (rc_low _ Hrc). pose proof (rc_window _ Hrc). unfold rc_phys, rc_size in *.
  unfold in_hhdm. apply andb_true_iff. split; apply Z.leb_le; lia.
Qed.

Lemma rc_ptr : refcounts s + 2 * i - hhdm s = rc_addr s i.
Proof. unfold rc_addr, rc_phys. lia. Qed.

Lemma rc_load : hload 2 (refcounts s + 2 * i) s = Ok (rc_get s i) s.
Proof. unfold hload. by rewrite rc_in_hhdm, rc_ptr. Qed.

Lemma rc_store v : hstore 2 (refcounts s + 2 * i) v s = Ok tt (rc_upd i v s).
Proof. unfold hstore. by rewrite rc_in_hhdm, rc_ptr. Qed.

Lemma rc_index_tests : (total_pages s <=? i) = false ∧ (refcounts s =? 0) = false.
Proof. split; [apply Z.leb_gt; lia|by apply Z.eqb_neq]. Qed.

Lemma pmm_getref_run : pmm_getref (i * UIX_PAGE_SIZE) s = Ok (rc_get s i) s.
Proof.
  unfold pmm_getref, gets, mbind, M_bind. rewrite page_index.
  destruct rc_index_tests as [-> ->]. apply rc_load.
Qed.

Lemma pmm_ref_run :
  pmm_ref (i * UIX_PAGE_SIZE) s =
    Ok tt (if rc_get s i <? 0xFFFF then rc_upd i (rc_get s i + 1) s else s).
Proof.
  unfold pmm_ref, refcounts_grow, gets, mbind, M_bind. rewrite page_index.
  destruct rc_index_tests as [-> ->]. cbn [negb]. unfold mret at 1, M_ret at 1.
  rewrite rc_load. case_zbool; [apply rc_store|done].
Qed.

Lemma pmm_unref_run :
  pmm_unref (i * UIX_PAGE_SIZE) s =
    if 1 <? rc_get s i then Ok tt (rc_upd i (rc_get s i - 1) s)
    else pmm_free (i * UIX_PAGE_SIZE) (rc_upd i 0 s).
Proof.
  unfold pmm_unref. unfold gets at 1 2. unfold mbind, M_bind. rewrite page_index.
  destruct rc_index_tests as [-> ->]. cbn [orb]. rewrite rc_load.
  case_zbool; [apply rc_store|]. by rewrite rc_store.
Qed.
End refcount_ops.

End PmmFacts.
