(* ===== verification/PmmInit.v ===== *)
(** * Initialisation of the physical memory manager

    [pmm_init] on the memory map of the boot loader: the invariant holds
    afterwards and the free pages are the usable pages less those that hold the
    bitmap.  The lazily allocated reference counts are treated here too. *)

From S2P Require Import Prelude Lib Pmm PmmFacts.

Module PmmInit.
Import Lib Pmm PmmFacts.

(** ** What the boot protocol promises of the memory map

    Usable entries are page aligned, do not overlap one another, and lie in the
    part of physical memory the direct map covers. *)

Definition entry_pages (e : memmap_entry) : gset Z :=
  if usable e then range_set (base e ≫ UIX_PAGE_SHIFT) (length_ e ≫ UIX_PAGE_SHIFT) else ∅.

Definition usable_pages (mm : list memmap_entry) : gset Z := ⋃ (entry_pages <$> mm).

Record entry_ok (hh : Z) (e : memmap_entry) : Prop := EntryOk {
  eo_base : 0 ≤ base e ∧ base e mod UIX_PAGE_SIZE = 0;
  eo_len : 0 ≤ length_ e ∧ length_ e mod UIX_PAGE_SIZE = 0;
  eo_top : base e + length_ e < 2 ^ 60 ∧ hh + (base e + length_ e) ≤ 2 ^ 64;
}.

Record memmap_ok (hh : Z) (mm : list memmap_entry) : Prop := MemmapOk {
  mo_entries : Forall (λ e, usable e = true → entry_ok hh e) mm;
  mo_disjoint : ∀ i j e e', mm !! i = Some e → mm !! j = Some e' → i ≠ j →
    entry_pages e ## entry_pages e';
}.

(** The sizes [pmm_init] computes. *)
Definition init_pages (mm : list memmap_entry) : Z := max_pa_of mm ≫ UIX_PAGE_SHIFT.
Definition init_bm_pages (mm : list memmap_entry) : Z :=
  (((init_pages mm +w 7) / 8) +w UIX_PAGE_SIZE -w 1) / UIX_PAGE_SIZE.

(** ** The top of memory *)

Definition max_step (mx : Z) (e : memmap_entry) : Z :=
  if usable e then (let top := base e +w length_ e in if mx <? top then top else mx) else mx.

Lemma shift_page z : z ≫ UIX_PAGE_SHIFT = z / UIX_PAGE_SIZE.
Proof. by rewrite Z.shiftr_div_pow2. Qed.

Lemma max_pa_acc mm mx :
  mx ≤ foldl max_step mx mm ∧
  (∀ e, e ∈ mm → usable e = true → base e +w length_ e ≤ foldl max_step mx mm) ∧
  (foldl max_step mx mm = mx ∨
   ∃ e, e ∈ mm ∧ usable e = true ∧ foldl max_step mx mm = base e +w length_ e).
Proof.
  revert mx. induction mm as [|e mm IH]; intros mx; cbn [foldl].
  { split_and!; [lia| |by left]. intros e He. by apply not_elem_of_nil in He. }
  destruct (IH (max_step mx e)) as (Hle & Hall & Hsrc).
  assert (mx ≤ max_step mx e ∧ (usable e = true → base e +w length_ e ≤ max_step mx e) ∧
    (max_step mx e = mx ∨ usable e = true ∧ max_step mx e = base e +w length_ e)) as (Ha & Hb & Hc).
  { unfold max_step. destruct (usable e); [|split_and!; [lia|done|by left]].
    cbv zeta. case_zbool; split_and!; try lia; auto. }
  split_and!; [lia| |].
  - intros e' He' Hu. apply elem_of_cons in He' as [->|He']; [specialize (Hb Hu); lia|by apply Hall].
  - destruct Hsrc as [Hs|(e' & He' & ?)].
    + destruct Hc as [Hc|[? Hc]]; [left; congruence|right].
      exists e. split_and!; [apply list_elem_of_here|done|congruence].
    + right. exists e'. split; [by apply list_elem_of_further|done].
Qed.

Lemma find_bm_page_cases k mm :
  0 ≤ k < 2 ^ 40 →
  find_bm_page k mm = 0 ∨
  ∃ e, e ∈ mm ∧ usable e = true ∧ find_bm_page k mm = base e ∧ (k + 1) * UIX_PAGE_SIZE ≤ length_ e.
Proof.
  intros Hk. induction mm as [|e l IH]; [by left|]. cbn [find_bm_page].
  unfold UIX_PAGE_SIZE in *. rewrite (wrap64_small (k + 1)), (wrap64_small (_ * _)) by lia.
  destruct (usable e && _) eqn:E.
  - right. zify_bools. exists e. split_and!; [apply list_elem_of_here|done..].
  - destruct IH as [?|(e' & ? & ?)]; [by left|right].
    exists e'. split; [by apply list_elem_of_further|done].
Qed.

(** ** The two marking loops *)

Definition geom (s : pmm_st) : Prop :=
  bitmap s = hhdm s + bitmap_phys s ∧ 0 ≤ bitmap_phys s ∧
  bitmap s + bm_size (bitmap_len s) ≤ 2 ^ 64 ∧ 0 ≤ bitmap_len s < 2 ^ 52.

Definition counted (s : pmm_st) : Prop := free_count s = Z.of_nat (size (free_set s)).

Definition mark_free1 (p : Z) : M pmm_st unit :=
  set_free p ;; modify (λ s, set_free_count (free_count s +w 1) s).
Definition mark_used1 (b p : Z) : M pmm_st unit :=
  set_used (b + p) ;; modify (λ s, set_free_count (free_count s -w 1) s).

Lemma geom_frame s s' : frame s s' → geom s → geom s'.
Proof. intros [] (? & ? & ? & ?). unfold geom. split_and!; congruence || lia. Qed.

Lemma mark_free1_run s p :
  geom s → counted s → 0 ≤ p < bitmap_len s → p ∉ free_set s →
  ∃ s', mark_free1 p s = Ok tt s' ∧ frame s s' ∧ counted s' ∧
    free_set s' = {[p]} ∪ free_set s ∧ next_free_scan s' = next_free_scan s.
Proof.
  intros (? & ? & ? & ?) Hc Hp Hni. unfold mark_free1, mbind, M_bind.
  rewrite set_free_run by done. eexists. split; [done|].
  assert (free_set (set_free_count (free_count (bm_upd p true s) +w 1) (bm_upd p true s)) =
    {[p]} ∪ free_set s) as Hfs.
  { rewrite (free_set_ext (bm_upd p true s)) by reflexivity. by apply free_set_upd_free. }
  pose proof (size_union_elem _ _ Hni) as Hsz.
  pose proof (size_free_set (bm_upd p true s)) as Hb.
  rewrite free_set_upd_free in Hb by done. cbn [bitmap_len bm_upd set_pm] in Hb.
  split_and!; [destruct (frame_bm_upd s p true Hp); by split| |done|done].
  unfold counted. rewrite Hfs, Hsz. cbn [free_count set_free_count bm_upd set_pm].
  rewrite Hc. apply wrap64_small. lia.
Qed.

Lemma mark_used1_run s b p :
  geom s → counted s → b + p ∈ free_set s →
  ∃ s', mark_used1 b p s = Ok tt s' ∧ frame s s' ∧ counted s' ∧
    free_set s' = free_set s ∖ {[b + p]} ∧ next_free_scan s' = next_free_scan s.
Proof.
  intros (? & ? & ? & ?) Hc Hin. pose proof (proj1 (elem_of_free_set _ _) Hin) as [Hp _].
  unfold mark_used1, mbind, M_bind. rewrite set_used_run by done. eexists. split; [done|].
  assert (free_set (set_free_count (free_count (bm_upd (b + p) false s) -w 1) (bm_upd (b + p) false s)) =
    free_set s ∖ {[b + p]}) as Hfs.
  { rewrite (free_set_ext (bm_upd (b + p) false s)) by reflexivity. apply free_set_upd_used. lia. }
  pose proof (size_diff_elem _ _ Hin) as Hsz. pose proof (size_free_set s) as Hb.
  split_and!; [destruct (frame_bm_upd s (b + p) false Hp); by split| |done|done].
  unfold counted. rewrite Hfs, Hsz. cbn [free_count set_free_count bm_upd set_pm].
  rewrite Hc. apply wrap64_small. lia.
Qed.

Lemma range_set_0 lo : range_set lo 0 = ∅.
Proof.
  apply set_eq. intros p. rewrite elem_of_range_set. split; [lia|set_solver].
Qed.

Lemma range_set_S lo k : range_set lo (Z.of_nat (S k)) = {[lo]} ∪ range_set (lo + 1) (Z.of_nat k).
Proof.
  apply set_eq. intros p. rewrite elem_of_union, elem_of_singleton, !elem_of_range_set. lia.
Qed.

Lemma mark_free_loop k lo s :
  geom s → counted s → 0 ≤ lo → lo + Z.of_nat k ≤ bitmap_len s →
  range_set lo (Z.of_nat k) ## free_set s →
  ∃ s', for_ k lo mark_free1 s = Ok tt s' ∧ frame s s' ∧ counted s' ∧
    free_set s' = range_set lo (Z.of_nat k) ∪ free_set s ∧ next_free_scan s' = next_free_scan s.
Proof.
  revert lo s. induction k as [|k IH]; intros lo s Hg Hc Hlo Hk Hd.
  { exists s. split_and!; [done|reflexivity|done| |done].
    rewrite range_set_0. set_solver. }
  rewrite range_set_S in *.
  destruct (mark_free1_run s lo) as (s1 & Hr1 & Hf1 & Hc1 & Hs1 & Hn1); [done|done|lia|set_solver|].
  destruct (IH (lo + 1) s1) as (s2 & Hr2 & Hf2 & Hc2 & Hs2 & Hn2);
    [by eapply geom_frame|done|lia|rewrite (fr_len _ _ Hf1); lia| |].
  { rewrite Hs1. intros p Hp1 Hp2. apply elem_of_union in Hp2 as [Hp2|Hp2].
    - apply elem_of_singleton in Hp2 as ->. apply elem_of_range_set in Hp1. lia.
    - set_solver. }
  exists s2. split_and!; [|by etrans|done| |congruence].
  - cbn [for_]. by rewrite (bind_Ok_eq _ _ _ _ _ Hr1).
  - rewrite Hs2, Hs1. set_solver.
Qed.

Lemma mark_used_loop b k p s :
  geom s → counted s → range_set (b + p) (Z.of_nat k) ⊆ free_set s →
  ∃ s', for_ k p (mark_used1 b) s = Ok tt s' ∧ frame s s' ∧ counted s' ∧
    free_set s' = free_set s ∖ range_set (b + p) (Z.of_nat k) ∧ next_free_scan s' = next_free_scan s.
Proof.
  revert p s. induction k as [|k IH]; intros p s Hg Hc Hsub.
  { exists s. split_and!; [done|reflexivity|done| |done]. symmetry. apply diff_range_0. }
  rewrite range_set_S in Hsub.
  destruct (mark_used1_run s b p) as (s1 & Hr1 & Hf1 & Hc1 & Hs1 & Hn1); [done|done|set_solver|].
  destruct (IH (p + 1) s1) as (s2 & Hr2 & Hf2 & Hc2 & Hs2 & Hn2); [by eapply geom_frame|done| |].
  { rewrite Hs1. intros q Hq. replace (b + (p + 1)) with (b + p + 1) in Hq by lia.
    apply elem_of_difference. split; [set_solver|].
    rewrite elem_of_singleton. apply elem_of_range_set in Hq. lia. }
  exists s2. split_and!; [|by etrans|done| |congruence].
  - cbn [for_]. by rewrite (bind_Ok_eq _ _ _ _ _ Hr1).
  - rewrite Hs2, Hs1. replace (b + (p + 1)) with (b + p + 1) by lia. apply diff_range_S.
Qed.

(** All usable entries become free. *)
Lemma mark_usable_run l s :
  geom s → counted s →
  (∀ e p, e ∈ l → p ∈ entry_pages e → 0 ≤ p < bitmap_len s) →
  (∀ e, e ∈ l → usable e = true → 0 ≤ base e ∧ 0 ≤ length_ e) →
  (∀ e, e ∈ l → entry_pages e ## free_set s) →
  (∀ i j e e', l !! i = Some e → l !! j = Some e' → i ≠ j → entry_pages e ## entry_pages e') →
  ∃ s', mark_usable l s = Ok tt s' ∧ frame s s' ∧ counted s' ∧
    free_set s' = usable_pages l ∪ free_set s ∧ next_free_scan s' = next_free_scan s.
Proof.
  revert s. induction l as [|e l IH]; intros s Hg Hc Hr Hpos Hd Hpw.
  { exists s. split_and!; [done|reflexivity|done|unfold usable_pages; set_solver|done]. }
  assert (∃ s1, (if usable e then
      for_ (Z.to_nat (length_ e ≫ UIX_PAGE_SHIFT)) (base e ≫ UIX_PAGE_SHIFT) mark_free1
      else mret tt) s = Ok tt s1 ∧ frame s s1 ∧ counted s1 ∧
      free_set s1 = entry_pages e ∪ free_set s ∧ next_free_scan s1 = next_free_scan s)
    as (s1 & Hr1 & Hf1 & Hc1 & Hs1 & Hn1).
  { specialize (Hd e (list_elem_of_here _ _)). specialize (Hr e).
    specialize (Hpos e (list_elem_of_here _ _)). unfold entry_pages in *. destruct (usable e).
    - destruct Hpos as [Hb Hl]; [done|]. rewrite !shift_page in *.
      assert (0 ≤ length_ e / UIX_PAGE_SIZE) by by apply Z.div_pos.
      assert (0 ≤ base e / UIX_PAGE_SIZE) by by apply Z.div_pos.
      set (k := length_ e / UIX_PAGE_SIZE) in *. set (lo := base e / UIX_PAGE_SIZE) in *.
      assert (k = Z.of_nat (Z.to_nat k)) as Ek by lia. rewrite Ek in Hd, Hr |- *. rewrite Nat2Z.id.
      destruct (decide (k = 0)) as [->|].
      { exists s. split_and!; [done|reflexivity|done| |done].
        rewrite range_set_0. set_solver. }
      apply mark_free_loop; [done|done|lia| |done].
      specialize (Hr (lo + k - 1) (list_elem_of_here _ _)).
      rewrite elem_of_range_set in Hr. lia.
    - exists s. split_and!; [done|reflexivity|done|set_solver|done]. }
  destruct (IH s1) as (s2 & Hr2 & Hf2 & Hc2 & Hs2 & Hn2).
  - by eapply geom_frame.
  - done.
  - rewrite (fr_len _ _ Hf1). intros e' p He'. apply Hr. by apply list_elem_of_further.
  - intros e' He'. apply Hpos. by apply list_elem_of_further.
  - intros e' He'. rewrite Hs1. apply list_elem_of_lookup in He' as [i Hi].
    specialize (Hpw (S i) O e' e Hi eq_refl ltac:(lia)).
    specialize (Hd e' ltac:(apply list_elem_of_further, list_elem_of_lookup; eauto)). set_solver.
  - intros i j e1 e2 Hi Hj Hij. apply (Hpw (S i) (S j)); [done|done|lia].
  - exists s2. split_and!; [|by etrans|done| |congruence].
    + cbn [mark_usable]. by rewrite (bind_Ok_eq _ _ _ _ _ Hr1).
    + rewrite Hs2, Hs1. unfold usable_pages. simpl. set_solver.
Qed.

Section init.
Context (hh : Z) (mm : list memmap_entry) (Hmm : memmap_ok hh mm).
Context (Hhh : 0 < hh < 2 ^ 64).

Lemma entry_ok_of e : e ∈ mm → usable e = true → entry_ok hh e.
Proof. intros He. pose proof (mo_entries _ _ Hmm) as Hf. rewrite Forall_forall in Hf. by apply Hf. Qed.

Lemma max_pa_bounds :
  0 ≤ max_pa_of mm < 2 ^ 60 ∧ hh + max_pa_of mm ≤ 2 ^ 64 ∧
  (∀ e, e ∈ mm → usable e = true → base e + length_ e ≤ max_pa_of mm).
Proof.
  destruct (max_pa_acc mm 0) as (Hle & Hall & Hsrc).
  change (foldl max_step 0 mm) with (max_pa_of mm) in *.
  assert (∀ e, e ∈ mm → usable e = true → base e +w length_ e = base e + length_ e) as Hw.
  { intros e He Hu. destruct (entry_ok_of e He Hu). apply wrap64_small. lia. }
  split_and!; [lia| | |].
  - destruct Hsrc as [->|(e & He & Hu & ->)]; [lia|].
    rewrite Hw by done. destruct (entry_ok_of e He Hu). lia.
  - destruct Hsrc as [->|(e & He & Hu & ->)]; [lia|].
    rewrite Hw by done. destruct (entry_ok_of e He Hu). lia.
  - intros e He Hu. rewrite <-Hw by done. by apply Hall.
Qed.

Lemma init_pages_bounds :
  0 ≤ init_pages mm < 2 ^ 48 ∧ hh + init_pages mm * UIX_PAGE_SIZE ≤ 2 ^ 64 ∧
  (∀ e p, e ∈ mm → p ∈ entry_pages e → 0 ≤ p < init_pages mm).
Proof.
  destruct max_pa_bounds as (Hr & Hh & Hall). unfold init_pages. rewrite shift_page.
  unfold UIX_PAGE_SIZE. pose proof (Z.div_mod (max_pa_of mm) 4096).
  pose proof (Z.mod_pos_bound (max_pa_of mm) 4096).
  split_and!; [apply Z.div_pos; lia|apply Z.div_lt_upper_bound; lia|lia|].
  intros e p He Hp. unfold entry_pages in Hp. destruct (usable e) eqn:Hu; [|set_solver].
  apply elem_of_range_set in Hp. rewrite !shift_page in Hp. unfold UIX_PAGE_SIZE in *.
  destruct (entry_ok_of e He Hu) as [[? Hb] [? Hl] _]. unfold UIX_PAGE_SIZE in *.
  specialize (Hall e He Hu).
  pose proof (Z.div_mod (base e) 4096). pose proof (Z.div_mod (length_ e) 4096).
  split; lia.
Qed.

Lemma bm_bytes_bounds :
  let bm_bytes := (init_pages mm +w 7) / 8 in
  bm_bytes = (init_pages mm + 7) / 8 ∧ 0 ≤ bm_bytes ∧
  0 ≤ init_bm_pages mm < 2 ^ 40 ∧ bm_bytes ≤ init_bm_pages mm * UIX_PAGE_SIZE ∧
  bm_size (init_pages mm) ≤ init_bm_pages mm * UIX_PAGE_SIZE.
Proof.
  destruct init_pages_bounds as ((Hlo & Hhi) & _ & _). cbv zeta. unfold init_bm_pages.
  set (n := init_pages mm) in *. rewrite (wrap64_small (n + 7)) by lia.
  set (b := (n + 7) / 8).
  assert (8 * b ≤ n + 7 < 8 * b + 8) as Hb.
  { pose proof (Z.div_mod (n + 7) 8). pose proof (Z.mod_pos_bound (n + 7) 8). lia. }
  unfold UIX_PAGE_SIZE. rewrite (wrap64_small (b + 4096)), (wrap64_small (_ - 1)) by lia.
  set (k := (b + 4096 - 1) / 4096).
  assert (4096 * k ≤ b + 4095 < 4096 * k + 4096) as Hk.
  { pose proof (Z.div_mod (b + 4096 - 1) 4096). pose proof (Z.mod_pos_bound (b + 4096 - 1) 4096). lia. }
  split_and!; [done|lia|lia|lia|lia|].
  unfold bm_size. pose proof (Z.div_mod (n + 63) 64). pose proof (Z.mod_pos_bound (n + 63) 64). lia.
Qed.

(** The bitmap is placed at the base of a usable entry with room to spare. *)
Lemma find_bm_page_spec (Hnz : find_bm_page (init_bm_pages mm) mm ≠ 0) :
  ∃ e, e ∈ mm ∧ usable e = true ∧ find_bm_page (init_bm_pages mm) mm = base e ∧
    (init_bm_pages mm + 1) * UIX_PAGE_SIZE ≤ length_ e.
Proof.
  destruct bm_bytes_bounds as (_ & _ & Hk & _).
  destruct (find_bm_page_cases (init_bm_pages mm) mm) as [?|?]; [done..|].
  done.
Qed.

End init.

(** ** The whole of [pmm_init] *)

(** The state once the bitmap is placed and cleared. *)
Definition cleared (s : pmm_st) : pmm_st :=
  let mm := memmap s in
  let bm_page := find_bm_page (init_bm_pages mm) mm in
  let s1 := set_bitmap (pmm_phys_to_virt s bm_page) bm_page
              (set_sizes (init_pages mm) (init_pages mm) s) in
  set_free_count 0
    (set_pm (memset bm_page 0 (Z.to_nat ((init_pages mm +w 7) / 8)) (pm s1)) s1).

Section run.
Context (s : pmm_st).
Context (Hmm : memmap_ok (hhdm s) (memmap s)) (Hhh : 0 < hhdm s < 2 ^ 64).
Context (Hbp : find_bm_page (init_bm_pages (memmap s)) (memmap s) ≠ 0).

Lemma bm_page_ok :
  let bm := find_bm_page (init_bm_pages (memmap s)) (memmap s) in
  ∃ b, bm = b * UIX_PAGE_SIZE ∧ 0 ≤ b ∧
    b + init_bm_pages (memmap s) < init_pages (memmap s) ∧
    range_set b (init_bm_pages (memmap s)) ⊆ usable_pages (memmap s).
Proof.
  destruct (bm_bytes_bounds _ _ Hmm Hhh) as (_ & _ & Hk & _ & _).
  destruct (find_bm_page_spec _ _ Hmm Hhh Hbp) as (e & He & Hu & Heq & Hroom).
  destruct (init_pages_bounds _ _ Hmm Hhh) as (_ & _ & Hin).
  destruct (entry_ok_of _ _ Hmm e He Hu) as [[Hb Hbm] [Hl Hlm] Ht].
  cbv zeta. rewrite Heq. set (k := init_bm_pages (memmap s)) in *.
  assert (∀ p, base e / UIX_PAGE_SIZE ≤ p ≤ base e / UIX_PAGE_SIZE + k → p ∈ entry_pages e) as Hsub.
  { intros p Hp. unfold entry_pages. rewrite Hu, elem_of_range_set, !shift_page.
    unfold UIX_PAGE_SIZE in *.
    pose proof (Z.div_mod (length_ e) 4096). lia. }
  assert (0 ≤ base e / UIX_PAGE_SIZE) by (by apply Z.div_pos).
  exists (base e / UIX_PAGE_SIZE). split_and!; [|done| |].
  - unfold UIX_PAGE_SIZE in *. pose proof (Z.div_mod (base e) 4096). lia.
  - apply (Hin e); [done|]. apply Hsub. lia.
  - intros p Hp. apply elem_of_range_set in Hp. apply elem_of_union_list.
    exists (entry_pages e). split; [by apply list_elem_of_fmap_2|apply Hsub; lia].
Qed.

Lemma phys_to_virt_bm :
  pmm_phys_to_virt s (find_bm_page (init_bm_pages (memmap s)) (memmap s)) =
  hhdm s + find_bm_page (init_bm_pages (memmap s)) (memmap s).
Proof.
  destruct bm_page_ok as (b & -> & Hb & Hlt & _).
  destruct (init_pages_bounds _ _ Hmm Hhh) as (_ & Hw & _).
  destruct (bm_bytes_bounds _ _ Hmm Hhh) as (_ & _ & Hk & _ & _).
  unfold pmm_phys_to_virt. apply wrap64_small. unfold UIX_PAGE_SIZE in *. lia.
Qed.

Lemma cleared_geom : geom (cleared s).
Proof.
  destruct bm_page_ok as (b & Heq & Hb & Hlt & _).
  destruct (init_pages_bounds _ _ Hmm Hhh) as (Hp & Hw & _).
  destruct (bm_bytes_bounds _ _ Hmm Hhh) as (_ & _ & Hk & _ & Hsz).
  unfold geom, cleared.
  cbn [bitmap bitmap_phys bitmap_len hhdm set_free_count set_pm set_bitmap set_sizes].
  rewrite phys_to_virt_bm, Heq. unfold UIX_PAGE_SIZE in *. split_and!; lia.
Qed.

Lemma cleared_free : free_set (cleared s) = ∅.
Proof.
  apply set_eq. intros p. split; [|set_solver]. rewrite elem_of_free_set.
  change (bitmap_len (cleared s)) with (init_pages (memmap s)). intros [Hp Hbit]. exfalso.
  destruct (bm_bytes_bounds _ _ Hmm Hhh) as (Hbb & _). cbv zeta in Hbb.
  unfold bm_bit in Hbit. pose proof (land63_range p).
  rewrite ldn_testbit in Hbit by lia. unfold cleared, bm_addr, BM_WORD in Hbit.
  cbn [pm set_free_count set_pm bitmap_phys set_bitmap] in Hbit.
  rewrite ld8_memset, Hbb, land63, Z.shiftr_div_pow2 in Hbit by lia.
  change (2 ^ 6) with 64 in Hbit.
  assert (0 ≤ 8 * (p / 64) + (p mod 64) / 8 < (init_pages (memmap s) + 7) / 8) as Hr.
  { set (n := init_pages (memmap s)) in *.
    pose proof (Z.div_mod p 64). pose proof (Z.div_mod (p mod 64) 8).
    pose proof (Z.mod_pos_bound (p mod 64) 8). pose proof (Z.mod_pos_bound p 64).
    pose proof (Z.div_mod (n + 7) 8). pose proof (Z.mod_pos_bound (n + 7) 8). lia. }
  destruct (Z.leb_spec (find_bm_page (init_bm_pages (memmap s)) (memmap s))
    (find_bm_page (init_bm_pages (memmap s)) (memmap s) + 8 * (p / 64) + p mod 64 / 8)); [|lia].
  destruct (Z.ltb_spec (find_bm_page (init_bm_pages (memmap s)) (memmap s) + 8 * (p / 64) + p mod 64 / 8)
    (find_bm_page (init_bm_pages (memmap s)) (memmap s) +
     Z.of_nat (Z.to_nat ((init_pages (memmap s) + 7) / 8)))); [|lia].
  cbn in Hbit. by rewrite Z.bits_0 in Hbit.
Qed.

(** The log line at the end of [pmm_init]. *)
Definition init_log : event :=
  let mm := memmap s in
  KPrintf "[info] pmm: %u pages (%u MiB), bitmap %u KiB @ %p\n"
    [KU (wrap32 (init_pages mm)); KU (wrap32 (init_pages mm ≫ 8));
     KU (wrap32 ((init_pages mm +w 7) / 8 / 1024)); KU (find_bm_page (init_bm_pages mm) mm)].

Lemma pmm_init_steps :
  pmm_init s =
    (mark_usable (memmap s) ;;
     for_ (Z.to_nat (init_bm_pages (memmap s))) 0
       (mark_used1 (find_bm_page (init_bm_pages (memmap s)) (memmap s) ≫ UIX_PAGE_SHIFT)) ;;
     modify (λ s, set_out (out s ++ [init_log]) s)) (cleared s).
Proof.
  unfold pmm_init. rewrite (bind_Ok_eq _ _ _ (memmap s) s) by reflexivity. cbv zeta.
  fold (init_pages (memmap s)). fold (init_bm_pages (memmap s)).
  rewrite (bind_Ok_eq _ _ _ tt (set_sizes (init_pages (memmap s)) (init_pages (memmap s)) s))
    by reflexivity.
  rewrite (proj2 (Z.eqb_neq _ _) Hbp).
  rewrite (bind_Ok_eq _ _ _ (pmm_phys_to_virt s (find_bm_page (init_bm_pages (memmap s)) (memmap s))) 
    (set_sizes (init_pages (memmap s)) (init_pages (memmap s)) s)) by reflexivity.
  erewrite bind_Ok_eq by reflexivity.
  destruct (init_pages_bounds _ _ Hmm Hhh) as (Hp & Hw & Hin).
  destruct (bm_bytes_bounds _ _ Hmm Hhh) as (Hbb & Hb0 & Hk & Hbk & Hsz).
  destruct bm_page_ok as (b & Heq & Hb & Hlt & Hsub).
  erewrite bind_Ok_eq; [erewrite bind_Ok_eq by reflexivity; reflexivity|].
  unfold hmemset, in_hhdm. cbn [hhdm set_bitmap set_sizes pm].
  rewrite phys_to_virt_bm, Heq. unfold UIX_PAGE_SIZE in *.
  destruct (Z.leb_spec (hhdm s) (hhdm s + b * 4096)); [|lia].
  destruct (Z.leb_spec (hhdm s + b * 4096 + (init_pages (memmap s) +w 7) / 8) (2 ^ 64)); [|lia].
  cbn [andb]. by replace (hhdm s + b * 4096 - hhdm s) with (b * 4096) by lia.
Qed.

Lemma pmm_init_run (Hrc : refcounts s = 0) (Hnx : next_free_scan s = 0) :
  ∃ s', pmm_init s = Ok tt s' ∧ wf s' ∧ hhdm s' = hhdm s ∧
    bitmap_len s' = init_pages (memmap s) ∧ refcounts s' = 0 ∧
    free_set s' = usable_pages (memmap s) ∖
      range_set (find_bm_page (init_bm_pages (memmap s)) (memmap s) / UIX_PAGE_SIZE)
        (init_bm_pages (memmap s)).
Proof.
  destruct (init_pages_bounds _ _ Hmm Hhh) as (Hp & Hw & Hin).
  destruct (bm_bytes_bounds _ _ Hmm Hhh) as (Hbb & Hb0 & Hk & Hbk & Hsz).
  destruct bm_page_ok as (b & Heq & Hb & Hlt & Hsub).
  pose proof cleared_geom as Hg. pose proof cleared_free as Hf0.
  destruct (mark_usable_run (memmap s) (cleared s)) as (s2 & Hr2 & Hf2 & Hc2 & Hs2 & Hn2); [done|..].
  { unfold counted. by rewrite Hf0. }
  { apply Hin. }
  { intros e He Hu. destruct (entry_ok_of _ _ Hmm e He Hu) as [[] [] _]. done. }
  { intros e _. rewrite Hf0. set_solver. }
  { apply (mo_disjoint _ _ Hmm). }
  rewrite Hf0, (right_id_L ∅ (∪)) in Hs2.
  destruct (mark_used_loop b (Z.to_nat (init_bm_pages (memmap s))) 0 s2)
    as (s3 & Hr3 & Hf3 & Hc3 & Hs3 & Hn3); [by eapply geom_frame|done| |].
  { rewrite Z.add_0_r, Z2Nat.id, Hs2 by lia. done. }
  rewrite Z.add_0_r, Z2Nat.id, Hs2 in Hs3 by lia.
  assert (frame (cleared s) s3) as [] by by etrans.
  assert (geom s3) as (? & ? & ? & ?) by (apply (geom_frame (cleared s)); [by etrans|done]).
  exists (set_out (out s3 ++ [init_log]) s3).
  split_and!.
  - rewrite pmm_init_steps. rewrite (bind_Ok_eq _ _ _ _ _ Hr2).
    rewrite Heq, page_index. by rewrite (bind_Ok_eq _ _ _ _ _ Hr3).
  - split; rewrite ?(free_set_ext s3) by reflexivity;
      cbn [hhdm bitmap bitmap_phys bitmap_len total_pages next_free_scan free_count refcounts set_out];
      try done.
    + rewrite fr_hhdm0. change (hhdm (cleared s)) with (hhdm s). lia.
    + rewrite fr_hhdm0, fr_len0. done.
    + by rewrite fr_total0, fr_len0.
    + rewrite Hn3, Hn2, fr_len0. cbn. lia.
    + intros p. rewrite Hs3, fr_phys0, fr_len0, elem_of_difference, elem_of_range_set.
      change (bitmap_len (cleared s)) with (init_pages (memmap s)).
      change (bitmap_phys (cleared s)) with (find_bm_page (init_bm_pages (memmap s)) (memmap s)).
      intros [_ Hp']. rewrite Heq. unfold page_disjoint, UIX_PAGE_SIZE in *. lia.
    + left. rewrite fr_rc0. done.
  - done.
  - done.
  - cbn. rewrite fr_rc0. done.
  - rewrite (free_set_ext s3) by reflexivity. rewrite Hs3, Heq, Z.div_mul by done. done.
Qed.
End run.

End PmmInit.
