(* ===== verification/PmmProps.v ===== *)
(** * Properties of the physical memory manager

    Functional behaviour of every operation of [core/memory/pmm.c], the safety
    of any sequence of allocations and frees, and the behaviours at the edges:
    page zero and an exhausted memory. *)

From S2P Require Import Prelude Lib Pmm PmmFacts PmmInit.

Module PmmProps.
Import Lib Pmm PmmFacts PmmInit.

(** ** Sequences of operations

    A state together with the pages handed out and not given back. *)

Inductive pmm_run (s0 : pmm_st) : pmm_st → gset Z → Prop :=
  | pr_start : pmm_run s0 s0 ∅
  | pr_alloc s O r s' :
      pmm_run s0 s O → pmm_alloc s = Ok r s' → r ≠ 0 →
      pmm_run s0 s' ({[r / UIX_PAGE_SIZE]} ∪ O)
  | pr_alloc_pages s O n r s' :
      pmm_run s0 s O → 0 ≤ n → pmm_alloc_pages n s = Ok r s' → r ≠ 0 →
      pmm_run s0 s' (range_set (r / UIX_PAGE_SIZE) n ∪ O)
  | pr_free s O p s' :
      pmm_run s0 s O → p ∈ O → pmm_free (p * UIX_PAGE_SIZE) s = Ok tt s' →
      pmm_run s0 s' (O ∖ {[p]}).

(** Pages the reference counts need. *)
Definition rc_need (s : pmm_st) : Z :=
  (total_pages s *w 2 +w UIX_PAGE_SIZE -w 1) / UIX_PAGE_SIZE.

(** ** Shared lemmas *)

Lemma pmm_alloc_pages_cases s n :
  wf s → 0 ≤ n →
  (pmm_alloc_pages n s = Ok 0 s ∧
     (n = 0 ∨ ∀ f, 0 ≤ f → f + n ≤ bitmap_len s → ¬ run_free s f n)) ∨
  (1 ≤ n ∧ ∃ first s', 0 ≤ first ∧ first + n ≤ bitmap_len s ∧ run_free s first n ∧
     (∀ f, 0 ≤ f < first → ¬ run_free s f n) ∧
     pmm_alloc_pages n s = Ok (first * UIX_PAGE_SIZE) s' ∧
     wf s' ∧ frame s s' ∧ free_set s' = free_set s ∖ range_set first n).
Proof.
  intros Hwf Hn. pose proof (wf_len _ Hwf).
  unfold pmm_alloc_pages, gets, mbind, M_bind.
  destruct (decide (n = 0)) as [->|Hn0].
  { left. split; [|by left]. apply alloc_pages_zero; [done|lia..]. }
  destruct (alloc_pages_loop_spec s n (Z.to_nat (bitmap_len s)) 0 0 Hwf) as [[? ?]|?]; [lia..| | | | |].
  - intros p Hp. lia.
  - left. lia.
  - intros f ? ?. lia.
  - left. split; [done|by right].
  - right. split; [lia|done].
Qed.

Lemma client_frame s s' p :
  frame s s' → client_page s p → p ∉ free_set s' → client_page s' p.
Proof.
  intros Hf [] Hn. destruct Hf. split; unfold rc_phys, rc_size in *;
    rewrite ?fr_len0, ?fr_phys0, ?fr_rc0, ?fr_hhdm0, ?fr_total0; done.
Qed.

Lemma free_client s p s' :
  wf s → frame s s' → p ∈ free_set s → p ∉ free_set s' → client_page s' p.
Proof.
  intros Hwf Hf Hp Hn. pose proof (proj1 (elem_of_free_set _ _) Hp) as [Hr _].
  destruct Hf. split; unfold rc_phys, rc_size;
    rewrite ?fr_len0, ?fr_phys0, ?fr_rc0, ?fr_hhdm0, ?fr_total0; [done|done|by apply Hwf|].
  intros Hnz. destruct (wf_refs _ Hwf) as [?|Hrc]; [done|]. by apply Hrc.
Qed.

Lemma pmm_free_ok_inv s p s' :
  wf s → 0 ≤ p → pmm_free (p * UIX_PAGE_SIZE) s = Ok tt s' →
  (0 ≤ p < bitmap_len s) ∧ (p ∉ free_set s) ∧ s' = given p s.
Proof.
  intros Hwf Hp Hrun. destruct (decide ((p < bitmap_len s) ∧ p ∉ free_set s)) as [[? ?]|Hbad].
  - destruct (pmm_free_run s p) as (He & _ & _); [done..|]. split_and!; [done..|]. congruence.
  - rewrite pmm_free_stop in Hrun; [done|done|done|].
    destruct (decide (p ∈ free_set s)); [by right|left].
    apply Z.nlt_ge. intros ?. by apply Hbad.
Qed.

Lemma alloc_page_index i : (i * UIX_PAGE_SIZE) / UIX_PAGE_SIZE = i.
Proof. by apply Z.div_mul. Qed.

(** Along a run the invariant holds and the pages handed out are not free. *)
Lemma pmm_run_inv s0 s O : wf s0 → pmm_run s0 s O → wf s ∧ ∀ p, p ∈ O → client_page s p.
Proof.
  intros H0. induction 1 as [|s O r s' Hr [Hwf Hcl] Ha Hnz|s O n r s' Hr [Hwf Hcl] Hn Ha Hnz
    |s O p s' Hr [Hwf Hcl] Hp Hf].
  - split; [done|set_solver].
  - destruct (pmm_alloc_cases s Hwf) as [[_ He]|(off & _ & Hi & He & _)]; [congruence|].
    rewrite He in Ha. injection Ha as <- <-. rewrite alloc_page_index.
    destruct (wf_taken s _ Hwf Hi) as (Hw' & Hfr & Hfs & _). split; [done|].
    intros p [Hp|Hp]%elem_of_union.
    + apply elem_of_singleton in Hp as ->. apply (free_client s); [done..|]. rewrite Hfs. set_solver.
    + apply (client_frame s); [done|by apply Hcl|]. rewrite Hfs.
      pose proof (cp_used _ _ (Hcl p Hp)). set_solver.
  - destruct (pmm_alloc_pages_cases s n Hwf Hn) as [[He _]|(_ & first & s1 & ? & ? & Hrf & _ & He & Hw' & Hfr & Hfs)];
      [congruence|].
    rewrite He in Ha. injection Ha as <- <-. rewrite alloc_page_index. split; [done|].
    intros p [Hp|Hp]%elem_of_union.
    + apply (free_client s); [done|done|by apply Hrf, elem_of_range_set|]. rewrite Hfs. set_solver.
    + apply (client_frame s); [done|by apply Hcl|]. rewrite Hfs.
      pose proof (cp_used _ _ (Hcl p Hp)). set_solver.
  - pose proof (Hcl p Hp) as Hc. pose proof (cp_range _ _ Hc).
    destruct (pmm_free_ok_inv s p s' Hwf) as (_ & _ & ->); [lia|done|].
    destruct (pmm_free_run s p) as (_ & Hfr & Hfs); [done|lia|apply Hc|].
    split; [by apply wf_given|]. intros q [Hq Hne]%elem_of_difference.
    apply (client_frame s); [done|by apply Hcl|]. rewrite Hfs.
    pose proof (cp_used _ _ (Hcl q Hq)). set_solver.
Qed.

(** Pages only move between the free set and the pages handed out. *)
Lemma pmm_run_conserve s0 s O : wf s0 → pmm_run s0 s O → free_set s ∪ O = free_set s0.
Proof.
  intros H0. induction 1 as [|s O r s' Hr IH Ha Hnz|s O n r s' Hr IH Hn Ha Hnz|s O p s' Hr IH Hp Hf];
    [set_solver|destruct (pmm_run_inv s0 s O H0 Hr) as [Hwf Hcl]; rewrite <-IH..].
  - destruct (pmm_alloc_cases s Hwf) as [[_ He]|(off & _ & Hi & He & _)]; [congruence|].
    rewrite He in Ha. injection Ha as <- <-. rewrite alloc_page_index.
    destruct (wf_taken s _ Hwf Hi) as (_ & _ & Hfs & _). rewrite Hfs.
    rewrite (assoc_L (∪)), difference_union_L. set_solver.
  - destruct (pmm_alloc_pages_cases s n Hwf Hn) as [[He _]|(_ & first & s1 & ? & ? & Hrf & _ & He & _ & _ & Hfs)];
      [congruence|].
    rewrite He in Ha. injection Ha as <- <-. rewrite alloc_page_index, Hfs.
    rewrite (assoc_L (∪)), difference_union_L.
    assert (range_set first n ⊆ free_set s); [|set_solver].
    intros p Hp. by apply Hrf, elem_of_range_set.
  - pose proof (Hcl p Hp) as Hc. pose proof (cp_range _ _ Hc).
    destruct (pmm_free_ok_inv s p s' Hwf) as (_ & _ & ->); [lia|done|].
    destruct (pmm_free_run s p) as (_ & _ & Hfs); [done|lia|apply Hc|]. rewrite Hfs.
    assert (O ⊆ {[p]} ∪ O ∖ {[p]}); [|set_solver].
    intros q Hq. destruct (decide (q = p)); set_solver.
Qed.

(** A run of free pages does not meet a region each of its pages avoids. *)
Lemma run_disjoint lo n first k :
  0 < n → 0 ≤ k → (∀ p, first ≤ p < first + k → page_disjoint p lo n) →
  k = 0 ∨ (first + k) * UIX_PAGE_SIZE ≤ lo ∨ lo + n ≤ first * UIX_PAGE_SIZE.
Proof.
  intros Hn Hk. rewrite <-(Z2Nat.id k) by done. generalize (Z.to_nat k) as j. clear Hk.
  induction j as [|j IH]; intros H; [by left|]. right.
  unfold page_disjoint, UIX_PAGE_SIZE in *.
  assert (first * 4096 + Z.of_nat j * 4096 + 4096 ≤ lo ∨ lo + n ≤ first * 4096 + Z.of_nat j * 4096) as Hj.
  { specialize (H (first + Z.of_nat j) ltac:(lia)). lia. }
  destruct IH as [?|?]; [intros p Hp; apply H; lia|lia|lia].
Qed.

Lemma rc_need_bounds s :
  wf s → rc_need s = (2 * total_pages s + 4095) / 4096 ∧ 0 ≤ rc_need s ∧
  rc_size s ≤ rc_need s * UIX_PAGE_SIZE ∧ (0 < total_pages s → 1 ≤ rc_need s) ∧
  rc_need s ≤ bitmap_len s.
Proof.
  intros Hwf. pose proof (wf_len _ Hwf). pose proof (wf_total _ Hwf).
  unfold rc_need, rc_size, UIX_PAGE_SIZE.
  rewrite (wrap64_small (_ * 2)), (wrap64_small (_ + 4096)), (wrap64_small (_ - 1)) by lia.
  replace (total_pages s * 2 + 4096 - 1) with (2 * total_pages s + 4095) by lia.
  set (k := (2 * total_pages s + 4095) / 4096).
  assert (4096 * k ≤ 2 * total_pages s + 4095 < 4096 * k + 4096).
  { pose proof (Z.div_mod (2 * total_pages s + 4095) 4096).
    pose proof (Z.mod_pos_bound (2 * total_pages s + 4095) 4096). lia. }
  split_and!; lia.
Qed.

Lemma in_hhdm_pages s a n :
  wf s → 0 ≤ a → a + n ≤ bitmap_len s * UIX_PAGE_SIZE → in_hhdm s (hhdm s + a) n = true.
Proof.
  intros Hwf Ha Hn. pose proof (wf_map _ Hwf).
  unfold in_hhdm. apply andb_true_iff. split; apply Z.leb_le; lia.
Qed.

Lemma phys_to_virt_page s a :
  wf s → 0 ≤ a < bitmap_len s * UIX_PAGE_SIZE → pmm_phys_to_virt s a = hhdm s + a.
Proof.
  intros Hwf Ha. pose proof (wf_map _ Hwf). pose proof (wf_hhdm _ Hwf).
  unfold pmm_phys_to_virt. apply wrap64_small. lia.
Qed.

(** The state after the reference counts are placed at [a] and cleared. *)
Definition rc_placed (a : Z) (s : pmm_st) : pmm_st :=
  set_pm (memset a 0 (Z.to_nat (rc_need s * UIX_PAGE_SIZE)) (pm s))
    (set_refcounts (hhdm s + a) (rc_need s) s).

Lemma refcounts_grow_run s a s1 :
  wf s → refcounts s = 0 → 0 < total_pages s →
  pmm_alloc_pages (rc_need s) s = Ok a s1 → wf s1 → frame s s1 →
  0 ≤ a → a + rc_need s * UIX_PAGE_SIZE ≤ bitmap_len s * UIX_PAGE_SIZE →
  refcounts_grow s = Ok tt (rc_placed a s1).
Proof.
  intros Hwf Hrc Ht Ha Hwf1 Hfr Ha0 Ha1. unfold refcounts_grow.
  destruct (rc_need_bounds s Hwf) as (_ & Hk & _ & Hk1 & _).
  assert (rc_need s1 = rc_need s) as Hn by (unfold rc_need; by rewrite (fr_total _ _ Hfr)).
  rewrite (bind_Ok_eq _ _ _ (refcounts s) s) by reflexivity. rewrite Hrc. cbn [Z.eqb negb].
  rewrite (bind_Ok_eq _ _ _ (total_pages s) s) by reflexivity. fold (rc_need s).
  rewrite (bind_Ok_eq _ _ _ _ _ Ha).
  pose proof (wf_map _ Hwf). pose proof (wf_hhdm _ Hwf). pose proof (wf_len _ Hwf).
  rewrite (bind_Ok_eq _ _ _ (hhdm s1 + a) s1).
  2:{ unfold gets. f_equal. apply phys_to_virt_page; [done|].
      rewrite (fr_len _ _ Hfr). unfold UIX_PAGE_SIZE in *. lia. }
  rewrite (bind_Ok_eq _ _ _ tt (set_refcounts (hhdm s1 + a) (rc_need s) s1)) by reflexivity.
  unfold hmemset. rewrite wrap64_small by (unfold UIX_PAGE_SIZE in *; lia).
  change (in_hhdm (set_refcounts _ _ s1)) with (in_hhdm s1).
  rewrite in_hhdm_pages; [|done|done|by rewrite (fr_len _ _ Hfr)].
  unfold rc_placed. rewrite Hn. cbn [hhdm set_refcounts pm].
  by replace (hhdm s1 + a - hhdm s1) with a by lia.
Qed.

(** Placing the array in a run that was free keeps the invariant. *)
Lemma rc_placed_wf s first s1 :
  wf s → 0 < total_pages s → 0 ≤ first → first + rc_need s ≤ bitmap_len s →
  run_free s first (rc_need s) → refcounts s = 0 →
  wf s1 → frame s s1 → free_set s1 = free_set s ∖ range_set first (rc_need s) →
  wf (rc_placed (first * UIX_PAGE_SIZE) s1) ∧ wf_rc (rc_placed (first * UIX_PAGE_SIZE) s1) ∧
  free_set (rc_placed (first * UIX_PAGE_SIZE) s1) = free_set s1 ∧
  ∀ i, 0 ≤ i < total_pages s → rc_get (rc_placed (first * UIX_PAGE_SIZE) s1) i = 0.
Proof.
  intros Hwf Ht Hf0 Hf1 Hrf Hrc0 Hwf1 Hfr Hfs.
  destruct (rc_need_bounds s Hwf) as (_ & Hk & Hsz & Hk1 & _). specialize (Hk1 Ht).
  assert (rc_need s1 = rc_need s) as Hn by (unfold rc_need; by rewrite (fr_total _ _ Hfr)).
  set (a := first * UIX_PAGE_SIZE). set (t := set_refcounts (hhdm s1 + a) (rc_need s1) s1).
  pose proof (wf_len _ Hwf). pose proof (wf_total _ Hwf). pose proof (wf_map _ Hwf).
  assert (rc_phys t = a ∧ rc_size t = rc_size s) as [Hrp Hrs].
  { unfold rc_phys, rc_size. cbn. rewrite (fr_total _ _ Hfr). lia. }
  assert (0 < bm_size (bitmap_len s)) as Hbm.
  { unfold bm_size. pose proof (Z.div_mod (bitmap_len s + 63) 64).
    pose proof (Z.mod_pos_bound (bitmap_len s + 63) 64). lia. }
  assert (wf_rc t) as Hrct.
  { split; rewrite ?Hrp, ?Hrs.
    - unfold a, UIX_PAGE_SIZE. lia.
    - cbn. rewrite (fr_hhdm _ _ Hfr). unfold a, UIX_PAGE_SIZE in *. lia.
    - cbn [bitmap_phys bitmap_len t set_refcounts]. rewrite (fr_phys _ _ Hfr), (fr_len _ _ Hfr).
      destruct (run_disjoint (bitmap_phys s) (bm_size (bitmap_len s)) first (rc_need s))
        as [?|?]; [done|done| |lia|unfold a, UIX_PAGE_SIZE in *; lia].
      intros p Hp. by apply (wf_self _ Hwf), Hrf.
    - intros p. rewrite (free_set_ext s1) by reflexivity.
      rewrite Hfs, elem_of_difference, elem_of_range_set. intros [_ Hp].
      unfold page_disjoint, a, UIX_PAGE_SIZE in *. lia. }
  assert (wf t) as Hwt.
  { destruct Hwf1. split; rewrite ?(free_set_ext s1) by reflexivity; try done. by right. }
  assert (eq_bitmap t (memset a 0 (Z.to_nat (rc_need s1 * UIX_PAGE_SIZE)) (pm s1))) as Hm.
  { intros b Hb. rewrite ld8_memset, Hn. change (pm t) with (pm s1).
    cbn [bitmap_phys bitmap_len t set_refcounts] in Hb.
    rewrite (fr_phys _ _ Hfr), (fr_len _ _ Hfr) in Hb.
    destruct (run_disjoint (bitmap_phys s) (bm_size (bitmap_len s)) first (rc_need s))
      as [?|?]; [done|done| |lia|].
    { intros p Hp. by apply (wf_self _ Hwf), Hrf. }
    unfold a, UIX_PAGE_SIZE in *. case_zbool; cbn; lia || done. }
  pose proof (mem_free_set t _ Hm) as Hfst.
  split_and!.
  - by apply (wf_mem t).
  - destruct Hrct. split; try done.
    intros p Hp. apply rc_free0. by rewrite <-Hfst.
  - etrans; [apply Hfst|]. by apply free_set_ext.
  - intros i Hi. unfold rc_get, rc_addr. change (rc_phys (rc_placed a s1)) with (rc_phys t).
    rewrite Hrp. cbn [pm rc_placed set_pm]. rewrite Hn.
    unfold rc_size, UIX_PAGE_SIZE in *. apply ldn_memset_0; lia.
Qed.

(** ** A small machine: 256 KiB of usable memory at 4 KiB *)

Definition raw_st : pmm_st :=
  PmmSt [MemmapEntry 0x1000 0x40000 0; MemmapEntry 0x41000 0x1000 1]
    0xffff800000000000 ∅ [] 0 0 0 0 0 0 0 0.
Definition boot_st : pmm_st := match pmm_init raw_st with Ok _ s => s | Stop _ s => s end.

Lemma raw_memmap_ok : memmap_ok (hhdm raw_st) (memmap raw_st).
Proof.
  split.
  - repeat constructor; cbn; try done; intros; split; cbn; unfold UIX_PAGE_SIZE; done || lia.
  - intros [|[|i]] [|[|j]] e e' Hi Hj Hij; try done; cbn in *; simplify_eq; set_solver.
Qed.

Lemma boot_st_wf : wf boot_st ∧ refcounts boot_st = 0.
Proof.
  destruct (pmm_init_run raw_st raw_memmap_ok) as (s' & Hr & Hwf & _ & _ & Hrc & _);
    [split; reflexivity|vm_compute; discriminate|reflexivity|reflexivity|].
  unfold boot_st. rewrite Hr. split; assumption.
Qed.

(** ** Properties *)

(** C24 [pmm_init]: on a memory map that keeps the boot protocol's promises and
    has room for the bitmap, initialisation succeeds, establishes the
    invariant, and the free pages are exactly the usable pages except those
    that hold the bitmap; [free_count] is their number. *)
Theorem pmm_init_correct (s : pmm_st) :
  memmap_ok (hhdm s) (memmap s) → 0 < hhdm s < 2 ^ 64 →
  find_bm_page (init_bm_pages (memmap s)) (memmap s) ≠ 0 →
  refcounts s = 0 → next_free_scan s = 0 →
  ∃ s', pmm_init s = Ok tt s' ∧ wf s' ∧
    free_set s' = usable_pages (memmap s) ∖
      range_set (find_bm_page (init_bm_pages (memmap s)) (memmap s) / UIX_PAGE_SIZE)
        (init_bm_pages (memmap s)) ∧
    free_count s' = Z.of_nat (size (free_set s')).
Proof.
  intros Hmm Hh Hb Hr Hn.
  destruct (pmm_init_run s Hmm Hh Hb Hr Hn) as (s' & ? & Hwf & _ & _ & _ & ?).
  exists s'. split_and!; [done..|apply Hwf].
Qed.

Lemma pmm_init_correct_witness :
  ∃ s', pmm_init raw_st = Ok tt s' ∧ wf s' ∧
    free_set s' = usable_pages (memmap raw_st) ∖ range_set (4096 / UIX_PAGE_SIZE) 1 ∧
    free_count s' = Z.of_nat (size (free_set s')).
Proof.
  apply (pmm_init_correct raw_st);
    [apply raw_memmap_ok|split; reflexivity|vm_compute; discriminate|reflexivity|reflexivity].
Defined.

(** [pmm_alloc] refines "take the next free page from the cursor on": with no
    page free it returns 0 and changes nothing; otherwise it returns the first
    free page met going round from [next_free_scan], that page and only that
    page leaves the free set, and the cursor moves just past it. *)
Theorem pmm_alloc_correct (s : pmm_st) :
  wf s →
  (free_set s = ∅ ∧ pmm_alloc s = Ok 0 s) ∨
  (∃ off s', 0 ≤ off < bitmap_len s ∧
     let i := (next_free_scan s + off) mod bitmap_len s in
     i ∈ free_set s ∧
     (∀ m, 0 ≤ m < off → (next_free_scan s + m) mod bitmap_len s ∉ free_set s) ∧
     pmm_alloc s = Ok (i * UIX_PAGE_SIZE) s' ∧ wf s' ∧ frame s s' ∧
     free_set s' = free_set s ∖ {[i]} ∧ next_free_scan s' = (i + 1) mod bitmap_len s).
Proof.
  intros Hwf. destruct (pmm_alloc_cases s Hwf) as [?|(off & Hoff & Hi & He & Hno)]; [by left|right].
  eexists off, _. split; [done|]. cbv zeta. destruct (wf_taken s _ Hwf Hi) as (? & ? & ? & ?).
  split_and!; eassumption.
Qed.

Lemma pmm_alloc_correct_witness :
  (free_set boot_st = ∅ ∧ pmm_alloc boot_st = Ok 0 boot_st) ∨
  (∃ off s', 0 ≤ off < bitmap_len boot_st ∧
     let i := (next_free_scan boot_st + off) mod bitmap_len boot_st in
     i ∈ free_set boot_st ∧
     (∀ m, 0 ≤ m < off → (next_free_scan boot_st + m) mod bitmap_len boot_st ∉ free_set boot_st) ∧
     pmm_alloc boot_st = Ok (i * UIX_PAGE_SIZE) s' ∧ wf s' ∧ frame boot_st s' ∧
     free_set s' = free_set boot_st ∖ {[i]} ∧ next_free_scan s' = (i + 1) mod bitmap_len boot_st).
Proof. apply (pmm_alloc_correct boot_st), boot_st_wf. Defined.

(** [pmm_alloc_pages] is first fit: for [n >= 1] it takes the lowest run of
    [n] free pages and removes exactly those pages from the free set; it
    returns 0 and changes nothing only when no such run exists. *)
Theorem pmm_alloc_pages_first_fit (s : pmm_st) (n : Z) :
  wf s → 1 ≤ n →
  (pmm_alloc_pages n s = Ok 0 s ∧ ∀ f, 0 ≤ f → f + n ≤ bitmap_len s → ¬ run_free s f n) ∨
  (∃ first s', 0 ≤ first ∧ first + n ≤ bitmap_len s ∧ run_free s first n ∧
     (∀ f, 0 ≤ f < first → ¬ run_free s f n) ∧
     pmm_alloc_pages n s = Ok (first * UIX_PAGE_SIZE) s' ∧
     wf s' ∧ frame s s' ∧ free_set s' = free_set s ∖ range_set first n).
Proof.
  intros Hwf Hn. destruct (pmm_alloc_pages_cases s n Hwf) as [[? [?|?]]|[_ ?]];
    [lia|lia|by left|by right].
Qed.

Lemma pmm_alloc_pages_first_fit_witness :
  (pmm_alloc_pages 4 boot_st = Ok 0 boot_st ∧
     ∀ f, 0 ≤ f → f + 4 ≤ bitmap_len boot_st → ¬ run_free boot_st f 4) ∨
  (∃ first s', 0 ≤ first ∧ first + 4 ≤ bitmap_len boot_st ∧ run_free boot_st first 4 ∧
     (∀ f, 0 ≤ f < first → ¬ run_free boot_st f 4) ∧
     pmm_alloc_pages 4 boot_st = Ok (first * UIX_PAGE_SIZE) s' ∧
     wf s' ∧ frame boot_st s' ∧ free_set s' = free_set boot_st ∖ range_set first 4).
Proof. apply (pmm_alloc_pages_first_fit boot_st 4); [apply boot_st_wf|lia]. Defined.



(** Freeing: a page obtained from [pmm_alloc] can be given back, which
    restores the free set and the count; giving it back a second time, or
    freeing a page beyond the end of memory, panics. *)
Theorem pmm_alloc_free (s s1 : pmm_st) (r : Z) :
  wf s → pmm_alloc s = Ok r s1 → r ≠ 0 →
  ∃ s2, pmm_free r s1 = Ok tt s2 ∧ wf s2 ∧ free_set s2 = free_set s ∧
    free_count s2 = free_count s ∧
    pmm_free r s2 = Stop (Panic "pmm: double free or bad page %p") s2 ∧
    ∀ p, bitmap_len s ≤ p →
      pmm_free (p * UIX_PAGE_SIZE) s2 = Stop (Panic "pmm: double free or bad page %p") s2.
Proof.
  intros Hwf Ha Hr. destruct (pmm_alloc_cases s Hwf) as [[_ He]|(off & _ & Hi & He & _)]; [congruence|].
  rewrite He in Ha. injection Ha as <- <-.
  set (i := (next_free_scan s + off) mod bitmap_len s) in *.
  destruct (wf_taken s i Hwf Hi) as (Hwf1 & Hfr & Hfs & _).
  assert (client_page (taken i s) i) as Hc.
  { apply (free_client s); [done..|]. rewrite Hfs. set_solver. }
  destruct (pmm_free_run (taken i s) i) as (Hf & Hfr2 & Hfs2); [done|apply Hc..|].
  pose proof (wf_given _ _ Hwf1 Hc) as Hwf2. pose proof (cp_range _ _ Hc) as Hir.
  assert (free_set (given i (taken i s)) = free_set s) as Hback.
  { rewrite Hfs2, Hfs. symmetry. apply union_difference_L. set_solver. }
  eexists. split; [exact Hf|]. split_and!; [done|done| | |].
  - by rewrite (wf_count _ Hwf2), (wf_count _ Hwf), Hback.
  - apply pmm_free_stop; [done|lia|]. right. by rewrite Hback.
  - intros p Hp. pose proof (wf_len _ Hwf). apply pmm_free_stop; [done|lia|by left].
Qed.

Lemma pmm_alloc_free_witness :
  let s1 := match pmm_alloc boot_st with Ok _ s => s | Stop _ s => s end in
  ∃ s2, pmm_free 8192 s1 = Ok tt s2 ∧ wf s2 ∧ free_set s2 = free_set boot_st ∧
    free_count s2 = free_count boot_st ∧
    pmm_free 8192 s2 = Stop (Panic "pmm: double free or bad page %p") s2 ∧
    ∀ p, bitmap_len boot_st ≤ p →
      pmm_free (p * UIX_PAGE_SIZE) s2 = Stop (Panic "pmm: double free or bad page %p") s2.
Proof.
  intros s1. apply (pmm_alloc_free boot_st s1 8192); [apply boot_st_wf|vm_compute; reflexivity|discriminate].
Defined.

(** Page zero: when physical page 0 is usable and next in line,
    [pmm_alloc] takes it out of the free set but returns 0, the value that
    means "out of memory"; the page is lost. *)
Theorem pmm_alloc_page_zero (s : pmm_st) :
  wf s → 0 ∈ free_set s → next_free_scan s = 0 →
  ∃ s', pmm_alloc s = Ok 0 s' ∧ free_set s' = free_set s ∖ {[0]} ∧
    free_count s' = free_count s - 1.
Proof.
  intros Hwf H0 Hn. pose proof (proj1 (elem_of_free_set _ _) H0) as [Hr _].
  destruct (pmm_alloc_cases s Hwf) as [[Hfs _]|(off & Hoff & Hi & He & Hno)]; [set_solver|].
  destruct (decide (off = 0)) as [->|Hne].
  - rewrite Hn in *. change (0 + 0) with 0 in *. rewrite Z.mod_0_l in * by lia.
    destruct (wf_taken s 0 Hwf H0) as (Hwf1 & _ & Hfs & _).
    exists (taken 0 s). split_and!; [done..|].
    rewrite (wf_count _ Hwf1), (wf_count _ Hwf), Hfs. by apply size_diff_elem.
  - exfalso. apply (Hno 0); [lia|]. rewrite Hn. change (0 + 0) with 0. by rewrite Z.mod_0_l by lia.
Qed.

(** The same machine with page 0 marked usable. *)
Definition zero_st : pmm_st := given 0 boot_st.

Lemma zero_st_wf : wf zero_st ∧ 0 ∈ free_set zero_st.
Proof.
  pose proof boot_st_wf as [Hwf Hrc].
  assert (client_page boot_st 0) as Hc.
  { split.
    - split; vm_compute; [discriminate|reflexivity].
    - rewrite elem_of_free_set. intros [_ H]. vm_compute in H. discriminate.
    - left. vm_compute. discriminate.
    - intros H. destruct (H Hrc). }
  split; [apply (wf_given boot_st 0 Hwf Hc)|].
  destruct (pmm_free_run boot_st 0 Hwf (cp_range _ _ Hc) (cp_used _ _ Hc)) as (_ & _ & Hfs).
  unfold zero_st. rewrite Hfs. apply elem_of_union_l, elem_of_singleton. reflexivity.
Qed.

Lemma pmm_alloc_page_zero_witness :
  ∃ s', pmm_alloc zero_st = Ok 0 s' ∧ free_set s' = free_set zero_st ∖ {[0]} ∧
    free_count s' = free_count zero_st - 1.
Proof. apply (pmm_alloc_page_zero zero_st); [apply zero_st_wf..|vm_compute; reflexivity]. Defined.


(** The small machine with the reference counts allocated and one page handed
    out. *)
Definition ref_st : pmm_st := match refcounts_grow boot_st with Ok _ s => s | Stop _ s => s end.
Definition ref_st1 : pmm_st := taken 3 ref_st.

Lemma ref_st_wf : wf ref_st ∧ wf_rc ref_st ∧ refcounts ref_st ≠ 0.
Proof.
  pose proof boot_st_wf as [Hwf Hrc].
  destruct (pmm_alloc_pages_cases boot_st (rc_need boot_st) Hwf) as [[He _]|
    (_ & first & s1 & ? & ? & Hrf & _ & He & Hwf1 & Hfr & Hfs)]; [vm_compute; discriminate| |].
  { vm_compute in He. discriminate. }
  assert (0 < total_pages boot_st) as Ht by (vm_compute; reflexivity).
  destruct (rc_placed_wf boot_st first s1) as (? & ? & ? & ?); try assumption.
  unfold ref_st. rewrite (refcounts_grow_run boot_st (first * UIX_PAGE_SIZE) s1); try assumption.
  - split_and!; try assumption. cbn [refcounts rc_placed set_pm set_refcounts].
    pose proof (wf_hhdm _ Hwf1). unfold UIX_PAGE_SIZE. lia.
  - unfold UIX_PAGE_SIZE. lia.
  - unfold UIX_PAGE_SIZE. lia.
Qed.

Lemma ref_st1_wf : wf ref_st1 ∧ wf_rc ref_st1 ∧ refcounts ref_st1 ≠ 0 ∧ client_page ref_st1 3.
Proof.
  destruct ref_st_wf as (Hwf & Hrc & Hnz).
  assert (3 ∈ free_set ref_st) as H3.
  { apply elem_of_free_set. split; [split; vm_compute; [discriminate|reflexivity]|vm_compute; reflexivity]. }
  destruct (wf_taken ref_st 3 Hwf H3) as (Hwf1 & Hfr & Hfs & _). fold ref_st1 in *.
  assert (refcounts ref_st1 ≠ 0) as Hnz1 by (rewrite (fr_rc _ _ Hfr); exact Hnz).
  split_and!; [exact Hwf1| |exact Hnz1|].
  - destruct (wf_refs _ Hwf1) as [H|H]; [destruct (Hnz1 H)|exact H].
  - apply (free_client ref_st 3 ref_st1 Hwf Hfr H3). rewrite Hfs, elem_of_difference, elem_of_singleton.
    intros [_ H]. by apply H.
Qed.


(** First use of the reference counts with memory exhausted: the result of
    [pmm_alloc_pages] is not checked, so the array is placed at physical
    address 0 and the first pages of memory, whatever they hold, are zeroed. *)
Theorem refcounts_grow_oom (s : pmm_st) :
  wf s → refcounts s = 0 → 0 < total_pages s →
  (∀ f, 0 ≤ f → f + rc_need s ≤ bitmap_len s → ¬ run_free s f (rc_need s)) →
  ∃ s', refcounts_grow s = Ok tt s' ∧ refcounts s' = hhdm s ∧
    ∀ a, 0 ≤ a < rc_need s * UIX_PAGE_SIZE → ld8 (pm s') a = 0.
Proof.
  intros Hwf Hrc Ht Hno. destruct (rc_need_bounds s Hwf) as (_ & Hk & _ & Hk1 & Hkl).
  specialize (Hk1 Ht).
  destruct (pmm_alloc_pages_cases s (rc_need s) Hwf Hk) as
    [[He _]|(_ & first & s1 & ? & ? & Hrf & _)]; [|by destruct (Hno first)].
  exists (rc_placed 0 s). split_and!.
  - apply refcounts_grow_run; try done. unfold UIX_PAGE_SIZE. lia.
  - cbn. lia.
  - intros a Ha. unfold rc_placed. cbn [pm set_pm].
    rewrite ld8_memset_in by lia. done.
Qed.

(** A machine whose pages are all in use. *)
Definition full_st : pmm_st :=
  PmmSt [] 0xffff800000000000 (st8 0 90 ∅) [] 0xffff800000001000 65 65 0 0x1000 0 0 0.

Lemma full_st_free : free_set full_st = ∅.
Proof. vm_compute. reflexivity. Qed.

Lemma full_st_wf : wf full_st.
Proof.
  split; rewrite ?full_st_free; try (vm_compute; first [reflexivity|discriminate]);
    try (split; vm_compute; first [reflexivity|discriminate]).
  left. reflexivity.
Qed.

Lemma refcounts_grow_oom_witness :
  ld8 (pm full_st) 0 = 90 ∧
  ∃ s', refcounts_grow full_st = Ok tt s' ∧ refcounts s' = hhdm full_st ∧
    ∀ a, 0 ≤ a < rc_need full_st * UIX_PAGE_SIZE → ld8 (pm s') a = 0.
Proof.
  split; [vm_compute; reflexivity|].
  apply (refcounts_grow_oom full_st); [apply full_st_wf|reflexivity|vm_compute; reflexivity|].
  intros f Hf Hl Hr. apply (not_elem_of_empty (C := gset Z) f). rewrite <-full_st_free.
  apply Hr. change (rc_need full_st) with 1. lia.
Defined.

End PmmProps.
