(* ===== verification/Vmm.v ===== *)
(** * Virtual memory manager ([core/memory/vmm.c])

    The page tables live in the physical memory of the allocator's state and
    are read and written through the direct map.  [walk] is the processor's
    4-level translation of the same tables; the kernel's own accesses to
    addresses outside the direct map go through it. *)

From S2P Require Import Prelude Lib Pmm.

Module Vmm.
Import Lib Pmm.

(** ** State *)

Definition SCRATCH_PAGES : Z := 256.

Record vmm_st := VmmSt {
  vp : pmm_st;
  pml4 : Z;
  cr3 : Z;
  kernel_cr3 : Z;
  scratch_used : list Z;
}.

Definition set_vp (p : pmm_st) (s : vmm_st) : vmm_st :=
  VmmSt p (pml4 s) (cr3 s) (kernel_cr3 s) (scratch_used s).
Definition set_pml4 (va : Z) (s : vmm_st) : vmm_st :=
  VmmSt (vp s) va (cr3 s) (kernel_cr3 s) (scratch_used s).
Definition set_cr3 (pa : Z) (s : vmm_st) : vmm_st :=
  VmmSt (vp s) (pml4 s) pa (kernel_cr3 s) (scratch_used s).
Definition set_kernel_cr3 (pa : Z) (s : vmm_st) : vmm_st :=
  VmmSt (vp s) (pml4 s) (cr3 s) pa (scratch_used s).
Definition set_scratch (l : list Z) (s : vmm_st) : vmm_st :=
  VmmSt (vp s) (pml4 s) (cr3 s) (kernel_cr3 s) l.

Definition liftp {A} (m : M pmm_st A) : M vmm_st A := zoom vp set_vp m.

(** ** Layout of addresses and entries *)

Definition PML4_IDX (va : Z) : Z := Z.land (va ≫ 39) 0x1FF.
Definition PDPT_IDX (va : Z) : Z := Z.land (va ≫ 30) 0x1FF.
Definition PD_IDX (va : Z) : Z := Z.land (va ≫ 21) 0x1FF.
Definition PT_IDX (va : Z) : Z := Z.land (va ≫ 12) 0x1FF.

Definition SCRATCH_VA_BASE : Z := 0xffffffff30000000.

Definition VMM_PRESENT : Z := 1 ≪ 0.
Definition VMM_WRITE : Z := 1 ≪ 1.
Definition VMM_USER : Z := 1 ≪ 2.
Definition VMM_NOEXEC : Z := 1 ≪ 63.

Definition PTE_MASK : Z := 0x000FFFFFFFFFF000.
Definition PDE_PS : Z := 1 ≪ 7.
Definition PDE2M_MASK : Z := 0x000FFFFFFFE00000.
Definition COW_MARK : Z := 1 ≪ 9.

(** The flags of an interior entry. *)
Definition TABLE_FLAGS : Z := Z.lor VMM_PRESENT (Z.lor VMM_WRITE VMM_USER).

(** ** Tables *)

Definition p2v (pa : Z) : M vmm_st Z := gets (λ s, pmm_phys_to_virt (vp s) pa).
Definition tload (tbl i : Z) : M vmm_st Z := liftp (hload 8 (tbl + 8 * i)).
Definition tstore (tbl i e : Z) : M vmm_st unit := liftp (hstore 8 (tbl + 8 * i) e).

(** [pmm_alloc], the panic when it fails, and the clearing of the page. *)
Definition new_table (msg : string) : M vmm_st Z :=
  t ← liftp pmm_alloc;
  if t =? 0 then panic msg
  else va ← p2v t; liftp (hmemset va 0 UIX_PAGE_SIZE) ;; mret t.

(** [if (!(tbl[i] & VMM_PRESENT)) { if (!create) return NULL; ... }]: [false]
    stands for the [return NULL]. *)
Definition ensure_table (tbl i : Z) (create : bool) : M vmm_st bool :=
  e ← tload tbl i;
  if has e VMM_PRESENT then mret true
  else if negb create then mret false
  else
    t ← new_table "vmm: OOM building tables";
    tstore tbl i (Z.lor t TABLE_FLAGS) ;;
    mret true.

(** The page table of [va], or 0 ([NULL]). *)
Definition pt_for (va : Z) (create : bool) : M vmm_st Z :=
  p4 ← gets pml4;
  ok ← ensure_table p4 (PML4_IDX va) create;
  if negb ok then mret 0
  else
    e4 ← tload p4 (PML4_IDX va);
    pdpt ← p2v (Z.land e4 PTE_MASK);
    ok ← ensure_table pdpt (PDPT_IDX va) create;
    if negb ok then mret 0
    else
      pdpte ← tload pdpt (PDPT_IDX va);
      if has pdpte PDE_PS then mret 0
      else
        pd ← p2v (Z.land pdpte PTE_MASK);
        pde ← tload pd (PD_IDX va);
        if has pde VMM_PRESENT && has pde PDE_PS then mret 0
        else
          ok ← ensure_table pd (PD_IDX va) create;
          if negb ok then mret 0
          else
            pde ← tload pd (PD_IDX va);
            p2v (Z.land pde PTE_MASK).

Definition table_for (va : Z) (create : bool) : M vmm_st Z := pt_for va create.

Definition vmm_map (va pa flags : Z) : M vmm_st unit :=
  pt ← table_for va true;
  pte ← tload pt (PT_IDX va);
  if has pte VMM_PRESENT then panic "vmm: remap of present page %p"
  else tstore pt (PT_IDX va) (Z.lor (Z.land pa 0x000FFFFFFFFFF000) flags).

Definition vmm_unmap (va : Z) : M vmm_st unit :=
  pt ← table_for va false;
  if pt =? 0 then mret tt else tstore pt (PT_IDX va) 0.

(** [Some pa] for a return of 0 with [*pa_out = pa], [None] for -1. *)
Definition vmm_translate (va : Z) : M vmm_st (option Z) :=
  p4 ← gets pml4;
  e4 ← tload p4 (PML4_IDX va);
  if negb (has e4 VMM_PRESENT) then mret None
  else
    pdpt ← p2v (Z.land e4 PTE_MASK);
    pdpte ← tload pdpt (PDPT_IDX va);
    if negb (has pdpte VMM_PRESENT) then mret None
    else if has pdpte PDE_PS then
      mret (Some (Z.land pdpte 0x000FFFFFC0000000 +w Z.land va 0x3FFFFFFF))
    else
      pd ← p2v (Z.land pdpte PTE_MASK);
      pde ← tload pd (PD_IDX va);
      if negb (has pde VMM_PRESENT) then mret None
      else if has pde PDE_PS then
        mret (Some (Z.land pde PDE2M_MASK +w Z.land va 0x1FFFFF))
      else
        pt ← p2v (Z.land pde PTE_MASK);
        pte ← tload pt (PT_IDX va);
        if negb (has pte VMM_PRESENT) then mret None
        else mret (Some (Z.land pte PTE_MASK)).

(** ** Address spaces *)

Definition load_cr3 (pa : Z) : M vmm_st unit := modify (set_cr3 pa).

Definition vmm_switch (pml4_pa : Z) : M vmm_st unit :=
  va ← p2v pml4_pa;
  modify (set_pml4 va) ;;
  load_cr3 pml4_pa.

(** [for (i = 256; i < 512; i++) dst[i] = pml4[i]] *)
Definition copy_kernel_half (dst : Z) : M vmm_st unit :=
  for_ 256 256 (λ i, p4 ← gets pml4; e ← tload p4 i; tstore dst i e).

Definition vmm_create_space : M vmm_st Z :=
  dst_pa ← liftp pmm_alloc;
  if dst_pa =? 0 then panic "vmm: OOM creating address space"
  else
    dst ← p2v dst_pa;
    liftp (hmemset dst 0 UIX_PAGE_SIZE) ;;
    copy_kernel_half dst ;;
    mret dst_pa.

(** The physical address of the copy of the table of [src_entry]. *)
Fixpoint clone_table (level : nat) (src_entry : Z) : M vmm_st Z :=
  src ← p2v (Z.land src_entry PTE_MASK);
  dst ← liftp pmm_alloc;
  if dst =? 0 then panic "vmm: OOM cloning tables"
  else
    d ← p2v dst;
    for_ 512 0 (λ i,
      e ← tload src i;
      if negb (has e VMM_PRESENT) then tstore d i 0
      else
        match level with
        | O => tstore d i e
        | S l =>
            if has e PDE_PS then tstore d i e
            else
              child ← clone_table l e;
              tstore d i (Z.lor child (Z.land e 0xFFF))
        end) ;;
    mret dst.

(** [VMM_WRITE] is an [unsigned int], so its complement has 32 bits. *)
Definition cow_entry (e : Z) : Z := Z.lor (Z.land e (wrap32 (Z.lnot VMM_WRITE))) COW_MARK.

Fixpoint fork_table (level : nat) (src dst : Z) : M vmm_st unit :=
  for_ 512 0 (λ i,
    e ← tload src i;
    if negb (has e VMM_PRESENT) then tstore dst i 0
    else
      let leaf :=
        if has e VMM_USER then
          tstore src i (cow_entry e) ;;
          tstore dst i (cow_entry e) ;;
          liftp (pmm_ref (Z.land e PTE_MASK))
        else tstore dst i e in
      match level with
      | O => leaf
      | S l =>
          if (match l with O => true | S _ => false end) && has e PDE_PS then leaf
          else
            t ← liftp pmm_alloc;
            if t =? 0 then panic "vmm: OOM forking tables"
            else
              nd ← p2v t;
              liftp (hmemset nd 0 UIX_PAGE_SIZE) ;;
              sub ← p2v (Z.land e PTE_MASK);
              fork_table l sub nd ;;
              tstore dst i (Z.lor t (Z.land e 0xFFF))
      end).

Definition vmm_fork_user_space : M vmm_st Z :=
  dst_pa ← liftp pmm_alloc;
  if dst_pa =? 0 then panic "vmm: OOM forking PML4"
  else
    dst ← p2v dst_pa;
    liftp (hmemset dst 0 UIX_PAGE_SIZE) ;;
    copy_kernel_half dst ;;
    for_ 256 0 (λ i,
      p4 ← gets pml4;
      e ← tload p4 i;
      if has e VMM_PRESENT then
        t ← liftp pmm_alloc;
        nd ← p2v t;
        liftp (hmemset nd 0 UIX_PAGE_SIZE) ;;
        sub ← p2v (Z.land e PTE_MASK);
        fork_table 2 sub nd ;;
        e ← tload p4 i;
        tstore dst i (Z.lor t (Z.land e 0xFFF))
      else mret tt) ;;
    mret dst_pa.

Definition vmm_init : M vmm_st unit :=
  cr3 ← gets cr3;
  pml4_pa ← clone_table 3 cr3;
  va ← p2v pml4_pa;
  modify (set_pml4 va) ;;
  modify (set_kernel_cr3 pml4_pa) ;;
  load_cr3 pml4_pa ;;
  liftp (kprintf "[info] vmm: switched to cloned CR3 @ phys %p\n" [KU pml4_pa]).

(** ** Page faults *)

Definition fault_bit (err bit : Z) (yes no : string) : karg := KS (if has err bit then yes else no).

Definition report_fault (fault_addr err : Z) : M vmm_st Z :=
  liftp (kprintf "[err ] page fault: addr=%p err=%p %s%s%s%s\n"
    [KU fault_addr; KU err; fault_bit err 1 "present " "non-present ";
     fault_bit err 2 "write " "read "; fault_bit err 4 "user " "kernel ";
     fault_bit err 16 "instruction-fetch" "data"]) ;;
  mret (-1).

(** Handling of a write to a copy-on-write page: [pt[PT_IDX(va)]] is [pte]. *)
Definition cow_fault (pt va pte : Z) : M vmm_st Z :=
  let oldp := Z.land pte PTE_MASK in
  refs ← liftp (pmm_getref oldp);
  (if 1 <? refs then
     newp ← liftp pmm_alloc;
     if newp =? 0 then panic "vmm: OOM in COW fault"
     else
       nv ← p2v newp;
       ov ← p2v oldp;
       liftp (hmemcpy nv ov UIX_PAGE_SIZE) ;;
       liftp (pmm_unref oldp) ;;
       tstore pt (PT_IDX va)
         (Z.lor (Z.lor (Z.land newp PTE_MASK) TABLE_FLAGS) (Z.land pte VMM_NOEXEC))
   else
     tstore pt (PT_IDX va) (Z.lor (Z.land pte (~w COW_MARK)) VMM_WRITE)) ;;
  mret 0.

Definition vmm_page_fault (fault_addr err : Z) : M vmm_st Z :=
  if (Z.land err 3 =? 3) && (fault_addr <? 0x0000800000000000) then
    let va := Z.land fault_addr (~w (UIX_PAGE_SIZE - 1)) in
    pt ← pt_for va false;
    if pt =? 0 then report_fault fault_addr err
    else
      pte ← tload pt (PT_IDX va);
      if has pte VMM_PRESENT && has pte COW_MARK && has pte VMM_USER
      then cow_fault pt va pte
      else report_fault fault_addr err
  else report_fault fault_addr err.

(** ** The processor's translation

    [walk lvl m tbl va]: the leaf entry that maps [va] below the table at
    physical address [tbl] of level [lvl] (3 = PML4 ... 0 = PT), with its
    level; [None] when a present bit is clear. *)

Definition idx (lvl : nat) (va : Z) : Z := Z.land (va ≫ (12 + 9 * Z.of_nat lvl)) 0x1FF.
Definition entry (m : mem) (tbl i : Z) : Z := ld64 m (tbl + 8 * i).

(** A present entry of level [lvl] that is a leaf. *)
Definition is_leaf (lvl : nat) (e : Z) : bool :=
  match lvl with O => true | S (S (S _)) => false | _ => has e PDE_PS end.

Fixpoint walk (lvl : nat) (m : mem) (tbl va : Z) : option (nat * Z) :=
  let e := entry m tbl (idx lvl va) in
  if has e VMM_PRESENT then
    if is_leaf lvl e then Some (lvl, e)
    else match lvl with O => None | S l => walk l m (Z.land e PTE_MASK) va end
  else None.

(** A write is allowed when every entry on the way allows it. *)
Fixpoint walk_writable (lvl : nat) (m : mem) (tbl va : Z) : bool :=
  let e := entry m tbl (idx lvl va) in
  has e VMM_WRITE &&
    (is_leaf lvl e ||
     match lvl with O => true | S l => walk_writable l m (Z.land e PTE_MASK) va end).

(** The physical address the leaf gives for [va]. *)
Definition leaf_pa (lvl : nat) (e va : Z) : Z :=
  let size := 2 ^ (12 + 9 * Z.of_nat lvl) in
  Z.land e PTE_MASK / size * size + va mod size.

Definition mmu (m : mem) (root va : Z) : option (Z * bool) :=
  (λ '(lvl, e), (leaf_pa lvl e va, walk_writable 3 m root va)) <$> walk 3 m root va.

(** Kernel accesses to a byte of the current address space.  A write to a
    present read-only page enters the page fault handler, and is retried when
    that returns 0; every other fault ends in the handler's panic. *)
Definition vload8 (va : Z) : M vmm_st Z :=
  r ← gets (λ s, mmu (pm (vp s)) (cr3 s) va);
  match r with
  | Some (pa, _) => gets (λ s, ld8 (pm (vp s)) pa)
  | None => vmm_page_fault va 0 ;; fault va
  end.

Definition vstore8 (va v : Z) : M vmm_st unit :=
  r ← gets (λ s, mmu (pm (vp s)) (cr3 s) va);
  match r with
  | Some (pa, true) => liftp (modify (λ s, set_pm (st8 pa v (pm s)) s))
  | Some (_, false) =>
      h ← vmm_page_fault va 3;
      if h =? 0 then
        r ← gets (λ s, mmu (pm (vp s)) (cr3 s) va);
        match r with
        | Some (pa, true) => liftp (modify (λ s, set_pm (st8 pa v (pm s)) s))
        | _ => fault va
        end
      else fault va
  | None => vmm_page_fault va 2 ;; fault va
  end.

Definition vmemset (va c n : Z) : M vmm_st unit :=
  for_ (Z.to_nat n) 0 (λ i, vstore8 (va +w i) c).

(** ** Early allocations *)

Definition early_map (first i : Z) : M vmm_st unit :=
  for_ (Z.to_nat (i + 1 - first)) first (λ j,
    p ← liftp pmm_alloc;
    if p =? 0 then panic "vmm: early alloc OOM"
    else
      vmm_map (SCRATCH_VA_BASE +w j *w UIX_PAGE_SIZE) p
        (Z.lor (Z.lor VMM_PRESENT VMM_WRITE) VMM_NOEXEC) ;;
      modify (λ s, set_scratch (<[Z.to_nat j := 1]> (scratch_used s)) s)).

(** The search with [k] iterations left, at [i]; 0 is [NULL]. *)
Fixpoint early_loop (count : Z) (k : nat) (i run : Z) : M vmm_st Z :=
  match k with
  | O => mret 0
  | S k =>
      used ← gets (λ s, default 0 (scratch_used s !! Z.to_nat i));
      let run := if used =? 0 then run +w 1 else 0 in
      if run =? count then
        let first := i -w count +w 1 in
        early_map first i ;;
        let va := SCRATCH_VA_BASE +w first *w UIX_PAGE_SIZE in
        vmemset va 0 (count *w UIX_PAGE_SIZE) ;;
        mret va
      else early_loop count k (i + 1) run
  end.

Definition vmm_early_alloc_pages (count : Z) : M vmm_st Z :=
  if SCRATCH_PAGES <? count then mret 0
  else early_loop count (Z.to_nat SCRATCH_PAGES) 0 0.

Definition dbg_pml4 : M vmm_st Z := gets pml4.

End Vmm.
