(* ===== verification/PageTables.v ===== *)
(** * Page tables as trees

    Facts on the processor's view of a page table in memory: which pages hold
    its tables, when two memories give the same translation, and what writing
    one entry of one table changes. *)

From S2P Require Import Prelude Lib Pmm PmmFacts Vmm.

Module PageTables.
Import Lib Pmm PmmFacts Vmm.

(** ** The tables of a tree *)

Definition next_tbl (lvl : nat) (e : Z) : bool := has e VMM_PRESENT && negb (is_leaf lvl e).

Definition indices : list Z := seqZ 0 512.

(** Physical addresses of the tables below (and with) the table at [tbl]. *)
Fixpoint tpages (lvl : nat) (m : mem) (tbl : Z) : list Z :=
  tbl :: match lvl with
         | O => []
         | S l => indices ≫= λ i,
             let e := entry m tbl i in
             if next_tbl lvl e then tpages l m (Z.land e PTE_MASK) else []
         end.

(** What follows in a walk once the entry [e] of level [lvl] is read. *)
Definition walk_e (lvl : nat) (m : mem) (e va : Z) : option (nat * Z) :=
  if has e VMM_PRESENT then
    if is_leaf lvl e then Some (lvl, e)
    else match lvl with O => None | S l => walk l m (Z.land e PTE_MASK) va end
  else None.

(** The tables [m] and [m'] hold at [T] are the same. *)
Definition same_tbl (m m' : mem) (T : Z) : Prop :=
  ∀ i, 0 ≤ i < 512 → entry m' T i = entry m T i.

(** [m'] is [m] with entry [i] of table [T] replaced, as far as [X] shows. *)
Definition upd_at (X : list Z) (m m' : mem) (T i e' : Z) : Prop :=
  ∀ T' j, T' ∈ X → 0 ≤ j < 512 →
    entry m' T' j = if (T' =? T) && (j =? i) then e' else entry m T' j.

(** The table [T] of level [l] is on the path of [va] from [tbl]. *)
Inductive path (m : mem) (va : Z) : nat → Z → nat → Z → Prop :=
  | path_here lvl tbl : path m va lvl tbl lvl tbl
  | path_down lvl tbl l T :
      next_tbl (S lvl) (entry m tbl (idx (S lvl) va)) = true →
      path m va lvl (Z.land (entry m tbl (idx (S lvl) va)) PTE_MASK) l T →
      path m va (S lvl) tbl l T.

(** [va] and [va'] select the same entries from level [lvl] down to [l]. *)
Definition same_idx (lvl l : nat) (va va' : Z) : Prop :=
  ∀ k, (l ≤ k ≤ lvl)%nat → idx k va' = idx k va.

(** The same page of 4 KiB. *)
Definition same_page (va va' : Z) : Prop := same_idx 3 0 va va'.

(** ** Elementary facts *)

Lemma elem_of_indices i : i ∈ indices ↔ 0 ≤ i < 512.
Proof. unfold indices. rewrite elem_of_seqZ. lia. Qed.

Lemma NoDup_indices : NoDup indices.
Proof. apply NoDup_seqZ. Qed.

Global Opaque indices.

Lemma idx_range lvl va : 0 ≤ idx lvl va < 512.
Proof.
  unfold idx. change 0x1FF with (Z.ones 9). rewrite Z.land_ones by lia.
  by apply Z.mod_pos_bound.
Qed.

Lemma entry_range m t i : 0 ≤ entry m t i < 2 ^ 64.
Proof. apply ld64_range. Qed.

Lemma walk_unfold lvl m tbl va : walk lvl m tbl va = walk_e lvl m (entry m tbl (idx lvl va)) va.
Proof. by destruct lvl. Qed.

Lemma walk_e_next lvl m e va :
  next_tbl (S lvl) e = true → walk_e (S lvl) m e va = walk lvl m (Z.land e PTE_MASK) va.
Proof.
  unfold next_tbl, walk_e. intros [-> ->%negb_true_iff]%andb_true_iff. done.
Qed.

Lemma walk_e_stop lvl m m' e va : next_tbl lvl e = false → walk_e lvl m' e va = walk_e lvl m e va.
Proof.
  unfold next_tbl, walk_e. destruct (has e VMM_PRESENT); [|done].
  destruct (is_leaf lvl e); done.
Qed.

Lemma next_tbl_0 e : next_tbl 0 e = false.
Proof. unfold next_tbl. apply andb_false_r. Qed.

Lemma elem_of_tpages_child lvl m tbl i T :
  0 ≤ i < 512 → next_tbl (S lvl) (entry m tbl i) = true →
  T ∈ tpages lvl m (Z.land (entry m tbl i) PTE_MASK) → T ∈ tpages (S lvl) m tbl.
Proof.
  intros Hi Hn HT. cbn [tpages]. apply list_elem_of_further. apply list_elem_of_bind.
  exists i. rewrite Hn. split; [done|by apply elem_of_indices].
Qed.

Lemma tpages_root lvl m tbl : tbl ∈ tpages lvl m tbl.
Proof. destruct lvl; apply list_elem_of_here. Qed.

Lemma path_tpages m va lvl tbl l T : path m va lvl tbl l T → T ∈ tpages lvl m tbl.
Proof.
  induction 1; [apply tpages_root|]. eapply elem_of_tpages_child; [|done|done]. apply idx_range.
Qed.

Lemma path_level m va lvl tbl l T : path m va lvl tbl l T → (l ≤ lvl)%nat.
Proof. induction 1; lia. Qed.

(** ** Lists built with a bind *)

Lemma NoDup_bind_inv {A B} (f : A → list B) (l : list A) :
  NoDup l → NoDup (l ≫= f) →
  (∀ x, x ∈ l → NoDup (f x)) ∧
  (∀ x y b, x ∈ l → y ∈ l → b ∈ f x → b ∈ f y → x = y).
Proof.
  induction l as [|a l IH]; intros Hl Hb; [set_solver|].
  apply NoDup_cons in Hl as [Ha Hl]. cbn in Hb. apply NoDup_app in Hb as (Hfa & Hd & Hb).
  destruct (IH Hl Hb) as [IH1 IH2]. split.
  - intros x [->|Hx]%elem_of_cons; auto.
  - intros x y b [->|Hx]%elem_of_cons [->|Hy]%elem_of_cons Hbx Hby; [done| | |by apply (IH2 x y b)];
      [destruct (Hd b Hbx)|destruct (Hd b Hby)]; apply list_elem_of_bind; eauto.
Qed.

Lemma bind_ext {A B} (f g : A → list B) (l : list A) :
  (∀ x, x ∈ l → f x = g x) → l ≫= f = l ≫= g.
Proof.
  induction l as [|a l IH]; intros H; [done|]. cbn. rewrite (H a) by set_solver.
  f_equal. apply IH. set_solver.
Qed.

(** Replacing what one element contributes. *)
Lemma bind_upd {A B} (f g : A → list B) (l : list A) (i : A) (sub : list B) :
  NoDup l → i ∈ l → (∀ j, j ∈ l → j ≠ i → g j = f j) → g i ≡ₚ f i ++ sub →
  l ≫= g ≡ₚ (l ≫= f) ++ sub.
Proof.
  intros Hl Hi Hne Hgi. apply list_elem_of_split in Hi as (l1 & l2 & ->).
  apply NoDup_app in Hl as (_ & Hd & [Hi2 _]%NoDup_cons).
  rewrite !bind_app. cbn.
  rewrite (bind_ext g f l1), (bind_ext g f l2), Hgi.
  - rewrite <-!(assoc (++)). f_equiv. f_equiv. by rewrite (comm (++)).
  - intros j Hj. apply Hne; [set_solver|]. by intros ->.
  - intros j Hj. apply Hne; [set_solver|]. intros ->. apply (Hd i Hj). set_solver.
Qed.

(** The disjointness inside a tree whose pages are all distinct. *)
Lemma tpages_NoDup_inv lvl m tbl :
  NoDup (tpages (S lvl) m tbl) →
  (∀ i, 0 ≤ i < 512 → next_tbl (S lvl) (entry m tbl i) = true →
     NoDup (tpages lvl m (Z.land (entry m tbl i) PTE_MASK)) ∧
     tbl ∉ tpages lvl m (Z.land (entry m tbl i) PTE_MASK)) ∧
  (∀ i j T, 0 ≤ i < 512 → 0 ≤ j < 512 →
     next_tbl (S lvl) (entry m tbl i) = true → next_tbl (S lvl) (entry m tbl j) = true →
     T ∈ tpages lvl m (Z.land (entry m tbl i) PTE_MASK) →
     T ∈ tpages lvl m (Z.land (entry m tbl j) PTE_MASK) → i = j).
Proof.
  cbn [tpages]. intros [Hr Hb]%NoDup_cons.
  apply NoDup_bind_inv in Hb as [H1 H2]; [|apply NoDup_indices]. split.
  - intros i Hi Hn. apply elem_of_indices in Hi. split.
    + specialize (H1 i Hi). cbv beta zeta in H1. by rewrite Hn in H1.
    + intros HT. apply Hr, list_elem_of_bind. exists i. by rewrite Hn.
  - intros i j T Hi Hj Hni Hnj HTi HTj. apply (H2 i j T);
      [by apply elem_of_indices..|by rewrite Hni|by rewrite Hnj].
Qed.

(** ** Memories that agree on the tables *)

Lemma tpages_ext lvl m m' tbl :
  (∀ T, T ∈ tpages lvl m tbl → same_tbl m m' T) → tpages lvl m' tbl = tpages lvl m tbl.
Proof.
  revert tbl. induction lvl as [|lvl IH]; intros tbl H; [done|].
  cbn [tpages]. f_equal. apply bind_ext. intros i Hi%elem_of_indices.
  rewrite (H tbl (tpages_root _ _ _) i Hi).
  destruct (next_tbl (S lvl) (entry m tbl i)) eqn:E; [|done].
  apply IH. intros T HT. apply H. by eapply elem_of_tpages_child.
Qed.

Lemma walk_ext lvl m m' tbl va :
  (∀ T, T ∈ tpages lvl m tbl → same_tbl m m' T) → walk lvl m' tbl va = walk lvl m tbl va.
Proof.
  revert tbl. induction lvl as [|lvl IH]; intros tbl H; rewrite !walk_unfold.
  - rewrite (H tbl (tpages_root _ _ _)) by apply idx_range.
    apply walk_e_stop, next_tbl_0.
  - rewrite (H tbl (tpages_root _ _ _)) by apply idx_range.
    set (e := entry m tbl (idx (S lvl) va)).
    destruct (next_tbl (S lvl) e) eqn:E; [|by apply walk_e_stop].
    rewrite !walk_e_next by done. apply IH. intros T HT. apply H.
    eapply elem_of_tpages_child; [apply (idx_range (S lvl) va)|done|done].
Qed.

Lemma walk_e_ext lvl m m' e va :
  (∀ T, next_tbl (S lvl) e = true → T ∈ tpages lvl m (Z.land e PTE_MASK) → same_tbl m m' T) →
  walk_e (S lvl) m' e va = walk_e (S lvl) m e va.
Proof.
  intros H. destruct (next_tbl (S lvl) e) eqn:E; [|by apply walk_e_stop].
  rewrite !walk_e_next by done. apply walk_ext. auto.
Qed.

Lemma path_ext m m' va lvl tbl l T :
  path m va lvl tbl l T → (∀ T, T ∈ tpages lvl m tbl → same_tbl m m' T) → path m' va lvl tbl l T.
Proof.
  induction 1 as [|lvl tbl l T Hn Hp IH]; intros H; [constructor|].
  assert (entry m' tbl (idx (S lvl) va) = entry m tbl (idx (S lvl) va)) as He.
  { apply H; [apply tpages_root|apply idx_range]. }
  apply path_down; rewrite He; [done|]. apply IH. intros T' HT'. apply H.
  eapply elem_of_tpages_child; [apply (idx_range (S lvl) va)|done|done].
Qed.

(** ** Writing one entry *)

Lemma upd_at_incl X Y m m' T i e' : upd_at X m m' T i e' → Y ⊆ X → upd_at Y m m' T i e'.
Proof. intros H HY T' j HT'. apply H. by apply HY. Qed.

Lemma upd_at_other X m m' T i e' T' :
  upd_at X m m' T i e' → T' ∈ X → T' ≠ T → same_tbl m m' T'.
Proof.
  intros H HT' Hne j Hj. rewrite (H T' j HT' Hj). by rewrite (proj2 (Z.eqb_neq T' T)).
Qed.

Lemma same_idx_cons lvl l va va' :
  (l ≤ lvl)%nat → same_idx (S lvl) l va va' ↔ idx (S lvl) va' = idx (S lvl) va ∧ same_idx lvl l va va'.
Proof.
  intros Hl. split.
  - intros H. split; [apply H; lia|]. intros k Hk. apply H. lia.
  - intros [H1 H2] k Hk. destruct (decide (k = S lvl)) as [->|]; [done|]. apply H2. lia.
Qed.

Lemma same_idx_here lvl va va' : same_idx lvl lvl va va' ↔ idx lvl va' = idx lvl va.
Proof.
  split; [intros H; by apply H|]. intros H k Hk. by replace k with lvl by lia.
Qed.

Global Instance same_idx_dec lvl l va va' : Decision (same_idx lvl l va va').
Proof.
  destruct (decide (Forall (λ k, (l ≤ k)%nat → idx k va' = idx k va) (seq 0 (S lvl)))) as [H|H].
  - left. intros k Hk. rewrite Forall_forall in H. apply (H k); [|lia]. apply elem_of_seq. lia.
  - right. intros Hs. apply H, Forall_forall. intros k Hk%elem_of_seq Hl. apply Hs. lia.
Defined.

(** Replacing entry [idx l va] of the table of level [l] on the path of [va]:
    addresses that select this entry now continue with the new one, and every
    other translation is what it was. *)
Lemma walk_upd m m' va lvl tbl l T e' :
  path m va lvl tbl l T → NoDup (tpages lvl m tbl) →
  upd_at (tpages lvl m tbl) m m' T (idx l va) e' →
  ∀ va', walk lvl m' tbl va' =
    if decide (same_idx lvl l va va') then walk_e l m' e' va' else walk lvl m tbl va'.
Proof.
  induction 1 as [lvl tbl|lvl tbl l T Hn Hp IH]; intros Hnd Hu va'.
  - rewrite !walk_unfold, (Hu tbl _ (tpages_root _ _ _)) by apply idx_range.
    rewrite Z.eqb_refl, andb_true_l.
    destruct (decide (same_idx lvl lvl va va')) as [Hs|Hs]; rewrite same_idx_here in Hs.
    + by rewrite (proj2 (Z.eqb_eq _ _) Hs).
    + rewrite (proj2 (Z.eqb_neq _ _) Hs). destruct lvl as [|lvl]; [apply walk_e_stop, next_tbl_0|].
      apply walk_e_ext. intros T' Hn HT'. destruct (tpages_NoDup_inv _ _ _ Hnd) as [H1 _].
      apply (upd_at_other _ _ _ _ _ _ _ Hu).
      * eapply elem_of_tpages_child; [apply (idx_range (S lvl) va')|done|done].
      * intros ->. by apply (H1 _ (idx_range _ _) Hn).
  - destruct (tpages_NoDup_inv _ _ _ Hnd) as [H1 H2]. pose proof (path_tpages _ _ _ _ _ _ Hp) as HT.
    pose proof (path_level _ _ _ _ _ _ Hp) as Hl.
    destruct (H1 _ (idx_range _ _) Hn) as [Hndc Hroot].
    rewrite !(walk_unfold (S lvl)), (Hu tbl _ (tpages_root _ _ _)) by apply idx_range.
    assert (tbl ≠ T) as Hne by (intros ->; done). apply Z.eqb_neq in Hne as ->. cbn [andb].
    destruct (decide (idx (S lvl) va' = idx (S lvl) va)) as [Hi|Hi].
    + rewrite Hi, !walk_e_next by done. rewrite IH; [|done|].
      * destruct (decide (same_idx lvl l va va')), (decide (same_idx (S lvl) l va va')) as [Hs|Hs];
          rewrite ?same_idx_cons in Hs by done; tauto.
      * eapply upd_at_incl; [exact Hu|]. intros T' HT'.
        eapply elem_of_tpages_child; [apply (idx_range (S lvl) va)|done|done].
    + rewrite decide_False by (rewrite same_idx_cons by done; tauto).
      apply walk_e_ext. intros T' Hn' HT'. apply (upd_at_other _ _ _ _ _ _ _ Hu).
      * eapply elem_of_tpages_child; [apply (idx_range (S lvl) va')|done|done].
      * intros ->. apply Hi. apply (H2 _ _ T); try done; apply idx_range.
Qed.

(** The tables below an entry of level [lvl]. *)
Definition sub_pages (lvl : nat) (m : mem) (e : Z) : list Z :=
  match lvl with
  | O => []
  | S l => if next_tbl lvl e then tpages l m (Z.land e PTE_MASK) else []
  end.

(** When the old entry had no table below it, the tables afterwards are the old
    ones and those below the new entry. *)
Lemma tpages_upd m m' va lvl tbl l T e' :
  path m va lvl tbl l T → NoDup (tpages lvl m tbl) →
  upd_at (tpages lvl m tbl) m m' T (idx l va) e' →
  next_tbl l (entry m T (idx l va)) = false →
  tpages lvl m' tbl ≡ₚ tpages lvl m tbl ++ sub_pages l m' e'.
Proof.
  induction 1 as [lvl tbl|lvl tbl l T Hn Hp IH]; intros Hnd Hu Hold.
  - destruct lvl as [|lvl]; [done|]. cbn [tpages app]. f_equiv.
    destruct (tpages_NoDup_inv _ _ _ Hnd) as [H1 _].
    apply (bind_upd _ _ _ (idx (S lvl) va)); [apply NoDup_indices|apply elem_of_indices, idx_range| |].
    + intros j Hj%elem_of_indices Hne. rewrite (Hu tbl j (tpages_root _ _ _) Hj), Z.eqb_refl.
      rewrite (proj2 (Z.eqb_neq _ _) Hne). cbn [andb].
      destruct (next_tbl (S lvl) (entry m tbl j)) eqn:E; [|done].
      apply tpages_ext. intros T' HT'. apply (upd_at_other _ _ _ _ _ _ _ Hu).
      * by eapply elem_of_tpages_child.
      * intros ->. by apply (H1 j Hj E).
    + rewrite (Hu tbl _ (tpages_root _ _ _)), Hold by apply idx_range.
      by rewrite !Z.eqb_refl.
  - destruct (tpages_NoDup_inv _ _ _ Hnd) as [H1 H2]. pose proof (path_tpages _ _ _ _ _ _ Hp) as HT.
    destruct (H1 _ (idx_range _ _) Hn) as [Hndc Hroot].
    assert (tbl ≠ T) as Hne by (intros ->; done). apply Z.eqb_neq in Hne.
    cbn [tpages app]. f_equiv.
    apply (bind_upd _ _ _ (idx (S lvl) va)); [apply NoDup_indices|apply elem_of_indices, idx_range| |].
    + intros j Hj%elem_of_indices Hji. rewrite (Hu tbl j (tpages_root _ _ _) Hj), Hne. cbn [andb].
      destruct (next_tbl (S lvl) (entry m tbl j)) eqn:E; [|done].
      apply tpages_ext. intros T' HT'. apply (upd_at_other _ _ _ _ _ _ _ Hu).
      * by eapply elem_of_tpages_child.
      * intros ->. apply Hji. by apply (H2 _ _ T Hj (idx_range _ _)).
    + rewrite (Hu tbl _ (tpages_root _ _ _)), Hne by apply idx_range. cbn [andb]. rewrite Hn.
      apply IH; [done| |done]. eapply upd_at_incl; [exact Hu|]. intros T' HT'.
      eapply elem_of_tpages_child; [apply (idx_range (S lvl) va)|done|done].
Qed.

(** ** Writable paths *)

(** Every table entry on the path of [va] below the table at [tbl] allows writes. *)
Fixpoint wtab (lvl : nat) (m : mem) (tbl va : Z) : bool :=
  match lvl with
  | O => true
  | S l =>
      let e := entry m tbl (idx lvl va) in
      if next_tbl lvl e then has e VMM_WRITE && wtab l m (Z.land e PTE_MASK) va else true
  end.

Definition wtab_e (lvl : nat) (m : mem) (e va : Z) : bool :=
  match lvl with
  | O => true
  | S l => if next_tbl lvl e then has e VMM_WRITE && wtab l m (Z.land e PTE_MASK) va else true
  end.

Lemma wtab_unfold lvl m tbl va : wtab lvl m tbl va = wtab_e lvl m (entry m tbl (idx lvl va)) va.
Proof. by destruct lvl. Qed.

Lemma wtab_ext lvl m m' tbl va :
  (∀ T, T ∈ tpages lvl m tbl → same_tbl m m' T) → wtab lvl m' tbl va = wtab lvl m tbl va.
Proof.
  revert tbl. induction lvl as [|lvl IH]; intros tbl H; [done|].
  rewrite !wtab_unfold, (H tbl (tpages_root _ _ _)) by apply idx_range. cbn [wtab_e].
  destruct (next_tbl (S lvl) (entry m tbl (idx (S lvl) va))) eqn:E; [|done]. f_equal. apply IH.
  intros T HT. apply H. eapply elem_of_tpages_child; [apply (idx_range (S lvl) va)|done|done].
Qed.

Lemma wtab_e_ext lvl m m' e va :
  (∀ T, T ∈ sub_pages lvl m e → same_tbl m m' T) → wtab_e lvl m' e va = wtab_e lvl m e va.
Proof.
  destruct lvl as [|lvl]; [done|]. cbn [wtab_e sub_pages]. intros H.
  destruct (next_tbl (S lvl) e); [|done]. f_equal. by apply wtab_ext.
Qed.

Lemma wtab_upd m m' va lvl tbl l T e' :
  path m va lvl tbl l T → NoDup (tpages lvl m tbl) →
  upd_at (tpages lvl m tbl) m m' T (idx l va) e' →
  ∀ va', wtab lvl m tbl va' = true → wtab_e l m' e' va' = true → wtab lvl m' tbl va' = true.
Proof.
  induction 1 as [lvl tbl|lvl tbl l T Hn Hp IH]; intros Hnd Hu va' Hw He.
  - rewrite wtab_unfold in *. rewrite (Hu tbl _ (tpages_root _ _ _)) by apply idx_range.
    rewrite Z.eqb_refl, andb_true_l. destruct (idx lvl va' =? idx lvl va); [done|].
    rewrite (wtab_e_ext lvl m m'); [done|]. destruct lvl as [|lvl]; [by intros ? ?%not_elem_of_nil|].
    cbn [sub_pages]. destruct (next_tbl (S lvl) _) eqn:Hn; [|by intros ? ?%not_elem_of_nil].
    intros T' HT'. destruct (tpages_NoDup_inv _ _ _ Hnd) as [H1 _].
    apply (upd_at_other _ _ _ _ _ _ _ Hu).
    + eapply elem_of_tpages_child; [apply (idx_range (S lvl) va')|done|done].
    + intros ->. by apply (H1 _ (idx_range _ _) Hn).
  - destruct (tpages_NoDup_inv _ _ _ Hnd) as [H1 H2]. pose proof (path_tpages _ _ _ _ _ _ Hp) as HT.
    destruct (H1 _ (idx_range _ _) Hn) as [Hndc Hroot].
    cbn [wtab] in *. rewrite (Hu tbl _ (tpages_root _ _ _)) by apply idx_range.
    assert (tbl ≠ T) as Hne by (intros ->; done). apply Z.eqb_neq in Hne as ->. cbn [andb].
    destruct (next_tbl (S lvl) (entry m tbl (idx (S lvl) va'))) eqn:Hn'; [|done].
    apply andb_true_iff in Hw as [-> Hw]. cbn [andb].
    destruct (decide (idx (S lvl) va' = idx (S lvl) va)) as [Hi|Hi].
    + rewrite Hi in *. apply IH; [done| |done|done]. eapply upd_at_incl; [exact Hu|]. intros T' HT'.
      eapply elem_of_tpages_child; [apply (idx_range (S lvl) va)|done|done].
    + rewrite (wtab_ext lvl m m'); [done|]. intros T' HT'. apply (upd_at_other _ _ _ _ _ _ _ Hu).
      * eapply elem_of_tpages_child; [apply (idx_range (S lvl) va')|done|done].
      * intros ->. apply Hi. apply (H2 _ _ T); try done; apply idx_range.
Qed.

(** For a 4 KiB page, writes are allowed by the tables and by the leaf. *)
Lemma walk_writable_leaf lvl m tbl va e :
  walk lvl m tbl va = Some (O, e) → walk_writable lvl m tbl va = wtab lvl m tbl va && has e VMM_WRITE.
Proof.
  revert tbl. induction lvl as [|lvl IH]; intros tbl; cbn [walk walk_writable wtab];
    unfold next_tbl; destruct (has _ VMM_PRESENT); [|done| |done]; cbn [andb].
  - intros [= ->]. by rewrite orb_true_l, andb_true_r.
  - destruct (is_leaf (S lvl) _); [done|]. intros H. cbn [negb orb]. rewrite (IH _ H). by rewrite andb_assoc.
Qed.

Lemma path_upd m m' va lvl tbl l T e' :
  path m va lvl tbl l T → NoDup (tpages lvl m tbl) →
  upd_at (tpages lvl m tbl) m m' T (idx l va) e' → path m' va lvl tbl l T.
Proof.
  induction 1 as [lvl tbl|lvl tbl l T Hn Hp IH]; intros Hnd Hu; [constructor|].
  destruct (tpages_NoDup_inv _ _ _ Hnd) as [H1 _]. pose proof (path_tpages _ _ _ _ _ _ Hp) as HT.
  destruct (H1 _ (idx_range _ _) Hn) as [Hndc Hroot].
  assert (entry m' tbl (idx (S lvl) va) = entry m tbl (idx (S lvl) va)) as He.
  { apply (upd_at_other _ _ _ _ _ _ _ Hu); [apply tpages_root|by intros ->|apply idx_range]. }
  apply path_down; rewrite He; [done|]. apply IH; [done|].
  eapply upd_at_incl; [exact Hu|]. intros T' HT'.
  eapply elem_of_tpages_child; [apply (idx_range (S lvl) va)|done|done].
Qed.

Lemma path_snoc m va lvl tbl l T :
  path m va lvl tbl (S l) T → next_tbl (S l) (entry m T (idx (S l) va)) = true →
  path m va lvl tbl l (Z.land (entry m T (idx (S l) va)) PTE_MASK).
Proof.
  remember (S l) as l' eqn:El. intros H. revert El. induction H as [lvl tbl|lvl tbl l' T Hn Hp IH]; intros -> Hn'.
  - apply path_down; [done|constructor].
  - apply path_down; [done|]. by apply IH.
Qed.

(** Along a path the walk is the walk from the table reached. *)
Lemma walk_path m va lvl tbl l T va' :
  path m va lvl tbl l T → NoDup (tpages lvl m tbl) → same_idx lvl l va va' →
  walk lvl m tbl va' = walk_e l m (entry m T (idx l va)) va'.
Proof.
  intros Hp Hnd Hs. rewrite (walk_upd m m va lvl tbl l T (entry m T (idx l va)) Hp Hnd).
  - by rewrite decide_True.
  - intros T' j _ _. destruct (Z.eqb_spec T' T) as [->|]; [|done].
    by destruct (Z.eqb_spec j (idx l va)) as [->|].
Qed.

Lemma same_idx_refl lvl l va : same_idx lvl l va va.
Proof. by intros k _. Qed.

(** ** Empty tables *)

Lemma tpages_empty lvl m t : (∀ j, 0 ≤ j < 512 → entry m t j = 0) → tpages lvl m t = [t].
Proof.
  intros H. destruct lvl as [|lvl]; [done|]. cbn [tpages]. f_equal.
  rewrite (bind_ext _ (λ _, [])); [by induction indices|].
  intros i Hi%elem_of_indices. by rewrite H.
Qed.

Lemma walk_empty lvl m t va : (∀ j, 0 ≤ j < 512 → entry m t j = 0) → walk lvl m t va = None.
Proof. intros H. rewrite walk_unfold, H by apply idx_range. done. Qed.

(** ** Bits of entries *)

Lemma wtab_empty lvl m tbl va : (∀ i, 0 ≤ i < 512 → entry m tbl i = 0) → wtab lvl m tbl va = true.
Proof. destruct lvl; [done|]. intros H. cbn [wtab]. by rewrite H by apply idx_range. Qed.

Lemma land_page_low i k : 0 ≤ k < 4096 → Z.land (i * UIX_PAGE_SIZE) k = 0.
Proof.
  intros Hk. replace k with (Z.land (Z.ones 12) k).
  2:{ rewrite Z.land_comm, Z.land_ones by lia. by apply Z.mod_small. }
  rewrite Z.land_assoc, Z.land_ones by lia. unfold UIX_PAGE_SIZE.
  change (2 ^ 12) with 4096. by rewrite Z.mod_mul.
Qed.

Lemma land_page_mask i : 0 ≤ i < 2 ^ 40 → Z.land (i * UIX_PAGE_SIZE) PTE_MASK = i * UIX_PAGE_SIZE.
Proof.
  intros Hi. unfold UIX_PAGE_SIZE. change 4096 with (2 ^ 12). rewrite <-Z.shiftl_mul_pow2 by lia.
  change PTE_MASK with (Z.ones 40 ≪ 12). rewrite <-Z.shiftl_land, Z.land_ones by lia.
  by rewrite Z.mod_small.
Qed.

(** A page address with flags in the low bits. *)
Lemma land_lor_page i f k :
  0 ≤ k < 4096 → Z.land (Z.lor (i * UIX_PAGE_SIZE) f) k = Z.land f k.
Proof. intros Hk. by rewrite Z.land_lor_distr_l, land_page_low by done. Qed.

Lemma table_entry_ok i lvl :
  0 ≤ i < 2 ^ 40 →
  let e := Z.lor (i * UIX_PAGE_SIZE) TABLE_FLAGS in
  Z.land e PTE_MASK = i * UIX_PAGE_SIZE ∧ next_tbl (S lvl) e = true ∧ 0 ≤ e < 2 ^ 64.
Proof.
  intros Hi e. split_and!.
  - unfold e. rewrite Z.land_lor_distr_l, land_page_mask by done. by rewrite Z.lor_0_r.
  - unfold next_tbl, has, e. rewrite land_lor_page by done.
    destruct lvl as [|[|]]; cbn [is_leaf]; unfold has; rewrite ?land_lor_page by done; done.
  - apply Z.lor_nonneg. unfold UIX_PAGE_SIZE. change TABLE_FLAGS with 7. lia.
  - apply lor_range; unfold UIX_PAGE_SIZE; change TABLE_FLAGS with 7; lia.
Qed.

End PageTables.
