(* ===== verification/VmmFacts.v ===== *)
(** * Facts on the virtual memory manager

    Every table of the current address space is a page the allocator has handed
    out, and no page holds two tables.  The operations of [vmm.c] keep this,
    and change only the tables, free pages and the allocator's own memory. *)

From S2P Require Import Prelude Lib Pmm PmmFacts PmmProps Vmm PageTables.

Module VmmFacts.
Import Lib Pmm PmmFacts PmmProps Vmm PageTables.

(** ** Invariant *)

(** The page at physical address [T] is handed out by the allocator. *)
Definition tbl_page (p : pmm_st) (T : Z) : Prop :=
  T mod UIX_PAGE_SIZE = 0 ∧ client_page p (T / UIX_PAGE_SIZE).

Record wf_tree (p : pmm_st) (root : Z) : Prop := WfTree {
  wt_nodup : NoDup (tpages 3 (pm p) root);
  wt_page : ∀ T, T ∈ tpages 3 (pm p) root → tbl_page p T;
}.

Record wf_vm (s : vmm_st) : Prop := WfVm {
  wv_pmm : wf (vp s);
  wv_tree : wf_tree (vp s) (cr3 s);
  wv_pml4 : pml4 s = hhdm (vp s) + cr3 s;
  wv_width : bitmap_len (vp s) ≤ 2 ^ 40;
  wv_low : UIX_PAGE_SIZE ≤ hhdm (vp s);
}.

(** The bytes of page [q]. *)
Definition same_bytes (m m' : mem) (q : Z) : Prop :=
  ∀ a, q * UIX_PAGE_SIZE ≤ a < (q + 1) * UIX_PAGE_SIZE → ld8 m' a = ld8 m a.

(** The allocator afterwards: it may have handed out pages, and of the pages
    that were already handed out only those of [X] were written. *)
Record step (X : gset Z) (p p' : pmm_st) : Prop := Step {
  st_wf : wf p';
  st_hhdm : hhdm p' = hhdm p;
  st_bitmap : bitmap p' = bitmap p;
  st_len : bitmap_len p' = bitmap_len p;
  st_total : total_pages p' = total_pages p;
  st_phys : bitmap_phys p' = bitmap_phys p;
  st_rc : refcounts p' = refcounts p;
  st_free : free_set p' ⊆ free_set p;
  st_mem : ∀ q, client_page p q → q ∉ X → same_bytes (pm p) (pm p') q;
}.

(** The page numbers of the tables of an address space. *)
Definition tset (p : pmm_st) (root : Z) : gset Z :=
  list_to_set ((λ T, T / UIX_PAGE_SIZE) <$> tpages 3 (pm p) root).

(** ** Steps compose *)

Lemma step_refl X p : wf p → step X p p.
Proof. intros Hwf. by split. Qed.

Lemma step_client X p p' q : step X p p' → client_page p q → client_page p' q.
Proof.
  intros [] []. split; unfold rc_phys, rc_size in *;
    rewrite ?st_len0, ?st_phys0, ?st_rc0, ?st_hhdm0, ?st_total0; [done| |done|done].
  intros Hq. by apply cp_used0, st_free0.
Qed.

Lemma step_then X Y p p' p'' :
  step X p p' → step Y p' p'' → (∀ q, client_page p q → q ∈ Y → q ∈ X) → step X p p''.
Proof.
  intros H1 H2 HXY. split; [apply H2|..].
  - by rewrite (st_hhdm _ _ _ H2), (st_hhdm _ _ _ H1).
  - by rewrite (st_bitmap _ _ _ H2), (st_bitmap _ _ _ H1).
  - by rewrite (st_len _ _ _ H2), (st_len _ _ _ H1).
  - by rewrite (st_total _ _ _ H2), (st_total _ _ _ H1).
  - by rewrite (st_phys _ _ _ H2), (st_phys _ _ _ H1).
  - by rewrite (st_rc _ _ _ H2), (st_rc _ _ _ H1).
  - etrans; [apply H2|apply H1].
  - intros q Hq HX a Ha. rewrite (st_mem _ _ _ H2 q (step_client _ _ _ _ H1 Hq)); [|auto|done].
    by apply (st_mem _ _ _ H1 q).
Qed.

Lemma step_trans X p p' p'' : step X p p' → step X p' p'' → step X p p''.
Proof. intros H1 H2. by apply (step_then X X p p'). Qed.

Lemma step_weaken X Y p p' : step X p p' → (∀ q, client_page p q → q ∈ X → q ∈ Y) → step Y p p'.
Proof.
  intros H HXY. split; try apply H. intros q Hq HY. apply H; [done|]. intros HX. by apply HY, HXY.
Qed.

Lemma step_tbl_page X p p' T : step X p p' → tbl_page p T → tbl_page p' T.
Proof. intros H [? ?]. split; [done|]. by eapply step_client. Qed.

(** ** Pages and tables *)

Lemma tbl_page_bounds p T :
  wf p → tbl_page p T → 0 ≤ T ∧ T + UIX_PAGE_SIZE ≤ bitmap_len p * UIX_PAGE_SIZE ∧
  T = T / UIX_PAGE_SIZE * UIX_PAGE_SIZE.
Proof.
  intros Hwf [Hm [Hr _ _ _]]. unfold UIX_PAGE_SIZE in *.
  pose proof (Z.div_mod T 4096). lia.
Qed.

Lemma same_bytes_tbl m m' q : same_bytes m m' q → same_tbl m m' (q * UIX_PAGE_SIZE).
Proof.
  intros H i Hi. unfold entry. apply ldn_ext. intros a Ha. apply H. unfold UIX_PAGE_SIZE in *. lia.
Qed.

Lemma step_same_tbl X p p' T :
  step X p p' → wf p → tbl_page p T → T / UIX_PAGE_SIZE ∉ X → same_tbl (pm p) (pm p') T.
Proof.
  intros H Hwf HT HX. destruct (tbl_page_bounds p T Hwf HT) as (_ & _ & ->).
  apply same_bytes_tbl. apply H; [apply HT|].  done.
Qed.

Section table_access.
Context (s : vmm_st) (T i : Z).
Context (Hwf : wf (vp s)) (HT : tbl_page (vp s) T) (Hi : 0 ≤ i < 512).

Lemma tbl_in_hhdm : in_hhdm (vp s) (hhdm (vp s) + T + 8 * i) 8 = true.
Proof.
  destruct (tbl_page_bounds _ _ Hwf HT) as (? & ? & _).
  replace (hhdm (vp s) + T + 8 * i) with (hhdm (vp s) + (T + 8 * i)) by lia.
  apply in_hhdm_pages; [done|lia|]. unfold UIX_PAGE_SIZE in *. lia.
Qed.

Lemma tload_run : tload (hhdm (vp s) + T) i s = Ok (entry (pm (vp s)) T i) s.
Proof.
  unfold tload, liftp, zoom, hload. change (Z.of_nat 8) with 8. rewrite tbl_in_hhdm.
  unfold entry. replace (hhdm (vp s) + T + 8 * i - hhdm (vp s)) with (T + 8 * i) by lia.
  by destruct s.
Qed.

(** The allocator's state after [e] is written to entry [i] of the table. *)
Definition wr (T i e : Z) (p : pmm_st) : pmm_st := set_pm (st64 (T + 8 * i) e (pm p)) p.

Lemma tstore_run e : tstore (hhdm (vp s) + T) i e s = Ok tt (set_vp (wr T i e (vp s)) s).
Proof.
  unfold tstore, liftp, zoom, hstore. change (Z.of_nat 8) with 8. rewrite tbl_in_hhdm.
  replace (hhdm (vp s) + T + 8 * i - hhdm (vp s)) with (T + 8 * i) by lia. done.
Qed.

Lemma p2v_run : p2v T s = Ok (hhdm (vp s) + T) s.
Proof.
  destruct (tbl_page_bounds _ _ Hwf HT) as (? & ? & _). unfold p2v, gets. f_equal.
  apply phys_to_virt_page; [done|]. unfold UIX_PAGE_SIZE in *. lia.
Qed.
End table_access.

(** Writes to a handed-out page. *)
Lemma step_write p m q :
  wf p → client_page p q →
  (∀ a, a < q * UIX_PAGE_SIZE ∨ (q + 1) * UIX_PAGE_SIZE ≤ a → ld8 m a = ld8 (pm p) a) →
  step {[q]} p (set_pm m p) ∧ free_set (set_pm m p) = free_set p.
Proof.
  intros Hwf Hq Hm.
  assert (eq_bitmap p m) as Hb.
  { intros a Ha. apply Hm. pose proof (cp_bitmap _ _ Hq) as Hd. unfold page_disjoint in Hd. lia. }
  pose proof (mem_free_set p m Hb) as Hfs. split; [|done].
  split; try done; [by apply wf_mem|by rewrite Hfs|].
  intros q' Hq' Hne a Ha. apply Hm. assert (q' ≠ q) by set_solver. unfold UIX_PAGE_SIZE in *. lia.
Qed.

Lemma step_wr p T i e :
  wf p → tbl_page p T → 0 ≤ i < 512 →
  step {[T / UIX_PAGE_SIZE]} p (wr T i e p) ∧ free_set (wr T i e p) = free_set p.
Proof.
  intros Hwf HT Hi. destruct (tbl_page_bounds _ _ Hwf HT) as (? & ? & E). apply step_write; [done|apply HT|].
  intros a Ha. apply ld8_stn_out. unfold UIX_PAGE_SIZE in *. lia.
Qed.

Lemma entry_wr p T i e T' j :
  wf p → tbl_page p T → tbl_page p T' → 0 ≤ i < 512 → 0 ≤ j < 512 → 0 ≤ e < 2 ^ 64 →
  entry (pm (wr T i e p)) T' j = if (T' =? T) && (j =? i) then e else entry (pm p) T' j.
Proof.
  intros Hwf HT HT' Hi Hj He.
  destruct (tbl_page_bounds _ _ Hwf HT) as (? & _ & E), (tbl_page_bounds _ _ Hwf HT') as (? & _ & E').
  unfold entry, wr. cbn [pm set_pm].
  destruct (Z.eqb_spec T' T) as [->|HTT]; [destruct (Z.eqb_spec j i) as [->|]|]; cbn [andb].
  - by apply ld64_st64_eq.
  - apply ldn_stn_ne. lia.
  - apply ldn_stn_ne. unfold UIX_PAGE_SIZE in *. lia.
Qed.

(** ** New tables *)

Lemma step_taken p i :
  wf p → i ∈ free_set p →
  step ∅ p (taken i p) ∧ client_page (taken i p) i ∧ free_set (taken i p) = free_set p ∖ {[i]}.
Proof.
  intros Hwf Hi. destruct (wf_taken p i Hwf Hi) as (Hwf' & Hfr & Hfs & _). split_and!.
  - split; try apply Hfr; [done|rewrite Hfs; set_solver|].
    intros q Hq _ a Ha. apply Hfr. pose proof (cp_bitmap _ _ Hq) as Hd. unfold page_disjoint in Hd. lia.
  - apply (free_client p); [done..|]. rewrite Hfs. set_solver.
  - done.
Qed.

(** [pmm_alloc] as the manager uses it: 0 when nothing is free or when it hands
    out page 0. *)
Lemma alloc_run s :
  wf (vp s) →
  (∃ p', liftp pmm_alloc s = Ok 0 (set_vp p' s) ∧ (free_set (vp s) = ∅ ∨ 0 ∈ free_set (vp s))) ∨
  (∃ i, i ∈ free_set (vp s) ∧ i ≠ 0 ∧
     liftp pmm_alloc s = Ok (i * UIX_PAGE_SIZE) (set_vp (taken i (vp s)) s)).
Proof.
  intros Hwf. unfold liftp, zoom.
  destruct (pmm_alloc_cases (vp s) Hwf) as [[Hf He]|(off & _ & Hi & He & _)]; rewrite He.
  - left. eexists. split; [done|by left].
  - set (i := (next_free_scan (vp s) + off) mod bitmap_len (vp s)) in *.
    destruct (decide (i = 0)) as [E|E]; [|right; by exists i].
    left. rewrite E. eexists. split; [done|]. right. by rewrite <-E.
Qed.

Lemma tbl_page_of p i : client_page p i → tbl_page p (i * UIX_PAGE_SIZE).
Proof. intros H. split; [by apply Z.mod_mul|]. by rewrite Z.div_mul. Qed.

(** The allocator's state with page [i] cleared. *)
Definition clear_page (i : Z) (p : pmm_st) : pmm_st :=
  set_pm (memset (i * UIX_PAGE_SIZE) 0 (Z.to_nat UIX_PAGE_SIZE) (pm p)) p.

Lemma step_clear p i :
  wf p → client_page p i →
  step {[i]} p (clear_page i p) ∧ free_set (clear_page i p) = free_set p ∧
  ∀ j, 0 ≤ j < 512 → entry (pm (clear_page i p)) (i * UIX_PAGE_SIZE) j = 0.
Proof.
  intros Hwf Hi. rewrite (assoc and). split.
  - apply step_write; [done|done|]. intros a Ha. rewrite ld8_memset. unfold UIX_PAGE_SIZE in *.
    case_zbool; simpl; done || lia.
  - intros j Hj. unfold entry. apply ldn_memset_0; unfold UIX_PAGE_SIZE; lia.
Qed.

Lemma hmemset_page s i :
  wf (vp s) → client_page (vp s) i →
  liftp (hmemset (hhdm (vp s) + i * UIX_PAGE_SIZE) 0 UIX_PAGE_SIZE) s =
    Ok tt (set_vp (clear_page i (vp s)) s).
Proof.
  intros Hwf Hi. pose proof (cp_range _ _ Hi). unfold liftp, zoom, hmemset.
  rewrite in_hhdm_pages by (done || unfold UIX_PAGE_SIZE; lia).
  by replace (hhdm (vp s) + i * UIX_PAGE_SIZE - hhdm (vp s)) with (i * UIX_PAGE_SIZE) by lia.
Qed.

(** A page that was free, is now handed out and holds an empty table. *)
Record fresh_table (p p' : pmm_st) (i : Z) : Prop := FreshTable {
  ft_free : i ∈ free_set p;
  ft_nz : i ≠ 0;
  ft_step : step ∅ p p';
  ft_set : free_set p' = free_set p ∖ {[i]};
  ft_client : client_page p' i;
  ft_zero : ∀ j, 0 ≤ j < 512 → entry (pm p') (i * UIX_PAGE_SIZE) j = 0;
}.

Lemma fresh_table_intro p i :
  wf p → i ∈ free_set p → i ≠ 0 → fresh_table p (clear_page i (taken i p)) i.
Proof.
  intros Hwf Hi Hnz. destruct (step_taken p i Hwf Hi) as (Hst & Hc & Hfs).
  destruct (step_clear (taken i p) i (st_wf _ _ _ Hst) Hc) as (Hst2 & Hfs2 & Hz).
  split; [done|done| |by rewrite Hfs2|by eapply step_client|done].
  eapply step_then; [exact Hst|exact Hst2|]. intros q Hq ->%elem_of_singleton.
  by destruct (cp_used _ _ Hq).
Qed.

Lemma new_table_run msg s :
  wf (vp s) →
  (∃ s', new_table msg s = Stop (Panic msg) s' ∧ (free_set (vp s) = ∅ ∨ 0 ∈ free_set (vp s))) ∨
  (∃ i p', new_table msg s = Ok (i * UIX_PAGE_SIZE) (set_vp p' s) ∧ fresh_table (vp s) p' i).
Proof.
  intros Hwf. unfold new_table. destruct (alloc_run s Hwf) as [(p' & He & Hf)|(i & Hi & Hnz & He)].
  - left. rewrite (bind_Ok_eq _ _ _ _ _ He). eexists. split; [done|done].
  - right. exists i, (clear_page i (taken i (vp s))). split; [|by apply fresh_table_intro].
    rewrite (bind_Ok_eq _ _ _ _ _ He). destruct (step_taken (vp s) i Hwf Hi) as (Hst & Hc & _).
    rewrite (proj2 (Z.eqb_neq _ _)) by (unfold UIX_PAGE_SIZE; lia).
    set (s1 := set_vp (taken i (vp s)) s).
    rewrite (bind_Ok_eq _ _ s1 (hhdm (vp s1) + i * UIX_PAGE_SIZE) s1).
    2:{ apply p2v_run; [apply Hst|by apply tbl_page_of]. }
    rewrite (bind_Ok_eq _ _ s1 tt (set_vp (clear_page i (vp s1)) s1)); [done|].
    apply hmemset_page; [apply Hst|done].
Qed.

(** ** Adding a table to the tree *)

Lemma fresh_tables p p' root i :
  wf p → wf_tree p root → fresh_table p p' i →
  (∀ T, T ∈ tpages 3 (pm p) root → same_tbl (pm p) (pm p') T) ∧
  tpages 3 (pm p') root = tpages 3 (pm p) root ∧
  i * UIX_PAGE_SIZE ∉ tpages 3 (pm p) root.
Proof.
  intros Hwf Ht Hf.
  assert (∀ T, T ∈ tpages 3 (pm p) root → same_tbl (pm p) (pm p') T) as Hs.
  { intros T HT. apply (step_same_tbl ∅); [apply Hf|done|by apply Ht|set_solver]. }
  split_and!; [done|by apply tpages_ext|].
  intros HT. apply Ht in HT as [_ Hc]. rewrite Z.div_mul in Hc by done.
  apply (cp_used _ _ Hc), Hf.
Qed.

Lemma elem_of_tset p root T : T ∈ tpages 3 (pm p) root → T / UIX_PAGE_SIZE ∈ tset p root.
Proof. intros HT. unfold tset. apply elem_of_list_to_set, list_elem_of_fmap. eauto. Qed.

(** What linking a new table into the tree gives. *)
Record grown (s s' : vmm_st) : Prop := Grown {
  gr_wf : wf_vm s';
  gr_cr3 : cr3 s' = cr3 s;
  gr_pml4 : pml4 s' = pml4 s;
  gr_step : step (tset (vp s) (cr3 s)) (vp s) (vp s');
  gr_walk : ∀ va, walk 3 (pm (vp s')) (cr3 s) va = walk 3 (pm (vp s)) (cr3 s) va;
  gr_tables : ∀ T, T ∈ tpages 3 (pm (vp s')) (cr3 s) →
    T ∈ tpages 3 (pm (vp s)) (cr3 s) ∨ T / UIX_PAGE_SIZE ∈ free_set (vp s);
  gr_wtab : ∀ va, wtab 3 (pm (vp s)) (cr3 s) va = true → wtab 3 (pm (vp s')) (cr3 s) va = true;
}.

Lemma graft s va l T p1 i :
  wf_vm s → path (pm (vp s)) va 3 (cr3 s) (S l) T →
  has (entry (pm (vp s)) T (idx (S l) va)) VMM_PRESENT = false →
  fresh_table (vp s) p1 i →
  let s' := set_vp (wr T (idx (S l) va) (Z.lor (i * UIX_PAGE_SIZE) TABLE_FLAGS) p1) s in
  grown s s' ∧ path (pm (vp s')) va 3 (cr3 s) (S l) T ∧
  entry (pm (vp s')) T (idx (S l) va) = Z.lor (i * UIX_PAGE_SIZE) TABLE_FLAGS ∧
  free_set (vp s') = free_set (vp s) ∖ {[i]}.
Proof.
  intros Hv Hp Hnp Hf s'. pose proof (wv_pmm _ Hv) as Hwf. pose proof (wv_tree _ Hv) as Ht.
  destruct (fresh_tables _ _ _ _ Hwf Ht Hf) as (Hs & Htp & Hni).
  pose proof (ft_step _ _ _ Hf) as Hst. pose proof (st_wf _ _ _ Hst) as Hwf1.
  assert (∀ T', T' ∈ tpages 3 (pm (vp s)) (cr3 s) → tbl_page p1 T') as Hpg.
  { intros T' HT'. eapply step_tbl_page; [done|by apply Ht]. }
  pose proof (path_tpages _ _ _ _ _ _ Hp) as HT.
  pose proof (path_ext _ _ _ _ _ _ _ Hp Hs) as Hp1.
  assert (0 ≤ i < 2 ^ 40) as Hi.
  { pose proof (cp_range _ _ (ft_client _ _ _ Hf)). pose proof (wv_width _ Hv).
    rewrite (st_len _ _ _ Hst) in *. lia. }
  destruct (table_entry_ok i l Hi) as (Hmask & Hnext & Hrange).
  set (e := Z.lor (i * UIX_PAGE_SIZE) TABLE_FLAGS) in *.
  pose proof (step_wr p1 T (idx (S l) va) e Hwf1 (Hpg _ HT) (idx_range _ _)) as [Hst2 Hfs2].
  set (p2 := wr T (idx (S l) va) e p1) in *. change (vp s') with p2.
  assert (i * UIX_PAGE_SIZE ≠ T) as HiT by (intros E; apply Hni; by rewrite E).
  assert (∀ T' j, tbl_page p1 T' → 0 ≤ j < 512 →
    entry (pm p2) T' j = if (T' =? T) && (j =? idx (S l) va) then e else entry (pm p1) T' j) as Hent.
  { intros T' j HT' Hj. by apply entry_wr; [|apply Hpg| | | |]; try apply idx_range. }
  assert (upd_at (tpages 3 (pm p1) (cr3 s)) (pm p1) (pm p2) T (idx (S l) va) e) as Hu.
  { intros T' j HT' Hj. rewrite Htp in HT'. by apply Hent; [apply Hpg|]. }
  assert (∀ j, 0 ≤ j < 512 → entry (pm p2) (i * UIX_PAGE_SIZE) j = 0) as Hz.
  { intros j Hj. rewrite Hent; [|apply tbl_page_of, Hf|done].
    rewrite (proj2 (Z.eqb_neq _ _) HiT). by apply Hf. }
  assert (NoDup (tpages 3 (pm p1) (cr3 s))) as Hnd by (rewrite Htp; apply Ht).
  assert (entry (pm p1) T (idx (S l) va) = entry (pm (vp s)) T (idx (S l) va)) as Hold
    by (apply Hs; [done|apply idx_range]).
  assert (tpages 3 (pm p2) (cr3 s) ≡ₚ tpages 3 (pm (vp s)) (cr3 s) ++ [i * UIX_PAGE_SIZE]) as Hperm.
  { rewrite (tpages_upd _ _ _ _ _ _ _ _ Hp1 Hnd Hu).
    - cbn [sub_pages]. by rewrite Hnext, Hmask, (tpages_empty l (pm p2)), Htp.
    - rewrite Hold. unfold next_tbl. by rewrite Hnp. }
  assert (step (tset (vp s) (cr3 s)) (vp s) p2) as Hstep.
  { eapply step_then; [eapply step_weaken; [exact Hst|]|exact Hst2|].
    { by intros q _ ?%not_elem_of_empty. }
    intros q _ ->%elem_of_singleton. by apply elem_of_tset. }
  split_and!.
  - split; [|done|done|done| | |].
    + split; [apply Hst2| | | |].
      * change (wf_tree p2 (cr3 s)).
        split; [rewrite Hperm; apply NoDup_app; split_and!; [apply Ht| |apply NoDup_singleton]|].
        { intros T' HT' ->%list_elem_of_singleton. by apply Hni. }
        intros T'. rewrite Hperm, elem_of_app, list_elem_of_singleton.
        intros [HT'| ->]; (eapply step_tbl_page; [exact Hst2|]); [by apply Hpg|apply tbl_page_of, Hf].
      * change (pml4 s = hhdm p2 + cr3 s). rewrite (st_hhdm _ _ _ Hstep). apply Hv.
      * change (bitmap_len p2 ≤ 2 ^ 40). rewrite (st_len _ _ _ Hstep). apply Hv.
      * change (UIX_PAGE_SIZE ≤ hhdm p2). rewrite (st_hhdm _ _ _ Hstep). apply Hv.
    + intros va'. change (vp s') with p2. rewrite (walk_upd _ _ _ _ _ _ _ _ Hp1 Hnd Hu).
      destruct (decide (same_idx 3 (S l) va va')) as [Hsi|Hsi]; [|by apply walk_ext].
      rewrite walk_e_next, Hmask, walk_empty by done.
      rewrite (walk_path _ _ _ _ _ _ _ Hp (wt_nodup _ _ Ht) Hsi). unfold walk_e. by rewrite Hnp.
    + intros T'. change (vp s') with p2. rewrite Hperm, elem_of_app, list_elem_of_singleton.
      intros [?| ->]; [by left|right]. rewrite Z.div_mul by done. apply Hf.
    + intros va' Hw. change (vp s') with p2. apply (wtab_upd _ _ _ _ _ _ _ _ Hp1 Hnd Hu).
      * by rewrite (wtab_ext 3 _ _ _ _ Hs).
      * cbn [wtab_e]. rewrite Hnext, Hmask, wtab_empty by done. unfold has, e. by rewrite land_lor_page.
  - by eapply path_upd.
  - rewrite Hent; [|by apply Hpg|apply idx_range]. by rewrite !Z.eqb_refl.
  - rewrite Hfs2. apply Hf.
Qed.

Lemma grown_refl s : wf_vm s → grown s s.
Proof. intros H. split; try done; [apply step_refl, H|]. intros T HT. by left. Qed.

Lemma tset_inv p root q : q ∈ tset p root → ∃ T, T ∈ tpages 3 (pm p) root ∧ q = T / UIX_PAGE_SIZE.
Proof.
  unfold tset. rewrite elem_of_list_to_set, list_elem_of_fmap. intros (T & -> & HT). by exists T.
Qed.

Lemma grown_step s s' p :
  grown s s' → step (tset (vp s') (cr3 s')) (vp s') p → step (tset (vp s) (cr3 s)) (vp s) p.
Proof.
  intros H1 H2. eapply step_then; [apply H1|exact H2|]. rewrite (gr_cr3 _ _ H1).
  intros q Hq (T & HT & ->)%tset_inv. destruct (gr_tables _ _ H1 T HT) as [?|Hf]; [by apply elem_of_tset|].
  by destruct (cp_used _ _ Hq).
Qed.

Lemma grown_trans s s' s'' : grown s s' → grown s' s'' → grown s s''.
Proof.
  intros H1 H2. pose proof (gr_cr3 _ _ H1) as Hc.
  split; [apply H2|by rewrite (gr_cr3 _ _ H2)|by rewrite (gr_pml4 _ _ H2), (gr_pml4 _ _ H1)|..].
  - apply (grown_step s s'); [done|apply H2].
  - intros va. rewrite <-(gr_walk _ _ H1), <-Hc. apply H2.
  - intros T HT. rewrite <-Hc in HT. apply (gr_tables _ _ H2) in HT as [HT|HT].
    + rewrite Hc in HT. by apply (gr_tables _ _ H1).
    + right. by apply (gr_step _ _ H1).
  - intros va Hw%(gr_wtab _ _ H1). rewrite <-Hc in *. by apply H2.
Qed.

(** ** Walking down one level *)

Lemma path_tbl_page s va l T :
  wf_vm s → path (pm (vp s)) va 3 (cr3 s) l T → tbl_page (vp s) T.
Proof. intros H Hp. apply H. by eapply path_tpages. Qed.

Lemma ensure_run s va l T :
  wf_vm s → path (pm (vp s)) va 3 (cr3 s) (S l) T →
  (∃ s', ensure_table (hhdm (vp s) + T) (idx (S l) va) true s =
           Stop (Panic "vmm: OOM building tables") s' ∧
         has (entry (pm (vp s)) T (idx (S l) va)) VMM_PRESENT = false ∧
         (free_set (vp s) = ∅ ∨ 0 ∈ free_set (vp s))) ∨
  (∃ s', ensure_table (hhdm (vp s) + T) (idx (S l) va) true s = Ok true s' ∧ grown s s' ∧
     path (pm (vp s')) va 3 (cr3 s) (S l) T ∧
     has (entry (pm (vp s')) T (idx (S l) va)) VMM_PRESENT = true ∧
     (s' = s ∨ is_leaf (S l) (entry (pm (vp s')) T (idx (S l) va)) = false) ∧
     (size (free_set (vp s)) ≤ size (free_set (vp s')) + 1)%nat).
Proof.
  intros Hv Hp. pose proof (path_tbl_page _ _ _ _ Hv Hp) as HT. pose proof (wv_pmm _ Hv) as Hwf.
  unfold ensure_table.
  rewrite (bind_Ok_eq _ _ _ _ _ (tload_run s T _ Hwf HT (idx_range (S l) va))).
  destruct (has (entry (pm (vp s)) T (idx (S l) va)) VMM_PRESENT) eqn:E.
  { right. exists s. split_and!; [done|by apply grown_refl|done|done|by left|lia]. }
  cbn [negb]. destruct (new_table_run "vmm: OOM building tables" s Hwf) as [(s' & He & Hf)|(i & p1 & He & Hf)].
  { left. exists s'. by rewrite (bind_Stop_eq _ _ _ _ _ He). }
  right. rewrite (bind_Ok_eq _ _ _ _ _ He).
  destruct (graft s va l T p1 i Hv Hp E Hf) as (Hg & Hp' & He' & Hfs).
  set (s1 := set_vp p1 s). pose proof (ft_step _ _ _ Hf) as Hst.
  replace (hhdm (vp s)) with (hhdm (vp s1)) by apply Hst.
  rewrite (bind_Ok_eq _ _ _ _ _ (tstore_run s1 T _ (st_wf _ _ _ Hst) (step_tbl_page _ _ _ _ Hst HT)
    (idx_range (S l) va) _)).
  change (set_vp (wr T (idx (S l) va) (Z.lor (i * UIX_PAGE_SIZE) TABLE_FLAGS) (vp s1)) s1) with
    (set_vp (wr T (idx (S l) va) (Z.lor (i * UIX_PAGE_SIZE) TABLE_FLAGS) p1) s).
  eexists. split_and!; [reflexivity|exact Hg|exact Hp'| | |].
  - rewrite He'. unfold has. by rewrite land_lor_page.
  - right. rewrite He'. destruct l as [|[|]]; cbn [is_leaf]; unfold has; rewrite ?land_lor_page; done.
  - rewrite Hfs. pose proof (size_diff_elem _ _ (ft_free _ _ _ Hf)). lia.
Qed.

(** The entry read after [ensure_table], and the table it leads to. *)
Lemma enter_run s s1 va l T :
  grown s s1 → path (pm (vp s1)) va 3 (cr3 s) (S l) T →
  let e := entry (pm (vp s1)) T (idx (S l) va) in
  has e VMM_PRESENT = true →
  tload (hhdm (vp s) + T) (idx (S l) va) s1 = Ok e s1 ∧
  (if is_leaf (S l) e then walk 3 (pm (vp s)) (cr3 s) va = Some (S l, e)
   else p2v (Z.land e PTE_MASK) s1 = Ok (hhdm (vp s) + Z.land e PTE_MASK) s1 ∧
        path (pm (vp s1)) va 3 (cr3 s) l (Z.land e PTE_MASK)).
Proof.
  intros Hg Hp e He. pose proof (gr_wf _ _ Hg) as Hv. pose proof (wv_pmm _ Hv) as Hwf.
  rewrite <-(gr_cr3 _ _ Hg) in Hp. pose proof (path_tbl_page _ _ _ _ Hv Hp) as HT.
  rewrite <-(st_hhdm _ _ _ (gr_step _ _ Hg)). split; [by apply tload_run, idx_range|].
  destruct (is_leaf (S l) e) eqn:El.
  - rewrite <-(gr_walk _ _ Hg), <-(gr_cr3 _ _ Hg).
    rewrite (walk_path _ _ _ _ _ _ _ Hp (wt_nodup _ _ (wv_tree _ Hv)) (same_idx_refl _ _ _)).
    fold e. unfold walk_e. by rewrite He, El.
  - assert (path (pm (vp s1)) va 3 (cr3 s1) l (Z.land e PTE_MASK)) as Hp'.
    { apply path_snoc; [done|]. unfold next_tbl. fold e. by rewrite He, El. }
    split; [|by rewrite <-(gr_cr3 _ _ Hg)]. apply p2v_run; [done|]. by eapply path_tbl_page.
Qed.

(** One level of [pt_for], after [n] earlier levels. *)
Lemma level_run s s0 va l T n :
  grown s s0 → path (pm (vp s0)) va 3 (cr3 s) (S l) T →
  (size (free_set (vp s)) ≤ size (free_set (vp s0)) + n)%nat →
  (∃ s', ensure_table (hhdm (vp s) + T) (idx (S l) va) true s0 =
           Stop (Panic "vmm: OOM building tables") s' ∧
         walk 3 (pm (vp s)) (cr3 s) va = None ∧
         ((size (free_set (vp s)) ≤ n)%nat ∨ 0 ∈ free_set (vp s))) ∨
  (∃ s1 e, ensure_table (hhdm (vp s) + T) (idx (S l) va) true s0 = Ok true s1 ∧ grown s s1 ∧
     (size (free_set (vp s)) ≤ size (free_set (vp s1)) + S n)%nat ∧
     tload (hhdm (vp s) + T) (idx (S l) va) s1 = Ok e s1 ∧
     (s1 = s0 ∧ e = entry (pm (vp s0)) T (idx (S l) va) ∧ has e VMM_PRESENT = true ∨
      is_leaf (S l) e = false) ∧
     (if is_leaf (S l) e then walk 3 (pm (vp s)) (cr3 s) va = Some (S l, e)
      else p2v (Z.land e PTE_MASK) s1 = Ok (hhdm (vp s) + Z.land e PTE_MASK) s1 ∧
           path (pm (vp s1)) va 3 (cr3 s) l (Z.land e PTE_MASK))).
Proof.
  intros Hg Hp Hn. assert (hhdm (vp s0) = hhdm (vp s)) as Hh by apply (gr_step _ _ Hg).
  rewrite <-(gr_cr3 _ _ Hg) in Hp.
  destruct (ensure_run s0 va l T (gr_wf _ _ Hg) Hp) as [(s' & He & Hnp & Hf)|(s1 & He & Hg1 & Hp1 & Hpr & Hs & Hsz)];
    rewrite Hh in He.
  - left. exists s'. split; [done|]. split.
    { rewrite <-(gr_walk _ _ Hg), <-(gr_cr3 _ _ Hg).
      rewrite (walk_path _ _ _ _ _ _ _ Hp (wt_nodup _ _ (wv_tree _ (gr_wf _ _ Hg))) (same_idx_refl _ _ _)).
      unfold walk_e. by rewrite Hnp. }
    destruct Hf as [Hf|Hf].
    + left. rewrite Hf, size_empty in Hn. lia.
    + right. by apply (gr_step _ _ Hg).
  - right. rewrite (gr_cr3 _ _ Hg) in Hp1. assert (grown s s1) as Hg2 by (by eapply grown_trans).
    destruct (enter_run s s1 va l T Hg2 Hp1 Hpr) as [Hl Hr].
    eexists s1, _. split_and!; [done|done|lia|exact Hl| |exact Hr].
    destruct Hs as [-> |?]; [left; by split_and!|by right].
Qed.

(** ** [pt_for] *)

Lemma pt_for_create s va :
  wf_vm s →
  (∃ s', pt_for va true s = Stop (Panic "vmm: OOM building tables") s' ∧
     walk 3 (pm (vp s)) (cr3 s) va = None ∧
     ((size (free_set (vp s)) < 3)%nat ∨ 0 ∈ free_set (vp s))) ∨
  (∃ s' lvl e, pt_for va true s = Ok 0 s' ∧ grown s s' ∧
     walk 3 (pm (vp s)) (cr3 s) va = Some (S lvl, e)) ∨
  (∃ s' T, pt_for va true s = Ok (hhdm (vp s) + T) s' ∧ grown s s' ∧
     path (pm (vp s')) va 3 (cr3 s) 0 T).
Proof.
  intros Hv. unfold pt_for.
  rewrite (bind_Ok_eq _ _ _ (hhdm (vp s) + cr3 s) s) by (unfold gets; by rewrite (wv_pml4 _ Hv)).
  change (PML4_IDX va) with (idx 3 va). change (PDPT_IDX va) with (idx 2 va).
  change (PD_IDX va) with (idx 1 va).
  destruct (level_run s s va 2 (cr3 s) 0 (grown_refl _ Hv) (path_here _ _ _ _)) as
    [(s' & He & Hno & Hf)|(s1 & e3 & He & Hg1 & Hsz1 & Hl1 & _ & Hv1 & Hp1)]; [lia| |].
  { left. exists s'. rewrite (bind_Stop_eq _ _ _ _ _ He). split_and!; [done..|]. destruct Hf; [left; lia|by right]. }
  rewrite (bind_Ok_eq _ _ _ _ _ He). cbn [negb].
  rewrite (bind_Ok_eq _ _ _ _ _ Hl1), (bind_Ok_eq _ _ _ _ _ Hv1).
  destruct (level_run s s1 va 1 _ 1 Hg1 Hp1 Hsz1) as
    [(s' & He2 & Hno & Hf)|(s2 & e2 & He2 & Hg2 & Hsz2 & Hl2 & _ & Hr2)].
  { left. exists s'. rewrite (bind_Stop_eq _ _ _ _ _ He2). split_and!; [done..|]. destruct Hf; [left; lia|by right]. }
  rewrite (bind_Ok_eq _ _ _ _ _ He2). cbn [negb]. rewrite (bind_Ok_eq _ _ _ _ _ Hl2).
  cbn [is_leaf] in Hr2. destruct (has e2 PDE_PS) eqn:E2.
  { right. left. by exists s2, 1%nat, e2. }
  destruct Hr2 as [Hv2 Hp2]. rewrite (bind_Ok_eq _ _ _ _ _ Hv2). set (T1 := Z.land e2 PTE_MASK) in *.
  pose proof (st_hhdm _ _ _ (gr_step _ _ Hg2)) as Hh2.
  rewrite (bind_Ok_eq _ _ s2 (entry (pm (vp s2)) T1 (idx 1 va)) s2).
  2:{ rewrite <-Hh2. apply tload_run; [apply Hg2| |apply idx_range].
      apply (path_tbl_page s2 va 1); [apply Hg2|by rewrite (gr_cr3 _ _ Hg2)]. }
  destruct (has (entry (pm (vp s2)) T1 (idx 1 va)) VMM_PRESENT &&
            has (entry (pm (vp s2)) T1 (idx 1 va)) PDE_PS) eqn:E1.
  { apply andb_true_iff in E1 as [Hpr Hps]. right. left. exists s2, 0%nat. eexists.
    split_and!; [done|done|]. destruct (enter_run s s2 va 0 T1 Hg2 Hp2 Hpr) as [_ Hr].
    cbn [is_leaf] in Hr. by rewrite Hps in Hr. }
  destruct (level_run s s2 va 0 T1 2 Hg2 Hp2 Hsz2) as
    [(s' & He3 & Hno & Hf)|(s3 & e1 & He3 & Hg3 & _ & Hl3 & Hs3 & Hr3)].
  { left. exists s'. rewrite (bind_Stop_eq _ _ _ _ _ He3). split_and!; [done..|]. destruct Hf; [left; lia|by right]. }
  rewrite (bind_Ok_eq _ _ _ _ _ He3). cbn [negb]. rewrite (bind_Ok_eq _ _ _ _ _ Hl3).
  right. right. exists s3, (Z.land e1 PTE_MASK). cbn [is_leaf] in Hr3, Hs3.
  assert (has e1 PDE_PS = false) as E3; [|rewrite E3 in Hr3; by destruct Hr3].
  destruct Hs3 as [(_ & -> & Hpr)|?]; [|done]. by rewrite Hpr in E1.
Qed.

(** Without creation, [pt_for] only reads. *)
Lemma pt_for_read s va :
  wf_vm s →
  (∃ T, pt_for va false s = Ok (hhdm (vp s) + T) s ∧ path (pm (vp s)) va 3 (cr3 s) 0 T) ∨
  (pt_for va false s = Ok 0 s ∧
     (walk 3 (pm (vp s)) (cr3 s) va = None ∨ ∃ l e, walk 3 (pm (vp s)) (cr3 s) va = Some (S l, e))).
Proof.
  intros Hv. unfold pt_for. pose proof (wv_pmm _ Hv) as Hwf. pose proof (grown_refl _ Hv) as Hg.
  pose proof (wt_nodup _ _ (wv_tree _ Hv)) as Hnd.
  rewrite (bind_Ok_eq _ _ _ (hhdm (vp s) + cr3 s) s) by (unfold gets; by rewrite (wv_pml4 _ Hv)).
  change (PML4_IDX va) with (idx 3 va). change (PDPT_IDX va) with (idx 2 va).
  change (PD_IDX va) with (idx 1 va).
  assert (∀ l T, path (pm (vp s)) va 3 (cr3 s) (S l) T →
    has (entry (pm (vp s)) T (idx (S l) va)) VMM_PRESENT = false → walk 3 (pm (vp s)) (cr3 s) va = None) as Hno.
  { intros l T Hp E. rewrite (walk_path _ _ _ _ _ _ _ Hp Hnd (same_idx_refl _ _ _)). unfold walk_e. by rewrite E. }
  assert (∀ l T, path (pm (vp s)) va 3 (cr3 s) (S l) T → ensure_table (hhdm (vp s) + T) (idx (S l) va) false s =
    Ok (has (entry (pm (vp s)) T (idx (S l) va)) VMM_PRESENT) s) as Hens.
  { intros l T Hp. unfold ensure_table.
    rewrite (bind_Ok_eq _ _ _ _ _ (tload_run s T _ Hwf (path_tbl_page _ _ _ _ Hv Hp) (idx_range (S l) va))).
    by destruct (has _ _). }
  pose proof (path_here (pm (vp s)) va 3 (cr3 s)) as Hp3.
  rewrite (bind_Ok_eq _ _ _ _ _ (Hens _ _ Hp3)).
  destruct (has (entry (pm (vp s)) (cr3 s) (idx 3 va)) VMM_PRESENT) eqn:E3; cbn [negb].
  2:{ right. split; [done|left]. by apply (Hno 2%nat (cr3 s)). }
  destruct (enter_run s s va 2 (cr3 s) Hg Hp3 E3) as [Hl3 [Hv3 Hp2]].
  rewrite (bind_Ok_eq _ _ _ _ _ Hl3), (bind_Ok_eq _ _ _ _ _ Hv3).
  set (T2 := Z.land (entry (pm (vp s)) (cr3 s) (idx 3 va)) PTE_MASK) in *.
  rewrite (bind_Ok_eq _ _ _ _ _ (Hens _ _ Hp2)).
  destruct (has (entry (pm (vp s)) T2 (idx 2 va)) VMM_PRESENT) eqn:E2; cbn [negb].
  2:{ right. split; [done|left]. by apply (Hno 1%nat T2). }
  destruct (enter_run s s va 1 T2 Hg Hp2 E2) as [Hl2 Hr2]. rewrite (bind_Ok_eq _ _ _ _ _ Hl2).
  cbn [is_leaf] in Hr2. destruct (has (entry (pm (vp s)) T2 (idx 2 va)) PDE_PS) eqn:P2.
  { right. split; [done|right]. eauto. }
  destruct Hr2 as [Hv2 Hp1]. rewrite (bind_Ok_eq _ _ _ _ _ Hv2).
  set (T1 := Z.land (entry (pm (vp s)) T2 (idx 2 va)) PTE_MASK) in *.
  rewrite (bind_Ok_eq _ _ _ _ _ (tload_run s T1 _ Hwf (path_tbl_page _ _ _ _ Hv Hp1) (idx_range 1 va))).
  destruct (has (entry (pm (vp s)) T1 (idx 1 va)) VMM_PRESENT) eqn:E1; cbn [andb].
  2:{ rewrite (bind_Ok_eq _ _ _ _ _ (Hens _ _ Hp1)), E1. right. split; [done|left]. by apply (Hno 0%nat T1). }
  destruct (enter_run s s va 0 T1 Hg Hp1 E1) as [Hl1 Hr1]. cbn [is_leaf] in Hr1.
  destruct (has (entry (pm (vp s)) T1 (idx 1 va)) PDE_PS) eqn:P1.
  { right. split; [done|right]. eauto. }
  destruct Hr1 as [Hv1 Hp0]. rewrite (bind_Ok_eq _ _ _ _ _ (Hens _ _ Hp1)), E1. cbn [negb].
  rewrite (bind_Ok_eq _ _ _ _ _ Hl1). left. eauto.
Qed.

(** ** Writing a leaf *)

Lemma leaf_write s va T e :
  wf_vm s → path (pm (vp s)) va 3 (cr3 s) 0 T → 0 ≤ e < 2 ^ 64 →
  let s' := set_vp (wr T (idx 0 va) e (vp s)) s in
  wf_vm s' ∧ step (tset (vp s) (cr3 s)) (vp s) (vp s') ∧ free_set (vp s') = free_set (vp s) ∧
  tpages 3 (pm (vp s')) (cr3 s) ≡ₚ tpages 3 (pm (vp s)) (cr3 s) ∧
  path (pm (vp s')) va 3 (cr3 s) 0 T ∧ entry (pm (vp s')) T (idx 0 va) = e ∧
  (∀ va', walk 3 (pm (vp s')) (cr3 s) va' =
    if decide (same_page va va') then (if has e VMM_PRESENT then Some (0%nat, e) else None)
    else walk 3 (pm (vp s)) (cr3 s) va') ∧
  ∀ va', wtab 3 (pm (vp s)) (cr3 s) va' = true → wtab 3 (pm (vp s')) (cr3 s) va' = true.
Proof.
  intros Hv Hp He s'. pose proof (wv_pmm _ Hv) as Hwf. pose proof (wv_tree _ Hv) as Ht.
  pose proof (path_tbl_page _ _ _ _ Hv Hp) as HT. pose proof (path_tpages _ _ _ _ _ _ Hp) as HTin.
  destruct (step_wr (vp s) T (idx 0 va) e Hwf HT (idx_range _ _)) as [Hst Hfs].
  set (p' := wr T (idx 0 va) e (vp s)) in *. change (vp s') with p'.
  assert (upd_at (tpages 3 (pm (vp s)) (cr3 s)) (pm (vp s)) (pm p') T (idx 0 va) e) as Hu.
  { intros T' j HT' Hj. apply entry_wr; [done|done|by apply Ht|apply idx_range|done|done]. }
  pose proof (tpages_upd _ _ _ _ _ _ _ _ Hp (wt_nodup _ _ Ht) Hu (next_tbl_0 _)) as Hperm.
  cbn [sub_pages] in Hperm. rewrite app_nil_r in Hperm.
  split_and!; [|by eapply step_weaken; [exact Hst|]; intros q _ ->%elem_of_singleton; apply elem_of_tset|done|done|..].
  - split; [apply Hst| | | |].
    + change (wf_tree p' (cr3 s)). split; [rewrite Hperm; apply Ht|].
      intros T'. rewrite Hperm. intros HT'. eapply step_tbl_page; [done|by apply Ht].
    + change (pml4 s = hhdm p' + cr3 s). rewrite (st_hhdm _ _ _ Hst). apply Hv.
    + change (bitmap_len p' ≤ 2 ^ 40). rewrite (st_len _ _ _ Hst). apply Hv.
    + change (UIX_PAGE_SIZE ≤ hhdm p'). rewrite (st_hhdm _ _ _ Hst). apply Hv.
  - by eapply path_upd, Hu; [|apply Ht].
  - rewrite Hu by (done || apply idx_range). by rewrite !Z.eqb_refl.
  - intros va'. rewrite (walk_upd _ _ _ _ _ _ _ _ Hp (wt_nodup _ _ Ht) Hu). done.
  - intros va' Hw. by apply (wtab_upd _ _ _ _ _ _ _ _ Hp (wt_nodup _ _ Ht) Hu).
Qed.

End VmmFacts.
