(* ===== verification/VmmProps.v ===== *)
(** * Properties of the virtual memory manager

    Mapping, unmapping and translating pages of [core/memory/vmm.c] against the
    processor's walk of the same tables. *)

From S2P Require Import Prelude Lib Pmm PmmFacts PmmProps Vmm PageTables VmmFacts.

Module VmmProps.
Import Lib Pmm PmmFacts PmmProps Vmm PageTables VmmFacts.

(** The entry [vmm_map] writes. *)
Definition map_entry (pa flags : Z) : Z := Z.lor (Z.land pa PTE_MASK) flags.

(** What [vmm_translate] reports for a leaf: the physical address, but for a
    4 KiB page only the address of the page. *)
Definition translated (va : Z) (l : nat * Z) : Z :=
  let '(lvl, e) := l in
  match lvl with O => Z.land e PTE_MASK | S _ => leaf_pa lvl e va end.

(** A small machine with one empty address space. *)
Definition vm_st : vmm_st :=
  VmmSt (clear_page 3 (taken 3 boot_st)) (0xffff800000000000 + 3 * UIX_PAGE_SIZE)
    (3 * UIX_PAGE_SIZE) (3 * UIX_PAGE_SIZE) (replicate 256 0).

(** ** Helpers *)

Lemma map_entry_range pa flags : 0 ≤ flags < 2 ^ 64 → 0 ≤ map_entry pa flags < 2 ^ 64.
Proof.
  intros Hf. apply lor_range; [|done|lia]. rewrite Z.land_comm. apply land_range; [|lia].
  unfold PTE_MASK. lia.
Qed.

Lemma has_map_entry pa flags : has (map_entry pa flags) VMM_PRESENT = has flags VMM_PRESENT.
Proof.
  unfold has, map_entry. rewrite Z.land_lor_distr_l, <-Z.land_assoc.
  change (Z.land PTE_MASK VMM_PRESENT) with 0. by rewrite Z.land_0_r.
Qed.

(** An access through a [NULL] table pointer. *)
Lemma null_load s i : wf_vm s → 0 ≤ i < 512 → tload 0 i s = Stop (Fault (8 * i)) s.
Proof.
  intros Hv Hi. pose proof (wv_low _ Hv). unfold UIX_PAGE_SIZE in *.
  unfold tload, liftp, zoom, hload, in_hhdm.
  rewrite (proj2 (Z.leb_gt _ _)) by lia. rewrite Z.add_0_l. by destruct s.
Qed.

(** The loads [vmm_translate] makes on the way down. *)
Lemma descend s va l T :
  wf_vm s → path (pm (vp s)) va 3 (cr3 s) (S l) T →
  let e := entry (pm (vp s)) T (idx (S l) va) in
  tload (hhdm (vp s) + T) (idx (S l) va) s = Ok e s ∧
  walk 3 (pm (vp s)) (cr3 s) va = walk_e (S l) (pm (vp s)) e va ∧
  (next_tbl (S l) e = true →
     p2v (Z.land e PTE_MASK) s = Ok (hhdm (vp s) + Z.land e PTE_MASK) s ∧
     path (pm (vp s)) va 3 (cr3 s) l (Z.land e PTE_MASK)).
Proof.
  intros Hv Hp e. pose proof (wv_pmm _ Hv) as Hwf. split_and!.
  - apply tload_run; [done|by eapply path_tbl_page|apply idx_range].
  - apply walk_path; [done|apply Hv|apply same_idx_refl].
  - intros Hn. assert (path (pm (vp s)) va 3 (cr3 s) l (Z.land e PTE_MASK)) as Hp' by by apply path_snoc.
    split; [|done]. apply p2v_run; [done|by eapply path_tbl_page].
Qed.

Lemma large_pa lvl e va mask low :
  mask = Z.ldiff PTE_MASK (Z.ones (12 + 9 * Z.of_nat lvl)) →
  low = Z.ones (12 + 9 * Z.of_nat lvl) → (lvl ≤ 2)%nat →
  Z.land e mask +w Z.land va low = leaf_pa lvl e va.
Proof.
  intros -> -> Hl. set (n := 12 + 9 * Z.of_nat lvl). assert (12 ≤ n ≤ 30) by lia.
  assert (Z.land e (Z.ldiff PTE_MASK (Z.ones n)) = Z.land e PTE_MASK / 2 ^ n * 2 ^ n) as ->.
  { rewrite <-Z.shiftr_div_pow2, <-Z.shiftl_mul_pow2, <-Z.ldiff_ones_r by lia.
    apply Z.bits_inj'. intros k Hk. rewrite Z.land_spec, !Z.ldiff_spec, Z.land_spec.
    apply andb_assoc. }
  rewrite Z.land_ones by lia. unfold leaf_pa. fold n. apply wrap64_small.
  pose proof (Z.mod_pos_bound va (2 ^ n)). assert (0 < 2 ^ n ≤ 2 ^ 30).
  { split; [lia|]. apply Z.pow_le_mono_r; lia. }
  assert (0 ≤ Z.land e PTE_MASK < 2 ^ 52).
  { rewrite Z.land_comm. apply land_range; [|lia]. unfold PTE_MASK. lia. }
  pose proof (Z.div_mod (Z.land e PTE_MASK) (2 ^ n)). pose proof (Z.mod_pos_bound (Z.land e PTE_MASK) (2 ^ n)).
  pose proof (Z.div_pos (Z.land e PTE_MASK) (2 ^ n)). nia.
Qed.

Lemma vm_st_wf : wf_vm vm_st.
Proof.
  destruct boot_st_wf as [Hwf _].
  assert (3 ∈ free_set boot_st) as H3.
  { apply elem_of_free_set. split; [split; vm_compute; [discriminate|reflexivity]|vm_compute; reflexivity]. }
  pose proof (fresh_table_intro boot_st 3 Hwf H3 ltac:(lia)) as Hf.
  pose proof (ft_step _ _ _ Hf) as Hst.
  assert (tpages 3 (pm (clear_page 3 (taken 3 boot_st))) (3 * UIX_PAGE_SIZE) = [3 * UIX_PAGE_SIZE]) as Ht.
  { apply tpages_empty. apply Hf. }
  split.
  - apply Hst.
  - change (wf_tree (clear_page 3 (taken 3 boot_st)) (3 * UIX_PAGE_SIZE)).
    split; rewrite Ht; [apply NoDup_singleton|]. intros T ->%list_elem_of_singleton.
    apply tbl_page_of, Hf.
  - change (0xffff800000000000 + 3 * UIX_PAGE_SIZE = hhdm (clear_page 3 (taken 3 boot_st)) + 3 * UIX_PAGE_SIZE).
    by rewrite (st_hhdm _ _ _ Hst).
  - change (bitmap_len (clear_page 3 (taken 3 boot_st)) ≤ 2 ^ 40).
    rewrite (st_len _ _ _ Hst). vm_compute. discriminate.
  - change (UIX_PAGE_SIZE ≤ hhdm (clear_page 3 (taken 3 boot_st))).
    rewrite (st_hhdm _ _ _ Hst). vm_compute. discriminate.
Qed.

Lemma vm_st_empty i : 0 ≤ i < 512 → entry (pm (vp vm_st)) (cr3 vm_st) i = 0.
Proof.
  destruct boot_st_wf as [Hwf _]. assert (3 ∈ free_set boot_st) as H3.
  { apply elem_of_free_set. split; [split; vm_compute; [discriminate|reflexivity]|vm_compute; reflexivity]. }
  exact (ft_zero _ _ _ (fresh_table_intro boot_st 3 Hwf H3 ltac:(lia)) i).
Qed.

(** ** Mapping *)

(** What a successful [vmm_map] leaves. *)
Record mapped (s s' : vmm_st) (va pa flags : Z) : Prop := Mapped {
  mp_wf : wf_vm s';
  mp_cr3 : cr3 s' = cr3 s;
  mp_step : step (tset (vp s) (cr3 s)) (vp s) (vp s');
  mp_walk : ∀ va', walk 3 (pm (vp s')) (cr3 s) va' =
    if decide (same_page va va') then
      (if has flags VMM_PRESENT then Some (0%nat, map_entry pa flags) else None)
    else walk 3 (pm (vp s)) (cr3 s) va';
  mp_tables : ∀ T, T ∈ tpages 3 (pm (vp s')) (cr3 s) →
    T ∈ tpages 3 (pm (vp s)) (cr3 s) ∨ T / UIX_PAGE_SIZE ∈ free_set (vp s);
  mp_wtab : ∀ va', wtab 3 (pm (vp s)) (cr3 s) va' = true → wtab 3 (pm (vp s')) (cr3 s) va' = true;
}.

Lemma vmm_map_cases (s : vmm_st) (va pa flags : Z) :
  wf_vm s → 0 ≤ flags < 2 ^ 64 →
  match walk 3 (pm (vp s)) (cr3 s) va with
  | Some (O, _) => ∃ s', vmm_map va pa flags s = Stop (Panic "vmm: remap of present page %p") s'
  | Some (S _, _) => ∃ s', vmm_map va pa flags s = Stop (Fault (8 * PT_IDX va)) s'
  | None =>
      (∃ s', vmm_map va pa flags s = Stop (Panic "vmm: OOM building tables") s' ∧
         ((size (free_set (vp s)) < 3)%nat ∨ 0 ∈ free_set (vp s))) ∨
      (∃ s', vmm_map va pa flags s = Ok tt s' ∧ mapped s s' va pa flags)
  end.
Proof.
  intros Hv Hfl. unfold vmm_map, table_for. change (PT_IDX va) with (idx 0 va).
  change 0x000FFFFFFFFFF000 with PTE_MASK. fold (map_entry pa flags).
  destruct (pt_for_create s va Hv) as [(s' & He & Hno & Hf)|[(s' & lvl & e & He & Hg & Hw)|(s' & T & He & Hg & Hp)]].
  - rewrite Hno. left. exists s'. by rewrite (bind_Stop_eq _ _ _ _ _ He).
  - rewrite Hw. exists s'. rewrite (bind_Ok_eq _ _ _ _ _ He).
    rewrite (bind_Stop_eq _ _ _ (Fault (8 * idx 0 va)) s'); [done|].
    apply null_load; [apply Hg|apply idx_range].
  - rewrite (bind_Ok_eq _ _ _ _ _ He). pose proof (gr_wf _ _ Hg) as Hv'.
    rewrite <-(st_hhdm _ _ _ (gr_step _ _ Hg)). rewrite <-(gr_cr3 _ _ Hg) in Hp.
    pose proof (path_tbl_page _ _ _ _ Hv' Hp) as HT.
    rewrite (bind_Ok_eq _ _ _ _ _ (tload_run s' T _ (wv_pmm _ Hv') HT (idx_range 0 va))).
    rewrite <-(gr_walk _ _ Hg), <-(gr_cr3 _ _ Hg).
    rewrite (walk_path _ _ _ _ _ _ _ Hp (wt_nodup _ _ (wv_tree _ Hv')) (same_idx_refl _ _ _)).
    unfold walk_e. destruct (has (entry (pm (vp s')) T (idx 0 va)) VMM_PRESENT) eqn:E; cbn [is_leaf].
    + exists s'. done.
    + right. rewrite (tstore_run s' T _ (wv_pmm _ Hv') HT (idx_range 0 va)).
      destruct (leaf_write s' va T (map_entry pa flags) Hv' Hp (map_entry_range pa flags Hfl)) as
        (Hw' & Hst & _ & Hperm & _ & _ & Hwalk & Hwt). rewrite (gr_cr3 _ _ Hg) in *.
      eexists. split; [reflexivity|]. split; [exact Hw'|exact (gr_cr3 _ _ Hg)| | | |].
      * apply (grown_step s s' _ Hg). by rewrite (gr_cr3 _ _ Hg).
      * intros va'. by rewrite Hwalk, has_map_entry, (gr_walk _ _ Hg).
      * intros T' HT'. rewrite Hperm in HT'. exact (gr_tables _ _ Hg T' HT').
      * intros va' Hwt'. exact (Hwt va' (gr_wtab _ _ Hg va' Hwt')).
Qed.

(** C7 [vmm_map] on a well-formed address space.  An address that is not mapped
    becomes mapped to the given page and every other translation, and the
    content of every page that is not a table, stays what it was; the only
    failure is the panic when memory is short.  A present 4 KiB page is a panic.
    Inside a large page [pt_for] gives [NULL], which [vmm_map] dereferences. *)
Theorem vmm_map_correct (s : vmm_st) (va pa flags : Z) :
  wf_vm s → 0 ≤ flags < 2 ^ 64 →
  match walk 3 (pm (vp s)) (cr3 s) va with
  | Some (O, _) => ∃ s', vmm_map va pa flags s = Stop (Panic "vmm: remap of present page %p") s'
  | Some (S _, _) => ∃ s', vmm_map va pa flags s = Stop (Fault (8 * PT_IDX va)) s'
  | None =>
      (∃ s', vmm_map va pa flags s = Stop (Panic "vmm: OOM building tables") s' ∧
         ((size (free_set (vp s)) < 3)%nat ∨ 0 ∈ free_set (vp s))) ∨
      (∃ s', vmm_map va pa flags s = Ok tt s' ∧ wf_vm s' ∧ cr3 s' = cr3 s ∧
         (∀ va', walk 3 (pm (vp s')) (cr3 s') va' =
            if decide (same_page va va') then
              (if has flags VMM_PRESENT then Some (0%nat, map_entry pa flags) else None)
            else walk 3 (pm (vp s)) (cr3 s) va') ∧
         ∀ q, client_page (vp s) q → q ∉ tset (vp s) (cr3 s) → same_bytes (pm (vp s)) (pm (vp s')) q)
  end.
Proof.
  intros Hv Hfl. pose proof (vmm_map_cases s va pa flags Hv Hfl) as H.
  destruct (walk 3 (pm (vp s)) (cr3 s) va) as [[[|l] e]|]; [done|done|].
  destruct H as [?|(s' & He & [Hw Hc Hst Hwk _ _])]; [by left|right].
  exists s'. rewrite Hc. split_and!; [done|done|done|done|]. intros q. apply Hst.
Qed.

Lemma vmm_map_correct_witness :
  match walk 3 (pm (vp vm_st)) (cr3 vm_st) 0x400000 with
  | Some (O, _) => ∃ s', vmm_map 0x400000 0x9000 7 vm_st = Stop (Panic "vmm: remap of present page %p") s'
  | Some (S _, _) => ∃ s', vmm_map 0x400000 0x9000 7 vm_st = Stop (Fault (8 * PT_IDX 0x400000)) s'
  | None =>
      (∃ s', vmm_map 0x400000 0x9000 7 vm_st = Stop (Panic "vmm: OOM building tables") s' ∧
         ((size (free_set (vp vm_st)) < 3)%nat ∨ 0 ∈ free_set (vp vm_st))) ∨
      (∃ s', vmm_map 0x400000 0x9000 7 vm_st = Ok tt s' ∧ wf_vm s' ∧ cr3 s' = cr3 vm_st ∧
         (∀ va', walk 3 (pm (vp s')) (cr3 s') va' =
            if decide (same_page 0x400000 va') then
              (if has 7 VMM_PRESENT then Some (0%nat, map_entry 0x9000 7) else None)
            else walk 3 (pm (vp vm_st)) (cr3 vm_st) va') ∧
         ∀ q, client_page (vp vm_st) q → q ∉ tset (vp vm_st) (cr3 vm_st) →
           same_bytes (pm (vp vm_st)) (pm (vp s')) q)
  end.
Proof. apply (vmm_map_correct vm_st 0x400000 0x9000 7); [apply vm_st_wf|lia]. Defined.

(** C36 [vmm_translate] reads the same tables as the processor and never fails:
    for an unmapped address it returns -1, inside a large page the physical
    address the processor uses, and for a 4 KiB page the address of the page
    (the offset of [va] in the page is not added). *)
Theorem vmm_translate_correct (s : vmm_st) (va : Z) :
  wf_vm s →
  vmm_translate va s = Ok (translated va <$> walk 3 (pm (vp s)) (cr3 s) va) s.
Proof.
  intros Hv. unfold vmm_translate.
  rewrite (bind_Ok_eq _ _ _ (hhdm (vp s) + cr3 s) s) by (unfold gets; by rewrite (wv_pml4 _ Hv)).
  change (PML4_IDX va) with (idx 3 va). change (PDPT_IDX va) with (idx 2 va).
  change (PD_IDX va) with (idx 1 va). change (PT_IDX va) with (idx 0 va).
  destruct (descend s va 2 (cr3 s) Hv (path_here _ _ _ _)) as (Hl & Hw & Hn).
  rewrite (bind_Ok_eq _ _ _ _ _ Hl). unfold walk_e, next_tbl in Hw, Hn. cbn [is_leaf] in Hw, Hn.
  set (e3 := entry (pm (vp s)) (cr3 s) (idx 3 va)) in *.
  destruct (has e3 VMM_PRESENT); cbn [negb]; [|by rewrite Hw]. clear Hl.
  destruct (Hn eq_refl) as [Hv3 Hp2]. rewrite (bind_Ok_eq _ _ _ _ _ Hv3).
  clear Hn Hw. destruct (descend s va 1 _ Hv Hp2) as (Hl & Hw & Hn).
  rewrite (bind_Ok_eq _ _ _ _ _ Hl). unfold walk_e, next_tbl in Hw, Hn. cbn [is_leaf] in Hw, Hn.
  set (e2 := entry (pm (vp s)) (Z.land e3 PTE_MASK) (idx 2 va)) in *.
  destruct (has e2 VMM_PRESENT); cbn [negb]; [|by rewrite Hw]. clear Hl.
  destruct (has e2 PDE_PS).
  { rewrite Hw. change (translated va <$> _) with (Some (leaf_pa 2 e2 va)).
    unfold mret, M_ret. do 2 f_equal. by apply large_pa; [reflexivity|reflexivity|lia]. }
  destruct (Hn eq_refl) as [Hv2 Hp1]. rewrite (bind_Ok_eq _ _ _ _ _ Hv2).
  clear Hn Hw. destruct (descend s va 0 _ Hv Hp1) as (Hl & Hw & Hn).
  rewrite (bind_Ok_eq _ _ _ _ _ Hl). unfold walk_e, next_tbl in Hw, Hn. cbn [is_leaf] in Hw, Hn.
  set (e1 := entry (pm (vp s)) (Z.land e2 PTE_MASK) (idx 1 va)) in *.
  destruct (has e1 VMM_PRESENT); cbn [negb]; [|by rewrite Hw]. clear Hl.
  destruct (has e1 PDE_PS).
  { rewrite Hw. change (translated va <$> _) with (Some (leaf_pa 1 e1 va)).
    unfold mret, M_ret. do 2 f_equal. by apply large_pa; [reflexivity|reflexivity|lia]. }
  destruct (Hn eq_refl) as [Hv1 Hp0]. rewrite (bind_Ok_eq _ _ _ _ _ Hv1).
  rewrite (bind_Ok_eq _ _ _ _ _ (tload_run s _ _ (wv_pmm _ Hv) (path_tbl_page _ _ _ _ Hv Hp0) (idx_range 0 va))).
  rewrite Hw, walk_unfold. unfold walk_e. by destruct (has _ VMM_PRESENT).
Qed.

Lemma vmm_translate_correct_witness :
  vmm_translate 0x400000 vm_st =
    Ok (translated 0x400000 <$> walk 3 (pm (vp vm_st)) (cr3 vm_st) 0x400000) vm_st.
Proof. apply (vmm_translate_correct vm_st 0x400000), vm_st_wf. Defined.

(** [vmm_unmap] on a well-formed address space: a 4 KiB page stops being
    mapped and nothing else changes; an address that is not mapped, or lies in
    a large page, is left alone.  So unmapping a page that [vmm_map] mapped
    gives back the translations there were before. *)
Theorem vmm_unmap_correct (s : vmm_st) (va : Z) :
  wf_vm s →
  ∃ s', vmm_unmap va s = Ok tt s' ∧ wf_vm s' ∧ cr3 s' = cr3 s ∧
    free_set (vp s') = free_set (vp s) ∧
    ∀ va', walk 3 (pm (vp s')) (cr3 s') va' =
      match walk 3 (pm (vp s)) (cr3 s) va with
      | Some (O, _) => if decide (same_page va va') then None else walk 3 (pm (vp s)) (cr3 s) va'
      | _ => walk 3 (pm (vp s)) (cr3 s) va'
      end.
Proof.
  intros Hv. unfold vmm_unmap, table_for. change (PT_IDX va) with (idx 0 va).
  destruct (pt_for_read s va Hv) as [(T & He & Hp)|[He Hw]]; rewrite (bind_Ok_eq _ _ _ _ _ He).
  - pose proof (path_tbl_page _ _ _ _ Hv Hp) as HT. pose proof (wv_low _ Hv).
    destruct (tbl_page_bounds _ _ (wv_pmm _ Hv) HT) as [? _].
    rewrite (proj2 (Z.eqb_neq _ _)) by (unfold UIX_PAGE_SIZE in *; lia).
    rewrite (tstore_run s T _ (wv_pmm _ Hv) HT (idx_range 0 va)).
    destruct (leaf_write s va T 0 Hv Hp ltac:(lia)) as (Hw' & _ & Hfs & _ & _ & _ & Hwalk & _).
    eexists. split_and!; [reflexivity|exact Hw'|reflexivity|exact Hfs|].
    intros va'. change (cr3 (set_vp _ s)) with (cr3 s). rewrite Hwalk. change (has 0 VMM_PRESENT) with false.
    pose proof (walk_path _ _ _ _ _ _ va Hp (wt_nodup _ _ (wv_tree _ Hv)) (same_idx_refl _ _ _)) as Hwva.
    unfold walk_e in Hwva. cbn [is_leaf] in Hwva. 
    destruct (has (entry (pm (vp s)) T (idx 0 va)) VMM_PRESENT) eqn:E; rewrite Hwva; [done|].
    destruct (decide (same_page va va')) as [Hs|]; [|done].
    rewrite (walk_path _ _ _ _ _ _ _ Hp (wt_nodup _ _ (wv_tree _ Hv)) Hs). unfold walk_e. by rewrite E.
  - exists s. split_and!; [done..|]. intros va'. by destruct Hw as [->|(l & e & ->)].
Qed.

Lemma vmm_unmap_correct_witness :
  ∃ s', vmm_unmap 0x400000 vm_st = Ok tt s' ∧ wf_vm s' ∧ cr3 s' = cr3 vm_st ∧
    free_set (vp s') = free_set (vp vm_st) ∧
    ∀ va', walk 3 (pm (vp s')) (cr3 s') va' =
      match walk 3 (pm (vp vm_st)) (cr3 vm_st) 0x400000 with
      | Some (O, _) => if decide (same_page 0x400000 va') then None
                       else walk 3 (pm (vp vm_st)) (cr3 vm_st) va'
      | _ => walk 3 (pm (vp vm_st)) (cr3 vm_st) va'
      end.
Proof. apply (vmm_unmap_correct vm_st 0x400000), vm_st_wf. Defined.

End VmmProps.
