(* ===== verification/TableFacts.v ===== *)
(** * Building tables entry by entry

    [clone_table] and [fork_table] of [core/memory/vmm.c] fill a new table from
    entry 0 to entry 511 while the tables below it are built.  This file holds
    the invariant of such a loop, the round that links one entry, and the
    correctness of [clone_table]. *)

From S2P Require Import Prelude Lib Pmm PmmFacts PmmProps Vmm PageTables VmmFacts.

Module TableFacts.
Import Lib Pmm PmmFacts PmmProps Vmm PageTables VmmFacts.

(** The tables below the first [i] entries of the table at [d]. *)
Definition kids (lvl : nat) (m : mem) (d i : Z) : list Z :=
  seqZ 0 i ≫= λ j, sub_pages lvl m (entry m d j).

Lemma tpages_kids lvl m d : tpages lvl m d = d :: kids lvl m d 512.
Proof.
  Local Transparent indices.
  by destruct lvl.
Qed.

Lemma kids_0 lvl m d : kids lvl m d 0 = [].
Proof. done. Qed.

Lemma kids_S lvl m d i : 0 ≤ i → kids lvl m d (i + 1) = kids lvl m d i ++ sub_pages lvl m (entry m d i).
Proof.
  intros Hi. unfold kids. rewrite seqZ_app by lia. rewrite bind_app. f_equal.
  change (0 + i) with i. rewrite (seqZ_cons i 1) by lia. rewrite seqZ_nil by lia. cbn. by rewrite app_nil_r.
Qed.

Lemma elem_of_kids lvl m d i T :
  T ∈ kids lvl m d i ↔ ∃ j, 0 ≤ j < i ∧ T ∈ sub_pages lvl m (entry m d j).
Proof.
  unfold kids. rewrite list_elem_of_bind. split; intros (j & H1 & H2); exists j.
  - apply elem_of_seqZ in H2. split; [lia|done].
  - split; [done|]. apply elem_of_seqZ. lia.
Qed.

Lemma kids_part lvl m d i n :
  0 ≤ i < n →
  (length (kids lvl m d i) + length (sub_pages lvl m (entry m d i)) ≤ length (kids lvl m d n))%nat.
Proof.
  intros Hi. replace n with ((i + 1) + (n - 1 - i)) by lia. unfold kids at 2.
  rewrite seqZ_app, bind_app, length_app by lia. fold (kids lvl m d (i + 1)).
  rewrite kids_S, length_app by lia. lia.
Qed.

Lemma NoDup_kids_inv lvl m d i :
  NoDup (kids lvl m d i) →
  (∀ j, 0 ≤ j < i → NoDup (sub_pages lvl m (entry m d j))) ∧
  (∀ j j' T, 0 ≤ j < i → 0 ≤ j' < i →
     T ∈ sub_pages lvl m (entry m d j) → T ∈ sub_pages lvl m (entry m d j') → j = j').
Proof.
  intros H. apply NoDup_bind_inv in H as [H1 H2]; [|apply NoDup_seqZ]. split.
  - intros j Hj. apply H1, elem_of_seqZ. lia.
  - intros j j' T Hj Hj' HT HT'. apply (H2 j j' T); [apply elem_of_seqZ; lia..|done|done].
Qed.

Lemma kids_ext lvl m m' d d' i :
  (∀ j, 0 ≤ j < i → sub_pages lvl m (entry m d j) = sub_pages lvl m' (entry m' d' j)) →
  kids lvl m d i = kids lvl m' d' i.
Proof. intros H. apply bind_ext. intros j Hj%elem_of_seqZ. apply H. lia. Qed.

Lemma kids_nil lvl m d i :
  (∀ j, 0 ≤ j < i → next_tbl lvl (entry m d j) = false) → kids lvl m d i = [].
Proof.
  intros H. unfold kids. rewrite (bind_ext _ (λ _, [])); [by induction (seqZ 0 i)|].
  intros j Hj%elem_of_seqZ. destruct lvl; [done|]. cbn [sub_pages]. rewrite H by lia. done.
Qed.

(** The tables of the kernel half of a PML4. *)
Definition kkids (m : mem) (d : Z) : list Z := seqZ 256 256 ≫= λ j, sub_pages 3 m (entry m d j).

Lemma kids_split m d : kids 3 m d 512 = kids 3 m d 256 ++ kkids m d.
Proof. unfold kids. change 512 with (256 + 256). rewrite seqZ_app by lia. by rewrite bind_app. Qed.

Lemma elem_of_kkids m d T : T ∈ kkids m d ↔ ∃ j, 256 ≤ j < 512 ∧ T ∈ sub_pages 3 m (entry m d j).
Proof.
  unfold kkids. rewrite list_elem_of_bind. split; intros (j & H1 & H2); exists j.
  - apply elem_of_seqZ in H2. split; [lia|done].
  - split; [done|]. apply elem_of_seqZ. lia.
Qed.

Lemma kkids_ext m m' d d' :
  (∀ j, 256 ≤ j < 512 → sub_pages 3 m (entry m d j) = sub_pages 3 m' (entry m' d' j)) →
  kkids m d = kkids m' d'.
Proof. intros H. apply bind_ext. intros j Hj%elem_of_seqZ. apply H. lia. Qed.

Global Opaque kids kkids.

Lemma sub_pages_ext lvl m m' e :
  (∀ T, T ∈ sub_pages lvl m e → same_tbl m m' T) → sub_pages lvl m' e = sub_pages lvl m e.
Proof.
  destruct lvl as [|l]; [done|]. cbn [sub_pages]. destruct (next_tbl (S l) e); [|done]. apply tpages_ext.
Qed.

Lemma walk_e_sub_ext lvl m m' e va :
  (∀ T, T ∈ sub_pages lvl m e → same_tbl m m' T) → walk_e lvl m' e va = walk_e lvl m e va.
Proof.
  destruct lvl as [|l]; [intros _; apply walk_e_stop, next_tbl_0|]. cbn [sub_pages]. intros H.
  apply walk_e_ext. intros T E. rewrite E in H. apply H.
Qed.

Section building.
Context (p0 : pmm_st) (Hwf0 : wf p0).
(* pages handed out before the loop that it may write *)
Context (X : gset Z) (HX : ∀ q, q ∈ X → q ∉ free_set p0).
(* the page of the new table *)
Context (k : Z) (Hk : k ∈ X ∨ k ∈ free_set p0).

Record built (lvl : nat) (i : Z) (p : pmm_st) : Prop := Built {
  bt_step : step X p0 p;
  bt_page : client_page p k;
  bt_nodup : NoDup (k * UIX_PAGE_SIZE :: kids lvl (pm p) (k * UIX_PAGE_SIZE) i);
  bt_kids : ∀ T, T ∈ kids lvl (pm p) (k * UIX_PAGE_SIZE) i →
    tbl_page p T ∧ T / UIX_PAGE_SIZE ∈ free_set p0;
}.

(** The tables linked so far are not written by a later step that only writes
    pages of [X]. *)
Lemma built_same lvl i p X' p1 T :
  built lvl i p → step X' p p1 → (∀ q, q ∈ X' → q ∈ X ∧ q ≠ k) →
  T = k * UIX_PAGE_SIZE ∨ T ∈ kids lvl (pm p) (k * UIX_PAGE_SIZE) i →
  tbl_page p T ∧ same_tbl (pm p) (pm p1) T.
Proof.
  intros Hb Hst HX' HT. pose proof (st_wf _ _ _ (bt_step _ _ _ Hb)) as Hwf.
  assert (tbl_page p T ∧ T / UIX_PAGE_SIZE ∉ X') as [HTp HTX].
  { destruct HT as [-> |HT].
    - split; [apply tbl_page_of, Hb|]. rewrite Z.div_mul by done. intros H. by destruct (HX' k H).
    - apply Hb in HT as [? Hf]. split; [done|]. intros Hq%HX'. destruct Hq as [Hq _]. by apply (HX _ Hq). }
  split; [done|]. by apply (step_same_tbl X').
Qed.

Lemma built_link lvl i p X' p1 v :
  built lvl i p → 0 ≤ i < 512 → step X' p p1 → (∀ q, q ∈ X' → q ∈ X ∧ q ≠ k) → 0 ≤ v < 2 ^ 64 →
  NoDup (sub_pages lvl (pm p1) v) →
  (∀ T, T ∈ sub_pages lvl (pm p1) v → tbl_page p1 T ∧ T / UIX_PAGE_SIZE ∈ free_set p) →
  let p2 := wr (k * UIX_PAGE_SIZE) i v p1 in
  built lvl (i + 1) p2 ∧ entry (pm p2) (k * UIX_PAGE_SIZE) i = v ∧
  (∀ va, walk_e lvl (pm p2) v va = walk_e lvl (pm p1) v va) ∧
  (∀ j, 0 ≤ j < i → entry (pm p2) (k * UIX_PAGE_SIZE) j = entry (pm p) (k * UIX_PAGE_SIZE) j) ∧
  (∀ j va, 0 ≤ j < i → walk_e lvl (pm p2) (entry (pm p) (k * UIX_PAGE_SIZE) j) va =
     walk_e lvl (pm p) (entry (pm p) (k * UIX_PAGE_SIZE) j) va).
Proof.
  intros Hb Hi Hst HX' Hv Hnd Hsub p2. set (d := k * UIX_PAGE_SIZE) in *.
  pose proof (st_wf _ _ _ Hst) as Hwf1.
  assert (∀ T, T = d ∨ T ∈ kids lvl (pm p) d i → tbl_page p T ∧ same_tbl (pm p) (pm p1) T) as Hsame
    by (intros T HT; by apply (built_same lvl i p X')).
  assert (tbl_page p1 d) as Hd1 by (eapply step_tbl_page; [done|]; apply tbl_page_of, Hb).
  destruct (step_wr p1 d i v Hwf1 Hd1 Hi) as [Hst2 Hfs2]. fold p2 in Hst2, Hfs2.
  assert (∀ T j, tbl_page p1 T → 0 ≤ j < 512 →
    entry (pm p2) T j = if (T =? d) && (j =? i) then v else entry (pm p1) T j) as Hent.
  { intros T j HT Hj. by apply entry_wr. }
  assert (∀ T, tbl_page p1 T → T ≠ d → same_tbl (pm p1) (pm p2) T) as Hother.
  { intros T HT Hne j Hj. rewrite Hent by done. by rewrite (proj2 (Z.eqb_neq _ _) Hne). }
  pose proof (bt_nodup _ _ _ Hb) as [Hdk Hndk]%NoDup_cons. fold d in Hdk, Hndk.
  assert (∀ T, T ∈ kids lvl (pm p) d i → same_tbl (pm p) (pm p2) T) as Hk2.
  { intros T HT j Hj. rewrite (Hother T); [by apply Hsame; [right|]| |by intros ->|done].
    eapply step_tbl_page; [exact Hst|]. apply Hsame. by right. }
  assert (∀ T, T ∈ sub_pages lvl (pm p1) v → same_tbl (pm p1) (pm p2) T) as Hsub2.
  { intros T HT. apply Hsub in HT as [HTp HTf]. apply Hother; [done|]. intros ->.
    unfold d in HTf. rewrite Z.div_mul in HTf by done. by apply (cp_used _ _ (bt_page _ _ _ Hb)). }
  assert (∀ j, 0 ≤ j < i → entry (pm p2) d j = entry (pm p) d j) as Hej.
  { intros j Hj. rewrite Hent by (done || lia). rewrite (proj2 (Z.eqb_neq j i)) by lia.
    rewrite andb_false_r. apply Hsame; [by left|lia]. }
  assert (∀ j T, 0 ≤ j < i → T ∈ sub_pages lvl (pm p) (entry (pm p) d j) → T ∈ kids lvl (pm p) d i) as Hin.
  { intros j T Hj HT. apply elem_of_kids. eauto. }
  assert (entry (pm p2) d i = v) as Hei by (rewrite Hent by (done || lia); by rewrite !Z.eqb_refl).
  assert (kids lvl (pm p2) d (i + 1) = kids lvl (pm p) d i ++ sub_pages lvl (pm p1) v) as Hkids.
  { rewrite kids_S, Hei by lia. f_equal; [|by apply sub_pages_ext].
    apply kids_ext. intros j Hj. rewrite Hej by lia.
    apply sub_pages_ext. intros T HT. apply Hk2, (Hin j); [lia|done]. }
  split_and!; [|done|intros va; by apply walk_e_sub_ext|done|].
  - assert (step X p0 p2) as Hp2.
    { eapply step_then; [eapply step_then; [apply Hb|exact Hst|by intros q _ [? _]%HX']|exact Hst2|].
      intros q Hq ->%elem_of_singleton. unfold d in *. rewrite Z.div_mul in * by done.
      destruct Hk as [?|Hf]; [done|]. by destruct (cp_used _ _ Hq). }
    split; [done|eapply step_client; [exact Hst2|]; eapply step_client; [exact Hst|]; apply Hb|..].
    + fold d. rewrite Hkids. apply NoDup_cons. split.
      * rewrite not_elem_of_app. split; [done|]. intros HT%Hsub. destruct HT as [_ HTf].
        unfold d in HTf. rewrite Z.div_mul in HTf by done. by apply (cp_used _ _ (bt_page _ _ _ Hb)).
      * apply NoDup_app. split_and!; [done| |done]. intros T HT HT'%Hsub. destruct HT' as [_ HTf].
        apply Hb in HT as [HTp _]. by apply (cp_used _ _ (proj2 HTp)).
    + fold d. rewrite Hkids. intros T [HT|HT]%elem_of_app.
      * apply Hb in HT as [HTp ?]. split; [|done].
        eapply step_tbl_page; [exact Hst2|]. eapply step_tbl_page; [exact Hst|done].
      * apply Hsub in HT as [HTp HTf]. split; [eapply step_tbl_page; [exact Hst2|done]|].
        by apply (st_free _ _ _ (bt_step _ _ _ Hb)).
  - intros j va Hj. apply walk_e_sub_ext. intros T HT. apply Hk2. by apply (Hin j).
Qed.

(** A later step that leaves the new tables alone. *)
Lemma built_keep lvl i p X' p1 :
  built lvl i p → i ≤ 512 → step X' p p1 → (∀ q, q ∈ X' → q ∈ X ∧ q ≠ k) →
  built lvl i p1 ∧
  (∀ j, 0 ≤ j < 512 → entry (pm p1) (k * UIX_PAGE_SIZE) j = entry (pm p) (k * UIX_PAGE_SIZE) j) ∧
  (∀ j va, 0 ≤ j < i → walk_e lvl (pm p1) (entry (pm p) (k * UIX_PAGE_SIZE) j) va =
     walk_e lvl (pm p) (entry (pm p) (k * UIX_PAGE_SIZE) j) va).
Proof.
  intros Hb Hi Hst HX'. set (d := k * UIX_PAGE_SIZE) in *.
  assert (∀ T, T = d ∨ T ∈ kids lvl (pm p) d i → tbl_page p T ∧ same_tbl (pm p) (pm p1) T) as Hsame
    by (intros T HT; by apply (built_same lvl i p X')).
  assert (same_tbl (pm p) (pm p1) d) as Hd by (apply Hsame; by left).
  assert (∀ j T, 0 ≤ j < i → T ∈ sub_pages lvl (pm p) (entry (pm p) d j) → same_tbl (pm p) (pm p1) T) as Hsub.
  { intros j T Hj HT. apply Hsame. right. apply elem_of_kids. eauto. }
  assert (kids lvl (pm p1) d i = kids lvl (pm p) d i) as Hkids.
  { apply kids_ext. intros j Hj. rewrite Hd by lia.
    apply sub_pages_ext. intros T. apply Hsub. lia. }
  split_and!; [|done|].
  - split; fold d; rewrite ?Hkids.
    + eapply step_then; [apply Hb|exact Hst|by intros q _ [? _]%HX'].
    + eapply step_client; [exact Hst|apply Hb].
    + apply Hb.
    + intros T HT. apply Hb in HT as [HTp ?]. split; [eapply step_tbl_page; [exact Hst|done]|done].
  - intros j va Hj. apply walk_e_sub_ext. intros T. by apply Hsub.
Qed.
End building.

(** ** Accesses in a later state *)

Section later.
Context (p0 : pmm_st) (X : gset Z) (p : pmm_st) (Hst : step X p0 p) (s : vmm_st).

Lemma tload_at T i :
  tbl_page p T → 0 ≤ i < 512 →
  tload (hhdm p0 + T) i (set_vp p s) = Ok (entry (pm p) T i) (set_vp p s).
Proof.
  intros HT Hi. rewrite <-(st_hhdm _ _ _ Hst).
  apply (tload_run (set_vp p s)); [apply Hst|done|done].
Qed.

Lemma tstore_at T i e :
  tbl_page p T → 0 ≤ i < 512 →
  tstore (hhdm p0 + T) i e (set_vp p s) = Ok tt (set_vp (wr T i e p) s).
Proof.
  intros HT Hi. rewrite <-(st_hhdm _ _ _ Hst).
  apply (tstore_run (set_vp p s)); [apply Hst|done|done].
Qed.

Lemma p2v_at T : tbl_page p T → p2v T (set_vp p s) = Ok (hhdm p0 + T) (set_vp p s).
Proof.
  intros HT. rewrite <-(st_hhdm _ _ _ Hst). apply (p2v_run (set_vp p s)); [apply Hst|done].
Qed.
End later.

Lemma alloc_runs s Q F :
  wf (vp s) →
  (∀ p', Q 0 (set_vp p' s)) →
  (∀ i, i ∈ free_set (vp s) → i ≠ 0 → Q (i * UIX_PAGE_SIZE) (set_vp (taken i (vp s)) s)) →
  runs (liftp pmm_alloc) s Q F.
Proof.
  intros Hwf H0 Hi. destruct (alloc_run s Hwf) as [(p' & He & _)|(i & ? & ? & He)];
    (eapply runs_ret; [exact He|auto]).
Qed.

(** ** Entries of a copied table *)

(** The entry for the copy, at page [c], of the table the entry [e] points to. *)
Lemma copied_entry lvl c e :
  0 ≤ c < 2 ^ 40 → (lvl ≤ 2)%nat →
  let v := Z.lor (c * UIX_PAGE_SIZE) (Z.land e 0xFFF) in
  Z.land v PTE_MASK = c * UIX_PAGE_SIZE ∧ next_tbl (S lvl) v = next_tbl (S lvl) e ∧ 0 ≤ v < 2 ^ 64.
Proof.
  intros Hc Hl v.
  assert (∀ f, 0 ≤ f < 4096 → Z.land 0xFFF f = f → has v f = has e f) as Hlow.
  { intros f Hf Hff. unfold has, v. rewrite land_lor_page by done. by rewrite <-Z.land_assoc, Hff. }
  split_and!.
  - unfold v. rewrite Z.land_lor_distr_l, land_page_mask, <-Z.land_assoc by done.
    change (Z.land 0xFFF PTE_MASK) with 0. by rewrite Z.land_0_r, Z.lor_0_r.
  - unfold next_tbl. rewrite Hlow by done. f_equal. f_equal.
    destruct lvl as [|[|[|]]]; cbn [is_leaf]; rewrite ?Hlow by done; done || lia.
  - apply Z.lor_nonneg. unfold UIX_PAGE_SIZE. split; [lia|]. apply Z.land_nonneg. lia.
  - apply lor_range; [unfold UIX_PAGE_SIZE; lia| |lia]. rewrite Z.land_comm.
    apply land_range; lia.
Qed.

Lemma sub_pages_stop lvl m e : next_tbl lvl e = false → sub_pages lvl m e = [].
Proof. intros H. destruct lvl; [done|]. cbn [sub_pages]. by rewrite H. Qed.

Lemma next_tbl_absent lvl e : has e VMM_PRESENT = false → next_tbl lvl e = false.
Proof. intros H. unfold next_tbl. by rewrite H. Qed.

Lemma walk_e_absent lvl m e va : has e VMM_PRESENT = false → walk_e lvl m e va = None.
Proof. intros H. unfold walk_e. by rewrite H. Qed.

(** ** [clone_table] *)

(** The table at [dst] was built from free pages and translates as [src] does. *)
Record cloned (lvl : nat) (p p' : pmm_st) (src dst : Z) : Prop := Cloned {
  cl_step : step ∅ p p';
  cl_nodup : NoDup (tpages lvl (pm p') dst);
  cl_pages : ∀ T, T ∈ tpages lvl (pm p') dst → tbl_page p' T ∧ T / UIX_PAGE_SIZE ∈ free_set p;
  cl_walk : ∀ va, walk lvl (pm p') dst va = walk lvl (pm p) src va;
}.

(** No entry of a PML4 is marked as a large page (the processor reserves it). *)
Definition no_ps (m : mem) (tbl : Z) : Prop := ∀ i, 0 ≤ i < 512 → has (entry m tbl i) PDE_PS = false.

(** The loop of [clone_table] before entry [i]. *)
Definition cloning (lvl : nat) (s : vmm_st) (src k i : Z) (t : vmm_st) : Prop :=
  ∃ p, t = set_vp p s ∧ built (vp s) ∅ k lvl i p ∧
    ∀ j va, 0 ≤ j < i →
      walk_e lvl (pm p) (entry (pm p) (k * UIX_PAGE_SIZE) j) va =
      walk_e lvl (pm (vp s)) (entry (pm (vp s)) src j) va.

Lemma cloning_link lvl s src k i p p1 v :
  wf (vp s) → k ∈ free_set (vp s) → 0 ≤ i < 512 →
  built (vp s) ∅ k lvl i p →
  (∀ j va, 0 ≤ j < i →
      walk_e lvl (pm p) (entry (pm p) (k * UIX_PAGE_SIZE) j) va =
      walk_e lvl (pm (vp s)) (entry (pm (vp s)) src j) va) →
  step ∅ p p1 → 0 ≤ v < 2 ^ 64 → NoDup (sub_pages lvl (pm p1) v) →
  (∀ T, T ∈ sub_pages lvl (pm p1) v → tbl_page p1 T ∧ T / UIX_PAGE_SIZE ∈ free_set p) →
  (∀ va, walk_e lvl (pm p1) v va = walk_e lvl (pm (vp s)) (entry (pm (vp s)) src i) va) →
  cloning lvl s src k (i + 1) (set_vp (wr (k * UIX_PAGE_SIZE) i v p1) s).
Proof.
  intros Hwf Hk Hi Hb Hw Hst Hv Hnd Hsub Hwv.
  destruct (built_link (vp s) ∅ ltac:(set_solver) k (or_intror Hk) lvl i p ∅ p1 v)
    as (Hb' & He & Hwe & Hej & Hwj); [done|done|done|set_solver|done|done|done|].
  eexists. split_and!; [reflexivity|exact Hb'|]. intros j va Hj. destruct (decide (j = i)) as [->|].
  - by rewrite He, Hwe, Hwv.
  - rewrite Hej, Hwj by lia. apply Hw. lia.
Qed.

(** One round of [clone_table]. *)
Definition clone_entry (level : nat) (src d i : Z) : M vmm_st unit :=
  e ← tload src i;
  if negb (has e VMM_PRESENT) then tstore d i 0
  else
    match level with
    | O => tstore d i e
    | S l =>
        if has e PDE_PS then tstore d i e
        else
          child ← clone_table l e;
          tstore d i (Z.lor child (Z.land e 0xFFF))
    end.

Lemma clone_table_unfold level e :
  clone_table level e =
    (src ← p2v (Z.land e PTE_MASK);
     dst ← liftp pmm_alloc;
     if dst =? 0 then panic "vmm: OOM cloning tables"
     else
       d ← p2v dst;
       for_ 512 0 (clone_entry level src d) ;;
       mret dst).
Proof. by destruct level. Qed.

Definition clone_oom (w : stop) : Prop := w = Panic "vmm: OOM cloning tables".

(** [clone_table] at level [lvl], for the induction. *)
Definition clone_ok (lvl : nat) : Prop :=
  ∀ s e, wf (vp s) → bitmap_len (vp s) ≤ 2 ^ 40 →
    (∀ T, T ∈ tpages lvl (pm (vp s)) (Z.land e PTE_MASK) → tbl_page (vp s) T) →
    (lvl = 3%nat → no_ps (pm (vp s)) (Z.land e PTE_MASK)) →
    runs (clone_table lvl e) s
      (λ dst s', ∃ c p', dst = c * UIX_PAGE_SIZE ∧ s' = set_vp p' s ∧
         cloned lvl (vp s) p' (Z.land e PTE_MASK) dst) clone_oom.

Lemma clone_entry_run lvl s src k i t :
  (∀ l, lvl = S l → clone_ok l) → (lvl ≤ 3)%nat → wf (vp s) → bitmap_len (vp s) ≤ 2 ^ 40 →
  (∀ T, T ∈ tpages lvl (pm (vp s)) src → tbl_page (vp s) T) → (lvl = 3%nat → no_ps (pm (vp s)) src) →
  k ∈ free_set (vp s) → 0 ≤ i < 512 → cloning lvl s src k i t →
  runs (clone_entry lvl (hhdm (vp s) + src) (hhdm (vp s) + k * UIX_PAGE_SIZE) i) t
    (λ _, cloning lvl s src k (i + 1)) clone_oom.
Proof.
  intros IH Hlvl Hwf Hlen Hsrc Hps Hk Hi (p & -> & Hb & Hw). unfold clone_entry.
  pose proof (bt_step _ _ _ _ _ _ Hb) as Hst. pose proof (st_wf _ _ _ Hst) as Hwfp.
  assert (tbl_page p src) as Hsp by (eapply step_tbl_page; [exact Hst|apply Hsrc, tpages_root]).
  assert (tbl_page p (k * UIX_PAGE_SIZE)) as Hdp by apply tbl_page_of, Hb.
  assert (∀ T, T ∈ tpages lvl (pm (vp s)) src → same_tbl (pm (vp s)) (pm p) T) as Hsame.
  { intros T HT. apply (step_same_tbl ∅); [done|done|by apply Hsrc|apply not_elem_of_empty]. }
  eapply runs_bind_Ok; [by apply (tload_at (vp s) ∅)|].
  rewrite (Hsame src (tpages_root _ _ _) i Hi). set (e := entry (pm (vp s)) src i).
  assert (∀ v, 0 ≤ v < 2 ^ 64 → next_tbl lvl v = false →
    (∀ va, walk_e lvl (pm p) v va = walk_e lvl (pm (vp s)) e va) →
    runs (tstore (hhdm (vp s) + k * UIX_PAGE_SIZE) i v) (set_vp p s)
      (λ _, cloning lvl s src k (i + 1)) clone_oom) as Hleaf.
  { intros v Hv Hn Hwv. eapply runs_ret; [by apply (tstore_at (vp s) ∅)|].
    apply (cloning_link lvl s src k i p p v); [done|done|done|done|done|by apply step_refl|done|..|done];
      rewrite sub_pages_stop by done; [constructor|]. intros T HT. by apply not_elem_of_nil in HT. }
  destruct (has e VMM_PRESENT) eqn:Epr; cbn [negb].
  2:{ apply Hleaf; [lia|by apply next_tbl_absent|]. intros va. by rewrite !walk_e_absent. }
  assert (next_tbl lvl e = false → runs (tstore (hhdm (vp s) + k * UIX_PAGE_SIZE) i e) (set_vp p s)
      (λ _, cloning lvl s src k (i + 1)) clone_oom) as Hcopy.
  { intros Hn. apply Hleaf; [apply entry_range|done|]. intros va. by apply walk_e_stop. }
  destruct lvl as [|l]; [apply Hcopy, next_tbl_0|].
  destruct (has e PDE_PS) eqn:Eps.
  { apply Hcopy. unfold next_tbl. destruct l as [|[|[|]]]; cbn [is_leaf]; rewrite ?Epr, ?Eps; try done; [|lia].
    specialize (Hps eq_refl i Hi). unfold e in Eps. congruence. }
  assert (next_tbl (S l) e = true) as Hn.
  { unfold next_tbl. rewrite Epr. destruct l as [|[|[|]]]; cbn [is_leaf]; rewrite ?Eps; done || lia. }
  assert (∀ T, T ∈ tpages l (pm (vp s)) (Z.land e PTE_MASK) → same_tbl (pm (vp s)) (pm p) T) as Hsame'.
  { intros T HT. apply Hsame. by eapply elem_of_tpages_child. }
  apply runs_bind. eapply runs_mono; [apply (IH l eq_refl (set_vp p s) e)| |done].
  - done.
  - change (bitmap_len p ≤ 2 ^ 40). by rewrite (st_len _ _ _ Hst).
  - change (vp (set_vp p s)) with p. rewrite (tpages_ext l (pm (vp s)) (pm p)) by done.
    intros T HT. eapply step_tbl_page; [exact Hst|]. apply Hsrc. by eapply elem_of_tpages_child.
  - intros ->. lia.
  - intros child s' (c & p1 & -> & -> & Hcl). change (vp (set_vp p s)) with p in Hcl.
    change (set_vp p1 (set_vp p s)) with (set_vp p1 s).
    pose proof (cl_step _ _ _ _ _ Hcl) as Hst1.
    assert (step ∅ (vp s) p1) as Hst01 by (by eapply step_trans).
    destruct (cl_pages _ _ _ _ _ Hcl _ (tpages_root _ _ _)) as [[_ Hc] Hcf]. rewrite Z.div_mul in Hc, Hcf by done.
    assert (0 ≤ c < 2 ^ 40) as Hcr.
    { pose proof (cp_range _ _ Hc). rewrite (st_len _ _ _ Hst01) in *. lia. }
    destruct (copied_entry l c e Hcr ltac:(lia)) as (Hmask & Hnv & Hvr). rewrite Hn in Hnv.
    eapply runs_ret; [apply (tstore_at (vp s) ∅ p1 Hst01)|].
    + eapply step_tbl_page; [exact Hst1|done].
    + done.
    + apply (cloning_link (S l) s src k i p p1); try done; cbn [sub_pages]; rewrite ?Hnv, ?Hmask; [apply Hcl..|].
      intros va. rewrite walk_e_next, Hmask, (cl_walk _ _ _ _ _ Hcl) by done.
      fold e. rewrite walk_e_next by done. by apply walk_ext.
Qed.

Lemma clone_table_run lvl : (lvl ≤ 3)%nat → clone_ok lvl.
Proof.
  induction lvl as [lvl IH] using lt_wf_ind. intros Hlvl s e Hwf Hlen Hsrc Hps.
  rewrite clone_table_unfold. set (src := Z.land e PTE_MASK) in *.
  eapply runs_bind_Ok; [by apply p2v_run, Hsrc, tpages_root|].
  apply runs_bind, alloc_runs; [done| |].
  { intros p'. done. }
  intros k Hk Hnz. rewrite (proj2 (Z.eqb_neq _ _)) by (unfold UIX_PAGE_SIZE; lia).
  destruct (step_taken (vp s) k Hwf Hk) as (Hst & Hc & Hfs).
  eapply runs_bind_Ok; [apply (p2v_at (vp s) ∅ _ Hst s), tbl_page_of, Hc|].
  apply runs_bind. eapply runs_mono;
    [apply (runs_for 512 0 _ (cloning lvl s src k) clone_oom)| |done].
  - exists (taken k (vp s)). split_and!; [done| |lia]. split; [done|done|..]; rewrite kids_0.
    + apply NoDup_singleton.
    + intros T HT. by apply not_elem_of_nil in HT.
  - intros j t Hj Hcl. apply clone_entry_run; try done.
    intros l ->. apply IH; lia.
  - intros [] t (p & -> & Hb & Hw). eapply runs_ret; [reflexivity|].
    exists k, p. split_and!; [done|done|].
    split; [apply Hb|rewrite tpages_kids; apply Hb|..].
    + rewrite tpages_kids. intros T [->|HT]%elem_of_cons; [|by apply Hb].
      split; [apply tbl_page_of, Hb|]. by rewrite Z.div_mul.
    + intros va. rewrite !walk_unfold. apply Hw, idx_range.
Qed.

(** ** The kernel half *)

Lemma runs_total {S A} (m : M S A) s (Q : A → S → Prop) :
  runs m s Q (λ _, False) → ∃ a s', m s = Ok a s' ∧ Q a s'.
Proof. intros [?|(w & s' & _ & [])]%runs_Ok. done. Qed.

Lemma copy_half_run s k :
  wf_vm s → client_page (vp s) k → k * UIX_PAGE_SIZE ≠ cr3 s →
  let d := k * UIX_PAGE_SIZE in
  ∃ p', copy_kernel_half (hhdm (vp s) + d) s = Ok tt (set_vp p' s) ∧
    step {[k]} (vp s) p' ∧ free_set p' = free_set (vp s) ∧
    ∀ j, 0 ≤ j < 512 → entry (pm p') d j =
      if 256 <=? j then entry (pm (vp s)) (cr3 s) j else entry (pm (vp s)) d j.
Proof.
  intros Hv Hk Hne d. pose proof (wv_pmm _ Hv) as Hwf.
  assert (tbl_page (vp s) (cr3 s)) as Hroot by (apply Hv, tpages_root).
  assert (tbl_page (vp s) d) as Hd by (by apply tbl_page_of).
  set (I := λ (i : Z) (t : vmm_st), ∃ p, t = set_vp p s ∧ step {[k]} (vp s) p ∧ free_set p = free_set (vp s) ∧
    ∀ j, 0 ≤ j < 512 → entry (pm p) d j =
      if (256 <=? j) && (j <? i) then entry (pm (vp s)) (cr3 s) j else entry (pm (vp s)) d j).
  destruct (runs_total (copy_kernel_half (hhdm (vp s) + d)) s (λ _, I 512)) as ([] & t & Ht & p & -> & Hst & Hfs & He).
  { unfold copy_kernel_half. apply (runs_for 256 256 _ I).
    - exists (vp s). split_and!; [by destruct s|by apply step_refl|done|]. intros j Hj. case_zbool; done || lia.
    - intros i t Hi (p & -> & Hst & Hfs & He).
      eapply runs_bind_Ok; [reflexivity|]. change (pml4 (set_vp p s)) with (pml4 s). rewrite (wv_pml4 _ Hv).
      assert (tbl_page p (cr3 s)) by (by eapply step_tbl_page). assert (tbl_page p d) by (by eapply step_tbl_page).
      eapply runs_bind_Ok; [apply (tload_at (vp s) _ p Hst); [done|lia]|].
      eapply runs_ret; [apply (tstore_at (vp s) _ p Hst); [done|lia]|].
      assert (same_tbl (pm (vp s)) (pm p) (cr3 s)) as Hs.
      { apply (step_same_tbl {[k]}); [done|done|done|]. rewrite elem_of_singleton. intros E.
        apply Hne. destruct (tbl_page_bounds _ _ Hwf Hroot) as (_ & _ & ->). by rewrite E. }
      rewrite Hs by lia.
      destruct (step_wr p d i (entry (pm (vp s)) (cr3 s) i) (st_wf _ _ _ Hst)) as [Hst2 Hfs2]; [done|lia|].
      unfold d in Hst2. rewrite Z.div_mul in Hst2 by done. fold d in Hst2.
      eexists. split_and!; [reflexivity|by eapply step_trans|by rewrite Hfs2|].
      intros j Hj. rewrite entry_wr by (done || apply Hst || lia || apply entry_range). rewrite Z.eqb_refl. cbn [andb].
      rewrite He by done. case_zbool; subst; done || lia. }
  exists p. split_and!; [done..|]. intros j Hj. rewrite He by done. case_zbool; done || lia.
Qed.

End TableFacts.
