(* ===== verification/ForkFacts.v ===== *)
(** * Copy-on-write duplication of tables

    [fork_table] of [core/memory/vmm.c] rebuilds a source table and everything
    below it in new pages, while it turns each user leaf of the source into a
    read-only copy-on-write leaf. *)

From S2P Require Import Prelude Lib Pmm PmmFacts PmmProps Vmm PageTables VmmFacts TableFacts.

Module ForkFacts.
Import Lib Pmm PmmFacts PmmProps Vmm PageTables VmmFacts TableFacts.

(** ** What a fork does to a leaf *)

Definition cow_leaf (e : Z) : Z := if has e VMM_USER then cow_entry e else e.
Definition cow_walk (w : option (nat * Z)) : option (nat * Z) :=
  (λ '(l, e), (l, cow_leaf e)) <$> w.

(** Page numbers of the tables below (and with) the table at [tbl]. *)
Definition pset (lvl : nat) (m : mem) (tbl : Z) : gset Z :=
  list_to_set ((λ T, T / UIX_PAGE_SIZE) <$> tpages lvl m tbl).

(** The table at page [k] was built as the copy of [src]. *)
Record forked (lvl : nat) (p p' : pmm_st) (src k : Z) : Prop := Forked {
  fk_step : step ({[k]} ∪ pset lvl (pm p) src) p p';
  fk_shape : tpages lvl (pm p') src = tpages lvl (pm p) src;
  fk_nodup : NoDup (tpages lvl (pm p') (k * UIX_PAGE_SIZE));
  fk_pages : ∀ T, T ∈ tpages lvl (pm p') (k * UIX_PAGE_SIZE) → T ≠ k * UIX_PAGE_SIZE →
    tbl_page p' T ∧ T / UIX_PAGE_SIZE ∈ free_set p;
  fk_src : ∀ va, walk lvl (pm p') src va = cow_walk (walk lvl (pm p) src va);
  fk_dst : ∀ va, walk lvl (pm p') (k * UIX_PAGE_SIZE) va = cow_walk (walk lvl (pm p) src va);
  fk_size : (size (free_set p) ≤ size (free_set p') + length (kids lvl (pm p) src 512))%nat;
}.

(** The source in the loop, before entry [i]. *)
Record src_done (lvl : nat) (p0 : pmm_st) (src i : Z) (p : pmm_st) : Prop := SrcDone {
  sd_lo : ∀ j va, 0 ≤ j < i →
    walk_e lvl (pm p) (entry (pm p) src j) va = cow_walk (walk_e lvl (pm p0) (entry (pm p0) src j) va);
  sd_hi : ∀ j, i ≤ j < 512 → entry (pm p) src j = entry (pm p0) src j ∧
    ∀ T, T ∈ sub_pages lvl (pm p0) (entry (pm p0) src j) → same_tbl (pm p0) (pm p) T;
  sd_shape : ∀ j, 0 ≤ j < 512 →
    sub_pages lvl (pm p) (entry (pm p) src j) = sub_pages lvl (pm p0) (entry (pm p0) src j);
}.

(** The loop of [fork_table] before entry [i]. *)
Definition forking (lvl : nat) (s : vmm_st) (src k i : Z) (t : vmm_st) : Prop :=
  ∃ p, t = set_vp p s ∧ built (vp s) ({[k]} ∪ pset lvl (pm (vp s)) src) k lvl i p ∧
    src_done lvl (vp s) src i p ∧
    (size (free_set (vp s)) ≤ size (free_set p) + length (kids lvl (pm (vp s)) src i))%nat ∧
    ∀ j va, 0 ≤ j < i →
      walk_e lvl (pm p) (entry (pm p) (k * UIX_PAGE_SIZE) j) va =
      cow_walk (walk_e lvl (pm (vp s)) (entry (pm (vp s)) src j) va).

(** With enough free pages nothing stops a fork. *)
Definition no_stop (w : stop) : Prop := False.

(** One round of [fork_table]. *)
Definition fork_leaf (src dst i e : Z) : M vmm_st unit :=
  if has e VMM_USER then
    tstore src i (cow_entry e) ;;
    tstore dst i (cow_entry e) ;;
    liftp (pmm_ref (Z.land e PTE_MASK))
  else tstore dst i e.

Definition fork_one (level : nat) (src dst i : Z) : M vmm_st unit :=
  e ← tload src i;
  if negb (has e VMM_PRESENT) then tstore dst i 0
  else
    match level with
    | O => fork_leaf src dst i e
    | S l =>
        if (match l with O => true | S _ => false end) && has e PDE_PS then fork_leaf src dst i e
        else
          t ← liftp pmm_alloc;
          if t =? 0 then panic "vmm: OOM forking tables"
          else
            nd ← p2v t;
            liftp (hmemset nd 0 UIX_PAGE_SIZE) ;;
            sub ← p2v (Z.land e PTE_MASK);
            fork_table l sub nd ;;
            tstore dst i (Z.lor t (Z.land e 0xFFF))
    end.

Lemma fork_table_unfold level src dst : fork_table level src dst = for_ 512 0 (fork_one level src dst).
Proof. by destruct level. Qed.

(** ** Facts on sets of pages *)

Lemma elem_of_pset lvl m tbl q : q ∈ pset lvl m tbl ↔ ∃ T, T ∈ tpages lvl m tbl ∧ q = T / UIX_PAGE_SIZE.
Proof.
  unfold pset. rewrite elem_of_list_to_set, list_elem_of_fmap.
  split; [intros (T & -> & HT)|intros (T & HT & ->)]; by exists T.
Qed.

Lemma pset_child lvl m tbl i :
  0 ≤ i < 512 → next_tbl (S lvl) (entry m tbl i) = true →
  pset lvl m (Z.land (entry m tbl i) PTE_MASK) ⊆ pset (S lvl) m tbl.
Proof.
  intros Hi Hn q (T & HT & ->)%elem_of_pset. apply elem_of_pset. exists T. split; [|done].
  by eapply elem_of_tpages_child.
Qed.

(** A table of the tree is told from another page by its page number. *)
Lemma not_in_pset lvl p tbl k :
  wf p → (∀ T, T ∈ tpages lvl (pm p) tbl → tbl_page p T) →
  k * UIX_PAGE_SIZE ∉ tpages lvl (pm p) tbl → k ∉ pset lvl (pm p) tbl.
Proof.
  intros Hwf Ht Hk (T & HT & ->)%elem_of_pset. apply Hk.
  destruct (tbl_page_bounds p T Hwf (Ht T HT)) as (_ & _ & <-). done.
Qed.

Lemma sub_pages_tpages lvl m tbl i T :
  0 ≤ i < 512 → T ∈ sub_pages lvl m (entry m tbl i) → T ∈ tpages lvl m tbl.
Proof.
  intros Hi HT. rewrite tpages_kids. apply list_elem_of_further, elem_of_kids. eauto.
Qed.

(** The disjointness of a tree whose pages are all distinct, by entries. *)
Lemma sub_pages_disj lvl m tbl :
  NoDup (tpages lvl m tbl) →
  (∀ i, 0 ≤ i < 512 → tbl ∉ sub_pages lvl m (entry m tbl i)) ∧
  (∀ i, 0 ≤ i < 512 → NoDup (sub_pages lvl m (entry m tbl i))) ∧
  (∀ i j T, 0 ≤ i < 512 → 0 ≤ j < 512 →
     T ∈ sub_pages lvl m (entry m tbl i) → T ∈ sub_pages lvl m (entry m tbl j) → i = j).
Proof.
  rewrite tpages_kids. intros [H1 H2]%NoDup_cons. split_and!.
  - intros i Hi HT. apply H1, elem_of_kids. eauto.
  - intros i Hi. by apply (NoDup_kids_inv _ _ _ _ H2).
  - intros i j T Hi Hj HTi HTj. by apply (NoDup_kids_inv _ _ _ _ H2) with T.
Qed.

(** ** Reference counts *)

Lemma rc_upd_step p i v : wf p → refcounts p ≠ 0 → 0 ≤ i < total_pages p →
  step ∅ p (rc_upd i v p) ∧ free_set (rc_upd i v p) = free_set p.
Proof.
  intros Hwf Hnz Hi. destruct (wf_refs _ Hwf) as [?|Hrc]; [done|].
  destruct (rc_upd_wf p i v Hwf Hrc Hi) as [Hwf' Hfs]. split; [|done].
  split; try done; [by rewrite Hfs|]. intros q Hq _ a Ha.
  apply (rc_upd_mem p i); [lia|]. pose proof (cp_rc _ _ Hq Hnz) as Hd. unfold page_disjoint in Hd. lia.
Qed.

Lemma ref_step p i :
  wf p → refcounts p ≠ 0 → 0 ≤ i →
  ∃ p', pmm_ref (i * UIX_PAGE_SIZE) p = Ok tt p' ∧ step ∅ p p' ∧ free_set p' = free_set p.
Proof.
  intros Hwf Hnz Hi. destruct (wf_refs _ Hwf) as [?|Hrc]; [done|].
  destruct (decide (i < total_pages p)) as [Hlt|Hge].
  - rewrite pmm_ref_run by done. eexists. split; [done|].
    destruct (rc_get p i <? 65535); [|split; [by apply step_refl|done]].
    by apply rc_upd_step.
  - exists p. split; [|split; [by apply step_refl|done]]. unfold pmm_ref. rewrite page_index.
    rewrite (bind_Ok_eq _ _ _ (total_pages p) p) by reflexivity.
    by rewrite (proj2 (Z.leb_le _ _)) by lia.
Qed.

Lemma entry_page e : 0 ≤ e → ∃ i, 0 ≤ i ∧ Z.land e PTE_MASK = i * UIX_PAGE_SIZE.
Proof.
  intros He. exists (Z.land e PTE_MASK / UIX_PAGE_SIZE). split.
  - apply Z.div_pos; [|done]. apply Z.land_nonneg. by left.
  - unfold UIX_PAGE_SIZE. change 4096 with (2 ^ 12).
    rewrite <-Z.shiftr_div_pow2, <-Z.shiftl_mul_pow2, <-Z.ldiff_ones_r by lia.
    apply Z.bits_inj'. intros n Hn. rewrite Z.ldiff_spec, !Z.land_spec.
    rewrite <-andb_assoc, <-(Z.ldiff_spec PTE_MASK). done.
Qed.

(** ** Bits of a copy-on-write entry *)

Lemma cow_entry_bits e :
  0 ≤ e →
  has (cow_entry e) VMM_PRESENT = has e VMM_PRESENT ∧ has (cow_entry e) PDE_PS = has e PDE_PS ∧
  has (cow_entry e) VMM_WRITE = false ∧ 0 ≤ cow_entry e < 2 ^ 64.
Proof.
  intros He. unfold has, cow_entry. rewrite !Z.land_lor_distr_l, <-!Z.land_assoc.
  change (Z.land (wrap32 (Z.lnot VMM_WRITE)) VMM_PRESENT) with VMM_PRESENT.
  change (Z.land (wrap32 (Z.lnot VMM_WRITE)) PDE_PS) with PDE_PS.
  change (Z.land (wrap32 (Z.lnot VMM_WRITE)) VMM_WRITE) with 0.
  change (Z.land COW_MARK VMM_PRESENT) with 0. change (Z.land COW_MARK PDE_PS) with 0.
  change (Z.land COW_MARK VMM_WRITE) with 0. rewrite !Z.lor_0_r, Z.land_0_r.
  split_and!; [done..|apply Z.lor_nonneg; split; [|done]; apply Z.land_nonneg; by left|].
  apply lor_range; [rewrite Z.land_comm; apply land_range; [|lia]|split; vm_compute; [discriminate|reflexivity]|lia].
  split; [|done]. vm_compute. discriminate.
Qed.

(** ** The source side of a round *)

Lemma src_link lvl p0 src i p p' :
  src_done lvl p0 src i p → 0 ≤ i < 512 →
  (∀ j, 0 ≤ j < 512 → j ≠ i → entry (pm p') src j = entry (pm p) src j ∧
     ∀ T, T ∈ sub_pages lvl (pm p) (entry (pm p) src j) → same_tbl (pm p) (pm p') T) →
  sub_pages lvl (pm p') (entry (pm p') src i) = sub_pages lvl (pm p0) (entry (pm p0) src i) →
  (∀ va, walk_e lvl (pm p') (entry (pm p') src i) va =
     cow_walk (walk_e lvl (pm p0) (entry (pm p0) src i) va)) →
  src_done lvl p0 src (i + 1) p'.
Proof.
  intros Hs Hi Hj Hsub Hw. split.
  - intros j va Hji. destruct (decide (j = i)) as [->|]; [done|].
    destruct (Hj j) as [He HT]; [lia|done|]. rewrite He, (walk_e_sub_ext _ (pm p)) by done.
    apply Hs. lia.
  - intros j Hji. destruct (Hj j) as [He HT]; [lia|lia|]. destruct (sd_hi _ _ _ _ _ Hs j) as [He0 HT0]; [lia|].
    split; [by rewrite He|]. intros T HTin a Ha. rewrite (HT T); [by apply HT0| |done].
    rewrite (sd_shape _ _ _ _ _ Hs j) by lia. done.
  - intros j Hj'. destruct (decide (j = i)) as [->|]; [done|].
    destruct (Hj j) as [He HT]; [done|done|]. rewrite He, (sub_pages_ext _ (pm p)) by done.
    by apply Hs.
Qed.

(** ** A round of [fork_table] *)

Section round.
Context (lvl : nat) (s : vmm_st) (src k i : Z) (p : pmm_st).
Context (Hwf : wf (vp s)) (Hlen : bitmap_len (vp s) ≤ 2 ^ 40) (Hrc : refcounts (vp s) ≠ 0).
Context (Hnd : NoDup (tpages lvl (pm (vp s)) src)).
Context (Hpg : ∀ T, T ∈ tpages lvl (pm (vp s)) src → tbl_page (vp s) T).
Context (Hk : client_page (vp s) k) (Hkt : k * UIX_PAGE_SIZE ∉ tpages lvl (pm (vp s)) src).
Context (Hi : 0 ≤ i < 512).
Context (Hb : built (vp s) ({[k]} ∪ pset lvl (pm (vp s)) src) k lvl i p).
Context (Hsrc : src_done lvl (vp s) src i p).
Context (Hsz : (size (free_set (vp s)) ≤ size (free_set p) + length (kids lvl (pm (vp s)) src i))%nat).
Context (Hdst : ∀ j va, 0 ≤ j < i →
      walk_e lvl (pm p) (entry (pm p) (k * UIX_PAGE_SIZE) j) va =
      cow_walk (walk_e lvl (pm (vp s)) (entry (pm (vp s)) src j) va)).

Local Abbreviation m0 := (pm (vp s)).
Local Abbreviation X := ({[k]} ∪ pset lvl (pm (vp s)) src).
Local Abbreviation d := (k * UIX_PAGE_SIZE).
Local Abbreviation e := (entry (pm (vp s)) src i).

Lemma X_handed q : q ∈ X → q ∉ free_set (vp s).
Proof.
  rewrite elem_of_union, elem_of_singleton, elem_of_pset. intros [->|(T & HT & ->)].
  - apply Hk.
  - apply Hpg in HT as [_ HT]. apply HT.
Qed.

Lemma k_in_X : k ∈ X ∨ k ∈ free_set (vp s).
Proof. left. apply elem_of_union_l, elem_of_singleton_2. done. Qed.

Lemma src_tbl T : T ∈ tpages lvl m0 src → tbl_page p T.
Proof. intros HT. eapply step_tbl_page; [apply Hb|]. by apply Hpg. Qed.

Lemma src_ne_k T : T ∈ tpages lvl m0 src → T / UIX_PAGE_SIZE ≠ k.
Proof.
  intros HT E. apply Hkt. destruct (tbl_page_bounds _ T Hwf (Hpg T HT)) as (_ & _ & Ht). by rewrite <-E, <-Ht.
Qed.

Lemma src_entry : entry (pm p) src i = e.
Proof. apply (sd_hi _ _ _ _ _ Hsrc). lia. Qed.

(** A source table, as the copy stands. *)
Lemma src_sub j T : 0 ≤ j < 512 → T ∈ sub_pages lvl (pm p) (entry (pm p) src j) → T ∈ tpages lvl m0 src.
Proof.
  intros Hj. rewrite (sd_shape _ _ _ _ _ Hsrc j Hj). by apply sub_pages_tpages.
Qed.

(** Linking entry [v] of the new table, after the source side moved to [p1]. *)
Lemma round_link X' p1 v :
  step X' p p1 → (∀ q, q ∈ X' → q ∈ X ∧ q ≠ k) → 0 ≤ v < 2 ^ 64 →
  NoDup (sub_pages lvl (pm p1) v) →
  (∀ T, T ∈ sub_pages lvl (pm p1) v → tbl_page p1 T ∧ T / UIX_PAGE_SIZE ∈ free_set p) →
  (∀ va, walk_e lvl (pm p1) v va = cow_walk (walk_e lvl m0 e va)) →
  built (vp s) X k lvl (i + 1) (wr d i v p1) ∧
  ∀ j va, 0 ≤ j < i + 1 →
    walk_e lvl (pm (wr d i v p1)) (entry (pm (wr d i v p1)) d j) va =
    cow_walk (walk_e lvl m0 (entry m0 src j) va).
Proof using Hpg Hk Hi Hb Hdst.
  clear Hwf Hlen Hrc Hnd Hkt Hsrc Hsz. intros Hst HX' Hv Hn Hsub Hw.
  destruct (built_link (vp s) X X_handed k k_in_X lvl i p X' p1 v) as (Hb' & He & Hwe & Hej & Hwj); try done.
  split; [done|]. intros j va Hj. destruct (decide (j = i)) as [->|].
  - by rewrite He, Hwe, Hw.
  - rewrite Hej, Hwj by lia. apply Hdst. lia.
Qed.

(** Writing the new table leaves the source alone. *)
Lemma wr_dst_src p1 v T :
  step X p p1 → T ∈ tpages lvl m0 src → same_tbl (pm p1) (pm (wr d i v p1)) T.
Proof.
  intros Hst HT. assert (tbl_page p1 d) as Hd by (eapply step_tbl_page; [exact Hst|]; apply tbl_page_of, Hb).
  destruct (step_wr p1 d i v (st_wf _ _ _ Hst) Hd Hi) as [Hst2 _].
  apply (step_same_tbl _ _ _ _ Hst2); [apply Hst|eapply step_tbl_page; [exact Hst|by apply src_tbl]|].
  rewrite Z.div_mul, elem_of_singleton by done. by apply src_ne_k.
Qed.

Lemma size_kept p' :
  free_set p' = free_set p →
  (size (free_set (vp s)) ≤ size (free_set p') + length (kids lvl m0 src (i + 1)))%nat.
Proof. intros ->. rewrite kids_S, length_app by lia. lia. Qed.

Lemma round_plain v :
  0 ≤ v < 2 ^ 64 → next_tbl lvl v = false → next_tbl lvl e = false →
  (∀ va, walk_e lvl m0 v va = walk_e lvl m0 e va) →
  (∀ va, cow_walk (walk_e lvl m0 e va) = walk_e lvl m0 e va) →
  runs (tstore (hhdm (vp s) + d) i v) (set_vp p s) (λ _, forking lvl s src k (i + 1)) no_stop.
Proof.
  intros Hv Hnv Hne Hwv Hce. pose proof (bt_step _ _ _ _ _ _ Hb) as Hst.
  eapply runs_ret; [apply (tstore_at (vp s) X p Hst); [apply tbl_page_of, Hb|done]|].
  destruct (round_link ∅ p v) as [Hb' Hdst']; 
    [apply step_refl, Hst|by intros q ?%not_elem_of_empty|done|..].
  { rewrite sub_pages_stop by done. constructor. }
  { rewrite sub_pages_stop by done. intros T HT. by apply not_elem_of_nil in HT. }
  { intros va. by rewrite (walk_e_stop lvl m0), Hwv, Hce. }
  assert (∀ T, T ∈ tpages lvl m0 src → same_tbl (pm p) (pm (wr d i v p)) T) as Hsame.
  { intros T HT. apply wr_dst_src; [apply step_refl, Hst|done]. }
  eexists. split_and!; [reflexivity|done| |by apply size_kept, step_wr; [apply Hst|apply tbl_page_of, Hb|]|done].
  apply (src_link lvl (vp s) src i p); [done|done|..]; rewrite ?(Hsame src (tpages_root _ _ _) i Hi), ?src_entry.
  - intros j Hj _. split; [by apply Hsame; [apply tpages_root|]|]. intros T HT. apply Hsame. by apply (src_sub j).
  - by rewrite !sub_pages_stop.
  - intros va. rewrite Hce. by apply walk_e_stop.
Qed.

(** A user leaf: the source becomes copy-on-write, and so does the copy. *)
Lemma round_cow :
  has e VMM_PRESENT = true → is_leaf lvl e = true → has e VMM_USER = true →
  runs (tstore (hhdm (vp s) + src) i (cow_entry e) ;;
        tstore (hhdm (vp s) + d) i (cow_entry e) ;;
        liftp (pmm_ref (Z.land e PTE_MASK))) (set_vp p s)
    (λ _, forking lvl s src k (i + 1)) no_stop.
Proof.
  intros Hpr Hleaf Hus. pose proof (bt_step _ _ _ _ _ _ Hb) as Hst.
  destruct (entry_range m0 src i) as [He0 _]. destruct (cow_entry_bits e He0) as (Hcp & Hcs & _ & Hcr).
  set (v := cow_entry e) in *.
  assert (is_leaf lvl v = true) as Hvl by (destruct lvl as [|[|[|]]]; cbn [is_leaf] in *; congruence).
  assert (∀ m va, walk_e lvl m v va = cow_walk (walk_e lvl m0 e va)) as Hwv.
  { intros m va. unfold walk_e. rewrite Hcp, Hpr, Hvl, Hleaf.
    change (cow_walk (Some (lvl, e))) with (Some (lvl, cow_leaf e)). unfold cow_leaf. by rewrite Hus. }
  assert (next_tbl lvl v = false) as Hnv by (unfold next_tbl; by rewrite Hvl, andb_false_r).
  assert (next_tbl lvl e = false) as Hne by (unfold next_tbl; by rewrite Hleaf, andb_false_r).
  assert (src ∈ tpages lvl m0 src) as Hroot by apply tpages_root.
  assert (tbl_page p src) as Hsp by by apply src_tbl.
  (* the source entry *)
  eapply runs_bind_Ok; [by apply (tstore_at (vp s) X p Hst)|].
  set (p1 := wr src i v p). destruct (step_wr p src i v (st_wf _ _ _ Hst) Hsp Hi) as [Hst1 Hfs1]. fold p1 in Hst1, Hfs1.
  assert (∀ q, q ∈ ({[src / UIX_PAGE_SIZE]} : gset Z) → q ∈ X ∧ q ≠ k) as HX1.
  { intros q ->%elem_of_singleton. split; [|by apply src_ne_k].
    apply elem_of_union. right. apply elem_of_pset. by exists src. }
  assert (step X p p1) as HstX1 by (eapply step_weaken; [exact Hst1|]; intros q _ Hq; by apply HX1).
  assert (step X (vp s) p1) as Hst01 by (by eapply step_trans).
  (* the entry of the copy *)
  eapply runs_bind_Ok; [apply (tstore_at (vp s) X p1 Hst01); [|done]|].
  { eapply step_tbl_page; [exact Hst1|]. apply tbl_page_of, Hb. }
  destruct (round_link {[src / UIX_PAGE_SIZE]} p1 v) as [Hb2 Hdst2]; [done|done|done|..].
  { rewrite sub_pages_stop by done. constructor. }
  { rewrite sub_pages_stop by done. intros T HT. by apply not_elem_of_nil in HT. }
  { intros va. apply Hwv. }
  set (p2 := wr d i v p1) in *. pose proof (bt_step _ _ _ _ _ _ Hb2) as Hst2.
  (* the reference count *)
  destruct (entry_page e He0) as (pg & Hpg0 & ->).
  destruct (ref_step p2 pg) as (p3 & Hrun & Hst3 & Hfs3); [apply Hst2|by rewrite (st_rc _ _ _ Hst2)|done|].
  apply (runs_ret _ _ tt (set_vp p3 s)); [unfold liftp, zoom; change (vp (set_vp p2 s)) with p2; by rewrite Hrun|].
  destruct (built_keep (vp s) X X_handed k lvl (i + 1) p2 ∅ p3 Hb2) as (Hb3 & Hd3 & Hw3);
    [lia|done|by intros q ?%not_elem_of_empty|].
  assert (∀ T, T ∈ tpages lvl m0 src → same_tbl (pm p1) (pm p3) T) as Hs13.
  { intros T HT j Hj. transitivity (entry (pm p2) T j).
    - apply (step_same_tbl ∅); [done|apply Hst2| |apply not_elem_of_empty|done].
      eapply step_tbl_page; [exact Hst2|by apply Hpg].
    - by apply wr_dst_src. }
  assert (∀ T j, T ∈ tpages lvl m0 src → 0 ≤ j < 512 →
    entry (pm p3) T j = if (T =? src) && (j =? i) then v else entry (pm p) T j) as Hent.
  { intros T j HT Hj. rewrite (Hs13 T HT j Hj). apply entry_wr; try done; [apply Hst|by apply src_tbl]. }
  exists p3. split_and!; [done|done| | |].
  - apply (src_link lvl (vp s) src i p); [done|done|..]; rewrite ?(Hent src i Hroot Hi), ?Z.eqb_refl; cbn [andb].
    + intros j Hj Hji. rewrite (Hent src j Hroot Hj), (proj2 (Z.eqb_neq j i)), andb_false_r by done.
      split; [done|]. intros T HT. pose proof (src_sub j T Hj HT) as HTin. intros j' Hj'.
      rewrite (Hent T j' HTin Hj'). rewrite (sd_shape _ _ _ _ _ Hsrc j Hj) in HT.
      rewrite (proj2 (Z.eqb_neq T src)); [done|]. intros ->. by apply (sub_pages_disj lvl m0 src Hnd) in HT.
    + by rewrite !sub_pages_stop.
    + intros va. apply Hwv.
  - apply size_kept. rewrite Hfs3, <-Hfs1. apply step_wr; [apply Hst01| |done].
    eapply step_tbl_page; [exact Hst1|]. apply tbl_page_of, Hb.
  - intros j va Hj. rewrite Hd3 by lia. rewrite Hw3 by done. by apply Hdst2.
Qed.

End round.

(** [fork_table] at level [lvl], for the induction. *)
Definition fork_ok (lvl : nat) : Prop :=
  ∀ s src k, wf (vp s) → bitmap_len (vp s) ≤ 2 ^ 40 → refcounts (vp s) ≠ 0 →
    NoDup (tpages lvl (pm (vp s)) src) →
    (∀ T, T ∈ tpages lvl (pm (vp s)) src → tbl_page (vp s) T) →
    client_page (vp s) k → k * UIX_PAGE_SIZE ∉ tpages lvl (pm (vp s)) src →
    (lvl = 2%nat → no_ps (pm (vp s)) src) →
    0 ∉ free_set (vp s) → (length (kids lvl (pm (vp s)) src 512) ≤ size (free_set (vp s)))%nat →
    runs (fork_table lvl (hhdm (vp s) + src) (hhdm (vp s) + k * UIX_PAGE_SIZE)) s
      (λ _ s', ∃ p', s' = set_vp p' s ∧ forked lvl (vp s) p' src k) no_stop.

(** Allocation with pages left. *)
Lemma alloc_room s Q F :
  wf (vp s) → 0 ∉ free_set (vp s) → (0 < size (free_set (vp s)))%nat →
  (∀ i, i ∈ free_set (vp s) → i ≠ 0 → Q (i * UIX_PAGE_SIZE) (set_vp (taken i (vp s)) s)) →
  runs (liftp pmm_alloc) s Q F.
Proof.
  intros Hwf H0 Hs Hi. destruct (alloc_run s Hwf) as [(p' & He & [Hf|Hf])|(i & ? & ? & He)].
  - rewrite Hf, size_empty in Hs. lia.
  - done.
  - eapply runs_ret; [exact He|auto].
Qed.

(** The copy of the table below an entry: the page [c] just handed out, filled
    by the recursive call. *)
Lemma fork_fill l s p X sub c :
  fork_ok l → (l = 2%nat → no_ps (pm p) sub) → step X (vp s) p → bitmap_len (vp s) ≤ 2 ^ 40 → refcounts (vp s) ≠ 0 →
  NoDup (tpages l (pm p) sub) → (∀ T, T ∈ tpages l (pm p) sub → tbl_page p T) →
  0 ∉ free_set p → (length (tpages l (pm p) sub) ≤ size (free_set p))%nat → c ∈ free_set p →
  ∀ (K : M vmm_st unit) Q,
    (∀ pb, 0 ≤ c < 2 ^ 40 → step (pset l (pm p) sub) p pb → client_page pb c →
       NoDup (tpages l (pm pb) (c * UIX_PAGE_SIZE)) →
       (∀ T, T ∈ tpages l (pm pb) (c * UIX_PAGE_SIZE) → tbl_page pb T ∧ T / UIX_PAGE_SIZE ∈ free_set p) →
       tpages l (pm pb) sub = tpages l (pm p) sub →
       (∀ va, walk l (pm pb) sub va = cow_walk (walk l (pm p) sub va)) →
       (∀ va, walk l (pm pb) (c * UIX_PAGE_SIZE) va = cow_walk (walk l (pm p) sub va)) →
       (size (free_set p) ≤ size (free_set pb) + length (tpages l (pm p) sub))%nat →
       runs K (set_vp pb s) Q no_stop) →
    runs (nd ← p2v (c * UIX_PAGE_SIZE);
          liftp (hmemset nd 0 UIX_PAGE_SIZE) ;;
          sub ← p2v sub;
          fork_table l sub nd ;;
          K) (set_vp (taken c p) s) Q no_stop.
Proof.
  intros IH Hps Hst Hlen Hrc Hnd Hpg H0 Hroom Hc K Q HK. pose proof (st_wf _ _ _ Hst) as Hwfp.
  rewrite tpages_kids in Hroom. cbn [length] in Hroom. assert (c ≠ 0) as Hnz by by intros ->.
  destruct (step_taken p c Hwfp Hc) as (Hst1 & Hc1 & _).
  assert (step X (vp s) (taken c p)) as Hst01.
  { eapply step_then; [exact Hst|exact Hst1|]. by intros q _ ?%not_elem_of_empty. }
  eapply runs_bind_Ok; [apply (p2v_at (vp s) X _ Hst01), tbl_page_of, Hc1|].
  pose proof (fresh_table_intro p c Hwfp Hc Hnz) as Hf. set (pa := clear_page c (taken c p)) in *.
  pose proof (ft_step _ _ _ Hf) as Hsta.
  eapply runs_bind_Ok.
  { rewrite <-(st_hhdm _ _ _ Hst01). apply (hmemset_page (set_vp (taken c p) s)); [apply Hst1|done]. }
  change (set_vp (clear_page c (vp (set_vp (taken c p) s))) (set_vp (taken c p) s)) with (set_vp pa s).
  clearbody pa.
  assert (step X (vp s) pa) as Hst0a.
  { eapply step_then; [exact Hst|exact Hsta|]. by intros q _ ?%not_elem_of_empty. }
  assert (∀ T, T ∈ tpages l (pm p) sub → same_tbl (pm p) (pm pa) T) as Hsame.
  { intros T HT. apply (step_same_tbl ∅); [done|done|by apply Hpg|apply not_elem_of_empty]. }
  pose proof (tpages_ext l _ _ _ Hsame) as Htp.
  assert (kids l (pm pa) sub 512 = kids l (pm p) sub 512) as Hkids.
  { pose proof Htp as Hkk. rewrite !tpages_kids in Hkk. exact (f_equal tail Hkk). }
  pose proof (ft_set _ _ _ Hf) as Hfsa.
  eapply runs_bind_Ok; [apply (p2v_at (vp s) X _ Hst0a); eapply step_tbl_page; [exact Hsta|apply Hpg, tpages_root]|].
  rewrite <-(st_hhdm _ _ _ Hst0a).
  apply runs_bind. eapply runs_mono; [apply (IH (set_vp pa s) sub c)| |done];
    change (vp (set_vp pa s)) with pa; rewrite ?Htp; try done.
  - apply Hsta.
  - by rewrite (st_len _ _ _ Hst0a).
  - by rewrite (st_rc _ _ _ Hst0a).
  - intros T HT. eapply step_tbl_page; [exact Hsta|by apply Hpg].
  - apply Hf.
  - intros HT. apply Hpg in HT as [_ HT]. rewrite Z.div_mul in HT by done. by apply (cp_used _ _ HT).
  - intros E j Hj. rewrite (Hsame sub (tpages_root _ _ _) j Hj). by apply Hps.
  - intros Hin. by apply H0, Hsta.
  - rewrite Hkids, Hfsa. pose proof (size_diff_elem _ _ Hc). lia.
  - intros [] t (pb & -> & Hfk). change (set_vp pb (set_vp pa s)) with (set_vp pb s).
    pose proof (fk_step _ _ _ _ _ Hfk) as Hstb.
    assert (client_page pb c) as Hcb by (eapply step_client; [exact Hstb|apply Hf]).
    apply HK.
    + pose proof (cp_range _ _ Hcb). rewrite (st_len _ _ _ Hstb), (st_len _ _ _ Hst0a) in *. lia.
    + unfold pset in Hstb. rewrite Htp in Hstb.
      eapply step_then; [eapply step_weaken; [exact Hsta|by intros q _ ?%not_elem_of_empty]|exact Hstb|].
      intros q Hq [->%elem_of_singleton|?]%elem_of_union; [|done]. by destruct (cp_used _ _ Hq).
    + done.
    + apply Hfk.
    + intros T HT. destruct (decide (T = c * UIX_PAGE_SIZE)) as [->|Hne].
      * split; [by apply tbl_page_of|]. by rewrite Z.div_mul.
      * destruct (fk_pages _ _ _ _ _ Hfk T HT Hne) as [? HTf]. split; [done|]. by apply Hsta.
    + by rewrite (fk_shape _ _ _ _ _ Hfk), Htp.
    + intros va. rewrite (fk_src _ _ _ _ _ Hfk). by rewrite (walk_ext l _ _ _ _ Hsame).
    + intros va. rewrite (fk_dst _ _ _ _ _ Hfk). by rewrite (walk_ext l _ _ _ _ Hsame).
    + pose proof (fk_size _ _ _ _ _ Hfk) as Hs. rewrite Hkids, Hfsa in Hs.
      rewrite tpages_kids. cbn [length]. pose proof (size_diff_elem _ _ Hc). lia.
Qed.

(** Linking the copy of a table, once it is built. *)
Lemma round_table l s src k i p c pb :
  wf (vp s) → NoDup (tpages (S l) (pm (vp s)) src) →
  (∀ T, T ∈ tpages (S l) (pm (vp s)) src → tbl_page (vp s) T) →
  client_page (vp s) k → k * UIX_PAGE_SIZE ∉ tpages (S l) (pm (vp s)) src → 0 ≤ i < 512 →
  built (vp s) ({[k]} ∪ pset (S l) (pm (vp s)) src) k (S l) i p →
  src_done (S l) (vp s) src i p →
  (size (free_set (vp s)) ≤ size (free_set p) + length (kids (S l) (pm (vp s)) src i))%nat →
  (∀ j va, 0 ≤ j < i →
      walk_e (S l) (pm p) (entry (pm p) (k * UIX_PAGE_SIZE) j) va =
      cow_walk (walk_e (S l) (pm (vp s)) (entry (pm (vp s)) src j) va)) →
  let e := entry (pm (vp s)) src i in
  let sub := Z.land e PTE_MASK in
  next_tbl (S l) e = true → (l ≤ 2)%nat →
  0 ≤ c < 2 ^ 40 → step (pset l (pm p) sub) p pb →
  NoDup (tpages l (pm pb) (c * UIX_PAGE_SIZE)) →
  (∀ T, T ∈ tpages l (pm pb) (c * UIX_PAGE_SIZE) → tbl_page pb T ∧ T / UIX_PAGE_SIZE ∈ free_set p) →
  tpages l (pm p) sub = tpages l (pm (vp s)) sub →
  tpages l (pm pb) sub = tpages l (pm (vp s)) sub →
  (∀ va, walk l (pm pb) sub va = cow_walk (walk l (pm (vp s)) sub va)) →
  (∀ va, walk l (pm pb) (c * UIX_PAGE_SIZE) va = cow_walk (walk l (pm (vp s)) sub va)) →
  (size (free_set p) ≤ size (free_set pb) + length (tpages l (pm (vp s)) sub))%nat →
  let v := Z.lor (c * UIX_PAGE_SIZE) (Z.land e 0xFFF) in
  let p' := wr (k * UIX_PAGE_SIZE) i v pb in
  tstore (hhdm (vp s) + k * UIX_PAGE_SIZE) i v (set_vp pb s) = Ok tt (set_vp p' s) ∧
  forking (S l) s src k (i + 1) (set_vp p' s) ∧
  ∀ j, 0 ≤ j < 512 → j ≠ i →
    entry (pm p') (k * UIX_PAGE_SIZE) j = entry (pm p) (k * UIX_PAGE_SIZE) j.
Proof.
  intros Hwf Hnd Hpg Hk Hkt Hi Hb Hsrc Hsz Hdst e sub Hn Hl Hcr Hstb Hndb Hpb Htp Htb Hws Hwc Hszb v p'.
  set (X := {[k]} ∪ pset (S l) (pm (vp s)) src) in *.
  destruct (copied_entry l c e Hcr Hl) as (Hmask & Hnv & Hvr). rewrite Hn in Hnv.
  fold v in Hmask, Hnv, Hvr.
  unfold pset in Hstb. rewrite Htp in Hstb. fold (pset l (pm (vp s)) sub) in Hstb.
  assert (∀ q, q ∈ pset l (pm (vp s)) sub → q ∈ X ∧ q ≠ k) as HX'.
  { intros q Hq. pose proof (pset_child l (pm (vp s)) src i Hi Hn q Hq) as Hq'.
    split; [apply elem_of_union; by right|]. intros ->. by apply (not_in_pset (S l) (vp s) src k). }
  assert (step X p pb) as HstX by (eapply step_weaken; [exact Hstb|]; intros q _ Hq; by apply HX').
  assert (step X (vp s) pb) as Hst0b by (eapply step_trans; [apply Hb|exact HstX]).
  assert (tbl_page pb (k * UIX_PAGE_SIZE)) as Hdb.
  { eapply step_tbl_page; [exact HstX|]. apply tbl_page_of, Hb. }
  split; [by apply (tstore_at (vp s) X pb Hst0b)|].
  assert (∀ j, 0 ≤ j < 512 → j ≠ i →
    entry (pm p') (k * UIX_PAGE_SIZE) j = entry (pm p) (k * UIX_PAGE_SIZE) j) as Hrest.
  { intros j Hj Hji. unfold p'. rewrite entry_wr by (done || apply Hstb).
    rewrite (proj2 (Z.eqb_neq j i)), andb_false_r by done.
    apply (step_same_tbl _ _ _ _ Hstb); [apply Hb|apply tbl_page_of, Hb| |done].
    rewrite Z.div_mul by done. intros Hin. by destruct (HX' k Hin). }
  split; [|exact Hrest]. unfold p'.
  destruct (round_link (S l) s src k i p Hpg Hk Hi Hb Hdst (pset l (pm (vp s)) sub) pb v) as [Hb' Hdst'];
    [done|done|done|cbn [sub_pages]; rewrite Hnv, Hmask; done..| |].
  { intros va. rewrite walk_e_next, Hmask, Hwc by done. fold e. by rewrite walk_e_next. }
  assert (∀ T, T ∈ tpages (S l) (pm (vp s)) src → same_tbl (pm pb) (pm (wr (k * UIX_PAGE_SIZE) i v pb)) T) as Hwr.
  { intros T HT. by apply (wr_dst_src (S l) s src k i p). }
  assert (∀ T, T ∈ tpages (S l) (pm (vp s)) src → T ∉ tpages l (pm (vp s)) sub →
    same_tbl (pm p) (pm (wr (k * UIX_PAGE_SIZE) i v pb)) T) as Hout.
  { intros T HT HTn j Hj. rewrite (Hwr T HT j Hj).
    apply (step_same_tbl _ _ _ _ Hstb); [apply Hb|by apply (src_tbl (S l) s src k i)| |done].
    intros (T' & HT' & E)%elem_of_pset. apply HTn.
    destruct (tbl_page_bounds _ _ Hwf (Hpg T HT)) as (_ & _ & ->). rewrite E.
    destruct (tbl_page_bounds _ T' Hwf) as (_ & _ & <-); [|done].
    apply Hpg. by apply (elem_of_tpages_child l (pm (vp s)) src i). }
  assert (sub_pages (S l) (pm (vp s)) e = tpages l (pm (vp s)) sub) as Hsubi by (cbn [sub_pages]; by rewrite Hn).
  destruct (sub_pages_disj (S l) (pm (vp s)) src Hnd) as (Hd1 & _ & Hd3).
  assert (src ∉ tpages l (pm (vp s)) sub) as Hrn by (rewrite <-Hsubi; by apply Hd1).
  assert (entry (pm (wr (k * UIX_PAGE_SIZE) i v pb)) src i = e) as Hei.
  { rewrite (Hout src) by (apply tpages_root || done). apply (sd_hi _ _ _ _ _ Hsrc). lia. }
  assert (∀ T, T ∈ tpages l (pm pb) sub → same_tbl (pm pb) (pm (wr (k * UIX_PAGE_SIZE) i v pb)) T) as Hsw.
  { intros T. rewrite Htb. intros HT. apply Hwr. by apply (elem_of_tpages_child l (pm (vp s)) src i). }
  eexists. split_and!; [reflexivity|done| | |done].
  2:{ destruct (step_wr pb (k * UIX_PAGE_SIZE) i v) as [_ ->];
        [apply Hstb|eapply step_tbl_page; [exact HstX|]; apply tbl_page_of, Hb|done|].
      rewrite kids_S, length_app by lia. fold e. rewrite Hsubi. lia. }
  apply (src_link (S l) (vp s) src i p); [done|done|..]; rewrite ?Hei.
  - intros j Hj Hji. split; [by apply Hout; [apply tpages_root| |]|]. intros T HT.
    rewrite (sd_shape _ _ _ _ _ Hsrc j Hj) in HT. apply Hout; [by eapply sub_pages_tpages|].
    rewrite <-Hsubi. intros HT'. apply Hji. by apply (Hd3 j i T).
  - fold e. rewrite Hsubi. cbn [sub_pages]. rewrite Hn. fold sub. by rewrite (tpages_ext l (pm pb)).
  - intros va. fold e. rewrite !walk_e_next by done. fold sub. by rewrite (walk_ext l (pm pb)).
Qed.

(** A round that does nothing, for an entry that is absent in the source and
    already 0 in the copy. *)
Lemma round_skip lvl s src k i t :
  0 ≤ i < 512 → forking lvl s src k i t →
  has (entry (pm (vp s)) src i) VMM_PRESENT = false →
  entry (pm (vp t)) (k * UIX_PAGE_SIZE) i = 0 → forking lvl s src k (i + 1) t.
Proof.
  intros Hi (p & -> & Hb & Hsrc & Hsz & Hdst) Hpr Hd. change (vp (set_vp p s)) with p in Hd.
  assert (next_tbl lvl 0 = false) as Hn0 by by apply next_tbl_absent.
  exists p. split_and!; [done| | | |].
  - destruct Hb as [? ? Hn Hk]. split; [done|done|..]; rewrite kids_S, Hd, sub_pages_stop, app_nil_r by lia || done; done.
  - apply (src_link lvl (vp s) src i p); [done|done|done|..].
    + by apply Hsrc.
    + intros va. rewrite (proj1 (sd_hi _ _ _ _ _ Hsrc i ltac:(lia))). by rewrite !walk_e_absent.
  - rewrite kids_S, length_app by lia. lia.
  - intros j va Hj. destruct (decide (j = i)) as [->|]; [|apply Hdst; lia].
    rewrite Hd. by rewrite !walk_e_absent.
Qed.

Lemma fork_one_run lvl s src k i t :
  (∀ l, lvl = S l → fork_ok l) → (lvl ≤ 2)%nat →
  wf (vp s) → bitmap_len (vp s) ≤ 2 ^ 40 → refcounts (vp s) ≠ 0 →
  NoDup (tpages lvl (pm (vp s)) src) →
  (∀ T, T ∈ tpages lvl (pm (vp s)) src → tbl_page (vp s) T) →
  client_page (vp s) k → k * UIX_PAGE_SIZE ∉ tpages lvl (pm (vp s)) src →
  (lvl = 2%nat → no_ps (pm (vp s)) src) →
  0 ∉ free_set (vp s) → (length (kids lvl (pm (vp s)) src 512) ≤ size (free_set (vp s)))%nat →
  0 ≤ i < 512 → forking lvl s src k i t →
  runs (fork_one lvl (hhdm (vp s) + src) (hhdm (vp s) + k * UIX_PAGE_SIZE) i) t
    (λ _, forking lvl s src k (i + 1)) no_stop.
Proof.
  intros IH Hlvl Hwf Hlen Hrc Hnd Hpg Hk Hkt Hps H0 Hroom Hi (p & -> & Hb & Hsrc & Hsz & Hdst).
  unfold fork_one. pose proof (bt_step _ _ _ _ _ _ Hb) as Hst.
  eapply runs_bind_Ok; [apply (tload_at (vp s) _ p Hst); [apply (src_tbl lvl s src k i); try done; apply tpages_root|done]|].
  rewrite (src_entry lvl s src i p) by done. set (e := entry (pm (vp s)) src i).
  pose proof (entry_range (pm (vp s)) src i) as He.
  destruct (has e VMM_PRESENT) eqn:Epr; cbn [negb].
  2:{ apply (round_plain lvl s src k i p); try done; [by apply next_tbl_absent|..];
      intros va; fold e; by rewrite ?walk_e_absent. }
  assert (is_leaf lvl e = true →
    runs (fork_leaf (hhdm (vp s) + src) (hhdm (vp s) + k * UIX_PAGE_SIZE) i e) (set_vp p s)
      (λ _, forking lvl s src k (i + 1)) no_stop) as Hleaf.
  { intros Hl. unfold fork_leaf. destruct (has e VMM_USER) eqn:Eu; [by apply (round_cow lvl s src k i p)|].
    assert (next_tbl lvl e = false) as Hne by (unfold next_tbl; by rewrite Hl, andb_false_r).
    apply (round_plain lvl s src k i p); try done. intros va. unfold walk_e. fold e. rewrite Epr, Hl.
    change (Some (lvl, cow_leaf e) = Some (lvl, e)). unfold cow_leaf. by rewrite Eu. }
  destruct lvl as [|l]; [by apply Hleaf|].
  destruct (match l with O => true | S _ => false end && has e PDE_PS) eqn:El.
  { destruct l as [|l]; [|done]. apply Hleaf. done. }
  assert (next_tbl (S l) e = true) as Hn.
  { unfold next_tbl. rewrite Epr. destruct l as [|[|]]; cbn [is_leaf andb] in *; [by rewrite El| |lia].
    specialize (Hps eq_refl i Hi). fold e in Hps. by rewrite Hps. }
  assert (∀ T, T ∈ tpages l (pm (vp s)) (Z.land e PTE_MASK) → T ∈ tpages (S l) (pm (vp s)) src) as Hin.
  { intros T HT. by eapply elem_of_tpages_child. }
  assert (∀ T, T ∈ tpages l (pm (vp s)) (Z.land e PTE_MASK) → same_tbl (pm (vp s)) (pm p) T) as Hsame.
  { intros T HT. apply (sd_hi _ _ _ _ _ Hsrc i ltac:(lia)). cbn [sub_pages]. fold e. by rewrite Hn. }
  pose proof (tpages_ext l _ _ _ Hsame) as Htp.
  destruct (sub_pages_disj (S l) (pm (vp s)) src Hnd) as (_ & Hd2 & _). specialize (Hd2 i Hi).
  cbn [sub_pages] in Hd2. fold e in Hd2. rewrite Hn in Hd2.
  pose proof (kids_part (S l) (pm (vp s)) src i 512 Hi) as Hkp. cbn [sub_pages] in Hkp. fold e in Hkp.
  rewrite Hn in Hkp.
  assert (length (tpages l (pm (vp s)) (Z.land e PTE_MASK)) ≤ size (free_set p))%nat as Hroom' by lia.
  assert (0 ∉ free_set p) as H0' by (intros Hz; by apply H0, (st_free _ _ _ Hst)).
  apply runs_bind, alloc_room; change (vp (set_vp p s)) with p; [apply Hst|done| |].
  { rewrite tpages_kids in Hroom'. cbn [length] in Hroom'. lia. }
  intros c Hc Hnz. rewrite (proj2 (Z.eqb_neq _ _)) by (unfold UIX_PAGE_SIZE; lia).
  change (set_vp (taken c p) (set_vp p s)) with (set_vp (taken c p) s).
  apply (fork_fill l s p ({[k]} ∪ pset (S l) (pm (vp s)) src) (Z.land e PTE_MASK) c (IH l eq_refl)); rewrite ?Htp; try assumption.
  { intros ->. lia. }
  { intros T HT. eapply step_tbl_page; [exact Hst|]. by apply Hpg, Hin. }
  intros pb Hcr Hstb Hcb Hndb Hpb Htb Hws Hwc Hszb.
  destruct (round_table l s src k i p c pb) as (Hrun & Hfk & _); try assumption; [lia|..].
  - intros va. rewrite Hws. by rewrite (walk_ext l (pm (vp s)) (pm p)).
  - intros va. rewrite Hwc. by rewrite (walk_ext l (pm (vp s)) (pm p)).
  - eapply runs_ret; [exact Hrun|exact Hfk].
Qed.

Lemma fork_table_run lvl : (lvl ≤ 2)%nat → fork_ok lvl.
Proof.
  induction lvl as [lvl IH] using lt_wf_ind. intros Hlvl s src k Hwf Hlen Hrc Hnd Hpg Hk Hkt Hps H0 Hroom.
  rewrite fork_table_unfold. eapply runs_mono;
    [apply (runs_for 512 0 _ (forking lvl s src k) no_stop)| |done].
  - exists (vp s). split_and!; [by destruct s| | |lia|lia].
    + split; [by apply step_refl|done|..]; rewrite kids_0; [apply NoDup_singleton|].
      intros T HT. by apply not_elem_of_nil in HT.
    + split; [lia|done|done].
  - intros j t Hj Hf. apply fork_one_run; try done. intros l ->. apply IH; lia.
  - intros [] t (p & -> & Hb & Hsrc & Hsz & Hdst). exists p. split; [done|]. split.
    + apply Hb.
    + rewrite !tpages_kids. f_equal. apply kids_ext. intros j Hj. apply Hsrc. lia.
    + rewrite tpages_kids. apply Hb.
    + rewrite tpages_kids. intros T [->|HT]%elem_of_cons Hne; [done|]. by apply Hb.
    + intros va. rewrite !walk_unfold. apply Hsrc, idx_range.
    + intros va. rewrite !walk_unfold. apply Hdst, idx_range.
    + exact Hsz.
Qed.

End ForkFacts.
