(* ===== verification/SpaceProps.v ===== *)
(** * Properties of address spaces

    Creation of an address space, the clone made at boot and the copy-on-write
    duplication of [core/memory/vmm.c], against the processor's walk. *)

From S2P Require Import Prelude Lib Pmm PmmFacts PmmProps Vmm PageTables VmmFacts VmmProps TableFacts ForkFacts.

Module SpaceProps.
Import Lib Pmm PmmFacts PmmProps Vmm PageTables VmmFacts VmmProps TableFacts ForkFacts.

(** ** Shared lemmas *)

(** A step that leaves the tables of the current space alone. *)
Lemma wf_vm_step s X p' :
  wf_vm s → step X (vp s) p' →
  (∀ T, T ∈ tpages 3 (pm (vp s)) (cr3 s) → same_tbl (pm (vp s)) (pm p') T) →
  wf_vm (set_vp p' s) ∧ (∀ va, walk 3 (pm p') (cr3 s) va = walk 3 (pm (vp s)) (cr3 s) va) ∧
  tpages 3 (pm p') (cr3 s) = tpages 3 (pm (vp s)) (cr3 s).
Proof.
  intros Hv Hst Hs. pose proof (tpages_ext 3 _ _ _ Hs) as Ht. split_and!; [|intros va; by apply walk_ext|done].
  split; [apply Hst| | | |].
  - change (wf_tree p' (cr3 s)). split; rewrite Ht; [apply Hv|].
    intros T HT. eapply step_tbl_page; [exact Hst|]. by apply Hv.
  - change (pml4 s = hhdm p' + cr3 s). rewrite (st_hhdm _ _ _ Hst). apply Hv.
  - change (bitmap_len p' ≤ 2 ^ 40). rewrite (st_len _ _ _ Hst). apply Hv.
  - change (UIX_PAGE_SIZE ≤ hhdm p'). rewrite (st_hhdm _ _ _ Hst). apply Hv.
Qed.

Lemma kkids_root s T : T ∈ kkids (pm (vp s)) (cr3 s) → T ∈ tpages 3 (pm (vp s)) (cr3 s).
Proof.
  intros (j & Hj & HT)%elem_of_kkids. eapply sub_pages_tpages; [|exact HT]. lia.
Qed.

(** A new PML4 with its own tables in the user half and the kernel half of the
    current one. *)
Lemma new_root_wf s X p' k :
  let d := k * UIX_PAGE_SIZE in
  wf_vm s → step X (vp s) p' → k ∈ free_set (vp s) → client_page p' k →
  NoDup (d :: kids 3 (pm p') d 256) →
  (∀ T, T ∈ kids 3 (pm p') d 256 → tbl_page p' T ∧ T / UIX_PAGE_SIZE ∈ free_set (vp s)) →
  (∀ j, 256 ≤ j < 512 → entry (pm p') d j = entry (pm (vp s)) (cr3 s) j) →
  (∀ T, T ∈ kkids (pm (vp s)) (cr3 s) → same_tbl (pm (vp s)) (pm p') T) →
  wf_tree p' d ∧
  (∀ va, 256 ≤ idx 3 va → walk 3 (pm p') d va = walk 3 (pm (vp s)) (cr3 s) va) ∧
  ∀ T, T ∈ tpages 3 (pm p') d → T / UIX_PAGE_SIZE ∈ tset (vp s) (cr3 s) ∨ T / UIX_PAGE_SIZE ∈ free_set (vp s).
Proof.
  intros d Hv Hst Hk Hkc Hnd Hpg He Hs. pose proof (wv_tree _ Hv) as Ht.
  assert (kkids (pm p') d = kkids (pm (vp s)) (cr3 s)) as Hkk.
  { apply kkids_ext. intros j Hj. rewrite He by done. apply sub_pages_ext. intros T HT.
    apply Hs, elem_of_kkids. eauto. }
  assert (∀ T, T ∈ kkids (pm (vp s)) (cr3 s) → tbl_page (vp s) T) as Hkp.
  { intros T HT. apply Ht, kkids_root, HT. }
  assert (∀ T, T ∈ kkids (pm (vp s)) (cr3 s) → T / UIX_PAGE_SIZE ∉ free_set (vp s)) as Hkf.
  { intros T HT. apply (cp_used _ _ (proj2 (Hkp T HT))). }
  split; [split|split].
  - rewrite tpages_kids, kids_split, Hkk. apply NoDup_cons in Hnd as [Hd Hn]. apply NoDup_cons. split.
    + rewrite not_elem_of_app. split; [done|]. intros HT. apply (Hkf _ HT). unfold d. by rewrite Z.div_mul.
    + apply NoDup_app. split_and!; [done| |].
      * intros T HT HT'. apply (Hkf _ HT'). by apply Hpg.
      * pose proof (wt_nodup _ _ Ht) as Hr. rewrite tpages_kids, kids_split in Hr.
        apply NoDup_cons in Hr as [_ Hr]. by apply NoDup_app in Hr as (_ & _ & Hr).
  - rewrite tpages_kids, kids_split, Hkk. intros T [->|[HT|HT]%elem_of_app]%elem_of_cons.
    + by apply tbl_page_of.
    + by apply Hpg.
    + eapply step_tbl_page; [exact Hst|by apply Hkp].
  - intros va Hva. pose proof (idx_range 3 va). rewrite !walk_unfold, He by lia.
    apply walk_e_sub_ext. intros T HT. apply Hs, elem_of_kkids. exists (idx 3 va). split; [lia|done].
  - rewrite tpages_kids, kids_split, Hkk. intros T [->|[HT|HT]%elem_of_app]%elem_of_cons.
    + right. unfold d. by rewrite Z.div_mul.
    + right. by apply Hpg.
    + left. by apply elem_of_tset, kkids_root.
Qed.

(** A page handed out and cleared, in a state whose address space is kept. *)
Lemma fresh_root s p k :
  wf_vm s → fresh_table (vp s) p k →
  wf_vm (set_vp p s) ∧ (∀ va, walk 3 (pm p) (cr3 s) va = walk 3 (pm (vp s)) (cr3 s) va) ∧
  tpages 3 (pm p) (cr3 s) = tpages 3 (pm (vp s)) (cr3 s) ∧
  (k * UIX_PAGE_SIZE ∉ tpages 3 (pm (vp s)) (cr3 s)) ∧ k * UIX_PAGE_SIZE ≠ cr3 s.
Proof.
  intros Hv Hf. destruct (fresh_tables _ _ _ _ (wv_pmm _ Hv) (wv_tree _ Hv) Hf) as (Hs & Htp & Hni).
  destruct (wf_vm_step s ∅ p Hv (ft_step _ _ _ Hf) Hs) as (Hv' & Hw & _).
  split_and!; [done..|]. intros E. apply Hni. rewrite E. apply tpages_root.
Qed.

(** The start of [vmm_create_space] and [vmm_fork_user_space]: page [k], just
    handed out, becomes a PML4 with the kernel half of the current one. *)
Lemma root_half s k {A} (K : Z → M vmm_st A) Q F :
  wf_vm s → k ∈ free_set (vp s) → k ≠ 0 →
  (∀ p', step ∅ (vp s) p' → client_page p' k → free_set p' = free_set (vp s) ∖ {[k]} →
     k * UIX_PAGE_SIZE ∉ tpages 3 (pm (vp s)) (cr3 s) →
     (∀ j, 0 ≤ j < 512 → entry (pm p') (k * UIX_PAGE_SIZE) j =
        if 256 <=? j then entry (pm (vp s)) (cr3 s) j else 0) →
     (∀ T, T ∈ tpages 3 (pm (vp s)) (cr3 s) → same_tbl (pm (vp s)) (pm p') T) →
     runs (K (hhdm (vp s) + k * UIX_PAGE_SIZE)) (set_vp p' s) Q F) →
  runs (dst ← p2v (k * UIX_PAGE_SIZE);
        liftp (hmemset dst 0 UIX_PAGE_SIZE) ;;
        copy_kernel_half dst ;;
        K dst) (set_vp (taken k (vp s)) s) Q F.
Proof.
  intros Hv Hk Hnz HK. pose proof (wv_pmm _ Hv) as Hwf.
  destruct (step_taken (vp s) k Hwf Hk) as (Hst1 & Hc1 & _).
  eapply runs_bind_Ok; [apply (p2v_at (vp s) ∅ _ Hst1 s), tbl_page_of, Hc1|].
  eapply runs_bind_Ok.
  { rewrite <-(st_hhdm _ _ _ Hst1). apply (hmemset_page (set_vp (taken k (vp s)) s)); [apply Hst1|done]. }
  pose proof (fresh_table_intro (vp s) k Hwf Hk Hnz) as Hf.
  change (set_vp (clear_page k (vp (set_vp (taken k (vp s)) s))) (set_vp (taken k (vp s)) s))
    with (set_vp (clear_page k (taken k (vp s))) s).
  set (pa := clear_page k (taken k (vp s))) in *. clearbody pa.
  destruct (fresh_root s pa k Hv Hf) as (Hva & Hwa & Hta & Hni & Hne).
  destruct (copy_half_run (set_vp pa s) k Hva (ft_client _ _ _ Hf) Hne) as (p' & Hrun & Hst2 & Hfs & He).
  change (vp (set_vp pa s)) with pa in *. change (cr3 (set_vp pa s)) with (cr3 s) in *.
  rewrite (st_hhdm _ _ _ (ft_step _ _ _ Hf)) in Hrun.
  eapply runs_bind_Ok; [exact Hrun|]. change (set_vp p' (set_vp pa s)) with (set_vp p' s).
  pose proof (ft_step _ _ _ Hf) as Hsta.
  assert (step ∅ (vp s) p') as Hst.
  { eapply step_then; [exact Hsta|exact Hst2|]. intros q Hq ->%elem_of_singleton.
    by destruct (cp_used _ _ Hq). }
  apply HK; [done|eapply step_client; [exact Hst2|apply Hf]|by rewrite Hfs, (ft_set _ _ _ Hf)|done| |].
  - intros j Hj. rewrite He by lia. destruct (Z.leb_spec 256 j); [|by apply Hf].
    apply (step_same_tbl ∅ _ _ _ Hsta); [done|apply Hv, tpages_root|apply not_elem_of_empty|lia].
  - intros T HT. apply (step_same_tbl ∅); [done|done|by apply Hv|apply not_elem_of_empty].
Qed.

(** ** Creating a space *)

(** C26 [vmm_create_space]: the new address space maps nothing below the kernel
    half, translates every kernel address as the current space does, is itself
    well formed, and the current space is unchanged.  The only failure is the
    panic when no page is free. *)
Theorem vmm_create_space_correct (s : vmm_st) :
  wf_vm s →
  runs vmm_create_space s
    (λ r s', wf_vm s' ∧ cr3 s' = cr3 s ∧ wf_tree (vp s') r ∧ r ≠ 0 ∧
       (∀ va, idx 3 va < 256 → walk 3 (pm (vp s')) r va = None) ∧
       (∀ va, 256 ≤ idx 3 va → walk 3 (pm (vp s')) r va = walk 3 (pm (vp s)) (cr3 s) va) ∧
       (∀ va, walk 3 (pm (vp s')) (cr3 s) va = walk 3 (pm (vp s)) (cr3 s) va))
    (λ w, w = Panic "vmm: OOM creating address space").
Proof.
  intros Hv. pose proof (wv_pmm _ Hv) as Hwf. unfold vmm_create_space.
  apply runs_bind, alloc_runs; [done|done|]. intros k Hk Hnz.
  rewrite (proj2 (Z.eqb_neq _ _)) by (unfold UIX_PAGE_SIZE; lia).
  apply (root_half s k (λ _, mret (k * UIX_PAGE_SIZE))); [done..|].
  intros p' Hst Hcl _ _ He Hs. eapply runs_ret; [reflexivity|]. set (d := k * UIX_PAGE_SIZE) in *.
  change (vp (set_vp p' s)) with p'.
  destruct (wf_vm_step s ∅ p' Hv Hst Hs) as (Hv' & Hw' & _).
  assert (∀ j, 0 ≤ j < 256 → entry (pm p') d j = 0) as Hz.
  { intros j Hj. rewrite He by lia. by rewrite (proj2 (Z.leb_gt 256 j)) by lia. }
  assert (kids 3 (pm p') d 256 = []) as Hkids.
  { apply kids_nil. intros j Hj. by rewrite Hz. }
  destruct (new_root_wf s ∅ p' k Hv Hst Hk) as (Htree & Hkern & _).
  - done.
  - fold d. rewrite Hkids. apply NoDup_singleton.
  - fold d. rewrite Hkids. intros T HT. by apply not_elem_of_nil in HT.
  - intros j Hj. fold d. rewrite He by lia. by rewrite (proj2 (Z.leb_le 256 j)) by lia.
  - intros T HT. by apply Hs, kkids_root.
  - split_and!; [done|done|done|unfold d, UIX_PAGE_SIZE; lia| |done|done].
    intros va Hva'. pose proof (idx_range 3 va). rewrite walk_unfold, Hz by lia. done.
Qed.

Lemma vmm_create_space_correct_witness :
  runs vmm_create_space vm_st
    (λ r s', wf_vm s' ∧ cr3 s' = cr3 vm_st ∧ wf_tree (vp s') r ∧ r ≠ 0 ∧
       (∀ va, idx 3 va < 256 → walk 3 (pm (vp s')) r va = None) ∧
       (∀ va, 256 ≤ idx 3 va → walk 3 (pm (vp s')) r va = walk 3 (pm (vp vm_st)) (cr3 vm_st) va) ∧
       (∀ va, walk 3 (pm (vp s')) (cr3 vm_st) va = walk 3 (pm (vp vm_st)) (cr3 vm_st) va))
    (λ w, w = Panic "vmm: OOM creating address space").
Proof. apply (vmm_create_space_correct vm_st), vm_st_wf. Defined.

(** ** The clone made at boot *)

Lemma step_out p o : wf p → step ∅ p (set_out o p).
Proof.
  intros Hwf. assert (free_set (set_out o p) = free_set p) as Hfs by by apply free_set_ext.
  split; try done.
  destruct Hwf. split; rewrite ?Hfs; try done.
  destruct wf_refs0 as [?|[]]; [by left|right]. by split; rewrite ?Hfs.
Qed.

(** C25 [vmm_init] clones the page tables the boot loader left active and
    switches to the clone: afterwards every address translates as it did
    before, in tables of the kernel's own that satisfy the invariant of the
    manager.  The boot tables may share pages with each other; they must lie in
    memory that is not free. *)
Theorem vmm_init_correct (s : vmm_st) :
  wf (vp s) → bitmap_len (vp s) ≤ 2 ^ 40 → UIX_PAGE_SIZE ≤ hhdm (vp s) →
  (∀ T, T ∈ tpages 3 (pm (vp s)) (Z.land (cr3 s) PTE_MASK) → tbl_page (vp s) T) →
  no_ps (pm (vp s)) (Z.land (cr3 s) PTE_MASK) →
  runs vmm_init s
    (λ _ s', wf_vm s' ∧ kernel_cr3 s' = cr3 s' ∧
       ∀ va, walk 3 (pm (vp s')) (cr3 s') va = walk 3 (pm (vp s)) (Z.land (cr3 s) PTE_MASK) va)
    (λ w, w = Panic "vmm: OOM cloning tables").
Proof.
  intros Hwf Hlen Hlow Hpg Hps. unfold vmm_init. eapply runs_bind_Ok; [reflexivity|].
  apply runs_bind. eapply runs_mono; [apply (clone_table_run 3)| |done]; try done.
  intros dst t (c & p' & -> & -> & Hcl). pose proof (cl_step _ _ _ _ _ Hcl) as Hst.
  assert (tbl_page p' (c * UIX_PAGE_SIZE)) as Hd by (apply (cl_pages _ _ _ _ _ Hcl), tpages_root).
  eapply runs_bind_Ok; [by apply (p2v_at (vp s) ∅ p' Hst)|].
  do 3 (eapply runs_bind_Ok; [reflexivity|]).
  eapply runs_ret; [reflexivity|].
  set (o := out p' ++ [KPrintf "[info] vmm: switched to cloned CR3 @ phys %p\n" [KU (c * UIX_PAGE_SIZE)]]).
  pose proof (step_out p' o (st_wf _ _ _ Hst)) as Hst'.
  split_and!; [|done|exact (cl_walk _ _ _ _ _ Hcl)].
  split; [exact (st_wf _ _ _ Hst')| | | |].
  - change (wf_tree (set_out o p') (c * UIX_PAGE_SIZE)). split; [exact (cl_nodup _ _ _ _ _ Hcl)|].
    intros T HT. apply (step_tbl_page _ _ _ _ Hst'). by apply (cl_pages _ _ _ _ _ Hcl).
  - change (hhdm (vp s) + c * UIX_PAGE_SIZE = hhdm p' + c * UIX_PAGE_SIZE). by rewrite (st_hhdm _ _ _ Hst).
  - change (bitmap_len p' ≤ 2 ^ 40). by rewrite (st_len _ _ _ Hst).
  - change (UIX_PAGE_SIZE ≤ hhdm p'). by rewrite (st_hhdm _ _ _ Hst).
Qed.

Lemma vmm_init_correct_witness :
  runs vmm_init vm_st
    (λ _ s', wf_vm s' ∧ kernel_cr3 s' = cr3 s' ∧
       ∀ va, walk 3 (pm (vp s')) (cr3 s') va = walk 3 (pm (vp vm_st)) (Z.land (cr3 vm_st) PTE_MASK) va)
    (λ w, w = Panic "vmm: OOM cloning tables").
Proof.
  pose proof vm_st_wf as Hv. change (Z.land (cr3 vm_st) PTE_MASK) with (cr3 vm_st).
  apply (vmm_init_correct vm_st); [apply Hv|apply Hv|apply Hv|..];
    change (Z.land (cr3 vm_st) PTE_MASK) with (cr3 vm_st); [apply Hv|].
  intros i Hi. by rewrite vm_st_empty.
Defined.

End SpaceProps.
