(* ===== verification/Checks.v ===== *)
(** * Decision procedures for the invariants

    The invariants of the allocator and of an address space are decidable, so
    that they can be evaluated on a concrete machine. *)

From S2P Require Import Prelude Lib Pmm PmmFacts PmmProps Vmm PageTables VmmFacts TableFacts ForkFacts.

Module Checks.
Import Lib Pmm PmmFacts PmmProps Vmm PageTables VmmFacts TableFacts ForkFacts.

#[export] Instance page_disjoint_dec p a n : Decision (page_disjoint p a n).
Proof. unfold page_disjoint. apply _. Defined.

Definition dec_iff {P Q : Prop} (H : P ↔ Q) {D : Decision P} : Decision Q :=
  match D with left p => left (proj1 H p) | right n => right (λ q, n (proj2 H q)) end.

Lemma wf_rc_iff s :
  (0 ≤ rc_phys s ∧ refcounts s + rc_size s ≤ 2 ^ 64) ∧
  (rc_phys s + rc_size s ≤ bitmap_phys s ∨ bitmap_phys s + bm_size (bitmap_len s) ≤ rc_phys s) ∧
  set_Forall (λ p, page_disjoint p (rc_phys s) (rc_size s)) (free_set s) ↔ wf_rc s.
Proof. split; [intros ((? & ?) & ? & ?); by split|intros []; done]. Qed.

#[export] Instance wf_rc_dec s : Decision (wf_rc s) := dec_iff (wf_rc_iff s).

Lemma wf_iff s :
  (0 < hhdm s ∧ bitmap s = hhdm s + bitmap_phys s ∧ 0 ≤ bitmap_phys s ∧
   bitmap s + bm_size (bitmap_len s) ≤ 2 ^ 64 ∧ 0 ≤ bitmap_len s < 2 ^ 52 ∧
   hhdm s + bitmap_len s * UIX_PAGE_SIZE ≤ 2 ^ 64 ∧ total_pages s = bitmap_len s) ∧
  (0 ≤ next_free_scan s ∧ (bitmap_len s ≠ 0 → next_free_scan s < bitmap_len s)) ∧
  free_count s = Z.of_nat (size (free_set s)) ∧
  set_Forall (λ p, page_disjoint p (bitmap_phys s) (bm_size (bitmap_len s))) (free_set s) ∧
  (refcounts s = 0 ∨ wf_rc s) ↔ wf s.
Proof. split; [intros ((? & ? & ? & ? & ? & ? & ?) & ? & ? & ? & ?); by split|intros []; done]. Qed.

#[export] Instance wf_dec s : Decision (wf s) := dec_iff (wf_iff s).

Lemma client_page_iff s p :
  0 ≤ p < bitmap_len s ∧ p ∉ free_set s ∧ page_disjoint p (bitmap_phys s) (bm_size (bitmap_len s)) ∧
  (refcounts s ≠ 0 → page_disjoint p (rc_phys s) (rc_size s)) ↔ client_page s p.
Proof. split; [intros (? & ? & ? & ?); by split|intros []; done]. Qed.

#[export] Instance client_page_dec s p : Decision (client_page s p) := dec_iff (client_page_iff s p).
#[export] Instance tbl_page_dec s p : Decision (tbl_page s p).
Proof. unfold tbl_page. apply _. Defined.

Lemma wf_tree_iff p root :
  NoDup (tpages 3 (pm p) root) ∧ Forall (tbl_page p) (tpages 3 (pm p) root) ↔ wf_tree p root.
Proof.
  split; [intros [? Hf]; split; [done|]|intros [? Hf]; split; [done|]].
  - by apply Forall_forall.
  - by apply Forall_forall.
Qed.

#[export] Instance wf_tree_dec p root : Decision (wf_tree p root) := dec_iff (wf_tree_iff p root).

Lemma wf_vm_iff s :
  wf (vp s) ∧ wf_tree (vp s) (cr3 s) ∧ pml4 s = hhdm (vp s) + cr3 s ∧ bitmap_len (vp s) ≤ 2 ^ 40 ∧
  UIX_PAGE_SIZE ≤ hhdm (vp s) ↔ wf_vm s.
Proof. split; [intros (? & ? & ? & ? & ?); by split|intros []; done]. Qed.

#[export] Instance wf_vm_dec s : Decision (wf_vm s) := dec_iff (wf_vm_iff s).

(** ** A machine with a user page *)

Definition run {S A} (m : M S A) (s : S) : S := match m s with Ok _ t => t | Stop _ t => t end.

(** The page at 0x400000 of [user_st] is mapped for the user, and holds 42. *)
Definition user_st : vmm_st :=
  let p1 := clear_page 3 (taken 3 ref_st) in
  let s := VmmSt p1 (hhdm p1 + 3 * UIX_PAGE_SIZE) (3 * UIX_PAGE_SIZE) (3 * UIX_PAGE_SIZE) (replicate 256 0) in
  run (pa ← liftp pmm_alloc; vmm_map 0x400000 pa 7 ;; vstore8 0x400000 42) s.

Lemma user_st_wf : wf_vm user_st.
Proof. apply (bool_decide_unpack _). vm_compute. reflexivity. Qed.

End Checks.
