(* ===== verification/ForkProps.v ===== *)
(** * Properties of fork and of copy-on-write faults

    [vmm_fork_user_space] gives the child the parent's translations, with every
    user page copy-on-write in both; [vmm_page_fault] resolves a write to such
    a page by the reference count of the page. *)

From S2P Require Import Prelude Lib Pmm PmmFacts PmmProps Vmm PageTables VmmFacts VmmProps.
From S2P Require Import TableFacts ForkFacts SpaceProps Checks.

Module ForkProps.
Import Lib Pmm PmmFacts PmmProps Vmm PageTables VmmFacts VmmProps TableFacts ForkFacts SpaceProps Checks.

Local Opaque fork_table for_ tpages walk.

(** ** The loop over the user half *)

(** One round of the loop of [vmm_fork_user_space]. *)
Definition fork_user_entry (dst i : Z) : M vmm_st unit :=
  p4 ← gets pml4;
  e ← tload p4 i;
  if has e VMM_PRESENT then
    t ← liftp pmm_alloc;
    nd ← p2v t;
    liftp (hmemset nd 0 UIX_PAGE_SIZE) ;;
    sub ← p2v (Z.land e PTE_MASK);
    fork_table 2 sub nd ;;
    e ← tload p4 i;
    tstore dst i (Z.lor t (Z.land e 0xFFF))
  else mret tt.

(** No 1 GiB page in the user half: [fork_table] would follow it as a table. *)
Definition no_giant (m : mem) (root : Z) : Prop :=
  ∀ i, 0 ≤ i < 256 → has (entry m root i) VMM_PRESENT = true →
    no_ps m (Z.land (entry m root i) PTE_MASK).

Section user_half.
Context (s : vmm_st) (k : Z) (Hv : wf_vm s) (Hrc : refcounts (vp s) ≠ 0).
Context (Hk : client_page (vp s) k) (Hkt : k * UIX_PAGE_SIZE ∉ tpages 3 (pm (vp s)) (cr3 s)).
Context (Hg : no_giant (pm (vp s)) (cr3 s)).
Context (H0 : 0 ∉ free_set (vp s)).
Context (Hroom : (length (kids 3 (pm (vp s)) (cr3 s) 256) ≤ size (free_set (vp s)))%nat).
Context (Hz : ∀ j, 0 ≤ j < 256 → entry (pm (vp s)) (k * UIX_PAGE_SIZE) j = 0).

Definition user_inv (i : Z) (t : vmm_st) : Prop :=
  forking 3 s (cr3 s) k i t ∧
  ∀ j, i ≤ j < 512 → entry (pm (vp t)) (k * UIX_PAGE_SIZE) j = entry (pm (vp s)) (k * UIX_PAGE_SIZE) j.

Lemma fork_user_entry_run i t :
  0 ≤ i < 256 → user_inv i t →
  runs (fork_user_entry (hhdm (vp s) + k * UIX_PAGE_SIZE) i) t (λ _, user_inv (i + 1)) no_stop.
Proof.
  intros Hi [Hf Hrest]. pose proof Hf as (p & -> & Hb & Hsrc & Hsz & Hdst).
  change (vp (set_vp p s)) with p in Hrest. pose proof (bt_step _ _ _ _ _ _ Hb) as Hst.
  assert (∀ T, T ∈ tpages 3 (pm (vp s)) (cr3 s) → tbl_page p T) as Hpg.
  { intros T HT. eapply step_tbl_page; [exact Hst|]. by apply Hv. }
  unfold fork_user_entry. eapply runs_bind_Ok; [reflexivity|].
  change (pml4 (set_vp p s)) with (pml4 s). rewrite (wv_pml4 _ Hv).
  eapply runs_bind_Ok; [apply (tload_at (vp s) _ p Hst); [apply Hpg, tpages_root|lia]|].
  assert (0 ≤ i < 512) as Hi' by lia.
  rewrite (src_entry 3 s (cr3 s) i p Hi' Hsrc). set (e := entry (pm (vp s)) (cr3 s) i).
  destruct (has e VMM_PRESENT) eqn:Epr.
  2:{ eapply runs_ret; [reflexivity|]. split; [|intros j Hj; apply Hrest; lia].
      apply round_skip; [done|done|done|]. change (vp (set_vp p s)) with p. rewrite Hrest by lia. by apply Hz. }
  assert (next_tbl 3 e = true) as Hn by (unfold next_tbl; by rewrite Epr).
  set (sub := Z.land e PTE_MASK).
  assert (∀ T, T ∈ tpages 2 (pm (vp s)) sub → T ∈ tpages 3 (pm (vp s)) (cr3 s)) as Hin.
  { intros T HT. by apply (elem_of_tpages_child 2 (pm (vp s)) (cr3 s) i). }
  assert (∀ T, T ∈ tpages 2 (pm (vp s)) sub → same_tbl (pm (vp s)) (pm p) T) as Hsame.
  { intros T HT. apply (sd_hi _ _ _ _ _ Hsrc i ltac:(lia)). cbn [sub_pages]. fold e. by rewrite Hn. }
  pose proof (tpages_ext 2 _ _ _ Hsame) as Htp.
  destruct (sub_pages_disj 3 (pm (vp s)) (cr3 s) (wt_nodup _ _ (wv_tree _ Hv))) as (Hd1 & Hd2 & _).
  specialize (Hd1 i Hi'). specialize (Hd2 i Hi'). cbn [sub_pages] in Hd1, Hd2. fold e in Hd1, Hd2. rewrite Hn in Hd1, Hd2.
  pose proof (kids_part 3 (pm (vp s)) (cr3 s) i 256 Hi) as Hkp. cbn [sub_pages] in Hkp. fold e in Hkp. rewrite Hn in Hkp.
  fold sub in Hd1, Hd2, Hkp.
  assert (length (tpages 2 (pm (vp s)) sub) ≤ size (free_set p))%nat as Hroom' by lia.
  assert (0 ∉ free_set p) as H0' by (intros Hz0; by apply H0, (st_free _ _ _ Hst)).
  apply runs_bind, alloc_room; change (vp (set_vp p s)) with p; [apply Hst|done| |].
  { rewrite tpages_kids in Hroom'. cbn [length] in Hroom'. lia. }
  intros c Hc Hnz. change (set_vp (taken c p) (set_vp p s)) with (set_vp (taken c p) s).
  apply (fork_fill 2 s p ({[k]} ∪ pset 3 (pm (vp s)) (cr3 s)) sub c (fork_table_run 2 ltac:(lia)));
    rewrite ?Htp; [|exact Hst|apply Hv|exact Hrc|exact Hd2| |exact H0'|exact Hroom'|exact Hc|].
  { intros _ j Hj. rewrite (Hsame sub (tpages_root _ _ _) j Hj). by apply (Hg i Hi Epr). }
  { intros T HT. by apply Hpg, Hin. }
  intros pb Hcr Hstb Hcb Hndb Hpb Htb Hws Hwc Hszb.
  assert (step ({[k]} ∪ pset 3 (pm (vp s)) (cr3 s)) (vp s) pb) as Hst0b.
  { eapply step_then; [exact Hst|exact Hstb|]. intros q _ (T & HT & ->)%elem_of_pset.
    rewrite Htp in HT. apply elem_of_union_r, elem_of_pset. exists T. by split; [apply Hin|]. }
  assert (entry (pm pb) (cr3 s) i = e) as He.
  { transitivity (entry (pm p) (cr3 s) i); [|by apply (src_entry 3 s)].
    apply (step_same_tbl _ _ _ _ Hstb); [apply Hst|apply Hpg, tpages_root| |done].
    intros (T & HT & E)%elem_of_pset. apply Hd1. rewrite Htp in HT.
    destruct (tbl_page_bounds _ _ (wv_pmm _ Hv) (wt_page _ _ (wv_tree _ Hv) _ (tpages_root _ _ _))) as (_ & _ & ->).
    rewrite E. destruct (tbl_page_bounds _ T (wv_pmm _ Hv)) as (_ & _ & <-); [by apply Hv, Hin|done]. }
  eapply runs_bind_Ok; [apply (tload_at (vp s) _ pb Hst0b); [|done]|].
  { eapply step_tbl_page; [exact Hstb|apply Hpg, tpages_root]. }
  rewrite He.
  destruct (round_table 2 s (cr3 s) k i p c pb) as (Hrun & Hfk & Hkeep); fold e; fold sub.
  - apply Hv.
  - apply Hv.
  - apply Hv.
  - exact Hk.
  - exact Hkt.
  - exact Hi'.
  - exact Hb.
  - exact Hsrc.
  - exact Hsz.
  - exact Hdst.
  - exact Hn.
  - lia.
  - exact Hcr.
  - exact Hstb.
  - exact Hndb.
  - exact Hpb.
  - exact Htp.
  - exact Htb.
  - intros va. rewrite Hws. by rewrite (walk_ext 2 (pm (vp s)) (pm p)).
  - intros va. rewrite Hwc. by rewrite (walk_ext 2 (pm (vp s)) (pm p)).
  - exact Hszb.
  - eapply runs_ret; [exact Hrun|]. split; [exact Hfk|]. intros j Hj.
    rewrite <-(Hrest j) by lia. apply Hkeep; lia.
  - exact Hsz.
Qed.

Lemma fork_user_half :
  runs (for_ 256 0 (fork_user_entry (hhdm (vp s) + k * UIX_PAGE_SIZE))) s (λ _, user_inv 256) no_stop.
Proof using All.
  apply (runs_for 256 0 _ user_inv); [|intros j t Hj; apply fork_user_entry_run; lia].
  split; [|done]. exists (vp s). split_and!; [by destruct s| | |lia|lia].
  - split; [by apply step_refl, Hv|done|..]; rewrite kids_0; [apply NoDup_singleton|].
    intros T HT. by apply not_elem_of_nil in HT.
  - split; [lia|done|done].
Qed.
End user_half.

(** Equal tables have the same large-page layout. *)
Lemma no_giant_ext m m' root :
  (∀ T, T ∈ tpages 3 m root → same_tbl m m' T) → no_giant m root → no_giant m' root.
Proof.
  intros Hs Hg i Hi. rewrite (Hs root (tpages_root _ _ _)) by lia. intros Hp j Hj.
  rewrite (Hs (Z.land (entry m root i) PTE_MASK)); [by apply Hg| |done].
  apply (elem_of_tpages_child 2 m root i); [lia| |apply tpages_root]. unfold next_tbl. by rewrite Hp.
Qed.

Lemma kids_same m m' root n :
  0 ≤ n ≤ 512 → (∀ T, T ∈ tpages 3 m root → same_tbl m m' T) → kids 3 m' root n = kids 3 m root n.
Proof.
  intros Hn Hs. apply kids_ext. intros j Hj. rewrite (Hs root (tpages_root _ _ _)) by lia.
  apply sub_pages_ext. intros T HT. apply Hs. eapply sub_pages_tpages; [|exact HT]. lia.
Qed.

(** What the finished loop says about both spaces. *)
Lemma user_half_done s X k p :
  wf_vm s → step X (vp s) p → client_page (vp s) k →
  src_done 3 (vp s) (cr3 s) 256 p →
  wf_vm (set_vp p s) ∧
  (∀ va, idx 3 va < 256 → walk 3 (pm p) (cr3 s) va = cow_walk (walk 3 (pm (vp s)) (cr3 s) va)) ∧
  (∀ va, 256 ≤ idx 3 va → walk 3 (pm p) (cr3 s) va = walk 3 (pm (vp s)) (cr3 s) va) ∧
  (∀ T, T ∈ kkids (pm (vp s)) (cr3 s) → same_tbl (pm (vp s)) (pm p) T) ∧
  tpages 3 (pm p) (cr3 s) = tpages 3 (pm (vp s)) (cr3 s) ∧
  (∀ va, 256 ≤ idx 3 va → wtab 3 (pm p) (cr3 s) va = wtab 3 (pm (vp s)) (cr3 s) va).
Proof.
  intros Hv Hst Hk Hsrc. assert (tpages 3 (pm p) (cr3 s) = tpages 3 (pm (vp s)) (cr3 s)) as Ht.
  { rewrite !tpages_kids. f_equal. apply kids_ext. intros j Hj. apply Hsrc. lia. }
  split_and!; [| | | |done|].
  - split; [apply Hst| |..].
    + change (wf_tree p (cr3 s)). split; rewrite Ht; [apply Hv|].
      intros T HT. eapply step_tbl_page; [exact Hst|]. by apply Hv.
    + change (pml4 s = hhdm p + cr3 s). rewrite (st_hhdm _ _ _ Hst). apply Hv.
    + change (bitmap_len p ≤ 2 ^ 40). rewrite (st_len _ _ _ Hst). apply Hv.
    + change (UIX_PAGE_SIZE ≤ hhdm p). rewrite (st_hhdm _ _ _ Hst). apply Hv.
  - intros va Hva. pose proof (idx_range 3 va). rewrite !walk_unfold. apply Hsrc. lia.
  - intros va Hva. pose proof (idx_range 3 va). rewrite !walk_unfold.
    destruct (sd_hi _ _ _ _ _ Hsrc (idx 3 va)) as [-> Hs]; [lia|]. by apply walk_e_sub_ext.
  - intros T (j & Hj & HT)%elem_of_kkids. by apply (sd_hi _ _ _ _ _ Hsrc j).
  - intros va Hva. pose proof (idx_range 3 va). rewrite !wtab_unfold.
    destruct (sd_hi _ _ _ _ _ Hsrc (idx 3 va)) as [-> Hs]; [lia|]. by apply wtab_e_ext.
Qed.

(** What a fork leaves alone: all pages but the parent's tables, the shape of
    those tables and the rights in the kernel half. *)
Record fork_frame (s s' : vmm_st) (r : Z) : Prop := ForkFrame {
  ff_vp : s' = set_vp (vp s') s;
  ff_step : step (tset (vp s) (cr3 s)) (vp s) (vp s');
  ff_tset : tset (vp s') (cr3 s) = tset (vp s) (cr3 s);
  ff_child : ∀ T, T ∈ tpages 3 (pm (vp s')) r → T / UIX_PAGE_SIZE ∈ tset (vp s) (cr3 s) ∨ T / UIX_PAGE_SIZE ∈ free_set (vp s);
  ff_wtab : ∀ va, 256 ≤ idx 3 va → wtab 3 (pm (vp s')) (cr3 s) va = wtab 3 (pm (vp s)) (cr3 s) va;
}.

(** ** Duplicating a space *)

(** The translations of parent and child after a fork. *)
Definition forked_spaces (s s' : vmm_st) (r : Z) : Prop :=
  wf_vm s' ∧ cr3 s' = cr3 s ∧ wf_tree (vp s') r ∧
  (∀ va, idx 3 va < 256 →
     walk 3 (pm (vp s')) r va = cow_walk (walk 3 (pm (vp s)) (cr3 s) va) ∧
     walk 3 (pm (vp s')) (cr3 s) va = cow_walk (walk 3 (pm (vp s)) (cr3 s) va)) ∧
  (∀ va, 256 ≤ idx 3 va →
     walk 3 (pm (vp s')) r va = walk 3 (pm (vp s)) (cr3 s) va ∧
     walk 3 (pm (vp s')) (cr3 s) va = walk 3 (pm (vp s)) (cr3 s) va).

Lemma fork_space_run (s : vmm_st) :
  wf_vm s → refcounts (vp s) ≠ 0 → no_giant (pm (vp s)) (cr3 s) → 0 ∉ free_set (vp s) →
  (length (kids 3 (pm (vp s)) (cr3 s) 256) < size (free_set (vp s)))%nat →
  ∃ r s', vmm_fork_user_space s = Ok r s' ∧ forked_spaces s s' r ∧ fork_frame s s' r.
Proof.
  intros Hv Hrc Hg H0 Hroom. apply runs_total. unfold vmm_fork_user_space.
  apply runs_bind, alloc_room; [apply Hv|done|lia|]. intros k Hk Hnz.
  rewrite (proj2 (Z.eqb_neq _ _)) by (unfold UIX_PAGE_SIZE; lia).
  apply (root_half s k (λ dst, for_ 256 0 (fork_user_entry dst) ;; mret (k * UIX_PAGE_SIZE))); [done..|].
  intros p0 Hst0 Hcl Hfs Hni He Hs. destruct (wf_vm_step s ∅ p0 Hv Hst0 Hs) as (Hv0 & Hw0 & Ht0).
  rewrite <-(st_hhdm _ _ _ Hst0). apply runs_bind. eapply runs_mono; [apply (fork_user_half (set_vp p0 s) k)| |done];
    try exact Hv0; change (vp (set_vp p0 s)) with p0; change (cr3 (set_vp p0 s)) with (cr3 s).
  - by rewrite (st_rc _ _ _ Hst0).
  - exact Hcl.
  - by rewrite Ht0.
  - by eapply no_giant_ext.
  - rewrite Hfs. intros [? _]%elem_of_difference. done.
  - rewrite Hfs, (kids_same _ _ _ 256 ltac:(lia) Hs), size_difference, size_singleton
      by (by intros ? ->%elem_of_singleton). lia.
  - intros j Hj. rewrite He by lia. by rewrite (proj2 (Z.leb_gt 256 j)) by lia.
  - intros _ t [(p & -> & Hb & Hsrc & _ & Hdst) Hrest]. eapply runs_ret; [reflexivity|].
    change (vp (set_vp p0 s)) with p0 in *. change (cr3 (set_vp p0 s)) with (cr3 s) in *.
    change (set_vp p (set_vp p0 s)) with (set_vp p s) in *. change (vp (set_vp p s)) with p in *.
    pose proof (bt_step _ _ _ _ _ _ Hb) as Hst.
    destruct (user_half_done (set_vp p0 s) _ k p Hv0 Hst Hcl Hsrc) as (Hv' & Hlo & Hhi & Hkk & Htp & Hwt).
    change (vp (set_vp p0 s)) with p0 in *. change (cr3 (set_vp p0 s)) with (cr3 s) in *.
    assert (step ({[k]} ∪ pset 3 (pm p0) (cr3 s)) (vp s) p) as Hst'.
    { eapply step_trans; [eapply step_weaken; [exact Hst0|]|exact Hst]. by intros q _ ?%not_elem_of_empty. }
    assert (kkids (pm p0) (cr3 s) = kkids (pm (vp s)) (cr3 s)) as Hkp.
    { apply kkids_ext. intros j Hj. rewrite (Hs (cr3 s) (tpages_root _ _ _)) by lia. apply sub_pages_ext.
      intros T HT. apply Hs. eapply sub_pages_tpages; [|exact HT]. lia. }
    destruct (new_root_wf s _ p k Hv Hst' Hk) as (Htree & Hkern & Htb).
    + apply Hb.
    + apply Hb.
    + intros T HT. destruct (bt_kids _ _ _ _ _ _ Hb T HT) as [? HT']. split; [done|].
      rewrite Hfs in HT'. by apply elem_of_difference in HT' as [? _].
    + intros j Hj. rewrite Hrest, He by lia. by rewrite (proj2 (Z.leb_le 256 j)) by lia.
    + intros T HT j Hj. rewrite Hkk by (by rewrite ?Hkp). by apply Hs, Hj; apply kkids_root.
    + assert (fork_frame s (set_vp p s) (k * UIX_PAGE_SIZE)) as Hff.
      { assert (tset p0 (cr3 s) = tset (vp s) (cr3 s)) as Hts0 by (unfold tset; by rewrite Ht0).
        split; [done|..]; change (vp (set_vp p s)) with p.
        - eapply step_weaken; [exact Hst'|]. intros q Hq [->%elem_of_singleton|Hq']%elem_of_union; [by destruct (cp_used _ _ Hq)|by rewrite <-Hts0].
        - unfold tset. by rewrite Htp, Ht0.
        - exact Htb.
        - intros va Hva. rewrite Hwt by done. by apply wtab_ext. }
      split; [|done]. split_and!; [done|done|done| |].
      * intros va Hva. split; [|by rewrite Hlo, Hw0]. pose proof (idx_range 3 va).
        rewrite !walk_unfold, Hdst, <-walk_unfold by lia. by rewrite <-walk_unfold, Hw0.
      * intros va Hva. split; [by apply Hkern|by rewrite Hhi, Hw0].
Qed.


Lemma no_giant_iff m root :
  Forall (λ i, has (entry m root i) VMM_PRESENT = true →
    Forall (λ j, has (entry m (Z.land (entry m root i) PTE_MASK) j) PDE_PS = false) (seqZ 0 512)) (seqZ 0 256)
  ↔ no_giant m root.
Proof.
  rewrite Forall_forall. split; intros H i Hi; [|apply elem_of_seqZ in Hi].
  - intros Hp j Hj. assert (i ∈ seqZ 0 256) as Hi' by (apply elem_of_seqZ; lia).
    specialize (H i Hi' Hp). rewrite Forall_forall in H. apply H, elem_of_seqZ. lia.
  - intros Hp. apply Forall_forall. intros j Hj%elem_of_seqZ. apply H; [lia|done|lia].
Qed.

#[export] Instance no_giant_dec m root : Decision (no_giant m root) := dec_iff (no_giant_iff m root).


End ForkProps.
