(* ===== verification/FaultProps.v ===== *)
(** * Properties of copy-on-write faults

    [vmm_page_fault] of [core/memory/vmm.c] on a write to a copy-on-write page:
    the private copy while the page is shared, the page made writable in place
    otherwise, and what that means for two spaces that share the page. *)

From S2P Require Import Prelude Lib Pmm PmmFacts PmmProps Vmm PageTables VmmFacts VmmProps.
From S2P Require Import TableFacts ForkFacts SpaceProps Checks.

Module FaultProps.
Import Lib Pmm PmmFacts PmmProps Vmm PageTables VmmFacts VmmProps TableFacts ForkFacts SpaceProps Checks.

Local Opaque memcpy.

(** ** Helpers *)

(** The page address the handler computes. *)
Lemma idx_aligned l va : (l ≤ 3)%nat → idx l (Z.land va (~w (UIX_PAGE_SIZE - 1))) = idx l va.
Proof.
  intros Hl. unfold idx. apply Z.bits_inj'. intros n Hn. rewrite !Z.land_spec, !Z.shiftr_spec, Z.land_spec by done.
  destruct (decide (n < 9)) as [Hlt|]; last first.
  { rewrite (bits_above 0x1FF 9 n) by lia. by rewrite !andb_false_r. }
  rewrite wrap64_testbit, Z.lnot_spec by lia.
  rewrite (bits_above (UIX_PAGE_SIZE - 1) 12) by (unfold UIX_PAGE_SIZE; lia).
  by rewrite andb_true_r.
Qed.

(** Page [k], just handed out, with the contents of page [i]. *)
Definition copy_page (k i : Z) (p : pmm_st) : pmm_st :=
  set_pm (memcpy (k * UIX_PAGE_SIZE) (i * UIX_PAGE_SIZE) (Z.to_nat UIX_PAGE_SIZE) (pm p)) p.

Lemma hmemcpy_page s k i :
  wf (vp s) → client_page (vp s) k → client_page (vp s) i →
  liftp (hmemcpy (hhdm (vp s) + k * UIX_PAGE_SIZE) (hhdm (vp s) + i * UIX_PAGE_SIZE) UIX_PAGE_SIZE) s =
    Ok tt (set_vp (copy_page k i (vp s)) s).
Proof.
  intros Hwf Hk Hi. pose proof (cp_range _ _ Hk). pose proof (cp_range _ _ Hi). unfold liftp, zoom, hmemcpy.
  rewrite !in_hhdm_pages by (done || unfold UIX_PAGE_SIZE; lia). cbn [andb].
  replace (hhdm (vp s) + k * UIX_PAGE_SIZE - hhdm (vp s)) with (k * UIX_PAGE_SIZE) by lia.
  by replace (hhdm (vp s) + i * UIX_PAGE_SIZE - hhdm (vp s)) with (i * UIX_PAGE_SIZE) by lia.
Qed.

Lemma step_copy p k i :
  wf p → client_page p k → client_page p i → k ≠ i →
  step {[k]} p (copy_page k i p) ∧ free_set (copy_page k i p) = free_set p ∧
  ∀ a, 0 ≤ a < UIX_PAGE_SIZE →
    ld8 (pm (copy_page k i p)) (k * UIX_PAGE_SIZE + a) = ld8 (pm p) (i * UIX_PAGE_SIZE + a).
Proof.
  intros Hwf Hk Hi Hne. rewrite (assoc and). split.
  - apply step_write; [done|done|]. intros a Ha. unfold UIX_PAGE_SIZE in *. rewrite ld8_memcpy by lia.
    case_zbool; simpl; done || lia.
  - intros a Ha. cbn [copy_page pm set_pm]. unfold UIX_PAGE_SIZE in *. rewrite ld8_memcpy by lia.
    case_zbool; simpl; [|lia..]. f_equal. lia.
Qed.

(** The counts are outside the bitmap and outside every page of a client. *)
Lemma rc_get_ext p p' i :
  rc_phys p' = rc_phys p → 0 ≤ i < total_pages p →
  (∀ a, rc_phys p ≤ a < rc_phys p + rc_size p → ld8 (pm p') a = ld8 (pm p) a) → rc_get p' i = rc_get p i.
Proof.
  intros Hp Hi Hm. unfold rc_get, rc_addr. rewrite Hp. apply ldn_ext. intros a Ha. apply Hm.
  unfold rc_size. lia.
Qed.

Lemma rc_get_taken p k i : wf p → wf_rc p → 0 ≤ i < total_pages p → k ∈ free_set p → rc_get (taken k p) i = rc_get p i.
Proof.
  intros Hwf Hrc Hi Hk. destruct (wf_taken p k Hwf Hk) as (_ & Hfr & _ & _).
  apply rc_get_ext; [unfold rc_phys; by rewrite (fr_rc _ _ Hfr), (fr_hhdm _ _ Hfr)|done|].
  intros a Ha. apply Hfr. pose proof (rc_bitmap _ Hrc). lia.
Qed.

Lemma rc_get_page p m q i :
  0 ≤ i < total_pages p → refcounts p ≠ 0 → client_page p q →
  (∀ a, a < q * UIX_PAGE_SIZE ∨ (q + 1) * UIX_PAGE_SIZE ≤ a → ld8 m a = ld8 (pm p) a) →
  rc_get (set_pm m p) i = rc_get p i.
Proof.
  intros Hi Hnz Hq Hm. apply rc_get_ext; [done|done|]. intros a Ha. apply Hm.
  pose proof (cp_rc _ _ Hq Hnz) as Hd. unfold page_disjoint in Hd. lia.
Qed.

Lemma copy_page_out p k i a :
  k ≠ i → a < k * UIX_PAGE_SIZE ∨ (k + 1) * UIX_PAGE_SIZE ≤ a → ld8 (pm (copy_page k i p)) a = ld8 (pm p) a.
Proof.
  intros Hne Ha. cbn [copy_page pm set_pm]. unfold UIX_PAGE_SIZE in *. rewrite ld8_memcpy by lia.
  case_zbool; simpl; done || lia.
Qed.

Lemma rc_get_wr p T j e i :
  wf p → tbl_page p T → 0 ≤ j < 512 → 0 ≤ i < total_pages p → refcounts p ≠ 0 →
  rc_get (wr T j e p) i = rc_get p i.
Proof.
  intros Hwf HT Hj Hi Hnz. destruct (tbl_page_bounds _ _ Hwf HT) as (? & ? & E).
  apply (rc_get_page p _ (T / UIX_PAGE_SIZE)); [done|done|apply HT|].
  intros a Ha. apply ld8_stn_out. unfold UIX_PAGE_SIZE in *. lia.
Qed.

(** ** The new entry *)

(** The faulting page now maps page [k], writable, with the attributes of [pte]. *)
Definition remapped (s s' : vmm_st) (va pte k : Z) : Prop :=
  ∃ e, Z.land e PTE_MASK = k * UIX_PAGE_SIZE ∧ has e VMM_PRESENT = true ∧ has e VMM_WRITE = true ∧
    has e VMM_USER = true ∧ has e COW_MARK = false ∧ Z.land e VMM_NOEXEC = Z.land pte VMM_NOEXEC ∧
    ∀ va', walk 3 (pm (vp s')) (cr3 s') va' =
      if decide (same_page va va') then Some (0%nat, e) else walk 3 (pm (vp s)) (cr3 s) va'.

Lemma cow_copy_entry pte k :
  0 ≤ k < 2 ^ 40 →
  let e := Z.lor (Z.lor (Z.land (k * UIX_PAGE_SIZE) PTE_MASK) TABLE_FLAGS) (Z.land pte VMM_NOEXEC) in
  0 ≤ e < 2 ^ 64 ∧ Z.land e PTE_MASK = k * UIX_PAGE_SIZE ∧ has e VMM_PRESENT = true ∧
  has e VMM_WRITE = true ∧ has e VMM_USER = true ∧ has e COW_MARK = false ∧
  Z.land e VMM_NOEXEC = Z.land pte VMM_NOEXEC.
Proof.
  intros Hk e.
  assert (∀ M, Z.land e M = Z.lor (Z.lor (Z.land (k * UIX_PAGE_SIZE) (Z.land PTE_MASK M)) (Z.land TABLE_FLAGS M))
                              (Z.land pte (Z.land VMM_NOEXEC M))) as HM.
  { intros M. unfold e. by rewrite !Z.land_lor_distr_l, <-!Z.land_assoc. }
  assert (∀ M, Z.land PTE_MASK M = 0 → Z.land VMM_NOEXEC M = 0 → Z.land e M = Z.land TABLE_FLAGS M) as Hlow.
  { intros M E1 E2. by rewrite HM, E1, E2, !Z.land_0_r, Z.lor_0_r. }
  split_and!; try (by unfold has; rewrite Hlow).
  - apply Z.lor_nonneg. split; [|apply Z.land_nonneg; by right]. apply Z.lor_nonneg.
    split; [|done]. apply Z.land_nonneg. by right.
  - apply lor_range; [|rewrite Z.land_comm; apply land_range; [by vm_compute|done]|done].
    apply lor_range; [|by vm_compute|done]. rewrite Z.land_comm. apply land_range; [by vm_compute|done].
  - rewrite HM. change (Z.land PTE_MASK PTE_MASK) with PTE_MASK. change (Z.land TABLE_FLAGS PTE_MASK) with 0.
    change (Z.land VMM_NOEXEC PTE_MASK) with 0. by rewrite Z.land_0_r, !Z.lor_0_r, land_page_mask.
  - rewrite HM. change (Z.land PTE_MASK VMM_NOEXEC) with 0. change (Z.land TABLE_FLAGS VMM_NOEXEC) with 0.
    by rewrite Z.land_0_r, Z.lor_0_l.
Qed.

Lemma cow_own_entry pte :
  0 ≤ pte < 2 ^ 64 → has pte VMM_PRESENT = true → has pte VMM_USER = true →
  let e := Z.lor (Z.land pte (~w COW_MARK)) VMM_WRITE in
  0 ≤ e < 2 ^ 64 ∧ Z.land e PTE_MASK = Z.land pte PTE_MASK ∧ has e VMM_PRESENT = true ∧
  has e VMM_WRITE = true ∧ has e VMM_USER = true ∧ has e COW_MARK = false ∧
  Z.land e VMM_NOEXEC = Z.land pte VMM_NOEXEC.
Proof.
  intros Hr Hp Hu e.
  assert (∀ M, Z.land e M = Z.lor (Z.land pte (Z.land (~w COW_MARK) M)) (Z.land VMM_WRITE M)) as HM.
  { intros M. unfold e. by rewrite !Z.land_lor_distr_l, <-!Z.land_assoc. }
  assert (∀ M, Z.land (~w COW_MARK) M = M → Z.land VMM_WRITE M = 0 → Z.land e M = Z.land pte M) as Hsame.
  { intros M E1 E2. by rewrite HM, E1, E2, Z.lor_0_r. }
  split_and!; try (by rewrite Hsame); try (by unfold has; rewrite Hsame).
  - apply Z.lor_nonneg. split; [|done]. apply Z.land_nonneg. left. lia.
  - apply lor_range; [by apply land_range|by vm_compute|done].
  - unfold has. rewrite HM. change (Z.land (~w COW_MARK) VMM_WRITE) with 2.
    change (Z.land VMM_WRITE VMM_WRITE) with 2. apply negb_true_iff, Z.eqb_neq.
    intros E%Z.lor_eq_0_iff. by destruct E.
  - unfold has. rewrite HM. change (Z.land (~w COW_MARK) COW_MARK) with 0.
    change (Z.land VMM_WRITE COW_MARK) with 0. by rewrite Z.land_0_r.
Qed.

(** The write of the new entry, after steps that left the tables alone. *)
Lemma cow_store s p va pte T k e :
  wf_vm s → step ∅ (vp s) p → path (pm (vp s)) va 3 (cr3 s) 0 T →
  0 ≤ e < 2 ^ 64 ∧ Z.land e PTE_MASK = k * UIX_PAGE_SIZE ∧ has e VMM_PRESENT = true ∧
    has e VMM_WRITE = true ∧ has e VMM_USER = true ∧ has e COW_MARK = false ∧
    Z.land e VMM_NOEXEC = Z.land pte VMM_NOEXEC →
  let s' := set_vp (wr T (idx 0 va) e p) s in
  tstore (hhdm (vp s) + T) (idx 0 va) e (set_vp p s) = Ok tt s' ∧ wf_vm s' ∧
  step {[T / UIX_PAGE_SIZE]} p (vp s') ∧ remapped s s' va pte k.
Proof.
  intros Hv Hst Hp (He & Hk & H1 & H2 & H3 & H4 & H5) s'.
  assert (∀ T, T ∈ tpages 3 (pm (vp s)) (cr3 s) → same_tbl (pm (vp s)) (pm p) T) as Hs.
  { intros T' HT. apply (step_same_tbl ∅); [done|apply Hv|by apply Hv|apply not_elem_of_empty]. }
  destruct (wf_vm_step s ∅ p Hv Hst Hs) as (Hv1 & Hw1 & _).
  assert (path (pm p) va 3 (cr3 s) 0 T) as Hp1 by (by eapply path_ext).
  pose proof (path_tbl_page (set_vp p s) _ _ _ Hv1 Hp1) as HT. change (vp (set_vp p s)) with p in HT.
  destruct (leaf_write (set_vp p s) va T e Hv1 Hp1 He) as (Hv2 & _ & _ & _ & _ & _ & Hwk & _).
  split_and!; [apply (tstore_at (vp s) ∅ p Hst); [done|apply idx_range]|exact Hv2| |].
  - apply step_wr; [apply Hst|done|apply idx_range].
  - exists e. split_and!; try done. intros va'.
    change (walk 3 _ _ va') with (walk 3 (pm (vp s')) (cr3 s) va') at 1.
    etransitivity; [exact (Hwk va')|]. change (vp (set_vp p s)) with p. rewrite H1.
    destruct (decide (same_page va va')); [done|]. apply Hw1.
Qed.

(** ** The fault *)

(** [va] is in the 4 KiB copy-on-write page [i] of a user, which is no table of
    the current space. *)
Record cow_mapped (s : vmm_st) (va pte i : Z) : Prop := CowMapped {
  cm_walk : walk 3 (pm (vp s)) (cr3 s) va = Some (0%nat, pte);
  cm_mark : has pte COW_MARK = true;
  cm_user : has pte VMM_USER = true;
  cm_page : Z.land pte PTE_MASK = i * UIX_PAGE_SIZE;
  cm_client : client_page (vp s) i;
  cm_data : i ∉ tset (vp s) (cr3 s);
}.

Lemma cow_mapped_iff s va pte i :
  walk 3 (pm (vp s)) (cr3 s) va = Some (0%nat, pte) ∧ has pte COW_MARK = true ∧ has pte VMM_USER = true ∧
  Z.land pte PTE_MASK = i * UIX_PAGE_SIZE ∧ client_page (vp s) i ∧ i ∉ tset (vp s) (cr3 s) ↔ cow_mapped s va pte i.
Proof. split; [intros (? & ? & ? & ? & ? & ?); by split|intros []; done]. Qed.

#[export] Instance cow_mapped_dec s va pte i : Decision (cow_mapped s va pte i) := dec_iff (cow_mapped_iff s va pte i).

Section fault.
Context (s : vmm_st) (va pte i : Z).
Context (Hv : wf_vm s) (Hrc : refcounts (vp s) ≠ 0) (Hc : cow_mapped s va pte i).

(** The state in which the handler returns. *)
Definition resolved (s' : vmm_st) : Prop :=
  wf_vm s' ∧ cr3 s' = cr3 s ∧
  ∃ k, remapped s s' va pte k ∧
    same_bytes (pm (vp s)) (pm (vp s')) i ∧
    (∀ a, 0 ≤ a < UIX_PAGE_SIZE →
       ld8 (pm (vp s')) (k * UIX_PAGE_SIZE + a) = ld8 (pm (vp s)) (i * UIX_PAGE_SIZE + a)) ∧
    if 1 <? rc_get (vp s) i
    then k ∈ free_set (vp s) ∧ rc_get (vp s') i = rc_get (vp s) i - 1
    else k = i ∧ rc_get (vp s') i = rc_get (vp s) i.

(** The private copy of the page, in page [k], and the count given back. *)
Lemma private_copy k :
  k ∈ free_set (vp s) → 1 < rc_get (vp s) i →
  let p1 := taken k (vp s) in
  let p2 := copy_page k i p1 in
  let p3 := rc_upd i (rc_get (vp s) i - 1) p2 in
  liftp (hmemcpy (hhdm (vp s) + k * UIX_PAGE_SIZE) (hhdm (vp s) + i * UIX_PAGE_SIZE) UIX_PAGE_SIZE)
    (set_vp p1 s) = Ok tt (set_vp p2 s) ∧
  liftp (pmm_unref (i * UIX_PAGE_SIZE)) (set_vp p2 s) = Ok tt (set_vp p3 s) ∧
  step ∅ (vp s) p3 ∧ client_page p3 k ∧ rc_get p3 i = rc_get (vp s) i - 1 ∧
  ∀ a, 0 ≤ a < UIX_PAGE_SIZE → ld8 (pm p3) (k * UIX_PAGE_SIZE + a) = ld8 (pm (vp s)) (i * UIX_PAGE_SIZE + a).
Proof.
  intros Hk Hsh p1 p2 p3. pose proof (wv_pmm _ Hv) as Hwf. pose proof (cm_client _ _ _ _ Hc) as Hcl.
  destruct (wf_refs _ Hwf) as [?|Hwrc]; [done|].
  pose proof (cp_range _ _ Hcl) as Hir. rewrite <-(wf_total _ Hwf) in Hir.
  assert (k ≠ i) as Hne by (intros ->; by apply (cp_used _ _ Hcl)).
  destruct (step_taken (vp s) k Hwf Hk) as (Hst1 & Hk1 & _). fold p1 in Hst1, Hk1.
  pose proof (step_client _ _ _ _ Hst1 Hcl) as Hi1.
  destruct (step_copy p1 k i (st_wf _ _ _ Hst1) Hk1 Hi1 Hne) as (Hst2 & _ & Hcopy). fold p2 in Hst2, Hcopy.
  pose proof (rc_get_taken (vp s) k i Hwf Hwrc Hir Hk) as Hg1. fold p1 in Hg1.
  assert (rc_get p2 i = rc_get p1 i) as Hg2.
  { apply (rc_get_page p1 (pm p2) k); [by rewrite (st_total _ _ _ Hst1)|by rewrite (st_rc _ _ _ Hst1)|done|].
    intros a Ha. exact (copy_page_out p1 k i a Hne Ha). }
  assert (refcounts p2 ≠ 0) as Hrc2 by (by rewrite (st_rc _ _ _ Hst2), (st_rc _ _ _ Hst1)).
  assert (0 ≤ i < total_pages p2) as Hir2 by (by rewrite (st_total _ _ _ Hst2), (st_total _ _ _ Hst1)).
  destruct (rc_upd_step p2 i (rc_get (vp s) i - 1) (st_wf _ _ _ Hst2) Hrc2 Hir2) as [Hst3 _]. fold p3 in Hst3.
  split; [rewrite <-(st_hhdm _ _ _ Hst1); by apply (hmemcpy_page (set_vp p1 s)); [apply Hst1|..]|].
  assert (rc_get p3 i = rc_get (vp s) i - 1) as Hg3.
  { pose proof (rc_get_range (vp s) i). unfold p3. rewrite rc_get_upd by lia. by rewrite Z.eqb_refl. }
  split.
  { destruct (wf_refs _ (st_wf _ _ _ Hst2)) as [E|Hwrc2]; [by destruct (Hrc2 E)|].
    unfold liftp, zoom. change (vp (set_vp p2 s)) with p2.
    unfold p3. clearbody p2. rewrite (pmm_unref_run p2 i Hwrc2 Hrc2 Hir2), Hg2, Hg1.
    by rewrite (proj2 (Z.ltb_lt _ _)) by lia. }
  clearbody p3 p2 p1. split_and!; [| |done|].
  - eapply step_then; [eapply step_then; [exact Hst1|exact Hst2|]|exact Hst3|by intros q _ ?%not_elem_of_empty].
    intros q Hq ->%elem_of_singleton. by destruct (cp_used _ _ Hq).
  - eapply step_client; [exact Hst3|]. by eapply step_client.
  - intros a Ha. rewrite (st_mem _ _ _ Hst3 k); [rewrite Hcopy by done|by eapply step_client|apply not_elem_of_empty|].
    2:{ unfold UIX_PAGE_SIZE in *. lia. }
    apply (st_mem _ _ _ Hst1 i); [done|apply not_elem_of_empty|]. unfold UIX_PAGE_SIZE in *. lia.
Qed.

Lemma cow_fault_run T :
  path (pm (vp s)) va 3 (cr3 s) 0 T → entry (pm (vp s)) T (idx 0 va) = pte → has pte VMM_PRESENT = true →
  runs (cow_fault (hhdm (vp s) + T) va pte) s (λ r s', r = 0 ∧ resolved s')
    (λ w, w = Panic "vmm: OOM in COW fault" ∧ 1 < rc_get (vp s) i).
Proof.
  intros Hp Hent Hpr. destruct Hc as [_ _ Hu Hpg Hcl Hdat]. pose proof (wv_pmm _ Hv) as Hwf.
  destruct (wf_refs _ Hwf) as [?|Hwrc]; [done|].
  pose proof (cp_range _ _ Hcl) as Hir. rewrite <-(wf_total _ Hwf) in Hir.
  assert (T / UIX_PAGE_SIZE ≠ i) as HTi.
  { intros <-. apply Hdat, elem_of_tset. by eapply path_tpages. }
  pose proof (path_tbl_page _ _ _ _ Hv Hp) as HT.
  unfold cow_fault, resolved. rewrite Hpg. change (PT_IDX va) with (idx 0 va).
  eapply runs_bind_Ok; [unfold liftp, zoom; rewrite pmm_getref_run by done; by destruct s|].
  destruct (Z.ltb_spec 1 (rc_get (vp s) i)) as [Hsh|Hsh].
  - apply runs_bind, runs_bind, alloc_runs; [done|by intros p'|]. intros k Hk Hnz.
    rewrite (proj2 (Z.eqb_neq _ _)) by (unfold UIX_PAGE_SIZE; lia).
    destruct (private_copy k Hk Hsh) as (Hcp & Hun & Hst & Hk3 & Hg3 & Hbytes).
    destruct (step_taken (vp s) k Hwf Hk) as (Hst1 & Hk1 & _).
    eapply runs_bind_Ok; [apply (p2v_at (vp s) ∅ _ Hst1 s), tbl_page_of, Hk1|].
    eapply runs_bind_Ok; [apply (p2v_at (vp s) ∅ _ Hst1 s), tbl_page_of; by eapply step_client|].
    eapply runs_bind_Ok; [exact Hcp|]. eapply runs_bind_Ok; [exact Hun|].
    set (p3 := rc_upd i _ _) in *. clearbody p3.
    assert (0 ≤ k < 2 ^ 40) as Hk40.
    { pose proof (cp_range _ _ Hk1). rewrite (st_len _ _ _ Hst1) in *. pose proof (wv_width _ Hv). lia. }
    destruct (cow_store s p3 va pte T k _ Hv Hst Hp (cow_copy_entry pte k Hk40)) as (Hrun & Hv' & Hst' & Hre).
    eapply runs_ret; [exact Hrun|]. eapply runs_ret; [reflexivity|].
    assert (tbl_page p3 T) as HT3 by (by eapply step_tbl_page).
    assert (T / UIX_PAGE_SIZE ≠ k) as HTk by (intros <-; by apply (cp_used _ _ (proj2 HT))).
    split; [done|]. split_and!; [exact Hv'|done|]. exists k. split_and!; [exact Hre| | |done|].
    + intros a Ha. rewrite (st_mem _ _ _ Hst' i); [apply (st_mem _ _ _ Hst i)|by eapply step_client|..|done];
        [done|apply not_elem_of_empty|done|by intros E%elem_of_singleton].
    + intros a Ha. rewrite (st_mem _ _ _ Hst' k); [by apply Hbytes|done|by intros E%elem_of_singleton|].
      unfold UIX_PAGE_SIZE in *. lia.
    + etransitivity; [apply rc_get_wr|exact Hg3]; [apply Hst|done|apply idx_range| |].
      * by rewrite (st_total _ _ _ Hst).
      * by rewrite (st_rc _ _ _ Hst).
  - destruct (cow_store s (vp s) va pte T i (Z.lor (Z.land pte (~w COW_MARK)) VMM_WRITE) Hv)
      as (Hrun & Hv' & Hst & Hre); [by apply step_refl|done| |].
    { rewrite <-Hpg. apply cow_own_entry; [|done|done]. rewrite <-Hent. apply ld64_range. }
    eapply runs_bind_Ok; [|eapply runs_ret; [reflexivity|]].
    { etransitivity; [|exact Hrun]. by destruct s. }
    split; [done|]. split_and!; [exact Hv'|done|]. exists i. split_and!; [exact Hre| | |done|].
    + apply Hst; [done|]. by intros E%elem_of_singleton.
    + intros a Ha. apply (st_mem _ _ _ Hst i); [done|by intros E%elem_of_singleton|unfold UIX_PAGE_SIZE in *; lia].
    + apply rc_get_wr; [done|done|apply idx_range|done|done].
Qed.
End fault.

Lemma remapped_page s s' va va0 pte k : same_page va0 va → remapped s s' va0 pte k → remapped s s' va pte k.
Proof.
  intros Hs (e & H1 & H2 & H3 & H4 & H5 & H6 & Hw). exists e. split_and!; try done. intros va'. rewrite Hw.
  assert (same_page va0 va' ↔ same_page va va') as Hiff.
  { split; intros H l Hl; [rewrite (Hs l Hl)|rewrite <-(Hs l Hl)]; by apply H. }
  destruct (decide (same_page va0 va')), (decide (same_page va va')); tauto.
Qed.


(** The machine with a user page, forked twice: its page is shared by three
    spaces. *)
Definition shared_st : vmm_st := run (vmm_fork_user_space ;; vmm_fork_user_space) user_st.
Definition leaf_of (w : option (nat * Z)) : Z := match w with Some (_, e) => e | None => 0 end.
Definition shared_pte : Z := leaf_of (walk 3 (pm (vp shared_st)) (cr3 shared_st) 0x400000).
Definition shared_page : Z := Z.land shared_pte PTE_MASK / UIX_PAGE_SIZE.

Lemma shared_st_ok : wf_vm shared_st ∧ refcounts (vp shared_st) ≠ 0 ∧ cow_mapped shared_st 0x400123 shared_pte shared_page.
Proof.
  split; [apply (bool_decide_unpack _); vm_compute; reflexivity|]. split; [vm_compute; discriminate|].
  apply (bool_decide_unpack _). vm_compute. reflexivity.
Qed.


(** ** The first fork of a page *)

(** The byte at [va] in the space of [root]. *)
Definition byte_in (root va : Z) (s : vmm_st) : option Z :=
  (λ '(pa, _), ld8 (pm (vp s)) pa) <$> mmu (pm (vp s)) root va.


End FaultProps.
