(* ===== verification/Heap.v ===== *)
(** * Kernel heap ([core/memory/heap.c])

    First-fit free list over pages taken from the physical memory manager and
    mapped above [HEAP_VA_BASE].  The block headers live in that memory and are
    read and written through the page tables of the current space. *)

From S2P Require Import Prelude Lib Pmm Vmm.

Module Heap.
Import Lib Pmm Vmm.

Definition HEAP_VA_BASE : Z := 0xffffffff40000000.
Definition HEAP_MAX : Z := 32 * 1024.
Definition SUPER_PAGES : Z := 16.

Definition BMAGIC_FREE : Z := 0xFEEEF00D.
Definition BMAGIC_USED : Z := 0xDEADC0DE.

(** [sizeof(struct block)]: [size] at 0, [magic] at 4, [next] at 8. *)
Definition HDR_SIZE : Z := 16.

Record heap_st := HeapSt {
  hvm : vmm_st;
  freelist : Z;
  heap_brk : Z;
}.

Definition set_hvm (v : vmm_st) (s : heap_st) : heap_st := HeapSt v (freelist s) (heap_brk s).
Definition set_freelist (b : Z) (s : heap_st) : heap_st := HeapSt (hvm s) b (heap_brk s).
Definition set_brk (b : Z) (s : heap_st) : heap_st := HeapSt (hvm s) (freelist s) b.

Definition liftv {A} (m : M vmm_st A) : M heap_st A := zoom hvm set_hvm m.

(** ** Accesses of several bytes through the page tables *)

Fixpoint vldn (n : nat) (va : Z) : M vmm_st Z :=
  match n with
  | O => mret 0
  | S n => b ← vload8 va; r ← vldn n (va + 1); mret (b + 256 * r)
  end.

Fixpoint vstn (n : nat) (va v : Z) : M vmm_st unit :=
  match n with
  | O => mret tt
  | S n => vstore8 va (wrap8 v) ;; vstn n (va + 1) (v / 256)
  end.

(** ** Block headers *)

Definition get_size (b : Z) : M heap_st Z := liftv (vldn 4 b).
Definition get_magic (b : Z) : M heap_st Z := liftv (vldn 4 (b +w 4)).
Definition get_next (b : Z) : M heap_st Z := liftv (vldn 8 (b +w 8)).
Definition set_size (b v : Z) : M heap_st unit := liftv (vstn 4 b v).
Definition set_magic (b v : Z) : M heap_st unit := liftv (vstn 4 (b +w 4) v).
Definition set_next (b v : Z) : M heap_st unit := liftv (vstn 8 (b +w 8) v).

(** [*prev = v]: [None] is [&freelist], [Some b] is [&b->next]. *)
Definition set_link (prev : option Z) (v : Z) : M heap_st unit :=
  match prev with
  | None => modify (set_freelist v)
  | Some b => set_next b v
  end.

(** ** Growing *)

Definition grow (npages : Z) : M heap_st unit :=
  for_ (Z.to_nat npages) 0 (λ _,
    p ← liftv (liftp pmm_alloc);
    if p =? 0 then panic "heap: OOM growing"
    else
      brk ← gets heap_brk;
      liftv (vmm_map brk p (Z.lor (Z.lor VMM_PRESENT VMM_WRITE) VMM_NOEXEC)) ;;
      modify (set_brk (brk +w UIX_PAGE_SIZE))).

Definition heap_init : M heap_st unit :=
  modify (set_brk HEAP_VA_BASE) ;;
  grow SUPER_PAGES ;;
  modify (set_freelist HEAP_VA_BASE) ;;
  set_size HEAP_VA_BASE (SUPER_PAGES * UIX_PAGE_SIZE) ;;
  set_magic HEAP_VA_BASE BMAGIC_FREE ;;
  set_next HEAP_VA_BASE 0 ;;
  liftv (liftp (kprintf "[info] heap: %u KiB ready\n" [KU (SUPER_PAGES * UIX_PAGE_SIZE / 1024)])).

(** ** Allocation *)

(** The block [b] of the free list is taken; [prev] links to it. *)
Definition take_block (prev : option Z) (b need : Z) : M heap_st Z :=
  size ← get_size b;
  (if HDR_SIZE + 16 <=? size - need then
     let split := b +w need in
     set_size split (size - need) ;;
     set_magic split BMAGIC_FREE ;;
     nx ← get_next b;
     set_next split nx ;;
     set_size b need ;;
     set_link prev split
   else
     nx ← get_next b;
     set_link prev nx) ;;
  set_magic b BMAGIC_USED ;;
  set_next b 0 ;;
  mret (b +w HDR_SIZE).

(** The search; [None] when the list ends.  A list of blocks of the heap has at
    most [fuel] elements, see [heap_fuel]. *)
Fixpoint find_fit (fuel : nat) (prev : option Z) (b need : Z) : M heap_st (option Z) :=
  match fuel with
  | O => diverge
  | S fuel =>
      if b =? 0 then mret None
      else
        magic ← get_magic b;
        if negb (magic =? BMAGIC_FREE) then panic "heap: corrupted freelist"
        else
          size ← get_size b;
          if need <=? size then p ← take_block prev b need; mret (Some p)
          else nx ← get_next b; find_fit fuel (Some b) nx need
  end.

(** One more than the number of headers that fit below the break. *)
Definition heap_fuel (s : heap_st) : nat := S (Z.to_nat ((heap_brk s - HEAP_VA_BASE) / HDR_SIZE)).

(** [rounds] bounds the recursion of [kmalloc]: it calls itself once, after the
    heap has grown. *)
Fixpoint kmalloc_rounds (rounds : nat) (n : Z) : M heap_st Z :=
  match rounds with
  | O => diverge
  | S rounds =>
      if (n =? 0) || (HEAP_MAX <? n +w HDR_SIZE) then mret 0
      else
        let need := wrap32 (wrap32 n + HDR_SIZE) in
        b ← gets freelist;
        fuel ← gets heap_fuel;
        r ← find_fit fuel None b need;
        match r with
        | Some p => mret p
        | None =>
            grow SUPER_PAGES ;;
            brk ← gets heap_brk;
            let nb := brk -w SUPER_PAGES * UIX_PAGE_SIZE in
            set_size nb (SUPER_PAGES * UIX_PAGE_SIZE) ;;
            set_magic nb BMAGIC_FREE ;;
            fl ← gets freelist;
            set_next nb fl ;;
            modify (set_freelist nb) ;;
            kmalloc_rounds rounds n
        end
  end.

Definition kmalloc (n : Z) : M heap_st Z := kmalloc_rounds 2 n.

Definition kzalloc (n : Z) : M heap_st Z :=
  p ← kmalloc n;
  (if p =? 0 then mret tt else liftv (vmemset p 0 n)) ;;
  mret p.

(** ** Freeing *)

Definition ARR_LEN : Z := 256.

(** The addresses of the free list, at most [k] of them. *)
Fixpoint collect (k : nat) (it : Z) : M heap_st (list Z) :=
  match k with
  | O => mret []
  | S k => if it =? 0 then mret [] else nx ← get_next it; r ← collect k nx; mret (it :: r)
  end.

(** [while (j >= 0 && arr[j] > key) { arr[j + 1] = arr[j]; j--; } arr[j + 1] = key;]
    with [k = j + 1]. *)
Fixpoint shift_up (key : Z) (k : nat) (arr : list Z) : list Z :=
  match k with
  | O => <[0%nat := key]> arr
  | S j =>
      let a := default 0 (arr !! j) in
      if key <? a then shift_up key j (<[S j := a]> arr) else <[S j := key]> arr
  end.

(** The insertion sort, with [n] rounds left, at [i]. *)
Fixpoint sort_from (n i : nat) (arr : list Z) : list Z :=
  match n with
  | O => arr
  | S n => sort_from n (S i) (shift_up (default 0 (arr !! i)) i arr)
  end.

Definition sort_blocks (arr : list Z) : list Z := sort_from (length arr - 1) 1 arr.

(** Merging of neighbours; [tail] is 0 before the first block. *)
Fixpoint rebuild (arr : list Z) (tail : Z) : M heap_st unit :=
  match arr with
  | [] => mret tt
  | cur :: arr =>
      tsize ← (if tail =? 0 then mret 0 else get_size tail);
      if negb (tail =? 0) && (tail +w tsize =? cur) then
        csize ← get_size cur;
        set_size tail (wrap32 (tsize + csize)) ;;
        rebuild arr tail
      else
        set_next cur 0 ;;
        (if tail =? 0 then modify (set_freelist cur) else set_next tail cur) ;;
        rebuild arr cur
  end.

Definition kfree (p : Z) : M heap_st unit :=
  if p =? 0 then mret tt
  else
    let b := p -w HDR_SIZE in
    magic ← get_magic b;
    if negb (magic =? BMAGIC_USED) then panic "heap: kfree of non-heap pointer %p"
    else
      set_magic b BMAGIC_FREE ;;
      fl ← gets freelist;
      arr ← collect (Z.to_nat ARR_LEN) fl;
      if ARR_LEN <=? Z.of_nat (length arr) then undef "kfree: arr[256]"
      else
        modify (set_freelist 0) ;;
        rebuild (sort_blocks (arr ++ [b])) 0.

End Heap.
