(* ===== verification/VirtMem.v ===== *)
(** * Kernel memory behind the page tables

    A range of virtual addresses that is mapped page by page, writable, to pages
    that are not tables behaves like an ordinary byte memory: [holds] relates it
    to one, and loads and stores through the page tables act on that memory. *)

From S2P Require Import Prelude Lib Pmm PmmFacts PmmProps Vmm PageTables VmmFacts VmmProps.
From S2P Require Import TableFacts ForkFacts SpaceProps Heap.

Module VirtMem.
Import Lib Pmm PmmFacts PmmProps Vmm PageTables VmmFacts VmmProps TableFacts ForkFacts SpaceProps Heap.

(** ** Pages of virtual addresses *)

Lemma idx_div l va : idx l va = va / 2 ^ (12 + 9 * Z.of_nat l) mod 2 ^ 9.
Proof.
  unfold idx. change 0x1FF with (Z.ones 9). rewrite Z.land_ones by lia. by rewrite Z.shiftr_div_pow2 by lia.
Qed.

(** Within 2^48 bytes the four indices and the offset determine an address. *)
Lemma same_page_eq va va' :
  same_page va va' → va mod 4096 = va' mod 4096 → - 2 ^ 48 < va - va' < 2 ^ 48 → va = va'.
Proof.
  intros Hs Ho Hr.
  pose proof (Hs 0%nat ltac:(lia)) as H0. pose proof (Hs 1%nat ltac:(lia)) as H1.
  pose proof (Hs 2%nat ltac:(lia)) as H2. pose proof (Hs 3%nat ltac:(lia)) as H3.
  rewrite !idx_div in H0, H1, H2, H3.
  change (2 ^ (12 + 9 * Z.of_nat 0)) with 4096 in H0. change (2 ^ (12 + 9 * Z.of_nat 1)) with 2097152 in H1.
  change (2 ^ (12 + 9 * Z.of_nat 2)) with 1073741824 in H2. change (2 ^ (12 + 9 * Z.of_nat 3)) with 549755813888 in H3.
  change (2 ^ 9) with 512 in *. change (2 ^ 48) with 281474976710656 in Hr.
  Z.div_mod_to_equations. lia.
Qed.

(** Nearby addresses are in the same page when their page numbers agree. *)
Lemma same_page_div va va' : - 2 ^ 47 < va - va' < 2 ^ 47 → same_page va va' ↔ va' / 4096 = va / 4096.
Proof.
  intros Hr. split.
  - intros Hs. pose proof (Hs 0%nat ltac:(lia)) as H0. pose proof (Hs 1%nat ltac:(lia)) as H1.
    pose proof (Hs 2%nat ltac:(lia)) as H2. pose proof (Hs 3%nat ltac:(lia)) as H3.
    rewrite !idx_div in H0, H1, H2, H3.
    change (2 ^ (12 + 9 * Z.of_nat 0)) with 4096 in H0. change (2 ^ (12 + 9 * Z.of_nat 1)) with 2097152 in H1.
    change (2 ^ (12 + 9 * Z.of_nat 2)) with 1073741824 in H2. change (2 ^ (12 + 9 * Z.of_nat 3)) with 549755813888 in H3.
    change (2 ^ 9) with 512 in *. change (2 ^ 47) with 140737488355328 in Hr.
    Z.div_mod_to_equations. lia.
  - intros Hd k Hk. rewrite !idx_div, !Z.pow_add_r by lia. change (2 ^ 12) with 4096.
    rewrite <-!Z.div_div by lia. by rewrite Hd.
Qed.

Lemma same_page_sym va va' : same_page va va' → same_page va' va.
Proof. intros H k Hk. by rewrite (H k Hk). Qed.

(** ** Regions *)

Definition pfn (e : Z) : Z := Z.land e PTE_MASK / UIX_PAGE_SIZE.

Record region (s : vmm_st) (lo hi : Z) : Prop := Region {
  rg_page : ∀ va, lo ≤ va < hi → ∃ e, walk 3 (pm (vp s)) (cr3 s) va = Some (0%nat, e) ∧
    has e VMM_WRITE = true ∧ wtab 3 (pm (vp s)) (cr3 s) va = true ∧
    client_page (vp s) (pfn e) ∧ pfn e ∉ tset (vp s) (cr3 s);
  rg_inj : ∀ va va' e e', lo ≤ va < hi → lo ≤ va' < hi →
    walk 3 (pm (vp s)) (cr3 s) va = Some (0%nat, e) → walk 3 (pm (vp s)) (cr3 s) va' = Some (0%nat, e') →
    pfn e = pfn e' → same_page va va';
  rg_size : hi - lo < 2 ^ 48;
}.

(** The physical address of [va]. *)
Definition phys (s : vmm_st) (va : Z) : Z := default 0 (fst <$> mmu (pm (vp s)) (cr3 s) va).

(** The area [lo, lim): the part below [hi] is mapped and holds the bytes of [m],
    the rest is not mapped and can be. *)
Record holds (s : vmm_st) (lo hi lim : Z) (m : mem) : Prop := Holds {
  hd_wf : wf_vm s;
  hd_region : region s lo hi;
  hd_bytes : ∀ va, lo ≤ va < hi → ld8 (pm (vp s)) (phys s va) = ld8 m va;
  hd_rest : ∀ va, hi ≤ va < lim →
    walk 3 (pm (vp s)) (cr3 s) va = None ∧ wtab 3 (pm (vp s)) (cr3 s) va = true;
  hd_lim : hi ≤ lim;
  hd_size : lim - lo < 2 ^ 47;
}.

(** Page [q] lies behind the region. *)
Definition backs (s : vmm_st) (lo hi q : Z) : Prop :=
  ∃ va e, lo ≤ va < hi ∧ walk 3 (pm (vp s)) (cr3 s) va = Some (0%nat, e) ∧ pfn e = q.

(** Pages of other owners: handed out, not a table, not behind the region. *)
Definition foreign (s : vmm_st) (lo hi q : Z) : Prop :=
  client_page (vp s) q ∧ (q ∉ tset (vp s) (cr3 s)) ∧ ¬ backs s lo hi q.

(** What work on the region, which may grow from [hi] to [hi'], leaves alone:
    the pages of other owners, every translation there was, everything about
    addresses outside the pages that were added, and, unless it grows, the tables. *)
Record spared (lo : Z) (s : vmm_st) (hi : Z) (s' : vmm_st) (hi' : Z) : Prop := Spared {
  sp_cr3 : cr3 s' = cr3 s;
  sp_kcr3 : kernel_cr3 s' = kernel_cr3 s;
  sp_grow : hi ≤ hi';
  sp_same : ∀ va, (∀ a, hi ≤ a < hi' → ¬ same_page a va) →
    walk 3 (pm (vp s')) (cr3 s') va = walk 3 (pm (vp s)) (cr3 s) va;
  sp_wtab : ∀ va, wtab 3 (pm (vp s)) (cr3 s) va = true → wtab 3 (pm (vp s')) (cr3 s') va = true;
  sp_walk : ∀ va r, walk 3 (pm (vp s)) (cr3 s) va = Some r → walk 3 (pm (vp s')) (cr3 s') va = Some r;
  sp_foreign : ∀ q, foreign s lo hi q → foreign s' lo hi' q ∧ same_bytes (pm (vp s)) (pm (vp s')) q;
  sp_tset : hi' = hi → ∀ q, q ∈ tset (vp s) (cr3 s) → q ∈ tset (vp s') (cr3 s') ∧ same_bytes (pm (vp s)) (pm (vp s')) q;
}.

Lemma spared_refl lo s hi : spared lo s hi s hi.
Proof. by split; [..|lia| | | | |]. Qed.

Lemma spared_trans lo s hi s' hi' s'' hi'' :
  spared lo s hi s' hi' → spared lo s' hi' s'' hi'' → spared lo s hi s'' hi''.
Proof.
  intros H1 H2. split.
  - by rewrite (sp_cr3 _ _ _ _ _ H2), (sp_cr3 _ _ _ _ _ H1).
  - by rewrite (sp_kcr3 _ _ _ _ _ H2), (sp_kcr3 _ _ _ _ _ H1).
  - pose proof (sp_grow _ _ _ _ _ H1). pose proof (sp_grow _ _ _ _ _ H2). lia.
  - pose proof (sp_grow _ _ _ _ _ H1). pose proof (sp_grow _ _ _ _ _ H2). intros va Hva.
    rewrite (sp_same _ _ _ _ _ H2), (sp_same _ _ _ _ _ H1); [done|..]; intros a Ha; apply Hva; lia.
  - intros va Hwt. by apply H2, H1.
  - intros va r Hw. by apply H2, H1.
  - intros q Hq. apply (sp_foreign _ _ _ _ _ H1) in Hq as [Hq Hb].
    apply (sp_foreign _ _ _ _ _ H2) in Hq as [Hq Hb']. split; [done|]. intros a Ha. rewrite Hb' by done. by apply Hb.
  - pose proof (sp_grow _ _ _ _ _ H1). pose proof (sp_grow _ _ _ _ _ H2). intros E q Hq.
    destruct (sp_tset _ _ _ _ _ H1 ltac:(lia) q Hq) as [Hq' Hb]. destruct (sp_tset _ _ _ _ _ H2 ltac:(lia) q Hq') as [Hq'' Hb'].
    split; [done|]. intros a Ha. rewrite Hb' by done. by apply Hb.
Qed.

Lemma leaf_pa_0 e va : leaf_pa 0 e va = pfn e * UIX_PAGE_SIZE + va mod UIX_PAGE_SIZE.
Proof. done. Qed.

Section region.
Context (s : vmm_st) (lo hi : Z) (Hr : region s lo hi).

Lemma region_mmu va : lo ≤ va < hi →
  ∃ e, walk 3 (pm (vp s)) (cr3 s) va = Some (0%nat, e) ∧
    mmu (pm (vp s)) (cr3 s) va = Some (phys s va, true) ∧
    phys s va = pfn e * UIX_PAGE_SIZE + va mod UIX_PAGE_SIZE ∧
    client_page (vp s) (pfn e) ∧ pfn e ∉ tset (vp s) (cr3 s).
Proof using Hr.
  intros Hva. destruct (rg_page _ _ _ Hr va Hva) as (e & Hw & Hwr & Hwt & Hc & Ht). exists e.
  assert (mmu (pm (vp s)) (cr3 s) va = Some (leaf_pa 0 e va, true)) as Hm.
  { unfold mmu. rewrite Hw. change (Some (leaf_pa 0 e va, walk_writable 3 (pm (vp s)) (cr3 s) va) = Some (leaf_pa 0 e va, true)).
    by rewrite (walk_writable_leaf _ _ _ _ _ Hw), Hwt, Hwr. }
  assert (phys s va = leaf_pa 0 e va) as Hp by (unfold phys; by rewrite Hm).
  by rewrite Hm, Hp.
Qed.

Lemma phys_inj va va' : lo ≤ va < hi → lo ≤ va' < hi → phys s va = phys s va' → va = va'.
Proof using Hr.
  intros Hva Hva' E. destruct (region_mmu va Hva) as (e & Hw & _ & Hp & _).
  destruct (region_mmu va' Hva') as (e' & Hw' & _ & Hp' & _). rewrite Hp, Hp' in E.
  unfold UIX_PAGE_SIZE in E. pose proof (Z.mod_pos_bound va 4096). pose proof (Z.mod_pos_bound va' 4096).
  assert (pfn e = pfn e') as Hpf by lia. pose proof (rg_size _ _ _ Hr).
  apply same_page_eq; [by eapply rg_inj|lia|lia].
Qed.

Lemma vload8_region va : lo ≤ va < hi → vload8 va s = Ok (ld8 (pm (vp s)) (phys s va)) s.
Proof using Hr.
  intros Hva. destruct (region_mmu va Hva) as (e & _ & Hm & _). unfold vload8.
  by rewrite (bind_Ok_eq _ _ _ (Some (phys s va, true)) s) by (unfold gets; by rewrite Hm).
Qed.
End region.

(** The state after a byte is stored at [va]. *)
Definition put8 (va v : Z) (s : vmm_st) : vmm_st := set_vp (set_pm (st8 (phys s va) v (pm (vp s))) (vp s)) s.

Lemma put8_run s lo hi va v : region s lo hi → lo ≤ va < hi → vstore8 va v s = Ok tt (put8 va v s).
Proof.
  intros Hr Hva. destruct (region_mmu s lo hi Hr va Hva) as (e & _ & Hm & _). unfold vstore8.
  by rewrite (bind_Ok_eq _ _ _ (Some (phys s va, true)) s) by (unfold gets; by rewrite Hm).
Qed.

(** A step that writes no table keeps the region where it is. *)
Lemma region_step s lo hi X p' :
  wf_vm s → region s lo hi → step X (vp s) p' → (∀ q, q ∈ X → q ∉ tset (vp s) (cr3 s)) →
  wf_vm (set_vp p' s) ∧ region (set_vp p' s) lo hi ∧
  (∀ va, walk 3 (pm p') (cr3 s) va = walk 3 (pm (vp s)) (cr3 s) va) ∧
  (∀ va, wtab 3 (pm p') (cr3 s) va = wtab 3 (pm (vp s)) (cr3 s) va) ∧
  (∀ va, lo ≤ va < hi → phys (set_vp p' s) va = phys s va) ∧ tset p' (cr3 s) = tset (vp s) (cr3 s).
Proof.
  intros Hv Hr Hst HX.
  assert (∀ T, T ∈ tpages 3 (pm (vp s)) (cr3 s) → same_tbl (pm (vp s)) (pm p') T) as Hs.
  { intros T HT. eapply step_same_tbl; [exact Hst|apply Hv|by apply Hv|]. intros HX'. by apply (HX _ HX'), elem_of_tset. }
  destruct (wf_vm_step s X p' Hv Hst Hs) as (Hv' & Hw & Ht).
  assert (tset p' (cr3 s) = tset (vp s) (cr3 s)) as Hts by (unfold tset; by rewrite Ht).
  assert (∀ va, wtab 3 (pm p') (cr3 s) va = wtab 3 (pm (vp s)) (cr3 s) va) as Hwt by (intros va; by apply wtab_ext).
  assert (region (set_vp p' s) lo hi) as Hr'.
  { split; [| |apply Hr]; cbn [vp cr3 set_vp].
    - intros va Hva. destruct (rg_page _ _ _ Hr va Hva) as (e & Hwa & Hwr & Hwv & Hc & Hn). exists e.
      rewrite Hw, Hwt, Hts. split_and!; try done. by eapply step_client.
    - intros va va' e e'. rewrite !Hw. apply Hr. }
  split_and!; try done. intros va Hva.
  destruct (region_mmu _ _ _ Hr va Hva) as (e & Hwa & _ & Hp & _).
  destruct (region_mmu _ _ _ Hr' va Hva) as (e' & Hwa' & _ & Hp' & _).
  cbn [vp cr3 set_vp] in Hwa'. rewrite Hw, Hwa in Hwa'. injection Hwa' as <-. by rewrite Hp, Hp'.
Qed.

Lemma put8_step s lo hi va v :
  wf_vm s → region s lo hi → lo ≤ va < hi →
  ∃ q, q * UIX_PAGE_SIZE ≤ phys s va < (q + 1) * UIX_PAGE_SIZE ∧ backs s lo hi q ∧
    (q ∉ tset (vp s) (cr3 s)) ∧ step {[q]} (vp s) (vp (put8 va v s)).
Proof.
  intros Hv Hr Hva. destruct (region_mmu _ _ _ Hr va Hva) as (e & Hw & _ & Hp & Hc & Ht).
  exists (pfn e). unfold UIX_PAGE_SIZE in *. pose proof (Z.mod_pos_bound va 4096).
  split_and!; [lia|lia|by exists va, e|done|].
  apply step_write; [apply Hv|done|]. intros a Ha. apply ld8_st8_ne. unfold UIX_PAGE_SIZE in Ha. lia.
Qed.

Lemma put8_holds s lo hi lim m va v :
  holds s lo hi lim m → lo ≤ va < hi →
  holds (put8 va v s) lo hi lim (st8 va v m) ∧ spared lo s hi (put8 va v s) hi.
Proof.
  intros [Hv Hr Hb Hn Hl Hz] Hva. destruct (put8_step s lo hi va v Hv Hr Hva) as (q & Hq & Hbk & Hqt & Hst).
  destruct (region_step s lo hi {[q]} (vp (put8 va v s)) Hv Hr Hst) as (Hv' & Hr' & Hw & Hwt & Hp & Hts).
  { by intros q' ->%elem_of_singleton. }
  change (set_vp (vp (put8 va v s)) s) with (put8 va v s) in *. split; split; try done; try (by lia).
  - intros va' Hva'. rewrite Hp by done. cbn [put8 vp pm set_vp set_pm]. rewrite !ld8_st8.
    destruct (Z.eqb_spec va va') as [->|Hne]; [by rewrite Z.eqb_refl|].
    rewrite (proj2 (Z.eqb_neq _ _)); [by apply Hb|]. intros E. by apply Hne, (phys_inj s lo hi Hr).
  - intros va' Hva'. cbn [put8 cr3 set_vp]. rewrite Hw, Hwt. by apply Hn.
  - intros va'. cbn [put8 cr3 set_vp]. by rewrite Hwt.
  - intros va' r. cbn [put8 cr3 set_vp]. by rewrite Hw.
  - intros q' (Hc & Ht & Hnb). split; [split_and!|].
    + by eapply step_client.
    + change (q' ∉ tset (vp (put8 va v s)) (cr3 s)). by rewrite Hts.
    + intros (va' & e & ? & Hwe & ?). apply Hnb. exists va', e. cbn [put8 cr3 set_vp] in Hwe. by rewrite Hw in Hwe.
    + apply (st_mem _ _ _ Hst); [done|]. intros ->%elem_of_singleton. by apply Hnb.
  - intros _ q' Hq'. split; [by rewrite <-Hts in Hq'|]. apply tset_inv in Hq' as HT. destruct HT as (T & HT & ->).
    apply (st_mem _ _ _ Hst); [by apply (wt_page _ _ (wv_tree _ Hv))|]. by intros <-%elem_of_singleton.
Qed.

(** ** Accesses *)

Lemma vldn_holds n s lo hi lim m va :
  holds s lo hi lim m → lo ≤ va → va + Z.of_nat n ≤ hi → vldn n va s = Ok (ldn n m va) s.
Proof.
  intros Hh. revert va. induction n as [|n IH]; intros va H1 H2; [done|]. cbn [vldn ldn].
  rewrite (bind_Ok_eq _ _ _ _ _ (vload8_region s lo hi (hd_region _ _ _ _ _ Hh) va ltac:(lia))).
  rewrite (bind_Ok_eq _ _ _ _ _ (IH (va + 1) ltac:(lia) ltac:(lia))).
  by rewrite (hd_bytes _ _ _ _ _ Hh) by lia.
Qed.

(** The outcome of work on the region. *)
Definition worked (lo hi lim : Z) (s : vmm_st) (m' : mem) (s' : vmm_st) : Prop :=
  holds s' lo hi lim m' ∧ spared lo s hi s' hi.

Lemma vstn_holds n s lo hi lim m va v :
  holds s lo hi lim m → lo ≤ va → va + Z.of_nat n ≤ hi →
  ∃ s', vstn n va v s = Ok tt s' ∧ worked lo hi lim s (stn n va v m) s'.
Proof.
  intros Hh. revert s m va v Hh. induction n as [|n IH]; intros s m va v Hh H1 H2.
  - exists s. split; [done|]. split; [done|apply spared_refl].
  - cbn [vstn stn]. destruct (put8_holds s lo hi lim m va (wrap8 v) Hh ltac:(lia)) as [Hh1 Hs1].
    destruct (IH _ _ (va + 1) (v / 256) Hh1 ltac:(lia) ltac:(lia)) as (s' & He & Hh' & Hs').
    exists s'. split; [|split; [|by eapply spared_trans]].
    + rewrite (bind_Ok_eq _ _ _ _ _ (put8_run s lo hi va (wrap8 v) (hd_region _ _ _ _ _ Hh) ltac:(lia))). exact He.
    + cbn [stn] in *. unfold st8 in Hh' at 1. rewrite wrap8_idemp in Hh'. exact Hh'.
Qed.

(** ** Growing the region *)

Lemma pfn_map_entry i flags :
  0 ≤ i < 2 ^ 40 → Z.land flags PTE_MASK = 0 → pfn (map_entry (i * UIX_PAGE_SIZE) flags) = i.
Proof.
  intros Hi Hf. unfold pfn, map_entry. rewrite Z.land_lor_distr_l, Hf, Z.lor_0_r, !land_page_mask by done.
  by apply Z.div_mul.
Qed.

Lemma has_write_map_entry pa flags : has (map_entry pa flags) VMM_WRITE = has flags VMM_WRITE.
Proof.
  unfold has, map_entry. rewrite Z.land_lor_distr_l, <-Z.land_assoc.
  change (Z.land PTE_MASK VMM_WRITE) with 0. by rewrite Z.land_0_r.
Qed.

(** A step that writes nothing a client has. *)
Lemma holds_step0 s lo hi lim m p' :
  holds s lo hi lim m → step ∅ (vp s) p' → worked lo hi lim s m (set_vp p' s).
Proof.
  intros [Hv Hr Hb Hn Hl Hz] Hst.
  destruct (region_step s lo hi ∅ p' Hv Hr Hst) as (Hv' & Hr' & Hw & Hwt & Hp & Hts); [set_solver|].
  split; split; cbn [vp cr3 set_vp]; try done; try (by lia).
  - intros va Hva. rewrite Hp by done. rewrite <-(Hb va Hva).
    destruct (region_mmu _ _ _ Hr va Hva) as (e & _ & _ & -> & Hc & _).
    apply (st_mem _ _ _ Hst _ Hc); [set_solver|]. unfold UIX_PAGE_SIZE. pose proof (Z.mod_pos_bound va 4096). lia.
  - intros va Hva. rewrite Hw, Hwt. by apply Hn.
  - intros va. by rewrite Hwt.
  - intros va r. by rewrite Hw.
  - intros q (Hc & Ht & Hnb). split; [split_and!|].
    + by eapply step_client.
    + cbn [vp cr3 set_vp]. by rewrite Hts.
    + intros (va & e & ? & Hwe & ?). apply Hnb. exists va, e. cbn [vp cr3 set_vp] in Hwe. by rewrite Hw in Hwe.
    + apply (st_mem _ _ _ Hst); [done|set_solver].
  - intros _ q Hq. split; [by rewrite Hts|]. apply tset_inv in Hq as (T & HT & ->).
    apply (st_mem _ _ _ Hst); [by apply (wt_page _ _ (wv_tree _ Hv))|set_solver].
Qed.

(** Logging. *)
Lemma holds_out s lo hi lim m o : holds s lo hi lim m → worked lo hi lim s m (set_vp (set_out o (vp s)) s).
Proof. intros Hh. apply holds_step0; [done|]. split; try done. apply wf_out, (wv_pmm _ (hd_wf _ _ _ _ _ Hh)). Qed.

Section add_page.
Context (s s' : vmm_st) (lo hi lim : Z) (m : mem) (i flags : Z).
Context (Hh : holds s lo hi lim m) (Hm : mapped s s' hi (i * UIX_PAGE_SIZE) flags).
Context (Hal : hi mod UIX_PAGE_SIZE = 0) (Hlo : lo ≤ hi) (Hlim : hi + UIX_PAGE_SIZE ≤ lim).
Context (Hi : client_page (vp s) i) (Hit : i ∉ tset (vp s) (cr3 s)) (Hib : ¬ backs s lo hi i).
Context (Hfp : has flags VMM_PRESENT = true) (Hfw : has flags VMM_WRITE = true) (Hfm : Z.land flags PTE_MASK = 0).

Lemma add_tset q : client_page (vp s) q → q ∉ tset (vp s) (cr3 s) → q ∉ tset (vp s') (cr3 s').
Proof using Hm.
  intros Hc Ht (T & HT & ->)%tset_inv. rewrite (mp_cr3 _ _ _ _ _ Hm) in HT.
  destruct (mp_tables _ _ _ _ _ Hm T HT) as [?|?]; [by apply Ht, elem_of_tset|by apply (cp_used _ _ Hc)].
Qed.

Lemma add_walk va : lo ≤ va < lim →
  walk 3 (pm (vp s')) (cr3 s') va =
    if decide (hi ≤ va < hi + UIX_PAGE_SIZE) then Some (0%nat, map_entry (i * UIX_PAGE_SIZE) flags)
    else walk 3 (pm (vp s)) (cr3 s) va.
Proof using Hh Hm Hal Hlo Hlim Hfp.
  intros Hva. rewrite (mp_cr3 _ _ _ _ _ Hm), (mp_walk _ _ _ _ _ Hm), Hfp. pose proof (hd_size _ _ _ _ _ Hh) as Hz.
  unfold UIX_PAGE_SIZE in *.
  destruct (decide (same_page hi va)) as [Hs|Hs]; rewrite same_page_div in Hs by lia.
  - rewrite decide_True; [done|]. Z.div_mod_to_equations. lia.
  - rewrite decide_False; [done|]. Z.div_mod_to_equations. lia.
Qed.

Lemma add_pfn : pfn (map_entry (i * UIX_PAGE_SIZE) flags) = i.
Proof using Hh Hi Hfm.
  apply pfn_map_entry; [|done]. pose proof (cp_range _ _ Hi). pose proof (wv_width _ (hd_wf _ _ _ _ _ Hh)). lia.
Qed.

Lemma add_region : region s' lo (hi + UIX_PAGE_SIZE).
Proof using All.
  pose proof (hd_region _ _ _ _ _ Hh) as Hr. pose proof (hd_size _ _ _ _ _ Hh) as Hz. pose proof add_pfn as Hpf. split.
  - intros va Hva. rewrite add_walk by lia. case_decide as Hd.
    + eexists. rewrite has_write_map_entry, add_pfn. split_and!; [done|done| | |by apply add_tset].
      * rewrite (mp_cr3 _ _ _ _ _ Hm). apply Hm, (hd_rest _ _ _ _ _ Hh). unfold UIX_PAGE_SIZE in *. lia.
      * eapply step_client; [apply Hm|done].
    + destruct (rg_page _ _ _ Hr va) as (e & Hw & Hwr & Hwt & Hc & Ht); [unfold UIX_PAGE_SIZE in *; lia|].
      exists e. split_and!; [done|done| | |by apply add_tset].
      * rewrite (mp_cr3 _ _ _ _ _ Hm). by apply Hm.
      * eapply step_client; [apply Hm|done].
  - intros va va' e e' Hva Hva'. rewrite !add_walk by lia. do 2 case_decide.
    + intros _ _ _. apply same_page_div; [lia|]. unfold UIX_PAGE_SIZE in *. Z.div_mod_to_equations. lia.
    + intros [= <-] Hw E. destruct Hib. exists va', e'. split_and!; [unfold UIX_PAGE_SIZE in *; lia..|done|congruence].
    + intros Hw [= <-] E. destruct Hib. exists va, e. split_and!; [unfold UIX_PAGE_SIZE in *; lia..|done|congruence].
    + apply Hr; unfold UIX_PAGE_SIZE in *; lia.
  - lia.
Qed.

Lemma add_phys va : lo ≤ va < hi → phys s' va = phys s va.
Proof using All.
  intros Hva. destruct (region_mmu _ _ _ (hd_region _ _ _ _ _ Hh) va Hva) as (e & Hw & _ & -> & _).
  destruct (region_mmu _ _ _ add_region va) as (e' & Hw' & _ & -> & _); [unfold UIX_PAGE_SIZE; lia|].
  rewrite add_walk, decide_False, Hw in Hw' by (unfold UIX_PAGE_SIZE in *; lia). by injection Hw' as <-.
Qed.

Lemma add_holds : ∃ m', holds s' lo (hi + UIX_PAGE_SIZE) lim m' ∧ (∀ a, a < hi → ld8 m' a = ld8 m a) ∧
  (∀ j, 0 ≤ j < UIX_PAGE_SIZE → ld8 m' (hi + j) = ld8 (pm (vp s)) (i * UIX_PAGE_SIZE + j)).
Proof using All.
  exists (st_bytes hi (ld_bytes 4096 (pm (vp s')) (i * UIX_PAGE_SIZE)) m).
  assert (∀ a, a < hi → ld8 (st_bytes hi (ld_bytes 4096 (pm (vp s')) (i * UIX_PAGE_SIZE)) m) a = ld8 m a) as Hlow.
  { intros a Ha. rewrite ld8_st_bytes. by destruct (Z.leb_spec hi a); [lia|]. }
  split; [|split; [done|]]; cycle 1.
  { intros j Hj. rewrite <-(st_mem _ _ _ (mp_step _ _ _ _ _ Hm) i Hi Hit) by (unfold UIX_PAGE_SIZE in *; lia).
    rewrite ld8_st_bytes, length_ld_bytes. unfold UIX_PAGE_SIZE in *.
    rewrite (proj2 (Z.leb_le _ _)), (proj2 (Z.ltb_lt _ _)) by lia. cbn [andb].
    rewrite ld_bytes_lookup by lia. cbn [default from_option id]. rewrite wrap8_small by apply ld8_range. f_equal. lia. }
  split; [apply Hm|apply add_region| | |done|apply Hh].
  - intros va Hva. destruct (decide (va < hi)).
    + rewrite Hlow, <-(hd_bytes _ _ _ _ _ Hh) by lia. rewrite add_phys by lia.
      destruct (region_mmu _ _ _ (hd_region _ _ _ _ _ Hh) va ltac:(lia)) as (e & _ & _ & -> & Hc & Ht).
      apply (st_mem _ _ _ (mp_step _ _ _ _ _ Hm) _ Hc Ht). unfold UIX_PAGE_SIZE. pose proof (Z.mod_pos_bound va 4096). lia.
    + destruct (region_mmu _ _ _ add_region va) as (e & Hw & _ & -> & _); [done|].
      rewrite add_walk, decide_True in Hw by (unfold UIX_PAGE_SIZE in *; lia). injection Hw as <-. rewrite add_pfn.
      rewrite ld8_st_bytes, length_ld_bytes. unfold UIX_PAGE_SIZE in *.
      rewrite (proj2 (Z.leb_le _ _)), (proj2 (Z.ltb_lt _ _)) by lia. cbn [andb].
      rewrite ld_bytes_lookup by lia. cbn [default from_option id]. rewrite wrap8_small by apply ld8_range. f_equal.
      Z.div_mod_to_equations. lia.
  - intros va Hva. rewrite add_walk, decide_False by (unfold UIX_PAGE_SIZE in *; lia).
    rewrite (mp_cr3 _ _ _ _ _ Hm). destruct (hd_rest _ _ _ _ _ Hh va); [unfold UIX_PAGE_SIZE in *; lia|].
    split; [done|]. by apply Hm.
Qed.

Lemma add_spared q : foreign s lo hi q → q ≠ i →
  foreign s' lo (hi + UIX_PAGE_SIZE) q ∧ same_bytes (pm (vp s)) (pm (vp s')) q.
Proof using All.
  intros (Hc & Ht & Hnb) Hne. split; [split_and!|].
  - eapply step_client; [apply Hm|done].
  - by apply add_tset.
  - intros (va & e & Hva & Hw & Hp). rewrite add_walk in Hw by lia. case_decide as Hd.
    + injection Hw as <-. by rewrite add_pfn in Hp.
    + apply Hnb. exists va, e. split; [unfold UIX_PAGE_SIZE in *; lia|done].
  - by apply (st_mem _ _ _ (mp_step _ _ _ _ _ Hm)).
Qed.
End add_page.

Lemma walk_same_page lvl m tbl va va' : same_idx lvl 0 va va' → walk lvl m tbl va' = walk lvl m tbl va.
Proof.
  revert tbl. induction lvl as [|lvl IH]; intros tbl Hs; cbn [walk]; rewrite (Hs _ ltac:(split; [lia|reflexivity])); [done|].
  rewrite IH; [done|]. intros k Hk. apply Hs. lia.
Qed.

(** [vmm_map] does not touch the record of the kernel's space. *)
Definition keeps_kcr3 {A} (m : M vmm_st A) : Prop :=
  ∀ s, match m s with Ok _ s' | Stop _ s' => kernel_cr3 s' = kernel_cr3 s end.

Lemma keeps_bind {A B} (m : M vmm_st A) (k : A → M vmm_st B) :
  keeps_kcr3 m → (∀ a, keeps_kcr3 (k a)) → keeps_kcr3 (m ≫= k).
Proof.
  intros Hm Hk s. unfold mbind, M_bind. specialize (Hm s). destruct (m s) as [a s1|w s1]; [|done].
  specialize (Hk a s1). destruct (k a s1); congruence.
Qed.

Lemma keeps_liftp {A} (m : M pmm_st A) : keeps_kcr3 (liftp m).
Proof. intros s. unfold liftp, zoom. by destruct (m (vp s)). Qed.

Lemma keeps_gets {A} (f : vmm_st → A) : keeps_kcr3 (gets f).
Proof. by intros s. Qed.

Lemma keeps_ret {A} (a : A) : keeps_kcr3 (mret a).
Proof. by intros s. Qed.

Lemma keeps_panic {A} msg : keeps_kcr3 (panic msg : M vmm_st A).
Proof. by intros s. Qed.

Lemma keeps_vmm_map va pa flags : keeps_kcr3 (vmm_map va pa flags).
Proof.
  unfold vmm_map, table_for, pt_for, ensure_table, new_table, tload, tstore, p2v.
  repeat first [apply keeps_bind; [|intros ?] | case_match | apply keeps_liftp | apply keeps_gets | apply keeps_ret | apply keeps_panic].
Qed.

(** A page taken from the allocator belongs to nobody yet. *)
Lemma fresh_page s lo hi lim m i p' :
  holds s lo hi lim m → i ∈ free_set (vp s) → step ∅ (vp s) p' → client_page p' i →
  let s1 := set_vp p' s in
  worked lo hi lim s m s1 ∧ foreign s1 lo hi i ∧ ∀ q, client_page (vp s) q → q ≠ i.
Proof.
  intros Hh Hi Hst Hci s1.
  assert (∀ q, client_page (vp s) q → q ≠ i) as Hni by (intros q Hq ->; by apply (cp_used _ _ Hq)).
  split_and!; [by apply holds_step0| |done].
  destruct (region_step _ _ _ _ _ (hd_wf _ _ _ _ _ Hh) (hd_region _ _ _ _ _ Hh) Hst) as (_ & _ & Hw & _ & _ & Hts); [set_solver|].
  split_and!; [done| |].
  - change (i ∉ tset p' (cr3 s)). rewrite Hts. intros (T & HT & Hq)%tset_inv.
    apply (wt_page _ _ (wv_tree _ (hd_wf _ _ _ _ _ Hh))) in HT as [_ HT]. by apply (Hni _ HT).
  - intros (va & e & Hva & Hwe & Hp). change (walk 3 (pm p') (cr3 s) va = Some (0%nat, e)) in Hwe.
    rewrite Hw in Hwe. destruct (rg_page _ _ _ (hd_region _ _ _ _ _ Hh) va Hva) as (e' & Hwe' & _ & _ & Hc & _).
    rewrite Hwe in Hwe'. injection Hwe' as <-. by apply (Hni _ Hc).
Qed.

(** The region after the fresh page [i] is mapped at its end. *)
Lemma grown_region s s' lo hi lim m i p' flags :
  holds s lo hi lim m → i ∈ free_set (vp s) → step ∅ (vp s) p' → client_page p' i →
  mapped (set_vp p' s) s' hi (i * UIX_PAGE_SIZE) flags →
  kernel_cr3 s' = kernel_cr3 s → hi mod UIX_PAGE_SIZE = 0 → lo ≤ hi → hi + UIX_PAGE_SIZE ≤ lim →
  has flags VMM_PRESENT = true → has flags VMM_WRITE = true → Z.land flags PTE_MASK = 0 →
  spared lo s hi s' (hi + UIX_PAGE_SIZE) ∧
  ∃ m', holds s' lo (hi + UIX_PAGE_SIZE) lim m' ∧ (∀ a, a < hi → ld8 m' a = ld8 m a) ∧
    (∀ j, 0 ≤ j < UIX_PAGE_SIZE → ld8 m' (hi + j) = ld8 (pm p') (i * UIX_PAGE_SIZE + j)).
Proof.
  intros Hh Hi Hst Hci' Hm Hk Hpg Hlow Hlim Hp Hw Hz.
  destruct (fresh_page _ _ _ _ _ _ _ Hh Hi Hst Hci') as ([Hh1 Hsp1] & (Hci & Hnt & Hnb) & Hni).
  set (v1 := set_vp p' s) in *. split; [|by eapply (add_holds v1)].
  split; [by rewrite (mp_cr3 _ _ _ _ _ Hm)|exact Hk|unfold UIX_PAGE_SIZE; lia|..].
  - intros va Hva. rewrite (mp_cr3 _ _ _ _ _ Hm), (mp_walk _ _ _ _ _ Hm), decide_False by (apply Hva; unfold UIX_PAGE_SIZE; lia).
    apply (sp_same _ _ _ _ _ Hsp1). lia.
  - intros va Hwt. rewrite (mp_cr3 _ _ _ _ _ Hm). apply Hm. by apply (sp_wtab _ _ _ _ _ Hsp1).
  - intros va r Hwa. apply (sp_walk _ _ _ _ _ Hsp1) in Hwa. rewrite (mp_cr3 _ _ _ _ _ Hm), (mp_walk _ _ _ _ _ Hm).
    rewrite decide_False; [done|]. intros Hsame. rewrite (walk_same_page _ _ _ _ _ Hsame) in Hwa.
    rewrite (proj1 (hd_rest _ _ _ _ _ Hh1 hi ltac:(unfold UIX_PAGE_SIZE in *; lia))) in Hwa. done.
  - intros q Hq. assert (q ≠ i) as Hne by (apply Hni, Hq). destruct (sp_foreign _ _ _ _ _ Hsp1 q Hq) as [Hq1 Hb1].
    destruct (add_spared v1 s' lo hi lim m i flags Hh1 Hm Hpg Hlow Hlim Hci Hnt Hnb Hp Hw Hz q Hq1 Hne) as [Hq2 Hb2].
    split; [done|]. intros a Ha. rewrite Hb2 by done. by apply Hb1.
  - unfold UIX_PAGE_SIZE. lia.
Qed.

(** ** A buffer in one page *)

Lemma wtab_same_page lvl m tbl va va' : same_idx lvl 0 va va' → wtab lvl m tbl va' = wtab lvl m tbl va.
Proof.
  revert tbl. induction lvl as [|lvl IH]; intros tbl Hs; [done|]. cbn [wtab]. rewrite (Hs (S lvl)) by lia.
  destruct (next_tbl _ _); [|done]. f_equal. apply IH. intros k Hk. apply Hs. lia.
Qed.

Lemma holds_page s va n e :
  wf_vm s → walk 3 (pm (vp s)) (cr3 s) va = Some (0%nat, e) → has e VMM_WRITE = true →
  wtab 3 (pm (vp s)) (cr3 s) va = true → client_page (vp s) (pfn e) → pfn e ∉ tset (vp s) (cr3 s) →
  va mod 4096 + Z.of_nat n ≤ 4096 →
  holds s va (va + Z.of_nat n) (va + Z.of_nat n) (st_bytes va (ld_bytes n (pm (vp s)) (leaf_pa 0 e va)) ∅).
Proof.
  intros Hv Hw Hwr Hwt Hc Ht Hn.
  assert (∀ va', va ≤ va' < va + Z.of_nat n → same_page va va') as Hsame.
  { intros va' Hva'. pose proof (Z.mod_pos_bound va 4096). apply same_page_div; [lia|]. Z.div_mod_to_equations. lia. }
  assert (region s va (va + Z.of_nat n)) as Hr.
  { split; [| |pose proof (Z.mod_pos_bound va 4096); lia].
    - intros va' Hva'. exists e. rewrite (walk_same_page _ _ _ _ _ (Hsame va' Hva')), (wtab_same_page _ _ _ _ _ (Hsame va' Hva')). done.
    - intros va1 va2 e1 e2 H1 H2 _ _ _ k Hk. by rewrite (Hsame va1 H1 k Hk), (Hsame va2 H2 k Hk). }
  split; [done|done| |intros; lia|lia|pose proof (Z.mod_pos_bound va 4096); lia].
  intros va' Hva'. destruct (region_mmu _ _ _ Hr va' Hva') as (e' & Hw' & _ & -> & _).
  rewrite (walk_same_page _ _ _ _ _ (Hsame va' Hva')), Hw in Hw'. injection Hw' as <-.
  rewrite ld8_st_bytes, length_ld_bytes, (proj2 (Z.leb_le _ _)), (proj2 (Z.ltb_lt _ _)) by lia. cbn [andb].
  rewrite ld_bytes_lookup by lia. cbn [default from_option id]. rewrite wrap8_small by apply ld8_range.
  rewrite leaf_pa_0. f_equal. unfold UIX_PAGE_SIZE. Z.div_mod_to_equations. lia.
Qed.

End VirtMem.
