(* ===== verification/HeapFacts.v ===== *)
(** * Heap blocks

    The heap as a tiling of the mapped area by blocks, the free list through
    their headers, and the effect of the heap's accesses on both. *)

From stdpp Require Import sorting.
From S2P Require Import Prelude Lib Pmm PmmFacts Vmm PageTables VmmFacts VmmProps SpaceProps Heap VirtMem.

Module HeapFacts.
Import Lib Pmm PmmFacts Vmm PageTables VmmFacts VmmProps SpaceProps Heap VirtMem.

(** The kernel image starts here ([linker.ld]); the heap has to end below. *)
Definition HEAP_VA_END : Z := 0xffffffff80000000.

(** ** Accesses on a heap state *)

(** Seen from [s0], the state [s] has memory [m], free list head [fl] and break [brk]. *)
Record sat (s0 : heap_st) (m : mem) (fl brk : Z) (s : heap_st) : Prop := Sat {
  sa_holds : holds (hvm s) HEAP_VA_BASE brk HEAP_VA_END m;
  sa_spared : spared HEAP_VA_BASE (hvm s0) (heap_brk s0) (hvm s) brk;
  sa_fl : freelist s = fl;
  sa_brk : heap_brk s = brk;
  sa_low : HEAP_VA_BASE ≤ brk;
  sa_page : brk mod UIX_PAGE_SIZE = 0;
}.

Lemma sat_lim s0 m fl brk s : sat s0 m fl brk s → brk ≤ HEAP_VA_END.
Proof. intros H. apply H. Qed.

Lemma addw_heap a k : HEAP_VA_BASE ≤ a → a + k ≤ HEAP_VA_END → 0 ≤ k → a +w k = a + k.
Proof. unfold HEAP_VA_BASE, HEAP_VA_END. intros. apply wrap64_small. lia. Qed.

Section accesses.
Context (s0 : heap_st) (m : mem) (fl brk : Z) (s : heap_st) (Hs : sat s0 m fl brk s).

Lemma load_run n a : HEAP_VA_BASE ≤ a → a + Z.of_nat n ≤ brk → liftv (vldn n a) s = Ok (ldn n m a) s.
Proof using Hs.
  intros. unfold liftv, zoom. rewrite (vldn_holds n _ _ _ _ _ a (sa_holds _ _ _ _ _ Hs)) by done. by destruct s.
Qed.

Lemma store_run n a v F : HEAP_VA_BASE ≤ a → a + Z.of_nat n ≤ brk →
  runs (liftv (vstn n a v)) s (λ _, sat s0 (stn n a v m) fl brk) F.
Proof using Hs.
  intros Ha Hb. destruct (vstn_holds n _ _ _ _ _ a v (sa_holds _ _ _ _ _ Hs) Ha Hb) as (v' & He & Hh & Hsp).
  unfold runs, liftv, zoom. rewrite He. destruct Hs. split; try done. by eapply spared_trans.
Qed.
End accesses.

(** ** Headers *)

Record header := Header { h_size : Z; h_magic : Z; h_next : Z }.

Definition hdr (m : mem) (a : Z) : header := Header (ld32 m a) (ld32 m (a + 4)) (ld64 m (a + 8)).

Definition with_size (v : Z) (h : header) : header := Header v (h_magic h) (h_next h).
Definition with_magic (v : Z) (h : header) : header := Header (h_size h) v (h_next h).
Definition with_next (v : Z) (h : header) : header := Header (h_size h) (h_magic h) v.

(** Two headers that do not overlap. *)
Definition apart (a b : Z) : Prop := a + HDR_SIZE ≤ b ∨ b + HDR_SIZE ≤ a.

(** [m'] is [m] with the header at [a] replaced by [h]. *)
Record wrote (a : Z) (h : header) (m m' : mem) : Prop := Wrote {
  wr_here : hdr m' a = h;
  wr_out : ∀ c, c < a ∨ a + HDR_SIZE ≤ c → ld8 m' c = ld8 m c;
}.

Lemma hdr_ext m m' a : (∀ c, a ≤ c < a + HDR_SIZE → ld8 m' c = ld8 m c) → hdr m' a = hdr m a.
Proof. unfold HDR_SIZE. intros H. unfold hdr. f_equal; apply ldn_ext; intros; apply H; lia. Qed.

Lemma wr_apart a h m m' b : wrote a h m m' → apart a b → hdr m' b = hdr m b.
Proof. unfold apart. intros H Hab. apply hdr_ext. intros c Hc. apply H. lia. Qed.

Lemma wrote_trans a h h' m m' m'' : wrote a h m m' → wrote a h' m' m'' → wrote a h' m m''.
Proof. intros H1 H2. split; [apply H2|]. intros c Hc. rewrite (wr_out _ _ _ _ H2) by done. by apply H1. Qed.

Section header_access.
Context (s0 : heap_st) (m : mem) (fl brk : Z) (s : heap_st) (Hs : sat s0 m fl brk s).
Context (a : Z) (Ha : HEAP_VA_BASE ≤ a) (Hb : a + HDR_SIZE ≤ brk).

Lemma get_size_run : get_size a s = Ok (h_size (hdr m a)) s.
Proof using All. apply (load_run s0 m fl brk); [done|done|]. unfold HDR_SIZE in *. lia. Qed.

Lemma get_magic_run : get_magic a s = Ok (h_magic (hdr m a)) s.
Proof using All.
  pose proof (sat_lim _ _ _ _ _ Hs). unfold HDR_SIZE in *. unfold get_magic. rewrite addw_heap by lia.
  apply (load_run s0 m fl brk); [done|lia..].
Qed.

Lemma get_next_run : get_next a s = Ok (h_next (hdr m a)) s.
Proof using All.
  pose proof (sat_lim _ _ _ _ _ Hs). unfold HDR_SIZE in *. unfold get_next. rewrite addw_heap by lia.
  apply (load_run s0 m fl brk); [done|lia..].
Qed.

Definition stored (h : header) (s' : heap_st) : Prop := ∃ m', wrote a h m m' ∧ sat s0 m' fl brk s'.

Lemma set_size_run v F : 0 ≤ v < 2 ^ 32 → runs (set_size a v) s (λ _, stored (with_size v (hdr m a))) F.
Proof using All.
  intros Hv. unfold HDR_SIZE in *. eapply runs_mono; [apply store_run; [exact Hs|done|lia]| |by intros ? H; exact H].
  intros [] s' H. eexists. split; [|exact H]. split.
  - unfold hdr, with_size. cbn [h_size h_magic h_next]. f_equal; [rewrite ldn_stn_eq; by apply Z.mod_small|apply ldn_stn_ne; lia..].
  - intros c Hc. apply ld8_stn_out. unfold HDR_SIZE in *. lia.
Qed.

Lemma set_magic_run v F : 0 ≤ v < 2 ^ 32 → runs (set_magic a v) s (λ _, stored (with_magic v (hdr m a))) F.
Proof using All.
  intros Hv. pose proof (sat_lim _ _ _ _ _ Hs). unfold HDR_SIZE in *. unfold set_magic. rewrite addw_heap by lia.
  eapply runs_mono; [apply store_run; [exact Hs|lia|lia]| |by intros ? H'; exact H'].
  intros [] s' H'. eexists. split; [|exact H']. split.
  - unfold hdr, with_magic. cbn [h_size h_magic h_next]. f_equal; [|rewrite ldn_stn_eq; by apply Z.mod_small|]; apply ldn_stn_ne; lia.
  - intros c Hc. apply ld8_stn_out. unfold HDR_SIZE in *. lia.
Qed.

Lemma set_next_run v F : 0 ≤ v < 2 ^ 64 → runs (set_next a v) s (λ _, stored (with_next v (hdr m a))) F.
Proof using All.
  intros Hv. pose proof (sat_lim _ _ _ _ _ Hs). unfold HDR_SIZE in *. unfold set_next. rewrite addw_heap by lia.
  eapply runs_mono; [apply store_run; [exact Hs|lia|lia]| |by intros ? H'; exact H'].
  intros [] s' H'. eexists. split; [|exact H']. split.
  - unfold hdr, with_next. cbn [h_size h_magic h_next]. f_equal; [apply ldn_stn_ne; lia..|rewrite ldn_stn_eq; by apply Z.mod_small].
  - intros c Hc. apply ld8_stn_out. unfold HDR_SIZE in *. lia.
Qed.
End header_access.

Lemma set_freelist_sat s0 m fl brk s v : sat s0 m fl brk s → sat s0 m v brk (set_freelist v s).
Proof. intros []. by split. Qed.

(** ** Tilings *)

Record block := Blk { b_addr : Z; b_size : Z; b_used : bool }.

Global Instance block_eq_dec : EqDecision block.
Proof. solve_decision. Defined.

Definition b_end (c : block) : Z := b_addr c + b_size c.

(** The blocks cover [lo, hi) one after the other, each with some payload. *)
Fixpoint tiles (lo : Z) (bs : list block) (hi : Z) : Prop :=
  match bs with
  | [] => lo = hi
  | c :: bs => b_addr c = lo ∧ HDR_SIZE < b_size c ∧ tiles (b_end c) bs hi
  end.

Definition free_addrs (bs : list block) : list Z := b_addr <$> filter (λ c, b_used c = false) bs.
Definition used_blocks (bs : list block) : list block := filter (λ c, b_used c = true) bs.

Lemma tiles_app lo l1 l2 hi : tiles lo (l1 ++ l2) hi ↔ ∃ mid, tiles lo l1 mid ∧ tiles mid l2 hi.
Proof.
  revert lo. induction l1 as [|c l1 IH]; intros lo; cbn [tiles app].
  - split; [by exists lo|]. by intros (? & -> & ?).
  - rewrite IH. split; [intros (? & ? & mid & ? & ?); by exists mid|intros (mid & (? & ? & ?) & ?); eauto 6].
Qed.

Lemma tiles_bounds lo bs hi :
  tiles lo bs hi → lo ≤ hi ∧ ∀ c, c ∈ bs → lo ≤ b_addr c ∧ b_end c ≤ hi ∧ HDR_SIZE < b_size c.
Proof.
  revert lo. induction bs as [|c bs IH]; intros lo; cbn [tiles].
  - intros ->. split; [lia|]. by intros c ?%not_elem_of_nil.
  - intros (<- & Hz & Ht). destruct (IH _ Ht) as [Hl Hc]. unfold b_end, HDR_SIZE in *. split; [lia|].
    intros d [->|Hd]%elem_of_cons; [lia|]. specialize (Hc d Hd). lia.
Qed.

(** The block in the middle, and what is on either side. *)
Lemma tiles_split lo l c r hi :
  tiles lo (l ++ c :: r) hi →
  lo ≤ b_addr c ∧ b_end c ≤ hi ∧ HDR_SIZE < b_size c ∧
  (∀ d, d ∈ l → b_end d ≤ b_addr c ∧ HDR_SIZE < b_size d) ∧
  (∀ d, d ∈ r → b_end c ≤ b_addr d ∧ HDR_SIZE < b_size d).
Proof.
  rewrite tiles_app. intros (mid & Hl & <- & Hz & Hr).
  destruct (tiles_bounds _ _ _ Hl) as [? Hl'], (tiles_bounds _ _ _ Hr) as [? Hr'].
  split_and!; [done|done|done|intros d Hd; by apply Hl'|]. intros d Hd. split; by apply Hr'.
Qed.

Lemma tiles_apart lo bs hi c d :
  tiles lo bs hi → c ∈ bs → d ∈ bs → c = d ∨ apart (b_addr c) (b_addr d).
Proof.
  intros Ht (l & r & ->)%list_elem_of_split Hd. destruct (tiles_split _ _ _ _ _ Ht) as (_ & _ & Hz & Hl & Hr).
  unfold apart, b_end in *. apply elem_of_app in Hd as [Hd|[->|Hd]%elem_of_cons]; [|by left|];
    [specialize (Hl d Hd)|specialize (Hr d Hd)]; lia.
Qed.

Lemma tiles_length lo bs hi : tiles lo bs hi → HDR_SIZE * Z.of_nat (length bs) ≤ hi - lo.
Proof.
  revert lo. induction bs as [|c bs IH]; intros lo; cbn [tiles length]; [lia|].
  intros (<- & Hz & Ht). specialize (IH _ Ht). unfold b_end in *. lia.
Qed.

Lemma elem_of_free_addrs bs a : a ∈ free_addrs bs ↔ ∃ c, c ∈ bs ∧ b_used c = false ∧ b_addr c = a.
Proof.
  unfold free_addrs. rewrite list_elem_of_fmap. split.
  - intros (c & -> & [? ?]%list_elem_of_filter). by exists c.
  - intros (c & ? & ? & <-). exists c. split; [done|]. by apply list_elem_of_filter.
Qed.

Lemma free_addrs_app l1 l2 : free_addrs (l1 ++ l2) = free_addrs l1 ++ free_addrs l2.
Proof. unfold free_addrs. by rewrite filter_app, fmap_app. Qed.

(** The free addresses ascend. *)
Lemma free_addrs_sorted lo bs hi : tiles lo bs hi → StronglySorted Z.lt (free_addrs bs).
Proof.
  revert lo. induction bs as [|c bs IH]; intros lo; [constructor|]. cbn [tiles]. intros (<- & Hz & Ht).
  unfold free_addrs. rewrite filter_cons. case_decide; [|by eapply IH]. cbn [fmap list_fmap].
  constructor; [by eapply IH|]. apply Forall_forall. intros a (d & Hd & _ & <-)%elem_of_free_addrs.
  apply tiles_bounds in Ht as [_ Ht]. specialize (Ht d Hd). unfold b_end, HDR_SIZE in *. lia.
Qed.

Lemma free_addrs_NoDup lo bs hi : tiles lo bs hi → NoDup (free_addrs bs).
Proof.
  intros H%free_addrs_sorted. induction H as [|a l _ IH Hl]; constructor; [|done].
  intros Ha. rewrite Forall_forall in Hl. specialize (Hl a Ha). lia.
Qed.

(** ** The free list *)

(** From [h], the links run through [l] and end at [x]. *)
Fixpoint lseg (m : mem) (h : Z) (l : list Z) (x : Z) : Prop :=
  match l with
  | [] => h = x
  | a :: l => h = a ∧ lseg m (h_next (hdr m a)) l x
  end.

Lemma lseg_app m h l1 l2 x : lseg m h (l1 ++ l2) x ↔ ∃ y, lseg m h l1 y ∧ lseg m y l2 x.
Proof.
  revert h. induction l1 as [|a l1 IH]; intros h; cbn [lseg app].
  - split; [by exists h|]. by intros (? & -> & ?).
  - rewrite IH. split; [intros (? & y & ? & ?); by exists y|intros (y & (? & ?) & ?); eauto].
Qed.

Lemma lseg_ext m m' h l x :
  (∀ a, a ∈ l → hdr m' a = hdr m a) → lseg m h l x → lseg m' h l x.
Proof.
  revert h. induction l as [|a l IH]; intros h He; [done|]. cbn [lseg]. intros [? Hl]. split; [done|].
  rewrite He by apply list_elem_of_here. apply IH; [|done]. intros b Hb. apply He. by apply list_elem_of_further.
Qed.

(** The link that leads out of [l]: the last element's, or the list's head. *)
Lemma lseg_relink m m' h l x y :
  lseg m h l x → (∀ a, a ∈ l → last l ≠ Some a → hdr m' a = hdr m a) → NoDup l →
  (∀ p, last l = Some p → h_next (hdr m' p) = y) →
  lseg m' (if last l is Some _ then h else y) l y.
Proof.
  revert h. induction l as [|a l IH]; intros h; [done|]. cbn [lseg]. intros [-> Hl] He [Ha Hn]%NoDup_cons Hp.
  destruct l as [|b l].
  - cbn. split; [done|]. by apply Hp.
  - change (last (a :: b :: l)) with (last (b :: l)) in *.
    assert (∃ p, last (b :: l) = Some p) as [p Hlast] by (destruct (last (b :: l)) eqn:E; [eauto|by apply last_None in E]).
    rewrite Hlast in *. split; [done|].
    rewrite He; [|apply list_elem_of_here|].
    + specialize (IH _ Hl). apply IH; [|done|done].
      intros c Hc. apply He. by apply list_elem_of_further.
    + intros [= <-]. apply Ha, last_Some_elem_of, Hlast.
Qed.

(** ** Heaps *)

Definition magic_of (used : bool) : Z := if used then BMAGIC_USED else BMAGIC_FREE.

Definition hdr_ok (m : mem) (c : block) : Prop :=
  h_size (hdr m (b_addr c)) = b_size c ∧ h_magic (hdr m (b_addr c)) = magic_of (b_used c).

Record heap_at (s0 : heap_st) (m : mem) (bs : list block) (fl : list Z) (s : heap_st) : Prop := HeapAt {
  hp_sat : sat s0 m (freelist s) (heap_brk s) s;
  hp_tiles : tiles HEAP_VA_BASE bs (heap_brk s);
  hp_hdr : Forall (hdr_ok m) bs;
  hp_list : lseg m (freelist s) fl 0;
  hp_free : fl ≡ₚ free_addrs bs;
}.

(** The contents of the used blocks are the same. *)
Definition payload_kept (bs : list block) (m m' : mem) : Prop :=
  ∀ c a, c ∈ bs → b_used c = true → b_addr c + HDR_SIZE ≤ a < b_end c → ld8 m' a = ld8 m a.

Lemma payload_refl bs m : payload_kept bs m m.
Proof. done. Qed.

Lemma payload_trans bs bs' m m' m'' :
  payload_kept bs m m' → payload_kept bs' m' m'' → used_blocks bs ⊆ used_blocks bs' → payload_kept bs m m''.
Proof.
  intros H1 H2 Hu c a Hc Huc Ha. rewrite (H2 c a); [by apply (H1 c)| |done|done].
  assert (c ∈ used_blocks bs) as Hc' by by apply list_elem_of_filter.
  apply Hu in Hc'. by apply list_elem_of_filter in Hc' as [_ ?].
Qed.

Section write.
Context (m m' : mem) (a : Z) (h : header) (Hw : wrote a h m m').

(** A header written inside the free block [c] concerns no other block. *)
Lemma write_inside lo l c r hi :
  tiles lo (l ++ c :: r) hi → b_addr c ≤ a → a + HDR_SIZE ≤ b_end c →
  (∀ d, d ∈ l ++ r → hdr m' (b_addr d) = hdr m (b_addr d)) ∧
  (b_used c = false ∨ a = b_addr c → payload_kept (l ++ c :: r) m m').
Proof using Hw.
  intros Ht H1 H2. destruct (tiles_split _ _ _ _ _ Ht) as (_ & _ & Hz & Hl & Hr). unfold b_end in *. split.
  - intros d Hd. apply (wr_apart _ _ _ _ _ Hw). unfold apart.
    apply elem_of_app in Hd as [Hd|Hd]; [specialize (Hl d Hd)|specialize (Hr d Hd)]; lia.
  - intros Hc d x Hd Hu Hx. apply (wr_out _ _ _ _ Hw). unfold b_end in *. unfold HDR_SIZE in *.
    apply elem_of_app in Hd as [Hd|[->|Hd]%elem_of_cons]; [specialize (Hl d Hd); lia| |specialize (Hr d Hd); lia].
    destruct Hc; [congruence|lia].
Qed.

(** A new link in the header of a block. *)
Lemma write_link lo bs hi c :
  tiles lo bs hi → Forall (hdr_ok m) bs → c ∈ bs → b_addr c = a → (∃ v, h = with_next v (hdr m a)) →
  Forall (hdr_ok m') bs ∧ payload_kept bs m m' ∧ (∀ d, d ∈ bs → b_addr d ≠ a → hdr m' (b_addr d) = hdr m (b_addr d)).
Proof using Hw.
  intros Ht Hf Hc Hca [v Hv]. pose proof Hc as (l & r & E)%list_elem_of_split. rewrite E in Ht.
  destruct (tiles_split _ _ _ _ _ Ht) as (_ & _ & Hz & _ & _). unfold b_end in *.
  destruct (write_inside _ _ _ _ _ Ht) as [Ho Hp]; [unfold b_end; lia..|]. rewrite <-E in Ht, Hp.
  assert (∀ d, d ∈ bs → b_addr d ≠ a → hdr m' (b_addr d) = hdr m (b_addr d)) as Hd.
  { intros d Hd Hne. apply Ho. rewrite E in Hd. set_solver. }
  split_and!; [|by apply Hp; right|done].
  rewrite Forall_forall in *. intros d Hd'. destruct (decide (b_addr d = a)) as [Ea|Ea].
  - unfold hdr_ok. rewrite Ea, (wr_here _ _ _ _ Hw), Hv. cbn. rewrite <-Ea. by apply Hf.
  - unfold hdr_ok. rewrite Hd by done. by apply Hf.
Qed.
End write.

End HeapFacts.
