(* ===== verification/HeapAlloc.v ===== *)
(** * Allocation from the heap

    The search of the free list, the split of a block and the growth of the
    heap, on heaps described by their blocks. *)

From S2P Require Import Prelude Lib Pmm PmmFacts Vmm PageTables VmmFacts VmmProps SpaceProps Heap VirtMem HeapFacts.

Module HeapAlloc.
Import Lib Pmm PmmFacts Vmm PageTables VmmFacts VmmProps SpaceProps Heap VirtMem HeapFacts.

(** Headers of the tiling [bs] up to [brk]. *)
Definition shaped (m : mem) (bs : list block) (brk : Z) : Prop :=
  tiles HEAP_VA_BASE bs brk ∧ Forall (hdr_ok m) bs.

Section blocks.
Context (s0 : heap_st) (brk : Z).

Lemma block_sizes m bs h s c :
  sat s0 m h brk s → shaped m bs brk → c ∈ bs →
  HEAP_VA_BASE ≤ b_addr c ∧ b_addr c + HDR_SIZE ≤ brk ∧ b_end c ≤ brk ∧ brk ≤ HEAP_VA_END ∧
  HDR_SIZE < b_size c < 2 ^ 32 ∧ b_addr c < 2 ^ 64.
Proof.
  intros Hs [Ht _] Hc. pose proof (sat_lim _ _ _ _ _ Hs). apply tiles_bounds in Ht as [_ Ht].
  specialize (Ht c Hc). unfold b_end, HEAP_VA_BASE, HEAP_VA_END, HDR_SIZE in *. lia.
Qed.

(** Links to the element after [pre] in the free list. *)
Record relinked (m : mem) (bs : list block) (pre : list Z) (v : Z) (s' : heap_st) (m' : mem) (h' : Z) : Prop := Relinked {
  rl_sat : sat s0 m' h' brk s';
  rl_hdr : Forall (hdr_ok m') bs;
  rl_kept : payload_kept bs m m';
  rl_list : lseg m' h' pre v;
  rl_rest : ∀ d, d ∈ bs → b_addr d ∉ pre → hdr m' (b_addr d) = hdr m (b_addr d);
}.

Lemma link_run m bs h pre x v s F :
  sat s0 m h brk s → shaped m bs brk → lseg m h pre x → NoDup pre →
  (∀ p, p ∈ pre → ∃ c, c ∈ bs ∧ b_addr c = p) → 0 ≤ v < 2 ^ 64 →
  runs (set_link (last pre) v) s (λ _ s', ∃ m' h', relinked m bs pre v s' m' h') F.
Proof.
  intros Hs Hsh Hl Hn Hp Hv. destruct (last pre) as [p|] eqn:E; cbn [set_link].
  - assert (p ∈ pre) as Hpp by by apply last_Some_elem_of. destruct (Hp p Hpp) as (c & Hc & Hcp).
    destruct (block_sizes _ _ _ _ _ Hs Hsh Hc) as (? & ? & _). rewrite Hcp in *.
    eapply runs_mono; [apply (set_next_run s0 m h brk s Hs p); done| |by intros ? H'; exact H'].
    intros [] s' (m' & Hw & Hs'). exists m', h.
    destruct (write_link m m' p _ Hw _ _ _ c (proj1 Hsh) (proj2 Hsh) Hc Hcp) as (Hf & Hk & Ho); [eauto|].
    split; try done.
    + pose proof (lseg_relink m m' h pre x v Hl) as Hr. rewrite E in Hr. apply Hr; [|done|].
      * intros a Ha Hne. destruct (Hp a Ha) as (d & Hd & <-). apply Ho; [done|]. congruence.
      * intros p' [= <-]. by rewrite (wr_here _ _ _ _ Hw).
    + intros d Hd Hnot. apply Ho; [done|]. intros Ed. by rewrite Ed in Hnot.
  - apply last_None in E as ->. eapply runs_ret; [done|]. exists m, v.
    split; try done; [by eapply set_freelist_sat|apply Hsh].
Qed.

(** The header of the block [b] rewritten. *)
Lemma mark_block m m' l b z r u0 u nx :
  shaped m (l ++ Blk b z u0 :: r) brk → wrote b (Header z (magic_of u) nx) m m' →
  shaped m' (l ++ Blk b z u :: r) brk ∧ payload_kept (l ++ Blk b z u0 :: r) m m' ∧
  ∀ d, d ∈ l ++ r → hdr m' (b_addr d) = hdr m (b_addr d).
Proof.
  intros [Ht Hf] Hw. destruct (tiles_split _ _ _ _ _ Ht) as (_ & _ & Hz & _ & _). cbn [b_size] in Hz.
  destruct (write_inside m m' b _ Hw _ _ _ _ _ Ht) as [Ho Hk]; [cbn; lia|unfold b_end; cbn; lia|].
  split_and!; [split| |done].
  - rewrite tiles_app in *. destruct Ht as (mid & ? & Ht). by exists mid.
  - rewrite Forall_forall in *. intros d Hd. destruct (decide (d ∈ l ++ r)) as [Hd'|Hd'].
    + unfold hdr_ok. rewrite Ho by done. apply Hf. set_solver.
    + assert (d = Blk b z u) as -> by set_solver. unfold hdr_ok. cbn [b_addr b_size b_used]. by rewrite (wr_here _ _ _ _ Hw).
  - apply Hk. by right.
Qed.

(** The block [b] becomes used. *)
Lemma use_run {A} (k : M heap_st A) m l b z r h s Q F :
  sat s0 m h brk s → shaped m (l ++ Blk b z false :: r) brk →
  (∀ m' s', sat s0 m' h brk s' → shaped m' (l ++ Blk b z true :: r) brk →
     payload_kept (l ++ Blk b z false :: r) m m' → (∀ d, d ∈ l ++ r → hdr m' (b_addr d) = hdr m (b_addr d)) →
     runs k s' Q F) →
  runs (set_magic b BMAGIC_USED ;; set_next b 0 ;; k) s Q F.
Proof.
  intros Hs Hsh Hk. destruct (block_sizes m _ h s (Blk b z false) Hs Hsh) as (Hb1 & Hb2 & _); [set_solver|]. cbn [b_addr] in *.
  apply runs_bind. eapply runs_mono; [apply (set_magic_run s0 m h brk s Hs b); [done..|unfold BMAGIC_USED; lia]| |by intros ? H'; exact H'].
  intros [] s1 (m1 & Hw1 & Hs1). cbn beta.
  apply runs_bind. eapply runs_mono; [apply (set_next_run s0 m1 h brk s1 Hs1 b); [done..|lia]| |by intros ? H'; exact H'].
  intros [] s2 (m2 & Hw2 & Hs2). cbn beta.
  rewrite (wr_here _ _ _ _ Hw1) in Hw2. pose proof (wrote_trans _ _ _ _ _ _ Hw1 Hw2) as Hw.
  destruct (mark_block m m2 l b z r false true 0 Hsh) as (? & ? & ?); [|by eapply Hk].
  destruct Hsh as [_ Hf]. rewrite Forall_forall in Hf.
  destruct (Hf (Blk b z false)) as [Hz _]; [set_solver|]. cbn [b_addr b_size] in Hz.
  unfold with_next, with_magic in Hw. cbn [h_size h_magic h_next] in Hw. rewrite <-Hz. exact Hw.
Qed.

(** The free block [b] cut in two. *)
Record cut (m : mem) (l : list block) (b size need : Z) (r : list block) (m' : mem) : Prop := Cut {
  ct_shaped : shaped m' (l ++ Blk b need false :: Blk (b + need) (size - need) false :: r) brk;
  ct_kept : payload_kept (l ++ Blk b size false :: r) m m';
  ct_next : h_next (hdr m' (b + need)) = h_next (hdr m b);
  ct_self : h_next (hdr m' b) = h_next (hdr m b);
  ct_rest : ∀ d, d ∈ l ++ r → hdr m' (b_addr d) = hdr m (b_addr d);
}.

Lemma cut_writes m m1 m2 l b size need r :
  shaped m (l ++ Blk b size false :: r) brk → HDR_SIZE < need → HDR_SIZE + 16 ≤ size - need →
  wrote (b + need) (Header (size - need) BMAGIC_FREE (h_next (hdr m b))) m m1 →
  wrote b (with_size need (hdr m1 b)) m1 m2 → cut m l b size need r m2.
Proof.
  intros [Ht Hf] Hn Hsz Hw1 Hw2. unfold HDR_SIZE in *.
  destruct (write_inside m m1 _ _ Hw1 _ _ _ _ _ Ht) as [Ho1 Hk1]; [cbn; lia|unfold b_end, HDR_SIZE; cbn; lia|].
  destruct (write_inside m1 m2 _ _ Hw2 _ _ _ _ _ Ht) as [Ho2 Hk2]; [cbn; lia|unfold b_end, HDR_SIZE; cbn; lia|].
  assert (apart (b + need) b) as Hap by (unfold apart, HDR_SIZE; lia).
  assert (apart b (b + need)) as Hap' by (unfold apart, HDR_SIZE; lia).
  pose proof (wr_apart _ _ _ _ _ Hw1 Hap) as Hb1. pose proof (wr_apart _ _ _ _ _ Hw2 Hap') as Hsp.
  rewrite (wr_here _ _ _ _ Hw1) in Hsp. pose proof (wr_here _ _ _ _ Hw2) as Hb2. rewrite Hb1 in Hb2.
  assert (∀ d, d ∈ l ++ r → hdr m2 (b_addr d) = hdr m (b_addr d)) as Ho by (intros d Hd; rewrite Ho2, Ho1; done).
  rewrite Forall_forall in Hf. destruct (Hf (Blk b size false)) as [_ Hmg]; [set_solver|]. cbn [b_addr b_used] in Hmg.
  split; [split| |by rewrite Hsp|by rewrite Hb2|done].
  - rewrite tiles_app in *. destruct Ht as (mid & ? & Hx & Hy & Hr). exists mid. split; [done|].
    cbn [tiles b_addr b_size] in *. unfold b_end in *. cbn [b_addr b_size] in *. unfold HDR_SIZE in *.
    split_and!; [done|lia|done|lia|]. by replace (b + need + (size - need)) with (b + size) by lia.
  - rewrite Forall_forall. intros d Hd. unfold hdr_ok. destruct (decide (d ∈ l ++ r)) as [Hd'|Hd'].
    + rewrite Ho by done. apply Hf. set_solver.
    + assert (d = Blk b need false ∨ d = Blk (b + need) (size - need) false) as [-> | ->] by set_solver;
        cbn [b_addr b_size b_used]; [rewrite Hb2|rewrite Hsp]; done.
  - eapply payload_trans; [apply Hk1; by left|apply Hk2; by left|done].
Qed.

Lemma cut_run (k : M heap_st unit) m l b size need r h s Q F :
  sat s0 m h brk s → shaped m (l ++ Blk b size false :: r) brk → HDR_SIZE < need → HDR_SIZE + 16 ≤ size - need →
  (∀ m' s', sat s0 m' h brk s' → cut m l b size need r m' → runs k s' Q F) →
  runs (set_size (b + need) (size - need) ;; set_magic (b + need) BMAGIC_FREE ;;
        nx ← get_next b; set_next (b + need) nx ;; set_size b need ;; k) s Q F.
Proof.
  intros Hs Hsh Hn Hsz Hk.
  destruct (block_sizes m _ h s (Blk b size false) Hs Hsh) as (Hb1 & Hb2 & Hb3 & Hb4 & Hb5 & Hb6); [set_solver|].
  unfold b_end in Hb3. cbn [b_addr b_size] in *.
  assert (HEAP_VA_BASE ≤ b + need) as Hc1 by (unfold HDR_SIZE in *; lia).
  assert (b + need + HDR_SIZE ≤ brk) as Hc2 by (unfold HDR_SIZE in *; lia).
  assert (apart (b + need) b) as Hap by (unfold apart, HDR_SIZE in *; lia).
  apply runs_bind. eapply runs_mono; [apply (set_size_run s0 m h brk s Hs); [done..|unfold HDR_SIZE in *; lia]| |by intros ? H'; exact H'].
  intros [] s1 (m1 & Hw1 & Hs1). cbn beta.
  apply runs_bind. eapply runs_mono; [apply (set_magic_run s0 m1 h brk s1 Hs1); [done..|unfold BMAGIC_FREE; lia]| |by intros ? H'; exact H'].
  intros [] s2 (m2 & Hw2 & Hs2). cbn beta.
  eapply runs_bind_Ok; [apply (get_next_run s0 m2 h brk s2 Hs2); done|].
  rewrite (wr_apart _ _ _ _ _ Hw2 Hap), (wr_apart _ _ _ _ _ Hw1 Hap).
  apply runs_bind. eapply runs_mono; [apply (set_next_run s0 m2 h brk s2 Hs2); [done..|apply ld64_range]| |by intros ? H'; exact H'].
  intros [] s3 (m3 & Hw3 & Hs3). cbn beta.
  apply runs_bind. eapply runs_mono; [apply (set_size_run s0 m3 h brk s3 Hs3); [done..|unfold HDR_SIZE in *; lia]| |by intros ? H'; exact H'].
  intros [] s4 (m4 & Hw4 & Hs4). cbn beta. apply (Hk m4 s4 Hs4).
  rewrite (wr_here _ _ _ _ Hw2), (wr_here _ _ _ _ Hw1) in Hw3.
  eapply cut_writes; [done|done|done| |exact Hw4].
  eapply wrote_trans; [eapply wrote_trans; [exact Hw1|exact Hw2]|exact Hw3].
Qed.
End blocks.

(** ** Taking a block *)

Definition splits (size need : Z) : bool := HDR_SIZE + 16 <=? size - need.

(** What the free block becomes, and what replaces it in the free list. *)
Definition taken_blocks (b size need : Z) : list block :=
  if splits size need then [Blk b need true; Blk (b + need) (size - need) false] else [Blk b size true].
Definition taken_link (b size need : Z) : list Z := if splits size need then [b + need] else [].

Definition taken_to (s0 : heap_st) (m : mem) (bs bs' : list block) (fl' : list Z) (brk : Z) (s' : heap_st) : Prop :=
  ∃ m', heap_at s0 m' bs' fl' s' ∧ payload_kept bs m m' ∧ heap_brk s' = brk.

(** The list around the block [b]. *)
Lemma around s0 m l b size r pre suf s :
  heap_at s0 m (l ++ Blk b size false :: r) (pre ++ b :: suf) s →
  lseg m (freelist s) pre b ∧ lseg m (h_next (hdr m b)) suf 0 ∧ NoDup pre ∧ (b ∉ pre) ∧ (b ∉ suf) ∧
  (∀ p, p ∈ pre → p ∉ suf) ∧ pre ++ suf ≡ₚ free_addrs (l ++ r) ∧
  (∀ p, p ∈ pre ++ suf → ∃ c, c ∈ l ++ r ∧ b_used c = false ∧ b_addr c = p).
Proof.
  intros Hh. pose proof (hp_list _ _ _ _ _ Hh) as Hl. apply lseg_app in Hl as (y & Hl & [-> Hl']).
  assert (NoDup (pre ++ b :: suf)) as Hn by (rewrite (hp_free _ _ _ _ _ Hh); eapply free_addrs_NoDup, Hh).
  apply NoDup_app in Hn as (Hn & Hd & [Hb _]%NoDup_cons).
  assert (pre ++ suf ≡ₚ free_addrs (l ++ r)) as Hp.
  { pose proof (hp_free _ _ _ _ _ Hh) as Hf. rewrite free_addrs_app in *. unfold free_addrs at 2 in Hf.
    rewrite filter_cons_True in Hf by done. cbn [fmap list_fmap] in Hf. fold (free_addrs r) in Hf.
    rewrite <-!Permutation_middle in Hf. by apply Permutation_cons_inv in Hf. }
  split_and!; [done|done|done| |done| |done|].
  - intros Hb'. apply (Hd b Hb'). apply list_elem_of_here.
  - intros p Hp1 Hp2. apply (Hd p Hp1). by apply list_elem_of_further.
  - intros p Hp'. apply elem_of_free_addrs. by rewrite <-Hp.
Qed.

Lemma free_addrs_mid l r c : free_addrs (l ++ c :: r) ≡ₚ (if b_used c then [] else [b_addr c]) ++ free_addrs (l ++ r).
Proof.
  rewrite !free_addrs_app. unfold free_addrs at 2. rewrite filter_cons. destruct (b_used c) eqn:E.
  - by rewrite decide_False by congruence.
  - rewrite decide_True by done. cbn [fmap list_fmap app]. fold (free_addrs r). by rewrite <-Permutation_middle.
Qed.

Section take.
Context (s0 : heap_st) (m : mem) (l r : list block) (b size need : Z) (pre suf : list Z) (s : heap_st).
Context (Hh : heap_at s0 m (l ++ Blk b size false :: r) (pre ++ b :: suf) s).
Context (Hn : HDR_SIZE < need) (Hle : need ≤ size).

Lemma take_whole (p : Z) F : splits size need = false →
  runs (nx ← get_next b; set_link (last pre) nx) s (λ _ s', runs (set_magic b BMAGIC_USED ;; set_next b 0 ;; mret p) s'
    (λ p' s', p' = p ∧ taken_to s0 m (l ++ Blk b size false :: r) (l ++ Blk b size true :: r) (pre ++ suf) (heap_brk s) s') F) F.
Proof using All.
  intros _. destruct (around _ _ _ _ _ _ _ _ _ Hh) as (Hl1 & Hl2 & Hnd & Hb1 & Hb2 & Hd & Hp & Hc).
  destruct Hh as [Hs Ht Hf _ _]. assert (shaped m (l ++ Blk b size false :: r) (heap_brk s)) as Hsh by done.
  destruct (block_sizes s0 _ m _ _ s (Blk b size false) Hs Hsh) as (? & ? & _); [set_solver|]. cbn [b_addr] in *.
  eapply runs_bind_Ok; [apply (get_next_run s0 m _ _ s Hs); done|].
  eapply runs_mono; [eapply (link_run s0 (heap_brk s) m); [exact Hs|exact Hsh|exact Hl1|done| |apply ld64_range]| |by intros ? H'; exact H'].
  { intros x Hp'. destruct (Hc x) as (c & ? & _ & ?); [set_solver|]. exists c. set_solver. }
  intros [] s1 (m1 & h1 & [Hs1 Hf1 Hk1 Hl1' Ho1]). cbn beta.
  eapply (use_run s0 (heap_brk s) _ m1 l b size r h1 s1); [done|done|].
  intros m2 s2 Hs2 [Ht2 Hf2] Hk2 Ho2. eapply runs_ret; [done|]. split; [done|]. exists m2.
  pose proof (sa_brk _ _ _ _ _ Hs2) as Hbk. pose proof (sa_fl _ _ _ _ _ Hs2) as Hfl.
  assert (∀ x, x ∈ pre ++ suf → hdr m2 x = hdr m1 x) as Ho2'.
  { intros x Hp'. destruct (Hc x Hp') as (c & Hc' & _ & <-). by apply Ho2. }
  split_and!; [split|by eapply payload_trans|done].
  - by rewrite Hfl, Hbk.
  - by rewrite Hbk.
  - done.
  - rewrite Hfl. apply lseg_app. exists (h_next (hdr m b)). split.
    + eapply lseg_ext; [|exact Hl1']. intros a Ha. apply Ho2'. set_solver.
    + eapply lseg_ext; [|exact Hl2]. intros a Ha. rewrite Ho2' by set_solver.
      destruct (Hc a) as (c & Hc' & _ & <-); [set_solver|]. apply Ho1; [set_solver|]. intros Hpre. by apply (Hd _ Hpre).
  - by rewrite free_addrs_mid.
Qed.

Lemma take_split (p : Z) F : splits size need = true →
  runs (set_size (b + need) (size - need) ;; set_magic (b + need) BMAGIC_FREE ;;
        nx ← get_next b; set_next (b + need) nx ;; set_size b need ;;
        set_link (last pre) (b + need)) s (λ _ s', runs (set_magic b BMAGIC_USED ;; set_next b 0 ;; mret p) s'
    (λ p' s', p' = p ∧ taken_to s0 m (l ++ Blk b size false :: r)
       (l ++ Blk b need true :: Blk (b + need) (size - need) false :: r) (pre ++ (b + need) :: suf) (heap_brk s) s') F) F.
Proof using All.
  intros Hsp%Z.leb_le. destruct (around _ _ _ _ _ _ _ _ _ Hh) as (Hl1 & Hl2 & Hnd & Hb1 & Hb2 & Hd & Hp & Hc).
  destruct Hh as [Hs Ht Hf _ _]. assert (shaped m (l ++ Blk b size false :: r) (heap_brk s)) as Hsh by done.
  destruct (block_sizes s0 _ m _ _ s (Blk b size false) Hs Hsh) as (Hz1 & Hz2 & Hz3 & Hz4 & _); [set_solver|]. cbn [b_addr] in *.
  apply (cut_run s0 (heap_brk s) _ m l b size need r (freelist s) s _ F Hs Hsh Hn Hsp).
  intros m1 s1 Hs1 [Hsh1 Hk1 Hnx1 Hself1 Ho1].
  assert (∀ x, x ∈ pre ++ suf → hdr m1 x = hdr m x) as Ho1'.
  { intros x Hp'. destruct (Hc x Hp') as (c & Hc' & _ & <-). by apply Ho1. }
  assert (b + need ∉ pre ++ suf) as Hnew.
  { intros Hp'. destruct (Hc _ Hp') as (c & Hc' & _ & Ec). destruct (tiles_split _ _ _ _ _ Ht) as (_ & _ & Hz & Hlb & Hrb).
    unfold b_end in *. cbn [b_addr b_size] in *. unfold HDR_SIZE in *.
    apply elem_of_app in Hc' as [Hc'|Hc']; [specialize (Hlb c Hc')|specialize (Hrb c Hc')]; lia. }
  eapply runs_mono; [eapply (link_run s0 (heap_brk s) m1);
    [exact Hs1|exact Hsh1|eapply lseg_ext; [|exact Hl1]; intros a Ha; apply Ho1'; set_solver|done| |]| |by intros ? H'; exact H'].
  { intros x Hp'. destruct (Hc x) as (c & ? & _ & ?); [set_solver|]. exists c. set_solver. }
  { unfold b_end in *. cbn [b_addr b_size] in *. unfold HEAP_VA_BASE, HEAP_VA_END, HDR_SIZE in *. lia. }
  intros [] s2 (m2 & h2 & [Hs2 Hf2 Hk2 Hl2' Ho2]). cbn beta.
  eapply (use_run s0 (heap_brk s) _ m2 l b need (Blk (b + need) (size - need) false :: r) h2 s2); [done|by split; [apply Hsh1|]|].
  intros m3 s3 Hs3 [Ht3 Hf3] Hk3 Ho3. eapply runs_ret; [done|]. split; [done|]. exists m3.
  pose proof (sa_brk _ _ _ _ _ Hs3) as Hbk. pose proof (sa_fl _ _ _ _ _ Hs3) as Hfl.
  assert (∀ x, x ∈ pre ++ suf → hdr m3 x = hdr m2 x) as Ho3'.
  { intros x Hp'. destruct (Hc x Hp') as (c & Hc' & _ & <-). apply Ho3. set_solver. }
  split_and!; [split| |done].
  - by rewrite Hfl, Hbk.
  - by rewrite Hbk.
  - done.
  - rewrite Hfl. apply lseg_app. exists (b + need). split.
    + eapply lseg_ext; [|exact Hl2']. intros a Ha. apply Ho3'. set_solver.
    + split; [done|]. pose proof (Ho3 (Blk (b + need) (size - need) false)) as Hx. cbn [b_addr] in Hx.
      rewrite Hx by set_solver. pose proof (Ho2 (Blk (b + need) (size - need) false)) as Hy. cbn [b_addr] in Hy.
      rewrite Hy by set_solver. rewrite Hnx1. eapply lseg_ext; [|exact Hl2]. intros a Ha. rewrite Ho3' by set_solver.
      rewrite <-Ho1' by set_solver. destruct (Hc a) as (c & Hc' & _ & <-); [set_solver|].
      apply Ho2; [set_solver|]. intros Hpre. by apply (Hd _ Hpre).
  - rewrite free_addrs_mid. cbn [b_used app]. rewrite free_addrs_mid. cbn [b_used b_addr app].
    by rewrite <-Permutation_middle, Hp.
  - assert (∀ c, c ∈ used_blocks (l ++ Blk b size false :: r) →
      c ∈ used_blocks (l ++ Blk b need false :: Blk (b + need) (size - need) false :: r)) as Hu.
    { intros c [Hu Hc']%list_elem_of_filter. apply list_elem_of_filter. split; [done|].
      apply elem_of_app in Hc' as [?|[->|?]%elem_of_cons]; [set_solver|done|set_solver]. }
    eapply payload_trans; [exact Hk1| |exact Hu]. eapply payload_trans; [exact Hk2|exact Hk3|done].
Qed.

Lemma take_block_run F :
  runs (take_block (last pre) b need) s (λ p s', p = b + HDR_SIZE ∧
    taken_to s0 m (l ++ Blk b size false :: r) (l ++ taken_blocks b size need ++ r)
      (pre ++ taken_link b size need ++ suf) (heap_brk s) s') F.
Proof using All.
  pose proof (hp_sat _ _ _ _ _ Hh) as Hs.
  assert (shaped m (l ++ Blk b size false :: r) (heap_brk s)) as Hsh by (split; apply Hh).
  destruct (block_sizes s0 _ m _ _ s (Blk b size false) Hs Hsh) as (Hz1 & Hz2 & Hz3 & Hz4 & Hz5 & _); [set_solver|].
  unfold b_end in Hz3. cbn [b_addr b_size] in *.
  assert (h_size (hdr m b) = size) as Hz.
  { destruct Hsh as [_ Hf]. rewrite Forall_forall in Hf. destruct (Hf (Blk b size false)) as [E _]; [set_solver|exact E]. }
  unfold take_block. eapply runs_bind_Ok; [apply (get_size_run s0 m _ _ s Hs); done|]. rewrite Hz.
  fold (splits size need). rewrite !addw_heap by (unfold HDR_SIZE in *; lia). apply runs_bind.
  unfold taken_blocks, taken_link. destruct (splits size need) eqn:E; cbn [app].
  - by apply take_split.
  - by apply take_whole.
Qed.
End take.

(** ** The search *)

(** No free block listed in [fl] has [need] bytes. *)
Definition too_small (bs : list block) (need : Z) (fl : list Z) : Prop :=
  ∀ c, c ∈ bs → b_used c = false → b_addr c ∈ fl → b_size c < need.

(** The first free block of the list with [need] bytes was taken. *)
Definition found (s0 : heap_st) (m : mem) (bs : list block) (fl : list Z) (need : Z) (s : heap_st) (p : Z) (s' : heap_st) : Prop :=
  ∃ l r b size pre suf, bs = l ++ Blk b size false :: r ∧ fl = pre ++ b :: suf ∧ too_small bs need pre ∧
    need ≤ size ∧ p = b + HDR_SIZE ∧
    taken_to s0 m bs (l ++ taken_blocks b size need ++ r) (pre ++ taken_link b size need ++ suf) (heap_brk s) s'.

Lemma find_fit_run s0 m bs need s F fuel pre suf b :
  heap_at s0 m bs (pre ++ suf) s → lseg m b suf 0 → too_small bs need pre → HDR_SIZE < need →
  (length suf < fuel)%nat →
  runs (find_fit fuel (last pre) b need) s (λ o s',
    match o with
    | None => s' = s ∧ too_small bs need (pre ++ suf)
    | Some p => found s0 m bs (pre ++ suf) need s p s'
    end) F.
Proof.
  revert fuel pre b. induction suf as [|b' suf IH]; intros [|fuel] pre b Hh Hl Hsm Hn Hfu; cbn [length] in Hfu; try lia.
  - cbn [lseg] in Hl. subst b. eapply runs_ret; [done|]. by rewrite app_nil_r.
  - destruct Hl as [-> Hl]. pose proof (hp_sat _ _ _ _ _ Hh) as Hs.
    assert (shaped m bs (heap_brk s)) as Hsh by (split; apply Hh).
    assert (b' ∈ free_addrs bs) as Hb by (rewrite <-(hp_free _ _ _ _ _ Hh); set_solver).
    apply elem_of_free_addrs in Hb as ([b size u] & Hc & Hu & Hb). cbn [b_addr b_used] in Hu, Hb. subst u b.
    destruct (block_sizes s0 _ m _ _ s _ Hs Hsh Hc) as (Hz1 & Hz2 & _). cbn [b_addr] in *.
    destruct Hsh as [Ht Hf]. rewrite Forall_forall in Hf. destruct (Hf _ Hc) as [Hsz Hmg]. cbn [b_addr b_size b_used magic_of] in Hsz, Hmg.
    cbn [find_fit]. destruct (Z.eqb_spec b' 0) as [->|_]; [by unfold HEAP_VA_BASE in Hz1|].
    eapply runs_bind_Ok; [apply (get_magic_run s0 m _ _ s Hs); done|]. rewrite Hmg, Z.eqb_refl. cbn [negb].
    eapply runs_bind_Ok; [apply (get_size_run s0 m _ _ s Hs); done|]. rewrite Hsz.
    destruct (Z.leb_spec need size).
    + pose proof Hc as (l & r & ->)%list_elem_of_split. apply runs_bind.
      eapply runs_mono; [by apply (take_block_run s0 m l r b' size need pre suf s Hh)| |by intros ? H'; exact H'].
      intros p s' [-> Htk]. eapply runs_ret; [done|]. exists l, r, b', size, pre, suf. done.
    + eapply runs_bind_Ok; [apply (get_next_run s0 m _ _ s Hs); done|].
      replace (Some b') with (last (pre ++ [b'])) by apply last_snoc.
      specialize (IH fuel (pre ++ [b']) (h_next (hdr m b'))). rewrite <-(assoc_L (++) pre [b'] suf) in IH. cbn [app] in IH.
      apply IH; [done|done| |done|lia].
      intros d Hd Hud [Hd'|Ed%list_elem_of_singleton]%elem_of_app; [by apply Hsm|].
      destruct (tiles_apart _ _ _ _ _ Ht Hc Hd) as [<-|Hap]; [done|]. unfold apart, HDR_SIZE in Hap. cbn [b_addr] in Hap. lia.
Qed.

(** The fuel of the search. *)
Lemma heap_fuel_enough s0 m bs fl s : heap_at s0 m bs fl s → (length fl < heap_fuel s)%nat.
Proof.
  intros Hh. pose proof (tiles_length _ _ _ (hp_tiles _ _ _ _ _ Hh)) as Hl.
  assert (length fl ≤ length bs)%nat as Hle.
  { rewrite (hp_free _ _ _ _ _ Hh). unfold free_addrs. rewrite length_fmap. apply length_filter. }
  unfold heap_fuel. unfold HDR_SIZE in *.
  assert (Z.of_nat (length bs) ≤ (heap_brk s - HEAP_VA_BASE) / 16) by (apply Z.div_le_lower_bound; lia). lia.
Qed.

(** ** Growth *)

Definition oom (w : stop) : Prop := w = Panic "heap: OOM growing" ∨ w = Panic "vmm: OOM building tables".

Definition grow_page : M heap_st unit :=
  p ← liftv (liftp pmm_alloc);
  if p =? 0 then panic "heap: OOM growing"
  else
    brk ← gets heap_brk;
    liftv (vmm_map brk p (Z.lor (Z.lor VMM_PRESENT VMM_WRITE) VMM_NOEXEC)) ;;
    modify (set_brk (brk +w UIX_PAGE_SIZE)).

(** More memory, and the old bytes as they were. *)
Definition extended (s0 : heap_st) (m : mem) (fl brk brk' : Z) (s' : heap_st) : Prop :=
  ∃ m', sat s0 m' fl brk' s' ∧ ∀ a, a < brk → ld8 m' a = ld8 m a.

Lemma grow_page_run s0 m fl brk s :
  sat s0 m fl brk s → brk + UIX_PAGE_SIZE ≤ HEAP_VA_END →
  runs grow_page s (λ _, extended s0 m fl brk (brk + UIX_PAGE_SIZE)) oom.
Proof.
  intros Hs Hlim. pose proof (sa_holds _ _ _ _ _ Hs) as Hh. unfold grow_page.
  destruct (alloc_run (hvm s) (wv_pmm _ (hd_wf _ _ _ _ _ Hh))) as [(p' & He & _)|(i & Hi & Hi0 & He)].
  { eapply runs_bind_Ok; [unfold liftv at 1, zoom; rewrite He; done|]. cbn. by left. }
  eapply runs_bind_Ok; [unfold liftv at 1, zoom; rewrite He; done|].
  rewrite (proj2 (Z.eqb_neq _ _)) by (unfold UIX_PAGE_SIZE; lia).
  eapply runs_bind_Ok; [done|].
  destruct (step_taken _ i (wv_pmm _ (hd_wf _ _ _ _ _ Hh)) Hi) as (Hst & Hci & _).
  destruct (fresh_page _ _ _ _ _ _ _ Hh Hi Hst Hci) as ([Hh1 _] & _ & _). set (v1 := set_vp (taken i (vp (hvm s))) (hvm s)) in *.
  pose proof (sa_brk _ _ _ _ _ Hs) as Hbk. change (heap_brk (set_hvm v1 s)) with (heap_brk s). rewrite Hbk.
  set (flags := Z.lor (Z.lor VMM_PRESENT VMM_WRITE) VMM_NOEXEC).
  pose proof (vmm_map_cases v1 brk (i * UIX_PAGE_SIZE) flags (hd_wf _ _ _ _ _ Hh1)) as Hm.
  rewrite (proj1 (hd_rest _ _ _ _ _ Hh1 brk ltac:(unfold UIX_PAGE_SIZE in *; lia))) in Hm.
  destruct Hm as [(v' & Hm & _)|(v' & Hm & Hmap)]; [by vm_compute| |].
  { unfold runs. rewrite (bind_Stop_eq _ _ _ (Panic "vmm: OOM building tables") (set_hvm v' (set_hvm v1 s))); [by right|].
    unfold liftv, zoom. cbn [hvm set_hvm]. by rewrite Hm. }
  eapply runs_bind_Ok; [unfold liftv, zoom; cbn [hvm set_hvm]; rewrite Hm; done|]. eapply runs_ret; [done|].
  pose proof (sa_low _ _ _ _ _ Hs) as Hlow. pose proof (sa_page _ _ _ _ _ Hs) as Hpg.
  rewrite addw_heap by (unfold UIX_PAGE_SIZE in *; lia).
  assert (kernel_cr3 v' = kernel_cr3 (hvm s)) as Hk.
  { pose proof (keeps_vmm_map brk (i * UIX_PAGE_SIZE) flags v1) as Hk. by rewrite Hm in Hk. }
  destruct (grown_region _ _ _ _ _ _ _ _ _ Hh Hi Hst Hci Hmap Hk Hpg Hlow Hlim) as (Hsp & m' & Hh' & Heq & _); [by vm_compute..|].
  exists m'. split; [|done]. split; cbn [set_brk set_hvm hvm heap_brk freelist];
    [done|eapply spared_trans; [apply Hs|done]|apply Hs|done|unfold UIX_PAGE_SIZE; lia|].
  unfold UIX_PAGE_SIZE in *. rewrite <-Z.add_mod_idemp_l, Hpg by lia. done.
Qed.

Lemma grow_run s0 m fl brk s n :
  sat s0 m fl brk s → 0 ≤ n → brk + n * UIX_PAGE_SIZE ≤ HEAP_VA_END →
  runs (grow n) s (λ _, extended s0 m fl brk (brk + n * UIX_PAGE_SIZE)) oom.
Proof.
  intros Hs Hn Hlim. unfold grow. change (λ _ : Z, _) with (λ _ : Z, grow_page).
  eapply runs_mono; [apply (runs_for _ 0 _ (λ j, extended s0 m fl brk (brk + j * UIX_PAGE_SIZE)))| |by intros ? H'; exact H'].
  - exists m. by rewrite Z.add_0_r.
  - intros j t Hj (m' & Hs' & Heq). unfold UIX_PAGE_SIZE in *.
    eapply runs_mono; [apply grow_page_run; [exact Hs'|unfold UIX_PAGE_SIZE; lia]| |by intros ? H'; exact H'].
    intros [] s' (m2 & Hs2 & Heq2). exists m2. unfold UIX_PAGE_SIZE in *.
    replace (brk + (j + 1) * 4096) with (brk + j * 4096 + 4096) by lia. split; [done|].
    intros a Ha. rewrite Heq2 by lia. by apply Heq.
  - intros [] s' H. by replace (0 + Z.of_nat (Z.to_nat n)) with n in H by lia.
Qed.

End HeapAlloc.
