(* ===== verification/HeapFree.v ===== *)
(** * Returning blocks to the heap

    The insertion sort of the free blocks and the pass that merges neighbours
    and relinks the list. *)

From stdpp Require Import sorting.
From S2P Require Import Prelude Lib Pmm PmmFacts Vmm PageTables VmmFacts VmmProps SpaceProps Heap VirtMem.
From S2P Require Import HeapFacts HeapAlloc.

Module HeapFree.
Import Lib Pmm PmmFacts Vmm PageTables VmmFacts VmmProps SpaceProps Heap VirtMem HeapFacts HeapAlloc.

(** ** The sort *)

(** [key] goes between the elements that are not above it and those that are. *)
Lemma shift_up_spec key f x b :
  ∃ f1 f2, f = f1 ++ f2 ∧ shift_up key (length f) (f ++ x :: b) = f1 ++ key :: f2 ++ b ∧
    Forall (λ a, key < a) f2 ∧ ∀ a, last f1 = Some a → a ≤ key.
Proof.
  revert x b. induction f as [|a f IH] using rev_ind; intros x b.
  - by exists [], [].
  - rewrite length_app, Nat.add_1_r. cbn [length shift_up].
    rewrite <-(assoc_L (++)). cbn [app]. rewrite list_lookup_middle by done. cbn [default from_option id].
    destruct (Z.ltb_spec key a).
    + replace (<[S (length f) := a]> (f ++ a :: x :: b)) with (f ++ a :: a :: b).
      * destruct (IH a (a :: b)) as (f1 & f2 & -> & -> & Hf2 & Hl). exists f1, (f2 ++ [a]).
        rewrite <-!(assoc_L (++)). split_and!; [done|done| |done]. apply Forall_app. auto.
      * rewrite <-Nat.add_1_r, insert_app_r. done.
    + exists (f ++ [a]), []. split_and!; [by rewrite app_nil_r| |done|by intros c; rewrite last_snoc; intros [= ->]].
      rewrite <-Nat.add_1_r, insert_app_r, <-(assoc_L (++)). done.
Qed.

Lemma insert_sorted key (f1 f2 : list Z) :
  StronglySorted Z.le (f1 ++ f2) → Forall (λ a, key < a) f2 → (∀ a, last f1 = Some a → a ≤ key) →
  StronglySorted Z.le (f1 ++ key :: f2).
Proof.
  rewrite !StronglySorted_app. intros (H12 & H1 & H2) Hf2 Hl. rewrite Forall_forall in Hf2. split_and!; [|done|].
  - intros a b Ha [->|Hb]%elem_of_cons; [|by apply H12].
    destruct (last f1) as [c|] eqn:E; [|apply last_None in E as ->; by apply not_elem_of_nil in Ha].
    specialize (Hl c eq_refl). apply last_Some in E as [f' ->]. apply elem_of_app in Ha as [Ha|Ha%list_elem_of_singleton].
    + apply StronglySorted_app in H1 as (H1 & _). specialize (H1 a c Ha ltac:(set_solver)). lia.
    + by subst.
  - apply StronglySorted_cons. split; [|done]. apply Forall_forall. intros b Hb. specialize (Hf2 b Hb). lia.
Qed.

Lemma sort_from_spec n f b :
  StronglySorted Z.le f → length b = n →
  StronglySorted Z.le (sort_from n (length f) (f ++ b)) ∧ sort_from n (length f) (f ++ b) ≡ₚ f ++ b.
Proof.
  revert f b. induction n as [|n IH]; intros f [|x b] Hf Hb; cbn [length] in Hb; try lia; cbn [sort_from]; [by rewrite app_nil_r|].
  injection Hb as Hb.
  rewrite list_lookup_middle by done. cbn [default from_option id].
  destruct (shift_up_spec x f x b) as (f1 & f2 & -> & -> & Hf2 & Hl).
  assert (StronglySorted Z.le (f1 ++ x :: f2)) as Hs by by apply insert_sorted.
  specialize (IH (f1 ++ x :: f2) b Hs Hb). rewrite length_app in IH. cbn [length] in IH.
  rewrite Nat.add_succ_r, <-length_app in IH. rewrite <-(assoc_L (++)) in IH. cbn [app] in IH.
  destruct IH as [IH1 IH2]. split; [done|]. rewrite IH2, <-(assoc_L (++)). by rewrite <-(Permutation_middle f2), <-!(Permutation_middle f1).
Qed.

(** The sort gives the ascending permutation. *)
Lemma sort_blocks_spec arr : StronglySorted Z.le (sort_blocks arr) ∧ sort_blocks arr ≡ₚ arr.
Proof.
  destruct arr as [|a arr]; [by split; [constructor|]|]. unfold sort_blocks. cbn [length].
  rewrite Nat.sub_succ, Nat.sub_0_r. apply (sort_from_spec (length arr) [a] arr); [|done]. repeat constructor.
Qed.

Lemma sort_blocks_unique arr l : StronglySorted Z.lt l → arr ≡ₚ l → sort_blocks arr = l.
Proof.
  intros Hl Hp. destruct (sort_blocks_spec arr) as [Hs Hp']. apply (StronglySorted_unique Z.le); [done| |by rewrite Hp'].
  clear -Hl. induction Hl as [|a l _ IH Ha]; constructor; [done|]. eapply Forall_impl; [exact Ha|]. cbn. lia.
Qed.

(** ** The list as an array *)

Lemma collect_run s0 m bs brk h s k a fl :
  sat s0 m h brk s → shaped m bs brk → lseg m a fl 0 → (∀ x, x ∈ fl → ∃ c, c ∈ bs ∧ b_addr c = x) →
  collect k a s = Ok (take k fl) s.
Proof.
  intros Hs Hsh. revert k a. induction fl as [|x fl IH]; intros [|k] a Hl Hx; cbn [collect lseg take] in *; try done.
  - by subst a.
  - destruct Hl as [-> Hl]. destruct (Hx x) as (c & Hc & <-); [set_solver|].
    destruct (block_sizes s0 _ m _ _ s _ Hs Hsh Hc) as (Hz1 & Hz2 & _).
    destruct (Z.eqb_spec (b_addr c) 0) as [E|_]; [by rewrite E in Hz1|].
    rewrite (bind_Ok_eq _ _ _ _ _ (get_next_run s0 m _ _ s Hs _ Hz1 Hz2)).
    rewrite (bind_Ok_eq _ _ _ _ _ (IH k _ Hl ltac:(set_solver))). done.
Qed.

(** ** Merging *)

(** No two neighbours are free. *)
Fixpoint coalesced (bs : list block) : Prop :=
  match bs with
  | c :: bs => (∀ d, head bs = Some d → b_used c || b_used d = true) ∧ coalesced bs
  | [] => True
  end.

Lemma coalesced_app l1 l2 :
  coalesced l1 → coalesced l2 →
  (∀ c d, last l1 = Some c → head l2 = Some d → b_used c || b_used d = true) → coalesced (l1 ++ l2).
Proof.
  induction l1 as [|c l1 IH]; intros H1 H2 Hj; [done|]. destruct H1 as [Hc H1]. cbn [app coalesced].
  destruct l1 as [|c' l1].
  - split; [|done]. intros d Hd. by apply (Hj c d).
  - split; [exact Hc|]. apply IH; [done|done|]. intros x d Hx. by apply Hj.
Qed.

Lemma coalesced_used l : Forall (λ c, b_used c = true) l → coalesced l.
Proof. induction 1 as [|c l Hc _ IH]; [done|]. split; [|done]. intros d _. by rewrite Hc. Qed.

Lemma coalesced_app_l l1 l2 : coalesced (l1 ++ l2) → coalesced l1.
Proof.
  induction l1 as [|c l1 IH]; [done|]. cbn [app coalesced]. intros [Hc H]. split; [|by apply IH].
  intros d Hd. apply Hc. by destruct l1.
Qed.

Lemma coalesced_join l1 x l2 c : coalesced (l1 ++ x :: l2) → last l1 = Some c → b_used c || b_used x = true.
Proof.
  induction l1 as [|a [|b l1] IH]; [done| |].
  - intros [H _] [= ->]. by apply H.
  - intros [_ H]. by apply IH.
Qed.

Lemma free_addrs_used us : Forall (λ c, b_used c = true) us → free_addrs us = [].
Proof.
  induction 1 as [|c l Hc _ IH]; [done|]. unfold free_addrs. rewrite filter_cons_False by congruence. exact IH.
Qed.

Lemma free_addrs_nil us : free_addrs us = [] → Forall (λ c, b_used c = true) us.
Proof.
  intros H. apply Forall_forall. intros c Hc. destruct (b_used c) eqn:E; [done|].
  assert (b_addr c ∈ free_addrs us) as Ha by (apply elem_of_free_addrs; eauto). rewrite H in Ha. by apply not_elem_of_nil in Ha.
Qed.

Lemma first_free r cur arr :
  free_addrs r = cur :: arr →
  ∃ us z r', r = us ++ Blk cur z false :: r' ∧ Forall (λ c, b_used c = true) us ∧ free_addrs r' = arr.
Proof.
  induction r as [|[a z u] r IH]; [done|]. unfold free_addrs. rewrite filter_cons. destruct u; cbn [b_used].
  - rewrite decide_False by done. intros (us & z' & r' & -> & Hus & ?)%IH. exists (Blk a z true :: us), z', r'. auto.
  - rewrite decide_True by done. intros [= -> <-]. by exists [], z, r.
Qed.

Lemma last_free d t :
  last (free_addrs d) = Some t →
  ∃ d0 z d1, d = d0 ++ Blk t z false :: d1 ∧ Forall (λ c, b_used c = true) d1.
Proof.
  induction d as [|[a z u] d IH] using rev_ind; [done|]. rewrite free_addrs_app. destruct u.
  - rewrite (free_addrs_used [_]) by (by constructor). rewrite app_nil_r. intros (d0 & z' & d1 & -> & Hd1)%IH.
    exists d0, z', (d1 ++ [Blk a z true]). rewrite <-(assoc_L (++)). split; [done|]. apply Forall_app. auto.
  - change (free_addrs [Blk a z false]) with [a]. rewrite last_snoc. intros [= ->]. by exists d, z, [].
Qed.

(** The state between two rounds: the blocks [d] are merged and listed, [r] is
    to be done. *)
Record merging (s0 : heap_st) (brk : Z) (m : mem) (d r : list block) (s : heap_st) : Prop := Merging {
  mg_sat : sat s0 m (freelist s) brk s;
  mg_shaped : shaped m (d ++ r) brk;
  mg_list : lseg m (freelist s) (free_addrs d) 0;
  mg_done : coalesced d;
}.

(** The used blocks of both are the same, with their contents. *)
Definition same_used (bs bs' : list block) (m m' : mem) : Prop :=
  used_blocks bs' = used_blocks bs ∧ payload_kept bs m m'.

Lemma same_used_trans bs bs' bs'' m m' m'' :
  same_used bs bs' m m' → same_used bs' bs'' m' m'' → same_used bs bs'' m m''.
Proof.
  intros [H1 H2] [H3 H4]. split; [congruence|]. eapply payload_trans; [exact H2|exact H4|]. by rewrite H1.
Qed.

Section merge.
Context (s0 : heap_st) (brk : Z).

(** The last merged block takes in its neighbour. *)
Lemma absorb_run m d0 t tz cur z r s F :
  merging s0 brk m (d0 ++ [Blk t tz false]) (Blk cur z false :: r) s →
  runs (set_size t (wrap32 (tz + z))) s (λ _ s', ∃ m',
    merging s0 brk m' (d0 ++ [Blk t (tz + z) false]) r s' ∧
    same_used (d0 ++ [Blk t tz false] ++ Blk cur z false :: r) (d0 ++ [Blk t (tz + z) false] ++ r) m m') F.
Proof.
  intros [Hs Hsh Hl Hd]. rewrite <-(assoc_L (++)) in Hsh. cbn [app] in Hsh.
  destruct (block_sizes s0 brk m _ _ s (Blk t tz false) Hs Hsh) as (Ht1 & Ht2 & Ht3 & Ht4 & Ht5 & _); [set_solver|].
  destruct (block_sizes s0 brk m _ _ s (Blk cur z false) Hs Hsh) as (Hc1 & Hc2 & Hc3 & _ & Hc5 & _); [set_solver|].
  destruct Hsh as [Hti Hf]. pose proof Hti as Hti'. apply tiles_app in Hti' as (mid & Hti0 & Em & Hz1 & Ec & Hz2 & Htr).
  unfold b_end in *. cbn [b_addr b_size] in *. subst mid cur. unfold HEAP_VA_BASE, HEAP_VA_END, HDR_SIZE in *.
  rewrite wrap32_small by lia.
  eapply runs_mono; [apply (set_size_run s0 m _ _ s Hs t); [unfold HEAP_VA_BASE; lia|unfold HDR_SIZE; lia|lia]| |by intros ? H'; exact H'].
  intros [] s' (m' & Hw & Hs'). exists m'. pose proof (sa_fl _ _ _ _ _ Hs') as Hfl.
  destruct (write_inside m m' t _ Hw _ _ _ _ _ Hti) as [Ho Hk]; [cbn; lia|unfold b_end, HDR_SIZE; cbn; lia|].
  rewrite Forall_forall in Hf. destruct (Hf (Blk t tz false)) as [_ Hmg]; [set_solver|]. cbn [b_addr b_used] in Hmg.
  split; [split|split].
  - by rewrite Hfl.
  - rewrite <-(assoc_L (++)). cbn [app]. split.
    + apply tiles_app. exists t. split; [done|]. split_and!; [done|cbn; unfold HDR_SIZE; lia|].
      unfold b_end. cbn [b_addr b_size]. by rewrite Z.add_assoc.
    + apply Forall_forall. intros c Hc. destruct (decide (c = Blk t (tz + z) false)) as [->|Hne].
      * unfold hdr_ok. cbn [b_addr b_size b_used]. by rewrite (wr_here _ _ _ _ Hw).
      * unfold hdr_ok. rewrite Ho by set_solver. apply Hf. set_solver.
  - rewrite Hfl. rewrite free_addrs_app in *. change (free_addrs [Blk t (tz + z) false]) with [t].
    change (free_addrs [Blk t tz false]) with [t] in Hl. apply lseg_app in Hl as (y & Hl1 & -> & Hl2).
    apply lseg_app. exists t. split; [|split; [done|by rewrite (wr_here _ _ _ _ Hw)]].
    eapply lseg_ext; [|exact Hl1]. intros a (c & Hc & _ & <-)%elem_of_free_addrs. apply Ho. set_solver.
  - apply coalesced_app; [by eapply coalesced_app_l|by split|]. intros c d Hc [= <-].
    by apply (coalesced_join _ _ _ _ Hd).
  - unfold used_blocks. rewrite !filter_app. cbn [app]. by rewrite !(filter_cons_False _ (Blk _ _ false)) by done.
  - apply Hk. by left.
Qed.
(** The next free block goes to the end of the list. *)
Lemma enlist_run m d us cur z r s F :
  merging s0 brk m d (us ++ Blk cur z false :: r) s → Forall (λ c, b_used c = true) us →
  (∀ c, last (d ++ us) = Some c → b_used c = true) →
  runs (set_next cur 0) s (λ _ s1, runs (set_link (last (free_addrs d)) cur) s1 (λ _ s', ∃ m',
    merging s0 brk m' (d ++ us ++ [Blk cur z false]) r s' ∧
    same_used (d ++ us ++ Blk cur z false :: r) (d ++ us ++ Blk cur z false :: r) m m') F) F.
Proof.
  intros [Hs Hsh Hl Hd] Hus Hadj. set (bs := d ++ us ++ Blk cur z false :: r) in *.
  assert (Blk cur z false ∈ bs) as Hin by set_solver.
  destruct (block_sizes s0 brk m _ _ s _ Hs Hsh Hin) as (Hc1 & Hc2 & _ & _ & _ & Hc6). cbn [b_addr] in *.
  eapply runs_mono; [apply (set_next_run s0 m _ _ s Hs cur); [done|done|lia]| |by intros ? H'; exact H'].
  intros [] s1 (m1 & Hw1 & Hs1). cbn beta. destruct Hsh as [Ht Hf].
  destruct (write_link m m1 cur _ Hw1 _ _ _ _ Ht Hf Hin) as (Hf1 & Hk1 & Ho1); [done|by eexists|].
  assert (cur ∉ free_addrs d) as Hnew.
  { pose proof (free_addrs_NoDup _ _ _ Ht) as Hn. unfold bs in Hn. rewrite (assoc_L (++)), free_addrs_app, free_addrs_app in Hn.
    apply NoDup_app in Hn as (_ & Hn & _). intros Hd'. apply (Hn cur); [set_solver|]. apply elem_of_free_addrs.
    exists (Blk cur z false). set_solver. }
  assert (∀ p, p ∈ free_addrs d → ∃ c, c ∈ bs ∧ b_addr c = p) as Hfd.
  { intros p (c & ? & _ & ?)%elem_of_free_addrs. exists c. set_solver. }
  eapply runs_mono; [eapply (link_run s0 brk m1 bs); [exact Hs1|done| | |exact Hfd|unfold HEAP_VA_BASE in *; lia]| |by intros ? H'; exact H'].
  { eapply lseg_ext; [|exact Hl]. intros a Ha. destruct (Hfd a Ha) as (c & Hc & <-). apply Ho1; [done|]. congruence. }
  { pose proof (free_addrs_NoDup _ _ _ Ht) as Hn. unfold bs in Hn. rewrite free_addrs_app in Hn. by apply NoDup_app in Hn as (? & _). }
  intros [] s2 (m2 & h2 & [Hs2 Hf2 Hk2 Hl2 Ho2]). exists m2. pose proof (sa_fl _ _ _ _ _ Hs2) as Hfl.
  split; [split|split; [done|by eapply payload_trans]].
  - by rewrite Hfl.
  - rewrite <-!(assoc_L (++)). done.
  - rewrite Hfl, !free_addrs_app, (free_addrs_used us) by done. change (free_addrs [Blk cur z false]) with [cur]. cbn [app].
    apply lseg_app. exists cur. split; [done|]. split; [done|]. pose proof (Ho2 _ Hin Hnew) as Hx. cbn [b_addr] in Hx.
    by rewrite Hx, (wr_here _ _ _ _ Hw1).
  - rewrite (assoc_L (++)). apply coalesced_app.
    + apply coalesced_app; [done|by apply coalesced_used|]. intros c c' _ Hc'. rewrite Forall_forall in Hus.
      destruct us; [done|]. injection Hc' as ->. rewrite (Hus c') by set_solver. apply orb_true_r.
    + by split.
    + intros c c' Hc _. by rewrite (Hadj c Hc).
Qed.

(** When the last listed block does not reach [cur], the block before [cur] is used. *)
Lemma gap_used m d us cur z r s t tz d0 d1 c :
  merging s0 brk m d (us ++ Blk cur z false :: r) s → d = d0 ++ Blk t tz false :: d1 →
  Forall (λ c, b_used c = true) d1 → Forall (λ c, b_used c = true) us →
  t + tz ≠ cur → last (d ++ us) = Some c → b_used c = true.
Proof.
  intros Hm -> Hd1 Hus Hne Hla. destruct (decide (d1 ++ us = [])) as [E|E].
  - apply app_eq_nil in E as [-> ->]. rewrite app_nil_r, last_snoc in Hla. injection Hla as <-. destruct Hne.
    destruct (mg_shaped _ _ _ _ _ _ Hm) as [Ht _]. rewrite <-(assoc_L (++)) in Ht.
    apply tiles_app in Ht as (mid & _ & Em & _ & Ec & _). done.
  - assert (c ∈ d1 ++ us) as Hc.
    { rewrite <-(assoc_L (++)) in Hla. cbn [app] in Hla. rewrite last_app_cons in Hla.
      destruct (d1 ++ us) as [|x y] eqn:E'; [done|]. rewrite last_cons_cons in Hla. by apply last_Some_elem_of. }
    rewrite Forall_forall in Hd1, Hus. apply elem_of_app in Hc as [?|?]; auto.
Qed.
(** When it does, nothing lies between them. *)
Lemma adjacent m d us cur z r s t tz d0 d1 :
  merging s0 brk m d (us ++ Blk cur z false :: r) s → d = d0 ++ Blk t tz false :: d1 → t + tz = cur → d1 = [] ∧ us = [].
Proof.
  intros Hm -> Ec. destruct (mg_shaped _ _ _ _ _ _ Hm) as [Ht _].
  apply app_eq_nil. destruct (d1 ++ us) as [|c l] eqn:E; [done|]. exfalso.
  rewrite <-(assoc_L (++)) in Ht. cbn [app] in Ht. rewrite (assoc_L (++) d1 us), E in Ht. apply tiles_app in Ht as (mid & _ & Em & _ & Ht).
  apply tiles_bounds in Ht as Hb. apply tiles_split in Ht as (_ & _ & _ & Hlt & _).
  destruct (Hlt c) as [H1 H2]; [set_solver|]. destruct Hb as [_ Hb]. destruct (Hb c) as (H3 & _); [set_solver|].
  unfold b_end, HDR_SIZE in *. cbn [b_addr b_size] in *. lia.
Qed.

Definition tail_of (d : list block) : Z := default 0 (last (free_addrs d)).

(** The blocks after the pass: merged, and listed in the order of their addresses. *)
Definition merged (m : mem) (bs : list block) (s' : heap_st) : Prop :=
  ∃ m' bs', heap_at s0 m' bs' (free_addrs bs') s' ∧ heap_brk s' = brk ∧ coalesced bs' ∧ same_used bs bs' m m'.

Lemma merged_trans m m1 bs bs1 s' : same_used bs bs1 m m1 → merged m1 bs1 s' → merged m bs s'.
Proof.
  intros Hs (m' & bs' & Hh & Hb & Hc & Hu). exists m', bs'. split_and!; try done. by eapply same_used_trans.
Qed.

Lemma merged_done m d r s : merging s0 brk m d r s → free_addrs r = [] → merged m (d ++ r) s.
Proof.
  intros [Hs [Ht Hf] Hl Hd] Hr. exists m, (d ++ r). pose proof (sa_brk _ _ _ _ _ Hs) as Hb.
  apply free_addrs_nil in Hr as Hu. split_and!; [split|done| |done].
  - by rewrite Hb.
  - by rewrite Hb.
  - done.
  - by rewrite free_addrs_app, Hr, app_nil_r.
  - done.
  - apply coalesced_app; [done|by apply coalesced_used|]. intros c c' _ Hc'. rewrite Forall_forall in Hu.
    destruct r; [done|]. injection Hc' as ->. rewrite (Hu c') by set_solver. apply orb_true_r.
Qed.

(** Unless the last listed block is just before [cur], [cur] is listed. *)
Lemma rebuild_next m d us cur z r s Q F (k : Z → M heap_st unit) :
  merging s0 brk m d (us ++ Blk cur z false :: r) s → Forall (λ c, b_used c = true) us →
  (∀ t, last (free_addrs d) = Some t → t ≠ 0 ∧ (t + h_size (hdr m t) ≠ cur)) →
  (∀ m' s', merging s0 brk m' (d ++ us ++ [Blk cur z false]) r s' →
     same_used (d ++ us ++ Blk cur z false :: r) (d ++ us ++ Blk cur z false :: r) m m' → runs (k cur) s' Q F) →
  runs (set_next cur 0 ;; (if tail_of d =? 0 then modify (set_freelist cur) else set_next (tail_of d) cur) ;; k cur) s Q F.
Proof.
  intros Hm Hus Hgap Hk. apply runs_bind.
  assert (∀ c, last (d ++ us) = Some c → b_used c = true) as Hadj.
  { intros c Hc. destruct (last (free_addrs d)) as [t|] eqn:E.
    - destruct (last_free _ _ E) as (d0 & tz & d1 & Ed & Hd1). destruct (Hgap t eq_refl) as [_ Hne].
      eapply gap_used; [exact Hm|exact Ed|done|done| |done]. intros <-. destruct Hne. f_equal.
      destruct (mg_shaped _ _ _ _ _ _ Hm) as [_ Hf]. rewrite Forall_forall in Hf.
      destruct (Hf (Blk t tz false)) as [Hz _]; [rewrite Ed; set_solver|]. exact Hz.
    - apply last_None, free_addrs_nil in E. rewrite Forall_forall in E, Hus.
      apply last_Some_elem_of, elem_of_app in Hc as [?|?]; auto. }
  eapply runs_mono; [by apply (enlist_run m d us cur z r s F)| |by intros ? H'; exact H'].
  intros [] s1 H1. cbn beta in *. apply runs_bind.
  assert ((if tail_of d =? 0 then modify (set_freelist cur) else set_next (tail_of d) cur) = set_link (last (free_addrs d)) cur) as ->.
  { unfold tail_of. destruct (last (free_addrs d)) as [t|]; [|done]. destruct (Hgap t eq_refl) as [Ht0 _]. cbn.
    by destruct (Z.eqb_spec t 0). }
  eapply runs_mono; [exact H1| |by intros ? H'; exact H']. intros [] s2 (m2 & Hm2 & Hu2). by apply (Hk m2).
Qed.

Lemma tail_snoc d us cur z : tail_of (d ++ us ++ [Blk cur z false]) = cur.
Proof. unfold tail_of. rewrite (assoc_L (++)), free_addrs_app. change (free_addrs [Blk cur z false]) with [cur]. by rewrite last_snoc. Qed.

Lemma rebuild_run arr m d r s F :
  merging s0 brk m d r s → arr = free_addrs r → runs (rebuild arr (tail_of d)) s (λ _, merged m (d ++ r)) F.
Proof.
  revert m d r s. induction arr as [|cur arr IH]; intros m d r s Hm Harr.
  { eapply runs_ret; [done|]. by apply merged_done. }
  symmetry in Harr. destruct (first_free _ _ _ Harr) as (us & z & r' & -> & Hus & <-). cbn [rebuild].
  pose proof (mg_sat _ _ _ _ _ _ Hm) as Hs. pose proof (mg_shaped _ _ _ _ _ _ Hm) as Hsh.
  assert (∀ m' s', merging s0 brk m' (d ++ us ++ [Blk cur z false]) r' s' →
     same_used (d ++ us ++ Blk cur z false :: r') (d ++ us ++ Blk cur z false :: r') m m' →
     runs (rebuild (free_addrs r') cur) s' (λ _, merged m (d ++ us ++ Blk cur z false :: r')) F) as Hnext.
  { intros m' s' Hm' Hu'. specialize (IH _ _ _ _ Hm' eq_refl). rewrite tail_snoc in IH.
    eapply runs_mono; [exact IH| |by intros ? H'; exact H']. intros [] s''. rewrite <-!(assoc_L (++)). by apply merged_trans. }
  destruct (last (free_addrs d)) as [t|] eqn:E.
  - assert (tail_of d = t) as Et by (unfold tail_of; by rewrite E). destruct (last_free _ _ E) as (d0 & tz & d1 & Ed & Hd1).
    assert (Blk t tz false ∈ d ++ us ++ Blk cur z false :: r') as Hin by (rewrite Ed; set_solver).
    destruct (block_sizes s0 brk m _ _ s _ Hs Hsh Hin) as (Ht1 & Ht2 & Ht3 & Ht4 & Ht5 & _). unfold b_end in Ht3. cbn [b_addr b_size] in *.
    assert (h_size (hdr m t) = tz) as Hz.
    { destruct Hsh as [_ Hf]. rewrite Forall_forall in Hf. by destruct (Hf _ Hin). }
    assert (t ≠ 0) as Ht0 by (intros ->; by unfold HEAP_VA_BASE in Ht1).
    rewrite Et. pose proof (proj2 (Z.eqb_neq _ _) Ht0) as Htb. rewrite Htb.
    eapply runs_bind_Ok; [apply (get_size_run s0 m _ _ s Hs); done|]. cbn [negb andb]. rewrite Hz.
    rewrite addw_heap by (unfold HDR_SIZE in *; lia). destruct (Z.eqb_spec (t + tz) cur) as [Ec|Ec].
    + destruct (adjacent m d us cur z r' s t tz d0 d1 Hm Ed Ec) as [-> ->]. subst d. cbn [app] in *.
      assert (Blk cur z false ∈ (d0 ++ [Blk t tz false]) ++ Blk cur z false :: r') as Hin' by set_solver.
      destruct (block_sizes s0 brk m _ _ s _ Hs Hsh Hin') as (Hc1 & Hc2 & _). cbn [b_addr] in *.
      assert (h_size (hdr m cur) = z) as Hz'.
      { destruct Hsh as [_ Hf]. rewrite Forall_forall in Hf. by destruct (Hf _ Hin'). }
      eapply runs_bind_Ok; [apply (get_size_run s0 m _ _ s Hs); done|]. rewrite Hz'. apply runs_bind.
      eapply runs_mono; [by apply (absorb_run m d0 t tz cur z r' s F)| |by intros ? H'; exact H'].
      intros [] s1 (m1 & Hm1 & Hu1). specialize (IH _ _ _ _ Hm1 eq_refl). pose proof (tail_snoc d0 [] t (tz + z)) as Etl.
      cbn [app] in Etl. rewrite Etl in IH.
      cbn beta. eapply runs_mono; [exact IH| |by intros ? H'; exact H']. intros [] s2. rewrite <-!(assoc_L (++)). by apply merged_trans.
    + pose proof (rebuild_next m d us cur z r' s (λ _, merged m (d ++ us ++ Blk cur z false :: r')) F (rebuild (free_addrs r')) Hm Hus) as Hn.
      rewrite Et, Htb in Hn. apply Hn; [|exact Hnext]. intros t' Ht'. rewrite E in Ht'. injection Ht' as <-. split; [done|]. by rewrite Hz.
  - assert (tail_of d = 0) as Et by (unfold tail_of; by rewrite E).
    pose proof (rebuild_next m d us cur z r' s (λ _, merged m (d ++ us ++ Blk cur z false :: r')) F (rebuild (free_addrs r')) Hm Hus) as Hn.
    rewrite Et in *. cbn [Z.eqb negb andb]. eapply runs_bind_Ok; [done|]. apply Hn; [|exact Hnext]. intros t'. by rewrite E.
Qed.
End merge.

End HeapFree.
