(* ===== verification/HeapProps.v ===== *)
(** * Properties of the kernel heap *)

From stdpp Require Import sorting.
From S2P Require Import Prelude Lib Pmm PmmFacts Vmm PageTables VmmFacts VmmProps SpaceProps Heap VirtMem.
From S2P Require Import HeapFacts HeapAlloc HeapFree.

Module HeapProps.
Import Lib Pmm PmmFacts Vmm PageTables VmmFacts VmmProps SpaceProps Heap VirtMem HeapFacts HeapAlloc HeapFree.

(** A heap made of the blocks [bs], with memory [m] and free list [fl]. *)
Definition heap_ok (m : mem) (bs : list block) (fl : list Z) (s : heap_st) : Prop := heap_at s m bs fl s.

(** Some free block has [need] bytes. *)
Definition fits (bs : list block) (need : Z) : bool :=
  existsb (λ c, negb (b_used c) && (need <=? b_size c)) bs.

(** [p] is the payload of a new used block; the other used blocks are the old
    ones with their contents. *)
Definition allocated (s0 : heap_st) (m : mem) (bs : list block) (n p : Z) (s' : heap_st) : Prop :=
  ∃ m' bs' fl' c, heap_at s0 m' bs' fl' s' ∧ used_blocks bs' ≡ₚ c :: used_blocks bs ∧
    p = b_addr c + HDR_SIZE ∧ n + HDR_SIZE ≤ b_size c < n + HDR_SIZE + 32 ∧ payload_kept bs m m'.

(** ** Allocation *)

Lemma fits_true bs need : fits bs need = true ↔ ∃ c, c ∈ bs ∧ b_used c = false ∧ need ≤ b_size c.
Proof.
  unfold fits. rewrite existsb_exists. split; intros (c & Hc & H); exists c; rewrite list_elem_of_In in *;
    rewrite ?andb_true_iff, ?negb_true_iff, ?Z.leb_le in *; done.
Qed.

Lemma too_small_fits s0 m bs fl s need :
  heap_at s0 m bs fl s → too_small bs need fl → fits bs need = false.
Proof.
  intros Hh Hsm. apply not_true_iff_false. intros (c & Hc & Hu & Hn)%fits_true.
  assert (b_addr c ∈ fl) as Hfl by (rewrite (hp_free _ _ _ _ _ Hh); apply elem_of_free_addrs; eauto).
  specialize (Hsm c Hc Hu Hfl). lia.
Qed.

Lemma found_allocated s0 m bs fl n s p s' :
  found s0 m bs fl (n + HDR_SIZE) s p s' →
  allocated s0 m bs n p s' ∧ heap_brk s' = heap_brk s ∧ fits bs (n + HDR_SIZE) = true.
Proof.
  intros (l & r & b & size & pre & suf & -> & -> & _ & Hle & -> & m' & Hh & Hk & Hb).
  split_and!; [|done|apply fits_true; exists (Blk b size false); set_solver].
  eexists m', _, _, (Blk b (if splits size (n + HDR_SIZE) then n + HDR_SIZE else size) true).
  split_and!; [exact Hh| |done| | |exact Hk]; cbn [b_size]; unfold taken_blocks, used_blocks, splits.
  - rewrite !filter_app, (filter_cons_False _ (Blk b size false)) by done.
    destruct (HDR_SIZE + 16 <=? size - (n + HDR_SIZE)); rewrite filter_cons_True by done;
      rewrite ?(filter_cons_False _ (Blk _ _ false)) by done; rewrite filter_nil; cbn [app]; by rewrite <-Permutation_middle.
  - destruct (HDR_SIZE + 16 <=? _); lia.
  - unfold HDR_SIZE in *. case_zbool; lia.
Qed.

Lemma head_range s0 m bs fl s : heap_at s0 m bs fl s → 0 ≤ freelist s < 2 ^ 64.
Proof.
  intros Hh. pose proof (hp_list _ _ _ _ _ Hh) as Hl. destruct fl as [|a fl]; cbn [lseg] in Hl; [lia|].
  destruct Hl as [-> _]. assert (a ∈ free_addrs bs) as Ha by (rewrite <-(hp_free _ _ _ _ _ Hh); set_solver).
  apply elem_of_free_addrs in Ha as (c & Hc & _ & <-).
  destruct (block_sizes s0 _ m bs _ s c (hp_sat _ _ _ _ _ Hh)) as (? & _ & _ & _ & _ & ?); [split; apply Hh|done|].
  unfold HEAP_VA_BASE in *. lia.
Qed.

(** A block appended to the heap, in front of the free list. *)
Lemma append_block s0 m m' bs fl s s' size :
  heap_at s0 m bs fl s → let nb := heap_brk s in
  sat s0 m' nb (nb + size) s' → HDR_SIZE < size →
  hdr m' nb = Header size BMAGIC_FREE (freelist s) → (∀ a, a < nb → ld8 m' a = ld8 m a) →
  heap_at s0 m' (bs ++ [Blk nb size false]) (nb :: fl) s' ∧ payload_kept bs m m'.
Proof.
  intros [Hs Ht Hf Hl Hp] nb Hs' Hsz Hhd Hlow. apply tiles_bounds in Ht as Hbd. destruct Hbd as [_ Hbd].
  assert (∀ c, c ∈ bs → hdr m' (b_addr c) = hdr m (b_addr c)) as Ho.
  { intros c Hc. apply hdr_ext. intros a Ha. apply Hlow. specialize (Hbd c Hc). unfold b_end, nb in *. lia. }
  split; [split|].
  - by rewrite (sa_fl _ _ _ _ _ Hs'), (sa_brk _ _ _ _ _ Hs').
  - rewrite (sa_brk _ _ _ _ _ Hs'). apply tiles_app. exists nb. done.
  - apply Forall_app. split; [|by constructor; [unfold hdr_ok; cbn [b_addr]; rewrite Hhd|]].
    rewrite Forall_forall in *. intros c Hc. unfold hdr_ok. rewrite Ho by done. by apply Hf.
  - rewrite (sa_fl _ _ _ _ _ Hs'). split; [done|]. rewrite Hhd. eapply lseg_ext; [|exact Hl].
    intros a Ha. rewrite Hp in Ha. apply elem_of_free_addrs in Ha as (c & Hc & _ & <-). by apply Ho.
  - by rewrite free_addrs_mid, app_nil_r, Hp.
  - intros c a Hc Hu Ha. apply Hlow. specialize (Hbd c Hc). unfold nb. lia.
Qed.

(** The heap grows by a chunk. *)
Lemma add_chunk {A} (k : M heap_st A) s0 m bs fl s Q (F : stop → Prop) :
  heap_at s0 m bs fl s → heap_brk s + SUPER_PAGES * UIX_PAGE_SIZE ≤ HEAP_VA_END → (∀ w, oom w → F w) →
  let size := SUPER_PAGES * UIX_PAGE_SIZE in
  (∀ m' s', heap_at s0 m' (bs ++ [Blk (heap_brk s) size false]) (heap_brk s :: fl) s' →
     payload_kept bs m m' → heap_brk s' = heap_brk s + size → runs k s' Q F) →
  runs (grow SUPER_PAGES ;;
        brk ← gets heap_brk;
        let nb := brk -w size in
        set_size nb size ;; set_magic nb BMAGIC_FREE ;;
        fl ← gets freelist;
        set_next nb fl ;; modify (set_freelist nb) ;; k) s Q F.
Proof.
  intros Hh Hlim HF size Hk. pose proof (hp_sat _ _ _ _ _ Hh) as Hs. pose proof (head_range _ _ _ _ _ Hh) as Hfr.
  pose proof (sa_low _ _ _ _ _ Hs) as Hb1. set (nb := heap_brk s) in *.
  assert (HDR_SIZE < size < 2 ^ 32) as Hsz by done. assert (nb + HDR_SIZE ≤ nb + size) as Hb2 by lia.
  apply runs_bind. eapply runs_mono; [apply (grow_run s0 m _ _ s SUPER_PAGES Hs); done| |exact HF].
  intros [] s1 (m1 & Hs1 & Heq1). cbn beta. fold size nb in Hs1, Heq1.
  eapply runs_bind_Ok; [done|]. rewrite (sa_brk _ _ _ _ _ Hs1). cbn zeta.
  assert (nb + size -w size = nb) as ->.
  { fold size in Hlim. unfold HEAP_VA_BASE, HEAP_VA_END, HDR_SIZE in *. rewrite wrap64_small; lia. }
  apply runs_bind. eapply runs_mono; [apply (set_size_run s0 m1 _ _ s1 Hs1 nb); [done|done|unfold HDR_SIZE in *; lia]| |by intros ? H'; exact H'].
  intros [] s2 (m2 & Hw2 & Hs2). cbn beta.
  apply runs_bind. eapply runs_mono; [apply (set_magic_run s0 m2 _ _ s2 Hs2 nb); [done|done|unfold BMAGIC_FREE; lia]| |by intros ? H'; exact H'].
  intros [] s3 (m3 & Hw3 & Hs3). cbn beta. eapply runs_bind_Ok; [done|]. rewrite (sa_fl _ _ _ _ _ Hs3).
  apply runs_bind. eapply runs_mono; [apply (set_next_run s0 m3 _ _ s3 Hs3 nb); done| |by intros ? H'; exact H'].
  intros [] s4 (m4 & Hw4 & Hs4). cbn beta. eapply runs_bind_Ok; [done|].
  rewrite (wr_here _ _ _ _ Hw3), (wr_here _ _ _ _ Hw2) in Hw4.
  pose proof (wrote_trans _ _ _ _ _ _ (wrote_trans _ _ _ _ _ _ Hw2 Hw3) Hw4) as Hw.
  apply (set_freelist_sat _ _ _ _ _ nb) in Hs4 as Hs5.
  destruct (append_block s0 m m4 bs fl s _ size Hh Hs5) as [Hh5 Hp5]; [lia|apply Hw| |].
  - intros a Ha. rewrite (wr_out _ _ _ _ Hw) by lia. by apply Heq1.
  - apply (Hk m4); [done|done|]. apply (sa_brk _ _ _ _ _ Hs5).
Qed.

Definition kmalloc_post (s0 : heap_st) (m : mem) (bs : list block) (n brk p : Z) (s' : heap_st) : Prop :=
  allocated s0 m bs n p s' ∧
  heap_brk s' = if fits bs (n + HDR_SIZE) then brk else brk + SUPER_PAGES * UIX_PAGE_SIZE.

Lemma search_run s0 m bs fl s n F :
  heap_at s0 m bs fl s → 1 ≤ n →
  runs (find_fit (heap_fuel s) None (freelist s) (n + HDR_SIZE)) s (λ o s',
    match o with
    | Some p => allocated s0 m bs n p s' ∧ heap_brk s' = heap_brk s ∧ fits bs (n + HDR_SIZE) = true
    | None => s' = s ∧ fits bs (n + HDR_SIZE) = false
    end) F.
Proof.
  intros Hh Hn. eapply runs_mono; [apply (find_fit_run s0 m bs (n + HDR_SIZE) s F (heap_fuel s) [] fl (freelist s))| |by intros ? H'; exact H'].
  - done.
  - apply Hh.
  - by intros c _ _ ?%not_elem_of_nil.
  - lia.
  - by eapply heap_fuel_enough.
  - intros [p|] s'; [by apply found_allocated|]. intros [-> Hsm]. split; [done|]. by eapply too_small_fits.
Qed.

Lemma allocated_grown s0 m m1 bs nb size n p s' :
  payload_kept bs m m1 → allocated s0 m1 (bs ++ [Blk nb size false]) n p s' → allocated s0 m bs n p s'.
Proof.
  intros Hk (m' & bs' & fl' & c & Hh & Hu & Hp & Hz & Hk'). exists m', bs', fl', c.
  assert (used_blocks (bs ++ [Blk nb size false]) = used_blocks bs) as E.
  { unfold used_blocks. rewrite filter_app, filter_cons_False by done. apply app_nil_r. }
  rewrite E in Hu. split_and!; try done; try apply Hz. eapply payload_trans; [exact Hk|exact Hk'|]. by rewrite E.
Qed.

Lemma kmalloc_run s0 m bs fl s n :
  heap_at s0 m bs fl s → 1 ≤ n → n + HDR_SIZE ≤ HEAP_MAX →
  heap_brk s + SUPER_PAGES * UIX_PAGE_SIZE ≤ HEAP_VA_END →
  runs (kmalloc n) s (kmalloc_post s0 m bs n (heap_brk s)) (λ w, oom w ∧ fits bs (n + HDR_SIZE) = false).
Proof.
  intros Hh Hn Hmax Hlim. unfold HDR_SIZE, HEAP_MAX in Hmax.
  assert ((n =? 0) || (HEAP_MAX <? n +w HDR_SIZE) = false) as Hg.
  { unfold HEAP_MAX, HDR_SIZE. rewrite wrap64_small by lia. case_zbool; simpl; done || lia. }
  assert (wrap32 (wrap32 n + HDR_SIZE) = n + HDR_SIZE) as Hneed.
  { unfold HDR_SIZE. rewrite (wrap32_small n), wrap32_small; lia. }
  unfold kmalloc. cbn [kmalloc_rounds]. rewrite Hg, Hneed. cbn zeta.
  eapply runs_bind_Ok; [done|]. eapply runs_bind_Ok; [done|].
  apply runs_bind. eapply runs_mono; [by eapply search_run| |by intros ? H'; exact H'].
  intros [p|] s'; cbn beta iota.
  - intros (Ha & Hb & Hf). eapply runs_ret; [done|]. split; [done|]. by rewrite Hf.
  - intros [-> Hf]. eapply (add_chunk _ s0 m bs fl s); [done|done|done|]. intros m1 s1 Hh1 Hk1 Hb1.
    eapply runs_bind_Ok; [done|]. eapply runs_bind_Ok; [done|].
    apply runs_bind. eapply runs_mono; [by eapply search_run| |by intros ? H'; exact H'].
    intros [p|] s2; cbn beta iota.
    + intros (Ha & Hb & _). eapply runs_ret; [done|]. split; [by eapply allocated_grown|]. by rewrite Hf, Hb.
    + intros [_ Hno]. exfalso. apply not_true_iff_false in Hno. apply Hno, fits_true.
      eexists. split; [apply elem_of_app; right; by apply list_elem_of_singleton|]. split; [done|].
      cbn [b_size]. unfold SUPER_PAGES, UIX_PAGE_SIZE, HDR_SIZE. lia.
Qed.

(** ** Initialisation *)

Lemma heap_init_run s m :
  holds (hvm s) HEAP_VA_BASE HEAP_VA_BASE HEAP_VA_END m →
  let size := SUPER_PAGES * UIX_PAGE_SIZE in
  runs heap_init s (λ _ s', ∃ m', heap_at (set_brk HEAP_VA_BASE s) m' [Blk HEAP_VA_BASE size false] [HEAP_VA_BASE] s' ∧
    heap_brk s' = HEAP_VA_BASE + size) oom.
Proof.
  intros Hh size. unfold heap_init. eapply runs_bind_Ok; [done|]. set (s0 := set_brk HEAP_VA_BASE s).
  assert (sat s0 m (freelist s) HEAP_VA_BASE s0) as Hs0 by (split; try done; apply spared_refl).
  apply runs_bind. eapply runs_mono; [apply (grow_run s0 m _ _ s0 SUPER_PAGES Hs0); done| |by intros ? H'; exact H'].
  intros [] s1 (m1 & Hs1 & _). cbn beta. fold size in Hs1. eapply runs_bind_Ok; [done|].
  apply (set_freelist_sat _ _ _ _ _ HEAP_VA_BASE) in Hs1. fold size.
  apply runs_bind. eapply runs_mono; [apply (set_size_run s0 m1 _ _ _ Hs1); done| |by intros ? H'; exact H'].
  intros [] s2 (m2 & Hw2 & Hs2). cbn beta.
  apply runs_bind. eapply runs_mono; [apply (set_magic_run s0 m2 _ _ _ Hs2); done| |by intros ? H'; exact H'].
  intros [] s3 (m3 & Hw3 & Hs3). cbn beta.
  apply runs_bind. eapply runs_mono; [apply (set_next_run s0 m3 _ _ _ Hs3); done| |by intros ? H'; exact H'].
  intros [] s4 (m4 & Hw4 & Hs4). cbn beta. eapply runs_ret; [done|]. exists m4.
  set (s5 := set_hvm _ s4). assert (sat s0 m4 HEAP_VA_BASE (HEAP_VA_BASE + size) s5) as Hs5.
  { destruct Hs4 as [Hh4 Hsp4 Hfl4 Hb4 Hl4 Hp4].
    destruct (holds_step0 _ _ _ _ _ _ Hh4 (step_out _ (out (vp (hvm s4)) ++ [KPrintf "[info] heap: %u KiB ready\n"
      [KU (SUPER_PAGES * UIX_PAGE_SIZE / 1024)]]) (wv_pmm _ (hd_wf _ _ _ _ _ Hh4)))) as [Hh5 Hsp5].
    split; [exact Hh5|eapply spared_trans; [exact Hsp4|exact Hsp5]|done..]. }
  pose proof (sa_brk _ _ _ _ _ Hs5) as Hb. pose proof (sa_fl _ _ _ _ _ Hs5) as Hfl.
  rewrite (wr_here _ _ _ _ Hw3), (wr_here _ _ _ _ Hw2) in Hw4. split; [split|exact Hb].
  - by rewrite Hb, Hfl.
  - by rewrite Hb.
  - constructor; [|done]. unfold hdr_ok. cbn [b_addr b_size b_used]. by rewrite (wr_here _ _ _ _ Hw4).
  - rewrite Hfl. split; [done|]. by rewrite (wr_here _ _ _ _ Hw4).
  - done.
Qed.

(** ** Freeing *)

Lemma kfree_addr s0 m l b z u r fl s :
  heap_at s0 m (l ++ Blk b z u :: r) fl s → (b + HDR_SIZE =? 0) = false ∧ b + HDR_SIZE -w HDR_SIZE = b ∧
  get_magic b s = Ok (magic_of u) s ∧ HEAP_VA_BASE ≤ b ∧ b + HDR_SIZE ≤ heap_brk s.
Proof.
  intros Hh. assert (shaped m (l ++ Blk b z u :: r) (heap_brk s)) as Hsh by (split; apply Hh).
  destruct (block_sizes s0 _ m _ _ s (Blk b z u) (hp_sat _ _ _ _ _ Hh) Hsh) as (Hz1 & Hz2 & _ & Hz4 & _); [set_solver|].
  cbn [b_addr] in *. split_and!; [| | |done|done].
  - apply Z.eqb_neq. unfold HEAP_VA_BASE, HDR_SIZE in *. lia.
  - unfold HEAP_VA_BASE, HEAP_VA_END, HDR_SIZE in *. rewrite wrap64_small; lia.
  - rewrite (get_magic_run s0 m _ _ s (hp_sat _ _ _ _ _ Hh)) by done. destruct Hsh as [_ Hf]. rewrite Forall_forall in Hf.
    destruct (Hf (Blk b z u)) as [_ E]; [set_solver|]. cbn [b_addr b_used] in E. by rewrite E.
Qed.

(** Up to the array of free blocks. *)
Lemma kfree_collect s0 m l b z r fl s F Q :
  heap_at s0 m (l ++ Blk b z true :: r) fl s →
  (∀ m1 s1, sat s0 m1 (freelist s) (heap_brk s) s1 → shaped m1 (l ++ Blk b z false :: r) (heap_brk s) →
     payload_kept (l ++ Blk b z true :: r) m m1 →
     runs (if ARR_LEN <=? Z.of_nat (length (take 256 fl)) then undef "kfree: arr[256]"
           else modify (set_freelist 0) ;; rebuild (sort_blocks (take 256 fl ++ [b])) 0) s1 Q F) →
  runs (kfree (b + HDR_SIZE)) s Q F.
Proof.
  intros Hh Hk. destruct (kfree_addr _ _ _ _ _ _ _ _ _ Hh) as (E0 & Eb & Emg & Hb1 & Hb2). unfold kfree. rewrite E0. cbn zeta. rewrite Eb.
  eapply runs_bind_Ok; [exact Emg|]. cbn [magic_of]. rewrite Z.eqb_refl. cbn [negb].
  pose proof (hp_sat _ _ _ _ _ Hh) as Hs. assert (shaped m (l ++ Blk b z true :: r) (heap_brk s)) as Hsh by (split; apply Hh).
  apply runs_bind. eapply runs_mono; [apply (set_magic_run s0 m _ _ _ Hs); [done|done|done]| |by intros ? H'; exact H'].
  intros [] s1 (m1 & Hw1 & Hs1). cbn beta.
  assert (h_size (hdr m b) = z) as Hz.
  { destruct Hsh as [_ Hf]. rewrite Forall_forall in Hf. destruct (Hf (Blk b z true)) as [E _]; [set_solver|]. exact E. }
  unfold with_magic in Hw1. rewrite Hz in Hw1.
  destruct (mark_block (heap_brk s) m m1 l b z r true false _ Hsh Hw1) as (Hsh1 & Hk1 & Ho1).
  eapply runs_bind_Ok; [done|]. rewrite (sa_fl _ _ _ _ _ Hs1).
  assert (∀ x, x ∈ fl → ∃ c, c ∈ l ++ r ∧ b_addr c = x) as Hfl.
  { intros x Hx. rewrite (hp_free _ _ _ _ _ Hh) in Hx. rewrite free_addrs_mid in Hx. cbn [b_used app] in Hx.
    apply elem_of_free_addrs in Hx as (c & ? & _ & ?). eauto. }
  eapply runs_bind_Ok.
  - eapply (collect_run s0 m1 _ _ _ s1 _ _ fl Hs1 Hsh1).
    + eapply lseg_ext; [|apply Hh]. intros a Ha. destruct (Hfl a Ha) as (c & Hc & <-). by apply Ho1.
    + intros x Hx. destruct (Hfl x Hx) as (c & ? & ?). exists c. set_solver.
  - by apply (Hk m1).
Qed.

Lemma kfree_run s0 m l b z r fl s F :
  heap_at s0 m (l ++ Blk b z true :: r) fl s → Z.of_nat (length fl) < ARR_LEN →
  runs (kfree (b + HDR_SIZE)) s (λ _ s', ∃ m' bs', heap_at s0 m' bs' (free_addrs bs') s' ∧ heap_brk s' = heap_brk s ∧
    coalesced bs' ∧ used_blocks (l ++ Blk b z true :: r) ≡ₚ Blk b z true :: used_blocks bs' ∧
    payload_kept bs' m m') F.
Proof.
  intros Hh Hlen. unfold ARR_LEN in Hlen. apply (kfree_collect _ _ _ _ _ _ _ _ _ _ Hh).
  intros m1 s1 Hs1 Hsh1 Hk1. rewrite take_ge by lia.
  rewrite (proj2 (Z.leb_gt _ _)) by (unfold ARR_LEN; lia).
  rewrite (sort_blocks_unique _ (free_addrs (l ++ Blk b z false :: r))); [|exact (free_addrs_sorted _ _ _ (proj1 Hsh1))|].
  - eapply runs_bind_Ok; [done|]. apply (set_freelist_sat _ _ _ _ _ 0) in Hs1.
    eapply runs_mono; [apply (rebuild_run s0 (heap_brk s) _ m1 [] (l ++ Blk b z false :: r)); [by split|done]| |by intros ? H'; exact H'].
    intros [] s' (m' & bs' & Hh' & Hb & Hc & Hu & Hk). exists m', bs'. cbn [app] in Hu, Hk.
    assert (used_blocks (l ++ Blk b z true :: r) ≡ₚ Blk b z true :: used_blocks (l ++ Blk b z false :: r)) as Hp.
    { unfold used_blocks. rewrite !filter_app, filter_cons_True, filter_cons_False by done. by rewrite <-Permutation_middle. }
    split_and!; [done|done|done|by rewrite Hu|]. intros c a Hc' Huc Ha.
    assert (c ∈ used_blocks (l ++ Blk b z false :: r)) as Hc2 by (rewrite <-Hu; by apply list_elem_of_filter).
    rewrite (Hk c a); [apply (Hk1 c a); [|done|done]|by apply list_elem_of_filter in Hc2 as [_ ?]|done|done].
    assert (c ∈ used_blocks (l ++ Blk b z true :: r)) as Hc3 by (rewrite Hp; set_solver). by apply list_elem_of_filter in Hc3 as [_ ?].
  - rewrite free_addrs_mid. cbn [b_used b_addr]. rewrite (hp_free _ _ _ _ _ Hh), free_addrs_mid. cbn [b_used app].
    by rewrite <-Permutation_cons_append.
Qed.

Lemma kfree_overflow s0 m l b z r fl s :
  heap_at s0 m (l ++ Blk b z true :: r) fl s → ARR_LEN ≤ Z.of_nat (length fl) →
  runs (kfree (b + HDR_SIZE)) s (λ _ _, False) (λ w, w = Undef "kfree: arr[256]").
Proof.
  intros Hh Hlen. unfold ARR_LEN in Hlen. apply (kfree_collect _ _ _ _ _ _ _ _ _ _ Hh).
  intros m1 s1 _ _ _. rewrite length_take_le by lia. done.
Qed.

Lemma heap_at_self s0 m bs fl s : heap_at s0 m bs fl s → heap_ok m bs fl s.
Proof. intros [[] ? ? ? ?]. split; [|done..]. by split. Qed.

(** ** Sequences of operations *)

(** The states reached from [s0] by [heap_init], then allocations and frees of
    blocks in use, with the pointers in use and the sizes asked for. *)
Inductive heap_run (s0 : heap_st) : heap_st → list (Z * Z) → Prop :=
  | hr_init s : heap_init s0 = Ok tt s → heap_run s0 s []
  | hr_kmalloc s O n p s' :
      heap_run s0 s O → heap_brk s + SUPER_PAGES * UIX_PAGE_SIZE ≤ HEAP_VA_END →
      0 ≤ n → n + HDR_SIZE < 2 ^ 64 → kmalloc n s = Ok p s' →
      heap_run s0 s' (if p =? 0 then O else (p, n) :: O)
  | hr_kfree s O1 p n O2 s' :
      heap_run s0 s (O1 ++ (p, n) :: O2) → kfree p s = Ok tt s' → heap_run s0 s' (O1 ++ O2).

(** The pointer and the block behind it. *)
Definition behind (x : Z * Z) (c : block) : Prop := x.1 = b_addr c + HDR_SIZE ∧ x.2 + HDR_SIZE ≤ b_size c.

Definition tracked (s0 s : heap_st) (O : list (Z * Z)) : Prop :=
  ∃ m bs fl us, heap_at (set_brk HEAP_VA_BASE s0) m bs fl s ∧ used_blocks bs ≡ₚ us ∧ Forall2 behind O us.

Lemma tracked_kmalloc s0 s O n p s' :
  tracked s0 s O → heap_brk s + SUPER_PAGES * UIX_PAGE_SIZE ≤ HEAP_VA_END → 0 ≤ n → n + HDR_SIZE < 2 ^ 64 →
  kmalloc n s = Ok p s' → tracked s0 s' (if p =? 0 then O else (p, n) :: O).
Proof.
  intros (m & bs & fl & us & Hh & Hu & HO) Hlim Hn Hw He.
  destruct (decide (1 ≤ n ∧ n + HDR_SIZE ≤ HEAP_MAX)) as [[H1 H2]|Hno].
  - pose proof (kmalloc_run _ _ _ _ _ _ Hh H1 H2 Hlim) as Hr. unfold runs in Hr. rewrite He in Hr.
    destruct Hr as [(m' & bs' & fl' & c & Hh' & Hu' & -> & Hz & _) _].
    assert (c ∈ bs') as Hc by (apply (list_elem_of_filter (λ c, b_used c = true)); fold (used_blocks bs'); rewrite Hu'; set_solver).
    destruct (tiles_bounds _ _ _ (hp_tiles _ _ _ _ _ Hh')) as [_ Hb]. specialize (Hb c Hc).
    rewrite (proj2 (Z.eqb_neq _ _)) by (unfold HEAP_VA_BASE, HDR_SIZE in *; lia).
    exists m', bs', fl', (c :: us). split_and!; [done|by rewrite Hu', Hu|]. constructor; [|done]. split; cbn; [done|lia].
  - assert (kmalloc n s = Ok 0 s) as E.
    { unfold kmalloc. cbn [kmalloc_rounds]. unfold HDR_SIZE, HEAP_MAX in *. rewrite (wrap64_small (n + 16)) by lia.
      assert ((n =? 0) || (32 * 1024 <? n + 16) = true) as ->; [|done]. case_zbool; simpl; done || lia. }
    rewrite E in He. injection He as <- <-. by exists m, bs, fl, us.
Qed.

Lemma tracked_kfree s0 s O1 p n O2 s' :
  tracked s0 s (O1 ++ (p, n) :: O2) → kfree p s = Ok tt s' → tracked s0 s' (O1 ++ O2).
Proof.
  intros (m & bs & fl & us & Hh & Hu & HO) He. apply Forall2_app_inv_l in HO as (us1 & us2' & HO1 & HO2 & ->).
  apply Forall2_cons_inv_l in HO2 as ([b z u] & us2 & [Hp _] & HO2 & ->). cbn in Hp. subst p.
  assert (Blk b z u ∈ used_blocks bs) as [Hub Hc]%list_elem_of_filter by (rewrite Hu; set_solver). cbn in Hub. subst u.
  apply list_elem_of_split in Hc as (l & r & ->).
  assert (Z.of_nat (length fl) < ARR_LEN) as Hlen.
  { apply Z.nle_gt. intros Hge. pose proof (kfree_overflow _ _ _ _ _ _ _ _ Hh Hge) as Hr. unfold runs in Hr. by rewrite He in Hr. }
  pose proof (kfree_run _ _ _ _ _ _ _ _ (λ _, False) Hh Hlen) as Hr. unfold runs in Hr. rewrite He in Hr.
  destruct Hr as (m' & bs' & Hh' & _ & _ & Hu' & _). exists m', bs', (free_addrs bs'), (us1 ++ us2).
  split_and!; [done| |by apply Forall2_app]. rewrite Hu, <-Permutation_middle in Hu'. by apply Permutation_cons_inv in Hu'.
Qed.

Lemma heap_run_tracked s0 m s O :
  holds (hvm s0) HEAP_VA_BASE HEAP_VA_BASE HEAP_VA_END m → heap_run s0 s O → tracked s0 s O.
Proof.
  intros Hh. induction 1 as [s He|s O n p s' _ IH Hlim Hn Hw He|s O1 p n O2 s' _ IH He].
  - pose proof (heap_init_run s0 m Hh) as Hr. unfold runs in Hr. rewrite He in Hr. destruct Hr as (m' & Hh' & _).
    by eexists m', _, _, [].
  - by eapply tracked_kmalloc.
  - by eapply tracked_kfree.
Qed.

Lemma tiles_disjoint lo bs hi c d : tiles lo bs hi → c ∈ bs → d ∈ bs → c ≠ d → b_end c ≤ b_addr d ∨ b_end d ≤ b_addr c.
Proof.
  intros Ht (l & r & ->)%list_elem_of_split Hd Hne. destruct (tiles_split _ _ _ _ _ Ht) as (_ & _ & _ & Hl & Hr).
  apply elem_of_app in Hd as [Hd|[->|Hd]%elem_of_cons]; [right; by apply Hl|done|left; by apply Hr].
Qed.

Lemma tiles_NoDup lo bs hi : tiles lo bs hi → NoDup bs.
Proof.
  revert lo. induction bs as [|c bs IH]; intros lo; [constructor|]. cbn [tiles]. intros (<- & Hz & Ht). constructor; [|by eapply IH].
  intros Hc. apply tiles_bounds in Ht as [_ Hb]. specialize (Hb c Hc). unfold b_end, HDR_SIZE in *. lia.
Qed.

(** ** Machines for the witnesses *)

Definition heap0 : heap_st := HeapSt vm_st 0 0.

Lemma heap0_holds : holds (hvm heap0) HEAP_VA_BASE HEAP_VA_BASE HEAP_VA_END ∅.
Proof.
  split; [apply vm_st_wf| | | |done|done].
  - split; [intros; lia..|done].
  - intros. lia.
  - intros va _. split; [apply walk_empty|apply wtab_empty]; apply vm_st_empty.
Qed.

Definition heap1 : heap_st := match heap_init heap0 with Ok _ s => s | Stop _ s => s end.

Lemma heap1_run : heap_init heap0 = Ok tt heap1.
Proof.
  assert (match heap_init heap0 with Ok _ _ => true | Stop _ _ => false end = true) as E by (vm_compute; reflexivity).
  unfold heap1. destruct (heap_init heap0) as [[] s|w s]; [reflexivity|discriminate].
Qed.

Lemma heap1_at : ∃ m, heap_at (set_brk HEAP_VA_BASE heap0) m [Blk HEAP_VA_BASE (SUPER_PAGES * UIX_PAGE_SIZE) false] [HEAP_VA_BASE] heap1.
Proof.
  destruct (runs_inv _ _ _ _ _ _ (heap_init_run heap0 ∅ heap0_holds) heap1_run) as (m & Hh & _). exists m. exact Hh.
Qed.

(** The heap after one block of 116 bytes is taken. *)
Definition heap2 : heap_st := match take_block None HEAP_VA_BASE 116 heap1 with Ok _ s => s | Stop _ s => s end.

Definition heap2_blocks : list block := [Blk HEAP_VA_BASE 116 true; Blk (HEAP_VA_BASE + 116) 65420 false].

Lemma heap2_at : ∃ s0 m, heap_at s0 m heap2_blocks [HEAP_VA_BASE + 116] heap2.
Proof.
  destruct heap1_at as [m Hm]. pose proof (take_block_run _ m [] [] HEAP_VA_BASE _ 116 [] [] heap1 Hm eq_refl ltac:(done) (λ _, False)) as Hr.
  apply runs_Ok in Hr as [(p & s' & He & _ & m' & Hh & _)|(? & ? & _ & [])]. eexists _, m'.
  unfold heap2. change (last []) with (@None Z) in He. rewrite He. exact Hh.
Qed.

Definition got (n : Z) (s : heap_st) : bool := match kmalloc n s with Ok p _ => negb (p =? 0) | Stop _ _ => false end.

(** An allocation that succeeds extends a sequence. *)
Lemma heap_run_got s0 s O n :
  heap_run s0 s O → heap_brk s + SUPER_PAGES * UIX_PAGE_SIZE ≤ HEAP_VA_END → 0 ≤ n → n + HDR_SIZE < 2 ^ 64 → got n s = true →
  ∃ p s', kmalloc n s = Ok p s' ∧ heap_run s0 s' ((p, n) :: O).
Proof.
  unfold got. intros Hr Hb Hn Hw Hg. destruct (kmalloc n s) as [p s'|] eqn:E; [|done]. exists p, s'. split; [done|].
  pose proof (hr_kmalloc s0 s O n p s' Hr Hb Hn Hw E) as H. apply negb_true_iff in Hg. by rewrite Hg in H.
Qed.

(** A free block at the end of the list can be two. *)
Lemma fragment s0 m l b z pre s :
  heap_at s0 m (l ++ [Blk b z false]) (pre ++ [b]) s → 48 + 32 ≤ z →
  ∃ m' s', heap_at s0 m' (l ++ [Blk b 48 false; Blk (b + 48) (z - 48) false]) (pre ++ [b; b + 48]) s'.
Proof.
  intros Hh Hz. destruct (around _ _ _ _ _ _ _ _ _ Hh) as (Hl1 & Hl2 & Hnd & Hb1 & _ & _ & Hp & Hc).
  pose proof (hp_sat _ _ _ _ _ Hh) as Hs. assert (shaped m (l ++ [Blk b z false]) (heap_brk s)) as Hsh by (split; apply Hh).
  destruct (block_sizes s0 _ m _ _ s (Blk b z false) Hs Hsh) as (Hz1 & Hz2 & Hz3 & Hz4 & _ & _); [set_solver|].
  unfold b_end in Hz3. cbn [b_addr b_size] in *.
  assert (runs (set_size (b + 48) (z - 48) ;; set_magic (b + 48) BMAGIC_FREE ;; nx ← get_next b;
    set_next (b + 48) nx ;; set_size b 48 ;; set_next b (b + 48)) s
    (λ _ s', ∃ m', heap_at s0 m' (l ++ [Blk b 48 false; Blk (b + 48) (z - 48) false]) (pre ++ [b; b + 48]) s') (λ _, False)) as Hr.
  - eapply (cut_run s0 (heap_brk s) _ m l b z 48 [] _ s); [exact Hs|done|done|unfold HDR_SIZE; lia|].
    intros m1 s1 Hs1 [[Ht1 Hf1] _ Hn1 _ Ho1].
    eapply runs_mono; [apply (set_next_run s0 m1 _ _ s1 Hs1 b); [done|done|unfold HEAP_VA_BASE, HEAP_VA_END in *; lia]| |by intros ? H'; exact H'].
    intros [] s2 (m2 & Hw2 & Hs2). exists m2. pose proof (sa_brk _ _ _ _ _ Hs2) as Hbk. pose proof (sa_fl _ _ _ _ _ Hs2) as Hfl.
    destruct (write_link m1 m2 b _ Hw2 _ _ _ (Blk b 48 false) Ht1 Hf1) as (Hf2 & _ & Ho2); [set_solver|done|by eexists|].
    split; [by rewrite Hbk, Hfl|by rewrite Hbk|done| |].
    + rewrite Hfl. apply lseg_app. exists b. split.
      * eapply lseg_ext; [|exact Hl1]. intros a Ha. destruct (Hc a) as (c & Hc' & _ & <-); [set_solver|].
        rewrite Ho2; [by apply Ho1|set_solver|congruence].
      * split; [done|]. rewrite (wr_here _ _ _ _ Hw2). split; [done|].
        pose proof (Ho2 (Blk (b + 48) (z - 48) false)) as Hx. cbn [b_addr] in Hx. rewrite Hx; [by rewrite Hn1|set_solver|lia].
    + rewrite (free_addrs_app l). change (free_addrs [_; _]) with [b; b + 48]. rewrite !app_nil_r in Hp. by rewrite Hp.
  - apply runs_Ok in Hr as [(? & s' & _ & m' & Hh')|(? & ? & _ & [])]. by exists m', s'.
Qed.

(** Heaps with one block in use and many free ones. *)
Lemma fragments (n : nat) :
  48 * Z.of_nat n ≤ 65000 →
  ∃ s0 m l b z pre s, heap_at s0 m (Blk HEAP_VA_BASE 116 true :: l ++ [Blk b z false]) (pre ++ [b]) s ∧
    length pre = n ∧ z = 65420 - 48 * Z.of_nat n.
Proof.
  induction n as [|n IH]; intros Hn.
  - destruct heap2_at as (s0 & m & Hm). by exists s0, m, [], (HEAP_VA_BASE + 116), 65420, [], heap2.
  - destruct IH as (s0 & m & l & b & z & pre & s & Hh & Hl & Hz); [lia|].
    destruct (fragment s0 m (Blk HEAP_VA_BASE 116 true :: l) b z pre s Hh) as (m' & s' & Hh'); [lia|].
    exists s0, m', (l ++ [Blk b 48 false]), (b + 48), (z - 48), (pre ++ [b]), s'.
    rewrite <-!(assoc_L (++)). split_and!; [exact Hh'|rewrite length_app; cbn; lia|lia].
Qed.

(** ** Claims *)

(** C31 [heap_init] on a machine whose heap area is not mapped yet: it stops
    only by an out of memory panic, and otherwise the heap is one free block of
    64 KiB, listed, and no page of another owner has changed. *)
Theorem heap_init_correct (s : heap_st) (m : mem) :
  holds (hvm s) HEAP_VA_BASE HEAP_VA_BASE HEAP_VA_END m →
  runs heap_init s (λ _ s', ∃ m', heap_ok m' [Blk HEAP_VA_BASE 65536 false] [HEAP_VA_BASE] s' ∧
    heap_brk s' = HEAP_VA_BASE + 65536 ∧ spared HEAP_VA_BASE (hvm s) HEAP_VA_BASE (hvm s') (heap_brk s')) oom.
Proof.
  intros Hh. eapply runs_mono; [by apply (heap_init_run s m)| |by intros ? H'; exact H'].
  intros [] s' (m' & Hh' & Hb). exists m'. split_and!; [by eapply heap_at_self|exact Hb|apply (sa_spared _ _ _ _ _ (hp_sat _ _ _ _ _ Hh'))].
Qed.

Lemma heap_init_correct_witness :
  runs heap_init heap0 (λ _ s', ∃ m', heap_ok m' [Blk HEAP_VA_BASE 65536 false] [HEAP_VA_BASE] s' ∧
    heap_brk s' = HEAP_VA_BASE + 65536 ∧ spared HEAP_VA_BASE (hvm heap0) HEAP_VA_BASE (hvm s') (heap_brk s')) oom.
Proof. apply (heap_init_correct heap0 ∅). apply heap0_holds. Defined.

(** C14 [kmalloc] of a size that fits a block: unless memory runs out, it
    returns the payload of a new block of at least that size and less than 32
    bytes more.  The blocks that were in use still are, with their contents, and
    no page of another owner has changed.  The heap grows (by 64 KiB), or runs
    out of memory, only when no free block is large enough. *)
Theorem kmalloc_correct (s : heap_st) (m : mem) (bs : list block) (fl : list Z) (n : Z) :
  heap_ok m bs fl s → 1 ≤ n → n + HDR_SIZE ≤ HEAP_MAX → heap_brk s + 65536 ≤ HEAP_VA_END →
  runs (kmalloc n) s (λ p s',
    (∃ m' bs' fl' c, heap_ok m' bs' fl' s' ∧ used_blocks bs' ≡ₚ c :: used_blocks bs ∧
       p = b_addr c + HDR_SIZE ∧ n + HDR_SIZE ≤ b_size c < n + HDR_SIZE + 32 ∧ payload_kept bs m m') ∧
    spared HEAP_VA_BASE (hvm s) (heap_brk s) (hvm s') (heap_brk s') ∧
    heap_brk s' = if fits bs (n + HDR_SIZE) then heap_brk s else heap_brk s + 65536)
  (λ w, oom w ∧ fits bs (n + HDR_SIZE) = false).
Proof.
  intros Hh Hn Hmax Hlim. eapply runs_mono; [by apply (kmalloc_run s m bs fl)| |by intros ? H'; exact H'].
  intros p s' [(m' & bs' & fl' & c & Hh' & Hu & Hp & Hz & Hk) Hb].
  split_and!; [|apply (sa_spared _ _ _ _ _ (hp_sat _ _ _ _ _ Hh'))|exact Hb].
  exists m', bs', fl', c. split_and!; try done; [by eapply heap_at_self|apply Hz..].
Qed.

Lemma kmalloc_correct_witness :
  ∃ m, let bs := [Blk HEAP_VA_BASE 65536 false] in heap_ok m bs [HEAP_VA_BASE] heap1 ∧
  runs (kmalloc 100) heap1 (λ p s',
    (∃ m' bs' fl' c, heap_ok m' bs' fl' s' ∧ used_blocks bs' ≡ₚ c :: used_blocks bs ∧
       p = b_addr c + HDR_SIZE ∧ 100 + HDR_SIZE ≤ b_size c < 100 + HDR_SIZE + 32 ∧ payload_kept bs m m') ∧
    spared HEAP_VA_BASE (hvm heap1) (heap_brk heap1) (hvm s') (heap_brk s') ∧
    heap_brk s' = if fits bs (100 + HDR_SIZE) then heap_brk heap1 else heap_brk heap1 + 65536)
  (λ w, oom w ∧ fits bs (100 + HDR_SIZE) = false).
Proof.
  destruct heap1_at as [m Hm]. exists m. apply heap_at_self in Hm. split; [exact Hm|].
  apply (kmalloc_correct heap1 m [Blk HEAP_VA_BASE 65536 false] [HEAP_VA_BASE] 100); [exact Hm|lia|by vm_compute|by vm_compute].
Defined.

(** C15 [kfree] of a block in use, when the free list has fewer than 256 blocks:
    the block is given back and merged with its free neighbours.  Afterwards no
    two neighbours are free, the free list runs through the free blocks in the
    order of their addresses, and the other blocks in use are as they were. *)
Theorem kfree_correct (s : heap_st) (m : mem) (bs : list block) (fl : list Z) (c : block) :
  heap_ok m bs fl s → c ∈ bs → b_used c = true → Z.of_nat (length fl) < ARR_LEN →
  ∃ s' m' bs', kfree (b_addr c + HDR_SIZE) s = Ok tt s' ∧ heap_ok m' bs' (free_addrs bs') s' ∧
    coalesced bs' ∧ used_blocks bs ≡ₚ c :: used_blocks bs' ∧ payload_kept bs' m m' ∧
    heap_brk s' = heap_brk s ∧ spared HEAP_VA_BASE (hvm s) (heap_brk s) (hvm s') (heap_brk s').
Proof.
  intros Hh (l & r & ->)%list_elem_of_split Hu Hlen. destruct c as [b z u]. cbn in Hu. subst u.
  pose proof (kfree_run s m l b z r fl s (λ _, False) Hh Hlen) as Hr.
  apply runs_Ok in Hr as [([] & s' & He & m' & bs' & Hh' & Hb & Hc & Hus & Hk)|(w & s' & _ & [])].
  exists s', m', bs'. split_and!; try done; [by eapply heap_at_self|apply (sa_spared _ _ _ _ _ (hp_sat _ _ _ _ _ Hh'))].
Qed.

Lemma kfree_correct_witness :
  ∃ m, let c := Blk HEAP_VA_BASE 116 true in heap_ok m heap2_blocks [HEAP_VA_BASE + 116] heap2 ∧
  ∃ s' m' bs', kfree (b_addr c + HDR_SIZE) heap2 = Ok tt s' ∧ heap_ok m' bs' (free_addrs bs') s' ∧
    coalesced bs' ∧ used_blocks heap2_blocks ≡ₚ c :: used_blocks bs' ∧ payload_kept bs' m m' ∧
    heap_brk s' = heap_brk heap2 ∧ spared HEAP_VA_BASE (hvm heap2) (heap_brk heap2) (hvm s') (heap_brk s').
Proof.
  destruct heap2_at as (s0 & m & Hm). exists m. apply heap_at_self in Hm. split; [exact Hm|].
  apply (kfree_correct heap2 m heap2_blocks [HEAP_VA_BASE + 116] (Blk HEAP_VA_BASE 116 true)); [exact Hm|apply list_elem_of_here|reflexivity|reflexivity].
Defined.

(** The errors of [kfree]: a block that is free already is reported, and with
    256 or more free blocks the local array [arr] is written past its end. *)
Theorem kfree_errors (s : heap_st) (m : mem) (bs : list block) (fl : list Z) (c : block) :
  heap_ok m bs fl s → c ∈ bs →
  if b_used c then
    ARR_LEN ≤ Z.of_nat (length fl) → ∃ s', kfree (b_addr c + HDR_SIZE) s = Stop (Undef "kfree: arr[256]") s'
  else kfree (b_addr c + HDR_SIZE) s = Stop (Panic "heap: kfree of non-heap pointer %p") s.
Proof.
  intros Hh (l & r & ->)%list_elem_of_split. destruct c as [b z u]. cbn [b_addr b_used]. destruct u.
  - intros Hlen. pose proof (kfree_overflow s m l b z r fl s Hh Hlen) as Hr.
    apply runs_Ok in Hr as [(? & ? & _ & [])|(w & s' & He & ->)]. by exists s'.
  - destruct (kfree_addr _ _ _ _ _ _ _ _ _ Hh) as (E0 & Eb & Emg & _). unfold kfree. rewrite E0. cbn zeta. rewrite Eb.
    by rewrite (bind_Ok_eq _ _ _ _ _ Emg).
Qed.

Lemma kfree_errors_witness :
  kfree (HEAP_VA_BASE + HDR_SIZE) heap1 = Stop (Panic "heap: kfree of non-heap pointer %p") heap1 ∧
  ∃ s m bs fl, heap_ok m bs fl s ∧ length fl = 257%nat ∧
    ∃ s', kfree (HEAP_VA_BASE + HDR_SIZE) s = Stop (Undef "kfree: arr[256]") s'.
Proof.
  split.
  - destruct heap1_at as [m Hm]. apply heap_at_self in Hm.
    apply (kfree_errors heap1 m _ _ (Blk HEAP_VA_BASE (SUPER_PAGES * UIX_PAGE_SIZE) false) Hm), list_elem_of_here.
  - destruct (fragments 256 ltac:(lia)) as (s0 & m & l & b & z & pre & s & Hh & Hl & _). apply heap_at_self in Hh.
    assert (length (pre ++ [b]) = 257%nat) as Hlen by (rewrite length_app, Hl; reflexivity).
    exists s, m, (Blk HEAP_VA_BASE 116 true :: l ++ [Blk b z false]), (pre ++ [b]). split; [exact Hh|]. split; [exact Hlen|].
    apply (kfree_errors s m _ _ (Blk HEAP_VA_BASE 116 true) Hh); [apply list_elem_of_here|]. rewrite Hlen. by vm_compute.
Defined.



End HeapProps.
