(* ===== verification/Machine.v ===== *)
(** * The machine

    The hardware the drivers talk to, and the static variables of every file
    above the heap.  One record holds the whole kernel, so that the operations
    of the components compose as they do in the code. *)

From Stdlib Require Import Ascii.
From S2P Require Import Prelude Lib Pmm Vmm Heap.

Module Machine.
Import Lib Pmm Vmm Heap.

(** ** Hardware

    The devices are a parameter [D] of the model.  Port and memory-mapped
    accesses, model-specific registers, the time-stamp counter and [cpuid] are
    answered by the device state, which any access may change.  [dma] is what
    the devices do to physical memory while the processor spins. *)
Class Hardware (D : Type) := {
  pio_in : nat → Z → D → Z * D;
  pio_out : nat → Z → Z → D → D;
  mmio_in : Z → D → Z * D;
  mmio_out : Z → Z → D → D;
  msr_in : Z → D → Z * D;
  msr_out : Z → Z → D → D;
  tsc_in : D → Z * D;
  cpuid_ecx : Z → D → Z * D;
  dma : D → mem → D * mem;
}.

(** ** Tasks ([include/uix/task.h]) *)

Definition TASK_READY : Z := 0.
Definition TASK_RUNNING : Z := 1.
Definition TASK_DEAD : Z := 2.
Definition TASK_ZOMBIE : Z := 3.
Definition TASK_BLOCKED : Z := 4.

Definition PROC_MAX_FDS : Z := 16.

Definition FD_NONE : Z := 0.
Definition FD_CONSOLE_IN : Z := 1.
Definition FD_CONSOLE_OUT : Z := 2.

(** [struct proc_fd] *)
Record proc_fd := ProcFd { fd_type : Z; in_use : Z }.

(** [struct task]; pointers to tasks are the addresses [kzalloc] returned, 0 is [NULL]. *)
Record task := Task {
  pid : Z;
  rsp : Z; (** saved kernel stack pointer *)
  kstack : Z;
  kstack_size : Z;
  tcr3 : Z; (** 0 = share the kernel space *)
  state : Z;
  is_user : Z;
  exit_status : Z;
  ppid : Z;
  block_on : Z;
  name : string;
  fds : list proc_fd;
  next : Z;
  next_all : Z;
}.

Definition set_pid (v : Z) (s : task) : task :=
  Task v (rsp s) (kstack s) (kstack_size s) (tcr3 s) (state s) (is_user s) (exit_status s) (ppid s)
    (block_on s) (name s) (fds s) (next s) (next_all s).
Definition set_rsp (v : Z) (s : task) : task :=
  Task (pid s) v (kstack s) (kstack_size s) (tcr3 s) (state s) (is_user s) (exit_status s) (ppid s)
    (block_on s) (name s) (fds s) (next s) (next_all s).
Definition set_kstack (v : Z) (s : task) : task :=
  Task (pid s) (rsp s) v (kstack_size s) (tcr3 s) (state s) (is_user s) (exit_status s) (ppid s)
    (block_on s) (name s) (fds s) (next s) (next_all s).
Definition set_kstack_size (v : Z) (s : task) : task :=
  Task (pid s) (rsp s) (kstack s) v (tcr3 s) (state s) (is_user s) (exit_status s) (ppid s)
    (block_on s) (name s) (fds s) (next s) (next_all s).
Definition set_tcr3 (v : Z) (s : task) : task :=
  Task (pid s) (rsp s) (kstack s) (kstack_size s) v (state s) (is_user s) (exit_status s) (ppid s)
    (block_on s) (name s) (fds s) (next s) (next_all s).
Definition set_state (v : Z) (s : task) : task :=
  Task (pid s) (rsp s) (kstack s) (kstack_size s) (tcr3 s) v (is_user s) (exit_status s) (ppid s)
    (block_on s) (name s) (fds s) (next s) (next_all s).
Definition set_is_user (v : Z) (s : task) : task :=
  Task (pid s) (rsp s) (kstack s) (kstack_size s) (tcr3 s) (state s) v (exit_status s) (ppid s)
    (block_on s) (name s) (fds s) (next s) (next_all s).
Definition set_exit_status (v : Z) (s : task) : task :=
  Task (pid s) (rsp s) (kstack s) (kstack_size s) (tcr3 s) (state s) (is_user s) v (ppid s)
    (block_on s) (name s) (fds s) (next s) (next_all s).
Definition set_ppid (v : Z) (s : task) : task :=
  Task (pid s) (rsp s) (kstack s) (kstack_size s) (tcr3 s) (state s) (is_user s) (exit_status s) v
    (block_on s) (name s) (fds s) (next s) (next_all s).
Definition set_block_on (v : Z) (s : task) : task :=
  Task (pid s) (rsp s) (kstack s) (kstack_size s) (tcr3 s) (state s) (is_user s) (exit_status s)
    (ppid s) v (name s) (fds s) (next s) (next_all s).
Definition set_name (v : string) (s : task) : task :=
  Task (pid s) (rsp s) (kstack s) (kstack_size s) (tcr3 s) (state s) (is_user s) (exit_status s)
    (ppid s) (block_on s) v (fds s) (next s) (next_all s).
Definition set_fds (v : list proc_fd) (s : task) : task :=
  Task (pid s) (rsp s) (kstack s) (kstack_size s) (tcr3 s) (state s) (is_user s) (exit_status s)
    (ppid s) (block_on s) (name s) v (next s) (next_all s).
Definition set_next (v : Z) (s : task) : task :=
  Task (pid s) (rsp s) (kstack s) (kstack_size s) (tcr3 s) (state s) (is_user s) (exit_status s)
    (ppid s) (block_on s) (name s) (fds s) v (next_all s).
Definition set_next_all (v : Z) (s : task) : task :=
  Task (pid s) (rsp s) (kstack s) (kstack_size s) (tcr3 s) (state s) (is_user s) (exit_status s)
    (ppid s) (block_on s) (name s) (fds s) (next s) v.

(** [sizeof(struct task)] *)
Definition TASK_SIZE : Z := 128.

(** A task fresh from [kzalloc]. *)
Definition task_zero : task := Task 0 0 0 0 0 0 0 0 0 0 "" (replicate 16 (ProcFd 0 0)) 0 0.

(** Static variables of [core/cpu/task.c] and [core/cpu/sched.c].  The tasks live in a typed store, by address; a task that was freed is no longer in it. *)
Record sched_vars := SchedVars {
  tasks : gmap Z task;
  next_pid : Z;
  all_tasks : Z;
  current : Z;
  runqueue_head : Z;
  runqueue_tail : Z;
  rq_size : Z;
  ticks_since_switch : Z;
  need_resched : Z;
  blocked_list : Z;
  zombie : Z; (** of [schedule] *)
}.

Definition set_tasks (v : gmap Z task) (s : sched_vars) : sched_vars :=
  SchedVars v (next_pid s) (all_tasks s) (current s) (runqueue_head s) (runqueue_tail s) (rq_size s)
    (ticks_since_switch s) (need_resched s) (blocked_list s) (zombie s).
Definition set_next_pid (v : Z) (s : sched_vars) : sched_vars :=
  SchedVars (tasks s) v (all_tasks s) (current s) (runqueue_head s) (runqueue_tail s) (rq_size s)
    (ticks_since_switch s) (need_resched s) (blocked_list s) (zombie s).
Definition set_all_tasks (v : Z) (s : sched_vars) : sched_vars :=
  SchedVars (tasks s) (next_pid s) v (current s) (runqueue_head s) (runqueue_tail s) (rq_size s)
    (ticks_since_switch s) (need_resched s) (blocked_list s) (zombie s).
Definition set_current (v : Z) (s : sched_vars) : sched_vars :=
  SchedVars (tasks s) (next_pid s) (all_tasks s) v (runqueue_head s) (runqueue_tail s) (rq_size s)
    (ticks_since_switch s) (need_resched s) (blocked_list s) (zombie s).
Definition set_runqueue_head (v : Z) (s : sched_vars) : sched_vars :=
  SchedVars (tasks s) (next_pid s) (all_tasks s) (current s) v (runqueue_tail s) (rq_size s)
    (ticks_since_switch s) (need_resched s) (blocked_list s) (zombie s).
Definition set_runqueue_tail (v : Z) (s : sched_vars) : sched_vars :=
  SchedVars (tasks s) (next_pid s) (all_tasks s) (current s) (runqueue_head s) v (rq_size s)
    (ticks_since_switch s) (need_resched s) (blocked_list s) (zombie s).
Definition set_rq_size (v : Z) (s : sched_vars) : sched_vars :=
  SchedVars (tasks s) (next_pid s) (all_tasks s) (current s) (runqueue_head s) (runqueue_tail s) v
    (ticks_since_switch s) (need_resched s) (blocked_list s) (zombie s).
Definition set_ticks_since_switch (v : Z) (s : sched_vars) : sched_vars :=
  SchedVars (tasks s) (next_pid s) (all_tasks s) (current s) (runqueue_head s) (runqueue_tail s)
    (rq_size s) v (need_resched s) (blocked_list s) (zombie s).
Definition set_need_resched (v : Z) (s : sched_vars) : sched_vars :=
  SchedVars (tasks s) (next_pid s) (all_tasks s) (current s) (runqueue_head s) (runqueue_tail s)
    (rq_size s) (ticks_since_switch s) v (blocked_list s) (zombie s).
Definition set_blocked_list (v : Z) (s : sched_vars) : sched_vars :=
  SchedVars (tasks s) (next_pid s) (all_tasks s) (current s) (runqueue_head s) (runqueue_tail s)
    (rq_size s) (ticks_since_switch s) (need_resched s) v (zombie s).
Definition set_zombie (v : Z) (s : sched_vars) : sched_vars :=
  SchedVars (tasks s) (next_pid s) (all_tasks s) (current s) (runqueue_head s) (runqueue_tail s)
    (rq_size s) (ticks_since_switch s) (need_resched s) (blocked_list s) v.

(** Static variables of [drivers/keyboard.c]. *)
Record kbd_vars := KbdVars {
  kbuf : list Z;
  kbuf_head : Z;
  kbuf_tail : Z;
}.

Definition set_kbuf (v : list Z) (s : kbd_vars) : kbd_vars :=
  KbdVars v (kbuf_head s) (kbuf_tail s).
Definition set_kbuf_head (v : Z) (s : kbd_vars) : kbd_vars :=
  KbdVars (kbuf s) v (kbuf_tail s).
Definition set_kbuf_tail (v : Z) (s : kbd_vars) : kbd_vars :=
  KbdVars (kbuf s) (kbuf_head s) v.

(** Static variables of [personality/tty.c]. *)
Record tty_vars := TtyVars {
  line : list Z;
  line_len : Z;
  line_ready : Z;
}.

Definition set_line (v : list Z) (s : tty_vars) : tty_vars :=
  TtyVars v (line_len s) (line_ready s).
Definition set_line_len (v : Z) (s : tty_vars) : tty_vars :=
  TtyVars (line s) v (line_ready s).
Definition set_line_ready (v : Z) (s : tty_vars) : tty_vars :=
  TtyVars (line s) (line_len s) v.

(** [struct pci_dev] of [include/uix/pci.h]. *)
Record pci_dev := PciDev {
  vendor : Z;
  device : Z;
  bus : Z;
  dev : Z;
  fn : Z;
  class_ : Z;
  subclass : Z;
  prog_if : Z;
  irq : Z;
  bars : list Z;
  bar_types : list Z;
}.

Definition set_vendor (v : Z) (s : pci_dev) : pci_dev :=
  PciDev v (device s) (bus s) (dev s) (fn s) (class_ s) (subclass s) (prog_if s) (irq s) (bars s)
    (bar_types s).
Definition set_device (v : Z) (s : pci_dev) : pci_dev :=
  PciDev (vendor s) v (bus s) (dev s) (fn s) (class_ s) (subclass s) (prog_if s) (irq s) (bars s)
    (bar_types s).
Definition set_bus (v : Z) (s : pci_dev) : pci_dev :=
  PciDev (vendor s) (device s) v (dev s) (fn s) (class_ s) (subclass s) (prog_if s) (irq s) (bars s)
    (bar_types s).
Definition set_dev (v : Z) (s : pci_dev) : pci_dev :=
  PciDev (vendor s) (device s) (bus s) v (fn s) (class_ s) (subclass s) (prog_if s) (irq s) (bars s)
    (bar_types s).
Definition set_fn (v : Z) (s : pci_dev) : pci_dev :=
  PciDev (vendor s) (device s) (bus s) (dev s) v (class_ s) (subclass s) (prog_if s) (irq s) (bars
    s) (bar_types s).
Definition set_class_ (v : Z) (s : pci_dev) : pci_dev :=
  PciDev (vendor s) (device s) (bus s) (dev s) (fn s) v (subclass s) (prog_if s) (irq s) (bars s)
    (bar_types s).
Definition set_subclass (v : Z) (s : pci_dev) : pci_dev :=
  PciDev (vendor s) (device s) (bus s) (dev s) (fn s) (class_ s) v (prog_if s) (irq s) (bars s)
    (bar_types s).
Definition set_prog_if (v : Z) (s : pci_dev) : pci_dev :=
  PciDev (vendor s) (device s) (bus s) (dev s) (fn s) (class_ s) (subclass s) v (irq s) (bars s)
    (bar_types s).
Definition set_irq (v : Z) (s : pci_dev) : pci_dev :=
  PciDev (vendor s) (device s) (bus s) (dev s) (fn s) (class_ s) (subclass s) (prog_if s) v (bars s)
    (bar_types s).
Definition set_bars (v : list Z) (s : pci_dev) : pci_dev :=
  PciDev (vendor s) (device s) (bus s) (dev s) (fn s) (class_ s) (subclass s) (prog_if s) (irq s) v
    (bar_types s).
Definition set_bar_types (v : list Z) (s : pci_dev) : pci_dev :=
  PciDev (vendor s) (device s) (bus s) (dev s) (fn s) (class_ s) (subclass s) (prog_if s) (irq s)
    (bars s) v.

(** A slot of [found] before the first scan. *)
Definition pci_zero : pci_dev := PciDev 0 0 0 0 0 0 0 0 0 (replicate 6 0) (replicate 6 0).

(** Static variables of [drivers/pci.c]. *)
Record pci_vars := PciVars {
  found : list pci_dev;
  found_count : Z;
}.

Definition set_found (v : list pci_dev) (s : pci_vars) : pci_vars :=
  PciVars v (found_count s).
Definition set_found_count (v : Z) (s : pci_vars) : pci_vars :=
  PciVars (found s) v.

(** Static variables of [drivers/virtio_blk.c]. *)
Record blk_vars := BlkVars {
  io_base : Z;
  capacity_sectors : Z;
  qsize : Z;
  desc : Z;
  avail_idx_p : Z;
  avail_ring_p : Z;
  used_idx_p : Z;
  ring_pa : Z;
  buf_pa : Z;
  buf_va : Z;
  hdr_off : Z;
  st_off : Z;
}.

Definition set_io_base (v : Z) (s : blk_vars) : blk_vars :=
  BlkVars v (capacity_sectors s) (qsize s) (desc s) (avail_idx_p s) (avail_ring_p s) (used_idx_p s)
    (ring_pa s) (buf_pa s) (buf_va s) (hdr_off s) (st_off s).
Definition set_capacity_sectors (v : Z) (s : blk_vars) : blk_vars :=
  BlkVars (io_base s) v (qsize s) (desc s) (avail_idx_p s) (avail_ring_p s) (used_idx_p s) (ring_pa
    s) (buf_pa s) (buf_va s) (hdr_off s) (st_off s).
Definition set_qsize (v : Z) (s : blk_vars) : blk_vars :=
  BlkVars (io_base s) (capacity_sectors s) v (desc s) (avail_idx_p s) (avail_ring_p s) (used_idx_p
    s) (ring_pa s) (buf_pa s) (buf_va s) (hdr_off s) (st_off s).
Definition set_desc (v : Z) (s : blk_vars) : blk_vars :=
  BlkVars (io_base s) (capacity_sectors s) (qsize s) v (avail_idx_p s) (avail_ring_p s) (used_idx_p
    s) (ring_pa s) (buf_pa s) (buf_va s) (hdr_off s) (st_off s).
Definition set_avail_idx_p (v : Z) (s : blk_vars) : blk_vars :=
  BlkVars (io_base s) (capacity_sectors s) (qsize s) (desc s) v (avail_ring_p s) (used_idx_p s)
    (ring_pa s) (buf_pa s) (buf_va s) (hdr_off s) (st_off s).
Definition set_avail_ring_p (v : Z) (s : blk_vars) : blk_vars :=
  BlkVars (io_base s) (capacity_sectors s) (qsize s) (desc s) (avail_idx_p s) v (used_idx_p s)
    (ring_pa s) (buf_pa s) (buf_va s) (hdr_off s) (st_off s).
Definition set_used_idx_p (v : Z) (s : blk_vars) : blk_vars :=
  BlkVars (io_base s) (capacity_sectors s) (qsize s) (desc s) (avail_idx_p s) (avail_ring_p s) v
    (ring_pa s) (buf_pa s) (buf_va s) (hdr_off s) (st_off s).
Definition set_ring_pa (v : Z) (s : blk_vars) : blk_vars :=
  BlkVars (io_base s) (capacity_sectors s) (qsize s) (desc s) (avail_idx_p s) (avail_ring_p s)
    (used_idx_p s) v (buf_pa s) (buf_va s) (hdr_off s) (st_off s).
Definition set_buf_pa (v : Z) (s : blk_vars) : blk_vars :=
  BlkVars (io_base s) (capacity_sectors s) (qsize s) (desc s) (avail_idx_p s) (avail_ring_p s)
    (used_idx_p s) (ring_pa s) v (buf_va s) (hdr_off s) (st_off s).
Definition set_buf_va (v : Z) (s : blk_vars) : blk_vars :=
  BlkVars (io_base s) (capacity_sectors s) (qsize s) (desc s) (avail_idx_p s) (avail_ring_p s)
    (used_idx_p s) (ring_pa s) (buf_pa s) v (hdr_off s) (st_off s).
Definition set_hdr_off (v : Z) (s : blk_vars) : blk_vars :=
  BlkVars (io_base s) (capacity_sectors s) (qsize s) (desc s) (avail_idx_p s) (avail_ring_p s)
    (used_idx_p s) (ring_pa s) (buf_pa s) (buf_va s) v (st_off s).
Definition set_st_off (v : Z) (s : blk_vars) : blk_vars :=
  BlkVars (io_base s) (capacity_sectors s) (qsize s) (desc s) (avail_idx_p s) (avail_ring_p s)
    (used_idx_p s) (ring_pa s) (buf_pa s) (buf_va s) (hdr_off s) v.

(** [struct uixfs_entry]: a name of 24 bytes. *)
Record uixfs_entry := UixfsEntry { e_name : list Z; e_size : Z; e_start_lba : Z }.

(** Static variables of [personality/fs/uixfs.c]. *)
Record fs_vars := FsVars {
  entries : list uixfs_entry;
  nfiles : Z;
  mounted : Z;
  sector : list Z;
  file_buf : Z;
  file_buf_pages : Z;
}.

Definition set_entries (v : list uixfs_entry) (s : fs_vars) : fs_vars :=
  FsVars v (nfiles s) (mounted s) (sector s) (file_buf s) (file_buf_pages s).
Definition set_nfiles (v : Z) (s : fs_vars) : fs_vars :=
  FsVars (entries s) v (mounted s) (sector s) (file_buf s) (file_buf_pages s).
Definition set_mounted (v : Z) (s : fs_vars) : fs_vars :=
  FsVars (entries s) (nfiles s) v (sector s) (file_buf s) (file_buf_pages s).
Definition set_sector (v : list Z) (s : fs_vars) : fs_vars :=
  FsVars (entries s) (nfiles s) (mounted s) v (file_buf s) (file_buf_pages s).
Definition set_file_buf (v : Z) (s : fs_vars) : fs_vars :=
  FsVars (entries s) (nfiles s) (mounted s) (sector s) v (file_buf_pages s).
Definition set_file_buf_pages (v : Z) (s : fs_vars) : fs_vars :=
  FsVars (entries s) (nfiles s) (mounted s) (sector s) (file_buf s) v.

(** Static variables of [core/cpu/apic.c]. *)
Record apic_vars := ApicVars {
  apic_timer_hz : Z;
  jiffies : Z;
  lapic : Z;
  tsc_hz : Z;
  use_tsc_deadline : bool;
}.

Definition set_apic_timer_hz (v : Z) (s : apic_vars) : apic_vars :=
  ApicVars v (jiffies s) (lapic s) (tsc_hz s) (use_tsc_deadline s).
Definition set_jiffies (v : Z) (s : apic_vars) : apic_vars :=
  ApicVars (apic_timer_hz s) v (lapic s) (tsc_hz s) (use_tsc_deadline s).
Definition set_lapic (v : Z) (s : apic_vars) : apic_vars :=
  ApicVars (apic_timer_hz s) (jiffies s) v (tsc_hz s) (use_tsc_deadline s).
Definition set_tsc_hz (v : Z) (s : apic_vars) : apic_vars :=
  ApicVars (apic_timer_hz s) (jiffies s) (lapic s) v (use_tsc_deadline s).
Definition set_use_tsc_deadline (v : bool) (s : apic_vars) : apic_vars :=
  ApicVars (apic_timer_hz s) (jiffies s) (lapic s) (tsc_hz s) v.

(** A gate of the interrupt descriptor table. *)
Record gate := Gate { off_lo : Z; sel : Z; gist : Z; gflags : Z; off_mid : Z; off_hi : Z; grsvd : Z }.

(** Static variables of [core/cpu/idt.c], and the registers the kernel switches: the segment selectors, the callee-saved registers, the stack pointer and the interrupt flag. *)
Record cpu_vars := CpuVars {
  gdt : list Z;
  gdtr : Z * Z;
  tss : mem; (** the bytes of [struct tss] *)
  idt : list gate;
  idtr : Z * Z;
  seg_cs : Z;
  seg_ds : Z; (** [ds], [es], [fs] and [gs], which are always loaded together *)
  seg_ss : Z;
  seg_tr : Z; (** the task register *)
  rbx : Z;
  rbp : Z;
  r12 : Z;
  r13 : Z;
  r14 : Z;
  r15 : Z;
  sp : Z;
  iflag : bool;
}.

Definition set_gdt (v : list Z) (s : cpu_vars) : cpu_vars :=
  CpuVars v (gdtr s) (tss s) (idt s) (idtr s) (seg_cs s) (seg_ds s) (seg_ss s) (seg_tr s) (rbx s)
    (rbp s) (r12 s) (r13 s) (r14 s) (r15 s) (sp s) (iflag s).
Definition set_gdtr (v : Z * Z) (s : cpu_vars) : cpu_vars :=
  CpuVars (gdt s) v (tss s) (idt s) (idtr s) (seg_cs s) (seg_ds s) (seg_ss s) (seg_tr s) (rbx s)
    (rbp s) (r12 s) (r13 s) (r14 s) (r15 s) (sp s) (iflag s).
Definition set_tss (v : mem) (s : cpu_vars) : cpu_vars :=
  CpuVars (gdt s) (gdtr s) v (idt s) (idtr s) (seg_cs s) (seg_ds s) (seg_ss s) (seg_tr s) (rbx s)
    (rbp s) (r12 s) (r13 s) (r14 s) (r15 s) (sp s) (iflag s).
Definition set_idt (v : list gate) (s : cpu_vars) : cpu_vars :=
  CpuVars (gdt s) (gdtr s) (tss s) v (idtr s) (seg_cs s) (seg_ds s) (seg_ss s) (seg_tr s) (rbx s)
    (rbp s) (r12 s) (r13 s) (r14 s) (r15 s) (sp s) (iflag s).
Definition set_idtr (v : Z * Z) (s : cpu_vars) : cpu_vars :=
  CpuVars (gdt s) (gdtr s) (tss s) (idt s) v (seg_cs s) (seg_ds s) (seg_ss s) (seg_tr s) (rbx s)
    (rbp s) (r12 s) (r13 s) (r14 s) (r15 s) (sp s) (iflag s).
Definition set_seg_cs (v : Z) (s : cpu_vars) : cpu_vars :=
  CpuVars (gdt s) (gdtr s) (tss s) (idt s) (idtr s) v (seg_ds s) (seg_ss s) (seg_tr s) (rbx s) (rbp
    s) (r12 s) (r13 s) (r14 s) (r15 s) (sp s) (iflag s).
Definition set_seg_ds (v : Z) (s : cpu_vars) : cpu_vars :=
  CpuVars (gdt s) (gdtr s) (tss s) (idt s) (idtr s) (seg_cs s) v (seg_ss s) (seg_tr s) (rbx s) (rbp
    s) (r12 s) (r13 s) (r14 s) (r15 s) (sp s) (iflag s).
Definition set_seg_ss (v : Z) (s : cpu_vars) : cpu_vars :=
  CpuVars (gdt s) (gdtr s) (tss s) (idt s) (idtr s) (seg_cs s) (seg_ds s) v (seg_tr s) (rbx s) (rbp
    s) (r12 s) (r13 s) (r14 s) (r15 s) (sp s) (iflag s).
Definition set_seg_tr (v : Z) (s : cpu_vars) : cpu_vars :=
  CpuVars (gdt s) (gdtr s) (tss s) (idt s) (idtr s) (seg_cs s) (seg_ds s) (seg_ss s) v (rbx s) (rbp
    s) (r12 s) (r13 s) (r14 s) (r15 s) (sp s) (iflag s).
Definition set_rbx (v : Z) (s : cpu_vars) : cpu_vars :=
  CpuVars (gdt s) (gdtr s) (tss s) (idt s) (idtr s) (seg_cs s) (seg_ds s) (seg_ss s) (seg_tr s) v
    (rbp s) (r12 s) (r13 s) (r14 s) (r15 s) (sp s) (iflag s).
Definition set_rbp (v : Z) (s : cpu_vars) : cpu_vars :=
  CpuVars (gdt s) (gdtr s) (tss s) (idt s) (idtr s) (seg_cs s) (seg_ds s) (seg_ss s) (seg_tr s) (rbx
    s) v (r12 s) (r13 s) (r14 s) (r15 s) (sp s) (iflag s).
Definition set_r12 (v : Z) (s : cpu_vars) : cpu_vars :=
  CpuVars (gdt s) (gdtr s) (tss s) (idt s) (idtr s) (seg_cs s) (seg_ds s) (seg_ss s) (seg_tr s) (rbx
    s) (rbp s) v (r13 s) (r14 s) (r15 s) (sp s) (iflag s).
Definition set_r13 (v : Z) (s : cpu_vars) : cpu_vars :=
  CpuVars (gdt s) (gdtr s) (tss s) (idt s) (idtr s) (seg_cs s) (seg_ds s) (seg_ss s) (seg_tr s) (rbx
    s) (rbp s) (r12 s) v (r14 s) (r15 s) (sp s) (iflag s).
Definition set_r14 (v : Z) (s : cpu_vars) : cpu_vars :=
  CpuVars (gdt s) (gdtr s) (tss s) (idt s) (idtr s) (seg_cs s) (seg_ds s) (seg_ss s) (seg_tr s) (rbx
    s) (rbp s) (r12 s) (r13 s) v (r15 s) (sp s) (iflag s).
Definition set_r15 (v : Z) (s : cpu_vars) : cpu_vars :=
  CpuVars (gdt s) (gdtr s) (tss s) (idt s) (idtr s) (seg_cs s) (seg_ds s) (seg_ss s) (seg_tr s) (rbx
    s) (rbp s) (r12 s) (r13 s) (r14 s) v (sp s) (iflag s).
Definition set_sp (v : Z) (s : cpu_vars) : cpu_vars :=
  CpuVars (gdt s) (gdtr s) (tss s) (idt s) (idtr s) (seg_cs s) (seg_ds s) (seg_ss s) (seg_tr s) (rbx
    s) (rbp s) (r12 s) (r13 s) (r14 s) (r15 s) v (iflag s).
Definition set_iflag (v : bool) (s : cpu_vars) : cpu_vars :=
  CpuVars (gdt s) (gdtr s) (tss s) (idt s) (idtr s) (seg_cs s) (seg_ds s) (seg_ss s) (seg_tr s) (rbx
    s) (rbp s) (r12 s) (r13 s) (r14 s) (r15 s) (sp s) v.

(** The kernel. *)
Record kst (D : Type) := Kst {
  k_heap : heap_st;
  k_sched : sched_vars;
  k_kbd : kbd_vars;
  k_tty : tty_vars;
  k_pci : pci_vars;
  k_blk : blk_vars;
  k_fs : fs_vars;
  k_apic : apic_vars;
  k_cpu : cpu_vars;
  k_hw : D;
}.
Arguments Kst {D} _ _ _ _ _ _ _ _ _ _.
Arguments k_heap {D} _.
Arguments k_sched {D} _.
Arguments k_kbd {D} _.
Arguments k_tty {D} _.
Arguments k_pci {D} _.
Arguments k_blk {D} _.
Arguments k_fs {D} _.
Arguments k_apic {D} _.
Arguments k_cpu {D} _.
Arguments k_hw {D} _.

Definition set_k_heap {D} (v : heap_st) (s : kst D) : kst D :=
  Kst v (k_sched s) (k_kbd s) (k_tty s) (k_pci s) (k_blk s) (k_fs s) (k_apic s) (k_cpu s) (k_hw s).
Definition set_k_sched {D} (v : sched_vars) (s : kst D) : kst D :=
  Kst (k_heap s) v (k_kbd s) (k_tty s) (k_pci s) (k_blk s) (k_fs s) (k_apic s) (k_cpu s) (k_hw s).
Definition set_k_kbd {D} (v : kbd_vars) (s : kst D) : kst D :=
  Kst (k_heap s) (k_sched s) v (k_tty s) (k_pci s) (k_blk s) (k_fs s) (k_apic s) (k_cpu s) (k_hw s).
Definition set_k_tty {D} (v : tty_vars) (s : kst D) : kst D :=
  Kst (k_heap s) (k_sched s) (k_kbd s) v (k_pci s) (k_blk s) (k_fs s) (k_apic s) (k_cpu s) (k_hw s).
Definition set_k_pci {D} (v : pci_vars) (s : kst D) : kst D :=
  Kst (k_heap s) (k_sched s) (k_kbd s) (k_tty s) v (k_blk s) (k_fs s) (k_apic s) (k_cpu s) (k_hw s).
Definition set_k_blk {D} (v : blk_vars) (s : kst D) : kst D :=
  Kst (k_heap s) (k_sched s) (k_kbd s) (k_tty s) (k_pci s) v (k_fs s) (k_apic s) (k_cpu s) (k_hw s).
Definition set_k_fs {D} (v : fs_vars) (s : kst D) : kst D :=
  Kst (k_heap s) (k_sched s) (k_kbd s) (k_tty s) (k_pci s) (k_blk s) v (k_apic s) (k_cpu s) (k_hw
    s).
Definition set_k_apic {D} (v : apic_vars) (s : kst D) : kst D :=
  Kst (k_heap s) (k_sched s) (k_kbd s) (k_tty s) (k_pci s) (k_blk s) (k_fs s) v (k_cpu s) (k_hw s).
Definition set_k_cpu {D} (v : cpu_vars) (s : kst D) : kst D :=
  Kst (k_heap s) (k_sched s) (k_kbd s) (k_tty s) (k_pci s) (k_blk s) (k_fs s) (k_apic s) v (k_hw s).
Definition set_k_hw {D} (v : D) (s : kst D) : kst D :=
  Kst (k_heap s) (k_sched s) (k_kbd s) (k_tty s) (k_pci s) (k_blk s) (k_fs s) (k_apic s) (k_cpu s)
    v.

(** The C string at the start of a list of bytes. *)
Fixpoint cstring (bs : list Z) : string :=
  match bs with
  | [] => EmptyString
  | b :: bs => if b =? 0 then EmptyString else String (ascii_of_nat (Z.to_nat b)) (cstring bs)
  end.

(** ** Lifting *)

Section lift.
Context {D : Type} {HW : Hardware D}.

Definition lifth {A} (m : M heap_st A) : M (kst D) A := zoom k_heap set_k_heap m.
Definition liftk {A} (m : M vmm_st A) : M (kst D) A := lifth (liftv m).
Definition liftpm {A} (m : M pmm_st A) : M (kst D) A := liftk (liftp m).

Definition klog (fmt : string) (args : list karg) : M (kst D) unit := liftpm (kprintf fmt args).
Definition console_putc (c : Z) : M (kst D) unit := liftpm (modify (λ s, set_out (out s ++ [KPutc c]) s)).

(** The state of the virtual memory manager. *)
Definition vm (s : kst D) : vmm_st := hvm (k_heap s).
Definition mod_sched (f : sched_vars → sched_vars) : M (kst D) unit := modify (λ s, set_k_sched (f (k_sched s)) s).
Definition mod_cpu (f : cpu_vars → cpu_vars) : M (kst D) unit := modify (λ s, set_k_cpu (f (k_cpu s)) s).
Definition mod_pci (f : pci_vars → pci_vars) : M (kst D) unit := modify (λ s, set_k_pci (f (k_pci s)) s).
Definition mod_blk (f : blk_vars → blk_vars) : M (kst D) unit := modify (λ s, set_k_blk (f (k_blk s)) s).
Definition mod_fs (f : fs_vars → fs_vars) : M (kst D) unit := modify (λ s, set_k_fs (f (k_fs s)) s).
Definition mod_apic (f : apic_vars → apic_vars) : M (kst D) unit := modify (λ s, set_k_apic (f (k_apic s)) s).

(** A device access. *)
Definition hw_get (f : D → Z * D) : M (kst D) Z := λ s,
  let '(v, d) := f (k_hw s) in Ok v (set_k_hw d s).
Definition hw_put (f : D → D) : M (kst D) unit := modify (λ s, set_k_hw (f (k_hw s)) s).

(** ** Port and memory-mapped accesses ([include/uix/io.h]) *)

Definition outb (port val : Z) : M (kst D) unit := hw_put (pio_out 1 (wrap16 port) (wrap8 val)).
Definition outw (port val : Z) : M (kst D) unit := hw_put (pio_out 2 (wrap16 port) (wrap16 val)).
Definition outl (port val : Z) : M (kst D) unit := hw_put (pio_out 4 (wrap16 port) (wrap32 val)).
Definition inb (port : Z) : M (kst D) Z := v ← hw_get (pio_in 1 (wrap16 port)); mret (wrap8 v).
Definition inw (port : Z) : M (kst D) Z := v ← hw_get (pio_in 2 (wrap16 port)); mret (wrap16 v).
Definition inl (port : Z) : M (kst D) Z := v ← hw_get (pio_in 4 (wrap16 port)); mret (wrap32 v).
Definition io_wait : M (kst D) unit := outb 0x80 0.

(** The device registers are reached through the direct map. *)
Definition wrmmio32 (addr val : Z) : M (kst D) unit :=
  h ← gets (λ s, hhdm (vp (vm s)));
  hw_put (mmio_out (addr -w h) (wrap32 val)).
Definition rdmmio32 (addr : Z) : M (kst D) Z :=
  h ← gets (λ s, hhdm (vp (vm s)));
  v ← hw_get (mmio_in (addr -w h));
  mret (wrap32 v).

(** A volatile read of RAM that a device writes: the devices run first. *)
Definition dma_step : M (kst D) unit := λ s,
  let p := vp (vm s) in
  let '(d, m) := dma (k_hw s) (pm p) in
  Ok tt (set_k_hw d (set_k_heap (set_hvm (set_vp (set_pm m p) (vm s)) (k_heap s)) s)).
End lift.

End Machine.
