(* ===== verification/Samples.v ===== *)
(** * Sample kernels

    A kernel with zeroed variables over a given address space, and facts on the
    lifts from the memory managers to the kernel. *)

From S2P Require Import Prelude Lib Pmm PmmFacts Vmm PageTables VmmFacts VmmProps Checks Heap VirtMem Machine.

Module Samples.
Import Lib Pmm PmmFacts Vmm PageTables VmmFacts VmmProps Checks Heap VirtMem Machine.

Section lift.
Context {D : Type}.

Definition with_vm (v : vmm_st) (s : kst D) : kst D := set_k_heap (set_hvm v (k_heap s)) s.

Lemma liftk_Ok {A} (m : M vmm_st A) (s : kst D) a v : m (vm s) = Ok a v → liftk m s = Ok a (with_vm v s).
Proof. intros H. unfold liftk, lifth, liftv, zoom. unfold vm in H. by rewrite H. Qed.

Lemma liftk_Stop {A} (m : M vmm_st A) (s : kst D) w v : m (vm s) = Stop w v → liftk m s = Stop w (with_vm v s).
Proof. intros H. unfold liftk, lifth, liftv, zoom. unfold vm in H. by rewrite H. Qed.

Lemma with_vm_id (s : kst D) : with_vm (vm s) s = s.
Proof. by destruct s as [[]]. Qed.

Lemma liftk_load (s : kst D) lo hi lim m n va :
  holds (vm s) lo hi lim m → lo ≤ va → va + Z.of_nat n ≤ hi → liftk (vldn n va) s = Ok (ldn n m va) s.
Proof.
  intros Hh H1 H2. rewrite (liftk_Ok _ _ _ _ (vldn_holds n _ lo hi lim m va Hh H1 H2)). by rewrite with_vm_id.
Qed.

Lemma liftk_store (s : kst D) lo hi lim m n va b :
  holds (vm s) lo hi lim m → lo ≤ va → va + Z.of_nat n ≤ hi →
  ∃ v, liftk (vstn n va b) s = Ok tt (with_vm v s) ∧ worked lo hi lim (vm s) (stn n va b m) v.
Proof.
  intros Hh H1 H2. destruct (vstn_holds n _ lo hi lim m va b Hh H1 H2) as (v & He & Hv). exists v. split; [|done].
  by apply liftk_Ok.
Qed.

Lemma liftk_store8 (s : kst D) lo hi lim m va b :
  holds (vm s) lo hi lim m → lo ≤ va < hi →
  ∃ v, liftk (vstore8 va b) s = Ok tt (with_vm v s) ∧ worked lo hi lim (vm s) (st8 va b m) v.
Proof.
  intros Hh Hva. exists (put8 va b (vm s)). split; [|by apply put8_holds].
  apply liftk_Ok, (put8_run _ lo hi); [apply Hh|done].
Qed.
End lift.

(** ** A kernel with zeroed variables *)

Definition sched0 : sched_vars := SchedVars ∅ 1 0 0 0 0 0 0 0 0 0.
Definition kbd0 : kbd_vars := KbdVars (replicate 256 0) 0 0.
Definition tty0 : tty_vars := TtyVars (replicate 128 0) 0 0.
Definition cpu0 : cpu_vars := CpuVars (replicate 8 0) (0, 0) ∅ [] (0, 0) 0 0 0 0 0 0 0 0 0 0 0 false.

Definition kernel0 {D} (h : heap_st) (d : D) : kst D :=
  Kst h sched0 kbd0 tty0 (PciVars (replicate 64 pci_zero) 0) (BlkVars 0 0 0 0 0 0 0 0 0 0 0 0)
    (FsVars (replicate 32 (UixfsEntry (replicate 24 0) 0 0)) 0 0 (replicate 512 0) 0 0) (ApicVars 0 0 0 0 false) cpu0 d.

(** The machine with a user page. *)
Definition user_kernel : kst unit := kernel0 (HeapSt user_st 0 0) tt.

(** The user page as a buffer. *)
Lemma user_holds (n : nat) : Z.of_nat n ≤ 4096 → ∃ m, holds user_st 0x400000 (0x400000 + Z.of_nat n) (0x400000 + Z.of_nat n) m.
Proof.
  intros Hn. set (e := default 0 (snd <$> walk 3 (pm (vp user_st)) (cr3 user_st) 0x400000)).
  assert (walk 3 (pm (vp user_st)) (cr3 user_st) 0x400000 = Some (0%nat, e) ∧ has e VMM_WRITE = true ∧
    wtab 3 (pm (vp user_st)) (cr3 user_st) 0x400000 = true ∧ client_page (vp user_st) (pfn e) ∧ pfn e ∉ tset (vp user_st) (cr3 user_st))
    as (Hw & Hwr & Hwt & Hc & Ht).
  { apply (bool_decide_unpack _). vm_compute. reflexivity. }
  eexists. apply (holds_page user_st 0x400000 n e); [apply user_st_wf|done..|]. change (0 + Z.of_nat n ≤ 4096). lia.
Qed.

End Samples.
