(* ===== verification/Idt.v ===== *)
(** * Descriptor tables ([core/cpu/idt.c])

    The global descriptor table, the task state segment and the interrupt
    descriptor table, with the addresses of the tables and stacks as parameters
    that the linker fixes. *)

From S2P Require Import Prelude Lib Pmm Vmm Heap Machine.

Module Idt.
Import Lib Pmm Vmm Heap Machine.

Class CpuSymbols := {
  gdt_addr : Z;
  tss_addr : Z;
  idt_addr : Z;
  ist_df_stack : Z;
  ist_nmi_stack : Z;
  ist_pf_stack : Z;
  isr_stub_table : Z → Z; (** by vector *)
}.

Definition K_CS : Z := 0x08.
Definition K_DS : Z := 0x10.
Definition U_CS : Z := 0x18.
Definition U_DS : Z := 0x20.
Definition TSS_SEL : Z := 0x28.
Definition IST_DF : Z := 0.
Definition IST_NMI : Z := 1.
Definition IST_PF : Z := 2.
Definition IST_STACK_SIZE : Z := 16384.

(** [struct tss], packed: [rsvd0] (4 bytes), [rsp0..2], [rsvd1] (4 bytes),
    [ist[7]], [rsvd2] (4 bytes), [iopb], [rsvd3]; 96 bytes. *)
Definition TSS_RSP0 : Z := 4.
Definition TSS_IST (i : Z) : Z := 32 + 8 * i.
Definition TSS_SIZEOF : Z := 96.

(** [struct iframe] *)
Record iframe := Iframe {
  f_rax : Z; f_rcx : Z; f_rdx : Z; f_rbx : Z; f_rbp : Z; f_rsi : Z; f_rdi : Z;
  f_r8 : Z; f_r9 : Z; f_r10 : Z; f_r11 : Z; f_r12 : Z; f_r13 : Z; f_r14 : Z; f_r15 : Z;
  f_int_no : Z; f_err : Z; f_rip : Z; f_cs : Z; f_rflags : Z; f_rsp : Z; f_ss : Z;
}.

(** The words of a frame in memory, lowest address first. *)
Definition iframe_words (f : iframe) : list Z :=
  [f_rax f; f_rcx f; f_rdx f; f_rbx f; f_rbp f; f_rsi f; f_rdi f;
   f_r8 f; f_r9 f; f_r10 f; f_r11 f; f_r12 f; f_r13 f; f_r14 f; f_r15 f;
   f_int_no f; f_err f; f_rip f; f_cs f; f_rflags f; f_rsp f; f_ss f].

Definition set_f_rax (v : Z) (f : iframe) : iframe :=
  Iframe v (f_rcx f) (f_rdx f) (f_rbx f) (f_rbp f) (f_rsi f) (f_rdi f) (f_r8 f) (f_r9 f) (f_r10 f)
    (f_r11 f) (f_r12 f) (f_r13 f) (f_r14 f) (f_r15 f) (f_int_no f) (f_err f) (f_rip f) (f_cs f)
    (f_rflags f) (f_rsp f) (f_ss f).

(** ** Descriptors *)

Definition bit (n : Z) : Z := 1 ≪ n.
Definition bits (ns : list Z) : Z := foldr (λ n acc, Z.lor (bit n) acc) 0 ns.

Definition kernel_code : Z := bits [47; 44; 43; 41; 53].
Definition kernel_data : Z := bits [47; 44; 41].
Definition user_code : Z := bits [47; 46; 45; 44; 43; 41; 53].
Definition user_data : Z := bits [47; 46; 45; 44; 41].

(** The two words of the TSS descriptor. *)
Definition tss_desc_lo (base limit : Z) : Z :=
  Z.lor (Z.lor (Z.lor (Z.lor (Z.lor (Z.land limit 0xFFFF)
    (Z.land base 0xFF ≪ 16))
    (Z.land (base ≫ 8) 0xFF ≪ 24))
    (Z.land (base ≫ 16) 0xFF ≪ 32))
    (0x89 ≪ 40))
    (Z.land (base ≫ 24) 0xFF ≪ 56).
Definition tss_desc_hi (base : Z) : Z := base ≫ 32.

(** The gate of a handler at [addr]. *)
Definition mk_gate (addr : Z) : gate :=
  Gate (Z.land addr 0xFFFF) K_CS 0 0x8E (Z.land (addr ≫ 16) 0xFFFF) (wrap32 (addr ≫ 32)) 0.

Definition gate_zero : gate := Gate 0 0 0 0 0 0 0.

Definition set_gist (v : Z) (g : gate) : gate := Gate (off_lo g) (sel g) v (gflags g) (off_mid g) (off_hi g) (grsvd g).
Definition set_gflags (v : Z) (g : gate) : gate := Gate (off_lo g) (sel g) (gist g) v (off_mid g) (off_hi g) (grsvd g).

Definition exc_name : list string :=
  ["division by zero"; "debug"; "NMI"; "breakpoint";
   "overflow"; "bound range"; "invalid opcode"; "device not available";
   "double fault"; "coproc seg overrun"; "invalid TSS"; "segment not present";
   "stack fault"; "general protection"; "page fault"; "reserved";
   "x87 FP exception"; "alignment check"; "machine check"; "SIMD FP";
   "virtualization"; "control protection"; "reserved"; "reserved";
   "reserved"; "reserved"; "reserved"; "reserved";
   "HV injection"; "VMM communication"; "security"; "reserved"]%string.

(** ** What the processor reads *)

(** The entry point of a gate. *)
Definition gate_target (g : gate) : Z := off_lo g + off_mid g ≪ 16 + off_hi g ≪ 32.

(** The base address in the TSS descriptor. *)
Definition desc_base (lo hi : Z) : Z :=
  Z.land (lo ≫ 16) 0xFFFFFF + (Z.land (lo ≫ 56) 0xFF ≪ 24) + (hi ≪ 32).

(** In the 64-bit task state segment of the architecture [RSP0] is at 4 and
    [IST1] at 36, behind eight reserved bytes. *)
Definition hw_rsp0 (m : mem) : Z := ld64 m 4.
Definition hw_ist (m : mem) (n : Z) : Z := ld64 m (36 + 8 * (n - 1)).

Section idt.
Context {D : Type} {HW : Hardware D} {CS : CpuSymbols}.

Definition tss_set_rsp0 (v : Z) : M (kst D) unit := mod_cpu (λ c, set_tss (st64 TSS_RSP0 v (tss c)) c).

Definition gdt_init : M (kst D) unit :=
  mod_cpu (λ c, set_gdt (<[1%nat := kernel_code]> (<[2%nat := kernel_data]>
    (<[3%nat := user_code]> (<[4%nat := user_data]> (gdt c))))) c) ;;
  let base := tss_addr in
  let limit := TSS_SIZEOF - 1 in
  mod_cpu (λ c, set_gdt (<[5%nat := tss_desc_lo base limit]> (<[6%nat := tss_desc_hi base]> (gdt c))) c) ;;
  mod_cpu (λ c, set_tss
    (st64 (TSS_IST IST_PF) (ist_pf_stack +w IST_STACK_SIZE)
      (st64 (TSS_IST IST_NMI) (ist_nmi_stack +w IST_STACK_SIZE)
        (st64 (TSS_IST IST_DF) (ist_df_stack +w IST_STACK_SIZE) (tss c)))) c) ;;
  mod_cpu (set_gdtr (8 * 8 - 1, gdt_addr)) ;;
  mod_cpu (λ c, set_seg_ds K_DS (set_seg_ss K_DS c)) ;;
  mod_cpu (set_seg_cs K_CS) ;;
  mod_cpu (set_seg_tr TSS_SEL).

Definition idt_init : M (kst D) unit :=
  mod_cpu (set_idt (replicate 256 gate_zero)) ;;
  for_ 256 0 (λ i, mod_cpu (λ c, set_idt (<[Z.to_nat i := mk_gate (isr_stub_table i)]> (idt c)) c)) ;;
  mod_cpu (λ c, set_idt (alter (set_gist (IST_DF + 1)) 8%nat (idt c)) c) ;;
  mod_cpu (set_idtr (256 * 16 - 1, idt_addr)).

Definition idt_gate_set_dpl3 (vec : Z) : M (kst D) unit :=
  mod_cpu (λ c, set_idt (alter (set_gflags 0xEE) (Z.to_nat vec) (idt c)) c).

Definition dump_frame (fr : iframe) : M (kst D) unit :=
  klog "RIP=%p CS=%p RFLAGS=%p RSP=%p\n" [KU (f_rip fr); KU (f_cs fr); KU (f_rflags fr); KU (f_rsp fr)] ;;
  klog "RAX=%p RBX=%p RCX=%p RDX=%p\n" [KU (f_rax fr); KU (f_rbx fr); KU (f_rcx fr); KU (f_rdx fr)] ;;
  klog "RSI=%p RDI=%p RBP=%p ERR=%p\n" [KU (f_rsi fr); KU (f_rdi fr); KU (f_rbp fr); KU (f_err fr)].

End idt.
End Idt.
