(* ===== verification/IdtProps.v ===== *)
(** * Properties of the descriptor tables *)

From S2P Require Import Prelude Lib Pmm Vmm Heap Machine Samples Idt.

Module IdtProps.
Import Lib Pmm Vmm Heap Machine Samples Idt.

(** ** Descriptors *)

Lemma land_ones z n : 0 ≤ n → Z.land z (2 ^ n - 1) = z mod 2 ^ n.
Proof. intros Hn. rewrite <-Z.land_ones by done. by rewrite Z.ones_equiv. Qed.

Lemma mk_gate_target a : 0 ≤ a < 2 ^ 64 → gate_target (mk_gate a) = a.
Proof.
  intros Ha. unfold gate_target, mk_gate. cbn [off_lo off_mid off_hi].
  change 0xFFFF with (2 ^ 16 - 1). rewrite !land_ones, !Z.shiftl_mul_pow2, !Z.shiftr_div_pow2 by lia.
  unfold wrap32. change (2 ^ 16) with 65536. change (2 ^ 32) with 4294967296. change (2 ^ 64) with 18446744073709551616 in Ha.
  Z.div_mod_to_equations. lia.
Qed.

(** Fields side by side. *)
Lemma lor_field a b n : 0 ≤ n → 0 ≤ a < 2 ^ n → Z.lor a (b ≪ n) = a + b * 2 ^ n.
Proof.
  intros Hn Ha. rewrite <-Z.lxor_lor, <-Z.add_nocarry_lxor, Z.shiftl_mul_pow2; try done.
  - apply Z.bits_inj'. intros k Hk. rewrite Z.land_spec, Z.bits_0. destruct (decide (k < n)).
    + rewrite Z.shiftl_spec_low by done. apply andb_false_r.
    + rewrite <-(Z.mod_small a (2 ^ n)), Z.mod_pow2_bits_high by lia. done.
  - apply Z.bits_inj'. intros k Hk. rewrite Z.land_spec, Z.bits_0. destruct (decide (k < n)).
    + rewrite Z.shiftl_spec_low by done. apply andb_false_r.
    + rewrite <-(Z.mod_small a (2 ^ n)), Z.mod_pow2_bits_high by lia. done.
Qed.

Lemma tss_desc_lo_sum base limit : 0 ≤ base → 0 ≤ limit < 2 ^ 16 →
  tss_desc_lo base limit = limit + base mod 2 ^ 8 * 2 ^ 16 + (base / 2 ^ 8) mod 2 ^ 8 * 2 ^ 24 +
    (base / 2 ^ 16) mod 2 ^ 8 * 2 ^ 32 + 0x89 * 2 ^ 40 + (base / 2 ^ 24) mod 2 ^ 8 * 2 ^ 56.
Proof.
  intros Hb Hl. unfold tss_desc_lo. change 0xFFFF with (2 ^ 16 - 1). change 0xFF with (2 ^ 8 - 1).
  rewrite !land_ones, !Z.shiftr_div_pow2 by lia. rewrite (Z.mod_small limit) by lia.
  pose proof (Z.mod_pos_bound base (2 ^ 8)). pose proof (Z.mod_pos_bound (base / 2 ^ 8) (2 ^ 8)).
  pose proof (Z.mod_pos_bound (base / 2 ^ 16) (2 ^ 8)). pose proof (Z.mod_pos_bound (base / 2 ^ 24) (2 ^ 8)).
  rewrite (lor_field limit), (lor_field _ _ 24), (lor_field _ _ 32), (lor_field _ _ 40), (lor_field _ _ 56); lia.
Qed.

Lemma desc_base_tss base limit : 0 ≤ base < 2 ^ 64 → 0 ≤ limit < 2 ^ 16 →
  desc_base (tss_desc_lo base limit) (tss_desc_hi base) = base.
Proof.
  intros Hb Hl. rewrite tss_desc_lo_sum by lia. unfold desc_base, tss_desc_hi.
  change 0xFFFFFF with (2 ^ 24 - 1). change 0xFF with (2 ^ 8 - 1).
  rewrite !land_ones, !Z.shiftl_mul_pow2, !Z.shiftr_div_pow2 by lia.
  change (2 ^ 8) with 256. change (2 ^ 16) with 65536. change (2 ^ 24) with 16777216. change (2 ^ 32) with 4294967296.
  change (2 ^ 40) with 1099511627776. change (2 ^ 56) with 72057594037927936. change (2 ^ 16) with 65536 in Hl.
  change (2 ^ 64) with 18446744073709551616 in Hb. Z.div_mod_to_equations. lia.
Qed.

(** ** The interrupt table *)

Section idt.
Context {D : Type} {CS : CpuSymbols}.

Definition with_idt (t : list gate) (s : kst D) : kst D := set_k_cpu (set_idt t (k_cpu s)) s.

Lemma idt_fill_run (s : kst D) (t : list gate) (n : nat) (i : Z) :
  0 ≤ i → (Z.to_nat i + n = length t)%nat →
  for_ n i (λ i, mod_cpu (λ c, set_idt (<[Z.to_nat i := mk_gate (isr_stub_table i)]> (idt c)) c)) (with_idt t s) =
  Ok tt (with_idt (take (Z.to_nat i) t ++ ((λ i, mk_gate (isr_stub_table i)) <$> seqZ i (Z.of_nat n))) s).
Proof.
  revert t i. induction n as [|n IH]; intros t i Hi Hl; cbn [for_].
  - rewrite seqZ_nil by lia. cbn [fmap list_fmap]. rewrite app_nil_r, take_ge by lia. done.
  - rewrite (bind_Ok_eq _ _ _ tt (with_idt (<[Z.to_nat i := mk_gate (isr_stub_table i)]> t) s)) by done.
    rewrite IH; [|lia|rewrite length_insert; lia]. f_equal. f_equal.
    rewrite (seqZ_cons i) by lia. cbn [fmap list_fmap]. replace (Z.to_nat (i + 1)) with (S (Z.to_nat i)) by lia.
    rewrite (take_S_r _ _ (mk_gate (isr_stub_table i))) by (apply list_lookup_insert_eq; lia).
    rewrite take_insert_ge by lia. rewrite <-(assoc_L (++)). cbn [app].
    replace (Z.pred (Z.of_nat (S n))) with (Z.of_nat n) by lia. by replace (Z.succ i) with (i + 1) by lia.
Qed.

Definition stub_gates : list gate := (λ i, mk_gate (isr_stub_table i)) <$> seqZ 0 256.

Lemma idt_init_run (s : kst D) :
  idt_init s = Ok tt (set_k_cpu (set_idtr (256 * 16 - 1, idt_addr)
    (set_idt (alter (set_gist 1) 8%nat stub_gates) (k_cpu s))) s).
Proof.
  unfold idt_init. rewrite (bind_Ok_eq _ _ _ tt (with_idt (replicate 256 gate_zero) s)) by done.
  rewrite (bind_Ok_eq _ _ _ _ _ (idt_fill_run s (replicate 256 gate_zero) 256 0 ltac:(lia) ltac:(rewrite length_replicate; reflexivity))).
  done.
Qed.
End idt.

(** ** The task state segment *)

(** A load inside a wider store. *)
Lemma ldn_stn_sub k n a j v m :
  0 ≤ j → j + Z.of_nat k ≤ Z.of_nat n → ldn k (stn n a v m) (a + j) = v / 256 ^ j mod 256 ^ Z.of_nat k.
Proof.
  revert j. induction k as [|k IH]; intros j Hj Hn; [by rewrite Z.mod_1_r|]. cbn [ldn].
  replace (a + j + 1) with (a + (j + 1)) by lia. rewrite IH by lia. rewrite ld8_stn.
  rewrite (proj2 (Z.leb_le _ _)), (proj2 (Z.ltb_lt _ _)) by lia. cbn [andb]. replace (a + j - a) with j by lia.
  rewrite Nat2Z.inj_succ, (Z.pow_succ_r 256 (Z.of_nat k)) by lia. rewrite Z.rem_mul_r by lia.
  rewrite Z.add_1_r, (Z.pow_succ_r 256 j) by lia. rewrite (Z.mul_comm 256 (256 ^ j)), <-Z.div_div by lia. lia.
Qed.

Lemma ldn_split k n m a : ldn (k + n) m a = ldn k m a + 256 ^ Z.of_nat k * ldn n m (a + Z.of_nat k).
Proof.
  revert a. induction k as [|k IH]; intros a; cbn [Nat.add ldn].
  - rewrite Z.add_0_r. lia.
  - rewrite IH, Nat2Z.inj_succ, Z.pow_succ_r by lia. replace (a + 1 + Z.of_nat k) with (a + Z.succ (Z.of_nat k)) by lia. lia.
Qed.

(** What [gdt_init] stores in the segment. *)
Definition filled_tss {CS : CpuSymbols} (m : mem) : mem :=
  st64 (TSS_IST IST_PF) (ist_pf_stack +w IST_STACK_SIZE)
    (st64 (TSS_IST IST_NMI) (ist_nmi_stack +w IST_STACK_SIZE)
      (st64 (TSS_IST IST_DF) (ist_df_stack +w IST_STACK_SIZE) m)).

(** The processor's IST1 is the upper half of the first stack with the lower
    half of the second. *)
Lemma hw_ist1_filled {CS : CpuSymbols} (m : mem) :
  hw_ist (filled_tss m) 1 =
    (ist_df_stack +w IST_STACK_SIZE) / 2 ^ 32 + 2 ^ 32 * ((ist_nmi_stack +w IST_STACK_SIZE) mod 2 ^ 32).
Proof.
  unfold hw_ist, filled_tss, TSS_IST, IST_PF, IST_NMI, IST_DF. cbn [Z.mul Z.add Z.sub Pos.mul].
  set (pf := ist_pf_stack +w _). set (nmi := ist_nmi_stack +w _). set (df := ist_df_stack +w _).
  assert (0 ≤ df < 2 ^ 64) as Hdf by (apply Z.mod_pos_bound; lia).
  change (32 + 8 * 2) with 48. change (32 + 8 * 1) with 40. change (32 + 8 * 0) with 32. change (36 + 8 * (1 - 1)) with 36.
  rewrite (ldn_stn_ne 8 8) by lia. rewrite (ldn_split 4 4). change (Z.of_nat 4) with 4.
  rewrite (ldn_stn_ne 4 8 40 36) by lia. change 36 with (32 + 4) at 1. change (36 + 4) with (40 + 0).
  rewrite !ldn_stn_sub by lia. change (256 ^ 4) with (2 ^ 32). change (256 ^ Z.of_nat 4) with (2 ^ 32). rewrite Z.pow_0_r, Z.div_1_r. f_equal.
  apply Z.mod_small. split; [apply Z.div_pos; lia|]. apply Z.div_lt_upper_bound; lia.
Qed.

(** ** Claims *)

(** Addresses as the linker script places them. *)
Definition sample_syms : CpuSymbols := {|
  gdt_addr := 0xffffffff80120000; tss_addr := 0xffffffff80120080; idt_addr := 0xffffffff80121000;
  ist_df_stack := 0xffffffff80130000; ist_nmi_stack := 0xffffffff80134000; ist_pf_stack := 0xffffffff80138000;
  isr_stub_table := λ v, 0xffffffff80101000 + 16 * v |}.

(** C29 [idt_init]: afterwards the gate of every vector is a present kernel
    interrupt gate whose entry point, as the processor assembles it from its
    three fields, is the stub of that vector; only the double fault switches
    stacks. *)
Theorem idt_init_correct {D : Type} {CS : CpuSymbols} (s : kst D) :
  (∀ v, 0 ≤ v < 256 → 0 ≤ isr_stub_table v < 2 ^ 64) →
  ∃ s', idt_init s = Ok tt s' ∧ idtr (k_cpu s') = (4095, idt_addr) ∧
  ∀ v, 0 ≤ v < 256 → ∃ g, idt (k_cpu s') !! Z.to_nat v = Some g ∧ gate_target g = isr_stub_table v ∧
    sel g = K_CS ∧ gflags g = 0x8E ∧ gist g = if v =? 8 then 1 else 0.
Proof.
  intros Hst. eexists. split; [apply idt_init_run|]. split; [done|]. intros v Hv. cbn [k_cpu set_k_cpu idt set_idtr set_idt].
  assert (stub_gates !! Z.to_nat v = Some (mk_gate (isr_stub_table v))) as Hl.
  { unfold stub_gates. rewrite list_lookup_fmap, lookup_seqZ_lt by lia. cbn. do 3 f_equal. lia. }
  pose proof (mk_gate_target _ (Hst v Hv)) as Ht. destruct (Z.eqb_spec v 8) as [->|Hne].
  - change (Z.to_nat 8) with 8%nat in *. eexists. rewrite list_lookup_alter_eq, Hl. done.
  - eexists. rewrite list_lookup_alter_ne, Hl by lia. done.
Qed.

Lemma idt_init_correct_witness :
  let CS := sample_syms in let s := user_kernel in
  ∃ s', idt_init s = Ok tt s' ∧ idtr (k_cpu s') = (4095, idt_addr) ∧
  ∀ v, 0 ≤ v < 256 → ∃ g, idt (k_cpu s') !! Z.to_nat v = Some g ∧ gate_target g = isr_stub_table v ∧
    sel g = K_CS ∧ gflags g = 0x8E ∧ gist g = if v =? 8 then 1 else 0.
Proof. apply (@idt_init_correct unit sample_syms user_kernel). intros v Hv. cbn. lia. Defined.

(** [gdt_init] and the task state segment.  The descriptor names the
    segment's address and [RSP0] is where the processor reads it.  But the
    structure has four reserved bytes where the architecture has eight, so the
    stack the processor takes for a double fault is not [ist_df_stack]: it is
    put together from the halves of two addresses. *)
Theorem tss_ist_misplaced {D : Type} {CS : CpuSymbols} (s : kst D) (v : Z) :
  length (gdt (k_cpu s)) = 8%nat → 0 ≤ tss_addr < 2 ^ 64 → 0 ≤ v < 2 ^ 64 →
  (ist_nmi_stack +w IST_STACK_SIZE) mod 2 ^ 32 ≠ (ist_df_stack +w IST_STACK_SIZE) / 2 ^ 32 →
  ∃ s', (gdt_init ;; tss_set_rsp0 v) s = Ok tt s' ∧
    (∃ lo hi, gdt (k_cpu s') !! 5%nat = Some lo ∧ gdt (k_cpu s') !! 6%nat = Some hi ∧ desc_base lo hi = tss_addr) ∧
    hw_rsp0 (tss (k_cpu s')) = v ∧
    hw_ist (tss (k_cpu s')) 1 =
      (ist_df_stack +w IST_STACK_SIZE) / 2 ^ 32 + 2 ^ 32 * ((ist_nmi_stack +w IST_STACK_SIZE) mod 2 ^ 32) ∧
    hw_ist (tss (k_cpu s')) 1 ≠ ist_df_stack +w IST_STACK_SIZE.
Proof.
  intros Hg Ht Hv Hne. eexists. split; [reflexivity|]. set (s' := set_k_cpu _ _).
  assert (tss (k_cpu s') = st64 TSS_RSP0 v (filled_tss (tss (k_cpu s)))) as Htss by reflexivity.
  assert (hw_ist (tss (k_cpu s')) 1 = (ist_df_stack +w IST_STACK_SIZE) / 2 ^ 32 +
    2 ^ 32 * ((ist_nmi_stack +w IST_STACK_SIZE) mod 2 ^ 32)) as Hist.
  { rewrite Htss, <-(hw_ist1_filled (tss (k_cpu s))). unfold hw_ist, TSS_RSP0. apply ldn_stn_ne. lia. }
  split_and!.
  - eexists _, _. split; [|split; [|apply (desc_base_tss _ (TSS_SIZEOF - 1)); [done|unfold TSS_SIZEOF; lia]]].
    + change (gdt (k_cpu s')) with (<[5%nat := tss_desc_lo tss_addr (TSS_SIZEOF - 1)]> (<[6%nat := tss_desc_hi tss_addr]>
        (<[1%nat := kernel_code]> (<[2%nat := kernel_data]> (<[3%nat := user_code]> (<[4%nat := user_data]> (gdt (k_cpu s)))))))).
      apply list_lookup_insert_eq. rewrite !length_insert. lia.
    + change (gdt (k_cpu s')) with (<[5%nat := tss_desc_lo tss_addr (TSS_SIZEOF - 1)]> (<[6%nat := tss_desc_hi tss_addr]>
        (<[1%nat := kernel_code]> (<[2%nat := kernel_data]> (<[3%nat := user_code]> (<[4%nat := user_data]> (gdt (k_cpu s)))))))).
      rewrite list_lookup_insert_ne by lia. apply list_lookup_insert_eq. rewrite !length_insert. lia.
  - rewrite Htss. unfold hw_rsp0, TSS_RSP0. by apply ld64_st64_eq.
  - exact Hist.
  - rewrite Hist. intros E. set (df := ist_df_stack +w IST_STACK_SIZE) in *. set (nmi := ist_nmi_stack +w IST_STACK_SIZE) in *.
    assert (0 ≤ df < 2 ^ 64) by (apply Z.mod_pos_bound; lia). apply Hne.
    change (2 ^ 32) with 4294967296 in *. change (2 ^ 64) with 18446744073709551616 in *. Z.div_mod_to_equations. lia.
Qed.

Lemma tss_ist_misplaced_witness :
  let CS := sample_syms in
  ∃ s', (gdt_init ;; tss_set_rsp0 0xffffffff40008000) user_kernel = Ok tt s' ∧
    (∃ lo hi, gdt (k_cpu s') !! 5%nat = Some lo ∧ gdt (k_cpu s') !! 6%nat = Some hi ∧ desc_base lo hi = tss_addr) ∧
    hw_rsp0 (tss (k_cpu s')) = 0xffffffff40008000 ∧
    hw_ist (tss (k_cpu s')) 1 =
      (ist_df_stack +w IST_STACK_SIZE) / 2 ^ 32 + 2 ^ 32 * ((ist_nmi_stack +w IST_STACK_SIZE) mod 2 ^ 32) ∧
    hw_ist (tss (k_cpu s')) 1 ≠ ist_df_stack +w IST_STACK_SIZE.
Proof.
  apply (@tss_ist_misplaced unit sample_syms user_kernel 0xffffffff40008000); [reflexivity|cbn; lia|lia|].
  vm_compute. discriminate.
Defined.

End IdtProps.
