(* ===== verification/Task.v ===== *)
(** * Tasks ([core/cpu/task.c])

    Creation and registry of tasks, and the per-process table of file
    descriptors.  A task is allocated on the heap; its kernel stack is heap
    memory too, and the first switch to a new task pops the frame built there. *)

From S2P Require Import Prelude Lib Pmm Vmm Heap Machine.

Module Task.
Import Lib Pmm Vmm Heap Machine.

Definition KSTACK_SIZE : Z := 16 * 1024.

(** [fd] tables, as pure operations on a task. *)
Fixpoint fd_alloc_from (k : nat) (i : Z) (t : task) (type : Z) : Z * task :=
  match k with
  | O => (-24, t)
  | S k =>
      match fds t !! Z.to_nat i with
      | Some f =>
          if in_use f =? 0 then (i, set_fds (<[Z.to_nat i := ProcFd (wrap8 type) 1]> (fds t)) t)
          else fd_alloc_from k (i + 1) t type
      | None => (-24, t)
      end
  end.

Definition proc_fd_alloc (t : task) (type : Z) : Z * task := fd_alloc_from (Z.to_nat PROC_MAX_FDS) 0 t type.

Definition proc_fd_free (t : task) (fd : Z) : task :=
  if (0 <=? fd) && (fd <? PROC_MAX_FDS) then
    match fds t !! Z.to_nat fd with
    | Some f => set_fds (<[Z.to_nat fd := ProcFd (fd_type f) 0]> (fds t)) t
    | None => t
    end
  else t.

Definition proc_fd_type (t : task) (fd : Z) : Z :=
  if (fd <? 0) || (PROC_MAX_FDS <=? fd) then FD_NONE
  else
    match fds t !! Z.to_nat fd with
    | Some f => if in_use f =? 0 then FD_NONE else fd_type f
    | None => FD_NONE
    end.

Section task.
Context {D : Type} {HW : Hardware D}.

(** Access to the task at address [a]. *)
Definition get_task (a : Z) : M (kst D) task :=
  o ← gets (λ s, tasks (k_sched s) !! a);
  match o with Some t => mret t | None => undef "access to a task that was freed" end.
Definition put_task (a : Z) (t : task) : M (kst D) unit := mod_sched (λ v, set_tasks (<[a := t]> (tasks v)) v).
Definition upd_task (a : Z) (f : task → task) : M (kst D) unit := t ← get_task a; put_task a (f t).

(** [kfree] of a task. *)
Definition free_task (a : Z) : M (kst D) unit :=
  lifth (kfree a) ;; mod_sched (λ v, set_tasks (delete a (tasks v)) v).

Definition task_register (t : Z) : M (kst D) unit :=
  a ← gets (λ s, all_tasks (k_sched s));
  upd_task t (set_next_all a) ;;
  mod_sched (set_all_tasks t).

(** The list has at most as many elements as there are tasks, or is circular. *)
Definition list_fuel (s : kst D) : nat := S (size (tasks (k_sched s))).

Definition is_zombie_child (t : task) (parent want_pid : Z) : bool :=
  (state t =? TASK_ZOMBIE) && (ppid t =? parent) && ((want_pid =? 2 ^ 64 - 1) || (pid t =? want_pid)).

Fixpoint find_zombie_from (fuel : nat) (t parent want_pid : Z) : M (kst D) Z :=
  match fuel with
  | O => diverge
  | S fuel =>
      if t =? 0 then mret 0
      else
        tk ← get_task t;
        if is_zombie_child tk parent want_pid then mret t
        else find_zombie_from fuel (next_all tk) parent want_pid
  end.

Definition task_find_zombie (parent want_pid : Z) : M (kst D) Z :=
  fuel ← gets list_fuel;
  t ← gets (λ s, all_tasks (k_sched s));
  find_zombie_from fuel t parent want_pid.

(** [*pp]: [None] is [&all_tasks], [Some t] is [&t->next_all]. *)
Definition get_all_link (pp : option Z) : M (kst D) Z :=
  match pp with
  | None => gets (λ s, all_tasks (k_sched s))
  | Some t => tk ← get_task t; mret (next_all tk)
  end.
Definition set_all_link (pp : option Z) (v : Z) : M (kst D) unit :=
  match pp with
  | None => mod_sched (set_all_tasks v)
  | Some t => upd_task t (set_next_all v)
  end.

Fixpoint reap_from (fuel : nat) (pp : option Z) (parent : Z) : M (kst D) unit :=
  match fuel with
  | O => diverge
  | S fuel =>
      t ← get_all_link pp;
      if t =? 0 then mret tt
      else
        tk ← get_task t;
        if (state tk =? TASK_DEAD) && (ppid tk =? parent)
        then set_all_link pp (next_all tk) ;; reap_from fuel pp parent
        else reap_from fuel (Some t) parent
  end.

Definition task_reap_children (parent : Z) : M (kst D) unit :=
  fuel ← gets list_fuel; reap_from fuel None parent.

Definition task_alloc_pid : M (kst D) Z :=
  n ← gets (λ s, next_pid (k_sched s));
  mod_sched (set_next_pid (n +w 1)) ;;
  mret n.

Definition task_current : M (kst D) Z := gets (λ s, current (k_sched s)).
Definition task_set_current (t : Z) : M (kst D) unit := mod_sched (set_current t).
Definition task_count : M (kst D) Z := gets (λ s, next_pid (k_sched s) -w 1).

(** [kzalloc(sizeof(struct task))] *)
Definition kzalloc_task : M (kst D) Z :=
  t ← lifth (kzalloc TASK_SIZE);
  (if t =? 0 then mret tt else put_task t task_zero) ;;
  mret t.

Definition task_alloc (nm : string) : M (kst D) Z :=
  t ← kzalloc_task;
  if t =? 0 then mret 0
  else
    st ← lifth (kmalloc KSTACK_SIZE);
    upd_task t (set_kstack st) ;;
    if st =? 0 then free_task t ;; mret 0
    else
      upd_task t (set_kstack_size KSTACK_SIZE) ;;
      p ← task_alloc_pid;
      upd_task t (set_pid p) ;;
      upd_task t (set_name nm) ;;
      upd_task t (set_state TASK_READY) ;;
      task_register t ;;
      mret t.

Definition task_init : M (kst D) unit :=
  t ← task_alloc "bootstrap";
  task_set_current t ;;
  if t =? 0 then panic "task: cannot allocate bootstrap task"
  else upd_task t (set_state TASK_RUNNING).

(** [sp -= 8; *(u64 * )sp = v;] *)
Definition push (sp v : Z) : M (kst D) Z :=
  let sp := sp -w 8 in
  liftk (vstn 8 sp v) ;;
  mret sp.

Fixpoint push_all (sp : Z) (vs : list Z) : M (kst D) Z :=
  match vs with
  | [] => mret sp
  | v :: vs => sp ← push sp v; push_all sp vs
  end.

(** [sp = t->kstack + t->kstack_size; sp &= ~0xF;] *)
Definition stack_top (t : task) : Z := Z.land (kstack t +w kstack_size t) (~w 0xF).

End task.
End Task.
