(* ===== verification/Sched.v ===== *)
(** * Scheduler ([core/cpu/sched.c], [core/cpu/task.c], [arch/x86_64/switch.S])

    Round-robin run queue, blocking and wake-up, and the context switch.  The
    switch saves the callee-saved registers and the return address on the stack
    of the task that leaves and restores those of the task that comes: an
    operation that switches yields the address at which execution goes on. *)

From S2P Require Import Prelude Lib Pmm Vmm Heap Machine Idt Task.

Module Sched.
Import Lib Pmm Vmm Heap Machine Idt Task.

(** Addresses fixed by the linker. *)
Class Symbols := {
  schedule_ret : Z; (** after the call of [switch_to] in [schedule] *)
  execve_ret : Z; (** after the call of [switch_to] in [do_execve] *)
  task_entry_trampoline : Z;
  user_launch_trampoline : Z;
  fork_child_stub : Z;
}.

Definition TIME_SLICE : Z := 2.

Section sched.
Context {D : Type} {HW : Hardware D} {SY : Symbols}.

(** ** Run queue *)

Definition sched_enqueue (t : Z) : M (kst D) unit :=
  upd_task t (set_next 0) ;;
  tail ← gets (λ s, runqueue_tail (k_sched s));
  (if tail =? 0 then mod_sched (set_runqueue_head t) else upd_task tail (set_next t)) ;;
  mod_sched (set_runqueue_tail t) ;;
  mod_sched (λ v, set_rq_size (rq_size v +w 1) v).

Definition sched_enqueue_user (t : Z) : M (kst D) unit :=
  p ← task_alloc_pid;
  upd_task t (set_pid p) ;;
  sched_enqueue t.

Definition dequeue : M (kst D) Z :=
  t ← gets (λ s, runqueue_head (k_sched s));
  if t =? 0 then mret 0
  else
    tk ← get_task t;
    mod_sched (set_runqueue_head (next tk)) ;;
    (if next tk =? 0 then mod_sched (set_runqueue_tail 0) else mret tt) ;;
    upd_task t (set_next 0) ;;
    mod_sched (λ v, set_rq_size (rq_size v -w 1) v) ;;
    mret t.

Definition sched_init : M (kst D) unit :=
  mod_sched (λ v, set_runqueue_head 0 (set_runqueue_tail 0 v)).

(** ** Context switch *)

Definition pop : M (kst D) Z :=
  a ← gets (λ s, sp (k_cpu s));
  v ← liftk (vldn 8 a);
  mod_cpu (set_sp (a +w 8)) ;;
  mret v.

(** [switch_to(prev_rsp, next_rsp)] called with return address [ret]; [save]
    stores the old stack pointer in [*prev_rsp].  The result is the address the
    final [ret] instruction jumps to. *)
Definition switch_to (save : Z → M (kst D) unit) (next_rsp ret : Z) : M (kst D) Z :=
  c ← gets k_cpu;
  a ← push_all (sp c) [ret; rbp c; rbx c; r12 c; r13 c; r14 c; r15 c];
  save a ;;
  mod_cpu (set_sp next_rsp) ;;
  v ← pop; mod_cpu (set_r15 v) ;;
  v ← pop; mod_cpu (set_r14 v) ;;
  v ← pop; mod_cpu (set_r13 v) ;;
  v ← pop; mod_cpu (set_r12 v) ;;
  v ← pop; mod_cpu (set_rbx v) ;;
  v ← pop; mod_cpu (set_rbp v) ;;
  pop.

(** ** [schedule] *)

(** [if (zombie && zombie != t) { kfree(zombie->kstack); kfree(zombie); zombie = NULL; }] *)
Definition reap_zombie (t : Z) : M (kst D) unit :=
  z ← gets (λ s, zombie (k_sched s));
  if negb (z =? 0) && negb (z =? t) then
    zt ← get_task z;
    lifth (kfree (kstack zt)) ;;
    free_task z ;;
    mod_sched (set_zombie 0)
  else mret tt.

(** [None]: [schedule] returned to its caller; [Some a]: the processor goes on
    at [a] on the stack of the task that was switched to. *)
Definition schedule : M (kst D) (option Z) :=
  prev ← task_current;
  reap_zombie prev ;;
  nx ← dequeue;
  if nx =? 0 then
    p ← get_task prev;
    if (state p =? TASK_DEAD) || (state p =? TASK_ZOMBIE) then hlt
    else mret None
  else
    p ← get_task prev;
    (if state p =? TASK_RUNNING then
       upd_task prev (set_state TASK_READY) ;; sched_enqueue prev
     else if state p =? TASK_DEAD then mod_sched (set_zombie prev)
     else mret tt) ;;
    upd_task nx (set_state TASK_RUNNING) ;;
    task_set_current nx ;;
    nt ← get_task nx;
    tss_set_rsp0 (kstack nt +w kstack_size nt) ;;
    kc ← gets (λ s, kernel_cr3 (vm s));
    (if negb (tcr3 nt =? 0) && negb (tcr3 nt =? kc) then liftk (vmm_switch (tcr3 nt)) else mret tt) ;;
    a ← switch_to (λ v, upd_task prev (set_rsp v)) (rsp nt) schedule_ret;
    mret (Some a).

(** What a task does at [schedule_ret], when it is switched back in. *)
Definition schedule_resume : M (kst D) unit :=
  mod_cpu (set_iflag true) ;;
  t ← task_current;
  reap_zombie t.

(** ** Blocking *)

Definition block_current (f : task → task) : M (kst D) (option Z) :=
  t ← task_current;
  bl ← gets (λ s, blocked_list (k_sched s));
  upd_task t (λ tk, set_next bl (f (set_state TASK_BLOCKED tk))) ;;
  mod_sched (set_blocked_list t) ;;
  schedule.

Definition task_block : M (kst D) (option Z) := block_current (λ t, t).
Definition task_block_any : M (kst D) (option Z) := block_current (set_block_on 0).

(** [*pp]: [None] is [&blocked_list], [Some t] is [&t->next]. *)
Definition get_blk_link (pp : option Z) : M (kst D) Z :=
  match pp with
  | None => gets (λ s, blocked_list (k_sched s))
  | Some t => tk ← get_task t; mret (next tk)
  end.
Definition set_blk_link (pp : option Z) (v : Z) : M (kst D) unit :=
  match pp with
  | None => mod_sched (set_blocked_list v)
  | Some t => upd_task t (set_next v)
  end.

(** The task [t] that [*pp] points to becomes ready. *)
Definition unblock (pp : option Z) (t : Z) : M (kst D) unit :=
  tk ← get_task t;
  set_blk_link pp (next tk) ;;
  upd_task t (λ tk, set_state TASK_READY (set_next 0 tk)) ;;
  sched_enqueue t.

Definition wakes (tk : task) (exiting_pid exiting_ppid : Z) : bool :=
  ((block_on tk =? 0) && (pid tk =? exiting_ppid)) || (block_on tk =? exiting_pid).

Fixpoint wakeup_from (fuel : nat) (pp : option Z) (exiting_pid exiting_ppid : Z) : M (kst D) unit :=
  match fuel with
  | O => diverge
  | S fuel =>
      t ← get_blk_link pp;
      if t =? 0 then mret tt
      else
        tk ← get_task t;
        if wakes tk exiting_pid exiting_ppid
        then unblock pp t ;; wakeup_from fuel pp exiting_pid exiting_ppid
        else wakeup_from fuel (Some t) exiting_pid exiting_ppid
  end.

Definition task_wakeup_children (exiting_pid exiting_ppid : Z) : M (kst D) unit :=
  fuel ← gets list_fuel; wakeup_from fuel None exiting_pid exiting_ppid.

Fixpoint wakeup_one_from (fuel : nat) (pp : option Z) (p : Z) : M (kst D) unit :=
  match fuel with
  | O => diverge
  | S fuel =>
      t ← get_blk_link pp;
      if t =? 0 then mret tt
      else
        tk ← get_task t;
        if block_on tk =? p then unblock pp t
        else wakeup_one_from fuel (Some t) p
  end.

Definition task_wakeup (p : Z) : M (kst D) unit :=
  fuel ← gets list_fuel; wakeup_one_from fuel None p.

(** ** Ticks *)

Definition sched_tick : M (kst D) (option Z) :=
  nr ← gets (λ s, need_resched (k_sched s));
  stay ← (if nr =? 0 then
            mod_sched (λ v, set_ticks_since_switch (ticks_since_switch v +w 1) v) ;;
            n ← gets (λ s, ticks_since_switch (k_sched s));
            mret (n <? TIME_SLICE)
          else mret false);
  if (stay : bool) then mret None
  else
    mod_sched (set_need_resched 0) ;;
    mod_sched (set_ticks_since_switch 0) ;;
    schedule.

Definition task_yield : M (kst D) unit :=
  mod_sched (set_ticks_since_switch 0) ;;
  mod_sched (set_need_resched 1).

Definition sched_start : M (kst D) (option Z) :=
  n ← task_count;
  klog "[info] sched: %u tasks, starting preemptive round-robin\n" [KU (wrap32 n)] ;;
  r ← schedule;
  match r with
  | Some a => mret (Some a)
  | None => hlt
  end.

(** ** Kernel threads ([core/cpu/task.c]) *)

Definition task_create (nm : string) (fn arg : Z) : M (kst D) Z :=
  t ← task_alloc nm;
  if t =? 0 then mret 0
  else
    tk ← get_task t;
    a ← push_all (stack_top tk) [task_entry_trampoline; 0; 0; fn; arg; 0; 0];
    upd_task t (set_rsp a) ;;
    sched_enqueue t ;;
    mret t.

Definition task_exit : M (kst D) (option Z) :=
  t ← task_current;
  upd_task t (set_state TASK_DEAD) ;;
  tk ← get_task t;
  klog "[info] task '%s' (pid %u) exiting\n" [KS (name tk); KU (wrap32 (pid tk))] ;;
  r ← schedule;
  match r with
  | Some a => mret (Some a)
  | None => undef "__builtin_unreachable in task_exit"
  end.

End sched.
End Sched.
