(* ===== verification/SchedFacts.v ===== *)
(** * Run queue and context switch

    The run queue as a list of tasks, and the effect of the operations on it;
    the words a context switch stores and loads. *)

From S2P Require Import Prelude Lib Pmm Vmm PageTables VmmFacts Heap VirtMem Machine Samples Idt Task Sched.

Module SchedFacts.
Import Lib Pmm Vmm PageTables VmmFacts Heap VirtMem Machine Samples Idt Task Sched.

(** ** The run queue *)

(** The tasks of [q] are linked in this order. *)
Fixpoint chain (ts : gmap Z task) (q : list Z) : Prop :=
  match q with
  | [] => True
  | t :: q => t ≠ 0 ∧ (∃ tk, ts !! t = Some tk ∧ next tk = default 0 (head q)) ∧ chain ts q
  end.

Record rq (v : sched_vars) (q : list Z) : Prop := Rq {
  rq_head : runqueue_head v = default 0 (head q);
  rq_tail : runqueue_tail v = default 0 (last q);
  rq_len : rq_size v = wrap64 (Z.of_nat (length q));
  rq_chain : chain (tasks v) q;
  rq_nodup : NoDup q;
}.

(** The tasks are the same but for their links. *)
Definition same_tasks (ts ts' : gmap Z task) : Prop := ∀ a, set_next 0 <$> ts' !! a = set_next 0 <$> ts !! a.

(** The variables of the scheduler that the queue operations leave alone. *)
Record queue_step (v v' : sched_vars) : Prop := QueueStep {
  qs_tasks : same_tasks (tasks v) (tasks v');
  qs_current : current v' = current v;
  qs_zombie : zombie v' = zombie v;
  qs_blocked : blocked_list v' = blocked_list v;
  qs_ticks : ticks_since_switch v' = ticks_since_switch v;
  qs_resched : need_resched v' = need_resched v;
  qs_pid : next_pid v' = next_pid v;
  qs_all : all_tasks v' = all_tasks v;
}.

Lemma same_tasks_refl ts : same_tasks ts ts.
Proof. done. Qed.

Lemma same_tasks_next ts t tk n : ts !! t = Some tk → same_tasks ts (<[t := set_next n tk]> ts).
Proof. intros Ht a. destruct (decide (a = t)) as [->|]; [by rewrite lookup_insert_eq, Ht|by rewrite lookup_insert_ne]. Qed.

Lemma same_tasks_trans ts ts' ts'' : same_tasks ts ts' → same_tasks ts' ts'' → same_tasks ts ts''.
Proof. intros H1 H2 a. by rewrite H2. Qed.

Lemma same_tasks_lookup ts ts' t tk :
  same_tasks ts ts' → ts !! t = Some tk → ∃ tk', ts' !! t = Some tk' ∧ set_next 0 tk' = set_next 0 tk.
Proof. intros H Ht. specialize (H t). rewrite Ht in H. destruct (ts' !! t) as [tk'|]; [|done]. exists tk'. split; [done|]. cbn in H. congruence. Qed.

Lemma chain_lookup ts q t : chain ts q → t ∈ q → t ≠ 0 ∧ ∃ tk, ts !! t = Some tk.
Proof.
  induction q as [|a q IH]; [by intros _ ?%not_elem_of_nil|]. cbn [chain]. intros (H0 & (tk & Htk & _) & Hc) [->|Hin]%elem_of_cons; eauto.
Qed.

Lemma chain_ext ts ts' q : (∀ t, t ∈ q → ts' !! t = ts !! t) → chain ts q → chain ts' q.
Proof.
  induction q as [|a q IH]; [done|]. cbn [chain]. intros He (H0 & (tk & Htk & Hn) & Hc).
  split_and!; [done|exists tk; rewrite He by set_solver; done|]. apply IH; [set_solver|done].
Qed.

(** The links after [t] is put behind [q]. *)
Lemma chain_snoc ts q t tk :
  chain ts q → NoDup (q ++ [t]) → t ≠ 0 → ts !! t = Some tk → next tk = 0 →
  chain (match last q with
         | Some p => match ts !! p with Some pk => <[p := set_next t pk]> ts | None => ts end
         | None => ts end) (q ++ [t]).
Proof.
  induction q as [|a [|b q] IH]; intros Hc Hn H0 Ht Hnx.
  - cbn. split_and!; [done|by exists tk|done].
  - destruct Hc as (Ha & (ak & Hak & _) & _). cbn. rewrite Hak.
    assert (a ≠ t) as Hat by (apply NoDup_cons in Hn as [Hn _]; set_solver).
    split; [done|]. split; [exists (set_next t ak); by rewrite lookup_insert_eq|].
    split; [done|]. split; [|done]. exists tk. by rewrite lookup_insert_ne.
  - destruct Hc as (Ha & (ak & Hak & Hna) & Hc). apply NoDup_cons in Hn as [Hna' Hn]. specialize (IH Hc Hn H0 Ht Hnx).
    change (last (a :: b :: q)) with (last (b :: q)). split; [done|]. split; [|exact IH].
    exists ak. split; [|done]. destruct (last (b :: q)) as [p|] eqn:Hp; [|done].
    destruct (ts !! p) as [pk|]; [|done]. rewrite lookup_insert_ne; [done|]. intros ->.
    apply last_Some_elem_of in Hp. set_solver.
Qed.

Section queue.
Context {D : Type}.
Implicit Types s : kst D.

Lemma get_task_run s t tk : tasks (k_sched s) !! t = Some tk → get_task t s = Ok tk s.
Proof. intros H. unfold get_task. rewrite (bind_Ok_eq _ _ _ (Some tk) s) by (unfold gets; by rewrite H). done. Qed.

Lemma upd_task_run s t tk f : tasks (k_sched s) !! t = Some tk →
  upd_task t f s = Ok tt (set_k_sched (set_tasks (<[t := f tk]> (tasks (k_sched s))) (k_sched s)) s).
Proof. intros H. unfold upd_task. by rewrite (bind_Ok_eq _ _ _ _ _ (get_task_run s t tk H)). Qed.

Lemma sched_enqueue_run s q t tk :
  rq (k_sched s) q → t ∉ q → t ≠ 0 → tasks (k_sched s) !! t = Some tk →
  ∃ v, sched_enqueue t s = Ok tt (set_k_sched v s) ∧ rq v (q ++ [t]) ∧ queue_step (k_sched s) v.
Proof.
  intros [Hh Ht Hl Hc Hn] Hnot H0 Htk. unfold sched_enqueue.
  rewrite (bind_Ok_eq _ _ _ _ _ (upd_task_run s t tk _ Htk)).
  set (ts1 := <[t := set_next 0 tk]> (tasks (k_sched s))).
  assert (chain ts1 q) as Hc1 by (eapply chain_ext; [|exact Hc]; intros a Ha; apply lookup_insert_ne; set_solver).
  assert (NoDup (q ++ [t])) as Hn1 by (apply NoDup_app; split_and!; [done|set_solver|apply NoDup_singleton]).
  pose proof (chain_snoc ts1 q t (set_next 0 tk) Hc1 Hn1 H0 (lookup_insert_eq _ _ _) eq_refl) as Hc2.
  rewrite (bind_Ok_eq _ _ _ (runqueue_tail (k_sched s)) _) by done. rewrite Ht.
  assert (same_tasks (tasks (k_sched s)) ts1) as Hs1 by by apply same_tasks_next.
  assert (wrap64 (rq_size (k_sched s) + 1) = wrap64 (Z.of_nat (length (q ++ [t])))) as Hlen.
  { rewrite Hl, length_app. cbn [length]. unfold wrap64. rewrite Z.add_mod_idemp_l by lia. f_equal. lia. }
  destruct (last q) as [p|] eqn:Hp; cbn [default from_option id].
  - assert (p ∈ q) as Hpq by by apply last_Some_elem_of. destruct (chain_lookup _ _ _ Hc1 Hpq) as [Hp0 [pk Hpk]].
    rewrite (proj2 (Z.eqb_neq p 0)) by done. rewrite Hpk in Hc2.
    rewrite (bind_Ok_eq _ _ _ tt (set_k_sched (set_tasks (<[p := set_next t pk]> ts1) (k_sched s)) s)).
    2:{ rewrite (upd_task_run _ p pk) by done. done. }
    eexists. split; [reflexivity|]. split; split; cbn; try done.
    + rewrite Hh. by destruct q.
    + by rewrite last_snoc.
    + eapply same_tasks_trans; [exact Hs1|by apply same_tasks_next].
  - apply last_None in Hp as ->. eexists. split; [reflexivity|]. split; split; cbn; try done.
Qed.

Lemma dequeue_run s q :
  rq (k_sched s) q →
  match q with
  | [] => dequeue s = Ok 0 s
  | t :: q' => ∃ v, dequeue s = Ok t (set_k_sched v s) ∧ rq v q' ∧ queue_step (k_sched s) v
  end.
Proof.
  intros [Hh Ht Hl Hc Hn]. unfold dequeue. rewrite (bind_Ok_eq _ _ _ (runqueue_head (k_sched s)) s) by done. rewrite Hh.
  destruct q as [|t q]; [done|]. destruct Hc as (H0 & (tk & Htk & Hnx) & Hc). apply NoDup_cons in Hn as [Hnot Hn].
  cbn [head default from_option id]. rewrite (proj2 (Z.eqb_neq t 0)) by done. rewrite (bind_Ok_eq _ _ _ _ _ (get_task_run s t tk Htk)).
  assert (chain (<[t := set_next 0 tk]> (tasks (k_sched s))) q) as Hc'.
  { eapply chain_ext; [|exact Hc]. intros a Ha. apply lookup_insert_ne. set_solver. }
  assert (wrap64 (rq_size (k_sched s) - 1) = wrap64 (Z.of_nat (length q))) as Hlen.
  { rewrite Hl. cbn [length]. unfold wrap64. rewrite Zminus_mod_idemp_l. f_equal. lia. }
  rewrite (bind_Ok_eq _ _ _ tt (set_k_sched (set_runqueue_head (next tk) (k_sched s)) s)) by done. rewrite Hnx.
  destruct q as [|b q]; cbn [head default from_option id].
  - rewrite Z.eqb_refl. rewrite (bind_Ok_eq _ _ _ tt (set_k_sched (set_runqueue_tail 0 (set_runqueue_head 0 (k_sched s))) s)) by done.
    rewrite (bind_Ok_eq _ _ _ _ _ (upd_task_run (set_k_sched (set_runqueue_tail 0 (set_runqueue_head 0 (k_sched s))) s) t tk _ Htk)). eexists. split; [reflexivity|].
    split; split; cbn; try done. by apply same_tasks_next.
  - destruct Hc as (Hb0 & Hc). rewrite (proj2 (Z.eqb_neq b 0)) by done.
    rewrite (bind_Ok_eq _ _ _ tt (set_k_sched (set_runqueue_head b (k_sched s)) s)) by done.
    rewrite (bind_Ok_eq _ _ _ _ _ (upd_task_run (set_k_sched (set_runqueue_head b (k_sched s)) s) t tk _ Htk)). eexists. split; [reflexivity|].
    split; split; cbn; try done. by apply same_tasks_next.
Qed.
End queue.

(** ** The context switch *)

(** The words of [vs] pushed below [a]. *)
Fixpoint pushed (a : Z) (vs : list Z) (m : mem) : mem :=
  match vs with
  | [] => m
  | v :: vs => pushed (a - 8) vs (st64 (a - 8) v m)
  end.

Lemma pushed_above a vs m b : a ≤ b → ld64 (pushed a vs m) b = ld64 m b.
Proof.
  revert a m. induction vs as [|v vs IH]; intros a m Hb; [done|]. cbn [pushed]. rewrite IH by lia. apply ldn_stn_ne. lia.
Qed.

(** The words are found where they were pushed. *)
Lemma pushed_lookup a vs m i v :
  vs !! i = Some v → 0 ≤ v < 2 ^ 64 → ld64 (pushed a vs m) (a - 8 * (Z.of_nat i + 1)) = v.
Proof.
  revert a m i. induction vs as [|w vs IH]; intros a m i Hi Hv; [done|]. cbn [pushed]. destruct i as [|i].
  - injection Hi as ->. replace (a - 8 * (Z.of_nat 0 + 1)) with (a - 8) by lia. rewrite pushed_above by lia. by apply ld64_st64_eq.
  - cbn in Hi. rewrite <-(IH (a - 8) (st64 (a - 8) w m) i Hi Hv). f_equal. lia.
Qed.

Lemma pushed_out a vs m b : b < a - 8 * Z.of_nat (length vs) ∨ a ≤ b → ld8 (pushed a vs m) b = ld8 m b.
Proof.
  revert a m. induction vs as [|v vs IH]; intros a m Hb; [done|]. cbn [pushed length] in *. rewrite IH by lia.
  apply ld8_stn_out. lia.
Qed.

(** The registers a switch to the stack at [a] loads. *)
Definition reloaded (m : mem) (a : Z) (c : cpu_vars) : cpu_vars :=
  set_sp (a + 56) (set_rbp (ld64 m (a + 40)) (set_rbx (ld64 m (a + 32)) (set_r12 (ld64 m (a + 24))
    (set_r13 (ld64 m (a + 16)) (set_r14 (ld64 m (a + 8)) (set_r15 (ld64 m a) c)))))).

(** The words a switch stores, for return address [ret]. *)
Definition saved_words (ret : Z) (c : cpu_vars) : list Z := [ret; rbp c; rbx c; r12 c; r13 c; r14 c; r15 c].

Section switch.
Context {D : Type} (lo hi lim : Z) (Hlo : 0 ≤ lo) (Hhi : hi < 2 ^ 64).
Implicit Types s : kst D.

Lemma push_all_run s m a vs :
  holds (vm s) lo hi lim m → lo ≤ a - 8 * Z.of_nat (length vs) → a ≤ hi →
  ∃ v, push_all a vs s = Ok (a - 8 * Z.of_nat (length vs)) (with_vm v s) ∧ worked lo hi lim (vm s) (pushed a vs m) v.
Proof using Hlo Hhi.
  revert s m a. induction vs as [|w vs IH]; intros s m a Hh H1 H2; cbn [push_all length] in *.
  - exists (vm s). split; [by rewrite with_vm_id, Z.sub_0_r|]. split; [done|apply spared_refl].
  - unfold push. rewrite wrap64_small by lia.
    destruct (liftk_store s lo hi lim m 8 (a - 8) w Hh) as (v1 & He1 & Hh1 & Hs1); [lia..|].
    destruct (IH (with_vm v1 s) _ (a - 8) Hh1) as (v2 & He2 & Hh2 & Hs2); [lia..|].
    exists v2. split; [|split; [done|by eapply spared_trans]].
    rewrite (bind_Ok_eq _ _ _ (a - 8) (with_vm v1 s)) by (by rewrite (bind_Ok_eq _ _ _ _ _ He1)).
    rewrite He2. f_equal. lia.
Qed.

Lemma pop_run s m :
  holds (vm s) lo hi lim m → lo ≤ sp (k_cpu s) → sp (k_cpu s) + 8 ≤ hi →
  pop s = Ok (ld64 m (sp (k_cpu s))) (set_k_cpu (set_sp (sp (k_cpu s) + 8) (k_cpu s)) s).
Proof using Hlo Hhi.
  intros Hh H1 H2. unfold pop. rewrite (bind_Ok_eq _ _ _ (sp (k_cpu s)) s) by done.
  rewrite (bind_Ok_eq _ _ _ _ _ (liftk_load s lo hi lim m 8 _ Hh H1 H2)).
  rewrite wrap64_small by lia. done.
Qed.

(** A pop whose value goes to a register. *)
Lemma pop_reg_run {A} s m a c (f : Z → cpu_vars → cpu_vars) (k : M (kst D) A) :
  holds (vm s) lo hi lim m → sp c = a → lo ≤ a → a + 8 ≤ hi →
  (v ← pop; mod_cpu (f v) ;; k) (set_k_cpu c s) = k (set_k_cpu (f (ld64 m a) (set_sp (a + 8) c)) s).
Proof using Hlo Hhi.
  intros Hh <- H1 H2. by rewrite (bind_Ok_eq _ _ _ _ _ (pop_run (set_k_cpu c s) m Hh H1 H2)).
Qed.

Lemma switch_run s m save sv nx ret :
  let c := k_cpu s in let m' := pushed (sp c) (saved_words ret c) m in
  holds (vm s) lo hi lim m → lo ≤ sp c - 56 → sp c ≤ hi → lo ≤ nx → nx + 56 ≤ hi →
  (∀ v, save (sp c - 56) (with_vm v s) = Ok tt (set_k_sched sv (with_vm v s))) →
  ∃ v, switch_to save nx ret s = Ok (ld64 m' (nx + 48)) (set_k_cpu (reloaded m' nx c) (set_k_sched sv (with_vm v s))) ∧
    worked lo hi lim (vm s) m' v.
Proof using Hlo Hhi.
  intros c m' Hh H1 H2 H3 H4 Hsave.
  destruct (push_all_run s m (sp c) (saved_words ret c) Hh) as (v & He & Hh' & Hs'); [cbn [length saved_words]; lia|lia|].
  exists v. split; [|done]. unfold switch_to. rewrite (bind_Ok_eq _ _ _ c s) by done.
  change [ret; rbp c; rbx c; r12 c; r13 c; r14 c; r15 c] with (saved_words ret c). rewrite (bind_Ok_eq _ _ _ _ _ He).
  change (sp c - 8 * Z.of_nat (length (saved_words ret c))) with (sp c - 56). rewrite (bind_Ok_eq _ _ _ _ _ (Hsave v)).
  set (s1 := set_k_sched sv (with_vm v s)). assert (holds (vm s1) lo hi lim m') as Hh1 by done.
  rewrite (bind_Ok_eq _ _ _ tt (set_k_cpu (set_sp nx c) s1)) by done.
  rewrite (pop_reg_run s1 m' nx) by (done || lia). rewrite (pop_reg_run s1 m' (nx + 8)) by (done || lia).
  rewrite (pop_reg_run s1 m' (nx + 8 + 8)) by (done || lia). rewrite (pop_reg_run s1 m' (nx + 8 + 8 + 8)) by (done || lia).
  rewrite (pop_reg_run s1 m' (nx + 8 + 8 + 8 + 8)) by (done || lia). rewrite (pop_reg_run s1 m' (nx + 8 + 8 + 8 + 8 + 8)) by (done || lia).
  rewrite (pop_run _ m') by (done || (cbn; lia)). cbn [k_cpu set_k_cpu sp set_sp set_rbp set_rbx set_r12 set_r13 set_r14 set_r15].
  replace (nx + 8 + 8 + 8 + 8 + 8 + 8 + 8) with (nx + 56) by lia. replace (nx + 8 + 8 + 8 + 8 + 8 + 8) with (nx + 48) by lia.
  replace (nx + 8 + 8 + 8 + 8 + 8) with (nx + 40) by lia. replace (nx + 8 + 8 + 8 + 8) with (nx + 32) by lia.
  replace (nx + 8 + 8 + 8) with (nx + 24) by lia. replace (nx + 8 + 8) with (nx + 16) by lia. done.
Qed.
End switch.

End SchedFacts.
