(* ===== verification/SchedProps.v ===== *)
(** * Properties of the scheduler *)

From S2P Require Import Prelude Lib Pmm Vmm PageTables VmmFacts Heap VirtMem HeapFacts HeapProps.
From S2P Require Import Machine Samples Idt Task Sched SchedFacts.

Module SchedProps.
Import Lib Pmm Vmm PageTables VmmFacts Heap VirtMem HeapFacts HeapProps Machine Samples Idt Task Sched SchedFacts.

Section sched.
Context {D : Type} {SY : Symbols} (lo hi lim : Z).
Implicit Types s : kst D.

(** A task that runs in the kernel's address space. *)
Definition kthread (s : kst D) (tk : task) : Prop := tcr3 tk = 0 ∨ tcr3 tk = kernel_cr3 (vm s).

(** The saved stack pointer leaves room for the seven words of a switch. *)
Definition parked (tk : task) : Prop := lo ≤ rsp tk ∧ rsp tk + 56 ≤ hi.

Definition in_state (s : kst D) (st t : Z) (P : task → Prop) : Prop :=
  ∃ tk, tasks (k_sched s) !! t = Some tk ∧ state tk = st ∧ kthread s tk ∧ P tk.

(** The memory [lo, hi) holds the kernel stacks; the running task's stack
    pointer is in it. *)
Definition stacks_ok (s : kst D) : Prop :=
  lo ≤ sp (k_cpu s) - 56 ∧ sp (k_cpu s) ≤ hi ∧ ∃ m, holds (vm s) lo hi lim m.

(** Task [cur] runs and the tasks of [q] wait for the processor. *)
Record sched_ok (s : kst D) (cur : Z) (q : list Z) : Prop := SchedOk {
  so_rq : rq (k_sched s) q;
  so_cur : current (k_sched s) = cur;
  so_zombie : zombie (k_sched s) = 0;
  so_out : cur ∉ q;
  so_null : cur ≠ 0;
  so_run : in_state s TASK_RUNNING cur (λ _, True);
  so_ready : ∀ t, t ∈ q → in_state s TASK_READY t parked;
  so_stacks : stacks_ok s;
}.

Lemma reap_none s t : zombie (k_sched s) = 0 → reap_zombie t s = Ok tt s.
Proof. intros Hz. unfold reap_zombie. rewrite (bind_Ok_eq _ _ _ 0 s) by (unfold gets; by rewrite Hz). done. Qed.

(** Changing a task that is not in the queue. *)
Lemma rq_upd v q t tk : rq v q → t ∉ q → rq (set_tasks (<[t := tk]> (tasks v)) v) q.
Proof.
  intros [Hh Ht Hl Hc Hn] Hnot. split; try done. eapply chain_ext; [|exact Hc]. intros a Ha. apply lookup_insert_ne. set_solver.
Qed.

Lemma set_next_state tk tk' : set_next 0 tk' = set_next 0 tk → state tk' = state tk ∧ tcr3 tk' = tcr3 tk ∧ rsp tk' = rsp tk.
Proof. intros H. split_and!; [apply (f_equal state) in H|apply (f_equal tcr3) in H|apply (f_equal rsp) in H]; exact H. Qed.

(** A queue operation keeps the states of the tasks. *)
Lemma in_state_step s v st t P :
  queue_step (k_sched s) v → (∀ tk tk', rsp tk' = rsp tk → P tk → P tk') →
  in_state s st t P → in_state (set_k_sched v s) st t P.
Proof.
  intros Hq HP (tk & Htk & Hst & Hk & Hp). destruct (same_tasks_lookup _ _ _ _ (qs_tasks _ _ Hq) Htk) as (tk' & Htk' & E).
  apply set_next_state in E as (E1 & E2 & E3). exists tk'. split_and!; [done|congruence| |by eapply HP].
  unfold kthread in *. by rewrite E2.
Qed.

Lemma in_state_upd s st t P a ak :
  a ≠ t → in_state s st t P → in_state (set_k_sched (set_tasks (<[a := ak]> (tasks (k_sched s))) (k_sched s)) s) st t P.
Proof.
  intros Hne (tk & Htk & H). exists tk. split; [|done]. change (<[a := ak]> (tasks (k_sched s)) !! t = Some tk). by rewrite lookup_insert_ne.
Qed.

Lemma parked_rsp tk tk' : rsp tk' = rsp tk → parked tk → parked tk'.
Proof. unfold parked. by intros ->. Qed.

(** The queue work of [schedule]: the next task comes off, the running one
    goes to the back. *)
Lemma rotate_run s cur nx q :
  sched_ok s cur (nx :: q) →
  ∃ v1 v2, dequeue s = Ok nx (set_k_sched v1 s) ∧
    (∃ p, get_task cur (set_k_sched v1 s) = Ok p (set_k_sched v1 s) ∧ state p = TASK_RUNNING) ∧
    (upd_task cur (set_state TASK_READY) ;; sched_enqueue cur) (set_k_sched v1 s) = Ok tt (set_k_sched v2 s) ∧
    rq v2 (q ++ [cur]) ∧ zombie v2 = 0 ∧ need_resched v2 = need_resched (k_sched s) ∧
    ticks_since_switch v2 = ticks_since_switch (k_sched s) ∧
    (∀ t, t ∈ nx :: q → in_state (set_k_sched v2 s) TASK_READY t parked) ∧
    in_state (set_k_sched v2 s) TASK_READY cur (λ _, True).
Proof.
  intros [Hrq Hcur Hz Hout Hnull Hrun Hready _]. destruct (dequeue_run s _ Hrq) as (v1 & He1 & Hrq1 & Hq1). exists v1.
  assert (cur ∉ q) as Hout' by set_solver.
  assert (in_state (set_k_sched v1 s) TASK_RUNNING cur (λ _, True)) as (p & Hp & Hpst & Hpk & _) by (eapply in_state_step; [done|done|done]).
  set (s1 := set_k_sched v1 s) in *.
  set (s2 := set_k_sched (set_tasks (<[cur := set_state TASK_READY p]> (tasks v1)) v1) s).
  assert (upd_task cur (set_state TASK_READY) s1 = Ok tt s2) as He2 by (rewrite (upd_task_run s1 cur p) by done; reflexivity).
  destruct (sched_enqueue_run s2 q cur (set_state TASK_READY p)) as (v2 & He3 & Hrq2 & Hq2); [by apply rq_upd|done|done|apply lookup_insert_eq|].
  exists v2. split_and!; [done|exists p; split; [by apply get_task_run|done]|by rewrite (bind_Ok_eq _ _ _ _ _ He2)|done|..].
  - rewrite (qs_zombie _ _ Hq2). change (zombie v1 = 0). by rewrite (qs_zombie _ _ Hq1).
  - rewrite (qs_resched _ _ Hq2). apply (qs_resched _ _ Hq1).
  - rewrite (qs_ticks _ _ Hq2). apply (qs_ticks _ _ Hq1).
  - intros t Ht. apply (in_state_step s2 v2); [done|apply parked_rsp|]. apply (in_state_upd s1); [set_solver|].
    apply in_state_step; [done|apply parked_rsp|]. by apply Hready.
  - apply (in_state_step s2 v2); [done|done|]. exists (set_state TASK_READY p). split; [apply lookup_insert_eq|done].
Qed.

Lemma schedule_empty s cur : sched_ok s cur [] → schedule s = Ok None s.
Proof.
  intros [Hrq Hcur Hz _ _ (tk & Htk & Hst & _) _ _]. unfold schedule, task_current.
  rewrite (bind_Ok_eq _ _ _ cur s) by (unfold gets; by rewrite Hcur). rewrite (bind_Ok_eq _ _ _ _ _ (reap_none s cur Hz)).
  rewrite (bind_Ok_eq _ _ _ _ _ (dequeue_run s [] Hrq)). cbn [Z.eqb].
  rewrite (bind_Ok_eq _ _ _ _ _ (get_task_run s cur tk Htk)). by rewrite Hst.
Qed.

(** The variables of the scheduler after a switch from [cur] to [nx]. *)
Definition switched (cur nx a : Z) (ck nk : task) (v : sched_vars) : sched_vars :=
  let v1 := set_current nx (set_tasks (<[nx := set_state TASK_RUNNING nk]> (tasks v)) v) in
  set_tasks (<[cur := set_rsp a ck]> (tasks v1)) v1.

Lemma switched_rq cur nx a ck nk v q :
  rq v (q ++ [cur]) → nx ∉ q ++ [cur] → cur ∉ q → tasks v !! cur = Some ck → rq (switched cur nx a ck nk v) (q ++ [cur]).
Proof.
  intros Hrq Hnx Hcur Hck. pose proof (rq_upd v _ nx (set_state TASK_RUNNING nk) Hrq Hnx) as [Hh Ht Hl Hc Hn].
  split; try done. cbn [tasks switched set_tasks set_current] in *. clear Hh Ht Hl Hn Hrq.
  assert (<[nx := set_state TASK_RUNNING nk]> (tasks v) !! cur = Some ck) as Hck' by (rewrite lookup_insert_ne; [done|set_solver]).
  revert Hc Hck'. generalize (<[nx := set_state TASK_RUNNING nk]> (tasks v)). clear -Hcur. intros ts Hc Hck.
  induction q as [|b q IH]; cbn [app chain] in *.
  - destruct Hc as (H0 & (tk & Htk & Hn) & _). split_and!; [done| |done]. exists (set_rsp a ck). rewrite lookup_insert_eq.
    rewrite Hck in Htk. by injection Htk as <-.
  - destruct Hc as (H0 & (tk & Htk & Hn) & Hc). split_and!; [done| |apply IH; [set_solver|done]].
    exists tk. rewrite lookup_insert_ne by set_solver. done.
Qed.

(** The queue and the tasks after the switch, in the state [s'] it leads to. *)
Lemma switched_ok s v s' cur nx q a ck nk :
  k_sched s' = switched cur nx a ck nk v → kernel_cr3 (vm s') = kernel_cr3 (vm s) → sp (k_cpu s') = rsp nk + 56 →
  rq v (q ++ [cur]) → zombie v = 0 → nx ∉ q ++ [cur] → nx ≠ 0 → cur ≠ nx → cur ∉ q →
  (∀ t, t ∈ nx :: q → in_state (set_k_sched v s) TASK_READY t parked) →
  tasks v !! nx = Some nk → parked nk → in_state (set_k_sched v s) TASK_READY cur (λ tk, tk = ck) →
  (lo ≤ a ∧ a + 56 ≤ hi) → (∃ m, holds (vm s') lo hi lim m) → sched_ok s' nx (q ++ [cur]).
Proof.
  intros Hv Hkc Hsp Hrq Hz Hnx Hnx0 Hcn Hcq Hrd Hnk [Hpk1 Hpk2] (ck' & Hck & Hcks & Hckk & ->) Ha Hm.
  assert (∀ tk, kthread (set_k_sched v s) tk → kthread s' tk) as Hkk by (intros tk Hk; unfold kthread; rewrite Hkc; exact Hk).
  assert (∀ t, tasks (k_sched s') !! t = <[cur := set_rsp a ck]> (<[nx := set_state TASK_RUNNING nk]> (tasks v)) !! t) as Hts by (intros t; by rewrite Hv).
  destruct (Hrd nx ltac:(apply list_elem_of_here)) as (nk' & Hnk' & _ & Hnkk & _).
  assert (nk' = nk) as -> by (change (tasks v !! nx = Some nk') in Hnk'; congruence).
  split; rewrite ?Hv; try done.
  - by apply switched_rq.
  - exists (set_state TASK_RUNNING nk). split_and!; [|done|exact (Hkk nk Hnkk)|done].
    rewrite Hts, lookup_insert_ne by done. apply lookup_insert_eq.
  - intros t [Ht | ->%list_elem_of_singleton]%elem_of_app.
    + destruct (Hrd t ltac:(by apply list_elem_of_further)) as (tk & Htk & Hst & Hkt & Hpk).
      exists tk. split_and!; [|done|exact (Hkk tk Hkt)|exact Hpk].
      rewrite Hts, !lookup_insert_ne; [done|intros ->; apply Hnx, elem_of_app; by left|by intros ->].
    + exists (set_rsp a ck). split_and!; [rewrite Hts; apply lookup_insert_eq|exact Hcks|exact (Hkk ck Hckk)|exact Ha].
  - split_and!; [rewrite Hsp; lia|rewrite Hsp; lia|done].
Qed.

Context (Hlo : 0 ≤ lo) (Hhi : hi < 2 ^ 64).

Lemma schedule_run s cur nx q :
  sched_ok s cur (nx :: q) →
  ∃ a s', schedule s = Ok (Some a) s' ∧ sched_ok s' nx (q ++ [cur]) ∧
    need_resched (k_sched s') = need_resched (k_sched s) ∧ ticks_since_switch (k_sched s') = ticks_since_switch (k_sched s).
Proof using Hlo Hhi.
  intros Hok. destruct (rotate_run s cur nx q Hok) as (v1 & v2 & He1 & (p & Hp & Hpst) & He2 & Hrq2 & Hz2 & Hnr2 & Htk2 & Hrd2 & (ck & Hck & Hcks & Hckk & _)).
  destruct Hok as [Hrq Hcur Hz Hout Hnull _ _ (Hsp1 & Hsp2 & m & Hh)].
  apply not_elem_of_cons in Hout as [Hcn Hcq].
  assert ((nx ∉ q ++ [cur]) ∧ nx ≠ 0) as [Hnx Hnx0].
  { split; [|eapply chain_lookup; [apply Hrq|set_solver]]. pose proof (rq_nodup _ _ Hrq) as Hn. apply NoDup_cons in Hn as [Hn _].
    intros [?|E%list_elem_of_singleton]%elem_of_app; [done|by apply Hcn]. }
  destruct (Hrd2 nx ltac:(apply list_elem_of_here)) as (nk & Hnk & _ & Hnkk & Hpk1 & Hpk2).
  unfold schedule, task_current. rewrite (bind_Ok_eq _ _ _ cur s) by (unfold gets; by rewrite Hcur).
  rewrite (bind_Ok_eq _ _ _ _ _ (reap_none s cur Hz)), (bind_Ok_eq _ _ _ _ _ He1), (proj2 (Z.eqb_neq nx 0)) by done.
  rewrite (bind_Ok_eq _ _ _ _ _ Hp), Hpst, Z.eqb_refl, (bind_Ok_eq _ _ _ _ _ He2).
  set (nk' := set_state TASK_RUNNING nk). set (v3 := set_tasks (<[nx := nk']> (tasks v2)) v2).
  rewrite (bind_Ok_eq _ _ _ tt (set_k_sched v3 s)) by (rewrite (upd_task_run (set_k_sched v2 s) nx nk) by done; reflexivity).
  set (s4 := set_k_sched (set_current nx v3) s).
  rewrite (bind_Ok_eq _ _ _ tt s4) by done.
  assert (tasks (k_sched s4) !! nx = Some nk') as Hnk' by apply lookup_insert_eq.
  rewrite (bind_Ok_eq _ _ _ _ _ (get_task_run s4 nx nk' Hnk')).
  set (c5 := set_tss (st64 TSS_RSP0 (kstack nk' +w kstack_size nk') (tss (k_cpu s))) (k_cpu s)). set (s5 := set_k_cpu c5 s4).
  rewrite (bind_Ok_eq _ _ _ tt s5) by done. rewrite (bind_Ok_eq _ _ _ (kernel_cr3 (vm s)) s5) by done.
  assert (negb (tcr3 nk' =? 0) && negb (tcr3 nk' =? kernel_cr3 (vm s)) = false) as ->.
  { change (tcr3 nk') with (tcr3 nk). destruct Hnkk as [-> | ->]; [done|]. change (vm (set_k_sched v2 s)) with (vm s).
    rewrite Z.eqb_refl. apply andb_false_r. }
  rewrite (bind_Ok_eq _ _ _ tt s5) by done. change (rsp nk') with (rsp nk).
  destruct (switch_run lo hi lim Hlo Hhi s5 m (λ v, upd_task cur (set_rsp v)) (switched cur nx (sp c5 - 56) ck nk v2) (rsp nk) schedule_ret)
    as (v & He & Hh' & Hsv); [done|done|done|done|done| |].
  { intros v. rewrite (upd_task_run _ cur ck); [reflexivity|].
    change (<[nx := nk']> (tasks v2) !! cur = Some ck). by rewrite lookup_insert_ne. }
  eexists _, _. split; [etransitivity; [exact (bind_Ok_eq _ (λ a, mret (Some a)) _ _ _ He)|reflexivity]|]. split; [|done].
  apply (switched_ok s v2 _ cur nx q (sp c5 - 56) ck nk); try done.
  - exact (sp_kcr3 _ _ _ _ _ Hsv).
  - by exists ck.
  - split_and!; [exact Hsp1|change (sp c5) with (sp (k_cpu s)); lia].
  - eexists. exact Hh'.
Qed.

(** ** Ticks *)

(** Who runs and who waits after [cur] has given up the processor. *)
Definition turn (l : list Z) : list Z := match l with [] => [] | a :: l => l ++ [a] end.

(** The state for a list of tasks, the running one first. *)
Definition sched_list (s : kst D) (l : list Z) : Prop :=
  match l with [] => False | cur :: q => sched_ok s cur q end.

(** Variables of the tick handler. *)
Definition tick_vars (s : kst D) (n : Z) : Prop := need_resched (k_sched s) = 0 ∧ ticks_since_switch (k_sched s) = n.

Lemma sched_ok_vars s v cur q :
  sched_ok s cur q → tasks v = tasks (k_sched s) → runqueue_head v = runqueue_head (k_sched s) →
  runqueue_tail v = runqueue_tail (k_sched s) → rq_size v = rq_size (k_sched s) → current v = current (k_sched s) →
  zombie v = zombie (k_sched s) → sched_ok (set_k_sched v s) cur q.
Proof.
  intros [[] ? ? ? ? (tk & ? & ?) Hrd ?] Et Eh El En Ec Ez.
  split; cbn [k_sched set_k_sched]; try congruence; try done.
  - split; congruence.
  - exists tk. cbn [k_sched set_k_sched]. by rewrite Et.
  - intros t Ht. destruct (Hrd t Ht) as (tk' & ? & ?). exists tk'. cbn [k_sched set_k_sched]. by rewrite Et.
Qed.

Lemma schedule_turn s l :
  sched_list s l → ∃ r s', schedule s = Ok r s' ∧ sched_list s' (turn l) ∧
    need_resched (k_sched s') = need_resched (k_sched s) ∧ ticks_since_switch (k_sched s') = ticks_since_switch (k_sched s).
Proof using Hlo Hhi.
  destruct l as [|cur [|nx q]]; [done| |].
  - intros Hok. exists None, s. by rewrite (schedule_empty s cur Hok).
  - intros Hok. destruct (schedule_run s cur nx q Hok) as (a & s' & He & Hok' & Hr). by exists (Some a), s'.
Qed.

Lemma sched_tick_run s l n :
  sched_list s l → tick_vars s n → 0 ≤ n < TIME_SLICE →
  ∃ r s', sched_tick s = Ok r s' ∧
    if n + 1 <? TIME_SLICE then sched_list s' l ∧ tick_vars s' (n + 1) else sched_list s' (turn l) ∧ tick_vars s' 0.
Proof using Hlo Hhi.
  intros Hl [Hnr Htk] Hn. unfold TIME_SLICE in *. unfold sched_tick.
  rewrite (bind_Ok_eq _ _ _ 0 s) by (unfold gets; by rewrite Hnr). cbn [Z.eqb].
  set (v1 := set_ticks_since_switch (n + 1) (k_sched s)). set (s1 := set_k_sched v1 s).
  assert (∀ v, tasks v = tasks v1 → runqueue_head v = runqueue_head v1 → runqueue_tail v = runqueue_tail v1 → rq_size v = rq_size v1 →
    current v = current v1 → zombie v = zombie v1 → sched_list (set_k_sched v s) l) as Hl1.
  { intros. destruct l; [done|]. by apply sched_ok_vars. }
  rewrite (bind_Ok_eq _ _ _ (n + 1 <? 2) s1).
  2:{ rewrite (bind_Ok_eq _ _ _ tt s1); [done|]. unfold mod_sched, modify. rewrite Htk, wrap64_small by lia. done. }
  destruct (n + 1 <? 2).
  - exists None, s1. split; [done|]. split; [by apply Hl1|done].
  - set (v2 := set_ticks_since_switch 0 (set_need_resched 0 v1)).
    destruct (schedule_turn (set_k_sched v2 s) l) as (r & s' & He & Hl' & Hnr' & Htk'); [by apply Hl1|].
    exists r, s'. split; [exact He|]. split; [done|]. split; [by rewrite Hnr'|by rewrite Htk'].
Qed.

(** Between two ticks the running task does what it likes with the machine, as
    long as it leaves the scheduler's variables and the kernel stacks in place. *)
Definition work (s s' : kst D) : Prop :=
  k_sched s' = k_sched s ∧ kernel_cr3 (vm s') = kernel_cr3 (vm s) ∧ stacks_ok s'.

Inductive ticked : nat → kst D → kst D → Prop :=
  | ticked_0 s : ticked 0 s s
  | ticked_S n s s1 s2 r s3 : ticked n s s1 → work s1 s2 → sched_tick s2 = Ok r s3 → ticked (S n) s s3.

Lemma work_list s s' l n : work s s' → sched_list s l → tick_vars s n → sched_list s' l ∧ tick_vars s' n.
Proof.
  intros (Hs & Hk & Hst) Hl [Hnr Htk]. split; [|unfold tick_vars; by rewrite Hs].
  destruct l as [|cur q]; [done|]. destruct Hl as [? ? ? ? ? (tk & Htk' & Hst' & Hkt & _) Hrd _].
  split; rewrite ?Hs; try done.
  - exists tk. rewrite Hs. split_and!; try done. unfold kthread in *. by rewrite Hk.
  - intros t Ht. destruct (Hrd t Ht) as (tk' & ? & ? & Hkt' & ?). exists tk'. rewrite Hs. split_and!; try done.
    unfold kthread in *. by rewrite Hk.
Qed.

(** After [n] ticks. *)
Lemma ticked_list s s' l n :
  sched_list s l → tick_vars s 0 → ticked n s s' →
  sched_list s' (Nat.iter (n / 2) turn l) ∧ tick_vars s' (Z.of_nat (n mod 2)).
Proof using Hlo Hhi.
  intros Hl Ht. induction 1 as [s|n s s1 s2 r s3 _ IH Hw He]; [done|]. destruct (IH Hl Ht) as [Hl1 Ht1].
  destruct (work_list _ _ _ _ Hw Hl1 Ht1) as [Hl2 Ht2].
  destruct (sched_tick_run s2 _ _ Hl2 Ht2) as (r' & s3' & He' & Hr).
  { pose proof (Nat.mod_upper_bound n 2 ltac:(lia)). unfold TIME_SLICE. lia. }
  rewrite He in He'. injection He' as <- <-. unfold TIME_SLICE in Hr.
  pose proof (Nat.div_mod_eq n 2) as Hdm. pose proof (Nat.mod_upper_bound n 2 ltac:(lia)) as Hm.
  destruct (Z.ltb_spec (Z.of_nat (n mod 2) + 1) 2).
  - assert (S n / 2 = n / 2 ∧ S n mod 2 = 1)%nat as [-> ->].
    { pose proof (Nat.div_mod_eq (S n) 2). pose proof (Nat.mod_upper_bound (S n) 2 ltac:(lia)). lia. }
    replace (n mod 2)%nat with 0%nat in Hr by lia. done.
  - assert (S n / 2 = S (n / 2) ∧ S n mod 2 = 0)%nat as [-> ->].
    { pose proof (Nat.div_mod_eq (S n) 2). pose proof (Nat.mod_upper_bound (S n) 2 ltac:(lia)). lia. }
    exact Hr.
Qed.

(** Turning a list [k] times brings element [k] to the front. *)
Lemma turn_lookup l k i : l ≠ [] → Nat.iter k turn l !! i = None ∨ Nat.iter k turn l !! i = l !! ((k + i) mod length l)%nat.
Proof.
  intros Hne. assert (∀ k, length (Nat.iter k turn l) = length l) as Hlen.
  { intros k'. induction k' as [|k' IH]; [done|]. cbn [Nat.iter nat_rect]. change (nat_rect _ _ _ _) with (Nat.iter k' turn l) in *.
    destruct (Nat.iter k' turn l) as [|a r]; [done|]. cbn [turn]. rewrite length_app. cbn in *. lia. }
  destruct (decide (i < length l)%nat) as [Hi|Hi]; [right|left; apply lookup_ge_None_2; rewrite Hlen; lia].
  revert i Hi. induction k as [|k IH]; intros i Hi; [by rewrite Nat.mod_small|].
  change (Nat.iter (S k) turn l) with (turn (Nat.iter k turn l)). specialize (Hlen k).
  pose proof (IH 0%nat ltac:(lia)) as H0. pose proof (λ j Hj, IH (S j) Hj) as HS. clear IH.
  destruct (Nat.iter k turn l) as [|a r] eqn:E; [destruct l; [done|cbn in Hlen; lia]|]. cbn [turn length] in *.
  destruct (decide (i < length r)%nat) as [Hir|Hir].
  - rewrite lookup_app_l by done. pose proof (HS i ltac:(lia)) as HSi. change ((a :: r) !! S i) with (r !! i) in HSi.
    rewrite HSi. by rewrite <-Nat.add_succ_comm.
  - assert (i = length r) as -> by lia. rewrite list_lookup_middle by done. cbn in H0. rewrite H0. f_equal.
    replace (S k + length r)%nat with (k + 0 + 1 * length l)%nat by lia. by rewrite Nat.Div0.mod_add.
Qed.

End sched.

(** ** A sample: three kernel threads with stacks on the heap *)

Definition stack_lo : Z := HEAP_VA_BASE.
Definition stack_hi : Z := HEAP_VA_BASE + 65536.

Definition thread (st r nx : Z) : task := Task 1 r stack_lo 16384 0 st 0 0 0 0 "t" (replicate 16 (ProcFd 0 0)) nx 0.

Definition three_vars : sched_vars :=
  SchedVars (<[16 := thread TASK_RUNNING 0 0]> (<[32 := thread TASK_READY (stack_lo + 0x1000) 48]>
    {[48 := thread TASK_READY (stack_lo + 0x2000) 0]})) 4 0 16 32 48 2 0 0 0 0.

Definition three_kernel : kst unit :=
  set_k_cpu (set_sp (stack_lo + 0x4000) cpu0) (set_k_sched three_vars (kernel0 heap1 tt)).

Definition sample_syms : Symbols := {|
  schedule_ret := 0xffffffff80103000; execve_ret := 0xffffffff80104000; task_entry_trampoline := 0xffffffff80105000;
  user_launch_trampoline := 0xffffffff80106000; fork_child_stub := 0xffffffff80107000 |}.

Lemma heap1_holds : ∃ m, holds (hvm heap1) stack_lo stack_hi HEAP_VA_END m.
Proof.
  destruct heap1_at as [m Hm]. exists m. pose proof (sa_holds _ _ _ _ _ (hp_sat _ _ _ _ _ Hm)) as Hh.
  pose proof (hp_tiles _ _ _ _ _ Hm) as Ht. cbn [tiles] in Ht. destruct Ht as (_ & _ & Hb). rewrite <-Hb in Hh. exact Hh.
Qed.

Lemma three_ok : sched_ok stack_lo stack_hi HEAP_VA_END three_kernel 16 [32; 48].
Proof.
  split; try done.
  - split; try done.
    + cbn. split_and!; try done; eexists; (split; [reflexivity|done]).
    + apply (bool_decide_unpack _). vm_compute. reflexivity.
  - set_solver.
  - eexists. split; [reflexivity|]. split_and!; [done|by left|done].
  - intros t [->|[->|[]%not_elem_of_nil]%elem_of_cons]%elem_of_cons; (eexists; split; [reflexivity|]);
      (split_and!; [done|by left|]); split; vm_compute; discriminate.
  - split_and!; [by vm_compute|by vm_compute|apply heap1_holds].
Qed.

(** ** Claims *)

(** C10 Round robin is fair: kernel threads take turns of two ticks each, in the
    order of the queue, so that the thread that runs after [n] ticks is number
    [n / 2] of the initial order, cyclically, and every waiting thread gets the
    processor within two ticks per thread before it.  No tick faults or hangs,
    whatever the threads do between ticks. *)
Theorem round_robin_fair {D : Type} {SY : Symbols} (lo hi lim : Z) (s : kst D) (cur : Z) (q : list Z) :
  0 ≤ lo → hi < 2 ^ 64 → sched_ok lo hi lim s cur q → tick_vars s 0 →
  (∀ n s', ticked lo hi lim n s s' →
     (cur :: q) !! ((n / 2) mod length (cur :: q))%nat = Some (current (k_sched s'))) ∧
  (∀ n s1 s2, ticked lo hi lim n s s1 → work lo hi lim s1 s2 → ∃ r s3, sched_tick s2 = Ok r s3).
Proof.
  intros Hlo Hhi Hok Ht. assert (sched_list lo hi lim s (cur :: q)) as Hl by done. split.
  - intros n s' Htk. destruct (ticked_list lo hi lim Hlo Hhi s s' _ n Hl Ht Htk) as [Hl' _].
    destruct (turn_lookup (cur :: q) (n / 2) 0) as [H0|H0]; [done|..]; rewrite ?Nat.add_0_r in H0;
      destruct (Nat.iter (n / 2) turn (cur :: q)) as [|c r]; try done. rewrite <-H0. cbn. f_equal. symmetry. apply Hl'.
  - intros n s1 s2 Htk Hw. destruct (ticked_list lo hi lim Hlo Hhi s s1 _ n Hl Ht Htk) as [Hl' Ht'].
    destruct (work_list _ _ _ _ _ _ _ Hw Hl' Ht') as [Hl2 Ht2].
    destruct (sched_tick_run lo hi lim Hlo Hhi s2 _ _ Hl2 Ht2) as (r & s3 & He & _); [|eauto].
    pose proof (Nat.mod_upper_bound n 2 ltac:(lia)). unfold TIME_SLICE. lia.
Qed.

Lemma round_robin_fair_witness :
  let SY := sample_syms in
  (∀ n s', ticked stack_lo stack_hi HEAP_VA_END n three_kernel s' →
     [16; 32; 48] !! ((n / 2) mod length [16; 32; 48])%nat = Some (current (k_sched s'))) ∧
  (∀ n s1 s2, ticked stack_lo stack_hi HEAP_VA_END n three_kernel s1 → work stack_lo stack_hi HEAP_VA_END s1 s2 →
     ∃ r s3, sched_tick s2 = Ok r s3).
Proof.
  apply (@round_robin_fair unit sample_syms stack_lo stack_hi HEAP_VA_END three_kernel 16 [32; 48]);
    [by vm_compute|by vm_compute|apply three_ok|by split].
Defined.

(** C21 The context switch is a round trip: a task that is switched away from and
    later switched back to, with the bytes of its stack frame unchanged, goes on
    at its return address with its stack pointer and all callee-saved
    registers. *)
Theorem switch_roundtrip {D : Type} (lo hi lim : Z) (s s1 s2 : kst D) (m m2 : mem) (save save' : Z → M (kst D) unit)
    (sv sv' : sched_vars) (nx ret ret' a : Z) :
  let c := k_cpu s in
  0 ≤ lo → hi < 2 ^ 64 → holds (vm s) lo hi lim m → lo ≤ sp c - 56 → sp c ≤ hi → lo ≤ nx → nx + 56 ≤ hi →
  Forall (λ w, 0 ≤ w < 2 ^ 64) (saved_words ret c) →
  (∀ v, save (sp c - 56) (with_vm v s) = Ok tt (set_k_sched sv (with_vm v s))) →
  switch_to save nx ret s = Ok a s1 →
  holds (vm s2) lo hi lim m2 → lo ≤ sp (k_cpu s2) - 56 → sp (k_cpu s2) ≤ hi →
  sp (k_cpu s2) ≤ sp c - 56 ∨ sp c ≤ sp (k_cpu s2) - 56 →
  (∀ b, sp c - 56 ≤ b < sp c → ld8 (pm (vp (vm s2))) (phys (vm s2) b) = ld8 (pm (vp (vm s1))) (phys (vm s1) b)) →
  (∀ v, save' (sp (k_cpu s2) - 56) (with_vm v s2) = Ok tt (set_k_sched sv' (with_vm v s2))) →
  ∃ s3, switch_to save' (sp c - 56) ret' s2 = Ok ret s3 ∧ sp (k_cpu s3) = sp c ∧
    rbp (k_cpu s3) = rbp c ∧ rbx (k_cpu s3) = rbx c ∧ r12 (k_cpu s3) = r12 c ∧
    r13 (k_cpu s3) = r13 c ∧ r14 (k_cpu s3) = r14 c ∧ r15 (k_cpu s3) = r15 c.
Proof.
  intros c Hlo Hhi Hh H1 H2 H3 H4 Hw Hsave He0 Hh2 H5 H6 Hap Hsame Hsave'.
  destruct (switch_run lo hi lim Hlo Hhi s m save sv nx ret Hh H1 H2 H3 H4 Hsave) as (v & He & Hh1 & _). fold c in He, Hh1.
  rewrite He0 in He.
  assert (vm s1 = v) as Ev by exact (f_equal (λ o, match o with Ok _ s | Stop _ s => vm s end) He). rewrite <-Ev in Hh1.
  destruct (switch_run lo hi lim Hlo Hhi s2 m2 save' sv' (sp c - 56) ret' Hh2 H5 H6) as (v2 & He2 & _); [lia|lia|done|].
  set (m3 := pushed (sp (k_cpu s2)) (saved_words ret' (k_cpu s2)) m2) in *.
  assert (∀ i w, saved_words ret c !! i = Some w → ld64 m3 (sp c - 8 * (Z.of_nat i + 1)) = w) as Hld.
  { intros i w Hi. rewrite Forall_forall in Hw. rewrite <-(pushed_lookup (sp c) _ m i w Hi) by (apply Hw; by eapply list_elem_of_lookup_2).
    assert (i < 7)%nat as Hi7 by (apply lookup_lt_Some in Hi; exact Hi). apply ldn_ext. intros b Hb.
    rewrite <-(hd_bytes _ _ _ _ _ Hh1), <-Hsame, (hd_bytes _ _ _ _ _ Hh2) by lia. apply pushed_out. cbn [length saved_words]. lia. }
  eexists. split; [rewrite He2; f_equal; replace (sp c - 56 + 48) with (sp c - 8 * (Z.of_nat 0 + 1)) by lia; by apply Hld|].
  cbn [k_cpu set_k_cpu reloaded sp rbp rbx r12 r13 r14 r15 set_sp set_rbp set_rbx set_r12 set_r13 set_r14 set_r15].
  split_and!; [lia|..].
  - replace (sp c - 56 + 40) with (sp c - 8 * (Z.of_nat 1 + 1)) by lia. by apply Hld.
  - replace (sp c - 56 + 32) with (sp c - 8 * (Z.of_nat 2 + 1)) by lia. by apply Hld.
  - replace (sp c - 56 + 24) with (sp c - 8 * (Z.of_nat 3 + 1)) by lia. by apply Hld.
  - replace (sp c - 56 + 16) with (sp c - 8 * (Z.of_nat 4 + 1)) by lia. by apply Hld.
  - replace (sp c - 56 + 8) with (sp c - 8 * (Z.of_nat 5 + 1)) by lia. by apply Hld.
  - replace (sp c - 56) with (sp c - 8 * (Z.of_nat 6 + 1)) by lia. by apply Hld.
Qed.

(** Task 16 switches to task 32, which switches back at once. *)
Lemma switch_roundtrip_witness :
  let c := k_cpu three_kernel in
  ∃ a s1 s3, switch_to (λ v, upd_task 16 (set_rsp v)) (stack_lo + 0x1000) 0xffffffff80103000 three_kernel = Ok a s1 ∧
    switch_to (λ v, upd_task 32 (set_rsp v)) (sp c - 56) 0xffffffff80103000 s1 = Ok 0xffffffff80103000 s3 ∧
    sp (k_cpu s3) = sp c ∧
    rbp (k_cpu s3) = rbp c ∧ rbx (k_cpu s3) = rbx c ∧ r12 (k_cpu s3) = r12 c ∧
    r13 (k_cpu s3) = r13 c ∧ r14 (k_cpu s3) = r14 c ∧ r15 (k_cpu s3) = r15 c.
Proof.
  intros c. assert (0 ≤ stack_lo ∧ stack_hi < 2 ^ 64 ∧ stack_lo ≤ sp c - 56 ∧ sp c ≤ stack_hi ∧ stack_lo ≤ stack_lo + 0x1000 ∧
    stack_lo + 0x1000 + 56 ≤ stack_hi ∧ stack_lo + 0x1000 + 56 ≤ sp c - 56) as (B1 & B2 & B3 & B4 & B5 & B6 & B7) by (by vm_compute).
  destruct heap1_holds as [m Hm].
  set (sv := set_tasks (<[16 := set_rsp (sp c - 56) (thread TASK_RUNNING 0 0)]> (tasks three_vars)) three_vars).
  assert (∀ v, upd_task 16 (set_rsp (sp c - 56)) (with_vm v three_kernel) = Ok tt (set_k_sched sv (with_vm v three_kernel))) as Hsv.
  { intros v. rewrite (upd_task_run _ 16 (thread TASK_RUNNING 0 0)) by reflexivity. reflexivity. }
  destruct (switch_run stack_lo stack_hi HEAP_VA_END B1 B2 three_kernel m (λ v, upd_task 16 (set_rsp v)) sv
    (stack_lo + 0x1000) 0xffffffff80103000 Hm B3 B4 B5 B6 Hsv) as (v & He & Hh & _).
  set (s1 := set_k_cpu _ _) in He. set (a1 := ld64 _ (stack_lo + 0x1000 + 48)) in He. exists a1, s1.
  destruct (switch_roundtrip stack_lo stack_hi HEAP_VA_END three_kernel s1 s1 m
    (pushed (sp (k_cpu three_kernel)) (saved_words 0xffffffff80103000 (k_cpu three_kernel)) m)
    (λ v, upd_task 16 (set_rsp v)) (λ v, upd_task 32 (set_rsp v)) sv
    (set_tasks (<[32 := set_rsp (sp (k_cpu s1) - 56) (thread TASK_READY (stack_lo + 0x1000) 48)]> (tasks sv)) sv)
    (stack_lo + 0x1000) 0xffffffff80103000 0xffffffff80103000 a1
    B1 B2 Hm B3 B4 B5 B6) as (s3 & H3); [|exact Hsv|exact He|exact Hh| | | |intros; reflexivity| |].
  - repeat (constructor; [split; [vm_compute; discriminate|reflexivity]|]). constructor.
  - change (stack_lo ≤ stack_lo + 0x1000 + 56 - 56). lia.
  - change (stack_lo + 0x1000 + 56 ≤ stack_hi). exact B6.
  - left. exact B7.
  - intros v'. rewrite (upd_task_run _ 32 (thread TASK_READY (stack_lo + 0x1000) 48)) by reflexivity. reflexivity.
  - exists s3. split; [exact He|exact H3].
Defined.

End SchedProps.
