(* ===== verification/Console.v ===== *)
(** * Console ([core/console.c], [drivers/serial.c])

    The serial port and the framebuffer.  The kernel proper logs its output as
    events; this file models what the console does with each character, on the
    serial port of the hardware and on the pixels of the framebuffer. *)

From S2P Require Import Prelude Lib Pmm Machine.

Module Console.
Import Lib Pmm Machine.

(** ** State *)

(** [struct limine_framebuffer]: the fields the console reads. *)
Record framebuffer := Framebuffer { fb_address : Z; fb_width : Z; fb_height : Z; fb_pitch : Z }.

(** Static variables of [core/console.c], the memory of the framebuffer and the hardware. *)
Record con_st (D : Type) := ConSt {
  fb : option framebuffer;
  cur_x : Z;
  cur_y : Z;
  cols : Z;
  rows : Z;
  vram : mem;
  c_hw : D;
}.
Arguments ConSt {D} _ _ _ _ _ _ _.
Arguments fb {D} _.
Arguments cur_x {D} _.
Arguments cur_y {D} _.
Arguments cols {D} _.
Arguments rows {D} _.
Arguments vram {D} _.
Arguments c_hw {D} _.

Definition set_fb {D} (v : option framebuffer) (s : con_st D) : con_st D :=
  ConSt v (cur_x s) (cur_y s) (cols s) (rows s) (vram s) (c_hw s).
Definition set_cur_x {D} (v : Z) (s : con_st D) : con_st D :=
  ConSt (fb s) v (cur_y s) (cols s) (rows s) (vram s) (c_hw s).
Definition set_cur_y {D} (v : Z) (s : con_st D) : con_st D :=
  ConSt (fb s) (cur_x s) v (cols s) (rows s) (vram s) (c_hw s).
Definition set_cols {D} (v : Z) (s : con_st D) : con_st D :=
  ConSt (fb s) (cur_x s) (cur_y s) v (rows s) (vram s) (c_hw s).
Definition set_rows {D} (v : Z) (s : con_st D) : con_st D :=
  ConSt (fb s) (cur_x s) (cur_y s) (cols s) v (vram s) (c_hw s).
Definition set_vram {D} (v : mem) (s : con_st D) : con_st D :=
  ConSt (fb s) (cur_x s) (cur_y s) (cols s) (rows s) v (c_hw s).
Definition set_c_hw {D} (v : D) (s : con_st D) : con_st D :=
  ConSt (fb s) (cur_x s) (cur_y s) (cols s) (rows s) (vram s) v.

Definition COM1 : Z := 0x3F8.
Definition REG_DATA : Z := 0.
Definition REG_IER : Z := 1.
Definition REG_FCR : Z := 2.
Definition REG_LCR : Z := 3.
Definition REG_MCR : Z := 4.
Definition REG_LSR : Z := 5.
Definition LSR_THRE : Z := 0x20.

Definition GLYPH_W : Z := 8.
Definition GLYPH_H : Z := 16.

Definition fg : Z := 0xE8E8E8.
Definition bg : Z := 0x101018.

Definition font8x8 : list (list Z) :=
  [[0x00; 0x00; 0x00; 0x00; 0x00; 0x00; 0x00; 0x00];
   [0x18; 0x3C; 0x3C; 0x18; 0x18; 0x00; 0x18; 0x00];
   [0x36; 0x36; 0x00; 0x00; 0x00; 0x00; 0x00; 0x00];
   [0x36; 0x36; 0x7F; 0x36; 0x7F; 0x36; 0x36; 0x00];
   [0x0C; 0x3E; 0x03; 0x1E; 0x30; 0x1F; 0x0C; 0x00];
   [0x00; 0x63; 0x33; 0x18; 0x0C; 0x66; 0x63; 0x00];
   [0x1C; 0x36; 0x1C; 0x6E; 0x3B; 0x33; 0x6E; 0x00];
   [0x06; 0x06; 0x03; 0x00; 0x00; 0x00; 0x00; 0x00];
   [0x18; 0x0C; 0x06; 0x06; 0x06; 0x0C; 0x18; 0x00];
   [0x06; 0x0C; 0x18; 0x18; 0x18; 0x0C; 0x06; 0x00];
   [0x00; 0x66; 0x3C; 0xFF; 0x3C; 0x66; 0x00; 0x00];
   [0x00; 0x0C; 0x0C; 0x3F; 0x0C; 0x0C; 0x00; 0x00];
   [0x00; 0x00; 0x00; 0x00; 0x00; 0x0C; 0x06; 0x00];
   [0x00; 0x00; 0x00; 0x3F; 0x00; 0x00; 0x00; 0x00];
   [0x00; 0x00; 0x00; 0x00; 0x00; 0x0C; 0x0C; 0x00];
   [0x60; 0x30; 0x18; 0x0C; 0x06; 0x03; 0x01; 0x00];
   [0x3E; 0x63; 0x73; 0x7B; 0x6F; 0x67; 0x3E; 0x00];
   [0x0C; 0x0E; 0x0C; 0x0C; 0x0C; 0x0C; 0x3F; 0x00];
   [0x1E; 0x33; 0x30; 0x1C; 0x06; 0x33; 0x3F; 0x00];
   [0x1E; 0x33; 0x30; 0x1C; 0x30; 0x33; 0x1E; 0x00];
   [0x38; 0x3C; 0x36; 0x33; 0x7F; 0x30; 0x78; 0x00];
   [0x3F; 0x03; 0x1F; 0x30; 0x30; 0x33; 0x1E; 0x00];
   [0x1C; 0x06; 0x03; 0x1F; 0x33; 0x33; 0x1E; 0x00];
   [0x3F; 0x33; 0x30; 0x18; 0x0C; 0x0C; 0x0C; 0x00];
   [0x1E; 0x33; 0x33; 0x1E; 0x33; 0x33; 0x1E; 0x00];
   [0x1E; 0x33; 0x33; 0x3E; 0x30; 0x18; 0x0E; 0x00];
   [0x00; 0x0C; 0x0C; 0x00; 0x00; 0x0C; 0x0C; 0x00];
   [0x00; 0x0C; 0x0C; 0x00; 0x00; 0x0C; 0x06; 0x00];
   [0x18; 0x0C; 0x06; 0x03; 0x06; 0x0C; 0x18; 0x00];
   [0x00; 0x00; 0x3F; 0x00; 0x00; 0x3F; 0x00; 0x00];
   [0x06; 0x0C; 0x18; 0x30; 0x18; 0x0C; 0x06; 0x00];
   [0x1E; 0x33; 0x30; 0x18; 0x0C; 0x00; 0x0C; 0x00];
   [0x3E; 0x63; 0x7B; 0x7B; 0x7B; 0x03; 0x1E; 0x00];
   [0x0C; 0x1E; 0x33; 0x33; 0x3F; 0x33; 0x33; 0x00];
   [0x3F; 0x66; 0x66; 0x3E; 0x66; 0x66; 0x3F; 0x00];
   [0x3C; 0x66; 0x03; 0x03; 0x03; 0x66; 0x3C; 0x00];
   [0x1F; 0x36; 0x66; 0x66; 0x66; 0x36; 0x1F; 0x00];
   [0x7F; 0x46; 0x16; 0x1E; 0x16; 0x46; 0x7F; 0x00];
   [0x7F; 0x46; 0x16; 0x1E; 0x16; 0x06; 0x0F; 0x00];
   [0x3C; 0x66; 0x03; 0x03; 0x73; 0x66; 0x7C; 0x00];
   [0x33; 0x33; 0x33; 0x3F; 0x33; 0x33; 0x33; 0x00];
   [0x1E; 0x0C; 0x0C; 0x0C; 0x0C; 0x0C; 0x1E; 0x00];
   [0x78; 0x30; 0x30; 0x30; 0x33; 0x33; 0x1E; 0x00];
   [0x67; 0x66; 0x36; 0x1E; 0x36; 0x66; 0x67; 0x00];
   [0x0F; 0x06; 0x06; 0x06; 0x46; 0x66; 0x7F; 0x00];
   [0x63; 0x77; 0x7F; 0x7F; 0x6B; 0x63; 0x63; 0x00];
   [0x63; 0x67; 0x6F; 0x7B; 0x73; 0x63; 0x63; 0x00];
   [0x1C; 0x36; 0x63; 0x63; 0x63; 0x36; 0x1C; 0x00];
   [0x3F; 0x66; 0x66; 0x3E; 0x06; 0x06; 0x0F; 0x00];
   [0x1E; 0x33; 0x33; 0x33; 0x3B; 0x1E; 0x38; 0x00];
   [0x3F; 0x66; 0x66; 0x3E; 0x36; 0x66; 0x67; 0x00];
   [0x1E; 0x33; 0x07; 0x0E; 0x38; 0x33; 0x1E; 0x00];
   [0x3F; 0x2D; 0x0C; 0x0C; 0x0C; 0x0C; 0x1E; 0x00];
   [0x33; 0x33; 0x33; 0x33; 0x33; 0x33; 0x3F; 0x00];
   [0x33; 0x33; 0x33; 0x33; 0x33; 0x1E; 0x0C; 0x00];
   [0x63; 0x63; 0x63; 0x6B; 0x7F; 0x77; 0x63; 0x00];
   [0x63; 0x63; 0x36; 0x1C; 0x1C; 0x36; 0x63; 0x00];
   [0x33; 0x33; 0x33; 0x1E; 0x0C; 0x0C; 0x1E; 0x00];
   [0x7F; 0x63; 0x31; 0x18; 0x4C; 0x66; 0x7F; 0x00];
   [0x1E; 0x06; 0x06; 0x06; 0x06; 0x06; 0x1E; 0x00];
   [0x03; 0x06; 0x0C; 0x18; 0x30; 0x60; 0x40; 0x00];
   [0x1E; 0x18; 0x18; 0x18; 0x18; 0x18; 0x1E; 0x00];
   [0x08; 0x1C; 0x36; 0x63; 0x00; 0x00; 0x00; 0x00];
   [0x00; 0x00; 0x00; 0x00; 0x00; 0x00; 0x00; 0xFF];
   [0x0C; 0x0C; 0x18; 0x00; 0x00; 0x00; 0x00; 0x00];
   [0x00; 0x00; 0x1E; 0x30; 0x3E; 0x33; 0x6E; 0x00];
   [0x07; 0x06; 0x06; 0x3E; 0x66; 0x66; 0x3B; 0x00];
   [0x00; 0x00; 0x1E; 0x33; 0x03; 0x33; 0x1E; 0x00];
   [0x38; 0x30; 0x30; 0x3E; 0x33; 0x33; 0x6E; 0x00];
   [0x00; 0x00; 0x1E; 0x33; 0x3F; 0x03; 0x1E; 0x00];
   [0x1C; 0x36; 0x06; 0x0F; 0x06; 0x06; 0x0F; 0x00];
   [0x00; 0x00; 0x6E; 0x33; 0x33; 0x3E; 0x30; 0x1F];
   [0x07; 0x06; 0x36; 0x6E; 0x66; 0x66; 0x67; 0x00];
   [0x0C; 0x00; 0x0E; 0x0C; 0x0C; 0x0C; 0x1E; 0x00];
   [0x30; 0x00; 0x30; 0x30; 0x30; 0x33; 0x33; 0x1E];
   [0x07; 0x06; 0x66; 0x36; 0x1E; 0x36; 0x67; 0x00];
   [0x0E; 0x0C; 0x0C; 0x0C; 0x0C; 0x0C; 0x1E; 0x00];
   [0x00; 0x00; 0x33; 0x7F; 0x7F; 0x6B; 0x63; 0x00];
   [0x00; 0x00; 0x1F; 0x33; 0x33; 0x33; 0x33; 0x00];
   [0x00; 0x00; 0x1E; 0x33; 0x33; 0x33; 0x1E; 0x00];
   [0x00; 0x00; 0x3B; 0x66; 0x66; 0x3E; 0x06; 0x0F];
   [0x00; 0x00; 0x6E; 0x33; 0x33; 0x3E; 0x30; 0x78];
   [0x00; 0x00; 0x3B; 0x6E; 0x66; 0x06; 0x0F; 0x00];
   [0x00; 0x00; 0x3E; 0x03; 0x1E; 0x30; 0x1F; 0x00];
   [0x08; 0x0C; 0x3E; 0x0C; 0x0C; 0x2C; 0x18; 0x00];
   [0x00; 0x00; 0x33; 0x33; 0x33; 0x33; 0x6E; 0x00];
   [0x00; 0x00; 0x33; 0x33; 0x33; 0x1E; 0x0C; 0x00];
   [0x00; 0x00; 0x63; 0x6B; 0x7F; 0x7F; 0x36; 0x00];
   [0x00; 0x00; 0x63; 0x36; 0x1C; 0x36; 0x63; 0x00];
   [0x00; 0x00; 0x33; 0x33; 0x33; 0x3E; 0x30; 0x1F];
   [0x00; 0x00; 0x3F; 0x19; 0x0C; 0x26; 0x3F; 0x00];
   [0x38; 0x0C; 0x0C; 0x07; 0x0C; 0x0C; 0x38; 0x00];
   [0x18; 0x18; 0x18; 0x00; 0x18; 0x18; 0x18; 0x00];
   [0x07; 0x0C; 0x0C; 0x38; 0x0C; 0x0C; 0x07; 0x00];
   [0x6E; 0x3B; 0x00; 0x00; 0x00; 0x00; 0x00; 0x00]].

Section console.
Context {D : Type} {HW : Hardware D}.

(** ** Serial port *)

Definition c_outb (port val : Z) : M (con_st D) unit :=
  modify (λ s, set_c_hw (pio_out 1 (wrap16 port) (wrap8 val) (c_hw s)) s).
Definition c_inb (port : Z) : M (con_st D) Z := λ s,
  let '(v, d) := pio_in 1 (wrap16 port) (c_hw s) in Ok (wrap8 v) (set_c_hw d s).

Definition serial_init : M (con_st D) unit :=
  c_outb (COM1 + REG_IER) 0x00 ;;
  c_outb (COM1 + REG_LCR) 0x80 ;;
  c_outb (COM1 + REG_DATA) 0x01 ;;
  c_outb (COM1 + REG_IER) 0x00 ;;
  c_outb (COM1 + REG_LCR) 0x03 ;;
  c_outb (COM1 + REG_FCR) 0xC7 ;;
  c_outb (COM1 + REG_MCR) 0x0B.

(** [while (!(inb(COM1 + REG_LSR) & LSR_THRE));], at most [spin] reads. *)
Fixpoint serial_wait (spin : nat) : M (con_st D) unit :=
  match spin with
  | O => diverge
  | S spin => v ← c_inb (COM1 + REG_LSR); if has v LSR_THRE then mret tt else serial_wait spin
  end.

Section putc.
Context (spin : nat).

Definition serial_putc (c : Z) : M (con_st D) unit :=
  serial_wait spin ;;
  c_outb (COM1 + REG_DATA) c.

Definition serial_console_putc (c : Z) : M (con_st D) unit :=
  (if c =? 10 then serial_putc 13 else mret tt) ;;
  serial_putc c.

(** ** Framebuffer *)

(** [base[i]], 32 bits per pixel. *)
Definition px_store (base i v : Z) : M (con_st D) unit :=
  modify (λ s, set_vram (st32 (base +w 4 * i) v (vram s)) s).
Definition px_load (base i : Z) : M (con_st D) Z := gets (λ s, ld32 (vram s) (base +w 4 * i)).

Definition fb_plot (f : framebuffer) (x y color : Z) : M (con_st D) unit :=
  px_store (fb_address f) (y *w (fb_pitch f / 4) +w x) color.

Definition fb_draw_char (f : framebuffer) (c cx cy : Z) : M (con_st D) unit :=
  let c := if (c <? 0x20) || (0x7E <? c) then 63 else c in
  let glyph := default [] (font8x8 !! Z.to_nat (c - 0x20)) in
  for_ 8 0 (λ gy,
    let bits := default 0 (glyph !! Z.to_nat gy) in
    for_ 2 0 (λ rep,
      let py := wrap32 (cy * GLYPH_H + gy * 2 + rep) in
      for_ 8 0 (λ gx,
        let px := wrap32 (cx * GLYPH_W + gx) in
        let col := if has bits (1 ≪ gx) then fg else bg in
        fb_plot f px py col))).

(** [for (y = lo; y < hi; y++)] *)
Definition for_range (lo hi : Z) (body : Z → M (con_st D) unit) : M (con_st D) unit :=
  for_ (Z.to_nat (hi - lo)) lo body.

Definition fb_scroll (f : framebuffer) : M (con_st D) unit :=
  let w := wrap32 (fb_pitch f / 4) in
  let ln := GLYPH_H in
  for_range ln (fb_height f) (λ y,
    for_range 0 w (λ x,
      v ← px_load (fb_address f) (wrap32 (y * w + x));
      px_store (fb_address f) (wrap32 ((y - ln) * w + x)) v)) ;;
  for_range (wrap32 (fb_height f - ln)) (fb_height f) (λ y,
    for_range 0 w (λ x, px_store (fb_address f) (wrap32 (y * w + x)) bg)).

(** The new position after a character, before scrolling, and whether a glyph
    is drawn. *)
Definition advance (c : Z) (s : con_st D) : con_st D :=
  if c =? 10 then set_cur_y (wrap32 (cur_y s + 1)) (set_cur_x 0 s)
  else if c =? 13 then set_cur_x 0 s
  else if c =? 8 then (if 0 <? cur_x s then set_cur_x (cur_x s - 1) s else s)
  else
    let x := wrap32 (cur_x s + 1) in
    if cols s <=? x then set_cur_y (wrap32 (cur_y s + 1)) (set_cur_x 0 s) else set_cur_x x s.

Definition draws (c : Z) : bool := negb ((c =? 10) || (c =? 13) || (c =? 8)).

Definition fb_putc (c : Z) : M (con_st D) unit :=
  o ← gets fb;
  match o with
  | None => mret tt
  | Some f =>
      x ← gets cur_x; y ← gets cur_y;
      (if draws c then fb_draw_char f c x y else mret tt) ;;
      modify (advance c) ;;
      y ← gets cur_y; r ← gets rows;
      if r <=? y then fb_scroll f ;; modify (set_cur_y (wrap32 (r - 1))) else mret tt
  end.

(** ** Interface *)

(** [resp]: the framebuffers of the boot loader's response, [None] when there is
    no response. *)
Definition console_init (resp : option (list framebuffer)) : M (con_st D) unit :=
  serial_init ;;
  match resp with
  | Some (f :: _) =>
      modify (λ s, set_fb (Some f) (set_cols (wrap32 (fb_width f / GLYPH_W))
        (set_rows (wrap32 (fb_height f / GLYPH_H)) (set_cur_x 0 (set_cur_y 0 s))))) ;;
      for_range 0 (fb_height f) (λ y, for_range 0 (fb_width f) (λ x, fb_plot f x y bg))
  | _ => mret tt
  end.

Definition con_putc (c : Z) : M (con_st D) unit :=
  serial_console_putc c ;;
  fb_putc c.

Fixpoint console_write (s : list Z) : M (con_st D) unit :=
  match s with
  | [] => mret tt
  | c :: s => con_putc c ;; console_write s
  end.

Definition console_puts (s : list Z) : M (con_st D) unit :=
  console_write s ;;
  con_putc 10.

End putc.
End console.
End Console.
