(* ===== verification/ConsoleProps.v ===== *)
(** * The console stays on the screen

    Whatever is written, the cursor stays inside the grid of characters and
    only pixels of the framebuffer are written. *)

From S2P Require Import Prelude Lib Pmm Machine Console.

Module ConsoleProps.
Import Lib Pmm Machine Console.

(** ** Geometry *)

(** Pixels of a line. *)
Definition line (f : framebuffer) : Z := fb_pitch f / 4.

(** A framebuffer of 32-bit pixels whose lines are at least as long as they are
    wide, with room for one character, below 2^32 pixels. *)
Record fb_ok (f : framebuffer) : Prop := FbOk {
  fo_addr : 0 ≤ fb_address f;
  fo_pitch : 0 ≤ fb_pitch f;
  fo_width : 8 ≤ fb_width f ≤ line f;
  fo_height : 16 ≤ fb_height f;
  fo_pixels : line f * fb_height f < 2 ^ 32;
  fo_top : fb_address f + 4 * (line f * fb_height f) ≤ 2 ^ 64;
}.

(** The cursor is in the grid of the framebuffer [f]. *)
Record con_ok {D} (f : framebuffer) (s : con_st D) : Prop := ConOk {
  co_fb : fb s = Some f;
  co_cols : cols s = fb_width f / 8;
  co_rows : rows s = fb_height f / 16;
  co_x : 0 ≤ cur_x s < cols s;
  co_y : 0 ≤ cur_y s < rows s;
}.

(** Memory outside the framebuffer. *)
Definition spared_mem (f : framebuffer) (m m' : mem) : Prop :=
  ∀ a, a < fb_address f ∨ fb_address f + 4 * (line f * fb_height f) ≤ a → ld8 m' a = ld8 m a.

(** Only pixels changed. *)
Record painted {D} (f : framebuffer) (s s' : con_st D) : Prop := Painted {
  pt_fb : fb s' = fb s;
  pt_x : cur_x s' = cur_x s;
  pt_y : cur_y s' = cur_y s;
  pt_cols : cols s' = cols s;
  pt_rows : rows s' = rows s;
  pt_mem : spared_mem f (vram s) (vram s');
}.

#[export] Instance painted_preorder {D} f : PreOrder (@painted D f).
Proof.
  split; [by split|]. intros s1 s2 s3 [] []. split; try congruence. intros a Ha.
  rewrite pt_mem1, pt_mem0 by done. done.
Qed.

(** The console stops only when the serial port is busy for [spin] polls in a row. *)
Definition busy {D} {HW : Hardware D} (d : D) : Prop :=
  has (wrap8 (fst (pio_in 1 (wrap16 (COM1 + REG_LSR)) d))) LSR_THRE = false.
Definition serial_stuck {D} {HW : Hardware D} (spin : nat) (w : stop) : Prop := w = Diverge ∧ (spin = O ∨ ∃ d, busy d).

Section console.
Context {D : Type} {HW : Hardware D} (f : framebuffer) (Hf : fb_ok f) (spin : nat).

(** A loop of pixel writes. *)
Lemma painted_for n i (body : Z → M (con_st D) unit) s :
  (∀ j t, i ≤ j < i + Z.of_nat n → runs (body j) t (λ _ t', painted f t t') (serial_stuck spin)) →
  runs (for_ n i body) s (λ _ t, painted f s t) (serial_stuck spin).
Proof.
  intros H. apply (runs_for n i body (λ _, painted f s)); [done|].
  intros j t Hj Ht. eapply (runs_mono _ _ _ _ (serial_stuck spin)); [by apply H| |done]. intros [] t' Ht'. by transitivity t.
Qed.

Lemma painted_range lo hi (body : Z → M (con_st D) unit) s :
  (∀ j t, lo ≤ j < hi → runs (body j) t (λ _ t', painted f t t') (serial_stuck spin)) →
  runs (for_range lo hi body) s (λ _ t, painted f s t) (serial_stuck spin).
Proof. intros H. apply painted_for. intros j t Hj. apply H. lia. Qed.

(** One pixel of the framebuffer. *)
Lemma px_store_run (s : con_st D) i v :
  0 ≤ i < line f * fb_height f → runs (px_store (fb_address f) i v) s (λ _ t, painted f s t) (serial_stuck spin).
Proof using Hf.
  intros Hi. destruct Hf. eapply runs_ret; [done|]. split; try done. intros a Ha. cbn -[stn].
  rewrite wrap64_small by lia. apply ld8_stn_out. lia.
Qed.

Lemma pixel_range x y : 0 ≤ x < line f → 0 ≤ y < fb_height f → 0 ≤ y * line f + x < line f * fb_height f.
Proof. nia. Qed.

Lemma fb_plot_run (s : con_st D) x y color :
  0 ≤ x < line f → 0 ≤ y < fb_height f → runs (fb_plot f x y color) s (λ _ t, painted f s t) (serial_stuck spin).
Proof using Hf.
  intros Hx Hy. pose proof (pixel_range x y Hx Hy) as Hr. unfold fb_plot. fold (line f). destruct Hf.
  assert (0 ≤ y * line f) by nia. rewrite (wrap64_small (y * line f)), wrap64_small by lia. by apply px_store_run.
Qed.

Lemma fb_draw_char_run (s : con_st D) c cx cy :
  0 ≤ cx < fb_width f / 8 → 0 ≤ cy < fb_height f / 16 →
  runs (fb_draw_char f c cx cy) s (λ _ t, painted f s t) (serial_stuck spin).
Proof using Hf.
  intros Hx Hy. pose proof Hf as []. assert (Hl : line f < 2 ^ 32) by nia. assert (Hh : fb_height f < 2 ^ 32) by nia.
  apply painted_for. intros gy t Hgy. apply painted_for. intros rep t' Hrep. apply painted_for. intros gx t'' Hgx.
  unfold GLYPH_W, GLYPH_H.
  assert (0 ≤ cx * 8 + gx < fb_width f) by (Z.div_mod_to_equations; lia).
  assert (0 ≤ cy * 16 + gy * 2 + rep < fb_height f) by (Z.div_mod_to_equations; lia).
  rewrite !wrap32_small by lia. apply fb_plot_run; lia.
Qed.

Lemma fb_scroll_run (s : con_st D) : runs (fb_scroll f) s (λ _ t, painted f s t) (serial_stuck spin).
Proof using Hf.
  pose proof Hf as []. assert (Hl : line f < 2 ^ 32) by nia. assert (Hh : fb_height f < 2 ^ 32) by nia.
  unfold fb_scroll. fold (line f). unfold GLYPH_H. rewrite (wrap32_small (line f)), (wrap32_small (fb_height f - 16)) by lia.
  apply runs_bind. eapply (runs_mono _ _ _ _ (serial_stuck spin)).
  - apply painted_range. intros y t Hy. apply painted_range. intros x t' Hx. eapply runs_bind_Ok; [done|].
    pose proof (pixel_range x (y - 16) Hx ltac:(lia)). rewrite wrap32_small by lia. by apply px_store_run.
  - intros [] t Ht. cbn beta. eapply (runs_mono _ _ _ _ (serial_stuck spin)); [| |done].
    + apply painted_range. intros y t' Hy. apply painted_range. intros x t'' Hx.
      pose proof (pixel_range x y Hx ltac:(lia)). rewrite wrap32_small by lia. by apply px_store_run.
    + intros [] t' Ht'. by transitivity t.
  - done.
Qed.

(** ** One character *)

Definition kept (s s' : con_st D) : Prop := con_ok f s' ∧ spared_mem f (vram s) (vram s').

Lemma spared_mem_trans m1 m2 m3 : spared_mem f m1 m2 → spared_mem f m2 m3 → spared_mem f m1 m3.
Proof. intros H1 H2 a Ha. by rewrite H2, H1. Qed.

(** The cursor moves inside the grid, or to the line below it. *)
Lemma advance_spec c (s : con_st D) :
  con_ok f s → let s' := advance c s in
  fb s' = Some f ∧ cols s' = cols s ∧ rows s' = rows s ∧ vram s' = vram s ∧ 0 ≤ cur_x s' < cols s ∧ 0 ≤ cur_y s' ≤ rows s.
Proof using Hf.
  intros [E1 E2 E3 Hx Hy]. pose proof Hf as [].
  assert (cols s < 2 ^ 32) by (rewrite E2; assert (fb_width f < 2 ^ 32) by nia; Z.div_mod_to_equations; lia).
  assert (rows s < 2 ^ 32) by (rewrite E3; assert (fb_height f < 2 ^ 32) by nia; Z.div_mod_to_equations; lia).
  unfold advance. rewrite !wrap32_small by lia.
  destruct (c =? 10); [cbn; split_and!; done || lia|]. destruct (c =? 13); [cbn; split_and!; done || lia|].
  destruct (c =? 8); [destruct (Z.ltb_spec 0 (cur_x s)); cbn; split_and!; done || lia|].
  destruct (Z.leb_spec (cols s) (cur_x s + 1)); cbn; split_and!; done || lia.
Qed.

Lemma fb_putc_run (s : con_st D) c : con_ok f s → runs (fb_putc c) s (λ _, kept s) (serial_stuck spin).
Proof using Hf.
  intros Hs. pose proof Hs as [E1 E2 E3 Hx Hy]. unfold fb_putc.
  eapply runs_bind_Ok; [unfold gets; rewrite E1; done|]. do 2 (eapply runs_bind_Ok; [done|]).
  apply runs_bind. eapply (runs_mono _ _ (λ _ t, painted f s t) _ (serial_stuck spin)); [|intros [] t Ht|done].
  { destruct (draws c); [|by eapply runs_ret; [done|]]. apply fb_draw_char_run; [by rewrite <-E2|by rewrite <-E3]. }
  assert (Ht' : con_ok f t) by (destruct Ht; split; congruence).
  destruct (advance_spec c t Ht') as (A1 & A2 & A3 & A4 & A5 & A6). set (t1 := advance c t) in *.
  eapply runs_bind_Ok; [done|]. do 2 (eapply runs_bind_Ok; [done|]). fold t1.
  assert (Hrow : 0 < rows t1 < 2 ^ 32).
  { pose proof Hf as []. destruct Ht'. rewrite A3, co_rows0. assert (fb_height f < 2 ^ 32) by nia. Z.div_mod_to_equations. lia. }
  destruct (Z.leb_spec (rows t1) (cur_y t1)) as [Hsc|Hsc].
  - apply runs_bind. eapply (runs_mono _ _ _ _ (serial_stuck spin)); [apply fb_scroll_run| |done]. intros [] t2 [].
    eapply runs_ret; [done|]. cbn beta in *. destruct Ht'. split.
    + rewrite wrap32_small by lia. split; cbn; congruence || lia.
    + cbn. eapply spared_mem_trans; [apply Ht|]. by rewrite <-A4.
  - eapply runs_ret; [done|]. destruct Ht'. split; [split; congruence || lia|]. rewrite A4. apply Ht.
Qed.

(** The serial port touches neither the cursor nor the pixels. *)
Lemma serial_wait_run n (s : con_st D) : runs (serial_wait n) s (λ _ t, ∃ d, t = set_c_hw d s) (serial_stuck n).
Proof.
  revert s. induction n as [|n IH]; intros s; [by split; [|left]|]. cbn [serial_wait].
  destruct (pio_in 1 (wrap16 (COM1 + REG_LSR)) (c_hw s)) as [v d] eqn:E.
  eapply runs_bind_Ok; [unfold c_inb; rewrite E; reflexivity|].
  destruct (has (wrap8 v) LSR_THRE) eqn:Eh; [by eapply runs_ret; [done|]; exists d|].
  eapply (runs_mono _ _ _ _ (serial_stuck n)); [apply IH| |].
  - intros [] t (d' & ->). by exists d'.
  - intros w [-> _]. split; [done|]. right. exists (c_hw s). unfold busy. by rewrite E.
Qed.

Lemma serial_console_putc_run c (s : con_st D) :
  runs (serial_console_putc spin c) s (λ _ t, ∃ d, t = set_c_hw d s) (serial_stuck spin).
Proof.
  assert (Hp : ∀ c (s : con_st D), runs (serial_putc spin c) s (λ _ t, ∃ d, t = set_c_hw d s) (serial_stuck spin)).
  { clear. intros c s. unfold serial_putc. apply runs_bind.
    eapply (runs_mono _ _ _ _ (serial_stuck spin)); [apply serial_wait_run| |done]. intros [] t (d & ->).
    eapply runs_ret; [done|]. by eexists. }
  unfold serial_console_putc. apply runs_bind.
  eapply (runs_mono _ _ (λ _ t, ∃ d, t = set_c_hw d s) _ (serial_stuck spin)); [|intros [] t (d & ->)|done].
  - destruct (c =? 10); [apply Hp|]. eapply runs_ret; [done|]. exists (c_hw s). by destruct s.
  - eapply (runs_mono _ _ _ _ (serial_stuck spin)); [apply Hp| |done]. intros [] t (d' & ->). by exists d'.
Qed.

Lemma con_putc_run c (s : con_st D) : con_ok f s → runs (con_putc spin c) s (λ _, kept s) (serial_stuck spin).
Proof using Hf.
  intros Hs. unfold con_putc. apply runs_bind.
  eapply (runs_mono _ _ _ _ (serial_stuck spin)); [apply serial_console_putc_run|intros [] t (d & ->)|done].
  apply (fb_putc_run (set_c_hw d s) c). by destruct Hs.
Qed.

Lemma console_write_run cs (s : con_st D) : con_ok f s → runs (console_write spin cs) s (λ _, kept s) (serial_stuck spin).
Proof using Hf.
  revert s. induction cs as [|c cs IH]; intros s Hs; cbn [console_write]; [by eapply runs_ret; [done|]|].
  apply runs_bind. eapply (runs_mono _ _ _ _ (serial_stuck spin)); [by apply con_putc_run|intros [] t [Ht Hm]|done].
  eapply (runs_mono _ _ _ _ (serial_stuck spin)); [by apply IH|intros [] t' [Ht' Hm']|done].
  split; [done|]. by eapply spared_mem_trans.
Qed.

(** ** Initialisation *)

Lemma console_init_run fs (s : con_st D) :
  runs (console_init (Some (f :: fs))) s (λ _, kept s) (serial_stuck spin).
Proof using Hf.
  pose proof Hf as []. assert (Hw : fb_width f < 2 ^ 32) by nia. assert (Hh : fb_height f < 2 ^ 32) by nia.
  unfold console_init. eapply runs_bind_Ok; [reflexivity|]. eapply runs_bind_Ok; [reflexivity|].
  eapply (runs_mono _ _ _ _ (serial_stuck spin)).
  - apply painted_range. intros y t Hy. apply painted_range. intros x t' Hx. apply fb_plot_run; lia.
  - intros [] t []. cbn -[Z.div] in *. unfold GLYPH_W, GLYPH_H in *.
    assert (0 < fb_width f / 8 < 2 ^ 32) by (Z.div_mod_to_equations; lia).
    assert (0 < fb_height f / 16 < 2 ^ 32) by (Z.div_mod_to_equations; lia).
    rewrite !wrap32_small in * by lia. split; [|done]. split; congruence || lia.
  - done.
Qed.

End console.

(** ** The console *)

Definition screen : framebuffer := Framebuffer 0xFD000000 640 480 2560.
Definition dark : con_st unit := ConSt None 0 0 0 0 ∅ tt.

Lemma screen_ok : fb_ok screen.
Proof. split; vm_compute; done || (split; done). Qed.

(** C27 After initialisation on a framebuffer, whatever characters are written,
    the cursor stays in the grid of characters and no byte outside the pixels of
    the framebuffer is written; the console returns whenever the serial port is
    ready to take characters. *)
Theorem console_in_bounds {D} {HW : Hardware D} (f : framebuffer) (fs : list framebuffer) (spin : nat) (cs : list Z)
    (s : con_st D) :
  fb_ok f →
  runs (console_init (Some (f :: fs)) ;; console_write spin cs) s
    (λ _ s', con_ok f s' ∧ spared_mem f (vram s) (vram s')) (serial_stuck spin).
Proof.
  intros Hf. apply runs_bind. eapply (runs_mono _ _ _ _ (serial_stuck spin)); [by apply console_init_run|intros [] t [Ht Hm]|done].
  eapply (runs_mono _ _ _ _ (serial_stuck spin)); [by apply console_write_run|intros [] t' [Ht' Hm']|done].
  split; [done|]. by eapply spared_mem_trans.
Qed.

#[local] Instance ready_hw : Hardware unit :=
  Build_Hardware unit (λ _ _ d, (LSR_THRE, d)) (λ _ _ _ d, d) (λ _ d, (0, d)) (λ _ _ d, d) (λ _ d, (0, d)) (λ _ _ d, d)
    (λ d, (0, d)) (λ _ d, (0, d)) (λ d m, (d, m)).

Lemma console_in_bounds_witness :
  runs (console_init (Some [screen]) ;; console_write 1 [72; 105; 10]) dark
    (λ _ s', con_ok screen s' ∧ spared_mem screen (vram dark) (vram s')) (serial_stuck 1).
Proof. apply (console_in_bounds screen [] 1 [72; 105; 10] dark). apply screen_ok. Defined.

End ConsoleProps.
