(* ===== verification/Kprintf.v ===== *)
(** * Formatted output ([core/kprintf.c])

    [kvprintf] over the console, with strings as lists of character codes, and
    the replay of the events the kernel logged. *)

From Stdlib Require Import Ascii.
From S2P Require Import Prelude Lib Pmm Machine Console.

Module Kprintf.
Import Lib Pmm Machine Console.

(** String constants are written as in C, with [\n] for a newline. *)
Fixpoint unescape (cs : list Z) : list Z :=
  match cs with
  | 92 :: 110 :: cs => 10 :: unescape cs
  | c :: cs => c :: unescape cs
  | [] => []
  end.

Definition chars (s : string) : list Z :=
  unescape ((λ a, Z.of_nat (nat_of_ascii a)) <$> String.list_ascii_of_string s).

Definition KLOG_PANIC : string := "[PANIC] ".

(** ** Parsing of a conversion *)

(** [while ( *fmt >= '0' && *fmt <= '9') width = width * 10 + ( *fmt - '0');] *)
Fixpoint parse_width (width : Z) (fmt : list Z) : Z * list Z :=
  match fmt with
  | c :: r => if (48 <=? c) && (c <=? 57) then parse_width (width * 10 + (c - 48)) r else (width, fmt)
  | [] => (width, [])
  end.

(** [while ( *fmt == 'l' || *fmt == 'h' || *fmt == 'z') fmt++;] *)
Fixpoint skip_length (fmt : list Z) : list Z :=
  match fmt with
  | c :: r => if (c =? 108) || (c =? 104) || (c =? 122) then skip_length r else fmt
  | [] => []
  end.

(** The characters of a number, as [uix_utoa] and [uix_itoa] leave them in the
    32 bytes of [buf]. *)
Definition buf_chars (m : option mem) : option (list Z) :=
  m ← m;
  n ← strlen 32 0 m;
  Some (ld_bytes (Z.to_nat n) m 0).

Definition utoa_buf (v base : Z) (upper : bool) : option (list Z) := buf_chars (uix_utoa v 0 base upper ∅).
Definition itoa_buf (v : Z) : option (list Z) := buf_chars (uix_itoa v 0 10 ∅).

Definition null_chars : list Z := chars "(null)".

Section kprintf.
Context {D : Type} {HW : Hardware D} (spin : nat).

Definition emit_pad (c n : Z) : M (con_st D) unit := for_ (Z.to_nat n) 0 (λ _, con_putc spin c).

(** A number right-justified in [width] columns. *)
Definition emit_num (cs : option (list Z)) (width : Z) : M (con_st D) unit :=
  match cs with
  | Some cs => emit_pad 32 (width - Z.of_nat (length cs)) ;; console_write spin cs
  | None => undef "kvprintf: buf[32]"
  end.

(** One conversion: what is written and the arguments that are left.  [va_arg]
    on an exhausted list, or of the wrong kind, is undefined. *)
Definition emit_spec (spec width : Z) (args : list karg) : M (con_st D) (list karg) :=
  let num (f : Z → M (con_st D) unit) :=
    match args with
    | KU v :: args => f v ;; mret args
    | _ => undef "kvprintf: va_arg"
    end in
  if spec =? 99 then
    num (λ v, emit_pad 32 (width - 1) ;; con_putc spin (wrap8 v))
  else if spec =? 115 then
    match args with
    | KS s :: args =>
        emit_pad 32 (width - Z.of_nat (length (chars s))) ;; console_write spin (chars s) ;; mret args
    | KU 0 :: args =>
        emit_pad 32 (width - Z.of_nat (length null_chars)) ;; console_write spin null_chars ;; mret args
    | _ => undef "kvprintf: va_arg"
    end
  else if (spec =? 100) || (spec =? 105) then
    num (λ v, let v := sint64 v in
              emit_num (itoa_buf v) (if v <? 0 then width - 1 else width))
  else if spec =? 117 then num (λ v, emit_num (utoa_buf v 10 false) width)
  else if spec =? 120 then num (λ v, emit_num (utoa_buf v 16 false) width)
  else if spec =? 88 then num (λ v, emit_num (utoa_buf v 16 true) width)
  else if spec =? 112 then
    num (λ v,
      console_write spin [48; 120] ;;
      match utoa_buf v 16 false with
      | Some cs => emit_pad 48 (16 - Z.of_nat (length cs)) ;; console_write spin cs
      | None => undef "kvprintf: buf[32]"
      end)
  else if spec =? 37 then con_putc spin 37 ;; mret args
  else con_putc spin 37 ;; con_putc spin spec ;; mret args.

(** [fmt] gets shorter in every round; a conversion cut off by the end of the
    string makes the loop run past its NUL. *)
Fixpoint kvprintf_loop (fuel : nat) (fmt : list Z) (args : list karg) : M (con_st D) unit :=
  match fuel, fmt with
  | _, [] => mret tt
  | O, _ => diverge
  | S fuel, c :: fmt =>
      if negb (c =? 37) then con_putc spin c ;; kvprintf_loop fuel fmt args
      else
        let '(width, fmt) := parse_width 0 fmt in
        match skip_length fmt with
        | spec :: fmt => args ← emit_spec spec width args; kvprintf_loop fuel fmt args
        | [] => con_putc spin 37 ;; con_putc spin 0 ;; undef "kvprintf: past the end of the format"
        end
  end.

Definition kvprintf (fmt : list Z) (args : list karg) : M (con_st D) unit :=
  kvprintf_loop (length fmt) fmt args.

Definition kprintf_con (fmt : string) (args : list karg) : M (con_st D) unit := kvprintf (chars fmt) args.

Definition kputs (s : list Z) : M (con_st D) unit := console_write spin s ;; con_putc spin 10.
Definition kputc (c : Z) : M (con_st D) unit := con_putc spin c.

Definition panic_con {A} (fmt : string) (args : list karg) : M (con_st D) A :=
  console_write spin (chars KLOG_PANIC) ;;
  kvprintf (chars fmt) args ;;
  con_putc spin 10 ;;
  hlt.

(** ** Replay of the kernel's log *)

Definition emit_event (e : event) : M (con_st D) unit :=
  match e with
  | KPrintf fmt args => kprintf_con fmt args
  | KPutc c => con_putc spin c
  end.

Fixpoint emit_events (es : list event) : M (con_st D) unit :=
  match es with
  | [] => mret tt
  | e :: es => emit_event e ;; emit_events es
  end.

End kprintf.
End Kprintf.
