(* ===== verification/Keyboard.v ===== *)
(** * Keyboard and terminal ([drivers/keyboard.c], [personality/tty.c])

    The interrupt handler puts characters in a ring buffer; the terminal takes
    them out and assembles lines. *)

From S2P Require Import Prelude Lib Pmm Vmm Heap Machine.

Module Keyboard.
Import Lib Pmm Vmm Heap Machine.

Definition PS2_DATA : Z := 0x60.
Definition PS2_STAT : Z := 0x64.
Definition KBUF_SIZE : Z := 256.
Definition LINE_MAX : Z := 128.

(** Character codes of the keys; the table is filled up with zeros. *)
Definition map : list Z :=
  [0; 27; 49; 50; 51; 52; 53; 54; 55; 56; 57; 48; 45; 61; 8;
   9; 113; 119; 101; 114; 116; 121; 117; 105; 111; 112; 91; 93; 10;
   0; 97; 115; 100; 102; 103; 104; 106; 107; 108; 59; 39; 96;
   0; 92; 122; 120; 99; 118; 98; 110; 109; 44; 46; 47;
   0; 42; 0; 32; 0] ++ replicate 69 0.

(** ** Ring buffer *)

(** The character of a scan code, 0 for none. *)
Definition scancode_char (sc : Z) : Z :=
  if has sc 0x80 then 0
  else if Z.of_nat (length map) <=? sc then 0
  else default 0 (map !! Z.to_nat sc).

Definition kbd_put (c : Z) (k : kbd_vars) : kbd_vars :=
  let nx := wrap32 (kbuf_head k + 1) mod KBUF_SIZE in
  if nx =? kbuf_tail k then k
  else set_kbuf_head nx (set_kbuf (<[Z.to_nat (kbuf_head k) := c]> (kbuf k)) k).

(** What [keyboard_irq] does with scan code [sc]. *)
Definition kbd_irq (sc : Z) (k : kbd_vars) : kbd_vars :=
  let c := scancode_char sc in if c =? 0 then k else kbd_put c k.

(** [keyboard_read]: at most [len] characters. *)
Fixpoint kbd_read (len : nat) (k : kbd_vars) : list Z * kbd_vars :=
  match len with
  | O => ([], k)
  | S len =>
      if kbuf_tail k =? kbuf_head k then ([], k)
      else
        let c := default 0 (kbuf k !! Z.to_nat (kbuf_tail k)) in
        let '(cs, k) := kbd_read len (set_kbuf_tail (wrap32 (kbuf_tail k + 1) mod KBUF_SIZE) k) in
        (c :: cs, k)
  end.

(** ** Line discipline *)

(** One character: the terminal, and what is echoed. *)
Definition tty_char (c : Z) (t : tty_vars) : tty_vars * list Z :=
  let c := if c =? 13 then 10 else c in
  if c =? 8 then
    if 0 <? line_len t then (set_line_len (line_len t - 1) t, [8; 32; 8]) else (t, [])
  else if negb (line_ready t =? 0) then (t, [])
  else if c =? 10 then
    let t' := if line_len t <? LINE_MAX - 1
              then set_line_len (line_len t + 1) (set_line (<[Z.to_nat (line_len t) := 10]> (line t)) t)
              else t in
    (set_line_ready 1 t', [10])
  else if line_len t <? LINE_MAX - 1 then
    (set_line_len (line_len t + 1) (set_line (<[Z.to_nat (line_len t) := c]> (line t)) t), [c])
  else (t, []).

Fixpoint tty_chars (cs : list Z) (t : tty_vars) : tty_vars * list Z :=
  match cs with
  | [] => (t, [])
  | c :: cs =>
      let '(t, e) := tty_char c t in
      let '(t, es) := tty_chars cs t in
      (t, e ++ es)
  end.

Section io.
Context {D : Type} {HW : Hardware D}.

(** [while (inb(PS2_STAT) & 0x01) (void)inb(PS2_DATA);], at most [spin] rounds. *)
Fixpoint flush (spin : nat) : M (kst D) unit :=
  match spin with
  | O => diverge
  | S spin => st ← inb PS2_STAT; if has st 0x01 then inb PS2_DATA ;; flush spin else mret tt
  end.

Definition keyboard_init (spin : nat) : M (kst D) unit :=
  flush spin ;;
  modify (λ s, set_k_kbd (set_kbuf_head 0 (set_kbuf_tail 0 (k_kbd s))) s).

Definition keyboard_irq : M (kst D) unit :=
  sc ← inb PS2_DATA;
  modify (λ s, set_k_kbd (kbd_irq sc (k_kbd s)) s).

Definition keyboard_read (len : Z) : M (kst D) (list Z) := λ s,
  let '(cs, k) := kbd_read (Z.to_nat len) (k_kbd s) in Ok cs (set_k_kbd k s).

Definition tty_init : M (kst D) unit :=
  modify (λ s, set_k_tty (set_line_len 0 (set_line_ready 0 (k_tty s))) s).

Fixpoint putcs (cs : list Z) : M (kst D) unit :=
  match cs with
  | [] => mret tt
  | c :: cs => console_putc c ;; putcs cs
  end.

Definition RAW_LEN : Z := 32.

Definition tty_poll : M (kst D) unit :=
  raw ← keyboard_read RAW_LEN;
  t ← gets k_tty;
  let '(t, echo) := tty_chars raw t in
  modify (set_k_tty t) ;;
  putcs echo.

(** [memcpy] of kernel data to a user buffer. *)
Fixpoint copy_out (va : Z) (bs : list Z) : M (kst D) unit :=
  match bs with
  | [] => mret tt
  | b :: bs => liftk (vstore8 va b) ;; copy_out (va +w 1) bs
  end.

Definition tty_readline (buf len : Z) : M (kst D) Z :=
  t ← gets k_tty;
  if line_ready t =? 0 then mret 0
  else
    let n := if wrap32 (len - 1) <? line_len t then wrap32 (len - 1) else line_len t in
    copy_out buf (take (Z.to_nat n) (line t)) ;;
    liftk (vstore8 (buf +w n) 0) ;;
    modify (λ s, set_k_tty (set_line_len 0 (set_line_ready 0 (k_tty s))) s) ;;
    mret n.

End io.
End Keyboard.
