(* ===== verification/KeyboardProps.v ===== *)
(** * Properties of the keyboard and the terminal *)

From S2P Require Import Prelude Lib Pmm Vmm PageTables VmmFacts Heap VirtMem Machine Samples Keyboard.

Module KeyboardProps.
Import Lib Pmm Vmm PageTables VmmFacts Heap VirtMem Machine Samples Keyboard.

(** ** The ring buffer as a queue *)

Record kbd_wf (k : kbd_vars) : Prop := KbdWf {
  kw_len : length (kbuf k) = 256%nat;
  kw_head : 0 ≤ kbuf_head k < KBUF_SIZE;
  kw_tail : 0 ≤ kbuf_tail k < KBUF_SIZE;
}.

Definition count (k : kbd_vars) : Z := (kbuf_head k - kbuf_tail k) mod KBUF_SIZE.

Definition slot (k : kbd_vars) (i : Z) : Z := default 0 (kbuf k !! Z.to_nat ((kbuf_tail k + i) mod KBUF_SIZE)).

(** The characters between the tail and the head. *)
Definition contents (k : kbd_vars) : list Z := slot k <$> seqZ 0 (count k).

(** What happens at the buffer. *)
Inductive kbd_event := KIrq (sc : Z) | KRead (len : nat).

Fixpoint kbd_run (evs : list kbd_event) (k : kbd_vars) : list (list Z) * kbd_vars :=
  match evs with
  | [] => ([], k)
  | KIrq sc :: evs => kbd_run evs (kbd_irq sc k)
  | KRead n :: evs =>
      let '(cs, k) := kbd_read n k in
      let '(out, k) := kbd_run evs k in (cs :: out, k)
  end.

(** The same on a queue of at most 255 characters, which drops what does not fit. *)
Definition enqueue (c : Z) (q : list Z) : list Z := if Z.of_nat (length q) <? KBUF_SIZE - 1 then q ++ [c] else q.

Fixpoint queue_run (evs : list kbd_event) (q : list Z) : list (list Z) * list Z :=
  match evs with
  | [] => ([], q)
  | KIrq sc :: evs => queue_run evs (if scancode_char sc =? 0 then q else enqueue (scancode_char sc) q)
  | KRead n :: evs => let '(out, q') := queue_run evs (drop n q) in (take n q :: out, q')
  end.

Lemma length_contents k : Z.of_nat (length (contents k)) = count k.
Proof.
  unfold contents. rewrite length_fmap, length_seqZ. pose proof (Z.mod_pos_bound (kbuf_head k - kbuf_tail k) KBUF_SIZE).
  unfold count, KBUF_SIZE in *. lia.
Qed.

Lemma seqZ_snoc a n : 0 ≤ n → seqZ a (n + 1) = seqZ a n ++ [a + n].
Proof.
  intros Hn. rewrite seqZ_app by lia. done.
Qed.

Lemma put_contents c k : kbd_wf k → kbd_wf (kbd_put c k) ∧ contents (kbd_put c k) = enqueue c (contents k).
Proof.
  intros [Hl Hh Ht]. unfold kbd_put, enqueue. rewrite length_contents. unfold count, KBUF_SIZE in *.
  rewrite (wrap32_small (kbuf_head k + 1)) by lia. set (nx := (kbuf_head k + 1) mod 256).
  assert (0 ≤ nx < 256) as Hnx by (apply Z.mod_pos_bound; lia).
  destruct (Z.eqb_spec nx (kbuf_tail k)) as [E|E].
  - split; [done|]. rewrite (proj2 (Z.ltb_ge _ _)); [done|]. unfold nx in *. Z.div_mod_to_equations. lia.
  - rewrite (proj2 (Z.ltb_lt _ _)) by (unfold nx in *; Z.div_mod_to_equations; lia). split.
    + split; cbn; [by rewrite length_insert|done|done].
    + set (n := (kbuf_head k - kbuf_tail k) mod 256). set (k' := set_kbuf_head _ _).
      assert (0 ≤ n < 255) as Hn by (unfold n, nx in *; Z.div_mod_to_equations; lia).
      unfold contents. assert (count k' = n + 1) as ->.
      { unfold count, KBUF_SIZE. change (kbuf_head k') with nx. change (kbuf_tail k') with (kbuf_tail k).
        unfold n, nx in *. Z.div_mod_to_equations. lia. }
      rewrite seqZ_snoc, fmap_app by lia. change (count k) with n. cbn [fmap list_fmap].
      assert (∀ i, slot k' i = default 0 (<[Z.to_nat (kbuf_head k) := c]> (kbuf k) !! Z.to_nat ((kbuf_tail k + i) mod 256))) as Hsl by done.
      f_equal.
      * apply list_fmap_ext. intros j i [-> Hj]%lookup_seqZ. rewrite Hsl, list_lookup_insert_ne; [done|].
        unfold n in *. intros Hx. apply Z2Nat.inj in Hx; Z.div_mod_to_equations; lia.
      * rewrite Hsl. replace ((kbuf_tail k + (0 + n)) mod 256) with (kbuf_head k) by (unfold n; Z.div_mod_to_equations; lia).
        rewrite list_lookup_insert_eq by lia. done.
Qed.

Lemma irq_contents sc k :
  kbd_wf k → kbd_wf (kbd_irq sc k) ∧
  contents (kbd_irq sc k) = if scancode_char sc =? 0 then contents k else enqueue (scancode_char sc) (contents k).
Proof.
  intros Hk. unfold kbd_irq. destruct (scancode_char sc =? 0); [done|]. by apply put_contents.
Qed.

(** Taking the first character. *)
Lemma contents_cons k :
  kbd_wf k → kbuf_tail k ≠ kbuf_head k →
  let k' := set_kbuf_tail (wrap32 (kbuf_tail k + 1) mod KBUF_SIZE) k in
  kbd_wf k' ∧ contents k = default 0 (kbuf k !! Z.to_nat (kbuf_tail k)) :: contents k'.
Proof.
  intros [Hl Hh Ht] Hne. unfold KBUF_SIZE in *. rewrite wrap32_small by lia. set (t' := (kbuf_tail k + 1) mod 256).
  assert (0 ≤ t' < 256) by (apply Z.mod_pos_bound; lia). split; [done|].
  set (n := (kbuf_head k - kbuf_tail k) mod 256).
  assert (0 < n < 256) as Hn by (unfold n; Z.div_mod_to_equations; lia).
  unfold contents. change (count k) with n. assert (count (set_kbuf_tail t' k) = n - 1) as ->.
  { unfold count, KBUF_SIZE. cbn [kbuf_head kbuf_tail set_kbuf_tail]. unfold n, t' in *. Z.div_mod_to_equations. lia. }
  rewrite seqZ_cons by lia. cbn [fmap list_fmap]. f_equal.
  - unfold slot. rewrite Z.add_0_r. by rewrite (Z.mod_small (kbuf_tail k)).
  - rewrite <-(fmap_add_seqZ 1 0), <-list_fmap_compose. change (Z.succ 0) with (1 + 0). rewrite Z.sub_1_r.
    apply list_fmap_ext. intros j i _. unfold slot, KBUF_SIZE, compose. cbn [kbuf kbuf_tail set_kbuf_tail]. do 3 f_equal.
    unfold t'. rewrite Z.add_mod_idemp_l by lia. f_equal. lia.
Qed.

Lemma contents_nil k : kbd_wf k → kbuf_tail k = kbuf_head k → contents k = [].
Proof. intros _ E. unfold contents, count. rewrite E, Z.sub_diag. done. Qed.

Lemma read_contents n k :
  kbd_wf k → ∃ k', kbd_read n k = (take n (contents k), k') ∧ kbd_wf k' ∧ contents k' = drop n (contents k).
Proof.
  revert k. induction n as [|n IH]; intros k Hk; cbn [kbd_read]; [by exists k|].
  destruct (Z.eqb_spec (kbuf_tail k) (kbuf_head k)) as [E|E].
  - exists k. by rewrite (contents_nil k Hk E).
  - destruct (contents_cons k Hk E) as [Hk' Hc]. rewrite Hc. destruct (IH _ Hk') as (k'' & He & Hw & Hd).
    exists k''. by rewrite He.
Qed.

(** ** Lines *)

(** A line being edited: backspace removes the last character, and characters
    beyond the 127th are dropped. *)
Definition edit (buf : list Z) (c : Z) : list Z :=
  if c =? 8 then removelast buf else if Z.of_nat (length buf) <? LINE_MAX - 1 then buf ++ [c] else buf.
Definition edited (cs : list Z) : list Z := foldl edit [] cs.

Definition typed (t : tty_vars) : list Z := take (Z.to_nat (line_len t)) (line t).

Record tty_wf (t : tty_vars) : Prop := TtyWf {
  tw_line : length (line t) = 128%nat;
  tw_len : 0 ≤ line_len t ≤ LINE_MAX - 1;
}.

Lemma length_typed t : tty_wf t → Z.of_nat (length (typed t)) = line_len t.
Proof. intros [Hl Hn]. unfold typed, LINE_MAX in *. rewrite length_take. lia. Qed.

Lemma tty_put t c :
  tty_wf t → line_len t < LINE_MAX - 1 →
  let t' := set_line_len (line_len t + 1) (set_line (<[Z.to_nat (line_len t) := c]> (line t)) t) in
  tty_wf t' ∧ typed t' = typed t ++ [c].
Proof.
  intros [Hl Hn] Hlt. unfold LINE_MAX in *. split; [split; cbn; [by rewrite length_insert|unfold LINE_MAX; lia]|].
  unfold typed. cbn. replace (Z.to_nat (line_len t + 1)) with (S (Z.to_nat (line_len t))) by lia.
  rewrite (take_S_r _ _ c) by (apply list_lookup_insert_eq; lia). by rewrite take_insert_ge by lia.
Qed.

Lemma tty_erase t :
  tty_wf t → 0 < line_len t → let t' := set_line_len (line_len t - 1) t in tty_wf t' ∧ typed t' = removelast (typed t).
Proof.
  intros [Hl Hn] Hlt. unfold LINE_MAX in *. split; [split; cbn; [done|unfold LINE_MAX; lia]|].
  unfold typed. cbn. replace (Z.to_nat (line_len t)) with (S (Z.to_nat (line_len t - 1))) by lia.
  destruct (lookup_lt_is_Some_2 (line t) (Z.to_nat (line_len t - 1))) as [x Hx]; [lia|].
  rewrite (take_S_r _ _ x Hx). by rewrite removelast_last.
Qed.

(** A character other than CR and LF, while no line is complete. *)
Lemma tty_char_edit c t :
  tty_wf t → line_ready t = 0 → c ≠ 10 → c ≠ 13 →
  tty_wf (tty_char c t).1 ∧ line_ready (tty_char c t).1 = 0 ∧ typed (tty_char c t).1 = edit (typed t) c.
Proof.
  intros Hw Hr H10 H13. unfold tty_char, edit. rewrite length_typed by done.
  rewrite (proj2 (Z.eqb_neq c 13)), (proj2 (Z.eqb_neq c 10)) by done. rewrite Hr, Z.eqb_refl. cbn [negb].
  destruct (c =? 8).
  - destruct (Z.ltb_spec 0 (line_len t)) as [Hlt|Hge]; cbn [fst].
    + destruct (tty_erase t Hw Hlt) as [? ->]. done.
    + split_and!; [done|done|]. unfold typed. destruct Hw as [_ Hn]. by replace (line_len t) with 0 by lia.
  - destruct (Z.ltb_spec (line_len t) (LINE_MAX - 1)) as [Hlt|Hge]; cbn [fst]; [|done].
    destruct (tty_put t c Hw Hlt) as [? ->]. done.
Qed.

Lemma tty_chars_app cs1 cs2 t : (tty_chars (cs1 ++ cs2) t).1 = (tty_chars cs2 (tty_chars cs1 t).1).1.
Proof.
  revert t. induction cs1 as [|c cs1 IH]; intros t; cbn [app tty_chars]; [done|].
  destruct (tty_char c t) as [t1 e]. specialize (IH t1).
  destruct (tty_chars (cs1 ++ cs2) t1), (tty_chars cs1 t1). cbn [fst] in *. exact IH.
Qed.

Lemma tty_chars_edit cs t :
  tty_wf t → line_ready t = 0 → Forall (λ c, c ≠ 10 ∧ c ≠ 13) cs →
  tty_wf (tty_chars cs t).1 ∧ line_ready (tty_chars cs t).1 = 0 ∧ typed (tty_chars cs t).1 = foldl edit (typed t) cs.
Proof.
  intros Hw Hr Hcs. revert t Hw Hr. induction Hcs as [|c cs [H10 H13] _ IH]; intros t Hw Hr; [done|].
  destruct (tty_char_edit c t Hw Hr H10 H13) as (Hw' & Hr' & He). cbn [tty_chars foldl].
  destruct (tty_char c t) as [t1 e]. cbn [fst] in *. destruct (IH t1 Hw' Hr') as (Hw2 & Hr2 & He2).
  destruct (tty_chars cs t1). cbn [fst] in *. by rewrite <-He.
Qed.

(** The line is completed. *)
Definition completed (l : list Z) : list Z := if Z.of_nat (length l) <? LINE_MAX - 1 then l ++ [10] else l.

Lemma tty_char_newline c t :
  tty_wf t → line_ready t = 0 → c = 10 ∨ c = 13 →
  tty_wf (tty_char c t).1 ∧ line_ready (tty_char c t).1 = 1 ∧ typed (tty_char c t).1 = completed (typed t).
Proof.
  intros Hw Hr Hc. unfold tty_char, completed. rewrite length_typed by done.
  assert ((if c =? 13 then 10 else c) = 10) as -> by (destruct Hc as [-> | ->]; done).
  rewrite Hr. cbn [Z.eqb negb]. change (10 =? 8) with false. change (10 =? 10) with true. cbn iota.
  destruct (Z.ltb_spec (line_len t) (LINE_MAX - 1)) as [Hlt|Hge]; cbn [fst].
  - destruct (tty_put t 10 Hw Hlt) as [[? ?] E]. split_and!; [by split|done|exact E].
  - split_and!; [by destruct Hw; split|done|done].
Qed.

(** ** Copying to a user buffer *)

Section copy.
Context {D : Type}.

Lemma copy_out_run (s : kst D) lo hi lim m va bs :
  holds (vm s) lo hi lim m → 0 ≤ lo ≤ va → va + Z.of_nat (length bs) ≤ hi → hi < 2 ^ 64 →
  ∃ v, copy_out va bs s = Ok tt (with_vm v s) ∧ worked lo hi lim (vm s) (st_bytes va bs m) v.
Proof.
  revert s m va. induction bs as [|b bs IH]; intros s m va Hh Hlo Hhi Hw; cbn [copy_out length] in *.
  - exists (vm s). split; [by destruct s as [[]]|]. split; [done|apply spared_refl].
  - destruct (liftk_store8 s lo hi lim m va b Hh ltac:(lia)) as (v & He & Hh' & Hs').
    destruct (IH (with_vm v s) (st8 va b m) (va + 1)) as (v' & He' & Hh'' & Hs''); [done|lia|lia|lia|].
    exists v'. split; [|split; [done|by eapply spared_trans]].
    rewrite (bind_Ok_eq _ _ _ _ _ He), wrap64_small by lia. exact He'.
Qed.

(** The state after a line is handed to a reader. *)
Definition line_taken (v : vmm_st) (s : kst D) : kst D :=
  set_k_tty (set_line_len 0 (set_line_ready 0 (k_tty s))) (with_vm v s).

Lemma readline_run (s : kst D) lim m buf len :
  tty_wf (k_tty s) → line_ready (k_tty s) ≠ 0 → 1 ≤ len < 2 ^ 32 → 0 ≤ buf → buf + len < 2 ^ 64 →
  holds (vm s) buf (buf + len) lim m →
  let n := Z.min (len - 1) (line_len (k_tty s)) in
  ∃ v, tty_readline buf len s = Ok n (line_taken v s) ∧
    worked buf (buf + len) lim (vm s) (st8 (buf + n) 0 (st_bytes buf (take (Z.to_nat n) (typed (k_tty s))) m)) v.
Proof.
  intros Hw Hr Hlen Hb1 Hb2 Hh n. destruct Hw as [Hl Hn]. unfold LINE_MAX in Hn.
  unfold tty_readline. rewrite (bind_Ok_eq _ _ _ (k_tty s) s) by done. rewrite (proj2 (Z.eqb_neq _ _)) by done.
  rewrite (wrap32_small (len - 1)) by lia.
  assert ((if len - 1 <? line_len (k_tty s) then len - 1 else line_len (k_tty s)) = n) as ->.
  { unfold n. destruct (Z.ltb_spec (len - 1) (line_len (k_tty s))); lia. }
  assert (take (Z.to_nat n) (line (k_tty s)) = take (Z.to_nat n) (typed (k_tty s))) as ->.
  { unfold typed. rewrite take_take. f_equal. unfold n. lia. }
  destruct (copy_out_run s buf (buf + len) lim m buf (take (Z.to_nat n) (typed (k_tty s)))) as (v & He & Hh1 & Hs1); [done|lia| |lia|].
  { rewrite length_take. unfold n. lia. }
  destruct (liftk_store8 (with_vm v s) buf (buf + len) lim _ (buf + n) 0 Hh1) as (v' & He' & Hh2 & Hs2); [unfold n; lia|].
  exists v'. split; [|split; [done|by eapply spared_trans]].
  rewrite (bind_Ok_eq _ _ _ _ _ He), wrap64_small by (unfold n; lia). by rewrite (bind_Ok_eq _ _ _ _ _ He').
Qed.
End copy.

(** ** Claims *)

(** C17 The ring buffer of the keyboard driver implements a queue of 255
    characters: for every sequence of key interrupts and reads, each read
    returns the oldest characters not yet read, in order, and a key pressed
    while the queue is full is dropped. *)
Theorem keyboard_fifo (evs : list kbd_event) (k : kbd_vars) :
  kbd_wf k →
  let '(out, k') := kbd_run evs k in
  kbd_wf k' ∧ queue_run evs (contents k) = (out, contents k').
Proof.
  revert k. induction evs as [|[sc|n] evs IH]; intros k Hk; cbn [kbd_run queue_run]; [done| |].
  - destruct (irq_contents sc k Hk) as [Hk' <-]. by apply IH.
  - destruct (read_contents n k Hk) as (k1 & -> & Hk1 & <-). specialize (IH k1 Hk1).
    destruct (kbd_run evs k1) as [out k2]. destruct IH as [? ->]. done.
Qed.

Lemma keyboard_fifo_witness :
  let evs := [KIrq 0x1E; KIrq 0x9E; KIrq 0x30; KRead 1; KIrq 0x2E; KRead 5] in
  let '(out, k') := kbd_run evs kbd0 in
  out = [[97]; [98; 99]] ∧ kbd_wf k' ∧ queue_run evs (contents kbd0) = (out, contents k').
Proof.
  split; [reflexivity|]. apply (keyboard_fifo [KIrq 0x1E; KIrq 0x9E; KIrq 0x30; KRead 1; KIrq 0x2E; KRead 5] kbd0).
  by split.
Defined.



(** A backspace after the line is complete still erases: it takes the line
    feed off the completed line, although the interface promises lines that end
    in a line feed and the other keys are ignored in that state. *)
Theorem tty_backspace_after_newline (t : tty_vars) (cs : list Z) :
  tty_wf t → line_ready t = 0 → line_len t = 0 → Forall (λ c, c ≠ 10 ∧ c ≠ 13) cs →
  Z.of_nat (length (edited cs)) < LINE_MAX - 1 →
  let t' := (tty_chars (cs ++ [10; 8]) t).1 in line_ready t' = 1 ∧ typed t' = edited cs.
Proof.
  intros Hw Hr Hz Hcs Hlen. destruct (tty_chars_edit cs t Hw Hr Hcs) as (Hw1 & Hr1 & He1).
  destruct (tty_char_newline 10 _ Hw1 Hr1 ltac:(by left)) as (Hw2 & Hr2 & He2).
  assert (typed (tty_chars cs t).1 = edited cs) as E1 by (rewrite He1; unfold edited, typed; by rewrite Hz).
  rewrite E1 in He2. unfold completed in He2. rewrite (proj2 (Z.ltb_lt _ _)) in He2 by done.
  rewrite tty_chars_app. cbn [tty_chars]. destruct (tty_char 10 (tty_chars cs t).1) as [t2 e2]. cbn [fst] in *.
  unfold tty_char. change (8 =? 13) with false. change (8 =? 8) with true. cbn iota.
  pose proof (length_typed t2 Hw2) as Hl2. rewrite He2, length_app in Hl2. cbn [length] in Hl2.
  rewrite (proj2 (Z.ltb_lt 0 _)) by lia. cbn [fst]. destruct (tty_erase t2 Hw2) as [_ E]; [lia|].
  split; [done|]. transitivity (typed (set_line_len (line_len t2 - 1) t2)); [reflexivity|]. by rewrite E, He2, removelast_last.
Qed.

Lemma tty_backspace_after_newline_witness :
  let t' := (tty_chars ([97; 98] ++ [10; 8]) tty0).1 in line_ready t' = 1 ∧ typed t' = edited [97; 98].
Proof.
  apply (tty_backspace_after_newline tty0 [97; 98]); [split; [reflexivity|unfold LINE_MAX; cbn; lia]|reflexivity..| |reflexivity].
  repeat constructor; done.
Defined.

End KeyboardProps.
