(* ===== verification/Pci.v ===== *)
(** * PCI enumeration ([drivers/pci.c])

    Configuration space through the ports 0xCF8 and 0xCFC; a scan of bus 0
    fills the table of devices. *)

From S2P Require Import Prelude Lib Pmm Vmm Heap Machine.

Module Pci.
Import Lib Pmm Vmm Heap Machine.

Definition PCI_ADDR : Z := 0xCF8.
Definition PCI_DATA : Z := 0xCFC.
Definition MAX_DEVS : Z := 32.

(** The address word of a configuration access. *)
Definition pci_address (bus dev fn off : Z) : Z :=
  Z.lor (Z.lor (Z.lor (Z.lor (1 ≪ 31) (bus ≪ 16)) (dev ≪ 11)) (fn ≪ 8)) (Z.land off 0xFC).

(** The address and the type of base address register [b], as [probe] decodes
    the words it reads; [skip] tells whether the next register is the high
    half. *)
Definition bar_is_io (bar : Z) : bool := has bar 1.
Definition bar_is_64 (bar b : Z) : bool := (Z.land bar 6 =? 4) && (b <? 5).

Section pci.
Context {D : Type} {HW : Hardware D}.

Definition pci_read32 (bus dev fn off : Z) : M (kst D) Z :=
  outl PCI_ADDR (pci_address bus dev fn off) ;;
  inl PCI_DATA.

Definition pci_write32 (bus dev fn off val : Z) : M (kst D) unit :=
  outl PCI_ADDR (pci_address bus dev fn off) ;;
  outl PCI_DATA val.

Definition pci_read16 (bus dev fn off : Z) : M (kst D) Z :=
  v ← pci_read32 bus dev fn (Z.land off (wrap8 (Z.lnot 3)));
  mret (wrap16 (v ≫ (Z.land off 2 * 8))).

Definition bar_size (bus dev fn bar : Z) : M (kst D) Z :=
  let off := wrap8 (0x10 + bar * 4) in
  orig ← pci_read32 bus dev fn off;
  pci_write32 bus dev fn off 0xFFFFFFFF ;;
  sz ← pci_read32 bus dev fn off;
  pci_write32 bus dev fn off orig ;;
  if has orig 1
  then mret (Z.land (wrap32 (wrap32 (Z.lnot (Z.land sz (wrap32 (Z.lnot 0x3)))) + 1)) 0xFFFF)
  else mret (wrap32 (wrap32 (Z.lnot (Z.land sz (wrap32 (Z.lnot 0xF)))) + 1)).

(** The loop over the base address registers, at [b], with [k] rounds left. *)
Fixpoint probe_bars (k : nat) (bus dev fn b : Z) (d : pci_dev) : M (kst D) pci_dev :=
  match k with
  | O => mret d
  | S k =>
      if b <? 6 then
        bar ← pci_read32 bus dev fn (0x10 + b * 4);
        let d := set_bar_types (<[Z.to_nat b := Z.land bar 1]> (bar_types d)) d in
        if bar_is_io bar then
          probe_bars k bus dev fn (b + 1)
            (set_bars (<[Z.to_nat b := Z.land bar (wrap32 (Z.lnot 0x3))]> (bars d)) d)
        else if bar_is_64 bar b then
          hi ← pci_read32 bus dev fn (0x10 + (b + 1) * 4);
          probe_bars k bus dev fn (b + 2)
            (set_bars (<[Z.to_nat b := Z.lor (hi ≪ 32) (Z.land bar (wrap32 (Z.lnot 0xF)))]> (bars d)) d)
        else
          probe_bars k bus dev fn (b + 1)
            (set_bars (<[Z.to_nat b := Z.land bar (wrap32 (Z.lnot 0xF))]> (bars d)) d)
      else mret d
  end.

(** The class word: bits 31 to 24 class, 23 to 16 subclass, 15 to 8 programming
    interface; the code takes the two latter 8 bits too high. *)
Definition decode_class (cl : Z) (d : pci_dev) : pci_dev :=
  set_class_ (wrap8 ((cl ≫ 16) ≫ 8))
    (set_subclass (Z.land (cl ≫ 24) 0xFF) (set_prog_if (Z.land (cl ≫ 16) 0xFF) d)).

Definition probe (bus dev fn : Z) : M (kst D) unit :=
  vn ← pci_read16 bus dev fn 0;
  n ← gets (λ s, found_count (k_pci s));
  if vn =? 0xFFFF then mret tt
  else if MAX_DEVS <=? n then mret tt
  else
    d ← gets (λ s, default pci_zero (found (k_pci s) !! Z.to_nat n));
    mod_pci (set_found_count (n + 1)) ;;
    di ← pci_read16 bus dev fn 2;
    let d := set_fn fn (set_dev dev (set_bus bus (set_device di (set_vendor vn d)))) in
    cl ← pci_read32 bus dev fn 8;
    let d := decode_class cl d in
    iq ← pci_read16 bus dev fn 0x3C;
    let d := set_irq (Z.land iq 0xFF) d in
    d ← probe_bars 6 bus dev fn 0 d;
    mod_pci (λ v, set_found (<[Z.to_nat n := d]> (found v)) v) ;;
    sz ← bar_size bus dev fn 0;
    klog "[info] pci %02x:%02x.%u %04x:%04x class %02x%02x%02x irq %u bar0 %p (size %pK)\n"
      [KU bus; KU dev; KU fn; KU (vendor d); KU (device d); KU (class_ d); KU (subclass d);
       KU (prog_if d); KU (irq d); KU (default 0 (bars d !! 0%nat)); KU sz].

Definition pci_scan : M (kst D) Z :=
  mod_pci (set_found_count 0) ;;
  for_ 32 0 (λ dev,
    vn ← pci_read16 0 dev 0 0;
    if vn =? 0xFFFF then mret tt
    else
      probe 0 dev 0 ;;
      h ← pci_read16 0 dev 0 14;
      if has (Z.land h 0xFF) 0x80 then for_ 7 1 (λ fn, probe 0 dev fn) else mret tt) ;;
  gets (λ s, found_count (k_pci s)).

(** The first device of the table with property [f]. *)
Definition pci_find (f : pci_dev → bool) (s : kst D) : option pci_dev :=
  snd <$> list_find (λ d, f d = true) (take (Z.to_nat (found_count (k_pci s))) (found (k_pci s))).

Definition pci_find_by_class (cl sub : Z) : M (kst D) (option pci_dev) :=
  gets (pci_find (λ d, (class_ d =? cl) && (subclass d =? sub))).

Definition pci_find_by_id (ven did : Z) : M (kst D) (option pci_dev) :=
  gets (pci_find (λ d, (vendor d =? ven) && (device d =? did))).

Definition pci_enable_bus_master (d : pci_dev) : M (kst D) unit :=
  cmd ← pci_read32 (bus d) (dev d) (fn d) 0x04;
  pci_write32 (bus d) (dev d) (fn d) 0x04 (Z.lor cmd 0x7).

End pci.
End Pci.
