(* ===== verification/Virtio.v ===== *)
(** * Block device driver ([drivers/virtio_blk.c])

    Legacy virtio-pci: one split queue in physical memory, reached through the
    direct map; a request is a chain of three descriptors and completion is
    polled.  The device itself is the [dma] of the hardware. *)

From S2P Require Import Prelude Lib Pmm Vmm Heap Machine Pci.

Module Virtio.
Import Lib Pmm Vmm Heap Machine Pci.

Definition VIO_QADDR : Z := 0x08.
Definition VIO_QNUM : Z := 0x0C.
Definition VIO_QSEL : Z := 0x0E.
Definition VIO_QNOTIFY : Z := 0x10.
Definition VIO_STATUS : Z := 0x12.
Definition VIO_ISR : Z := 0x13.

Definition VIRTIO_ACK : Z := 0x01.
Definition VIRTIO_DRIVER : Z := 0x02.
Definition VIRTIO_DRIVER_OK : Z := 0x04.
Definition VIRTIO_FAILED : Z := 0x80.

Definition VRING_DESC_F_NEXT : Z := 1.
Definition VRING_DESC_F_WRITE : Z := 2.

(** [struct vring_desc], 16 bytes, and [struct virtio_blk_req], 16 bytes. *)
Record vring_desc := VringDesc { d_addr : Z; d_len : Z; d_flags : Z; d_next : Z }.
Definition REQ_SIZE : Z := 16.

Definition SPIN_LIMIT : positive := 200000000.

(** At most [n] rounds of [body], until one has a result. *)
Fixpoint until {S A} (n : positive) (body : M S (option A)) : M S (option A) :=
  match n with
  | xH => body
  | xO n => r ← until n body; match r with Some a => mret (Some a) | None => until n body end
  | xI n =>
      r ← body;
      match r with
      | Some a => mret (Some a)
      | None => r ← until n body; match r with Some a => mret (Some a) | None => until n body end
      end
  end.

Section virtio.
Context {D : Type} {HW : Hardware D}.

Definition blk {A} (f : blk_vars → A) : M (kst D) A := gets (λ s, f (k_blk s)).

(** Accesses through the direct map. *)
Definition kload (n : nat) (va : Z) : M (kst D) Z := liftpm (hload n va).
Definition kstore (n : nat) (va v : Z) : M (kst D) unit := liftpm (hstore n va v).

(** [memcpy] between a buffer of the driver and memory of the direct map. *)
Definition kload_bytes (n : nat) (va : Z) : M (kst D) (list Z) := liftpm (λ s,
  if in_hhdm s va (Z.of_nat n) then Ok (ld_bytes n (pm s) (va - hhdm s)) s else Stop (Fault va) s).
Definition kstore_bytes (va : Z) (bs : list Z) : M (kst D) unit := liftpm (λ s,
  if in_hhdm s va (Z.of_nat (length bs)) then Ok tt (set_pm (st_bytes (va - hhdm s) bs (pm s)) s)
  else Stop (Fault va) s).

Definition vio_out (off v width : Z) : M (kst D) unit :=
  io ← blk io_base;
  if width =? 4 then outl (io + off) v
  else if width =? 2 then outw (io + off) v
  else outb (io + off) v.

Definition vio_in (off width : Z) : M (kst D) Z :=
  io ← blk io_base;
  if width =? 4 then inl (io + off)
  else if width =? 2 then inw (io + off)
  else inb (io + off).

Definition set_status (st : Z) : M (kst D) unit := vio_out VIO_STATUS st 1.

(** Offsets of the rings in the allocation, for a queue of [q] entries. *)
Definition avail_off (q : Z) : Z := 16 * q.
Definition used_off (q : Z) : Z := Z.land (avail_off q + 6 + 2 * q + 0xFFF) (~w 0xFFF).

Definition virtio_blk_init : M (kst D) Z :=
  o ← pci_find_by_id 0x1af4 0x1001;
  match o with
  | None => klog "[warn] virtio-blk: device not found\n" [] ;; mret (-1)
  | Some d =>
      mod_blk (set_io_base (wrap16 (default 0 (bars d !! 0%nat)))) ;;
      pci_enable_bus_master d ;;
      set_status 0 ;;
      set_status VIRTIO_ACK ;;
      set_status (Z.lor VIRTIO_ACK VIRTIO_DRIVER) ;;
      vio_out 0x04 0 4 ;;
      vio_out VIO_QSEL 0 2 ;;
      q ← vio_in VIO_QNUM 2;
      mod_blk (set_qsize (wrap16 q)) ;;
      if (q =? 0) || (256 <? q) then
        klog "[err ] virtio-blk: bad queue size %u\n" [KU q] ;;
        set_status VIRTIO_FAILED ;;
        mret (-1)
      else
        ring ← liftpm (pmm_alloc_pages 4);
        mod_blk (set_ring_pa ring) ;;
        if ring =? 0 then mret (-1)
        else
          mod_blk (set_buf_pa (ring +w 3 * UIX_PAGE_SIZE)) ;;
          dv ← liftk (p2v ring);
          bv ← liftk (p2v (ring +w 3 * UIX_PAGE_SIZE));
          mod_blk (λ b, set_desc dv (set_buf_va bv b)) ;;
          liftpm (hmemset dv 0 (4 * UIX_PAGE_SIZE)) ;;
          mod_blk (λ b, set_avail_idx_p (dv +w avail_off q +w 2) (set_avail_ring_p (dv +w avail_off q +w 4) b)) ;;
          mod_blk (set_used_idx_p (dv +w used_off q +w 2)) ;;
          mod_blk (λ b, set_hdr_off (3 * UIX_PAGE_SIZE + 0x400) (set_st_off (3 * UIX_PAGE_SIZE + 0x4FF) b)) ;;
          vio_out VIO_QSEL 0 2 ;;
          vio_out VIO_QADDR (wrap32 (ring ≫ 12)) 4 ;;
          set_status (Z.lor (Z.lor VIRTIO_ACK VIRTIO_DRIVER) VIRTIO_DRIVER_OK) ;;
          io ← blk io_base;
          lo ← inl (io + 0x14);
          hi ← inl (io + 0x18);
          mod_blk (set_capacity_sectors (Z.lor lo (hi ≪ 32))) ;;
          cap ← blk capacity_sectors;
          klog "[info] virtio-blk: io %x qsz %u, %u sectors (%u MiB)\n"
            [KU io; KU q; KU (wrap32 cap); KU (wrap32 (cap / 2048))] ;;
          mret 0
  end.

(** [desc[i] = d] *)
Definition put_desc (i : Z) (d : vring_desc) : M (kst D) unit :=
  b ← blk desc;
  let a := b +w 16 * i in
  kstore 8 a (d_addr d) ;;
  kstore 4 (a +w 8) (d_len d) ;;
  kstore 2 (a +w 12) (d_flags d) ;;
  kstore 2 (a +w 14) (d_next d).

(** One read of [*used_idx_p] in the polling loop: [Some tt] when it moved. *)
Definition poll_used (last : Z) : M (kst D) (option unit) :=
  dma_step ;;
  p ← blk used_idx_p;
  u ← kload 2 p;
  mret (if u =? last then None else Some tt).

(** The request of [type] 0 (in) or 1 (out); [data] is the caller's buffer, and
    the result the status with the buffer afterwards. *)
Definition do_request (type sec : Z) (data : list Z) : M (kst D) (Z * list Z) :=
  b ← blk (λ b, b);
  let hdr := desc b +w hdr_off b in
  let st := desc b +w st_off b in
  kstore 4 hdr type ;;
  kstore 8 (hdr +w 8) sec ;;
  kstore 1 st 0xFF ;;
  put_desc 0 (VringDesc (ring_pa b +w hdr_off b) REQ_SIZE VRING_DESC_F_NEXT 1) ;;
  put_desc 1 (VringDesc (buf_pa b) 512
    (Z.lor VRING_DESC_F_NEXT (if type =? 0 then VRING_DESC_F_WRITE else 0)) 2) ;;
  put_desc 2 (VringDesc (ring_pa b +w st_off b) 1 VRING_DESC_F_WRITE 0) ;;
  (if type =? 1 then kstore_bytes (buf_va b) (take 512 data) else mret tt) ;;
  ix ← kload 2 (avail_idx_p b);
  kstore 2 (avail_ring_p b +w 2 * (ix mod qsize b)) 0 ;;
  kstore 2 (avail_idx_p b) (ix + 1) ;;
  vio_out VIO_QNOTIFY 0 2 ;;
  dma_step ;;
  last ← kload 2 (used_idx_p b);
  r ← until (SPIN_LIMIT + 1) (poll_used last);
  match r with
  | None =>
      v ← vio_in VIO_STATUS 1;
      ai ← kload 2 (avail_idx_p b);
      ui ← kload 2 (used_idx_p b);
      klog "[err ] virtio-blk: request timeout (status=%p avail=%u used=%u)\n" [KU v; KU ai; KU ui] ;;
      mret (-5, data)
  | Some _ =>
      inb (io_base b + VIO_ISR) ;;
      data ← (if type =? 0 then bs ← kload_bytes 512 (buf_va b); mret (bs ++ drop 512 data) else mret data);
      v ← kload 1 st;
      mret (if v =? 0 then 0 else -5, data)
  end.

Definition virtio_blk_read (sec : Z) (buf : list Z) : M (kst D) (Z * list Z) := do_request 0 sec buf.
Definition virtio_blk_write (sec : Z) (buf : list Z) : M (kst D) Z := r ← do_request 1 sec buf; mret (fst r).
Definition virtio_blk_sectors : M (kst D) Z := blk capacity_sectors.

(** [scratch] holds whatever the stack held before. *)
Definition virtio_blk_selftest (scratch : list Z) : M (kst D) Z :=
  io ← blk io_base;
  if io =? 0 then mret (-1)
  else
    let scratch := [85; 73; 88; 82; 79; 79; 84; 70; 83; 33] ++ drop 10 scratch in
    w ← virtio_blk_write 0 scratch;
    if negb (w =? 0) then klog "[err ] virtio-blk: selftest write failed\n" [] ;; mret (-1)
    else
      r ← virtio_blk_read 0 (replicate 512 0);
      if negb (fst r =? 0) then klog "[err ] virtio-blk: selftest read failed\n" [] ;; mret (-1)
      else klog "[info] virtio-blk: selftest OK ('%s' roundtrip)\n" [KS (cstring (snd r))] ;; mret 0.

End virtio.
End Virtio.
