(* ===== verification/VirtioFacts.v ===== *)
(** * The virtio queue as the device sees it

    What a request leaves in the rings, and what a device that follows the
    legacy virtio interface does with it. *)

From S2P Require Import Prelude Lib Pmm Vmm Heap Machine Samples Pci Virtio.

Module VirtioFacts.
Import Lib Pmm Vmm Heap Machine Samples Pci Virtio.

(** ** The device *)

(** State of a device: the disk, the request it was told of ([Some n]: it is
    served at the [n]-th step from now), how long it takes, and its queue. *)
Record vdev := Vdev {
  v_disk : mem;
  v_wait : option nat;
  v_delay : nat;
  v_io : Z;
  v_ring : Z;
  v_q : Z;
}.

Definition set_wait (w : option nat) (v : vdev) : vdev := Vdev (v_disk v) w (v_delay v) (v_io v) (v_ring v) (v_q v).
Definition set_disk (d : mem) (v : vdev) : vdev := Vdev d (v_wait v) (v_delay v) (v_io v) (v_ring v) (v_q v).

(** The chain of three descriptors announced last in the available ring:
    header, data, status.  The used ring gets an element and its index moves. *)
Definition vring_serve (R q : Z) (disk m : mem) : mem * mem :=
  let idx := ld16 m (R + avail_off q + 2) in
  let d0 := R + 16 * ld16 m (R + avail_off q + 4 + 2 * (wrap16 (idx - 1) mod q)) in
  let d1 := R + 16 * ld16 m (d0 + 14) in
  let d2 := R + 16 * ld16 m (d1 + 14) in
  let hd := ld64 m d0 in
  let sec := ld64 m (hd + 8) in
  let len := Z.to_nat (ld32 m (d1 + 8)) in
  let disk' := if ld32 m hd =? 0 then disk else st_bytes (512 * sec) (ld_bytes len m (ld64 m d1)) disk in
  let m1 := if ld32 m hd =? 0 then st_bytes (ld64 m d1) (ld_bytes len disk (512 * sec)) m else m in
  let m2 := stn 1 (ld64 m d2) 0 m1 in
  (disk', st16 (R + used_off q + 2) (ld16 m2 (R + used_off q + 2) + 1) m2).

Definition vdev_dma (v : vdev) (m : mem) : vdev * mem :=
  match v_wait v with
  | None => (v, m)
  | Some (S n) => (set_wait (Some n) v, m)
  | Some O =>
      let '(disk, m') := vring_serve (v_ring v) (v_q v) (v_disk v) m in
      (set_wait None (set_disk disk v), m')
  end.

(** Hardware with such a device: what its registers and its memory accesses do. *)
Class VirtioDisk (D : Type) {HW : Hardware D} := {
  vd : D → vdev;
  vd_notify : ∀ d x, vd (pio_out 2 (wrap16 (v_io (vd d) + VIO_QNOTIFY)) x d) = set_wait (Some (v_delay (vd d))) (vd d);
  vd_in : ∀ d r, vd (snd (pio_in 1 (wrap16 (v_io (vd d) + r)) d)) = vd d;
  vd_dma : ∀ d m, (vd (fst (dma d m)), snd (dma d m)) = vdev_dma (vd d) m;
}.

(** ** Memory *)

Lemma ld8_st_bytes_out a bs m b : b < a ∨ a + Z.of_nat (length bs) ≤ b → ld8 (st_bytes a bs m) b = ld8 m b.
Proof.
  intros H. rewrite ld8_st_bytes.
  destruct (Z.leb_spec a b), (Z.ltb_spec b (a + Z.of_nat (length bs))); cbn [andb]; done || lia.
Qed.

Lemma ldn_st_bytes_ne n a bs m b :
  b + Z.of_nat n ≤ a ∨ a + Z.of_nat (length bs) ≤ b → ldn n (st_bytes a bs m) b = ldn n m b.
Proof. intros H. apply ldn_ext. intros c Hc. apply ld8_st_bytes_out. lia. Qed.

Lemma ld_bytes_stn_out k n a v m b :
  b + Z.of_nat k ≤ a ∨ a + Z.of_nat n ≤ b → ld_bytes k (stn n a v m) b = ld_bytes k m b.
Proof. intros H. apply ld_bytes_ext. intros i Hi. apply ld8_stn_out. lia. Qed.

Lemma ld_bytes_bytes n m a : Forall (λ b, 0 ≤ b < 256) (ld_bytes n m a).
Proof.
  apply Forall_lookup. intros i x H. pose proof (lookup_lt_Some _ _ _ H) as Hi. rewrite length_ld_bytes in Hi.
  rewrite ld_bytes_lookup in H by done. injection H as <-. apply ld8_range.
Qed.

Lemma ldn_stn_at n a b v m : a = b → ldn n (stn n a v m) b = v mod 256 ^ Z.of_nat n.
Proof. intros <-. apply ldn_stn_eq. Qed.

(** Reads what was stored last at an address. *)
Ltac ldst :=
  repeat first
    [ rewrite ldn_stn_ne by lia
    | rewrite ldn_st_bytes_ne by lia
    | rewrite ldn_stn_at by lia ].

(** The page offset of the used ring. *)
Lemma used_off_range q : 0 < q ≤ 256 →
  18 * q + 6 ≤ used_off q ∧ used_off q ≤ 18 * q + 6 + 4095 ∧ used_off q ≤ 8192.
Proof.
  intros Hq. unfold used_off, avail_off. set (x := 16 * q + 6 + 2 * q + 0xFFF).
  assert (Z.land x (~w 0xFFF) = x - x mod 4096) as ->.
  { change (~w 0xFFF) with (Z.land (Z.ones 64) (Z.lnot (Z.ones 12))).
    rewrite Z.land_assoc, Z.land_ones, (Z.mod_small x (2 ^ 64)) by (unfold x; lia).
    rewrite <-Z.ldiff_land, Z.ldiff_ones_r by lia. rewrite Z.shiftl_mul_pow2, Z.shiftr_div_pow2 by lia.
    change (2 ^ 12) with 4096. pose proof (Z.div_mod x 4096). lia. }
  unfold x. Z.div_mod_to_equations. lia.
Qed.

(** ** What a request leaves in memory *)

Section request.
Context (R q t sec : Z) (data : list Z) (m : mem).
Context (HR : 0 ≤ R) (Hq : 3 ≤ q ≤ 256) (Ht : t = 0 ∨ t = 1) (Hsec : 0 ≤ sec < 2 ^ 64).
Context (HR2 : R + 16384 < 2 ^ 64) (Hdata : t = 1 → (512 ≤ length data)%nat).
Context (Hbytes : Forall (λ b, 0 ≤ b < 256) data).

Definition BUF : Z := R + 3 * 4096.
Definition HDR : Z := BUF + 0x400.
Definition STA : Z := BUF + 0x4FF.
Definition AVAIL : Z := R + avail_off q.
Definition USED : Z := R + used_off q.

Definition desc_mem (i : Z) (d : vring_desc) (m : mem) : mem :=
  st16 (R + 16 * i + 14) (d_next d) (st16 (R + 16 * i + 12) (d_flags d)
    (st32 (R + 16 * i + 8) (d_len d) (st64 (R + 16 * i) (d_addr d) m))).

Definition ix : Z := ld16 m (AVAIL + 2).

(** The stores of [do_request] up to the notification. *)
Definition request_mem : mem :=
  let m := stn 1 STA 0xFF (st64 (HDR + 8) sec (st32 HDR t m)) in
  let m := desc_mem 2 (VringDesc STA 1 VRING_DESC_F_WRITE 0)
    (desc_mem 1 (VringDesc BUF 512 (Z.lor VRING_DESC_F_NEXT (if t =? 0 then VRING_DESC_F_WRITE else 0)) 2)
      (desc_mem 0 (VringDesc HDR REQ_SIZE VRING_DESC_F_NEXT 1) m)) in
  let m := if t =? 1 then st_bytes BUF (take 512 data) m else m in
  st16 (AVAIL + 2) (ix + 1) (st16 (AVAIL + 4 + 2 * (ix mod q)) 0 m).

(** The header, the chain and the rings, in memory [m']. *)
Record announced (m' : mem) : Prop := Announced {
  an_idx : ld16 m' (AVAIL + 2) = wrap16 (ix + 1);
  an_slot : ld16 m' (AVAIL + 4 + 2 * (ix mod q)) = 0;
  an_hdr : ld64 m' R = HDR;
  an_next0 : ld16 m' (R + 14) = 1;
  an_buf : ld64 m' (R + 16) = BUF;
  an_len : ld32 m' (R + 24) = 512;
  an_next1 : ld16 m' (R + 30) = 2;
  an_sta : ld64 m' (R + 32) = STA;
  an_type : ld32 m' HDR = t;
  an_sec : ld64 m' (HDR + 8) = sec;
  an_used : ld16 m' (USED + 2) = ld16 m (USED + 2);
  an_data : t = 1 → ld_bytes 512 m' BUF = take 512 data;
  an_out : ∀ a, a < R ∨ R + 16384 ≤ a → ld8 m' a = ld8 m a;
}.

Lemma geometry : AVAIL = R + 16 * q ∧ 0 ≤ ix mod q < q ∧ AVAIL + 2 * q + 6 ≤ USED ∧ USED + 4 < BUF.
Proof using Hq.
  clear -Hq. pose proof (used_off_range q ltac:(lia)). pose proof (Z.mod_pos_bound ix q).
  unfold AVAIL, USED, BUF, avail_off in *. lia.
Qed.

Lemma take_data : t = 1 → length (take 512 data) = 512%nat.
Proof using Hdata. intros E. rewrite length_take. specialize (Hdata E). lia. Qed.

Lemma request_announced : announced request_mem.
Proof using All.
  destruct geometry as (HA & Hix & HU & HB). pose proof take_data as Hlen.
  assert (Hd : Forall (λ b, 0 ≤ b < 256) (take 512 data)) by by apply Forall_take.
  assert (Hsplit : t = 0 ∨ (t = 1 ∧ length (take 512 data) = 512%nat)) by (destruct Ht; auto).
  clear Hlen Hdata Hbytes. unfold request_mem, desc_mem. cbn [d_addr d_len d_flags d_next].
  destruct Hsplit as [Et | [Et El]]; rewrite Et; cbn [Z.eqb Pos.eqb]; split; rewrite ?Et;
    unfold STA, HDR, BUF in *;
    try (ldst; (done || (apply Z.mod_small; cbn; lia))).
  1,3: intros a Ha; rewrite !ld8_stn_out by lia; try done.
  - rewrite ld8_st_bytes_out by lia. by rewrite !ld8_stn_out by lia.
  - intros _. rewrite !ld_bytes_stn_out by lia. rewrite <-El at 1. by apply ld_bytes_st_bytes.
Qed.

(** ** What the device leaves *)

Definition disk_after (disk : mem) : mem :=
  if t =? 0 then disk else st_bytes (512 * sec) (take 512 data) disk.

Record served (disk m' : mem) : Prop := Served {
  sv_used : ld16 m' (USED + 2) = wrap16 (ld16 m (USED + 2) + 1);
  sv_sta : ld8 m' STA = 0;
  sv_data : t = 0 → ld_bytes 512 m' BUF = ld_bytes 512 disk (512 * sec);
  sv_out : ∀ a, a < R ∨ R + 16384 ≤ a → ld8 m' a = ld8 m a;
}.

Lemma served_status disk m' m1 :
  announced m' →
  (∀ a, a < BUF ∨ BUF + 512 ≤ a → ld8 m1 a = ld8 m' a) →
  (t = 0 → ld_bytes 512 m1 BUF = ld_bytes 512 disk (512 * sec)) →
  served disk (st16 (USED + 2) (ld16 (stn 1 STA 0 m1) (USED + 2) + 1) (stn 1 STA 0 m1)).
Proof using All.
  intros Ha Hm Hd. destruct geometry as (HA & Hix & HU & HB). split; unfold STA, BUF in *.
  - rewrite ldn_stn_at, ldn_stn_ne by lia. rewrite <-(an_used _ Ha). 
    enough (ld16 m1 (USED + 2) = ld16 m' (USED + 2)) as -> by done. apply ldn_ext. intros b Hb. apply Hm. lia.
  - rewrite ld8_stn_out by lia. cbn [stn]. by rewrite ld8_st8_eq.
  - intros E. rewrite !ld_bytes_stn_out by lia. auto.
  - intros a H. rewrite !ld8_stn_out, Hm by lia. by apply (an_out _ Ha).
Qed.

Lemma serve_announced disk m' :
  announced m' →
  ∃ m'', vring_serve R q disk m' = (disk_after disk, m'') ∧ served disk m''.
Proof using All.
  intros Ha. destruct geometry as (HA & Hix & HU & HB).
  pose proof (ldn_range 2 m (AVAIL + 2)) as Hi. fold ix in Hi. change (256 ^ Z.of_nat 2) with (2 ^ 16) in Hi.
  assert (Hw : wrap16 (wrap16 (ix + 1) - 1) = ix).
  { unfold wrap16. rewrite Zminus_mod_idemp_l. replace (ix + 1 - 1) with ix by lia. by apply Z.mod_small. }
  unfold vring_serve. fold AVAIL USED.
  rewrite (an_idx _ Ha), Hw, (an_slot _ Ha). change (16 * 0) with 0.
  rewrite Z.add_0_r, (an_hdr _ Ha), (an_next0 _ Ha). change (16 * 1) with 16.
  rewrite (an_buf _ Ha), <-!Z.add_assoc. change (16 + 8) with 24. change (16 + 14) with 30.
  rewrite (an_len _ Ha), (an_next1 _ Ha). change (16 * 2) with 32.
  rewrite (an_sta _ Ha), (an_type _ Ha), (an_sec _ Ha). change (Z.to_nat 512) with 512%nat.
  eexists. split; [|apply (served_status disk m')]; [|done|..].
  - f_equal. unfold disk_after. destruct Ht as [-> | Et]; [done|]. by rewrite (an_data _ Ha Et).
  - intros a H. destruct (t =? 0); [|done]. apply ld8_st_bytes_out. by rewrite length_ld_bytes.
  - intros E. rewrite E. cbn [Z.eqb].
    pose proof (ld_bytes_st_bytes BUF (ld_bytes 512 disk (512 * sec)) m' (ld_bytes_bytes _ _ _)) as Hl.
    by rewrite length_ld_bytes in Hl.
Qed.

End request.
End VirtioFacts.
