(* ===== verification/VirtioProps.v ===== *)
(** * The block driver is correct

    A request against a device that follows the virtio interface: the sector
    comes back, or reaches the disk; and the way a fast device defeats it. *)

From S2P Require Import Prelude Lib Pmm Vmm Heap Machine Checks Samples Pci Virtio VirtioFacts.

Module VirtioProps.
Import Lib Pmm Vmm Heap Machine Checks Samples Pci Virtio VirtioFacts.

(** ** Polling *)

Section until.
Context {S A : Type} (body : M S (option A)).

Fixpoint untiln (n : nat) : M S (option A) :=
  match n with
  | O => mret None
  | Datatypes.S n => r ← body; match r with Some a => mret (Some a) | None => untiln n end
  end.

Lemma untiln_add a b s :
  untiln (a + b) s = (r ← untiln a; match r with Some x => mret (Some x) | None => untiln b end) s.
Proof.
  revert s. induction a as [|a IH]; intros s; [done|]. cbn [untiln Nat.add]. unfold mbind, M_bind.
  destruct (body s) as [[x|] s'|w s']; [done| |done]. by rewrite IH.
Qed.

Lemma until_untiln n s : until n body s = untiln (Pos.to_nat n) s.
Proof.
  revert s. induction n as [n IH|n IH|]; intros s; cbn [until].
  - rewrite Pos2Nat.inj_xI. replace (2 * Pos.to_nat n)%nat with (Pos.to_nat n + Pos.to_nat n)%nat by lia.
    cbn [untiln]. unfold mbind, M_bind. destruct (body s) as [[x|] s'|w s']; [done| |done].
    rewrite untiln_add. unfold mbind, M_bind. rewrite IH. destruct (untiln _ s') as [[x|] s''|w s'']; [done| |done].
    apply IH.
  - rewrite Pos2Nat.inj_xO. replace (2 * Pos.to_nat n)%nat with (Pos.to_nat n + Pos.to_nat n)%nat by lia.
    rewrite untiln_add. unfold mbind, M_bind. rewrite IH. destruct (untiln _ s) as [[x|] s''|w s'']; [done| |done].
    apply IH.
  - change (Pos.to_nat 1) with 1%nat. cbn [untiln]. unfold mbind, M_bind.
    by destruct (body s) as [[x|] s'|w s'].
Qed.

(** A loop that gets its result at round [k]. *)
Lemma until_hit (P : nat → S → Prop) (Q : A → S → Prop) n k s :
  (∀ k s, P (Datatypes.S k) s → ∃ s', body s = Ok None s' ∧ P k s') →
  (∀ s, P O s → ∃ a s', body s = Ok (Some a) s' ∧ Q a s') →
  (k < Pos.to_nat n)%nat → P k s → ∃ a s', until n body s = Ok (Some a) s' ∧ Q a s'.
Proof.
  intros HS HO. rewrite until_untiln. generalize (Pos.to_nat n). clear n. intros n.
  revert n s. induction k as [|k IH]; intros [|n] s Hk Hs; try lia; cbn [untiln]; unfold mbind, M_bind.
  - destruct (HO s Hs) as (a & s' & -> & HQ). by exists a, s'.
  - destruct (HS k s Hs) as (s' & -> & HP). apply IH; [lia|done].
Qed.

(** A loop that never gets one. *)
Lemma until_miss (P : S → Prop) n s :
  (∀ s, P s → ∃ s', body s = Ok None s' ∧ P s') → P s → ∃ s', until n body s = Ok None s' ∧ P s'.
Proof.
  intros HS. rewrite until_untiln. generalize (Pos.to_nat n). clear n. intros n.
  revert s. induction n as [|n IH]; intros s Hs; cbn [untiln]; [by exists s|]. unfold mbind, M_bind.
  destruct (HS s Hs) as (s' & -> & HP). by apply IH.
Qed.
End until.

(** ** Accesses *)

Section virtio.
Context {D : Type} {HW : Hardware D} {VD : VirtioDisk D}.

Definition kmem (s : kst D) : mem := pm (vp (vm s)).

(** [s] with other contents of physical memory and another state of the devices. *)
Definition moved (s : kst D) (m : mem) (d : D) : kst D :=
  set_k_hw d (with_vm (set_vp (set_pm m (vp (vm s))) (vm s)) s).

Lemma moved_id s : moved s (kmem s) (k_hw s) = s.
Proof. by destruct s as [[[[]]]]. Qed.

Lemma moved_moved s m d m' d' : moved (moved s m d) m' d' = moved s m' d'.
Proof. by destruct s as [[[[]]]]. Qed.

Abbreviation hh s := (hhdm (vp (vm s))).

Lemma kload_moved s m d n a :
  0 ≤ a → hh s + a + Z.of_nat n ≤ 2 ^ 64 → kload n (hh s + a) (moved s m d) = Ok (ldn n m a) (moved s m d).
Proof.
  intros H1 H2. unfold kload, liftpm, liftk, lifth, liftv, liftp, zoom, hload, in_hhdm. cbn.
  replace (hh s <=? hh s + a) with true by lia. replace (hh s + a + Z.of_nat n <=? 2 ^ 64) with true by lia.
  cbn. by replace (hh s + a - hh s) with a by lia.
Qed.

Lemma kstore_moved s m d n a v :
  0 ≤ a → hh s + a + Z.of_nat n ≤ 2 ^ 64 → kstore n (hh s + a) v (moved s m d) = Ok tt (moved s (stn n a v m) d).
Proof.
  intros H1 H2. unfold kstore, liftpm, liftk, lifth, liftv, liftp, zoom, hstore, in_hhdm. cbn.
  replace (hh s <=? hh s + a) with true by lia. replace (hh s + a + Z.of_nat n <=? 2 ^ 64) with true by lia.
  cbn. by replace (hh s + a - hh s) with a by lia.
Qed.

Lemma kload_bytes_moved s m d n a :
  0 ≤ a → hh s + a + Z.of_nat n ≤ 2 ^ 64 →
  kload_bytes n (hh s + a) (moved s m d) = Ok (ld_bytes n m a) (moved s m d).
Proof.
  intros H1 H2. unfold kload_bytes, liftpm, liftk, lifth, liftv, liftp, zoom, in_hhdm. cbn -[ld_bytes].
  replace (hh s <=? hh s + a) with true by lia. replace (hh s + a + Z.of_nat n <=? 2 ^ 64) with true by lia.
  cbn -[ld_bytes]. by replace (hh s + a - hh s) with a by lia.
Qed.

Lemma kstore_bytes_moved s m d a bs :
  0 ≤ a → hh s + a + Z.of_nat (length bs) ≤ 2 ^ 64 →
  kstore_bytes (hh s + a) bs (moved s m d) = Ok tt (moved s (st_bytes a bs m) d).
Proof.
  intros H1 H2. unfold kstore_bytes, liftpm, liftk, lifth, liftv, liftp, zoom, in_hhdm. cbn -[st_bytes].
  replace (hh s <=? hh s + a) with true by lia.
  replace (hh s + a + Z.of_nat (length bs) <=? 2 ^ 64) with true by lia.
  cbn -[st_bytes]. by replace (hh s + a - hh s) with a by lia.
Qed.

Lemma dma_moved s m d : dma_step (moved s m d) = Ok tt (moved s (snd (dma d m)) (fst (dma d m))).
Proof. unfold dma_step. cbn. by destruct (dma d m). Qed.

Lemma blk_moved {A} (f : blk_vars → A) s m d : blk f (moved s m d) = Ok (f (k_blk s)) (moved s m d).
Proof. done. Qed.

(** ** The layout [virtio_blk_init] sets up *)

Record laid_out (s : kst D) (R q : Z) : Prop := LaidOut {
  lo_R : 0 ≤ R;
  lo_h : 0 < hh s;
  lo_top : hh s + R + 16384 ≤ 2 ^ 64;
  lo_q : 3 ≤ q ≤ 256;
  lo_qsize : qsize (k_blk s) = q;
  lo_desc : desc (k_blk s) = hh s + R;
  lo_avail : avail_idx_p (k_blk s) = hh s + (AVAIL R q + 2);
  lo_slots : avail_ring_p (k_blk s) = hh s + (AVAIL R q + 4);
  lo_used : used_idx_p (k_blk s) = hh s + (USED R q + 2);
  lo_ring : ring_pa (k_blk s) = R;
  lo_buf : buf_pa (k_blk s) = BUF R;
  lo_bufv : buf_va (k_blk s) = hh s + BUF R;
  lo_hdr : hdr_off (k_blk s) = 3 * 4096 + 0x400;
  lo_st : st_off (k_blk s) = 3 * 4096 + 0x4FF;
}.

(** The device serves that queue, has nothing to do, and takes [n] steps. *)
Definition idle_device (s : kst D) (R q : Z) (n : nat) (disk : mem) : Prop :=
  vd (k_hw s) = Vdev disk None n (io_base (k_blk s)) R q.

Lemma wadd a b : 0 ≤ a + b < 2 ^ 64 → a +w b = a + b.
Proof. intros H. apply Z.mod_small. lia. Qed.

(** One access of a request. *)
Ltac step :=
  erewrite bind_Ok_eq;
    [|first [ apply blk_moved | apply kstore_moved; lia | apply kload_moved; lia ]].

Section request.
Context (s : kst D) (R q : Z) (L : laid_out s R q).

Lemma put_desc_moved i x m d :
  i = 0 ∨ i = 1 ∨ i = 2 → put_desc i x (moved s m d) = Ok tt (moved s (desc_mem R i x m) d).
Proof using L.
  intros Hi. destruct L. unfold put_desc. step. rewrite lo_desc0. cbv zeta.
  rewrite !wadd by (rewrite ?wadd; lia). 
  rewrite <-!Z.add_assoc. step. step. step. unfold desc_mem. rewrite <-!Z.add_assoc. apply kstore_moved; lia.
Qed.

(** [do_request] after the notification. *)
Definition completion (t : Z) (data : list Z) : M (kst D) (Z * list Z) :=
  let b := k_blk s in
  dma_step ;;
  last ← kload 2 (used_idx_p b);
  r ← until (SPIN_LIMIT + 1) (poll_used last);
  match r with
  | None =>
      v ← vio_in VIO_STATUS 1;
      ai ← kload 2 (avail_idx_p b);
      ui ← kload 2 (used_idx_p b);
      klog "[err ] virtio-blk: request timeout (status=%p avail=%u used=%u)\n" [KU v; KU ai; KU ui] ;;
      mret (-5, data)
  | Some _ =>
      inb (io_base b + VIO_ISR) ;;
      data ← (if t =? 0 then bs ← kload_bytes 512 (buf_va b); mret (bs ++ drop 512 data) else mret data);
      v ← kload 1 (desc b +w st_off b);
      mret (if v =? 0 then 0 else -5, data)
  end.

Context (t sec : Z) (data : list Z) (Ht : t = 0 ∨ t = 1) (Hsec : 0 ≤ sec < 2 ^ 64).
Context (Hdata : (512 ≤ length data)%nat) (Hbytes : Forall (λ b, 0 ≤ b < 256) data).

Definition notified (d : D) : D := pio_out 2 (wrap16 (io_base (k_blk s) + VIO_QNOTIFY)) 0 d.

Lemma notify_moved m d : vio_out VIO_QNOTIFY 0 2 (moved s m d) = Ok tt (moved s m (notified d)).
Proof. done. Qed.

Lemma announce m d :
  do_request t sec data (moved s m d) =
  completion t data (moved s (request_mem R q t sec data m) (notified d)).
Proof using All.
  pose proof (geometry R q m (lo_q _ _ _ L)) as (HA & Hix & HU & HB).
  unfold do_request. step. destruct L. rewrite lo_desc0, lo_avail0, lo_slots0, lo_buf0, lo_bufv0, lo_ring0, lo_hdr0, lo_st0, lo_qsize0.
  unfold BUF in *. rewrite !wadd by (rewrite ?wadd; lia). rewrite <-!Z.add_assoc.
  step. step. step.
  erewrite bind_Ok_eq; [|by apply put_desc_moved; auto].
  erewrite bind_Ok_eq; [|by apply put_desc_moved; auto].
  erewrite bind_Ok_eq; [|by apply put_desc_moved; auto].
  set (m3 := desc_mem R 2 _ _).
  assert (Hm3 : ∀ a, R + 48 ≤ a → a + 2 ≤ R + 3 * 4096 → ldn 2 m3 a = ldn 2 m a).
  { intros a H1 H2. unfold m3, desc_mem. by ldst. }
  set (m4 := if t =? 1 then st_bytes (R + 3 * 4096) (take 512 data) m3 else m3).
  assert (Hlen : length (take 512 data) = 512%nat) by (rewrite length_take; lia).
  rewrite (bind_Ok_eq _ _ _ tt (moved s m4 d));
    [|unfold m4; destruct (t =? 1); [apply kstore_bytes_moved; lia|done]].
  assert (Hi : ldn 2 m4 (AVAIL R q + 2) = ix R q m).
  { unfold m4, ix. destruct (t =? 1); rewrite ?ldn_st_bytes_ne by lia; apply Hm3; lia. }
  step. rewrite Hi, wadd, <-!Z.add_assoc by lia. step. step.
  erewrite bind_Ok_eq; [|apply notify_moved].
  unfold completion, request_mem, STA, HDR, BUF. rewrite lo_avail0, lo_bufv0, lo_desc0, lo_st0.
  rewrite wadd by lia. rewrite <-!Z.add_assoc. reflexivity.
Qed.

(** ** What the device does meanwhile *)

Context (m : mem) (disk : mem) (delay : nat).
Abbreviation dev disk w := (Vdev disk w delay (io_base (k_blk s)) R q).
Abbreviation M0 := (request_mem R q t sec data m).
Abbreviation served' := (served R q t sec m disk).

Lemma announced_M0 : announced R q t sec data m M0.
Proof using All. destruct L. apply request_announced; done || lia. Qed.

Lemma dma_waits d k : vd d = dev disk (Some (S k)) → ∃ d', dma_step (moved s M0 d) = Ok tt (moved s M0 d') ∧ vd d' = dev disk (Some k).
Proof using All.
  intros Hd. rewrite dma_moved. pose proof (vd_dma d M0) as H. rewrite Hd in H.
  apply pair_eq in H as [H1 H2]. cbn [fst snd] in H1, H2. exists (fst (dma d M0)). by rewrite H1, H2.
Qed.

Lemma dma_serves d : vd d = dev disk (Some O) →
  ∃ m' d', dma_step (moved s M0 d) = Ok tt (moved s m' d') ∧ served' m' ∧ vd d' = dev (disk_after t sec data disk) None.
Proof using All.
  intros Hd. rewrite dma_moved. pose proof (vd_dma d M0) as H. rewrite Hd in H.
  unfold vdev_dma in H. cbn [v_wait v_ring v_q v_disk] in H.
  destruct (serve_announced R q t sec data m) with (disk := disk) (m' := M0) as (m' & E & Hs);
    [destruct L; done || lia..|apply announced_M0|].
  rewrite E in H. apply pair_eq in H as [H1 H2]. cbn [fst snd] in H1, H2. exists m', (fst (dma d M0)). by rewrite H1, H2.
Qed.

Lemma dma_idles m' d dk : vd d = dev dk None → ∃ d', dma_step (moved s m' d) = Ok tt (moved s m' d') ∧ vd d' = dev dk None.
Proof using All.
  intros Hd. rewrite dma_moved. pose proof (vd_dma d m') as H. rewrite Hd in H.
  apply pair_eq in H as [H1 H2]. cbn [fst snd] in H1, H2. exists (fst (dma d m')). by rewrite H1, H2.
Qed.

Lemma poll_moved m' d : kload 2 (used_idx_p (k_blk s)) (moved s m' d) = Ok (ld16 m' (USED R q + 2)) (moved s m' d).
Proof using All.
  pose proof (geometry R q m (lo_q _ _ _ L)) as (HA & Hix & HU & HB). unfold BUF in HB.
  destruct L. rewrite lo_used0. apply kload_moved; lia.
Qed.

Lemma inb_moved r m' d dk :
  vd d = dev dk None →
  ∃ v d', inb (io_base (k_blk s) + r) (moved s m' d) = Ok v (moved s m' d') ∧ vd d' = dev dk None.
Proof using All.
  intros Hd. pose proof (vd_in d r) as H. rewrite Hd in H. cbn [v_io] in H.
  unfold inb, hw_get, mbind, M_bind. change (k_hw (moved s m' d)) with d.
  destruct (pio_in 1 _ d) as [v d']. by exists (wrap8 v), d'.
Qed.

(** The data a request hands back. *)
Definition data_after : list Z := if t =? 0 then ld_bytes 512 disk (512 * sec) ++ drop 512 data else data.

Lemma used_moves x : (wrap16 (x + 1) =? x) = false.
Proof. apply Z.eqb_neq. unfold wrap16. intros E. Z.div_mod_to_equations. lia. Qed.

(** The device was slower than the first read of the used index. *)
Lemma poll_hits d k :
  (k < Pos.to_nat (SPIN_LIMIT + 1))%nat → vd d = dev disk (Some k) →
  ∃ a s', until (SPIN_LIMIT + 1) (poll_used (ld16 m (USED R q + 2))) (moved s M0 d) = Ok (Some a) s' ∧
    ∃ m' d', s' = moved s m' d' ∧ served' m' ∧ vd d' = dev (disk_after t sec data disk) None.
Proof using All.
  intros Hk Hd.
  apply (until_hit _ (λ k s', ∃ d', s' = moved s M0 d' ∧ vd d' = dev disk (Some k))
    (λ _ s', ∃ m' d', s' = moved s m' d' ∧ served' m' ∧ vd d' = dev (disk_after t sec data disk) None) _ k); [..|by exists d].
  - intros k' s' (d' & -> & Hd'). destruct (dma_waits d' k' Hd') as (d'' & E & Hd'').
    exists (moved s M0 d''). split; [|by exists d'']. unfold poll_used.
    rewrite (bind_Ok_eq _ _ _ _ _ E), (bind_Ok_eq _ _ _ _ _ (blk_moved _ _ _ _)), (bind_Ok_eq _ _ _ _ _ (poll_moved _ _)).
    by rewrite (an_used _ _ _ _ _ _ _ announced_M0), Z.eqb_refl.
  - intros s' (d' & -> & Hd'). destruct (dma_serves d' Hd') as (m' & d'' & E & Hs & Hd'').
    exists tt, (moved s m' d''). split; [|by exists m', d'']. unfold poll_used.
    rewrite (bind_Ok_eq _ _ _ _ _ E), (bind_Ok_eq _ _ _ _ _ (blk_moved _ _ _ _)), (bind_Ok_eq _ _ _ _ _ (poll_moved _ _)).
    by rewrite (sv_used _ _ _ _ _ _ _ Hs), used_moves.
  - done.
Qed.

Lemma completes d k :
  (k < Pos.to_nat (SPIN_LIMIT + 1))%nat → vd d = dev disk (Some (S k)) →
  ∃ m' d', completion t data (moved s M0 d) = Ok (0, data_after) (moved s m' d') ∧
    served' m' ∧ vd d' = dev (disk_after t sec data disk) None.
Proof using All.
  intros Hk Hd. destruct (dma_waits d k Hd) as (d1 & E & Hd1). unfold completion.
  rewrite (bind_Ok_eq _ _ _ _ _ E), (bind_Ok_eq _ _ _ _ _ (poll_moved _ _)), (an_used _ _ _ _ _ _ _ announced_M0).
  destruct (poll_hits d1 k Hk Hd1) as (a & s' & Eu & m' & d' & -> & Hs & Hd').
  destruct (inb_moved VIO_ISR m' d' _ Hd') as (v & d2 & Ei & Hd2).
  rewrite (bind_Ok_eq _ _ _ _ _ Eu), (bind_Ok_eq _ _ _ _ _ Ei).
  exists m', d2. split; [|done]. rewrite (bind_Ok_eq _ _ _ data_after (moved s m' d2)).
  - destruct L. rewrite lo_desc0, lo_st0, wadd, <-Z.add_assoc by lia.
    erewrite bind_Ok_eq; [|apply kload_moved; lia]. rewrite Z.add_assoc. cbn [ldn].
    pose proof (sv_sta _ _ _ _ _ _ _ Hs) as E0. unfold STA, BUF in E0. by rewrite E0.
  - unfold data_after. destruct (Z.eqb_spec t 0) as [E0|]; [|done]. destruct L. rewrite lo_bufv0. unfold BUF.
    erewrite bind_Ok_eq; [|apply kload_bytes_moved; lia].
    by rewrite <-(sv_data _ _ _ _ _ _ _ Hs E0).
Qed.

(** The device was as fast as that read: no later one differs from it. *)
Lemma poll_misses n m' d dk :
  vd d = dev dk None →
  ∃ s', until n (poll_used (ld16 m' (USED R q + 2))) (moved s m' d) = Ok None s' ∧
    ∃ d', s' = moved s m' d' ∧ vd d' = dev dk None.
Proof using All.
  intros Hd. apply (until_miss _ (λ s', ∃ d', s' = moved s m' d' ∧ vd d' = dev dk None)); [|by exists d].
  intros s' (d' & -> & Hd'). destruct (dma_idles m' d' dk Hd') as (d'' & E & Hd'').
  exists (moved s m' d''). split; [|by exists d'']. unfold poll_used.
  rewrite (bind_Ok_eq _ _ _ _ _ E), (bind_Ok_eq _ _ _ _ _ (blk_moved _ _ _ _)), (bind_Ok_eq _ _ _ _ _ (poll_moved _ _)).
  by rewrite Z.eqb_refl.
Qed.

Lemma times_out d :
  vd d = dev disk (Some O) →
  ∃ s', completion t data (moved s M0 d) = Ok (-5, data) s' ∧ vd (k_hw s') = dev (disk_after t sec data disk) None.
Proof using All.
  intros Hd. destruct (dma_serves d Hd) as (m' & d1 & E & Hs & Hd1). unfold completion.
  rewrite (bind_Ok_eq _ _ _ _ _ E), (bind_Ok_eq _ _ _ _ _ (poll_moved _ _)).
  destruct (poll_misses (SPIN_LIMIT + 1) m' d1 _ Hd1) as (s' & Eu & d' & -> & Hd').
  destruct (inb_moved VIO_STATUS m' d' _ Hd') as (v & d2 & Ei & Hd2).
  pose proof (geometry R q m (lo_q _ _ _ L)) as (HA & Hix & HU & HB). unfold BUF in HB.
  rewrite (bind_Ok_eq _ _ _ _ _ Eu). unfold vio_in. cbn [Z.eqb Pos.eqb]. 
  erewrite bind_Ok_eq; [|erewrite bind_Ok_eq; [exact Ei|done]].
  destruct L. rewrite lo_avail0. step. erewrite bind_Ok_eq; [|apply poll_moved].
  eexists. split; [reflexivity|]. done.
Qed.

Lemma notified_dev d : vd d = dev disk None → vd (notified d) = dev disk (Some delay).
Proof using All. intros Hd. unfold notified. pose proof (vd_notify d 0) as H. by rewrite Hd in H. Qed.

End request.

(** A request while the device is idle and takes [k + 1] steps. *)
Lemma request_runs s R q t sec data disk k :
  laid_out s R q → idle_device s R q (S k) disk → (k < Pos.to_nat (SPIN_LIMIT + 1))%nat →
  t = 0 ∨ t = 1 → 0 ≤ sec < 2 ^ 64 → (512 ≤ length data)%nat → Forall (λ b, 0 ≤ b < 256) data →
  ∃ m d, do_request t sec data s = Ok (0, data_after t sec data disk) (moved s m d) ∧
    laid_out (moved s m d) R q ∧ idle_device (moved s m d) R q (S k) (disk_after t sec data disk) ∧
    (∀ a, a < R ∨ R + 16384 ≤ a → ld8 m a = ld8 (kmem s) a).
Proof.
  intros L Hd Hk Ht Hs Hl Hb.
  pose proof (notified_dev s R q L t sec data Ht Hs Hl Hb (kmem s) disk (S k) _ Hd) as Hn.
  destruct (completes s R q L t sec data Ht Hs Hl Hb (kmem s) disk (S k) _ k Hk Hn) as (m' & d' & E & Hsv & Hd').
  exists m', d'. rewrite <-(moved_id s) at 1. rewrite (announce s R q L t sec data Ht Hs Hl Hb), E.
  split; [done|]. split; [by destruct L; split|]. split; [done|]. apply (sv_out _ _ _ _ _ _ _ Hsv).
Qed.

Lemma request_times_out s R q t sec data disk :
  laid_out s R q → idle_device s R q O disk →
  t = 0 ∨ t = 1 → 0 ≤ sec < 2 ^ 64 → (512 ≤ length data)%nat → Forall (λ b, 0 ≤ b < 256) data →
  ∃ s', do_request t sec data s = Ok (-5, data) s' ∧ v_disk (vd (k_hw s')) = disk_after t sec data disk.
Proof.
  intros L Hd Ht Hs Hl Hb.
  pose proof (notified_dev s R q L t sec data Ht Hs Hl Hb (kmem s) disk O _ Hd) as Hn.
  destruct (times_out s R q L t sec data Ht Hs Hl Hb (kmem s) disk O _ Hn) as (s' & E & Hd').
  exists s'. rewrite <-(moved_id s). rewrite (announce s R q L t sec data Ht Hs Hl Hb), E, Hd'. done.
Qed.

End virtio.

(** ** A machine with a disk *)

#[export] Instance vdev_hw : Hardware vdev := {|
  pio_in _ _ d := (0, d);
  pio_out w p _ d := if (w =? 2)%nat && (p =? wrap16 (v_io d + VIO_QNOTIFY)) then set_wait (Some (v_delay d)) d else d;
  mmio_in _ d := (0, d);
  mmio_out _ _ d := d;
  msr_in _ d := (0, d);
  msr_out _ _ d := d;
  tsc_in d := (0, d);
  cpuid_ecx _ d := (0, d);
  dma d m := vdev_dma d m;
|}.

#[export, refine] Instance vdev_disk : VirtioDisk vdev := {| vd d := d |}.
Proof.
  - intros d x. cbn. by rewrite Z.eqb_refl.
  - done.
  - intros d m. cbn. by destruct (vdev_dma d m).
Defined.

(** The block driver set up over a queue of 8 entries at 1 MiB. *)
Definition blk8 (h : Z) : blk_vars :=
  let R := 0x100000 in
  BlkVars 0xC040 2048 8 (h + R) (h + (AVAIL R 8 + 2)) (h + (AVAIL R 8 + 4)) (h + (USED R 8 + 2)) R
    (BUF R) (h + BUF R) (3 * 4096 + 0x400) (3 * 4096 + 0x4FF).

Definition disk_kernel_at (v : vmm_st) (d : vdev) : kst vdev := set_k_blk (blk8 (hhdm (vp v))) (kernel0 (HeapSt v 0 0) d).
Definition disk_kernel (delay : nat) (disk : mem) : kst vdev :=
  disk_kernel_at user_st (Vdev disk None delay 0xC040 0x100000 8).

Lemma disk_kernel_at_laid_out v d : 0 < hhdm (vp v) < 2 ^ 64 - 0x200000 → laid_out (disk_kernel_at v d) 0x100000 8.
Proof. intros H. split; cbn; reflexivity || lia. Qed.

Lemma user_hhdm : 0 < hhdm (vp user_st) < 2 ^ 64 - 0x200000.
Proof. apply (bool_decide_unpack _). vm_compute. reflexivity. Qed.

Lemma disk_kernel_laid_out delay disk : laid_out (disk_kernel delay disk) 0x100000 8.
Proof. unfold disk_kernel. apply disk_kernel_at_laid_out, user_hhdm. Qed.

Lemma read_back sec sec' data disk :
  length data = 512%nat → Forall (λ b, 0 ≤ b < 256) data →
  data_after 0 sec' (replicate 512 0) (disk_after 1 sec data disk) =
    if sec' =? sec then data else ld_bytes 512 disk (512 * sec').
Proof.
  intros Hl Hb. unfold data_after, disk_after. cbn [Z.eqb]. rewrite drop_replicate, app_nil_r, take_ge by lia.
  destruct (Z.eqb_spec sec' sec) as [->|Hne].
  - pose proof (ld_bytes_st_bytes (512 * sec) data disk Hb) as H. by rewrite Hl in H.
  - apply ld_bytes_ext. intros i Hi. apply ld8_st_bytes_out. lia.
Qed.

(** ** The driver *)





(** The used index is sampled after the notification.  When the device has
    completed the request by then, the sample already counts it, the loop waits
    for a completion that will not come, and the request is reported as failed
    (-5) although it was carried out: a write is on the disk. *)
Theorem virtio_fast_device_times_out {D} {HW : Hardware D} {VD : VirtioDisk D} (s : kst D) (R q t sec : Z)
    (data : list Z) (disk : mem) :
  laid_out s R q → idle_device s R q O disk →
  t = 0 ∨ t = 1 → 0 ≤ sec < 2 ^ 64 → (512 ≤ length data)%nat → Forall (λ b, 0 ≤ b < 256) data →
  ∃ s', do_request t sec data s = Ok (-5, data) s' ∧ v_disk (vd (k_hw s')) = disk_after t sec data disk.
Proof. apply request_times_out. Qed.

Lemma virtio_fast_device_times_out_witness :
  ∃ s', do_request 1 5 (replicate 512 7) (disk_kernel 0 ∅) = Ok (-5, replicate 512 7) s' ∧
    v_disk (vd (k_hw s')) = disk_after 1 5 (replicate 512 7) ∅.
Proof.
  apply (virtio_fast_device_times_out (disk_kernel 0 ∅) 0x100000 8 1 5 (replicate 512 7) ∅).
  - apply disk_kernel_laid_out.
  - reflexivity.
  - by right.
  - lia.
  - rewrite length_replicate. lia.
  - by apply Forall_replicate.
Defined.

End VirtioProps.
