(* ===== verification/Uixfs.v ===== *)
(** * Root file system ([personality/fs/uixfs.c], [tools/mkuixfs.py])

    A read-only file system over the block driver: a superblock, a table of at
    most 32 entries of 32 bytes, and the files, each at the start of a sector.
    [mkuixfs] is the tool that writes the image. *)

From S2P Require Import Prelude Lib Pmm Vmm Heap Machine Pci Virtio.

Module Uixfs.
Import Lib Pmm Vmm Heap Machine Pci Virtio.

Definition NFILES_MAX : Z := 32.

(** ** Directory entries *)

(** [n] bytes, least significant first, and back. *)
Fixpoint le_bytes (n : nat) (v : Z) : list Z :=
  match n with O => [] | S n => v mod 256 :: le_bytes n (v / 256) end.
Fixpoint le_val (bs : list Z) : Z := match bs with [] => 0 | b :: bs => b + 256 * le_val bs end.

(** [struct uixfs_entry], packed: 24 bytes of name, size, first sector. *)
Definition entry_of_bytes (bs : list Z) : uixfs_entry :=
  UixfsEntry (take 24 bs) (le_val (take 4 (drop 24 bs))) (le_val (take 4 (drop 28 bs))).
Definition bytes_of_entry (e : uixfs_entry) : list Z :=
  e_name e ++ le_bytes 4 (e_size e) ++ le_bytes 4 (e_start_lba e).

(** [strcmp] of two arrays; [None] when it reads past the end of one of them. *)
Fixpoint strcmp_l (a b : list Z) : option Z :=
  match a, b with
  | x :: a, y :: b => if negb (x =? 0) && (x =? y) then strcmp_l a b else Some (x - y)
  | _, _ => None
  end.

Definition UIXF : list Z := [85; 73; 88; 70].

(** ** The image ([tools/mkuixfs.py]) *)

Definition SECT : Z := 512.
Definition round_sect (n : Z) : Z := (n + SECT - 1) / SECT * SECT.

(** [struct.pack_into("<24sII", ...)] of a name cut to 23 bytes. *)
Definition pack_entry (nm : list Z) (len lba : Z) : list Z :=
  let nm := take 23 nm in
  (nm ++ replicate (24 - length nm) 0) ++ le_bytes 4 len ++ le_bytes 4 lba.

Fixpoint mkuixfs_files (i cur : Z) (files : list (list Z * list Z)) (img : mem) : mem :=
  match files with
  | [] => img
  | (nm, blob) :: files =>
      let img := st_bytes (SECT + i * 32) (pack_entry nm (Z.of_nat (length blob)) (cur / SECT)) img in
      let img := st_bytes cur blob img in
      mkuixfs_files (i + 1) (cur + round_sect (Z.of_nat (length blob))) files img
  end.

Definition data_off : Z := round_sect (SECT + NFILES_MAX * 32).

Definition mkuixfs (files : list (list Z * list Z)) : mem :=
  mkuixfs_files 0 data_off files (st_bytes 0 (UIXF ++ le_bytes 4 (Z.of_nat (length files))) ∅).

Section uixfs.
Context {D : Type} {HW : Hardware D}.

Definition fs {A} (f : fs_vars → A) : M (kst D) A := gets (λ s, f (k_fs s)).

(** ** Result buffer *)

Definition file_buf_free : M (kst D) unit :=
  b ← fs file_buf;
  if b =? 0 then mret tt
  else
    n ← fs file_buf_pages;
    for_ (Z.to_nat n) 0 (λ i,
      pa ← gets (λ s, pmm_virt_to_phys (vp (vm s)) b);
      liftpm (pmm_free (pa +w i *w UIX_PAGE_SIZE))) ;;
    mod_fs (set_file_buf 0) ;;
    mod_fs (set_file_buf_pages 0).

Definition file_buf_alloc (size : Z) : M (kst D) Z :=
  file_buf_free ;;
  let n := (size + UIX_PAGE_SIZE - 1) / UIX_PAGE_SIZE in
  mod_fs (set_file_buf_pages n) ;;
  pa ← liftpm (pmm_alloc_pages n);
  if pa =? 0 then mod_fs (set_file_buf_pages 0) ;; mret (-1)
  else
    va ← liftk (p2v pa);
    mod_fs (set_file_buf va) ;;
    mret 0.

(** ** Mounting *)

(** [virtio_blk_read(lba, sector)] into the static buffer. *)
Definition read_sector (lba : Z) : M (kst D) Z :=
  b ← fs sector;
  r ← virtio_blk_read lba b;
  mod_fs (set_sector (snd r)) ;;
  mret (fst r).

(** The loop over the entries, at [i]: [false] stands for [return -1]. *)
Fixpoint mount_entries (k : nat) (i : Z) : M (kst D) bool :=
  match k with
  | O => mret true
  | S k =>
      let lba := 1 + (i * 32) / 512 in
      let off := (i * 32) mod 512 in
      r ← (if off =? 0 then read_sector lba else mret 0);
      if negb (r =? 0) then mret false
      else
        sec ← fs sector;
        mod_fs (λ f, set_entries (<[Z.to_nat i := entry_of_bytes (take 32 (drop (Z.to_nat off) sec))]> (entries f)) f) ;;
        mount_entries k (i + 1)
  end.

Definition uixfs_mount : M (kst D) Z :=
  r ← read_sector 0;
  if negb (r =? 0) then klog "[err ] uixfs: cannot read LBA 0\n" [] ;; mret (-1)
  else
    sec ← fs sector;
    if negb (bool_decide (take 4 sec = UIXF)) then klog "[err ] uixfs: bad magic\n" [] ;; mret (-1)
    else
      let n := le_val (take 4 (drop 4 sec)) in
      mod_fs (set_nfiles (if NFILES_MAX <? n then NFILES_MAX else n)) ;;
      n ← fs nfiles;
      ok ← mount_entries (Z.to_nat n) 0;
      if negb ok then mret (-1)
      else
        mod_fs (set_mounted 1) ;;
        klog "[info] uixfs: mounted, %u files\n" [KU n] ;;
        for_ (Z.to_nat n) 0 (λ i,
          e ← fs (λ f, default (UixfsEntry [] 0 0) (entries f !! Z.to_nat i));
          klog "[info] uixfs: '%s' %u bytes @ LBA %u\n"
            [KS (cstring (bytes_of_entry e)); KU (e_size e); KU (e_start_lba e)]) ;;
        mret 0.

Definition uixfs_release_buf : M (kst D) unit := file_buf_free.

(** ** Reading *)

(** The copy of the sectors of a file, [k] sectors to go. *)
Fixpoint read_sectors (k : nat) (size lba done buf : Z) : M (kst D) bool :=
  match k with
  | O => mret true
  | S k =>
      r ← read_sector lba;
      if negb (r =? 0) then mret false
      else
        let chunk := if 512 <? size - done then 512 else size - done in
        sec ← fs sector;
        kstore_bytes (buf +w done) (take (Z.to_nat chunk) sec) ;;
        read_sectors k size (wrap32 (lba + 1)) (done + chunk) buf
  end.

Definition read_entry (e : uixfs_entry) : M (kst D) (Z * Z) :=
  r ← file_buf_alloc (e_size e);
  if negb (r =? 0) then mret (-12, 0)
  else
    buf ← fs file_buf;
    ok ← read_sectors (Z.to_nat ((e_size e + 511) / 512)) (e_size e) (e_start_lba e) 0 buf;
    if ok : bool then mret (e_size e, buf) else mret (-5, 0).

(** The search from entry [i]; names are compared as C strings that may run on
    into the following entries. *)
Fixpoint read_from (k : nat) (i : Z) (nm : list Z) : M (kst D) (Z * Z) :=
  match k with
  | O => mret (-2, 0)
  | S k =>
      es ← fs (λ f, drop (Z.to_nat i) (entries f));
      match es, strcmp_l (mjoin (bytes_of_entry <$> es)) nm with
      | e :: _, Some c => if c =? 0 then read_entry e else read_from k (i + 1) nm
      | _, _ => undef "uixfs_read: strcmp past the end"
      end
  end.

(** The result, and the pointer stored in [*out] (0 when nothing is stored). *)
Definition uixfs_read (nm : list Z) : M (kst D) (Z * Z) :=
  m ← fs mounted;
  if m =? 0 then mret (-1, 0)
  else n ← fs nfiles; read_from (Z.to_nat n) 0 nm.

End uixfs.
End Uixfs.
