(* ===== verification/UixfsFacts.v ===== *)
(** * The image of the file system

    What [mkuixfs] puts where, and what the reader makes of an entry. *)

From S2P Require Import Prelude Lib Pmm Vmm Heap Machine Pci Virtio VirtioFacts Uixfs.

Module UixfsFacts.
Import Lib Pmm Vmm Heap Machine Pci Virtio VirtioFacts Uixfs.

Abbreviation bytes := (Forall (λ b, 0 ≤ b < 256)).

(** ** Numbers and names *)

Lemma ld_bytes_app a b m x : ld_bytes (a + b) m x = ld_bytes a m x ++ ld_bytes b m (x + Z.of_nat a).
Proof.
  revert x. induction a as [|a IH]; intros x; cbn [ld_bytes Nat.add app]; [by rewrite Z.add_0_r|].
  rewrite IH. do 3 f_equal. lia.
Qed.

Lemma length_le_bytes n v : length (le_bytes n v) = n.
Proof. revert v. induction n; intros v; cbn; auto. Qed.

Lemma le_bytes_bytes n v : bytes (le_bytes n v).
Proof. revert v. induction n; intros v; constructor; [apply Z.mod_pos_bound; lia|auto]. Qed.

Lemma le_val_le_bytes n v : 0 ≤ v < 256 ^ Z.of_nat n → le_val (le_bytes n v) = v.
Proof.
  revert v. induction n as [|n IH]; intros v Hv; cbn [le_bytes le_val]; [cbn in Hv; lia|].
  rewrite Nat2Z.inj_succ, Z.pow_succ_r in Hv by lia. rewrite IH by (split; [apply Z.div_pos|apply Z.div_lt_upper_bound]; lia).
  pose proof (Z.div_mod v 256). lia.
Qed.

(** A name the tool does not cut, of bytes a C string can have. *)
Definition name_ok (nm : list Z) : Prop := (length nm ≤ 23)%nat ∧ Forall (λ b, 0 < b < 256) nm.

Definition padded (nm : list Z) : list Z := nm ++ replicate (24 - length nm) 0.

Lemma length_padded nm : name_ok nm → length (padded nm) = 24%nat.
Proof. intros [H _]. unfold padded. rewrite length_app, length_replicate. lia. Qed.

Lemma pack_entry_eq nm len lba :
  name_ok nm → pack_entry nm len lba = padded nm ++ le_bytes 4 len ++ le_bytes 4 lba.
Proof. intros [H _]. unfold pack_entry, padded. by rewrite take_ge by lia. Qed.

Lemma length_pack_entry nm len lba : name_ok nm → length (pack_entry nm len lba) = 32%nat.
Proof. intros H. rewrite pack_entry_eq by done. by rewrite !length_app, !length_le_bytes, length_padded. Qed.

Lemma pack_entry_bytes nm len lba : name_ok nm → bytes (pack_entry nm len lba).
Proof.
  intros Hn. rewrite pack_entry_eq by done. destruct Hn as [_ Hn]. unfold padded.
  rewrite !Forall_app. split_and!; try apply le_bytes_bytes.
  - eapply Forall_impl; [exact Hn|]. cbn. intros. lia.
  - by apply Forall_replicate.
Qed.

Lemma entry_of_pack nm len lba :
  name_ok nm → 0 ≤ len < 2 ^ 32 → 0 ≤ lba < 2 ^ 32 →
  entry_of_bytes (pack_entry nm len lba) = UixfsEntry (padded nm) len lba.
Proof.
  intros Hn H1 H2. rewrite pack_entry_eq by done. unfold entry_of_bytes. pose proof (length_padded nm Hn) as Hl.
  pose proof (length_le_bytes 4 len) as Hl1. pose proof (length_le_bytes 4 lba) as Hl2.
  f_equal.
  - by rewrite take_app_length'.
  - rewrite drop_app_length', take_app_length' by done. by apply le_val_le_bytes.
  - replace 28%nat with (24 + 4)%nat by done. rewrite <-drop_drop, drop_app_length', drop_app_length' by done.
    rewrite take_ge by lia. by apply le_val_le_bytes.
Qed.

(** Comparing C strings. *)
Lemma strcmp_names a b rest :
  Forall (λ x, 0 < x < 256) a → Forall (λ x, 0 < x < 256) b →
  ∃ c, strcmp_l (a ++ 0 :: rest) (b ++ [0]) = Some c ∧ (c = 0 ↔ a = b).
Proof.
  intros Ha. revert b. induction Ha as [|x a Hx Ha IH]; intros b Hb; destruct Hb as [|y b Hy Hb]; cbn.
  - by exists 0.
  - exists (0 - y). split; [done|]. split; [lia|done].
  - replace (x =? 0) with false by lia. cbn. replace (x =? 0) with false by lia. exists (x - 0). split; [done|]. split; [lia|done].
  - replace (x =? 0) with false by lia. cbn. destruct (Z.eqb_spec x y) as [->|Hne].
    + destruct (IH b Hb) as (c & E & Hc). exists c. split; [done|]. rewrite Hc. split; [by intros ->|by intros [= ->]].
    + exists (x - y). split; [done|]. split; [lia|]. intros [= ? ?]. lia.
Qed.

(** ** The layout *)

Lemma round_sect_spec n : 0 ≤ n → n ≤ round_sect n ∧ round_sect n mod 512 = 0 ∧ round_sect n < n + 512 ∧ 0 ≤ round_sect n.
Proof.
  intros Hn. unfold round_sect, SECT. pose proof (Z.div_mod (n + 512 - 1) 512).
  pose proof (Z.mod_pos_bound (n + 512 - 1) 512). rewrite Z.mod_mul by lia. lia.
Qed.

Definition blob_len (f : list Z * list Z) : Z := Z.of_nat (length (snd f)).

(** First byte of the files that follow [fs], laid out from [cur]. *)
Fixpoint offset (cur : Z) (fs : list (list Z * list Z)) : Z :=
  match fs with [] => cur | f :: fs => offset (cur + round_sect (blob_len f)) fs end.

Definition file_ok (f : list Z * list Z) : Prop := name_ok (fst f) ∧ bytes (snd f).

Lemma offset_mono cur fs : cur ≤ offset cur fs.
Proof.
  revert cur. induction fs as [|f fs IH]; intros cur; cbn [offset]; [lia|].
  pose proof (round_sect_spec (blob_len f)). specialize (IH (cur + round_sect (blob_len f))). unfold blob_len in *. lia.
Qed.

Lemma offset_app cur fs1 fs2 : offset cur (fs1 ++ fs2) = offset (offset cur fs1) fs2.
Proof. revert cur. induction fs1 as [|f fs1 IH]; intros cur; cbn; auto. Qed.

Lemma offset_aligned cur fs : cur mod 512 = 0 → offset cur fs mod 512 = 0.
Proof.
  revert cur. induction fs as [|f fs IH]; intros cur H; cbn [offset]; [done|]. apply IH.
  pose proof (round_sect_spec (blob_len f)) as Hr. unfold blob_len in *.
  rewrite Z.add_mod, H by lia. destruct Hr as (_ & -> & _); [lia|]. done.
Qed.

(** Bytes the files from [i] on do not touch. *)
Lemma mkuixfs_files_out i cur fs img a :
  Forall file_ok fs → 0 ≤ i → i + Z.of_nat (length fs) ≤ 32 → 1536 ≤ cur →
  a < 512 + 32 * i ∨ 1536 ≤ a < cur → ld8 (mkuixfs_files i cur fs img) a = ld8 img a.
Proof.
  intros Hf. revert i cur img. induction Hf as [|[nm blob] fs [Hn _] Hf IH]; intros i cur img Hi Hl Hc Ha; [done|].
  cbn [mkuixfs_files length] in *. pose proof (round_sect_spec (Z.of_nat (length blob))).
  rewrite IH by lia. rewrite !ld8_st_bytes_out; [done|..].
  - rewrite length_pack_entry by done. unfold SECT. lia.
  - lia.
Qed.

(** The entry and the bytes of each file. *)
Lemma mkuixfs_files_at i cur fs img fs1 f fs2 :
  fs = fs1 ++ f :: fs2 →
  Forall file_ok fs → 0 ≤ i → i + Z.of_nat (length fs) ≤ 32 → 1536 ≤ cur →
  let lo := offset cur fs1 in
  let d := mkuixfs_files i cur fs img in
  ld_bytes 32 d (512 + 32 * (i + Z.of_nat (length fs1))) = pack_entry (fst f) (blob_len f) (lo / 512) ∧
  ld_bytes (length (snd f)) d lo = snd f.
Proof.
  intros -> Hf. revert i cur img. induction fs1 as [|[nm blob] fs1 IH]; intros i cur img Hi Hl Hc; cbn zeta.
  - destruct f as [nm blob]. apply Forall_cons in Hf as [[Hn Hb] Hf]. cbn [fst snd] in Hn, Hb.
    cbn [app mkuixfs_files length offset fst snd] in *. set (img2 := st_bytes cur blob _).
    set (cur2 := cur + _). assert (Hc2 : cur + Z.of_nat (length blob) ≤ cur2).
    { pose proof (round_sect_spec (Z.of_nat (length blob))). unfold cur2. lia. }
    pose proof (length_pack_entry nm (Z.of_nat (length blob)) (cur / SECT) Hn) as Hp. split.
    + rewrite (ld_bytes_ext _ _ img2 _ (512 + 32 * i)).
      * unfold img2. rewrite (ld_bytes_ext _ _ (st_bytes (SECT + i * 32) (pack_entry nm (Z.of_nat (length blob)) (cur / SECT)) img) _ (SECT + i * 32)).
        -- rewrite <-Hp. by apply ld_bytes_st_bytes, pack_entry_bytes.
        -- intros j Hj. rewrite ld8_st_bytes_out by lia. f_equal. unfold SECT. lia.
      * intros j Hj. rewrite mkuixfs_files_out by (done || lia). f_equal. lia.
    + rewrite (ld_bytes_ext _ _ img2 _ cur); [by apply ld_bytes_st_bytes|].
      intros j Hj. apply mkuixfs_files_out; done || lia.
  - cbn [app mkuixfs_files length offset] in *. apply Forall_cons in Hf as [[Hn Hb] Hf].
    pose proof (round_sect_spec (blob_len (nm, blob)) ltac:(unfold blob_len; lia)).
    replace (i + Z.of_nat (S (length fs1))) with (i + 1 + Z.of_nat (length fs1)) by lia.
    apply IH; [done|lia..].
Qed.

(** The whole image. *)
Definition lba_of (fs1 : list (list Z * list Z)) : Z := offset 1536 fs1 / 512.

Lemma offset_lba fs1 : 512 * lba_of fs1 = offset 1536 fs1.
Proof.
  unfold lba_of. pose proof (offset_aligned 1536 fs1 eq_refl). pose proof (Z.div_mod (offset 1536 fs1) 512). lia.
Qed.

Lemma mkuixfs_head fs :
  Forall file_ok fs → (length fs ≤ 32)%nat → ld_bytes 8 (mkuixfs fs) 0 = UIXF ++ le_bytes 4 (Z.of_nat (length fs)).
Proof.
  intros Hf Hl. unfold mkuixfs. change data_off with 1536. set (h := UIXF ++ _). 
  assert (Hh : length h = 8%nat) by (unfold h; by rewrite length_app, length_le_bytes).
  rewrite (ld_bytes_ext _ _ (st_bytes 0 h ∅) _ 0).
  - rewrite <-Hh at 1. apply ld_bytes_st_bytes. unfold h. rewrite Forall_app. split; [|apply le_bytes_bytes].
    repeat constructor; lia.
  - intros j Hj. apply mkuixfs_files_out; done || lia.
Qed.

Lemma mkuixfs_at fs1 f fs2 :
  let fs := fs1 ++ f :: fs2 in
  Forall file_ok fs → (length fs ≤ 32)%nat →
  ld_bytes 32 (mkuixfs fs) (512 + 32 * Z.of_nat (length fs1)) = pack_entry (fst f) (blob_len f) (lba_of fs1) ∧
  ld_bytes (length (snd f)) (mkuixfs fs) (512 * lba_of fs1) = snd f.
Proof.
  intros fs Hf Hl. rewrite offset_lba. unfold mkuixfs. change data_off with 1536.
  apply (mkuixfs_files_at 0 1536 fs _ fs1 f fs2); done || lia.
Qed.

End UixfsFacts.
