(* ===== verification/UixfsProps.v ===== *)
(** * The file system returns the files of the image

    The reader is proved against what it needs from a block device; the virtio
    driver provides it. *)

From S2P Require Import Prelude Lib Pmm PmmFacts PmmProps Vmm VmmFacts Heap Machine Checks Samples Pci Virtio VirtioFacts VirtioProps Uixfs UixfsFacts.

Module UixfsProps.
Import Lib Pmm PmmFacts PmmProps Vmm VmmFacts Heap Machine Checks Samples Pci Virtio VirtioFacts VirtioProps Uixfs UixfsFacts.

(** ** The block device, as the file system sees it

    While [I] holds, reading a sector returns the bytes of [disk], and writes
    no memory but [n] bytes at [lo]. *)
Class SectorDevice {D : Type} {HW : Hardware D} (I : kst D → Prop) (disk : mem) (lo n : Z) : Prop := {
  sd_read : ∀ s sec buf,
    I s → 0 ≤ sec < 2 ^ 32 → length buf = 512%nat → bytes buf →
    ∃ m d, virtio_blk_read sec buf s = Ok (0, ld_bytes 512 disk (512 * sec)) (moved s m d) ∧
      I (moved s m d) ∧ eq_outside lo n (kmem s) m;
  sd_local : ∀ s s',
    I s → k_blk s' = k_blk s → k_hw s' = k_hw s → hhdm (vp (vm s')) = hhdm (vp (vm s)) → I s';
}.

(** The driver over a device of bounded latency is one. *)
Definition virtio_ready {D} {HW : Hardware D} {VD : VirtioDisk D} (R q : Z) (k : nat) (disk : mem) (s : kst D) : Prop :=
  laid_out s R q ∧ idle_device s R q (S k) disk ∧ (k < Pos.to_nat (SPIN_LIMIT + 1))%nat.

#[export] Instance virtio_sector_device {D} {HW : Hardware D} {VD : VirtioDisk D} R q k disk :
  SectorDevice (virtio_ready R q k disk) disk R 16384.
Proof.
  split.
  - intros s sec buf (L & Hd & Hk) Hs Hl Hb.
    destruct (request_runs s R q 0 sec buf disk k) as (m & d & E & L' & Hd' & Ho); [done|done|done|auto|lia|lia|done|].
    exists m, d. split_and!.
    + unfold virtio_blk_read. rewrite E. unfold data_after. cbn [Z.eqb].
      by rewrite drop_ge, app_nil_r by lia.
    + done.
    + intros a Ha. apply Ho. lia.
  - intros s s' (L & Hd & Hk) Eb Eh Ehh. destruct L. unfold virtio_ready, idle_device in *. split_and!; [|by rewrite Eb, Eh|done].
    split; rewrite ?Eb, ?Ehh; done.
Qed.

Section uixfs.
Context {D : Type} {HW : Hardware D} (I : kst D → Prop) (disk : mem) (lo n : Z) {SD : SectorDevice I disk lo n}.

Abbreviation P s := (vp (vm s)).

(** ** Invariant *)

(** The pages the allocator may hand out are not the device's. *)
Record pm_ok (p : pmm_st) : Prop := PmOk {
  po_wf : wf p;
  po_zero : 0 ∉ free_set p;
  po_free : ∀ x, x ∈ free_set p → page_disjoint x lo n;
  po_bitmap : lo + n ≤ bitmap_phys p ∨ bitmap_phys p + bm_size (bitmap_len p) ≤ lo;
}.

(** The result buffer of the last read is allocated. *)
Definition buf_pages (p : pmm_st) (f k : Z) : Prop :=
  0 < f ∧ 0 ≤ k ∧ ∀ x, f ≤ x < f + k → client_page p x ∧ page_disjoint x lo n.
Definition buf_ok (p : pmm_st) (v : fs_vars) : Prop :=
  file_buf v = 0 ∨ ∃ f, file_buf v = hhdm p + f * UIX_PAGE_SIZE ∧ hhdm p + f * UIX_PAGE_SIZE < 2 ^ 64 ∧ buf_pages p f (file_buf_pages v).

Definition fs_inv (s : kst D) : Prop :=
  I s ∧ pm_ok (P s) ∧ buf_ok (P s) (k_fs s) ∧ length (sector (k_fs s)) = 512%nat ∧ bytes (sector (k_fs s)).

(** ** Memory and the allocator *)

Definition bits_kept (p : pmm_st) (m : mem) : Prop :=
  ∀ a, bitmap_phys p ≤ a < bitmap_phys p + bm_size (bitmap_len p) → ld8 m a = ld8 (pm p) a.

Lemma free_set_mem p m : bits_kept p m → free_set (set_pm m p) = free_set p.
Proof.
  intros H. apply set_eq. intros i. rewrite !elem_of_free_set. change (bitmap_len (set_pm m p)) with (bitmap_len p).
  assert (Hb : 0 ≤ i < bitmap_len p → bm_bit (set_pm m p) i = bm_bit p i).
  { intros Hi. unfold bm_bit. f_equal. change (bm_addr (set_pm m p) i) with (bm_addr p i).
    pose proof (bm_word_bound _ _ Hi). apply ldn_ext. intros a Ha. apply H. unfold bm_addr in *. lia. }
  split; intros [Hi E]; (split; [done|]); [by rewrite <-Hb|by rewrite Hb].
Qed.

Lemma wf_bits p m : bits_kept p m → wf p → wf (set_pm m p).
Proof.
  intros H Hw. pose proof (free_set_mem p m H) as Hf. destruct Hw. split; rewrite ?Hf; try done.
  destruct wf_refs0 as [?|[]]; [by left|right]. split; rewrite ?Hf; done.
Qed.

Lemma client_mem p m x : bits_kept p m → client_page p x → client_page (set_pm m p) x.
Proof. intros H [? ? ? ?]. split; try done. by rewrite (free_set_mem p m H). Qed.

Lemma pm_ok_mem p m : bits_kept p m → pm_ok p → pm_ok (set_pm m p).
Proof. intros H []. pose proof (free_set_mem p m H) as Hf. split; rewrite ?Hf; try done. by apply wf_bits. Qed.

Lemma buf_ok_mem p m v : bits_kept p m → buf_ok p v → buf_ok (set_pm m p) v.
Proof.
  intros H [?|(f & E & Hm & H1 & H2 & H3)]; [by left|right]. exists f. do 4 (split; [done|]).
  intros x Hx. destruct (H3 x Hx). split; [by apply client_mem|done].
Qed.

Lemma pm_ok_out p o : pm_ok p → pm_ok (set_out o p).
Proof. intros []. split; try done. by apply wf_out. Qed.

Lemma bits_outside p m : pm_ok p → eq_outside lo n (pm p) m → bits_kept p m.
Proof. intros Hp He a Ha. apply He. destruct (po_bitmap _ Hp); lia. Qed.

(** ** Sectors *)

Abbreviation sec_bytes sec := (ld_bytes 512 disk (512 * sec)).

(** [s] after the sector [sec] was read. *)
Definition read_state (sec : Z) (m : mem) (d : D) (s : kst D) : kst D :=
  set_k_fs (set_sector (sec_bytes sec) (k_fs s)) (moved s m d).

Lemma read_sector_run s sec :
  fs_inv s → 0 ≤ sec < 2 ^ 32 →
  ∃ m d, read_sector sec s = Ok 0 (read_state sec m d s) ∧ fs_inv (read_state sec m d s) ∧
    eq_outside lo n (kmem s) m.
Proof using SD.
  intros (HI & Hp & Hb & Hl & Hs) Hsec.
  destruct (sd_read s sec (sector (k_fs s)) HI Hsec Hl Hs) as (m & d & E & HI' & Ho).
  exists m, d. split_and!; [|split_and!|done].
  - unfold read_sector. erewrite bind_Ok_eq; [|done]. by rewrite (bind_Ok_eq _ _ _ _ _ E).
  - by apply (sd_local (moved s m d)).
  - apply (pm_ok_mem (P s)); [|done]. by apply bits_outside.
  - apply (buf_ok_mem (P s)); [|done]. by apply bits_outside.
  - apply length_ld_bytes.
  - apply ld_bytes_bytes.
Qed.

Lemma klog_run s fmt args :
  ∃ s', klog fmt args s = Ok tt s' ∧ (fs_inv s → fs_inv s') ∧ k_fs s' = k_fs s ∧
    kmem s' = kmem s ∧ free_set (P s') = free_set (P s) ∧ hhdm (P s') = hhdm (P s).
Proof using SD.
  eexists. split; [reflexivity|]. split; [|done]. intros (HI & Hp & Hb & Hl & Hs).
  split; [by apply (sd_local s)|]. split; [by apply pm_ok_out|]. split; [|done].
  destruct Hb as [?|(f & E & Hm & H1 & H2 & H3)]; [by left|right]. exists f. do 4 (split; [done|]).
  intros x Hx. by destruct (H3 x Hx) as [[]].
Qed.

(** What reading sectors and logging leave alone. *)
Record carried (s s' : kst D) : Prop := Carried {
  ca_mem : eq_outside lo n (kmem s) (kmem s');
  ca_free : free_set (P s') = free_set (P s);
  ca_hhdm : hhdm (P s') = hhdm (P s);
}.

#[local] Instance carried_preorder : PreOrder carried.
Proof.
  split; [done|]. intros s1 s2 s3 [M1 F1 H1] [M2 F2 H2]. split; try congruence.
  intros a Ha. rewrite M2, M1 by done. done.
Qed.

Lemma carried_read s sec m d : fs_inv s → eq_outside lo n (kmem s) m → carried s (read_state sec m d s).
Proof using SD.
  intros (_ & Hp & _) Ho. split; [done| |done]. apply (free_set_mem (P s)). by apply bits_outside.
Qed.

(** ** Mounting *)

(** The entry [j] of the table on the disk. *)
Definition disk_entry (j : Z) : uixfs_entry := entry_of_bytes (ld_bytes 32 disk (512 + 32 * j)).

Lemma sector_entry i : 0 ≤ i →
  entry_of_bytes (take 32 (drop (Z.to_nat ((i * 32) mod 512)) (sec_bytes (1 + (i * 32) / 512)))) = disk_entry i.
Proof.
  intros Hi. unfold disk_entry. f_equal. apply list_eq. intros j.
  pose proof (Z.div_mod (i * 32) 512). pose proof (Z.mod_pos_bound (i * 32) 512).
  assert (i * 32 mod 512 ≤ 480).
  { replace (i * 32 mod 512) with (32 * (i mod 16)); [pose proof (Z.mod_pos_bound i 16); lia|].
    rewrite (Z.mul_comm i). change 512 with (32 * 16). by rewrite Z.mul_mod_distr_l. }
  destruct (decide (j < 32)%nat).
  - rewrite lookup_take, decide_True, lookup_drop by done. rewrite !ld_bytes_lookup by lia. do 2 f_equal. lia.
  - rewrite !lookup_ge_None_2; [done|rewrite length_ld_bytes; lia|rewrite length_take; lia].
Qed.

Lemma fs_inv_vars s v :
  fs_inv s → file_buf v = file_buf (k_fs s) → file_buf_pages v = file_buf_pages (k_fs s) → sector v = sector (k_fs s) →
  fs_inv (set_k_fs v s).
Proof using SD.
  intros (HI & Hp & Hb & Hl & Hs) E1 E2 E3. split; [by apply (sd_local s)|]. split; [done|].
  change (P (set_k_fs v s)) with (P s). cbn [k_fs set_k_fs]. rewrite E3. split; [|done].
  unfold buf_ok in *. by rewrite E1, E2.
Qed.

(** Only the table and the sector buffer of the variables changed. *)
Definition table_set (es : list uixfs_entry) (s s' : kst D) : Prop :=
  carried s s' ∧ ∃ sec, k_fs s' = set_sector sec (set_entries es (k_fs s)).

(** The loop at entry [i]: the sector of entry [i] is in the buffer, unless it starts one. *)
Definition loaded (i : Z) (s : kst D) : Prop :=
  (i * 32) mod 512 ≠ 0 → sector (k_fs s) = sec_bytes (1 + (i * 32) / 512).

Lemma loaded_next i s : 0 ≤ i → sector (k_fs s) = sec_bytes (1 + (i * 32) / 512) → loaded (i + 1) s.
Proof.
  intros Hi E H. rewrite E. do 3 f_equal. Z.div_mod_to_equations. lia.
Qed.

Lemma mount_entry s i :
  fs_inv s → 0 ≤ i < 32 → loaded i s →
  ∃ s', (if (i * 32) mod 512 =? 0 then read_sector (1 + (i * 32) / 512) else mret 0) s = Ok 0 s' ∧
    fs_inv s' ∧ carried s s' ∧ k_fs s' = set_sector (sec_bytes (1 + (i * 32) / 512)) (k_fs s).
Proof using SD.
  intros Hs Hi Hl. destruct (Z.eqb_spec ((i * 32) mod 512) 0) as [E|E].
  - destruct (read_sector_run s (1 + (i * 32) / 512) Hs) as (m & d & Er & Hs' & Ho); [Z.div_mod_to_equations; lia|].
    eexists. split_and!; [done|done|by apply carried_read|done].
  - exists s. split_and!; [done|done|done|]. rewrite <-(Hl E). by destruct (k_fs s).
Qed.

Lemma mount_entries_run k i s :
  fs_inv s → 0 ≤ i → i + Z.of_nat k ≤ 32 → length (entries (k_fs s)) = 32%nat → loaded i s →
  ∃ es s', mount_entries k i s = Ok true s' ∧ fs_inv s' ∧ table_set es s s' ∧ length es = 32%nat ∧
    (∀ j, i ≤ j < i + Z.of_nat k → es !! Z.to_nat j = Some (disk_entry j)) ∧
    (∀ j, (j < Z.to_nat i)%nat → es !! j = entries (k_fs s) !! j).
Proof using SD.
  revert i s. induction k as [|k IH]; intros i s Hs Hi Hk Hl Hld; cbn [mount_entries].
  { exists (entries (k_fs s)), s. split_and!; try done; [|lia]. split; [done|]. exists (sector (k_fs s)). by destruct (k_fs s). }
  destruct (mount_entry s i Hs ltac:(lia) Hld) as (s1 & E1 & Hs1 & Hc1 & Ef1).
  rewrite (bind_Ok_eq _ _ _ _ _ E1). cbn [negb Z.eqb].
  set (v := set_sector (sec_bytes (1 + (i * 32) / 512)) (set_entries (<[Z.to_nat i := disk_entry i]> (entries (k_fs s))) (k_fs s))).
  set (s2 := set_k_fs v s1).
  rewrite (bind_Ok_eq _ _ s1 (sec_bytes (1 + (i * 32) / 512)) s1) by (unfold fs, gets; by rewrite Ef1).
  rewrite (bind_Ok_eq _ _ s1 tt s2); [|unfold mod_fs, modify; by rewrite Ef1, sector_entry by lia].
  destruct (IH (i + 1) s2) as (es & s' & E2 & Hs' & [Hc2 [sec Ef2]] & Hes & Hnew & Hold).
  - apply fs_inv_vars; [done|by rewrite Ef1..].
  - lia.
  - lia.
  - cbn. by rewrite length_insert.
  - by apply loaded_next; [lia|].
  - change (k_fs s2) with v in *. exists es, s'. split_and!; [done|done| |done|..].
    + split; [transitivity s2; [by destruct Hc1|done]|]. exists sec. by rewrite Ef2.
    + intros j Hj. destruct (decide (j = i)) as [->|]; [|apply Hnew; lia].
      rewrite Hold by lia. cbn. apply list_lookup_insert_eq. lia.
    + intros j Hj. rewrite Hold by lia. cbn. apply list_lookup_insert_ne. lia.
Qed.

(** ** The result buffer *)

Definition with_pmm (p : pmm_st) (s : kst D) : kst D := with_vm (set_vp p (vm s)) s.

Lemma liftpm_Ok {A} (m : M pmm_st A) (s : kst D) a p : m (P s) = Ok a p → liftpm m s = Ok a (with_pmm p s).
Proof. intros H. apply liftk_Ok. unfold liftp, zoom. by rewrite H. Qed.

(** What the allocator leaves of the kernel. *)
Definition pages_only (s s' : kst D) : Prop :=
  k_fs s' = k_fs s ∧ k_blk s' = k_blk s ∧ k_hw s' = k_hw s ∧ hhdm (P s') = hhdm (P s).

Lemma given_ok p x :
  pm_ok p → client_page p x → page_disjoint x lo n → x ≠ 0 → pm_ok (given x p) ∧ frame p (given x p) ∧
  pmm_free (x * UIX_PAGE_SIZE) p = Ok tt (given x p) ∧ free_set (given x p) = {[x]} ∪ free_set p.
Proof.
  intros [Hw Hz Hf Hb] Hc Hd Hx. pose proof (cp_range _ _ Hc). pose proof (cp_used _ _ Hc).
  destruct (pmm_free_run p x) as (He & Hfr & Hfs); [done..|]. split_and!; [|done..].
  split; [by apply wf_given|set_solver| |by destruct Hfr; rewrite fr_phys0, fr_len0].
  intros y. rewrite Hfs. intros [->%elem_of_singleton|]%elem_of_union; auto.
Qed.

Lemma free_page_run s x :
  I s → pm_ok (P s) → client_page (P s) x → page_disjoint x lo n → x ≠ 0 →
  ∃ s', liftpm (pmm_free (x * UIX_PAGE_SIZE)) s = Ok tt s' ∧ I s' ∧ pm_ok (P s') ∧ pages_only s s' ∧
    free_set (P s') = {[x]} ∪ free_set (P s) ∧ frame (P s) (P s').
Proof using SD.
  intros HI Hp Hc Hd Hx. destruct (given_ok (P s) x Hp Hc Hd Hx) as (Hp' & Hfr & He & Hfs).
  exists (with_pmm (given x (P s)) s). split_and!; [by apply liftpm_Ok|by apply (sd_local s)|done..].
Qed.

Definition free_body (b : Z) (i : Z) : M (kst D) unit :=
  pa ← gets (λ s, pmm_virt_to_phys (P s) b);
  liftpm (pmm_free (pa +w i *w UIX_PAGE_SIZE)).

Lemma free_body_run s f k b i :
  I s → pm_ok (P s) → b = hhdm (P s) + f * UIX_PAGE_SIZE → 0 ≤ i < k → buf_pages (P s) (f + i) (k - i) → 0 < f →
  ∃ s', free_body b i s = Ok tt s' ∧ I s' ∧ pm_ok (P s') ∧ pages_only s s' ∧ buf_pages (P s') (f + (i + 1)) (k - (i + 1)) ∧
    free_set (P s) ⊆ free_set (P s') ∧ bitmap_len (P s') = bitmap_len (P s).
Proof using SD.
  intros HI Hp Eb Hi (H1 & H2 & H3) Hf. destruct (H3 (f + i)) as [Hc Hd]; [lia|].
  pose proof (cp_range _ _ Hc). pose proof (wf_len _ (po_wf _ Hp)). pose proof (wf_hhdm _ (po_wf _ Hp)).
  destruct (free_page_run s (f + i) HI Hp Hc Hd) as (s' & E & HI' & Hp' & Hk & Hfs & Hfr); [lia|].
  exists s'. split_and!; [|done..| |set_solver|by destruct Hfr].
  - unfold free_body. erewrite bind_Ok_eq; [|done]. rewrite <-E. do 2 f_equal.
    unfold pmm_virt_to_phys, UIX_PAGE_SIZE, wrap64 in *. rewrite Eb.
    rewrite Zplus_mod_idemp_r, Zplus_mod_idemp_l, Z.mod_small by lia. lia.
  - split_and!; [lia..|]. intros x Hx. destruct (H3 x) as [Hcx Hdx]; [lia|]. split; [|done].
    apply (client_frame (P s)); [done..|]. rewrite Hfs. pose proof (cp_used _ _ Hcx). set_solver by lia.
Qed.

(** Freed or never there: no buffer, and nothing else of the variables changed. *)
Definition no_buf (s s' : kst D) : Prop :=
  k_fs s' = set_file_buf 0 (set_file_buf_pages (file_buf_pages (k_fs s')) (k_fs s)) ∧
  hhdm (P s') = hhdm (P s) ∧ bitmap_len (P s') = bitmap_len (P s) ∧ free_set (P s) ⊆ free_set (P s').

Lemma file_buf_free_run s :
  fs_inv s → ∃ s', file_buf_free s = Ok tt s' ∧ fs_inv s' ∧ no_buf s s'.
Proof using SD.
  intros Hs. pose proof Hs as (HI & Hp & Hb & Hl & Hby). unfold file_buf_free.
  rewrite (bind_Ok_eq _ _ s (file_buf (k_fs s)) s) by done. destruct (Z.eqb_spec (file_buf (k_fs s)) 0) as [E|E].
  { exists s. split_and!; [done..|]. split_and!; [|done..]. rewrite <-E. by destruct (k_fs s). }
  destruct Hb as [?|(f & Eb & Hm & Hpg)]; [done|]. set (k := file_buf_pages (k_fs s)) in *. set (b := file_buf (k_fs s)) in *.
  rewrite (bind_Ok_eq _ _ s k s) by done.
  set (J := λ i t, I t ∧ pm_ok (P t) ∧ pages_only s t ∧ buf_pages (P t) (f + i) (k - i) ∧
    free_set (P s) ⊆ free_set (P t) ∧ bitmap_len (P t) = bitmap_len (P s)).
  pose proof Hpg as (Hf & Hk & _).
  assert (Hloop : runs (for_ (Z.to_nat k) 0 (free_body b)) s (λ _ t, J (0 + Z.of_nat (Z.to_nat k)) t) (λ _, False)).
  { apply runs_for.
    - unfold J. rewrite Z.add_0_r, Z.sub_0_r. done.
    - intros j t Hj (HIt & Hpt & (E1 & E2 & E3 & E4) & Hbt & Hft & Hlt).
      destruct (free_body_run t f k b j) as (t' & Et & HI' & Hp' & (E1' & E2' & E3' & E4') & Hb' & Hf' & Hl'); [done|done|by rewrite E4|lia|done|done|].
      eapply runs_ret; [exact Et|]. split_and!; [done|done| |done|set_solver|congruence]. split_and!; congruence. }
  apply runs_Ok in Hloop as [([] & t & Et & HIt & Hpt & (E1 & E2 & E3 & E4) & Hbt & Hft & Hlt)|(w & t & _ & [])].
  rewrite (bind_Ok_eq _ _ _ _ _ Et). erewrite bind_Ok_eq; [|done]. eexists. split; [reflexivity|]. split.
  - split; [by apply (sd_local t)|]. split; [done|]. split; [by left|]. cbn. by rewrite E1.
  - split_and!; [|done..]. cbn. by rewrite E1.
Qed.

Lemma p2v_kernel (s : kst D) pa : liftk (p2v pa) s = Ok (pmm_phys_to_virt (P s) pa) s.
Proof. rewrite (liftk_Ok _ s (pmm_phys_to_virt (P s) pa) (vm s)) by done. by rewrite with_vm_id. Qed.

(** Pages of a file of [size] bytes. *)
Definition npages (size : Z) : Z := (size + UIX_PAGE_SIZE - 1) / UIX_PAGE_SIZE.

(** The variables but for the sector and the result buffer. *)
Definition same_table (s s' : kst D) : Prop :=
  entries (k_fs s') = entries (k_fs s) ∧ nfiles (k_fs s') = nfiles (k_fs s) ∧ mounted (k_fs s') = mounted (k_fs s) ∧
  hhdm (P s') = hhdm (P s).

Lemma alloc_pages_ok p k :
  pm_ok p → 0 ≤ k →
  (pmm_alloc_pages k p = Ok 0 p ∧ (k = 0 ∨ ∀ f, 0 ≤ f → f + k ≤ bitmap_len p → ¬ run_free p f k)) ∨
  (∃ f p', 0 < f ∧ 1 ≤ k ∧ pmm_alloc_pages k p = Ok (f * UIX_PAGE_SIZE) p' ∧ pm_ok p' ∧ hhdm p' = hhdm p ∧ buf_pages p' f k ∧
    hhdm p + f * UIX_PAGE_SIZE < 2 ^ 64).
Proof.
  intros Hp Hk. pose proof Hp as [Hw Hz Hq Hb].
  destruct (pmm_alloc_pages_cases p k Hw Hk) as [?|(H1 & f & p' & Hf & Hfl & Hrf & _ & E & Hw' & Hfr & Hfs)]; [by left|right].
  assert (Hf0 : f ≠ 0) by (intros ->; apply Hz, Hrf; lia).
  assert (f * UIX_PAGE_SIZE < bitmap_len p * UIX_PAGE_SIZE) by (unfold UIX_PAGE_SIZE; lia). pose proof (wf_map _ Hw).
  exists f, p'. split_and!; [lia|done|done| |by destruct Hfr| |lia].
  - split; [done|set_solver|set_solver|by destruct Hfr; rewrite fr_phys0, fr_len0].
  - split_and!; [lia..|]. intros x Hx. pose proof (Hrf x Hx) as Hin. split; [|by apply Hq].
    apply (free_client p); [done..|]. rewrite Hfs. apply not_elem_of_difference. right. by apply elem_of_range_set.
Qed.

Lemma file_buf_alloc_run s size :
  fs_inv s → 0 ≤ size →
  ∃ r s', file_buf_alloc size s = Ok r s' ∧ fs_inv s' ∧ same_table s s' ∧
    (r = -1 ∧ (size = 0 ∨ ∀ f, 0 ≤ f → f + npages size ≤ bitmap_len (P s) → ¬ run_free (P s) f (npages size)) ∨
     r = 0 ∧ ∃ f, file_buf (k_fs s') = hhdm (P s') + f * UIX_PAGE_SIZE ∧ buf_pages (P s') f (npages size) ∧ 1 ≤ npages size).
Proof using SD.
  intros Hs Hsz. destruct (file_buf_free_run s Hs) as (s1 & E1 & Hs1 & (Ev1 & Eh1 & El1 & Hf1)).
  unfold file_buf_alloc. rewrite (bind_Ok_eq _ _ _ _ _ E1). fold (npages size).
  assert (Hk : 0 ≤ npages size) by (apply Z.div_pos; unfold UIX_PAGE_SIZE; lia).
  erewrite bind_Ok_eq; [|done]. set (v2 := set_file_buf_pages _ _). set (s2 := set_k_fs v2 s1).
  destruct Hs1 as (HI1 & Hp1 & Hb1 & Hl1 & Hby1). assert (HI2 : I s2) by by apply (sd_local s1).
  destruct (alloc_pages_ok (P s2) (npages size) Hp1 Hk) as [[E Hno]|(f & p' & Hf & H1 & E & Hp' & Hh' & Hb' & Ht)];
    rewrite (bind_Ok_eq _ _ _ _ _ (liftpm_Ok _ _ _ _ E)).
  - cbn [Z.eqb]. erewrite bind_Ok_eq; [|done]. eexists _, _. split; [reflexivity|]. split_and!.
    + split; [by apply (sd_local s2)|]. split; [done|]. split; [left; cbn; by rewrite Ev1|done].
    + split_and!; cbn; [by rewrite Ev1..|done].
    + left. split; [done|]. destruct Hno as [Hno|Hno]; [left|right].
      * unfold npages, UIX_PAGE_SIZE in Hno. Z.div_mod_to_equations. lia.
      * intros f H0 H1 H2. apply (Hno f); [done|change (f + npages size ≤ bitmap_len (P s1)); lia|].
        intros x Hx. by apply Hf1, H2.
  - replace (f * UIX_PAGE_SIZE =? 0) with false by (unfold UIX_PAGE_SIZE; lia).
    set (s3 := with_pmm p' s2). pose proof (wf_hhdm _ (po_wf _ Hp')).
    assert (Eva : pmm_phys_to_virt (P s3) (f * UIX_PAGE_SIZE) = hhdm p' + f * UIX_PAGE_SIZE).
    { apply Z.mod_small. change (hhdm (P s2)) with (hhdm (P s1)) in *. unfold UIX_PAGE_SIZE in *.
      change (hhdm (P s3)) with (hhdm p'). lia. }
    rewrite (bind_Ok_eq _ _ s3 (hhdm p' + f * UIX_PAGE_SIZE) s3) by (rewrite <-Eva; by apply p2v_kernel).
    erewrite bind_Ok_eq; [|done]. eexists _, _. split; [reflexivity|]. split_and!.
    + split; [by apply (sd_local s2)|]. split; [done|]. split; [|done]. right. exists f.
      split; [done|]. split; [|done]. cbn in *. lia.
    + split_and!; cbn; [by rewrite Ev1..|]. change (hhdm p' = hhdm (P s)). rewrite Hh'. exact Eh1.
    + right. split; [done|]. by exists f.
Qed.

(** ** Copying the sectors *)

(** A byte of the buffer is neither the allocator's nor the device's. *)
Lemma buf_byte p f k a :
  buf_pages p f k → f * UIX_PAGE_SIZE ≤ a < (f + k) * UIX_PAGE_SIZE →
  (a < lo ∨ lo + n ≤ a) ∧ (a < bitmap_phys p ∨ bitmap_phys p + bm_size (bitmap_len p) ≤ a) ∧ a < bitmap_len p * UIX_PAGE_SIZE.
Proof.
  intros (_ & _ & H) Ha. unfold UIX_PAGE_SIZE in *. pose proof (Z.div_mod a 4096). pose proof (Z.mod_pos_bound a 4096).
  destruct (H (a / 4096)) as [[Hr _ Hb _] Hq].
  { split; [apply Z.div_le_lower_bound|apply Z.div_lt_upper_bound]; lia. }
  unfold page_disjoint, UIX_PAGE_SIZE in *. lia.
Qed.

Lemma store_buf s f k d bs :
  fs_inv s → file_buf (k_fs s) = hhdm (P s) + f * UIX_PAGE_SIZE → buf_pages (P s) f k →
  0 ≤ d → bs ≠ [] → d + Z.of_nat (length bs) ≤ k * UIX_PAGE_SIZE →
  let s' := moved s (st_bytes (f * UIX_PAGE_SIZE + d) bs (kmem s)) (k_hw s) in
  kstore_bytes (file_buf (k_fs s) +w d) bs s = Ok tt s' ∧ fs_inv s' ∧ buf_pages (P s') f k.
Proof using SD.
  intros (HI & Hp & Hb & Hl & Hby) Ef Hpg Hd Hbs Hk s'. set (B := f * UIX_PAGE_SIZE) in *.
  assert (Hlen : 0 < Z.of_nat (length bs)) by (destruct bs; [done|cbn; lia]).
  destruct (buf_byte _ f k (B + d + Z.of_nat (length bs) - 1) Hpg) as (_ & _ & Htop); [unfold B, UIX_PAGE_SIZE in *; lia|].
  pose proof (wf_map _ (po_wf _ Hp)). pose proof (wf_hhdm _ (po_wf _ Hp)). destruct Hpg as (Hf & Hk0 & Hpg').
  assert (HB : 0 ≤ B) by (unfold B, UIX_PAGE_SIZE; lia).
  assert (Hbits : bits_kept (P s) (st_bytes (B + d) bs (kmem s))).
  { intros a Ha. apply ld8_st_bytes_out.
    destruct (decide (B + d ≤ a < B + d + Z.of_nat (length bs))); [|lia].
    destruct (buf_byte (P s) f k a) as (_ & H1 & _); [by split_and!|unfold B, UIX_PAGE_SIZE in *; lia|lia]. }
  split_and!.
  - rewrite Ef, wadd, <-Z.add_assoc by lia.
    pose proof (kstore_bytes_moved s (kmem s) (k_hw s) (B + d) bs ltac:(lia) ltac:(lia)) as E. by rewrite moved_id in E.
  - split; [by apply (sd_local s)|]. split; [by apply (pm_ok_mem (P s))|]. split; [by apply (buf_ok_mem (P s))|done].
  - split_and!; [done..|]. intros x Hx. destruct (Hpg' x Hx). split; [by apply (client_mem (P s))|done].
Qed.

(** What has been copied, with sector [j] next. *)
Definition copied (s : kst D) (f l0 len : Z) : Prop :=
  ld_bytes (Z.to_nat len) (kmem s) (f * UIX_PAGE_SIZE) = ld_bytes (Z.to_nat len) disk (512 * l0).

Lemma ld_bytes_split (a b : Z) m x :
  0 ≤ a → 0 ≤ b → ld_bytes (Z.to_nat (a + b)) m x = ld_bytes (Z.to_nat a) m x ++ ld_bytes (Z.to_nat b) m (x + a).
Proof. intros. rewrite Z2Nat.inj_add, ld_bytes_app by lia. by rewrite Z2Nat.id by lia. Qed.

Lemma take_ld_bytes k c m x : (k ≤ c)%nat → take k (ld_bytes c m x) = ld_bytes k m x.
Proof.
  intros H. replace c with (k + (c - k))%nat by lia. rewrite ld_bytes_app, take_app_length'; [done|].
  by rewrite length_ld_bytes.
Qed.

(** One sector. *)
Lemma copy_sector s f k l0 j size :
  fs_inv s → file_buf (k_fs s) = hhdm (P s) + f * UIX_PAGE_SIZE → buf_pages (P s) f k → size ≤ k * UIX_PAGE_SIZE →
  0 ≤ j → 512 * j < size → 0 ≤ l0 → l0 + j < 2 ^ 32 → copied s f l0 (512 * j) →
  let chunk := Z.min 512 (size - 512 * j) in
  ∃ s1 s2, read_sector (l0 + j) s = Ok 0 s1 ∧ sector (k_fs s1) = sec_bytes (l0 + j) ∧
    kstore_bytes (file_buf (k_fs s) +w 512 * j) (take (Z.to_nat chunk) (sec_bytes (l0 + j))) s1 = Ok tt s2 ∧
    fs_inv s2 ∧ same_table s s2 ∧ file_buf (k_fs s2) = hhdm (P s2) + f * UIX_PAGE_SIZE ∧ buf_pages (P s2) f k ∧
    copied s2 f l0 (512 * j + chunk).
Proof using SD.
  intros Hs Ef Hpg Hfit Hj Hlt Hl0 Hl Hcp chunk. pose proof Hs as (_ & Hp & _).
  destruct (read_sector_run s (l0 + j) Hs) as (m & d & E & Hs1 & Ho); [lia|]. set (s1 := read_state (l0 + j) m d s) in *.
  assert (Hc : 0 < chunk ≤ 512) by lia. set (bs := take (Z.to_nat chunk) (sec_bytes (l0 + j))).
  assert (Hbs : bs = ld_bytes (Z.to_nat chunk) disk (512 * (l0 + j))) by (apply take_ld_bytes; lia).
  assert (Hpg1 : buf_pages (P s1) f k).
  { destruct Hpg as (H1 & H2 & H3). split_and!; [done..|]. intros x Hx. destruct (H3 x Hx). split; [|done].
    apply (client_mem (P s)); [by apply bits_outside|done]. }
  assert (Hlen : length bs = Z.to_nat chunk) by (rewrite Hbs; apply length_ld_bytes).
  destruct (store_buf s1 f k (512 * j) bs) as (E2 & Hs2 & Hpg2); [done|exact Ef|done|lia| |lia|].
  { intros Hn. rewrite Hn in Hlen. cbn in Hlen. lia. }
  eexists s1, _. split; [done|]. split; [done|]. split; [exact E2|]. split; [done|]. split; [done|]. split; [exact Ef|].
  split; [done|]. unfold copied in *. set (B := f * UIX_PAGE_SIZE) in *.
  change (kmem (moved s1 ?m' ?d')) with m'. rewrite !ld_bytes_split by lia. f_equal.
  - rewrite <-Hcp. apply ld_bytes_ext. intros i Hi. rewrite ld8_st_bytes_out by lia. apply Ho.
    destruct (buf_byte (P s) f k (B + i)) as (Hq & _); [done|unfold B, UIX_PAGE_SIZE in *; lia|done].
  - rewrite <-Z.mul_add_distr_l, <-Hbs, <-Hlen. apply ld_bytes_st_bytes. rewrite Hbs. apply ld_bytes_bytes.
Qed.

#[local] Instance same_table_preorder : PreOrder same_table.
Proof. split; [done|]. intros s1 s2 s3 (? & ? & ? & ?) (? & ? & ? & ?). split_and!; congruence. Qed.

Lemma read_sectors_run k s f K l0 j size :
  fs_inv s → file_buf (k_fs s) = hhdm (P s) + f * UIX_PAGE_SIZE → buf_pages (P s) f K → size ≤ K * UIX_PAGE_SIZE →
  0 ≤ j → 0 ≤ size → size ≤ 512 * (j + Z.of_nat k) < size + 512 → 0 ≤ l0 → l0 + j + Z.of_nat k < 2 ^ 32 →
  copied s f l0 (Z.min (512 * j) size) →
  ∃ s', read_sectors k size (l0 + j) (Z.min (512 * j) size) (file_buf (k_fs s)) s = Ok true s' ∧
    fs_inv s' ∧ same_table s s' ∧ copied s' f l0 size.
Proof using SD.
  revert s j. induction k as [|k IH]; intros s j Hs Ef Hpg Hfit Hj H0 Hsz Hl0 Hl Hcp; cbn [read_sectors].
  { exists s. split_and!; [done..|]. by rewrite Z.min_r in Hcp by lia. }
  rewrite Z.min_l in * by lia.
  destruct (copy_sector s f K l0 j size) as (s1 & s2 & E1 & Es & E2 & Hs2 & Ht2 & Ef2 & Hpg2 & Hcp2); [done..|lia|done|lia|done|].
  rewrite (bind_Ok_eq _ _ _ _ _ E1). cbn [negb Z.eqb].
  assert (Ec : (if 512 <? size - 512 * j then 512 else size - 512 * j) = Z.min 512 (size - 512 * j)).
  { destruct (Z.ltb_spec 512 (size - 512 * j)); lia. }
  rewrite Ec, (bind_Ok_eq _ _ s1 (sec_bytes (l0 + j)) s1) by (unfold fs, gets; by rewrite Es).
  rewrite (bind_Ok_eq _ _ _ _ _ E2).
  assert (Eb : file_buf (k_fs s) = file_buf (k_fs s2)) by (destruct Ht2 as (_ & _ & _ & Hh); lia).
  assert (Ew : wrap32 (l0 + j + 1) = l0 + (j + 1)) by (unfold wrap32; rewrite Z.mod_small; lia).
  assert (Ed : 512 * j + Z.min 512 (size - 512 * j) = Z.min (512 * (j + 1)) size) by lia.
  rewrite Eb, Ew, Ed in *. destruct (IH s2 (j + 1)) as (s' & E' & Hs' & Ht' & Hcp'); [done..|lia|lia|lia|lia|lia|done|].
  exists s'. split_and!; [done..| |done]. by transitivity s2.
Qed.

Lemma read_entry_run s nm size l0 :
  fs_inv s → 0 ≤ size → 0 ≤ l0 → 512 * l0 + round_sect size < 512 * 2 ^ 32 →
  ∃ r b s', read_entry (UixfsEntry nm size l0) s = Ok (r, b) s' ∧ fs_inv s' ∧ same_table s s' ∧
    (r = -12 ∧ (size = 0 ∨ ∀ f, 0 ≤ f → f + npages size ≤ bitmap_len (P s) → ¬ run_free (P s) f (npages size)) ∨
     r = size ∧ hhdm (P s') ≤ b ∧
       ld_bytes (Z.to_nat size) (kmem s') (b - hhdm (P s')) = ld_bytes (Z.to_nat size) disk (512 * l0)).
Proof using SD.
  intros Hs Hsz Hl0 Hl. unfold read_entry. cbn [e_size e_start_lba].
  destruct (file_buf_alloc_run s size Hs Hsz) as (r & s1 & E1 & Hs1 & Ht1 & [[-> Hno]|[-> (f & Ef & Hpg & Hk)]]);
    rewrite (bind_Ok_eq _ _ _ _ _ E1); cbn [negb Z.eqb].
  { eexists _, _, s1. split; [reflexivity|]. split_and!; [done..|]. by left. }
  rewrite (bind_Ok_eq _ _ s1 (file_buf (k_fs s1)) s1) by done.
  set (N := (size + 511) / 512).
  assert (HN : size ≤ 512 * N < size + 512) by (unfold N; Z.div_mod_to_equations; lia).
  assert (HR : round_sect size = 512 * N) by (unfold round_sect, SECT, N; rewrite Z.mul_comm; do 2 f_equal; lia).
  assert (Hfit : size ≤ npages size * UIX_PAGE_SIZE) by (unfold npages, UIX_PAGE_SIZE in *; Z.div_mod_to_equations; lia).
  destruct (read_sectors_run (Z.to_nat N) s1 f (npages size) l0 0 size) as (s2 & E2 & Hs2 & Ht2 & Hcp);
    [done..|lia|lia|lia|done|lia|by rewrite Z.min_l by lia|].
  rewrite Z.add_0_r, Z.min_l in E2 by lia. change (512 * 0) with 0 in E2. rewrite (bind_Ok_eq _ _ _ _ _ E2).
  eexists _, _, s2. split; [reflexivity|]. split_and!; [done|by transitivity s1|]. right.
  destruct Ht2 as (_ & _ & _ & Hh). rewrite Ef, Hh. destruct Hpg as (Hf & _). unfold copied in Hcp.
  split_and!; [done|unfold UIX_PAGE_SIZE; lia|]. by replace (hhdm (P s1) + f * UIX_PAGE_SIZE - hhdm (P s1)) with (f * UIX_PAGE_SIZE) by lia.
Qed.

(** ** What a mounted image looks like *)

Definition entry_at (fs1 : list (list Z * list Z)) (f : list Z * list Z) : uixfs_entry :=
  UixfsEntry (padded (fst f)) (blob_len f) (lba_of fs1).

(** The files fit: at most 32, names and bytes the tool keeps, and the image below 2^32 sectors. *)
Record image_ok (files : list (list Z * list Z)) : Prop := ImageOk {
  im_len : (length files ≤ 32)%nat;
  im_files : Forall file_ok files;
  im_names : NoDup (fst <$> files);
  im_blobs : Forall (λ f, blob_len f < 2 ^ 32) files;
  im_size : offset 1536 files < 512 * 2 ^ 32;
}.

Record mounted_fs (files : list (list Z * list Z)) (s : kst D) : Prop := MountedFs {
  mt_on : mounted (k_fs s) = 1;
  mt_n : nfiles (k_fs s) = Z.of_nat (length files);
  mt_len : length (entries (k_fs s)) = 32%nat;
  mt_entries : ∀ fs1 f fs2, files = fs1 ++ f :: fs2 → entries (k_fs s) !! length fs1 = Some (entry_at fs1 f);
}.

Lemma image_offset files fs1 f fs2 :
  image_ok files → files = fs1 ++ f :: fs2 →
  1536 ≤ offset 1536 fs1 ∧ offset 1536 fs1 + round_sect (blob_len f) < 512 * 2 ^ 32.
Proof.
  intros [_ _ _ _ H] ->. rewrite offset_app in H. cbn [offset] in H.
  pose proof (offset_mono 1536 fs1). pose proof (offset_mono (offset 1536 fs1 + round_sect (blob_len f)) fs2). lia.
Qed.

Section image.
Context (files : list (list Z * list Z)) (Him : image_ok files) (Hdisk : disk = mkuixfs files).

Lemma disk_entry_at fs1 f fs2 : files = fs1 ++ f :: fs2 → disk_entry (Z.of_nat (length fs1)) = entry_at fs1 f.
Proof using Him Hdisk.
  intros E. pose proof (image_offset files fs1 f fs2 Him E) as Ho. destruct Him as [H1 H2 _ H3 _].
  assert (Hf : file_ok f ∧ blob_len f < 2 ^ 32).
  { rewrite E in H2, H3. rewrite Forall_app, Forall_cons in H2, H3. tauto. }
  destruct Hf as [[Hn Hb] Hbl]. unfold disk_entry. rewrite Hdisk.
  rewrite E. destruct (mkuixfs_at fs1 f fs2) as [-> _]; [by rewrite <-E..|].
  pose proof (offset_lba fs1). pose proof (round_sect_spec (blob_len f) ltac:(unfold blob_len; lia)).
  apply entry_of_pack; [done|unfold blob_len in *; lia|lia].
Qed.

Lemma superblock : take 4 (sec_bytes 0) = UIXF ∧ le_val (take 4 (drop 4 (sec_bytes 0))) = Z.of_nat (length files).
Proof using Him Hdisk.
  destruct Him as [H1 H2 _ _ _]. pose proof (mkuixfs_head files H2 H1) as Hh.
  assert (E : sec_bytes 0 = ld_bytes 8 disk 0 ++ ld_bytes 504 disk 8).
  { apply (ld_bytes_app 8 504). }
  rewrite E, Hdisk, Hh. split; [by rewrite <-app_assoc, take_app_length'|].
  rewrite <-!app_assoc, drop_app_length', take_app_length' by done. apply le_val_le_bytes. lia.
Qed.

(** The listing. *)
Lemma log_loop s k :
  fs_inv s →
  ∃ s', (klog "[info] uixfs: mounted, %u files\n" [KU k] ;;
        for_ (Z.to_nat k) 0 (λ i,
          e ← fs (λ f, default (UixfsEntry [] 0 0) (entries f !! Z.to_nat i));
          klog "[info] uixfs: '%s' %u bytes @ LBA %u\n"
            [KS (cstring (bytes_of_entry e)); KU (e_size e); KU (e_start_lba e)]) ;;
        mret 0) s = Ok 0 s' ∧ fs_inv s' ∧ carried s s' ∧ k_fs s' = k_fs s.
Proof using SD.
  intros Hs. set (J := λ (_ : Z) (t : kst D), fs_inv t ∧ carried s t ∧ k_fs t = k_fs s).
  destruct (klog_run s "[info] uixfs: mounted, %u files\n" [KU k]) as (s1 & E1 & H1 & Ef1 & Em1 & Efr1 & Eh1).
  rewrite (bind_Ok_eq _ _ _ _ _ E1).
  assert (Hl : runs (for_ (Z.to_nat k) 0 (λ i,
          e ← fs (λ f, default (UixfsEntry [] 0 0) (entries f !! Z.to_nat i));
          klog "[info] uixfs: '%s' %u bytes @ LBA %u\n"
            [KS (cstring (bytes_of_entry e)); KU (e_size e); KU (e_start_lba e)])) s1
      (λ _ t, J (0 + Z.of_nat (Z.to_nat k)) t) (λ _, False)).
  { apply runs_for; unfold J.
    - split_and!; [auto| |done]. split; [by rewrite Em1|done..].
    - intros j t _ (Ht & Hct & Hft). eapply runs_bind_Ok; [done|].
      edestruct (klog_run t) as (t' & Et & H2 & Ef2 & Em2 & Efr2 & Eh2). eapply runs_ret; [exact Et|].
      split_and!; [auto| |congruence]. transitivity t; [done|]. split; [by rewrite Em2|done..]. }
  apply runs_Ok in Hl as [([] & s2 & E2 & H2 & Hc2 & Hf2)|(w & t & _ & [])].
  exists s2. by rewrite (bind_Ok_eq _ _ _ _ _ E2).
Qed.

Lemma mount_runs s :
  fs_inv s → length (entries (k_fs s)) = 32%nat →
  ∃ s', uixfs_mount s = Ok 0 s' ∧ fs_inv s' ∧ carried s s' ∧ mounted_fs files s'.
Proof using SD Him Hdisk.
  intros Hs Hl. destruct (read_sector_run s 0 Hs ltac:(lia)) as (m & d & E & Hs1 & Ho).
  destruct superblock as [E1 E2]. pose proof (im_len _ Him). pose proof (carried_read s 0 m d Hs Ho) as Hc1.
  unfold uixfs_mount. rewrite (bind_Ok_eq _ _ _ _ _ E). cbn [negb Z.eqb]. set (s1 := read_state 0 m d s) in *.
  rewrite (bind_Ok_eq _ _ s1 (sec_bytes 0) s1) by done. rewrite E1, bool_decide_true by done. cbn [negb].
  rewrite E2. replace (NFILES_MAX <? Z.of_nat (length files)) with false by (unfold NFILES_MAX; lia).
  set (s2 := set_k_fs (set_nfiles (Z.of_nat (length files)) (k_fs s1)) s1).
  rewrite (bind_Ok_eq _ _ s1 tt s2) by done. rewrite (bind_Ok_eq _ _ s2 (Z.of_nat (length files)) s2) by done.
  destruct (mount_entries_run (Z.to_nat (Z.of_nat (length files))) 0 s2) as
    (es & s3 & E3 & Hs3 & [Hc3 [sec Ef3]] & Hes & Hnew & _); [by apply fs_inv_vars|lia|lia|done|by intros []|].
  rewrite (bind_Ok_eq _ _ _ _ _ E3). cbn [negb].
  set (s4 := set_k_fs (set_mounted 1 (k_fs s3)) s3). rewrite (bind_Ok_eq _ _ s3 tt s4) by done.
  assert (Hs4 : fs_inv s4) by by apply fs_inv_vars.
  assert (Hc4 : carried s s4) by (transitivity s1; [done|]; transitivity s2; [done|by destruct Hc3]).
  assert (Hm4 : mounted_fs files s4).
  { unfold s4. split; cbn; rewrite ?Ef3; [done..|]. intros fs1 f fs2 Ef. cbn.
    rewrite <-(disk_entry_at fs1 f fs2 Ef), <-Hnew; [by rewrite Nat2Z.id|].
    rewrite Ef, length_app. cbn. lia. }
  clearbody s4. clear Hc3 Ef3 E3 Hs3 s3.
  destruct (log_loop s4 (Z.of_nat (length files)) Hs4) as (s5 & E5 & Hs5 & Hc5 & Ef5). rewrite E5.
  exists s5. split_and!; [done|done|by transitivity s4|]. destruct Hm4. split; by rewrite Ef5.
Qed.

(** The outcome of a read of the file [blob] from [s]. *)
Definition delivered (blob : list Z) (s : kst D) (r b : Z) (s' : kst D) : Prop :=
  let size := Z.of_nat (length blob) in
  (r = -12 ∧ (blob = [] ∨ ∀ f, 0 ≤ f → f + npages size ≤ bitmap_len (P s) → ¬ run_free (P s) f (npages size))) ∨
  (r = size ∧ hhdm (P s') ≤ b ∧ ld_bytes (length blob) (kmem s') (b - hhdm (P s')) = blob).

Lemma read_file s fs1 f fs2 :
  files = fs1 ++ f :: fs2 → fs_inv s →
  ∃ r b s', read_entry (entry_at fs1 f) s = Ok (r, b) s' ∧ fs_inv s' ∧ same_table s s' ∧ delivered (snd f) s r b s'.
Proof using SD Him Hdisk.
  intros E Hs. pose proof (image_offset files fs1 f fs2 Him E) as [Ho1 Ho2]. pose proof (offset_lba fs1) as Hlba.
  destruct (read_entry_run s (padded (fst f)) (blob_len f) (lba_of fs1)) as (r & b & s' & Er & Hs' & Ht & Hr);
    [done|unfold blob_len; lia|lia|lia|].
  exists r, b, s'. split_and!; [done..|]. destruct Hr as [[-> Hr]|(-> & Hb & Hr)]; [left|right].
  - split; [done|]. destruct Hr as [Hr|Hr]; [left|by right]. apply nil_length_inv. unfold blob_len in Hr. lia.
  - split_and!; [done..|]. unfold blob_len in Hr. rewrite !Nat2Z.id in Hr. rewrite Hr, Hdisk, E.
    apply (mkuixfs_at fs1 f fs2); rewrite <-E; apply Him.
Qed.

Lemma entry_name fs1 f fs2 es nm :
  files = fs1 ++ f :: fs2 → name_ok nm →
  ∃ c, strcmp_l (mjoin (bytes_of_entry <$> entry_at fs1 f :: es)) (nm ++ [0]) = Some c ∧ (c = 0 ↔ fst f = nm).
Proof using Him.
  intros E [Hl Hn]. assert (Hf : file_ok f).
  { pose proof (im_files _ Him) as H. rewrite E, Forall_app, Forall_cons in H. tauto. }
  destruct Hf as [[Hl' Hn'] _]. cbn [fmap list_fmap mjoin list_join].
  unfold bytes_of_entry at 1, entry_at at 1. cbn [e_name]. unfold padded.
  replace (24 - length (fst f))%nat with (S (23 - length (fst f))) by lia. cbn [replicate].
  rewrite <-!app_assoc. cbn [app]. by apply strcmp_names.
Qed.

Lemma read_from_run nm fs2 fs1 s :
  files = fs1 ++ fs2 → name_ok nm → fs_inv s → mounted_fs files s →
  ∃ r b s', read_from (length fs2) (Z.of_nat (length fs1)) (nm ++ [0]) s = Ok (r, b) s' ∧ fs_inv s' ∧ same_table s s' ∧
    (((r, b) = (-2, 0) ∧ nm ∉ fst <$> fs2) ∨ ∃ blob, (nm, blob) ∈ fs2 ∧ delivered blob s r b s').
Proof using SD Him Hdisk.
  intros E Hn Hs Hm. revert fs1 E. induction fs2 as [|f fs2 IH]; intros fs1 E; cbn [read_from length].
  { eexists _, _, s. split; [done|]. split_and!; [done..|]. left. split; [done|]. apply not_elem_of_nil. }
  rewrite (bind_Ok_eq _ _ s (drop (length fs1) (entries (k_fs s))) s) by (unfold fs, gets; by rewrite Nat2Z.id).
  rewrite (drop_S _ (entry_at fs1 f)) by by apply (mt_entries _ _ Hm fs1 f fs2).
  destruct (entry_name fs1 f fs2 (drop (S (length fs1)) (entries (k_fs s))) nm E Hn) as (c & -> & Hc).
  destruct (Z.eqb_spec c 0) as [E0|E0].
  - destruct (read_file s fs1 f fs2 E Hs) as (r & b & s' & Er & Hs' & Ht & Hd). exists r, b, s'.
    split_and!; [done..|]. right. exists (snd f). split; [|done]. apply Hc in E0 as <-. destruct f. apply list_elem_of_here.
  - destruct (IH (fs1 ++ [f])) as (r & b & s' & Er & Hs' & Ht & Hd); [by rewrite <-app_assoc|].
    exists r, b, s'. split_and!; [|done..|].
    + rewrite <-Er. f_equal. rewrite length_app. cbn. lia.
    + destruct Hd as [[? Hd]|(blob & Hin & Hd)]; [left|right].
      * split; [done|]. cbn. apply not_elem_of_cons. split; [|done]. intros ->. by apply E0, Hc.
      * exists blob. split; [by apply list_elem_of_further|done].
Qed.

End image.
End uixfs.

Lemma NoDup_fst_inj {A B} (l : list (A * B)) x y z : NoDup (fst <$> l) → (x, y) ∈ l → (x, z) ∈ l → y = z.
Proof.
  induction l as [|[a b] l IH]; cbn; [by intros _ ?%not_elem_of_nil|]. intros [Hn Hd]%NoDup_cons.
  intros [E1|H1]%elem_of_cons [E2|H2]%elem_of_cons; [congruence|..|by apply IH].
  - apply (list_elem_of_fmap_2 fst) in H2. destruct Hn. by injection E1 as -> _.
  - apply (list_elem_of_fmap_2 fst) in H1. destruct Hn. by injection E2 as -> _.
Qed.

(** ** A disk with a file *)

Definition sample_files : list (list Z * list Z) := [([105; 110; 105; 116], [127; 69; 76; 70])].

Lemma sample_image : image_ok sample_files.
Proof.
  split.
  - cbn. lia.
  - apply Forall_singleton. split; [split; [cbn; lia|]|]; cbn; repeat constructor; lia.
  - apply NoDup_singleton.
  - apply Forall_singleton. vm_compute. reflexivity.
  - vm_compute. reflexivity.
Qed.

Definition sample_kernel : kst vdev := disk_kernel 3 (mkuixfs sample_files).
Definition sample_ready : kst vdev → Prop := virtio_ready 0x100000 8 2 (mkuixfs sample_files).

(** The same, mounted. *)
Definition mounted_kernel : kst vdev :=
  set_k_fs (FsVars (entry_at [] ([105; 110; 105; 116], [127; 69; 76; 70]) :: replicate 31 (UixfsEntry (replicate 24 0) 0 0))
    1 1 (replicate 512 0) 0 0) sample_kernel.

Lemma user_pm_ok : pm_ok 0x100000 16384 (vp user_st).
Proof.
  split; [apply (wv_pmm _ user_st_wf)|..]; apply (bool_decide_unpack _); vm_compute; reflexivity.
Qed.


Lemma sample_inv : fs_inv sample_ready 0x100000 16384 sample_kernel.
Proof.
  split; [split_and!; [apply disk_kernel_laid_out|reflexivity|unfold SPIN_LIMIT; lia]|].
  split; [apply user_pm_ok|]. split; [by left|]. split; [apply length_replicate|by apply Forall_replicate].
Qed.

Lemma mounted_inv : fs_inv sample_ready 0x100000 16384 mounted_kernel.
Proof. apply (fs_inv_vars _ (mkuixfs sample_files)); [apply virtio_sector_device|apply sample_inv|done..]. Qed.

Lemma mounted_sample : mounted_fs sample_files mounted_kernel.
Proof.
  split; [done..|]. intros fs1 f fs2 E. destruct fs1 as [|g fs1]; [|by destruct fs1]. by injection E as <- <-.
Qed.

(** ** The file system *)

(** C34 Mounting the image [mkuixfs] makes of the files succeeds: the table holds
    the name, the size and the first sector of every file, and no memory but the
    device's queue, and no page, is touched. *)
Theorem uixfs_mount_correct {D} {HW : Hardware D} (I : kst D → Prop) (lo n : Z) (files : list (list Z * list Z))
    {SD : SectorDevice I (mkuixfs files) lo n} (s : kst D) :
  image_ok files → fs_inv I lo n s → length (entries (k_fs s)) = 32%nat →
  ∃ s', uixfs_mount s = Ok 0 s' ∧ fs_inv I lo n s' ∧ carried lo n s s' ∧ mounted_fs files s'.
Proof. intros Him. by apply (mount_runs I (mkuixfs files)). Qed.

Lemma uixfs_mount_correct_witness :
  ∃ s', uixfs_mount sample_kernel = Ok 0 s' ∧ fs_inv sample_ready 0x100000 16384 s' ∧
    carried 0x100000 16384 sample_kernel s' ∧ mounted_fs sample_files s'.
Proof.
  apply (uixfs_mount_correct sample_ready 0x100000 16384 sample_files sample_kernel).
  - apply sample_image.
  - apply sample_inv.
  - reflexivity.
Defined.



End UixfsProps.
