(* ===== verification/Apic.v ===== *)
(** * Interrupt controllers and timer ([core/cpu/apic.c])

    The local APIC and the IOAPIC are reached through the direct map; the timer
    is calibrated against the PIT. *)

From S2P Require Import Prelude Lib Pmm Vmm Heap Machine.

Module Apic.
Import Lib Pmm Vmm Heap Machine.

Definition IA32_APIC_BASE_MSR : Z := 0x1B.
Definition LAPIC_ID : Z := 0x020.
Definition LAPIC_EOI : Z := 0x0B0.
Definition LAPIC_SVR : Z := 0x0F0.
Definition LAPIC_TIMER_LVT : Z := 0x320.
Definition LAPIC_TIMER_ICR : Z := 0x380.
Definition LAPIC_TIMER_CCR : Z := 0x390.
Definition LAPIC_TIMER_DCR : Z := 0x3E0.
Definition MSR_IA32_TSC_DEADLINE : Z := 0x660.
Definition LVT_TSC_DEADLINE : Z := 1 ≪ 18.
Definition IOAPIC_BASE : Z := 0xFEC00000.
Definition IOAPIC_REG_SELECT : Z := 0x00.
Definition IOAPIC_REG_WINDOW : Z := 0x10.
Definition PIC1_DAT : Z := 0x21.
Definition PIC2_DAT : Z := 0xA1.
Definition PIT_CMD : Z := 0x43.
Definition IRQ_BASE : Z := 32.
Definition IRQ_KEYBOARD : Z := 1.

Section apic.
Context {D : Type} {HW : Hardware D}.

Definition apic {A} (f : apic_vars → A) : M (kst D) A := gets (λ s, f (k_apic s)).

Definition rdtsc : M (kst D) Z := v ← hw_get tsc_in; mret (wrap64 v).

Definition lapic_read (reg : Z) : M (kst D) Z := b ← apic lapic; rdmmio32 (b +w reg / 4 * 4).
Definition lapic_write (reg val : Z) : M (kst D) unit := b ← apic lapic; wrmmio32 (b +w reg / 4 * 4) val.

Definition apic_eoi : M (kst D) unit := lapic_write LAPIC_EOI 0.

Definition ioapic_set_isa (isa_irq vec : Z) : M (kst D) unit :=
  h ← gets (λ s, hhdm (vp (vm s)));
  let ioapic := h +w IOAPIC_BASE in
  let entry := vec in
  wrmmio32 (ioapic +w IOAPIC_REG_SELECT) (0x10 + isa_irq * 2) ;;
  wrmmio32 (ioapic +w IOAPIC_REG_WINDOW) entry ;;
  wrmmio32 (ioapic +w IOAPIC_REG_SELECT) (0x11 + isa_irq * 2) ;;
  wrmmio32 (ioapic +w IOAPIC_REG_WINDOW) 0.

(** PIT channel 2 programmed for 50 ms. *)
Definition pit_reload : Z := 59659.

Definition pit_start : M (kst D) unit :=
  g ← inb 0x61;
  outb 0x61 (Z.lor (Z.land g (Z.lnot 0x02)) 0x01) ;;
  outb PIT_CMD 0xB0 ;;
  outb 0x42 (Z.land pit_reload 0xFF) ;;
  outb 0x42 (Z.land (pit_reload ≫ 8) 0xFF).

(** [while (!(inb(0x61) & 0x20));], at most [spin] reads. *)
Fixpoint pit_wait (spin : nat) : M (kst D) unit :=
  match spin with
  | O => diverge
  | S spin => v ← inb 0x61; if has v 0x20 then mret tt else pit_wait spin
  end.

Definition calibrate_tsc (spin : nat) : M (kst D) Z :=
  pit_start ;;
  t0 ← rdtsc;
  pit_wait spin ;;
  t1 ← rdtsc;
  mret ((t1 -w t0) *w 20).

Definition arm_timer : M (kst D) unit :=
  u ← apic use_tsc_deadline;
  if u : bool then
    t ← rdtsc;
    hz ← apic tsc_hz;
    hw_put (msr_out MSR_IA32_TSC_DEADLINE (t +w hz / 100))
  else mret tt.

Definition cpu_has_tsc_deadline : M (kst D) bool :=
  ecx ← hw_get (cpuid_ecx 1);
  mret (has (wrap32 ecx) (1 ≪ 24)).

Definition calibrate_lapic (spin : nat) : M (kst D) Z :=
  pit_start ;;
  lapic_write LAPIC_TIMER_DCR 0x1 ;;
  lapic_write LAPIC_TIMER_LVT (Z.lor (1 ≪ 16) 0x20) ;;
  lapic_write LAPIC_TIMER_ICR 0xFFFFFFFF ;;
  c0 ← lapic_read LAPIC_TIMER_CCR;
  pit_wait spin ;;
  c1 ← lapic_read LAPIC_TIMER_CCR;
  mret (((0xFFFFFFFF - c1) -w (0xFFFFFFFF - c0)) *w 20).

Definition apic_init (spin : nat) : M (kst D) unit :=
  outb PIC1_DAT 0xFF ;;
  outb PIC2_DAT 0xFF ;;
  base ← hw_get (msr_in IA32_APIC_BASE_MSR);
  h ← gets (λ s, hhdm (vp (vm s)));
  mod_apic (set_lapic (h +w Z.land (wrap32 base) (~w 0xFFF))) ;;
  lapic_write LAPIC_SVR (Z.lor 0x100 0xFF) ;;
  ioapic_set_isa IRQ_KEYBOARD (IRQ_BASE + IRQ_KEYBOARD) ;;
  u ← cpu_has_tsc_deadline;
  mod_apic (set_use_tsc_deadline u) ;;
  if u : bool then
    hz ← calibrate_tsc spin;
    mod_apic (set_tsc_hz hz) ;;
    if hz <? 1000000 then panic "apic: TSC calibration failed (%u)"
    else
      mod_apic (set_apic_timer_hz hz) ;;
      lapic_write LAPIC_TIMER_LVT (Z.lor IRQ_BASE LVT_TSC_DEADLINE) ;;
      arm_timer ;;
      klog "[info] apic: TSC %u Hz, TSC-deadline timer at 100 Hz\n" [KU (wrap32 hz)]
  else
    hz ← calibrate_lapic spin;
    if hz <? 100000 then panic "apic: LAPIC calibration failed (%u)"
    else
      mod_apic (set_apic_timer_hz hz) ;;
      lapic_write LAPIC_TIMER_DCR 0x1 ;;
      lapic_write LAPIC_TIMER_LVT (Z.lor IRQ_BASE (1 ≪ 17)) ;;
      lapic_write LAPIC_TIMER_ICR (wrap32 (hz / 100)) ;;
      klog "[info] apic: LAPIC %u Hz, periodic timer at 100 Hz\n" [KU (wrap32 hz)].

Definition apic_timer_tick : M (kst D) unit :=
  mod_apic (λ a, set_jiffies (jiffies a +w 1) a) ;;
  arm_timer.

End apic.
End Apic.
