(* ===== verification/Boot.v ===== *)
(** * Boot information ([boot/boot.c])

    The responses of the boot loader are parameters: the memory map and the
    offset of the direct map, each absent when the loader did not answer. *)

From S2P Require Import Prelude Lib Pmm Vmm Heap Machine.

Module Boot.
Import Lib Pmm Vmm Heap Machine.

Definition LIMINE_MEMMAP_RESERVED : Z := 1.
Definition LIMINE_MEMMAP_ACPI_RECLAIMABLE : Z := 2.
Definition LIMINE_MEMMAP_ACPI_NVS : Z := 3.
Definition LIMINE_MEMMAP_BAD_MEMORY : Z := 4.
Definition LIMINE_MEMMAP_BOOTLOADER_RECLAIMABLE : Z := 5.
Definition LIMINE_MEMMAP_EXECUTABLE_AND_MODULES : Z := 6.

Definition type_name (t : Z) : string :=
  if t =? LIMINE_MEMMAP_USABLE then "usable"
  else if t =? LIMINE_MEMMAP_RESERVED then "reserved"
  else if t =? LIMINE_MEMMAP_ACPI_RECLAIMABLE then "acpi"
  else if t =? LIMINE_MEMMAP_ACPI_NVS then "acpi-nvs"
  else if t =? LIMINE_MEMMAP_BAD_MEMORY then "bad"
  else if t =? LIMINE_MEMMAP_BOOTLOADER_RECLAIMABLE then "bootdata"
  else if t =? LIMINE_MEMMAP_EXECUTABLE_AND_MODULES then "modules"
  else "kernel".

(** [bootinfo], which the memory manager reads through [boot_info()]. *)
Definition set_bootinfo (mm : list memmap_entry) (h : Z) (s : pmm_st) : pmm_st :=
  PmmSt mm h (pm s) (out s) (bitmap s) (bitmap_len s) (total_pages s)
    (free_count s) (bitmap_phys s) (next_free_scan s) (refcounts s) (refcounts_pages s).

Section boot.
Context {D : Type} {HW : Hardware D}.

(** The loop over the memory map, with the sum so far. *)
Fixpoint log_memmap (es : list memmap_entry) (usable : Z) : M (kst D) Z :=
  match es with
  | [] => mret usable
  | e :: es =>
      klog "[info] memmap: base=%p len=%pK type=%s\n"
        [KU (base e); KU (length_ e / 1024); KS (type_name (type_ e))] ;;
      log_memmap es (if type_ e =? LIMINE_MEMMAP_USABLE then usable +w length_ e else usable)
  end.

Definition boot_init (memmap_resp : option (list memmap_entry)) (hhdm_resp : option Z) : M (kst D) unit :=
  match memmap_resp, hhdm_resp with
  | None, _ => panic "no memory map from Limine"
  | _, None => panic "no HHDM from Limine"
  | Some mm, Some h =>
      liftpm (modify (set_bootinfo mm h)) ;;
      usable ← log_memmap mm 0;
      klog "[info] HHDM offset: %p\n" [KU h] ;;
      klog "[info] usable RAM: %u MiB\n" [KU (wrap32 (usable ≫ 20))]
  end.

End boot.
End Boot.
