(* ===== verification/Elf.v ===== *)
(** * Program loader ([core/cpu/elf.c])

    Static ELF64 images.  The image is the list of its bytes; a read past its
    end is undefined. *)

From S2P Require Import Prelude Lib Pmm Vmm Heap Machine Uixfs Keyboard.

Module Elf.
Import Lib Pmm Vmm Heap Machine Uixfs Keyboard.

Definition PT_LOAD : Z := 1.

(** [sizeof(struct elf64_ehdr)] and [sizeof(struct elf64_phdr)] *)
Definition EHDR_SIZE : Z := 64.
Definition PHDR_SIZE : Z := 56.

(** [struct elf64_ehdr] and [struct elf64_phdr]: the fields the loader reads. *)
Record ehdr := Ehdr {
  eh_ident : list Z; eh_machine : Z; eh_entry : Z; eh_phoff : Z; eh_phentsize : Z; eh_phnum : Z;
}.
Record phdr := Phdr { ph_type : Z; ph_offset : Z; ph_vaddr : Z; ph_filesz : Z; ph_memsz : Z }.

(** [n] bytes of the image at [off]. *)
Definition field (img : list Z) (off : Z) (n : nat) : Z := le_val (take n (drop (Z.to_nat off) img)).

Definition read_ehdr (img : list Z) : ehdr :=
  Ehdr (take 16 img) (field img 18 2) (field img 24 8) (field img 32 8) (field img 54 2) (field img 56 2).
Definition read_phdr (img : list Z) (off : Z) : phdr :=
  Phdr (field img off 4) (field img (off + 8) 8) (field img (off + 16) 8) (field img (off + 32) 8)
    (field img (off + 40) 8).

(** The checks of the header; [len] is the length the caller passes. *)
Definition ehdr_ok (img : list Z) (len : Z) : bool :=
  let eh := read_ehdr img in
  (EHDR_SIZE <=? len) &&
  bool_decide (take 4 (eh_ident eh) = [0x7F; 69; 76; 70]) &&
  bool_decide (eh_ident eh !! 4%nat = Some 2) &&
  (eh_machine eh =? 0x3E) &&
  negb (eh_phnum eh =? 0) && (PHDR_SIZE <=? eh_phentsize eh) &&
  (eh_phoff eh +w eh_phnum eh * eh_phentsize eh <=? len).

Definition USER_FLAGS : Z := Z.lor (Z.lor VMM_PRESENT VMM_WRITE) VMM_USER.

(** First page and end of a segment. *)
Definition seg_start (ph : phdr) : Z := Z.land (ph_vaddr ph) (~w (UIX_PAGE_SIZE - 1)).
Definition seg_end (ph : phdr) : Z :=
  Z.land (ph_vaddr ph +w ph_memsz ph +w UIX_PAGE_SIZE -w 1) (~w (UIX_PAGE_SIZE - 1)).

(** The bytes of the image copied to the page at [va]: offset and count. *)
Definition seg_copy (ph : phdr) (va len : Z) : option (Z * Z) :=
  let file_off := ph_offset ph +w (va -w ph_vaddr ph) in
  if (ph_offset ph <=? file_off) && (va <? ph_vaddr ph +w ph_filesz ph) then
    let copy := ph_vaddr ph +w ph_filesz ph -w va in
    let copy := if UIX_PAGE_SIZE <? copy then UIX_PAGE_SIZE else copy in
    let copy := if len <? file_off +w copy then len -w file_off else copy in
    Some (file_off, copy)
  else None.

Section elf.
Context {D : Type} {HW : Hardware D}.

(** [memcpy((void * )va, img + off, n)] into the current user space. *)
Definition copy_image (img : list Z) (va off n : Z) : M (kst D) unit :=
  if off + n <=? Z.of_nat (length img) then copy_out va (take (Z.to_nat n) (drop (Z.to_nat off) img))
  else undef "read past the end of the image".

(** The pages of a segment from [va] on; [false] when memory runs out. *)
Fixpoint load_pages (k : nat) (img : list Z) (len : Z) (ph : phdr) (va : Z) : M (kst D) bool :=
  match k with
  | O => mret true
  | S k =>
      pg ← liftpm pmm_alloc;
      if pg =? 0 then mret false
      else
        pv ← liftk (p2v pg);
        liftpm (hmemset pv 0 UIX_PAGE_SIZE) ;;
        liftk (vmm_map va pg USER_FLAGS) ;;
        (match seg_copy ph va len with
         | Some (off, n) => copy_image img va off n
         | None => mret tt
         end) ;;
        load_pages k img len ph (va + UIX_PAGE_SIZE)
  end.

(** The program headers from index [i] on. *)
Fixpoint load_segments (k : nat) (img : list Z) (len phoff i : Z) : M (kst D) bool :=
  match k with
  | O => mret true
  | S k =>
      let off := phoff +w i * PHDR_SIZE in
      if Z.of_nat (length img) <? off + PHDR_SIZE then undef "program header outside the image"
      else
        let ph := read_phdr img off in
        if negb (ph_type ph =? PT_LOAD) then load_segments k img len phoff (i + 1)
        else
          ok ← load_pages (Z.to_nat ((seg_end ph - seg_start ph) / UIX_PAGE_SIZE)) img len ph (seg_start ph);
          if ok : bool then load_segments k img len phoff (i + 1) else mret false
  end.

Definition elf_load (img : list Z) (len : Z) : M (kst D) Z :=
  if ehdr_ok img len then
    let eh := read_ehdr img in
    ok ← load_segments (Z.to_nat (eh_phnum eh)) img len (eh_phoff eh) 0;
    mret (if ok : bool then eh_entry eh else 0)
  else mret 0.

End elf.
End Elf.
