(* ===== verification/ElfProps.v ===== *)
(** * The loader puts the program where its headers say

    Every page-aligned segment ends up mapped with the bytes of the file,
    followed by zeros; a segment that does not start on a page loses the
    beginning of its contents. *)

From S2P Require Import Prelude Lib Pmm PmmFacts Vmm PageTables VmmFacts VmmProps Heap VirtMem Machine Checks Samples Uixfs Keyboard KeyboardProps Elf.

Module ElfProps.
Import Lib Pmm PmmFacts Vmm PageTables VmmFacts VmmProps Heap VirtMem Machine Checks Samples Uixfs Keyboard KeyboardProps Elf.

(** ** Segments *)

(** Pages of a segment. *)
Definition seg_pages (ph : phdr) : Z := (ph_memsz ph + 4095) / 4096.

(** A segment the loader handles: on a page boundary, inside the image and the
    lower half of the address space. *)
Record seg_ok (img : list Z) (ph : phdr) : Prop := SegOk {
  sg_page : ph_vaddr ph mod 4096 = 0;
  sg_addr : 4096 ≤ ph_vaddr ph;
  sg_off : 0 ≤ ph_offset ph;
  sg_file : 0 ≤ ph_filesz ph ≤ ph_memsz ph;
  sg_img : ph_offset ph + ph_filesz ph ≤ Z.of_nat (length img);
  sg_top : ph_vaddr ph + ph_memsz ph + 8192 < 2 ^ 47;
}.

(** The byte of the program at address [a]. *)
Definition seg_byte (img : list Z) (ph : phdr) (a : Z) : Z :=
  if a - ph_vaddr ph <? ph_filesz ph then default 0 (img !! Z.to_nat (ph_offset ph + (a - ph_vaddr ph))) else 0.

Lemma land_page_w x : 0 ≤ x < 2 ^ 64 → Z.land x (~w (UIX_PAGE_SIZE - 1)) = x - x mod 4096.
Proof.
  intros Hx. change (~w (UIX_PAGE_SIZE - 1)) with (Z.land (Z.ones 64) (Z.lnot (Z.ones 12))).
  rewrite Z.land_assoc, Z.land_ones, (Z.mod_small x (2 ^ 64)) by lia.
  rewrite <-Z.ldiff_land, Z.ldiff_ones_r by lia. rewrite Z.shiftl_mul_pow2, Z.shiftr_div_pow2 by lia.
  change (2 ^ 12) with 4096. pose proof (Z.div_mod x 4096). lia.
Qed.

Section segment.
Context (img : list Z) (ph : phdr) (Hok : seg_ok img ph) (Hlen : Z.of_nat (length img) < 2 ^ 62).

Lemma seg_start_eq : seg_start ph = ph_vaddr ph.
Proof using Hok. destruct Hok. unfold seg_start. rewrite land_page_w by lia. lia. Qed.

Lemma seg_end_eq : seg_end ph = ph_vaddr ph + 4096 * seg_pages ph.
Proof using Hok.
  destruct Hok. unfold seg_end, seg_pages, UIX_PAGE_SIZE, wrap64.
  rewrite Zplus_mod_idemp_l, Zminus_mod_idemp_l, Z.mod_small by lia.
  change 4096 with UIX_PAGE_SIZE at 2. rewrite land_page_w by lia. Z.div_mod_to_equations. lia.
Qed.

(** What is copied to the page at [va] of the segment. *)
Lemma seg_copy_eq va :
  ph_vaddr ph ≤ va < ph_vaddr ph + 4096 * seg_pages ph →
  seg_copy ph va (Z.of_nat (length img)) =
    if va <? ph_vaddr ph + ph_filesz ph
    then Some (ph_offset ph + (va - ph_vaddr ph), Z.min 4096 (ph_vaddr ph + ph_filesz ph - va)) else None.
Proof using Hok Hlen.
  intros Hva. destruct Hok. unfold seg_pages in Hva.
  assert (Hb : va < ph_vaddr ph + ph_memsz ph + 4095) by (Z.div_mod_to_equations; lia).
  unfold seg_copy, UIX_PAGE_SIZE. rewrite (wrap64_small (va - ph_vaddr ph)) by lia.
  rewrite (wrap64_small (ph_vaddr ph + ph_filesz ph)), (wrap64_small (ph_offset ph + (va - ph_vaddr ph))) by lia.
  rewrite (proj2 (Z.leb_le _ _)) by lia. cbn [andb].
  destruct (Z.ltb_spec va (ph_vaddr ph + ph_filesz ph)); [|done].
  rewrite (wrap64_small (ph_vaddr ph + ph_filesz ph - va)) by lia.
  destruct (Z.ltb_spec 4096 (ph_vaddr ph + ph_filesz ph - va)); rewrite !wrap64_small by lia;
    rewrite (proj2 (Z.ltb_ge _ _)) by lia; do 2 f_equal; lia.
Qed.

End segment.
(** ** One page *)

Section load.
Context {D : Type} {HW : Hardware D}.

(** Out of memory: no page, or none for the tables. *)
Definition no_page (v : vmm_st) : Prop := free_set (vp v) = ∅ ∨ 0 ∈ free_set (vp v).
Definition elf_oom (w : stop) : Prop := w = Panic "vmm: OOM building tables".

(** [load_pages] of one page, up to the copy. *)
Definition zero_page (va : Z) : M (kst D) bool :=
  pg ← liftpm pmm_alloc;
  if pg =? 0 then mret false
  else
    pv ← liftk (p2v pg);
    liftpm (hmemset pv 0 UIX_PAGE_SIZE) ;;
    liftk (vmm_map va pg USER_FLAGS) ;;
    mret true.

(** The kernel with the address space [v], grown from [hi] to [hi'] and holding [m]. *)
Definition grown_to (s : kst D) (lo hi hi' lim : Z) (Q : mem → Prop) (s' : kst D) : Prop :=
  ∃ v m, s' = with_vm v s ∧ holds v lo hi' lim m ∧ spared lo (vm s) hi v hi' ∧ Q m.

(** The loader gave up when the allocator had no page left. *)
Definition gave_up (s : kst D) (lo hi : Z) (s' : kst D) : Prop :=
  ∃ v hi' p', spared lo (vm s) hi v hi' ∧ no_page v ∧ s' = with_vm (set_vp p' v) s.

Lemma zero_page_run s lo hi lim m :
  holds (vm s) lo hi lim m → hi mod UIX_PAGE_SIZE = 0 → lo ≤ hi → hi + UIX_PAGE_SIZE ≤ lim →
  runs (zero_page hi) s (λ ok s',
    if ok : bool then grown_to s lo hi (hi + UIX_PAGE_SIZE) lim (λ m', (∀ a, a < hi → ld8 m' a = ld8 m a) ∧
      (∀ j, 0 ≤ j < UIX_PAGE_SIZE → ld8 m' (hi + j) = 0)) s'
    else gave_up s lo hi s') elf_oom.
Proof.
  intros Hh Hal Hlo Hlim. pose proof (hd_wf _ _ _ _ _ Hh) as Hwf. pose proof (wv_pmm _ Hwf) as Hp. unfold zero_page.
  destruct (alloc_run (vm s) Hp) as [(p' & He & Hno)|(i & Hi & Hi0 & He)].
  { eapply runs_bind_Ok; [by apply liftk_Ok|]. eapply runs_ret; [done|].
    exists (vm s), hi, p'. split; [apply spared_refl|done]. }
  eapply runs_bind_Ok; [by apply liftk_Ok|]. rewrite (proj2 (Z.eqb_neq _ _)) by (unfold UIX_PAGE_SIZE; lia).
  destruct (step_taken _ i Hp Hi) as (Hst1 & Hci1 & _). set (p1 := taken i (vp (vm s))) in *.
  destruct (fresh_table_intro (vp (vm s)) i Hp Hi Hi0) as [_ _ Hst Hfs Hci _]. set (p2 := clear_page i p1) in *.
  destruct (fresh_page _ _ _ _ _ _ _ Hh Hi Hst Hci) as ([Hh2 _] & _ & _). set (v2 := set_vp p2 (vm s)) in *.
  change (holds v2 lo hi lim m) in Hh2. change (step ∅ (vp (vm s)) p2) in Hst. change (client_page p2 i) in Hci.
  set (v1 := set_vp p1 (vm s)) in *.
  eapply runs_bind_Ok; [apply (liftk_Ok _ (with_vm v1 s)), p2v_run; [apply Hst1|by apply tbl_page_of]|].
  eapply runs_bind_Ok; [apply liftk_Ok, (hmemset_page v1); [apply Hst1|done]|].
  pose proof (vmm_map_cases v2 hi (i * UIX_PAGE_SIZE) USER_FLAGS (hd_wf _ _ _ _ _ Hh2)) as Hm.
  rewrite (proj1 (hd_rest _ _ _ _ _ Hh2 hi ltac:(unfold UIX_PAGE_SIZE in *; lia))) in Hm.
  destruct Hm as [(v' & Hm & _)|(v' & Hm & Hmap)]; [by vm_compute| |].
  { unfold runs. erewrite bind_Stop_eq; [|apply liftk_Stop; exact Hm]. done. }
  eapply runs_bind_Ok; [by apply liftk_Ok; exact Hm|]. eapply runs_ret; [done|].
  assert (Hk : kernel_cr3 v' = kernel_cr3 (vm s)).
  { pose proof (keeps_vmm_map hi (i * UIX_PAGE_SIZE) USER_FLAGS v2) as Hk. by rewrite Hm in Hk. }
  destruct (grown_region _ _ _ _ _ _ _ _ _ Hh Hi Hst Hci Hmap Hk Hal Hlo Hlim) as (Hsp & m' & Hh' & Hlow & Hnew); [by vm_compute..|].
  exists v', m'. split; [done|]. split; [done|]. split; [done|]. split; [done|]. intros j Hj. rewrite Hnew by done.
  apply ld8_memset_in. unfold UIX_PAGE_SIZE in *. lia.
Qed.

Lemma ld8_st_bytes_lt a bs m b : b < a → ld8 (st_bytes a bs m) b = ld8 m b.
Proof. intros H. rewrite ld8_st_bytes. by rewrite (proj2 (Z.leb_gt _ _)) by lia. Qed.

(** The bytes of the file for one page. *)
Definition fill_page (img : list Z) (len : Z) (ph : phdr) (va : Z) : M (kst D) unit :=
  match seg_copy ph va len with
  | Some (off, n) => copy_image img va off n
  | None => mret tt
  end.

Lemma load_pages_S k img len ph va s :
  load_pages (S k) img len ph va s =
  (ok ← zero_page va;
   if ok : bool then fill_page img len ph va ;; load_pages k img len ph (va + UIX_PAGE_SIZE) else mret false) s.
Proof.
  cbn [load_pages]. unfold zero_page, mbind, M_bind. destruct (liftpm pmm_alloc s) as [pg s1|w s1]; [|done].
  destruct (pg =? 0); [done|]. destruct (liftk (p2v pg) s1) as [pv s2|w s2]; [|done].
  destruct (liftpm (hmemset pv 0 UIX_PAGE_SIZE) s2) as [[] s3|w s3]; [|done].
  by destruct (liftk (vmm_map va pg USER_FLAGS) s3) as [[] s4|w s4].
Qed.

Section segment.
Context (img : list Z) (ph : phdr) (Hok : seg_ok img ph) (Hlen : Z.of_nat (length img) < 2 ^ 62).
Context (Hbytes : Forall (λ b, 0 ≤ b < 256) img).
Abbreviation len := (Z.of_nat (length img)).
Abbreviation lo := (ph_vaddr ph).
Abbreviation top := (ph_vaddr ph + 4096 * seg_pages ph).

(** The bytes copied to the page at [va] are those of the segment there. *)
Lemma file_bytes va a m :
  lo ≤ va → va ≤ a < va + 4096 → va < lo + ph_filesz ph →
  let n := Z.min 4096 (lo + ph_filesz ph - va) in
  let bs := take (Z.to_nat n) (drop (Z.to_nat (ph_offset ph + (va - lo))) img) in
  length bs = Z.to_nat n ∧ (ld8 m a = 0 → ld8 (st_bytes va bs m) a = seg_byte img ph a).
Proof using Hok Hbytes.
  intros H1 H2 H3 n bs. destruct Hok. assert (Hl : length bs = Z.to_nat n).
  { unfold bs. rewrite length_take, length_drop. lia. }
  split; [done|]. intros Hz. rewrite ld8_st_bytes, Hl. unfold seg_byte.
  destruct (Z.ltb_spec (a - lo) (ph_filesz ph)) as [Hin|Hin].
  - rewrite (proj2 (Z.leb_le _ _)), (proj2 (Z.ltb_lt _ _)) by lia. cbn [andb].
    unfold bs. rewrite lookup_take, decide_True, lookup_drop by lia.
    replace (Z.to_nat (ph_offset ph + (va - lo)) + Z.to_nat (a - va))%nat with (Z.to_nat (ph_offset ph + (a - lo))) by lia.
    destruct (img !! Z.to_nat (ph_offset ph + (a - lo))) as [b|] eqn:E; [|done]. cbn.
    apply wrap8_small. rewrite Forall_lookup in Hbytes. by eapply Hbytes.
  - rewrite (proj2 (Z.ltb_ge _ _)) by lia. by rewrite andb_false_r.
Qed.

(** [m] shows the segment from [lo] up to [hi]. *)
Definition shown (hi : Z) (m : mem) : Prop := ∀ a, lo ≤ a < hi → ld8 m a = seg_byte img ph a.

Lemma fill_page_run s hi lim m :
  holds (vm s) lo (hi + 4096) lim m → lo ≤ hi < top → hi + 4096 < 2 ^ 63 → shown hi m →
  (∀ j, 0 ≤ j < 4096 → ld8 m (hi + j) = 0) →
  ∃ v m', fill_page img len ph hi s = Ok tt (with_vm v s) ∧ holds v lo (hi + 4096) lim m' ∧
    spared lo (vm s) (hi + 4096) v (hi + 4096) ∧ shown (hi + 4096) m'.
Proof using Hok Hlen Hbytes.
  intros Hh Hhi Htop Hsh Hz. unfold fill_page. rewrite (seg_copy_eq img ph Hok Hlen hi Hhi).
  destruct (Z.ltb_spec hi (lo + ph_filesz ph)) as [Hin|Hin].
  - set (n := Z.min 4096 (lo + ph_filesz ph - hi)). set (off := ph_offset ph + (hi - lo)).
    destruct (file_bytes hi hi m) as [Hl _]; [lia..|]. fold n off in Hl. destruct Hok.
    unfold copy_image. rewrite (proj2 (Z.leb_le _ _)) by lia.
    destruct (copy_out_run s lo (hi + 4096) lim m hi (take (Z.to_nat n) (drop (Z.to_nat off) img))) as (v & E & Hh' & Hs');
      [done|lia|lia|lia|].
    exists v, (st_bytes hi (take (Z.to_nat n) (drop (Z.to_nat off) img)) m). split_and!; [done..|].
    intros a Ha. destruct (decide (a < hi)).
    + rewrite ld8_st_bytes_lt by lia. apply Hsh. lia.
    + apply file_bytes; [lia..|]. replace a with (hi + (a - hi)) by lia. apply Hz. lia.
  - exists (vm s), m. split_and!; [by rewrite with_vm_id|done|apply spared_refl|].
    intros a Ha. destruct (decide (a < hi)); [apply Hsh; lia|]. replace a with (hi + (a - hi)) by lia. rewrite Hz by lia.
    unfold seg_byte. by rewrite (proj2 (Z.ltb_ge _ _)) by lia.
Qed.

Lemma load_pages_run k s hi m :
  holds (vm s) lo hi top m → lo ≤ hi → hi mod UIX_PAGE_SIZE = 0 → hi + 4096 * Z.of_nat k = top → top < 2 ^ 62 → shown hi m →
  runs (load_pages k img len ph hi) s
    (λ ok s', if ok : bool then grown_to s lo hi top top (shown top) s' else gave_up s lo hi s') elf_oom.
Proof using Hok Hlen Hbytes.
  revert s hi m. induction k as [|k IH]; intros s hi m Hh Hlo Hal Hk Htop Hsh.
  { cbn [load_pages]. eapply runs_ret; [done|]. rewrite Z.add_0_r in Hk. subst hi.
    exists (vm s), m. split_and!; [by rewrite with_vm_id|done|apply spared_refl|done]. }
  unfold runs. rewrite load_pages_S. apply runs_bind. eapply (runs_mono _ _ _ _ elf_oom); [|clear Hh|done].
  { apply (zero_page_run s lo hi top m Hh Hal Hlo). unfold UIX_PAGE_SIZE. lia. }
  intros [] s1 H1; [|by eapply runs_ret; [done|]]. destruct H1 as (v1 & m1 & -> & Hh1 & Hsp1 & Hlow & Hz).
  unfold UIX_PAGE_SIZE in *.
  destruct (fill_page_run (with_vm v1 s) hi top m1) as (v2 & m2 & E2 & Hh2 & Hsp2 & Hsh2); [done|lia|lia| |done|].
  { intros a Ha. rewrite Hlow by lia. by apply Hsh. }
  eapply runs_bind_Ok; [exact E2|]. change (with_vm v2 (with_vm v1 s)) with (with_vm v2 s).
  assert (Hsp : spared lo (vm s) hi v2 (hi + 4096)) by by eapply spared_trans.
  eapply (runs_mono _ _ _ _ elf_oom); [apply (IH (with_vm v2 s) (hi + 4096) m2)| |done]; [done|lia| |lia|done|done|].
  { rewrite <-Z.add_mod_idemp_r, Z_mod_same_full, Z.add_0_r by lia. done. }
  intros [] s3 H3.
  - destruct H3 as (v3 & m3 & -> & Hh3 & Hsp3 & Hsh3). exists v3, m3. split_and!; [done..| |done]. by eapply spared_trans.
  - destruct H3 as (v3 & hi3 & p3 & Hsp3 & Hno & ->). exists v3, hi3, p3. split_and!; [|done..]. by eapply spared_trans.
Qed.

End segment.
(** ** Address spaces *)

Definition seg_top (ph : phdr) : Z := ph_vaddr ph + 4096 * seg_pages ph.

(** Nothing is mapped at [lo, hi), and pages can be. *)
Definition blank (v : vmm_st) (lo hi : Z) : Prop :=
  ∀ va, lo ≤ va < hi → walk 3 (pm (vp v)) (cr3 v) va = None ∧ wtab 3 (pm (vp v)) (cr3 v) va = true.

(** The byte at [a] is [b], in a page that is neither free nor a table. *)
Definition shows (v : vmm_st) (a b : Z) : Prop :=
  ∃ e, walk 3 (pm (vp v)) (cr3 v) a = Some (0%nat, e) ∧ client_page (vp v) (pfn e) ∧ (pfn e ∉ tset (vp v) (cr3 v)) ∧
    ld8 (pm (vp v)) (pfn e * UIX_PAGE_SIZE + a mod UIX_PAGE_SIZE) = b.

(** A program reads that byte. *)
Lemma shows_load v a b : shows v a b → vload8 a v = Ok b v.
Proof.
  intros (e & Hw & _ & _ & <-). unfold vload8, gets, mbind, M_bind, mmu. by rewrite Hw.
Qed.

Lemma blank_holds v lo hi : wf_vm v → blank v lo hi → lo ≤ hi → hi - lo < 2 ^ 47 → holds v lo lo hi ∅.
Proof.
  intros Hv Hb Hle Hsz. split; [done| |lia|exact Hb|done|done].
  split; [lia..|]. lia.
Qed.

Lemma holds_shows v lo hi lim m a : holds v lo hi lim m → lo ≤ a < hi → shows v a (ld8 m a).
Proof.
  intros Hh Ha. destruct (region_mmu _ _ _ (hd_region _ _ _ _ _ Hh) a Ha) as (e & Hw & _ & Hp & Hc & Ht).
  exists e. split_and!; [done..|]. by rewrite <-(hd_bytes _ _ _ _ _ Hh a Ha), Hp.
Qed.

Lemma spared_shows lo v v' hi a b : spared lo v lo v' hi → shows v a b → shows v' a b.
Proof.
  intros Hs (e & Hw & Hc & Ht & Hb).
  destruct (sp_foreign _ _ _ _ _ Hs (pfn e)) as [(Hc' & Ht' & _) Hm].
  { split_and!; [done..|]. intros (va & e' & Hva & _). lia. }
  exists e. split_and!; [by apply (sp_walk _ _ _ _ _ Hs)|done..|]. rewrite <-Hb. apply Hm.
  unfold UIX_PAGE_SIZE. pose proof (Z.mod_pos_bound a 4096). lia.
Qed.

Lemma spared_blank lo v v' hi lo' hi' :
  spared lo v lo v' hi → blank v lo' hi' → hi ≤ lo' ∨ hi' ≤ lo →
  lo mod 4096 = 0 → hi mod 4096 = 0 → lo' mod 4096 = 0 → hi' mod 4096 = 0 →
  0 ≤ lo → hi < 2 ^ 47 → 0 ≤ lo' → hi' < 2 ^ 47 → blank v' lo' hi'.
Proof.
  intros Hs Hb Hd A1 A2 A3 A4 H1 H2 H3 H4 va Hva. destruct (Hb va Hva) as [Hw Ht]. split.
  - rewrite (sp_same _ _ _ _ _ Hs); [done|]. intros a Ha. rewrite same_page_div by lia.
    Z.div_mod_to_equations. lia.
  - by apply (sp_wtab _ _ _ _ _ Hs).
Qed.

(** ** The program headers *)

Definition apart (ph ph' : phdr) : Prop := seg_top ph ≤ ph_vaddr ph' ∨ seg_top ph' ≤ ph_vaddr ph.

(** The headers from index [i] on that are loaded. *)
Fixpoint loads (k : nat) (img : list Z) (phoff i : Z) : list phdr :=
  match k with
  | O => []
  | S k =>
      let ph := read_phdr img (phoff + i * PHDR_SIZE) in
      if ph_type ph =? PT_LOAD then ph :: loads k img phoff (i + 1) else loads k img phoff (i + 1)
  end.

Definition in_memory (img : list Z) (v : vmm_st) (ph : phdr) : Prop :=
  ∀ a, ph_vaddr ph ≤ a < seg_top ph → shows v a (seg_byte img ph a).

(** The loader ran out of pages: [v] is the address space it had reached. *)
Definition ran_out (s s' : kst D) : Prop := ∃ v p', no_page v ∧ s' = with_vm (set_vp p' v) s.

Section program.
Context (img : list Z) (Hlen : Z.of_nat (length img) < 2 ^ 62) (Hbytes : Forall (λ b, 0 ≤ b < 256) img).

Lemma seg_top_bound ph : seg_ok img ph →
  ph_vaddr ph ≤ seg_top ph < 2 ^ 47 ∧ seg_top ph mod 4096 = 0 ∧ 0 ≤ seg_pages ph.
Proof. intros []. unfold seg_top, seg_pages. Z.div_mod_to_equations. lia. Qed.

(** One segment into a blank area. *)
Lemma load_segment_run s ph :
  wf_vm (vm s) → seg_ok img ph → blank (vm s) (ph_vaddr ph) (seg_top ph) →
  runs (load_pages (Z.to_nat ((seg_end ph - seg_start ph) / UIX_PAGE_SIZE)) img (Z.of_nat (length img)) ph (seg_start ph)) s
    (λ ok s', if ok : bool then ∃ v, s' = with_vm v s ∧ wf_vm v ∧ in_memory img v ph ∧
                  spared (ph_vaddr ph) (vm s) (ph_vaddr ph) v (seg_top ph)
              else ran_out s s') elf_oom.
Proof using Hlen Hbytes.
  intros Hv Hok Hb. destruct (seg_top_bound ph Hok) as (H1 & H2 & H3). pose proof (sg_addr _ _ Hok).
  rewrite (seg_end_eq img ph Hok), (seg_start_eq img ph Hok).
  replace ((ph_vaddr ph + 4096 * seg_pages ph - ph_vaddr ph) / UIX_PAGE_SIZE) with (seg_pages ph)
    by (unfold UIX_PAGE_SIZE; Z.div_mod_to_equations; lia).
  unfold seg_top in *. eapply (runs_mono _ _ _ _ elf_oom); [|intros ok s' Hr|done].
  - apply (load_pages_run img ph Hok Hlen Hbytes _ s (ph_vaddr ph) ∅); [apply blank_holds; [done|done|lia|lia]|lia|apply Hok|lia|lia|].
    intros a Ha. lia.
  - cbn beta in Hr. destruct ok.
    + destruct Hr as (v & m & -> & Hh & Hsp & Hsh). exists v. split_and!; [done|apply Hh| |done].
      intros a Ha. unfold seg_top in Ha. rewrite <-(Hsh a Ha). by eapply holds_shows.
    + destruct Hr as (v & hi & p' & _ & Hno & ->). by exists v, p'.
Qed.

Lemma load_segments_run k s phoff i old :
  0 ≤ phoff → 0 ≤ i → phoff + (i + Z.of_nat k) * PHDR_SIZE ≤ Z.of_nat (length img) →
  wf_vm (vm s) → Forall (in_memory img (vm s)) old → Forall (seg_ok img) (loads k img phoff i) →
  ForallOrdPairs apart (loads k img phoff i) →
  Forall (λ ph, blank (vm s) (ph_vaddr ph) (seg_top ph)) (loads k img phoff i) →
  runs (load_segments k img (Z.of_nat (length img)) phoff i) s
    (λ ok s', if ok : bool then ∃ v, s' = with_vm v s ∧ wf_vm v ∧ Forall (in_memory img v) (old ++ loads k img phoff i)
              else ran_out s s') elf_oom.
Proof using Hlen Hbytes.
  revert s i old. induction k as [|k IH]; intros s i old Hp Hi Hb Hv Hold Hok Hap Hbl; cbn [load_segments].
  { eapply runs_ret; [done|]. exists (vm s). cbn [loads]. rewrite app_nil_r. by rewrite with_vm_id. }
  unfold PHDR_SIZE in Hb. rewrite (wrap64_small (phoff + i * PHDR_SIZE)) by (unfold PHDR_SIZE; lia).
  rewrite (proj2 (Z.ltb_ge _ _)) by (unfold PHDR_SIZE; lia). cbn [loads] in *.
  set (ph := read_phdr img (phoff + i * PHDR_SIZE)) in *.
  destruct (ph_type ph =? PT_LOAD); cbn [negb]; [|apply IH; done || unfold PHDR_SIZE; lia].
  apply Forall_cons in Hok as [Hok1 Hok]. apply Forall_cons in Hbl as [Hbl1 Hbl].
  inversion Hap as [|? ? Hap1 Hap2]; subst. apply runs_bind.
  eapply (runs_mono _ _ _ _ elf_oom); [by apply load_segment_run| |done].
  intros [] s1 H1; [|by eapply runs_ret; [done|]]. destruct H1 as (v & -> & Hv1 & Hmem & Hsp).
  destruct (seg_top_bound ph Hok1) as (T1 & T2 & _). pose proof (sg_page _ _ Hok1). pose proof (sg_addr _ _ Hok1).
  eapply (runs_mono _ _ _ _ elf_oom); [apply (IH (with_vm v s) (i + 1) (old ++ [ph]))| |done];
    [done|lia|unfold PHDR_SIZE; lia|done| |done|done| |].
  - apply Forall_app. split; [|by apply Forall_singleton]. eapply Forall_impl; [exact Hold|].
    intros ph' Hm a Ha. eapply spared_shows; [exact Hsp|]. by apply Hm.
  - apply Forall_forall. intros ph' Hin. rewrite Forall_forall in Hok, Hbl. specialize (Hok _ Hin). specialize (Hbl _ Hin).
    apply List.Forall_forall with (x := ph') in Hap1; [|by apply list_elem_of_In]. destruct (seg_top_bound ph' Hok) as (T3 & T4 & _).
    pose proof (sg_page _ _ Hok). pose proof (sg_addr _ _ Hok). unfold apart in Hap1.
    eapply spared_blank; [exact Hsp|done|lia|done|done|done|done|lia..].
  - intros ok s2 H2. cbn beta in *. destruct ok.
    + destruct H2 as (v2 & -> & Hv2 & Hf). exists v2. split_and!; [done..|]. by rewrite <-app_assoc in Hf.
    + destruct H2 as (v2 & p2 & Hno & ->). by exists v2, p2.
Qed.

End program.
End load.

(** ** Segments that do not start on a page *)

(** Nothing of the file is copied to the first page of a segment that starts
    inside it: the bytes up to the next page boundary stay zero. *)
Lemma unaligned_first_page (ph : phdr) (len : Z) :
  0 ≤ ph_vaddr ph < 2 ^ 63 → ph_vaddr ph mod 4096 ≠ 0 → ph_vaddr ph mod 4096 ≤ ph_offset ph < 2 ^ 63 →
  seg_copy ph (seg_start ph) len = None.
Proof.
  intros H1 H2 H3. unfold seg_copy, seg_start. rewrite land_page_w by lia. pose proof (Z.mod_pos_bound (ph_vaddr ph) 4096).
  assert (E : ph_offset ph +w (ph_vaddr ph - ph_vaddr ph mod 4096 -w ph_vaddr ph) = ph_offset ph - ph_vaddr ph mod 4096).
  { unfold wrap64. rewrite Zplus_mod_idemp_r, Z.mod_small by lia. lia. }
  rewrite E, (proj2 (Z.leb_gt _ _)) by lia. done.
Qed.

(** ** A small program *)

Definition sample_elf : list Z :=
  [0x7F; 69; 76; 70; 2] ++ replicate 11 0 ++ le_bytes 2 2 ++ le_bytes 2 0x3E ++ le_bytes 4 1 ++
  le_bytes 8 0x600000 ++ le_bytes 8 64 ++ le_bytes 8 0 ++ le_bytes 4 0 ++ le_bytes 2 64 ++ le_bytes 2 56 ++
  le_bytes 2 1 ++ replicate 6 0 ++
  le_bytes 4 1 ++ le_bytes 4 7 ++ le_bytes 8 120 ++ le_bytes 8 0x600000 ++ le_bytes 8 0 ++ le_bytes 8 4 ++ le_bytes 8 8 ++
  le_bytes 8 4096 ++ [0xB8; 1; 2; 3].

(** A page of an address space is blank when its first address is. *)
Lemma blank_page v lo :
  lo mod 4096 = 0 → walk 3 (pm (vp v)) (cr3 v) lo = None → wtab 3 (pm (vp v)) (cr3 v) lo = true → blank v lo (lo + 4096).
Proof.
  intros Hal Hw Ht va Hva.
  assert (Hs : same_page lo va) by (apply same_page_div; [lia|]; Z.div_mod_to_equations; lia).
  by rewrite (walk_same_page _ _ _ _ _ Hs), (wtab_same_page _ _ _ _ _ Hs).
Qed.

(** ** The loader *)

(** What the loader relies on: headers inside the file, segments it can map that
    do not share pages, and room for them in the address space. *)
Record loadable {D} (img : list Z) (s : kst D) : Prop := Loadable {
  ld_len : Z.of_nat (length img) < 2 ^ 62;
  ld_bytes_ok : Forall (λ b, 0 ≤ b < 256) img;
  ld_wf : wf_vm (vm s);
  ld_phdrs : 0 ≤ eh_phoff (read_ehdr img) ∧ 0 ≤ eh_phnum (read_ehdr img) ∧
    eh_phoff (read_ehdr img) + eh_phnum (read_ehdr img) * PHDR_SIZE ≤ Z.of_nat (length img);
  ld_segs : let phs := loads (Z.to_nat (eh_phnum (read_ehdr img))) img (eh_phoff (read_ehdr img)) 0 in
    Forall (seg_ok img) phs ∧ ForallOrdPairs apart phs ∧
    Forall (λ ph, blank (vm s) (ph_vaddr ph) (seg_top ph)) phs;
}.



End ElfProps.
