(* ===== verification/Process.v ===== *)
(** * Processes ([core/cpu/user.c], [core/cpu/fork.c], [core/cpu/exec.c])

    Creation of a user task from a flat image, [fork], and [execve].  The two
    programs linked into the kernel are parameters: lists of bytes. *)

From S2P Require Import Prelude Lib Pmm Vmm Heap Machine Idt Task Sched Keyboard.
From S2P Require Import Pci Virtio Uixfs Elf.

Module Process.
Import Lib Pmm Vmm Heap Machine Idt Task Sched Keyboard Pci Virtio Uixfs Elf.

Definition USER_CODE_BASE : Z := 0x400000.
Definition USER_STACK_TOP : Z := 0x800000.
Definition USER_STACK_SIZE : Z := 0x40000.

(** The images embedded by the linker. *)
Class Programs := {
  user_program : list Z;
  user_hello2 : list Z;
}.

(** What a system call does to its caller: it returns a value, or the processor
    goes on at an address of another context. *)
Inductive ctl := Ret (v : Z) | Jump (a : Z).

(** [programs[]]: names are C strings. *)
Definition programs `{Programs} : list (list Z * list Z) :=
  [([47; 115; 104; 0], user_program); ([47; 104; 101; 108; 108; 111; 50; 0], user_hello2)].

Definition find_program `{Programs} (path : list Z) : option (list Z) :=
  snd <$> (snd <$> list_find (λ '(nm, _), strcmp_l path nm = Some 0) programs).

Section process.
Context {D : Type} {HW : Hardware D} {CS : CpuSymbols} {SY : Symbols} {PR : Programs}.

(** ** Flat images *)

(** The pages of a flat image from [off] on; a failed [pmm_alloc] is not
    noticed and maps page 0. *)
Fixpoint load_flat (k : nat) (img : list Z) (off : Z) : M (kst D) unit :=
  match k with
  | O => mret tt
  | S k =>
      pg ← liftpm pmm_alloc;
      liftk (vmm_map (USER_CODE_BASE +w off) pg USER_FLAGS) ;;
      let chunk := Z.of_nat (length img) - off in
      let chunk := if UIX_PAGE_SIZE <? chunk then UIX_PAGE_SIZE else chunk in
      copy_image img (USER_CODE_BASE +w off) off chunk ;;
      load_flat k img (off + UIX_PAGE_SIZE)
  end.

Definition flat_pages (img : list Z) : nat :=
  Z.to_nat ((Z.of_nat (length img) + UIX_PAGE_SIZE - 1) / UIX_PAGE_SIZE).

(** [for (va = TOP - PAGE; va >= TOP - SIZE; va -= PAGE)] *)
Definition map_user_stack : M (kst D) unit :=
  for_ (Z.to_nat (USER_STACK_SIZE / UIX_PAGE_SIZE)) 1 (λ i,
    pg ← liftpm pmm_alloc;
    liftk (vmm_map (USER_STACK_TOP - i * UIX_PAGE_SIZE) pg USER_FLAGS)).

(** ** [user_task_create] *)

Definition stdio : list proc_fd :=
  [ProcFd FD_CONSOLE_IN 1; ProcFd FD_CONSOLE_OUT 1; ProcFd FD_CONSOLE_OUT 1].

Definition user_task_create (nm : string) (code : list Z) : M (kst D) Z :=
  t ← kzalloc_task;
  if t =? 0 then mret 0
  else
    st ← lifth (kmalloc KSTACK_SIZE);
    upd_task t (set_kstack st) ;;
    if st =? 0 then free_task t ;; mret 0
    else
      upd_task t (λ tk, set_kstack_size KSTACK_SIZE (set_pid 0 (set_state TASK_READY
        (set_is_user 1 (set_name nm tk))))) ;;
      upd_task t (λ tk, set_fds (stdio ++ drop 3 (fds tk)) tk) ;;
      task_register t ;;
      sp ← liftk vmm_create_space;
      upd_task t (set_tcr3 sp) ;;
      liftk (vmm_switch sp) ;;
      load_flat (flat_pages code) code 0 ;;
      map_user_stack ;;
      kc ← gets (λ s, kernel_cr3 (vm s));
      liftk (vmm_switch kc) ;;
      tk ← get_task t;
      a ← push_all (stack_top tk)
        [user_launch_trampoline; 0; 0; USER_CODE_BASE; USER_STACK_TOP - 16; 0x202; 0];
      upd_task t (set_rsp a) ;;
      sched_enqueue_user t ;;
      mret t.

(** ** [fork] *)

(** The frame on the child's stack: the words of [fr] with 0 for [rax], below
    them a frame for [switch_to] that returns to [fork_child_stub]. *)
Fixpoint store_words (a : Z) (ws : list Z) : M (kst D) unit :=
  match ws with
  | [] => mret tt
  | w :: ws => liftk (vstn 8 a w) ;; store_words (a +w 8) ws
  end.

Definition IFRAME_SIZE : Z := 176.

Definition fork_stack (top : Z) (fr : iframe) : M (kst D) Z :=
  let a := top -w IFRAME_SIZE in
  store_words a (iframe_words fr) ;;
  liftk (vstn 8 a 0) ;;
  push_all a [fork_child_stub; 0; 0; 0; 0; 0; 0].

Definition do_fork (parent : Z) (fr : iframe) : M (kst D) Z :=
  child ← kzalloc_task;
  if child =? 0 then mret 0
  else
    st ← lifth (kmalloc (16 * 1024));
    upd_task child (set_kstack st) ;;
    if st =? 0 then free_task child ;; mret 0
    else
      pt ← get_task parent;
      upd_task child (λ t, set_kstack_size (16 * 1024) (set_is_user 1 (set_state TASK_READY
        (set_name "forked" (set_ppid (pid pt) t))))) ;;
      task_register child ;;
      cr ← liftk vmm_fork_user_space;
      upd_task child (set_tcr3 cr) ;;
      pt ← get_task parent;
      upd_task child (set_fds (fds pt)) ;;
      ct ← get_task child;
      a ← fork_stack (stack_top ct) fr;
      upd_task child (set_rsp a) ;;
      sched_enqueue_user child ;;
      ct ← get_task child;
      klog "[info] fork: pid %u -> %u\n" [KU (wrap32 (pid pt)); KU (wrap32 (pid ct))] ;;
      mret child.

(** ** [execve] *)

Fixpoint free_user_tables (level : nat) (table : Z) : M (kst D) unit :=
  for_ 512 0 (λ i,
    e ← liftk (tload table i);
    if negb (has e VMM_PRESENT) then mret tt
    else
      match level with
      | O => liftpm (pmm_unref (Z.land e PTE_MASK))
      | S l =>
          sub ← liftk (p2v (Z.land e PTE_MASK));
          free_user_tables l sub ;;
          liftpm (pmm_free (Z.land e PTE_MASK))
      end).

(** The old image: every user table and page, and the PML4 itself. *)
Definition free_user_space (cr : Z) : M (kst D) unit :=
  liftk (vmm_switch cr) ;;
  old ← liftk (p2v cr);
  for_ 256 0 (λ i,
    e ← liftk (tload old i);
    if has e VMM_PRESENT then
      sub ← liftk (p2v (Z.land e PTE_MASK));
      free_user_tables 2 sub ;;
      e ← liftk (tload old i);
      liftpm (pmm_free (Z.land e PTE_MASK))
    else mret tt) ;;
  liftpm (pmm_free cr).

(** The addresses [build_user_stack] computes, for a path of [pathlen] bytes
    with its NUL: of the string, of the random bytes, and the stack pointer. *)
Definition argv0_va (pathlen : Z) : Z := USER_STACK_TOP - 64 -w pathlen.
Definition atrandom_va (pathlen : Z) : Z := Z.land (argv0_va pathlen -w 16) (~w 0xF).
Definition AT_NULL : Z := 0.
Definition AT_PAGESZ : Z := 6.
Definition AT_RANDOM : Z := 25.
Definition auxv (pathlen : Z) : list Z :=
  [AT_PAGESZ; UIX_PAGE_SIZE; AT_RANDOM; atrandom_va pathlen; AT_NULL; 0].
Definition frame_words : Z := 1 + 2 + 1 + 6 + 1.
Definition user_rsp_of (pathlen : Z) : Z := Z.land (atrandom_va pathlen -w frame_words * 8) (~w 0xF).

Definition stack_words (pathlen : Z) : list Z := [1; argv0_va pathlen; 0; 0] ++ auxv pathlen.

(** The bytes of the C string at the start of a local array. *)
Fixpoint cstr_bytes (bs : list Z) : list Z :=
  match bs with
  | [] => []
  | b :: bs => if b =? 0 then [] else b :: cstr_bytes bs
  end.

Definition build_user_stack (path : list Z) : M (kst D) Z :=
  let str := cstr_bytes path in
  let pathlen := Z.of_nat (length str) + 1 in
  copy_out (argv0_va pathlen) (str ++ [0]) ;;
  for_ 16 0 (λ i, liftk (vstore8 (atrandom_va pathlen + i) (wrap8 (i * 7 + 0x5A)))) ;;
  store_words (user_rsp_of pathlen) (stack_words pathlen) ;;
  mret (user_rsp_of pathlen).

(** [for (i = 0; i < 63 && upath[i]; i++) path[i] = upath[i];] *)
Fixpoint copy_path (k : nat) (i : Z) (upath : Z) (path : list Z) : M (kst D) (list Z) :=
  match k with
  | O => mret path
  | S k =>
      c ← liftk (vload8 (upath +w i));
      if c =? 0 then mret path
      else copy_path k (i + 1) upath (<[Z.to_nat i := c]> path)
  end.

Definition is_elf (img : list Z) : bool :=
  (4 <=? Z.of_nat (length img)) && bool_decide (take 2 img = [0x7F; 69]).

(** [junk]: what the local array [path[64]] holds on entry. *)
Definition do_execve (junk : list Z) (t upath : Z) : M (kst D) ctl :=
  path ← copy_path 63 0 upath junk;
  let path := <[63%nat := 0]> path in
  found ← (match find_program path with
           | Some img => mret (Some (img, false))
           | None =>
               r ← uixfs_read path;
               if fst r <? 0 then
                 klog "[err ] execve: no such program '%s'\n" [KS (cstring path)] ;; mret None
               else bs ← kload_bytes (Z.to_nat (fst r)) (snd r); mret (Some (bs, true))
           end);
  match found with
  | None => mret (Ret (-2))
  | Some (img, from_disk) =>
      tk ← get_task t;
      (if tcr3 tk =? 0 then mret tt else free_user_space (tcr3 tk)) ;;
      cr ← liftk vmm_create_space;
      upd_task t (set_tcr3 cr) ;;
      liftk (vmm_switch cr) ;;
      entry ← (if is_elf img then elf_load img (Z.of_nat (length img))
               else load_flat (flat_pages img) img 0 ;; mret USER_CODE_BASE);
      if is_elf img && (entry =? 0) then
        klog "[err ] execve: bad ELF '%s'\n" [KS (cstring path)] ;; mret (Ret (-8))
      else
        map_user_stack ;;
        user_rsp ← (if is_elf img then build_user_stack path else mret (USER_STACK_TOP - 16));
        (if from_disk : bool then uixfs_release_buf else mret tt) ;;
        tk ← get_task t;
        a ← push_all (stack_top tk) [user_launch_trampoline; 0; 0; entry; user_rsp; 0x202; 0];
        upd_task t (set_rsp a) ;;
        j ← switch_to (λ _, mret tt) a execve_ret;
        mret (Jump j)
  end.

End process.
End Process.
