(* ===== verification/ProcessFacts.v ===== *)
(** * Facts on processes

    Writes into blocks of the heap, the allocation of tasks and stacks, and that
    a fork of the address space leaves the heap as it is. *)

From S2P Require Import Prelude Lib Pmm PmmFacts Vmm PageTables VmmFacts ForkFacts ForkProps Heap VirtMem.
From S2P Require Import HeapFacts HeapAlloc HeapProps Machine Samples Idt Task Sched SchedFacts SchedProps.
From S2P Require Import Keyboard Pci Virtio Uixfs Elf Process.

Module ProcessFacts.
Import Lib Pmm PmmFacts Vmm PageTables VmmFacts ForkFacts ForkProps Heap VirtMem.
Import HeapFacts HeapAlloc HeapProps Machine Samples Idt Task Sched SchedFacts SchedProps.
Import Keyboard Pci Virtio Uixfs Elf Process.

(** ** The heap is in the kernel half *)

Lemma heap_idx va : HEAP_VA_BASE ≤ va < HEAP_VA_END → 256 ≤ idx 3 va.
Proof.
  unfold HEAP_VA_BASE, HEAP_VA_END. intros Hva. rewrite idx_div. change (2 ^ (12 + 9 * Z.of_nat 3)) with 549755813888.
  change (2 ^ 9) with 512. Z.div_mod_to_equations. lia.
Qed.

(** An area of the kernel half after a fork. *)
Lemma fork_holds s s' r lo hi lim m :
  holds s lo hi lim m → lo ≤ hi → forked_spaces s s' r → fork_frame s s' r → (∀ va, lo ≤ va < lim → 256 ≤ idx 3 va) →
  holds s' lo hi lim m.
Proof.
  intros [Hv Hr Hb Hn Hl Hz] Hlh (Hv' & Hc & _ & _ & Hwk) [Heq Hst Hts _ Hwt] Hk.
  assert (∀ va, lo ≤ va < lim → walk 3 (pm (vp s')) (cr3 s') va = walk 3 (pm (vp s)) (cr3 s) va) as Hw.
  { intros va Hva. rewrite Hc. by apply Hwk, Hk. }
  assert (region s' lo hi) as Hr'.
  { split; [| |apply Hr].
    - intros va Hva. destruct (rg_page _ _ _ Hr va Hva) as (e & Hwe & Hwr & Hwv & Hcl & Ht). exists e.
      rewrite Hw by lia. rewrite Hc, Hts, Hwt by (apply Hk; lia). split_and!; try done. by eapply step_client.
    - intros va va' e e' Hva Hva'. rewrite !Hw by lia. by apply Hr. }
  split; [done|done| | |done|done].
  - intros va Hva. rewrite <-(Hb va Hva). destruct (region_mmu _ _ _ Hr va Hva) as (e & Hwe & _ & -> & Hcl & Ht).
    destruct (region_mmu _ _ _ Hr' va Hva) as (e' & Hwe' & _ & -> & _). rewrite Hw, Hwe in Hwe' by lia. injection Hwe' as <-.
    apply (st_mem _ _ _ Hst _ Hcl Ht). unfold UIX_PAGE_SIZE. pose proof (Z.mod_pos_bound va 4096). lia.
  - intros va Hva. rewrite Hw by lia. rewrite Hc, Hwt by (apply Hk; lia). by apply Hn.
Qed.

(** Work on that area after the fork leaves the child's space alone. *)
Lemma child_space_kept s s' s'' r lo hi lim m m'' :
  holds s lo hi lim m → lo ≤ hi → forked_spaces s s' r → fork_frame s s' r → (∀ va, lo ≤ va < lim → 256 ≤ idx 3 va) →
  spared lo s' hi s'' hi → holds s'' lo hi lim m'' →
  wf_tree (vp s'') r ∧ ∀ va, walk 3 (pm (vp s'')) r va = walk 3 (pm (vp s')) r va.
Proof.
  intros Hh Hlh Hf Hff Hk Hsp Hh''. pose proof (fork_holds _ _ _ _ _ _ _ Hh Hlh Hf Hff Hk) as Hh'.
  destruct Hf as (Hv' & Hc & Htr & _ & Hwk). destruct Hff as [_ Hst Hts Hch _].
  assert (∀ T, T ∈ tpages 3 (pm (vp s')) r → client_page (vp s'') (T / UIX_PAGE_SIZE) ∧ same_bytes (pm (vp s')) (pm (vp s'')) (T / UIX_PAGE_SIZE)) as Hb.
  { intros T HT. destruct (Hch T HT) as [Hq|Hq].
    - destruct (sp_tset _ _ _ _ _ Hsp eq_refl (T / UIX_PAGE_SIZE)) as [Hq'' Hb]; [by rewrite Hc, Hts|]. split; [|done].
      apply tset_inv in Hq'' as (T' & HT' & ->). by apply (wt_page _ _ (wv_tree _ (hd_wf _ _ _ _ _ Hh''))).
    - assert (foreign s' lo hi (T / UIX_PAGE_SIZE)) as Hfo; [|by destruct (sp_foreign _ _ _ _ _ Hsp _ Hfo) as [(? & _) ?]].
      split_and!; [by apply (wt_page _ _ Htr)| |].
      + rewrite Hc, Hts. intros (T' & HT' & E)%tset_inv. rewrite E in Hq.
        by apply (wt_page _ _ (wv_tree _ (hd_wf _ _ _ _ _ Hh))) in HT' as [_ [_ ? _ _]].
      + intros (va & e & Hva & Hw & E). rewrite Hc in Hw. rewrite (proj2 (Hwk va (Hk va ltac:(pose proof (hd_lim _ _ _ _ _ Hh); lia)))) in Hw.
        destruct (rg_page _ _ _ (hd_region _ _ _ _ _ Hh) va Hva) as (e' & Hw' & _ & _ & [_ Hn _ _] & _).
        rewrite Hw in Hw'. injection Hw' as <-. rewrite <-E in Hq. done. }
  assert (∀ T, T ∈ tpages 3 (pm (vp s')) r → same_tbl (pm (vp s')) (pm (vp s'')) T) as Hs.
  { intros T HT. destruct (tbl_page_bounds _ _ (wv_pmm _ Hv') (wt_page _ _ Htr T HT)) as (_ & _ & ->). by apply same_bytes_tbl, Hb. }
  assert (tpages 3 (pm (vp s'')) r = tpages 3 (pm (vp s')) r) as Htp by by apply tpages_ext.
  split; [|intros va; by apply walk_ext]. split; rewrite Htp; [apply Htr|].
  intros T HT. split; [by apply (wt_page _ _ Htr)|by apply Hb].
Qed.

(** ** Writes into a block *)

(** Only bytes in [lo, hi) differ. *)
Definition wrote_in (lo hi : Z) (m m' : mem) : Prop := ∀ b, b < lo ∨ hi ≤ b → ld8 m' b = ld8 m b.

Lemma wrote_in_trans lo hi m m' m'' : wrote_in lo hi m m' → wrote_in lo hi m' m'' → wrote_in lo hi m m''.
Proof. intros H1 H2 b Hb. rewrite H2 by done. by apply H1. Qed.

Lemma wrote_in_stn n lo hi a v m : lo ≤ a → a + Z.of_nat n ≤ hi → wrote_in lo hi m (stn n a v m).
Proof. intros H1 H2 b Hb. apply ld8_stn_out. lia. Qed.

(** The contents of the used blocks but [c]. *)
Definition others_kept (c : block) (bs : list block) (m m' : mem) : Prop :=
  ∀ d a, d ∈ bs → d ≠ c → b_used d = true → b_addr d + HDR_SIZE ≤ a < b_end d → ld8 m' a = ld8 m a.

Lemma heap_holds m bs fl s : heap_ok m bs fl s → holds (hvm s) HEAP_VA_BASE (heap_brk s) HEAP_VA_END m.
Proof. intros Hh. apply (sa_holds _ _ _ _ _ (hp_sat _ _ _ _ _ Hh)). Qed.

(** Writing the payload of a used block leaves the heap well formed. *)
Lemma heap_write m m' bs fl s v c :
  heap_ok m bs fl s → c ∈ bs → b_used c = true → wrote_in (b_addr c + HDR_SIZE) (b_end c) m m' →
  holds v HEAP_VA_BASE (heap_brk s) HEAP_VA_END m' →
  heap_ok m' bs fl (set_hvm v s) ∧ others_kept c bs m m'.
Proof.
  intros [Hs Ht Hf Hl Hp] Hc Hu Hw Hv.
  assert (∀ d, d ∈ bs → hdr m' (b_addr d) = hdr m (b_addr d)) as Ho.
  { intros d Hd. apply hdr_ext. intros b Hb. apply Hw. destruct (decide (d = c)) as [->|Hne]; [lia|].
    pose proof (tiles_disjoint _ _ _ _ _ Ht Hd Hc Hne). apply tiles_bounds in Ht as [_ Hbd].
    pose proof (Hbd d Hd). pose proof (Hbd c Hc). unfold b_end in *. lia. }
  split; [split|].
  - destruct Hs. by split.
  - exact Ht.
  - rewrite Forall_forall in *. intros d Hd. unfold hdr_ok. rewrite Ho by done. by apply Hf.
  - eapply lseg_ext; [|exact Hl]. intros a Ha. rewrite Hp in Ha. apply elem_of_free_addrs in Ha as (d & Hd & _ & <-). by apply Ho.
  - exact Hp.
  - intros d a Hd Hne _ Ha. apply Hw. pose proof (tiles_disjoint _ _ _ _ _ Ht Hd Hc Hne). unfold HDR_SIZE in *. lia.
Qed.

Lemma heap_vm m bs fl s v :
  heap_ok m bs fl s → holds v HEAP_VA_BASE (heap_brk s) HEAP_VA_END m → heap_ok m bs fl (set_hvm v s).
Proof. intros [[] ? ? ? ?] Hv. by split; [split; [..|apply spared_refl| | | |]|..]. Qed.

(** The block [c], in use besides those of [us], is none of them. *)
Lemma fresh_block m bs' fl' s c us :
  heap_ok m bs' fl' s → used_blocks bs' ≡ₚ c :: us →
  c ∈ bs' ∧ b_used c = true ∧ (c ∉ us) ∧ (∀ d, d ∈ us → d ∈ bs' ∧ b_used d = true ∧ b_addr d ≠ b_addr c).
Proof.
  intros Hh Hu. assert (∀ d, d ∈ c :: us → d ∈ bs' ∧ b_used d = true) as Hin.
  { intros d Hd. rewrite <-Hu in Hd. by apply list_elem_of_filter in Hd as [? ?]. }
  pose proof (tiles_NoDup _ _ _ (hp_tiles _ _ _ _ _ Hh)) as Hnd.
  assert (NoDup (c :: us)) as [Hc Hus]%NoDup_cons by (rewrite <-Hu; by apply NoDup_filter).
  destruct (Hin c (list_elem_of_here _ _)) as [? ?]. split_and!; [done..|]. intros d Hd.
  destruct (Hin d (list_elem_of_further _ _ _ Hd)) as [Hd1 Hd2]. split_and!; [done..|]. intros E.
  pose proof (hp_tiles _ _ _ _ _ Hh) as Ht. destruct (tiles_bounds _ _ _ Ht) as [_ Hbd].
  pose proof (Hbd d Hd1). pose proof (Hbd c ltac:(done)). unfold b_end, HDR_SIZE in *.
  destruct (tiles_disjoint _ _ _ d c Ht Hd1 ltac:(done)) as [Hx|Hx]; [by intros ->|unfold b_end in Hx; lia..].
Qed.

(** Writes into a block that was not in use before. *)
Lemma stack_written m m' m'' bs bs' fl' h v c :
  heap_ok m' bs' fl' h → payload_kept bs m m' → c ∈ bs' → b_used c = true → c ∉ used_blocks bs → used_blocks bs ⊆ used_blocks bs' →
  wrote_in (b_addr c + HDR_SIZE) (b_end c) m' m'' → holds v HEAP_VA_BASE (heap_brk h) HEAP_VA_END m'' →
  heap_ok m'' bs' fl' (set_hvm v h) ∧ payload_kept bs m m''.
Proof.
  intros Hh Hk Hc Hu Hn Hsub Hw Hv. destruct (heap_write _ _ _ _ _ v c Hh Hc Hu Hw Hv) as [Hh' Ho]. split; [done|].
  intros d b Hd Hud Hb. rewrite <-(Hk d b Hd Hud Hb). assert (d ∈ used_blocks bs) as Hdu by by apply list_elem_of_filter.
  apply (Ho d); [|by intros ->|done|done]. apply Hsub in Hdu. by apply list_elem_of_filter in Hdu as [_ ?].
Qed.

(** [memset] of an area that is mapped. *)
Lemma vmemset_run s lo hi lim m va b n :
  0 ≤ lo → hi < 2 ^ 64 → holds s lo hi lim m → lo ≤ va → va + n ≤ hi → 0 ≤ n →
  ∃ m' s', vmemset va b n s = Ok tt s' ∧ worked lo hi lim s m' s' ∧ wrote_in va (va + n) m m'.
Proof.
  intros Hlo Hhi Hh H1 H2 Hn.
  assert (runs (vmemset va b n) s (λ _ s', ∃ m', worked lo hi lim s m' s' ∧ wrote_in va (va + n) m m') (λ _, False)) as Hr.
  { unfold vmemset. eapply runs_mono; [apply (runs_for _ 0 _ (λ _ s', ∃ m', worked lo hi lim s m' s' ∧ wrote_in va (va + n) m m'))| |by intros ? H'; exact H'].
    - exists m. split; [split; [done|apply spared_refl]|done].
    - intros j t Hj (m' & [Ht Hsp] & Hw). rewrite wrap64_small by lia.
      destruct (put8_holds t lo hi lim m' (va + j) b Ht ltac:(lia)) as [Ht' Hsp'].
      unfold runs. rewrite (put8_run t lo hi (va + j) b (hd_region _ _ _ _ _ Ht) ltac:(lia)).
      eexists. split; [split; [exact Ht'|by eapply spared_trans]|]. eapply wrote_in_trans; [exact Hw|].
      intros c Hc. apply ld8_st8_ne. lia.
    - by intros [] t Ht. }
  apply runs_Ok in Hr as [([] & s' & He & m' & Hm)|(? & ? & _ & [])]. by exists m', s'.
Qed.

(** ** Allocation *)

(** The heap [h'] has a new block [c] of [n] bytes; what was in use is as before. *)
Record grew (c : block) (n : Z) (m m' : mem) (bs bs' : list block) (h h' : heap_st) : Prop := Grew {
  gw_used : used_blocks bs' ≡ₚ c :: used_blocks bs;
  gw_size : n + HDR_SIZE ≤ b_size c;
  gw_kept : payload_kept bs m m';
  gw_spared : spared HEAP_VA_BASE (hvm h) (heap_brk h) (hvm h') (heap_brk h');
  gw_brk : heap_brk h' ≤ heap_brk h + 65536;
}.

Lemma used_in bs d : d ∈ bs → b_used d = true → d ∈ used_blocks bs.
Proof. intros. by apply list_elem_of_filter. Qed.

(** Writes into the new block do not matter to the others. *)
Lemma grew_write c n m m' m'' bs bs' fl' h h' v :
  heap_ok m' bs' fl' h' → grew c n m m' bs bs' h h' →
  wrote_in (b_addr c + HDR_SIZE) (b_end c) m' m'' → worked HEAP_VA_BASE (heap_brk h') HEAP_VA_END (hvm h') m'' v →
  heap_ok m'' bs' fl' (set_hvm v h') ∧ grew c n m m'' bs bs' h (set_hvm v h').
Proof.
  intros Hh [Hu Hz Hk Hs Hb] Hw [Hv Hsv]. destruct (fresh_block _ _ _ _ _ _ Hh Hu) as (Hc & Huc & Hnot & Hold).
  destruct (heap_write _ _ _ _ _ v c Hh Hc Huc Hw Hv) as [Hh' Ho]. split; [done|]. split; [done|done| | |done].
  - intros d a Hd Hud Ha. rewrite <-(Hk d a Hd Hud Ha). pose proof (used_in _ _ Hd Hud) as Hdu.
    apply (Ho d); [by apply Hold|by intros ->|done|done].
  - eapply spared_trans; [exact Hs|exact Hsv].
Qed.

Section alloc.
Context {D : Type}.
Implicit Types s : kst D.

Lemma runs_lifth {A} (x : M heap_st A) s (Q : A → heap_st → Prop) (F : stop → Prop) :
  runs x (k_heap s) Q F → runs (lifth x) s (λ a s', s' = set_k_heap (k_heap s') s ∧ Q a (k_heap s')) F.
Proof. unfold runs, lifth, zoom. by destruct (x (k_heap s)). Qed.

(** The outcome of an allocation of [n] bytes. *)
Definition allocates (n : Z) (m : mem) (bs : list block) (h : heap_st) (p : Z) (h' : heap_st) : Prop :=
  ∃ m' bs' fl' c, heap_ok m' bs' fl' h' ∧ grew c n m m' bs bs' h h' ∧ p = b_addr c + HDR_SIZE ∧ p ≠ 0.

Lemma kmalloc_allocates h m bs fl n :
  heap_ok m bs fl h → 1 ≤ n → n + HDR_SIZE ≤ HEAP_MAX → heap_brk h + 65536 ≤ HEAP_VA_END →
  runs (kmalloc n) h (allocates n m bs h) oom.
Proof.
  intros Hh Hn Hmax Hlim. eapply runs_mono; [by apply (kmalloc_run h m bs fl)| |by intros w [? _]].
  intros p h' [(m' & bs' & fl' & c & Hh' & Hu & Hp & Hz & Hk) Hb]. exists m', bs', fl', c.
  pose proof (heap_at_self _ _ _ _ _ Hh') as Hok. split_and!; [done| |done|].
  - split; [done|lia|done|apply (sa_spared _ _ _ _ _ (hp_sat _ _ _ _ _ Hh'))|].
    rewrite Hb. destruct (fits bs (n + HDR_SIZE)); unfold SUPER_PAGES, UIX_PAGE_SIZE; lia.
  - destruct (fresh_block _ _ _ _ _ _ Hok Hu) as (Hc & _). destruct (tiles_bounds _ _ _ (hp_tiles _ _ _ _ _ Hok)) as [_ Hbd].
    pose proof (Hbd c Hc). unfold HEAP_VA_BASE, HDR_SIZE in *. lia.
Qed.

Lemma kzalloc_allocates h m bs fl n :
  heap_ok m bs fl h → 1 ≤ n → n + HDR_SIZE ≤ HEAP_MAX → heap_brk h + 65536 ≤ HEAP_VA_END →
  runs (kzalloc n) h (allocates n m bs h) oom.
Proof.
  intros Hh Hn Hmax Hlim. unfold kzalloc. apply runs_bind.
  eapply runs_mono; [by apply (kmalloc_allocates h m bs fl)| |by intros ? H'; exact H'].
  intros p h1 (m1 & bs1 & fl1 & c & Hh1 & Hg & Hp & Hp0). rewrite (proj2 (Z.eqb_neq p 0)) by done.
  destruct (fresh_block _ _ _ _ _ _ Hh1 (gw_used _ _ _ _ _ _ _ _ Hg)) as (Hc & _).
  destruct (tiles_bounds _ _ _ (hp_tiles _ _ _ _ _ Hh1)) as [_ Hbd]. pose proof (Hbd c Hc) as Hcb. pose proof (gw_size _ _ _ _ _ _ _ _ Hg) as Hz.
  pose proof (hd_lim _ _ _ _ _ (heap_holds _ _ _ _ Hh1)) as Hl. unfold b_end in Hcb.
  destruct (vmemset_run (hvm h1) HEAP_VA_BASE (heap_brk h1) HEAP_VA_END m1 p 0 n) as (m2 & v2 & He & Hw2 & Hwr);
    [done|unfold HEAP_VA_END in Hl; lia|by apply (heap_holds m1 bs1 fl1)|unfold HDR_SIZE in *; lia..|].
  eapply (runs_bind_Ok _ _ _ tt (set_hvm v2 h1)); [unfold liftv, zoom; by rewrite He|]. eapply runs_ret; [done|].
  destruct (grew_write c n m m1 m2 bs bs1 fl1 h h1 v2 Hh1 Hg) as [Hh2 Hg2]; [|exact Hw2|].
  - intros b Hb. apply Hwr. unfold b_end in Hb. lia.
  - by exists m2, bs1, fl1, c.
Qed.
End alloc.

End ProcessFacts.
