(* ===== verification/Syscall.v ===== *)
(** * System calls and interrupts ([core/cpu/syscall.c], [core/cpu/idt.c])

    The dispatcher of [int 0x80] and of every other vector.  Arguments come from
    the saved frame; user pointers are dereferenced through the page tables of
    the calling task, without any check. *)

From S2P Require Import Prelude Lib Pmm Vmm Heap Machine Idt Task Sched Keyboard.
From S2P Require Import Pci Virtio Uixfs Elf Process Apic.

Module Syscall.
Import Lib Pmm Vmm Heap Machine Idt Task Sched Keyboard Pci Virtio Uixfs Elf Process Apic.

Definition SYS_exit : Z := 0.
Definition SYS_write : Z := 1.
Definition SYS_getpid : Z := 2.
Definition SYS_yield : Z := 3.
Definition SYS_read : Z := 4.
Definition SYS_close : Z := 5.
Definition SYS_open : Z := 6.
Definition SYS_fork : Z := 7.
Definition SYS_execve : Z := 8.
Definition SYS_wait4 : Z := 9.

(** [(u64)-errno] *)
Definition errno (n : Z) : Z := wrap64 (- n).

(** ["/dev/console"] with its NUL. *)
Definition cons_path : list Z := [47; 100; 101; 118; 47; 99; 111; 110; 115; 111; 108; 101; 0].

Section syscall.
Context {D : Type} {HW : Hardware D} {CS : CpuSymbols} {SY : Symbols} {PR : Programs}.

Definition syscall_init : M (kst D) unit := idt_gate_set_dpl3 128.

Definition sys_exit (t : Z) (fr : iframe) : M (kst D) ctl :=
  tk ← get_task t;
  klog "[info] pid %u exited with %u\n" [KU (wrap32 (pid tk)); KU (wrap32 (f_rdi fr))] ;;
  upd_task t (λ tk, set_state TASK_ZOMBIE (set_exit_status (sint32 (wrap32 (f_rdi fr))) tk)) ;;
  tk ← get_task t;
  task_wakeup_children (pid tk) (ppid tk) ;;
  r ← schedule;
  match r with
  | Some a => mret (Jump a)
  | None => undef "__builtin_unreachable in SYS_exit"
  end.

Definition sys_write (t : Z) (fr : iframe) : M (kst D) ctl :=
  let fd := sint32 (wrap32 (f_rdi fr)) in
  tk ← get_task t;
  if negb (proc_fd_type tk fd =? FD_CONSOLE_OUT) then mret (Ret (errno 9))
  else
    for_ (Z.to_nat (f_rdx fr)) 0 (λ i, c ← liftk (vload8 (f_rsi fr +w i)); console_putc c) ;;
    mret (Ret (f_rdx fr)).

Definition sys_read (t : Z) (fr : iframe) : M (kst D) ctl :=
  let fd := sint32 (wrap32 (f_rdi fr)) in
  tk ← get_task t;
  if negb (proc_fd_type tk fd =? FD_CONSOLE_IN) then mret (Ret (errno 9))
  else if f_rdx fr <? 1 then mret (Ret 0)
  else
    tty_poll ;;
    n ← tty_readline (f_rsi fr) (wrap32 (f_rdx fr));
    mret (Ret n).

Definition sys_close (t : Z) (fr : iframe) : M (kst D) ctl :=
  let fd := sint32 (wrap32 (f_rdi fr)) in
  tk ← get_task t;
  if proc_fd_type tk fd =? FD_NONE then mret (Ret (errno 9))
  else put_task t (proc_fd_free tk fd) ;; mret (Ret 0).

(** The comparison with [cons]: the index where the loop stops. *)
Fixpoint cmp_cons (k : nat) (i path : Z) : M (kst D) Z :=
  match k with
  | O => mret i
  | S k =>
      c ← liftk (vload8 (path +w i));
      if negb (c =? default 0 (cons_path !! Z.to_nat i)) then mret i
      else if c =? 0 then mret i
      else cmp_cons k (i + 1) path
  end.

Definition sys_open (t : Z) (fr : iframe) : M (kst D) ctl :=
  i ← cmp_cons (length cons_path) 0 (f_rdi fr);
  c ← liftk (vload8 (f_rdi fr +w i));
  if negb (c =? 0) || negb (default 0 (cons_path !! Z.to_nat i) =? 0) then mret (Ret (errno 2))
  else
    tk ← get_task t;
    let '(fd, tk) := proc_fd_alloc tk FD_CONSOLE_IN in
    put_task t tk ;;
    mret (Ret (wrap64 fd)).

Definition sys_fork (t : Z) (fr : iframe) : M (kst D) ctl :=
  child ← do_fork t fr;
  if child =? 0 then mret (Ret (errno 12))
  else ct ← get_task child; mret (Ret (pid ct)).

Definition sys_execve (junk : list Z) (t : Z) (fr : iframe) : M (kst D) ctl :=
  r ← do_execve junk t (f_rdi fr);
  mret (match r with Ret v => Ret (wrap64 v) | Jump a => Jump a end).

(** One round of the loop of [wait4]: the reaped pid, if there is a zombie. *)
Definition wait4_try (t want status_uptr : Z) : M (kst D) (option Z) :=
  tk ← get_task t;
  z ← task_find_zombie (pid tk) want;
  if z =? 0 then mret None
  else
    zt ← get_task z;
    (if status_uptr =? 0 then mret tt else liftk (vstn 8 status_uptr (wrap64 (exit_status zt)))) ;;
    upd_task z (set_state TASK_DEAD) ;;
    klog "[info] wait4: pid %u reaped %u (status %u)\n"
      [KU (wrap32 (pid tk)); KU (wrap32 (pid zt)); KU (wrap32 (exit_status zt))] ;;
    mret (Some (pid zt)).

(** The loop; a round that blocks goes on in another task, and the caller runs
    the loop again when it is resumed.  [spin] bounds the rounds in which
    [task_block_any] comes straight back. *)
Fixpoint sys_wait4 (spin : nat) (t : Z) (fr : iframe) : M (kst D) ctl :=
  match spin with
  | O => diverge
  | S spin =>
      r ← wait4_try t (f_rdi fr) (f_rsi fr);
      match r with
      | Some p => mret (Ret p)
      | None =>
          b ← task_block_any;
          match b with
          | Some a => mret (Jump a)
          | None => sys_wait4 spin t fr
          end
      end
  end.

(** A task blocked in [wait4] that is switched back in. *)
Definition wait4_resume (spin : nat) (t : Z) (fr : iframe) : M (kst D) ctl :=
  schedule_resume ;; sys_wait4 spin t fr.

Definition syscall_dispatch (spin : nat) (junk : list Z) (fr : iframe) : M (kst D) ctl :=
  t ← task_current;
  let n := f_rax fr in
  if n =? SYS_exit then sys_exit t fr
  else if n =? SYS_write then sys_write t fr
  else if n =? SYS_getpid then tk ← get_task t; mret (Ret (pid tk))
  else if n =? SYS_read then sys_read t fr
  else if n =? SYS_close then sys_close t fr
  else if n =? SYS_open then sys_open t fr
  else if n =? SYS_fork then sys_fork t fr
  else if n =? SYS_execve then sys_execve junk t fr
  else if n =? SYS_wait4 then sys_wait4 spin t fr
  else if n =? SYS_yield then task_yield ;; mret (Ret 0)
  else mret (Ret (errno 38)).

(** ** Dispatch of a vector *)

(** The frame [iretq] will restore, or the address of another context. *)
Inductive isr_result := Iret (fr : iframe) | Gone (a : Z).

Definition finish (fr : iframe) : M (kst D) isr_result := apic_eoi ;; mret (Iret fr).

(** [cr2]: the faulting address of a page fault. *)
Definition isr_dispatch (spin : nat) (junk : list Z) (cr2 : Z) (fr : iframe) : M (kst D) isr_result :=
  if f_int_no fr <? 32 then
    handled ← (if f_int_no fr =? 14 then
                 r ← liftk (vmm_page_fault cr2 (f_err fr)); mret (r =? 0)
               else mret false);
    if handled : bool then mret (Iret fr)
    else
      klog "[err ] exception %u (%s) in ring %u\n"
        [KU (wrap32 (f_int_no fr)); KS (default "?" (exc_name !! Z.to_nat (f_int_no fr)));
         KU (wrap32 (Z.land (f_cs fr) 3))] ;;
      dump_frame fr ;;
      panic "unhandled exception"
  else if f_int_no fr =? 32 then
    apic_eoi ;;
    apic_timer_tick ;;
    r ← sched_tick;
    mret (match r with Some a => Gone a | None => Iret fr end)
  else if f_int_no fr =? 33 then keyboard_irq ;; finish fr
  else if f_int_no fr =? 128 then
    r ← syscall_dispatch spin junk fr;
    match r with
    | Ret v => finish (set_f_rax v fr)
    | Jump a => mret (Gone a)
    end
  else finish fr.

End syscall.
End Syscall.
