(* ===== verification/Entry.v ===== *)
(** * Entry to and exit from the kernel ([arch/x86_64/cpu.S], [arch/x86_64/switch.S])

    What the processor does when it takes an interrupt and executes [iretq], the
    entry stubs that build the frame for [isr_dispatch] around it, and the code
    a new task runs first: [task_entry_trampoline], [user_launch_trampoline] and
    [fork_child_stub].  The stack frames of C functions are not modelled: on a
    return from [isr_dispatch] the stack pointer is where it was at the call. *)

From S2P Require Import Prelude Lib Pmm Vmm Heap Machine Idt Task Sched Keyboard.
From S2P Require Import Pci Virtio Uixfs Elf Process Apic Syscall.

Module Entry.
Import Lib Pmm Vmm Heap Machine Idt Task Sched Keyboard Pci Virtio Uixfs Elf Process Apic Syscall.

(** The general registers, in the order of [struct iframe]. *)
Record gprs := Gprs {
  g_rax : Z; g_rcx : Z; g_rdx : Z; g_rbx : Z; g_rbp : Z; g_rsi : Z; g_rdi : Z;
  g_r8 : Z; g_r9 : Z; g_r10 : Z; g_r11 : Z; g_r12 : Z; g_r13 : Z; g_r14 : Z; g_r15 : Z;
}.

(** What the processor saves by itself when it takes an interrupt. *)
Record iret_frame := IretFrame { i_rip : Z; i_cs : Z; i_rflags : Z; i_rsp : Z; i_ss : Z }.

(** The state of the interrupted code. *)
Record context := Context { c_gprs : gprs; c_iret : iret_frame }.

Definition gprs_words (g : gprs) : list Z :=
  [g_rax g; g_rcx g; g_rdx g; g_rbx g; g_rbp g; g_rsi g; g_rdi g;
   g_r8 g; g_r9 g; g_r10 g; g_r11 g; g_r12 g; g_r13 g; g_r14 g; g_r15 g].
Definition iret_words (f : iret_frame) : list Z := [i_rip f; i_cs f; i_rflags f; i_rsp f; i_ss f].

(** [n]-th word of a list of words. *)
Definition word (ws : list Z) (n : nat) : Z := default 0 (ws !! n).
Definition gprs_of (ws : list Z) : gprs :=
  Gprs (word ws 0) (word ws 1) (word ws 2) (word ws 3) (word ws 4) (word ws 5) (word ws 6) (word ws 7)
    (word ws 8) (word ws 9) (word ws 10) (word ws 11) (word ws 12) (word ws 13) (word ws 14).
Definition iret_of (ws : list Z) : iret_frame := IretFrame (word ws 0) (word ws 1) (word ws 2) (word ws 3) (word ws 4).

(** The frame [isr_dispatch] finds for a context. *)
Definition frame_of (int_no err : Z) (c : context) : iframe :=
  let g := c_gprs c in let f := c_iret c in
  Iframe (g_rax g) (g_rcx g) (g_rdx g) (g_rbx g) (g_rbp g) (g_rsi g) (g_rdi g) (g_r8 g) (g_r9 g) (g_r10 g)
    (g_r11 g) (g_r12 g) (g_r13 g) (g_r14 g) (g_r15 g) int_no err (i_rip f) (i_cs f) (i_rflags f) (i_rsp f) (i_ss f).
Definition context_of (f : iframe) : context :=
  Context (Gprs (f_rax f) (f_rcx f) (f_rdx f) (f_rbx f) (f_rbp f) (f_rsi f) (f_rdi f) (f_r8 f) (f_r9 f) (f_r10 f)
    (f_r11 f) (f_r12 f) (f_r13 f) (f_r14 f) (f_r15 f)) (IretFrame (f_rip f) (f_cs f) (f_rflags f) (f_rsp f) (f_ss f)).
Definition frame_of_words (ws : list Z) : iframe :=
  let c := Context (gprs_of ws) (iret_of (drop 17 ws)) in frame_of (word ws 15) (word ws 16) c.

(** ** The stubs *)

(** [ISR vec, has_err] *)
Definition isr_has_err (v : Z) : bool := bool_decide (v ∈ [8; 10; 11; 12; 13; 14; 17]).

(** The vector the stub in [isr_stub_table] pushes: [isr_unhandled] is behind
    those that are not routed. *)
Definition stub_vector (v : Z) : Z := if (v <? 48) || (v =? 128) then v else 0xFF.

(** Vectors for which the processor pushes an error code: besides those of
    [isr_has_err], control protection, VMM communication and security. *)
Definition hw_has_err (v : Z) : bool := bool_decide (v ∈ [8; 10; 11; 12; 13; 14; 17; 21; 29; 30]).

Definition IF_FLAG : Z := 0x200.

(** Where an interrupt leads: back to a context, or to the address at which
    another task goes on. *)
Inductive int_result := Resumed (c : context) | Switched (a : Z).

Section entry.
Context {D : Type} {HW : Hardware D} {CS : CpuSymbols} {SY : Symbols} {PR : Programs}.

(** ** The processor *)

(** The callee-saved registers are those of the code that runs. *)
Definition load_callee (g : gprs) (c : cpu_vars) : cpu_vars :=
  set_rbx (g_rbx g) (set_rbp (g_rbp g) (set_r12 (g_r12 g) (set_r13 (g_r13 g) (set_r14 (g_r14 g) (set_r15 (g_r15 g) c))))).

(** The stack an interrupt is taken on: the one the gate names, else that of
    the task state segment on a change of ring, else the current one. *)
Definition entry_stack (c : cpu_vars) (v : Z) (f : iret_frame) : Z :=
  let g := default gate_zero (idt c !! Z.to_nat v) in
  let top := if negb (gist g =? 0) then hw_ist (tss c) (gist g)
             else if Z.land (i_cs f) 3 =? 0 then i_rsp f else hw_rsp0 (tss c) in
  Z.land top (~w 0xF).

(** Interrupt [v] is taken in context [c]. *)
Definition deliver (v err : Z) (c : context) : M (kst D) unit :=
  cpu ← gets k_cpu;
  a ← push_all (entry_stack cpu v (c_iret c)) (rev (iret_words (c_iret c)) ++ if hw_has_err v then [err] else []);
  mod_cpu (λ u, set_seg_cs K_CS (set_iflag false (set_sp a (load_callee (c_gprs c) u)))).

Fixpoint pop_words (n : nat) : M (kst D) (list Z) :=
  match n with
  | O => mret []
  | S n => v ← pop; vs ← pop_words n; mret (v :: vs)
  end.

Definition iretq : M (kst D) iret_frame :=
  ws ← pop_words 5;
  let f := iret_of ws in
  mod_cpu (λ u, set_seg_cs (i_cs f) (set_seg_ss (i_ss f) (set_sp (i_rsp f) (set_iflag (has (i_rflags f) IF_FLAG) u)))) ;;
  mret f.

(** ** [isr_common] *)

(** From the stub of [v] to the call of [isr_dispatch]: the frame is at the
    stack pointer. *)
Definition isr_enter (v : Z) (g : gprs) : M (kst D) unit :=
  a ← gets (λ s, sp (k_cpu s));
  a ← push_all a ((if isr_has_err v then [] else [0]) ++ [stub_vector v] ++ rev (gprs_words g));
  mod_cpu (set_sp a).

Fixpoint load_words (n : nat) (a : Z) : M (kst D) (list Z) :=
  match n with
  | O => mret []
  | S n => v ← liftk (vldn 8 a); vs ← load_words n (a +w 8); mret (v :: vs)
  end.

(** [struct iframe *fr], read at the call. *)
Definition load_frame (a : Z) : M (kst D) iframe := ws ← load_words 22 a; mret (frame_of_words ws).

(** The 15 pops, [addq $16, %rsp] and [iretq]. *)
Definition isr_leave : M (kst D) context :=
  ws ← pop_words 15;
  let g := gprs_of ws in
  mod_cpu (λ u, set_sp (sp u +w 16) (load_callee g u)) ;;
  f ← iretq;
  mret (Context g f).

(** The whole way of an interrupt.  [isr_dispatch] changes nothing of its frame but
    [rax], and only for a system call. *)
Definition interrupt (spin : nat) (junk : list Z) (cr2 v err : Z) (c : context) : M (kst D) int_result :=
  deliver v err c ;;
  isr_enter v (c_gprs c) ;;
  a ← gets (λ s, sp (k_cpu s));
  fr ← load_frame a;
  r ← isr_dispatch spin junk cr2 fr;
  match r with
  | Gone j => mret (Switched j)
  | Iret fr' =>
      (if f_int_no fr =? 128 then liftk (vstn 8 a (f_rax fr')) else mret tt) ;;
      mod_cpu (set_sp a) ;;
      c' ← isr_leave;
      mret (Resumed c')
  end.

(** ** The first code of a task *)

(** [task_entry_trampoline] calls [*r12] with [r13]; the function and its
    argument. *)
Definition task_entry : M (kst D) (Z * Z) := c ← gets k_cpu; mret (r12 c, r13 c).

(** [user_enter(rip, rsp, rflags)] *)
Definition user_enter (rip rsp rflags : Z) : M (kst D) iret_frame :=
  mod_cpu (set_iflag false) ;;
  a ← gets (λ s, sp (k_cpu s));
  a ← push_all a [0x23; rsp; rflags; 0x1b; rip];
  mod_cpu (λ u, set_seg_ds 0x23 (set_sp a u)) ;;
  iretq.

(** [call user_enter] from [user_launch_trampoline]; [ret] is the address after
    the call. *)
Definition user_launch (ret : Z) : M (kst D) iret_frame :=
  c ← gets k_cpu;
  a ← push_all (sp c) [ret];
  mod_cpu (set_sp a) ;;
  user_enter (r12 c) (r13 c) (r14 c).

(** [fork_child_stub] is a copy of the end of [isr_common]. *)
Definition fork_child : M (kst D) context :=
  ws ← pop_words 15;
  let g := gprs_of ws in
  mod_cpu (λ u, set_sp (sp u +w 16) (load_callee g u)) ;;
  f ← iretq;
  mret (Context g f).

End entry.
End Entry.
