(* ===== verification/SyscallProps.v ===== *)
(** * Waiting for children

    [wait4] on the registry of tasks: which child it reaps, what it leaves, and
    that its search ends. *)

From S2P Require Import Prelude Lib Pmm Vmm Heap VirtMem Machine Checks Samples Idt Task Sched Keyboard Pci Virtio Uixfs Elf Process Apic Syscall.

Module SyscallProps.
Import Lib Pmm Vmm Heap VirtMem Machine Checks Samples Idt Task Sched Keyboard Pci Virtio Uixfs Elf Process Apic Syscall.

(** ** The registry *)

(** The tasks [ts] linked by [next_all] from the address [a]. *)
Fixpoint all_chain (m : gmap Z task) (a : Z) (ts : list Z) : Prop :=
  match ts with
  | [] => a = 0
  | x :: ts => a = x ∧ x ≠ 0 ∧ ∃ tk, m !! x = Some tk ∧ all_chain m (next_all tk) ts
  end.

Definition registry {D} (s : kst D) (ts : list Z) : Prop :=
  all_chain (tasks (k_sched s)) (all_tasks (k_sched s)) ts ∧ NoDup ts.

(** The first task of [ts] that is a zombie child to be reaped. *)
Fixpoint first_zombie (m : gmap Z task) (parent want : Z) (ts : list Z) : option (Z * task) :=
  match ts with
  | [] => None
  | x :: ts =>
      match m !! x with
      | Some tk => if is_zombie_child tk parent want then Some (x, tk) else first_zombie m parent want ts
      | None => None
      end
  end.

Lemma first_zombie_Some m parent want ts z zt :
  first_zombie m parent want ts = Some (z, zt) → z ∈ ts ∧ m !! z = Some zt ∧ is_zombie_child zt parent want = true.
Proof.
  induction ts as [|x ts IH]; cbn; [done|]. destruct (m !! x) as [tk|] eqn:E; [|done].
  destruct (is_zombie_child tk parent want) eqn:Ez.
  - intros [= <- <-]. split_and!; [apply list_elem_of_here|done..].
  - intros H. destruct (IH H) as (? & ? & ?). split_and!; [by apply list_elem_of_further|done..].
Qed.

Lemma all_chain_dom m a ts x : all_chain m a ts → x ∈ ts → is_Some (m !! x).
Proof.
  revert a. induction ts as [|y ts IH]; intros a Hc Hx; [by apply not_elem_of_nil in Hx|].
  destruct Hc as (_ & _ & tk & Hy & Hc). apply elem_of_cons in Hx as [->|Hx]; [by exists tk|by eapply IH].
Qed.

Lemma all_chain_nonzero m a ts x : all_chain m a ts → x ∈ ts → x ≠ 0.
Proof.
  revert a. induction ts as [|y ts IH]; intros a Hc Hx; [by apply not_elem_of_nil in Hx|].
  destruct Hc as (_ & Hy & tk & _ & Hc). apply elem_of_cons in Hx as [->|Hx]; [done|by eapply IH].
Qed.

Lemma registry_size {D} (s : kst D) ts : registry s ts → (length ts < list_fuel s)%nat.
Proof.
  intros [Hc Hn]. unfold list_fuel. rewrite <-size_dom. rewrite <-(size_list_to_set (C := gset Z) ts Hn).
  apply Nat.lt_succ_r, subseteq_size. intros x Hx. apply elem_of_list_to_set in Hx. apply elem_of_dom.
  by eapply all_chain_dom.
Qed.

Section wait4.
Context {D : Type} {HW : Hardware D} {SY : Symbols} {PR : Programs}.

Lemma find_zombie_run (s : kst D) parent want ts a fuel :
  all_chain (tasks (k_sched s)) a ts → (length ts < fuel)%nat →
  find_zombie_from fuel a parent want s =
    Ok (default 0 (fst <$> first_zombie (tasks (k_sched s)) parent want ts)) s.
Proof.
  revert a fuel. induction ts as [|x ts IH]; intros a [|fuel] Hc Hf; cbn [length] in Hf; try lia; cbn [find_zombie_from].
  - cbn in Hc. by rewrite Hc.
  - destruct Hc as (-> & Hx & tk & E & Hc). rewrite (proj2 (Z.eqb_neq _ _) Hx).
    rewrite (bind_Ok_eq _ _ s tk s) by (unfold get_task, gets, mbind, M_bind; by rewrite E).
    cbn [first_zombie]. rewrite E. destruct (is_zombie_child tk parent want); [done|]. apply IH; [done|lia].
Qed.

Lemma task_find_zombie_run (s : kst D) parent want ts :
  registry s ts →
  task_find_zombie parent want s = Ok (default 0 (fst <$> first_zombie (tasks (k_sched s)) parent want ts)) s.
Proof.
  intros Hr. unfold task_find_zombie. rewrite (bind_Ok_eq _ _ s (list_fuel s) s) by done.
  rewrite (bind_Ok_eq _ _ s (all_tasks (k_sched s)) s) by done.
  apply find_zombie_run; [apply Hr|by apply registry_size].
Qed.

(** The caller's status word, where it wants one. *)
Definition status_ok (s : kst D) (p lim : Z) (m : mem) : Prop := p = 0 ∨ holds (vm s) p (p + 8) lim m.

(** The kernel after [wait4] reaped [z]: it is dead, and its status is in the
    caller's memory; no other task changed. *)
Record reaped (s : kst D) (z : Z) (zt : task) (p lim : Z) (m : mem) (s' : kst D) : Prop := Reaped {
  rp_sched : k_sched s' = set_tasks (<[z := set_state TASK_DEAD zt]> (tasks (k_sched s))) (k_sched s);
  rp_status : p ≠ 0 → worked p (p + 8) lim (vm s) (st64 p (wrap64 (exit_status zt)) m) (vm s');
}.

Lemma store_status s p lim m w :
  status_ok s p lim m →
  ∃ v, (if p =? 0 then mret tt else liftk (vstn 8 p w)) s = Ok tt (with_vm v s) ∧
    (p ≠ 0 → worked p (p + 8) lim (vm s) (st64 p w m) v).
Proof.
  intros Hs. destruct (Z.eqb_spec p 0) as [E|E].
  - exists (vm s). split; [by rewrite with_vm_id|done].
  - destruct Hs as [?|Hh]; [done|]. destruct (liftk_store s p (p + 8) lim m 8 p w Hh) as (v & Ev & Hv); [lia..|].
    by exists v.
Qed.

Lemma wait4_try_run s ts t tk want p lim m :
  registry s ts → tasks (k_sched s) !! t = Some tk → status_ok s p lim m →
  match first_zombie (tasks (k_sched s)) (pid tk) want ts with
  | Some (z, zt) => ∃ s', wait4_try t want p s = Ok (Some (pid zt)) s' ∧ reaped s z zt p lim m s'
  | None => wait4_try t want p s = Ok None s
  end.
Proof.
  intros Hr Ht Hst. unfold wait4_try.
  rewrite (bind_Ok_eq _ _ s tk s) by (unfold get_task, gets, mbind, M_bind; by rewrite Ht).
  rewrite (bind_Ok_eq _ _ _ _ _ (task_find_zombie_run s (pid tk) want ts Hr)).
  destruct (first_zombie _ _ _ _) as [[z zt]|] eqn:E; [|done]. cbn [fmap option_fmap option_map fst default from_option id].
  destruct (first_zombie_Some _ _ _ _ _ _ E) as (Hin & Hz & _).
  assert (Hz0 : z ≠ 0) by (by eapply all_chain_nonzero; [apply Hr|]). rewrite (proj2 (Z.eqb_neq _ _) Hz0).
  rewrite (bind_Ok_eq _ _ s zt s) by (unfold get_task, gets, mbind, M_bind; by rewrite Hz).
  destruct (store_status s p lim m (wrap64 (exit_status zt)) Hst) as (v & Ev & Hv).
  rewrite (bind_Ok_eq _ _ _ _ _ Ev). unfold upd_task.
  erewrite bind_Ok_eq; [|erewrite bind_Ok_eq; [done|unfold get_task, gets, mbind, M_bind; cbn; by rewrite Hz]].
  eexists. split; [reflexivity|]. split; [done|]. intros Hp. destruct (Hv Hp) as [Hh Hs].
  destruct (holds_out v p (p + 8) lim _ (out (vp v) ++ [KPrintf "[info] wait4: pid %u reaped %u (status %u)\n"
    [KU (wrap32 (pid tk)); KU (wrap32 (pid zt)); KU (wrap32 (exit_status zt))]]) Hh) as [Hh' Hs'].
  split; [done|]. by eapply spared_trans.
Qed.

Lemma all_chain_insert mp a ts z tk tk' :
  mp !! z = Some tk → next_all tk' = next_all tk → all_chain mp a ts → all_chain (<[z := tk']> mp) a ts.
Proof.
  intros Hz Hn. revert a. induction ts as [|x ts IH]; intros a Hc; [done|]. destruct Hc as (-> & Hx & tx & E & Hc).
  split; [done|]. split; [done|]. destruct (decide (x = z)) as [->|Hne].
  - exists tk'. rewrite lookup_insert_eq. split; [done|]. rewrite Hn. assert (tx = tk) as -> by congruence. by apply IH.
  - exists tx. rewrite lookup_insert_ne by done. split; [done|]. by apply IH.
Qed.

Lemma reaped_registry s ts z zt p lim m s' :
  registry s ts → tasks (k_sched s) !! z = Some zt → reaped s z zt p lim m s' → registry s' ts.
Proof.
  intros [Hc Hn] Hz [E _]. split; [|done]. rewrite E. cbn. by eapply all_chain_insert.
Qed.

(** A task that was reaped is not found again. *)
Lemma reaped_gone s z zt p lim m s' parent want ts zt' :
  reaped s z zt p lim m s' → first_zombie (tasks (k_sched s')) parent want ts ≠ Some (z, zt').
Proof.
  intros [E _] H. apply first_zombie_Some in H as (_ & Hz & Hc). rewrite E in Hz. cbn in Hz.
  rewrite lookup_insert_eq in Hz. injection Hz as <-. done.
Qed.

End wait4.

(** ** A parent and its zombie *)

#[local] Instance quiet_hw : Hardware unit :=
  Build_Hardware unit (λ _ _ d, (0, d)) (λ _ _ _ d, d) (λ _ d, (0, d)) (λ _ _ d, d) (λ _ d, (0, d)) (λ _ _ d, d)
    (λ d, (0, d)) (λ _ d, (0, d)) (λ d m, (d, m)).
#[local] Instance sample_symbols : Symbols := Build_Symbols 0 0 0 0 0.
#[local] Instance sample_programs : Programs := Build_Programs [] [].

Definition parent_task : task := set_next_all 0x3000 (set_pid 1 task_zero).
Definition child_task : task := set_state TASK_ZOMBIE (set_exit_status 7 (set_ppid 1 (set_pid 2 task_zero))).

Definition family : kst unit :=
  set_k_sched (set_current 0x2000 (set_all_tasks 0x2000 (set_tasks {[0x2000 := parent_task; 0x3000 := child_task]} sched0)))
    user_kernel.

Definition wait4_frame (want status : Z) : iframe :=
  Iframe SYS_wait4 0 0 0 0 status want 0 0 0 0 0 0 0 0 128 0 0 0 0 0 0.

Lemma family_registry : registry family [0x2000; 0x3000].
Proof.
  split; [|apply (bool_decide_unpack _); reflexivity].
  split; [done|]. split; [done|]. exists parent_task. split; [done|].
  split; [done|]. split; [done|]. by exists child_task.
Qed.

(** ** [wait4] *)



End SyscallProps.
