(* ===== verification/EntryProps.v ===== *)
(** * Properties of kernel entry and exit

    The frame an interrupt leaves on the stack is the one [isr_dispatch] expects,
    and leaving the kernel restores the interrupted context from it. *)

From S2P Require Import Prelude Lib Pmm Vmm PageTables VmmFacts Heap VirtMem HeapFacts HeapProps Machine Samples Idt Task Sched SchedFacts.
From S2P Require Import SchedProps Keyboard Pci Virtio Uixfs Elf Process Apic Syscall Entry.

Module EntryProps.
Import Lib Pmm Vmm PageTables VmmFacts Heap VirtMem HeapFacts HeapProps Machine Samples Idt Task Sched SchedFacts.
Import SchedProps Keyboard Pci Virtio Uixfs Elf Process Apic Syscall Entry.

(** ** Words in memory *)

(** The [n] words from [a] up. *)
Fixpoint words (n : nat) (m : mem) (a : Z) : list Z :=
  match n with
  | O => []
  | S n => ld64 m a :: words n m (a + 8)
  end.

Definition is_word (w : Z) : Prop := 0 ≤ w < 2 ^ 64.

Lemma words_ext n m m' a :
  (∀ b, a ≤ b < a + 8 * Z.of_nat n → ld8 m' b = ld8 m b) → words n m' a = words n m a.
Proof.
  revert a. induction n as [|n IH]; intros a H; [done|]. cbn [words]. f_equal.
  - apply ldn_ext. intros b Hb. apply H. lia.
  - apply IH. intros b Hb. apply H. lia.
Qed.

Lemma words_lookup n m a i w : words n m a !! i = Some w → ld64 m (a + 8 * Z.of_nat i) = w.
Proof.
  revert a i. induction n as [|n IH]; intros a i Hi; [done|]. cbn [words] in Hi. destruct i as [|i].
  - injection Hi as <-. by rewrite Z.add_0_r.
  - rewrite <-(IH _ _ Hi). f_equal. lia.
Qed.

Lemma words_app n k m a : words (n + k) m a = words n m a ++ words k m (a + 8 * Z.of_nat n).
Proof.
  revert a. induction n as [|n IH]; intros a; cbn [words app Nat.add]; [by rewrite Z.add_0_r|].
  rewrite IH. do 3 f_equal. lia.
Qed.

Lemma pushed_app a vs ws m : pushed a (vs ++ ws) m = pushed (a - 8 * Z.of_nat (length vs)) ws (pushed a vs m).
Proof.
  revert a m. induction vs as [|v vs IH]; intros a m; cbn [pushed app length]; [by rewrite Z.sub_0_r|].
  rewrite IH. f_equal. lia.
Qed.

(** What was pushed in reverse order reads in order. *)
Lemma words_pushed a vs m :
  Forall is_word vs → words (length vs) (pushed a (rev vs) m) (a - 8 * Z.of_nat (length vs)) = vs.
Proof.
  revert a m. induction vs as [|v vs IH]; intros a m; [done|]. intros [Hv Hvs]%Forall_cons. cbn [rev length words].
  rewrite pushed_app, length_rev. cbn [pushed].
  replace (a - 8 * Z.of_nat (S (length vs))) with (a - 8 * Z.of_nat (length vs) - 8) by lia. f_equal; [by apply ld64_st64_eq|].
  replace (a - 8 * Z.of_nat (length vs) - 8 + 8) with (a - 8 * Z.of_nat (length vs)) by lia.
  etransitivity; [|exact (IH a m Hvs)]. apply words_ext. intros b Hb. apply ld8_stn_out. lia.
Qed.

(** A word stored at the bottom. *)
Lemma words_store n m a v : words (S n) (st64 a v m) a = wrap64 v :: words n m (a + 8).
Proof.
  cbn [words]. f_equal; [apply ldn_stn_eq|]. apply words_ext. intros b Hb. apply ld8_stn_out. lia.
Qed.

(** ** Accesses *)

Section stack.
Context {D : Type} (lo hi lim : Z) (Hlo : 0 ≤ lo) (Hhi : hi < 2 ^ 64).
Implicit Types s : kst D.

Lemma pop_words_run n s m :
  holds (vm s) lo hi lim m → lo ≤ sp (k_cpu s) → sp (k_cpu s) + 8 * Z.of_nat n ≤ hi →
  pop_words n s = Ok (words n m (sp (k_cpu s))) (set_k_cpu (set_sp (sp (k_cpu s) + 8 * Z.of_nat n) (k_cpu s)) s).
Proof using Hlo Hhi.
  revert s. induction n as [|n IH]; intros s Hh H1 H2; cbn [pop_words words].
  - rewrite Z.add_0_r. by destruct s as [? ? ? ? ? ? ? ? []].
  - rewrite (bind_Ok_eq _ _ _ _ _ (pop_run lo hi lim Hlo Hhi s m Hh H1 ltac:(lia))).
    set (u := set_sp (sp (k_cpu s) + 8) (k_cpu s)). assert (sp u = sp (k_cpu s) + 8) as Hu by done.
    rewrite (bind_Ok_eq _ _ _ _ _ (IH (set_k_cpu u s) Hh ltac:(cbn; lia) ltac:(cbn; lia))).
    unfold mret, M_ret. cbn [k_cpu set_k_cpu]. rewrite Hu.
    replace (sp (k_cpu s) + 8 + 8 * Z.of_nat n) with (sp (k_cpu s) + 8 * Z.of_nat (S n)) by lia. done.
Qed.

Lemma load_words_run n s m a :
  holds (vm s) lo hi lim m → lo ≤ a → a + 8 * Z.of_nat n ≤ hi → load_words n a s = Ok (words n m a) s.
Proof using Hlo Hhi.
  revert a. induction n as [|n IH]; intros a Hh H1 H2; [done|]. cbn [load_words words].
  rewrite (bind_Ok_eq _ _ _ _ _ (liftk_load s lo hi lim m 8 a Hh H1 ltac:(lia))).
  rewrite wrap64_small by lia. by rewrite (bind_Ok_eq _ _ _ _ _ (IH (a + 8) Hh ltac:(lia) ltac:(lia))).
Qed.

(** [iretq] with the frame in memory. *)
Lemma iretq_run s m :
  holds (vm s) lo hi lim m → lo ≤ sp (k_cpu s) → sp (k_cpu s) + 40 ≤ hi →
  let f := iret_of (words 5 m (sp (k_cpu s))) in
  ∃ c, iretq s = Ok f (set_k_cpu c s) ∧ sp c = i_rsp f ∧ seg_cs c = i_cs f ∧ seg_ss c = i_ss f ∧
    iflag c = has (i_rflags f) IF_FLAG ∧ seg_ds c = seg_ds (k_cpu s).
Proof using Hlo Hhi.
  intros Hh H1 H2 f. unfold iretq. rewrite (bind_Ok_eq _ _ _ _ _ (pop_words_run 5 s m Hh H1 ltac:(lia))).
  eexists. by split.
Qed.

(** The state in which a context goes on. *)
Definition in_context (c : context) (s : kst D) : Prop :=
  let u := k_cpu s in
  sp u = i_rsp (c_iret c) ∧ seg_cs u = i_cs (c_iret c) ∧ seg_ss u = i_ss (c_iret c) ∧
  iflag u = has (i_rflags (c_iret c)) IF_FLAG.

Definition stacked_context (m : mem) (a : Z) : context := Context (gprs_of (words 15 m a)) (iret_of (words 5 m (a + 136))).

Lemma leave_run s m :
  holds (vm s) lo hi lim m → lo ≤ sp (k_cpu s) → sp (k_cpu s) + 176 ≤ hi →
  let c := stacked_context m (sp (k_cpu s)) in ∃ u, isr_leave s = Ok c (set_k_cpu u s) ∧ in_context c (set_k_cpu u s).
Proof using Hlo Hhi.
  intros Hh H1 H2 c. unfold isr_leave. rewrite (bind_Ok_eq _ _ _ _ _ (pop_words_run 15 s m Hh H1 ltac:(lia))).
  set (g := gprs_of _). set (u1 := set_sp (sp (k_cpu s) + 136) (load_callee g (set_sp (sp (k_cpu s) + 120) (k_cpu s)))).
  rewrite (bind_Ok_eq _ _ _ tt (set_k_cpu u1 s)).
  2:{ unfold mod_cpu, modify. unfold u1. cbn [k_cpu set_k_cpu load_callee sp set_sp set_rbx set_rbp set_r12 set_r13 set_r14 set_r15].
      rewrite wrap64_small by lia. replace (sp (k_cpu s) + 8 * Z.of_nat 15 + 16) with (sp (k_cpu s) + 136) by lia.
      by replace (sp (k_cpu s) + 8 * Z.of_nat 15) with (sp (k_cpu s) + 120) by lia. }
  destruct (iretq_run (set_k_cpu u1 s) m Hh) as (u & He & Hu); [unfold u1; cbn; lia..|].
  rewrite (bind_Ok_eq _ _ _ _ _ He). exists u. split; [done|]. destruct Hu as (? & ? & ? & ? & _). by split_and!.
Qed.

(** ** Entry *)

(** The error code in the frame. *)
Definition frame_err (v err : Z) : Z := if isr_has_err v then err else 0.

Lemma frame_words v e c : iframe_words (frame_of v e c) = gprs_words (c_gprs c) ++ [v; e] ++ iret_words (c_iret c).
Proof. done. Qed.

Lemma frame_of_iframe_words fr : frame_of_words (iframe_words fr) = fr.
Proof. by destruct fr. Qed.

Lemma deliver_run s m v err c :
  let a := entry_stack (k_cpu s) v (c_iret c) in
  let ws := rev (iret_words (c_iret c)) ++ if hw_has_err v then [err] else [] in
  holds (vm s) lo hi lim m → lo ≤ a - 48 → a ≤ hi →
  ∃ v' u, deliver v err c s = Ok tt (set_k_cpu u (with_vm v' s)) ∧ sp u = a - 8 * Z.of_nat (length ws) ∧
    iflag u = false ∧ seg_cs u = K_CS ∧ worked lo hi lim (vm s) (pushed a ws m) v'.
Proof using Hlo Hhi.
  intros a ws Hh H1 H2. assert (Z.of_nat (length ws) ≤ 6) as Hl by (unfold ws; destruct (hw_has_err v); cbn; lia).
  destruct (push_all_run lo hi lim Hlo Hhi s m a ws Hh ltac:(lia) H2) as (v' & He & Hw).
  unfold deliver. rewrite (bind_Ok_eq _ _ _ (k_cpu s) s) by done. fold a ws. rewrite (bind_Ok_eq _ _ _ _ _ He).
  eexists v', _. by split.
Qed.

Lemma isr_enter_run s m v g :
  let a := sp (k_cpu s) in
  let ws := (if isr_has_err v then [] else [0]) ++ [stub_vector v] ++ rev (gprs_words g) in
  holds (vm s) lo hi lim m → lo ≤ a - 8 * Z.of_nat (length ws) → a ≤ hi →
  ∃ v', isr_enter v g s = Ok tt (set_k_cpu (set_sp (a - 8 * Z.of_nat (length ws)) (k_cpu s)) (with_vm v' s)) ∧
    worked lo hi lim (vm s) (pushed a ws m) v'.
Proof using Hlo Hhi.
  intros a ws Hh H1 H2. destruct (push_all_run lo hi lim Hlo Hhi s m a ws Hh H1 H2) as (v' & He & Hw).
  exists v'. split; [|done]. unfold isr_enter. rewrite (bind_Ok_eq _ _ _ a s) by done. fold ws. by rewrite (bind_Ok_eq _ _ _ _ _ He).
Qed.

(** Where both agree on the error code, the words pushed are those of the frame. *)
Lemma entry_words v err c :
  isr_has_err v = hw_has_err v →
  (rev (iret_words (c_iret c)) ++ (if hw_has_err v then [err] else [])) ++
    (if isr_has_err v then [] else [0]) ++ [stub_vector v] ++ rev (gprs_words (c_gprs c)) =
  rev (iframe_words (frame_of (stub_vector v) (frame_err v err) c)).
Proof. unfold frame_err. intros <-. by destruct (isr_has_err v). Qed.

Lemma frame_enter_run s m v err c :
  let a := entry_stack (k_cpu s) v (c_iret c) in
  let fr := frame_of (stub_vector v) (frame_err v err) c in
  holds (vm s) lo hi lim m → lo ≤ a - 176 → a ≤ hi → isr_has_err v = hw_has_err v →
  ∃ v' u, (∀ A (k : M (kst D) A), (deliver v err c ;; isr_enter v (c_gprs c) ;; k) s = k (set_k_cpu u (with_vm v' s))) ∧
    sp u = a - 176 ∧ iflag u = false ∧ seg_cs u = K_CS ∧
    worked lo hi lim (vm s) (pushed a (rev (iframe_words fr)) m) v'.
Proof using Hlo Hhi.
  intros a fr Hh H1 H2 Herr. destruct (deliver_run s m v err c Hh ltac:(fold a; lia) H2) as (v1 & u1 & He1 & Hsp1 & Hif & Hcs & Hh1 & Hs1).
  fold a in Hsp1, Hh1. pose proof (entry_words v err c Herr) as Hws. fold fr in Hws.
  set (ws1 := rev _ ++ _) in *. set (ws2 := (if isr_has_err v then [] else [0]) ++ _) in *.
  assert (Z.of_nat (length ws1) + Z.of_nat (length ws2) = 22) as Hl.
  { rewrite <-Nat2Z.inj_add, <-length_app, Hws, length_rev. done. }
  set (s1 := set_k_cpu u1 (with_vm v1 s)) in *.
  destruct (isr_enter_run s1 (pushed a ws1 m) v (c_gprs c) Hh1) as (v2 & He2 & Hh2 & Hs2);
    [change (sp (k_cpu s1)) with (sp u1); fold ws2; lia|change (sp (k_cpu s1)) with (sp u1); lia|].
  change (sp (k_cpu s1)) with (sp u1) in *. fold ws2 in He2, Hh2.
  exists v2, (set_sp (a - 176) u1). split.
  - intros A k. rewrite (bind_Ok_eq _ _ _ _ _ He1), (bind_Ok_eq _ _ _ _ _ He2).
    replace (sp u1 - 8 * Z.of_nat (length ws2)) with (a - 176) by lia. done.
  - split_and!; [done..|]. split; [|by eapply spared_trans]. rewrite <-Hws, pushed_app, <-Hsp1. exact Hh2.
Qed.
(** ** The switch to a stack that was prepared *)

(** The seven words a switch to [a] loads. *)
Definition switch_frame (m : mem) (a v15 v14 v13 v12 ret : Z) : Prop :=
  words 7 m a = [v15; v14; v13; v12; 0; 0; ret].

Lemma switch_frame_pushed m top v15 v14 v13 v12 ret :
  Forall is_word [v15; v14; v13; v12; ret] →
  switch_frame (pushed top [ret; 0; 0; v12; v13; v14; v15] m) (top - 56) v15 v14 v13 v12 ret.
Proof using.
  intros Hw. unfold switch_frame. apply (words_pushed top [v15; v14; v13; v12; 0; 0; ret]).
  rewrite !Forall_cons in *. destruct Hw as (? & ? & ? & ? & ? & _). by split_and!.
Qed.

Lemma switch_frame_run s m save sv a v15 v14 v13 v12 ret' ret :
  holds (vm s) lo hi lim m → switch_frame m a v15 v14 v13 v12 ret' → lo ≤ a → a + 56 ≤ hi →
  lo ≤ sp (k_cpu s) - 56 → sp (k_cpu s) ≤ hi → sp (k_cpu s) ≤ a ∨ a + 56 ≤ sp (k_cpu s) - 56 →
  (∀ v, save (sp (k_cpu s) - 56) (with_vm v s) = Ok tt (set_k_sched sv (with_vm v s))) →
  ∃ s1 m1, switch_to save a ret s = Ok ret' s1 ∧ holds (vm s1) lo hi lim m1 ∧
    (∀ b, b < sp (k_cpu s) - 56 ∨ sp (k_cpu s) ≤ b → ld8 m1 b = ld8 m b) ∧ k_sched s1 = sv ∧
    sp (k_cpu s1) = a + 56 ∧ r12 (k_cpu s1) = v12 ∧ r13 (k_cpu s1) = v13 ∧ r14 (k_cpu s1) = v14 ∧ r15 (k_cpu s1) = v15.
Proof using Hlo Hhi.
  intros Hh Hf H1 H2 H3 H4 Hd Hsave.
  destruct (switch_run lo hi lim Hlo Hhi s m save sv a ret Hh H3 H4 H1 H2 Hsave) as (v & He & Hh' & _).
  set (m' := pushed _ _ m) in *.
  assert (∀ b, b < sp (k_cpu s) - 56 ∨ sp (k_cpu s) ≤ b → ld8 m' b = ld8 m b) as Ho by (intros b Hb; apply pushed_out; cbn [length saved_words]; lia).
  unfold switch_frame in Hf. rewrite <-(words_ext 7 m m') in Hf by (intros b Hb; apply Ho; lia).
  assert (∀ i w, [v15; v14; v13; v12; 0; 0; ret'] !! i = Some w → ld64 m' (a + 8 * Z.of_nat i) = w) as Hl.
  { rewrite <-Hf. intros i w. apply words_lookup. }
  eexists _, m'. split; [rewrite He; f_equal; exact (Hl 6%nat ret' eq_refl)|]. split_and!; [exact Hh'|exact Ho|done|done|..];
    cbn [k_cpu set_k_cpu reloaded sp rbp rbx r12 r13 r14 r15 set_sp set_rbp set_rbx set_r12 set_r13 set_r14 set_r15].
  - exact (Hl 3%nat v12 eq_refl).
  - exact (Hl 2%nat v13 eq_refl).
  - exact (Hl 1%nat v14 eq_refl).
  - rewrite <-(Hl 0%nat v15 eq_refl). f_equal. lia.
Qed.

(** [user_launch_trampoline] on a stack with room for six words. *)
Lemma user_launch_run s m ret :
  holds (vm s) lo hi lim m → lo ≤ sp (k_cpu s) - 48 → sp (k_cpu s) ≤ hi →
  Forall is_word [r12 (k_cpu s); r13 (k_cpu s); r14 (k_cpu s)] →
  let f := IretFrame (r12 (k_cpu s)) 0x1b (r14 (k_cpu s)) (r13 (k_cpu s)) 0x23 in
  ∃ s', user_launch ret s = Ok f s' ∧ sp (k_cpu s') = i_rsp f ∧ seg_cs (k_cpu s') = 0x1b ∧ seg_ss (k_cpu s') = 0x23 ∧
    seg_ds (k_cpu s') = 0x23 ∧ iflag (k_cpu s') = has (i_rflags f) IF_FLAG ∧ spared lo (vm s) hi (vm s') hi.
Proof using Hlo Hhi.
  intros Hh H1 H2 Hw f. set (c := k_cpu s) in *. unfold user_launch. rewrite (bind_Ok_eq _ _ _ c s) by done.
  destruct (push_all_run lo hi lim Hlo Hhi s m (sp c) [ret] Hh) as (v1 & He1 & Hh1 & Hs1); [cbn; lia|lia|].
  rewrite (bind_Ok_eq _ _ _ _ _ He1). change (8 * Z.of_nat (length [ret])) with 8.
  set (s1 := set_k_cpu (set_sp (sp c - 8) c) (with_vm v1 s)). rewrite (bind_Ok_eq _ _ _ tt s1) by done.
  unfold user_enter. set (s2 := set_k_cpu (set_iflag false (k_cpu s1)) s1). rewrite (bind_Ok_eq _ _ _ tt s2) by done.
  rewrite (bind_Ok_eq _ _ _ (sp c - 8) s2) by done.
  destruct (push_all_run lo hi lim Hlo Hhi s2 _ (sp c - 8) (rev (iret_words f)) Hh1) as (v3 & He3 & Hh3 & Hs3); [cbn; lia|lia|].
  rewrite (bind_Ok_eq _ _ _ _ _ He3). change (8 * Z.of_nat (length (rev (iret_words f)))) with 40.
  set (s3 := set_k_cpu (set_seg_ds 0x23 (set_sp (sp c - 8 - 40) (k_cpu s2))) (with_vm v3 s2)).
  rewrite (bind_Ok_eq _ _ _ tt s3) by done.
  destruct (iretq_run s3 _ Hh3) as (u & He & Hsp & Hcs & Hss & Hif & Hds); [change (sp (k_cpu s3)) with (sp c - 8 - 40); lia..|].
  change (sp (k_cpu s3)) with (sp c - 8 - 40) in *.
  assert (iret_of (words 5 (pushed (sp c - 8) (rev (iret_words f)) (pushed (sp c) [ret] m)) (sp c - 8 - 40)) = f) as Ef.
  { rewrite (words_pushed (sp c - 8) (iret_words f)); [done|].
    change (Forall is_word [r12 c; 0x1b; r14 c; r13 c; 0x23]). rewrite !Forall_cons in *. destruct Hw as (? & ? & ? & _). by split_and!. }
  rewrite Ef in *. eexists. split; [exact He|]. split_and!; [done..|]. eapply spared_trans; [exact Hs1|exact Hs3].
Qed.
End stack.

(** The registers of [c] with another [rax]. *)
Definition with_rax (v : Z) (c : context) : context :=
  context_of (set_f_rax v (frame_of 0 0 c)).

Lemma stacked_frame m a v e c :
  words 22 m a = iframe_words (frame_of v e c) → stacked_context m a = c.
Proof.
  intros Hw. change 22%nat with (15 + (2 + 5))%nat in Hw. rewrite words_app, words_app, frame_words in Hw.
  apply app_inj_1 in Hw as [H1 Hw]; [|done]. apply app_inj_1 in Hw as [_ H2]; [|done].
  unfold stacked_context. replace (a + 136) with (a + 8 * Z.of_nat 15 + 8 * Z.of_nat 2) by lia. rewrite H1, H2.
  by destruct c as [[] []].
Qed.

(** The bytes [lo, hi) read the same in both states. *)
Definition same_area {D} (lo hi : Z) (s s' : kst D) : Prop :=
  ∀ b, lo ≤ b < hi → ld8 (pm (vp (vm s'))) (phys (vm s') b) = ld8 (pm (vp (vm s))) (phys (vm s) b).

Lemma same_area_words {D} (lo hi lim : Z) (s s' : kst D) m m' a n :
  holds (vm s) lo hi lim m → holds (vm s') lo hi lim m' → lo ≤ a → a + 8 * Z.of_nat n ≤ hi →
  same_area a (a + 8 * Z.of_nat n) s s' → words n m' a = words n m a.
Proof.
  intros Hh Hh' H1 H2 Hs. apply words_ext. intros b Hb.
  by rewrite <-(hd_bytes _ _ _ _ _ Hh), <-(hd_bytes _ _ _ _ _ Hh'), Hs by lia.
Qed.

(** ** Claims *)


(** A user task calls [getpid]. *)
#[local] Instance quiet_machine : Hardware unit :=
  Build_Hardware unit (λ _ _ d, (0, d)) (λ _ _ _ d, d) (λ _ d, (0, d)) (λ _ _ d, d) (λ _ d, (0, d)) (λ _ _ d, d)
    (λ d, (0, d)) (λ _ d, (0, d)) (λ d m, (d, m)).
#[local] Instance no_programs : Programs := Build_Programs [] [].
#[local] Instance cpu_syms : CpuSymbols := Build_CpuSymbols 0 0 0 0 0 0 (λ v, v).
#[local] Existing Instance sample_syms.

Definition caller : context :=
  Context (Gprs SYS_getpid 1 2 3 4 5 6 7 8 9 10 11 12 13 14) (IretFrame 0x400010 0x1b 0x202 0x7fff00 0x23).

Definition calling_kernel : kst unit :=
  set_k_cpu (set_tss (st64 TSS_RSP0 (stack_lo + 0x4000) ∅) cpu0) three_kernel.

Lemma getpid_run (s : kst unit) (t : Z) (tk : task) (fr : iframe) :
  current (k_sched s) = t → tasks (k_sched s) !! t = Some tk → f_int_no fr = 128 → f_rax fr = SYS_getpid →
  isr_dispatch 1 [] 0 fr s = Ok (Iret (set_f_rax (pid tk) fr)) s.
Proof.
  intros Hc Ht Hn Hr. unfold isr_dispatch. rewrite Hn. cbn [Z.ltb Z.eqb Z.compare Pos.compare Pos.compare_cont Pos.eqb].
  rewrite (bind_Ok_eq _ _ _ (Ret (pid tk)) s).
  - destruct s as [[[]] ? ? ? ? ? ? ? ? []]. reflexivity.
  - unfold syscall_dispatch. rewrite (bind_Ok_eq _ _ s t s) by (unfold task_current, gets; by rewrite Hc). cbv zeta. rewrite Hr.
    transitivity ((tk ← get_task t; mret (Ret (pid tk))) s); [reflexivity|]. by rewrite (bind_Ok_eq _ _ _ _ _ (get_task_run s t tk Ht)).
Qed.


End EntryProps.
