(* ===== verification/ProcessProps.v ===== *)
(** * Creation of processes

    [do_fork] makes a task that differs from its parent in its pid, its place in
    the run queue and the value [fork] returns to it. *)

From S2P Require Import Prelude Lib Pmm PmmFacts Vmm PageTables VmmFacts TableFacts ForkFacts ForkProps Checks Heap VirtMem.
From S2P Require Import HeapFacts HeapAlloc HeapProps Machine Samples Idt Task Sched SchedFacts SchedProps.
From S2P Require Import Keyboard Pci Virtio Uixfs Elf Process ProcessFacts Apic Syscall Entry EntryProps.

Module ProcessProps.
Import Lib Pmm PmmFacts Vmm PageTables VmmFacts TableFacts ForkFacts ForkProps Checks Heap VirtMem.
Import HeapFacts HeapAlloc HeapProps Machine Samples Idt Task Sched SchedFacts SchedProps.
Import Keyboard Pci Virtio Uixfs Elf Process ProcessFacts Apic Syscall Entry EntryProps.

(** ** The child's stack *)

Lemma stack_top_bounds a n : 0 ≤ a → 0 ≤ n → a + n < 2 ^ 64 →
  a + n - 16 < Z.land (a +w n) (~w 0xF) ≤ a + n.
Proof.
  intros Ha Hn Hb. rewrite wrap64_small by lia.
  assert (Z.land (a + n) (~w 0xF) = a + n - (a + n) mod 16) as ->.
  { change (~w 0xF) with (Z.land (Z.ones 64) (Z.lnot (Z.ones 4))). rewrite Z.land_assoc, Z.land_ones, Z.mod_small by lia.
    rewrite <-Z.ldiff_land, Z.ldiff_ones_r, Z.shiftl_mul_pow2, Z.shiftr_div_pow2 by lia. change (2 ^ 4) with 16.
    pose proof (Z.div_mod (a + n) 16). lia. }
  pose proof (Z.mod_pos_bound (a + n) 16). lia.
Qed.

Section stack.
Context {D : Type} {SY : Symbols} (lo hi lim : Z) (Hlo : 0 ≤ lo) (Hhi : hi < 2 ^ 64).
Implicit Types s : kst D.

Lemma store_words_run ws s m a :
  holds (vm s) lo hi lim m → lo ≤ a → a + 8 * Z.of_nat (length ws) ≤ hi → Forall is_word ws →
  ∃ v m', store_words a ws s = Ok tt (with_vm v s) ∧ worked lo hi lim (vm s) m' v ∧
    wrote_in a (a + 8 * Z.of_nat (length ws)) m m' ∧ words (length ws) m' a = ws.
Proof using Hlo Hhi.
  revert s m a. induction ws as [|w ws IH]; intros s m a Hh H1 H2; cbn [store_words length].
  - exists (vm s), m. rewrite with_vm_id. split_and!; [done|split; [done|apply spared_refl]|done|done].
  - intros [Hw Hws]%Forall_cons. cbn [length] in H2.
    destruct (liftk_store s lo hi lim m 8 a w Hh H1 ltac:(lia)) as (v1 & He1 & Hh1 & Hs1).
    rewrite (bind_Ok_eq _ _ _ _ _ He1). rewrite wrap64_small by lia.
    destruct (IH (with_vm v1 s) _ (a + 8) Hh1 ltac:(lia) ltac:(lia) Hws) as (v2 & m2 & He2 & [Hh2 Hs2] & Hw2 & Hr2).
    exists v2, m2. split_and!; [by rewrite He2|split; [done|by eapply spared_trans]| |].
    + eapply wrote_in_trans; [apply (wrote_in_stn 8 _ _ a w); lia|]. intros b Hb. apply Hw2. lia.
    + cbn [words]. rewrite Hr2. f_equal. transitivity (ld64 (st64 a w m) a); [|by apply ld64_st64_eq].
      apply ldn_ext. intros b Hb. apply Hw2. lia.
Qed.

(** What [fork_stack] leaves below [top]. *)
Definition child_stack (m : mem) (top : Z) (fr : iframe) : Prop :=
  switch_frame m (top - 232) 0 0 0 0 fork_child_stub ∧ words 22 m (top - 176) = iframe_words (set_f_rax 0 fr).

Lemma fork_stack_run s m top fr :
  holds (vm s) lo hi lim m → lo ≤ top - 232 → top ≤ hi → Forall is_word (iframe_words fr) → is_word fork_child_stub →
  ∃ v m', fork_stack top fr s = Ok (top - 232) (with_vm v s) ∧ worked lo hi lim (vm s) m' v ∧
    wrote_in (top - 232) top m m' ∧ child_stack m' top fr.
Proof using Hlo Hhi.
  intros Hh H1 H2 Hw Hstub. unfold fork_stack, IFRAME_SIZE. rewrite wrap64_small by lia. cbn zeta.
  destruct (store_words_run (iframe_words fr) s m (top - 176) Hh ltac:(lia)) as (v1 & m1 & He1 & [Hh1 Hs1] & Hw1 & Hr1);
    [change (length (iframe_words fr)) with 22%nat; lia|done|]. change (length (iframe_words fr)) with 22%nat in *.
  rewrite (bind_Ok_eq _ _ _ _ _ He1).
  destruct (liftk_store (with_vm v1 s) lo hi lim m1 8 (top - 176) 0 Hh1 ltac:(lia) ltac:(lia)) as (v2 & He2 & Hh2 & Hs2).
  rewrite (bind_Ok_eq _ _ _ _ _ He2). set (ws := [0; 0; 0; 0; 0; 0; fork_child_stub]).
  destruct (push_all_run lo hi lim Hlo Hhi (with_vm v2 (with_vm v1 s)) _ (top - 176) (rev ws) Hh2) as (v3 & He3 & Hh3 & Hs3); [cbn; lia|lia|].
  eexists v3, _. split; [etransitivity; [exact He3|]; f_equal; cbn; lia|]. split; [split; [exact Hh3|]|].
  { eapply spared_trans; [exact Hs1|]. eapply spared_trans; [exact Hs2|exact Hs3]. }
  assert (∀ b, b < top - 232 ∨ top - 176 ≤ b → ld8 (pushed (top - 176) (rev ws) (st64 (top - 176) 0 m1)) b = ld8 (st64 (top - 176) 0 m1) b) as Ho
    by (intros b Hb; apply pushed_out; cbn; lia).
  split; [|split].
  - intros b Hb. rewrite Ho by lia. rewrite <-(Hw1 b) by lia. apply ld8_stn_out. lia.
  - replace (top - 232) with (top - 176 - 8 * Z.of_nat (length ws)) by (cbn; lia). apply (words_pushed (top - 176) ws).
    repeat (constructor; [unfold is_word; lia|]). by constructor.
  - rewrite (words_ext 22 (st64 (top - 176) 0 m1)) by (intros b Hb; apply Ho; lia). rewrite words_store.
    by rewrite (f_equal tail Hr1 : words 21 m1 (top - 176 + 8) = tail (iframe_words fr)).
Qed.

(** The first switch to the child. *)
Lemma child_first_run s m save sv top ret fr :
  holds (vm s) lo hi lim m → child_stack m top fr → lo ≤ top - 232 → top ≤ hi →
  lo ≤ sp (k_cpu s) - 56 → sp (k_cpu s) ≤ hi → sp (k_cpu s) ≤ top - 232 ∨ top ≤ sp (k_cpu s) - 56 →
  (∀ v, save (sp (k_cpu s) - 56) (with_vm v s) = Ok tt (set_k_sched sv (with_vm v s))) →
  let c := context_of (set_f_rax 0 fr) in
  ∃ s1 s2, switch_to save (top - 232) ret s = Ok fork_child_stub s1 ∧ fork_child s1 = Ok c s2 ∧ in_context c s2.
Proof using Hlo Hhi.
  intros Hh [Hw7 Hw22] H1 H2 H3 H4 Hd Hsave c.
  destruct (switch_frame_run lo hi lim Hlo Hhi s m save sv (top - 232) _ _ _ _ _ ret Hh Hw7 H1 ltac:(lia) H3 H4 ltac:(lia) Hsave)
    as (s1 & m1 & He & Hh1 & Ho & _ & Hsp & _).
  replace (top - 232 + 56) with (top - 176) in Hsp by lia.
  destruct (leave_run lo hi lim Hlo Hhi s1 m1 Hh1) as (u & Hl & Hin); [lia..|]. rewrite Hsp in *.
  assert (stacked_context m1 (top - 176) = c) as Hc.
  { apply (stacked_frame _ _ (f_int_no fr) (f_err fr)). rewrite (words_ext 22 m m1) by (intros b Hb; apply Ho; lia). rewrite Hw22. by destruct fr. }
  rewrite Hc in *. exists s1. eexists. by split_and!.
Qed.
End stack.

(** ** Tasks *)

Section tasks.
Context {D : Type} {HW : Hardware D} {CS : CpuSymbols} {SY : Symbols} {PR : Programs}.
Implicit Types s : kst D.

(** The task at [t] is [tk]. *)
Definition put (t : Z) (tk : task) (s : kst D) : kst D :=
  set_k_sched (set_tasks (<[t := tk]> (tasks (k_sched s))) (k_sched s)) s.

Lemma upd_put s t tk f : upd_task t f (put t tk s) = Ok tt (put t (f tk) s).
Proof.
  rewrite (upd_task_run (put t tk s) t tk f) by apply lookup_insert_eq. unfold put. cbn [k_sched set_k_sched tasks set_tasks].
  by rewrite insert_insert_eq.
Qed.

Lemma get_put s t tk : get_task t (put t tk s) = Ok tk (put t tk s).
Proof. apply get_task_run, lookup_insert_eq. Qed.

Lemma get_put_ne s t tk t' tk' : t ≠ t' → tasks (k_sched s) !! t' = Some tk' → get_task t' (put t tk s) = Ok tk' (put t tk s).
Proof. intros Hne Ht. apply get_task_run. change (<[t := tk]> (tasks (k_sched s)) !! t' = Some tk'). by rewrite lookup_insert_ne. Qed.

(** [task_register] of the task at [t]. *)
Definition registered (t : Z) (s : kst D) : kst D := set_k_sched (set_all_tasks t (k_sched s)) s.

Lemma register_put s t tk :
  task_register t (put t tk s) = Ok tt (put t (set_next_all (all_tasks (k_sched s)) tk) (registered t s)).
Proof.
  unfold task_register. rewrite (bind_Ok_eq _ _ _ (all_tasks (k_sched s)) (put t tk s)) by done.
  by rewrite (bind_Ok_eq _ _ _ _ _ (upd_put s t tk _)).
Qed.

(** ** Allocation of a task and its stack *)

(** The two allocations [do_fork] starts with. *)
Definition fork_alloc : M (kst D) (Z * Z) :=
  child ← kzalloc_task; st ← lifth (kmalloc (16 * 1024)); mret (child, st).

(** The state after them: the heap has two new blocks, for the task and the
    stack. *)
Definition fork_allocated (m : mem) (bs : list block) (s : kst D) (child st : Z) (h : heap_st) : Prop :=
  ∃ m' bs' fl' c1 c2, heap_ok m' bs' fl' h ∧ used_blocks bs' ≡ₚ c2 :: c1 :: used_blocks bs ∧
    child = b_addr c1 + HDR_SIZE ∧ st = b_addr c2 + HDR_SIZE ∧ 16 * 1024 + HDR_SIZE ≤ b_size c2 ∧ child ≠ 0 ∧ st ≠ 0 ∧
    payload_kept bs m m' ∧ spared HEAP_VA_BASE (vm s) (heap_brk (k_heap s)) (hvm h) (heap_brk h).

Lemma kzalloc_task_run s m bs fl :
  heap_ok m bs fl (k_heap s) → heap_brk (k_heap s) + 65536 ≤ HEAP_VA_END →
  runs kzalloc_task s (λ t s', ∃ h, s' = put t task_zero (set_k_heap h s) ∧ allocates TASK_SIZE m bs (k_heap s) t h) oom.
Proof.
  intros Hh Hl. unfold kzalloc_task. apply runs_bind.
  eapply runs_mono; [apply runs_lifth, (kzalloc_allocates (k_heap s) m bs fl TASK_SIZE Hh); [done|done|done]| |by intros ? H'; exact H'].
  intros t s' [-> Ha]. destruct Ha as (m' & bs' & fl' & c & Hok & Hg & Hp & Hp0). rewrite (proj2 (Z.eqb_neq t 0)) by done.
  eapply runs_bind_Ok; [done|]. eapply runs_ret; [done|]. exists (k_heap s'). split; [done|]. by exists m', bs', fl', c.
Qed.

Lemma fork_alloc_run s m bs fl :
  heap_ok m bs fl (k_heap s) → heap_brk (k_heap s) + 131072 ≤ HEAP_VA_END →
  (∃ child st s1 h, kzalloc_task s = Ok child s1 ∧
     lifth (kmalloc (16 * 1024)) s1 = Ok st (put child task_zero (set_k_heap h s)) ∧ fork_allocated m bs s child st h) ∨
  (∃ w s', kzalloc_task s = Stop w s' ∧ oom w) ∨
  (∃ child s1 w s', kzalloc_task s = Ok child s1 ∧ child ≠ 0 ∧ lifth (kmalloc (16 * 1024)) s1 = Stop w s' ∧ oom w).
Proof.
  intros Hh Hl. pose proof (kzalloc_task_run s m bs fl Hh ltac:(lia)) as Hr.
  apply runs_Ok in Hr as [(child & s1 & He1 & h1 & -> & m1 & bs1 & fl1 & c1 & Hh1 & Hg1 & Hc1 & Hn1)|(w & s' & He & Hw)];
    [|right; left; by exists w, s'].
  pose proof (runs_lifth (D := D) _ (put child task_zero (set_k_heap h1 s)) _ _ (kmalloc_allocates h1 m1 bs1 fl1 (16 * 1024) Hh1 ltac:(lia)
    ltac:(by vm_compute) ltac:(pose proof (gw_brk _ _ _ _ _ _ _ _ Hg1); lia))) as Hr.
  apply runs_Ok in Hr as [(st & s2 & He2 & Es2 & m2 & bs2 & fl2 & c2 & Hh2 & Hg2 & Hc2 & Hn2)|(w & s' & He & Hw)];
    [left|right; right; by exists child, (put child task_zero (set_k_heap h1 s)), w, s'].
  exists child, st, (put child task_zero (set_k_heap h1 s)), (k_heap s2). split_and!; [exact He1|rewrite He2; f_equal; exact Es2|].
  exists m2, bs2, fl2, c1, c2. destruct Hg1 as [Hu1 _ Hk1 Hs1 _], Hg2 as [Hu2 Hz2 Hk2 Hs2 _]. split_and!; try done.
  - by rewrite Hu2, Hu1.
  - eapply payload_trans; [exact Hk1|exact Hk2|]. rewrite Hu1. set_solver.
  - eapply spared_trans; [exact Hs1|exact Hs2].
Qed.
(** ** The rest of [do_fork] *)

(** The child before it is put into the run queue. *)
Definition child_before (pt : task) (st all r : Z) : task :=
  set_fds (fds pt) (set_tcr3 r (set_next_all all (set_kstack_size (16 * 1024) (set_is_user 1 (set_state TASK_READY
    (set_name "forked" (set_ppid (pid pt) (set_kstack st task_zero)))))))).

(** The scheduler's variables before that. *)
Definition fork_vars (child a : Z) (pt : task) (st r : Z) (v : sched_vars) : sched_vars :=
  set_next_pid (next_pid v +w 1) (set_all_tasks child
    (set_tasks (<[child := set_pid (next_pid v) (set_rsp a (child_before pt st (all_tasks v) r))]> (tasks v)) v)).

(** The stack of the child: its top does not depend on the rest of the task. *)
Definition child_top (st : Z) : Z := Z.land (st +w 16 * 1024) (~w 0xF).

Lemma fork_tail_run s0 s1 s child parent pt st fr q r v3 v4 a :
  kzalloc_task s0 = Ok child s1 → lifth (kmalloc (16 * 1024)) s1 = Ok st (put child task_zero s) →
  tasks (k_sched s) !! parent = Some pt → child ≠ parent → child ∉ q → child ≠ 0 → st ≠ 0 → rq (k_sched s) q →
  vmm_fork_user_space (vm s) = Ok r v3 →
  (let s2 := put child (child_before pt st (all_tasks (k_sched s)) r) (with_vm v3 (registered child s)) in
   fork_stack (child_top st) fr s2 = Ok a (with_vm v4 s2)) →
  ∃ s', do_fork parent fr s0 = Ok child s' ∧ (∃ o, k_heap s' = set_hvm (set_vp (set_out o (vp v4)) v4) (k_heap s)) ∧
    rq (k_sched s') (q ++ [child]) ∧ queue_step (fork_vars child a pt st r (k_sched s)) (k_sched s').
Proof.
  intros He1 He2 Hp Hcp Hcq Hc0 Hs0 Hrq Hf Hst. unfold do_fork.
  rewrite (bind_Ok_eq _ _ _ _ _ He1), (proj2 (Z.eqb_neq child 0)), (bind_Ok_eq _ _ _ _ _ He2) by done.
  rewrite (bind_Ok_eq _ _ _ _ _ (upd_put s child task_zero _)), (proj2 (Z.eqb_neq st 0)) by done.
  rewrite (bind_Ok_eq _ _ _ _ _ (get_put_ne _ _ _ _ _ Hcp Hp)), (bind_Ok_eq _ _ _ _ _ (upd_put s child _ _)).
  rewrite (bind_Ok_eq _ _ _ _ _ (register_put s child _)).
  match goal with |- context [put child ?t (registered child s)] => set (ct1 := t) end.
  rewrite (bind_Ok_eq _ _ _ r (put child ct1 (with_vm v3 (registered child s)))) by (by apply (liftk_Ok _ (put child ct1 (registered child s)))).
  set (s2 := with_vm v3 (registered child s)) in *.
  rewrite (bind_Ok_eq _ _ _ _ _ (upd_put s2 child _ _)), (bind_Ok_eq _ _ _ _ _ (get_put_ne s2 _ _ _ _ Hcp Hp)).
  rewrite (bind_Ok_eq _ _ _ _ _ (upd_put s2 child _ _)), (bind_Ok_eq _ _ _ _ _ (get_put s2 child _)).
  set (s3 := with_vm v4 s2). rewrite (bind_Ok_eq _ _ _ a (put child (child_before pt st (all_tasks (k_sched s)) r) s3)) by exact Hst.
  rewrite (bind_Ok_eq _ _ _ _ _ (upd_put s3 child _ _)). set (ct := set_rsp a _). set (n := next_pid (k_sched s)).
  set (s4 := put child (set_pid n ct) (set_k_sched (set_next_pid (n +w 1) (k_sched s3)) s3)).
  destruct (sched_enqueue_run s4 q child (set_pid n ct)) as (v & He & Hrq' & Hq);
    [apply (rq_upd (set_next_pid (n +w 1) (k_sched s3))); [by destruct Hrq; split|done]|done|done|apply lookup_insert_eq|].
  rewrite (bind_Ok_eq _ _ _ tt (set_k_sched v s4)).
  2:{ unfold sched_enqueue_user. rewrite (bind_Ok_eq _ _ _ n (put child ct (set_k_sched (set_next_pid (n +w 1) (k_sched s3)) s3))) by reflexivity.
      by rewrite (bind_Ok_eq _ _ _ _ _ (upd_put _ child ct _)). }
  destruct (same_tasks_lookup _ _ child (set_pid n ct) (qs_tasks _ _ Hq)) as (ct' & Hct' & _); [apply lookup_insert_eq|].
  rewrite (bind_Ok_eq _ _ _ _ _ (get_task_run (set_k_sched v s4) child ct' Hct')).
  eexists. split; [reflexivity|]. split; [by eexists|]. split; [exact Hrq'|exact Hq].
Qed.
(** ** What [do_fork] promises *)

(** Memory for the copies of the tables ([vmm_fork_user_space]). *)
Definition fork_room (v : vmm_st) : Prop :=
  refcounts (vp v) ≠ 0 ∧ no_giant (pm (vp v)) (cr3 v) ∧ (0 ∉ free_set (vp v)) ∧
  (length (kids 3 (pm (vp v)) (cr3 v) 256) < size (free_set (vp v)))%nat.

(** In [s'] the child's space at [r] and the parent's translate user addresses as
    in [s], copy-on-write, and share the kernel half. *)
Definition child_space (s s' : kst D) (r : Z) : Prop :=
  wf_vm (vm s') ∧ cr3 (vm s') = cr3 (vm s) ∧ wf_tree (vp (vm s')) r ∧
  (∀ va, idx 3 va < 256 →
     walk 3 (pm (vp (vm s'))) r va = cow_walk (walk 3 (pm (vp (vm s))) (cr3 (vm s)) va) ∧
     walk 3 (pm (vp (vm s'))) (cr3 (vm s)) va = cow_walk (walk 3 (pm (vp (vm s))) (cr3 (vm s)) va)) ∧
  (∀ va, 256 ≤ idx 3 va → walk 3 (pm (vp (vm s'))) r va = walk 3 (pm (vp (vm s'))) (cr3 (vm s)) va).

(** A switch to the stack pointer [a], in any later state in which the stack is
    as in [s'], resumes context [c]. *)
Definition resumes (s' : kst D) (a : Z) (c : context) : Prop :=
  ∀ s lo hi lim m save sv ret,
  0 ≤ lo → hi < 2 ^ 64 → holds (vm s) lo hi lim m → lo ≤ a → a + 232 ≤ hi → same_area a (a + 232) s' s →
  lo ≤ sp (k_cpu s) - 56 → sp (k_cpu s) ≤ hi → sp (k_cpu s) ≤ a ∨ a + 232 ≤ sp (k_cpu s) - 56 →
  (∀ v, save (sp (k_cpu s) - 56) (with_vm v s) = Ok tt (set_k_sched sv (with_vm v s))) →
  ∃ s1 s2, switch_to save a ret s = Ok fork_child_stub s1 ∧ fork_child s1 = Ok c s2 ∧ in_context c s2.

Record forked_task (s : kst D) (m : mem) (bs : list block) (q : list Z) (pt : task) (fr : iframe) (child : Z) (s' : kst D) : Prop := ForkedTask {
  ft_new : tasks (k_sched s) !! child = None;
  ft_task : ∃ ct, tasks (k_sched s') !! child = Some ct ∧ pid ct = next_pid (k_sched s) ∧ ppid ct = pid pt ∧ fds ct = fds pt ∧
    state ct = TASK_READY ∧ is_user ct = 1 ∧ next_all ct = all_tasks (k_sched s) ∧
    child_space s s' (tcr3 ct) ∧ resumes s' (rsp ct) (context_of (set_f_rax 0 fr));
  ft_rest : ∀ a, a ≠ child → set_next 0 <$> tasks (k_sched s') !! a = set_next 0 <$> tasks (k_sched s) !! a;
  ft_current : current (k_sched s') = current (k_sched s);
  ft_pid : next_pid (k_sched s') = next_pid (k_sched s) +w 1;
  ft_all : all_tasks (k_sched s') = child;
  ft_queue : rq (k_sched s') (q ++ [child]);
  ft_heap : ∃ m' bs' fl' c1 c2, heap_ok m' bs' fl' (k_heap s') ∧ used_blocks bs' ≡ₚ c2 :: c1 :: used_blocks bs ∧ payload_kept bs m m';
}.

(** The tasks are on the heap. *)
Definition tasks_on_heap (s : kst D) (bs : list block) : Prop :=
  ∀ a, is_Some (tasks (k_sched s) !! a) → ∃ c, c ∈ used_blocks bs ∧ a = b_addr c + HDR_SIZE.

Lemma child_new s m bs child st h :
  tasks_on_heap s bs → fork_allocated m bs s child st h → tasks (k_sched s) !! child = None.
Proof.
  intros Hth (m' & bs' & fl' & c1 & c2 & Hh & Hu & -> & _). apply eq_None_not_Some. intros (c & Hc & E)%Hth.
  destruct (fresh_block m' bs' fl' h c1 (c2 :: used_blocks bs) Hh) as (_ & _ & _ & Hd); [by rewrite Hu, Permutation_swap|].
  destruct (Hd c) as (_ & _ & Hne); [by apply list_elem_of_further|]. apply Hne. unfold HDR_SIZE in E. lia.
Qed.

(** The child's stack in the heap. *)
Lemma child_stack_bounds m bs s child st h :
  fork_allocated m bs s child st h →
  ∃ m' bs' fl' c2, heap_ok m' bs' fl' h ∧ payload_kept bs m m' ∧ c2 ∈ bs' ∧ b_used c2 = true ∧ (c2 ∉ used_blocks bs) ∧
    used_blocks bs ⊆ used_blocks bs' ∧ (∃ c1, used_blocks bs' ≡ₚ c2 :: c1 :: used_blocks bs) ∧
    HEAP_VA_BASE ≤ b_addr c2 + HDR_SIZE ≤ child_top st - 232 ∧ child_top st ≤ b_end c2 ≤ heap_brk h ∧ heap_brk h < 2 ^ 64.
Proof.
  intros (m' & bs' & fl' & c1 & c2 & Hh & Hu & _ & -> & Hz & _ & _ & Hk & _). exists m', bs', fl', c2.
  destruct (fresh_block _ _ _ _ _ _ Hh Hu) as (Hc & Huc & Hnot & _).
  destruct (tiles_bounds _ _ _ (hp_tiles _ _ _ _ _ Hh)) as [_ Hbd]. pose proof (Hbd c2 Hc) as Hcb.
  pose proof (hd_lim _ _ _ _ _ (heap_holds _ _ _ _ Hh)) as Hl. unfold b_end, HDR_SIZE, HEAP_VA_BASE, HEAP_VA_END in *.
  pose proof (stack_top_bounds (b_addr c2 + 16) (16 * 1024) ltac:(lia) ltac:(lia) ltac:(lia)) as Hst. unfold child_top.
  split_and!; try done; try lia; [set_solver|rewrite Hu; set_solver|by exists c1].
Qed.
(** User addresses are not in the pages the heap grows by. *)
Lemma user_walk_kept v v' b b' va :
  spared HEAP_VA_BASE v b v' b' → HEAP_VA_BASE ≤ b → b' ≤ HEAP_VA_END → idx 3 va < 256 →
  walk 3 (pm (vp v')) (cr3 v') va = walk 3 (pm (vp v)) (cr3 v) va.
Proof.
  intros Hs Hb Hb' Hva. apply (sp_same _ _ _ _ _ Hs). intros a Ha Hp. specialize (Hp 3%nat ltac:(lia)).
  pose proof (heap_idx a ltac:(lia)). lia.
Qed.

Lemma child_space_done s h r v3 v4 o s' b m' m4 :
  spared HEAP_VA_BASE (vm s) b (hvm h) (heap_brk h) → HEAP_VA_BASE ≤ b →
  holds (hvm h) HEAP_VA_BASE (heap_brk h) HEAP_VA_END m' → forked_spaces (hvm h) v3 r → fork_frame (hvm h) v3 r →
  spared HEAP_VA_BASE v3 (heap_brk h) v4 (heap_brk h) → holds v4 HEAP_VA_BASE (heap_brk h) HEAP_VA_END m4 →
  vm s' = set_vp (set_out o (vp v4)) v4 → child_space s s' r.
Proof.
  intros Hs Hb Hh Hf Hff Hs4 Hh4 E. pose proof (sp_grow _ _ _ _ _ Hs) as Hg. pose proof (hd_lim _ _ _ _ _ Hh) as Hl.
  destruct (child_space_kept _ _ _ _ _ _ _ _ _ Hh ltac:(lia) Hf Hff heap_idx Hs4 Hh4) as [Htr Hwr].
  destruct (holds_out v4 _ _ _ _ o Hh4) as [Hh5 Hs5]. destruct Hf as (_ & Hc3 & _ & Hlo & Hhi).
  pose proof (sp_cr3 _ _ _ _ _ Hs) as Hc. pose proof (sp_cr3 _ _ _ _ _ Hs4) as Hc4.
  assert (∀ va, walk 3 (pm (vp (vm s'))) (cr3 (vm s)) va = walk 3 (pm (vp v3)) (cr3 (hvm h)) va) as Hwp.
  { intros va. rewrite E. change (walk 3 (pm (vp v4)) (cr3 (vm s)) va = walk 3 (pm (vp v3)) (cr3 (hvm h)) va).
    pose proof (sp_same _ _ _ _ _ Hs4 va ltac:(lia)) as Hw. rewrite Hc4, Hc3, Hc in Hw. by rewrite Hw, Hc. }
  assert (∀ va, walk 3 (pm (vp (vm s'))) r va = walk 3 (pm (vp v3)) r va) as Hwc by (intros va; rewrite E; apply Hwr).
  unfold child_space. rewrite E at 1 2 3. split_and!.
  - apply (hd_wf _ _ _ _ _ Hh5).
  - change (cr3 v4 = cr3 (vm s)). congruence.
  - destruct Htr as [Hn Hp]. split; [exact Hn|]. intros T HT. destruct (Hp T HT) as [? []]. split; [done|]. by split.
  - intros va Hva. rewrite Hwc, Hwp. destruct (Hlo va Hva) as [-> ->]. by rewrite (user_walk_kept _ _ _ _ va Hs Hb Hl Hva).
  - intros va Hva. rewrite Hwc, Hwp. by destruct (Hhi va Hva) as [-> ->].
Qed.

Lemma resumes_stack s' m' top fr b :
  holds (vm s') HEAP_VA_BASE b HEAP_VA_END m' → HEAP_VA_BASE ≤ top - 232 → top ≤ b → child_stack m' top fr →
  resumes s' (top - 232) (context_of (set_f_rax 0 fr)).
Proof.
  intros Hh' H1 H2 [Hw7 Hw22] s lo hi lim m save sv ret Hlo Hhi Hh H3 H4 Hsame H5 H6 Hd Hsave.
  assert (∀ c, top - 232 ≤ c < top → ld8 m c = ld8 m' c) as Hb.
  { intros c Hc. rewrite <-(hd_bytes _ _ _ _ _ Hh'), <-(hd_bytes _ _ _ _ _ Hh) by lia. apply Hsame. lia. }
  apply (child_first_run lo hi lim Hlo Hhi s m save sv top ret fr Hh); [|done|lia|done|done|lia|done].
  split; [etransitivity; [|exact Hw7]|rewrite <-Hw22]; apply words_ext; intros c Hc; apply Hb; lia.
Qed.
(** The queue step of [do_fork], read off field by field. *)
Lemma fork_vars_done s m bs q pt fr child a st r v' :
  tasks (k_sched s) !! child = None → rq v' (q ++ [child]) → queue_step (fork_vars child a pt st r (k_sched s)) v' →
  ∀ s', k_sched s' = v' → child_space s s' r → resumes s' a (context_of (set_f_rax 0 fr)) →
  (∃ m' bs' fl' c1 c2, heap_ok m' bs' fl' (k_heap s') ∧ used_blocks bs' ≡ₚ c2 :: c1 :: used_blocks bs ∧ payload_kept bs m m') →
  forked_task s m bs q pt fr child s'.
Proof.
  intros Hnew Hrq [Hts Hcur _ _ _ _ Hpid Hall] s' <- Hcs Hre Hheap.
  destruct (same_tasks_lookup _ _ child _ Hts (lookup_insert_eq _ _ _)) as (ct & Hct & E).
  assert (∀ A (f : task → A), (∀ t, f (set_next 0 t) = f t) → f ct = f (set_pid (next_pid (k_sched s)) (set_rsp a (child_before pt st (all_tasks (k_sched s)) r)))) as Hf.
  { intros A f Hf. rewrite <-(Hf ct), E. apply Hf. }
  split; try done.
  - exists ct. split; [done|]. rewrite (Hf _ pid), (Hf _ ppid), (Hf _ fds), (Hf _ state), (Hf _ is_user), (Hf _ next_all), (Hf _ tcr3), (Hf _ rsp) by done. done.
  - intros b Hb. rewrite (Hts b). unfold fork_vars. cbn [tasks set_next_pid set_all_tasks set_tasks]. by rewrite lookup_insert_ne.
Qed.

Lemma do_fork_run s m bs fl q parent pt fr child st s1 h :
  heap_ok m bs fl (k_heap s) → tasks (k_sched s) !! parent = Some pt → rq (k_sched s) q → tasks_on_heap s bs →
  Forall is_word (iframe_words fr) → is_word fork_child_stub → fork_room (hvm h) →
  kzalloc_task s = Ok child s1 → lifth (kmalloc (16 * 1024)) s1 = Ok st (put child task_zero (set_k_heap h s)) →
  fork_allocated m bs s child st h →
  ∃ s', do_fork parent fr s = Ok child s' ∧ forked_task s m bs q pt fr child s'.
Proof.
  intros Hok Hp Hrq Hth Hfr Hstub (Hrc & Hg & H0 & Hroom) He1 He2 Hal.
  pose proof (child_new _ _ _ _ _ _ Hth Hal) as Hnew.
  destruct (child_stack_bounds _ _ _ _ _ _ Hal) as (m' & bs' & fl' & c2 & Hh & Hk & Hc2 & Hu2 & Hn2 & Hsub & (c1 & Hu) & Hb1 & Hb2 & Hb3).
  destruct Hal as (_ & _ & _ & _ & _ & _ & _ & _ & _ & _ & Hc0 & Hs0 & _ & Hsp). pose proof (heap_holds _ _ _ _ Hh) as Hho.
  destruct (fork_space_run (hvm h) (hd_wf _ _ _ _ _ Hho) Hrc Hg H0 Hroom) as (r & v3 & Hf & Hfs & Hff).
  pose proof (fork_holds _ _ _ _ _ _ _ Hho (sa_low _ _ _ _ _ (hp_sat _ _ _ _ _ Hh)) Hfs Hff heap_idx) as Hh3.
  set (s0 := set_k_heap h s) in *.
  set (s2 := put child (child_before pt st (all_tasks (k_sched s)) r) (with_vm v3 (registered child s0))).
  destruct (fork_stack_run HEAP_VA_BASE (heap_brk h) HEAP_VA_END ltac:(done) Hb3 s2 m' (child_top st) fr Hh3) as (v4 & m4 & He & [Hh4 Hs4] & Hw4 & Hcs);
    [lia|lia|done|done|].
  assert (child ≠ parent) as Hcp by (intros ->; by rewrite Hp in Hnew).
  assert (child ∉ q) as Hcq by (intros Hc; apply (chain_lookup _ _ _ (rq_chain _ _ Hrq)) in Hc as (_ & tk & Htk); by rewrite Htk in Hnew).
  destruct (fork_tail_run s s1 s0 child parent pt st fr q r v3 v4 (child_top st - 232) He1 He2 Hp Hcp Hcq Hc0 Hs0 Hrq Hf He)
    as (s' & Hd & (o & Ho) & Hrq' & Hq).
  exists s'. split; [done|]. destruct (holds_out v4 _ _ _ _ o Hh4) as [Hh5 _].
  assert (vm s' = set_vp (set_out o (vp v4)) v4) as Hvm by (unfold vm; by rewrite Ho).
  apply (fork_vars_done s m bs q pt fr child _ st r _ Hnew Hrq' Hq s' eq_refl).
  - eapply (child_space_done s h); [exact Hsp|apply (sa_low _ _ _ _ _ (hp_sat _ _ _ _ _ Hok))|exact Hho|exact Hfs|exact Hff|exact Hs4|exact Hh4|exact Hvm].
  - apply (resumes_stack s' m4 (child_top st) fr (heap_brk h)); [by rewrite Hvm|lia|lia|done].
  - destruct (stack_written m m' m4 bs bs' fl' (set_hvm v3 h) v4 c2 (heap_vm _ _ _ _ _ Hh Hh3) Hk Hc2 Hu2 Hn2 Hsub) as [Hh' Hk']; [intros b Hb; apply Hw4; lia|done|].
    exists m4, bs', fl', c1, c2. split_and!; [rewrite Ho; by apply (heap_vm _ _ _ (set_hvm v4 (set_hvm v3 h)))|done|done].
Qed.
End tasks.

(** ** A process about to fork *)

Definition fork_heap0 : heap_st := HeapSt user_st 0 0.
Definition fork_heap1 : heap_st := run heap_init fork_heap0.
Definition fork_parent : Z := match kmalloc TASK_SIZE fork_heap1 with Ok p _ => p | Stop _ _ => 0 end.
Definition fork_heap : heap_st := run (kmalloc TASK_SIZE) fork_heap1.

Definition parent_task : task := set_pid 1 (set_state TASK_RUNNING (set_fds stdio task_zero)).

(** A kernel with the heap [h] and one task, at [p]. *)
Definition one_task (h : heap_st) (p : Z) : kst unit :=
  set_k_sched (SchedVars {[p := parent_task]} 2 p p 0 0 0 0 0 0 0) (kernel0 h tt).

Lemma one_task_ok m bs fl h p c :
  heap_ok m bs fl h → heap_brk h ≤ HEAP_VA_BASE + 131072 → used_blocks bs ≡ₚ [c] → p = b_addr c + HDR_SIZE →
  let s := one_task h p in
  heap_ok m bs fl (k_heap s) ∧ heap_brk (k_heap s) + 131072 ≤ HEAP_VA_END ∧ tasks (k_sched s) !! p = Some parent_task ∧
  rq (k_sched s) [] ∧ tasks_on_heap s bs.
Proof.
  intros Hok Hb Hu -> s. split_and!; [exact Hok| |apply lookup_singleton_eq|by split; [..|apply NoDup_nil_2]|].
  - change (heap_brk (k_heap s)) with (heap_brk h). unfold HEAP_VA_BASE, HEAP_VA_END in *. lia.
  - intros a Ha. change (is_Some (({[b_addr c + HDR_SIZE := parent_task]} : gmap Z task) !! a)) in Ha.
    apply lookup_singleton_is_Some in Ha as <-. exists c. split; [rewrite Hu; apply list_elem_of_here|done].
Qed.

Definition fork_kernel : kst unit := one_task fork_heap fork_parent.

Definition fork_frame0 : iframe := Iframe SYS_fork 1 2 3 4 5 6 7 8 9 10 11 12 13 14 128 0 0x400010 0x1b 0x202 0x7fff00 0x23.

Lemma run_Ok {S A} (x : M S A) s : match x s with Ok _ _ => true | Stop _ _ => false end = true → ∃ a, x s = Ok a (run x s).
Proof. unfold run. destruct (x s) as [a t|]; [by exists a|done]. Qed.

Lemma run_eq {S A} (x : M S A) s a t : x s = Ok a t → run x s = t.
Proof. unfold run. by intros ->. Qed.

Lemma fork_heap0_holds : holds (hvm fork_heap0) HEAP_VA_BASE HEAP_VA_BASE HEAP_VA_END ∅.
Proof.
  assert (Forall (λ j, entry (pm (vp user_st)) (cr3 user_st) j = 0) (seqZ 256 256)) as Hz.
  { apply (bool_decide_unpack _). vm_compute. reflexivity. }
  rewrite Forall_forall in Hz. split; [apply user_st_wf| | | |done|done].
  - split; [intros; lia..|done].
  - intros. lia.
  - intros va Hva. pose proof (heap_idx va Hva). pose proof (idx_range 3 va).
    change (hvm fork_heap0) with user_st. rewrite walk_unfold, wtab_unfold, Hz by (apply elem_of_seqZ; lia). done.
Qed.

Lemma fork_heap_ok : ∃ m bs fl c, heap_ok m bs fl fork_heap ∧ used_blocks bs ≡ₚ [c] ∧ fork_parent = b_addr c + HDR_SIZE ∧
  heap_brk fork_heap ≤ HEAP_VA_BASE + 131072.
Proof.
  assert (heap_init fork_heap0 = Ok tt fork_heap1) as E1 by (destruct (run_Ok heap_init fork_heap0) as [[] E]; [vm_compute; reflexivity|exact E]).
  destruct (runs_inv _ _ _ _ _ _ (heap_init_run fork_heap0 ∅ fork_heap0_holds) E1) as (m1 & H1%heap_at_self & Hb).
  assert (∃ p, kmalloc TASK_SIZE fork_heap1 = Ok p fork_heap) as [p E2]
    by (destruct (run_Ok (kmalloc TASK_SIZE) fork_heap1) as [p E]; [vm_compute; reflexivity|exists p; exact E]).
  destruct (runs_inv _ _ _ _ _ _ (kmalloc_allocates fork_heap1 m1 _ _ TASK_SIZE H1 ltac:(done) ltac:(done) ltac:(rewrite Hb; done)) E2)
    as (m2 & bs2 & fl2 & c & H2 & [Hu _ _ _ Hg] & Hp & _).
  exists m2, bs2, fl2, c. split_and!; [done|exact Hu|unfold fork_parent; by rewrite E2|].
  rewrite Hb in Hg. unfold SUPER_PAGES, UIX_PAGE_SIZE in Hg. lia.
Qed.

#[local] Existing Instance sample_syms.

Lemma fork_kernel_room : fork_room (vm (run fork_alloc fork_kernel)).
Proof. apply (bool_decide_unpack _). vm_compute. reflexivity. Qed.

Lemma fork_kernel_forks : ∃ child s', do_fork fork_parent fork_frame0 fork_kernel = Ok child s'.
Proof. destruct (run_Ok (do_fork fork_parent fork_frame0) fork_kernel) as [child E]; [vm_compute; reflexivity|]. eauto. Qed.

(** ** Claims *)



End ProcessProps.
