(* ===== verification/TaskProps.v ===== *)
(** * Creation of kernel threads, and the first steps of tasks *)

From S2P Require Import Prelude Lib Pmm PmmFacts Vmm PageTables VmmFacts Checks Heap VirtMem.
From S2P Require Import HeapFacts HeapAlloc HeapProps Machine Samples Idt Task Sched SchedFacts SchedProps.
From S2P Require Import Keyboard Pci Virtio Uixfs Elf Process ProcessFacts Apic Syscall Entry EntryProps ProcessProps.

Module TaskProps.
Import Lib Pmm PmmFacts Vmm PageTables VmmFacts Checks Heap VirtMem.
Import HeapFacts HeapAlloc HeapProps Machine Samples Idt Task Sched SchedFacts SchedProps.
Import Keyboard Pci Virtio Uixfs Elf Process ProcessFacts Apic Syscall Entry EntryProps ProcessProps.

Section create.
Context {D : Type} {SY : Symbols}.
Implicit Types s : kst D.

(** The thread before it is put into the run queue. *)
Definition thread_before (nm : string) (st n all : Z) : task :=
  set_next_all all (set_state TASK_READY (set_name nm (set_pid n (set_kstack_size KSTACK_SIZE (set_kstack st task_zero))))).

Definition thread_vars (t a : Z) (nm : string) (st : Z) (v : sched_vars) : sched_vars :=
  set_next_pid (next_pid v +w 1) (set_all_tasks t
    (set_tasks (<[t := set_rsp a (thread_before nm st (next_pid v) (all_tasks v))]> (tasks v)) v)).

(** [task_create] after the two allocations. *)
Lemma create_tail_run s0 s1 s t nm fn arg st q v4 a :
  kzalloc_task s0 = Ok t s1 → lifth (kmalloc KSTACK_SIZE) s1 = Ok st (put t task_zero s) →
  t ∉ q → t ≠ 0 → st ≠ 0 → rq (k_sched s) q →
  (let n := next_pid (k_sched s) in
   let s2 := put t (thread_before nm st n (all_tasks (k_sched s))) (registered t (set_k_sched (set_next_pid (n +w 1) (k_sched s)) s)) in
   push_all (child_top st) [task_entry_trampoline; 0; 0; fn; arg; 0; 0] s2 = Ok a (with_vm v4 s2)) →
  ∃ s', task_create nm fn arg s0 = Ok t s' ∧ k_heap s' = set_hvm v4 (k_heap s) ∧ k_cpu s' = k_cpu s ∧
    rq (k_sched s') (q ++ [t]) ∧ queue_step (thread_vars t a nm st (k_sched s)) (k_sched s').
Proof.
  intros He1 He2 Hq Ht0 Hs0 Hrq Hst. set (n := next_pid (k_sched s)) in *. cbn zeta in Hst.
  set (sp := set_k_sched (set_next_pid (n +w 1) (k_sched s)) s) in *. set (s2 := registered t sp) in *.
  assert (task_alloc nm s0 = Ok t (put t (thread_before nm st n (all_tasks (k_sched s))) s2)) as Ha.
  { unfold task_alloc. rewrite (bind_Ok_eq _ _ _ _ _ He1), (proj2 (Z.eqb_neq t 0)), (bind_Ok_eq _ _ _ _ _ He2) by done.
    rewrite (bind_Ok_eq _ _ _ _ _ (upd_put s t task_zero _)), (proj2 (Z.eqb_neq st 0)) by done.
    rewrite (bind_Ok_eq _ _ _ _ _ (upd_put s t _ _)). match goal with |- context [put t ?x s] => set (t1 := x) end.
    rewrite (bind_Ok_eq _ _ _ n (put t t1 sp)) by reflexivity.
    rewrite (bind_Ok_eq _ _ _ _ _ (upd_put sp t _ _)), (bind_Ok_eq _ _ _ _ _ (upd_put sp t _ _)), (bind_Ok_eq _ _ _ _ _ (upd_put sp t _ _)).
    by rewrite (bind_Ok_eq _ _ _ _ _ (register_put sp t _)). }
  unfold task_create. rewrite (bind_Ok_eq _ _ _ _ _ Ha), (proj2 (Z.eqb_neq t 0)), (bind_Ok_eq _ _ _ _ _ (get_put s2 t _)) by done.
  set (s3 := with_vm v4 s2). set (tk := thread_before nm st n (all_tasks (k_sched s))) in *.
  rewrite (bind_Ok_eq _ _ _ a (put t tk s3)) by exact Hst. rewrite (bind_Ok_eq _ _ _ _ _ (upd_put s3 t tk _)).
  destruct (sched_enqueue_run (put t (set_rsp a tk) s3) q t (set_rsp a tk)) as (v & He & Hrq' & Hqs);
    [apply (rq_upd (k_sched s3)); [by destruct Hrq; split|done]|done|done|apply lookup_insert_eq|].
  rewrite (bind_Ok_eq _ _ _ _ _ He). eexists. split; [reflexivity|]. split_and!; [done|done|exact Hrq'|exact Hqs].
Qed.

(** A switch to the stack pointer [a], in any later state in which the stack is
    as in [s'], starts the function [fn] with the argument [arg]. *)
Definition starts (s' : kst D) (a fn arg : Z) : Prop :=
  ∀ s lo hi lim m save sv ret,
  0 ≤ lo → hi < 2 ^ 64 → holds (vm s) lo hi lim m → lo ≤ a → a + 56 ≤ hi → same_area a (a + 56) s' s →
  lo ≤ sp (k_cpu s) - 56 → sp (k_cpu s) ≤ hi → sp (k_cpu s) ≤ a ∨ a + 56 ≤ sp (k_cpu s) - 56 →
  (∀ v, save (sp (k_cpu s) - 56) (with_vm v s) = Ok tt (set_k_sched sv (with_vm v s))) →
  ∃ s1, switch_to save a ret s = Ok task_entry_trampoline s1 ∧ task_entry s1 = Ok (fn, arg) s1 ∧ sp (k_cpu s1) = a + 56.

Lemma starts_stack s' m' a fn arg b :
  holds (vm s') HEAP_VA_BASE b HEAP_VA_END m' → HEAP_VA_BASE ≤ a → a + 56 ≤ b →
  switch_frame m' a 0 0 arg fn task_entry_trampoline → starts s' a fn arg.
Proof.
  intros Hh' H1 H2 Hf s lo hi lim m save sv ret Hlo Hhi Hh H3 H4 Hsame H5 H6 Hd Hsave.
  destruct (switch_frame_run lo hi lim Hlo Hhi s m save sv a 0 0 arg fn task_entry_trampoline ret Hh) as (s1 & m1 & He & _ & _ & _ & Hsp & H12 & H13 & _); [|done..|].
  - etransitivity; [|exact Hf]. apply words_ext. intros c Hc.
    rewrite <-(hd_bytes _ _ _ _ _ Hh'), <-(hd_bytes _ _ _ _ _ Hh) by lia. apply Hsame. lia.
  - exists s1. split_and!; [done| |done]. unfold task_entry. rewrite (bind_Ok_eq _ _ _ (k_cpu s1) s1) by done. by rewrite H12, H13.
Qed.

(** What [task_create] promises. *)
Record created_task (s : kst D) (m : mem) (bs : list block) (q : list Z) (nm : string) (fn arg t : Z) (s' : kst D) : Prop := CreatedTask {
  cr_new : tasks (k_sched s) !! t = None;
  cr_task : ∃ tk, tasks (k_sched s') !! t = Some tk ∧ pid tk = next_pid (k_sched s) ∧ name tk = nm ∧ state tk = TASK_READY ∧
    tcr3 tk = 0 ∧ is_user tk = 0 ∧ next_all tk = all_tasks (k_sched s) ∧ starts s' (rsp tk) fn arg;
  cr_rest : ∀ a, a ≠ t → set_next 0 <$> tasks (k_sched s') !! a = set_next 0 <$> tasks (k_sched s) !! a;
  cr_current : current (k_sched s') = current (k_sched s);
  cr_pid : next_pid (k_sched s') = next_pid (k_sched s) +w 1;
  cr_all : all_tasks (k_sched s') = t;
  cr_queue : rq (k_sched s') (q ++ [t]);
  cr_heap : ∃ m' bs' fl' c1 c2, heap_ok m' bs' fl' (k_heap s') ∧ used_blocks bs' ≡ₚ c2 :: c1 :: used_blocks bs ∧ payload_kept bs m m';
  cr_spared : spared HEAP_VA_BASE (vm s) (heap_brk (k_heap s)) (vm s') (heap_brk (k_heap s'));
}.

Lemma task_create_run s m bs fl q nm fn arg t st s1 h :
  heap_ok m bs fl (k_heap s) → rq (k_sched s) q → tasks_on_heap s bs → Forall is_word [arg; fn; task_entry_trampoline] →
  kzalloc_task s = Ok t s1 → lifth (kmalloc (16 * 1024)) s1 = Ok st (put t task_zero (set_k_heap h s)) →
  fork_allocated m bs s t st h → ∃ s', task_create nm fn arg s = Ok t s' ∧ created_task s m bs q nm fn arg t s'.
Proof.
  intros Hok Hrq Hth Hw He1 He2 Hal. pose proof (child_new _ _ _ _ _ _ Hth Hal) as Hnew.
  destruct (child_stack_bounds _ _ _ _ _ _ Hal) as (m' & bs' & fl' & c2 & Hh & Hk & Hc2 & Hu2 & Hn2 & Hsub & (c1 & Hu) & Hb1 & Hb2 & Hb3).
  destruct Hal as (_ & _ & _ & _ & _ & _ & _ & _ & _ & _ & Hc0 & Hs0 & _ & Hsp). pose proof (heap_holds _ _ _ _ Hh) as Hho.
  set (s0 := set_k_heap h s) in *. set (n := next_pid (k_sched s)).
  set (s2 := put t (thread_before nm st n (all_tasks (k_sched s))) (registered t (set_k_sched (set_next_pid (n +w 1) (k_sched s)) s0))).
  destruct (push_all_run HEAP_VA_BASE (heap_brk h) HEAP_VA_END ltac:(done) Hb3 s2 m' (child_top st) [task_entry_trampoline; 0; 0; fn; arg; 0; 0] Hho)
    as (v4 & He & Hh4 & Hs4); [cbn [length]; lia|lia|]. change (8 * Z.of_nat (length _)) with 56 in He. set (m4 := pushed _ _ m') in *.
  assert (t ∉ q) as Hcq by (intros Hc; apply (chain_lookup _ _ _ (rq_chain _ _ Hrq)) in Hc as (_ & tk & Htk); by rewrite Htk in Hnew).
  destruct (create_tail_run s s1 s0 t nm fn arg st q v4 (child_top st - 56) He1 He2 Hcq Hc0 Hs0 Hrq He) as (s' & Hd & Ho & _ & Hrq' & Hq).
  exists s'. split; [done|]. destruct Hq as [Hts Hcur _ _ _ _ Hpid Hall].
  destruct (same_tasks_lookup _ _ t _ Hts (lookup_insert_eq _ _ _)) as (tk & Htk & E).
  assert (∀ A (f : task → A), (∀ x, f (set_next 0 x) = f x) → f tk = f (set_rsp (child_top st - 56) (thread_before nm st n (all_tasks (k_sched s))))) as Hf.
  { intros A f Hf. rewrite <-(Hf tk), E. apply Hf. }
  assert (vm s' = v4) as Hvm by (unfold vm; by rewrite Ho). split; try done.
  - exists tk. split; [done|]. rewrite (Hf _ pid), (Hf _ name), (Hf _ state), (Hf _ tcr3), (Hf _ is_user), (Hf _ next_all), (Hf _ rsp) by done.
    split_and!; [done..|]. apply (starts_stack s' m4 _ fn arg (heap_brk h)); [by rewrite Hvm| | |].
    + change (HEAP_VA_BASE ≤ child_top st - 56). lia.
    + change (child_top st - 56 + 56 ≤ heap_brk h). lia.
    + apply (switch_frame_pushed m' (child_top st) 0 0 arg fn). rewrite !Forall_cons in *. destruct Hw as (? & ? & ? & _). by split_and!.
  - intros b Hb. rewrite (Hts b). unfold thread_vars. cbn [tasks set_next_pid set_all_tasks set_tasks]. by rewrite lookup_insert_ne.
  - destruct (stack_written m m' m4 bs bs' fl' h v4 c2 Hh Hk Hc2 Hu2 Hn2 Hsub) as [Hh' Hk']; [intros b Hb; apply pushed_out; cbn [length]; lia|done|].
    exists m4, bs', fl', c1, c2. split_and!; [by rewrite Ho|done|done].
  - rewrite Hvm, Ho. eapply spared_trans; [exact Hsp|exact Hs4].
Qed.
End create.

#[local] Existing Instance sample_syms.

Lemma thread_created : ∃ t s', task_create "idle" 0xffffffff80100000 7 fork_kernel = Ok t s'.
Proof.
  destruct (run_Ok (task_create "idle" 0xffffffff80100000 7) fork_kernel) as [t E]; [vm_compute; reflexivity|]. eauto.
Qed.

(** ** Claims *)

(** C22 [task_create] on a heap that holds the tasks: unless the heap runs out of
    memory it returns a new kernel thread with the next pid, at the end of the run
    queue and in the registry, and the first switch to it calls [fn] with [arg] on
    its own stack.  No other task, heap block in use or page changes. *)
Theorem task_create_correct {D : Type} {SY : Symbols} (s : kst D) (m : mem) (bs : list block) (fl : list Z) (q : list Z)
    (nm : string) (fn arg : Z) :
  heap_ok m bs fl (k_heap s) → heap_brk (k_heap s) + 131072 ≤ HEAP_VA_END → rq (k_sched s) q → tasks_on_heap s bs →
  Forall is_word [arg; fn; task_entry_trampoline] →
  runs (task_create nm fn arg) s (created_task s m bs q nm fn arg) oom.
Proof.
  intros Hok Hl Hrq Hth Hw.
  destruct (fork_alloc_run s m bs fl Hok Hl) as [(t & st & s1 & h & He1 & He2 & Hal)|[(w & s' & He & Hw')|(t & s1 & w & s' & He1 & Hc0 & He & Hw')]].
  - destruct (task_create_run s m bs fl q nm fn arg t st s1 h Hok Hrq Hth Hw He1 He2 Hal) as (s' & He & Hc). unfold runs. by rewrite He.
  - unfold runs, task_create. rewrite (bind_Stop_eq _ _ _ w s'); [done|]. unfold task_alloc. by rewrite (bind_Stop_eq _ _ _ _ _ He).
  - unfold runs, task_create. rewrite (bind_Stop_eq _ _ _ w s'); [done|]. unfold task_alloc.
    rewrite (bind_Ok_eq _ _ _ _ _ He1), (proj2 (Z.eqb_neq t 0)) by done. by rewrite (bind_Stop_eq _ _ _ _ _ He).
Qed.

Lemma task_create_correct_witness :
  ∃ m bs t s', task_create "idle" 0xffffffff80100000 7 fork_kernel = Ok t s' ∧
    created_task fork_kernel m bs [] "idle" 0xffffffff80100000 7 t s'.
Proof.
  destruct fork_heap_ok as (m & bs & fl & c & Hok & Hu & Hp & Hb).
  destruct (one_task_ok m bs fl fork_heap fork_parent c Hok Hb Hu Hp) as (H1 & H2 & _ & H4 & H5).
  destruct thread_created as (t & s' & E). exists m, bs, t, s'. split; [exact E|].
  refine (runs_inv _ _ _ _ _ _ (task_create_correct fork_kernel m bs fl [] "idle" 0xffffffff80100000 7 H1 H2 H4 H5 _) E).
  repeat (constructor; [split; [vm_compute; discriminate|reflexivity]|]). constructor.
Defined.


Lemma cpu_with_vm {D} v (s : kst D) : k_cpu (with_vm v s) = k_cpu s.
Proof. done. Qed.

Lemma three_holds : ∃ m, holds (vm three_kernel) stack_lo stack_hi HEAP_VA_END m.
Proof. exact heap1_holds. Qed.


End TaskProps.
