(* ===== verification/Kmain.v ===== *)
(** * Kernel start ([core/kmain.c], [_start] of [arch/x86_64/cpu.S])

    The initialisation sequence and the memory self-test.  [kmain] ends in the
    scheduler, which switches to the first user task. *)

From S2P Require Import Prelude Lib Pmm Vmm Heap Machine Idt Task Sched Keyboard.
From S2P Require Import Pci Virtio Uixfs Elf Process Apic Boot Syscall.

Module Kmain.
Import Lib Pmm Vmm Heap Machine Idt Task Sched Keyboard Pci Virtio Uixfs Elf Process Apic Boot Syscall.

Definition PROBE_VA : Z := 0xffff800100000000.
Definition CANARY : Z := 0xCAFEBABEDEADBEEF.

Section kmain.
Context {D : Type} {HW : Hardware D} {CS : CpuSymbols} {SY : Symbols} {PR : Programs}.

(** The 64 pages of the test, in the order they were allocated. *)
Fixpoint test_alloc (k : nat) : M (kst D) (list Z) :=
  match k with
  | O => mret []
  | S k =>
      p ← liftpm pmm_alloc;
      if p =? 0 then panic "selftest: pmm OOM at %d"
      else
        va ← liftk (p2v p);
        liftpm (hmemset va 0xA5 UIX_PAGE_SIZE) ;;
        ps ← test_alloc k;
        mret (p :: ps)
  end.

Fixpoint test_free (ps : list Z) : M (kst D) unit :=
  match ps with
  | [] => mret tt
  | p :: ps => liftpm (pmm_free p) ;; test_free ps
  end.

(** [bytes[i] = (u8)i; sum += bytes[i];] *)
Fixpoint test_sum (k : nat) (h i sum : Z) : M (kst D) Z :=
  match k with
  | O => mret sum
  | S k =>
      liftk (vstore8 (h +w i) (wrap8 i)) ;;
      b ← liftk (vload8 (h +w i));
      test_sum k h (i + 1) (sum +w b)
  end.

Definition selftest_memory : M (kst D) unit :=
  before ← liftpm pmm_free_pages;
  ps ← test_alloc 64;
  test_free ps ;;
  after ← liftpm pmm_free_pages;
  if negb (after =? before) then panic "selftest: pmm leak (%u != %u)"
  else
    p ← liftpm pmm_alloc;
    liftk (vmm_map PROBE_VA p (Z.lor (Z.lor VMM_PRESENT VMM_WRITE) VMM_NOEXEC)) ;;
    liftk (vstn 8 PROBE_VA CANARY) ;;
    back ← liftk (vmm_translate PROBE_VA);
    if negb (bool_decide (back = Some p)) then panic "selftest: translate mismatch %p != %p"
    else
      v ← liftk (vldn 8 PROBE_VA);
      if negb (v =? CANARY) then panic "selftest: canary lost"
      else
        liftk (vmm_unmap PROBE_VA) ;;
        liftpm (pmm_free p) ;;
        h1 ← lifth (kmalloc 100);
        h2 ← lifth (kmalloc 4096);
        if (h1 =? 0) || (h2 =? 0) then panic "selftest: kmalloc failed"
        else
          copy_out h1 [104; 101; 97; 112; 32; 119; 111; 114; 107; 115; 0] ;;
          sum ← test_sum 4096 h2 0 0;
          if negb (sum =? 522240) then panic "selftest: heap corruption sum=%u"
          else
            lifth (kfree h1) ;;
            lifth (kfree h2) ;;
            n ← liftpm pmm_free_pages;
            klog "[info] selftest: pmm/vmm/heap OK (%u pages free)\n" [KU (wrap32 n)].

(** [kmain] after [console_init]; the result is where the processor goes on
    when the scheduler switched away. *)
Definition kmain (spin : nat) (memmap_resp : option (list memmap_entry)) (hhdm_resp : option Z) :
  M (kst D) (option Z) :=
  boot_init memmap_resp hhdm_resp ;;
  idt_init ;;
  liftpm pmm_init ;;
  liftk vmm_init ;;
  lifth heap_init ;;
  selftest_memory ;;
  apic_init spin ;;
  keyboard_init spin ;;
  tty_init ;;
  pci_scan ;;
  r ← virtio_blk_init;
  (if r =? 0 then uixfs_mount ;; mret tt else mret tt) ;;
  syscall_init ;;
  task_init ;;
  sched_init ;;
  user_task_create "user0" user_program ;;
  mod_cpu (set_iflag true) ;;
  klog "\n" [] ;;
  klog "uix v%d.%d: microkernel + POSIX personality\n" [KU 0; KU 1] ;;
  klog "[info] M4: ring 3, int 0x80 syscalls, user program.\n" [] ;;
  sched_start.

(** [_start] ([arch/x86_64/cpu.S]), where the boot loader jumps to; [top] is the
    label [stack_top]. *)
Definition start (top : Z) (spin : nat) (memmap_resp : option (list memmap_entry)) (hhdm_resp : option Z) :
  M (kst D) (option Z) :=
  mod_cpu (λ c, set_rbp 0 (set_sp top c)) ;;
  gdt_init ;;
  r ← kmain spin memmap_resp hhdm_resp;
  match r with
  | Some a => mret (Some a)
  | None => mod_cpu (set_iflag false) ;; hlt
  end.

End kmain.
End Kmain.
