(* ===== verification/Host.v ===== *)
(** * The host of the installer

    What [boot/limine/limine-install.c] uses of the C library of the machine
    that builds the kernel: files, [malloc] and [free], [rand] and the messages.
    Every call that can fail asks [faults] whether it does, so a theorem that
    holds for every list of faults holds whatever the host does.  Streams are not
    buffered: a byte is in the file once [fwrite] returned. *)

From S2P Require Import Prelude.

Module Host.

(** A file: its bytes and its length. *)
Record file := File { fdata : mem; flen : Z }.

(** An open stream: file, position, error indicator. *)
Record stream := Stream { sname : string; spos : Z; serr : bool }.

(** What happens to a call: it works, or it fails after it moved [k] bytes. *)
Inductive io_event := Works | Fails (k : Z).

(** A block of [malloc]: its size and the bytes that were put in it. *)
Record block := Block { bsize : Z; bdata : list Z }.

(** The host. *)
Record host := HostSt {
  files : gmap string file;
  faults : list io_event; (** the rest of the run works *)
  rands : list Z;
  allocs : gmap Z block;
  out : list string; (** format strings, last one first *)
}.

Definition set_files (v : gmap string file) (s : host) : host :=
  HostSt v (faults s) (rands s) (allocs s) (out s).
Definition set_faults (v : list io_event) (s : host) : host :=
  HostSt (files s) v (rands s) (allocs s) (out s).
Definition set_rands (v : list Z) (s : host) : host :=
  HostSt (files s) (faults s) v (allocs s) (out s).
Definition set_allocs (v : gmap Z block) (s : host) : host :=
  HostSt (files s) (faults s) (rands s) v (out s).
Definition set_out (v : list string) (s : host) : host :=
  HostSt (files s) (faults s) (rands s) (allocs s) v.

(** ** Messages, faults, random numbers *)

Definition say (fmt : string) : M host unit := modify (λ h, set_out (fmt :: out h) h).

Definition next_event : M host io_event := λ h,
  match faults h with
  | [] => Ok Works h
  | e :: es => Ok e (set_faults es h)
  end.

Definition rand : M host Z := λ h,
  match rands h with
  | [] => Ok 0 h
  | r :: rs => Ok r (set_rands rs h)
  end.

(** ** Allocation *)

(** [malloc]: a fresh address, or 0. *)
Definition malloc (n : Z) : M host Z := λ h,
  match next_event h with
  | Ok (Fails _) h => Ok 0 h
  | Ok Works h =>
      if 2 ^ 63 <=? n then Ok 0 h
      else
        let p := fresh (dom (allocs h) ∪ {[0]}) in
        Ok p (set_allocs (<[p := Block n []]> (allocs h)) h)
  | Stop w h => Stop w h
  end.

Definition free (p : Z) : M host unit := λ h,
  if p =? 0 then Ok tt h
  else match allocs h !! p with
       | None => Stop (Undef "free of a pointer that is not allocated") h
       | Some _ => Ok tt (set_allocs (delete p (allocs h)) h)
       end.

(** Reading the first [n] bytes of a block, and filling a block. *)
Definition deref (p n : Z) : M host (list Z) := λ h,
  match allocs h !! p with
  | None => Stop (Undef "use of a pointer that is not allocated") h
  | Some b =>
      if Z.of_nat (length (bdata b)) <? n then Stop (Undef "read past the bytes of a block") h
      else Ok (take (Z.to_nat n) (bdata b)) h
  end.

Definition fill (p : Z) (bs : list Z) : M host unit := λ h,
  match allocs h !! p with
  | None => Stop (Undef "use of a pointer that is not allocated") h
  | Some b =>
      if bsize b <? Z.of_nat (length bs) then Stop (Undef "write past the end of a block") h
      else Ok tt (set_allocs (<[p := Block (bsize b) bs]> (allocs h)) h)
  end.

(** ** Files *)

(** [fopen] for mode ["r+b"] or ["rb"]. *)
Definition fopen (name : string) : M host (option stream) := λ h,
  match next_event h with
  | Ok (Fails _) h => Ok None h
  | Ok Works h =>
      match files h !! name with
      | None => Ok None h
      | Some _ => Ok (Some (Stream name 0 false)) h
      end
  | Stop w h => Stop w h
  end.

(** [fopen] for mode ["wb"]: the file is empty afterwards. *)
Definition fopen_wb (name : string) : M host (option stream) := λ h,
  match next_event h with
  | Ok (Fails _) h => Ok None h
  | Ok Works h => Ok (Some (Stream name 0 false)) (set_files (<[name := File ∅ 0]> (files h)) h)
  | Stop w h => Stop w h
  end.

Definition file_of (st : stream) (h : host) : file := default (File ∅ 0) (files h !! sname st).

(** [fseek(st, (long)pos, SEEK_SET)]: 0 when it worked. *)
Definition fseek (st : stream) (pos : Z) : M host (Z * stream) := λ h,
  match next_event h with
  | Ok (Fails _) h => Ok (-1, st) h
  | Ok Works h =>
      if sint64 pos <? 0 then Ok (-1, st) h
      else Ok (0, Stream (sname st) (sint64 pos) (serr st)) h
  | Stop w h => Stop w h
  end.

(** [rewind] also clears the error indicator. *)
Definition rewind (st : stream) : stream := Stream (sname st) 0 false.

(** The bytes of [n] that are there to read. *)
Definition avail (st : stream) (n : Z) (h : host) : Z := Z.max 0 (Z.min n (flen (file_of st h) - spos st)).

(** [fread(buf, n, 1, st)]: the number of items read, the bytes that reached the
    buffer, the stream.  A read of items of size 0 reads no item. *)
Definition fread (st : stream) (n : Z) : M host (Z * list Z * stream) := λ h,
  match next_event h with
  | Ok (Fails k) h =>
      let c := Z.max 0 (Z.min k (avail st n h)) in
      Ok (0, ld_bytes (Z.to_nat c) (fdata (file_of st h)) (spos st), Stream (sname st) (spos st + c) true) h
  | Ok Works h =>
      let c := avail st n h in
      Ok ((if (0 <? n) && (c =? n) then 1 else 0),
          ld_bytes (Z.to_nat c) (fdata (file_of st h)) (spos st),
          Stream (sname st) (spos st + c) (serr st)) h
  | Stop w h => Stop w h
  end.

(** Writing bytes at the position of a stream. *)
Definition put_bytes (st : stream) (bs : list Z) (h : host) : host :=
  let f := file_of st h in
  set_files (<[sname st := File (st_bytes (spos st) bs (fdata f))
                                (Z.max (flen f) (spos st + Z.of_nat (length bs)))]> (files h)) h.

(** [fwrite(buf, n, 1, st)] for the [n] bytes [bs]. *)
Definition fwrite (st : stream) (bs : list Z) : M host (Z * stream) := λ h,
  match next_event h with
  | Ok (Fails k) h =>
      let part := take (Z.to_nat k) bs in
      Ok (0, Stream (sname st) (spos st + Z.of_nat (length part)) true) (put_bytes st part h)
  | Ok Works h =>
      if (0 <? Z.of_nat (length bs)) then
        Ok (1, Stream (sname st) (spos st + Z.of_nat (length bs)) (serr st)) (put_bytes st bs h)
      else Ok (0, st) h
  | Stop w h => Stop w h
  end.

(** [fseek(st, 0, SEEK_END)] and [ftell(st)]. *)
Definition fseek_end (st : stream) : M host (Z * stream) := λ h,
  match next_event h with
  | Ok (Fails _) h => Ok (-1, st) h
  | Ok Works h => Ok (0, Stream (sname st) (flen (file_of st h)) (serr st)) h
  | Stop w h => Stop w h
  end.

Definition ftell (st : stream) : M host Z := λ h,
  match next_event h with
  | Ok (Fails _) h => Ok (-1) h
  | Ok Works h => Ok (spos st) h
  | Stop w h => Stop w h
  end.

End Host.
