(* ===== verification/Limine.v ===== *)
(** * The device layer of the installer ([boot/limine/limine-install.c])

    [limine-install] writes the first stages of the boot loader to a disk image.
    This file has its static variables, the block cache between it and the
    device, and the record of overwritten bytes that lets it undo its work. *)

From Stdlib Require Import Ascii.
From S2P Require Import Prelude Host.

Module Limine.
Import Host.

(** ** Static variables *)

(** [cache_state] *)
Inductive cache_status := CACHE_CLEAN | CACHE_DIRTY.

(** [struct uninstall_data]; [data] is an address of [malloc]. *)
Record undo := Undo { data : Z; loc : Z; count : Z }.

Definition UNINSTALL_DATA_MAX : Z := 256.

(** The static variables of the tool, and the host.  A null pointer is [None]. *)
Record lim := Lim {
  io : host;
  quiet : bool;
  cache_state : cache_status;
  cached_block : Z;
  cache : option mem;
  device : option stream;
  block_size : Z;
  uninstalling : bool;
  uninstall_data : list undo;
  uninstall_data_rev : list undo;
  uninstall_data_i : Z;
  uninstall_file : option string;
}.

Definition set_io (v : host) (s : lim) : lim :=
  Lim v (quiet s) (cache_state s) (cached_block s) (cache s) (device s) (block_size s) (uninstalling
    s) (uninstall_data s) (uninstall_data_rev s) (uninstall_data_i s) (uninstall_file s).
Definition set_quiet (v : bool) (s : lim) : lim :=
  Lim (io s) v (cache_state s) (cached_block s) (cache s) (device s) (block_size s) (uninstalling s)
    (uninstall_data s) (uninstall_data_rev s) (uninstall_data_i s) (uninstall_file s).
Definition set_cache_state (v : cache_status) (s : lim) : lim :=
  Lim (io s) (quiet s) v (cached_block s) (cache s) (device s) (block_size s) (uninstalling s)
    (uninstall_data s) (uninstall_data_rev s) (uninstall_data_i s) (uninstall_file s).
Definition set_cached_block (v : Z) (s : lim) : lim :=
  Lim (io s) (quiet s) (cache_state s) v (cache s) (device s) (block_size s) (uninstalling s)
    (uninstall_data s) (uninstall_data_rev s) (uninstall_data_i s) (uninstall_file s).
Definition set_cache (v : option mem) (s : lim) : lim :=
  Lim (io s) (quiet s) (cache_state s) (cached_block s) v (device s) (block_size s) (uninstalling s)
    (uninstall_data s) (uninstall_data_rev s) (uninstall_data_i s) (uninstall_file s).
Definition set_device (v : option stream) (s : lim) : lim :=
  Lim (io s) (quiet s) (cache_state s) (cached_block s) (cache s) v (block_size s) (uninstalling s)
    (uninstall_data s) (uninstall_data_rev s) (uninstall_data_i s) (uninstall_file s).
Definition set_block_size (v : Z) (s : lim) : lim :=
  Lim (io s) (quiet s) (cache_state s) (cached_block s) (cache s) (device s) v (uninstalling s)
    (uninstall_data s) (uninstall_data_rev s) (uninstall_data_i s) (uninstall_file s).
Definition set_uninstalling (v : bool) (s : lim) : lim :=
  Lim (io s) (quiet s) (cache_state s) (cached_block s) (cache s) (device s) (block_size s) v
    (uninstall_data s) (uninstall_data_rev s) (uninstall_data_i s) (uninstall_file s).
Definition set_uninstall_data (v : list undo) (s : lim) : lim :=
  Lim (io s) (quiet s) (cache_state s) (cached_block s) (cache s) (device s) (block_size s)
    (uninstalling s) v (uninstall_data_rev s) (uninstall_data_i s) (uninstall_file s).
Definition set_uninstall_data_rev (v : list undo) (s : lim) : lim :=
  Lim (io s) (quiet s) (cache_state s) (cached_block s) (cache s) (device s) (block_size s)
    (uninstalling s) (uninstall_data s) v (uninstall_data_i s) (uninstall_file s).
Definition set_uninstall_data_i (v : Z) (s : lim) : lim :=
  Lim (io s) (quiet s) (cache_state s) (cached_block s) (cache s) (device s) (block_size s)
    (uninstalling s) (uninstall_data s) (uninstall_data_rev s) v (uninstall_file s).
Definition set_uninstall_file (v : option string) (s : lim) : lim :=
  Lim (io s) (quiet s) (cache_state s) (cached_block s) (cache s) (device s) (block_size s)
    (uninstalling s) (uninstall_data s) (uninstall_data_rev s) (uninstall_data_i s) v.

(** The tool when it starts. *)
Definition lim_start (h : host) : lim :=
  Lim h false CACHE_CLEAN 0 None None 0 false (replicate 256 (Undo 0 0 0)) (replicate 256 (Undo 0 0 0)) 0 None.

(** ** Calls of the host *)

Definition lifti {A} (m : M host A) : M lim A := zoom io set_io m.

Definition print (fmt : string) : M lim unit := lifti (say fmt).

Definition perror_wrap (fmt : string) : M lim unit :=
  print "%s: " ;; print fmt ;; print ": %s\n".

(** [if (!quiet) fprintf(stderr, fmt, ...)] *)
Definition chat (fmt : string) : M lim unit :=
  q ← gets quiet; if q : bool then mret tt else print fmt.

(** A call on the stream of the device. *)
Definition on_device {A} (f : stream → M host (A * stream)) : M lim A := λ s,
  match device s with
  | None => Stop (Undef "use of a null stream") s
  | Some st =>
      match f st (io s) with
      | Ok (a, st) h => Ok a (set_device (Some st) (set_io h s))
      | Stop w h => Stop w (set_io h s)
      end
  end.

(** [if (ferror(device)) perror_wrap(fmt)] *)
Definition complain (fmt : string) : M lim unit :=
  d ← gets device;
  match d with
  | Some st => if serr st then perror_wrap fmt else mret tt
  | None => undef "use of a null stream"
  end.

(** Where [long] has 64 bits, as on the hosts the kernel is built on. *)
Definition set_pos (pos : Z) : M lim Z := on_device (λ st, fseek st pos).

(** The bytes of a string. *)
Fixpoint chars (s : string) : list Z :=
  match s with
  | EmptyString => []
  | String c s => Z.of_nat (nat_of_ascii c) :: chars s
  end.

(** ** Integers and byte order *)

Definition UINT32_MAX : Z := 2 ^ 32 - 1.
Definition UINT64_MAX : Z := 2 ^ 64 - 1.

(** The product and whether it wrapped. *)
Definition mul_u64_overflow (a b : Z) : Z * bool :=
  (a *w b, negb (a =? 0) && (UINT64_MAX / a <? b)).

Definition add_u64_overflow (a b : Z) : Z * bool :=
  (a +w b, UINT64_MAX - b <? a).

Definition endswap16 (value : Z) : Z :=
  Z.lor (Z.land (Z.shiftr value 8) 0x00ff) (Z.land (Z.shiftl value 8) 0xff00).

Definition endswap32 (value : Z) : Z :=
  Z.lor (Z.lor (Z.lor (Z.land (Z.shiftr value 24) 0x000000ff)
                      (Z.land (Z.shiftr value 8) 0x0000ff00))
               (Z.land (Z.shiftl value 8) 0x00ff0000))
        (Z.land (Z.shiftl value 24) 0xff000000).

Definition endswap64 (value : Z) : Z :=
  Z.lor (Z.lor (Z.lor (Z.lor (Z.lor (Z.lor (Z.lor
    (Z.land (Z.shiftr value 56) 0x00000000000000ff)
    (Z.land (Z.shiftr value 40) 0x000000000000ff00))
    (Z.land (Z.shiftr value 24) 0x0000000000ff0000))
    (Z.land (Z.shiftr value 8) 0x00000000ff000000))
    (Z.land (Z.shiftl value 8) 0x000000ff00000000))
    (Z.land (Z.shiftl value 24) 0x0000ff0000000000))
    (Z.land (Z.shiftl value 40) 0x00ff000000000000))
    (Z.land (Z.shiftl value 56) 0xff00000000000000).

(** The host is little endian. *)
Definition bigendian : bool := false.

Definition ENDSWAP (size value : Z) : Z :=
  if bigendian then
    if size =? 1 then value
    else if size =? 2 then endswap16 value
    else if size =? 4 then endswap32 value
    else endswap64 value
  else value.

(** The value the host reads from bytes, and the bytes of a value of [n] bytes. *)
Fixpoint le (bs : list Z) : Z :=
  match bs with
  | [] => 0
  | b :: bs => b + 256 * le bs
  end.

Fixpoint le_bytes (n : nat) (v : Z) : list Z :=
  match n with
  | O => []
  | S n => v mod 256 :: le_bytes n (v / 256)
  end.

(** The member of [n] bytes at offset [off] of a structure. *)
Definition member (bs : list Z) (off n : nat) : Z := le (take n (drop off bs)).

(** A variable of 8 bytes after the first bytes of it were overwritten. *)
Definition overwrite (v : Z) (bs : list Z) : Z := le (bs ++ drop (length bs) (le_bytes 8 v)).

(** ** The block cache *)

Definition guesses : list Z := [512; 2048; 4096].

Fixpoint device_init_loop (gs : list Z) : M lim bool :=
  match gs with
  | [] => print "error: device_init(): Couldn't determine block size of device.\n" ;; mret false
  | g :: gs =>
      e ← lifti next_event;
      match e with
      | Fails _ => perror_wrap "error: device_init(): realloc()" ;; mret false
      | Works =>
          modify (λ s, set_cache (Some (default ∅ (cache s))) s) ;;
          modify (λ s, set_device (rewind <$> device s) s) ;;
          r ← on_device (λ st, fread st g);
          modify (λ s, set_cache (st_bytes 0 r.2 <$> cache s) s) ;;
          if negb (r.1 =? 1) then device_init_loop gs
          else
            modify (set_block_size g) ;;
            chat "Physical block size of %zu bytes.\n" ;;
            modify (set_cache_state CACHE_CLEAN) ;;
            modify (set_cached_block 0) ;;
            mret true
      end
  end.

Definition device_init : M lim bool := device_init_loop guesses.

(** The bytes of the cache; [cache] is not null once the device is ready. *)
Definition cache_bytes (off n : Z) : M lim (list Z) :=
  c ← gets cache;
  match c with
  | Some c => mret (ld_bytes (Z.to_nat n) c off)
  | None => undef "use of a null pointer"
  end.

Definition device_flush_cache : M lim bool :=
  st ← gets cache_state;
  match st with
  | CACHE_CLEAN => mret true
  | CACHE_DIRTY =>
      blk ← gets cached_block;
      bsz ← gets block_size;
      r ← set_pos (blk *w bsz);
      if negb (r =? 0) then perror_wrap "error: device_flush_cache(): set_pos()" ;; mret false
      else
        bs ← cache_bytes 0 bsz;
        ret ← on_device (λ st, fwrite st bs);
        if negb (ret =? 1) then complain "error: device_flush_cache(): fwrite()" ;; mret false
        else modify (set_cache_state CACHE_CLEAN) ;; mret true
  end.

Definition device_cache_block (block : Z) : M lim bool :=
  cur ← gets cached_block;
  if cur =? block then mret true
  else
    st ← gets cache_state;
    ok ← (match st with CACHE_DIRTY => device_flush_cache | CACHE_CLEAN => mret true end);
    if negb ok then mret false
    else
      bsz ← gets block_size;
      r ← set_pos (block *w bsz);
      if negb (r =? 0) then perror_wrap "error: device_cache_block(): set_pos()" ;; mret false
      else
        ret ← on_device (λ st, fread st bsz);
        modify (λ s, set_cache (st_bytes 0 ret.2 <$> cache s) s) ;;
        if negb (ret.1 =? 1) then complain "error: device_cache_block(): fread()" ;; mret false
        else modify (set_cached_block block) ;; mret true.

(** The block, the offset in it and the length of the next piece of a transfer. *)
Definition piece (loc count progress bsz : Z) : Z * Z * Z :=
  let at_ := loc +w progress in
  let offset := at_ mod bsz in
  (at_ / bsz, offset, Z.min (count - progress) (bsz - offset)).

(** The loop of [_device_read]; every round moves a byte at least. *)
Fixpoint read_loop (fuel : nat) (loc count progress : Z) (buffer : list Z) : M lim (option (list Z)) :=
  match fuel with
  | O => diverge
  | S fuel =>
      if count <=? progress then mret (Some buffer)
      else
        bsz ← gets block_size;
        let '(block, offset, chunk) := piece loc count progress bsz in
        ok ← device_cache_block block;
        if negb ok then mret None
        else
          bs ← cache_bytes offset chunk;
          read_loop fuel loc count (progress + chunk) (buffer ++ bs)
  end.

(** The bytes read, or [None] when it returns [false]. *)
Definition _device_read (loc count : Z) : M lim (option (list Z)) :=
  read_loop (S (Z.to_nat count)) loc count 0 [].

Fixpoint write_loop (fuel : nat) (buffer : list Z) (loc count progress : Z) : M lim bool :=
  match fuel with
  | O => diverge
  | S fuel =>
      if count <=? progress then mret true
      else
        bsz ← gets block_size;
        let '(block, offset, chunk) := piece loc count progress bsz in
        ok ← device_cache_block block;
        if negb ok then mret false
        else
          modify (λ s, set_cache (st_bytes offset (take (Z.to_nat chunk) (drop (Z.to_nat progress) buffer))
            <$> cache s) s) ;;
          modify (set_cache_state CACHE_DIRTY) ;;
          write_loop fuel buffer loc count (progress + chunk)
  end.

Definition write_bytes (buffer : list Z) (loc : Z) : M lim bool :=
  write_loop (S (length buffer)) buffer loc (Z.of_nat (length buffer)) 0.

Definition set_undo (i : Z) (f : undo → undo) (s : lim) : lim :=
  set_uninstall_data (alter f (Z.to_nat i) (uninstall_data s)) s.

(** Saving the bytes that are about to be overwritten in entry [i]. *)
Definition save_old (i loc_ count_ : Z) : M lim (option Z) :=
  p ← lifti (malloc count_);
  modify (set_undo i (λ u, Undo p (loc u) (count u))) ;;
  if p =? 0 then perror_wrap "error: _device_write(): malloc()" ;; mret None
  else
    old ← _device_read loc_ count_;
    match old with
    | None => lifti (free p) ;; mret None
    | Some bs =>
        lifti (fill p bs) ;;
        modify (set_undo i (λ u, Undo (data u) loc_ count_)) ;;
        mret (Some p)
    end.

(** [count] is the length of [buffer]. *)
Definition _device_write (buffer : list Z) (loc : Z) : M lim bool :=
  un ← gets uninstalling;
  if un : bool then write_bytes buffer loc
  else
    i ← gets uninstall_data_i;
    if UNINSTALL_DATA_MAX <=? i then
      print "error: Too many uninstall data entries! Please report this bug upstream.\n" ;; mret false
    else
      p ← save_old i loc (Z.of_nat (length buffer));
      match p with
      | None => mret false
      | Some p =>
          ok ← write_bytes buffer loc;
          if negb ok then lifti (free p) ;; mret false
          else modify (set_uninstall_data_i (i + 1)) ;; mret true
      end.

(** ** The record of overwritten bytes *)

Definition undo_at (i : Z) : M lim undo :=
  us ← gets uninstall_data;
  match us !! Z.to_nat i with
  | Some u => mret u
  | None => undef "index past the end of uninstall_data"
  end.

Definition reverse_uninstall_data : M lim unit :=
  n ← gets uninstall_data_i;
  for_ (Z.to_nat n) 0 (λ i,
    u ← undo_at i;
    modify (λ s, set_uninstall_data_rev (<[Z.to_nat (n - 1 - i) := u]> (uninstall_data_rev s)) s)) ;;
  modify (λ s, set_uninstall_data
    (take (Z.to_nat n) (uninstall_data_rev s) ++ drop (Z.to_nat n) (uninstall_data s)) s).

(** Index 256 ends the run, so a larger counter needs no more rounds. *)
Definition free_uninstall_data : M lim unit :=
  n ← gets uninstall_data_i;
  for_ (Z.to_nat (Z.min n 257)) 0 (λ i, u ← undo_at i; lifti (free (data u))).

(** Writing to the file of undo data; the stream is a local variable. *)
Fixpoint store_entries (us : list undo) (st : stream) : M lim bool :=
  match us with
  | [] => mret true
  | u :: us =>
      r ← lifti (fwrite st (le_bytes 8 (loc u)));
      if negb (r.1 =? 1) then mret false
      else
        r ← lifti (fwrite r.2 (le_bytes 8 (count u)));
        if negb (r.1 =? 1) then mret false
        else
          bs ← lifti (deref (data u) (count u));
          r ← lifti (fwrite r.2 bs);
          if negb (r.1 =? 1) then mret false else store_entries us r.2
  end.

Definition store_uninstall_data (filename : string) : M lim bool :=
  chat "Storing uninstall data to file: `%s`...\n" ;;
  udfile ← lifti (fopen_wb filename);
  match udfile with
  | None => perror_wrap "error: `%s`" ;; mret false
  | Some st =>
      n ← gets uninstall_data_i;
      us ← gets uninstall_data;
      r ← lifti (fwrite st (le_bytes 8 n));
      ok ← (if negb (r.1 =? 1) then mret false else store_entries (take (Z.to_nat n) us) r.2);
      if negb ok then perror_wrap "error: store_uninstall_data(): fwrite()" ;; mret false
      else mret true
  end.

(** How the loop of [load_uninstall_data] ends. *)
Inductive load_end := Loaded | FreadError | OtherError.

(** Entries [i], [i + 1], ...: how it ended, and the number that was loaded. *)
Fixpoint load_entries (n : nat) (i : Z) (st : stream) : M lim (load_end * Z) :=
  match n with
  | O => mret (Loaded, i)
  | S n =>
      r ← lifti (fread st 8);
      modify (set_undo i (λ u, Undo (data u) (overwrite (loc u) r.1.2) (count u))) ;;
      if negb (r.1.1 =? 1) then mret (FreadError, i)
      else
        r ← lifti (fread r.2 8);
        modify (set_undo i (λ u, Undo (data u) (loc u) (overwrite (count u) r.1.2))) ;;
        if negb (r.1.1 =? 1) then mret (FreadError, i)
        else
          u ← undo_at i;
          if UINT64_MAX <? count u then
            print "error: load_uninstall_data(): entry size too large\n" ;; mret (OtherError, i)
          else
            p ← lifti (malloc (count u));
            modify (set_undo i (λ u, Undo p (loc u) (count u))) ;;
            if p =? 0 then perror_wrap "error: load_uninstall_data(): malloc()" ;; mret (OtherError, i)
            else
              r ← lifti (fread r.2 (count u));
              lifti (fill p r.1.2) ;;
              if negb (r.1.1 =? 1) then lifti (free p) ;; mret (FreadError, i)
              else load_entries n (i + 1) r.2
  end.

Definition load_uninstall_data (filename : string) : M lim bool :=
  chat "Loading uninstall data from file: `%s`...\n" ;;
  udfile ← lifti (fopen filename);
  match udfile with
  | None => perror_wrap "error: `%s`" ;; mret false
  | Some st =>
      r ← lifti (fread st 8);
      modify (λ s, set_uninstall_data_i (overwrite (uninstall_data_i s) r.1.2) s) ;;
      n ← gets uninstall_data_i;
      e ← (if negb (r.1.1 =? 1) then mret (FreadError, 0)
           else if UNINSTALL_DATA_MAX <? n then
             print "error: load_uninstall_data(): too many entries (%zu > %d)\n" ;; mret (OtherError, 0)
           else load_entries (Z.to_nat n) 0 r.2);
      let '(ended, loaded_count) := e in
      match ended with
      | Loaded => mret true
      | FreadError | OtherError =>
          (match ended with
           | FreadError => perror_wrap "error: load_uninstall_data(): fread()"
           | _ => mret tt
           end) ;;
          for_ (Z.to_nat loaded_count) 0 (λ j, u ← undo_at j; lifti (free (data u))) ;;
          mret false
      end
  end.

(** One record of [uninstall]: whether a flush failed and whether the write did. *)
Definition restore (u : undo) : M lim (bool * bool) :=
  let write := (bs ← lifti (deref (data u) (count u)); _device_write bs (loc u)) in
  ok ← write;
  if ok : bool then mret (false, false)
  else
    chat "warning: Uninstall data index %zu failed to write, retrying...\n" ;;
    flushed ← device_flush_cache;
    modify (set_cache_state CACHE_CLEAN) ;;
    modify (set_cached_block (2 ^ 64 - 1)) ;;
    ok ← write;
    if ok : bool then mret (negb flushed, false)
    else print "warning: Retry failed.\n" ;; mret (negb flushed, true).

Fixpoint restore_all (us : list undo) : M lim (bool * bool) :=
  match us with
  | [] => mret (false, false)
  | u :: us =>
      r ← restore u;
      rs ← restore_all us;
      mret (r.1 || rs.1, r.2 || rs.2)
  end.

Definition uninstall (quiet_arg : bool) : M lim bool :=
  modify (set_uninstalling true) ;;
  modify (set_cache_state CACHE_CLEAN) ;;
  modify (set_cached_block (2 ^ 64 - 1)) ;;
  n ← gets uninstall_data_i;
  us ← gets uninstall_data;
  r ← restore_all (take (Z.to_nat n) us);
  flushed ← device_flush_cache;
  let print_cache_flush_fail := r.1 || negb flushed in
  (if r.2 : bool then print "error: Some data failed to be uninstalled correctly.\n" else mret tt) ;;
  (if print_cache_flush_fail
   then print "error: Device cache flush failure. Uninstall may be incomplete.\n" else mret tt) ;;
  let ret := negb r.2 && negb print_cache_flush_fail in
  (if ret && negb quiet_arg then chat "Uninstall data restored successfully.\n" else mret tt) ;;
  mret ret.

End Limine.
