(* ===== verification/LimineInstall.v ===== *)
(** * [bios_install] of the installer ([boot/limine/limine-install.c])

    The command that writes the boot loader to a device: it finds the partition
    table, converts the table of a hybrid image, checks that nothing is
    overwritten, writes the two stages, and undoes everything when a step
    fails. *)

From Stdlib Require Import Ascii.
From S2P Require Import Prelude Host Limine.

Module LimineInstall.
Import Host Limine.

Definition EXIT_SUCCESS : Z := 0.
Definition EXIT_FAILURE : Z := 1.

(** ** [goto cleanup]

    The steps of [bios_install] give [None] where the code jumps to [cleanup]. *)

Abbreviation step A := (M lim (option A)).

Definition or_cleanup {A B} (m : step A) (k : A → step B) : step B :=
  o ← m; match o with None => mret None | Some a => k a end.

Notation "x ←? m ; k" := (or_cleanup m (λ x, k))
  (at level 20, m at level 100, k at level 200, right associativity) : uix_scope.
Notation "m ;? k" := (or_cleanup m (λ _, k)) (at level 100, k at level 200, right associativity) : uix_scope.

Definition go_on {A} (a : A) : step A := mret (Some a).
Definition cleanup {A} : step A := mret None.

(** A message, then [goto cleanup]. *)
Definition abort_with {A} (msgs : list string) : step A :=
  foldr (λ m k, print m ;; k) cleanup msgs.

(** A call that does not fail. *)
Definition call {A} (m : M lim A) : step A := a ← m; go_on a.

(** The macros. *)
Definition device_read (loc count : Z) : step (list Z) := _device_read loc count.
Definition device_write (buffer : list Z) (loc : Z) : step unit :=
  ok ← _device_write buffer loc; if ok : bool then go_on tt else cleanup.

(** [for (i = start; i < start + n; i++)] with a body that may jump. *)
Fixpoint for_step (n : nat) (i : Z) (body : Z → step unit) : step unit :=
  match n with
  | O => go_on tt
  | S n => body i ;? for_step n (i + 1) body
  end.

(** ** Partition tables *)

Record gpt_table_header := GptHeader {
  signature : list Z; revision : Z; header_size : Z; crc32 : Z; _reserved0 : Z;
  my_lba : Z; alternate_lba : Z; first_usable_lba : Z; last_usable_lba : Z;
  disk_guid : list Z;
  partition_entry_lba : Z; number_of_partition_entries : Z; size_of_partition_entry : Z;
  partition_entry_array_crc32 : Z;
}.

Definition SIZEOF_HEADER : Z := 96.

Definition header_of (bs : list Z) : gpt_table_header :=
  GptHeader (take 8 bs) (member bs 8 4) (member bs 12 4) (member bs 16 4) (member bs 20 4)
    (member bs 24 8) (member bs 32 8) (member bs 40 8) (member bs 48 8)
    [member bs 56 8; member bs 64 8]
    (member bs 72 8) (member bs 80 4) (member bs 84 4) (member bs 88 4).

Record gpt_entry := GptEntry {
  partition_type_guid : list Z; (** the 16 bytes *)
  unique_partition_guid : list Z; (** two words *)
  starting_lba : Z; ending_lba : Z; attributes : Z; partition_name : list Z;
}.

Definition SIZEOF_ENTRY : Z := 128.

Definition entry_of (bs : list Z) : gpt_entry :=
  GptEntry (take 16 bs) [member bs 16 8; member bs 24 8] (member bs 32 8) (member bs 40 8) (member bs 48 8)
    (take 72 (drop 56 bs)).

(** [struct gpt2mbr_type_conv] *)
Record gpt2mbr_type_conv := TypeConv { gpt_type1 : Z; gpt_type2 : Z; mbr_type : Z }.

Definition gpt2mbr_type_conv_table : list gpt2mbr_type_conv := [
  TypeConv 0x11d2f81fc12a7328 0x3bc93ec9a0004bba 0xef;
  TypeConv 0x4433b9e5ebd0a0a2 0xc79926b7b668c087 0x07;
  TypeConv 0x11aa000048465300 0xacec4365300011aa 0xaf].

Definition gpt2mbr_type (t1 t2 : Z) : Z :=
  match list_find (λ c, gpt_type1 c = t1 ∧ gpt_type2 c = t2) gpt2mbr_type_conv_table with
  | Some (_, c) => mbr_type c
  | None => -1
  end.

Definition lba2chs (lba : Z) : list Z :=
  let cylinder := lba / (255 * 63) in
  if (63 * 255 * 1024 <? lba) || (1024 <=? cylinder) then [0xfe; 0xff; 0xff]
  else
    let head := (lba / 63) mod 255 in
    let sector := lba mod 63 + 1 in
    [wrap8 head; wrap8 (Z.lor (Z.land (Z.shiftr cylinder 2) 0xc0) (Z.land sector 0x3f)); wrap8 cylinder].

(** ** Checks for file systems *)

(** A signature of a file system at [loc], which [--force] overwrites with
    [wipe] zeros. *)
Definition check_hint (offset : Z) (force : bool) (at_ : Z) (sig : string) (wipe : nat) : step bool :=
  hintc ←? device_read (offset +w at_) (Z.of_nat (length (chars sig)));
  if bool_decide (hintc = chars sig) then
    if negb force then go_on false
    else device_write (replicate wipe 0) (offset +w at_) ;? go_on true
  else go_on true.

(** [Some valid], or [None] for [*err = true]. *)
Definition validate_or_force (offset : Z) (force : bool) : step bool :=
  v ←? check_hint offset force 3 "NTFS" 4;
  if negb v then go_on false else
  v ←? check_hint offset force 54 "FAT" 5;
  if negb v then go_on false else
  v ←? check_hint offset force 82 "FAT" 5;
  if negb v then go_on false else
  v ←? check_hint offset force 3 "FAT32" 5;
  if negb v then go_on false else
  bs ←? device_read (offset +w 1080) 2;
  if ENDSWAP 2 (le bs) =? 0xef53 then
    if negb force then go_on false
    else device_write (le_bytes 2 (ENDSWAP 2 0)) (offset +w 1080) ;? go_on true
  else go_on true.

(** ** Arguments *)

Definition bios_install_usage : M lim unit :=
  print "usage: %s bios-install <device> [GPT partition index]\n" ;;
  print "\n" ;;
  print "    --force         Force installation even if the safety checks fail\n" ;;
  print "                    (DANGEROUS!)\n" ;;
  print "\n" ;;
  print "    --uninstall     Reverse the entire install procedure\n" ;;
  print "\n" ;;
  print "    --uninstall-data-file=<filename>\n" ;;
  print "                    Set the input (for --uninstall) or output file\n" ;;
  print "                    name of the file which contains uninstall data\n" ;;
  print "\n" ;;
  print "    --no-gpt-to-mbr-isohybrid-conversion\n" ;;
  print "                    Do not automatically convert a GUID partition table (GPT)\n" ;;
  print "                    found on an ISOHYBRID image into an MBR partition table\n" ;;
  print "                    (which is go_on for better hardware compatibility)\n" ;;
  print "\n" ;;
  print "    --quiet         Do not print verbose diagnostic messages\n" ;;
  print "\n" ;;
  print "    --help | -h     Display this help message\n" ;;
  print "\n".

Record opts := Opts { force : bool; gpt2mbr_allowed : bool; uninstall_mode : bool; part_ndx : option string }.

Definition UNINSTALL_FILE_ARG : string := "--uninstall-data-file=".

(** An argument that is no option: the device, then the partition. *)
Definition positional (arg : string) (o : opts) : M lim (Z + opts) :=
  d ← gets device;
  match d with
  | Some _ => mret (inr (Opts (force o) (gpt2mbr_allowed o) (uninstall_mode o) (Some arg)))
  | None =>
      st ← lifti (fopen arg);
      match st with
      | None => perror_wrap "error: `%s`" ;; mret (inl EXIT_FAILURE)
      | Some st => modify (set_device (Some st)) ;; mret (inr o)
      end
  end.

(** An exit code, or the options. *)
Fixpoint parse_args (args : list string) (o : opts) : M lim (Z + opts) :=
  match args with
  | [] => mret (inr o)
  | arg :: args =>
      if String.eqb arg "--help" || String.eqb arg "-h" then
        bios_install_usage ;; mret (inl EXIT_SUCCESS)
      else if String.eqb arg "--quiet" then
        modify (set_quiet true) ;; parse_args args o
      else if String.eqb arg "--force" then
        (if force o then chat "warning: --force already set.\n" else mret tt) ;;
        parse_args args (Opts true (gpt2mbr_allowed o) (uninstall_mode o) (part_ndx o))
      else if String.eqb arg "--no-gpt-to-mbr-isohybrid-conversion" then
        parse_args args (Opts (force o) false (uninstall_mode o) (part_ndx o))
      else if String.eqb arg "--uninstall" then
        (if uninstall_mode o then chat "warning: --uninstall already set.\n" else mret tt) ;;
        parse_args args (Opts (force o) (gpt2mbr_allowed o) true (part_ndx o))
      else if String.prefix UNINSTALL_FILE_ARG arg then
        f ← gets uninstall_file;
        (match f with Some _ => chat "warning: --uninstall-data-file already set. Overriding...\n" | None => mret tt end) ;;
        let name := String.substring 22 (String.length arg - 22) arg in
        modify (set_uninstall_file (Some name)) ;;
        if (String.length name =? 0)%nat then
          print "error: Uninstall data file has a zero-length name!\n" ;; mret (inl EXIT_FAILURE)
        else parse_args args o
      else
        r ← positional arg o;
        match r with inl c => mret (inl c) | inr o => parse_args args o end
  end.

(** [sscanf(s, "%u", &n)]: white space, a sign, digits.  A number that does not
    fit in 32 bits has no defined value. *)
Definition is_space (c : Z) : bool := (c =? 32) || (9 <=? c) && (c <=? 13).
Definition is_digit (c : Z) : bool := (48 <=? c) && (c <=? 57).

Fixpoint skip_spaces (cs : list Z) : list Z :=
  match cs with
  | c :: cs' => if is_space c then skip_spaces cs' else cs
  | [] => []
  end.

Fixpoint scan_digits (cs : list Z) (acc : option Z) : option Z :=
  match cs with
  | c :: cs => if is_digit c then scan_digits cs (Some (10 * default 0 acc + (c - 48))) else acc
  | [] => acc
  end.

Definition sscanf_u32 (s : string) : M lim (option Z) :=
  let cs := skip_spaces (chars s) in
  let '(neg, cs) := match cs with
                    | c :: cs' => if c =? 45 then (true, cs') else if c =? 43 then (false, cs') else (false, cs)
                    | [] => (false, [])
                    end in
  match scan_digits cs None with
  | None => mret None
  | Some v =>
      let v := if neg : bool then - v else v in
      if (0 <=? v) && (v <=? UINT32_MAX) then mret (Some v) else undef "sscanf: number out of range"
  end.

(** ** Looking for a GPT *)

Definition EFI_PART : list Z := chars "EFI PART".

(** The header and the size of a logical block, if there is a GPT. *)
Fixpoint probe_gpt (lb_guesses : list Z) : step (option (gpt_table_header * Z)) :=
  match lb_guesses with
  | [] => go_on None
  | g :: gs =>
      bs ←? device_read g SIZEOF_HEADER;
      let gpt_header := header_of bs in
      if bool_decide (signature gpt_header = EFI_PART) then
        call (chat "Installing to GPT. Logical block size of %u64 bytes.\n") ;?
        go_on (Some (gpt_header, g))
      else probe_gpt gs
  end.

Definition check_secondary (gpt_header : gpt_table_header) (lb_size : Z) : step unit :=
  call (chat "Secondary header at LBA 0x%x64.\n") ;?
  bs ←? device_read (lb_size *w ENDSWAP 8 (alternate_lba gpt_header)) SIZEOF_HEADER;
  if bool_decide (signature (header_of bs) = EFI_PART) then call (chat "Secondary header valid.\n")
  else abort_with ["error: Secondary header not valid, aborting.\n"].

Definition no_guid (e : gpt_entry) : bool := bool_decide (unique_partition_guid e = [0; 0]).

(** ** Converting the GPT of a hybrid image *)

Record part := Part { lba_start : Z; lba_end : Z; chs_start : list Z; chs_end : list Z; type : Z }.

(** One partition: [None] where the code jumps to [no_mbr_conv]. *)
Definition conv_part (e : gpt_entry) (n : nat) : M lim (option part) :=
  if (n =? 4)%nat then chat "GPT contains more than 4 partitions, will not convert.\n" ;; mret None
  else if UINT32_MAX <? ENDSWAP 8 (starting_lba e) then
    chat "Starting LBA of partition %i64 is greater than UINT32_MAX, will not convert GPT.\n" ;; mret None
  else if UINT32_MAX <? ENDSWAP 8 (ending_lba e) then
    chat "Ending LBA of partition %i64 is greater than UINT32_MAX, will not convert GPT.\n" ;; mret None
  else
    let start := ENDSWAP 8 (starting_lba e) in
    let end_ := ENDSWAP 8 (ending_lba e) in
    if UINT32_MAX <? (end_ -w start) +w 1 then
      chat "Sector count of partition %i64 is greater than UINT32_MAX, will not convert GPT.\n" ;; mret None
    else
      let guid := partition_type_guid e in
      let type := gpt2mbr_type (ENDSWAP 8 (member guid 0 8)) (ENDSWAP 8 (member guid 8 8)) in
      if type =? -1 then
        chat "Cannot convert partition type for partition %i64, will not convert GPT.\n" ;; mret None
      else mret (Some (Part start end_ (lba2chs start) (lba2chs end_) (wrap8 type))).

(** The partitions to convert; an inner [None] for [goto no_mbr_conv]. *)
Fixpoint gather (n : nat) (i base : Z) (h : gpt_table_header) (acc : list part) : step (option (list part)) :=
  match n with
  | O => go_on (Some acc)
  | S n =>
      let '(off, over) := add_u64_overflow base (i *w ENDSWAP 4 (size_of_partition_entry h)) in
      if over : bool then go_on None
      else
        bs ←? device_read off SIZEOF_ENTRY;
        let e := entry_of bs in
        if no_guid e then gather n (i + 1) base h acc
        else
          p ←? call (conv_part e (length acc));
          match p with
          | None => go_on None
          | Some p => gather n (i + 1) base h (acc ++ [p])
          end
  end.

(** Entry [i] of the MBR. *)
Definition write_part (i : Z) (p : part) : step unit :=
  device_write [type p] (0x1be + i * 16 + 0x04) ;?
  device_write (le_bytes 4 (ENDSWAP 4 (wrap32 (lba_start p)))) (0x1be + i * 16 + 0x08) ;?
  device_write (le_bytes 4 (ENDSWAP 4 (wrap32 ((lba_end p -w lba_start p) +w 1)))) (0x1be + i * 16 + 0x0c) ;?
  device_write (chs_start p) (0x1be + i * 16 + 1) ;?
  device_write (chs_end p) (0x1be + i * 16 + 5).

Fixpoint write_parts (i : Z) (ps : list part) : step unit :=
  match ps with
  | [] => go_on tt
  | p :: ps => write_part i p ;? write_parts (i + 1) ps
  end.

(** Erasing both GPTs and writing the MBR. *)
Definition replace_gpt (h : gpt_table_header) (lb_size : Z) (ps : list part) : step unit :=
  e ← lifti next_event;
  match e with
  | Fails _ => perror_wrap "error: bios_install(): malloc()" ;; cleanup
  | Works =>
      let empty_lba := replicate (Z.to_nat lb_size) 0 in
      for_step 34 0 (λ i, device_write empty_lba (i *w lb_size)) ;?
      let alt_lba := ENDSWAP 8 (alternate_lba h) in
      (if 32 <=? alt_lba then
         for_step 33 0 (λ i, device_write empty_lba ((alt_lba - 32 + i) *w lb_size))
       else go_on tt) ;?
      for_step 4 0 (λ i, r ←? call (lifti rand); device_write [wrap8 r] (0x1b8 + i)) ;?
      write_parts 0 ps ;?
      call (chat "Conversion successful.\n")
  end.

(** Whether the device still has a GPT. *)
Definition convert (h : gpt_table_header) (lb_size : Z) : step bool :=
  iso_signature ←? device_read 32769 5;
  if negb (bool_decide (iso_signature = chars "CD001")) then go_on true
  else
    call (chat "Detected ISOHYBRID with a GUID partition table (GPT).\n") ;?
    call (chat "Converting to MBR for improved compatibility...\n") ;?
    let '(part_entry_base, over) := mul_u64_overflow (ENDSWAP 8 (partition_entry_lba h)) lb_size in
    if over : bool then go_on true
    else
      ps ←? gather (Z.to_nat (ENDSWAP 4 (number_of_partition_entries h))) 0 part_entry_base h [];
      match ps with
      | None => go_on true
      | Some ps => replace_gpt h lb_size ps ;? go_on false
      end.

(** ** Checks on the MBR *)

(** The entry at [base]: the flags [mbr] and [any_active]. *)
Definition check_entry (force : bool) (base : Z) (mbr any_active : bool) : step (bool * bool) :=
  bs ←? device_read base 1;
  let hint8 := le bs in
  r ←? (if negb (hint8 =? 0x00) && negb (hint8 =? 0x80) then
          if negb force then go_on (false, hint8)
          else
            let hint8 := Z.land hint8 0x80 in
            device_write [hint8] base ;? go_on (mbr, hint8)
        else go_on (mbr, hint8));
  let any_active := any_active || has r.2 0x80 in
  ty ←? device_read (base + 4) 1;
  if negb (le ty =? 0x00) then
    start ←? device_read (base + 8) 4;
    if ENDSWAP 4 (le start) <? 63 then
      abort_with ["error: A partition's start sector is less than 63, aborting.\n"]
    else go_on (r.1, any_active)
  else go_on (r.1, any_active).

Definition check_mbr (force : bool) : step bool :=
  r ←? check_entry force 446 true false;
  r ←? check_entry force 462 r.1 r.2;
  r ←? check_entry force 478 r.1 r.2;
  r ←? check_entry force 494 r.1 r.2;
  mbr ←? (if r.1 : bool then validate_or_force 0 force else go_on false);
  if mbr && negb r.2 then
    call (chat "No active partition found, some systems may not boot.\n") ;?
    call (chat "Setting partition 1 as active to work around the issue...\n") ;?
    device_write [0x80] 446 ;? go_on true
  else go_on mbr.

(** ** The BIOS boot partition of a GPT *)

Definition BIOS_BOOT : list Z := chars "Hah!IdontNeedEFI".

Definition FORCE_HINT : list string := [
  "       Pass `--force` to override this check.\n";
  "       **ONLY DO THIS AT YOUR OWN RISK, DATA LOSS MAY OCCUR!**\n"].

(** The partition named on the command line. *)
Definition chosen_partition (force : bool) (ndx : string) (base : Z) (h : gpt_table_header) : step gpt_entry :=
  n ←? call (sscanf_u32 ndx);
  match n with
  | None => abort_with ["error: Invalid partition number format.\n"]
  | Some n =>
      let partition_num := wrap32 (n - 1) in
      if ENDSWAP 4 (number_of_partition_entries h) <=? partition_num then
        abort_with ["error: Partition number is too large.\n"]
      else
        let '(entry_off, over) := add_u64_overflow base (partition_num *w ENDSWAP 4 (size_of_partition_entry h)) in
        if over : bool then abort_with ["error: GPT partition entry offset overflows.\n"]
        else
          bs ←? device_read entry_off SIZEOF_ENTRY;
          let e := entry_of bs in
          if no_guid e then abort_with ["error: No such partition: %u32.\n"]
          else if negb force && negb (bool_decide (partition_type_guid e = BIOS_BOOT)) then
            abort_with ("error: Chosen partition for BIOS boot code is not of BIOS boot partition type.\n" :: FORCE_HINT)
          else go_on e
  end.

(** The first partition of the BIOS boot type. *)
Fixpoint autodetect (n : nat) (i base : Z) (h : gpt_table_header) : step gpt_entry :=
  match n with
  | O => abort_with ["error: Installing to a GPT device, but no BIOS boot partition specified or\n";
                   "       detected.\n"]
  | S n =>
      let '(entry_off, over) := add_u64_overflow base (i *w ENDSWAP 4 (size_of_partition_entry h)) in
      if over : bool then abort_with ["error: GPT partition entry offset overflows.\n"]
      else
        bs ←? device_read entry_off SIZEOF_ENTRY;
        let e := entry_of bs in
        if bool_decide (partition_type_guid e = BIOS_BOOT) then
          call (chat "Autodetected partition %u32 as BIOS boot partition.\n") ;? go_on e
        else autodetect n (i + 1) base h
  end.

(** Where stage 2 goes in the partition. *)
Definition stage2_in_partition (force : bool) (e : gpt_entry) (lb_size : Z) : step Z :=
  let starting_lba := ENDSWAP 8 (starting_lba e) in
  let ending_lba := ENDSWAP 8 (ending_lba e) in
  if ending_lba <? starting_lba then
    abort_with ["error: Partition %u32 has ending LBA less than starting LBA.\n"]
  else
    let '(part_size, over) := mul_u64_overflow ((ending_lba - starting_lba) +w 1) lb_size in
    if over : bool then abort_with ["error: Partition %u32 size overflows.\n"]
    else if part_size <? 32768 then abort_with ["error: Partition %u32 is smaller than 32KiB.\n"]
    else
      let '(stage2_loc, over) := mul_u64_overflow starting_lba lb_size in
      if over : bool then abort_with ["error: Partition %u32 starting LBA overflows.\n"]
      else
        valid ←? validate_or_force stage2_loc force;
        if negb valid then
          abort_with ["error: The partition selected to install the BIOS boot code to contains\n";
                    "       a recognised filesystem.\n";
                    "       Pass `--force` to override these checks.\n";
                    "       **ONLY DO THIS AT YOUR OWN RISK, DATA LOSS MAY OCCUR!**\n"]
        else call (chat "Installing BIOS boot code to partition %u32.\n") ;? go_on stage2_loc.

Definition gpt_stage2 (o : opts) (h : gpt_table_header) (lb_size : Z) : step Z :=
  let '(base, over) := mul_u64_overflow (ENDSWAP 8 (partition_entry_lba h)) lb_size in
  if over : bool then abort_with ["error: GPT partition entry LBA overflows.\n"]
  else
    e ←? (match part_ndx o with
          | Some ndx => chosen_partition (force o) ndx base h
          | None => autodetect (Z.to_nat (ENDSWAP 4 (number_of_partition_entries h))) 0 base h
          end);
    stage2_in_partition (force o) e lb_size.

(** ** The installation *)

(** Writing both stages of [img]. *)
Definition write_stages (img : list Z) (stage2_loc : Z) : step unit :=
  call (chat "Stage 2 to be located at byte offset 0x%x64.\n") ;?
  timestamp ←? device_read 218 6;
  orig_mbr ←? device_read 440 70;
  device_write (take 512 img) 0 ;?
  device_write (drop 512 img) stage2_loc ;?
  device_write (le_bytes 8 (ENDSWAP 8 stage2_loc)) 0x1a4 ;?
  device_write timestamp 218 ;?
  device_write orig_mbr 440 ;?
  flushed ←? call device_flush_cache;
  if negb flushed then cleanup
  else
    call (chat "Reminder: Remember to copy the limine-bios.sys file in either\n          the root, /boot, /limine, or /boot/limine directories of\n          one of the partitions on the device, or boot will fail!\n") ;?
    call (chat "Limine BIOS stages installed successfully.\n").

(** The GPT that is left after the conversion, if any. *)
Definition find_gpt (o : opts) : step (option (gpt_table_header * Z)) :=
  g ←? probe_gpt [512; 4096];
  match g with
  | None => go_on None
  | Some (h, lb_size) =>
      check_secondary h lb_size ;?
      gpt ←? (if gpt2mbr_allowed o then convert h lb_size else go_on true);
      go_on (if gpt : bool then Some (h, lb_size) else None)
  end.

(** From the probe for a GPT to the last message. *)
Definition install (img : list Z) (o : opts) : step unit :=
  g ←? find_gpt o;
  stage2_loc ←? (match g with
    | Some (h, lb_size) => gpt_stage2 o h lb_size
    | None =>
        mbr ←? check_mbr (force o);
        if negb mbr then
          abort_with ["error: Could not determine if the device has a valid partition table.\n";
                    "       Please ensure the device has a valid MBR or GPT.\n";
                    "       Alternatively, pass `--force` to override these checks.\n";
                    "       **ONLY DO THIS AT YOUR OWN RISK, DATA LOSS MAY OCCUR!**\n"]
        else call (chat "Installing to MBR.\n") ;? go_on 512
    end);
  write_stages img stage2_loc.

(** [install], then what follows [cleanup]. *)
Definition install_or_undo (img : list Z) (o : opts) : M lim Z :=
  r ← install img o;
  reverse_uninstall_data ;;
  match r with
  | None => print "Install failed, undoing work...\n" ;; uninstall true ;; mret EXIT_FAILURE
  | Some _ =>
      f ← gets uninstall_file;
      (match f with Some f => store_uninstall_data f ;; mret tt | None => mret tt end) ;;
      mret EXIT_SUCCESS
  end.

Definition run_uninstall : M lim Z :=
  f ← gets uninstall_file;
  match f with
  | None => print "error: Uninstall mode set but no --uninstall-data-file=... passed.\n" ;; mret EXIT_FAILURE
  | Some f =>
      ok ← load_uninstall_data f;
      if negb ok then mret EXIT_FAILURE
      else
        ok ← uninstall false;
        mret (if ok : bool then EXIT_SUCCESS else EXIT_FAILURE)
  end.

(** What follows [uninstall_mode_cleanup]. *)
Definition release : M lim unit :=
  free_uninstall_data ;;
  modify (set_cache None) ;;
  modify (set_device None).

Definition bios_install (img : list Z) (argv : list string) : M lim Z :=
  if (length argv <? 2)%nat then bios_install_usage ;; mret EXIT_FAILURE
  else
    r ← parse_args (drop 1 argv) (Opts false true false None);
    match r with
    | inl code => mret code
    | inr o =>
        d ← gets device;
        match d with
        | None => print "error: No device specified\n" ;; bios_install_usage ;; mret EXIT_FAILURE
        | Some _ =>
            ready ← device_init;
            code ← (if negb ready then mret EXIT_FAILURE
                    else if uninstall_mode o then run_uninstall
                    else install_or_undo img o);
            release ;;
            mret code
        end
    end.

End LimineInstall.
