(* ===== verification/LimineImage.v ===== *)
(** * The boot loader image ([boot/limine/limine-bios-hdd.h])

    The bytes of [binary_limine_hdd_bin_data], which the installer writes to the
    device: a boot sector and the second stage.  One definition per 128 lines of
    the array. *)

From S2P Require Import Prelude.

Module LimineImage.

Definition hdd_bin_0 : list Z :=
  [0xeb; 0x3c; 0x90; 0x4c; 0x49; 0x4d; 0x49; 0x4e; 0x45; 0x20; 0x20; 0; 0x02; 0; 0; 0;
   0; 0; 0; 0; 0; 0; 0; 0; 0x12; 0; 0x02; 0; 0; 0; 0; 0;
   0; 0; 0; 0; 0; 0; 0; 0; 0; 0; 0; 0x4c; 0x49; 0x4d; 0x49; 0x4e;
   0x45; 0x20; 0x20; 0x20; 0x20; 0x20; 0; 0; 0; 0; 0; 0; 0; 0; 0xfa; 0xfc;
   0xea; 0x45; 0x7c; 0; 0; 0x31; 0xf6; 0x8e; 0xde; 0x8e; 0xc6; 0x8e; 0xd6; 0xbc; 0; 0x7c;
   0xfb; 0x80; 0xfa; 0x80; 0x0f; 0x82; 0x1a; 0x01; 0x80; 0xfa; 0x8f; 0x0f; 0x87; 0x12; 0x01; 0xb4;
   0x41; 0xbb; 0xaa; 0x55; 0xcd; 0x13; 0x0f; 0x82; 0x06; 0x01; 0x81; 0xfb; 0x55; 0xaa; 0x0f; 0x85;
   0xfd; 0; 0x68; 0; 0x70; 0x07; 0xbf; 0xa4; 0x7d; 0x66; 0x8b; 0x05; 0x66; 0x8b; 0x6d; 0x04;
   0x31; 0xdb; 0x66; 0xb9; 0; 0x7e; 0; 0; 0xe8; 0x55; 0; 0x0f; 0x82; 0xdf; 0; 0x0f;
   0x01; 0x16; 0x58; 0x7d; 0xfa; 0x66; 0x6a; 0; 0x66; 0xbd; 0x10; 0; 0; 0; 0x0f; 0x20;
   0xc0; 0x0f; 0xba; 0xe8; 0; 0x0f; 0x22; 0xc0; 0xea; 0x83; 0x7d; 0x08; 0; 0; 0; 0;
   0; 0; 0; 0; 0; 0; 0; 0; 0; 0; 0; 0; 0; 0; 0; 0;
   0; 0; 0; 0; 0; 0; 0; 0; 0; 0; 0; 0; 0; 0; 0; 0;
   0; 0; 0; 0; 0; 0; 0; 0; 0; 0; 0; 0; 0; 0; 0; 0;
   0x60; 0xbe; 0; 0x80; 0x66; 0xc7; 0x04; 0x10; 0; 0x01; 0; 0x89; 0x5c; 0x04; 0x8c; 0x44;
   0x06; 0x52; 0x56; 0x66; 0x50; 0x66; 0x55; 0xb4; 0x48; 0xbe; 0x10; 0x80; 0xc7; 0x04; 0x1e; 0;
   0xcd; 0x13; 0x72; 0x4e; 0x66; 0x0f; 0xb7; 0x6c; 0x18; 0x91; 0x66; 0xc1; 0xe9; 0x10; 0x89; 0xca;
   0x31; 0xc9; 0xf7; 0xf5; 0x85; 0xd2; 0x0f; 0x95; 0xc1; 0x01; 0xc1; 0x66; 0x5a; 0x66; 0x58; 0x5e;
   0x66; 0x50; 0x66; 0x92; 0x66; 0x31; 0xd2; 0x66; 0xf7; 0xf5; 0x66; 0x93; 0x66; 0x58; 0x66; 0xf7;
   0xf5; 0x66; 0x89; 0x44; 0x08; 0x66; 0x89; 0x5c; 0x0c; 0x5a; 0xb4; 0x42; 0xf8; 0xcd; 0x13; 0x72;
   0x15; 0x01; 0x6c; 0x04; 0x66; 0x83; 0x44; 0x08; 0x01; 0x66; 0x83; 0x54; 0x0c; 0; 0xe2; 0xea;
   0xeb; 0x04; 0x83; 0xc4; 0x0c; 0xf9; 0x61; 0xc3; 0x17; 0; 0x56; 0x7d; 0; 0; 0xff; 0xff;
   0; 0; 0; 0x9b; 0xcf; 0; 0xff; 0xff; 0; 0; 0; 0x93; 0xcf; 0; 0x46; 0x46;
   0x46; 0x46; 0x81; 0xc6; 0x30; 0x4f; 0x68; 0; 0xb8; 0x07; 0x26; 0x89; 0x36; 0; 0; 0xfb;
   0xf4; 0xeb; 0xfd; 0x8e; 0xdd; 0x8e; 0xc5; 0x8e; 0xe5; 0x8e; 0xed; 0x8e; 0xd5; 0x81; 0xe2; 0xff;
   0; 0; 0; 0x52; 0x68; 0x6e; 0x55; 0; 0; 0x68; 0xf0; 0; 0x07; 0; 0xe8; 0x5d;
   0x82; 0x06; 0; 0; 0; 0; 0; 0; 0; 0; 0; 0; 0; 0; 0; 0;
   0; 0; 0; 0; 0; 0; 0; 0; 0; 0; 0; 0; 0; 0; 0; 0;
   0; 0; 0; 0; 0; 0; 0; 0; 0; 0; 0; 0; 0; 0; 0; 0;
   0; 0; 0; 0; 0; 0; 0; 0; 0; 0; 0; 0; 0; 0; 0; 0;
   0; 0; 0; 0; 0; 0; 0; 0; 0; 0; 0; 0; 0; 0; 0; 0;
   0; 0; 0; 0; 0; 0; 0; 0; 0; 0; 0; 0; 0; 0; 0x55; 0xaa;
   0xfc; 0x8b; 0x5c; 0x24; 0x04; 0x8b; 0x2b; 0x8d; 0x53; 0x04; 0x03; 0x5c; 0x24; 0x08; 0xbf; 0;
   0xf0; 0; 0; 0x0f; 0xb6; 0x0a; 0x8d; 0x72; 0x01; 0x89; 0xc8; 0xc1; 0xe9; 0x03; 0x83; 0xe1;
   0x0f; 0x83; 0xf9; 0x0f; 0x75; 0x0a; 0x0f; 0xb6; 0x4a; 0x01; 0x8d; 0x72; 0x02; 0x83; 0xc1; 0x0f;
   0xf3; 0xa4; 0x39; 0xde; 0x73; 0x35; 0x84; 0xc0; 0x79; 0x08; 0x8d; 0x56; 0x02; 0x0f; 0xb7; 0x36;
   0xeb; 0x06; 0x8d; 0x56; 0x01; 0x0f; 0xb6; 0x36; 0x24; 0x07; 0x3c; 0x07; 0x74; 0x05; 0x0f; 0xb6;
   0xc0; 0xeb; 0x07; 0x0f; 0xb6; 0x02; 0x42; 0x83; 0xc0; 0x07; 0x89; 0xf9; 0x29; 0xf1; 0x89; 0xce;
   0x8d; 0x48; 0x04; 0xf3; 0xa4; 0x39; 0xda; 0x73; 0x02; 0xeb; 0xa8; 0xba; 0; 0xf0; 0; 0;
   0x89; 0xd6; 0x31; 0xc0; 0x48; 0x39; 0xfa; 0x74; 0x22; 0x8d; 0x4a; 0x01; 0x0f; 0xb6; 0x12; 0x31;
   0xd0; 0x6a; 0x08; 0x5a; 0x89; 0xc3; 0x83; 0xe0; 0x01; 0xd1; 0xeb; 0xf7; 0xd8; 0x25; 0x20; 0x83;
   0xb8; 0xed; 0x31; 0xd8; 0x4a; 0x75; 0xed; 0x89; 0xca; 0xeb; 0xda; 0xf7; 0xd0; 0x39; 0xe8; 0x75;
   0x12; 0x0f; 0xb6; 0x44; 0x24; 0x0c; 0x8b; 0x4c; 0x24; 0x10; 0x89; 0xf4; 0x31; 0xed; 0x51; 0x50;
   0x55; 0x56; 0xc3; 0xba; 0xd4; 0; 0x07; 0; 0xb8; 0; 0x80; 0x0b; 0; 0x0f; 0xb6; 0x0a;
   0x83; 0xc0; 0x02; 0x42; 0x80; 0xcd; 0x4f; 0x66; 0x89; 0x48; 0xfe; 0x3d; 0x2c; 0x80; 0x0b; 0;
   0x75; 0xeb; 0xfa; 0xf4; 0x6c; 0x69; 0x6d; 0x69; 0x6e; 0x65; 0x20; 0x69; 0x6e; 0x74; 0x65; 0x67;
   0x72; 0x69; 0x74; 0x79; 0x20; 0x65; 0x72; 0x72; 0x6f; 0x72; 0x90; 0x90; 0x90; 0x90; 0x90; 0x90;
   0xf7; 0x9a; 0x56; 0xe9; 0x78; 0; 0xfc; 0x30; 0xc0; 0xbf; 0xf8; 0xda; 0x04; 0; 0xb9; 0xc8;
   0x76; 0x05; 0; 0x81; 0xe9; 0x0b; 0x7c; 0x16; 0xf3; 0xaa; 0x0f; 0x01; 0x15; 0xab; 0xf0; 0;
   0; 0xea; 0x23; 0xf0; 0; 0; 0x18; 0; 0xb8; 0x20; 0; 0; 0; 0x8e; 0xd8; 0x8e;
   0xc0; 0x8e; 0xe0; 0x8e; 0xe8; 0x8e; 0xd0; 0xe9; 0xed; 0x0c; 0; 0; 0xcc; 0x01; 0x78; 0x14;
   0x55; 0x89; 0xe5; 0x56; 0x83; 0xec; 0x06; 0x89; 0xd6; 0x66; 0xc7; 0x45; 0xf6; 0xff; 0x03; 0xc7;
   0x45; 0xf8; 0; 0; 0; 0; 0x8d; 0x45; 0xf6; 0x89; 0xca; 0xfa; 0xfc; 0xbc; 0; 0x7c;
   0; 0; 0xbf; 0x05; 0x7e; 0x05; 0xb9; 0; 0x02; 0; 0; 0xf3; 0xa4; 0x0f; 0x01; 0x18;
   0x6a; 0x08; 0x68; 0x79; 0xf0; 0; 0; 0xcb; 0xb8; 0x10; 0x54; 0x7e; 0x06; 0xd0; 0x0f; 0x20;
   0xc0; 0x24; 0xfe; 0x0f; 0x22; 0xc0; 0x66; 0xb8; 0x98; 0xf0; 0; 0; 0x6a; 0; 0x50; 0xcb;
   0x31; 0xc0; 0x1e; 0x68; 0xfb; 0x6a; 0; 0x68; 0; 0x7c; 0xcb; 0x47; 0; 0x10; 0x61; 0x01;
   0; 0x5f; 0x2a; 0xff; 0; 0xac; 0x75; 0x05; 0x84; 0x20; 0x0f; 0x01; 0x1d; 0xfa; 0xab; 0x37;
   0xce; 0xf0; 0; 0; 0x08; 0; 0x55; 0x05; 0x67; 0x0f; 0xba; 0xf0; 0; 0x0f; 0x22; 0xc0;
   0xea; 0xea; 0xf0; 0; 0; 0x52; 0x02; 0x28; 0xf4; 0xeb; 0xfd; 0xff; 0x03; 0xaa; 0x7a; 0;
   0x8a; 0x44; 0x24; 0x04; 0xa2; 0x83; 0xf1; 0; 0; 0x8b; 0x44; 0x24; 0x08; 0xa3; 0xf4; 0x09;
   0x51; 0x0c; 0xa3; 0xf8; 0xf1; 0; 0; 0x0f; 0x01; 0x05; 0xfc; 0x07; 0x18; 0x0d; 0x04; 0xf2;
   0x0e; 0x60; 0x1d; 0x0c; 0xf2; 0; 0; 0x53; 0x56; 0x57; 0x55; 0xea; 0x3b; 0xf1; 0x6d; 0x07;
   0xc2; 0x0a; 0x19; 0xea; 0x55; 0xf1; 0x6b; 0x78; 0x14; 0xd0; 0x36; 0x66; 0x89; 0x26; 0xf0; 0xf1;
   0x36; 0x66; 0x8b; 0x26; 0xf8; 0xf1; 0x0f; 0xa9; 0x0f; 0xa1; 0x07; 0x1f; 0x66; 0x9d; 0x66; 0x5d;
   0x66; 0x5f; 0x66; 0x5e; 0x66; 0x5a; 0x66; 0x59; 0x66; 0x5b; 0x66; 0x58; 0x1c; 0x36; 0xf0; 0xf1;
   0xfb; 0xcd; 0; 0xfa; 0x2c; 0x78; 0x0f; 0xf4; 0xf1; 0x67; 0x66; 0x8d; 0x64; 0x24; 0x28; 0x66;
   0x50; 0x66; 0x53; 0x66; 0x51; 0x66; 0x52; 0x66; 0x56; 0x66; 0x57; 0x66; 0x55; 0x66; 0x9c; 0x1e;
   0x06; 0x0f; 0xa0; 0x0f; 0xa8; 0x32; 0; 0x28; 0x21; 0x0f; 0x01; 0x16; 0xfc; 0x07; 0x40; 0x1e;
   0x04; 0xf2; 0x0f; 0x20; 0xc0; 0x0c; 0x01; 0x79; 0xbe; 0xce; 0xf1; 0x18; 0; 0x66; 0xb8; 0x20;
   0x01; 0x01; 0x3f; 0xd0; 0x5d; 0x5f; 0x5e; 0x5b; 0xc3; 0x90; 0x01; 0x03; 0x0f; 0; 0x01; 0x10;
   0x80; 0x12; 0x01; 0x06; 0x15; 0xf8; 0; 0x9c; 0x2e; 0x66; 0xff; 0x06; 0x12; 0xf2; 0x9d; 0x2e;
   0xff; 0x2e; 0x16; 0xf2; 0x8b; 0x15; 0x05; 0x02; 0x40; 0x89; 0x15; 0x16; 0xf2; 0; 0; 0xc7;
   0x05; 0x0c; 0x60; 0x1a; 0xf2; 0; 0; 0x8b; 0x54; 0x24; 0x04; 0xc7; 0x05; 0x12; 0xf2; 0x44;
   0x81; 0x30; 0x01; 0x91; 0x38; 0xf3; 0x30; 0x01; 0x09; 0x40; 0x07; 0x9b; 0x1d; 0x48; 0xf3; 0x30;
   0x01; 0x97; 0x6b; 0xf2; 0x30; 0x01; 0x0f; 0x97; 0x85; 0xf2; 0x9b; 0x01; 0x04; 0x40; 0xc6; 0x06;
   0x4e; 0xf3; 0; 0xc6; 0x06; 0x52; 0x05; 0xd0; 0x56; 0xf3; 0; 0x66; 0x39; 0x16; 0x12; 0xf2;
   0x74; 0x2e; 0x0d; 0x01; 0xb0; 0xb4; 0x01; 0x30; 0xc0; 0xcd; 0x16; 0x3f; 0x01; 0x78; 0x07; 0x74;
   0xe9; 0x31; 0xc0; 0xcd; 0x16; 0xa2; 0x52; 0xf3; 0x88; 0x26; 0x56; 0xf3; 0xb8; 0; 0x02; 0xcd;
   0x16; 0xa8; 0x04; 0x74; 0x0a; 0x3a; 0xb9; 0x04; 0x80; 0x06; 0x52; 0xf3; 0x60; 0xfa; 0x24; 0x01;
   0x91; 0x38; 0xf3; 0x24; 0x01; 0xf8; 0x0f; 0x40; 0xf3; 0x0f; 0x20; 0xc3; 0x80; 0xcb; 0x01; 0x0f;
   0x22; 0xc3; 0xea; 0xf3; 0xf2; 0x18; 0; 0x66; 0xbb; 0x20; 0; 0x8e; 0xdb; 0x8e; 0xc3; 0x8e;
   0xe3; 0x8e; 0xeb; 0x8e; 0xd3; 0x25; 0x01; 0x09; 0x8b; 0xd8; 0x09; 0x89; 0xe4; 0x79; 0x03; 0x80;
   0x3d; 0x56; 0xf3; 0; 0; 0; 0x74; 0x1b; 0xff; 0x35; 0x4e; 0xf3; 0; 0; 0xff; 0x35;
   0x52; 0x06; 0; 0x15; 0xe7; 0xe8; 0x5f; 0x0d; 0x01; 0; 0x83; 0xc4; 0x0c; 0xc3; 0x31; 0xc0;
   0xc3; 0x3c; 0x01; 0x0d; 0x04; 0x06; 0x84; 0x23; 0x03; 0xf9; 0; 0x8b; 0x44; 0x24; 0x04; 0xa3;
   0; 0xf4; 0; 0; 0xc3; 0x0f; 0x01; 0x05; 0x04; 0xf4; 0x4f; 0x02; 0x09; 0x0c; 0x07; 0x9a;
   0x1d; 0x14; 0xf4; 0x4f; 0x02; 0xbf; 0x8d; 0x6c; 0x24; 0x14; 0xea; 0x8e; 0xf3; 0x53; 0x02; 0x0f;
   0x92; 0xa8; 0xf3; 0x53; 0x02; 0x84; 0xdb; 0x02; 0x78; 0x04; 0xfb; 0xff; 0x76; 0x04; 0xff; 0x76;
   0x08; 0xff; 0x76; 0; 0xff; 0x1e; 0; 0xf4; 0x83; 0xc4; 0x06; 0xfa; 0x2e; 0xef; 0x10; 0x04;
   0xf4; 0x07; 0x1e; 0x1e; 0x0c; 0xf4; 0xef; 0x17; 0xe2; 0xf3; 0xef; 0x05; 0xae; 0x25; 0xff; 0xff;
   0; 0; 0x19; 0x02; 0x8f; 0x90; 0x08; 0x02; 0x0f; 0xf8; 0x03; 0x55; 0x89; 0xe5; 0x53; 0x57;
   0x56; 0x83; 0xec; 0x0c; 0x8b; 0x75; 0x14; 0x0f; 0xbd; 0x45; 0x10; 0xb9; 0x3f; 0xe4; 0x01; 0x79;
   0x1f; 0x44; 0xc1; 0x83; 0xf0; 0x1f; 0x83; 0xc0; 0x20; 0x0f; 0xbd; 0xd6; 0x83; 0xf2; 0x1f; 0x85;
   0xf6; 0x0f; 0x44; 0xd0; 0x89; 0xd0; 0x8b; 0x55; 0x08; 0x89; 0xd3; 0x0f; 0xbd; 0xd2; 0x0f; 0x44;
   0xd1; 0x83; 0xf2; 0x1f; 0x83; 0xc2; 0x20; 0x8b; 0x75; 0x0c; 0x0f; 0xbd; 0xce; 0x83; 0xf1; 0x21;
   0xf1; 0xca; 0x89; 0xc2; 0x89; 0x4d; 0xec; 0x29; 0xca; 0x31; 0xc9; 0x83; 0xfa; 0x3f; 0xbf; 0x2a;
   0x02; 0xd8; 0x87; 0x9e; 0; 0; 0; 0x75; 0x07; 0x89; 0xd9; 0xe9; 0x93; 0x57; 0x02; 0xf9;
   0x07; 0xd1; 0xfe; 0xc1; 0x89; 0xdf; 0x0f; 0xad; 0xf7; 0x89; 0x55; 0xf0; 0x89; 0xf2; 0xd3; 0xea;
   0xf6; 0xc1; 0x20; 0x0f; 0x45; 0xfa; 0xb9; 0x54; 0x02; 0xf8; 0x08; 0x45; 0xd1; 0xb1; 0x3f; 0x2a;
   0x4d; 0xf0; 0x0f; 0xa5; 0xde; 0xd3; 0xe3; 0xf6; 0xc1; 0x20; 0x89; 0xd9; 0x0f; 0x45; 0xf3; 0xc7;
   0x45; 0xf0; 0xbb; 0x03; 0x0a; 0xbb; 0x21; 0x78; 0x3f; 0xcb; 0xf7; 0xd0; 0x03; 0x45; 0xec; 0x89;
   0x45; 0xe8; 0x31; 0xdb; 0x0f; 0xa4; 0xfa; 0x01; 0x0f; 0xa4; 0xf7; 0x01; 0x0f; 0xa4; 0xce; 0x01;
   0x0b; 0x75; 0xf0; 0x8d; 0x0c; 0x4b; 0x89; 0x4d; 0xec; 0x89; 0xd1; 0xf7; 0xd1; 0x89; 0xfb; 0xf7;
   0xd3; 0x8b; 0x45; 0x10; 0x01; 0xc3; 0x8b; 0x45; 0x14; 0x11; 0xc1; 0x89; 0xcb; 0xc1; 0xeb; 0x1f;
   0xc1; 0xf9; 0x1f; 0x89; 0xc8; 0x23; 0x45; 0x14; 0x23; 0x4d; 0x10; 0x29; 0xcf; 0x8b; 0x4d; 0xec;
   0x19; 0xc2; 0xff; 0x45; 0xe8; 0x75; 0xbd; 0x3b; 0; 0x38; 0xec; 0xf7; 0x89; 0xc8; 0x89; 0xfa;
   0x83; 0xc4; 0x0c; 0x5e; 0x5f; 0x5b; 0x5d; 0xc3; 0x0b; 0x01; 0xca; 0x10; 0x8b; 0x55; 0x14; 0x0f;
   0xbd; 0x4d; 0x10; 0xb8; 0x0b; 0x01; 0x7c; 0x07; 0xc8; 0x83; 0xf1; 0x1f; 0x83; 0xc1; 0x20; 0x0f;
   0xbd; 0xda; 0x83; 0xf3; 0x1f; 0x85; 0xd2; 0x0f; 0x44; 0xd9; 0x0f; 0xbd; 0x4d; 0x08; 0x18; 0x82;
   0x05; 0x01; 0x99; 0xfe; 0x83; 0xf7; 0x05; 0x01; 0xf8; 0x03; 0xf9; 0x89; 0xd9; 0x29; 0xf9; 0x83;
   0xf9; 0x3f; 0x76; 0x0a; 0x8b; 0x45; 0x08; 0x89; 0xf2; 0xe9; 0xa6; 0; 0x27; 0x04; 0xa1; 0x83;
   0xf9; 0x3f; 0xba; 0x3b; 0x03; 0x90; 0x84; 0x96; 0x5f; 0x03; 0xfe; 0x01; 0x5d; 0xf0; 0x89; 0xcb;
   0xfe; 0xc1; 0x89; 0x7d; 0xe8; 0x8b; 0x7d; 0x08; 0x89; 0xf8; 0x0f; 0xad; 0x0e; 0x01; 0x8e; 0xc2;
   0x0e; 0x01; 0xfe; 0x04; 0x28; 0xd9; 0x0f; 0xa5; 0xfe; 0xd3; 0xe7; 0xf6; 0xc1; 0x20; 0x8b; 0x4d;
   0xf0; 0x0f; 0x45; 0xf7; 0xc7; 0x45; 0xe4; 0x0e; 0x01; 0xfa; 0x0b; 0x45; 0xfb; 0x89; 0x7d; 0xec;
   0xf7; 0xd1; 0x03; 0x4d; 0xe8; 0x31; 0xdb; 0x89; 0x4d; 0xf0; 0x0f; 0xa4; 0xc2; 0x01; 0x0f; 0xa4;
   0xf0; 0x01; 0x8b; 0x4d; 0xec; 0x14; 0x01; 0x8e; 0xe4; 0x14; 0x01; 0xf5; 0x89; 0xc3; 0xf7; 0xd3;
   0x8b; 0x7d; 0x10; 0x01; 0xfb; 0x8b; 0x7d; 0x14; 0x11; 0xf9; 0x14; 0x01; 0x99; 0xcf; 0x23; 0x7d;
   0x14; 0x01; 0xe7; 0xc8; 0x8b; 0x4d; 0xf0; 0x19; 0xfa; 0x41; 0x75; 0xb9; 0x83; 0xc4; 0x10; 0x05;
   0x01; 0x02; 0xf8; 0x10; 0x38; 0x8b; 0x7d; 0x18; 0x8b; 0x45; 0x08; 0x8b; 0x40; 0x14; 0x0f; 0xaf;
   0xc7; 0x3d; 0x01; 0x80; 0; 0; 0x0f; 0x83; 0xb8; 0; 0; 0; 0x8b; 0x55; 0x14; 0x8b;
   0x5d; 0x10; 0xa1; 0x4d; 0x06; 0xa0; 0x85; 0xc0; 0x75; 0x18; 0xb4; 0x05; 0x78; 0x01; 0x80; 0;
   0; 0x89; 0xd6; 0xe8; 0x3f; 0x3d; 0; 0; 0x89; 0xf2; 0x83; 0xc4; 0x08; 0xa3; 0x1c; 0xf8;
   0x1f; 0x8d; 0x75; 0xe4; 0x66; 0xc7; 0x06; 0x10; 0; 0x66; 0x89; 0x7e; 0x02; 0x89; 0xc1; 0xc1;
   0xe9; 0x04; 0x66; 0x89; 0x4e; 0x06; 0x83; 0xe0; 0x0f; 0x66; 0x89; 0x46; 0x04; 0x89; 0x5e; 0x08;
   0x89; 0x56; 0x0c; 0x8d; 0x5d; 0xbc; 0x6a; 0x24; 0x6a; 0; 0x53; 0xe8; 0xfe; 0x23; 0; 0x6f;
   0x03; 0x38; 0xc7; 0x43; 0x24; 0; 0x42; 0; 0; 0x74; 0x78; 0x2e; 0; 0x89; 0x43; 0x18].

Definition hdd_bin_1 : list Z :=
  [0x89; 0xf0; 0x83; 0xe0; 0x0c; 0x89; 0x43; 0x14; 0xc1; 0xee; 0x04; 0x66; 0x89; 0x73; 0x06; 0x53;
   0x53; 0x6a; 0x13; 0xe8; 0x36; 0xfa; 0xff; 0xff; 0x83; 0xc4; 0x0c; 0xbe; 0x02; 0; 0; 0;
   0xf6; 0x43; 0x08; 0x01; 0x75; 0x20; 0x8b; 0x45; 0x0c; 0x31; 0xf6; 0x85; 0xc0; 0x74; 0x17; 0x8b;
   0x4d; 0x08; 0x0f; 0xaf; 0x79; 0x14; 0x57; 0xff; 0x35; 0x9a; 0x1a; 0x50; 0xe8; 0x86; 0x55; 0xa9;
   0x89; 0xf0; 0x83; 0xc4; 0x38; 0xdd; 0x01; 0xd4; 0x68; 0x59; 0x59; 0x01; 0; 0x6a; 0; 0xe8;
   0x46; 0x27; 0xf4; 0x02; 0x78; 0x23; 0x81; 0xec; 0; 0x01; 0; 0; 0xb8; 0x75; 0x04; 0;
   0; 0x8a; 0; 0x8d; 0x8d; 0x1e; 0xff; 0xff; 0xff; 0x89; 0xcf; 0xc1; 0xef; 0x04; 0x83; 0xe1;
   0x0e; 0x89; 0x4d; 0xa4; 0x8d; 0x4d; 0xcc; 0x89; 0xca; 0x83; 0xe2; 0x0c; 0x89; 0x55; 0xb0; 0xc1;
   0xe9; 0x04; 0x89; 0x4d; 0xac; 0x8d; 0x8d; 0x3c; 0x22; 0x02; 0x14; 0x09; 0x9c; 0x14; 0xe0; 0xa0;
   0x0f; 0xb6; 0xc0; 0x89; 0x45; 0xc0; 0x31; 0xc0; 0x40; 0xbb; 0x80; 0x38; 0x05; 0xc0; 0x45; 0xc4;
   0x89; 0x45; 0xc8; 0xc7; 0x45; 0xe0; 0x58; 0x03; 0x28; 0x89; 0xfe; 0x89; 0x7d; 0xa8; 0xe1; 0x4b;
   0x8d; 0xbd; 0xf6; 0xfe; 0xff; 0xff; 0x57; 0xe8; 0x17; 0xe7; 0xb8; 0x85; 0x1a; 0xff; 0xff; 0xff;
   0; 0x48; 0x08; 0x02; 0x78; 0x05; 0xdc; 0x89; 0x9d; 0x0e; 0xff; 0xff; 0xff; 0x66; 0x89; 0xb5;
   0xfc; 0xfe; 0xff; 0xff; 0x8b; 0x45; 0xa4; 0x89; 0x85; 0x0a; 0x10; 0x10; 0xc7; 0x85; 0x8d; 0x49;
   0x1e; 0; 0x57; 0x57; 0x6a; 0x13; 0xe8; 0x41; 0xf9; 0xf5; 0xf8; 0x08; 0xf6; 0x85; 0xfe; 0xfe;
   0xff; 0xff; 0x01; 0x0f; 0x85; 0x3a; 0x05; 0; 0; 0x0f; 0xb7; 0x85; 0x20; 0xff; 0xff; 0xff;
   0x83; 0xe0; 0x04; 0x5c; 0x01; 0xb8; 0x02; 0x89; 0x4d; 0xf0; 0xc7; 0x45; 0xec; 0x3b; 0x02; 0x19;
   0x66; 0x83; 0xbd; 0x3b; 0x81; 0x35; 0x03; 0x68; 0x72; 0x6c; 0x0f; 0xb7; 0x8d; 0x3a; 0xff; 0xff;
   0xff; 0x0f; 0xb7; 0x95; 0x38; 0xbc; 0xf8; 0; 0xce; 0x66; 0x09; 0xd6; 0x74; 0x57; 0x0f; 0xb7;
   0xd2; 0x89; 0xce; 0x21; 0xd6; 0x81; 0xfe; 0x24; 0x04; 0xf9; 0x19; 0x74; 0x48; 0x66; 0x85; 0xc0;
   0x0f; 0x95; 0x45; 0xe8; 0xc1; 0xe1; 0x04; 0x8d; 0x34; 0x11; 0x0f; 0xb6; 0x4c; 0x11; 0x03; 0xc1;
   0xe1; 0x08; 0x81; 0xf9; 0; 0xa0; 0; 0; 0x0f; 0x94; 0xc1; 0x8b; 0x45; 0xf0; 0x0f; 0xb6;
   0xc0; 0xba; 0x01; 0x84; 0x03; 0xf9; 0x32; 0xc2; 0x0a; 0x4d; 0xe8; 0x89; 0x75; 0xec; 0x75; 0x11;
   0x0f; 0xb7; 0x46; 0x0a; 0xa8; 0x20; 0x75; 0x07; 0xc0; 0xe8; 0x06; 0x24; 0x01; 0xeb; 0x02; 0xb0;
   0x01; 0x89; 0x45; 0xf0; 0x53; 0x6a; 0x70; 0xe8; 0x62; 0x44; 0; 0; 0x83; 0xc4; 0x08; 0x89;
   0xc6; 0x8b; 0x45; 0xdc; 0x89; 0x06; 0x89; 0x5e; 0x10; 0x89; 0x5e; 0x34; 0x89; 0x5e; 0x30; 0xc7;
   0x46; 0x1c; 0xff; 0xff; 0xff; 0xff; 0x8b; 0x3d; 0x36; 0x02; 0x9b; 0xff; 0x75; 0x16; 0x36; 0x02;
   0x1a; 0xe8; 0x0b; 0x3b; 0x30; 0x89; 0xc7; 0x34; 0x02; 0xf9; 0x03; 0xc7; 0x45; 0xcc; 0x10; 0;
   0x01; 0; 0x89; 0xf8; 0xc1; 0xe8; 0x04; 0x66; 0x89; 0x45; 0xd2; 0x89; 0xf8; 0x31; 0x02; 0xfa;
   0x06; 0x45; 0xd0; 0x89; 0x5d; 0xd8; 0x89; 0x5d; 0xd4; 0x6a; 0x24; 0x53; 0x8d; 0x9d; 0x64; 0xff;
   0xff; 0xff; 0x53; 0xe8; 0xcb; 0x21; 0x33; 0x02; 0x91; 0x45; 0x88; 0x33; 0x02; 0x20; 0x06; 0x89;
   0x85; 0x7c; 0x60; 0x29; 0x45; 0xb0; 0x89; 0x85; 0x78; 0x09; 0xe8; 0xac; 0x66; 0x89; 0x85; 0x6a;
   0xff; 0xff; 0xff; 0x6a; 0x28; 0x53; 0x8d; 0x85; 0xb8; 0x01; 0x1a; 0x50; 0xe8; 0x74; 0x34; 0xf9;
   0x09; 0x8b; 0x45; 0xd8; 0x89; 0x45; 0x98; 0x8b; 0x45; 0xd4; 0x89; 0x45; 0x94; 0x8b; 0x45; 0xcc;
   0x8b; 0x4d; 0xd0; 0x89; 0x4d; 0x90; 0x89; 0x45; 0x8c; 0xc7; 0x02; 0x32; 0x31; 0xc0; 0x50; 0x57;
   0xe8; 0x6e; 0x29; 0x81; 0x72; 0x02; 0x93; 0xc4; 0xf7; 0x7d; 0x01; 0x91; 0x6c; 0xff; 0x7d; 0x01;
   0x28; 0xad; 0x03; 0; 0; 0xbb; 0x2a; 0x02; 0xcc; 0x73; 0x80; 0x7c; 0x1f; 0xff; 0; 0x75;
   0x05; 0x4b; 0x75; 0xf6; 0x31; 0xdb; 0x6a; 0x28; 0x6a; 0x19; 0x8d; 0x85; 0x64; 0x71; 0x0c; 0x03;
   0x71; 0x10; 0x8c; 0x8b; 0x62; 0x79; 0x01; 0xcc; 0x89; 0x4d; 0xd0; 0x8b; 0x45; 0x94; 0x89; 0x45;
   0xd4; 0x8b; 0x45; 0x98; 0x89; 0x45; 0xd8; 0x71; 0xc9; 0x68; 0xff; 0; 0; 0; 0x57; 0xe8;
   0xfb; 0x20; 0xae; 0x02; 0x03; 0x3a; 0x2f; 0x50; 0x6a; 0x13; 0xe8; 0x4b; 0x79; 0x04; 0x2f; 0x34;
   0x03; 0; 0; 0xb8; 0x79; 0x01; 0xf8; 0x10; 0x07; 0xff; 0xff; 0x75; 0x0f; 0x48; 0x75; 0xf6;
   0x89; 0x5e; 0x14; 0x85; 0xdb; 0x75; 0x0d; 0xe9; 0x13; 0x03; 0; 0; 0x39; 0xc3; 0x0f; 0x47;
   0xc3; 0x89; 0x46; 0x14; 0x8b; 0x85; 0x2e; 0x6f; 0x01; 0x90; 0x9d; 0x32; 0xb1; 0x02; 0xf9; 0x02;
   0xc1; 0x83; 0xc1; 0x01; 0x89; 0xda; 0x83; 0xd2; 0; 0x83; 0xf9; 0x02; 0x83; 0xda; 0; 0xb9;
   0xff; 0xc6; 0x02; 0xf9; 0x29; 0x72; 0x2b; 0x8b; 0x56; 0x14; 0x8d; 0x8a; 0xff; 0x01; 0; 0;
   0x85; 0xd2; 0x0f; 0x49; 0xca; 0x89; 0xca; 0xc1; 0xfa; 0x09; 0x89; 0x55; 0xe4; 0xc1; 0xf9; 0x1f;
   0x0f; 0xaf; 0xc8; 0xf7; 0x65; 0xe4; 0x01; 0xca; 0x0f; 0xaf; 0x5d; 0xe4; 0x01; 0xd3; 0x89; 0xc2;
   0x89; 0xd9; 0x89; 0x56; 0x38; 0x89; 0x4e; 0x3c; 0x8b; 0x4d; 0xec; 0x85; 0xc9; 0x8e; 0x05; 0xf8;
   0x12; 0x8b; 0x55; 0xf0; 0x74; 0x08; 0xb0; 0x01; 0xf6; 0x41; 0x0a; 0x40; 0x75; 0x0d; 0x81; 0x7e;
   0x14; 0; 0x08; 0; 0; 0x0f; 0xb6; 0xc2; 0x0f; 0x45; 0xc3; 0x88; 0x46; 0x0c; 0x81; 0x7d;
   0xdc; 0x9f; 0x28; 0x04; 0x23; 0x4d; 0xe0; 0x75; 0x0f; 0x1c; 0x79; 0x28; 0x75; 0x06; 0xc6; 0x46;
   0x0c; 0x01; 0xeb; 0x0e; 0x84; 0xd2; 0x74; 0x06; 0x84; 0xc0; 0x75; 0x06; 0xeb; 0x22; 0x84; 0xc0;
   0x74; 0x0b; 0x8b; 0x4d; 0xc4; 0x89; 0xc8; 0x41; 0x89; 0x4d; 0xc4; 0xeb; 0x1c; 0x8b; 0x45; 0xc0;
   0x39; 0xc1; 0x75; 0x08; 0x89; 0x45; 0xe0; 0xe9; 0x4b; 0x02; 0; 0; 0x41; 0x89; 0x4d; 0xe0;
   0x8b; 0x4d; 0xc8; 0x1e; 0xc4; 0xc8; 0x89; 0x46; 0x08; 0x85; 0xff; 0x75; 0x14; 0x33; 0x02; 0xa4;
   0xd8; 0x38; 0; 0; 0x65; 0x04; 0xf9; 0x0b; 0x31; 0xd2; 0x31; 0xc9; 0x41; 0x31; 0xc0; 0x48;
   0x89; 0x45; 0xf0; 0x89; 0x45; 0xec; 0x89; 0x75; 0xe8; 0x8b; 0x3c; 0x95; 0x60; 0x4f; 0x01; 0;
   0x8b; 0x46; 0xb5; 0x04; 0x80; 0xd2; 0x01; 0xf1; 0x0f; 0x87; 0x0e; 0x01; 0; 0; 0x89; 0x55;
   0xb4; 0x89; 0x4d; 0xe4; 0x66; 0xc7; 0xa1; 0x01; 0x80; 0x95; 0x04; 0xa9; 0xbd; 0x3e; 0xff; 0xff;
   0xff; 0xc5; 0x04; 0x83; 0x9d; 0x04; 0x90; 0x8d; 0x42; 0x50; 0x03; 0x80; 0x6f; 0x02; 0xd0; 0x85;
   0x40; 0xff; 0xff; 0xff; 0x31; 0xdb; 0x89; 0x9d; 0x48; 0x3e; 0x01; 0x90; 0x9d; 0x44; 0x40; 0x03;
   0xc1; 0x31; 0x89; 0x45; 0xb8; 0xf7; 0xda; 0x89; 0x55; 0xb2; 0x04; 0x90; 0x8d; 0xb5; 0xa6; 0x01;
   0xa7; 0x56; 0xe8; 0x46; 0x1f; 0x85; 0x02; 0x02; 0xa4; 0x45; 0xe8; 0x8b; 0; 0x88; 0x02; 0x8c;
   0x9c; 0x88; 0x02; 0x8b; 0xa0; 0x88; 0x02; 0xbf; 0x56; 0x56; 0x6a; 0x13; 0xe8; 0x77; 0xf5; 0xd4;
   0x01; 0x01; 0x20; 0x75; 0x5a; 0x01; 0xbd; 0x5d; 0x10; 0x83; 0x95; 0x69; 0xfa; 0x2f; 0; 0x01;
   0xfb; 0x83; 0xfb; 0x40; 0x72; 0x9f; 0x0f; 0x31; 0x8b; 0x75; 0xb8; 0xf7; 0xde; 0x8b; 0x5d; 0xbc;
   0x83; 0xdb; 0; 0x01; 0xc6; 0x11; 0xd3; 0x8b; 0x4d; 0xf0; 0x39; 0xce; 0x89; 0xd8; 0x8b; 0x55;
   0xec; 0x19; 0xd0; 0x0f; 0x42; 0xd3; 0x89; 0x55; 0xec; 0x0f; 0x42; 0xce; 0x89; 0x4d; 0xf0; 0x8b;
   0x4d; 0xe4; 0x0f; 0x42; 0xcf; 0x8b; 0x55; 0xb4; 0x42; 0x83; 0xfa; 0x09; 0x96; 0x01; 0xf9; 0x0d;
   0x75; 0xe8; 0x0f; 0x85; 0xfa; 0xfe; 0xff; 0xff; 0xeb; 0x1e; 0x0f; 0xb6; 0x45; 0x89; 0x8b; 0x75;
   0xe8; 0xff; 0x36; 0x50; 0x68; 0xad; 0x51; 0x01; 0; 0xe8; 0x38; 0x30; 0x0e; 0x05; 0x90; 0xb9;
   0x08; 0x8f; 0x06; 0xf1; 0xdb; 0x89; 0x4e; 0x04; 0x89; 0xf0; 0x83; 0xc0; 0x44; 0x56; 0x50; 0xe8;
   0xdd; 0x25; 0xb1; 0x03; 0xf8; 0x15; 0x84; 0xc0; 0x74; 0x04; 0xc6; 0x46; 0x40; 0x01; 0xa1; 0xc8;
   0x0b; 0x05; 0; 0x8d; 0x0c; 0x85; 0x04; 0; 0; 0; 0xc1; 0xe0; 0x02; 0x53; 0x51; 0x53;
   0x50; 0xff; 0x35; 0xc4; 0x0b; 0x05; 0; 0xe8; 0x14; 0x40; 0xcd; 0x02; 0x10; 0x14; 0xa3; 0x0d;
   0x11; 0x8b; 0x0d; 0x27; 0x20; 0x51; 0x01; 0x89; 0x15; 0x30; 0x98; 0x89; 0x34; 0x88; 0xfc; 0x03;
   0x93; 0x66; 0x40; 0xcc; 0x03; 0xb2; 0x53; 0x56; 0x50; 0xe8; 0x10; 0x28; 0xd1; 0x02; 0x7f; 0;
   0x48; 0x03; 0x83; 0xf9; 0x02; 0x72; 0x78; 0x31; 0xdb; 0x43; 0x83; 0xf8; 0xff; 0x74; 0x3f; 0x60;
   0x04; 0x2c; 0x31; 0xd2; 0x52; 0x51; 0x52; 0x62; 0x17; 0xb2; 0x3f; 0x62; 0x0f; 0x71; 0x3c; 0x88;
   0xff; 0x46; 0x1c; 0xeb; 0x0d; 0x6a; 0; 0x6a; 0x70; 0x57; 0xe8; 0x0d; 0x29; 0x08; 0x0c; 0x0d;
   0x10; 0xe8; 0xf1; 0x0c; 0x04; 0x75; 0x91; 0x9b; 0x27; 0xf4; 0x05; 0x80; 0xf2; 0x02; 0x48; 0x03;
   0x43; 0x83; 0xf9; 0x01; 0x77; 0x8b; 0x89; 0xfe; 0x33; 0xa2; 0x56; 0xe8; 0xda; 0x3e; 0x8b; 0x03;
   0xc0; 0x75; 0xa8; 0x8b; 0x5d; 0xdc; 0x43; 0x81; 0xfb; 0x59; 0x08; 0xc0; 0x0f; 0x85; 0x5e; 0xfa;
   0xff; 0xff; 0x81; 0xc4; 0x05; 0x06; 0x87; 0xff; 0x07; 0x02; 0xfb; 0x14; 0x14; 0xe8; 0xb3; 0x4c;
   0; 0; 0x84; 0xc0; 0x0f; 0x84; 0xc7; 0; 0; 0; 0xe8; 0xe8; 0x4d; 0; 0; 0x0f;
   0x31; 0x89; 0xc6; 0x8b; 0x0d; 0x9c; 0x5d; 0x05; 0; 0x8b; 0x1d; 0x98; 0x5d; 0x05; 0; 0x9b;
   0x08; 0xa1; 0x89; 0xd8; 0x09; 0xc8; 0xea; 0x08; 0xf8; 0x03; 0x74; 0x73; 0x51; 0x53; 0x52; 0x89;
   0x75; 0xe8; 0x56; 0x89; 0x4d; 0xf0; 0x89; 0x55; 0xe4; 0xe8; 0xa7; 0xf6; 0xa9; 0x06; 0x78; 0x02;
   0x10; 0x89; 0xc6; 0x89; 0xd1; 0xba; 0x40; 0x42; 0x0f; 0; 0xf7; 0xe2; 0x89; 0x45; 0xec; 0x69;
   0xc1; 0x0b; 0x78; 0x13; 0x01; 0xd0; 0x89; 0x45; 0xe0; 0x89; 0xf7; 0x0f; 0xaf; 0x7d; 0xf0; 0x89;
   0xf0; 0xf7; 0xe3; 0x01; 0xfa; 0x0f; 0xaf; 0xcb; 0x01; 0xd1; 0x8b; 0x55; 0xe8; 0x29; 0xc2; 0x8b;
   0x45; 0xe4; 0x19; 0xc8; 0x69; 0xc8; 0x26; 0x13; 0x89; 0xd0; 0x38; 0x53; 0x01; 0xca; 0xff; 0x75;
   0xf0; 0x53; 0x52; 0x50; 0xe8; 0x54; 0x53; 0x89; 0xd7; 0x06; 0x09; 0xf8; 0x07; 0xf0; 0x13; 0x7d;
   0xe0; 0xe8; 0x83; 0x4e; 0; 0; 0xe8; 0x90; 0x3b; 0; 0; 0xe8; 0x36; 0x4f; 0; 0;
   0xe8; 0x26; 0xf9; 0x7b; 0x02; 0xf8; 0x01; 0x0c; 0xa9; 0xfd; 0xff; 0xff; 0xff; 0x75; 0x19; 0x0f;
   0xb6; 0x45; 0x08; 0x50; 0xe8; 0x14; 0x2e; 0xe0; 0x01; 0x78; 0x15; 0x04; 0xeb; 0x19; 0x68; 0x30;
   0x51; 0x01; 0; 0xe9; 0xb6; 0; 0; 0; 0x83; 0xf8; 0x01; 0x75; 0x11; 0xe8; 0x27; 0x46;
   0; 0; 0xe8; 0x0d; 0x46; 0; 0; 0xa3; 0x08; 0xdb; 0x04; 0; 0xeb; 0x05; 0xa1; 0x07;
   0xd8; 0x85; 0xc0; 0x75; 0x0a; 0x68; 0x84; 0x53; 0x01; 0; 0xe9; 0x8d; 0x07; 0x0c; 0xf9; 0x22;
   0x7d; 0xec; 0x80; 0x78; 0x0d; 0; 0x74; 0x09; 0x89; 0xc1; 0xe8; 0x84; 0; 0; 0; 0xeb;
   0x3b; 0x89; 0xc6; 0x8b; 0x40; 0x18; 0x85; 0xc0; 0x75; 0xf7; 0x83; 0x7e; 0x1c; 0xff; 0x7c; 0x2c;
   0x31; 0xdb; 0x4b; 0x31; 0xff; 0x0f; 0xb6; 0x46; 0x0c; 0x57; 0xff; 0x76; 0x08; 0x50; 0xe8; 0x68;
   0x2d; 0x38; 0x05; 0xc8; 0x85; 0xc0; 0x74; 0x0c; 0x89; 0xc1; 0xe8; 0x52; 0; 0x44; 0x01; 0x79;
   0x0a; 0x75; 0x07; 0x43; 0x47; 0x3b; 0x5e; 0x1c; 0x7e; 0xd9; 0x80; 0x3d; 0x0c; 0xdb; 0x04; 0;
   0; 0x75; 0x0d; 0x68; 0x5a; 0x55; 0x01; 0; 0xe8; 0xa7; 0x2c; 0x20; 0x04; 0x80; 0x3d; 0x05;
   0x16; 0xf8; 0x01; 0x8b; 0x75; 0xf0; 0x8b; 0x7d; 0xec; 0x74; 0x16; 0xe8; 0x55; 0xcc; 0x01; 0;
   0x89; 0x3d; 0xbc; 0x55; 0x02; 0x91; 0x35; 0xb8; 0x77; 0x02; 0xb1; 0xc0; 0; 0; 0x68; 0xc2;
   0x52; 0xba; 0x07; 0x94; 0x8c; 0x1f; 0xba; 0x07; 0x50; 0x89; 0xcf; 0x8a; 0x1d; 0x0d; 0xdb; 0x04;
   0; 0xc6; 0x05; 0x06; 0xd1; 0x01; 0x68; 0x09; 0x57; 0x01; 0; 0x51; 0xe8; 0xdb; 0x0d; 0xcc;
   0x02; 0x65; 0x85; 0xc0; 0x75; 0x3a; 0x68; 0xda; 0x52; 0x01; 0; 0x57; 0xe8; 0xc9; 0x12; 0x20;
   0x28; 0x68; 0x65; 0x56; 0x12; 0x0d; 0xb7; 0x12; 0x19; 0x16; 0x68; 0x04; 0x12; 0x0c; 0xa5; 0x12;
   0x98; 0x0f; 0x84; 0x86; 0xfc; 0x0c; 0x13; 0xc6; 0x88; 0x5b; 0; 0xb0; 0xf8; 0x1d; 0x01; 0x8b;
   0x40; 0x1c; 0x8b; 0x4e; 0x20; 0xba; 0xf4; 0xea; 0x03; 0; 0x31; 0xc2; 0x09; 0xca; 0x75; 0x47;
   0x8d; 0x15; 0x60; 0x71; 0; 0; 0x29; 0xd0; 0x83; 0xd9; 0; 0xbf; 0x60; 0x61; 0x01; 0;
   0x51; 0x50; 0x6a; 0; 0x52; 0x57; 0x56; 0xe8; 0x4e; 0x0e; 0x5e; 0x06; 0x21; 0x18; 0x56; 0xe8;
   0xf7; 0x50; 0xfc; 0x01; 0x04; 0x6a; 0x14; 0x68; 0xf4; 0xad; 0x04; 0; 0x68; 0x10; 0x5b; 0x01;
   0; 0xe8; 0x7c; 0x1b; 0x1a; 0x01; 0x79; 0x01; 0x1b; 0x68; 0x26; 0x57; 0x01; 0; 0xeb; 0x05;
   0x68; 0xf0; 0x52; 0x01; 0; 0xe8; 0xa1; 0x2c; 0x2c; 0x91; 0x31; 0xc0; 0x80; 0x02; 0x18; 0xc6;
   0x05; 0x05; 0xce; 0x22; 0xb0; 0x01; 0xeb; 0xf0; 0x84; 0xf8; 0x01; 0xeb; 0xe6; 0x55; 0x89; 0xe5;
   0x83; 0xec; 0x34; 0x8b; 0x55; 0x08; 0x8d; 0x4d; 0xcc; 0xe8; 0x10; 0x9b; 0x0d; 0xec; 0xc1; 0x31;
   0xc0; 0x85; 0xc9; 0x75; 0x03; 0x8b; 0x45; 0xd4; 0x83; 0xc4; 0x34; 0xb3; 0x0a; 0xf8; 0x08; 0x81;
   0xec; 0x58; 0x02; 0; 0; 0x89; 0xcf; 0x89; 0x11; 0x31; 0xc0; 0x8d; 0x8d; 0x9c; 0xfd; 0xff;
   0xff; 0x31; 0xf6; 0x46; 0x50; 0x68; 0x8d; 0x0f; 0x39; 0x50; 0x50; 0x51; 0x52; 0xe8; 0x3d; 0x1f;
   0x9d; 0x80; 0xd3; 0x02; 0xfc; 0x06; 0x45; 0x02; 0; 0; 0x8d; 0x85; 0xd2; 0xfd; 0xff; 0xff;
   0x6a; 0x03; 0x68; 0x0b; 0x55; 0x01; 0; 0x50; 0xe8; 0x2b; 0x19; 0xb8; 0x01; 0x27; 0x38; 0x8d;
   0x85; 0xee; 0x1a; 0x01; 0x0d; 0x11; 0x1a; 0x20; 0x1e; 0x8d; 0x85; 0x9f; 0x1a; 0x20; 0x05; 0x68;
   0x95; 0x52; 0x1a; 0x93; 0xf7; 0x18; 0xec; 0x01; 0xc0; 0x0f; 0x85; 0xf3; 0x01; 0; 0; 0x8a].

Definition hdd_bin_2 : list Z :=
  [0x8d; 0x76; 0x02; 0x78; 0x11; 0x0f; 0xb6; 0xd1; 0xb8; 0xf8; 0xff; 0xff; 0xff; 0x3a; 0x88; 0xc8;
   0x59; 0x01; 0; 0x74; 0x09; 0x40; 0x0f; 0x84; 0xd6; 0x01; 0; 0; 0xeb; 0xef; 0x89; 0x55;
   0xf0; 0x0f; 0xb7; 0x9d; 0xa7; 0x23; 0x11; 0xb7; 0xd3; 0x23; 0x20; 0x66; 0x3b; 0x98; 0xc0; 0x24;
   0x38; 0x0b; 0x83; 0xc0; 0x02; 0x0f; 0x84; 0xb0; 0x26; 0xf9; 0x02; 0xec; 0x8a; 0xad; 0xac; 0xfd;
   0xff; 0xff; 0x88; 0xe8; 0x04; 0xfb; 0x3c; 0xfc; 0x0f; 0x82; 0x9c; 0x01; 0xe7; 0x08; 0xb8; 0xaa;
   0xfd; 0xff; 0xff; 0x89; 0x45; 0xe0; 0x9f; 0x01; 0x0a; 0x8a; 0x12; 0x09; 0xad; 0x12; 0x79; 0x0a;
   0xcc; 0xc1; 0xe0; 0x05; 0x89; 0x45; 0xd8; 0x8d; 0x44; 0x02; 0xff; 0x89; 0x55; 0xe8; 0x99; 0xf7;
   0x7d; 0xe8; 0x89; 0x45; 0xc0; 0x0f; 0xb7; 0x85; 0xaf; 0x1e; 0x42; 0xe4; 0x85; 0xc0; 0x75; 0x09;
   0x8b; 0x85; 0xbc; 0x0d; 0x61; 0x0f; 0xb7; 0x85; 0xb2; 0xfd; 0xff; 0xff; 0x85; 0xc0; 0x8b; 0x95;
   0xc0; 0x3d; 0xe8; 0xec; 0x89; 0x55; 0xd4; 0x0f; 0x44; 0xc2; 0x0f; 0xb6; 0xd5; 0x89; 0x55; 0xd0;
   0x9c; 0x03; 0xf8; 0x17; 0xc8; 0x89; 0x55; 0xc4; 0x0f; 0xb7; 0x45; 0xe0; 0x89; 0x45; 0xdc; 0x31;
   0xc0; 0x8b; 0x55; 0xc0; 0x03; 0x55; 0xdc; 0x0f; 0x92; 0xc0; 0x03; 0x55; 0xc8; 0x13; 0x45; 0xc4;
   0x3b; 0x55; 0xe4; 0x83; 0xd8; 0; 0x0f; 0x83; 0x0b; 0x01; 0x9d; 0x0a; 0xfb; 0x09; 0xe4; 0x29;
   0xd0; 0x31; 0xd2; 0xf7; 0x75; 0xf0; 0x3d; 0xf4; 0x0f; 0; 0; 0x77; 0x15; 0xc7; 0x47; 0x04;
   0x0c; 0; 0; 0; 0xb0; 0x01; 0x12; 0x04; 0x41; 0x8b; 0x55; 0xe0; 0xeb; 0x30; 0x3d; 0xf4;
   0xff; 0x0a; 0x37; 0x77; 0x12; 0xc7; 0x47; 0x04; 0x10; 0x1f; 0x01; 0xa8; 0xeb; 0x14; 0xc7; 0x47;
   0x04; 0x57; 0x0f; 0x81; 0x32; 0x09; 0x81; 0x85; 0x08; 0x78; 0x05; 0xec; 0x31; 0xc0; 0x66; 0x89;
   0x5f; 0x0c; 0x88; 0x4f; 0x0e; 0x66; 0x89; 0x57; 0x10; 0x88; 0x6f; 0x12; 0x8b; 0x8d; 0xb8; 0xe2;
   0xe0; 0x4f; 0x14; 0x8b; 0x4d; 0xec; 0x89; 0x4f; 0x18; 0x85; 0xc9; 0x0f; 0x84; 0xcf; 0x0f; 0x18;
   0x8b; 0x9d; 0xc8; 0xf9; 0xf8; 0x23; 0x5f; 0x24; 0x89; 0x57; 0x1c; 0x8b; 0x4d; 0xcc; 0x66; 0x89;
   0x4f; 0x28; 0x66; 0x85; 0xc9; 0x0f; 0x94; 0xc1; 0x84; 0xc8; 0x75; 0x73; 0x8b; 0x45; 0xec; 0xf7;
   0x65; 0xd0; 0x89; 0xc1; 0x03; 0x4d; 0xdc; 0x83; 0xd2; 0; 0x75; 0x63; 0x8b; 0x45; 0xe8; 0x48;
   0x89; 0xc2; 0xc1; 0xfa; 0x1f; 0x03; 0x45; 0xd8; 0xfa; 0x07; 0x48; 0xe2; 0x01; 0xf7; 0xda; 0x89;
   0x4f; 0x2c; 0x78; 0x4a; 0xbc; 0xfb; 0x23; 0xe8; 0x89; 0x47; 0x30; 0x80; 0x7d; 0xf0; 0; 0x74;
   0x13; 0x89; 0x4f; 0x20; 0x8d; 0x55; 0x9c; 0x66; 0x89; 0x5a; 0x1a; 0xc1; 0xeb; 0x10; 0x66; 0x89;
   0x5a; 0x14; 0xeb; 0x09; 0x01; 0xc1; 0x72; 0x25; 0x89; 0x4f; 0x20; 0x31; 0xd2; 0x31; 0xf6; 0x8d;
   0x45; 0xbc; 0x89; 0xf9; 0x56; 0x50; 0xe8; 0x0b; 0x02; 0x22; 0x03; 0x80; 0xff; 0x0b; 0x88; 0;
   0x7c; 0x02; 0xd1; 0xbc; 0x89; 0x47; 0x08; 0x89; 0xf0; 0x81; 0xc4; 0x58; 0x02; 0x3b; 0x05; 0x86;
   0x87; 0x02; 0x88; 0x84; 0x24; 0x01; 0x80; 0xae; 0x02; 0x98; 0x98; 0xe8; 0x62; 0x86; 0x02; 0x48;
   0xc9; 0x85; 0xc0; 0x74; 0x0d; 0x89; 0xc8; 0x81; 0xc4; 0x19; 0x01; 0x2a; 0xf8; 0x04; 0x8b; 0x7d;
   0x0c; 0x31; 0xf6; 0x4e; 0x80; 0x7c; 0x37; 0x01; 0x2f; 0x8d; 0x76; 0x01; 0x74; 0xf6; 0x8b; 0x55;
   0x9c; 0x31; 0x0e; 0xc9; 0x20; 0x75; 0x14; 0x8b; 0x45; 0xbc; 0x8d; 0x8d; 0x78; 0x0f; 0x0b; 0xf8;
   0x0b; 0x41; 0x1a; 0xc1; 0xe8; 0x10; 0x66; 0x89; 0x41; 0x14; 0x89; 0x4d; 0xec; 0x31; 0xc9; 0x31;
   0xdb; 0x89; 0xd8; 0x01; 0xf0; 0x72; 0xb8; 0x0f; 0xb6; 0x04; 0x07; 0xa7; 0x03; 0x89; 0x88; 0xc5;
   0x04; 0xf8; 0x0b; 0x2f; 0x74; 0x0b; 0x43; 0x81; 0xfb; 0x04; 0x01; 0; 0; 0x75; 0xe0; 0xeb;
   0x9c; 0x89; 0x55; 0xf0; 0x8d; 0x04; 0x37; 0x53; 0x50; 0x8d; 0x85; 0x73; 0xfe; 0x7c; 0x09; 0x91;
   0x87; 0x17; 0x24; 0x06; 0x18; 0xc6; 0x84; 0x1d; 0x10; 0x7b; 0x01; 0; 0x43; 0x01; 0xde; 0x0f;
   0x82; 0x3c; 0x01; 0; 0; 0x8d; 0x4d; 0x98; 0x8b; 0x55; 0xec; 0x26; 0xbc; 0x8d; 0x45; 0xcc;
   0x50; 0xe8; 0x2d; 0x01; 0; 0x04; 0xca; 0x85; 0x1b; 0x01; 0; 0; 0xf6; 0x45; 0xd7; 0x10;
   0x85; 0x0d; 0x88; 0x84; 0xfa; 0x07; 0x10; 0x6a; 0x20; 0x25; 0x10; 0x8d; 0x9d; 0x98; 0x1a; 0x53;
   0xe8; 0x31; 0x56; 0xc0; 0x89; 0x5d; 0xec; 0x8b; 0x55; 0xf0; 0xe9; 0x62; 0x20; 0x08; 0x40; 0x55;
   0xf0; 0x01; 0xf7; 0x53; 0x57; 0x8d; 0xb5; 0x67; 0x1f; 0x56; 0xe8; 0x10; 0x77; 0x02; 0x03; 0x6e;
   0x09; 0x56; 0x68; 0x88; 0xc5; 0x0a; 0x0e; 0x0b; 0xc9; 0x6a; 0x90; 0xe9; 0xfe; 0xa3; 0x03; 0xb2;
   0x56; 0x6a; 0x30; 0xe8; 0x30; 0x39; 0x32; 0x0b; 0x32; 0xc3; 0x56; 0x6a; 0x44; 0xe8; 0x23; 0x0d;
   0xc8; 0x83; 0x7d; 0xf0; 0x20; 0x8d; 0x75; 0x98; 0xb9; 0x0d; 0x8c; 0x11; 0xf0; 0xc7; 0xf3; 0xa5;
   0x89; 0xc7; 0x0f; 0xb7; 0x55; 0xe6; 0x89; 0x50; 0x34; 0x75; 0x0c; 0xa5; 0x02; 0x79; 0x0c; 0xc1;
   0xe0; 0x10; 0x09; 0xc2; 0x89; 0x57; 0x34; 0x8b; 0x75; 0x08; 0x8b; 0x45; 0xe8; 0x89; 0x47; 0x38;
   0x89; 0xf8; 0x83; 0xc0; 0x40; 0xc7; 0x47; 0x40; 0; 0; 0xe1; 0xa1; 0x50; 0xe8; 0xfc; 0x04;
   0x58; 0x04; 0xf9; 0x14; 0x89; 0x47; 0x3c; 0x85; 0xc0; 0x74; 0x28; 0x89; 0xd9; 0x89; 0x7b; 0x10;
   0xc7; 0x43; 0x14; 0xe7; 0x09; 0x01; 0; 0xc7; 0x43; 0x18; 0x1f; 0x0a; 0x01; 0; 0x8b; 0x47;
   0x38; 0x89; 0x43; 0x1c; 0xc7; 0x43; 0x20; 0xc6; 0x06; 0x68; 0x73; 0x04; 0xe9; 0x58; 0xfe; 0xff;
   0xff; 0x83; 0x7f; 0x38; 0; 0x74; 0xd2; 0x97; 0xa9; 0x44; 0x57; 0xe8; 0xa8; 0x37; 0x05; 0x0b;
   0x32; 0x56; 0x6a; 0x30; 0x53; 0xe8; 0x9c; 0x0c; 0xbc; 0x31; 0xc9; 0xe9; 0x31; 0xfe; 0xff; 0xff;
   0x3d; 0x0d; 0x80; 0x4f; 0x01; 0xf9; 0x09; 0x89; 0xd6; 0x89; 0xcf; 0x0f; 0xb6; 0x41; 0x0e; 0x0f;
   0xb7; 0x59; 0x0c; 0x0f; 0xaf; 0xd8; 0x8d; 0x85; 0xb8; 0xfe; 0xff; 0xff; 0x68; 0x05; 0x01; 0xdd;
   0x13; 0x9a; 0xe8; 0x25; 0x16; 0x25; 0x04; 0x79; 0x05; 0xf6; 0x74; 0x61; 0x89; 0x5d; 0xe8; 0x0f;
   0xb7; 0x56; 0x1a; 0x83; 0x7f; 0x04; 0x20; 0x75; 0x09; 0x0f; 0xb7; 0x46; 0x14; 0xc5; 0x5b; 0x8b;
   0x75; 0xe8; 0x8d; 0x45; 0xd4; 0x89; 0xf9; 0x50; 0xe8; 0x4a; 0xb2; 0xd0; 0xc3; 0x31; 0xc0; 0x48;
   0x85; 0xdb; 0x0f; 0x84; 0xf2; 0x03; 0x42; 0x0a; 0xf8; 0x02; 0xd4; 0x89; 0xc8; 0xf7; 0xe6; 0x70;
   0x0d; 0x89; 0xc6; 0x3d; 0x01; 0; 0; 0x10; 0x0f; 0x82; 0x99; 0x37; 0x08; 0x43; 0xe1; 0x02;
   0x6a; 0; 0x51; 0x53; 0xe8; 0x07; 0x95; 0xa8; 0xc0; 0x48; 0xe9; 0xc5; 0x03; 0x12; 0x0d; 0x79;
   0x17; 0x4f; 0x28; 0xc1; 0xe1; 0x05; 0x8d; 0x43; 0xff; 0x01; 0xc8; 0x73; 0x08; 0x31; 0xc0; 0x40;
   0xe9; 0xaf; 0x03; 0; 0; 0x31; 0xd2; 0xf7; 0xf3; 0x89; 0xc6; 0x89; 0x5d; 0xe8; 0xf7; 0xe3;
   0x89; 0xc3; 0x0f; 0x90; 0xc0; 0x81; 0xfb; 0x49; 0x79; 0x0c; 0x93; 0xc1; 0x08; 0xc1; 0x31; 0xc0;
   0x48; 0x84; 0xc9; 0x89; 0x75; 0xd4; 0x0f; 0x85; 0x86; 0x03; 0; 0; 0x89; 0x75; 0xf0; 0x31;
   0xc0; 0x50; 0x53; 0xe8; 0xa1; 0x56; 0x5b; 0x08; 0x89; 0x45; 0xec; 0x0f; 0xb7; 0x47; 0x0c; 0xf7;
   0x67; 0x2c; 0x58; 0xfd; 0; 0x31; 0xf6; 0x56; 0x8b; 0x75; 0xec; 0x51; 0x52; 0x50; 0x56; 0xff;
   0x37; 0xe8; 0xee; 0x19; 0x4f; 0x05; 0xf0; 0xc7; 0x02; 0; 0; 0x8b; 0x7d; 0xf0; 0x89; 0xf2;
   0xeb; 0x4d; 0x31; 0xc0; 0x50; 0xff; 0x07; 0x15; 0xe8; 0x5e; 0x43; 0xfd; 0x09; 0x89; 0xf9; 0x8b;
   0x45; 0xf0; 0x89; 0xda; 0x31; 0xff; 0x57; 0x31; 0xff; 0x56; 0x57; 0x57; 0xff; 0x75; 0xec; 0x89;
   0xc7; 0x50; 0xe8; 0xc0; 0x04; 0x8d; 0x05; 0x88; 0x6e; 0x8d; 0x05; 0xa1; 0x04; 0xbd; 0; 0;
   0x0d; 0x15; 0xa2; 0x53; 0xe8; 0x33; 0x36; 0x32; 0x0c; 0xb0; 0x55; 0xec; 0x89; 0xf9; 0x89; 0xfb;
   0xd0; 0x09; 0x40; 0xaf; 0xde; 0xc1; 0xeb; 0x05; 0x0f; 0x84; 0x69; 0x29; 0xdb; 0x42; 0x01; 0x89;
   0x45; 0xcc; 0x8d; 0x42; 0x0e; 0x89; 0x45; 0xd0; 0x64; 0x0e; 0x81; 0xfb; 0x0a; 0xa8; 0xd8; 0x31;
   0xff; 0x89; 0x55; 0xfd; 0x0a; 0xd0; 0x89; 0x7d; 0xe4; 0xc1; 0xe7; 0x05; 0x0f; 0xb6; 0x04; 0x3a;
   0xcd; 0x06; 0x88; 0x9e; 0x12; 0x06; 0xf8; 0x09; 0x4d; 0xf0; 0x01; 0xd7; 0x83; 0x7d; 0x0c; 0;
   0x8a; 0x4f; 0x0b; 0x74; 0x1c; 0x80; 0xf9; 0x0f; 0x0f; 0x85; 0x2a; 0x01; 0; 0; 0x3d; 0xe5;
   0xc8; 0x03; 0x0b; 0x1a; 0x45; 0x78; 0x01; 0xe9; 0xbc; 0x01; 0; 0; 0x80; 0xf9; 0x08; 0x0f;
   0x85; 0xb3; 0x01; 0; 0; 0xe9; 0x06; 0x38; 0xda; 0xc6; 0x83; 0xe6; 0x1f; 0xa8; 0x40; 0x8b;
   0x45; 0xe0; 0x74; 0x1b; 0xce; 0x01; 0x8a; 0x20; 0xdb; 0x01; 0xa0; 0x50; 0xe8; 0x51; 0x14; 0xe2;
   0x03; 0x89; 0xec; 0x5b; 0x0f; 0x7b; 0x01; 0x85; 0xf6; 0x8b; 0x4d; 0xf0; 0x74; 0x09; 0x39; 0xc6;
   0x75; 0x05; 0x83; 0xfe; 0x14; 0x76; 0x12; 0x96; 0xc0; 0x8b; 0x7d; 0xe4; 0x8b; 0x75; 0xe8; 0xe9;
   0x6b; 0x6f; 0x03; 0x88; 0x46; 0xbd; 0x05; 0x78; 0; 0x8d; 0x04; 0x76; 0x89; 0x75; 0xc8; 0x8d;
   0x04; 0x86; 0x89; 0x45; 0xdc; 0x8d; 0xb4; 0x05; 0x49; 0x90; 0xb8; 0xfb; 0x10; 0x0e; 0x79; 0x06;
   0x4d; 0xcc; 0x8a; 0x54; 0x41; 0x0a; 0x88; 0x54; 0x06; 0xf8; 0x40; 0x75; 0xf5; 0x31; 0xc0; 0x8b;
   0x4d; 0xd0; 0x8a; 0x14; 0x41; 0x0f; 0xf8; 0x10; 0x83; 0xf8; 0x06; 0x75; 0xf3; 0xff; 0x4d; 0xdc;
   0x31; 0xd2; 0x31; 0xc0; 0x8a; 0x4c; 0x57; 0x1c; 0x88; 0x4c; 0x16; 0xfe; 0xa8; 0x01; 0x75; 0x12;
   0x03; 0x55; 0xdc; 0xb0; 0x01; 0x81; 0xfa; 0x62; 0x02; 0x81; 0x94; 0x0e; 0xc8; 0x72; 0xe2; 0x83;
   0x7d; 0xc8; 0x01; 0x0f; 0x85; 0x1c; 0xca; 0x0f; 0x91; 0x03; 0x01; 0x05; 0x0b; 0x11; 0x80; 0xbc;
   0x63; 0xf8; 0; 0x20; 0x75; 0x08; 0x83; 0xc0; 0xff; 0x72; 0xf1; 0x31; 0xc0; 0x48; 0xc6; 0x84;
   0x05; 0xb9; 0xee; 0x0e; 0x90; 0x80; 0x3d; 0x30; 0x08; 0x78; 0x04; 0; 0xb8; 0x91; 0x18; 0x01;
   0; 0xb9; 0xc7; 0x18; 0x01; 0; 0x0f; 0x45; 0xc1; 0xff; 0x75; 0x0c; 0x8d; 0x8d; 0x30; 0x9b;
   0x51; 0xff; 0xd0; 0x08; 0x08; 0x88; 0x80; 0xd2; 0x06; 0xf9; 0x1a; 0x4f; 0x0b; 0x8b; 0x55; 0xec;
   0xf6; 0xc1; 0x08; 0x0f; 0x85; 0x9c; 0; 0; 0; 0xb8; 0xf5; 0xff; 0xff; 0xff; 0xc6; 0x44;
   0x05; 0xc8; 0x20; 0x40; 0x75; 0xf8; 0x8b; 0x45; 0x0c; 0x8a; 0; 0x84; 0xc0; 0x74; 0x61; 0x31;
   0xf6; 0xc7; 0x45; 0xdc; 0x89; 0x01; 0xf9; 0x14; 0xdb; 0x43; 0x3c; 0x2e; 0x74; 0x34; 0x83; 0xfe;
   0x08; 0x0f; 0x92; 0xc1; 0x83; 0xfe; 0x0a; 0x8b; 0x55; 0xec; 0x77; 0x65; 0x0a; 0x4d; 0xdc; 0xf6;
   0xc1; 0x01; 0x74; 0x5d; 0x0f; 0xbe; 0xc0; 0x50; 0xe8; 0xc6; 0x10; 0xeb; 0x07; 0x28; 0x88; 0x44;
   0x35; 0xbd; 0x46; 0x40; 0x7a; 0x03; 0x04; 0x18; 0x43; 0x84; 0xc0; 0x75; 0xca; 0xeb; 0x1d; 0xf6;
   0x45; 0xdc; 0x01; 0x8b; 0x4d; 0xf0; 0x75; 0x2e; 0x16; 0x88; 0xbe; 0xa3; 0x0b; 0xfb; 0x04; 0xb1;
   0x01; 0x89; 0x4d; 0xdc; 0x84; 0xc0; 0x75; 0xaa; 0x6a; 0x0b; 0x8d; 0x45; 0xbd; 0x50; 0x57; 0xe8;
   0x88; 0x11; 0x6f; 0x07; 0xb2; 0x8b; 0x4d; 0xd4; 0x0f; 0x84; 0xa4; 0xed; 0x0b; 0x28; 0x8b; 0x55;
   0xec; 0xeb; 0x06; 0x08; 0xc2; 0x4d; 0xf0; 0x8b; 0x7d; 0xe4; 0x47; 0x89; 0xcb; 0x2e; 0x02; 0x78;
   0x03; 0x83; 0x45; 0xcc; 0x20; 0x83; 0x45; 0xd0; 0x20; 0x39; 0xdf; 0x0f; 0x82; 0xe9; 0xfd; 0xff;
   0xff; 0xe9; 0x94; 0x2f; 0x01; 0x27; 0x90; 0xeb; 0xcc; 0xa5; 0x02; 0xb1; 0xff; 0x75; 0xec; 0xe8;
   0xc9; 0x33; 0x44; 0x0b; 0x98; 0xc1; 0xe7; 0x02; 0xf3; 0x0e; 0xf2; 0xe9; 0xad; 0xfc; 0xff; 0xff;
   0x6a; 0; 0x53; 0x56; 0xe9; 0xa5; 0xfc; 0xff; 0xff; 0x56; 0x02; 0xc9; 0xeb; 0x60; 0x6a; 0;
   0x6a; 0x0c; 0xe8; 0x90; 0x34; 0x93; 0x04; 0xf8; 0x03; 0x8b; 0x0f; 0x8b; 0x57; 0x04; 0x89; 0x08;
   0x89; 0x50; 0x04; 0x8b; 0x4f; 0x07; 0x89; 0x48; 0x07; 0xb9; 0x0b; 0x44; 0x15; 0x90; 0x7c; 0x08;
   0x66; 0x01; 0xf8; 0x01; 0xc6; 0x44; 0x08; 0xff; 0; 0x49; 0x75; 0xf1; 0x8b; 0x4d; 0x08; 0x89;
   0x01; 0xc7; 0x45; 0xd8; 0x08; 0x07; 0; 0x6d; 0xf8; 0x01; 0x1c; 0x6a; 0x20; 0x57; 0xff; 0x75;
   0x08; 0x89; 0xce; 0xe8; 0xf9; 0x11; 0; 0; 0x89; 0xf1; 0xb1; 0x0f; 0; 0x1e; 0x04; 0xbd;
   0xa8; 0x0f; 0xaf; 0xce; 0x6a; 0; 0x9e; 0x08; 0x8c; 0x33; 0x99; 0x0f; 0x9c; 0x81; 0xc4; 0x3c;
   0x28; 0x06; 0; 0xd2; 0xbd; 0x39; 0xdf; 0x8b; 0x55; 0xec; 0x73; 0x2d; 0xd5; 0x02; 0x80; 0x6e;
   0x02; 0x89; 0xca; 0xbd; 0x02; 0x52; 0x74; 0xc3; 0x01; 0xd7; 0x80; 0x7f; 0x0b; 0x0f; 0x74; 0x97;
   0x64; 0x92; 0xe8; 0x97; 0x21; 0x01; 0x10; 0xeb; 0x80; 0x79; 0x8d; 0xa6; 0xc9; 0x13; 0xf0; 0x89;
   0x4d; 0xe8; 0x8b; 0x71; 0x04; 0x31; 0xc0; 0x83; 0xfe; 0x0c; 0xb9; 0xef; 0x0f; 0xc3; 0x10; 0xb8;
   0xc8; 0x83; 0xfe; 0x10; 0xbb; 0xef; 0xff; 0xce; 0x10; 0xf9; 0x0d; 0xd8; 0x09; 0xcb; 0x83; 0xfe;
   0x20; 0xbf; 0xef; 0xff; 0xff; 0x0f; 0x0f; 0x45; 0xfb; 0x83; 0xfa; 0x02; 0x0f; 0x82; 0xb4; 0;
   0; 0; 0x39; 0xfa; 0x0f; 0x87; 0xac; 0x5d; 0x03; 0x98; 0x89; 0xf9; 0x49; 0x6f; 0x0d; 0x88;
   0x84; 0xc6; 0x14; 0x80; 0xfc; 0x06; 0xf8; 0; 0x01; 0x39; 0xc1; 0x0f; 0x42; 0xc1; 0xf7; 0xd8;
   0x89; 0x45; 0xf0; 0x31; 0xf6; 0x46; 0xbb; 0xc5; 0x0c; 0xe1; 0x89; 0x55; 0xe4; 0x8b; 0x4d; 0xe8;
   0x8d; 0x45; 0xec; 0x50; 0xe8; 0xff; 0x49; 0x06; 0xa8; 0x04; 0x85; 0xc0; 0x75; 0x6f; 0x21; 0x03;
   0xf8; 0x04; 0xfa; 0x02; 0x72; 0x16; 0x39; 0xfa; 0x77; 0x12; 0x83; 0xc3; 0x04; 0x8b; 0x45; 0xf0;
   0x8d; 0x44; 0x30; 0x01; 0x46; 0x7a; 0x0b; 0x61; 0xd1; 0xeb; 0x51; 0x31; 0xff; 0x57; 0x6a; 0x04;
   0x57; 0x56; 0xe8; 0x6c; 0xf8; 0x89; 0x10; 0x09; 0x08; 0xb8; 0xe4; 0x89; 0x45; 0xec; 0x8b; 0x55;
   0xec; 0x30; 0x04; 0x14; 0x14; 0xb8; 0x52; 0x0d; 0xad; 0x52; 0xb0; 0x0f; 0x47; 0x39; 0xfe; 0x75;
   0xdf; 0x53; 0x14; 0xfb; 0; 0x30; 0x8b; 0x45; 0xf0; 0xeb; 0x10; 0x6a; 0; 0x53; 0xff; 0x75].

Definition hdd_bin_3 : list Z :=
  [0xf0; 0xe8; 0x03; 0x32; 0x04; 0x05; 0x86; 0xbd; 0x13; 0x88; 0xe5; 0x40; 0x13; 0xfb; 0x0b; 0x48;
   0x10; 0x8b; 0x51; 0x3c; 0xff; 0x75; 0x1c; 0xff; 0x75; 0x18; 0xff; 0x75; 0x14; 0xff; 0x75; 0x10;
   0xff; 0x75; 0x0c; 0xff; 0x71; 0x40; 0xe8; 0x45; 0; 0x08; 0x0a; 0xb9; 0x74; 0x02; 0x5d; 0xc3;
   0x68; 0x5b; 0x51; 0x11; 0x13; 0x91; 0x35; 0x14; 0x11; 0x13; 0x90; 0x57; 0x56; 0x7a; 0x13; 0xa8;
   0x70; 0x10; 0x8b; 0x46; 0x40; 0x9a; 0x0d; 0xc9; 0xff; 0x57; 0x50; 0xff; 0x76; 0x3c; 0xe8; 0xa1;
   0x31; 0x66; 0x05; 0x32; 0x57; 0x6a; 0x44; 0x56; 0xe8; 0x95; 0x0c; 0x96; 0x5e; 0x5f; 0x2a; 0x15;
   0x88; 0x28; 0x49; 0x09; 0xd0; 0xb6; 0x51; 0x0e; 0x89; 0x4d; 0xe0; 0x0f; 0xb7; 0x41; 0x0c; 0x4b;
   0x09; 0xf8; 0x05; 0xdc; 0x31; 0xc9; 0x31; 0xd2; 0x3b; 0x4d; 0x18; 0x89; 0xd0; 0x1b; 0x45; 0x1c;
   0x0f; 0x93; 0x45; 0xf3; 0x0f; 0x83; 0xda; 0x54; 0x18; 0xfa; 0x0a; 0xce; 0x03; 0x75; 0x10; 0x89;
   0xd7; 0x13; 0x7d; 0x14; 0x6a; 0; 0xff; 0x75; 0xdc; 0x57; 0x56; 0x89; 0x4d; 0xe4; 0x89; 0x55;
   0xd8; 0xe8; 0x7d; 0xe9; 0x2a; 0x0d; 0xd1; 0xd1; 0x3b; 0x45; 0x08; 0x83; 0xda; 0; 0x0f; 0x83;
   0xad; 0x64; 0x14; 0xa1; 0xd4; 0x8b; 0x14; 0x82; 0x92; 0x01; 0x89; 0x9e; 0x65; 0x01; 0xf9; 0x0c;
   0xd0; 0x8b; 0x55; 0x18; 0x2b; 0x55; 0xe4; 0x89; 0x55; 0xec; 0x8b; 0x55; 0x1c; 0x1b; 0x55; 0xd8;
   0x89; 0x55; 0xe8; 0x8b; 0x5d; 0xdc; 0xf7; 0xe3; 0x89; 0x45; 0xcc; 0x3f; 0x0d; 0xb9; 0x2b; 0x75;
   0xcc; 0x19; 0xcf; 0x29; 0xf3; 0x65; 0x15; 0xc0; 0x19; 0xfa; 0x39; 0x5d; 0xec; 0x8b; 0x45; 0xe8;
   0x2f; 0x0f; 0x48; 0x5d; 0xec; 0x89; 0x5d; 0xec; 0x0f; 0x42; 0x55; 0xe8; 0x31; 0xf8; 0x11; 0x4d;
   0xd0; 0x83; 0xc1; 0xfe; 0x8b; 0x45; 0xe0; 0x0f; 0xb6; 0x40; 0x0e; 0xf7; 0xe1; 0x89; 0xd1; 0x8b;
   0x5d; 0xe0; 0x03; 0x43; 0x20; 0x83; 0xd1; 0; 0x0f; 0xb7; 0x53; 0x0c; 0x0f; 0xaf; 0xca; 0x6d;
   0x0d; 0xf8; 0x0d; 0x01; 0xf0; 0x11; 0xfa; 0x8b; 0x4d; 0x0c; 0x8b; 0x75; 0xe4; 0x01; 0xf1; 0x8b;
   0x7d; 0xe8; 0x57; 0x8b; 0x75; 0xec; 0x56; 0x52; 0x50; 0x51; 0xff; 0x33; 0xe8; 0xf9; 0x13; 0xdb;
   0x08; 0xff; 0x0a; 0xd8; 0x8b; 0x4d; 0xe4; 0x83; 0xc4; 0x18; 0x01; 0xf1; 0x11; 0xfa; 0x84; 0xc0;
   0x0f; 0x85; 0x14; 0xff; 0xff; 0xff; 0x8a; 0x45; 0xf3; 0x83; 0xc4; 0x28; 0x41; 0x16; 0x02; 0x78;
   0x03; 0x18; 0x89; 0xd3; 0x0f; 0xb7; 0x71; 0x0c; 0x89; 0xf0; 0xf7; 0x61; 0x1c; 0x89; 0x55; 0xe4;
   0x89; 0x45; 0xe0; 0x0b; 0x79; 0x01; 0x18; 0x89; 0xc7; 0x8b; 0x41; 0x04; 0x83; 0xf8; 0x20; 0x74;
   0x5c; 0x83; 0xf8; 0x10; 0x0f; 0x85; 0xdb; 0xf9; 0x0f; 0xd8; 0xc1; 0xe8; 0x1f; 0x01; 0xdb; 0x89;
   0x5d; 0xec; 0x83; 0xc3; 0x02; 0x89; 0x45; 0xf0; 0x83; 0xd0; 0; 0x31; 0xf6; 0x4e; 0x39; 0xdf;
   0x8b; 0x7d; 0x08; 0x19; 0xc2; 0xc7; 0x07; 0x70; 0x19; 0x90; 0x82; 0xe8; 0x4f; 0x11; 0x98; 0x45;
   0xe0; 0x03; 0x23; 0x02; 0xfc; 0x01; 0xe4; 0x13; 0x55; 0xf0; 0x6a; 0; 0x6a; 0x02; 0x52; 0x50;
   0x57; 0xff; 0x31; 0xe8; 0x64; 0x13; 0xd9; 0x0b; 0x90; 0x85; 0xbc; 0xcb; 0x05; 0x0b; 0xbe; 0x53;
   0x21; 0x1e; 0xc1; 0xe3; 0x02; 0x54; 0x0e; 0x04; 0x54; 0x37; 0xdf; 0x19; 0xc2; 0x0f; 0x82; 0x9d;
   0x4b; 0x07; 0x30; 0x04; 0x52; 0x50; 0x8b; 0x7d; 0x08; 0x4e; 0x0c; 0x16; 0x4e; 0xc0; 0x74; 0x79;
   0x80; 0x67; 0x03; 0x0f; 0xeb; 0x6c; 0xa9; 0x17; 0x7a; 0x11; 0xde; 0xd1; 0xee; 0x31; 0xc0; 0x89;
   0x5d; 0xec; 0x01; 0xde; 0x0f; 0x92; 0xc0; 0x89; 0xf2; 0x83; 0xc2; 0x02; 0x89; 0x45; 0xdc; 0x83;
   0xd0; 0; 0x39; 0xd7; 0x19; 0x45; 0xf0; 0x8b; 0x7d; 0x08; 0xa5; 0x78; 0x07; 0x66; 0xc7; 0x45;
   0xea; 0; 0; 0x72; 0x3e; 0x8b; 0x55; 0xe0; 0x01; 0xf2; 0x8b; 0x75; 0xe4; 0x13; 0x75; 0xdc;
   0x8d; 0x45; 0xea; 0xa9; 0xc4; 0x56; 0x52; 0x50; 0xff; 0x31; 0xe8; 0xbb; 0x12; 0x7a; 0x02; 0xa9;
   0x1b; 0x0f; 0xb7; 0x45; 0xea; 0x12; 0x16; 0x98; 0x25; 0xff; 0x0f; 0x70; 0x09; 0xf0; 0xec; 0x01;
   0x0f; 0x45; 0xc1; 0x89; 0x07; 0x31; 0xf6; 0xeb; 0x03; 0x31; 0xf6; 0x4e; 0xb1; 0x15; 0x8c; 0x18;
   0x54; 0x0a; 0xa1; 0x5d; 0xe9; 0xfb; 0xf2; 0x71; 0x08; 0x94; 0x31; 0xc0; 0xeb; 0x0c; 0xb2; 0x8b;
   0x5d; 0x0c; 0x53; 0xe8; 0x2a; 0x64; 0x0d; 0xdb; 0x89; 0xc6; 0x83; 0xc6; 0x02; 0x6a; 0; 0x56;
   0xe8; 0xeb; 0x2f; 0x7b; 0x10; 0xfa; 0x01; 0x80; 0x3b; 0x2f; 0x74; 0x06; 0xc6; 0x07; 0x2f; 0x89;
   0xf8; 0x40; 0x53; 0x50; 0xe8; 0x75; 0x0b; 0xbc; 0x04; 0xe0; 0x45; 0x08; 0x80; 0x78; 0x0d; 0x01;
   0x75; 0x23; 0x57; 0x68; 0x4f; 0x51; 0xd7; 0x0c; 0x95; 0xf0; 0x37; 0xf1; 0x0c; 0xca; 0x89; 0xc3;
   0x6a; 0; 0x56; 0x57; 0xe8; 0xba; 0x2e; 0x3f; 0x04; 0xac; 0x36; 0x57; 0x50; 0xe8; 0x9a; 0xef;
   0x0a; 0x91; 0x75; 0x10; 0x5b; 0x04; 0x88; 0x20; 0xb6; 0x11; 0x80; 0x19; 0x06; 0x61; 0x74; 0x0a;
   0x89; 0xc3; 0x89; 0x78; 0x08; 0x89; 0x70; 0x0c; 0xeb; 0x0e; 0x36; 0x0a; 0x84; 0x36; 0x80; 0xa0;
   0x0a; 0x81; 0x06; 0x0b; 0x82; 0x46; 0x03; 0x7b; 0x09; 0x75; 0x08; 0x80; 0x3e; 0x01; 0x75; 0x19;
   0x80; 0x7e; 0x01; 0; 0x75; 0x1a; 0xff; 0x76; 0x20; 0xff; 0x76; 0x1c; 0xff; 0x76; 0x10; 0xe8;
   0x57; 0x63; 0xa8; 0x07; 0x56; 0xff; 0x56; 0x18; 0xf5; 0x0d; 0x52; 0xff; 0x57; 0xff; 0x76; 0x0c;
   0xff; 0x76; 0x08; 0xe8; 0x3d; 0x47; 0x32; 0x57; 0x6a; 0x30; 0x56; 0xe8; 0x31; 0x53; 0x86; 0x64;
   0x03; 0x08; 0x50; 0xbe; 0xfc; 0x28; 0x38; 0x01; 0x75; 0x3b; 0x8b; 0x7d; 0x14; 0x8b; 0x4d; 0x10;
   0x8b; 0x70; 0x1c; 0x89; 0x75; 0xf0; 0x8b; 0x58; 0x20; 0x29; 0xce; 0x89; 0xda; 0x19; 0xfa; 0x3b;
   0x4d; 0xf0; 0x19; 0xdf; 0x73; 0x29; 0x8b; 0x7d; 0x18; 0x39; 0xfe; 0x1b; 0x55; 0x1c; 0x72; 0x1f;
   0x03; 0x48; 0x10; 0x57; 0x51; 0xff; 0x75; 0x0c; 0xe8; 0x86; 0x0c; 0; 0; 0xd3; 0x17; 0x98;
   0x83; 0xc4; 0x04; 0xe1; 0x10; 0xb1; 0xff; 0x60; 0x14; 0x68; 0xa4; 0x57; 0xf4; 0x03; 0x91; 0x41;
   0x10; 0x05; 0x17; 0x38; 0x31; 0xc0; 0x50; 0x50; 0xff; 0x75; 0x0c; 0xe6; 0x11; 0x05; 0; 0x30;
   0x07; 0x77; 0; 0x70; 0x0c; 0x8b; 0x75; 0x08; 0x83; 0x7d; 0x14; 0; 0x0f; 0x95; 0xc3; 0x22;
   0x5d; 0x10; 0xd4; 0xd8; 0x69; 0x80; 0x7e; 0x01; 0x01; 0x74; 0x43; 0x8b; 0x56; 0x20; 0xb9; 0xbb;
   0x01; 0xf9; 0x0d; 0x03; 0x4e; 0x1c; 0x83; 0xd2; 0; 0x0f; 0x92; 0xc7; 0x0f; 0xb6; 0xf7; 0x89;
   0xf7; 0xf7; 0xdf; 0x09; 0xf7; 0x0f; 0x85; 0x51; 0x01; 0; 0; 0x81; 0xe1; 0; 0xf0; 0xdf;
   0x0a; 0xb8; 0x56; 0x6a; 0x01; 0x56; 0x50; 0x52; 0x51; 0x13; 0x01; 0x80; 0x02; 0x01; 0x90; 0x33;
   0x26; 0x01; 0x17; 0xe8; 0x24; 0xc6; 0x46; 0x01; 0x01; 0x8b; 0x76; 0x10; 0x84; 0xdb; 0x0f; 0x84;
   0x19; 0x9b; 0x13; 0xc0; 0x35; 0x10; 0xdb; 0x04; 0; 0xc7; 0x05; 0x14; 0x1f; 0x10; 0x80; 0x8f;
   0x08; 0x80; 0x12; 0x15; 0xd2; 0x0f; 0xb6; 0xcb; 0x51; 0x68; 0; 0x10; 0; 0; 0x50; 0x41;
   0x01; 0x91; 0xe8; 0xc0; 0xc8; 0x10; 0x68; 0x14; 0x89; 0xc6; 0x84; 0xdb; 0x74; 0x1b; 0x8b; 0x3e;
   0x8b; 0x46; 0x04; 0xa3; 0x31; 0x9a; 0x89; 0x3d; 0x10; 0xb7; 0x10; 0x10; 0x32; 0xbe; 0x09; 0xf8;
   0x0d; 0xeb; 0x02; 0x89; 0xf7; 0x31; 0xc0; 0x8b; 0x5d; 0x08; 0xff; 0x73; 0x20; 0xff; 0x73; 0x1c;
   0x50; 0x50; 0x57; 0x53; 0xff; 0x53; 0x14; 0x83; 0xc4; 0x18; 0x53; 0xff; 0x53; 0x74; 0x01; 0xd1;
   0x89; 0x7b; 0x10; 0x66; 0xc7; 0x03; 0x01; 0x01; 0xe9; 0xa0; 0x72; 0x09; 0xc3; 0x68; 0; 0;
   0x10; 0; 0xe8; 0xae; 0x2d; 0xf3; 0x09; 0x78; 0x0a; 0xf0; 0x8b; 0x55; 0x08; 0x8b; 0x72; 0x1c;
   0x8b; 0x42; 0x20; 0x89; 0xf1; 0x09; 0xc1; 0x74; 0x5f; 0x31; 0xdb; 0x31; 0xff; 0x29; 0xfe; 0x19;
   0xd8; 0xb9; 0x27; 0x78; 0x09; 0x39; 0xce; 0x0f; 0x43; 0xf1; 0x85; 0xc0; 0x0f; 0x45; 0xf1; 0x6a;
   0; 0x56; 0x53; 0x57; 0xff; 0x75; 0xf0; 0x52; 0x8b; 0x45; 0x08; 0xff; 0x50; 0x5e; 0x08; 0xa1;
   0x85; 0x20; 0x01; 0xf8; 0x8b; 0x0d; 0xc4; 0x78; 0x03; 0x11; 0xd9; 0x56; 0xff; 0x75; 0xf0; 0x51;
   0x50; 0xff; 0x55; 0x14; 0x8b; 0x55; 0x08; 0x83; 0xc4; 0x10; 0xb8; 0x3f; 0x2a; 0x01; 0xc7; 0x83;
   0xd3; 0; 0x5d; 0x43; 0x39; 0xf7; 0x89; 0xd9; 0x19; 0xc1; 0x72; 0xa5; 0x80; 0xb9; 0xff; 0x75;
   0xf0; 0x89; 0xd6; 0xe8; 0x39; 0x0a; 0x10; 0x8b; 0x0c; 0x1c; 0x02; 0x01; 0xcd; 0x80; 0x0a; 0x03;
   0x8a; 0x04; 0xbb; 0x18; 0x91; 0xae; 0x53; 0xaa; 0x05; 0x96; 0x8b; 0x0e; 0xbb; 0x18; 0x90; 0x2c;
   0x0a; 0x76; 0x08; 0xc0; 0x8d; 0x75; 0xca; 0x53; 0x6a; 0x05; 0x53; 0x68; 0x9f; 0x19; 0x88; 0x56;
   0xc7; 0x01; 0x95; 0x53; 0x0f; 0xea; 0x0f; 0xfd; 0x02; 0x38; 0x03; 0; 0; 0xc6; 0x45; 0xcf;
   0; 0x68; 0x84; 0x4f; 0x01; 0; 0x56; 0xe8; 0x8b; 0x08; 0xe8; 0x0c; 0x90; 0x1e; 0x03; 0x70;
   0x0a; 0xaa; 0x6a; 0x14; 0xe8; 0xb3; 0x2c; 0xdd; 0x07; 0x90; 0x35; 0x18; 0xfd; 0x11; 0xf8; 0;
   0xf6; 0x89; 0x45; 0xec; 0x74; 0x14; 0x89; 0xc7; 0x8b; 0x45; 0x08; 0x39; 0x06; 0x0f; 0x84; 0x62;
   0x0a; 0xf5; 0x8b; 0x76; 0x0c; 0x85; 0xf6; 0x75; 0xee; 0x6a; 0; 0x6a; 0x10; 0xe8; 0x86; 0x2c;
   0xdc; 0x17; 0xa1; 0x08; 0x89; 0x06; 0xbf; 0x2f; 0x17; 0x98; 0xdb; 0x53; 0x68; 0xfc; 0x15; 0xc8;
   0x53; 0x57; 0x8d; 0x85; 0xcb; 0xf6; 0xff; 0xff; 0x50; 0x4a; 0x02; 0x15; 0xd0; 0x0e; 0x83; 0x90;
   0x19; 0x04; 0x18; 0x16; 0x01; 0x1b; 0xb1; 0x83; 0xf8; 0x01; 0x74; 0x23; 0x3d; 0xdc; 0x01; 0xb8;
   0x84; 0x09; 0x04; 0; 0; 0x81; 0xc7; 0x35; 0x16; 0xf8; 0; 0x81; 0xff; 0; 0x80; 0x08;
   0; 0x75; 0xb9; 0x68; 0x4a; 0x57; 0x01; 0; 0xe9; 0xfd; 0xf5; 0x0b; 0xf8; 0x05; 0x85; 0x71;
   0xf7; 0xff; 0xff; 0x89; 0x46; 0x08; 0x8d; 0x48; 0xff; 0x81; 0xf9; 0xff; 0xff; 0xff; 0x03; 0x0f;
   0x87; 0xec; 0xa1; 0x0b; 0xa8; 0xc1; 0x81; 0xe1; 0xff; 0x07; 0xb6; 0x13; 0x88; 0xde; 0xd8; 0x0b;
   0xb2; 0xff; 0x57; 0x50; 0xe8; 0xf5; 0x2b; 0xac; 0x0b; 0x28; 0x46; 0x04; 0x8b; 0x8d; 0x69; 0x35;
   0xb8; 0xca; 0xc1; 0xe2; 0x0b; 0xc1; 0xe9; 0x15; 0x8e; 0x12; 0x11; 0x51; 0x52; 0x8c; 0x0e; 0x44;
   0x8c; 0x28; 0xae; 0x03; 0; 0; 0xa1; 0xe8; 0x21; 0x89; 0x46; 0x0c; 0x89; 0xf1; 0xf8; 0x05;
   0x8b; 0x7d; 0xec; 0x8b; 0x5d; 0x0c; 0x89; 0x37; 0x4b; 0x80; 0x7b; 0x01; 0x2f; 0x8d; 0x5b; 0x01;
   0x74; 0xf7; 0x8b; 0x46; 0x30; 0x05; 0x98; 0x8b; 0x4e; 0x08; 0xd1; 0x18; 0xf8; 0; 0xe0; 0x31;
   0xf6; 0x46; 0x0f; 0xb6; 0x03; 0x83; 0xf8; 0x2f; 0x75; 0x03; 0x43; 0xeb; 0xf5; 0x19; 0x0a; 0x88;
   0xa3; 0xb0; 0x02; 0x7a; 0x01; 0x4d; 0xe4; 0x84; 0xc0; 0x74; 0x21; 0x0f; 0xb6; 0xc8; 0x83; 0xf9;
   0x2f; 0x74; 0x19; 0x81; 0xfe; 0xd4; 0x7a; 0x03; 0x3c; 0x03; 0; 0; 0x88; 0x84; 0x35; 0xca;
   0xfe; 0xff; 0xff; 0x8a; 0x04; 0x33; 0x46; 0xeb; 0xdb; 0xc6; 0x0d; 0x80; 0x0e; 0x0b; 0xaa; 0x85;
   0xff; 0x8b; 0x55; 0xf0; 0x57; 0x0a; 0xf8; 0x05; 0x0f; 0xb6; 0x02; 0x85; 0xc0; 0x74; 0x40; 0x3c;
   0x21; 0x0f; 0x82; 0x71; 0x01; 0; 0; 0x39; 0xc7; 0x0f; 0x82; 0x69; 0x28; 0x0b; 0x88; 0x8d;
   0x3f; 0x01; 0x80; 0x10; 0x07; 0x90; 0x0e; 0x03; 0x7b; 0x14; 0x93; 0x74; 0x51; 0xab; 0x0a; 0x93;
   0x75; 0x48; 0x5a; 0x01; 0x99; 0x8d; 0x85; 0xcb; 0x80; 0x0b; 0xc8; 0xc4; 0x06; 0; 0; 0xeb;
   0x46; 0x81; 0xff; 0x01; 0x73; 0x17; 0x88; 0x82; 0xbd; 0x0e; 0xe0; 0x89; 0xf9; 0xb8; 0; 0xf8;
   0xff; 0xff; 0x21; 0xc1; 0x89; 0xf8; 0x25; 0x22; 0x01; 0x18; 0x39; 0xcf; 0xbf; 0x10; 0xb9; 0x8d;
   0x3c; 0x39; 0x0f; 0x45; 0xf9; 0xb9; 0x9b; 0x17; 0x27; 0x44; 0xc1; 0xeb; 0x22; 0x48; 0x04; 0x91;
   0xb2; 0x06; 0xf7; 0x12; 0x81; 0x3b; 0x1b; 0xf9; 0x04; 0x55; 0xd8; 0x0f; 0xb6; 0x02; 0x29; 0xc7;
   0x01; 0xc2; 0x85; 0xff; 0x0f; 0x85; 0x5a; 0xff; 0xff; 0xff; 0xe9; 0xd5; 0x72; 0x06; 0xd8; 0xd8;
   0x8b; 0x48; 0x0a; 0x80; 0x7c; 0x33; 0xff; 0; 0x0f; 0x84; 0xef; 0x21; 0x38; 0xf6; 0x40; 0x19;
   0x02; 0x0f; 0x84; 0xba; 0x1b; 0xb0; 0x78; 0x02; 0xf6; 0x45; 0xe0; 0x01; 0xc8; 0x19; 0x98; 0xff;
   0x75; 0xe4; 0xc2; 0x02; 0xa8; 0x4d; 0xdc; 0xe8; 0x76; 0x29; 0xb3; 0x0d; 0x88; 0xdc; 0xf6; 0x15;
   0x9a; 0x41; 0xff; 0x3d; 0xba; 0x01; 0x88; 0xa3; 0x4e; 0x20; 0x09; 0xc8; 0x97; 0x90; 0x0f; 0x85;
   0xfc; 0x1c; 0xda; 0x01; 0xf3; 0x31; 0xc0; 0x50; 0x51; 0x89; 0xce; 0xe8; 0x38; 0x2a; 0x69; 0x0d;
   0xbc; 0xf9; 0xc1; 0xe1; 0x0b; 0xc1; 0xef; 0x15; 0xd1; 0x0c; 0xc0; 0xd2; 0x52; 0x56; 0x57; 0x51;
   0x89; 0x45; 0xf0; 0xbe; 0x01; 0x81; 0xc4; 0x04; 0x91; 0x89; 0xf2; 0x4c; 0x02; 0xb1; 0x89; 0xf1;
   0x8b; 0x7d; 0xec; 0xbe; 0x86; 0x1a; 0x90; 0x85; 0x67; 0x3d; 0x0f; 0x98; 0xdb; 0x53; 0x52; 0x02;
   0x09; 0x92; 0x01; 0x29; 0xac; 0x19; 0xaa; 0x6a; 0x14; 0x57; 0xe8; 0xf5; 0x74; 0x16; 0x11; 0xeb;
   0x42; 0x9c; 0x20; 0x0e; 0x6a; 0; 0x51; 0x22; 0x94; 0xdf; 0x28; 0x2e; 0x16; 0x21; 0x14; 0x57;
   0xeb; 0x1d; 0x1b; 0x0c; 0x10; 0xb7; 0x16; 0xe8; 0xc2; 0x1d; 0x80; 0x16; 0x0b; 0x95; 0xb3; 0x28;
   0xd1; 0x05; 0xa3; 0x81; 0xc4; 0x2c; 0x0a; 0xdd; 0x10; 0xa8; 0x89; 0x4d; 0xdc; 0x8b; 0x45; 0x70;
   0x17; 0xaa; 0x01; 0xc8; 0x89; 0x45; 0xd0; 0xab; 0x01; 0xa9; 0x8b; 0x55; 0xd8; 0xe8; 0x63; 0x6f;
   0x0c; 0xe8; 0xd8; 0x31; 0xdb; 0x43; 0x80; 0x7e; 0x19; 0; 0x89; 0xd8; 0xc7; 0x45; 0xd4; 0x80;
   0x08; 0x13; 0x79; 0x73; 0x09; 0xf8; 0x13; 0x31; 0xc0; 0x40; 0x89; 0x45; 0xe8; 0x89; 0xf1; 0x8b;
   0x55; 0xd0; 0xe8; 0x79; 0x02; 0; 0; 0x85; 0xc0; 0x74; 0x4e; 0x89; 0xc6; 0x8d; 0xbd; 0xcb;
   0xf5; 0xff; 0xff; 0x89; 0xf9; 0x89; 0xc2; 0xe8; 0x22; 0x79; 0x0d; 0x88; 0xbd; 0x97; 0x01; 0x9c;
   0; 0x74; 0x34; 0x43; 0x03; 0x9b; 0xe8; 0xe2; 0x04; 0x80; 0x06; 0x80; 0xde; 0x1c; 0xa0; 0xdc;
   0x03; 0x46; 0x0a; 0x70; 0x07; 0x90; 0x55; 0xd4; 0x61; 0x18; 0x89; 0x3d; 0xb2; 0x1b; 0x10; 0x0e].

Definition hdd_bin_4 : list Z :=
  [0x40; 0x70; 0xf9; 0x0b; 0x78; 0xa3; 0xeb; 0x0a; 0x8b; 0x45; 0xe8; 0xeb; 0x05; 0xb8; 0; 0;
   0x01; 0; 0x31; 0xc9; 0x51; 0x6a; 0x08; 0x51; 0x50; 0x89; 0xc6; 0xe8; 0x16; 0x29; 0xa8; 0x08;
   0x98; 0x83; 0xc4; 0x10; 0x40; 0x12; 0xa8; 0x41; 0x10; 0x89; 0x71; 0x0c; 0xed; 0x1a; 0x90; 0x41;
   0x08; 0x93; 0x1b; 0xd0; 0x41; 0x04; 0x89; 0x75; 0xe8; 0xf7; 0xde; 0x8b; 0x42; 0x02; 0xfd; 0x02;
   0x4a; 0x4f; 0x10; 0x89; 0x44; 0xd9; 0xf8; 0x8b; 0x42; 0x0a; 0x0a; 0x40; 0xfc; 0x3b; 0x5d; 0xe8;
   0x73; 0x10; 0x89; 0xd1; 0xb0; 0x88; 0xc9; 0x9a; 0x05; 0x88; 0xc2; 0xf4; 0x06; 0xa8; 0x8d; 0x44;
   0x1e; 0x01; 0x43; 0x34; 0x16; 0x8f; 0xca; 0x3c; 0x01; 0x04; 0x94; 0x86; 0x27; 0x59; 0x01; 0xa3;
   0x30; 0xe8; 0x6a; 0x28; 0xc6; 0x10; 0; 0x74; 0xf8; 0x0d; 0x48; 0x10; 0xc7; 0x40; 0x14; 0x99;
   0x16; 0x01; 0; 0xc7; 0x40; 0x18; 0x0a; 0x18; 0x01; 0; 0x8b; 0x41; 0x04; 0x8b; 0x49; 0x08;
   0x89; 0x43; 0x1c; 0x89; 0x4b; 0x20; 0x3c; 0x04; 0xa0; 0x43; 0x04; 0xe9; 0x9c; 0x27; 0x10; 0xc9;
   0xd6; 0x54; 0x01; 0; 0xeb; 0x0c; 0x68; 0xaa; 0x58; 0x11; 0x15; 0x8a; 0x5e; 0x9f; 0x1d; 0xfd;
   0x03; 0xa7; 0x09; 0; 0; 0x68; 0xc5; 0x51; 0x01; 0; 0xeb; 0xf2; 0x68; 0x9b; 0x52; 0x01;
   0; 0xeb; 0xeb; 0xa1; 0x20; 0xf8; 0x05; 0x89; 0x4d; 0xf0; 0x8a; 0x1a; 0x0f; 0xb6; 0xcb; 0x0f;
   0xb6; 0x42; 0x20; 0x8d; 0x70; 0x21; 0x89; 0x75; 0xe8; 0x39; 0xce; 0x0f; 0x19; 0x90; 0x87; 0xab;
   0x8b; 0x24; 0xf8; 0x03; 0x74; 0x02; 0x21; 0x89; 0xcf; 0x29; 0xc7; 0x83; 0xc7; 0xdf; 0xa8; 0x01;
   0x75; 0x0a; 0x85; 0xff; 0x0f; 0x84; 0xf8; 0x0c; 0xc1; 0x46; 0x4f; 0x83; 0xff; 0x04; 0x0f; 0x82;
   0x89; 0x7d; 0x11; 0xfc; 0x1d; 0x31; 0xc0; 0x80; 0x7e; 0x03; 0x01; 0x75; 0x61; 0x0f; 0xb6; 0x56;
   0x02; 0x85; 0xd2; 0x74; 0x59; 0x39; 0xd7; 0x72; 0x55; 0x80; 0x3e; 0x4e; 0x75; 0x41; 0x80; 0xfa;
   0x05; 0x72; 0x3c; 0x80; 0x7e; 0x01; 0x4d; 0x75; 0x36; 0x8d; 0x5c; 0x02; 0xfb; 0x81; 0xfb; 0;
   0x01; 0xef; 0x1e; 0xf9; 0; 0x83; 0xc2; 0xfb; 0x03; 0x45; 0xf0; 0x8d; 0x4e; 0x05; 0x52; 0x51;
   0x50; 0xe8; 0x31; 0x05; 0xf6; 0x14; 0xa2; 0xf6; 0x46; 0x04; 0x01; 0xcb; 0x1f; 0; 0x4a; 0x78;
   0x02; 0xb1; 0x01; 0xeb; 0x02; 0x89; 0xc3; 0x29; 0xd7; 0x01; 0xd6; 0x83; 0xff; 0x03; 0x89; 0xd8;
   0x77; 0x9b; 0x0f; 0xd0; 0xb0; 0x01; 0xf6; 0xc1; 0x01; 0x8b; 0x75; 0xf0; 0x75; 0x67; 0x94; 0x1f;
   0xfa; 0x18; 0xb6; 0x41; 0x20; 0x8a; 0x19; 0x0f; 0xb6; 0xcb; 0x8d; 0x50; 0x21; 0x89; 0x55; 0xe8;
   0x89; 0xda; 0x31; 0xdb; 0x80; 0xfa; 0x22; 0x8d; 0x51; 0xdf; 0x0f; 0x42; 0xd3; 0x39; 0x4d; 0xe8;
   0x0f; 0x46; 0xd0; 0x85; 0xd2; 0x74; 0x35; 0x31; 0xdb; 0x07; 0x17; 0xfc; 0x2b; 0x0f; 0xb6; 0x44;
   0x1f; 0x21; 0x83; 0xf8; 0x2e; 0x74; 0x07; 0x83; 0xf8; 0x3b; 0x75; 0x10; 0xeb; 0x23; 0x8d; 0x4b;
   0x01; 0x39; 0xd1; 0x73; 0x07; 0x80; 0x7c; 0x1f; 0x22; 0x3b; 0x74; 0x15; 0x88; 0x04; 0x1e; 0x43;
   0x39; 0xda; 0x75; 0xd9; 0x31; 0xc0; 0x89; 0xd3; 0xeb; 0x09; 0x31; 0xc0; 0x8b; 0x75; 0xf0; 0xeb;
   0x02; 0x31; 0xc0; 0xc6; 0x04; 0x1e; 0; 0xc8; 0x20; 0xb9; 0xb0; 0x01; 0xeb; 0xe9; 0x68; 0x1d;
   0x58; 0xde; 0x0b; 0x92; 0x57; 0x08; 0xef; 0x1e; 0xf8; 0x01; 0x56; 0x0f; 0xb6; 0x01; 0x85; 0xc0;
   0x74; 0x2a; 0x01; 0xc1; 0x31; 0xc0; 0x39; 0xd1; 0x0f; 0x83; 0xb0; 0x1e; 0xc9; 0x8a; 0x19; 0x84;
   0xdb; 0x74; 0x4b; 0x80; 0xfb; 0x21; 0xd9; 0x13; 0xf9; 0x06; 0x72; 0x70; 0x0f; 0xb6; 0xf3; 0x29;
   0xca; 0x31; 0xc0; 0x39; 0xf2; 0x0f; 0x43; 0xc1; 0xeb; 0x62; 0x41; 0x31; 0xdb; 0x81; 0xc1; 0xba;
   0x03; 0xc0; 0x92; 0xc3; 0x89; 0xde; 0xf7; 0xde; 0x81; 0xe1; 0x67; 0x04; 0xf8; 0x08; 0x31; 0xc0;
   0x31; 0xde; 0x0f; 0x95; 0xc3; 0x0f; 0x45; 0xc8; 0x39; 0xd1; 0x0f; 0x93; 0xc2; 0x08; 0xda; 0x75;
   0x39; 0x31; 0xc0; 0x80; 0x39; 0x4a; 0x0f; 0x17; 0xeb; 0x2f; 0x33; 0x19; 0x28; 0xc7; 0x08; 0xdf;
   0x75; 0x06; 0x7a; 0x9d; 0x75; 0x86; 0x5e; 0x74; 0x21; 0x81; 0xe5; 0x16; 0x9a; 0x1c; 0x8b; 0x4d;
   0x72; 0x20; 0xf9; 0x11; 0x10; 0x89; 0x45; 0xe4; 0x8b; 0x40; 0x0c; 0x89; 0x45; 0xe8; 0x85; 0xc0;
   0x0f; 0x94; 0xc0; 0x89; 0x4d; 0xec; 0x09; 0xd1; 0x0f; 0x95; 0x45; 0xf0; 0x0f; 0x94; 0xc1; 0x08;
   0xc1; 0x0f; 0x85; 0x19; 0x89; 0x15; 0x88; 0x14; 0x49; 0x1d; 0xc0; 0x4d; 0x10; 0x8b; 0x45; 0x0c;
   0x89; 0x45; 0xe0; 0x76; 0x0e; 0x82; 0x87; 0x0f; 0x84; 0x91; 0x0f; 0xfa; 0x1f; 0xff; 0x31; 0xc0;
   0x89; 0x55; 0xf0; 0x8b; 0x55; 0xe4; 0x8b; 0x52; 0x10; 0x89; 0x5d; 0xcc; 0x89; 0x55; 0xc4; 0x8b;
   0x74; 0xda; 0xfc; 0x01; 0xf7; 0x83; 0xd0; 0; 0x89; 0x7d; 0xc0; 0x39; 0xf9; 0x8b; 0x5d; 0xd4;
   0x89; 0xda; 0x19; 0xc2; 0x89; 0xc7; 0x89; 0x4d; 0xd0; 0x0f; 0x83; 0xef; 0x18; 0xe9; 0xc8; 0x31;
   0xff; 0x89; 0xca; 0x2b; 0x55; 0xd8; 0x89; 0xd9; 0x1b; 0x4d; 0xdc; 0x77; 0x22; 0x82; 0x19; 0x01;
   0xd8; 0x04; 0x89; 0xcb; 0x89; 0xd0; 0x89; 0x5d; 0xe8; 0x29; 0xc6; 0x19; 0x92; 0x0e; 0xe1; 0x39;
   0xf2; 0x8b; 0x5d; 0xf0; 0x89; 0xd9; 0x19; 0xf9; 0x0f; 0x42; 0xfb; 0x8f; 0x1b; 0xfc; 0x1b; 0xf2;
   0x8b; 0x4d; 0xcc; 0x8b; 0x55; 0xc4; 0x8b; 0x54; 0xca; 0xf8; 0x89; 0xd1; 0xc1; 0xe9; 0x15; 0xc1;
   0xe2; 0x0b; 0x01; 0xc2; 0x13; 0x4d; 0xe8; 0x8b; 0x45; 0xe4; 0x8b; 0; 0x57; 0x56; 0x51; 0x52;
   0x8b; 0x5d; 0xe0; 0x53; 0xff; 0x30; 0xe8; 0xb6; 0x07; 0x7f; 0x0d; 0x78; 0x07; 0x67; 0x01; 0xf3;
   0x89; 0x5d; 0xe0; 0x01; 0x75; 0xd0; 0x11; 0x7d; 0xd4; 0x8b; 0x4d; 0xec; 0x29; 0xf1; 0x8b; 0x55;
   0xf0; 0x19; 0xfa; 0x30; 0x78; 0x19; 0x70; 0x0c; 0x8b; 0x7d; 0xc8; 0xeb; 0x09; 0x8b; 0x55; 0xf0;
   0x8b; 0x4d; 0xec; 0x8b; 0x75; 0xe8; 0x89; 0xc8; 0x09; 0xd0; 0x0f; 0x95; 0xc0; 0x8b; 0x5d; 0xcc;
   0x39; 0xf3; 0x88; 0x45; 0xf0; 0x73; 0x1f; 0x89; 0x75; 0xe8; 0x43; 0x89; 0x4d; 0xec; 0x18; 0xf8;
   0x05; 0x89; 0xf8; 0x8b; 0x7d; 0xc0; 0x89; 0x7d; 0xd8; 0x89; 0x45; 0xdc; 0x8b; 0x4d; 0xd0; 0x0f;
   0x85; 0x0b; 0xff; 0xff; 0xff; 0xd9; 0x15; 0xaa; 0x75; 0x14; 0x83; 0xc4; 0x34; 0xf5; 0x20; 0x8a;
   0x78; 0x06; 0x02; 0xb8; 0x51; 0x06; 0; 0; 0x68; 0x11; 0x53; 0x56; 0x03; 0x87; 0xeb; 0x0d;
   0x02; 0xa2; 0x0c; 0xc1; 0xe0; 0x03; 0xeb; 0x0d; 0xa3; 0x10; 0xe8; 0xb6; 0x23; 0x87; 0x0a; 0x22;
   0x14; 0x56; 0xe8; 0xaa; 0x0c; 0x94; 0x5e; 0x5f; 0x53; 0x0e; 0x4a; 0x83; 0xc0; 0xe0; 0x83; 0xf8;
   0x5f; 0x0f; 0x92; 0xc0; 0x11; 0x74; 0x4d; 0x08; 0x8d; 0x51; 0x9f; 0x8d; 0x41; 0xe0; 0x83; 0xfa;
   0x1a; 0x0f; 0x43; 0xc1; 0x14; 0x32; 0x89; 0xc8; 0xf7; 0xd8; 0x0f; 0x48; 0x0f; 0x88; 0x53; 0x46;
   0x0d; 0xfa; 0x09; 0x45; 0x08; 0x8a; 0x19; 0x31; 0xd2; 0x84; 0xdb; 0x74; 0x0a; 0x88; 0x1c; 0x10;
   0x8a; 0x5c; 0x11; 0x01; 0x42; 0xeb; 0xf2; 0xc6; 0x04; 0x10; 0; 0x32; 0x16; 0x08; 0x56; 0x23;
   0xf8; 0x18; 0x55; 0x08; 0x8a; 0x02; 0x8a; 0x21; 0x38; 0xe0; 0x75; 0x12; 0x31; 0xf6; 0x46; 0x84;
   0xc0; 0x74; 0x18; 0x8a; 0x04; 0x32; 0x8a; 0x24; 0x31; 0x46; 0x38; 0xe0; 0x74; 0xf1; 0x31; 0xc9;
   0x38; 0xe0; 0x0f; 0x93; 0xc1; 0x8d; 0x44; 0x09; 0xff; 0xe3; 0x02; 0x8c; 0x5e; 0x04; 0x0c; 0x02;
   0x5b; 0x7a; 0x1b; 0x0f; 0xb6; 0; 0x89; 0xc3; 0x80; 0xc3; 0xbf; 0x89; 0xc6; 0x83; 0xce; 0x20;
   0x80; 0xfb; 0x1a; 0x0f; 0xb6; 0x11; 0x0f; 0x43; 0xf0; 0x89; 0xd1; 0x80; 0xc1; 0xbf; 0x89; 0xd7;
   0x83; 0xcf; 0x20; 0x80; 0xf9; 0x1a; 0x0f; 0x43; 0xfa; 0x39; 0xfe; 0x75; 0x3a; 0x5a; 0x09; 0x40;
   0x34; 0x58; 0x04; 0x30; 0x8b; 0x4d; 0x0c; 0x0f; 0xb6; 0x14; 0x31; 0x89; 0xc1; 0x29; 0x0c; 0xc7;
   0x29; 0x0a; 0xf8; 0x39; 0x1a; 0xd3; 0x83; 0xcb; 0x10; 0x55; 0xda; 0x46; 0x39; 0xdf; 0x74; 0xc9;
   0x31; 0xc9; 0x38; 0xd0; 0x82; 0x81; 0xa7; 0x19; 0x06; 0x84; 0xb8; 0x10; 0x85; 0xc9; 0x74; 0x20;
   0x8b; 0x55; 0x27; 0x0b; 0xfe; 0x19; 0x49; 0x31; 0xff; 0x8a; 0x1c; 0x3e; 0x3a; 0x1c; 0x3a; 0x75;
   0x13; 0x31; 0xc0; 0x84; 0xdb; 0x74; 0x17; 0x39; 0xf9; 0x8d; 0x7f; 0x01; 0x75; 0xeb; 0xeb; 0x0e;
   0x31; 0xc0; 0xeb; 0x0a; 0x0f; 0x93; 0xc0; 0x0f; 0xb6; 0xc0; 0x8d; 0x44; 0; 0xff; 0x2c; 0x17;
   0x12; 0x56; 0x50; 0x41; 0xa0; 0x4a; 0x49; 0x31; 0xff; 0xcd; 0x1d; 0; 0xcf; 0x78; 0x01; 0x0c;
   0x38; 0x8b; 0x45; 0x0c; 0x0f; 0xb6; 0x04; 0x38; 0x89; 0xca; 0x80; 0xc2; 0xbf; 0x89; 0xcb; 0x8b;
   0x80; 0x60; 0x01; 0x52; 0xd9; 0x89; 0xc2; 0x89; 0xc6; 0x80; 0xc2; 0xbf; 0x83; 0xc8; 0x10; 0xd8;
   0xc6; 0x39; 0xc3; 0x75; 0x16; 0x31; 0xc0; 0x84; 0xc9; 0x74; 0x1d; 0x1d; 0x1e; 0x01; 0x6b; 0x79;
   0; 0xbe; 0xeb; 0x11; 0x31; 0xc0; 0xeb; 0x0d; 0x89; 0xf2; 0x31; 0xc0; 0x38; 0xd1; 0x0f; 0x93;
   0x6e; 0x84; 0x3f; 0x0a; 0x81; 0xe9; 0x0b; 0xf6; 0x48; 0x8b; 0x4d; 0x08; 0x80; 0x7c; 0x01; 0x01;
   0; 0x8d; 0x40; 0x01; 0x75; 0xf6; 0xec; 0x24; 0xf9; 0x05; 0x08; 0x8b; 0x4d; 0x08; 0xbf; 0xfc;
   0xff; 0xff; 0xff; 0x8d; 0x75; 0xf0; 0x89; 0xcb; 0x6a; 0x0a; 0x56; 0x51; 0xe8; 0x52; 0x77; 0x10;
   0x88; 0x0c; 0x79; 0x1e; 0xf8; 0x08; 0xcb; 0x74; 0x36; 0x83; 0xff; 0xff; 0x8a; 0x19; 0x74; 0x08;
   0x80; 0xfb; 0x2e; 0x75; 0x2a; 0x41; 0xeb; 0x04; 0x84; 0xdb; 0x75; 0x23; 0xbb; 0xc7; 0x09; 0x91;
   0x39; 0xc3; 0x99; 0x25; 0x7d; 0x0e; 0x19; 0xd3; 0x72; 0x13; 0x88; 0x44; 0x3d; 0xf0; 0x47; 0x75;
   0xc1; 0x8b; 0x45; 0xec; 0x8b; 0x4d; 0x0c; 0x89; 0x01; 0x31; 0xc0; 0xeb; 0x03; 0x31; 0xc0; 0x48;
   0x83; 0xc4; 0x08; 0xf0; 0x89; 0x56; 0xaa; 0x03; 0xfb; 0x06; 0x08; 0x85; 0xc9; 0x74; 0x10; 0x8b;
   0x55; 0x0c; 0x31; 0xf6; 0x8a; 0x1c; 0x32; 0x88; 0x1c; 0x30; 0x46; 0x39; 0xf1; 0x75; 0xf5; 0x05;
   0x04; 0x06; 0x22; 0x6c; 0x0b; 0x8b; 0x55; 0x0c; 0x89; 0xc6; 0x88; 0x16; 0x46; 0x49; 0x75; 0xfa;
   0x5e; 0x3f; 0x92; 0x55; 0x10; 0xf5; 0x01; 0x40; 0x39; 0xc1; 0x76; 0x13; 0x85; 0xd2; 0x74; 0x2a;
   0x43; 0x09; 0x31; 0x43; 0xe0; 0xf2; 0x75; 0xf5; 0xeb; 0x1b; 0x0f; 0x93; 0xc3; 0x85; 0xd2; 0x0f;
   0x94; 0x5c; 0x04; 0x7d; 0x02; 0x0f; 0x89; 0xd6; 0x4e; 0x8a; 0x5c; 0x11; 0xff; 0x88; 0x5c; 0x10;
   0xff; 0x89; 0xf2; 0x75; 0xf3; 0x5e; 0x83; 0xb2; 0x45; 0x10; 0x85; 0xc0; 0x74; 0x15; 0x75; 0x02;
   0x01; 0x40; 0xd7; 0x38; 0x1c; 0x32; 0x75; 0x09; 0x46; 0x39; 0xf0; 0x75; 0xf3; 0xa7; 0x01; 0x03;
   0x03; 0x33; 0x88; 0x8a; 0xd2; 0x02; 0x7c; 0; 0xc0; 0xe8; 0x04; 0x0f; 0xb6; 0xc0; 0x01; 0xc0;
   0x8d; 0x04; 0x40; 0xf7; 0xd8; 0; 0xc8; 0x19; 0x98; 0x0f; 0xbe; 0xc1; 0xa6; 0x01; 0xd9; 0x9f;
   0x80; 0xfa; 0x05; 0x77; 0x05; 0x83; 0xc0; 0xa9; 0xeb; 0x1e; 0xb5; 0x01; 0x03; 0x0f; 0xfe; 0x03;
   0xc9; 0xeb; 0x0f; 0x80; 0xc1; 0xd0; 0x83; 0xc0; 0xd0; 0x31; 0xd2; 0x4a; 0x80; 0xf9; 0x0a; 0x0f;
   0x43; 0xc2; 0x5e; 0x1e; 0x8c; 0x14; 0x2a; 0x1a; 0x90; 0x7d; 0x10; 0x31; 0x13; 0x78; 0x02; 0xf8;
   0xc1; 0xf8; 0x1f; 0x89; 0x45; 0xe4; 0x31; 0xf6; 0x0f; 0xbe; 0x11; 0x89; 0xd0; 0x04; 0x9f; 0x3c;
   0x50; 0x08; 0xc2; 0x50; 0x1a; 0xd0; 0x04; 0xbf; 0x0d; 0x10; 0xc9; 0xeb; 0x1a; 0xb8; 0xd0; 0x83;
   0xc2; 0xd0; 0x3c; 0x0a; 0xb8; 0xbe; 0x21; 0xf8; 0x07; 0x0f; 0x43; 0xd0; 0x83; 0xfa; 0xff; 0x74;
   0x7a; 0x39; 0xfa; 0x7d; 0x76; 0x89; 0x55; 0xe0; 0x89; 0x4d; 0xe8; 0x85; 0xf6; 0x0f; 0x95; 0x3f;
   0x1e; 0x80; 0xcb; 0x23; 0xb0; 0xc1; 0x20; 0xd1; 0xf7; 0x65; 0xf0; 0xef; 0x16; 0x78; 0x03; 0x45;
   0xef; 0x89; 0xf0; 0xf7; 0xe7; 0x0f; 0x90; 0xc5; 0x0a; 0x6d; 0xef; 0x08; 0xcd; 0x01; 0xc3; 0x89;
   0xf8; 0x19; 0x88; 0xd6; 0xca; 0x0f; 0xa8; 0xc1; 0x08; 0xe9; 0x80; 0xf9; 0xb6; 0x23; 0xf8; 0x05;
   0x74; 0x4a; 0x8b; 0x4d; 0xe0; 0x89; 0xc8; 0xc1; 0xf8; 0x1f; 0x01; 0x4d; 0xf0; 0x11; 0xc6; 0x89;
   0xc1; 0x83; 0xd1; 0; 0x24; 0x05; 0x89; 0xca; 0x34; 0x1a; 0xf9; 0x06; 0x31; 0xd0; 0x31; 0xd1;
   0x09; 0xc1; 0x8b; 0x4d; 0xe8; 0x75; 0x35; 0x85; 0xd2; 0x78; 0x31; 0x41; 0x8b; 0x7d; 0x10; 0xe9;
   0x53; 0xe2; 0x20; 0x80; 0xe7; 0x1d; 0x98; 0x02; 0x89; 0x08; 0xb1; 0x12; 0xa1; 0xf2; 0x83; 0xc4;
   0x14; 0x69; 0x02; 0x19; 0x31; 0xf6; 0x4e; 0x19; 0x18; 0x89; 0x75; 0xf0; 0x33; 0x19; 0xe1; 0xeb;
   0xe1; 0x28; 0x89; 0xbe; 0x72; 0x22; 0xb4; 0x75; 0xf0; 0x75; 0xd0; 0xeb; 0xd0; 0xd5; 0x0e; 0xc0;
   0x7d; 0x14; 0x85; 0xff; 0x74; 0x6f; 0x8b; 0x5d; 0xc9; 0x03; 0xa2; 0x8d; 0x54; 0x38; 0xff; 0x69;
   0x0b; 0xc0; 0x89; 0x55; 0xf0; 0x74; 0x24; 0x8b; 0x75; 0x10; 0xb1; 0x1d; 0xa0; 0x56; 0xe8; 0x44;
   0xfd; 0x79; 0x0f; 0xb9; 0x04; 0x39; 0xf8; 0x73; 0x46; 0x40; 0x50; 0xde; 0x0c; 0x09; 0xb1; 0x12;
   0x7d; 0x02; 0x0c; 0xeb; 0x32; 0x8b; 0x7d; 0x08; 0xc6; 0x07; 0x2f; 0x8d; 0x77; 0x01; 0xeb; 0x54;
   0x56; 0xe8; 0x1c; 0x28; 0xc0; 0x1e; 0x89; 0xc6; 0x40; 0x50; 0xff; 0x75; 0x10; 0xd0; 0x10; 0x12;
   0xe8; 0x84; 0x2d; 0xc8; 0x01; 0xfe; 0x8b; 0x55; 0xf0; 0xeb; 0x2e; 0xb0; 0x01; 0x43; 0x04; 0x84;
   0x13; 0x03; 0xe8; 0x43; 0x8b; 0x55; 0xf0; 0x8a; 0x03; 0x3c; 0x2f; 0x74; 0x15; 0x0f; 0xb6; 0xc8;
   0x62; 0x1b; 0x88; 0x13; 0x8d; 0x0b; 0xe0; 0xd6; 0x73; 0xdd; 0x88; 0x06; 0x43; 0x46; 0xeb; 0xe5;
   0x43; 0xb0; 0x2f; 0x4a; 0x10; 0x61; 0xdf; 0x6a; 0x02; 0x68; 0xd0; 0x59; 0x01; 0; 0x53; 0xe8;
   0x08; 0xfc; 0x4c; 0x80; 0x1d; 0x16; 0x88; 0xe9; 0xad; 0x17; 0x19; 0x03; 0x68; 0xd7; 0x18; 0x15;
   0xf0; 0xfb; 0x18; 0x0a; 0xd1; 0x18; 0x09; 0xd3; 0x30; 0x0e; 0xd8; 0x18; 0x81; 0x6b; 0x0e; 0x19;
   0x04; 0x68; 0xdb; 0x48; 0x0e; 0xc0; 0x18; 0x0a; 0x88; 0x30; 0x10; 0x7d; 0x56; 0x60; 0x0c; 0xa8;
   0x18; 0x38; 0x74; 0x47; 0x6a; 0x02; 0x68; 0x0f; 0x55; 0x74; 0x0e; 0x94; 0x2c; 0x28; 0x4d; 0xff;
   0xff; 0xff; 0x39; 0xc8; 0x98; 0x0f; 0x86; 0x46; 0xab; 0x03; 0xb8; 0x46; 0xff; 0x39; 0xf8; 0x0f].

Definition hdd_bin_5 : list Z :=
  [0x84; 0x3b; 0xef; 0x05; 0x28; 0x38; 0x2f; 0x0f; 0x84; 0x32; 0x1f; 0x98; 0xd6; 0x0f; 0x83; 0x65;
   0x25; 0x29; 0xc6; 0x06; 0x2f; 0xe9; 0x3a; 0x2f; 0x79; 0x1a; 0x76; 0x11; 0x8b; 0x55; 0xf0; 0x80;
   0x3e; 0x2f; 0x74; 0x0c; 0x4e; 0x39; 0xfe; 0x77; 0xf6; 0x89; 0xfe; 0xeb; 0x03; 0x8b; 0x55; 0xf0;
   0x31; 0xc0; 0x39; 0xfe; 0x0f; 0x94; 0xc0; 0xc6; 0x04; 0x06; 0; 0x01; 0xc6; 0x83; 0xc3; 0x02;
   0xe9; 0xf5; 0xfe; 0x2d; 0x08; 0x0c; 0x2a; 0x0b; 0x07; 0x2a; 0x03; 0x25; 0x10; 0x01; 0xc6; 0x46;
   0xfb; 0x07; 0x8d; 0x46; 0xff; 0x80; 0x7e; 0xff; 0x2f; 0x89; 0xc1; 0x0f; 0x45; 0xce; 0x39; 0xf8;
   0x0f; 0x45; 0xf1; 0xc6; 0x06; 0; 0xe9; 0xad; 0x09; 0x1a; 0xf8; 0x04; 0x56; 0x50; 0x8d; 0x45;
   0x10; 0x89; 0x45; 0xf4; 0xc6; 0x05; 0xc1; 0x0b; 0x05; 0; 0; 0xa1; 0xec; 0x1b; 0x05; 0xe8;
   0x0a; 0xf8; 0x0b; 0x12; 0x8b; 0x0d; 0xe8; 0x1b; 0x05; 0; 0x8b; 0x11; 0xc6; 0x42; 0x04; 0x01;
   0x83; 0xc1; 0x04; 0x48; 0x75; 0xf4; 0x8b; 0x75; 0x0c; 0x8a; 0x5d; 0x08; 0xa0; 0xf0; 0x1f; 0x18;
   0x8b; 0x0d; 0xf0; 0x27; 0x6e; 0xc9; 0x0f; 0x94; 0xc2; 0x84; 0xd0; 0x74; 0x10; 0xe8; 0x5f; 0xac;
   0x01; 0; 0x19; 0xfa; 0x0a; 0; 0x83; 0xf9; 0x03; 0xb9; 0x32; 0x53; 0x01; 0; 0xba; 0xa3;
   0x53; 0x01; 0; 0x0f; 0x44; 0xca; 0x84; 0xc0; 0x0f; 0x44; 0xca; 0x51; 0xe8; 0x74; 0x59; 0x1f;
   0xb2; 0xff; 0x75; 0xf4; 0x56; 0xe8; 0x81; 0xb5; 0x1f; 0x90; 0x68; 0x12; 0x4c; 0x20; 0x8b; 0x5b;
   0x72; 0x1f; 0xa1; 0; 0xe8; 0x1a; 0x14; 0x50; 0x1f; 0xa3; 0x84; 0xdb; 0x74; 0x3c; 0x5a; 0x20;
   0xf9; 0x02; 0x74; 0x33; 0xb8; 0x04; 0x55; 0x01; 0; 0xb9; 0x2b; 0x50; 0x01; 0; 0x80; 0x3d;
   0x7c; 0xca; 0x04; 0x04; 0x16; 0x42; 0x51; 0x68; 0xc1; 0x53; 0x01; 0; 0xe8; 0x22; 0x46; 0xc1;
   0xe8; 0xaf; 0xdf; 0; 0; 0xe8; 0x6a; 0xab; 0x0e; 0x15; 0x5a; 0x23; 0xd6; 0x02; 0; 0x68;
   0x15; 0x56; 0x01; 0; 0xe8; 0x04; 0x57; 0x9c; 0xe8; 0x81; 0xd1; 0xf4; 0x1a; 0xe8; 0x83; 0xec;
   0x30; 0x8b; 0x5d; 0x08; 0x80; 0x7b; 0x0d; 0x01; 0x0f; 0x84; 0x91; 0xf9; 0x19; 0xe0; 0x75; 0x1c;
   0x8b; 0x4b; 0x38; 0x8b; 0x7b; 0x3c; 0x89; 0xca; 0x21; 0xfa; 0x92; 0x03; 0xc8; 0x43; 0xf7; 0xc7;
   0; 0; 0x80; 0xff; 0x0f; 0x85; 0xb0; 0x19; 0x78; 0x10; 0x0f; 0xa4; 0xcf; 0x09; 0xc1; 0xe1;
   0x09; 0x89; 0xce; 0x8b; 0x45; 0x10; 0x29; 0xc6; 0x89; 0xfa; 0x8b; 0x45; 0x14; 0x19; 0xc2; 0x39;
   0x4d; 0x10; 0x89; 0xc1; 0x19; 0xf9; 0x0f; 0x83; 0x47; 0x40; 0xd2; 0x45; 0x18; 0x39; 0xc6; 0x8b;
   0x75; 0x1c; 0x19; 0xf2; 0xb8; 0xe9; 0x13; 0x90; 0x34; 0x02; 0x1a; 0x1e; 0xd0; 0x8b; 0x55; 0x18;
   0x89; 0xd1; 0x09; 0xf1; 0x0f; 0x84; 0x25; 0xc3; 0x19; 0xc0; 0xd6; 0x8b; 0x7b; 0x14; 0x0f; 0xaf;
   0x7b; 0x04; 0x57; 0x15; 0xf9; 0x0e; 0x89; 0x7d; 0xdc; 0x89; 0x4d; 0xcc; 0x03; 0x4d; 0x10; 0x89;
   0x55; 0xd0; 0x13; 0x55; 0x14; 0x6a; 0; 0x57; 0x89; 0x55; 0xc8; 0x52; 0x89; 0x4d; 0xc4; 0x51;
   0xe8; 0x35; 0xd4; 0x72; 0x22; 0xf9; 0x03; 0x83; 0x7b; 0x20; 0x01; 0x89; 0x45; 0xe4; 0x75; 0x16;
   0x8b; 0x43; 0x28; 0x33; 0x45; 0xe4; 0x8b; 0x4b; 0x2c; 0xc1; 0x03; 0xa9; 0x45; 0xe4; 0x0f; 0x84;
   0x64; 0x08; 0x25; 0x8b; 0xd4; 0xf5; 0x1b; 0xf8; 0x10; 0x8b; 0x73; 0x14; 0x8b; 0x43; 0x24; 0x85;
   0xc0; 0x74; 0x05; 0x89; 0x45; 0xe0; 0xeb; 0x38; 0x8b; 0x4b; 0x04; 0x89; 0xf0; 0xc1; 0xf8; 0x1f;
   0xf7; 0xe1; 0x89; 0xc7; 0x0f; 0x90; 0x45; 0xe8; 0x79; 0x1b; 0xfb; 0x07; 0x01; 0xfa; 0x0f; 0x92;
   0xc1; 0x0a; 0x4d; 0xe8; 0x80; 0xf9; 0x01; 0x0f; 0x84; 0xa8; 0x01; 0; 0; 0x52; 0x50; 0xe8;
   0x81; 0x1c; 0x20; 0x1b; 0x21; 0xe0; 0x89; 0x43; 0x24; 0x44; 0x88; 0x30; 0xba; 0x16; 0xa1; 0x7b;
   0x34; 0x8d; 0x9e; 0x4b; 0x26; 0xfb; 0x04; 0xf6; 0x0f; 0x49; 0xde; 0x89; 0xde; 0xc1; 0xfe; 0x09;
   0xc1; 0xfb; 0x1f; 0x53; 0x56; 0x57; 0x50; 0xe8; 0x9d; 0xd3; 0xe0; 0x15; 0xf8; 0x01; 0x0f; 0xaf;
   0xd8; 0x89; 0x45; 0xd8; 0xf7; 0xe6; 0x01; 0xda; 0x89; 0x4d; 0xe8; 0x0f; 0xaf; 0xce; 0xf4; 0x22;
   0xda; 0xec; 0x29; 0xc2; 0x19; 0xcf; 0x09; 0xd7; 0x0f; 0x85; 0x39; 0x01; 0xf9; 0x29; 0xe8; 0x78;
   0x04; 0x8b; 0x45; 0xd4; 0xf7; 0xe7; 0x89; 0xc1; 0x0f; 0x90; 0x45; 0xf3; 0x16; 0x17; 0xf8; 0x03;
   0x7d; 0xec; 0xf7; 0xe7; 0x89; 0xc3; 0x89; 0xd7; 0x01; 0xcf; 0x0f; 0x92; 0xc0; 0x0a; 0x45; 0xf3;
   0x0f; 0x85; 0xcf; 0x25; 0x48; 0x03; 0x5d; 0xd8; 0x13; 0x7d; 0xe8; 0x0f; 0x82; 0x02; 0x37; 0xe0;
   0x4d; 0x08; 0x8b; 0x41; 0x38; 0x8b; 0x49; 0x3c; 0x89; 0xc2; 0x21; 0xca; 0x85; 0x01; 0x64; 0x49;
   0x89; 0xf2; 0xc1; 0xfa; 0x1f; 0x52; 0x56; 0x51; 0x50; 0xe8; 0x20; 0x7d; 0xa0; 0x8b; 0x55; 0xd8;
   0x01; 0x6e; 0x1c; 0x92; 0x11; 0xce; 0x41; 0x05; 0xf8; 0x04; 0x42; 0xf0; 0x0f; 0x42; 0xd0; 0x89;
   0xd0; 0x29; 0xd8; 0x89; 0xf1; 0x19; 0xf9; 0x3b; 0x45; 0xec; 0x83; 0xd9; 0; 0x3c; 0x2b; 0xe1;
   0x42; 0xc8; 0x39; 0xd3; 0x89; 0xf8; 0x19; 0xf0; 0x72; 0x08; 0xe9; 0xa7; 0xc3; 0x26; 0xe9; 0xec;
   0x51; 0x57; 0x53; 0xff; 0x75; 0xe0; 0x8b; 0x75; 0x08; 0x56; 0xe8; 0xe3; 0x62; 0x01; 0x88; 0x14;
   0x29; 0x1e; 0xb8; 0x8a; 0; 0; 0; 0xc7; 0x46; 0x20; 0xa6; 0x30; 0x80; 0xbb; 0x17; 0xf8;
   0x16; 0x46; 0x28; 0x8b; 0x55; 0xd4; 0x89; 0x56; 0x2c; 0x8b; 0x75; 0x18; 0x8b; 0x7d; 0xdc; 0x89;
   0xf1; 0x2b; 0x4d; 0xcc; 0x8b; 0x75; 0x1c; 0x1b; 0x75; 0xd0; 0x89; 0xd3; 0xf7; 0xe7; 0x0f; 0xaf;
   0xdf; 0x01; 0xd3; 0x8b; 0x55; 0xc4; 0xdf; 0x23; 0xb9; 0xc8; 0x19; 0xd8; 0x89; 0xfb; 0x29; 0xd3;
   0x1d; 0x2d; 0xf1; 0x19; 0xc7; 0x39; 0xd9; 0x89; 0xf0; 0x19; 0xf8; 0x0f; 0x42; 0xfe; 0x0f; 0x42;
   0xd9; 0x6f; 0x13; 0xc8; 0xcc; 0x01; 0xf0; 0x8b; 0x4d; 0x08; 0x03; 0x51; 0x24; 0xf0; 0x23; 0x90;
   0xc5; 0xf8; 0x66; 0x0e; 0x89; 0xd0; 0x37; 0x19; 0xfa; 0; 0x01; 0xd9; 0x8b; 0x5d; 0x08; 0x11;
   0xfa; 0x8b; 0x7d; 0xdc; 0x8b; 0x75; 0x18; 0x39; 0xf1; 0x5b; 0x17; 0xac; 0x82; 0xf1; 0xfd; 0xff;
   0xff; 0xd7; 0x04; 0x8a; 0x30; 0xe4; 0x2a; 0x91; 0x8a; 0x4f; 0x4c; 0x0d; 0x8a; 0x83; 0xe6; 0x13;
   0x96; 0x5b; 0xfc; 0xba; 0x02; 0xe1; 0x5c; 0x8d; 0x7d; 0x98; 0x6a; 0x5c; 0x6a; 0; 0x57; 0xe8;
   0x8f; 0xf8; 0x18; 0x05; 0xd0; 0x31; 0xc9; 0xb3; 0x01; 0x31; 0xf6; 0x46; 0x8b; 0x04; 0x8d; 0xad;
   0x21; 0xe0; 0x89; 0xc1; 0xc1; 0xf9; 0x1f; 0x6a; 0; 0x6a; 0x5c; 0x51; 0x50; 0x57; 0x3f; 0x14;
   0x88; 0x0b; 0x54; 0x05; 0x81; 0x2a; 0x18; 0xb0; 0x14; 0x6a; 0x08; 0x68; 0xea; 0x51; 0x2a; 0x23;
   0x94; 0x03; 0xf7; 0xa5; 0x04; 0xb1; 0x10; 0x31; 0xc0; 0xf6; 0xc3; 0x01; 0x99; 0x2d; 0xc8; 0x89;
   0xf1; 0x75; 0xbc; 0xeb; 0x29; 0x81; 0x7d; 0xa0; 0x86; 0x0e; 0xa8; 0x75; 0x1e; 0x8b; 0x45; 0xdc;
   0x26; 0x2e; 0x89; 0x42; 0x67; 0x29; 0xa8; 0x42; 0x08; 0x8b; 0x45; 0xd0; 0xc6; 0x1d; 0xa4; 0x4a;
   0x04; 0x89; 0x02; 0x81; 0x05; 0x8f; 0x5c; 0x6b; 0x2d; 0x02; 0xd1; 0x44; 0x8b; 0x75; 0x08; 0x8d;
   0x7d; 0xf2; 0x66; 0xc7; 0x07; 0x4e; 0x12; 0xa0; 0x6a; 0x01; 0x53; 0x68; 0xe6; 0x0f; 0x2b; 0x57;
   0x56; 0xe8; 0x89; 0xfc; 0x82; 0xa0; 0x0f; 0x84; 0x79; 0x01; 0x62; 0x1b; 0xc0; 0x0f; 0xb6; 0x45;
   0xf2; 0xa8; 0x7f; 0x0f; 0x85; 0x58; 0x1c; 0x01; 0x29; 0x0a; 0xce; 0x29; 0x0e; 0x60; 0x29; 0x0f;
   0x50; 0x29; 0x02; 0x0c; 0x42; 0x29; 0x0a; 0xde; 0x29; 0x0e; 0x37; 0x29; 0x0f; 0x27; 0x29; 0x02;
   0x0c; 0x19; 0x52; 0x0a; 0xee; 0x29; 0x0e; 0x0e; 0x29; 0x17; 0xfe; 0; 0x29; 0x01; 0x89; 0xf0;
   0xf4; 0x32; 0x65; 0xb2; 0x53; 0x6a; 0x04; 0x53; 0x6a; 0x03; 0x50; 0x56; 0xe8; 0xe5; 0xfb; 0x52;
   0x8a; 0xd5; 0xe7; 0x05; 0x18; 0x14; 0x55; 0x01; 0x22; 0x9a; 0x50; 0xe8; 0x89; 0x2d; 0x01; 0x90;
   0x31; 0xdb; 0xc0; 0x05; 0x10; 0xb8; 0; 0xb3; 0x20; 0x03; 0x53; 0x6a; 0x36; 0x1c; 0x1e; 0x56;
   0xe8; 0xad; 0x38; 0x8a; 0x9d; 0x07; 0x06; 0x0c; 0x0b; 0x38; 0x0f; 0x51; 0x38; 0x01; 0x0c; 0x80;
   0x38; 0x0a; 0x52; 0x38; 0x0c; 0x75; 0x38; 0x17; 0x74; 0x69; 0x34; 0x01; 0x0e; 0x1d; 0x34; 0x90;
   0x74; 0x50; 0x10; 0x14; 0x12; 0x6a; 0x03; 0x30; 0x0d; 0x45; 0x30; 0x89; 0x39; 0xba; 0x23; 0x03;
   0x30; 0x16; 0xed; 0xf6; 0x30; 0x41; 0x20; 0x53; 0x6a; 0x02; 0x53; 0x68; 0x38; 0x04; 0xf9; 0x0d;
   0x15; 0x30; 0xfe; 0; 0x09; 0x66; 0x81; 0x7d; 0xf2; 0x53; 0xef; 0x0f; 0x95; 0xc3; 0x89; 0xd8;
   0x83; 0xc4; 0x44; 0xdf; 0x16; 0x80; 0x2c; 0x18; 0xb1; 0x31; 0xf6; 0x57; 0xe8; 0x3b; 0xfe; 0x75;
   0x07; 0xa0; 0x84; 0xc0; 0x74; 0x1f; 0x2a; 0x22; 0x7c; 0; 0xf4; 0x56; 0x6a; 0x04; 0x56; 0x68;
   0xb8; 0x01; 0; 0; 0x50; 0x57; 0xe8; 0xce; 0xfa; 0x47; 0xa3; 0x03; 0x8b; 0x75; 0xf4; 0xc8;
   0x14; 0x86; 0xac; 0x24; 0x88; 0x14; 0xd7; 0x1a; 0xb8; 0x7d; 0x10; 0; 0x0f; 0x88; 0x15; 0x06;
   0x8d; 0x24; 0xa0; 0xe0; 0xfe; 0xff; 0xff; 0x9b; 0x02; 0x9a; 0x50; 0xe8; 0xf4; 0x21; 0x29; 0x92;
   0x31; 0xc0; 0x9b; 0x02; 0x90; 0x3c; 0x85; 0x9b; 0x02; 0x80; 0x23; 0x09; 0x81; 0x9b; 0x02; 0x12;
   0x50; 0x57; 0x2c; 0x80; 0xb3; 0x16; 0x15; 0xe8; 0x6a; 0x64; 0x8b; 0x1a; 0xa1; 0x02; 0x03; 0x1d;
   0x9c; 0xe8; 0x5c; 0xf4; 0xa7; 0x02; 0x8d; 0x0e; 0xa5; 0x02; 0xc0; 0xf0; 0x75; 0xb2; 0xeb; 0x6b;
   0x81; 0xbd; 0xe8; 0xf3; 0x2c; 0x80; 0xa8; 0x02; 0x99; 0x5f; 0xbb; 0xfd; 0xc6; 0x08; 0xa0; 0x10;
   0x3b; 0x85; 0x30; 0xe0; 0x29; 0x98; 0x83; 0x8e; 0x05; 0x7b; 0x14; 0xa8; 0x34; 0xff; 0xff; 0xff;
   0x3d; 0x75; 0x01; 0xc8; 0x72; 0x3e; 0x89; 0xf9; 0xf7; 0xd9; 0x0f; 0x48; 0xcf; 0x5a; 0x2a; 0xa9;
   0xc8; 0xf7; 0xa5; 0x2c; 0xff; 0x37; 0x24; 0x18; 0x0f; 0x90; 0xc3; 0x0e; 0x89; 0x28; 0x57; 0x2b;
   0xf8; 0x0a; 0x89; 0xd6; 0x03; 0x75; 0xec; 0x0f; 0x92; 0xc0; 0x08; 0xd8; 0x8b; 0x45; 0xf0; 0x75;
   0x0d; 0xf7; 0x65; 0x10; 0x01; 0xc1; 0x11; 0xd6; 0x0f; 0x83; 0x84; 0x23; 0x2c; 0x88; 0xfe; 0x67;
   0x04; 0xa2; 0x75; 0x0c; 0xe8; 0x14; 0x9c; 0x08; 0x80; 0x0d; 0x15; 0x08; 0x2b; 0x63; 0xd8; 0x7d;
   0x10; 0x83; 0xff; 0x04; 0x72; 0x4e; 0x31; 0xdb; 0x43; 0xbf; 0xce; 0x12; 0x80; 0x04; 0x22; 0x31;
   0x10; 0x56; 0x57; 0x8d; 0x45; 0xd4; 0xd5; 0x94; 0x95; 0xf9; 0x39; 0x01; 0x80; 0xbf; 0x27; 0xf8;
   0x03; 0xd8; 0x83; 0xf8; 0x0f; 0x74; 0x05; 0x83; 0xf8; 0x05; 0x75; 0x0b; 0x8b; 0x55; 0xe0; 0x85;
   0xd2; 0x0f; 0x85; 0xe3; 0x2d; 0x49; 0x43; 0x83; 0xc7; 0x10; 0x83; 0xfb; 0x05; 0x75; 0xc6; 0xc3;
   0xa0; 0xe9; 0xd5; 0x04; 0; 0x31; 0x2d; 0x19; 0xe0; 0x04; 0x05; 0x50; 0x21; 0xc9; 0x8d; 0x55;
   0xd4; 0xdc; 0xb0; 0x51; 0x6a; 0x10; 0x51; 0x50; 0x52; 0xcb; 0x03; 0x0c; 0x40; 0x55; 0xb8; 0x8b;
   0x75; 0x08; 0x0f; 0x84; 0xa5; 0x04; 0xfa; 0x02; 0xc0; 0x4b; 0x80; 0x7d; 0xd8; 0; 0x0f; 0x84;
   0x98; 0x7c; 0x27; 0x82; 0x5d; 0x25; 0x08; 0x8d; 0x0b; 0xf8; 0x18; 0x55; 0x0c; 0x8b; 0x0a; 0x89;
   0x0e; 0x8b; 0x4a; 0x04; 0x89; 0x4e; 0x04; 0x8b; 0x4a; 0x08; 0x89; 0x4e; 0x08; 0x8a; 0x4a; 0x0c;
   0x88; 0x4e; 0x0c; 0x47; 0x89; 0x7e; 0x10; 0x8b; 0x4a; 0x14; 0x89; 0x4e; 0x14; 0x8b; 0x4d; 0xdc;
   0x31; 0xdb; 0xd5; 0x2d; 0xda; 0x4e; 0x30; 0x89; 0x5e; 0x3c; 0x89; 0x46; 0x38; 0x89; 0x56; 0x18;
   0xf7; 0x2c; 0xba; 0x56; 0x50; 0xe8; 0x53; 0xe6; 0xff; 0xff; 0x4d; 0x2a; 0x99; 0x26; 0x8b; 0x85;
   0x3e; 0x2b; 0x29; 0x46; 0x50; 0x8b; 0x85; 0x44; 0x09; 0x91; 0x4c; 0x8b; 0x7c; 0x2b; 0x90; 0x8b;
   0x8d; 0x5e; 0x2b; 0x71; 0x89; 0x4e; 0x48; 0x89; 0x46; 0x44; 0xb3; 0x01; 0x88; 0x5e; 0x40; 0x56;
   0xe8; 0x14; 0x36; 0x8a; 0x04; 0xf2; 0x02; 0x80; 0x1c; 0x02; 0xb8; 0x89; 0x46; 0x6c; 0xb0; 0x01;
   0xe9; 0x0c; 0x3f; 0x20; 0x88; 0xb5; 0x1b; 0x2b; 0xa0; 0x31; 0xc0; 0xb9; 0x19; 0x5e; 0x2f; 0x98;
   0xf7; 0xf3; 0xab; 0xfa; 0x0d; 0xf9; 0x0e; 0x01; 0x89; 0x46; 0xf4; 0x8b; 0x41; 0x04; 0x89; 0x46;
   0xf8; 0x8b; 0x41; 0x08; 0x89; 0x46; 0xfc; 0x8a; 0x41; 0x0c; 0x88; 0x06; 0x89; 0x5e; 0x04; 0x8b;
   0x41; 0x14; 0x89; 0x46; 0xe6; 0x12; 0xfc; 0x01; 0x46; 0x24; 0x31; 0xc0; 0x89; 0x46; 0x28; 0x89;
   0x46; 0x30; 0x89; 0x56; 0x2c; 0x89; 0x4e; 0x0c; 0xed; 0x01; 0x88; 0x3d; 0x21; 0x20; 0x98; 0x0f;
   0x87; 0xa2; 0x19; 0x22; 0xa0; 0xdb; 0x83; 0xc0; 0xfc; 0xd2; 0x01; 0x94; 0x84; 0xb0; 0x2e; 0x10;
   0xa8; 0xc6; 0x0f; 0xa4; 0xf8; 0x09; 0x90; 0x14; 0x98; 0x09; 0x81; 0xc9; 0x5b; 0x04; 0x80; 0xf5;
   0x16; 0x93; 0x50; 0x51; 0x56; 0x02; 0x84; 0x45; 0x2e; 0x95; 0xf3; 0xf7; 0x44; 0x04; 0x90; 0x7c;
   0xfe; 0xf2; 0x26; 0x90; 0x85; 0xe4; 0x3a; 0x23; 0xba; 0xf8; 0x0f; 0x74; 0x09; 0x83; 0xf8; 0x05;
   0x9c; 0x14; 0x90; 0x8b; 0x85; 0x68; 0x02; 0x18; 0x89; 0x45; 0xf0; 0xd1; 0xf8; 0; 0x56; 0xfe;
   0xff; 0xff; 0x85; 0xdb; 0x0f; 0x94; 0xc0; 0x3b; 0x7d; 0xf0; 0x83; 0xde; 0; 0x7a; 0x0b; 0x88;
   0xc1; 0x51; 0x07; 0x91; 0x85; 0x3d; 0xf2; 0x2f; 0xb9; 0xf0; 0x3b; 0x85; 0x74; 0xff; 0xff; 0xff;
   0; 0x08; 0x89; 0x1b; 0x34; 0x2c; 0x98; 0x0f; 0x83; 0x23; 0xe0; 0x14; 0x90; 0xc0; 0x43; 0xc6;
   0x1c; 0xa1; 0x7d; 0xf0; 0x74; 0x1a; 0x68; 0x24; 0xe8; 0x31; 0xc0; 0x88; 0x46; 0x68; 0xc6; 0x46;
   0x54; 0; 0xe9; 0xe4; 0x02; 0; 0x7f; 0x2a; 0x83; 0x65; 0x1f; 0x29; 0x89; 0xc8; 0xc1; 0xe8;
   0x17; 0xb3; 0x80; 0x1d; 0x15; 0x90; 0x8d; 0x95; 0xe0; 0x2c; 0x07; 0xb9; 0x02; 0x1c; 0x52; 0xe8;
   0x40; 0xb3; 0x81; 0x18; 0x02; 0xa2; 0x0f; 0x84; 0xa3; 0x02; 0x02; 0x02; 0x08; 0xbd; 0xba; 0xa0;
   0; 0x0f; 0x84; 0x93; 0x8a; 0x08; 0x10; 0x85; 0xec; 0xa8; 0xa0; 0xc0; 0x0f; 0x84; 0x85; 0x98;
   0x08; 0x90; 0x8d; 0x70; 0xae; 0x2f; 0xaa; 0x55; 0xf0; 0x03; 0x95; 0x6c; 0xe4; 0x24; 0x80; 0x25;
   0x1d; 0x90; 0x82; 0x6a; 0xb3; 0x08; 0; 0x15; 0; 0xdf; 0x04; 0x15; 0x0a; 0x55; 0x15; 0xa0].

Definition hdd_bin_6 : list Z :=
  [0x01; 0xc2; 0x89; 0xca; 0x0d; 0x1a; 0x88; 0x82; 0x60; 0x28; 0x09; 0x8b; 0x87; 0xb9; 0x8b; 0x75;
   0x08; 0x89; 0x16; 0x8b; 0x95; 0xf0; 0x01; 0x29; 0x56; 0x04; 0x8b; 0x95; 0x44; 0x09; 0x91; 0x08;
   0x8a; 0xef; 0x2c; 0x69; 0x88; 0x56; 0x0c; 0x8b; 0x55; 0x10; 0x42; 0x89; 0x56; 0x10; 0x8b; 0x95;
   0x50; 0x22; 0x20; 0x14; 0x89; 0x4e; 0x34; 0xd1; 0x41; 0x4e; 0x30; 0x89; 0x46; 0x38; 0xc7; 0x46;
   0x3c; 0xe1; 0x91; 0x85; 0x54; 0x3d; 0x02; 0xcb; 0x18; 0x8d; 0x45; 0xbc; 0x56; 0x50; 0xe8; 0xf3;
   0xe3; 0x60; 0x02; 0x99; 0x0f; 0x84; 0xeb; 0x31; 0x08; 0x88; 0xc8; 0x61; 0x02; 0x90; 0x45; 0xc4;
   0x5e; 0x02; 0xaa; 0x45; 0xbc; 0x8b; 0x4d; 0xc0; 0x58; 0x02; 0x98; 0xb0; 0x01; 0xe9; 0x1b; 0x06;
   0x91; 0xba; 0x80; 0xbc; 0x05; 0x82; 0x95; 0x2f; 0x98; 0x52; 0x53; 0x50; 0x9c; 0x23; 0x91; 0x93;
   0xf1; 0x14; 0x0c; 0x10; 0x53; 0xb8; 0x1c; 0x89; 0x50; 0x11; 0x01; 0x80; 0xae; 0x19; 0x80; 0xb9;
   0x2f; 0x83; 0x58; 0x04; 0x95; 0x12; 0xf6; 0x25; 0x06; 0x88; 0x7a; 0xc1; 0x22; 0xf8; 0x03; 0x45;
   0xbc; 0x31; 0xc9; 0x89; 0x48; 0x0c; 0x89; 0x48; 0x08; 0x89; 0x48; 0x04; 0x89; 0x08; 0x8d; 0x8d;
   0x4c; 0x62; 0x01; 0x2a; 0x10; 0x50; 0x51; 0xe8; 0xa7; 0x4c; 0x99; 0x31; 0xdb; 0x4b; 0xa3; 0x0b;
   0x80; 0xc2; 0x08; 0x90; 0xb5; 0x68; 0xe6; 0x30; 0x88; 0x95; 0xc5; 0x2f; 0x99; 0x8b; 0x85; 0x5c;
   0xef; 0x02; 0x8a; 0x60; 0x3a; 0x04; 0xe0; 0x39; 0xc2; 0x89; 0xf0; 0x89; 0x4d; 0xf0; 0x19; 0xc8;
   0x0f; 0x82; 0x23; 0xf5; 0x1a; 0xb9; 0x75; 0xd0; 0x89; 0x55; 0xcc; 0x8d; 0xb7; 0x7f; 0x2f; 0xf0;
   0xff; 0x0f; 0x49; 0xf7; 0x89; 0xf7; 0xc1; 0xff; 0x09; 0xc1; 0xfe; 0x1f; 0x0f; 0x95; 0x72; 0x31;
   0x80; 0x92; 0x31; 0xa8; 0xc3; 0x20; 0xcb; 0xf7; 0xe7; 0xbd; 0x28; 0x80; 0x8e; 0x09; 0x80; 0x0d;
   0x12; 0x79; 0x03; 0xf7; 0xe1; 0x0f; 0x90; 0xc7; 0x0a; 0x7d; 0xe8; 0x08; 0xdf; 0x8b; 0x55; 0xe4;
   0x8d; 0x34; 0x02; 0x89; 0xc8; 0x20; 0x90; 0x01; 0xf2; 0x84; 0x04; 0xa1; 0xf8; 0x0f; 0x85; 0xc8;
   0x2a; 0x1f; 0xf8; 0x08; 0xe8; 0x8b; 0x75; 0xcc; 0x29; 0xce; 0x8b; 0x45; 0xd0; 0x1b; 0x45; 0xf0;
   0x89; 0xf1; 0x21; 0xc1; 0x83; 0xf9; 0xff; 0x0f; 0x84; 0xad; 0; 0x27; 0x18; 0x70; 0xc1; 0xf9;
   0x1f; 0x83; 0xc6; 0x01; 0x83; 0xd0; 0; 0x0f; 0x95; 0xc7; 0x85; 0xc9; 0x62; 0x08; 0xfb; 0x42;
   0xa8; 0xf0; 0x0f; 0x90; 0x45; 0xec; 0xf0; 0x09; 0x31; 0x8b; 0x4d; 0xf0; 0x8d; 0x0c; 0x01; 0x65;
   0x98; 0xec; 0x08; 0xdf; 0x3b; 0x0e; 0x90; 0x01; 0xca; 0xb0; 0x02; 0x91; 0xf9; 0xbb; 0xcd; 0x04;
   0xb0; 0x6e; 0x8b; 0x7d; 0x0c; 0x8b; 0x0f; 0xd6; 0x01; 0x99; 0x0e; 0x8b; 0x4f; 0x22; 0x04; 0x89;
   0x4f; 0x22; 0x04; 0x88; 0x4f; 0x22; 0x04; 0xca; 0x8b; 0x4d; 0x10; 0x41; 0x89; 0x4e; 0x10; 0x8b;
   0x4f; 0x25; 0x04; 0x89; 0xe8; 0xcd; 0x01; 0x88; 0xe4; 0xcd; 0x01; 0x89; 0x56; 0x26; 0x04; 0xd4;
   0x7e; 0x18; 0x8d; 0x45; 0xd4; 0x56; 0x50; 0xe8; 0x30; 0xe2; 0x23; 0x04; 0xa1; 0x36; 0x8b; 0x45;
   0xe0; 0xbf; 0x01; 0x88; 0xdc; 0xbf; 0x01; 0x80; 0xcc; 0x13; 0x8c; 0xd8; 0xbf; 0x01; 0xa8; 0xeb;
   0x1c; 0x31; 0xdb; 0x4b; 0x83; 0x17; 0x8c; 0x14; 0x9b; 0x2d; 0x80; 0xff; 0x02; 0xa2; 0x40; 0xe9;
   0xd0; 0xfb; 0x09; 0x03; 0xad; 0x40; 0x56; 0xe8; 0xdf; 0xe1; 0x35; 0x04; 0x91; 0x74; 0x07; 0x31;
   0x04; 0x94; 0xeb; 0x02; 0x24; 0x03; 0x98; 0x01; 0x8d; 0x95; 0xa5; 0x01; 0x90; 0x8b; 0x02; 0xc9;
   0x04; 0xf8; 0x06; 0x46; 0x58; 0x89; 0x4e; 0x5c; 0x8b; 0x42; 0x08; 0x89; 0x46; 0x60; 0x8b; 0x42;
   0x0c; 0x89; 0x46; 0x64; 0xeb; 0xa6; 0x83; 0x3d; 0xb6; 0x2e; 0x99; 0; 0x74; 0x61; 0x0b; 0x13;
   0x81; 0xd0; 0x06; 0x91; 0x8b; 0x0d; 0xd8; 0x2e; 0xfb; 0x03; 0x04; 0xb1; 0x80; 0x78; 0x40; 0x01;
   0x75; 0x1c; 0x83; 0xc0; 0x44; 0x6a; 0x10; 0x57; 0x50; 0xe8; 0xc4; 0xef; 0x83; 0x0d; 0x05; 0x20;
   0x59; 0x74; 0x32; 0x80; 0x78; 0x54; 0x01; 0x75; 0x19; 0x83; 0xc0; 0x58; 0x22; 0x0f; 0xa2; 0x22;
   0x03; 0x28; 0x74; 0x10; 0x46; 0x3b; 0x35; 0x5e; 0xe0; 0x72; 0xb3; 0x31; 0xc0; 0xeb; 0x06; 0x31;
   0xc0; 0xc3; 0x8b; 0x04; 0xb1; 0xcd; 0x1d; 0x80; 0xf9; 0x2e; 0x80; 0x19; 0x0d; 0x0f; 0x3d; 0x74;
   0x06; 0xf9; 0; 0x14; 0xb1; 0x80; 0x7a; 0x68; 0x01; 0x75; 0x1b; 0x57; 0xff; 0x72; 0x6c; 0xe8;
   0xe6; 0xec; 0x6c; 0x1e; 0x05; 0x4f; 0x09; 0x11; 0x38; 0x2f; 0x46; 0x39; 0xc6; 0x72; 0xd7; 0x50;
   0x03; 0x82; 0x83; 0x2f; 0xa3; 0x85; 0xc9; 0x74; 0x33; 0x13; 0x13; 0x92; 0x55; 0x10; 0x61; 0x0d;
   0x11; 0x8b; 0x3d; 0xaa; 0xfb; 0x07; 0x07; 0x39; 0x70; 0x08; 0x75; 0x0a; 0x38; 0x58; 0x0c; 0x75;
   0x05; 0x39; 0x50; 0x10; 0x74; 0x08; 0x83; 0xc7; 0x04; 0x49; 0x75; 0xe9; 0xc2; 0x12; 0; 0x47;
   0x04; 0x40; 0x88; 0x1e; 0x89; 0x13; 0x80; 0xf9; 0x1c; 0x09; 0x35; 0xe2; 0x10; 0x06; 0x39; 0x2d;
   0xa9; 0xc6; 0x04; 0x49; 0x75; 0xf4; 0x71; 0x13; 0x90; 0x31; 0xc0; 0x3f; 0x12; 0x80; 0x85; 0x1e;
   0xc3; 0x8d; 0x4d; 0x0c; 0x89; 0x4d; 0xfc; 0x51; 0x50; 0x2a; 0x1e; 0x8e; 0x0c; 0x43; 0x12; 0x80;
   0x52; 0x13; 0xc2; 0x8b; 0x7d; 0x08; 0x8d; 0x75; 0xf0; 0xc7; 0x06; 0x0d; 0x25; 0xb8; 0x83; 0xc7;
   0x02; 0x0f; 0xb6; 0x47; 0xfe; 0xd1; 0x05; 0x90; 0x92; 0x03; 0x72; 0x2e; 0xd0; 0x25; 0x74; 0x3a;
   0x3c; 0x0a; 0x75; 0x1a; 0x81; 0xfb; 0xfe; 0x36; 0x2b; 0x62; 0x0b; 0xc6; 0x83; 0xcc; 0x0b; 0x05;
   0; 0x0d; 0x43; 0x89; 0x5d; 0xf0; 0x0b; 0x0b; 0; 0x1a; 0x11; 0x0a; 0x88; 0x0f; 0x06; 0x19;
   0xf8; 0x09; 0; 0x47; 0xeb; 0xb5; 0x0f; 0xb6; 0x47; 0xff; 0x83; 0xf8; 0x62; 0x7f; 0x3a; 0x83;
   0xf8; 0x52; 0x7e; 0x5b; 0x83; 0xf8; 0x53; 0x0f; 0x84; 0x37; 0x43; 0x08; 0xa8; 0xf8; 0x55; 0x0f;
   0x84; 0x0f; 0x42; 0x1e; 0xb0; 0xca; 0x83; 0xf8; 0x58; 0x0f; 0x85; 0xaf; 0x03; 0xf9; 0x02; 0x89;
   0xf3; 0x89; 0xd0; 0x8d; 0x72; 0x08; 0x8b; 0x12; 0x89; 0xd9; 0xff; 0x70; 0x04; 0xe8; 0x98; 0x05;
   0x50; 0x1e; 0; 0x23; 0xe0; 0x8d; 0x48; 0x90; 0x83; 0xf9; 0x08; 0x77; 0x44; 0xff; 0x24; 0x8d;
   0xe0; 0xf0; 0x0a; 0x90; 0xd3; 0x8b; 0x9a; 0x23; 0x30; 0x89; 0xf1; 0x6a; 0; 0xe8; 0x72; 0x26;
   0x09; 0xba; 0x52; 0x18; 0x23; 0x74; 0x4e; 0x4e; 0x27; 0x44; 0x0f; 0x85; 0x2c; 0x4e; 0x07; 0xb1;
   0xfa; 0x03; 0; 0; 0xe9; 0xb1; 0x42; 0x2f; 0x21; 0x63; 0x0f; 0x84; 0x93; 0x31; 0x98; 0x64;
   0x0f; 0x85; 0x85; 0x0c; 0x04; 0x4f; 0x88; 0xd0; 0xce; 0x11; 0x20; 0xf1; 0x50; 0xe8; 0xcf; 0x2b;
   0x88; 0x67; 0xd5; 0x0c; 0xd0; 0x31; 0x83; 0xc1; 0x04; 0x89; 0x4d; 0xec; 0x56; 0xe8; 0x76; 0xdb;
   0x01; 0x80; 0xcd; 0x23; 0x98; 0x0f; 0x8e; 0x9b; 0xf7; 0x1e; 0xfb; 0x0a; 0xc1; 0x48; 0x80; 0x7c;
   0x0e; 0xff; 0x23; 0x75; 0xee; 0x85; 0xc0; 0x74; 0x41; 0x31; 0xc0; 0x40; 0x8a; 0x54; 0x06; 0xff;
   0x80; 0xfa; 0x0a; 0x75; 0x17; 0x0b; 0x01; 0x8c; 0x08; 0x25; 0x01; 0x87; 0x22; 0x01; 0x03; 0x98;
   0x07; 0x88; 0x93; 0x22; 0x01; 0x04; 0x16; 0xc8; 0x40; 0x39; 0xc1; 0x75; 0xc5; 0x89; 0x5d; 0xf0;
   0x8d; 0x73; 0x11; 0x98; 0xec; 0xe9; 0x1c; 0xf5; 0x27; 0xc2; 0xf3; 0x8d; 0x71; 0x08; 0x8b; 0x11;
   0x89; 0xc8; 0x04; 0x01; 0x92; 0xfb; 0x03; 0x0c; 0x2a; 0xa8; 0xf1; 0x89; 0xde; 0xe9; 0xfd; 0x70;
   0x1f; 0xb0; 0xc8; 0x8b; 0x09; 0x8d; 0x70; 0x08; 0xf5; 0x10; 0x08; 0x5f; 0xa1; 0x4f; 0x50; 0x04;
   0x85; 0xd2; 0x74; 0x3a; 0x8a; 0x01; 0x3c; 0x7b; 0x18; 0x0f; 0x83; 0x7b; 0x01; 0xa0; 0x41; 0x4a;
   0x75; 0xc9; 0xcb; 0x38; 0x90; 0xf1; 0xe9; 0x85; 0x01; 0x87; 0xdb; 0x01; 0x03; 0x8e; 0x3f; 0xc2;
   0x01; 0x98; 0; 0xe9; 0x85; 0x08; 0x01; 0x18; 0x02; 0x83; 0xc2; 0xfc; 0x91; 0x84; 0x32; 0x05;
   0x1d; 0xb0; 0x08; 0x83; 0xf9; 0x0a; 0x74; 0x0a; 0x79; 0x11; 0x88; 0x65; 0xfb; 0x2d; 0x07; 0x79;
   0x16; 0x0f; 0x8b; 0xf4; 0x02; 0x97; 0xeb; 0xbe; 0xbf; 0x01; 0x01; 0x88; 0x1a; 0xbf; 0x29; 0xb0;
   0xd9; 0x83; 0xc4; 0x04; 0xe9; 0x1e; 0x4f; 0x20; 0x9f; 0xd1; 0x8a; 0x02; 0x6b; 0x02; 0x25; 0x1c;
   0x83; 0xc1; 0x04; 0xac; 0x8a; 0xdb; 0xf7; 0x0d; 0xef; 0x0f; 0xb6; 0x06; 0x83; 0xf8; 0x0a; 0x74;
   0x06; 0x85; 0xc0; 0x74; 0x32; 0xeb; 0x17; 0x01; 0x23; 0x9a; 0x46; 0xeb; 0xc2; 0x90; 0x01; 0x78;
   0; 0xe9; 0x8f; 0; 0; 0; 0xb9; 0x8d; 0x59; 0x01; 0; 0x0f; 0xb6; 0x11; 0x83; 0xfa;
   0xf0; 0x98; 0xd2; 0x0f; 0x84; 0x14; 0x1e; 0x8f; 0xeb; 0xe4; 0x01; 0x23; 0x20; 0x41; 0xeb; 0xbe;
   0xb8; 0x47; 0x81; 0x37; 0x01; 0; 0x95; 0x08; 0xc9; 0x95; 0x87; 0x33; 0x01; 0x23; 0x01; 0x95;
   0x80; 0xf3; 0x24; 0xc1; 0xf0; 0xe9; 0x5f; 0xfc; 0xff; 0xff; 0x80; 0x3d; 0xaf; 0x11; 0x92; 0x75;
   0x33; 0x27; 0x11; 0xa8; 0x01; 0x75; 0x33; 0x83; 0x3d; 0xbb; 0x11; 0xb0; 0; 0x74; 0x21; 0x31;
   0xf6; 0xa1; 0xbb; 0x11; 0x10; 0x53; 0x68; 0x92; 0xb8; 0xff; 0x34; 0xb0; 0xe8; 0xc1; 0x5d; 0x02;
   0x69; 0x2b; 0x18; 0x46; 0x3b; 0x35; 0x22; 0x31; 0x72; 0xe1; 0x85; 0xdb; 0x75; 0x3f; 0xdc; 0x80;
   0xa8; 0x2b; 0x88; 0x87; 0xe8; 0x1c; 0xa0; 0xf6; 0x8d; 0x7d; 0xc4; 0xcb; 0x39; 0xa1; 0x57; 0xe8;
   0x33; 0xea; 0x74; 0x13; 0x99; 0x0f; 0xbe; 0x86; 0x76; 0x01; 0x90; 0; 0x0e; 0x15; 0x39; 0xc1;
   0xe8; 0x57; 0x57; 0x6a; 0x10; 0xe8; 0x7a; 0xc0; 0x8f; 0x13; 0x64; 0x46; 0x39; 0xf3; 0x75; 0xd3;
   0x31; 0xf6; 0xbf; 0; 0x24; 0; 0x08; 0x7d; 0x0c; 0x40; 0x8f; 0xa1; 0x37; 0x80; 0x3d; 0xc2;
   0x9b; 0x05; 0x0b; 0x2e; 0x42; 0xa1; 0x50; 0xe8; 0x7d; 0xe7; 0x1e; 0x0a; 0x18; 0x0f; 0xb6; 0x8e;
   0xdf; 0xf9; 0x03; 0x84; 0xc0; 0x75; 0x0a; 0x83; 0xf9; 0x1b; 0x77; 0x0e; 0x0f; 0xa3; 0xcf; 0x73;
   0x09; 0x51; 0xe8; 0x65; 0x77; 0x41; 0x31; 0; 0x55; 0x88; 0xb2; 0x05; 0x0f; 0x85; 0xa7; 0x0c;
   0x9c; 0x0f; 0xb6; 0x02; 0xc1; 0x01; 0xb9; 0x42; 0xeb; 0x1f; 0x8b; 0x31; 0x81; 0xfe; 0xc3; 0x02;
   0x3a; 0x0e; 0x8d; 0x7e; 0x01; 0x89; 0x39; 0xc6; 0x9e; 0x12; 0x8b; 0x31; 0x09; 0x0d; 0; 0x1f;
   0x09; 0x0d; 0x1f; 0x09; 0x88; 0x16; 0x05; 0x1e; 0x9f; 0x42; 0xeb; 0xb2; 0xf3; 0x26; 0x01; 0x98;
   0x20; 0x89; 0xd7; 0x40; 0x16; 0x90; 0xc0; 0x89; 0xb4; 0x27; 0x80; 0x31; 0x30; 0x88; 0x89; 0x51;
   0x38; 0xd8; 0xd4; 0xc6; 0x45; 0xe8; 0; 0x89; 0xf8; 0x09; 0xd0; 0x74; 0x55; 0x03; 0x34; 0x80;
   0x08; 0x04; 0xd1; 0x31; 0xc2; 0x31; 0xc7; 0x29; 0xc7; 0x19; 0xc2; 0xbe; 0x13; 0xc3; 0x26; 0xd2;
   0xec; 0x6a; 0; 0x6a; 0x0a; 0x52; 0x57; 0xe8; 0x8c; 0xc2; 0x1b; 0x34; 0xf8; 0x05; 0xc1; 0x01;
   0xc1; 0x8d; 0x0c; 0x89; 0x89; 0xfb; 0x29; 0xcb; 0x80; 0xcb; 0x30; 0x88; 0x5c; 0x35; 0xd4; 0x4e;
   0xb9; 0x09; 0x57; 0x17; 0x89; 0xf9; 0x03; 0x3c; 0x7b; 0x04; 0x1b; 0x4d; 0xec; 0x89; 0xc7; 0x72;
   0xc9; 0x83; 0x7d; 0x08; 0; 0x78; 0x23; 0x46; 0xeb; 0x25; 0x8b; 0x01; 0x3d; 0xc1; 0xb0; 0x50;
   0x01; 0x89; 0x11; 0xc6; 0x80; 0xfd; 0x03; 0x1a; 0x30; 0x8b; 0x01; 0x09; 0xf9; 0x02; 0; 0xeb;
   0x11; 0xc6; 0x44; 0x35; 0xd4; 0x2d; 0x8d; 0x54; 0x35; 0xd4; 0x8b; 0x4d; 0xf0; 0xe8; 0xfa; 0x9c;
   0x0d; 0x88; 0x20; 0xd4; 0x3c; 0x06; 0xb7; 0x17; 0x8b; 0x75; 0xb5; 0x0c; 0xe0; 0xd0; 0x09; 0xf0;
   0x74; 0x4c; 0x89; 0xd7; 0x89; 0x4d; 0xf0; 0x8d; 0x5d; 0xde; 0x39; 0; 0xa8; 0x2a; 0x56; 0x57;
   0xe8; 0xe4; 0xc1; 0xa8; 0x09; 0xd6; 0xaa; 0x6f; 0x14; 0x89; 0x89; 0xf9; 0x29; 0xd1; 0x80; 0xc9;
   0x30; 0x88; 0x4b; 0xff; 0x4b; 0xa9; 0x07; 0x80; 0x46; 0x3c; 0xa1; 0x89; 0xda; 0xe8; 0x81; 0x7d;
   0x36; 0x07; 0xac; 0x13; 0x06; 0x99; 0x89; 0xe5; 0x0f; 0x17; 0x80; 0x20; 0x13; 0x98; 0x08; 0x31;
   0xc9; 0x39; 0x35; 0xf8; 0x26; 0x4d; 0xec; 0x89; 0x4d; 0xe8; 0x89; 0x4d; 0xe4; 0xc6; 0x45; 0xf4;
   0; 0x89; 0xd1; 0x09; 0xc1; 0x74; 0x3b; 0x8d; 0x7d; 0xf4; 0x89; 0xc1; 0x0f; 0xa4; 0xd1; 0x1c;
   0x83; 0xe2; 0x0f; 0x8a; 0x92; 0x3d; 0x58; 0x01; 0; 0x88; 0x57; 0xff; 0x4f; 0xc1; 0xe8; 0x04;
   0x89; 0xca; 0x09; 0xc1; 0x75; 0xe4; 0x89; 0xf1; 0xba; 0xab; 0xc9; 0x13; 0x88; 0x09; 0x70; 0x0b;
   0xa9; 0xf1; 0x89; 0xfa; 0xe8; 0; 0x96; 0x0e; 0x88; 0x14; 0x3f; 0x25; 0x3a; 0x89; 0xf1; 0xba;
   0x20; 0x54; 0x01; 0; 0x0e; 0x9c; 0xe9; 0xe7; 0xfd; 0xb9; 0x2e; 0xf9; 0x03; 0x50; 0x8b; 0x75;
   0x08; 0x85; 0xf6; 0x75; 0x02; 0x89; 0xee; 0x68; 0x24; 0x54; 0x01; 0; 0xe8; 0x1d; 0xf9; 0x61;
   0x02; 0xf3; 0xbf; 0x08; 0xae; 0x04; 0; 0x8b; 0x46; 0x04; 0x85; 0xc0; 0x74; 0x67; 0x8b; 0x36;
   0x3e; 0x14; 0x98; 0xb9; 0x24; 0x5b; 0x24; 0x2c; 0xb8; 0xcf; 0x8b; 0x11; 0x39; 0xc2; 0x73; 0x3e;
   0x24; 0x2e; 0xf9; 0x1b; 0xdb; 0x89; 0xd6; 0x89; 0xdf; 0x83; 0xc7; 0x04; 0x89; 0xfb; 0x80; 0x3c;
   0x19; 0; 0x8d; 0x5b; 0x01; 0x75; 0xf7; 0x8b; 0x14; 0x19; 0x39; 0xc2; 0x72; 0xe7; 0x01; 0xf9;
   0x89; 0xc2; 0x29; 0xf2; 0x52; 0x51; 0x50; 0x68; 0x9a; 0x58; 0x01; 0; 0xe8; 0xc6; 0x66; 0x11;
   0x21; 0x10; 0x8b; 0x75; 0xf0; 0x5a; 0x28; 0xeb; 0x0e; 0x50; 0x68; 0x31; 0x6f; 0x89; 0xae; 0x7e;
   0x11; 0; 0x82; 0x42; 0x92; 0x68; 0xc8; 0x57; 0x01; 0; 0xe8; 0x9d; 0x11; 0x87; 0x1b; 0x1a;
   0x01; 0xc8; 0x80; 0x3d; 0; 0x61; 0x01; 0; 0x01; 0x0f; 0x84; 0xa2; 0x40; 0x80; 0x76; 0x09;
   0xa0; 0x5d; 0x08; 0x81; 0xc3; 0x72; 0x25; 0xa8; 0x83; 0xd7; 0; 0x0f; 0x92; 0xa6; 0x18; 0xf0;
   0x89; 0xc1; 0xf7; 0xd9; 0x09; 0xc1; 0x0f; 0x85; 0xd9; 0; 0; 0; 0x81; 0xe3; 0x6f; 0x25;
   0xf9; 0x0a; 0xa1; 0x0c; 0x61; 0x01; 0; 0x8b; 0x35; 0x08; 0x61; 0x01; 0; 0x89; 0xf1; 0x01;
   0xd9; 0x89; 0xc2; 0x11; 0xfa; 0x89; 0x7d; 0xf0; 0x89; 0xdf; 0xbb; 0xbd; 0x24; 0x89; 0xcb; 0x58;
   0x3e; 0xd9; 0x19; 0xd1; 0x72; 0x60; 0x31; 0xc9; 0x51; 0x51; 0x51; 0x6a; 0x01; 0x5d; 0x25; 0xf9;
   0x04; 0x8b; 0x5d; 0xf0; 0x53; 0x57; 0x50; 0x56; 0x68; 0x10; 0x2c; 0x05; 0; 0x68; 0x20; 0x2c].

Definition hdd_bin_7 : list Z :=
  [0x05; 0; 0xe8; 0xb0; 0x36; 0x26; 0x09; 0x2c; 0x48; 0x80; 0xbe; 0x35; 0x09; 0x3d; 0x57; 0x90;
   0x81; 0xc6; 0x8b; 0x25; 0x80; 0x3a; 0x1d; 0x08; 0xf1; 0xe6; 0x17; 0x11; 0xda; 0x55; 0x03; 0x09;
   0x89; 0x2e; 0x08; 0xa3; 0x2a; 0xa2; 0x73; 0xa0; 0x68; 0xd7; 0x62; 0x26; 0x90; 0xdf; 0xe9; 0x2c;
   0x1e; 0xb2; 0x57; 0x50; 0x56; 0xe8; 0x1f; 0xe6; 0x88; 0x17; 0x08; 0x3d; 0x54; 0x10; 0x11; 0x1d;
   0x27; 0x1e; 0x31; 0xc0; 0x50; 0x75; 0x92; 0xe8; 0x57; 0x51; 0x08; 0x86; 0xf0; 0x24; 0xb9; 0x68;
   0x81; 0x56; 0x01; 0; 0xeb; 0xba; 0xf7; 0x24; 0x90; 0xeb; 0xb3; 0x71; 0x19; 0xff; 0x03; 0x45;
   0x20; 0x8a; 0x4d; 0x24; 0x0f; 0xb6; 0x55; 0x28; 0x0f; 0xb6; 0xc9; 0x0f; 0xb6; 0xc0; 0x52; 0x51;
   0x50; 0xde; 0x2a; 0x05; 0x16; 0x75; 0x08; 0x52; 0x19; 0xe8; 0xe9; 0x0b; 0xc7; 0x86; 0xe6; 0x1a;
   0x81; 0xcf; 0x26; 0x88; 0x18; 0xb1; 0x04; 0x89; 0x08; 0x6f; 0x36; 0xf8; 0x04; 0x08; 0x8d; 0x46;
   0x08; 0x89; 0x45; 0xc4; 0x31; 0xc9; 0x8d; 0x04; 0x49; 0x83; 0x7c; 0xc6; 0x10; 0x01; 0x0f; 0x85;
   0xf2; 0x20; 0x98; 0x8d; 0x04; 0xc6; 0x19; 0x03; 0xf9; 0x05; 0x4d; 0xcc; 0x89; 0x4d; 0xbc; 0x89;
   0x5d; 0xe8; 0x89; 0xde; 0x8b; 0x5d; 0xc4; 0x83; 0x6d; 0xbc; 0x01; 0x0f; 0x82; 0xeb; 0xd2; 0x3a;
   0xb0; 0xd8; 0x8b; 0x39; 0x8b; 0x51; 0x04; 0x77; 0x0e; 0xd8; 0x7d; 0xdc; 0x01; 0xf8; 0x8b; 0x49;
   0x0c; 0x11; 0xd1; 0x0f; 0x82; 0xe7; 0x07; 0x81; 0x81; 0x2f; 0xf8; 0x12; 0xc0; 0x8b; 0x73; 0xf8;
   0x8b; 0x53; 0xfc; 0x8b; 0x3b; 0x89; 0x75; 0xc8; 0x01; 0xf7; 0x8b; 0x75; 0xc0; 0x89; 0x7d; 0xe0;
   0x8b; 0x7b; 0x04; 0x89; 0x55; 0xd4; 0x11; 0xd7; 0x89; 0x7d; 0xe4; 0x0f; 0x82; 0x0d; 0x40; 0x7d;
   0x0b; 0x39; 0x45; 0xe0; 0x8b; 0x55; 0xe4; 0x19; 0xca; 0x0f; 0x92; 0x45; 0xd3; 0x8b; 0x7d; 0xc8;
   0x39; 0x7d; 0xdc; 0x8b; 0x55; 0xec; 0x1b; 0x55; 0xd4; 0x72; 0x0e; 0x1a; 0x88; 0x83; 0x40; 0x31;
   0xd8; 0x3b; 0x7d; 0xdc; 0x8b; 0x7d; 0xd4; 0x89; 0xfa; 0x1b; 0x55; 0xec; 0x45; 0x2b; 0x79; 0x07;
   0x39; 0x45; 0xc8; 0x19; 0xcf; 0x0f; 0x92; 0xc2; 0x22; 0x55; 0xf3; 0x8b; 0x7d; 0xdc; 0x39; 0x7d;
   0xe0; 0x8b; 0x7d; 0xe4; 0x1b; 0x7d; 0x1b; 0x7b; 0x12; 0x8a; 0x75; 0xd3; 0x22; 0x75; 0xf3; 0x20;
   0xd6; 0x80; 0xfe; 0x01; 0x0f; 0x84; 0x45; 0x03; 0; 0; 0xf6; 0xc2; 0x01; 0x0f; 0x45; 0x4d;
   0xd4; 0x0f; 0x45; 0x45; 0xc8; 0x8b; 0x7d; 0xe0; 0x39; 0xc7; 0x70; 0xd0; 0xc2; 0x84; 0x55; 0xf3;
   0x8b; 0x55; 0xdc; 0x0f; 0x45; 0xd7; 0x65; 0x20; 0x90; 0x45; 0x7d; 0x5d; 0x15; 0xb8; 0x8b; 0x7d;
   0xd8; 0x89; 0x17; 0x29; 0xd0; 0xd8; 0x2a; 0xf8; 0x05; 0x7d; 0xec; 0x89; 0x7a; 0x04; 0x19; 0xf9;
   0x89; 0x42; 0x08; 0x89; 0x4a; 0x0c; 0x83; 0xc3; 0x18; 0x4e; 0x0f; 0x85; 0x01; 0xea; 0x19; 0x80;
   0x06; 0x24; 0x88; 0x08; 0x8e; 0x1f; 0xe8; 0xca; 0x09; 0xc2; 0x74; 0x7e; 0x80; 0x7d; 0x10; 0;
   0x74; 0x5d; 0x81; 0xf9; 0x9c; 0x27; 0xf8; 0x04; 0x89; 0xc2; 0x83; 0xda; 0; 0x72; 0x6b; 0x8b;
   0x75; 0xd8; 0x8b; 0x16; 0x8b; 0x76; 0x04; 0x89; 0xd7; 0x81; 0xc7; 0x17; 0x28; 0xf8; 0x09; 0x89;
   0x75; 0xec; 0x83; 0xd6; 0; 0x89; 0x75; 0xe4; 0x0f; 0x92; 0xc3; 0x0f; 0xb6; 0xf3; 0x89; 0xf3;
   0xf7; 0xdb; 0x09; 0xf3; 0x75; 0x44; 0xbe; 0x15; 0x28; 0xc8; 0x21; 0xf7; 0x01; 0xca; 0x8b; 0x4d;
   0xec; 0x11; 0xc1; 0x1f; 0x14; 0xf8; 0x0b; 0x38; 0x29; 0xfa; 0x8b; 0x7d; 0xe4; 0x89; 0x78; 0x04;
   0x19; 0xf9; 0x21; 0xf2; 0x89; 0x50; 0x08; 0x09; 0xca; 0x89; 0x48; 0x0c; 0x74; 0x1b; 0x8b; 0x5d;
   0xe8; 0xda; 0x32; 0xf8; 0x02; 0x4d; 0xcc; 0xeb; 0x39; 0x8b; 0x55; 0xd8; 0x89; 0x02; 0x89; 0x4a;
   0x04; 0x31; 0xc0; 0x89; 0x42; 0x0c; 0x4f; 0x14; 0xd8; 0x5d; 0xe8; 0x4b; 0x39; 0x5d; 0xcc; 0x73;
   0x1a; 0x8d; 0x04; 0x5b; 0x67; 0x34; 0xa1; 0x34; 0xc2; 0xb9; 0x06; 0x23; 0x03; 0xfa; 0x07; 0xd8;
   0xf3; 0xa5; 0x89; 0xd6; 0x31; 0xc9; 0x49; 0xeb; 0x06; 0x31; 0xc9; 0x49; 0x8b; 0x75; 0x08; 0x41;
   0x39; 0xd9; 0x0f; 0x82; 0x20; 0x7b; 0x0f; 0x90; 0x84; 0x15; 0xf1; 0x0e; 0xf8; 0x01; 0xc0; 0x8a;
   0x0d; 0x14; 0x2c; 0x05; 0; 0x88; 0x4d; 0xec; 0x8d; 0x0c; 0x40; 0x83; 0x7c; 0xce; 0xf3; 0x01;
   0x80; 0xc5; 0x06; 0xc9; 0x8d; 0x3c; 0xce; 0x80; 0x7d; 0xec; 0; 0x75; 0x65; 0xe2; 0x2e; 0x88;
   0xbe; 0xd8; 0x28; 0x99; 0x39; 0xce; 0xbe; 0xa1; 0x15; 0xf8; 0; 0xd6; 0x72; 0x50; 0x8b; 0x77;
   0x08; 0x89; 0x75; 0xe4; 0x8b; 0x77; 0x0c; 0x89; 0x75; 0xe0; 0x11; 0x02; 0xf9; 0x01; 0xcb; 0x03;
   0x5d; 0xe4; 0x8b; 0x75; 0xe0; 0x11; 0xf2; 0x0f; 0x92; 0x45; 0xdc; 0x81; 0xfb; 0x01; 0x45; 0x03;
   0x88; 0xe8; 0xb8; 0x2c; 0x48; 0x92; 0xc2; 0x0a; 0x55; 0xdc; 0x75; 0x27; 0x81; 0xc9; 0xe7; 0xf1;
   0x03; 0x4d; 0xe4; 0x83; 0xd6; 0xff; 0x89; 0x4f; 0x08; 0x89; 0x77; 0x0c; 0xc7; 0x47; 0xd8; 0x28;
   0x91; 0xc7; 0x07; 0x72; 0x03; 0x72; 0x4f; 0x08; 0x0b; 0x4f; 0x0c; 0x75; 0x16; 0x4b; 0x39; 0xd8;
   0x73; 0x10; 0x8d; 0x0c; 0xc5; 0x09; 0xca; 0xc5; 0xd8; 0xf3; 0xa5; 0x48; 0x8b; 0x75; 0x08; 0x40;
   0x39; 0xd8; 0x0f; 0x82; 0x83; 0x25; 0xa9; 0x83; 0xfb; 0x02; 0x0f; 0x82; 0xb3; 0x17; 0x90; 0x5d;
   0xe8; 0xba; 0x22; 0x98; 0x40; 0x89; 0xf3; 0x3e; 0x31; 0xb8; 0x04; 0x49; 0x8d; 0x04; 0xc6; 0x8b;
   0x30; 0x45; 0x3e; 0xb8; 0x78; 0x04; 0x89; 0x5d; 0xe0; 0x89; 0xc8; 0x2c; 0x21; 0x88; 0x13; 0x19;
   0x2d; 0xd8; 0x43; 0x04; 0x39; 0xf2; 0x89; 0xc2; 0x19; 0xfa; 0x0f; 0x42; 0xf8; 0xf0; 0x17; 0xf8;
   0x03; 0x42; 0x75; 0xec; 0x0f; 0x42; 0xc1; 0x41; 0x83; 0xc3; 0x18; 0x39; 0x4d; 0xe8; 0x75; 0xd9;
   0x8d; 0x04; 0x40; 0x32; 0x01; 0x8a; 0x1c; 0x32; 0x01; 0xc9; 0x8d; 0x45; 0xa4; 0x89; 0xc7; 0x89;
   0xde; 0xf3; 0xa5; 0x40; 0x01; 0x90; 0x89; 0xdf; 0x0e; 0x21; 0x06; 0x0e; 0x90; 0x89; 0xc6; 0x4f;
   0x01; 0x78; 0x04; 0x8b; 0x4d; 0xdc; 0x8d; 0x41; 0x01; 0x8b; 0x5d; 0xe0; 0x83; 0xc3; 0x18; 0x3b;
   0x45; 0xe8; 0x75; 0x80; 0x8d; 0x46; 0x78; 0xe0; 0x31; 0xdb; 0x31; 0xc9; 0x41; 0x8d; 0x14; 0x5b;
   0x8b; 0x44; 0xd6; 0x10; 0xd5; 0x27; 0xc8; 0x12; 0x3d; 0x03; 0x10; 0; 0; 0x74; 0x0b; 0x3d;
   0xaf; 0x29; 0x99; 0x0f; 0x85; 0x93; 0x54; 0x01; 0xa1; 0xd6; 0x8b; 0x57; 0x08; 0x36; 0x01; 0xf8;
   0x0c; 0xec; 0x8b; 0x37; 0x89; 0x55; 0xe4; 0x01; 0xd6; 0x89; 0x7d; 0xdc; 0x8b; 0x7f; 0x04; 0x13;
   0x7d; 0xec; 0x73; 0x05; 0x8b; 0x75; 0x08; 0xeb; 0x70; 0x8d; 0x14; 0x49; 0x2f; 0x30; 0xf8; 0x1b;
   0x55; 0xe0; 0x39; 0x44; 0xd1; 0x10; 0x89; 0xc8; 0x75; 0x5d; 0x8b; 0x4d; 0xe0; 0x8d; 0x04; 0xc8;
   0x33; 0x30; 0x33; 0x78; 0x04; 0x09; 0xf7; 0x75; 0xdb; 0x8b; 0x4d; 0xe4; 0x03; 0x48; 0x08; 0x8b;
   0x55; 0xec; 0x13; 0x50; 0x0c; 0x89; 0x55; 0xec; 0x72; 0xca; 0x51; 0x40; 0x91; 0x48; 0x08; 0x5f;
   0x24; 0xc8; 0x0c; 0x8d; 0x43; 0x02; 0x3b; 0x45; 0xe8; 0x73; 0x23; 0x35; 0x3b; 0x79; 0x01; 0xda;
   0x83; 0xc2; 0xfe; 0x8b; 0x45; 0xd4; 0x8d; 0x0c; 0x5b; 0x8d; 0x04; 0xc8; 0x8d; 0x78; 0xe8; 0xc3;
   0; 0xc1; 0xf8; 0x0e; 0x83; 0xc0; 0x18; 0x4a; 0x75; 0xee; 0xff; 0x4d; 0xe8; 0x4b; 0xeb; 0x8d;
   0x89; 0xc6; 0x8d; 0x43; 0x01; 0x83; 0xc3; 0x02; 0x3b; 0x5d; 0xe8; 0x89; 0xd9; 0x89; 0xc3; 0x0f;
   0x82; 0x07; 0x3e; 0xa9; 0xeb; 0x0c; 0xc7; 0x45; 0xe8; 0x95; 0x37; 0xa0; 0x03; 0x89; 0x5d; 0xe8;
   0x21; 0x04; 0xba; 0x4d; 0xe8; 0x89; 0x08; 0x83; 0xc4; 0x50; 0x2f; 0x42; 0x8a; 0x4a; 0x74; 0x29;
   0x91; 0x17; 0xe5; 0x81; 0x2c; 0x80; 0xd7; 0x2b; 0x96; 0x6a; 0x01; 0xb5; 0x04; 0x92; 0xe8; 0xa2;
   0x9e; 0x1b; 0x88; 0xa1; 0xc7; 0x04; 0xa1; 0x89; 0x06; 0xc6; 0x05; 0xb2; 0x05; 0x88; 0xb8; 0xd0;
   0x04; 0x8e; 0x5e; 0x49; 0x44; 0xa8; 0x10; 0x83; 0x3d; 0xa0; 0x5d; 0xaf; 0x41; 0x91; 0x84; 0xa9;
   0x9d; 0x13; 0x90; 0xb8; 0xa4; 0x42; 0x3c; 0x09; 0x3d; 0x34; 0xa0; 0x4d; 0xec; 0x81; 0xff; 0xa1;
   0x39; 0x10; 0x0f; 0x84; 0x06; 0xb1; 0x89; 0x7d; 0xf0; 0x8d; 0x0c; 0xfd; 0x54; 0x49; 0x10; 0x94;
   0x49; 0x46; 0x02; 0xc8; 0x08; 0xd7; 0xca; 0xf8; 0x0a; 0x8b; 0x7a; 0x04; 0x8b; 0x0a; 0x8b; 0x72;
   0x08; 0x01; 0xce; 0x8b; 0x5a; 0x0c; 0x11; 0xfb; 0x89; 0x5d; 0xe4; 0x73; 0x08; 0x8b; 0x7d; 0xf0;
   0xe9; 0x40; 0x48; 0x15; 0x9b; 0x7a; 0x10; 0x01; 0xad; 0x0c; 0xf8; 0x0b; 0x75; 0xe8; 0xba; 0x0e;
   0x04; 0; 0; 0x66; 0x8b; 0x12; 0x0f; 0xbf; 0xd2; 0x0f; 0xb7; 0xf2; 0xc1; 0xe6; 0x04; 0x81;
   0xfa; 0; 0xa0; 0xff; 0xff; 0xba; 0x33; 0x49; 0x52; 0x0f; 0x4d; 0xf2; 0x39; 0xf1; 0x83; 0xdf;
   0; 0x72; 0x60; 0x80; 0x11; 0x8d; 0x14; 0x6e; 0x18; 0x8b; 0x8c; 0x52; 0xb4; 0xa4; 0xbe; 0xff;
   0xff; 0x0f; 0xf8; 0x02; 0x79; 0x0d; 0x1b; 0xb4; 0x52; 0x24; 0x2c; 0x05; 0; 0x72; 0x37; 0x81;
   0x7d; 0xe8; 0x01; 0; 0x10; 0; 0x8b; 0x75; 0xe4; 0x83; 0xde; 0; 0x8b; 0x75; 0xec; 0x0f;
   0x82; 0xd1; 0xa0; 0x01; 0x32; 0xfa; 0; 0x81; 0xc9; 0; 0; 0xf0; 0xff; 0x01; 0x4a; 0x08;
   0x83; 0x52; 0x0c; 0xff; 0xc7; 0x42; 0xe4; 0x02; 0x88; 0x02; 0xeb; 0x2a; 0x0a; 0xb9; 0x86; 0x4f;
   0x09; 0x0f; 0xbf; 0xd1; 0x0f; 0xb7; 0xca; 0xc1; 0xe1; 0x86; 0x03; 0x19; 0xca; 0xba; 0; 0x54;
   0xa3; 0xe8; 0x39; 0xf2; 0xba; 0x2d; 0x34; 0xb2; 0x19; 0xfa; 0x72; 0x65; 0x39; 0xf1; 0xa2; 0x06;
   0x1f; 0xf9; 0x73; 0x5a; 0x40; 0x14; 0x90; 0x8b; 0x15; 0x73; 0x01; 0x80; 0xf0; 0x37; 0x91; 0x14;
   0xd5; 0xbe; 0x36; 0x79; 0x09; 0xfb; 0x89; 0xf7; 0x8b; 0xb4; 0x52; 0x28; 0x2c; 0x05; 0; 0x29;
   0xfe; 0x8b; 0xbc; 0x52; 0x2c; 0x2c; 0x05; 0; 0x19; 0xdf; 0x01; 0xce; 0x89; 0x14; 0x80; 0x33;
   0x07; 0x0a; 0x89; 0x15; 0xa1; 0xeb; 0x09; 0x8b; 0x0d; 0x7a; 0x01; 0x80; 0x2f; 0x33; 0x98; 0xf0;
   0x47; 0x89; 0x87; 0x01; 0; 0xd7; 0xb0; 0x46; 0x83; 0xc0; 0x18; 0x3b; 0x35; 0xa8; 0x01; 0xa8;
   0x89; 0xf1; 0x0f; 0x82; 0x64; 0x8d; 0x16; 0x8e; 0; 0x9e; 0x06; 0x92; 0xe8; 0xb9; 0x7f; 0x43;
   0x88; 0xb8; 0x39; 0x4b; 0x98; 0x31; 0xc9; 0x05; 0xf9; 0x2c; 0xe1; 0x0f; 0x92; 0xc1; 0x89; 0xca;
   0xf7; 0xda; 0x31; 0xca; 0x75; 0x54; 0xb9; 0xd6; 0x04; 0xb0; 0xc8; 0x01; 0xc8; 0x31; 0xf6; 0xb9;
   0x01; 0x03; 0x88; 0xbf; 0xd7; 0x06; 0x88; 0xbb; 0x07; 0x02; 0x81; 0xfe; 0x2c; 0xc9; 0x51; 0x56;
   0x50; 0x56; 0x51; 0x57; 0x53; 0xe8; 0x58; 0x39; 0x26; 0x32; 0x2c; 0x56; 0x57; 0x53; 0xe8; 0x69;
   0x50; 0x81; 0x32; 0x02; 0x86; 0xa3; 0x2d; 0x99; 0x68; 0x30; 0x50; 0x6f; 0x02; 0xa2; 0xa8; 0xe2;
   0xff; 0xff; 0xf8; 0x06; 0x8b; 0xf2; 0xcc; 0x31; 0x09; 0x0d; 0x9a; 0x89; 0x08; 0x3b; 0x02; 0x81;
   0xb7; 0x21; 0x96; 0x6a; 0; 0xb3; 0x2d; 0x86; 0x89; 0x0f; 0x81; 0xd4; 0x23; 0x88; 0xa9; 0x97;
   0x2d; 0x92; 0x75; 0x51; 0x2e; 0x21; 0x91; 0x81; 0xc1; 0x33; 0x08; 0x92; 0xd2; 0; 0x88; 0x05;
   0x82; 0xa2; 0x2d; 0x93; 0x75; 0x3c; 0x5d; 0x08; 0x94; 0x74; 0x3a; 0xa7; 0x2d; 0x89; 0x46; 0x9d;
   0x36; 0xaf; 0x57; 0x56; 0x52; 0x51; 0x57; 0x96; 0x07; 0x01; 0x11; 0xa5; 0x04; 0xb3; 0x81; 0x7f;
   0x11; 0xa0; 0x50; 0x68; 0x02; 0x59; 0xac; 0x27; 0x82; 0x92; 0x07; 0x88; 0x05; 0xa0; 0x07; 0x80;
   0x1c; 0x03; 0x94; 0xfb; 0xe1; 0x55; 0x09; 0x98; 0x8b; 0x5d; 0x18; 0xa0; 0x2e; 0x01; 0x78; 0xe1;
   0x89; 0xf8; 0x09; 0xd8; 0x8b; 0x45; 0x08; 0x74; 0x41; 0xb8; 0; 0x10; 0xd8; 0x36; 0xb3; 0x50;
   0x53; 0x57; 0xe8; 0; 0x01; 0xc0; 0x2d; 0x80; 0xd2; 0x0a; 0xf8; 0x02; 0x74; 0x37; 0x8b; 0x4d;
   0x0c; 0x39; 0xcf; 0x8b; 0x45; 0x10; 0x19; 0xc3; 0x0f; 0x43; 0xf9; 0x89; 0xcb; 0x27; 0x34; 0xa0;
   0x56; 0xe8; 0xd3; 0xdd; 0x59; 0x20; 0xa0; 0x08; 0x8b; 0x55; 0x10; 0xcf; 0x0d; 0x99; 0x0c; 0xeb;
   0x06; 0xda; 0x45; 0x88; 0x0b; 0x79; 0x27; 0x80; 0x33; 0x45; 0x81; 0x23; 0x08; 0x84; 0xd1; 0x22;
   0x03; 0x5c; 0x85; 0xbf; 0x2e; 0x11; 0xa0; 0; 0x60; 0x83; 0xed; 0x22; 0x81; 0x8b; 0x01; 0x99;
   0x50; 0x51; 0x51; 0x04; 0x2c; 0x0a; 0x85; 0x1b; 0x86; 0x27; 0x01; 0x80; 0xea; 0x48; 0x81; 0x31;
   0x21; 0x85; 0x2e; 0x21; 0x88; 0x10; 0xf5; 0x1c; 0xf8; 0x04; 0xc3; 0x89; 0xf0; 0xf7; 0x65; 0x08;
   0x8d; 0x34; 0x07; 0x0f; 0x90; 0xc5; 0x08; 0xdd; 0x08; 0xcd; 0x8b; 0x45; 0x08; 0xd4; 0x17; 0x8c;
   0xf2; 0x2d; 0x21; 0x1a; 0x74; 0x18; 0xb9; 0xd1; 0x32; 0x51; 0x51; 0x52; 0x50; 0xe8; 0x2f; 0x71;
   0x82; 0xbd; 0x01; 0x8a; 0x21; 0x5b; 0x46; 0xa3; 0xeb; 0xe0; 0xff; 0xff; 0xa1; 0x01; 0x86; 0x97;
   0x08; 0x14; 0xe8; 0x05; 0x80; 0x86; 0xeb; 0x26; 0xa0; 0x4d; 0x14; 0x8b; 0x7d; 0x26; 0x2b; 0x98;
   0x03; 0x45; 0x08; 0xd3; 0x09; 0x19; 0x82; 0xa3; 0x01; 0x58; 0x88; 0x57; 0xc0; 0x29; 0x90; 0x77;
   0xb7; 0xc9; 0x1d; 0x80; 0x32; 0x1e; 0xb9; 0x75; 0xe4; 0x19; 0xd7; 0x89; 0x7d; 0xd8; 0x0e; 0x0a;
   0x80; 0xaf; 0x40; 0xa1; 0x87; 0x01; 0; 0; 0x70; 0x04; 0x98; 0x8d; 0x48; 0xff; 0x18; 0x43;
   0xc8; 0x45; 0xcc; 0x8d; 0x04; 0x40; 0x8d; 0x04; 0xc5; 0x18; 0x83; 0x04; 0x91; 0x45; 0xd0; 0x6f;
   0x2a; 0x88; 0xd4; 0x1a; 0x38; 0x83; 0x60; 0x3c; 0xb9; 0xdc; 0x83; 0x7d; 0xc8; 0; 0x0f; 0x88;
   0xca; 0x1c; 0xd8; 0x7d; 0xd0; 0x8b; 0x5d; 0xcc; 0x83; 0x3f; 0x01; 0x0f; 0x85; 0x8c; 0xdb; 0x2b;
   0xf8; 0x02; 0x47; 0xf0; 0x8b; 0x4f; 0xf4; 0x8b; 0x77; 0xf8; 0x01; 0xc6; 0x8b; 0x57; 0xfc; 0x11;
   0xca; 0x72; 0x7a; 0x42; 0x43; 0x98; 0x75; 0xec; 0x39; 0xeb; 0x1c; 0xf8; 0x05; 0xd4; 0x89; 0xf0;
   0x89; 0x55; 0xe8; 0x19; 0xd0; 0x73; 0x13; 0x8b; 0x55; 0xe0; 0x39; 0x55; 0xf0; 0x89; 0xc8; 0x19;
   0xf0; 0x5e; 0x38; 0xa8; 0xce; 0x72; 0x07; 0xeb; 0x52; 0x9b; 0x38; 0xa0; 0xce; 0x89; 0xd0; 0x2b;
   0x10; 0x2b; 0xd8; 0xe8; 0x19; 0xf1; 0x3b; 0x45; 0xe4; 0x1b; 0x4d; 0xd8; 0x72; 0x3b; 0x80; 0x06;
   0x98; 0x45; 0xec; 0x2b; 0x5e; 0x0c; 0x88; 0xc4; 0x09; 0x09; 0xa9; 0x75; 0xe8; 0x1b; 0x75; 0xd8].

Definition hdd_bin_8 : list Z :=
  [0x08; 0x01; 0xaa; 0x56; 0x50; 0xe8; 0xa5; 0xb6; 0x0b; 0x0b; 0xc8; 0x4d; 0xc4; 0x29; 0xc1; 0x19;
   0xd6; 0x89; 0xca; 0x3b; 0xbd; 0x42; 0xf9; 0x03; 0xec; 0x89; 0x75; 0xf0; 0x1b; 0x75; 0xc0; 0x73;
   0x36; 0x4b; 0x83; 0xc7; 0xe8; 0x85; 0xdb; 0x0f; 0x8f; 0x5f; 0x57; 0x22; 0xa3; 0xdc; 0x84; 0x45;
   0x18; 0x54; 0x37; 0x81; 0xaa; 0x1d; 0x81; 0xae; 0x0c; 0xd1; 0xd4; 0x0f; 0x85; 0x31; 0xff; 0xff;
   0xff; 0x68; 0x39; 0x54; 0x93; 0x05; 0xd8; 0x84; 0xdf; 0xff; 0xff; 0x89; 0xd7; 0x89; 0xcb; 0x29;
   0xd3; 0x8b; 0xef; 0x14; 0xfe; 0x04; 0xf0; 0x19; 0xf2; 0x31; 0xc0; 0x31; 0xc9; 0x41; 0x50; 0x50;
   0x51; 0x51; 0xff; 0x75; 0x10; 0x52; 0x53; 0x56; 0x57; 0x5d; 0x0a; 0x91; 0xe8; 0xde; 0x44; 0x35;
   0xa0; 0x2c; 0x80; 0x7d; 0x18; 0xf0; 0x3c; 0x89; 0x3d; 0x2c; 0x01; 0x30; 0x35; 0x1c; 0x2c; 0x05;
   0; 0xbf; 0x0b; 0xa8; 0xeb; 0x0e; 0xff; 0x75; 0xe4; 0xb9; 0x0e; 0x91; 0x7a; 0xdb; 0xa5; 0x0a;
   0x87; 0xfa; 0x03; 0x02; 0x8a; 0xbf; 0x8e; 0x1a; 0x95; 0x89; 0xf8; 0x4e; 0x27; 0x30; 0x46; 0x50;
   0x01; 0; 0xe9; 0x7a; 0x8b; 0x80; 0x02; 0x03; 0x88; 0xe9; 0x26; 0x17; 0x85; 0x0a; 0x35; 0x81;
   0x41; 0x06; 0xc8; 0x10; 0x83; 0xc1; 0x10; 0x89; 0x4d; 0xd4; 0x31; 0xd2; 0x34; 0x30; 0x80; 0x85;
   0x28; 0x88; 0xf6; 0xd5; 0x18; 0x91; 0xca; 0; 0x16; 0x09; 0x80; 0xfb; 0x29; 0x95; 0x4d; 0xe4;
   0x03; 0x37; 0xc8; 0xd4; 0x89; 0x7d; 0xdc; 0x83; 0x3e; 0x01; 0x0f; 0x85; 0x0a; 0x22; 0xf8; 0x08;
   0x8b; 0x56; 0xf0; 0x8b; 0x5e; 0xf4; 0x8b; 0x4e; 0xf8; 0x01; 0xd1; 0x8b; 0x7e; 0xfc; 0x11; 0xdf;
   0x72; 0x76; 0x89; 0x55; 0xd0; 0x39; 0x55; 0x1d; 0x0a; 0xf0; 0x89; 0x5d; 0xcc; 0x19; 0xda; 0x8b;
   0x5d; 0xdc; 0x0f; 0x93; 0x45; 0xe0; 0x39; 0xcb; 0x08; 0x44; 0x89; 0xfa; 0x09; 0x0a; 0x59; 0xe0;
   0x88; 0x55; 0xf3; 0x89; 0xfa; 0x89; 0x4d; 0xe0; 0x75; 0x06; 0x26; 0x88; 0xe0; 0x05; 0x08; 0xf8;
   0x25; 0x5d; 0xe4; 0x3b; 0x5d; 0xd0; 0x8b; 0x55; 0xe8; 0x1b; 0x55; 0xcc; 0x0f; 0x93; 0xc2; 0x89;
   0x5d; 0xe4; 0x39; 0xcb; 0x8b; 0x5d; 0xe8; 0x19; 0xfb; 0x0f; 0x92; 0xc6; 0x20; 0xd6; 0x8a; 0x5d;
   0xf3; 0x08; 0xf3; 0x84; 0xf6; 0x75; 0x06; 0x8b; 0x7d; 0xe8; 0x8b; 0x4d; 0xe4; 0x8b; 0x55; 0xd8;
   0x08; 0xda; 0x89; 0x55; 0xd8; 0x8a; 0x35; 0; 0x11; 0xd8; 0xe0; 0x89; 0x4d; 0xdc; 0x83; 0xc6;
   0x18; 0x48; 0x0f; 0x85; 0x65; 0x3f; 0x15; 0x30; 0x7d; 0xdc; 0xf6; 0x45; 0xd8; 0x01; 0x28; 0x91;
   0x45; 0x0c; 0x69; 0x01; 0x91; 0xec; 0x0f; 0x57; 0x46; 0x80; 0xd0; 0x30; 0x80; 0xb9; 0x2e; 0xb8;
   0x43; 0xf8; 0x85; 0xf6; 0x0f; 0x45; 0xf8; 0x0e; 0x30; 0xa0; 0x78; 0x04; 0x81; 0xc1; 0x0f; 0x06;
   0x93; 0x89; 0x08; 0x0a; 0x35; 0x91; 0xc2; 0x04; 0xaa; 0x02; 0x81; 0xf3; 0x2c; 0x83; 0xd5; 0x0c;
   0x90; 0xbe; 0x30; 0x6f; 0x05; 0xe0; 0x7e; 0xf0; 0x8b; 0x4e; 0xf4; 0x8b; 0x5e; 0xf8; 0x01; 0xfb;
   0x8b; 0x56; 0x79; 0x02; 0x89; 0x23; 0xca; 0x44; 0x78; 0x0f; 0x08; 0x39; 0xf9; 0x8b; 0x7d; 0x0c;
   0x1b; 0x7d; 0xf0; 0x0f; 0x93; 0xc1; 0x39; 0x5d; 0x08; 0x8b; 0x7d; 0x0c; 0x19; 0xd7; 0x0f; 0x92;
   0xc2; 0x20; 0xca; 0x80; 0xfa; 0x01; 0x74; 0x13; 0x94; 0xc8; 0x75; 0xc5; 0x31; 0xd2; 0x4a; 0x89;
   0xd0; 0xeb; 0x0a; 0xf3; 0x3a; 0xb3; 0xc2; 0xc3; 0x8b; 0x06; 0x31; 0xd2; 0xdf; 0x26; 0x86; 0x59;
   0x25; 0xc8; 0x8b; 0x7d; 0x1c; 0x8b; 0x75; 0x18; 0x8a; 0x4d; 0x2c; 0x41; 0x26; 0xfa; 0x06; 0xf0;
   0x09; 0xf8; 0x0f; 0x94; 0xc0; 0x22; 0x4d; 0x30; 0x08; 0xc1; 0x8b; 0x0a; 0x89; 0x4d; 0xe0; 0xb2;
   0x01; 0x0f; 0x85; 0xf3; 0xbf; 0x4a; 0x80; 0x22; 0x4c; 0xfa; 0; 0xf0; 0x89; 0x45; 0xe8; 0x11;
   0xfa; 0x89; 0x55; 0xec; 0x73; 0x14; 0x80; 0x7d; 0x28; 0; 0xc0; 0x1d; 0x90; 0x68; 0xb1; 0xe0;
   0x01; 0x88; 0xdf; 0xdb; 0x10; 0xb0; 0xc9; 0x74; 0x7a; 0x8b; 0x7d; 0x24; 0xf7; 0x14; 0xe0; 0x70;
   0x10; 0x31; 0xd2; 0x85; 0xff; 0x74; 0x04; 0x39; 0x3e; 0x75; 0x61; 0x52; 0x2a; 0x21; 0x56; 0xf0;
   0x8b; 0x46; 0xc2; 0xd8; 0xd3; 0x8b; 0x7e; 0xfc; 0x89; 0x45; 0xe4; 0x11; 0xc7; 0x73; 0x08; 0xae;
   0x29; 0xf8; 0x05; 0x7d; 0x24; 0xeb; 0x41; 0x8b; 0x45; 0x10; 0x39; 0xd0; 0x8b; 0x55; 0x14; 0x1b;
   0x55; 0xe4; 0x0f; 0x92; 0xc0; 0x39; 0x5d; 0x49; 0x4c; 0xc0; 0x19; 0xfa; 0x0f; 0x93; 0xc2; 0x3b;
   0x5d; 0xe8; 0xae; 0x0b; 0xf8; 0x24; 0x92; 0xc3; 0x08; 0xd3; 0x08; 0xc3; 0x80; 0x7d; 0x2c; 0;
   0x75; 0x05; 0xf6; 0xc3; 0x01; 0x74; 0x2b; 0x80; 0xf3; 0x01; 0x8b; 0x55; 0xf0; 0x08; 0xda; 0xf6;
   0xc3; 0x01; 0x8b; 0x7d; 0x24; 0x75; 0x55; 0x83; 0xc6; 0x18; 0x49; 0x75; 0x91; 0x8a; 0x4d; 0x30;
   0x89; 0xc8; 0x34; 0x01; 0x8a; 0x55; 0x28; 0x20; 0xc2; 0x02; 0x01; 0xb8; 0x4b; 0x84; 0xc9; 0x74;
   0x38; 0x8d; 0x7d; 0x87; 0x20; 0x80; 0xe6; 0x0e; 0x9f; 0xff; 0x75; 0x20; 0xdc; 0x37; 0x01; 0x92;
   0xe8; 0x35; 0xfc; 0x04; 0x88; 0x6a; 0xbb; 0x1e; 0x91; 0x0b; 0xf3; 0x66; 0x11; 0x91; 0x8b; 0x07;
   0x8a; 0x27; 0x88; 0xb2; 0xf5; 0x24; 0xb5; 0xd2; 0x80; 0xe2; 0x01; 0x89; 0xd0; 0xac; 0x04; 0x91;
   0x19; 0x55; 0xd8; 0x08; 0x96; 0x3f; 0xdc; 0xbc; 0x02; 0x88; 0x38; 0x27; 0x39; 0xe8; 0x4d; 0x10;
   0x8b; 0x5d; 0x08; 0x89; 0xde; 0x01; 0xce; 0x8b; 0x45; 0x0c; 0x13; 0x5e; 0x2b; 0xa1; 0xd0; 0x0f;
   0x82; 0xe1; 0xba; 0x13; 0x81; 0xca; 0x1a; 0x90; 0x89; 0x55; 0xad; 0x1e; 0x81; 0xbb; 0x18; 0x80;
   0x02; 0x1c; 0xa8; 0x5d; 0xc4; 0x8d; 0x3c; 0x5b; 0x16; 0x02; 0xf8; 0x0f; 0x1c; 0xfa; 0x8b; 0x44;
   0xfa; 0x04; 0x8b; 0x4c; 0xfa; 0x08; 0x89; 0xde; 0x89; 0x4d; 0xc8; 0x01; 0xce; 0x89; 0x7d; 0xd8;
   0x8b; 0x54; 0xfa; 0x0c; 0x89; 0xc1; 0x11; 0xd1; 0x73; 0x0b; 0xc7; 0x2a; 0xa1; 0x5d; 0xc4; 0xe9;
   0x41; 0x83; 0x47; 0xb0; 0xcc; 0x39; 0x75; 0xdc; 0x89; 0xca; 0x71; 0x49; 0xa0; 0xcf; 0x89; 0x55;
   0xe0; 0xe2; 0x01; 0x98; 0x45; 0xef; 0x89; 0xb1; 0x02; 0xb0; 0x08; 0x89; 0xc7; 0x1b; 0x7d; 0x0c;
   0xde; 0x20; 0x80; 0xd7; 0x37; 0xf8; 0x06; 0xd8; 0x8d; 0x14; 0xda; 0x0f; 0x92; 0x45; 0xd8; 0x89;
   0xc3; 0x72; 0x2c; 0x39; 0xf7; 0x89; 0xc8; 0x1b; 0x45; 0xe0; 0x72; 0x23; 0x75; 0x11; 0xe0; 0xf0;
   0x4a; 0x8b; 0x5d; 0xc4; 0x39; 0xd3; 0x73; 0x10; 0x8d; 0x04; 0x52; 0x23; 0x39; 0x93; 0x34; 0xc1;
   0x39; 0x0b; 0x99; 0x4b; 0xe9; 0xe0; 0x62; 0x03; 0xf8; 0x01; 0xd4; 0x8b; 0x75; 0xe4; 0x39; 0xfe;
   0x89; 0x5d; 0xbc; 0x89; 0xd8; 0x19; 0xc8; 0x0f; 0x92; 0xc0; 0xe5; 0x1c; 0xf8; 0x0c; 0x8b; 0x5d;
   0xc4; 0x8a; 0x65; 0xef; 0x75; 0x21; 0x20; 0xe0; 0x74; 0x1d; 0x29; 0xfe; 0x8b; 0x45; 0xbc; 0x19;
   0xc8; 0x03; 0x75; 0xc8; 0x13; 0x45; 0xcc; 0x89; 0x3a; 0x97; 0x20; 0x88; 0x72; 0xac; 0x20; 0x8a;
   0xe9; 0x65; 0x38; 0xc0; 0xe4; 0x8a; 0x4d; 0xd8; 0x88; 0xc8; 0x34; 0x01; 0x0e; 0x17; 0xb8; 0x75;
   0xd4; 0x39; 0xf2; 0x8b; 0x7d; 0x0c; 0x80; 0x0d; 0x88; 0xe0; 0xe7; 0x2c; 0xe0; 0xe2; 0x08; 0xc2;
   0xf6; 0xc2; 0x01; 0x74; 0x5f; 0x20; 0xe1; 0x80; 0xf9; 0xb3; 0x01; 0xb0; 0x75; 0x71; 0x8b; 0x75;
   0xc8; 0x03; 0x81; 0x3f; 0xb0; 0xcc; 0x11; 0xf8; 0x2b; 0x75; 0xd4; 0xed; 0x18; 0xe0; 0x71; 0x08;
   0x8b; 0x75; 0xe0; 0x19; 0xf0; 0x89; 0x41; 0x0c; 0x81; 0xfa; 0xda; 0x09; 0xc0; 0x73; 0x6a; 0x8d;
   0x3c; 0x52; 0x8b; 0x51; 0x10; 0x58; 0x0a; 0xf0; 0x54; 0xf9; 0x10; 0x8b; 0x55; 0xf0; 0x42; 0x8b;
   0x45; 0xd0; 0x89; 0x44; 0xf9; 0x04; 0x1e; 0x4b; 0xe0; 0x04; 0xf9; 0x8b; 0x45; 0xd4; 0x2b; 0x45;
   0xdc; 0x89; 0x44; 0xf9; 0x08; 0x2b; 0x22; 0x52; 0x74; 0xf9; 0x0c; 0xeb; 0x1c; 0x8b; 0x55; 0xc8;
   0x03; 0x55; 0x55; 0xa8; 0x29; 0xf2; 0x1b; 0x45; 0xe0; 0x44; 0x19; 0xf8; 0x02; 0x51; 0x08; 0x89;
   0x41; 0x0c; 0x8b; 0x55; 0xf0; 0x43; 0x89; 0x55; 0xf0; 0x39; 0xd3; 0x0f; 0x82; 0x80; 0x2b; 0x4c;
   0xa9; 0x75; 0xf0; 0x81; 0xfe; 0xff; 0x6d; 0x41; 0x80; 0xb7; 0x01; 0x91; 0x76; 0x0b; 0x40; 0x08;
   0xe0; 0xeb; 0x39; 0x31; 0xf6; 0x89; 0xca; 0x8b; 0x45; 0x18; 0x8d; 0x3c; 0x76; 0xcd; 0x0a; 0x90;
   0x44; 0xf9; 0x1f; 0x2d; 0; 0x71; 0x98; 0x89; 0x1c; 0xf9; 0x32; 0x2d; 0xed; 0x44; 0xf9; 0x0c;
   0x89; 0x54; 0xf9; 0x08; 0x46; 0x8b; 0x45; 0xc0; 0x89; 0x30; 0x19; 0x4d; 0x91; 0xa9; 0x4f; 0xea;
   0x0a; 0x91; 0x2d; 0xda; 0xbe; 0x06; 0x81; 0x57; 0x47; 0x8a; 0x9a; 0x95; 0x10; 0xa1; 0xc6; 0x40;
   0x0d; 0x01; 0xab; 0x2b; 0x80; 0xeb; 0x39; 0x98; 0x8d; 0x75; 0xd4; 0xb0; 0x4d; 0xa1; 0x56; 0xe8;
   0x4e; 0xd6; 0xdd; 0x26; 0xb0; 0xc7; 0x46; 0x24; 0x50; 0x56; 0; 0xe8; 0x08; 0xa1; 0x1a; 0xe8;
   0x9d; 0xac; 0xe4; 0x0f; 0xf8; 0x0b; 0x66; 0x81; 0x7e; 0x24; 0x4e; 0x56; 0x75; 0x72; 0x0f; 0xb7;
   0x45; 0xd8; 0xc1; 0xe0; 0x04; 0x0f; 0xb7; 0x75; 0xf4; 0x01; 0xc6; 0x6a; 0x06; 0x68; 0x73; 0x50;
   0x82; 0x34; 0x0a; 0x76; 0x38; 0x78; 0x10; 0x85; 0xc0; 0x75; 0x58; 0x66; 0x81; 0x7e; 0x06; 0;
   0x02; 0x76; 0x57; 0x8b; 0x46; 0x28; 0x0f; 0xb7; 0xf0; 0xc1; 0xe8; 0x0c; 0x83; 0xe0; 0xf0; 0x01;
   0xc6; 0x6a; 0x04; 0x68; 0x34; 0x55; 0x2a; 0x0d; 0x4c; 0x2a; 0x88; 0x3c; 0x39; 0x36; 0x91; 0x9f;
   0xae; 0x04; 0x14; 0xd8; 0x80; 0x3d; 0xc0; 0x0b; 0x05; 0; 0x01; 0x75; 0x0d; 0x68; 0x11; 0x3d;
   0x45; 0x8a; 0x64; 0x1a; 0x14; 0x80; 0x72; 0x04; 0xa0; 0x5d; 0xc3; 0x68; 0xf3; 0x33; 0x30; 0x9a;
   0x13; 0x68; 0x5e; 0x54; 0x30; 0x91; 0xcd; 0x50; 0x54; 0x30; 0x8a; 0xd0; 0xfe; 0x2c; 0x91; 0x53;
   0xd9; 0xb6; 0x40; 0x86; 0xa2; 0x42; 0x88; 0x75; 0x94; 0x40; 0xab; 0x30; 0x56; 0xe8; 0xe2; 0xd4;
   0x94; 0x17; 0x99; 0x74; 0x23; 0x8d; 0x09; 0x20; 0x8a; 0x50; 0xe7; 0x23; 0x83; 0x10; 0x42; 0x88;
   0x32; 0x1f; 0x1f; 0x88; 0xb5; 0x21; 0x20; 0x91; 0xe9; 0x83; 0xd0; 0x31; 0x90; 0x8d; 0x8d; 0x2e;
   0x20; 0xf0; 0x89; 0x01; 0x89; 0x41; 0x08; 0x89; 0x41; 0x04; 0x66; 0xc7; 0x41; 0x02; 0x03; 0;
   0x82; 0x1d; 0xf4; 0x04; 0x83; 0xe1; 0x0c; 0x0f; 0xb7; 0xc0; 0x51; 0x50; 0x6a; 0x71; 0xe8; 0xfc;
   0xad; 0xb7; 0x27; 0x91; 0x85; 0xeb; 0xd0; 0x34; 0x92; 0x36; 0xff; 0x5a; 0x1d; 0x89; 0xdd; 0xc6;
   0x34; 0xf0; 0xc1; 0xe9; 0x0c; 0x83; 0xe1; 0xf0; 0x0f; 0xb7; 0xf0; 0x01; 0xce; 0x80; 0x3d; 0x90;
   0x1d; 0x0c; 0xa1; 0x75; 0x27; 0x0f; 0xb7; 0x7a; 0x20; 0x90; 0xb9; 0x28; 0x12; 0x34; 0xf3; 0xc8;
   0x0f; 0x42; 0xc8; 0x51; 0x56; 0x68; 0x68; 0x5c; 0x05; 0; 0xe8; 0xc1; 0xd4; 0x2c; 0x0a; 0;
   0x29; 0xb0; 0x01; 0x8b; 0x76; 0x14; 0x8d; 0xbd; 0x05; 0x4e; 0x90; 0x6a; 0x32; 0x6c; 0x15; 0x0a;
   0xc7; 0x1d; 0x81; 0x2e; 0x4d; 0x62; 0x83; 0xe7; 0x0e; 0x0f; 0xb7; 0xc0; 0x57; 0x50; 0x6a; 0x0c;
   0xe8; 0x7c; 0x80; 0x88; 0x31; 0xce; 0x1d; 0x92; 0x85; 0xd0; 0x45; 0x45; 0x88; 0x04; 0x67; 0x4a;
   0xb8; 0xf8; 0x2f; 0x77; 0x13; 0x50; 0x68; 0x82; 0xf4; 0x12; 0x8a; 0x29; 0xa9; 0x1f; 0x90; 0xe9;
   0xb1; 0x80; 0x37; 0x90; 0x45; 0xe0; 0x45; 0x04; 0x89; 0xd7; 0xa8; 0x25; 0x8a; 0x04; 0xfe; 0x20;
   0xc2; 0x12; 0x68; 0xf0; 0x50; 0x01; 0; 0xe8; 0x02; 0x9a; 0x1f; 0x88; 0xe9; 0x79; 0x45; 0xa0;
   0x89; 0xc3; 0x8d; 0xbd; 0x2b; 0x21; 0x91; 0x68; 0x8e; 0xad; 0x40; 0x1b; 0x57; 0xe8; 0x48; 0x7f;
   0xa0; 0x77; 0x02; 0x8d; 0x85; 0x64; 0x4e; 0x5f; 0x89; 0x5d; 0xec; 0x43; 0x53; 0xff; 0x75; 0x10;
   0x50; 0xe8; 0x0b; 0x99; 0x02; 0x0a; 0x0f; 0x99; 0x26; 0x25; 0xe8; 0xe3; 0xac; 0x99; 0x89; 0x85;
   0xc1; 0x19; 0x98; 0x45; 0xe0; 0xd0; 0x0c; 0x3d; 0x99; 0x30; 0xe8; 0x2b; 0x91; 0x22; 0x88; 0x08;
   0x62; 0x0f; 0x7a; 0x19; 0xc3; 0x8b; 0x45; 0xba; 0x89; 0x7b; 0x20; 0x89; 0x43; 0x1c; 0xb0; 0x01;
   0x88; 0x03; 0x88; 0x43; 0x24; 0x89; 0x73; 0x28; 0x66; 0xc7; 0x43; 0x2c; 0x45; 0; 0x8b; 0x45;
   0xec; 0x83; 0xc0; 0x02; 0x89; 0x45; 0xe4; 0x57; 0x50; 0xe8; 0xfa; 0xf5; 0x31; 0x7a; 0x05; 0x43;
   0x08; 0xc6; 0; 0x2f; 0x8b; 0x43; 0x08; 0x40; 0xff; 0x75; 0xec; 0x8b; 0x4d; 0x10; 0x51; 0x50;
   0xe8; 0x8e; 0xd3; 0x97; 0x89; 0x5d; 0x55; 0x3d; 0x98; 0x43; 0x0c; 0xb8; 0xac; 0x25; 0x98; 0x8d;
   0x9d; 0x70; 0x0c; 0x1f; 0x23; 0x57; 0x53; 0xe8; 0x92; 0x1f; 0x40; 0x73; 0x02; 0x8b; 0x75; 0xe0;
   0x66; 0xc7; 0x83; 0x1e; 0xa8; 0; 0x45; 0x66; 0x89; 0xb3; 0x17; 0x09; 0x98; 0x8d; 0x85; 0x7a;
   0xb8; 0x21; 0x11; 0x75; 0xe8; 0xc7; 0x0b; 0x44; 0x4a; 0x88; 0xd8; 0xe0; 0x01; 0x88; 0xe3; 0x60;
   0x01; 0x32; 0x53; 0x50; 0x6a; 0x20; 0xe8; 0x1c; 0xc7; 0x80; 0x74; 0x50; 0x19; 0x0f; 0xb7; 0x85;
   0x58; 0x90; 0x68; 0x9f; 0x30; 0x28; 0x91; 0xd4; 0xe4; 0xc9; 0x13; 0xa8; 0xeb; 0x41; 0x0f; 0xb7;
   0x85; 0xcf; 0x4f; 0xf0; 0x66; 0x39; 0xf0; 0x89; 0xf1; 0x76; 0x5e; 0x0f; 0xb7; 0xc9; 0x51; 0x50;
   0x68; 0xcf; 0x52; 0x28; 0x09; 0xb2; 0x22; 0xa8; 0x0c; 0x8d; 0x45; 0xd6; 0x66; 0x5a; 0x4a; 0x81;
   0x05; 0x3b; 0xeb; 0x83; 0xe0; 0x0e; 0x0f; 0xb7; 0xc9; 0x50; 0x51; 0x6a; 0x21; 0xe8; 0xc2; 0xab;
   0x21; 0x01; 0xa3; 0x57; 0x8b; 0x75; 0xf0; 0x1c; 0x3a; 0x88; 0x21; 0xcd; 0x22; 0x83; 0x1c; 0x3a;
   0x0a; 0x15; 0x0c; 0x96; 0x89; 0xf8; 0x4f; 0x45; 0xa8; 0xc3; 0x0f; 0xb7; 0xc1; 0x6a; 0xfd; 0x09;
   0xa2; 0x50; 0xe8; 0xc0; 0xeb; 0x13; 0x01; 0x14; 0x45; 0xe8; 0x80; 0x80; 0x1a; 0x10; 0; 0x49;
   0x81; 0x41; 0x39; 0x08; 0xc8; 0x49; 0x80; 0x2d; 0x37; 0xd1; 0x10; 0x8b; 0x46; 0x1c; 0x0b; 0x46;
   0x20; 0x0f; 0x84; 0x12; 0x74; 0x27; 0xc8; 0xe8; 0x89; 0xc1; 0x83; 0xe1; 0x0f; 0x89; 0x4d; 0xc0;
   0x55; 0x15; 0x2c; 0x45; 0xc4; 0x8d; 0x45; 0xd6; 0x97; 0xfb; 0x01; 0x31; 0xf6; 0x0f; 0xb7; 0xc0;
   0x89; 0x45; 0xc8; 0x0f; 0xb7; 0xc1; 0x89; 0x45; 0xcc; 0x31; 0xdb; 0x62; 0x50; 0x9b; 0xc7; 0x45;
   0xd6; 0xf1; 0x3b; 0x88; 0xda; 0xad; 0x51; 0x90; 0xc0; 0x66; 0x7e; 0x30; 0xfd; 0x02; 0x45; 0xc4;
   0x66; 0x89; 0x45; 0xde; 0xff; 0x75; 0xc8; 0xff; 0x75; 0xcc; 0x6a; 0x22; 0xe8; 0xf8; 0xaa; 0x04].

Definition hdd_bin_9 : list Z :=
  [0x03; 0x89; 0x09; 0x82; 0x02; 0xc9; 0x45; 0xda; 0x66; 0x3b; 0x45; 0xe0; 0x0f; 0x87; 0xed; 0x72;
   0x11; 0x88; 0x03; 0xb2; 0x40; 0xf0; 0x51; 0x1c; 0x8b; 0x49; 0x20; 0x39; 0xfa; 0x89; 0xcf; 0x83;
   0xdf; 0; 0x0f; 0x82; 0x31; 0x35; 0x80; 0x7e; 0x4a; 0xc2; 0x39; 0xd3; 0x19; 0xce; 0x0f; 0x82;
   0xcd; 0; 0x14; 0x4a; 0xe2; 0x4e; 0x10; 0x01; 0xd9; 0x50; 0xff; 0x75; 0xe8; 0x51; 0xe8; 0xb7;
   0xd1; 0x59; 0x18; 0xf8; 0x03; 0xb7; 0x55; 0xda; 0x01; 0xd3; 0x66; 0x3b; 0x55; 0xe4; 0x0f; 0x93;
   0xc1; 0x0a; 0x4d; 0xec; 0x8b; 0x46; 0x1c; 0x68; 0x33; 0xc3; 0x4e; 0x20; 0x74; 0x04; 0x89; 0xdf;
   0xeb; 0x30; 0x05; 0x51; 0x94; 0x89; 0xdf; 0x9d; 0x2e; 0xb0; 0xcb; 0x73; 0x1c; 0x52; 0x68; 0x30;
   0x2e; 0x04; 0x8a; 0x36; 0x3c; 0x20; 0; 0x7a; 0x08; 0x41; 0x7a; 0xd9; 0xb2; 0x01; 0x89; 0x55;
   0xec; 0x31; 0xf6; 0x89; 0xfb; 0x39; 0xc7; 0x7d; 0x29; 0x80; 0x9a; 0x1f; 0x88; 0x21; 0x5c; 0x2b;
   0x87; 0x9d; 0x01; 0x0c; 0x0c; 0x25; 0xd3; 0x90; 0x75; 0x46; 0x81; 0x0d; 0xb9; 0xd0; 0xff; 0x75;
   0xe8; 0xe8; 0x84; 0xf2; 0x6d; 0x07; 0x80; 0x8c; 0x0f; 0x80; 0x94; 0x36; 0x90; 0x68; 0xf2; 0x1e;
   0x0d; 0xa0; 0x20; 0x56; 0x68; 0x94; 0x6a; 0x52; 0xc9; 0x01; 0xe8; 0xdc; 0xd4; 0xff; 0xff; 0x68;
   0x4e; 0x58; 0xe5; 0x34; 0x8a; 0xdb; 0x99; 0x27; 0x8a; 0xe9; 0x8f; 0x31; 0x08; 0xc2; 0x1a; 0x8c;
   0xde; 0x8f; 0x31; 0xa0; 0x56; 0xb8; 0xfe; 0x7d; 0xf2; 0x0e; 0x7b; 0x09; 0x08; 0x66; 0xc7; 0;
   0x34; 0x12; 0x66; 0x8b; 0x10; 0xb8; 0xfe; 0x7d; 0x10; 0; 0x66; 0x8b; 0x30; 0xb0; 0x01; 0x66;
   0x39; 0xf2; 0x75; 0x1e; 0x1f; 0x52; 0x10; 0xf7; 0xd2; 0x66; 0x89; 0x10; 0x66; 0x8b; 0; 0xba;
   0x1f; 0x98; 0x12; 0x66; 0x39; 0x1a; 0x32; 0x09; 0xba; 0x3d; 0x93; 0x89; 0x0a; 0x2b; 0x2f; 0x80;
   0x95; 0x3f; 0xb8; 0xb3; 0x01; 0xe8; 0xa5; 0xff; 0xff; 0xff; 0xa1; 0x3e; 0x80; 0x63; 0x36; 0x9a;
   0x8d; 0x75; 0xd0; 0xb9; 0x05; 0x94; 0x95; 0xd0; 0xb9; 0x05; 0x91; 0x01; 0x24; 0xb9; 0x05; 0xa1;
   0x15; 0xe8; 0xe4; 0xa6; 0xc1; 0x2c; 0x13; 0xe8; 0x75; 0x30; 0x80; 0xe4; 0x57; 0xf8; 0x0b; 0xb9;
   0x4f; 0xc3; 0; 0; 0xe4; 0x64; 0x83; 0xe9; 0x01; 0x0f; 0x92; 0xc2; 0xa8; 0x02; 0x74; 0x04;
   0x84; 0xd2; 0x74; 0xf0; 0xa8; 0x02; 0x0f; 0x85; 0xc2; 0x59; 0x0c; 0x1f; 0xad; 0xe6; 0x64; 0x21;
   0x0e; 0x88; 0xa1; 0x7a; 0x0c; 0x0f; 0xd0; 0x21; 0x05; 0x12; 0x01; 0x75; 0x21; 0x8a; 0x01; 0xd1;
   0x26; 0x09; 0xba; 0x1d; 0x59; 0x60; 0x89; 0xc1; 0xe4; 0x64; 0x83; 0xea; 0x01; 0x0f; 0x92; 0xc4;
   0x42; 0x08; 0xe4; 0x42; 0x31; 0x75; 0x63; 0xb0; 0xd1; 0xe6; 0x64; 0x21; 0x07; 0x1d; 0x08; 0x47;
   0x46; 0x80; 0xc9; 0x02; 0x89; 0xc8; 0xe6; 0x60; 0x7f; 0x0c; 0x27; 0x75; 0x26; 0xb0; 0xae; 0x9c;
   0x0e; 0xa8; 0x75; 0x09; 0xe8; 0x92; 0xfe; 0x13; 0x01; 0xf8; 0x01; 0x75; 0x13; 0xe4; 0x92; 0xa8;
   0x02; 0x75; 0x06; 0x24; 0xfc; 0x0c; 0x02; 0xe6; 0x92; 0xe8; 0x7d; 0xaa; 0x23; 0x81; 0xe4; 0x26;
   0x8f; 0x28; 0x8e; 0x34; 0x01; 0x88; 0x10; 0x40; 0x34; 0xc9; 0x0f; 0xa2; 0x83; 0xf8; 0x15; 0x72;
   0x26; 0xb8; 0x15; 0x3d; 0x36; 0xa1; 0x0f; 0xa2; 0x89; 0xc6; 0x8f; 0x34; 0x80; 0xce; 0x23; 0x98;
   0xc2; 0x08; 0xc2; 0x7c; 0x49; 0xc0; 0xc0; 0x08; 0xd0; 0x3c; 0x01; 0x0f; 0x85; 0xce; 0x34; 0x59;
   0x88; 0x3d; 0x1e; 0x4e; 0x90; 0x89; 0x3d; 0x1e; 0x4e; 0xd3; 0xe4; 0x61; 0x89; 0xc1; 0x88; 0x45;
   0xf3; 0x80; 0xe1; 0xfc; 0x62; 0x12; 0x83; 0x9d; 0x53; 0xa8; 0x31; 0xc0; 0x88; 0x4d; 0xf2; 0x83;
   0x19; 0xf8; 0x1e; 0xc8; 0xe6; 0x61; 0xb0; 0xb0; 0xe6; 0x43; 0xb0; 0x9c; 0xe6; 0x42; 0xb0; 0x2e;
   0xe6; 0x42; 0xe4; 0x61; 0x0c; 0x01; 0xe6; 0x61; 0x0f; 0x31; 0x89; 0xd3; 0x89; 0xc7; 0xe4; 0x61;
   0xa8; 0x20; 0x74; 0xfa; 0x0f; 0x31; 0x39; 0xc7; 0x89; 0xde; 0x19; 0xd6; 0x73; 0x27; 0x29; 0xf8;
   0xfd; 0x0b; 0xb0; 0xe8; 0x89; 0xde; 0x83; 0xc6; 0xff; 0xd1; 0x37; 0xf9; 0x05; 0xcf; 0x83; 0xd7;
   0xff; 0x39; 0xc6; 0x19; 0xd7; 0x0f; 0x43; 0xca; 0x89; 0x4d; 0xec; 0x8a; 0x4d; 0xf2; 0x0f; 0x43;
   0xd8; 0xbf; 0x12; 0xe0; 0xe4; 0x40; 0x83; 0xf8; 0x03; 0x75; 0xa1; 0x8a; 0x45; 0xf3; 0xe6; 0x61;
   0xca; 0x12; 0x78; 0x04; 0xc8; 0x8b; 0x75; 0xec; 0x09; 0xf0; 0x74; 0x2d; 0x89; 0xc8; 0xb9; 0xde;
   0x34; 0x12; 0; 0xf7; 0xe1; 0x69; 0xce; 0x08; 0xf2; 0x01; 0xd1; 0x6a; 0; 0x68; 0x9c; 0x2e;
   0; 0; 0x51; 0x50; 0xe8; 0x01; 0xa8; 0x8b; 0x1a; 0x08; 0x15; 0xbb; 0x88; 0xa3; 0xd8; 0x4e;
   0x83; 0x05; 0x56; 0x80; 0xe6; 0x26; 0x99; 0xe3; 0x89; 0xd7; 0x1d; 0x3f; 0x2f; 0x52; 0x50; 0xe8;
   0xd9; 0xa7; 0x28; 0x05; 0x91; 0x39; 0xf3; 0xb6; 0x03; 0x88; 0x13; 0x47; 0x13; 0x8c; 0xcb; 0x4b;
   0x32; 0xa0; 0x40; 0x8d; 0x45; 0xcc; 0xd2; 0x55; 0xa1; 0x50; 0xe8; 0x2c; 0xce; 0xc8; 0x27; 0x80;
   0xe7; 0x1b; 0xd8; 0xe8; 0xff; 0xff; 0x8d; 0x5d; 0xb4; 0xc7; 0x45; 0xf0; 0x20; 0xe8; 0x3c; 0x04;
   0x91; 0xe8; 0x18; 0x43; 0x04; 0xc0; 0xe4; 0x50; 0x41; 0x4d; 0x53; 0x89; 0x5d; 0xdc; 0x5d; 0x49;
   0xb2; 0x50; 0x6a; 0x15; 0xe8; 0x5d; 0xa4; 0xee; 0x52; 0xeb; 0x45; 0xd4; 0x01; 0x75; 0x32; 0x89;
   0xf0; 0x89; 0xfa; 0x8d; 0xbf; 0xa4; 0x75; 0x05; 0x13; 0x80; 0x99; 0x14; 0xfa; 0x03; 0x83; 0x7d;
   0xec; 0; 0x74; 0x16; 0x89; 0xc6; 0x46; 0x83; 0xc2; 0x18; 0x89; 0xd7; 0x75; 0xb0; 0x68; 0x19;
   0xbc; 0x42; 0x51; 0x79; 0xd1; 0xff; 0xff; 0x89; 0xc6; 0x46; 0x89; 0x35; 0xa0; 0xbd; 0x8c; 0x40;
   0xf0; 0x32; 0xa1; 0x56; 0x8b; 0x45; 0x14; 0xc7; 0x41; 0xf8; 0x01; 0x08; 0xba; 0x51; 0x59; 0x01;
   0; 0x83; 0xfe; 0x1e; 0x77; 0x07; 0x8b; 0x14; 0xb5; 0x04; 0x5a; 0xb1; 0x4d; 0x9a; 0x52; 0x68;
   0x7a; 0x6d; 0x11; 0xb0; 0x3b; 0xd1; 0xff; 0xff; 0xb8; 0x80; 0x2b; 0x22; 0x78; 0x0c; 0x88; 0;
   0x5b; 0x01; 0; 0x66; 0x89; 0x8c; 0; 0xac; 0x76; 0x05; 0; 0xc7; 0x84; 0; 0xae; 0x76;
   0x05; 0; 0x18; 0; 0; 0x8e; 0xc1; 0xe9; 0x10; 0x16; 0x7f; 0x07; 0xb2; 0x76; 0x05; 0;
   0x83; 0xc0; 0x04; 0x75; 0xd7; 0x55; 0x89; 0xe5; 0x0f; 0x01; 0x1d; 0xb5; 0xf0; 0; 0; 0x5d;
   0xc3; 0xcc; 0x01; 0x01; 0x98; 0xfc; 0x31; 0xc0; 0x28; 0x21; 0x4c; 0x6a; 0; 0xe8; 0x7e; 0xff;
   0xff; 0xff; 0x90; 0x90; 0x10; 0x1f; 0x01; 0xe8; 0x6e; 0x10; 0x02; 0x1f; 0x02; 0xe8; 0x5e; 0x20;
   0x02; 0x1f; 0x03; 0xe8; 0x4e; 0x30; 0x02; 0x1f; 0x04; 0xe8; 0x3e; 0x40; 0x02; 0x1f; 0x05; 0xe8;
   0x2e; 0x50; 0x02; 0x1f; 0x06; 0xe8; 0x1e; 0x60; 0x02; 0x1a; 0x07; 0xe8; 0x0e; 0x70; 0x09; 0x58;
   0x7f; 0x20; 0x08; 0xe8; 0xff; 0xfe; 0x7f; 0x05; 0x80; 0x18; 0x09; 0xe8; 0xee; 0x11; 0x04; 0x20;
   0x18; 0x0a; 0xe8; 0xdf; 0x20; 0x05; 0x30; 0x1f; 0x0b; 0xe8; 0xcf; 0x10; 0x02; 0x1f; 0x0c; 0xe8;
   0xbf; 0x20; 0x02; 0x1f; 0x0d; 0xe8; 0xaf; 0x30; 0x02; 0x1f; 0x0e; 0xe8; 0x9f; 0x60; 0x03; 0x18;
   0x0f; 0xe8; 0x8e; 0x60; 0x05; 0xf0; 0x1f; 0x10; 0xe8; 0x7e; 0x70; 0x01; 0x1f; 0x11; 0xe8; 0x6f;
   0x90; 0x03; 0x1f; 0x12; 0xe8; 0x5e; 0x30; 0x02; 0x1f; 0x13; 0xe8; 0x4e; 0x40; 0x02; 0x1f; 0x14;
   0xe8; 0x3e; 0x50; 0x02; 0x1f; 0x15; 0xe8; 0x2e; 0x60; 0x02; 0x1f; 0x16; 0xe8; 0x1e; 0x70; 0x02;
   0x1f; 0x17; 0xe8; 0x0e; 0x80; 0x02; 0xa7; 0x18; 0xe8; 0xfe; 0xfd; 0x80; 0x01; 0x01; 0x1f; 0x19;
   0xe8; 0xee; 0x10; 0x02; 0x1f; 0x1a; 0xe8; 0xde; 0x20; 0x02; 0x1f; 0x1b; 0xe8; 0xce; 0x30; 0x02;
   0x1f; 0x1c; 0xe8; 0xbe; 0x40; 0x02; 0x18; 0x1d; 0xe8; 0xae; 0x50; 0x84; 0x60; 0x01; 0x18; 0x1e;
   0xe8; 0x9f; 0x5f; 0x86; 0xe0; 0x01; 0xa2; 0x1f; 0xe8; 0x8e; 0xfd; 0x54; 0x2a; 0x88; 0; 0xcd;
   0x15; 0x88; 0; 0xc4; 0x40; 0x80; 0x65; 0x53; 0x80; 0xac; 0x4f; 0x80; 0xeb; 0x02; 0x80; 0x61;
   0x4b; 0xa0; 0x30; 0; 0; 0; 0x9c; 0x4b; 0x7b; 0x90; 0x43; 0x44; 0x30; 0x30; 0x31; 0;
   0x41; 0x74; 0x74; 0x65; 0x6d; 0x70; 0x74; 0x65; 0x64; 0x20; 0x76; 0x6f; 0x6c; 0x75; 0x6d; 0x65;
   0x5f; 0x72; 0x65; 0x61; 0x64; 0x28; 0x29; 0x20; 0x6f; 0x6e; 0x20; 0x70; 0x78; 0x65; 0; 0x70;
   0x6d; 0x6d; 0x3a; 0x20; 0x49; 0x6e; 0x74; 0x65; 0x67; 0x65; 0x72; 0x20; 0x6f; 0x76; 0x65; 0x72;
   0x66; 0x6c; 0x6f; 0x77; 0x20; 0x69; 0x6e; 0x20; 0x6d; 0x65; 0x6d; 0x6f; 0x72; 0x79; 0x20; 0x72;
   0x61; 0x6e; 0x67; 0x65; 0x20; 0x63; 0x61; 0x6c; 0x63; 0x75; 0x6c; 0x61; 0x74; 0x69; 0x6f; 0x6e;
   0; 0x74; 0x66; 0x74; 0x70; 0x3a; 0x20; 0x53; 0x65; 0x72; 0x76; 0x65; 0x72; 0x20; 0x72; 0x65;
   0x74; 0x75; 0x72; 0x6e; 0x65; 0x64; 0x20; 0x7a; 0x65; 0x72; 0x6f; 0x20; 0x62; 0x79; 0x74; 0x65;
   0x73; 0x20; 0x62; 0x65; 0x66; 0x6f; 0x72; 0x65; 0x20; 0x74; 0x72; 0x61; 0x6e; 0x73; 0x66; 0x65;
   0x72; 0x20; 0x63; 0x6f; 0x6d; 0x70; 0x6c; 0x65; 0x74; 0x65; 0; 0x4e; 0x4d; 0x49; 0; 0x53;
   0x65; 0x63; 0x75; 0x72; 0x69; 0x74; 0x79; 0; 0x4f; 0x6c; 0x3a; 0; 0x6d; 0x65; 0x6e; 0x75;
   0; 0x4d; 0x6e; 0x7d; 0x14; 0x6d; 0x61; 0x70; 0x20; 0x65; 0x78; 0x68; 0x61; 0x75; 0x73; 0x74;
   0x65; 0x64; 0x2e; 0; 0x65; 0x78; 0x74; 0x5f; 0x6d; 0x65; 0x6d; 0x5f; 0x61; 0x6c; 0x6c; 0x6f;
   0x63; 0x3a; 0x20; 0x63; 0x6f; 0x75; 0x6e; 0x74; 0xa5; 0x78; 0x10; 0x73; 0x20; 0x77; 0x68; 0x65;
   0x6e; 0x20; 0x61; 0x6c; 0x69; 0x67; 0x6e; 0x69; 0x6e; 0x67; 0; 0x50; 0x58; 0x45; 0x4e; 0x56;
   0x2b; 0; 0x25; 0x73; 0x20; 0x65; 0x78; 0x63; 0x65; 0x70; 0xac; 0x60; 0x20; 0x61; 0x74; 0x20;
   0x25; 0x78; 0x2e; 0x20; 0x45; 0x72; 0x72; 0x6f; 0x88; 0x7c; 0x0b; 0x64; 0x65; 0x3a; 0x20; 0x25;
   0x78; 0; 0x53; 0x65; 0x67; 0x6d; 0x65; 0x6e; 0x74; 0x20; 0x6e; 0x6f; 0x74; 0x20; 0x70; 0x72;
   0x65; 0x73; 0x65; 0x6e; 0x74; 0x81; 0x01; 0x6a; 0x01; 0xe8; 0x85; 0x0d; 0x01; 0x50; 0x2e; 0;
   0x70; 0x78; 0x65; 0x20; 0x76; 0x65; 0x72; 0x73; 0x52; 0x78; 0x03; 0x74; 0x6f; 0x6f; 0x20; 0x6f;
   0x6c; 0x64; 0; 0x49; 0x6e; 0x76; 0x61; 0x6c; 0x69; 0x64; 0x20; 0x6f; 0x70; 0x57; 0x83; 0x15;
   0x01; 0x41; 0x46; 0x69; 0x6c; 0x65; 0x6e; 0x61; 0x6d; 0x65; 0x26; 0x79; 0x23; 0x6c; 0x6f; 0x6e;
   0x67; 0x20; 0x28; 0x6d; 0x61; 0x78; 0x20; 0x31; 0x32; 0x37; 0x20; 0x63; 0x68; 0x61; 0x72; 0x73;
   0x29; 0x0a; 0; 0x54; 0x6f; 0x6f; 0x20; 0x6d; 0x61; 0x6e; 0x79; 0x20; 0x45; 0x38; 0x32; 0x30;
   0x20; 0x65; 0x6e; 0x74; 0x72; 0x69; 0x65; 0x73; 0x21; 0; 0x43; 0x6f; 0x75; 0x6c; 0x64; 0x91;
   0xf8; 0x1b; 0x65; 0x6e; 0x61; 0x62; 0x6c; 0x65; 0x20; 0x41; 0x32; 0x30; 0x20; 0x6c; 0x69; 0x6e;
   0x65; 0; 0x53; 0x49; 0x4d; 0x44; 0; 0; 0x42; 0x72; 0x65; 0x61; 0x6b; 0x70; 0x6f; 0x69;
   0x6e; 0x74; 0; 0x66; 0x61; 0x74; 0x33; 0x32; 0x3a; 0x20; 0x63; 0x6c; 0x25; 0x01; 0x08; 0x72;
   0x59; 0x98; 0x69; 0x6e; 0x20; 0xd5; 0x01; 0xf1; 0x20; 0x66; 0x61; 0x69; 0x6c; 0x65; 0x64; 0x20;
   0x28; 0x63; 0x6f; 0x72; 0x72; 0x75; 0xf3; 0x01; 0xf9; 0x0c; 0x66; 0x69; 0x6c; 0x65; 0x73; 0x79;
   0x73; 0x74; 0x65; 0x6d; 0x3f; 0x29; 0; 0x47; 0x65; 0x6e; 0x65; 0x72; 0x61; 0x6c; 0x20; 0x70;
   0x72; 0x6f; 0x74; 0x65; 0x63; 0x20; 0x01; 0xe0; 0x66; 0x61; 0x75; 0x6c; 0x74; 0; 0x44; 0x69;
   0x73; 0x6b; 0x20; 0x65; 0x24; 0x01; 0x81; 0x2e; 0x01; 0xa8; 0x44; 0x72; 0x69; 0x76; 0x65; 0x28;
   0x01; 0x4c; 0x49; 0x53; 0x4f; 0x39; 0x36; 0x36; 0x30; 0x3a; 0x20; 0xed; 0xd8; 0x72; 0x6f; 0x6f;
   0x74; 0x20; 0x64; 0x69; 0x72; 0x65; 0x63; 0x74; 0x2d; 0x01; 0xe8; 0x73; 0x69; 0x7a; 0x65; 0;
   0x45; 0x46; 0x49; 0x20; 0x50; 0x41; 0x52; 0x54; 0x80; 0x01; 0xba; 0x20; 0x69; 0x6e; 0x73; 0x74;
   0x61; 0x6c; 0x29; 0x02; 0x33; 0x20; 0x63; 0x68; 0x65; 0x63; 0x6b; 0x95; 0x80; 0x44; 0x01; 0xff;
   0x0c; 0x3a; 0x20; 0x53; 0x75; 0x63; 0x63; 0x65; 0x73; 0x73; 0x66; 0x75; 0x6c; 0x6c; 0x79; 0x20;
   0x69; 0x6e; 0x69; 0x74; 0x69; 0x61; 0x6c; 0x69; 0x7a; 0x65; 0x64; 0x0a; 0x55; 0x02; 0x03; 0x71;
   0x69; 0x73; 0x20; 0x73; 0x65; 0x6e; 0x64; 0x69; 0x6e; 0x67; 0x20; 0x74; 0x68; 0x65; 0xc5; 0x80;
   0x92; 0x02; 0x78; 0x04; 0x73; 0x6d; 0x61; 0x6c; 0x6c; 0x65; 0x72; 0x20; 0x70; 0x61; 0x63; 0x6b;
   0x65; 0x74; 0x73; 0x20; 0x28; 0x69; 0x74; 0x28; 0xa2; 0x74; 0x20; 0x25; 0x64; 0x7a; 0x02; 0xf9;
   0x07; 0x29; 0x2c; 0x20; 0x64; 0x6f; 0x77; 0x6e; 0x6c; 0x6f; 0x61; 0x64; 0x20; 0x6d; 0x69; 0x67;
   0x68; 0x74; 0x20; 0x74; 0x61; 0x6b; 0x65; 0x89; 0x01; 0x55; 0x65; 0x72; 0x2e; 0x0a; 0; 0x46;
   0x41; 0x54; 0x33; 0x32; 0xd6; 0x84; 0x2f; 0x01; 0x90; 0x74; 0x6f; 0x3e; 0x01; 0x07; 0xdd; 0x05;
   0x15; 0; 0x46; 0x1e; 0x01; 0x50; 0x7f; 0x10; 0x73; 0x74; 0x61; 0x67; 0x65; 0x20; 0x33; 0x2e;
   0; 0x2f; 0x62; 0x6f; 0x6f; 0x74; 0x2f; 0x6c; 0x69; 0x6d; 0x69; 0x6e; 0x65; 0x2d; 0x62; 0x69;
   0x6f; 0x73; 0x2e; 0x73; 0x79; 0x73; 0; 0x10; 0x04; 0x80; 0x1b; 0x01; 0; 0xb4; 0x18; 0x63;
   0x6f; 0x72; 0x50; 0xb1; 0x2e; 0x0a; 0; 0x69; 0x73; 0x6f; 0x4c; 0x01; 0x82; 0xaa; 0x01; 0x69;
   0x62; 0x65; 0x79; 0x6f; 0x6e; 0x64; 0x20; 0x65; 0x6e; 0x64; 0x20; 0x6f; 0x66; 0xe1; 0xf9; 0x12;
   0; 0x1b; 0x5b; 0x33; 0x31; 0x6d; 0x50; 0x41; 0x4e; 0x49; 0x43; 0x1b; 0x5b; 0x33; 0x37; 0x3b;
   0x31; 0x6d; 0x1b; 0x5b; 0x30; 0x6d; 0x3a; 0x20; 0; 0x41; 0x20; 0x6e; 0x6f; 0x6e; 0x2d; 0x75;
   0x73; 0x16; 0x02; 0x8d; 0x6d; 0x27; 0x03; 0x81; 0x3b; 0x02; 0x88; 0x79; 0x2b; 0x01; 0x4b; 0x69;
   0x6e; 0x73; 0x69; 0x64; 0x65; 0x20; 0x61; 0x20; 0x24; 0x8a; 0x73; 0xdc; 0x01; 0x8c; 0x2e; 0x54;
   0x02; 0; 0xd6; 0x20; 0x65; 0x74; 0x65; 0x72; 0xb1; 0x11; 0x20; 0x62; 0xe5; 0x80; 0xe1; 0x01;
   0x09; 0; 0x6c; 0xb8; 0x3a; 0x20; 0; 0x30; 0x78; 0; 0x41; 0x44; 0x03; 0x80; 0x13; 0x03].

Definition hdd_bin_10 : list Z :=
  [0x85; 0x02; 0x04; 0xe0; 0; 0x50; 0x72; 0x65; 0x73; 0x73; 0x20; 0x61; 0x20; 0x6b; 0x65; 0x79;
   0x22; 0x01; 0x82; 0xe8; 0x03; 0x80; 0x0e; 0x01; 0x9b; 0x25; 0x73; 0x2e; 0xee; 0x02; 0xa9; 0x43;
   0x6c; 0x6f; 0x73; 0x65; 0xe0; 0x01; 0x94; 0x75; 0x72; 0x02; 0x03; 0x86; 0x36; 0x01; 0xf8; 0x0a;
   0x67; 0x65; 0x74; 0x20; 0x44; 0x48; 0x43; 0x50; 0x20; 0x63; 0x61; 0x63; 0x68; 0x65; 0x64; 0x20;
   0x69; 0x6e; 0x66; 0x6f; 0; 0x44; 0x69; 0x76; 0x69; 0x47; 0x03; 0x79; 0x0f; 0; 0x30; 0x78;
   0x30; 0; 0x53; 0x74; 0x61; 0x63; 0x6b; 0x74; 0x72; 0x61; 0x63; 0x65; 0x3a; 0x0a; 0; 0x20;
   0x20; 0x5b; 0x25; 0x70; 0x5d; 0x0a; 0; 0x48; 0x69; 0x67; 0x68; 0xe7; 0x86; 0x8d; 0x03; 0xb8;
   0x6f; 0x72; 0x3a; 0x20; 0x4f; 0x75; 0x74; 0x2a; 0x01; 0x02; 0x19; 0x82; 0xeb; 0x03; 0x79; 0x01;
   0x20; 0x73; 0x74; 0x72; 0x75; 0x63; 0x74; 0x75; 0x72; 0x65; 0x20; 0x73; 0x69; 0x67; 0x6e; 0x61;
   0x0a; 0x85; 0xfb; 0x02; 0x01; 0xa4; 0x86; 0xba; 0x02; 0xc8; 0x4d; 0x54; 0x55; 0x20; 0x28; 0x25;
   0x75; 0x29; 0x2c; 0x9b; 0x03; 0x82; 0x4a; 0x02; 0xfa; 0x09; 0x20; 0x66; 0x6f; 0x72; 0x20; 0x54;
   0x46; 0x54; 0x50; 0x20; 0x68; 0x65; 0x61; 0x64; 0x65; 0x72; 0x73; 0x0a; 0; 0x42; 0x6f; 0x75;
   0x6e; 0x64; 0xf3; 0x04; 0x81; 0x45; 0x04; 0xb0; 0x65; 0x64; 0x65; 0x64; 0; 0x50; 0xf9; 0x01;
   0x81; 0x29; 0x03; 0x87; 0x3b; 0x02; 0x0c; 0x84; 0x5a; 0x05; 0x78; 0x04; 0x20; 0x64; 0x65; 0x73;
   0x63; 0x72; 0x69; 0x70; 0x74; 0x6f; 0x72; 0; 0x3f; 0x3f; 0x3f; 0; 0x65; 0x64; 0x69; 0x0b;
   0xef; 0x46; 0x41; 0x54; 0; 0x2e; 0x2f; 0; 0x0a; 0; 0x4e; 0x54; 0x46; 0x53; 0x68; 0x04;
   0x07; 0x84; 0x41; 0x01; 0xe9; 0x2e; 0; 0x21; 0x50; 0x58; 0x45; 0; 0x44; 0x65; 0x76; 0x69;
   0x63; 0x65; 0xb6; 0x01; 0xa8; 0x61; 0x76; 0x61; 0x69; 0x6c; 0x0d; 0x04; 0x85; 0x6d; 0x04; 0xca;
   0x54; 0x53; 0x53; 0; 0x0a; 0x21; 0x21; 0x20; 0x53; 0x8d; 0x02; 0x80; 0x1a; 0x03; 0x02; 0x2b;
   0x08; 0x66; 0xb9; 0x08; 0x21; 0x1b; 0xff; 0x01; 0x48; 0x61; 0x76; 0x65; 0x20; 0x79; 0x6f; 0x75;
   0x20; 0x63; 0x6f; 0x70; 0x69; 0x65; 0x64; 0x20; 0x99; 0x02; 0x05; 0x90; 0x74; 0x6f; 0x54; 0x03;
   0x81; 0xed; 0x02; 0x21; 0x2c; 0x20; 0x2f; 0x62; 0x07; 0x83; 0xce; 0x02; 0x22; 0x2c; 0x20; 0x6f;
   0x72; 0x13; 0x03; 0x11; 0; 0x50; 0x83; 0x11; 0x03; 0x80; 0xa6; 0x04; 0x80; 0xab; 0x02; 0x98;
   0x6f; 0x6e; 0x65; 0xb2; 0x02; 0x80; 0x97; 0x03; 0xa8; 0x70; 0x61; 0x72; 0x74; 0x69; 0x12; 0x06;
   0x88; 0x73; 0x4c; 0x06; 0x94; 0x74; 0x68; 0x5d; 0x02; 0x01; 0xc1; 0xa7; 0x3f; 0x0a; 0x0a; 0;
   0x25; 0x03; 0x05; 0x83; 0x54; 0x02; 0xe2; 0x43; 0x54; 0x52; 0x4c; 0x2b; 0x41; 0x4c; 0x54; 0x2b;
   0x44; 0x45; 0x4c; 0x7d; 0x03; 0; 0x38; 0x8a; 0x2e; 0x0f; 0x02; 0x92; 0x2d; 0x73; 0x9c; 0x05;
   0x82; 0x9a; 0x04; 0x86; 0x99; 0x02; 0x82; 0x4d; 0x04; 0xa8; 0; 0x4d; 0x61; 0x63; 0x68; 0xc7;
   0x02; 0x01; 0x0e; 0x04; 0x61; 0x07; 0x68; 0x06; 0x9f; 0x2e; 0x2e; 0x2f; 0x68; 0x01; 0x03; 0x02;
   0xa6; 0x98; 0x64; 0x69; 0x73; 0x49; 0x06; 0x8d; 0x77; 0x1d; 0x02; 0x86; 0xad; 0x02; 0xa2; 0x6f;
   0x70; 0x65; 0x6e; 0x68; 0x04; 0x90; 0x25; 0x78; 0x06; 0x01; 0x9b; 0x62; 0x61; 0x64; 0x67; 0x04;
   0x81; 0xe5; 0x04; 0x87; 0xf4; 0x06; 0x05; 0x98; 0x71; 0x75; 0x65; 0xa1; 0x06; 0x07; 0x23; 0x01;
   0x9b; 0x20; 0x25; 0x75; 0x33; 0x02; 0xa9; 0x73; 0x20; 0x6f; 0x75; 0x72; 0x71; 0x02; 0x9f; 0x25;
   0x75; 0x0a; 0x2f; 0x04; 0x02; 0x87; 0x36; 0x04; 0x16; 0xfd; 0x04; 0x62; 0x75; 0x69; 0x6c; 0x64;
   0x20; 0x49; 0x44; 0x20; 0x6d; 0x69; 0x73; 0x6d; 0x61; 0x74; 0x63; 0x68; 0x2e; 0x0a; 0x85; 0x05;
   0x85; 0x91; 0x02; 0xc7; 0x20; 0x6d; 0x61; 0x78; 0x69; 0x6d; 0x75; 0x6d; 0x76; 0x02; 0x07; 0xb9;
   0x20; 0x73; 0x65; 0x61; 0x72; 0x63; 0x68; 0xf4; 0x01; 0x91; 0x74; 0; 0x78; 0x03; 0x41; 0x5f;
   0x62; 0x6c; 0x6f; 0x63; 0x6b; 0x3a; 0x20; 0x07; 0x01; 0xa9; 0x86; 0xe3; 0x03; 0x88; 0x66; 0x8b;
   0x04; 0x9d; 0x3a; 0x20; 0x61; 0x21; 0x08; 0x8a; 0x6f; 0x65; 0x03; 0x88; 0x62; 0x06; 0x03; 0x89;
   0x73; 0xa9; 0x04; 0x92; 0; 0x45; 0xa2; 0x04; 0x81; 0xa6; 0x03; 0xc8; 0x2e; 0x20; 0; 0x43;
   0x6f; 0x6e; 0x76; 0x65; 0x6e; 0x07; 0x08; 0x94; 0x61; 0x6c; 0xa6; 0x03; 0x86; 0xcb; 0x02; 0x84;
   0xec; 0x05; 0xac; 0x44; 0x6f; 0x75; 0x62; 0x6c; 0x34; 0x03; 0xe9; 0x78; 0x38; 0x37; 0; 0x56;
   0x69; 0x72; 0x74; 0x75; 0x61; 0x6c; 0x69; 0x73; 0x42; 0x08; 0x84; 0x0c; 0x05; 0x86; 0x30; 0x07;
   0x81; 0x42; 0x01; 0x86; 0x72; 0x03; 0xff; 0x01; 0x30; 0x31; 0x32; 0x33; 0x34; 0x35; 0x36; 0x37;
   0x38; 0x39; 0x61; 0x62; 0x63; 0x64; 0x65; 0x66; 0x1e; 0x06; 0x02; 0x82; 0xf3; 0x05; 0x88; 0x6d;
   0x62; 0x08; 0xf8; 0; 0x64; 0x61; 0x74; 0x61; 0x20; 0x74; 0x68; 0x61; 0x6e; 0x20; 0x65; 0x78;
   0x70; 0x65; 0x63; 0xf6; 0x03; 0; 0x5b; 0x87; 0xdd; 0x05; 0x07; 0x81; 0x09; 0x07; 0x02; 0x30;
   0x83; 0x69; 0x04; 0xc6; 0x20; 0x3c; 0x25; 0x73; 0x2b; 0x25; 0x70; 0x3e; 0x60; 0x01; 0xdf; 0x20;
   0x6e; 0x6f; 0x20; 0x70; 0x72; 0x69; 0x6d; 0x61; 0x72; 0x79; 0xd0; 0x03; 0x08; 0x9f; 0x21; 0x70;
   0x78; 0x67; 0x04; 0x11; 0x88; 0x52; 0x7f; 0x07; 0x84; 0x0a; 0x05; 0xa8; 0x44; 0x65; 0x62; 0x75;
   0x67; 0x59; 0x09; 0xc8; 0x5f; 0x66; 0x72; 0x65; 0x65; 0x3a; 0x20; 0x55; 0x6e; 0xa4; 0x08; 0x80;
   0x25; 0x09; 0x80; 0xc1; 0x07; 0x80; 0xb4; 0x07; 0x97; 0x25; 0x70; 0xdb; 0x08; 0x03; 0x89; 0x5f;
   0xda; 0x08; 0x88; 0x65; 0x8d; 0x01; 0x85; 0x4d; 0x01; 0x87; 0xad; 0x01; 0x04; 0xe6; 0x55; 0x6e;
   0x6b; 0x6e; 0x6f; 0x77; 0x6e; 0; 0x58; 0x46; 0x45; 0x52; 0x41; 0x01; 0xa1; 0x50; 0x61; 0x74;
   0x68; 0x60; 0x09; 0x90; 0x6f; 0x6e; 0x09; 0x07; 0x83; 0x81; 0x02; 0x85; 0x22; 0x02; 0xef; 0x6c;
   0x65; 0x6e; 0x67; 0x74; 0x68; 0; 0x28; 0x6e; 0x75; 0x6c; 0x6c; 0x29; 0x12; 0x05; 0x04; 0xc0;
   0x49; 0x50; 0x76; 0x34; 0x20; 0x61; 0x64; 0x64; 0x94; 0x03; 0xb1; 0x3a; 0x20; 0x22; 0x25; 0x73;
   0x22; 0xa3; 0x67; 0xfa; 0x02; 0x02; 0; 0x04; 0; 0x08; 0; 0x10; 0x01; 0x02; 0x04; 0x08;
   0x10; 0x20; 0x40; 0x80; 0; 0x02; 0x5d; 0x0a; 0x20; 0x2e; 0; 0; 0x2e; 0x04; 0x08; 0x2f;
   0x08; 0x4a; 0x2f; 0; 0; 0x10; 0x2d; 0x01; 0; 0x61; 0x2e; 0x04; 0x0b; 0x80; 0x08; 0x15;
   0xcf; 0x2e; 0x14; 0x01; 0x20; 0x7a; 0x2b; 0x17; 0x54; 0x01; 0; 0xfc; 0x58; 0x01; 0; 0x15;
   0x50; 0x01; 0; 0x50; 0x51; 0x01; 0; 0x22; 0x50; 0x01; 0; 0xb6; 0x54; 0x01; 0; 0xe1;
   0x50; 0x01; 0; 0x39; 0x55; 0x01; 0; 0xfd; 0x57; 0x01; 0; 0; 0x55; 0x01; 0; 0x4e;
   0x55; 0x01; 0; 0x9d; 0x50; 0x01; 0; 0x33; 0x56; 0x01; 0; 0x94; 0x51; 0x01; 0; 0xcb;
   0x54; 0x18; 0xa8; 0x0a; 0x58; 0x01; 0; 0x47; 0x34; 0x5b; 0x48; 0x56; 0x01; 0; 0x4a; 0x51;
   0x01; 0; 0x0e; 0x58; 0x18; 0x07; 0x04; 0x17; 0xf8; 0x1a; 0x19; 0x50; 0x01; 0; 0x60; 0x4d;
   0x01; 0; 0x70; 0x4d; 0x01; 0; 0x80; 0x4d; 0x01; 0; 0x90; 0x4d; 0x01; 0; 0xa0; 0x4d;
   0x01; 0; 0xb0; 0x4d; 0x01; 0; 0xc0; 0x4d; 0x01; 0; 0xd0; 0x4d; 0x01; 0; 0xe0; 0x4d;
   0x01; 0; 0xf0; 0x44; 0x31; 0xf9; 0x47; 0x4e; 0x01; 0; 0x10; 0x4e; 0x01; 0; 0x20; 0x4e;
   0x01; 0; 0x30; 0x4e; 0x01; 0; 0x40; 0x4e; 0x01; 0; 0x50; 0x4e; 0x01; 0; 0x60; 0x4e;
   0x01; 0; 0x70; 0x4e; 0x01; 0; 0x80; 0x4e; 0x01; 0; 0x90; 0x4e; 0x01; 0; 0xa0; 0x4e;
   0x01; 0; 0xb0; 0x4e; 0x01; 0; 0xc0; 0x4e; 0x01; 0; 0xd0; 0x4e; 0x01; 0; 0xe0; 0x4e;
   0x01; 0; 0xf0; 0x4e; 0x01; 0; 0; 0x4f; 0x01; 0; 0x10; 0x4f; 0x01; 0; 0x20; 0x4f;
   0x01; 0; 0x30; 0x4f; 0x01; 0; 0x40; 0x4f; 0x01; 0; 0x50; 0x4f; 0x01; 0x98; 0x0b; 0xa0;
   0x14; 0; 0; 0; 0xbf; 0x67; 0x79; 0x24; 0x47; 0x4e; 0x55; 0; 0xb7; 0xbb; 0xd3; 0x4e;
   0x3c; 0xef; 0xe5; 0xc4; 0xc8; 0x5b; 0xb9; 0xe6; 0x42; 0xfc; 0xae; 0xba; 0x39; 0xbd; 0x01; 0x48;
   0x40; 0xf0; 0; 0; 0x73; 0x70; 0x69; 0x6e; 0x75; 0x70; 0; 0x1a; 0xf4; 0; 0; 0x5f;
   0x5f; 0x75; 0x64; 0x69; 0x76; 0x64; 0x69; 0x33; 0; 0x25; 0xf5; 0x0e; 0x18; 0x6d; 0x6f; 0x64;
   0x0e; 0xc1; 0x2a; 0xf6; 0; 0; 0x64; 0x69; 0x73; 0x6b; 0xb9; 0x0b; 0x91; 0x5f; 0x73; 0x8e;
   0x05; 0x23; 0x73; 0; 0x0e; 0xf7; 0x16; 0xf9; 0x02; 0x63; 0x72; 0x65; 0x61; 0x74; 0x65; 0x5f;
   0x69; 0x6e; 0x64; 0x65; 0x78; 0; 0x24; 0xfd; 0; 0; 0x19; 0x08; 0xa9; 0; 0xc8; 0xfe;
   0; 0; 0xb4; 0x08; 0x90; 0x33; 0x5f; 0x69; 0x09; 0xa2; 0; 0xb7; 0xff; 0; 0x3a; 0x0a;
   0x64; 0x5f; 0x67; 0x65; 0x74; 0x5f; 0x6c; 0x61; 0x62; 0x65; 0x6c; 0; 0xd8; 0x14; 0x01; 0x23;
   0x63; 0x5f; 0x63; 0x6f; 0x6e; 0x74; 0x65; 0x78; 0x74; 0; 0x5f; 0x02; 0x01; 0x2b; 0x80; 0x17;
   0x05; 0x1f; 0; 0x4b; 0x04; 0x0f; 0x01; 0xbb; 0x5f; 0x69; 0x6e; 0; 0xee; 0x08; 0x01; 0x5e;
   0x04; 0x83; 0x85; 0x0a; 0x89; 0x5f; 0x85; 0x0a; 0x1c; 0; 0xe7; 0x09; 0x39; 0x81; 0x3c; 0x04;
   0x14; 0x1f; 0x0a; 0x48; 0x88; 0x63; 0x2a; 0x08; 0x28; 0; 0x4f; 0x0a; 0x01; 0; 0xc4; 0x07;
   0x36; 0x04; 0x17; 0x66; 0x0b; 0x17; 0x04; 0x7e; 0; 0x66; 0x72; 0x6f; 0x6d; 0x5f; 0x6d; 0x61;
   0x70; 0; 0xb3; 0x0c; 0x01; 0; 0x66; 0x73; 0xb1; 0x16; 0; 0xbc; 0x11; 0x30; 0x67; 0x75;
   0x69; 0x64; 0; 0xc3; 0x10; 0x01; 0xa5; 0x2a; 0x65; 0x0d; 0x01; 0; 0x66; 0x67; 0x08; 0xb3;
   0x0b; 0x01; 0x81; 0x13; 0x13; 0x0e; 0x0a; 0x2e; 0x61; 0x6c; 0x6c; 0; 0x2a; 0x0d; 0x98; 0x6c;
   0x5f; 0x6d; 0xb4; 0x0b; 0x9c; 0xc9; 0x0f; 0x01; 0x8b; 0x04; 0x02; 0xea; 0xa0; 0xbb; 0x14; 0x01;
   0; 0x3d; 0x0a; 0x88; 0x5f; 0x94; 0x04; 0x1e; 0; 0xfd; 0x15; 0x1f; 0x88; 0x6e; 0x8a; 0x0c;
   0x82; 0x59; 0x01; 0x15; 0x99; 0x16; 0x17; 0x02; 0xe7; 0x15; 0x0a; 0x18; 0x28; 0x03; 0xe9; 0x09;
   0x3a; 0x12; 0x90; 0x70; 0x72; 0xae; 0x0b; 0x7b; 0x11; 0x4b; 0x18; 0x01; 0; 0x74; 0x6f; 0x75;
   0x70; 0x70; 0x65; 0x72; 0; 0x5f; 0x18; 0x01; 0; 0x61; 0x62; 0x73; 0; 0x6e; 0x18; 0x01;
   0; 0x73; 0x74; 0x72; 0x63; 0x70; 0x79; 0; 0x91; 0x0b; 0x23; 0x6d; 0x70; 0; 0xc7; 0x0b;
   0x18; 0x61; 0x73; 0x65; 0x0f; 0x11; 0x4b; 0x19; 0x0f; 0x08; 0x6e; 0x0c; 0x0b; 0x8b; 0x0c; 0x04;
   0x1c; 0x0a; 0xfc; 0x10; 0x78; 0x0a; 0x6c; 0x65; 0x6e; 0; 0x11; 0x1a; 0x01; 0; 0x69; 0x6e;
   0x65; 0x74; 0x5f; 0x70; 0x74; 0x6f; 0x6e; 0; 0x7b; 0x1a; 0x01; 0; 0x6d; 0x65; 0x6d; 0x5a;
   0x0a; 0x9e; 0x0b; 0x2a; 0x73; 0x65; 0x74; 0; 0xba; 0x16; 0x32; 0x6d; 0x6f; 0x76; 0x65; 0;
   0xfe; 0x22; 0; 0x62; 0x58; 0x31; 0x1b; 0x01; 0; 0x62; 0x63; 0x64; 0x5f; 0x74; 0x6f; 0x5f;
   0xaa; 0x4c; 0x4a; 0x1b; 0x01; 0; 0x64; 0x69; 0x67; 0x69; 0x74; 0x11; 0x11; 0x82; 0x1b; 0x91;
   0xc8; 0x74; 0x6f; 0x75; 0x69; 0; 0x88; 0x1c; 0x01; 0; 0x77; 0x01; 0xfe; 0x0d; 0x61; 0x62;
   0x73; 0x6f; 0x6c; 0x75; 0x74; 0x65; 0x5f; 0x70; 0x61; 0x74; 0x68; 0; 0x54; 0x1e; 0x01; 0;
   0x70; 0x61; 0x6e; 0x69; 0x63; 0; 0x3f; 0x1f; 0x01; 0; 0x60; 0x0e; 0xce; 0x64; 0; 0xf9;
   0x21; 0x01; 0; 0x67; 0x70; 0x74; 0xab; 0x01; 0x90; 0x90; 0x22; 0x26; 0x01; 0x89; 0x5f; 0x7c;
   0x04; 0x61; 0x5f; 0x6d; 0x62; 0x72; 0; 0x44; 0x24; 0x01; 0; 0x6d; 0x62; 0x72; 0x22; 0x28;
   0x69; 0x64; 0; 0x84; 0x24; 0x4b; 0x09; 0x72; 0x32; 0x1c; 0; 0x0c; 0x2b; 0x4e; 0x01; 0x41;
   0x12; 0x62; 0x79; 0x44; 0x0f; 0x80; 0x17; 0x06; 0x92; 0x66; 0x73; 0x19; 0x02; 0x0f; 0xd0; 0x1a;
   0x06; 0x47; 0x63; 0x6f; 0x6f; 0x72; 0x64; 0; 0x10; 0x2c; 0x18; 0x05; 0x80; 0x25; 0x08; 0x8a;
   0x5f; 0x01; 0x0b; 0xa2; 0x3b; 0x2c; 0x01; 0; 0xa5; 0x01; 0x08; 0x54; 0x27; 0x82; 0xb0; 0x01;
   0x10; 0xeb; 0x30; 0x15; 0x42; 0x6e; 0x5f; 0x73; 0x74; 0x72; 0; 0x42; 0x31; 0x0c; 0x1b; 0x69;
   0; 0xf9; 0x0a; 0x2a; 0x75; 0x69; 0; 0x92; 0x32; 0x15; 0x23; 0x78; 0; 0x04; 0x33; 0x40;
   0x95; 0x5f; 0x73; 0xca; 0x0a; 0xce; 0; 0xa6; 0x33; 0x01; 0; 0x63; 0x6f; 0x6e; 0x76; 0xb8;
   0x0e; 0x9a; 0; 0xbb; 0x34; 0x7f; 0x01; 0x93; 0x61; 0x70; 0xee; 0x05; 0x81; 0x54; 0x0f; 0xa1;
   0; 0xf7; 0x34; 0x01; 0x25; 0x06; 0x90; 0x73; 0x61; 0x09; 0x0d; 0x9b; 0x73; 0x65; 0x5f; 0x0d;
   0x0e; 0x9a; 0; 0x3d; 0x39; 0x6c; 0x01; 0x02; 0x34; 0x98; 0; 0x6e; 0x39; 0xe2; 0x01; 0x0d;
   0x69; 0x10; 0x92; 0xb3; 0x3b; 0x8b; 0x01; 0x1c; 0x72; 0x61; 0x77; 0x23; 0x9d; 0xc8; 0x3b; 0x01;
   0x70; 0x06; 0x88; 0x5f; 0x96; 0x0d; 0x26; 0x5f; 0x74; 0; 0xdd; 0x14; 0x22; 0x65; 0; 0x59;
   0x3c; 0x0d; 0x12; 0x72; 0x65; 0x93; 0x99; 0xcd; 0x3c; 0x01; 0x5d; 0x0f; 0x06; 0xa5; 0x0f; 0xe9;
   0x12; 0x05; 0x04; 0x48; 0x9f; 0x04; 0x3d; 0x01; 0xad; 0x06; 0x0b; 0x17; 0; 0x69; 0x1a; 0x06;
   0xab; 0x74; 0x79; 0x70; 0x65; 0x5f; 0xed; 0x06; 0x17; 0; 0x84; 0x1f; 0x12; 0x82; 0x83; 0x03;
   0xa0; 0x59; 0x3f; 0x01; 0; 0x19; 0x01; 0x81; 0x06; 0x02; 0x81; 0x22; 0x0c; 0x12; 0x72; 0x40;
   0xb7; 0x81; 0xe2; 0x09; 0x01; 0x51; 0x9f; 0; 0xdb; 0x40; 0x40; 0x01; 0x09; 0x80; 0x89; 0x04;
   0x12; 0x15; 0x42; 0x2d; 0x9b; 0x6e; 0x65; 0x77; 0x9e; 0x03; 0x98; 0x27; 0x44; 0x01; 0xaf; 0x0f;
   0xb2; 0x5f; 0x62; 0x69; 0x6e; 0x64; 0x5f; 0xc7; 0x07; 0x12; 0; 0x3c; 0x14; 0x82; 0x08; 0x05;
   0x99; 0x01; 0x45; 0x01; 0xbf; 0x0c; 0x82; 0xdc; 0x04; 0x3a; 0x99; 0x49; 0x01; 0; 0x61; 0x32].

Definition hdd_bin_11 : list Z :=
  [0x30; 0x6e; 0x13; 0; 0xe5; 0x0e; 0x82; 0x83; 0x0f; 0x98; 0; 0x27; 0x4b; 0xe7; 0x04; 0xa0;
   0x6c; 0x69; 0x62; 0x72; 0x61; 0x05; 0xb3; 0x74; 0x73; 0x63; 0; 0x5c; 0x4c; 0x8b; 0x01; 0xca;
   0x65; 0x38; 0x32; 0x30; 0; 0xec; 0x4c; 0x01; 0; 0x6b; 0x10; 0x1b; 0; 0x19; 0x4d; 0x19;
   0xa0; 0x69; 0x64; 0x74; 0; 0xf2; 0x3f; 0x8c; 0x01; 0x03; 0x6f; 0x8f; 0x10; 0xd0; 0x6d; 0x04;
   0x80; 0x92; 0x50; 0x0b; 0x9b; 0x08; 0x0c; 0x93; 0x10; 0x0b; 0xcf; 0x10; 0x0a; 0xcf; 0x2a; 0x88;
   0x9b; 0x27; 0x5d; 0; 0x20; 0x83; 0x38; 0x6f; 0x8f; 0x89; 0x5e; 0x6f; 0x07; 0].

Definition binary_limine_hdd_bin_data : list Z :=
  hdd_bin_0 ++ hdd_bin_1 ++ hdd_bin_2 ++ hdd_bin_3 ++ hdd_bin_4 ++ hdd_bin_5 ++ hdd_bin_6 ++ hdd_bin_7 ++ hdd_bin_8 ++ hdd_bin_9 ++ hdd_bin_10 ++ hdd_bin_11.

(** What the installer needs to know of the image. *)
Lemma image_length : Z.of_nat (length binary_limine_hdd_bin_data) = 22622.
Proof. vm_compute. reflexivity. Qed.

Lemma image_bytes : Forall (λ b, 0 ≤ b < 256) binary_limine_hdd_bin_data.
Proof.
  apply Forall_forall. intros b Hb.
  assert (forallb (λ b, (0 <=? b) && (b <? 256)) binary_limine_hdd_bin_data = true) as H by (vm_compute; reflexivity).
  rewrite forallb_forall in H. specialize (H b ltac:(by apply list_elem_of_In)). zify_bools. lia.
Qed.

End LimineImage.
