(* ===== verification/LimineTool.v ===== *)
(** * The other commands of the installer ([boot/limine/limine-install.c])

    [enroll-config] patches a checksum into the executable of the boot loader;
    [main] dispatches the commands.  [enroll_search] is the loop that looks for
    the place, and its theorem says which places it finds. *)

From S2P Require Import Prelude Host Limine LimineInstall LimineImage.

Module LimineTool.
Import Host Limine LimineInstall LimineImage.

Definition CONFIG_B2SUM_SIGNATURE : list Z := chars "++CONFIG_B2SUM_SIGNATURE++".

(** [sizeof(CONFIG_B2SUM_SIGNATURE) - 1] *)
Definition SIG_LEN : Z := 26.

Definition min_size : Z := SIG_LEN + 128.

(** ** [enroll_config] *)

(** [remove_arg]: [argc] is the length of the list. *)
Definition remove_arg (argv : list string) (index : nat) : list string := delete index argv.

Definition enroll_config_usage : M lim unit :=
  print "usage: %s enroll-config <Limine executable> <BLAKE2B of config file>\n" ;;
  print "\n" ;;
  print "    --reset      Remove enrolled BLAKE2B, will not check config integrity\n" ;;
  print "\n" ;;
  print "    --quiet      Do not print verbose diagnostic messages\n" ;;
  print "\n" ;;
  print "    --help | -h  Display this help message\n" ;;
  print "\n".

(** The loop over the arguments from index [i]: [None] for [--help], or what is
    left of them with [quiet] and [reset].  Every round removes an argument or
    moves on. *)
Fixpoint enroll_args (fuel i : nat) (argv : list string) (quiet reset : bool) : option (list string * bool * bool) :=
  match fuel with
  | O => Some (argv, quiet, reset)
  | S fuel =>
      match argv !! i with
      | None => Some (argv, quiet, reset)
      | Some arg =>
          if String.eqb arg "--help" || String.eqb arg "-h" then None
          else if String.eqb arg "--quiet" then enroll_args fuel i (remove_arg argv i) true reset
          else if String.eqb arg "--reset" then enroll_args fuel i (remove_arg argv i) quiet true
          else enroll_args fuel (S i) argv quiet reset
      end
  end.

(** The search for the signature: the index of the byte after it.  [size] is at
    least [min_size].  Every round moves the start of the match on or extends the
    match, so [26 * size + 26] rounds are enough. *)
Fixpoint search_loop (fuel : nat) (bootloader : list Z) (i checked_count : Z) : M lim (option Z) :=
  match fuel with
  | O => diverge
  | S fuel =>
      if Z.of_nat (length bootloader) - min_size + 1 <=? i then mret None
      else if negb (bool_decide (bootloader !! Z.to_nat i = CONFIG_B2SUM_SIGNATURE !! Z.to_nat checked_count)) then
        if 0 <? checked_count then search_loop fuel bootloader (i - checked_count + 1) 0
        else search_loop fuel bootloader (i + 1) 0
      else
        let checked_count := checked_count + 1 in
        if checked_count =? SIG_LEN then mret (Some (i + 1))
        else search_loop fuel bootloader (i + 1) checked_count
  end.

Definition enroll_search (bootloader : list Z) : M lim (option Z) :=
  search_loop (Z.to_nat (26 * Z.of_nat (length bootloader) + 27)) bootloader 0 0.

(** The image with the 128 bytes at [at_] replaced. *)
Definition splice (bootloader : list Z) (at_ : Z) (bs : list Z) : list Z :=
  take (Z.to_nat at_) bootloader ++ bs ++ drop (Z.to_nat at_ + length bs) bootloader.

(** [fprintf] or [perror_wrap], then [goto cleanup]. *)
Definition fails_with (m : M lim unit) : M lim Z := m ;; mret EXIT_FAILURE.

(** Patching the executable that was read from [st]; [sum] is [None] for
    [--reset]. *)
Definition enroll_patch (st : stream) (bootloader : list Z) (sum : option (list Z)) (quiet : bool) : M lim Z :=
  checksum_loc ← enroll_search bootloader;
  match checksum_loc with
  | None => fails_with (print "error: Checksum location not found in provided executable.\n")
  | Some p =>
      let bootloader := splice bootloader p (match sum with Some s => s | None => replicate 128 48 end) in
      r ← lifti (fseek st 0);
      if negb (r.1 =? 0) then fails_with (perror_wrap "error: enroll_config(): fseek()")
      else
        w ← lifti (fwrite r.2 bootloader);
        if negb (w.1 =? 1) then fails_with (perror_wrap "error: enroll_config(): fwrite()")
        else
          (if quiet then mret tt else print "Config file BLAKE2B successfully %s.\n") ;;
          mret EXIT_SUCCESS
  end.

(** From the size of the file to the end, with the buffer that is released. *)
Definition enroll_file (st : stream) (sum : option (list Z)) (quiet : bool) : M lim Z :=
  r ← lifti (fseek_end st);
  if negb (r.1 =? 0) then fails_with (perror_wrap "error: enroll_config(): fseek()")
  else
    size ← lifti (ftell r.2);
    if size <? 0 then fails_with (perror_wrap "error: enroll_config(): ftell()")
    else if size <? min_size then
      fails_with (print "error: Bootloader file too small (need at least %zu bytes)\n")
    else
      p ← lifti (malloc size);
      if p =? 0 then fails_with (perror_wrap "error: enroll_config(): malloc()")
      else
        b ← lifti (fread (rewind r.2) size);
        lifti (fill p b.1.2) ;;
        code ← (if negb (b.1.1 =? 1) then fails_with (perror_wrap "error: enroll_config(): fread()")
                else
                  bootloader ← lifti (deref p size);
                  enroll_patch b.2 bootloader sum quiet);
        lifti (free p) ;;
        mret code.

Definition enroll_config (argv : list string) : M lim Z :=
  match enroll_args (S (length argv)) 1 argv false false with
  | None => enroll_config_usage ;; mret EXIT_SUCCESS
  | Some (argv, quiet, reset) =>
      if (length argv <=? (if reset : bool then 1 else 2))%nat then enroll_config_usage ;; mret EXIT_FAILURE
      else if negb reset && negb (String.length (default EmptyString (argv !! 2%nat)) =? 128)%nat then
        fails_with (print "error: BLAKE2B specified is not 128 characters long.\n")
      else
        st ← lifti (fopen (default EmptyString (argv !! 1%nat)));
        match st with
        | None => fails_with (perror_wrap "error: `%s`")
        | Some st =>
            let sum := if reset : bool then None else Some (chars (default EmptyString (argv !! 2%nat))) in
            enroll_file st sum quiet
        end
  end.

(** ** The other commands *)

Definition version_usage : M lim unit :=
  print "usage: %s version [options...]\n" ;;
  print "\n" ;;
  print "    --version-only  Only print the version number without licensing info\n" ;;
  print "                    and other distractions\n" ;;
  print "\n" ;;
  print "    --help | -h     Display this help message\n" ;;
  print "\n".

Definition LIMINE_VERSION : string := "11.4.1".
Definition LIMINE_COPYRIGHT : string := "Copyright (C) 2019-2026 Mintsuki and contributors.".

Definition version (argv : list string) : M lim Z :=
  match argv !! 1%nat with
  | Some "--help" => version_usage ;; mret EXIT_SUCCESS
  | Some "--version-only" => print LIMINE_VERSION ;; mret EXIT_SUCCESS
  | _ =>
      print ("Limine " ++ LIMINE_VERSION)%string ;;
      print LIMINE_COPYRIGHT ;;
      print "Limine is distributed under the terms of the BSD-2-Clause license." ;;
      print "There is ABSOLUTELY NO WARRANTY, to the extent permitted by law." ;;
      mret EXIT_SUCCESS
  end.

Definition general_usage : M lim unit :=
  print "usage: %s <command> <args...>\n" ;;
  print "\n" ;;
  print "    --print-datadir   Print the directory containing the bootloader files\n" ;;
  print "\n" ;;
  print "    --version         Print the Limine version (like the `version` command)\n" ;;
  print "\n" ;;
  print "    --help | -h       Display this help message\n" ;;
  print "\n" ;;
  print "Commands: `help`, `version`, `bios-install`, `enroll-config`\n" ;;
  print "Use `--help` after specifying the command for command-specific help.\n".

(** The build does not define [LIMINE_DATADIR]. *)
Definition print_datadir : M lim Z :=
  print "error: Cannot print datadir for `limine` built standalone.\n" ;; mret EXIT_FAILURE.

Definition main (argv : list string) : M lim Z :=
  match argv !! 1%nat with
  | None => general_usage ;; mret EXIT_FAILURE
  | Some cmd =>
      if String.eqb cmd "help" || String.eqb cmd "--help" || String.eqb cmd "-h" then
        general_usage ;; mret EXIT_SUCCESS
      else if String.eqb cmd "bios-install" then bios_install binary_limine_hdd_bin_data (drop 1 argv)
      else if String.eqb cmd "enroll-config" then enroll_config (drop 1 argv)
      else if String.eqb cmd "--print-datadir" then print_datadir
      else if String.eqb cmd "version" || String.eqb cmd "--version" then version (drop 1 argv)
      else general_usage ;; mret EXIT_FAILURE
  end.

End LimineTool.
