(* ===== verification/LimineFacts.v ===== *)
(** * The block cache of the installer

    [shows s n L v]: the device of [s] is the file [n] of [L] bytes and, through
    the cache, it contains the bytes [v].  When no call of the host fails, a
    transfer that stays inside the whole blocks of the device works on [v] as on
    an array, and any other transfer fails with [v] written out. *)

From S2P Require Import Prelude Host Limine.

Module LimineFacts.
Import Host Limine.

(** ** Arrays of bytes *)

(** The [n] bytes of [v] from [a], and [v] with [bs] written at [a]. *)
Definition vbytes (v : Z → Z) (a : Z) (n : nat) : list Z := (λ i, v (a + Z.of_nat i)) <$> seq 0 n.

Definition upd (v : Z → Z) (a : Z) (bs : list Z) (b : Z) : Z :=
  if (a <=? b) && (b <? a + Z.of_nat (length bs)) then wrap8 (default 0 (bs !! Z.to_nat (b - a))) else v b.

Lemma length_vbytes v a n : length (vbytes v a n) = n.
Proof. unfold vbytes. by rewrite length_fmap, length_seq. Qed.

Lemma vbytes_lookup v a n i : (i < n)%nat → vbytes v a n !! i = Some (v (a + Z.of_nat i)).
Proof. intros H. unfold vbytes. by rewrite list_lookup_fmap, lookup_seq_lt by done. Qed.

Lemma vbytes_app v a n k : vbytes v a (n + k) = vbytes v a n ++ vbytes v (a + Z.of_nat n) k.
Proof.
  unfold vbytes. rewrite seq_app, fmap_app, Nat.add_0_l. rewrite <-(Nat.add_0_r n) at 2.
  rewrite <-fmap_add_seq, <-list_fmap_compose. f_equal.
  apply list_fmap_ext. intros i x _. cbn. f_equal. lia.
Qed.

Lemma vbytes_ext v w a n :
  (∀ b, a ≤ b < a + Z.of_nat n → v b = w b) → vbytes v a n = vbytes w a n.
Proof.
  intros H. apply list_eq. intros i. destruct (decide (i < n)%nat).
  - rewrite !vbytes_lookup by done. f_equal. apply H. lia.
  - rewrite !lookup_ge_None_2; rewrite ?length_vbytes; done || lia.
Qed.

Lemma vbytes_ld v a c off n :
  (∀ i, 0 ≤ i < Z.of_nat n → v (a + i) = ld8 c (off + i)) → ld_bytes n c off = vbytes v a n.
Proof.
  intros H. apply list_eq. intros i. destruct (decide (i < n)%nat).
  - rewrite vbytes_lookup, ld_bytes_lookup by done. f_equal. symmetry. apply H. lia.
  - rewrite !lookup_ge_None_2; rewrite ?length_vbytes, ?length_ld_bytes; done || lia.
Qed.

(** ** States *)

(** The files other than the device. *)
Definition others (s : lim) : gmap string file :=
  match device s with Some st => delete (sname st) (files (io s)) | None => files (io s) end.

(** What transfers leave alone. *)
Definition core (s : lim) :=
  (allocs (io s), uninstall_data s, uninstall_data_rev s, uninstall_data_i s, uninstalling s, block_size s,
   uninstall_file s, sname <$> device s, others s).

Lemma core_intro s s' st st' :
  allocs (io s') = allocs (io s) → uninstall_data s' = uninstall_data s →
  uninstall_data_rev s' = uninstall_data_rev s → uninstall_data_i s' = uninstall_data_i s →
  uninstalling s' = uninstalling s → block_size s' = block_size s → uninstall_file s' = uninstall_file s →
  device s = Some st → device s' = Some st' → sname st' = sname st →
  delete (sname st) (files (io s')) = delete (sname st) (files (io s)) → core s' = core s.
Proof.
  intros Ha Hu Hr Hi Hn Hb Hf Hd Hd' Hs Hx. unfold core, others. rewrite Ha, Hu, Hr, Hi, Hn, Hb, Hf, Hd, Hd'. cbn.
  by rewrite Hs, Hx.
Qed.

Record shows (s : lim) (n : string) (L : Z) (v : Z → Z) (st : stream) (f : file) (c : mem) : Prop := Shows {
  sh_dev : device s = Some st;
  sh_name : sname st = n;
  sh_file : files (io s) !! n = Some f;
  sh_len : flen f = L;
  sh_max : 0 ≤ L < 2 ^ 63;
  sh_works : faults (io s) = [];
  sh_cache : cache s = Some c;
  sh_bs : 2 ≤ block_size s < 2 ^ 63;
  sh_block : cached_block s = 2 ^ 64 - 1 ∧ cache_state s = CACHE_CLEAN ∨
             0 ≤ cached_block s < L / block_size s;
  sh_bytes : ∀ a, 0 ≤ a < L →
    v a = if a / block_size s =? cached_block s then ld8 c (a mod block_size s) else ld8 (fdata f) a;
  sh_clean : cache_state s = CACHE_CLEAN → ∀ a, 0 ≤ a < L → v a = ld8 (fdata f) a;
}.

(** The bytes [v] are in the file; the cache may be anything. *)
Record written (s : lim) (n : string) (L : Z) (v : Z → Z) : Prop := Written {
  wr_dev : ∃ st, device s = Some st ∧ sname st = n;
  wr_file : ∃ f, files (io s) !! n = Some f ∧ flen f = L ∧ ∀ a, 0 ≤ a < L → v a = ld8 (fdata f) a;
  wr_max : 0 ≤ L < 2 ^ 63;
  wr_works : faults (io s) = [];
  wr_cache : is_Some (cache s);
  wr_bs : 2 ≤ block_size s < 2 ^ 63;
}.

(** ** Calls that work *)

Lemma on_device_run {A} s st (f : stream → M host (A * stream)) a st' h :
  device s = Some st → f st (io s) = Ok (a, st') h →
  on_device f s = Ok a (set_device (Some st') (set_io h s)).
Proof. intros Hd Hf. unfold on_device. by rewrite Hd, Hf. Qed.

Lemma next_event_works h : faults h = [] → next_event h = Ok Works h.
Proof. intros H. unfold next_event. by rewrite H. Qed.

Lemma sint64_low p : 0 ≤ p < 2 ^ 63 → sint64 p = p.
Proof. intros H. unfold sint64. rewrite Z.mod_small; lia. Qed.

Lemma sint64_high p : 2 ^ 63 ≤ p < 2 ^ 64 → sint64 p < 0.
Proof.
  intros H. unfold sint64. replace (p + 2 ^ 63) with (p - 2 ^ 63 + 1 * 2 ^ 64) by lia.
  rewrite Z_mod_plus_full, Z.mod_small; lia.
Qed.

Lemma fseek_works st p h :
  faults h = [] → 0 ≤ p < 2 ^ 63 → fseek st p h = Ok (0, Stream (sname st) p (serr st)) h.
Proof.
  intros Hf Hp. unfold fseek. rewrite next_event_works, sint64_low by done.
  by rewrite (proj2 (Z.ltb_ge _ _)) by lia.
Qed.

Lemma fseek_high st p h : faults h = [] → 2 ^ 63 ≤ p < 2 ^ 64 → fseek st p h = Ok (-1, st) h.
Proof.
  intros Hf Hp. unfold fseek. rewrite next_event_works by done.
  by rewrite (proj2 (Z.ltb_lt _ _)) by (by apply sint64_high).
Qed.

Lemma fread_works st k f h :
  faults h = [] → files h !! sname st = Some f → 0 ≤ spos st → 0 ≤ k →
  let c := Z.max 0 (Z.min k (flen f - spos st)) in
  fread st k h = Ok ((if (0 <? k) && (c =? k) then 1 else 0), ld_bytes (Z.to_nat c) (fdata f) (spos st),
                     Stream (sname st) (spos st + c) (serr st)) h.
Proof. intros Hf Hl Hp Hk. unfold fread, avail, file_of. by rewrite next_event_works, Hl. Qed.

Lemma fwrite_works st bs h :
  faults h = [] → bs ≠ [] →
  fwrite st bs h = Ok (1, Stream (sname st) (spos st + Z.of_nat (length bs)) (serr st)) (put_bytes st bs h).
Proof.
  intros Hf Hb. unfold fwrite. rewrite next_event_works by done.
  destruct bs; [done|]. by rewrite (proj2 (Z.ltb_lt _ _)) by (cbn; lia).
Qed.

(** ** Flushing *)

Lemma div_block a b bs : 0 < bs → 0 ≤ a → (a / bs =? b) = (b * bs <=? a) && (a <? b * bs + bs).
Proof.
  intros Hbs Ha. pose proof (Z.div_mod a bs) as E. pose proof (Z.mod_pos_bound a bs Hbs).
  destruct (Z.eqb_spec (a / bs) b) as [<-|Hne]; symmetry.
  - apply andb_true_iff. rewrite Z.leb_le, Z.ltb_lt. lia.
  - apply not_true_iff_false. rewrite andb_true_iff, Z.leb_le, Z.ltb_lt. intros H'. apply Hne.
    symmetry. apply Z.div_unique with (a - b * bs); lia.
Qed.

(** The end of the block that holds [a] is inside the device. *)
Lemma block_end b L bs : 0 < bs → 0 ≤ b < L / bs → b * bs + bs ≤ L.
Proof. intros H Hb. pose proof (Z.mul_div_le L bs H). nia. Qed.

Lemma flush_run s n L v st f c :
  shows s n L v st f c →
  ∃ s' st' f', device_flush_cache s = Ok true s' ∧ shows s' n L v st' f' c ∧ core s' = core s ∧
    cache_state s' = CACHE_CLEAN ∧ cached_block s' = cached_block s.
Proof.
  intros [Hd Hn Hf HL Hm Hw Hc Hbs Hb Hv Hcl]. unfold device_flush_cache.
  erewrite bind_Ok_eq by reflexivity. destruct (cache_state s) eqn:E.
  { exists s, st, f. split; [done|]. split; [by constructor; rewrite ?E|done]. }
  do 2 erewrite bind_Ok_eq by reflexivity. destruct Hb as [[_ ?]|Hb]; [done|].
  pose proof (block_end _ _ _ (ltac:(lia) : 0 < block_size s) Hb).
  rewrite (wrap64_small (_ * _)) by nia.
  erewrite bind_Ok_eq by (eapply on_device_run; [done|by apply fseek_works; [done|nia]]). cbn [negb Z.eqb].
  unfold cache_bytes. erewrite bind_Ok_eq by (erewrite bind_Ok_eq by reflexivity; cbn; rewrite Hc; reflexivity).
  assert (length (ld_bytes (Z.to_nat (block_size s)) c 0) = Z.to_nat (block_size s)) as Hl by apply length_ld_bytes.
  erewrite bind_Ok_eq.
  2:{ eapply on_device_run; [reflexivity|]. apply fwrite_works; [done|]. intros H0. rewrite H0 in Hl. cbn in Hl. lia. }
  cbn [negb Z.eqb Pos.eqb]. erewrite bind_Ok_eq by reflexivity.
  eexists _, _, _. split; [reflexivity|]. unfold put_bytes, file_of. cbn [sname spos io set_io set_device files].
  rewrite Hn, Hf. cbn [from_option id].
  split; [|split; [eapply core_intro; try done; cbn; rewrite Hn; apply delete_insert_eq|done]].
  assert (∀ a, 0 ≤ a < L → v a = ld8 (st_bytes (cached_block s * block_size s)
    (ld_bytes (Z.to_nat (block_size s)) c 0) (fdata f)) a) as Hv'.
  { intros a Ha. rewrite (Hv a Ha), ld8_st_bytes, Hl, Z2Nat.id by lia. rewrite div_block by lia.
    destruct (_ && _) eqn:Ea; [|done]. zify_bools.
    rewrite ld_bytes_lookup by lia. cbn [from_option id]. rewrite wrap8_small by apply ld8_range.
    apply (f_equal (ld8 c)). rewrite Z2Nat.id by lia. symmetry. apply Z.mod_unique_pos with (cached_block s); lia. }
  constructor; cbn; [reflexivity|done|apply lookup_insert_eq|..]; try done.
  - cbn. rewrite Hl. lia.
  - by right.
  - intros a Ha. rewrite <-Hv' by done. destruct (_ =? _) eqn:Ea; [|done]. by rewrite (Hv a Ha), Ea.
Qed.

(** ** Loading a block *)

(** Messages do not change what is shown or written. *)
Definition quietly (s s' : lim) : Prop := ∃ o, s' = set_io (set_out o (io s)) s.

Lemma quietly_refl s : quietly s s.
Proof. exists (out (io s)). by destruct s as [[]]. Qed.

Lemma quietly_trans s s' s'' : quietly s s' → quietly s' s'' → quietly s s''.
Proof. intros [o ->] [o' ->]. by exists o'. Qed.

Lemma print_run fmt s : ∃ s', print fmt s = Ok tt s' ∧ quietly s s'.
Proof. eexists. split; [reflexivity|]. by eexists. Qed.

Lemma perror_run fmt s : ∃ s', perror_wrap fmt s = Ok tt s' ∧ quietly s s'.
Proof. eexists. split; [reflexivity|]. by eexists. Qed.

Lemma chat_run fmt s : ∃ s', chat fmt s = Ok tt s' ∧ quietly s s'.
Proof.
  unfold chat. erewrite bind_Ok_eq by reflexivity. destruct (quiet s); [|apply print_run].
  exists s. split; [done|apply quietly_refl].
Qed.

Lemma complain_run fmt s st : device s = Some st → ∃ s', complain fmt s = Ok tt s' ∧ quietly s s'.
Proof.
  intros Hd. unfold complain. erewrite bind_Ok_eq by reflexivity. rewrite Hd.
  destruct (serr st); [apply perror_run|]. exists s. split; [done|apply quietly_refl].
Qed.

Lemma quietly_written s s' n L v : quietly s s' → written s n L v → written s' n L v.
Proof. intros [o ->] []. by split. Qed.

Lemma quietly_shows s s' n L v st f c : quietly s s' → shows s n L v st f c → shows s' n L v st f c.
Proof. intros [o ->] []. by split. Qed.

Lemma quietly_core s s' : quietly s s' → core s' = core s.
Proof. by intros [o ->]. Qed.

Lemma shows_written s n L v st f c :
  shows s n L v st f c → cache_state s = CACHE_CLEAN → written s n L v.
Proof. intros [] Hs. split; eauto. Qed.

(** [shows] without the names of the parts. *)
Definition showing (s : lim) (n : string) (L : Z) (v : Z → Z) : Prop := ∃ st f c, shows s n L v st f c.

(** The bytes of the file itself. *)
Definition raw (s : lim) (n : string) (a : Z) : Z :=
  match files (io s) !! n with Some f => ld8 (fdata f) a | None => 0 end.

(** Between two states the file only took on bytes of [v]. *)
Definition settles (s s' : lim) (n : string) (L : Z) (v : Z → Z) : Prop :=
  ∀ a, 0 ≤ a < L → raw s' n a = raw s n a ∨ raw s' n a = v a.

Lemma settles_refl s n L v : settles s s n L v.
Proof. intros a _. by left. Qed.

Lemma settles_trans s s' s'' n L v : settles s s' n L v → settles s' s'' n L v → settles s s'' n L v.
Proof. intros H1 H2 a Ha. destruct (H2 a Ha) as [->|]; [by apply H1|by right]. Qed.

Lemma written_settles s s' n L v : written s' n L v → settles s s' n L v.
Proof. intros [_ (f & Hf & _ & Hv) _ _ _ _] a Ha. right. unfold raw. by rewrite Hf, Hv. Qed.

Lemma flush_showing s n L v :
  showing s n L v →
  ∃ s', device_flush_cache s = Ok true s' ∧ showing s' n L v ∧ core s' = core s ∧
    cache_state s' = CACHE_CLEAN ∧ cached_block s' = cached_block s ∧ written s' n L v.
Proof.
  intros (st & f & c & H). destruct (flush_run _ _ _ _ _ _ _ H) as (s' & st' & f' & He & Hs & Hc & Hcl & Hb).
  exists s'. split_and!; [done|by eexists _, _, _|done..|]. by eapply shows_written.
Qed.

(** The bytes of the file that a block of the cache takes on. *)
Lemma load_block s n L v st f c b st' :
  shows s n L v st f c → cache_state s = CACHE_CLEAN → sname st' = n → 0 ≤ b < L / block_size s →
  let s' := set_cached_block b (set_cache (Some (st_bytes 0
              (ld_bytes (Z.to_nat (block_size s)) (fdata f) (b * block_size s)) c)) (set_device (Some st') s)) in
  showing s' n L v.
Proof.
  intros [Hd Hn Hf HL Hm Hw Hc Hbs _ _ Hv] Hcl Hn' Hb s'. specialize (Hv Hcl).
  eexists st', f, _. constructor; cbn; try done; [by right|].
  intros a Ha. rewrite (Hv a Ha). destruct (Z.eqb_spec (a / block_size s) b) as [Hab|]; [|done].
  pose proof (Z.mod_pos_bound a (block_size s) ltac:(lia)). pose proof (Z.div_mod a (block_size s) ltac:(lia)).
  rewrite ld8_st_bytes, length_ld_bytes. rewrite (proj2 (Z.leb_le _ _)), (proj2 (Z.ltb_lt _ _)) by lia.
  cbn [andb]. rewrite ld_bytes_lookup by lia. cbn [from_option id]. rewrite wrap8_small by apply ld8_range.
  apply (f_equal (ld8 _)). lia.
Qed.

(** [device_cache_block] on a block that is not the current one, once the cache
    is clean. *)
Definition fetch (block : Z) : M lim bool :=
  bsz ← gets block_size;
  r ← set_pos (block *w bsz);
  if negb (r =? 0) then perror_wrap "error: device_cache_block(): set_pos()" ;; mret false
  else
    ret ← on_device (λ st, fread st bsz);
    modify (λ s, set_cache (st_bytes 0 ret.2 <$> cache s) s) ;;
    if negb (ret.1 =? 1) then complain "error: device_cache_block(): fread()" ;; mret false
    else modify (set_cached_block block) ;; mret true.

Definition fetched (s : lim) (n : string) (L : Z) (v : Z → Z) (b : Z) (ok : bool) (s' : lim) : Prop :=
  core s' = core s ∧ settles s s' n L v ∧
  if ok then b < L / block_size s ∧ showing s' n L v ∧ cached_block s' = b
  else L / block_size s ≤ b ∧ written s' n L v.

Lemma fetch_run s n L v b :
  showing s n L v → cache_state s = CACHE_CLEAN → 0 ≤ b → b * block_size s < 2 ^ 64 →
  ∃ ok s', fetch b s = Ok ok s' ∧ fetched s n L v b ok s'.
Proof.
  intros (st & f & c & H) Hcl Hb Hb'. pose proof (shows_written _ _ _ _ _ _ _ H Hcl) as Hwr.
  pose proof H as [Hd Hn Hf HL Hm Hw Hc Hbs _ _ Hv]. unfold fetch.
  erewrite bind_Ok_eq by reflexivity. rewrite wrap64_small by nia.
  assert (b < L / block_size s ↔ b * block_size s + block_size s ≤ L) as Hiff.
  { split; [intros; by apply block_end; lia|]. intros Hle.
    assert (b + 1 ≤ L / block_size s); [|lia]. apply Z.div_le_lower_bound; lia. }
  destruct (decide (b * block_size s < 2 ^ 63)) as [Hlow|Hhigh].
  2:{ erewrite bind_Ok_eq by (eapply on_device_run; [done|by apply fseek_high; [done|lia]]). cbn [negb Z.eqb].
      edestruct perror_run as (s' & He & Hq). erewrite bind_Ok_eq by exact He. eexists false, s'. split; [done|].
      assert (written s' n L v) as Hwr'.
      { eapply quietly_written; [exact Hq|]. destruct Hwr. split; cbn; eauto. }
      split_and!; [rewrite (quietly_core _ _ Hq); by eapply core_intro|by apply written_settles|lia|done]. }
  erewrite bind_Ok_eq by (eapply on_device_run; [done|by apply fseek_works; [done|lia]]). cbn [negb Z.eqb].
  erewrite bind_Ok_eq.
  2:{ eapply on_device_run; [reflexivity|]. apply (fread_works _ _ f); cbn; [done|by rewrite Hn|lia|lia]. }
  erewrite bind_Ok_eq by reflexivity. cbn [fst snd spos]. rewrite HL.
  destruct (decide (b < L / block_size s)) as [Hin|Hout].
  - rewrite Z.max_r, Z.min_l by lia. rewrite (proj2 (Z.ltb_lt _ _)), Z.eqb_refl by lia. cbn [andb negb Z.eqb Pos.eqb].
    erewrite bind_Ok_eq by reflexivity. eexists true, _. split; [reflexivity|]. split_and!; [by eapply core_intro| |done| |done].
    { intros a _. by left. }
    cbn [cache set_device set_io]. rewrite Hc. cbn [fmap option_fmap option_map].
    pose proof (load_block _ n L v st f c b (Stream (sname st) (b * block_size s + block_size s) (serr st))
      H Hcl Hn ltac:(lia)) as Hl. by destruct s.
  - assert (L < b * block_size s + block_size s) by (apply Z.nle_gt; by rewrite <-Hiff).
    rewrite (proj2 (Z.eqb_neq (Z.max _ _) _)) by lia. rewrite andb_false_r. cbn [negb Z.eqb].
    edestruct (complain_run "error: device_cache_block(): fread()") as (s' & He & Hq).
    2:{ erewrite bind_Ok_eq by exact He. eexists false, s'. split; [done|].
        assert (written s' n L v) as Hwr'.
        { eapply quietly_written; [exact Hq|]. destruct Hwr. split; cbn; eauto. by rewrite Hc. }
        split_and!; [rewrite (quietly_core _ _ Hq); by eapply core_intro|by apply written_settles|lia|done]. }
    reflexivity.
Qed.

Lemma cache_block_run s n L v b :
  showing s n L v → 0 ≤ b → b * block_size s < 2 ^ 64 →
  ∃ ok s', device_cache_block b s = Ok ok s' ∧ fetched s n L v b ok s'.
Proof.
  intros H Hb Hb'. unfold device_cache_block. erewrite bind_Ok_eq by reflexivity.
  destruct (Z.eqb_spec (cached_block s) b) as [Hcur|Hne].
  { exists true, s. split; [done|]. split_and!; [done|apply settles_refl| |done|done].
    destruct H as (st & f & c & H). destruct (sh_block _ _ _ _ _ _ _ H) as [[Hc _]|]; [|lia].
    pose proof (sh_bs _ _ _ _ _ _ _ H). nia. }
  fold (fetch b). erewrite bind_Ok_eq by reflexivity. destruct (cache_state s) eqn:E.
  { erewrite bind_Ok_eq by reflexivity. cbn [negb]. by apply fetch_run. }
  destruct (flush_showing _ _ _ _ H) as (s1 & He & H1 & Hc & Hcl & _ & Hw).
  erewrite bind_Ok_eq by exact He. cbn [negb].
  assert (block_size s1 = block_size s) as Hbs by by injection Hc.
  destruct (fetch_run s1 n L v b H1 Hcl Hb) as (ok & s' & He' & Hf); [by rewrite Hbs|].
  exists ok, s'. split; [done|]. destruct Hf as (Hc' & Hst & Hr). rewrite Hbs in Hr.
  split_and!; [congruence| |done]. eapply settles_trans; [by apply written_settles|done].
Qed.

(** ** Transfers *)

Lemma showing_ext s n L v w : (∀ a, 0 ≤ a < L → v a = w a) → showing s n L v → showing s n L w.
Proof.
  intros He (st & f & c & []). exists st, f, c. split; try done.
  - intros a Ha. rewrite <-He by done. auto.
  - intros Hc a Ha. rewrite <-He by done. auto.
Qed.

Lemma core_bs s s' : core s' = core s → block_size s' = block_size s.
Proof. unfold core. congruence. Qed.

(** The whole blocks of the device contain the area. *)
Definition fits (s : lim) (L loc count : Z) : Prop := count = 0 ∨ loc + count ≤ L / block_size s * block_size s.

(** One piece of a transfer. *)
Lemma piece_spec s L loc count p b off k :
  2 ≤ block_size s < 2 ^ 63 → 0 ≤ L < 2 ^ 63 → 0 ≤ loc < 2 ^ 64 → 0 ≤ p < count →
  (p = 0 ∨ loc + p ≤ L / block_size s * block_size s) →
  piece loc count p (block_size s) = (b, off, k) →
  0 ≤ b ∧ 0 ≤ off ∧ loc + p = b * block_size s + off ∧ 1 ≤ k ≤ count - p ∧ off + k ≤ block_size s ∧
  b * block_size s < 2 ^ 64 ∧
  (b < L / block_size s → loc + (p + k) ≤ L / block_size s * block_size s) ∧
  (L / block_size s ≤ b → L / block_size s * block_size s < loc + count).
Proof.
  intros Hbs HL Hloc Hp Hlp. unfold piece. pose proof (Z.mul_div_le L (block_size s) ltac:(lia)).
  rewrite (wrap64_small (loc + p)) by lia. intros [= <- <- <-].
  pose proof (Z.mod_pos_bound (loc + p) (block_size s) ltac:(lia)).
  pose proof (Z.div_mod (loc + p) (block_size s) ltac:(lia)).
  pose proof (Z.div_pos (loc + p) (block_size s) ltac:(lia) ltac:(lia)).
  split_and!; try lia; intros; nia.
Qed.

Lemma cached_bytes s n L v b off k :
  showing s n L v → cached_block s = b → 0 ≤ b < L / block_size s → 0 ≤ off → 0 ≤ k → off + k ≤ block_size s →
  cache_bytes off k s = Ok (vbytes v (b * block_size s + off) (Z.to_nat k)) s.
Proof.
  intros (st & f & c & [Hd Hn Hf HL Hm Hw Hc Hbs _ Hv _]) Hcb Hb Ho Hk Hok. unfold cache_bytes.
  erewrite bind_Ok_eq by reflexivity. rewrite Hc. unfold mret, M_ret. f_equal. apply vbytes_ld. intros i Hi.
  pose proof (block_end _ _ _ (ltac:(lia) : 0 < block_size s) Hb).
  rewrite Hv by nia. rewrite Hcb. rewrite div_block, (proj2 (Z.leb_le _ _)), (proj2 (Z.ltb_lt _ _)) by nia. cbn [andb].
  apply (f_equal (ld8 c)). symmetry. apply Z.mod_unique_pos with b; lia.
Qed.

Definition read_end (s : lim) (n : string) (L : Z) (v : Z → Z) (loc count : Z) (r : option (list Z)) (s' : lim) : Prop :=
  core s' = core s ∧ settles s s' n L v ∧
  match r with
  | Some bs => fits s L loc count ∧ bs = vbytes v loc (Z.to_nat count) ∧ showing s' n L v
  | None => ¬ fits s L loc count ∧ written s' n L v
  end.

Lemma read_loop_run fuel s n L v loc count p acc :
  showing s n L v → 0 ≤ loc < 2 ^ 64 → 0 ≤ p ≤ count → count - p < Z.of_nat fuel →
  fits s L loc p → acc = vbytes v loc (Z.to_nat p) →
  ∃ r s', read_loop fuel loc count p acc s = Ok r s' ∧ read_end s n L v loc count r s'.
Proof.
  revert s p acc. induction fuel as [|fuel IH]; intros s p acc H Hloc Hp Hfuel Hlp ->; [lia|]. cbn [read_loop].
  destruct (Z.leb_spec count p) as [Hend|Hlt].
  { exists (Some (vbytes v loc (Z.to_nat p))), s. split; [done|]. replace p with count in * by lia.
    split_and!; [done|apply settles_refl|done..]. }
  erewrite bind_Ok_eq by reflexivity. destruct (piece loc count p (block_size s)) as [[b off] k] eqn:Hpc.
  pose proof H as (st & f & c & Hs).
  destruct (piece_spec s L loc count p b off k) as (Hb & Ho & Hat & Hk & Hok & Hb64 & Hin & Hout);
    [apply Hs|apply Hs|done|lia|done|done|].
  destruct (cache_block_run s n L v b H Hb Hb64) as (ok & s1 & He & Hc1 & Hst1 & Hr).
  erewrite bind_Ok_eq by exact He. pose proof (core_bs _ _ Hc1) as Hbs. destruct ok; cbn [negb].
  2:{ exists None, s1. split; [done|]. split_and!; [done|done| |apply Hr]. destruct Hr as [Hr _].
      specialize (Hout Hr). unfold fits. lia. }
  destruct Hr as (Hbl & H1 & Hcb). erewrite bind_Ok_eq.
  2:{ apply (cached_bytes s1 n L v b); rewrite ?Hbs; done || lia. }
  destruct (IH s1 (p + k) (vbytes v loc (Z.to_nat p) ++ vbytes v (b * block_size s1 + off) (Z.to_nat k)))
    as (r & s' & He' & Hc' & Hst' & Hr); [done|done|lia|lia|right; rewrite Hbs; by apply Hin| |].
  { rewrite Z2Nat.inj_add, vbytes_app by lia. do 2 f_equal. rewrite Hbs. lia. }
  exists r, s'. split; [done|]. unfold fits in *. rewrite Hbs in Hr.
  split_and!; [congruence|by eapply settles_trans|done].
Qed.

(** Reading through the cache. *)
Lemma read_run s n L v loc count :
  showing s n L v → 0 ≤ loc < 2 ^ 64 → 0 ≤ count →
  ∃ r s', _device_read loc count s = Ok r s' ∧ read_end s n L v loc count r s'.
Proof. intros H Hl Hc. apply read_loop_run; [done|done|lia|lia|by left|done]. Qed.

Lemma dirty_block s n L v off bs :
  showing s n L v → 0 ≤ cached_block s < L / block_size s → 0 ≤ off → off + Z.of_nat (length bs) ≤ block_size s →
  showing (set_cache_state CACHE_DIRTY (set_cache (st_bytes off bs <$> cache s) s)) n L
    (upd v (cached_block s * block_size s + off) bs).
Proof.
  intros (st & f & c & [Hd Hn Hf HL Hm Hw Hc Hbs _ Hv _]) Hb Ho Hl.
  exists st, f, (st_bytes off bs c). constructor; cbn; try done; [by rewrite Hc|by right|].
  intros a Ha. unfold upd. rewrite ld8_st_bytes, Hv, !div_block by (done || lia).
  pose proof (Z.mod_pos_bound a (block_size s) ltac:(lia)). pose proof (Z.div_mod a (block_size s) ltac:(lia)).
  set (b := cached_block s) in *. destruct ((b * block_size s <=? a) && (a <? b * block_size s + block_size s)) eqn:E.
  - zify_bools. assert (a mod block_size s = a - b * block_size s) as -> by
      (symmetry; apply Z.mod_unique_pos with b; lia).
    replace (a - (b * block_size s + off)) with (a - b * block_size s - off) by lia.
    case_zbool; cbn [andb]; done || lia.
  - apply andb_false_iff in E as [E|E]; zify_bools; case_zbool; cbn [andb]; done || lia.
Qed.

Lemma upd_piece v loc buf p k a :
  0 ≤ p → 0 ≤ k → p + k ≤ Z.of_nat (length buf) →
  upd (upd v loc (take (Z.to_nat p) buf)) (loc + p) (take (Z.to_nat k) (drop (Z.to_nat p) buf)) a =
  upd v loc (take (Z.to_nat (p + k)) buf) a.
Proof.
  intros Hp Hk Hl. unfold upd. rewrite !length_take, length_drop, !Nat2Z.inj_min.
  case_zbool; cbn [andb]; try lia; try done.
  all: rewrite ?lookup_take_lt, ?lookup_drop by lia; repeat f_equal; lia.
Qed.

(** Outside the area that is written, the file only takes on bytes of [v]. *)
Definition settles_out (s s' : lim) (n : string) (L : Z) (v : Z → Z) (loc count : Z) : Prop :=
  ∀ a, 0 ≤ a < L → ¬ (loc ≤ a < loc + count) → raw s' n a = raw s n a ∨ raw s' n a = v a.

Lemma write_loop_run fuel s n L v buf loc p :
  let count := Z.of_nat (length buf) in
  showing s n L (upd v loc (take (Z.to_nat p) buf)) → 0 ≤ loc < 2 ^ 64 → 0 ≤ p ≤ count → count - p < Z.of_nat fuel →
  fits s L loc p → fits s L loc count →
  ∃ s', write_loop fuel buf loc count p s = Ok true s' ∧ core s' = core s ∧ showing s' n L (upd v loc buf) ∧
    settles_out s s' n L v loc count.
Proof.
  intros count. revert s p. induction fuel as [|fuel IH]; intros s p H Hloc Hp Hfuel Hlp Hfit; [lia|]. cbn [write_loop].
  destruct (Z.leb_spec count p) as [Hend|Hlt].
  { exists s. split; [done|]. rewrite take_ge in H by lia. split_and!; [done|done|]. intros a _ _. by left. }
  erewrite bind_Ok_eq by reflexivity. destruct (piece loc count p (block_size s)) as [[b off] k] eqn:Hpc.
  pose proof H as (st & f & c & Hs).
  destruct (piece_spec s L loc count p b off k) as (Hb & Ho & Hat & Hk & Hok & Hb64 & Hin & Hout);
    [apply Hs|apply Hs|done|lia|done|done|].
  destruct (cache_block_run s n L _ b H Hb Hb64) as (ok & s1 & He & Hc1 & Hst1 & Hr).
  erewrite bind_Ok_eq by exact He. pose proof (core_bs _ _ Hc1) as Hbs. destruct ok; cbn [negb].
  2:{ destruct Hr as [Hr _]. specialize (Hout Hr). unfold fits in Hfit. lia. }
  destruct Hr as (Hbl & H1 & Hcb). do 2 erewrite bind_Ok_eq by reflexivity.
  assert (length (take (Z.to_nat k) (drop (Z.to_nat p) buf)) = Z.to_nat k) as Hlen.
  { rewrite length_take, length_drop. lia. }
  pose proof (dirty_block s1 n L _ off (take (Z.to_nat k) (drop (Z.to_nat p) buf)) H1) as H2.
  set (s2 := set_cache_state _ _) in *.
  assert (showing s2 n L (upd v loc (take (Z.to_nat (p + k)) buf))) as H3.
  { eapply showing_ext; [|apply H2; rewrite ?Hlen, ?Hcb, ?Hbs; lia].
    intros a _. rewrite Hcb, Hbs. replace (b * block_size s + off) with (loc + p) by lia. apply upd_piece; lia. }
  destruct (IH s2 (p + k) H3 Hloc) as (s' & He' & Hc' & Hs' & Hout'); [lia|lia| | |].
  { right. change (block_size s2) with (block_size s1). rewrite Hbs. by apply Hin. }
  { unfold fits. change (block_size s2) with (block_size s1). by rewrite Hbs. }
  exists s'. split; [done|]. split_and!; [rewrite Hc'; exact Hc1|done|].
  intros a Ha Hna. destruct (Hout' a Ha Hna) as [->|]; [|by right]. change (raw s2 n a) with (raw s1 n a).
  destruct (Hst1 a Ha) as [?|Hr]; [by left|right]. rewrite Hr. unfold upd. rewrite length_take.
  case_zbool; cbn [andb]; done || lia.
Qed.

(** Writing through the cache. *)
Lemma write_run s n L v buf loc :
  showing s n L v → 0 ≤ loc < 2 ^ 64 → fits s L loc (Z.of_nat (length buf)) →
  ∃ s', write_bytes buf loc s = Ok true s' ∧ core s' = core s ∧ showing s' n L (upd v loc buf) ∧
    settles_out s s' n L v loc (Z.of_nat (length buf)).
Proof.
  intros H Hl Hf. apply write_loop_run; [|done|lia|lia|by left|done].
  eapply showing_ext; [|exact H]. intros a _. unfold upd. rewrite length_take. case_zbool; cbn [andb]; done || lia.
Qed.

End LimineFacts.
