(* ===== verification/LimineUndo.v ===== *)
(** * The undo record of the installer

    [journal A s J]: the entries of [uninstall_data] hold the areas [J] in
    blocks of their own, next to the blocks [A] the tool did not allocate.
    [_device_write] extends the journal or leaves it, whatever calls of the host
    fail.  When none fails, playing the journal back gives the original bytes
    ([restores]). *)

From S2P Require Import Prelude Host Limine LimineFacts.

Module LimineUndo.
Import Host Limine LimineFacts.

(** ** Transfers that may fail *)

(** The device is open and the cache is there. *)
Record env_ok (s : lim) : Prop := EnvOk {
  eo_device : is_Some (device s);
  eo_cache : is_Some (cache s);
  eo_bs : 2 ≤ block_size s < 2 ^ 63;
}.

(** An operation that always returns and keeps the journal. *)
Definition tame {R} (m : M lim R) (Q : R → Prop) : Prop :=
  ∀ s, env_ok s → ∃ r s', m s = Ok r s' ∧ core s' = core s ∧ env_ok s' ∧ Q r.

Lemma tame_ret {R} (r : R) (Q : R → Prop) : Q r → tame (mret r) Q.
Proof. intros HQ s Hs. by exists r, s. Qed.

Lemma tame_bind {R T} (m : M lim R) (k : R → M lim T) (P : R → Prop) Q :
  tame m P → (∀ r, P r → tame (k r) Q) → tame (m ≫= k) Q.
Proof.
  intros Hm Hk s Hs. destruct (Hm s Hs) as (r & s1 & He & Hc & Hs1 & Hr).
  destruct (Hk r Hr s1 Hs1) as (t & s2 & He' & Hc' & Hs2 & Ht).
  exists t, s2. rewrite (bind_Ok_eq _ _ _ _ _ He). split_and!; [done|congruence|done..].
Qed.

Lemma tame_gets {R} (g : lim → R) (Q : R → Prop) : (∀ s, env_ok s → Q (g s)) → tame (gets g) Q.
Proof. intros HQ s Hs. exists (g s), s. auto. Qed.

Lemma tame_modify (g : lim → lim) :
  (∀ s, core (g s) = core s) → (∀ s, env_ok s → env_ok (g s)) → tame (modify g) (λ _, True).
Proof. intros H1 H2 s Hs. exists tt, (g s). auto. Qed.

Lemma tame_quietly (m : M lim unit) :
  (∀ s, is_Some (device s) → ∃ s', m s = Ok tt s' ∧ quietly s s') → tame m (λ _, True).
Proof.
  intros H s Hs. destruct (H s (eo_device _ Hs)) as (s' & He & Hq). exists tt, s'.
  split_and!; [done|by apply quietly_core| |done]. destruct Hq as [o ->]. by destruct Hs.
Qed.

Lemma tame_print fmt : tame (print fmt) (λ _, True).
Proof. apply tame_quietly. intros s _. apply print_run. Qed.
Lemma tame_perror fmt : tame (perror_wrap fmt) (λ _, True).
Proof. apply tame_quietly. intros s _. apply perror_run. Qed.
Lemma tame_chat fmt : tame (chat fmt) (λ _, True).
Proof. apply tame_quietly. intros s _. apply chat_run. Qed.
Lemma tame_complain fmt : tame (complain fmt) (λ _, True).
Proof. apply tame_quietly. intros s [st Hd]. by eapply complain_run. Qed.

(** A call of the host that leaves the blocks alone. *)
Lemma tame_device {R} (f : stream → M host (R * stream)) :
  (∀ st h, ∃ r st' h', f st h = Ok (r, st') h' ∧ allocs h' = allocs h ∧ sname st' = sname st ∧
     delete (sname st) (files h') = delete (sname st) (files h)) → tame (on_device f) (λ _, True).
Proof.
  intros H s Hs. destruct (eo_device _ Hs) as [st Hd]. destruct (H st (io s)) as (r & st' & h' & He & Ha & Hn & Hx).
  eexists r, _. split; [by eapply on_device_run|]. split_and!; [by eapply core_intro| |done].
  destruct Hs. by split; cbn.
Qed.

Lemma next_event_run h : ∃ e h', next_event h = Ok e h' ∧ allocs h' = allocs h ∧ files h' = files h.
Proof. unfold next_event. destruct (faults h); eauto. Qed.

Lemma tame_fseek pos : tame (on_device (λ st, fseek st pos)) (λ _, True).
Proof.
  apply tame_device. intros st h. unfold fseek. destruct (next_event_run h) as (e & h' & -> & Ha & Hx).
  destruct e; [destruct (_ <? _)|]; eexists _, _, _; by rewrite Ha, Hx.
Qed.

Lemma tame_fread n : tame (on_device (λ st, fread st n)) (λ _, True).
Proof.
  apply tame_device. intros st h. unfold fread. destruct (next_event_run h) as (e & h' & -> & Ha & Hx).
  destruct e; eexists _, _, _; by rewrite Ha, Hx.
Qed.

Lemma tame_fwrite bs : tame (on_device (λ st, fwrite st bs)) (λ _, True).
Proof.
  apply tame_device. intros st h. unfold fwrite. destruct (next_event_run h) as (e & h' & -> & Ha & Hx).
  destruct e; [destruct (_ <? _)|]; (eexists _, _, _; split; [reflexivity|]; cbn; by rewrite Ha, Hx, ?delete_insert_eq).
Qed.

Definition bytes_of (n : Z) (bs : list Z) : Prop := length bs = Z.to_nat n ∧ Forall (λ b, 0 ≤ b < 256) bs.

Lemma ld_bytes_range n m a : Forall (λ b, 0 ≤ b < 256) (ld_bytes n m a).
Proof. revert a. induction n as [|n IH]; intros a; constructor; [apply ld8_range|apply IH]. Qed.

Lemma tame_cache_bytes off n : tame (cache_bytes off n) (bytes_of n).
Proof.
  intros s Hs. destruct (eo_cache _ Hs) as [c Hc]. unfold cache_bytes. eexists _, s.
  erewrite bind_Ok_eq by reflexivity. rewrite Hc. split_and!; [done|done|done|split; [apply length_ld_bytes|apply ld_bytes_range]].
Qed.

Create HintDb tame.
Hint Resolve tame_print tame_perror tame_chat tame_complain tame_fseek tame_fread tame_fwrite : tame.

Lemma tame_bind_any {R T} (m : M lim R) (k : R → M lim T) Q :
  tame m (λ _, True) → (∀ r, tame (k r) Q) → tame (m ≫= k) Q.
Proof. intros Hm Hk. by eapply tame_bind; [exact Hm|]. Qed.

Lemma tame_bind_gets {R T} (g : lim → R) (k : R → M lim T) Q : (∀ r, tame (k r) Q) → tame (gets g ≫= k) Q.
Proof. intros Hk. apply tame_bind_any; [by apply tame_gets|done]. Qed.

(** Walk down a tame block. *)
Ltac tame_step :=
  first
  [ apply tame_ret; done
  | apply tame_bind_gets; intros ?
  | apply tame_bind_any;
      [first [solve [eauto with tame]
             |apply tame_modify; [by intros|intros ? []; split; cbn; rewrite ?fmap_is_Some; done]]|intros ?]
  | match goal with |- tame (if ?b then _ else _) _ => destruct b end ].

Lemma tame_flush : tame device_flush_cache (λ _, True).
Proof.
  unfold device_flush_cache, set_pos. apply tame_bind_gets. intros []; [by apply tame_ret|]. repeat tame_step. eapply tame_bind; [apply tame_cache_bytes|]. intros bs _. repeat tame_step.
Qed.
Hint Resolve tame_flush : tame.

Lemma tame_cache_block b : tame (device_cache_block b) (λ _, True).
Proof.
  unfold device_cache_block, set_pos. repeat tame_step.
  apply tame_bind_any; [|intros []; repeat tame_step].
  match goal with |- tame (match ?c with _ => _ end) _ => destruct c end; [by apply tame_ret|eauto with tame].
Qed.
Hint Resolve tame_cache_block : tame.

Lemma piece_range loc count p bs b off k :
  2 ≤ bs → p < count → piece loc count p bs = (b, off, k) → 1 ≤ k ≤ count - p.
Proof.
  intros Hbs Hp [= <- <- <-]. pose proof (Z.mod_pos_bound (loc +w p) bs ltac:(lia)). lia.
Qed.

Lemma tame_read_loop fuel loc count p acc :
  count - p < Z.of_nat fuel → 0 ≤ p ≤ count → bytes_of p acc →
  tame (read_loop fuel loc count p acc) (λ r, ∀ bs, r = Some bs → bytes_of count bs).
Proof.
  revert p acc. induction fuel as [|fuel IH]; intros p acc Hf Hp Ha; [lia|]. cbn [read_loop].
  destruct (Z.leb_spec count p).
  { apply tame_ret. intros bs [= <-]. by replace count with p by lia. }
  eapply (tame_bind _ _ (λ b, 2 ≤ b)); [apply tame_gets; intros s []; lia|]. intros bsz Hbs.
  destruct (piece loc count p bsz) as [[b off] k] eqn:E. apply piece_range in E; [|done..].
  eapply tame_bind; [apply tame_cache_block|]. intros [] _; cbn [negb]; [|by apply tame_ret].
  eapply tame_bind; [apply tame_cache_bytes|]. intros bs [Hl Hr].
  apply IH; [lia|lia|]. destruct Ha as [Ha Har]. split; [rewrite length_app; lia|by apply Forall_app].
Qed.

Lemma tame_read loc count :
  0 ≤ count → tame (_device_read loc count) (λ r, ∀ bs, r = Some bs → bytes_of count bs).
Proof. intros H. apply tame_read_loop; [lia|lia|]. by split. Qed.

Lemma tame_write_loop fuel buf loc count p :
  count - p < Z.of_nat fuel → 0 ≤ p ≤ count → tame (write_loop fuel buf loc count p) (λ _, True).
Proof.
  revert p. induction fuel as [|fuel IH]; intros p Hf Hp; [lia|]. cbn [write_loop].
  destruct (Z.leb_spec count p); [by apply tame_ret|].
  eapply (tame_bind _ _ (λ b, 2 ≤ b)); [apply tame_gets; intros s []; lia|]. intros bsz Hbs.
  destruct (piece loc count p bsz) as [[b off] k] eqn:E. apply piece_range in E; [|done..].
  eapply tame_bind; [apply tame_cache_block|]. intros [] _; cbn [negb]; [|by apply tame_ret].
  do 2 tame_step. apply IH; lia.
Qed.

Lemma tame_write buf loc : tame (write_bytes buf loc) (λ _, True).
Proof. apply tame_write_loop; lia. Qed.
Hint Resolve tame_write : tame.

(** ** The journal *)

(** An entry and the bytes it saves, in the blocks [m]. *)
Definition entry_ok (m : gmap Z block) (u : undo) (r : Z * list Z) : Prop :=
  loc u = r.1 ∧ 0 ≤ r.1 < 2 ^ 64 ∧ count u = Z.of_nat (length r.2) ∧ Forall (λ b, 0 ≤ b < 256) r.2 ∧ data u ≠ 0 ∧
  ∃ sz, m !! data u = Some (Block sz r.2).

(** The blocks are those of the entries, and [A]. *)
Record entries (A m : gmap Z block) (us : list undo) (J : list (Z * list Z)) : Prop := Entries {
  en_ok : Forall2 (entry_ok m) us J;
  en_distinct : NoDup (data <$> us);
  en_others : ∀ p, p ∉ data <$> us → m !! p = A !! p;
  en_fresh : ∀ p, p ∈ data <$> us → A !! p = None;
}.

Record journal (A : gmap Z block) (s : lim) (J : list (Z * list Z)) : Prop := Journal {
  jn_size : length (uninstall_data s) = 256%nat;
  jn_rev : length (uninstall_data_rev s) = 256%nat;
  jn_count : uninstall_data_i s = Z.of_nat (length J);
  jn_max : (length J ≤ 256)%nat;
  jn_entries : entries A (allocs (io s)) (take (length J) (uninstall_data s)) J;
}.

Lemma journal_core A s s' J : core s' = core s → journal A s J → journal A s' J.
Proof. unfold core. intros [= Ha Hu Hr Hi _ _ _ _ _] []. split; by rewrite ?Ha, ?Hu, ?Hr, ?Hi. Qed.

Lemma entries_alive A m us J u : entries A m us J → u ∈ us → is_Some (m !! data u) ∧ data u ≠ 0.
Proof.
  intros H (i & Hi)%list_elem_of_lookup. destruct (Forall2_lookup_l _ _ _ _ _ (en_ok _ _ _ _ H) Hi) as
    (r & _ & _ & _ & _ & _ & Hn & sz & Hm). by split.
Qed.

Lemma entries_new A m us J p sz l old :
  entries A m us J → m !! p = None → p ≠ 0 → 0 ≤ l < 2 ^ 64 → Forall (λ b, 0 ≤ b < 256) old →
  entries A (<[p := Block sz old]> m) (us ++ [Undo p l (Z.of_nat (length old))]) (J ++ [(l, old)]).
Proof.
  intros H Hp Hp0 Hl Hold. assert (p ∉ data <$> us) as Hnp.
  { intros (u & -> & Hu)%list_elem_of_fmap. destruct (entries_alive _ _ _ _ _ H Hu) as [[b Hb] _]. congruence. }
  destruct H as [Hok Hd Ho Hf]. split.
  - apply Forall2_app.
    + apply Forall2_same_length_lookup_2; [by eapply Forall2_length|]. intros i u r Hu Hr.
      destruct (Forall2_lookup_lr _ _ _ _ _ _ Hok Hu Hr) as (? & ? & ? & ? & ? & z & Hz). split_and!; try (done || lia).
      exists z. rewrite lookup_insert_ne; [done|]. intros ->. apply Hnp, list_elem_of_fmap_2.
      by eapply list_elem_of_lookup_2.
    + constructor; [|constructor]. split_and!; cbn; try (done || lia). exists sz. apply lookup_insert_eq.
  - rewrite fmap_app. apply NoDup_app. split_and!; [done| |apply NoDup_singleton].
    intros x Hx ->%list_elem_of_singleton. done.
  - intros q. rewrite fmap_app, not_elem_of_app. intros [Hq Hqp]. rewrite lookup_insert_ne by set_solver. by apply Ho.
  - intros q. rewrite fmap_app, elem_of_app. intros [Hq| ->%list_elem_of_singleton]; [by apply Hf|].
    cbn. by rewrite <-Ho.
Qed.

(** ** States that differ only in blocks, entries and messages *)

Record alike (s s' : lim) : Prop := Alike {
  al_device : device s' = device s;
  al_cache : cache s' = cache s;
  al_state : cache_state s' = cache_state s;
  al_block : cached_block s' = cached_block s;
  al_bs : block_size s' = block_size s;
  al_un : uninstalling s' = uninstalling s;
  al_file : uninstall_file s' = uninstall_file s;
  al_files : files (io s') = files (io s);
  al_works : faults (io s) = [] → faults (io s') = [];
}.

Lemma alike_refl s : alike s s.
Proof. by split. Qed.

Lemma alike_trans s s' s'' : alike s s' → alike s' s'' → alike s s''.
Proof. intros [] []. split; try congruence. auto. Qed.

Lemma alike_quietly s s' : quietly s s' → alike s s'.
Proof. intros [o ->]. by split. Qed.

Lemma alike_env s s' : alike s s' → env_ok s → env_ok s'.
Proof. intros [] []. split; congruence. Qed.

Lemma alike_showing s s' n L v : alike s s' → showing s n L v → showing s' n L v.
Proof.
  intros [] (st & f & c & []). exists st, f, c.
  split; rewrite ?al_device0, ?al_cache0, ?al_state0, ?al_block0, ?al_bs0, ?al_files0; auto.
Qed.

Lemma alike_written s s' n L v : alike s s' → written s n L v → written s' n L v.
Proof. intros [] []. split; try congruence; auto. - by rewrite al_device0. - by rewrite al_files0. Qed.

Lemma alike_raw s s' n a : alike s s' → raw s' n a = raw s n a.
Proof. intros []. unfold raw. by rewrite al_files0. Qed.

Lemma alike_fits s s' L l c : alike s s' → fits s' L l c ↔ fits s L l c.
Proof. intros []. unfold fits. by rewrite al_bs0. Qed.

(** ** Blocks *)

Lemma malloc_run n h :
  0 ≤ n < 2 ^ 63 → ∃ p h', malloc n h = Ok p h' ∧ files h' = files h ∧ (faults h = [] → faults h' = [] ∧ p ≠ 0) ∧
    (p = 0 ∧ allocs h' = allocs h ∨ p ≠ 0 ∧ allocs h !! p = None ∧ allocs h' = <[p := Block n []]> (allocs h)).
Proof.
  intros Hn. unfold malloc, next_event. rewrite (proj2 (Z.leb_gt _ _)) by lia.
  pose proof (is_fresh (dom (allocs h) ∪ {[0]} : gset Z)) as Hf. rewrite not_elem_of_union, not_elem_of_dom in Hf.
  destruct Hf as [Hf1 Hf0]. rewrite not_elem_of_singleton in Hf0.
  destruct (faults h) as [|[|k] es] eqn:E.
  - eexists _, _. split; [reflexivity|]. cbn. split_and!; [done|done|]. right. done.
  - eexists _, _. split; [reflexivity|]. cbn. split_and!; [done|done|]. right. done.
  - eexists _, _. split; [reflexivity|]. cbn. split_and!; [done|done|]. by left.
Qed.

(** ** [_device_write] *)

Lemma lifti_Ok {R} (m : M host R) s r h : m (io s) = Ok r h → lifti m s = Ok r (set_io h s).
Proof. intros H. unfold lifti, zoom. by rewrite H. Qed.

(** Slots at or after the end of the journal do not matter. *)
Lemma take_alter_ge {X} (f : X → X) k i (l : list X) : (k ≤ i)%nat → take k (alter f i l) = take k l.
Proof.
  intros H. apply list_eq. intros j. destruct (decide (j < k)%nat).
  - rewrite !lookup_take_lt by done. apply list_lookup_alter_ne. lia.
  - by rewrite !lookup_take_ge by lia.
Qed.

Lemma take_alter_snoc {X} (f : X → X) k (l : list X) x :
  l !! k = Some x → take (S k) (alter f k l) = take k l ++ [f x].
Proof.
  intros H. rewrite (take_S_r _ _ (f x)), take_alter_ge by (done || by rewrite list_lookup_alter_eq, H). done.
Qed.

Definition fixed (s : lim) := (uninstalling s, block_size s, uninstall_file s, sname <$> device s, others s).

Lemma alike_fixed s s' : alike s s' → fixed s' = fixed s.
Proof. intros []. unfold fixed, others. by rewrite al_un0, al_bs0, al_file0, al_device0, al_files0. Qed.

Lemma core_inv s s' :
  core s' = core s →
  allocs (io s') = allocs (io s) ∧ uninstall_data s' = uninstall_data s ∧
  uninstall_data_rev s' = uninstall_data_rev s ∧ uninstall_data_i s' = uninstall_data_i s.
Proof. unfold core. by intros [= -> -> -> -> _ _ _ _ _]. Qed.

Lemma core_fixed s s' : core s' = core s → fixed s' = fixed s.
Proof. unfold core, fixed. congruence. Qed.

(** From [s] to [s'] the tool allocated the block [p], which is not in the journal. *)
Record holding (s s' : lim) (k : nat) (p : Z) (b : block) : Prop := Holding {
  ho_block : allocs (io s') = <[p := b]> (allocs (io s));
  ho_fresh : allocs (io s) !! p = None;
  ho_null : p ≠ 0;
  ho_size : length (uninstall_data s') = length (uninstall_data s);
  ho_data : take k (uninstall_data s') = take k (uninstall_data s);
  ho_rev : uninstall_data_rev s' = uninstall_data_rev s;
  ho_count : uninstall_data_i s' = uninstall_data_i s;
}.

Lemma holding_core s s' s'' k p b : holding s s' k p b → core s'' = core s' → holding s s'' k p b.
Proof. intros [] (Ha & Hu & Hr & Hi)%core_inv. split; congruence. Qed.

Lemma holding_free A s s' J p b :
  journal A s J → holding s s' (length J) p b →
  ∃ s'', lifti (free p) s' = Ok tt s'' ∧ journal A s'' J ∧ alike s' s''.
Proof.
  intros [] [Hb Hf Hn Hs Hd Hr Hi]. eexists. split.
  { apply lifti_Ok. unfold free. rewrite (proj2 (Z.eqb_neq _ _)) by done. by rewrite Hb, lookup_insert_eq. }
  split; [|by split]. split; cbn; try congruence. by rewrite ?Hb, delete_insert_eq, delete_id, Hd.
Qed.

Lemma holding_commit A s s' J p l old sz :
  journal A s J → holding s s' (length J) p (Block sz old) → (length J < 256)%nat → 0 ≤ l < 2 ^ 64 →
  Forall (λ b, 0 ≤ b < 256) old → uninstall_data s' !! length J = Some (Undo p l (Z.of_nat (length old))) →
  journal A (set_uninstall_data_i (Z.of_nat (length J) + 1) s') (J ++ [(l, old)]).
Proof.
  intros [] [Hb Hf Hn Hs Hd Hr Hi] Hl Hl64 Hold Hu. split; cbn; rewrite ?length_app; cbn; try congruence; try lia.
  rewrite Nat.add_1_r, (take_S_r _ _ _ Hu), Hd, Hb. by apply entries_new.
Qed.

(** How [save_old] ends: the entry after the journal has the old bytes, or the
    journal is as it was. *)
Definition save_end (A : gmap Z block) (s : lim) (J : list (Z * list Z)) (l n : Z) (r : option Z) (s' : lim) : Prop :=
  match r with
  | Some p => ∃ s1 old s2, alike s s1 ∧ _device_read l n s1 = Ok (Some old) s2 ∧ alike s2 s' ∧
      bytes_of n old ∧ holding s s' (length J) p (Block n old) ∧
      uninstall_data s' !! length J = Some (Undo p l (Z.of_nat (length old)))
  | None => journal A s' J ∧ ((alike s s' ∧ faults (io s) ≠ []) ∨
      ∃ s1 s2, alike s s1 ∧ _device_read l n s1 = Ok None s2 ∧ alike s2 s')
  end.

Lemma save_old_run A s J l n :
  env_ok s → journal A s J → (length J < 256)%nat → 0 ≤ n < 2 ^ 63 →
  ∃ r s', save_old (Z.of_nat (length J)) l n s = Ok r s' ∧ env_ok s' ∧ fixed s' = fixed s ∧ save_end A s J l n r s'.
Proof.
  intros He Hj Hlen Hn. unfold save_old. destruct (malloc_run n (io s) Hn) as (p & h & Hm & Hfi & Hfa & Hp).
  erewrite bind_Ok_eq by (by apply lifti_Ok). erewrite bind_Ok_eq by reflexivity.
  set (s1 := set_undo _ _ _). assert (alike s s1) as Hal by (split; cbn; try done; apply Hfa).
  assert (env_ok s1) as He1 by by eapply alike_env. pose proof (jn_size _ _ _ Hj) as Hsz.
  destruct (lookup_lt_is_Some_2 (uninstall_data s) (length J) ltac:(lia)) as [u Hu].
  destruct Hp as [[-> Ha]|(Hp0 & Hfr & Ha)].
  { cbn [Z.eqb]. destruct (perror_run "error: _device_write(): malloc()" s1) as (s2 & Hpe & Hq).
    erewrite bind_Ok_eq by exact Hpe. exists None, s2. split; [done|]. apply alike_quietly in Hq as Hq'.
    split; [by eapply alike_env|]. split; [rewrite (alike_fixed _ _ Hq'); by apply alike_fixed|]. split.
    { eapply journal_core; [by apply quietly_core|]. destruct Hj. split; cbn; try done.
      - by rewrite length_alter. - by rewrite Ha, take_alter_ge by lia. }
    left. split; [by eapply alike_trans|]. intros Hf. by destruct (Hfa Hf). }
  rewrite (proj2 (Z.eqb_neq _ _)) by done.
  destruct (tame_read l n (proj1 Hn) s1 He1) as (r & s2 & Hr & Hc2 & He2 & Hl2). erewrite bind_Ok_eq by exact Hr.
  assert (holding s s1 (length J) p (Block n [])) as Hh.
  { split; cbn; try done; [by rewrite length_alter|by rewrite take_alter_ge by lia]. }
  apply (holding_core _ _ _ _ _ _ Hh) in Hc2 as Hh2. pose proof (core_fixed _ _ Hc2) as Hfx.
  rewrite (alike_fixed _ _ Hal) in Hfx. destruct r as [old|].
  - destruct (Hl2 old eq_refl) as [Hl2' Hb2]. clear Hl2. rename Hl2' into Hl2. erewrite bind_Ok_eq.
    2:{ apply lifti_Ok. unfold fill. rewrite (ho_block _ _ _ _ _ Hh2), lookup_insert_eq. cbn [bsize].
        rewrite (proj2 (Z.ltb_ge _ _)) by lia. reflexivity. }
    erewrite bind_Ok_eq by reflexivity. set (s3 := set_undo _ _ _). assert (alike s2 s3) as Hal3 by by split.
    eexists (Some p), s3. split; [done|]. split; [by eapply alike_env|].
    split; [by rewrite (alike_fixed _ _ Hal3)|]. exists s1, old, s2. split_and!; try done.
    + destruct Hh2. split; try done; cbn; rewrite ?length_alter, ?take_alter_ge by lia; try done.
      by rewrite insert_insert_eq.
    + destruct (core_inv _ _ Hc2) as (_ & Hu2 & _). cbn. rewrite Hu2. unfold s1. cbn.
      rewrite Nat2Z.id, !list_lookup_alter_eq, Hu. cbn. do 2 f_equal. lia.
  - destruct (holding_free A s s2 J p _ Hj Hh2) as (s3 & Hf & Hj3 & Hal3). erewrite bind_Ok_eq by exact Hf.
    exists None, s3. split; [done|]. split; [by eapply alike_env|].
    split; [by rewrite (alike_fixed _ _ Hal3)|]. split; [done|]. right. by exists s1, s2.
Qed.

(** How [_device_write] ends. *)
Definition write_end (A : gmap Z block) (s : lim) (J : list (Z * list Z)) (buf : list Z) (l : Z) (ok : bool) (s' : lim) : Prop :=
  let n := Z.of_nat (length buf) in
  if ok then ∃ s1 old s2 s3 s4, alike s s1 ∧ _device_read l n s1 = Ok (Some old) s2 ∧ alike s2 s3 ∧
    write_bytes buf l s3 = Ok true s4 ∧ alike s4 s' ∧ length old = length buf ∧ journal A s' (J ++ [(l, old)])
  else journal A s' J ∧
    (alike s s' ∨ ∃ s1 s2, alike s s1 ∧
      (_device_read l n s1 = Ok None s2 ∧ alike s2 s' ∨
       ∃ old s3 s4, _device_read l n s1 = Ok (Some old) s2 ∧ alike s2 s3 ∧ write_bytes buf l s3 = Ok false s4 ∧ alike s4 s')).

Lemma device_write_run A s J buf l :
  env_ok s → journal A s J → uninstalling s = false → 0 ≤ l < 2 ^ 64 → Z.of_nat (length buf) < 2 ^ 63 →
  ∃ ok s', _device_write buf l s = Ok ok s' ∧ env_ok s' ∧ fixed s' = fixed s ∧ write_end A s J buf l ok s'.
Proof.
  intros He Hj Hun Hl Hn. unfold _device_write. erewrite bind_Ok_eq by reflexivity. rewrite Hun.
  erewrite bind_Ok_eq by reflexivity. rewrite (jn_count _ _ _ Hj). unfold UNINSTALL_DATA_MAX.
  destruct (Z.leb_spec 256 (Z.of_nat (length J))) as [Hfull|Hroom].
  { edestruct print_run as (s1 & Hp & Hq). erewrite bind_Ok_eq by exact Hp. apply alike_quietly in Hq as Hal.
    exists false, s1. split; [done|]. split; [by eapply alike_env|]. split; [by apply alike_fixed|].
    split; [by eapply journal_core; [apply quietly_core|]|by left]. }
  destruct (save_old_run A s J l (Z.of_nat (length buf)) He Hj) as (r & s1 & Hs & He1 & Hf1 & Hend); [lia|lia|].
  erewrite bind_Ok_eq by exact Hs. destruct r as [p|].
  2:{ exists false, s1. split; [done|]. split; [done|]. split; [done|]. destruct Hend as [Hj1 Hend]. split; [done|].
      destruct Hend as [[Hal _]|(t1 & t2 & Hal & Hr & Hal2)]; [by left|right]. exists t1, t2. auto. }
  destruct Hend as (t1 & old & t2 & Hal & Hr & Hal2 & [Hlen Hold] & Hh & Hu). rewrite Nat2Z.id in Hlen.
  destruct (tame_write buf l s1 He1) as (ok & s2 & Hw & Hc2 & He2 & _). erewrite bind_Ok_eq by exact Hw.
  pose proof (core_fixed _ _ Hc2) as Hf2. destruct (core_inv _ _ Hc2) as (_ & Hu2 & _).
  pose proof (holding_core _ _ _ _ _ _ Hh Hc2) as Hh2. destruct ok; cbn [negb].
  - erewrite bind_Ok_eq by reflexivity. eexists true, _. split; [reflexivity|].
    set (s3 := set_uninstall_data_i _ _). assert (alike s2 s3) as Hal3 by by split.
    split; [by eapply alike_env|]. split; [rewrite (alike_fixed _ _ Hal3); congruence|].
    exists t1, old, t2, s1, s2. split_and!; try done.
    eapply holding_commit; [done|done|lia|done|done|]. by rewrite Hu2.
  - destruct (holding_free A s s2 J p _ Hj Hh2) as (s3 & Hf & Hj3 & Hal3). erewrite bind_Ok_eq by exact Hf.
    exists false, s3. split; [done|]. split; [by eapply alike_env|].
    split; [rewrite (alike_fixed _ _ Hal3); congruence|]. split; [done|]. right. exists t1, t2. split; [done|].
    right. by exists old, s1, s2.
Qed.

End LimineUndo.
