(* ===== verification/LimineSteps.v ===== *)
(** * What the steps of the installation keep

    [install] touches the device only through [device_read], [device_write] and
    the final flush.  So an invariant that these keep is kept by the whole
    installation: it holds when a step goes on, and a weaker one holds where the
    code jumps to [cleanup].  [allowed] restricts the areas that are written, and
    [content] says what is known of bytes that are read. *)

From S2P Require Import Prelude Host Limine LimineFacts LimineUndo LimineInstall.

Module LimineSteps.
Import Host Limine LimineFacts LimineUndo LimineInstall.

(** The only undefined behaviour of a step: a partition number that does not
    fit in 32 bits. *)
Definition bad_number (w : stop) : Prop := w = Undef "sscanf: number out of range".

Section keeps.
(** [I]: the device is in order.  [F]: the device can be restored. *)
Context (I F : lim → Prop) (allowed : Z → nat → Prop) (content : Z → list Z → Prop).
Hypothesis I_F : ∀ s, I s → F s.
Hypothesis I_alike : ∀ s s', alike s s' → core s' = core s → I s → I s'.
Hypothesis I_read : ∀ s l n, I s → 0 ≤ l < 2 ^ 64 → 0 ≤ n →
  ∃ r s', _device_read l n s = Ok r s' ∧ (if r is Some bs then I s' ∧ bytes_of n bs ∧ content l bs else F s').
Hypothesis I_write : ∀ s l buf, I s → 0 ≤ l < 2 ^ 64 → Z.of_nat (length buf) < 2 ^ 63 → allowed l (length buf) →
  ∃ ok s', _device_write buf l s = Ok ok s' ∧ (if ok : bool then I s' else F s').
Hypothesis I_flush : ∀ s, I s → ∃ ok s', device_flush_cache s = Ok ok s' ∧ (if ok : bool then I s' else F s').

Definition keeps {R} (m : step R) (Q : R → Prop) : Prop :=
  ∀ s, I s → runs m s (λ r s', if r is Some a then I s' ∧ Q a else F s') bad_number.

Lemma keeps_go {R} (a : R) (Q : R → Prop) : Q a → keeps (go_on a) Q.
Proof. intros HQ s Hs. by split. Qed.

Lemma keeps_cleanup {R} (Q : R → Prop) : keeps cleanup Q.
Proof. intros s Hs. by apply I_F. Qed.

Lemma keeps_then {R T} (m : step R) (k : R → step T) (P : R → Prop) Q :
  keeps m P → (∀ a, P a → keeps (k a) Q) → keeps (or_cleanup m k) Q.
Proof.
  intros Hm Hk s Hs. unfold or_cleanup. apply runs_bind. eapply runs_mono; [by apply Hm| |done].
  intros [a|] s' H; cbn beta in *; [|done]. destruct H as [H1 H2]. by apply Hk.
Qed.

Lemma keeps_weaken {R} (m : step R) (P Q : R → Prop) : keeps m P → (∀ a, P a → Q a) → keeps m Q.
Proof.
  intros Hm HPQ s Hs. eapply runs_mono; [by apply Hm| |done]. intros [a|] s' H; [|done]. destruct H. auto.
Qed.

(** Calls that leave the device alone. *)
Lemma keeps_call {R} (m : M lim R) :
  (∀ s, ∃ r s', m s = Ok r s' ∧ alike s s' ∧ core s' = core s) → keeps (call m) (λ _, True).
Proof.
  intros H s Hs. destruct (H s) as (r & s' & He & Ha & Hc). unfold call.
  eapply runs_bind_Ok; [exact He|]. split; [by eapply I_alike|done].
Qed.

Lemma keeps_quietly (m : M lim unit) :
  (∀ s, ∃ s', m s = Ok tt s' ∧ quietly s s') → keeps (call m) (λ _, True).
Proof.
  intros H. apply keeps_call. intros s. destruct (H s) as (s' & He & Hq). exists tt, s'.
  split; [done|]. split; [by apply alike_quietly|by apply quietly_core].
Qed.

Lemma keeps_chat fmt : keeps (call (chat fmt)) (λ _, True).
Proof. apply keeps_quietly, chat_run. Qed.

(** A message or an event of the host before a step. *)
Lemma keeps_pre {R T} (m : M lim R) (k : R → step T) Q :
  (∀ s, ∃ r s', m s = Ok r s' ∧ alike s s' ∧ core s' = core s) → (∀ r, keeps (k r) Q) → keeps (m ≫= k) Q.
Proof.
  intros H Hk s Hs. destruct (H s) as (r & s' & He & Ha & Hc). eapply runs_bind_Ok; [exact He|].
  apply Hk. by eapply I_alike.
Qed.

Lemma pre_quietly (m : M lim unit) s :
  (∃ s', m s = Ok tt s' ∧ quietly s s') → ∃ r s', m s = Ok r s' ∧ alike s s' ∧ core s' = core s.
Proof. intros (s' & He & Hq). exists tt, s'. split; [done|]. split; [by apply alike_quietly|by apply quietly_core]. Qed.

Lemma keeps_abort {R} msgs (Q : R → Prop) : keeps (abort_with msgs) Q.
Proof.
  induction msgs as [|m msgs IH]; [apply keeps_cleanup|]. apply keeps_pre; [|done].
  intros s. apply pre_quietly, print_run.
Qed.

Lemma keeps_read l n : 0 ≤ l < 2 ^ 64 → 0 ≤ n → keeps (device_read l n) (λ bs, bytes_of n bs ∧ content l bs).
Proof.
  intros Hl Hn s Hs. destruct (I_read s l n Hs Hl Hn) as (r & s' & He & Hr).
  eapply runs_ret; [exact He|]. by destruct r.
Qed.

Lemma keeps_write buf l :
  0 ≤ l < 2 ^ 64 → Z.of_nat (length buf) < 2 ^ 63 → allowed l (length buf) → keeps (device_write buf l) (λ _, True).
Proof.
  intros Hl Hn Hal s Hs. destruct (I_write s l buf Hs Hl Hn Hal) as (ok & s' & He & Hr).
  unfold device_write. eapply runs_bind_Ok; [exact He|]. by destruct ok.
Qed.

Lemma keeps_for n i body :
  (∀ j, i ≤ j < i + Z.of_nat n → keeps (body j) (λ _, True)) → keeps (for_step n i body) (λ _, True).
Proof.
  revert i. induction n as [|n IH]; intros i H; [by apply keeps_go|]. cbn [for_step].
  eapply keeps_then; [apply H; lia|]. intros _ _. apply IH. intros j Hj. apply H. lia.
Qed.

(** ** Checks *)

Hint Resolve wrap64_range : core.

Ltac step_tac :=
  repeat first
  [ apply keeps_go; exact Logic.I
  | apply keeps_abort
  | apply keeps_cleanup
  | apply keeps_chat
  | eapply keeps_then; [apply keeps_chat|intros ? _]
  | eapply keeps_then; [apply keeps_read; [first [apply wrap64_range|lia]|lia]|intros ? ?]
  | match goal with |- keeps (if ?b then _ else _) _ => destruct b eqn:? end ].

Lemma keeps_hint offset force at_ sig wipe :
  Z.of_nat wipe < 2 ^ 63 → (force = true → allowed (offset +w at_) wipe) →
  keeps (check_hint offset force at_ sig wipe) (λ _, True).
Proof.
  intros Hw Hal. unfold check_hint. step_tac. destruct force; [|done].
  eapply keeps_then; [apply keeps_write; rewrite ?length_replicate; auto|]. intros _ _. by apply keeps_go.
Qed.

(** Where [validate_or_force] overwrites signatures. *)
Definition hints_allowed (offset : Z) : Prop :=
  allowed (offset +w 3) 4 ∧ allowed (offset +w 3) 5 ∧ allowed (offset +w 54) 5 ∧ allowed (offset +w 82) 5 ∧
  allowed (offset +w 1080) 2.

Lemma keeps_validate offset force :
  (force = true → hints_allowed offset) → keeps (validate_or_force offset force) (λ _, True).
Proof.
  intros Hal. unfold validate_or_force.
  do 4 (eapply keeps_then; [apply keeps_hint; [by vm_compute|intros Hf; by destruct (Hal Hf) as (? & ? & ? & ? & ?)]|];
    intros [] _; cbn [negb]; [|by apply keeps_go]).
  step_tac. destruct force; [|done]. destruct (Hal eq_refl) as (_ & _ & _ & _ & ?).
  eapply keeps_then; [by apply keeps_write|]. intros _ _. by apply keeps_go.
Qed.

(** An entry of the MBR that is empty or starts after the first track. *)
Definition entry_checked (base : Z) : Prop :=
  ∃ ty, bytes_of 1 ty ∧ content (base + 4) ty ∧
    (le ty ≠ 0 → ∃ start, bytes_of 4 start ∧ content (base + 8) start ∧ 63 ≤ le start).

Lemma keeps_entry force base mbr any :
  0 ≤ base < 2 ^ 32 → (force = true → allowed base 1) → keeps (check_entry force base mbr any) (λ _, entry_checked base).
Proof.
  intros Hb Hal. unfold check_entry.
  eapply keeps_then; [apply keeps_read; lia|]. intros bs _.
  eapply (keeps_then _ _ (λ _, True)).
  { destruct (_ && _); [|by apply keeps_go]. destruct force; cbn [negb]; [|by apply keeps_go].
    eapply keeps_then; [apply keeps_write; [lia|done|auto]|]. intros _ _. by apply keeps_go. }
  intros [m h] _. cbn [fst snd]. eapply keeps_then; [apply keeps_read; lia|]. intros ty [Hty Hcty].
  destruct (Z.eqb_spec (le ty) 0); cbn [negb]; [apply keeps_go; by exists ty|].
  eapply keeps_then; [apply keeps_read; lia|]. intros start [Hst Hcst].
  change (ENDSWAP 4 (le start)) with (le start). destruct (Z.ltb_spec (le start) 63); [apply keeps_abort|].
  apply keeps_go. exists ty. split_and!; [done|done|]. intros _. by exists start.
Qed.

Definition MBR_ENTRIES : list Z := [446; 462; 478; 494].

Lemma keeps_mbr force :
  (force = true → ∀ base, base ∈ MBR_ENTRIES → allowed base 1) → (force = true → hints_allowed 0) → allowed 446 1 →
  keeps (check_mbr force) (λ _, ∀ base, base ∈ MBR_ENTRIES → entry_checked base).
Proof.
  intros Hal Hh H446. unfold check_mbr.
  do 4 (eapply keeps_then; [apply keeps_entry; [lia|intros Hf; apply (Hal Hf); set_solver]|]; intros ? ?).
  eapply (keeps_then _ _ (λ _, True)).
  { match goal with |- keeps (if ?b then _ else _) _ => destruct b end; [by apply keeps_validate|by apply keeps_go]. }
  intros mbr _. assert (∀ base, base ∈ MBR_ENTRIES → entry_checked base).
  { intros base [<-|[<-|[<-|[<-|[]]]]]%list_elem_of_In; done. }
  destruct (_ && _); [|by apply keeps_go]. do 2 (eapply keeps_then; [apply keeps_chat|intros _ _]).
  eapply keeps_then; [apply keeps_write; [lia|done|done]|]. intros _ _. by apply keeps_go.
Qed.

(** ** The GPT *)

(** A header whose bytes were read at [lb]. *)
Definition header_at (h : gpt_table_header) (lb : Z) : Prop :=
  ∃ bs, bytes_of 96 bs ∧ content lb bs ∧ h = header_of bs ∧ signature h = EFI_PART.

Lemma keeps_probe gs :
  Forall (λ g, 0 ≤ g < 2 ^ 32) gs →
  keeps (probe_gpt gs) (λ r, ∀ h lb, r = Some (h, lb) → lb ∈ gs ∧ header_at h lb).
Proof.
  induction 1 as [|g gs Hg _ IH]; cbn [probe_gpt]; [by apply keeps_go|].
  eapply keeps_then; [apply keeps_read; unfold SIZEOF_HEADER; lia|]. intros bs [Hb Hc].
  destruct (bool_decide _) eqn:Ed.
  - apply bool_decide_eq_true in Ed. eapply keeps_then; [apply keeps_chat|]. intros _ _. apply keeps_go.
    intros h lb [= <- <-]. split; [left|by exists bs].
  - eapply keeps_weaken; [exact IH|]. intros r Hr h lb Hrl. destruct (Hr h lb Hrl). split; [by right|done].
Qed.

Lemma keeps_secondary h lb : keeps (check_secondary h lb) (λ _, True).
Proof. unfold check_secondary, SIZEOF_HEADER. step_tac. Qed.

Lemma length_lba2chs lba : length (lba2chs lba) = 3%nat.
Proof. unfold lba2chs. by destruct (_ || _). Qed.

(** A partition as [conv_part] makes it. *)
Definition part_ok (p : part) : Prop := length (chs_start p) = 3%nat ∧ length (chs_end p) = 3%nat.

Lemma conv_part_run e n s :
  ∃ r s', conv_part e n s = Ok r s' ∧ quietly s s' ∧ ∀ p, r = Some p → n ≠ 4%nat ∧ part_ok p.
Proof.
  unfold conv_part.
  repeat match goal with |- context [if ?b then _ else _] =>
    destruct b eqn:?; [edestruct chat_run as (s' & He & Hq); erewrite bind_Ok_eq by exact He; exists None, s'; done|] end.
  eexists _, s. split; [reflexivity|]. split; [apply quietly_refl|]. intros p [= <-].
  split; [by apply Nat.eqb_neq|]. split; apply length_lba2chs.
Qed.

Lemma keeps_gather n i base h acc :
  (length acc ≤ 4)%nat → Forall part_ok acc →
  keeps (gather n i base h acc) (λ r, ∀ ps, r = Some ps → (length ps ≤ 4)%nat ∧ Forall part_ok ps).
Proof.
  revert i acc. induction n as [|n IH]; intros i acc Ha Hok; cbn [gather]; [apply keeps_go; by intros ps [= <-]|].
  destruct (add_u64_overflow _ _) as [off over] eqn:E. destruct over; [by apply keeps_go|].
  assert (0 ≤ off < 2 ^ 64) by (injection E as <- _; auto).
  eapply keeps_then; [apply keeps_read; unfold SIZEOF_ENTRY; lia|]. intros bs _. destruct (no_guid _); [by apply IH|].
  eapply (keeps_then _ _ (λ r, ∀ p, r = Some p → length acc ≠ 4%nat ∧ part_ok p)).
  { intros s Hs. destruct (conv_part_run (entry_of bs) (length acc) s) as (r & s' & He & Hq & Hr).
    eapply runs_bind_Ok; [exact He|]. split; [|done]. eapply I_alike; [by apply alike_quietly|by apply quietly_core|done]. }
  intros [p|] Hp; [|by apply keeps_go]. destruct (Hp p eq_refl) as [H4 Hpo]. apply IH.
  - rewrite length_app. cbn. lia.
  - apply Forall_app. auto.
Qed.

Lemma keeps_parts i ps :
  0 ≤ i → i + Z.of_nat (length ps) < 2 ^ 32 → Forall part_ok ps → (∀ l n, (0 < n)%nat → allowed l n) →
  keeps (write_parts i ps) (λ _, True).
Proof.
  intros Hi Hn Hok Hal. revert i Hi Hn. induction Hok as [|p ps [Hp1 Hp2] _ IH]; intros i Hi Hn; cbn [write_parts];
    [by apply keeps_go|].
  cbn [length] in Hn. eapply (keeps_then _ _ (λ _, True)); [|intros _ _; apply IH; lia]. unfold write_part.
  do 4 (eapply keeps_then; [apply keeps_write; rewrite ?Hp1; try apply Hal; cbn; lia|intros _ _]).
  apply keeps_write; rewrite ?Hp2; try apply Hal; cbn; lia.
Qed.

Lemma event_run s : ∃ r s', lifti next_event s = Ok r s' ∧ alike s s' ∧ core s' = core s.
Proof.
  unfold lifti, zoom, next_event. destruct (faults (io s)) eqn:E.
  - eexists _, _. split; [reflexivity|]. by split; [split|].
  - eexists _, _. split; [reflexivity|]. split; [split; try done; cbn; by rewrite E|done].
Qed.

Lemma rand_run s : ∃ r s', lifti rand s = Ok r s' ∧ alike s s' ∧ core s' = core s.
Proof. unfold lifti, zoom, rand. destruct (rands (io s)); (eexists _, _; split; [reflexivity|]; by split; [split|]). Qed.

Lemma keeps_replace h lb ps :
  0 < lb < 2 ^ 32 → (length ps ≤ 4)%nat → Forall part_ok ps → (∀ l n, (0 < n)%nat → allowed l n) →
  keeps (replace_gpt h lb ps) (λ _, True).
Proof.
  intros Hlb Hps Hok Hal. unfold replace_gpt. apply keeps_pre; [apply event_run|]. intros [|k].
  2:{ apply keeps_pre; [intros s; apply pre_quietly, perror_run|]. intros _. apply keeps_cleanup. }
  assert (∀ l, keeps (device_write (replicate (Z.to_nat lb) 0) (wrap64 l)) (λ _, True)) as Hz.
  { intros l. apply keeps_write; rewrite ?length_replicate; [auto|lia|apply Hal; lia]. }
  eapply keeps_then; [apply keeps_for; intros j _; apply Hz|]. intros _ _.
  eapply (keeps_then _ _ (λ _, True)).
  { destruct (_ <=? _); [|by apply keeps_go]. apply keeps_for. intros j _. apply Hz. }
  intros _ _. eapply keeps_then.
  { apply keeps_for. intros j Hj. eapply keeps_then; [apply keeps_call, rand_run|]. intros r _.
    apply keeps_write; [lia|done|apply Hal; cbn; lia]. }
  intros _ _. eapply keeps_then; [by apply keeps_parts; [lia|lia|..]|]. intros _ _. apply keeps_chat.
Qed.

Lemma keeps_convert h lb :
  0 < lb < 2 ^ 32 → (content 32769 (chars "CD001") → ∀ l n, (0 < n)%nat → allowed l n) → keeps (convert h lb) (λ _, True).
Proof.
  intros Hlb Hal. unfold convert. eapply keeps_then; [apply keeps_read; lia|]. intros iso [_ Hiso].
  destruct (bool_decide _) eqn:Ed; cbn [negb]; [|by apply keeps_go]. apply bool_decide_eq_true in Ed as ->.
  specialize (Hal Hiso). step_tac. destruct (mul_u64_overflow _ _) as [base over]. step_tac.
  eapply keeps_then; [apply keeps_gather; [cbn; lia|constructor]|]. intros [ps|] Hps; [|by apply keeps_go].
  destruct (Hps ps eq_refl). eapply keeps_then; [by apply keeps_replace|]. intros _ _. by apply keeps_go.
Qed.

(** An entry of the table at [base] whose bytes were read. *)
Definition table_entry (base : Z) (h : gpt_table_header) (e : gpt_entry) : Prop :=
  ∃ i bs, 0 ≤ i < ENDSWAP 4 (number_of_partition_entries h) ∧ bytes_of 128 bs ∧
    content (base +w (i *w ENDSWAP 4 (size_of_partition_entry h))) bs ∧ e = entry_of bs.

Lemma keeps_autodetect n i base h :
  0 ≤ i → i + Z.of_nat n = ENDSWAP 4 (number_of_partition_entries h) →
  keeps (autodetect n i base h) (λ e, table_entry base h e ∧ partition_type_guid e = BIOS_BOOT).
Proof.
  revert i. induction n as [|n IH]; intros i Hi Hn; cbn [autodetect]; [apply keeps_abort|].
  destruct (add_u64_overflow _ _) as [off over] eqn:E. destruct over; [apply keeps_abort|]. injection E as <- _.
  eapply keeps_then; [apply keeps_read; [auto|done]|]. intros bs [Hl Hc].
  destruct (bool_decide _) eqn:Ed; [|apply IH; lia]. apply bool_decide_eq_true in Ed.
  eapply keeps_then; [apply keeps_chat|]. intros _ _. apply keeps_go. split; [|done].
  exists i, bs. split_and!; [lia|lia|done|done|done].
Qed.

Lemma sscanf_run ndx s :
  (∃ r, sscanf_u32 ndx s = Ok r s) ∨ sscanf_u32 ndx s = Stop (Undef "sscanf: number out of range") s.
Proof.
  clear. unfold sscanf_u32. cbv zeta. case_match. clear. destruct (scan_digits _ _) as [v|]; [|left; by eexists].
  destruct (_ && _); [left; by eexists|by right].
Qed.

Lemma keeps_chosen force ndx base h :
  keeps (chosen_partition force ndx base h)
    (λ e, table_entry base h e ∧ (force = false → partition_type_guid e = BIOS_BOOT)).
Proof.
  unfold chosen_partition. eapply (keeps_then _ _ (λ _, True)).
  { intros s Hs. unfold call. destruct (sscanf_run ndx s) as [[r He]|He].
    - eapply runs_bind_Ok; [exact He|]. by split.
    - unfold runs. by rewrite (bind_Stop_eq _ _ _ _ _ He). }
  intros [n|] _; [|apply keeps_abort]. destruct (Z.leb_spec (ENDSWAP 4 (number_of_partition_entries h)) (wrap32 (n - 1)));
    [apply keeps_abort|].
  destruct (add_u64_overflow _ _) as [off over] eqn:E. destruct over; [apply keeps_abort|]. injection E as <- _.
  eapply keeps_then; [apply keeps_read; [auto|done]|]. intros bs [Hl Hc]. destruct (no_guid _); [apply keeps_abort|].
  destruct (_ && _) eqn:Ef; [apply keeps_abort|]. apply keeps_go. split.
  - pose proof (wrap32_range (n - 1)). exists (wrap32 (n - 1)), bs. split_and!; [lia|lia|done|done|done].
  - intros ->. cbn [negb andb] in Ef. apply negb_false_iff in Ef. by apply bool_decide_eq_true in Ef.
Qed.

(** Where stage 2 goes: at the start of a partition of 32 KiB at least. *)
Definition stage2_place (e : gpt_entry) (lb l : Z) : Prop :=
  l = ENDSWAP 8 (starting_lba e) * lb ∧ 0 ≤ l < 2 ^ 64 ∧
  l + 32768 ≤ (ENDSWAP 8 (ending_lba e) + 1) * lb.

Lemma mul_overflow_false a b r :
  0 ≤ a < 2 ^ 64 → 0 ≤ b < 2 ^ 64 → mul_u64_overflow a b = (r, false) → r = a * b ∧ a * b < 2 ^ 64.
Proof.
  intros Ha Hb [= <- Ho]. assert (a * b < 2 ^ 64); [|split; [|done]; apply wrap64_small; nia].
  apply andb_false_iff in Ho as [Ho|Ho]; zify_bools; [by subst|]. unfold UINT64_MAX in Ho.
  destruct (decide (a = 0)) as [->|]; [done|]. pose proof (Z.mul_div_le (2 ^ 64 - 1) a ltac:(lia)). nia.
Qed.

Lemma keeps_stage2 force e lb :
  0 ≤ lb < 2 ^ 32 → 0 ≤ starting_lba e < 2 ^ 64 → 0 ≤ ending_lba e < 2 ^ 64 →
  (force = true → ∀ l, stage2_place e lb l → hints_allowed l) →
  keeps (stage2_in_partition force e lb) (stage2_place e lb).
Proof.
  intros Hlb Hs He Hal. unfold stage2_in_partition. change (ENDSWAP 8 (starting_lba e)) with (starting_lba e).
  change (ENDSWAP 8 (ending_lba e)) with (ending_lba e).
  destruct (Z.ltb_spec (ending_lba e) (starting_lba e)); [apply keeps_abort|].
  destruct (mul_u64_overflow _ _) as [ps over] eqn:E1. destruct over; [apply keeps_abort|].
  destruct (Z.ltb_spec ps 32768); [apply keeps_abort|].
  destruct (mul_u64_overflow (starting_lba e) lb) as [l over] eqn:E2. destruct over; [apply keeps_abort|].
  apply mul_overflow_false in E1 as [-> H1], E2 as [-> H2]; [|auto; lia..].
  assert (stage2_place e lb (starting_lba e * lb)) as Hpl.
  { split_and!; [done|nia|done|]. change (ENDSWAP 8 (ending_lba e)) with (ending_lba e).
    destruct (decide (ending_lba e - starting_lba e + 1 = 2 ^ 64)) as [Ew|].
    - rewrite Ew in *. change (wrap64 (2 ^ 64)) with 0 in *. lia.
    - rewrite wrap64_small in * by lia. lia. }
  eapply keeps_then; [apply keeps_validate; auto|]. intros [] _; cbn [negb]; [|apply keeps_abort].
  eapply keeps_then; [apply keeps_chat|]. intros _ _. by apply keeps_go.
Qed.

(** ** The whole installation *)

Lemma le_range bs : Forall (λ b, 0 ≤ b < 256) bs → 0 ≤ le bs < 256 ^ Z.of_nat (length bs).
Proof.
  induction 1 as [|b bs Hb _ IH]; [done|]. cbn [le length]. rewrite Nat2Z.inj_succ, Z.pow_succ_r by lia. lia.
Qed.

Lemma member_range bs off n : Forall (λ b, 0 ≤ b < 256) bs → 0 ≤ member bs off n < 256 ^ Z.of_nat n.
Proof.
  intros Hb. unfold member. assert (Forall (λ b, 0 ≤ b < 256) (take n (drop off bs))) as H by by apply Forall_take, Forall_drop.
  apply le_range in H. rewrite length_take in H. split; [lia|]. eapply Z.lt_le_trans; [apply H|].
  apply Z.pow_le_mono_r; lia.
Qed.

Lemma keeps_gpt o h lb :
  0 ≤ lb < 2 ^ 32 → header_at h lb →
  (∀ base e l, mul_u64_overflow (partition_entry_lba h) lb = (base, false) → table_entry base h e →
     (force o = false → partition_type_guid e = BIOS_BOOT) → force o = true → stage2_place e lb l → hints_allowed l) →
  keeps (gpt_stage2 o h lb) (λ l, ∃ base e, mul_u64_overflow (partition_entry_lba h) lb = (base, false) ∧
    table_entry base h e ∧ (force o = false → partition_type_guid e = BIOS_BOOT) ∧ stage2_place e lb l).
Proof.
  intros Hlb Hh Hal. unfold gpt_stage2. change (ENDSWAP 8 (partition_entry_lba h)) with (partition_entry_lba h).
  destruct (mul_u64_overflow _ _) as [base over] eqn:E. destruct over; [apply keeps_abort|].
  eapply (keeps_then _ _ (λ e, table_entry base h e ∧ (force o = false → partition_type_guid e = BIOS_BOOT))).
  { destruct (part_ndx o); [apply keeps_chosen|]. destruct Hh as (bs & [_ Hb] & _ & -> & _).
    eapply keeps_weaken; [apply keeps_autodetect; [done|]|intros e [? ?]; auto].
    pose proof (member_range bs 80 4 Hb). rewrite Z2Nat.id; [done|]. apply H. }
  intros e [He Ht]. pose proof He as (i & bs & _ & [_ Hb] & _ & ->).
  eapply keeps_weaken; [apply keeps_stage2; [done|apply (member_range bs 32 8 Hb)|apply (member_range bs 40 8 Hb)|eauto]|].
  intros l Hl. by exists base, (entry_of bs).
Qed.

Lemma keeps_flush {R} (k : step R) (Q : R → Prop) :
  keeps k Q → keeps (flushed ←? call device_flush_cache; if negb flushed then cleanup else k) Q.
Proof.
  intros Hk s Hs. destruct (I_flush s Hs) as (ok & s' & He & Hr). unfold or_cleanup, call. apply runs_bind.
  eapply runs_bind_Ok; [exact He|]. eapply runs_ret; [done|]. destruct ok; [by apply Hk|done].
Qed.

(** The areas both stages are written to. *)
Definition stages_allowed (img : list Z) (l : Z) : Prop :=
  allowed 0 (length (take 512 img)) ∧ allowed l (length (drop 512 img)) ∧
  allowed 0x1a4 8 ∧ allowed 218 6 ∧ allowed 440 70.

Lemma keeps_stages img l :
  0 ≤ l < 2 ^ 64 → Z.of_nat (length img) < 2 ^ 63 → stages_allowed img l → keeps (write_stages img l) (λ _, True).
Proof.
  intros Hl Hn (Ha0 & Ha1 & Ha2 & Ha3 & Ha4). unfold write_stages. eapply keeps_then; [apply keeps_chat|]. intros _ _.
  eapply keeps_then; [apply keeps_read; lia|]. intros ts [[Hts _] _].
  eapply keeps_then; [apply keeps_read; lia|]. intros mb [[Hmb _] _].
  eapply keeps_then; [apply keeps_write; [lia|rewrite length_take; lia|done]|]. intros _ _.
  eapply keeps_then; [apply keeps_write; [lia|rewrite length_drop; lia|done]|]. intros _ _.
  eapply keeps_then; [apply keeps_write; [lia|done|done]|]. intros _ _.
  eapply keeps_then; [apply keeps_write; rewrite ?Hts; done || lia|]. intros _ _.
  eapply keeps_then; [apply keeps_write; rewrite ?Hmb; done || lia|]. intros _ _.
  apply keeps_flush. eapply keeps_then; [apply keeps_chat|]. intros _ _. apply keeps_chat.
Qed.

Lemma lb_range lb : lb ∈ [512; 4096] → 0 < lb < 2 ^ 32.
Proof. clear. intros [<-|[<-|[]]]%list_elem_of_In; lia. Qed.

Lemma keeps_find_gpt o :
  (gpt2mbr_allowed o = true → content 32769 (chars "CD001") → ∀ l n, (0 < n)%nat → allowed l n) →
  keeps (find_gpt o) (λ r, ∀ h lb, r = Some (h, lb) → lb ∈ [512; 4096] ∧ header_at h lb).
Proof.
  intros Hal. unfold find_gpt. eapply keeps_then; [apply keeps_probe; repeat constructor; lia|].
  intros [[h lb]|] Hg; [|by apply keeps_go]. destruct (Hg h lb eq_refl) as [Hlb Hh].
  pose proof (lb_range lb Hlb).
  eapply keeps_then; [apply keeps_secondary|]. intros _ _.
  eapply (keeps_then _ _ (λ _, True)).
  { destruct (gpt2mbr_allowed o); [apply keeps_convert; auto|by apply keeps_go]. }
  intros [] _; apply keeps_go; [|done]. intros h' lb' [= <- <-]. done.
Qed.

Lemma keeps_mbr_stage2 o :
  (force o = true → ∀ base, base ∈ MBR_ENTRIES → allowed base 1) → (force o = true → hints_allowed 0) → allowed 446 1 →
  keeps (mbr ←? check_mbr (force o);
    if negb mbr then
      abort_with ["error: Could not determine if the device has a valid partition table.\n";
                  "       Please ensure the device has a valid MBR or GPT.\n";
                  "       Alternatively, pass `--force` to override these checks.\n";
                  "       **ONLY DO THIS AT YOUR OWN RISK, DATA LOSS MAY OCCUR!**\n"]
    else call (chat "Installing to MBR.\n") ;? go_on 512) (λ l, l = 512 ∧ ∀ base, base ∈ MBR_ENTRIES → entry_checked base).
Proof.
  intros H1 H2 H3. eapply keeps_then; [by apply keeps_mbr|]. intros [] He; cbn [negb]; [|apply keeps_abort].
  eapply keeps_then; [apply keeps_chat|]. intros _ _. by apply keeps_go.
Qed.

(** Where everything may be written. *)
Lemma keeps_install img o :
  512 < Z.of_nat (length img) < 2 ^ 63 → (∀ l n, (0 < n)%nat → allowed l n) → keeps (install img o) (λ _, True).
Proof.
  intros Hn Hal. assert (∀ l, hints_allowed l) as Hh by (intros l; unfold hints_allowed; split_and!; apply Hal; lia).
  unfold install. eapply keeps_then; [apply keeps_find_gpt; auto|]. intros g Hg.
  eapply (keeps_then _ _ (λ l, 0 ≤ l < 2 ^ 64)).
  2:{ intros l Hl. apply keeps_stages; [done|lia|]. unfold stages_allowed.
      split_and!; apply Hal; rewrite ?length_take, ?length_drop; lia. }
  destruct g as [[h lb]|].
  - destruct (Hg h lb eq_refl) as [Hlb ?]. eapply keeps_weaken; [apply keeps_gpt; auto; by apply lb_range in Hlb; lia|].
    intros l (base & e & _ & _ & _ & _ & Hl & _). done.
  - eapply keeps_weaken; [apply keeps_mbr_stage2; auto; intros; apply Hal; lia|]. intros l [-> _]. done.
Qed.

End keeps.
End LimineSteps.
