(* ===== verification/LimineJournal.v ===== *)
(** * Playing the journal back

    [reverse_uninstall_data], [uninstall] and [free_uninstall_data] on a
    journal, whatever calls of the host fail; and, when none fails, the bytes
    that [uninstall] leaves on the device. *)

From S2P Require Import Prelude Host Limine LimineFacts LimineUndo.

Module LimineJournal.
Import Host Limine LimineFacts LimineUndo.

(** ** Reversing *)

Lemma entries_reverse A m us J : entries A m us J → entries A m (reverse us) (reverse J).
Proof.
  intros [Hok Hd Ho Hf]. split.
  - by apply Forall2_reverse.
  - rewrite fmap_reverse. by rewrite reverse_Permutation.
  - intros p. rewrite fmap_reverse, reverse_Permutation. apply Ho.
  - intros p. rewrite fmap_reverse, reverse_Permutation. apply Hf.
Qed.

Lemma undo_at_run s i u : uninstall_data s !! Z.to_nat i = Some u → undo_at i s = Ok u s.
Proof. intros H. unfold undo_at. erewrite bind_Ok_eq by reflexivity. by rewrite H. Qed.

(** The copy loop of [reverse_uninstall_data] on the first [n] entries. *)
Lemma reverse_loop s n :
  (n ≤ length (uninstall_data s))%nat → (n ≤ length (uninstall_data_rev s))%nat →
  runs (for_ n 0 (λ i, u ← undo_at i;
      modify (λ s, set_uninstall_data_rev (<[Z.to_nat (Z.of_nat n - 1 - i) := u]> (uninstall_data_rev s)) s))) s
    (λ _ t, ∃ R, t = set_uninstall_data_rev R s ∧ length R = length (uninstall_data_rev s) ∧
       take n R = reverse (take n (uninstall_data s))) (λ _, False).
Proof.
  intros Hn Hr. set (us := uninstall_data s) in *. eapply runs_mono.
  { apply (runs_for n 0 _ (λ i t, 0 ≤ i ∧ ∃ R, t = set_uninstall_data_rev R s ∧ length R = length (uninstall_data_rev s) ∧
      ∀ j, 0 ≤ j < i → R !! Z.to_nat (Z.of_nat n - 1 - j) = us !! Z.to_nat j) (λ _, False)).
    - split; [lia|]. exists (uninstall_data_rev s). split_and!; [by destruct s|done|lia].
    - intros i t Hi (_ & R & -> & Hl & HR). destruct (lookup_lt_is_Some_2 us (Z.to_nat i) ltac:(lia)) as [u Hu].
      eapply runs_bind_Ok; [by apply undo_at_run|]. split; [lia|].
      exists (<[Z.to_nat (Z.of_nat n - 1 - i) := u]> R). split_and!; [done|by rewrite length_insert|].
      intros j Hj. destruct (decide (j = i)) as [->|]; [by rewrite list_lookup_insert_eq, Hu by lia|].
      rewrite list_lookup_insert_ne by lia. apply HR. lia. }
  - intros [] t (_ & R & -> & Hl & HR). exists R. split_and!; [done|done|]. apply list_eq. intros k.
    assert (length (take n us) = n) as Hlt by (rewrite length_take; lia).
    destruct (decide (k < n)%nat).
    + rewrite lookup_take_lt, reverse_lookup, Hlt, lookup_take_lt by lia.
      specialize (HR (Z.of_nat (n - S k)) ltac:(lia)). rewrite Nat2Z.id in HR. rewrite <-HR. f_equal. lia.
    + rewrite !lookup_ge_None_2; [done| |]; rewrite ?length_reverse, ?length_take; lia.
  - done.
Qed.

Lemma reverse_run A s J :
  journal A s J →
  ∃ s', reverse_uninstall_data s = Ok tt s' ∧ journal A s' (reverse J) ∧ alike s s'.
Proof.
  intros [Hs Hr Hi Hm He]. unfold reverse_uninstall_data. erewrite bind_Ok_eq by reflexivity. rewrite Hi, Nat2Z.id.
  destruct (runs_Ok _ _ _ _ (reverse_loop s (length J) ltac:(lia) ltac:(lia))) as
    [([] & t & Ht & R & -> & Hl & HR)|(w & t & _ & [])].
  erewrite bind_Ok_eq by exact Ht. eexists. split; [reflexivity|]. split; [|by split].
  split; cbn; rewrite ?length_reverse; try done; try lia.
  - rewrite length_app, length_drop, HR, length_reverse, length_take. lia.
  - rewrite take_app_le by (rewrite length_take; lia). rewrite take_take, Nat.min_id, HR. by apply entries_reverse.
Qed.

(** ** Restoring *)

Lemma deref_run s u r : entry_ok (allocs (io s)) u r → lifti (deref (data u) (count u)) s = Ok r.2 s.
Proof.
  intros (_ & _ & Hc & _ & _ & sz & Hm). unfold lifti, zoom, deref. rewrite Hm, Hc. cbn [bdata].
  rewrite Z.ltb_irrefl, Nat2Z.id, firstn_all. by destruct s.
Qed.

Lemma write_uninstalling s buf l : uninstalling s = true → _device_write buf l s = write_bytes buf l s.
Proof. intros H. unfold _device_write. erewrite bind_Ok_eq by reflexivity. by rewrite H. Qed.

Lemma core_un s s' : core s' = core s → uninstalling s' = uninstalling s.
Proof. unfold core. congruence. Qed.

Lemma core_others s s' : core s' = core s → others s' = others s.
Proof. unfold core. congruence. Qed.

Lemma core_allocs s s' : core s' = core s → allocs (io s') = allocs (io s).
Proof. unfold core. congruence. Qed.

(** [restore] returns and keeps the journal. *)
Lemma restore_tame s u r :
  entry_ok (allocs (io s)) u r → env_ok s → uninstalling s = true →
  ∃ x s', restore u s = Ok x s' ∧ core s' = core s ∧ env_ok s'.
Proof.
  intros Hu He Hun. unfold restore.
  assert (∀ t, core t = core s → env_ok t →
    ∃ ok t', (bs ← lifti (deref (data u) (count u)); _device_write bs (loc u)) t = Ok ok t' ∧ core t' = core s ∧ env_ok t') as Hw.
  { intros t Ht Het. rewrite <-(core_allocs _ _ Ht) in Hu. erewrite bind_Ok_eq by (by apply deref_run).
    rewrite write_uninstalling by (by rewrite (core_un _ _ Ht)).
    destruct (tame_write r.2 (loc u) t Het) as (ok & t' & Hk & Hc & He' & _). exists ok, t'. split_and!; [done|congruence|done]. }
  destruct (Hw s eq_refl He) as (ok & s1 & H1 & Hc1 & He1). erewrite bind_Ok_eq by exact H1.
  destruct ok; [by exists (false, false), s1|].
  destruct (tame_chat "warning: Uninstall data index %zu failed to write, retrying...\n" s1 He1) as ([] & s2 & H2 & Hc2 & He2 & _).
  erewrite bind_Ok_eq by exact H2. destruct (tame_flush s2 He2) as (fl & s3 & H3 & Hc3 & He3 & _).
  erewrite bind_Ok_eq by exact H3. do 2 erewrite bind_Ok_eq by reflexivity. set (s4 := set_cached_block _ _).
  assert (core s4 = core s) as Hc4 by (change (core s4) with (core s3); congruence).
  assert (env_ok s4) as He4 by by destruct He3.
  destruct (Hw s4 Hc4 He4) as (ok & s5 & H5 & Hc5 & He5). erewrite bind_Ok_eq by exact H5.
  destruct ok; [by eexists _, s5|]. destruct (tame_print "warning: Retry failed.\n" s5 He5) as ([] & s6 & H6 & Hc6 & He6 & _).
  erewrite bind_Ok_eq by exact H6. eexists _, s6. split_and!; [done|congruence|done].
Qed.

Lemma restore_all_tame s us J :
  Forall2 (entry_ok (allocs (io s))) us J → env_ok s → uninstalling s = true →
  ∃ x s', restore_all us s = Ok x s' ∧ core s' = core s ∧ env_ok s'.
Proof.
  revert s J. induction us as [|u us IH]; intros s J Hus He Hun; cbn [restore_all]; [by eexists _, s|].
  inversion Hus as [|? r ? J' Hu Hus']; subst.
  destruct (restore_tame s u r Hu He Hun) as (x & s1 & H1 & Hc1 & He1). erewrite bind_Ok_eq by exact H1.
  destruct (IH s1 J') as (y & s2 & H2 & Hc2 & He2); [by rewrite (core_allocs _ _ Hc1)|done|by rewrite (core_un _ _ Hc1)|].
  erewrite bind_Ok_eq by exact H2. eexists _, s2. split_and!; [done|congruence|done].
Qed.

(** ** Releasing *)

Lemma entries_free A m us u J r :
  entries A m (u :: us) (r :: J) → entries A (delete (data u) m) us J.
Proof.
  intros [Hok Hd Ho Hf]. inversion Hok; subst. rewrite fmap_cons in *. apply NoDup_cons in Hd as [Hu Hd]. split.
  - apply Forall2_same_length_lookup_2; [by eapply Forall2_length|]. intros i u' r' Hu' Hr'.
    destruct (Forall2_lookup_lr _ _ _ _ _ _ ltac:(eassumption) Hu' Hr') as (? & ? & ? & ? & ? & z & Hz).
    split_and!; try (done || lia). exists z. rewrite lookup_delete_ne; [done|]. intros Hdd. apply Hu.
    rewrite Hdd. by eapply list_elem_of_fmap_2, list_elem_of_lookup_2.
  - done.
  - intros p Hp. destruct (decide (p = data u)) as [->|Hne].
    + rewrite lookup_delete_eq. symmetry. apply Hf. left.
    + rewrite lookup_delete_ne by done. apply Ho. by rewrite not_elem_of_cons.
  - intros p Hp. apply Hf. by right.
Qed.

Lemma free_run p s b : allocs (io s) !! p = Some b → p ≠ 0 →
  lifti (free p) s = Ok tt (set_io (set_allocs (delete p (allocs (io s))) (io s)) s).
Proof.
  intros Hb Hp. apply lifti_Ok. unfold free. by rewrite (proj2 (Z.eqb_neq _ _)), Hb.
Qed.

(** Freeing entries [i], [i + 1], ... *)
Lemma free_loop A s us J i n :
  0 ≤ i → n = length us → (∀ k u, us !! k = Some u → uninstall_data s !! Z.to_nat (i + Z.of_nat k) = Some u) →
  entries A (allocs (io s)) us J →
  ∃ s', for_ n i (λ i, u ← undo_at i; lifti (free (data u))) s = Ok tt s' ∧ allocs (io s') = A ∧ alike s s' ∧
    uninstall_data s' = uninstall_data s ∧ uninstall_data_i s' = uninstall_data_i s.
Proof.
  intros Hi -> Hus He. revert i s J Hi Hus He. induction us as [|u us IH]; intros i s J Hi Hus He; cbn [length for_].
  { exists s. split_and!; [done| |by apply alike_refl|done|done]. apply map_eq. intros p. apply He. by apply not_elem_of_nil. }
  destruct J as [|r J]; [by inversion He as [Hok]; inversion Hok|].
  destruct (entries_alive _ _ _ _ u He) as [[b Hb] Hn0]; [left|].
  erewrite bind_Ok_eq.
  2:{ erewrite bind_Ok_eq; [by eapply free_run|]. apply undo_at_run. rewrite <-(Hus 0%nat u eq_refl). f_equal. lia. }
  set (s1 := set_io _ _). destruct (IH (i + 1) s1 J) as (s' & Hs' & Ha' & Hal & Hd & Hn'); [lia| |by eapply entries_free|].
  { intros k u' Hu'. change (uninstall_data s1) with (uninstall_data s). rewrite <-(Hus (S k) u' Hu'). f_equal. lia. }
  exists s'. split_and!; [done|done| |done|done]. eapply alike_trans; [|exact Hal]. by split.
Qed.

Lemma free_all_run A s J :
  journal A s J → ∃ s', free_uninstall_data s = Ok tt s' ∧ allocs (io s') = A ∧ alike s s'.
Proof.
  intros [Hs Hr Hi Hm He]. unfold free_uninstall_data. erewrite bind_Ok_eq by reflexivity.
  rewrite Hi, Z.min_l, Nat2Z.id by lia.
  edestruct (free_loop A s (take (length J) (uninstall_data s)) J 0) as (s' & Hs' & Ha & Hal & _);
    [lia|reflexivity| |done|by exists s'; rewrite length_take_le in Hs' by lia].
  intros k u Hu. rewrite Z.add_0_l, Nat2Z.id. rewrite <-Hu. symmetry. apply lookup_take_lt.
  apply lookup_lt_Some in Hu. rewrite length_take in Hu. lia.
Qed.

(** ** [uninstall] *)

(** The state in which [uninstall] plays the journal back. *)
Definition start_uninstall (s : lim) : lim :=
  set_cached_block (2 ^ 64 - 1) (set_cache_state CACHE_CLEAN (set_uninstalling true s)).

Lemma perhaps (b : bool) (m : M lim unit) s :
  (∃ s', m s = Ok tt s' ∧ quietly s s') → ∃ s', (if b then m else mret tt) s = Ok tt s' ∧ quietly s s'.
Proof. intros H. destruct b; [done|]. exists s. split; [done|apply quietly_refl]. Qed.

(** [uninstall] after the entries were played back. *)
Lemma uninstall_end s q x t fl t' :
  restore_all (take (Z.to_nat (uninstall_data_i s)) (uninstall_data s)) (start_uninstall s) = Ok x t →
  device_flush_cache t = Ok fl t' →
  ∃ s', uninstall q s = Ok (negb x.2 && negb (x.1 || negb fl)) s' ∧ quietly t' s'.
Proof.
  intros Hx Hfl. unfold uninstall. do 5 erewrite bind_Ok_eq by reflexivity. erewrite bind_Ok_eq by exact Hx.
  erewrite bind_Ok_eq by exact Hfl. cbv zeta.
  edestruct (perhaps x.2) as (s1 & H1 & Q1); [apply print_run|]. erewrite bind_Ok_eq by exact H1.
  edestruct (perhaps (x.1 || negb fl)) as (s2 & H2 & Q2); [apply print_run|]. erewrite bind_Ok_eq by exact H2.
  edestruct (perhaps ((negb x.2 && negb (x.1 || negb fl)) && negb q)) as (s3 & H3 & Q3); [apply chat_run|].
  erewrite bind_Ok_eq by exact H3. exists s3. split; [done|]. by do 2 (eapply quietly_trans; [eassumption|]).
Qed.

Lemma journal_start A s J : journal A s J → journal A (start_uninstall s) J.
Proof. by intros []. Qed.

Lemma quietly_env s s' : quietly s s' → env_ok s → env_ok s'.
Proof. intros Hq. by apply alike_env, alike_quietly. Qed.

Lemma uninstall_tame A s J q :
  journal A s J → env_ok s → ∃ b s', uninstall q s = Ok b s' ∧ journal A s' J ∧ env_ok s'.
Proof.
  intros Hj He. pose proof (journal_start _ _ _ Hj) as Hj'. pose proof Hj' as [Hs Hr Hi Hm Hen].
  assert (env_ok (start_uninstall s)) as He' by by destruct He.
  destruct (restore_all_tame (start_uninstall s) _ J (en_ok _ _ _ _ Hen) He' eq_refl) as (x & t & Hx & Hc & Het).
  destruct (tame_flush t Het) as (fl & t' & Hfl & Hc' & Het' & _).
  edestruct (uninstall_end s q x t fl t') as (s' & Hu & Hq).
  { rewrite (jn_count _ _ _ Hj), Nat2Z.id. exact Hx. } { exact Hfl. }
  eexists _, s'. split; [exact Hu|]. split; [|by eapply quietly_env].
  eapply journal_core; [by apply quietly_core|]. eapply journal_core; [exact Hc'|]. by eapply journal_core.
Qed.

(** ** The bytes [uninstall] restores *)

Definition replay (v : Z → Z) (J : list (Z * list Z)) : Z → Z := foldl (λ v r, upd v r.1 r.2) v J.

Definition all_fit (s : lim) (L : Z) (J : list (Z * list Z)) : Prop :=
  Forall (λ r, fits s L r.1 (Z.of_nat (length r.2))) J.

Lemma all_fit_core s s' L J : core s' = core s → all_fit s L J → all_fit s' L J.
Proof. intros Hc. unfold all_fit, fits. by rewrite (core_bs _ _ Hc). Qed.

Lemma restore_run s u r n L v :
  entry_ok (allocs (io s)) u r → showing s n L v → uninstalling s = true → fits s L r.1 (Z.of_nat (length r.2)) →
  ∃ s', restore u s = Ok (false, false) s' ∧ core s' = core s ∧ showing s' n L (upd v r.1 r.2).
Proof.
  intros Hu Hs Hun Hf. pose proof Hu as (Hl & Hl64 & _). unfold restore.
  destruct (write_run s n L v r.2 r.1 Hs Hl64 Hf) as (s' & Hw & Hc & Hs' & _). exists s'.
  rewrite (bind_Ok_eq _ _ s true s'); [done|].
  erewrite bind_Ok_eq by (by apply deref_run). by rewrite write_uninstalling, Hl.
Qed.

Lemma restore_all_run s us J n L v :
  Forall2 (entry_ok (allocs (io s))) us J → showing s n L v → uninstalling s = true → all_fit s L J →
  ∃ s', restore_all us s = Ok (false, false) s' ∧ core s' = core s ∧ showing s' n L (replay v J).
Proof.
  revert s J v. induction us as [|u us IH]; intros s J v Hus Hs Hun Hf; cbn [restore_all];
    inversion Hus as [|? r ? J' Hu Hus']; subst; [by exists s|]. inversion Hf as [|? ? Hr Hf']; subst.
  destruct (restore_run s u r n L v Hu Hs Hun Hr) as (s1 & H1 & Hc1 & Hs1). erewrite bind_Ok_eq by exact H1.
  destruct (IH s1 J' (upd v r.1 r.2)) as (s2 & H2 & Hc2 & Hs2);
    [by rewrite (core_allocs _ _ Hc1)|done|by rewrite (core_un _ _ Hc1)|by eapply all_fit_core|].
  erewrite bind_Ok_eq by exact H2. exists s2. split_and!; [done|congruence|done].
Qed.

(** [written] is all that [uninstall] needs: it forgets the cache. *)
Lemma start_showing s n L w : written s n L w → showing (start_uninstall s) n L w.
Proof.
  intros [(st & Hd & Hn) (f & Hf & HL & Hw) Hm Hfa [c Hc] Hbs]. exists st, f, c.
  split; try done; cbn; [by left|]. intros a Ha. rewrite (proj2 (Z.eqb_neq _ _)); [by apply Hw|].
  pose proof (Z.div_le_upper_bound a (block_size s) a ltac:(lia)) as Hdiv. assert (a / block_size s ≤ a) by (apply Hdiv; nia). lia.
Qed.

Lemma uninstall_run A s J q n L w :
  journal A s J → written s n L w → all_fit s L J →
  ∃ s', uninstall q s = Ok true s' ∧ journal A s' J ∧ written s' n L (replay w J) ∧ others s' = others s.
Proof.
  intros Hj Hw Hf. pose proof (journal_start _ _ _ Hj) as Hj'. pose proof Hj' as [Hs Hr Hi Hm Hen].
  destruct (restore_all_run (start_uninstall s) _ J n L w (en_ok _ _ _ _ Hen)) as (t & Ht & Hc & Hst);
    [by apply start_showing|done|done|].
  destruct (flush_showing t n L _ Hst) as (t' & Hfl & _ & Hc' & _ & _ & Hw').
  edestruct (uninstall_end s q (false, false) t true t') as (s' & Hu & Hq).
  { rewrite (jn_count _ _ _ Hj), Nat2Z.id. exact Ht. } { exact Hfl. }
  exists s'. split; [exact Hu|]. assert (core s' = core (start_uninstall s)) as Hcs.
  { rewrite (quietly_core _ _ Hq). congruence. }
  split; [by eapply journal_core|]. split; [by eapply quietly_written|]. exact (core_others _ _ Hcs).
Qed.

(** ** Undoing *)

Definition covers (J : list (Z * list Z)) (a : Z) : Prop := Exists (λ r, r.1 ≤ a < r.1 + Z.of_nat (length r.2)) J.

(** Playing [J] back from the last entry to the first gives [v0], whatever the
    bytes are that [J] covers. *)
Definition undoes (J : list (Z * list Z)) (L : Z) (v0 : Z → Z) : Prop :=
  ∀ w, (∀ a, 0 ≤ a < L → ¬ covers J a → w a = v0 a) → ∀ a, 0 ≤ a < L → replay w (reverse J) a = v0 a.

Lemma replay_ext v w J a : v a = w a → replay v J a = replay w J a.
Proof.
  revert v w. induction J as [|r J IH]; intros v w H; [done|]. cbn. apply IH. unfold upd. by destruct (_ && _).
Qed.

Lemma undoes_nil L v0 : undoes [] L v0.
Proof. intros w Hw a Ha. apply Hw; [done|]. by intros H%Exists_nil. Qed.

Lemma undoes_snoc J L v0 v l n :
  undoes J L v0 → (∀ a, 0 ≤ a < L → ¬ covers J a → v a = v0 a) →
  (∀ a, 0 ≤ a < L → 0 ≤ v a < 256) → (n = 0%nat ∨ 0 ≤ l ∧ l + Z.of_nat n ≤ L) → undoes (J ++ [(l, vbytes v l n)]) L v0.
Proof.
  intros HJ Hv Hb Hl w Hw a Ha. rewrite reverse_app, reverse_singleton. cbn [app].
  change (replay (upd w l (vbytes v l n)) (reverse J) a = v0 a). apply HJ; [|done]. clear a Ha.
  intros a Ha Hna. unfold upd. rewrite length_vbytes. destruct (_ && _) eqn:E.
  - zify_bools. rewrite vbytes_lookup by lia. cbn [from_option id].
    replace (l + Z.of_nat (Z.to_nat (a - l))) with a by lia. rewrite wrap8_small by auto. auto.
  - apply Hw; [done|]. unfold covers. rewrite Exists_app, Exists_cons, Exists_nil. cbn [fst snd].
    rewrite length_vbytes. apply andb_false_iff in E as [E|E]; zify_bools; intros [?|[?|[]]]; (done || lia).
Qed.

End LimineJournal.
