(* ===== verification/LimineStart.v ===== *)
(** * The start and the end of [bios_install]

    The options, the probe for the size of a block, the file of undo data and
    the release of memory, whatever calls of the host fail. *)

From S2P Require Import Prelude Host Limine LimineFacts LimineUndo LimineInstall LimineJournal.

Module LimineStart.
Import Host Limine LimineFacts LimineUndo LimineInstall LimineJournal.

(** ** Arguments *)

(** The tool before it has touched the device, on the host [h]. *)
Record starting (h : host) (s : lim) : Prop := Starting {
  sg_allocs : allocs (io s) = allocs h;
  sg_files : files (io s) = files h;
  sg_works : faults h = [] → faults (io s) = [];
  sg_state : cache_state s = CACHE_CLEAN;
  sg_block : cached_block s = 0;
  sg_un : uninstalling s = false;
  sg_data : uninstall_data s = replicate 256 (Undo 0 0 0);
  sg_rev : uninstall_data_rev s = replicate 256 (Undo 0 0 0);
  sg_count : uninstall_data_i s = 0;
  sg_device : ∀ st, device s = Some st → spos st = 0 ∧ is_Some (files h !! sname st);
}.

Lemma starting_start h : starting h (lim_start h).
Proof. by split. Qed.

Lemma starting_quietly h s s' : quietly s s' → starting h s → starting h s'.
Proof. intros [o ->] []. by split. Qed.

Lemma print_then fmt (m : M lim unit) :
  (∀ s, ∃ s', m s = Ok tt s' ∧ quietly s s') → ∀ s, ∃ s', (print fmt ;; m) s = Ok tt s' ∧ quietly s s'.
Proof.
  intros H s. destruct (print_run fmt s) as (s1 & H1 & Q1). erewrite bind_Ok_eq by exact H1.
  destruct (H s1) as (s2 & H2 & Q2). exists s2. split; [done|by eapply quietly_trans].
Qed.

Lemma usage_run : ∀ s, ∃ s', bios_install_usage s = Ok tt s' ∧ quietly s s'.
Proof. unfold bios_install_usage. do 19 apply print_then. apply print_run. Qed.

Lemma positional_run h arg o s :
  starting h s →
  ∃ r s', positional arg o s = Ok r s' ∧ starting h s' ∧
    (if r is inr o' then uninstall_mode o' = uninstall_mode o ∧ force o' = force o ∧ gpt2mbr_allowed o' = gpt2mbr_allowed o
     else True).
Proof.
  intros Hs. unfold positional. erewrite bind_Ok_eq by reflexivity. destruct (device s) eqn:Hd; [by eexists _, s|].
  unfold lifti, zoom, fopen. destruct (next_event_run (io s)) as (e & h' & He & Ha & Hf).
  assert (faults (io s) = [] → faults h' = []) as Hw.
  { intros Hz. unfold next_event in He. rewrite Hz in He. by injection He as _ <-. }
  assert (∀ d, (∀ st, d = Some st → spos st = 0 ∧ is_Some (files h !! sname st)) → starting h (set_device d (set_io h' s))) as Hst.
  { intros d Hdd. destruct Hs. split; cbn; try done; [congruence|congruence|auto]. }
  assert (starting h (set_io h' s)) as Hst0.
  { specialize (Hst None ltac:(done)). by destruct s; cbn in *; subst. }
  unfold mbind, M_bind. rewrite He. destruct e as [|k].
  - rewrite Hf, (sg_files _ _ Hs). destruct (files h !! arg) eqn:Ef.
    + eexists (inr o), _. split; [reflexivity|]. split; [|done]. apply Hst. intros st [= <-]. cbn; by rewrite Ef.
    + edestruct (perror_run "error: `%s`" (set_io h' s)) as (s' & Hp & Hq). unfold mbind, M_bind in Hp. rewrite Hp.
      eexists (inl EXIT_FAILURE), s'. split; [reflexivity|]. split; [|done]. by eapply starting_quietly.
  - edestruct (perror_run "error: `%s`" (set_io h' s)) as (s' & Hp & Hq). rewrite Hp.
    eexists (inl EXIT_FAILURE), s'. split; [reflexivity|]. split; [|done]. by eapply starting_quietly.
Qed.

(** What the arguments say of the options. *)
Definition NO_CONVERSION : string := "--no-gpt-to-mbr-isohybrid-conversion".

Record said (args : list string) (o o' : opts) : Prop := Said {
  sd_uninstall : "--uninstall" ∉ args → uninstall_mode o' = uninstall_mode o;
  sd_force : "--force" ∉ args → force o' = force o;
  sd_convert : NO_CONVERSION ∈ args ∨ gpt2mbr_allowed o = false → gpt2mbr_allowed o' = false;
}.

Lemma said_cons arg args o o1 o' : said [arg] o o1 → said args o1 o' → said (arg :: args) o o'.
Proof.
  intros [U1 F1 C1] [U2 F2 C2]. split.
  - intros H. rewrite U2, U1; [done|set_solver..].
  - intros H. rewrite F2, F1; [done|set_solver..].
  - rewrite elem_of_cons. intros [[<-|H]|H]; apply C2; [right; apply C1; left; set_solver|by left|right; auto].
Qed.

Lemma said_same arg o o' :
  arg ≠ NO_CONVERSION → uninstall_mode o' = uninstall_mode o ∧ force o' = force o ∧ gpt2mbr_allowed o' = gpt2mbr_allowed o →
  said [arg] o o'.
Proof. intros Hne (U & F & C). split; [done|done|]. rewrite C. intros [H|H]; [|done]. set_solver. Qed.

Lemma parse_run h args o s :
  starting h s →
  ∃ r s', parse_args args o s = Ok r s' ∧ starting h s' ∧ (if r is inr o' then said args o o' else True).
Proof.
  revert o s. induction args as [|arg args IH]; intros o s Hs; cbn [parse_args].
  { eexists _, s. split_and!; [done|done|]. split; [done|done|]. intros [H|H]; [by apply elem_of_nil in H|done]. }
  assert (∀ o' t, starting h t → said [arg] o o' → ∃ r s', parse_args args o' t = Ok r s' ∧ starting h s' ∧
    (if r is inr o' then said (arg :: args) o o' else True)) as IH'.
  { intros o' t Ht Ho. destruct (IH o' t Ht) as (r & s' & He & Hs' & Hr). exists r, s'. split_and!; [done|done|].
    destruct r; [done|]. by eapply said_cons. }
  destruct (_ || _).
  { destruct (usage_run s) as (s' & He & Hq). erewrite bind_Ok_eq by exact He. eexists _, s'.
    split; [done|]. split; [by eapply starting_quietly|done]. }
  destruct (String.eqb_spec arg "--quiet") as [->|_].
  { erewrite bind_Ok_eq by reflexivity. apply IH'; [by destruct Hs|by apply said_same]. }
  destruct (String.eqb_spec arg "--force") as [->|_].
  { edestruct (perhaps (force o)) as (s' & He & Hq); [apply chat_run|]. erewrite bind_Ok_eq by exact He.
    apply IH'; [by eapply starting_quietly|]. split; [done|set_solver|]. intros [H|H]; [set_solver|done]. }
  destruct (String.eqb_spec arg "--no-gpt-to-mbr-isohybrid-conversion") as [->|Hnc]; [by apply IH'|].
  destruct (String.eqb_spec arg "--uninstall") as [->|_].
  { edestruct (perhaps (uninstall_mode o)) as (s' & He & Hq); [apply chat_run|]. erewrite bind_Ok_eq by exact He.
    apply IH'; [by eapply starting_quietly|]. split; [set_solver|done|]. intros [H|H]; [set_solver|done]. }
  destruct (String.prefix _ _).
  { erewrite bind_Ok_eq by reflexivity. edestruct (perhaps (if uninstall_file s is Some _ then true else false)) as (s' & He & Hq);
      [apply (chat_run "warning: --uninstall-data-file already set. Overriding...\n")|].
    erewrite bind_Ok_eq; [|destruct (uninstall_file s); exact He]. erewrite bind_Ok_eq by reflexivity.
    apply (starting_quietly _ _ _ Hq) in Hs. destruct (_ =? 0)%nat; [|apply IH'; [by destruct Hs|by apply said_same]].
    eexists _, _. split; [reflexivity|]. split; [|done]. by destruct Hs. }
  destruct (positional_run h arg o s Hs) as (r & s' & He & Hs' & Hr). erewrite bind_Ok_eq by exact He.
  destruct r as [c|o']; [by eexists _, s'|]. apply IH'; [done|by apply said_same].
Qed.

(** ** [device_init] *)

Lemma starting_journal h s : starting h s → journal (allocs h) s [].
Proof.
  intros [Ha Hf Hw Hs Hb Hu Hd Hr Hi Hdv]. split; rewrite ?Hd, ?Hr; try done; [cbn; lia|]. rewrite Ha. cbn [length take].
  split; [constructor|constructor|done|]. intros p Hp. by apply not_elem_of_nil in Hp.
Qed.

(** An operation on the device that leaves the journal alone. *)
Lemma starting_core h s : starting h s → ∀ s', core s' = core s → journal (allocs h) s' [] ∧ uninstalling s' = false.
Proof.
  intros Hs s' Hc. split; [by eapply journal_core, starting_journal|]. rewrite (core_un _ _ Hc). apply Hs.
Qed.

(** The probe before the size of a block is known. *)
Definition same_but_bs (s s' : lim) : Prop := core (set_block_size 0 s') = core (set_block_size 0 s).

Lemma init_loop_run s gs :
  is_Some (device s) → Forall (λ g, 2 ≤ g < 2 ^ 63) gs →
  ∃ b s', device_init_loop gs s = Ok b s' ∧ same_but_bs s s' ∧ (b = true → env_ok s').
Proof.
  intros Hd Hgs. revert s Hd. induction Hgs as [|g gs Hg _ IH]; intros s Hd; cbn [device_init_loop].
  { edestruct print_run as (s' & He & [o ->]). erewrite bind_Ok_eq by exact He. eexists false, _. by split. }
  destruct (next_event_run (io s)) as (e & h1 & He & Ha & Hf).
  erewrite bind_Ok_eq by (apply lifti_Ok; exact He). destruct Hd as [st Hd]. destruct e as [|k].
  2:{ edestruct perror_run as (s' & Hp & [o ->]). erewrite bind_Ok_eq by exact Hp. eexists false, _. split; [done|].
      split; [|done]. unfold same_but_bs. eapply core_intro; cbn; try done. by rewrite Hf. }
  do 2 erewrite bind_Ok_eq by reflexivity.
  set (s1 := set_device _ _). assert (device s1 = Some (rewind st)) as Hd1 by (unfold s1; cbn; by rewrite Hd).
  assert (same_but_bs s s1) as Hs1.
  { unfold same_but_bs. eapply core_intro; cbn; try done; by rewrite ?Hd, ?Hf. }
  destruct (next_event_run (io s1)) as (e2 & h2 & He2 & Ha2 & Hf2).
  assert (∃ r st', fread (rewind st) g (io s1) = Ok (r, st') h2 ∧ sname st' = sname st) as (r & st2 & Hr & Hn2).
  { unfold fread. rewrite He2. destruct e2; by eexists _, _. }
  erewrite bind_Ok_eq by (eapply on_device_run; [exact Hd1|exact Hr]). erewrite bind_Ok_eq by reflexivity.
  set (s2 := set_cache _ _). assert (same_but_bs s s2) as Hs2.
  { unfold same_but_bs in *. rewrite <-Hs1. eapply core_intro; cbn; try done; by rewrite ?Hd, ?Hf2. }
  assert (is_Some (device s2) ∧ is_Some (cache s2)) as [Hd2 Hc2] by done.
  destruct (negb _).
  { destruct (IH s2 Hd2) as (b & s' & Hi & Hsb & Hb). exists b, s'. split; [done|]. split; [|done].
    unfold same_but_bs in *. congruence. }
  erewrite bind_Ok_eq by reflexivity. edestruct chat_run as (s3 & H3 & [o ->]). erewrite bind_Ok_eq by exact H3.
  do 2 erewrite bind_Ok_eq by reflexivity. eexists true, _. split; [reflexivity|]. split; [exact Hs2|]. intros _.
  split; cbn; done || lia.
Qed.

Lemma init_run h s :
  starting h s → is_Some (device s) →
  ∃ b s', device_init s = Ok b s' ∧ journal (allocs h) s' [] ∧ uninstalling s' = false ∧ (b = true → env_ok s').
Proof.
  intros Hs Hd. destruct (init_loop_run s guesses Hd) as (b & s' & He & Hsb & Hb); [repeat constructor; lia|].
  exists b, s'. split; [done|]. assert (starting h (set_block_size 0 s)) as Hs0 by by destruct Hs.
  destruct (starting_core h _ Hs0 _ Hsb) as [Hj Hu]. split_and!; [by destruct Hj|exact Hu|done].
Qed.

(** When no call fails, the probe finds the device as it is. *)
Lemma init_loop_shows s gs st f :
  device s = Some st → files (io s) !! sname st = Some f → 0 ≤ flen f < 2 ^ 63 → faults (io s) = [] →
  Forall (λ g, 2 ≤ g < 2 ^ 63) gs →
  ∃ b s', device_init_loop gs s = Ok b s' ∧ files (io s') = files (io s) ∧ faults (io s') = [] ∧
    (sname <$> device s') = Some (sname st) ∧ (Forall (λ g, flen f < g) gs → b = false) ∧
    (if gs is g :: _ then g ≤ flen f → b = true ∧ block_size s' = g else True) ∧
    (b = true → showing s' (sname st) (flen f) (ld8 (fdata f))).
Proof.
  intros Hd Hf HL Hw Hgs. revert s st Hd Hf Hw. induction Hgs as [|g gs Hg _ IH]; intros s st Hd Hf Hw; cbn [device_init_loop].
  { edestruct print_run as (s' & He & [o ->]). erewrite bind_Ok_eq by exact He. eexists false, _. split; [done|]. cbn. by rewrite Hd. }
  erewrite bind_Ok_eq by (apply lifti_Ok, next_event_works, Hw). cbv iota beta. do 2 erewrite bind_Ok_eq by reflexivity.
  erewrite bind_Ok_eq.
  2:{ eapply on_device_run; [cbn; rewrite Hd; reflexivity|]. apply (fread_works _ _ f); cbn; [done|done|lia|lia]. }
  erewrite bind_Ok_eq by reflexivity. cbn [fst snd spos rewind].
  set (k := Z.max 0 (Z.min g (flen f - 0))). rewrite (proj2 (Z.ltb_lt 0 g)) by lia. cbn [andb].
  destruct (Z.eqb_spec k g) as [Hk|Hk]; cbn [negb Z.eqb Pos.eqb].
  - erewrite bind_Ok_eq by reflexivity. edestruct chat_run as (s3 & H3 & [o ->]). erewrite bind_Ok_eq by exact H3.
    do 2 erewrite bind_Ok_eq by reflexivity. eexists true, _. split; [reflexivity|].
    split_and!; [done|done|done|by intros [? _]%Forall_cons; lia|done|]. intros _. cbn [io]. eexists _, f, _. split; cbn; try done; try lia.
    + right. split; [lia|]. apply Z.div_str_pos. lia.
    + intros a Ha. destruct (Z.eqb_spec (a / g) 0) as [Hz|]; [|done]. apply Z.div_small_iff in Hz as [Hz|]; [|lia..].
      rewrite Z.mod_small, ld8_st_bytes, length_ld_bytes, (proj2 (Z.leb_le _ _)), (proj2 (Z.ltb_lt _ _)) by lia. cbn [andb].
      rewrite ld_bytes_lookup by lia. cbn [from_option id]. rewrite wrap8_small by apply ld8_range.
      apply (f_equal (ld8 _)). lia.
  - set (s2 := set_cache _ _).
    destruct (IH s2 (Stream (sname st) (0 + k) false) eq_refl Hf Hw) as (b & s' & He & Hfi & Hfa & Hn & Hno & _ & Hb).
    exists b, s'. split; [exact He|]. split_and!; [done|done|done|by intros [_ ?]%Forall_cons; auto|lia|done].
Qed.

Lemma init_shows h s st f :
  starting h s → faults h = [] → device s = Some st → files h !! sname st = Some f → 0 ≤ flen f < 2 ^ 63 →
  ∃ b s', device_init s = Ok b s' ∧ files (io s') = files h ∧ faults (io s') = [] ∧ uninstall_file s' = uninstall_file s ∧
    others s' = delete (sname st) (files h) ∧ (b = true → showing s' (sname st) (flen f) (ld8 (fdata f))) ∧
    b = (512 <=? flen f) ∧ (b = true → block_size s' = 512).
Proof.
  intros Hs Hw Hd Hf HL. destruct (init_loop_shows s guesses st f Hd) as (b & s' & He & Hfi & Hfa & Hn & Hno & Hyes & Hb).
  { by rewrite (sg_files _ _ Hs). } { done. } { by apply Hs. } { repeat constructor; lia. }
  destruct (init_loop_run s guesses) as (b' & t & He' & Hsb & _); [by rewrite Hd|repeat constructor; lia|].
  rewrite He in He'. injection He' as <- <-. exists b, s'. rewrite (sg_files _ _ Hs) in Hfi.
  split_and!; [done|done|done| | |done| |].
  - unfold same_but_bs, core in Hsb. cbn in Hsb. congruence.
  - unfold others. destruct (device s'); [|done]. injection Hn as ->. by rewrite Hfi.
  - destruct (Z.leb_spec 512 (flen f)); [by apply Hyes|]. apply Hno. repeat constructor; lia.
  - intros ->. apply Hyes. apply Z.nlt_ge. intros Hlt.
    discriminate Hno. repeat constructor; lia.
Qed.

(** ** [store_uninstall_data] *)

Lemma fwrite_any st bs s :
  ∃ r h, lifti (fwrite st bs) s = Ok r (set_io h s) ∧ allocs h = allocs (io s).
Proof.
  unfold lifti, zoom, fwrite. destruct (next_event_run (io s)) as (e & h' & -> & Ha & _).
  destruct e; [destruct (_ <? _)|]; eexists _, _; (split; [reflexivity|]; done).
Qed.

Lemma store_entries_any us J st s :
  Forall2 (entry_ok (allocs (io s))) us J →
  ∃ b h, store_entries us st s = Ok b (set_io h s) ∧ allocs h = allocs (io s).
Proof.
  revert J st s. induction us as [|u us IH]; intros J st s Hus; cbn [store_entries].
  { exists true, (io s). split; [by destruct s|done]. }
  inversion Hus as [|? r ? J' Hu Hus']; subst.
  destruct (fwrite_any st (le_bytes 8 (loc u)) s) as (r1 & h1 & H1 & Ha1). erewrite bind_Ok_eq by exact H1.
  destruct (negb _); [by exists false, h1|].
  destruct (fwrite_any r1.2 (le_bytes 8 (count u)) (set_io h1 s)) as (r2 & h2 & H2 & Ha2). erewrite bind_Ok_eq by exact H2.
  destruct (negb _); [exists false, h2; split; [done|by rewrite Ha2]|].
  erewrite bind_Ok_eq by (apply (deref_run _ u r); cbn; by rewrite Ha2; cbn; rewrite Ha1).
  destruct (fwrite_any r2.2 r.2 (set_io h2 s)) as (r3 & h3 & H3 & Ha3). erewrite bind_Ok_eq by exact H3.
  cbn in Ha2, Ha3. destruct (negb _); [exists false, h3; split; [done|congruence]|].
  destruct (IH J' r3.2 (set_io h3 s)) as (b & h4 & H4 & Ha4); [cbn; by rewrite Ha3, Ha2, Ha1|].
  exists b, h4. split; [exact H4|]. cbn in Ha4. congruence.
Qed.

Lemma journal_io A s J h : journal A s J → allocs h = allocs (io s) → journal A (set_io h s) J.
Proof. intros [] Ha. split; cbn; try done. by rewrite Ha. Qed.

Lemma store_tame A s J f :
  journal A s J → ∃ b s', store_uninstall_data f s = Ok b s' ∧ journal A s' J.
Proof.
  intros Hj. unfold store_uninstall_data. edestruct chat_run as (s1 & H1 & Hq). erewrite bind_Ok_eq by exact H1.
  apply (journal_core _ _ _ _ (quietly_core _ _ Hq)) in Hj. clear dependent s.
  destruct (next_event_run (io s1)) as (e & h & He & Ha & _).
  assert (∃ r h', lifti (fopen_wb f) s1 = Ok r (set_io h' s1) ∧ allocs h' = allocs (io s1)) as (r & h' & Hr & Ha').
  { unfold lifti, zoom, fopen_wb. rewrite He. destruct e; by eexists _, _. }
  erewrite bind_Ok_eq by exact Hr. apply (journal_io _ _ _ h') in Hj; [|done]. set (s2 := set_io h' s1) in *.
  assert (∀ s J fmt, journal A s J → ∃ s', (perror_wrap fmt ;; mret false) s = Ok false s' ∧ journal A s' J) as Hpe.
  { intros s J' fmt Hjs. edestruct perror_run as (s' & Hp & Hq'). erewrite bind_Ok_eq by exact Hp. exists s'.
    split; [done|]. eapply journal_core; [by apply quietly_core|done]. }
  destruct r as [st|]; [|eexists false; by apply Hpe].
  do 2 erewrite bind_Ok_eq by reflexivity.
  destruct (fwrite_any st (le_bytes 8 (uninstall_data_i s2)) s2) as (r & h3 & H3 & Ha3). erewrite bind_Ok_eq by exact H3.
  apply (journal_io _ _ _ h3) in Hj; [|done]. set (s3 := set_io h3 s2) in *.
  destruct (negb (r.1 =? 1)).
  { erewrite bind_Ok_eq by reflexivity. eexists false. by apply Hpe. }
  change (uninstall_data_i s2) with (uninstall_data_i s3). change (uninstall_data s2) with (uninstall_data s3).
  rewrite (jn_count _ _ _ Hj), Nat2Z.id.
  destruct (store_entries_any _ J r.2 s3 (en_ok _ _ _ _ (jn_entries _ _ _ Hj))) as (b & h4 & H4 & Ha4).
  erewrite bind_Ok_eq by exact H4. apply (journal_io _ _ _ h4) in Hj; [|done].
  destruct b; cbn [negb]; [by eexists _, _|]. eexists false. by apply Hpe.
Qed.

Lemma release_run A s J : journal A s J →
  ∃ s', release s = Ok tt s' ∧ allocs (io s') = A ∧ files (io s') = files (io s) ∧
    (faults (io s) = [] → faults (io s') = []).
Proof.
  intros Hj. destruct (free_all_run A s J Hj) as (s' & He & Ha & Hal). unfold release. erewrite bind_Ok_eq by exact He.
  eexists. split; [reflexivity|]. split; [done|]. split; [apply Hal|apply Hal].
Qed.

(** ** Exact arguments *)

(** An argument that is no option. *)
Definition plain (arg : string) : bool :=
  negb (existsb (String.eqb arg) ["--help"; "-h"; "--quiet"; "--force"; "--no-gpt-to-mbr-isohybrid-conversion"; "--uninstall"]) &&
  negb (String.prefix UNINSTALL_FILE_ARG arg).

Definition FLAGS : list string := ["--quiet"; "--force"; "--no-gpt-to-mbr-isohybrid-conversion"].

Lemma parse_plain arg args o s :
  plain arg = true →
  parse_args (arg :: args) o s =
    (r ← positional arg o; match r with inl c => mret (inl c) | inr o => parse_args args o end) s.
Proof.
  intros H. apply andb_true_iff in H as [H1%negb_true_iff H2%negb_true_iff]. cbn [existsb] in H1.
  repeat (apply orb_false_iff in H1 as [? H1]). cbn [parse_args].
  by repeat match goal with H : _ = false |- _ => rewrite H; clear H end.
Qed.

Lemma substring_all n u : (String.length u ≤ n)%nat → String.substring 0 n u = u.
Proof. revert n. induction u as [|c u IH]; intros [|n] H; cbn in *; try done; [lia|]. by rewrite IH by lia. Qed.

Lemma parse_file u args o s :
  u ≠ "" → uninstall_file s = None →
  parse_args ((UNINSTALL_FILE_ARG +:+ u) :: args) o s = parse_args args o (set_uninstall_file (Some u) s).
Proof.
  intros Hu Hf. cbn [parse_args]. set (arg := UNINSTALL_FILE_ARG +:+ u).
  change (String.eqb arg "--help") with false. change (String.eqb arg "-h") with false.
  change (String.eqb arg "--quiet") with false. change (String.eqb arg "--force") with false.
  change (String.eqb arg "--no-gpt-to-mbr-isohybrid-conversion") with false. change (String.eqb arg "--uninstall") with false.
  assert (String.substring 22 (String.length arg - 22) arg = u) as ->.
  { change (String.length arg) with (22 + String.length u)%nat.
    change (String.substring 22 (22 + String.length u - 22) arg) with (String.substring 0 (22 + String.length u - 22) u).
    apply substring_all. lia. }
  replace (String.prefix _ _) with true by (by destruct u). cbn [orb]. erewrite bind_Ok_eq by reflexivity. rewrite Hf.
  do 2 erewrite bind_Ok_eq by reflexivity. by destruct u.
Qed.

(** The arguments after the device: flags and the number of a partition. *)
Definition further (arg : string) : bool := bool_decide (arg ∈ FLAGS) || plain arg.

Lemma parse_further h args o s :
  forallb further args = true → starting h s → is_Some (device s) →
  ∃ o' s', parse_args args o s = Ok (inr o') s' ∧ starting h s' ∧ device s' = device s ∧
    uninstall_file s' = uninstall_file s ∧ uninstall_mode o' = uninstall_mode o.
Proof.
  revert o s. induction args as [|a args IH]; intros o s Hf Hs Hd; [by exists o, s|].
  cbn [forallb] in Hf. apply andb_true_iff in Hf as [Ha Hf]. apply orb_true_iff in Ha as [Ha|Ha].
  - apply bool_decide_eq_true, list_elem_of_In in Ha as [<-|[<-|[<-|[]]]];
      cbn [parse_args String.eqb Ascii.eqb Bool.eqb orb].
    + erewrite bind_Ok_eq by reflexivity. apply (IH o (set_quiet true s) Hf); [by destruct Hs|done].
    + edestruct (perhaps (force o)) as (s' & He & Hq); [apply chat_run|]. erewrite bind_Ok_eq by exact He.
      destruct (IH (Opts true (gpt2mbr_allowed o) (uninstall_mode o) (part_ndx o)) s' Hf) as (o' & s2 & H2 & Hs2 & Hd2 & Hu & Ho);
        [by eapply starting_quietly|by destruct Hq as [x ->]|]. destruct Hq as [x ->]. by exists o', s2.
    + apply (IH (Opts (force o) false (uninstall_mode o) (part_ndx o)) s Hf Hs Hd).
  - rewrite parse_plain by done. unfold positional. destruct Hd as [st Hd]. erewrite bind_Ok_eq.
    2:{ erewrite bind_Ok_eq by reflexivity. rewrite Hd. reflexivity. }
    apply (IH (Opts (force o) (gpt2mbr_allowed o) (uninstall_mode o) (Some a)) s Hf Hs). by exists st.
Qed.

Lemma positional_device h arg o s :
  starting h s → faults h = [] → device s = None →
  positional arg o s =
    if files h !! arg is Some _ then Ok (inr o) (set_device (Some (Stream arg 0 false)) s)
    else (perror_wrap "error: `%s`" ;; mret (inl EXIT_FAILURE)) s.
Proof.
  intros Hs Hw Hd. unfold positional. erewrite bind_Ok_eq by reflexivity. rewrite Hd.
  destruct (files h !! arg) eqn:Hf.
  - erewrite bind_Ok_eq.
    2:{ apply lifti_Ok. unfold fopen. rewrite next_event_works by (by apply Hs). rewrite (sg_files _ _ Hs), Hf. reflexivity. }
    by destruct s.
  - erewrite bind_Ok_eq.
    2:{ apply lifti_Ok. unfold fopen. rewrite next_event_works by (by apply Hs). rewrite (sg_files _ _ Hs), Hf. reflexivity. }
    by destruct s.
Qed.

End LimineStart.
