(* ===== verification/LimineFile.v ===== *)
(** * The file of undo data

    [store_uninstall_data] writes the journal as [encode] says, and
    [load_uninstall_data] reads the same journal back, when no call of the host
    fails. *)

From S2P Require Import Prelude Host Limine LimineFacts LimineUndo LimineJournal LimineStart.

Module LimineFile.
Import Host Limine LimineFacts LimineUndo LimineJournal LimineStart.

(** ** The format *)

Definition encode_entry (r : Z * list Z) : list Z :=
  le_bytes 8 r.1 ++ le_bytes 8 (Z.of_nat (length r.2)) ++ r.2.

Definition encode (J : list (Z * list Z)) : list Z :=
  le_bytes 8 (Z.of_nat (length J)) ++ concat (encode_entry <$> J).

Lemma le_bytes_length n v : length (le_bytes n v) = n.
Proof. revert v. induction n; intros; cbn; auto. Qed.

Lemma le_le_bytes n v : le (le_bytes n v) = v mod 256 ^ Z.of_nat n.
Proof.
  revert v. induction n as [|n IH]; intros v; cbn [le_bytes le]; [by rewrite Z.mod_1_r|].
  rewrite IH, Nat2Z.inj_succ, Z.pow_succ_r, Z.rem_mul_r by lia. lia.
Qed.

Lemma le_le_bytes8 v : 0 ≤ v < 2 ^ 64 → le (le_bytes 8 v) = v.
Proof. intros H. rewrite le_le_bytes. by apply Z.mod_small. Qed.

Lemma le_bytes_range n v : Forall (λ b, 0 ≤ b < 256) (le_bytes n v).
Proof. revert v. induction n; intros v; constructor; [apply Z.mod_pos_bound; lia|auto]. Qed.

Lemma overwrite_all v w : 0 ≤ w < 2 ^ 64 → overwrite v (le_bytes 8 w) = w.
Proof.
  intros H. unfold overwrite. rewrite le_bytes_length, drop_ge, app_nil_r by (by rewrite le_bytes_length). by apply le_le_bytes8.
Qed.

(** A file with exactly these bytes. *)
Record file_is (f : file) (bs : list Z) : Prop := FileIs {
  fi_len : flen f = Z.of_nat (length bs);
  fi_bytes : ∀ i, 0 ≤ i < Z.of_nat (length bs) → ld8 (fdata f) i = default 0 (bs !! Z.to_nat i);
}.

Lemma file_is_empty : file_is (File ∅ 0) [].
Proof. split; [done|]. cbn. lia. Qed.

Lemma file_is_append f bs new :
  file_is f bs → Forall (λ b, 0 ≤ b < 256) new →
  file_is (File (st_bytes (Z.of_nat (length bs)) new (fdata f))
                (Z.max (flen f) (Z.of_nat (length bs) + Z.of_nat (length new)))) (bs ++ new).
Proof.
  intros [Hl Hb] Hn. split; cbn; rewrite length_app; [lia|]. intros i Hi. rewrite ld8_st_bytes. case_zbool; cbn [andb]; try lia.
  - rewrite lookup_app_r by lia. replace (Z.to_nat (i - Z.of_nat (length bs))) with (Z.to_nat i - length bs)%nat by lia.
    destruct (lookup_lt_is_Some_2 new (Z.to_nat i - length bs) ltac:(lia)) as [x Hx]. rewrite Hx. cbn.
    apply wrap8_small. by apply (Forall_lookup_1 _ _ _ _ Hn Hx).
  - rewrite lookup_app_l by lia. apply Hb. lia.
Qed.

(** ** Storing *)

(** A host whose file [n] has been written up to its end. *)
Lemma fwrite_append st bs new s f :
  faults (io s) = [] → files (io s) !! sname st = Some f → file_is f bs → spos st = Z.of_nat (length bs) →
  new ≠ [] → Forall (λ b, 0 ≤ b < 256) new →
  ∃ g, lifti (fwrite st new) s =
      Ok (1, Stream (sname st) (Z.of_nat (length (bs ++ new))) (serr st))
         (set_io (set_files (<[sname st := g]> (files (io s))) (io s)) s) ∧ file_is g (bs ++ new).
Proof.
  intros Hw Hf Hi Hp Hn Hr. eexists. split; [|by apply file_is_append].
  rewrite (lifti_Ok _ _ _ _ (fwrite_works st new (io s) Hw Hn)). unfold put_bytes, file_of. rewrite Hf, Hp, length_app.
  do 3 f_equal. lia.
Qed.


(** The state with the file [n] replaced. *)
Definition with_file (n : string) (f : file) (s : lim) : lim :=
  set_io (set_files (<[n := f]> (files (io s))) (io s)) s.

Lemma with_file_twice n f g s : with_file n g (with_file n f s) = with_file n g s.
Proof. unfold with_file. cbn. rewrite insert_insert_eq. by destruct s as [[]]. Qed.

Lemma append_run st bs new s f :
  faults (io s) = [] → file_is f bs → spos st = Z.of_nat (length bs) → new ≠ [] → Forall (λ b, 0 ≤ b < 256) new →
  ∃ g, lifti (fwrite st new) (with_file (sname st) f s) =
      Ok (1, Stream (sname st) (Z.of_nat (length (bs ++ new))) (serr st)) (with_file (sname st) g s) ∧
    file_is g (bs ++ new).
Proof.
  intros Hw Hi Hp Hn Hr. destruct (fwrite_append st bs new (with_file (sname st) f s) f) as (g & He & Hg); try done.
  { apply lookup_insert_eq. }
  exists g. split; [|done]. rewrite He. do 2 f_equal. apply (with_file_twice _ f g s).
Qed.

Lemma store_entries_run us J st bs s f :
  Forall2 (entry_ok (allocs (io s))) us J → Forall (λ r, r.2 ≠ []) J →
  faults (io s) = [] → file_is f bs → spos st = Z.of_nat (length bs) →
  ∃ g, store_entries us st (with_file (sname st) f s) = Ok true (with_file (sname st) g s) ∧
    file_is g (bs ++ concat (encode_entry <$> J)).
Proof.
  intros Hus HJ Hw. revert J HJ st bs f Hus. induction us as [|u us IH]; intros J HJ st bs f Hus Hi Hp;
    inversion Hus as [|? r ? J' Hu Hus']; subst; cbn [store_entries].
  { exists f. by rewrite app_nil_r. }
  inversion HJ as [|? ? Hr HJ']; subst. pose proof Hu as (Hl & _ & Hc & Hb & _).
  destruct (append_run st bs (le_bytes 8 (loc u)) s f Hw Hi Hp ltac:(done) (le_bytes_range _ _)) as (g1 & H1 & Hi1).
  erewrite bind_Ok_eq by exact H1. cbn [fst snd negb Z.eqb Pos.eqb]. set (st1 := Stream _ _ _).
  destruct (append_run st1 _ (le_bytes 8 (count u)) s g1 Hw Hi1 eq_refl ltac:(done) (le_bytes_range _ _)) as (g2 & H2 & Hi2).
  erewrite bind_Ok_eq by exact H2. cbn [fst snd negb Z.eqb Pos.eqb]. set (st2 := Stream _ _ _).
  erewrite bind_Ok_eq by (by apply (deref_run _ u r)).
  destruct (append_run st2 _ r.2 s g2 Hw Hi2 eq_refl Hr Hb) as (g3 & H3 & Hi3).
  erewrite bind_Ok_eq by exact H3. cbn [fst snd negb Z.eqb Pos.eqb]. set (st3 := Stream _ _ _).
  destruct (IH J' HJ' st3 _ g3 Hus' Hi3 eq_refl) as (g4 & H4 & Hi4). exists g4. split; [exact H4|].
  rewrite fmap_cons, Hl, Hc in *. cbn [concat]. unfold encode_entry at 1. rewrite <-!app_assoc in Hi4. by rewrite <-!app_assoc.
Qed.

Lemma store_undo_run A s J f :
  journal A s J → Forall (λ r, r.2 ≠ []) J → faults (io s) = [] →
  ∃ s' g, store_uninstall_data f s = Ok true s' ∧ quietly (with_file f g s) s' ∧ file_is g (encode J).
Proof.
  intros Hj HJ Hw. unfold store_uninstall_data. edestruct chat_run as (s1 & H1 & Hq). erewrite bind_Ok_eq by exact H1.
  assert (lifti (fopen_wb f) s1 = Ok (Some (Stream f 0 false)) (with_file f (File ∅ 0) s1)) as Hop.
  { apply lifti_Ok. unfold fopen_wb. rewrite next_event_works; [done|]. by destruct Hq as [o ->]. }
  erewrite bind_Ok_eq by exact Hop. cbv iota beta. do 2 erewrite bind_Ok_eq by reflexivity.
  apply (journal_core _ _ _ _ (quietly_core _ _ Hq)) in Hj. pose proof (jn_count _ _ _ Hj) as Hc.
  assert (faults (io s1) = []) as Hw1 by (by destruct Hq as [o ->]).
  change (uninstall_data_i (with_file f (File ∅ 0) s1)) with (uninstall_data_i s1).
  destruct (append_run (Stream f 0 false) [] (le_bytes 8 (uninstall_data_i s1)) s1 _ Hw1 file_is_empty eq_refl ltac:(done)
    (le_bytes_range _ _)) as (g1 & He1 & Hi1).
  erewrite bind_Ok_eq by exact He1. cbn [fst snd negb Z.eqb Pos.eqb sname serr].
  destruct (store_entries_run (take (Z.to_nat (uninstall_data_i s1)) (uninstall_data s1)) J
    (Stream f (Z.of_nat (length ([] ++ le_bytes 8 (uninstall_data_i s1)))) false)
    ([] ++ le_bytes 8 (uninstall_data_i s1)) s1 g1) as (g2 & He2 & Hi2); try done.
  { rewrite Hc, Nat2Z.id. apply Hj. }
  erewrite bind_Ok_eq by exact He2. cbn [negb sname]. exists (with_file f g2 s1), g2. split; [done|].
  split; [|unfold encode; by rewrite <-Hc].
  destruct Hq as [o ->]. by exists o.
Qed.

(** ** Loading *)

Lemma fread_chunk st pre x post s f :
  faults (io s) = [] → files (io s) !! sname st = Some f → file_is f (pre ++ x ++ post) →
  spos st = Z.of_nat (length pre) → x ≠ [] → Forall (λ b, 0 ≤ b < 256) x →
  lifti (fread st (Z.of_nat (length x))) s = Ok (1, x, Stream (sname st) (Z.of_nat (length (pre ++ x))) (serr st)) s.
Proof.
  intros Hw Hf [Hl Hb] Hp Hx Hr. rewrite !length_app in Hl.
  assert (0 < length x)%nat by (destruct x; [done|cbn; lia]).
  pose proof (fread_works st (Z.of_nat (length x)) f (io s) Hw Hf ltac:(lia) ltac:(lia)) as Hfr. cbv zeta in Hfr.
  rewrite Z.max_r, Z.min_l, Z.eqb_refl, (proj2 (Z.ltb_lt _ _)), Nat2Z.id, Hp in Hfr by lia.
  rewrite (lifti_Ok _ _ _ _ Hfr). cbn [andb]. rewrite length_app. assert (ld_bytes (length x) (fdata f) (Z.of_nat (length pre)) = x) as ->.
  { apply list_eq. intros i. destruct (decide (i < length x)%nat).
    - rewrite ld_bytes_lookup, Hb by (done || rewrite ?length_app; lia).
      replace (Z.to_nat (Z.of_nat (length pre) + Z.of_nat i)) with (length pre + i)%nat by lia.
      rewrite lookup_app_r, Nat.add_comm, Nat.add_sub, lookup_app_l by lia.
      by destruct (lookup_lt_is_Some_2 x i) as [y ->].
    - rewrite !lookup_ge_None_2; rewrite ?length_ld_bytes; done || lia. }
  destruct s. do 4 f_equal. lia.
Qed.

(** What the format can hold. *)
Definition storable (r : Z * list Z) : Prop :=
  0 ≤ r.1 < 2 ^ 64 ∧ r.2 ≠ [] ∧ Z.of_nat (length r.2) < 2 ^ 63 ∧ Forall (λ b, 0 ≤ b < 256) r.2.

Lemma set_undo_undo i f s u :
  uninstall_data s !! Z.to_nat i = Some u → uninstall_data (set_undo i f s) !! Z.to_nat i = Some (f u).
Proof. intros H. unfold set_undo. cbn. by rewrite list_lookup_alter_eq, H. Qed.

(** The entry that is being loaded does not belong to the journal yet. *)
Record loading (A : gmap Z block) (s : lim) (J : list (Z * list Z)) : Prop := Loading {
  lg_entries : entries A (allocs (io s)) (take (length J) (uninstall_data s)) J;
  lg_size : length (uninstall_data s) = 256%nat;
}.

Lemma loading_undo A s J f : loading A s J → loading A (set_undo (Z.of_nat (length J)) f s) J.
Proof.
  intros [He Hs]. split; cbn; [|by rewrite length_alter]. rewrite Nat2Z.id. by rewrite take_alter_ge.
Qed.

Lemma loading_new A s J p r h :
  loading A s J → allocs (io s) !! p = None → p ≠ 0 → storable r →
  allocs h = <[p := Block (Z.of_nat (length r.2)) r.2]> (allocs (io s)) →
  uninstall_data s !! length J = Some (Undo p r.1 (Z.of_nat (length r.2))) →
  loading A (set_io h s) (J ++ [r]).
Proof.
  intros [He Hs] Hp Hp0 (Hl & _ & _ & Hb) Ha Hu. split; cbn; [|done]. rewrite length_app, Nat.add_1_r, Ha.
  rewrite (take_S_r _ _ _ Hu). destruct r. by apply entries_new.
Qed.

Lemma undo_slot s (i : nat) : length (uninstall_data s) = 256%nat → (i < 256)%nat →
  ∃ u, uninstall_data s !! Z.to_nat (Z.of_nat i) = Some u.
Proof. intros Hs Hi. rewrite Nat2Z.id. apply lookup_lt_is_Some. lia. Qed.

(** One entry of the file. *)
Lemma load_entry_run A s J r st f pre post :
  loading A s J → (length J < 256)%nat → storable r →
  faults (io s) = [] → files (io s) !! sname st = Some f → file_is f (pre ++ encode_entry r ++ post) →
  spos st = Z.of_nat (length pre) →
  ∃ s' st', (∀ n, load_entries (S n) (Z.of_nat (length J)) st s = load_entries n (Z.of_nat (length J) + 1) st' s') ∧
    loading A s' (J ++ [r]) ∧ alike s s' ∧ uninstall_data_i s' = uninstall_data_i s ∧
    uninstall_data_rev s' = uninstall_data_rev s ∧
    sname st' = sname st ∧ spos st' = Z.of_nat (length (pre ++ encode_entry r)).
Proof.
  intros Hlg Hi Hst Hw Hf Hfi Hp. pose proof Hst as (Hl & Hne & Hc63 & Hb). set (i := Z.of_nat (length J)).
  destruct (undo_slot s (length J) (lg_size _ _ _ Hlg) Hi) as [u0 Hu0]. fold i in Hu0. unfold encode_entry in *.
  rewrite <-!app_assoc in Hfi.
  pose proof (fread_chunk st pre (le_bytes 8 r.1) _ s f Hw Hf Hfi Hp ltac:(done) (le_bytes_range _ _)) as H1.
  set (s1 := set_undo i (λ u, Undo (data u) (overwrite (loc u) (le_bytes 8 r.1)) (count u)) s).
  set (st1 := Stream (sname st) _ (serr st)) in H1. rewrite app_assoc in Hfi.
  pose proof (fread_chunk st1 _ (le_bytes 8 (Z.of_nat (length r.2))) _ s1 f Hw Hf Hfi eq_refl ltac:(done) (le_bytes_range _ _)) as H2.
  set (s2 := set_undo i (λ u, Undo (data u) (loc u) (overwrite (count u) (le_bytes 8 (Z.of_nat (length r.2))))) s1).
  set (st2 := Stream (sname st1) _ (serr st1)) in H2. rewrite app_assoc in Hfi.
  assert (uninstall_data s2 !! Z.to_nat i = Some (Undo (data u0) r.1 (Z.of_nat (length r.2)))) as Hu2.
  { unfold s2, s1. erewrite set_undo_undo by (by apply set_undo_undo). cbn [data loc count]. by rewrite !overwrite_all by lia. }
  destruct (malloc_run (Z.of_nat (length r.2)) (io s2) ltac:(lia)) as (p & h & Hm & Hfh & Hfa & Hpp).
  destruct (Hfa Hw) as [Hwh Hp0]. destruct Hpp as [[? _]|(_ & Hpn & Hah)]; [done|].
  set (s3 := set_undo i (λ u, Undo p (loc u) (count u)) (set_io h s2)).
  assert (files (io s3) !! sname st2 = Some f) as Hf3 by (cbn; by rewrite Hfh).
  pose proof (fread_chunk st2 _ r.2 _ s3 f Hwh Hf3 Hfi eq_refl Hne Hb) as H3. set (st3 := Stream (sname st2) _ (serr st2)) in H3.
  set (h4 := set_allocs (<[p := Block (Z.of_nat (length r.2)) r.2]> (allocs (io s3))) (io s3)).
  assert (lifti (fill p r.2) s3 = Ok tt (set_io h4 s3)) as H4.
  { apply lifti_Ok. unfold fill. assert (allocs (io s3) !! p = Some (Block (Z.of_nat (length r.2)) [])) as ->.
    { cbn. by rewrite Hah, lookup_insert_eq. }
    cbn [bsize]. by rewrite Z.ltb_irrefl. }
  exists (set_io h4 s3), st3. split_and!.
  - intros n. cbn [load_entries].
    change (Z.of_nat (length (le_bytes 8 r.1))) with 8 in H1.
    erewrite bind_Ok_eq by exact H1. erewrite bind_Ok_eq by reflexivity. cbn [fst snd negb Z.eqb Pos.eqb]. fold s1.
    change (Z.of_nat (length (le_bytes 8 (Z.of_nat (length r.2))))) with 8 in H2.
    erewrite bind_Ok_eq by exact H2. erewrite bind_Ok_eq by reflexivity. cbn [fst snd negb Z.eqb Pos.eqb]. fold s2.
    erewrite bind_Ok_eq by (apply undo_at_run; exact Hu2). cbn [count]. rewrite (proj2 (Z.ltb_ge _ _)) by (unfold UINT64_MAX; lia).
    erewrite bind_Ok_eq by (apply lifti_Ok; exact Hm). erewrite bind_Ok_eq by reflexivity. fold s3.
    rewrite (proj2 (Z.eqb_neq p 0)) by done. erewrite bind_Ok_eq by exact H3. cbn [fst snd]. by erewrite bind_Ok_eq by exact H4.
  - assert (loading A s2 J) as Hlg2 by (by do 2 apply loading_undo).
    assert (loading A (set_undo i (λ u, Undo p (loc u) (count u)) s2) J) as Hlg3 by by apply loading_undo.
    apply (loading_new A (set_undo i (λ u, Undo p (loc u) (count u)) s2) J p r h4 Hlg3); try done.
    + unfold h4. cbn. by rewrite Hah, insert_insert_eq.
    + rewrite <-(Nat2Z.id (length J)). fold i. erewrite set_undo_undo by exact Hu2. done.
  - by split.
  - done.
  - done.
  - done.
  - unfold st3. cbn [spos]. by rewrite <-!app_assoc.
Qed.

(** Complete entries, whatever follows them. *)
Lemma load_entries_run A s J1 J2 st f pre post :
  loading A s J1 → (length J1 + length J2 ≤ 256)%nat → Forall storable J2 →
  faults (io s) = [] → files (io s) !! sname st = Some f → file_is f (pre ++ concat (encode_entry <$> J2) ++ post) →
  spos st = Z.of_nat (length pre) →
  ∃ s' st', (∀ m, load_entries (length J2 + m) (Z.of_nat (length J1)) st s = load_entries m (Z.of_nat (length (J1 ++ J2))) st' s') ∧
    loading A s' (J1 ++ J2) ∧ alike s s' ∧ uninstall_data_i s' = uninstall_data_i s ∧
    uninstall_data_rev s' = uninstall_data_rev s ∧
    sname st' = sname st ∧ spos st' = Z.of_nat (length (pre ++ concat (encode_entry <$> J2))).
Proof.
  intros Hlg Hn HJ. revert s J1 st pre Hlg Hn. induction HJ as [|r J2 Hr _ IH]; intros s J1 st pre Hlg Hn Hw Hf Hfi Hp.
  { exists s, st. cbn [concat fmap list_fmap]. rewrite !app_nil_r. split_and!; [done|done|apply alike_refl|done..]. }
  cbn [length] in *. rewrite fmap_cons in *. cbn [concat] in *. rewrite <-app_assoc in Hfi.
  destruct (load_entry_run A s J1 r st f pre _ Hlg ltac:(lia) Hr Hw Hf Hfi Hp) as (s1 & st1 & He & Hlg1 & Hal & Hi & Hrv & Hn1 & Hp1).
  rewrite app_assoc in Hfi.
  destruct (IH s1 (J1 ++ [r]) st1 (pre ++ encode_entry r) Hlg1) as (s2 & st2 & He2 & Hlg2 & Hal2 & Hi2 & Hrv2 & Hn2 & Hp2);
    [rewrite length_app; cbn; lia|by apply Hal|by rewrite Hn1, (al_files _ _ Hal)|exact Hfi|exact Hp1|].
  exists s2, st2. rewrite <-!app_assoc in *. cbn [app] in *. rewrite length_app, Nat2Z.inj_add in He2. cbn [length] in He2.
  split_and!; [|done|by eapply alike_trans|congruence|congruence|congruence|done].
  intros m. rewrite Nat.add_succ_l, He. apply He2.
Qed.

(** Loading a file that [store_uninstall_data] wrote. *)
Lemma load_undo_run A s J f g :
  loading A s [] → length (uninstall_data_rev s) = 256%nat → (length J ≤ 256)%nat → Forall storable J →
  faults (io s) = [] → files (io s) !! f = Some g → file_is g (encode J) →
  ∃ s', load_uninstall_data f s = Ok true s' ∧ journal A s' J ∧ alike s s'.
Proof.
  intros Hlg Hrv HJ Hst Hw Hf Hfi. unfold load_uninstall_data. edestruct chat_run as (s1 & H1 & [o ->]).
  erewrite bind_Ok_eq by exact H1. clear H1. set (s1 := set_io _ s).
  assert (lifti (fopen f) s1 = Ok (Some (Stream f 0 false)) s1) as Hop.
  { rewrite (lifti_Ok _ _ (Some (Stream f 0 false)) (io s1)); [by destruct s|]. unfold fopen. rewrite next_event_works by done. cbn. by rewrite Hf. }
  erewrite bind_Ok_eq by exact Hop. cbv iota beta. unfold encode in Hfi.
  pose proof (fread_chunk (Stream f 0 false) [] (le_bytes 8 (Z.of_nat (length J))) _ s1 g Hw Hf Hfi eq_refl ltac:(done)
    (le_bytes_range _ _)) as H2.
  change (Z.of_nat (length (le_bytes 8 (Z.of_nat (length J))))) with 8 in H2. erewrite bind_Ok_eq by exact H2.
  erewrite bind_Ok_eq by reflexivity. cbn [fst snd negb Z.eqb Pos.eqb]. rewrite overwrite_all by lia.
  erewrite bind_Ok_eq by reflexivity. cbn [uninstall_data_i set_uninstall_data_i]. set (s2 := set_uninstall_data_i _ s1).
  unfold UNINSTALL_DATA_MAX. rewrite (proj2 (Z.ltb_ge _ _)), Nat2Z.id by lia.
  destruct (load_entries_run A s2 [] J (Stream f (Z.of_nat (length ([] ++ le_bytes 8 (Z.of_nat (length J))))) false) g
    (le_bytes 8 (Z.of_nat (length J))) []) as (s3 & st3 & H3 & [Hen Hsz] & Hal & Hi & Hr3 & _); try done.
  { by destruct Hlg. } { by rewrite app_nil_r. }
  specialize (H3 O). rewrite Nat.add_0_r in H3. erewrite bind_Ok_eq by exact H3. exists s3. split; [done|]. split.
  - split; try done. by rewrite Hr3.
  - eapply alike_trans; [|exact Hal]. by split.
Qed.

End LimineFile.
