(* ===== verification/LimineRestore.v ===== *)
(** * A device that can be restored

    While [install] runs, the journal and the device together determine the bytes
    the device had at the start, whatever has been written: so a failed
    installation is undone, and a successful one can be. *)

From S2P Require Import Prelude Host Limine LimineFacts LimineUndo LimineInstall LimineSteps LimineJournal LimineStart.

Module LimineRestore.
Import Host Limine LimineFacts LimineUndo LimineInstall LimineSteps LimineJournal LimineStart.

Lemma fixed_un s s' : fixed s' = fixed s → uninstalling s' = uninstalling s.
Proof. unfold fixed. congruence. Qed.

(** Outside the areas of [J], [v] is [v0]. *)
Definition agrees (J : list (Z * list Z)) (L : Z) (v0 v : Z → Z) : Prop :=
  ∀ a, 0 ≤ a < L → ¬ covers J a → v a = v0 a.

Section undo.
Context (A : gmap Z block) (n : string) (L : Z) (v0 : Z → Z) (oth : gmap string file) (uf : option string) (bsz : Z).

(** The device can be restored to [v0] from the journal [J]. *)
Record restorable (s : lim) (J : list (Z * list Z)) : Prop := Restorable {
  rs_journal : journal A s J;
  rs_undoes : undoes J L v0;
  rs_fit : all_fit s L J;
  rs_some : Forall (λ r, r.2 ≠ []) J;
  rs_un : uninstalling s = false;
  rs_others : others s = oth;
  rs_file : uninstall_file s = uf;
  rs_bs : block_size s = bsz;
  rs_written : written s n L (raw s n);
  rs_agrees : agrees J L v0 (raw s n);
}.

Definition failed (s : lim) : Prop := ∃ J, restorable s J.
(** The device shows [v]. *)
Definition going_at (v : Z → Z) (s : lim) : Prop := ∃ J, restorable s J ∧ showing s n L v ∧ agrees J L v0 v.
Definition going (s : lim) : Prop := ∃ v, going_at v s.

Lemma written_raw s v : written s n L v → written s n L (raw s n) ∧ ∀ a, 0 ≤ a < L → raw s n a = v a.
Proof.
  intros [Hd (f & Hf & HL & Hv) Hm Hw Hc Hb]. assert (∀ a, raw s n a = ld8 (fdata f) a) as Hr.
  { intros a. unfold raw. by rewrite Hf. }
  split; [split; try done; by exists f|]. intros a Ha. by rewrite Hr, Hv.
Qed.

Lemma showing_raw s v : showing s n L v → written s n L (raw s n).
Proof.
  intros (st & f & c & []). split; eauto. exists f. split_and!; [done|done|]. intros a _. unfold raw. by rewrite sh_file0.
Qed.

Lemma showing_byte s v a : showing s n L v → 0 ≤ a < L → 0 ≤ v a < 256.
Proof. intros (st & f & c & []) Ha. rewrite sh_bytes0 by done. destruct (_ =? _); apply ld8_range. Qed.

(** Transfers that change nothing but the bytes of the file. *)
Lemma restorable_core s s' J v :
  restorable s J → core s' = core s → settles s s' n L v → agrees J L v0 v → written s' n L (raw s' n) → restorable s' J.
Proof.
  intros [] Hc Hst Ha Hw. split; try done.
  - by eapply journal_core.
  - by eapply all_fit_core.
  - by rewrite (core_un _ _ Hc).
  - by rewrite (core_others _ _ Hc).
  - unfold core in Hc. congruence.
  - by rewrite (core_bs _ _ Hc).
  - intros a Ha0 Hna. destruct (Hst a Ha0) as [->| ->]; auto.
Qed.

Lemma restorable_alike s s' J : restorable s J → alike s s' → journal A s' J → restorable s' J.
Proof.
  intros [] Hal Hj. split; try done.
  - unfold all_fit in *. eapply Forall_impl; [exact rs_fit0|]. intros r. by apply alike_fits.
  - by rewrite (al_un _ _ Hal).
  - unfold others in *. by rewrite (al_device _ _ Hal), (al_files _ _ Hal).
  - by rewrite (al_file _ _ Hal).
  - by rewrite (al_bs _ _ Hal).
  - eapply alike_written in rs_written0; [|done]. by apply written_raw in rs_written0 as [? _].
  - intros a Ha Hna. rewrite (alike_raw _ _ _ _ Hal). auto.
Qed.

Lemma going_failed v s : going_at v s → failed s.
Proof. intros (J & H & _). by exists J. Qed.

Lemma going_alike v s s' : alike s s' → core s' = core s → going_at v s → going_at v s'.
Proof.
  intros Hal Hc (J & Hr & Hs & Ha). exists J. split_and!; [|by eapply alike_showing|done].
  eapply restorable_alike; [done|done|]. eapply journal_core; [done|apply Hr].
Qed.

Lemma going_read v s l k :
  going_at v s → 0 ≤ l < 2 ^ 64 → 0 ≤ k →
  ∃ r s', _device_read l k s = Ok r s' ∧
    (if r is Some bs then going_at v s' ∧ bytes_of k bs ∧ bs = vbytes v l (Z.to_nat k) else failed s').
Proof.
  intros (J & Hr & Hs & Ha) Hl Hk. destruct (read_run s n L v l k Hs Hl Hk) as (r & s' & He & Hc & Hst & Hend).
  exists r, s'. split; [done|]. destruct r as [bs|].
  - destruct Hend as (Hfit & -> & Hs'). split_and!; [|split|done].
    + exists J. split_and!; [|done|done]. eapply restorable_core; eauto. by eapply showing_raw.
    + apply length_vbytes.
    + apply Forall_lookup. intros i b Hi. assert (i < Z.to_nat k)%nat by (apply lookup_lt_Some in Hi; by rewrite length_vbytes in Hi).
      rewrite vbytes_lookup in Hi by done. injection Hi as <-. eapply showing_byte; [done|].
      pose proof (showing_raw _ _ Hs) as [_ _ Hm _ _ Hbs]. destruct Hfit as [->|Hfit]; [lia|].
      pose proof (Z.mul_div_le L (block_size s) ltac:(lia)). lia.
  - destruct Hend as [_ Hw]. exists J. eapply restorable_core; eauto. by apply (written_raw s' v).
Qed.

Lemma covers_snoc J l old a :
  ¬ covers (J ++ [(l, old)]) a → ¬ covers J a ∧ ¬ (l ≤ a < l + Z.of_nat (length old)).
Proof. unfold covers. rewrite Exists_app, Exists_cons, Exists_nil. cbn. tauto. Qed.

(** A write that works. *)
Lemma restorable_write s s1 old s2 s3 s4 s' J v buf l :
  restorable s J → showing s n L v → agrees J L v0 v → 0 ≤ l < 2 ^ 64 → buf ≠ [] →
  fixed s' = fixed s → alike s s1 → _device_read l (Z.of_nat (length buf)) s1 = Ok (Some old) s2 → alike s2 s3 →
  write_bytes buf l s3 = Ok true s4 → alike s4 s' → length old = length buf → journal A s' (J ++ [(l, old)]) →
  going_at (upd v l buf) s'.
Proof.
  intros Hr Hs Ha Hl Hb Hfx Hal1 Hrd Hal3 Hwr Hal' Hlen Hj'. apply (alike_showing _ _ _ _ _ Hal1) in Hs as Hs1.
  destruct (read_run s1 n L v l _ Hs1 Hl (Nat2Z.is_nonneg (length buf))) as (r & s2' & Hrd' & Hc2 & Hst2 & Hend).
  rewrite Hrd in Hrd'. injection Hrd' as <- <-. destruct Hend as (Hfit & Hold & Hs2). rewrite Nat2Z.id in Hold.
  apply (alike_showing _ _ _ _ _ Hal3) in Hs2 as Hs3. pose proof (core_bs _ _ Hc2) as Hbs2.
  assert (block_size s' = block_size s) as Hbs by (unfold fixed in Hfx; congruence).
  destruct (write_run s3 n L v buf l Hs3 Hl) as (s4' & Hwr' & Hc4 & Hs4 & Hout).
  { apply (alike_fits _ _ _ _ _ Hal3). unfold fits. by rewrite Hbs2. }
  rewrite Hwr in Hwr'. injection Hwr' as <-. pose proof (alike_showing _ _ _ _ _ Hal' Hs4) as Hs'.
  pose proof (showing_raw _ _ Hs) as [_ _ Hm _ _ Hbsr]. pose proof (Z.mul_div_le L (block_size s) ltac:(lia)).
  assert (l + Z.of_nat (length buf) ≤ L) as HlL.
  { destruct Hfit as [?|Hfit]; [by destruct buf|]. rewrite (al_bs _ _ Hal1) in Hfit. lia. }
  exists (J ++ [(l, old)]). split_and!; [split|done|].
  - done.
  - rewrite Hold. apply undoes_snoc; [apply Hr|done|intros; by eapply showing_byte|right; lia].
  - apply Forall_app. split; [|constructor; [|done]].
    + eapply Forall_impl; [apply Hr|]. intros r. unfold fits. by rewrite Hbs.
    + cbn [fst snd]. rewrite Hlen. unfold fits in *. rewrite (al_bs _ _ Hal1) in Hfit. by rewrite Hbs.
  - apply Forall_app. split; [apply Hr|]. constructor; [|done]. cbn. by destruct old, buf.
  - rewrite (fixed_un _ _ Hfx). apply Hr.
  - rewrite <-(rs_others _ _ Hr). unfold fixed in Hfx. congruence.
  - rewrite <-(rs_file _ _ Hr). unfold fixed in Hfx. congruence.
  - rewrite Hbs. apply Hr.
  - by eapply showing_raw.
  - intros a Ha0 [Hna Hno]%covers_snoc. rewrite Hlen in Hno. rewrite (alike_raw _ _ _ _ Hal').
    destruct (Hout a Ha0 Hno) as [->| ->]; [|by apply Ha]. rewrite (alike_raw _ _ _ _ Hal3).
    destruct (Hst2 a Ha0) as [->| ->]; [|by apply Ha]. rewrite (alike_raw _ _ _ _ Hal1). by apply Hr.
  - intros a Ha0 [Hna Hno]%covers_snoc. rewrite Hlen in Hno. unfold upd.
    destruct (_ && _) eqn:E; [zify_bools; lia|]. by apply Ha.
Qed.

Lemma showing_env s v : showing s n L v → env_ok s.
Proof. intros (st & f & c & []). by split; eauto. Qed.

Lemma going_write v s l buf :
  going_at v s → 0 ≤ l < 2 ^ 64 → Z.of_nat (length buf) < 2 ^ 63 → (0 < length buf)%nat →
  ∃ ok s', _device_write buf l s = Ok ok s' ∧ (if ok : bool then going_at (upd v l buf) s' else failed s').
Proof.
  intros (J & Hr & Hs & Ha) Hl Hb Hb0. assert (buf ≠ []) as Hne by by destruct buf; [cbn in Hb0; lia|].
  destruct (device_write_run A s J buf l) as (ok & s' & He & _ & Hfx & Hend);
    [by eapply showing_env|apply Hr|apply Hr|done|done|].
  exists ok, s'. split; [done|]. destruct ok.
  { destruct Hend as (s1 & old & s2 & s3 & s4 & ? & ? & ? & ? & ? & ? & ?). by eapply restorable_write. }
  destruct Hend as [Hj' [Hal|(s1 & s2 & Hal & Hend)]].
  { exists J. by eapply restorable_alike. }
  apply (alike_showing _ _ _ _ _ Hal) in Hs as Hs1.
  assert (restorable s1 J → failed s1) as Hf1 by (intros; by exists J).
  destruct (read_run s1 n L v l _ Hs1 Hl (Nat2Z.is_nonneg (length buf))) as (r & s2' & Hrd & Hc2 & Hst2 & Hr2).
  destruct Hend as [[Hrd' Hal2]|(old & s3 & s4 & Hrd' & Hal3 & Hw & _)];
    rewrite Hrd in Hrd'; injection Hrd' as -> ->.
  - destruct Hr2 as [_ Hw2]. exists J. apply (alike_written _ _ _ _ _ Hal2), written_raw in Hw2 as [Hw' Hv'].
    destruct Hr. split; try done.
    + unfold all_fit, fits in *. unfold fixed in Hfx. by replace (block_size s') with (block_size s) by congruence.
    + by rewrite (fixed_un _ _ Hfx).
    + rewrite <-rs_others0. unfold fixed in Hfx. congruence.
    + rewrite <-rs_file0. unfold fixed in Hfx. congruence.
    + rewrite <-rs_bs0. unfold fixed in Hfx. congruence.
    + intros a Ha0 Hna. rewrite Hv' by done. by apply Ha.
  - destruct Hr2 as (Hfit & _ & Hs2). apply (alike_showing _ _ _ _ _ Hal3) in Hs2 as Hs3.
    destruct (write_run s3 n L v buf l Hs3 Hl) as (t & Hwt & _); [|congruence].
    apply (alike_fits _ _ _ _ _ Hal3). unfold fits in *. by rewrite (core_bs _ _ Hc2).
Qed.

Lemma going_flush v s :
  going_at v s → ∃ s', device_flush_cache s = Ok true s' ∧ going_at v s' ∧ written s' n L v.
Proof.
  intros (J & Hr & Hs & Ha). destruct (flush_showing s n L v Hs) as (s' & He & Hs' & Hc & _ & _ & Hw).
  exists s'. split_and!; [done| |done]. exists J. split_and!; [|done|done].
  eapply restorable_core; [done|done|by apply written_settles|done|by eapply showing_raw].
Qed.

(** [install] ends with a device that can be restored; if it goes well, [C] holds
    of the bytes that are on the device. *)
Definition installs (C : (Z → Z) → Prop) (img : list Z) (o : opts) (s : lim) : Prop :=
  runs (install img o) s (λ r s', if r is Some _ then going s' ∧ ∃ v, written s' n L v ∧ C v else failed s') bad_number.

Lemma install_going img o s :
  512 < Z.of_nat (length img) < 2 ^ 63 → going s → installs (λ _, True) img o s.
Proof.
  intros Hn Hs. eapply runs_mono.
  - eapply (keeps_install going failed (λ _ k, (0 < k)%nat) (λ _ _, True)); try done.
    + intros t [v Hv]. by eapply going_failed.
    + intros t t' Hal Hc [v Hv]. exists v. by eapply going_alike.
    + intros t l k [v Hv] Hl Hk. destruct (going_read v t l k Hv Hl Hk) as (r & t' & He & Hr). exists r, t'.
      split; [done|]. destruct r; [|done]. destruct Hr as (? & ? & _). split_and!; [by exists v|done|done].
    + intros t l buf [v Hv] Hl Hb Hb0. destruct (going_write v t l buf Hv Hl Hb Hb0) as (ok & t' & He & Hr).
      exists ok, t'. split; [done|]. destruct ok; [by eexists|done].
    + intros t [v Hv]. destruct (going_flush v t Hv) as (t' & He & Hr & _). exists true, t'. split; [done|by exists v].
  - intros [[]|] t Ht; [|done]. destruct Ht as [Hg _]. split; [done|]. destruct Hg as (v & J & Hr & _).
    exists (raw t n). split; [apply Hr|done].
  - done.
Qed.

Lemma written_ext s v w : (∀ a, 0 ≤ a < L → v a = w a) → written s n L v → written s n L w.
Proof.
  intros Hvw [Hd (f & Hf & HL & Hv) Hm Hw Hc Hb]. split; try done. exists f. split_and!; [done|done|].
  intros a Ha. by rewrite <-Hvw, Hv.
Qed.

(** The journal in the order in which it is played back. *)
Record undoable (s : lim) (J : list (Z * list Z)) : Prop := Undoable {
  ub_journal : journal A s (reverse J);
  ub_undoes : undoes J L v0;
  ub_fit : all_fit s L J;
  ub_some : Forall (λ r, r.2 ≠ []) J;
  ub_others : others s = oth;
  ub_file : uninstall_file s = uf;
  ub_bs : block_size s = bsz;
  ub_written : written s n L (raw s n);
  ub_agrees : agrees J L v0 (raw s n);
}.

Lemma reverse_undoable s J :
  restorable s J → ∃ s', reverse_uninstall_data s = Ok tt s' ∧ alike s s' ∧ undoable s' J.
Proof.
  intros Hr. destruct (reverse_run A s J (rs_journal _ _ Hr)) as (s' & He & Hj & Hal). exists s'. split; [done|].
  split; [done|]. destruct Hr. split; try done.
  - unfold all_fit in *. eapply Forall_impl; [exact rs_fit0|]. intros r. by apply alike_fits.
  - unfold others in *. by rewrite (al_device _ _ Hal), (al_files _ _ Hal).
  - by rewrite (al_file _ _ Hal).
  - by rewrite (al_bs _ _ Hal).
  - eapply alike_written in rs_written0; [|done]. by apply written_raw in rs_written0 as [? _].
  - intros a Ha Hna. rewrite (alike_raw _ _ _ _ Hal). auto.
Qed.

Lemma undo_run s J t q :
  undoable s J → quietly s t →
  ∃ s', uninstall q t = Ok true s' ∧ written s' n L v0 ∧ others s' = oth ∧ journal A s' (reverse J).
Proof.
  intros [] Hq. pose proof (quietly_core _ _ Hq) as Hc.
  destruct (uninstall_run A t (reverse J) q n L (raw s n)) as (s' & He & Hj & Hw & Ho).
  { by eapply journal_core. } { by eapply quietly_written. }
  { eapply all_fit_core; [done|]. unfold all_fit in *. by rewrite reverse_Permutation. }
  exists s'. split_and!; [done| |by rewrite Ho, (core_others _ _ Hc)|done].
  eapply written_ext; [|exact Hw]. by apply ub_undoes0.
Qed.

Lemma install_or_undo_going C img o s :
  installs C img o s →
  runs (install_or_undo img o) s (λ code s',
    if code =? EXIT_SUCCESS then ∃ t J v, written t n L v ∧ C v ∧ undoable t J ∧
      (if uf is Some f then ∃ b, store_uninstall_data f t = Ok b s' else s' = t)
    else written s' n L v0 ∧ others s' = oth ∧ ∃ J, journal A s' J) bad_number.
Proof.
  intros Hs. unfold install_or_undo. apply runs_bind. eapply runs_mono; [exact Hs| |done].
  intros r t Ht. cbn beta. destruct r as [[]|].
  - destruct Ht as [(w & J & Hr & _) (v & Hv & HC)]. destruct (reverse_undoable t J Hr) as (t1 & He & Hal & Hu).
    apply (alike_written _ _ _ _ _ Hal) in Hv.
    eapply runs_bind_Ok; [exact He|]. eapply runs_bind_Ok; [reflexivity|]. rewrite (ub_file _ _ Hu).
    destruct uf as [f|]; [|by exists t1, J, v].
    destruct (store_tame A t1 _ f (ub_journal _ _ Hu)) as (b & t2 & Hst & _). apply runs_bind.
    eapply runs_bind_Ok; [exact Hst|]. exists t1, J, v. split_and!; [done|done|done|by exists b].
  - destruct Ht as (J & Hr). destruct (reverse_undoable t J Hr) as (t1 & He & _ & Hu).
    eapply runs_bind_Ok; [exact He|]. edestruct print_run as (t2 & Hp & Hq). eapply runs_bind_Ok; [exact Hp|].
    destruct (undo_run t1 J t2 true Hu Hq) as (t3 & Hun & Hw & Ho & Hj). eapply runs_bind_Ok; [exact Hun|].
    cbn. split_and!; [done|done|by eexists].
Qed.

End undo.

(** The same bytes. *)
Definition same_file (a b : option file) : Prop :=
  match a, b with
  | Some f, Some g => flen f = flen g ∧ ∀ x, 0 ≤ x < flen f → ld8 (fdata f) x = ld8 (fdata g) x
  | None, None => True
  | _, _ => False
  end.

Lemma same_file_refl a : same_file a a.
Proof. by destruct a. Qed.

(** Files after the device was written out. *)
Lemma written_same h s n f :
  files h !! n = Some f → written s n (flen f) (ld8 (fdata f)) → others s = delete n (files h) →
  ∀ m, same_file (files h !! m) (files (io s) !! m).
Proof.
  intros Hf [(st & Hd & Hn) (g & Hg & HL & Hv) _ _ _ _] Ho m. unfold others in Ho. rewrite Hd, Hn in Ho.
  destruct (decide (m = n)) as [->|Hne]; [rewrite Hf, Hg; by split; [|]|].
  assert (files (io s) !! m = files h !! m) as ->; [|apply same_file_refl].
  by rewrite <-(lookup_delete_ne (files (io s)) n m), Ho, lookup_delete_ne.
Qed.

(** A device that was just opened. *)
Lemma init_going h s st f :
  starting h s → faults h = [] → device s = Some st → files h !! sname st = Some f → 0 ≤ flen f < 2 ^ 63 →
  ∃ b s', device_init s = Ok b s' ∧ files (io s') = files h ∧ journal (allocs h) s' [] ∧ b = (512 <=? flen f) ∧
    (b = true → going_at (allocs h) (sname st) (flen f) (ld8 (fdata f)) (delete (sname st) (files h)) (uninstall_file s) 512
       (ld8 (fdata f)) s').
Proof.
  intros Hs Hw Hd Hf HL. destruct (init_shows h s st f Hs Hw Hd Hf HL) as (b & s' & He & Hfi & Hfa & Huf & Ho & Hb & Hb5 & Hbs).
  destruct (init_run h s Hs) as (b' & t & He' & Hj & Hu & Hb'); [by rewrite Hd|].
  rewrite He in He'. injection He' as <- <-. exists b, s'. split_and!; [done|done|done|done|]. intros ->.
  specialize (Hb eq_refl). exists []. split_and!; [|done|by intros a _ _].
  split; try done; [apply undoes_nil|apply Forall_nil_2|by apply Hbs|by eapply showing_raw|].
  intros a _ _. unfold raw. by rewrite Hfi, Hf.
Qed.

(** An installation, and what it leaves when it succeeds. *)
Lemma install_end (C : (Z → Z) → Prop) h s1 st f img o :
  starting h s1 → faults h = [] → device s1 = Some st → files h !! sname st = Some f → 0 ≤ flen f < 2 ^ 63 →
  (∀ s, going_at (allocs h) (sname st) (flen f) (ld8 (fdata f)) (delete (sname st) (files h)) (uninstall_file s1) 512
          (ld8 (fdata f)) s → 512 ≤ flen f →
     installs (allocs h) (sname st) (flen f) (ld8 (fdata f)) (delete (sname st) (files h)) (uninstall_file s1) 512 C img o s) →
  runs (ready ← device_init; code ← (if negb ready then mret EXIT_FAILURE else install_or_undo img o);
        release ;; mret code) s1
    (λ code s', if code =? EXIT_SUCCESS then ∃ t J v s3, written t (sname st) (flen f) v ∧ C v ∧
        undoable (allocs h) (sname st) (flen f) (ld8 (fdata f)) (delete (sname st) (files h)) (uninstall_file s1) 512 t J ∧
        (if uninstall_file s1 is Some u then ∃ b, store_uninstall_data u t = Ok b s3 else s3 = t) ∧
        files (io s') = files (io s3) ∧ (faults (io s3) = [] → faults (io s') = []) ∧ 512 ≤ flen f
      else ∀ n, same_file (files h !! n) (files (io s') !! n)) bad_number.
Proof.
  intros Hs1 Hw Hd Hf HL Hin. destruct (init_going h s1 st f Hs1 Hw Hd Hf HL) as (b & s2 & H2 & Hfi & Hj2 & Hb5 & Hb2).
  eapply runs_bind_Ok; [exact H2|]. apply runs_bind. destruct b; cbn [negb].
  2:{ eapply runs_ret; [done|]. destruct (release_run _ _ _ Hj2) as (s4 & H4 & _ & Hf4 & _). eapply runs_bind_Ok; [exact H4|].
      intros n. rewrite Hf4, Hfi. apply same_file_refl. }
  symmetry in Hb5. apply Z.leb_le in Hb5.
  eapply runs_mono; [by apply install_or_undo_going, Hin; [apply Hb2|]| |done]. intros code s3 Hc. cbn beta in *.
  destruct (code =? EXIT_SUCCESS) eqn:Ec.
  - destruct Hc as (t & J & v & Hwv & HC & Hu & Hst). assert (∃ J', journal (allocs h) s3 J') as [J' Hj'].
    { destruct (uninstall_file s1) as [u|]; [|subst; eexists; apply Hu]. destruct Hst as [b Hst].
      destruct (store_tame _ t _ u (ub_journal _ _ _ _ _ _ _ _ _ Hu)) as (b' & s3' & Hst' & Hj).
      rewrite Hst in Hst'. injection Hst' as <- <-. by eexists. }
    destruct (release_run _ _ _ Hj') as (s4 & H4 & _ & Hf4 & Hfa4). eapply runs_bind_Ok; [exact H4|].
    eapply runs_ret; [done|]. rewrite Ec. by exists t, J, v, s3.
  - destruct Hc as (Hwr & Ho & J & Hj). destruct (release_run _ _ _ Hj) as (s4 & H4 & _ & Hf4 & _).
    eapply runs_bind_Ok; [exact H4|]. eapply runs_ret; [done|]. rewrite Ec. intros n. rewrite Hf4. by eapply written_same.
Qed.

End LimineRestore.
