(* ===== verification/LimineStages.v ===== *)
(** * What an installation leaves on the device

    The bytes of the device after [write_stages], and what the steps before it
    may change. *)

From S2P Require Import Prelude Host Limine LimineFacts LimineUndo LimineInstall LimineSteps LimineJournal LimineStart LimineFile LimineRestore.

Module LimineStages.
Import Host Limine LimineFacts LimineUndo LimineInstall LimineSteps LimineJournal LimineStart LimineFile LimineRestore.

(** The device [w] with the stages of [img] written to it, stage 2 at [l]: the
    time stamp and the partition table are those of [w], and the boot sector says
    where stage 2 is. *)
Definition with_stages (img : list Z) (l : Z) (w : Z → Z) (a : Z) : Z :=
  if (218 <=? a) && (a <? 224) || (440 <=? a) && (a <? 510) then w a
  else if (0x1a4 <=? a) && (a <? 0x1ac) then default 0 (le_bytes 8 l !! Z.to_nat (a - 0x1a4))
  else if (l <=? a) && (a <? l + (Z.of_nat (length img) - 512)) then default 0 (img !! Z.to_nat (512 + (a - l)))
  else if a <? 512 then default 0 (img !! Z.to_nat a)
  else w a.

(** The bytes [write_stages] leaves, write by write. *)
Definition stages_written (img : list Z) (l : Z) (w : Z → Z) : Z → Z :=
  upd (upd (upd (upd (upd w 0 (take 512 img)) l (drop 512 img)) 0x1a4 (le_bytes 8 l)) 218 (vbytes w 218 6)) 440 (vbytes w 440 70).

Lemma upd_out v l bs a : ¬ (l ≤ a < l + Z.of_nat (length bs)) → upd v l bs a = v a.
Proof. intros H. unfold upd. destruct (_ && _) eqn:E; [zify_bools; lia|done]. Qed.

Lemma upd_in v l bs a :
  Forall (λ b, 0 ≤ b < 256) bs → l ≤ a < l + Z.of_nat (length bs) → upd v l bs a = default 0 (bs !! Z.to_nat (a - l)).
Proof.
  intros Hb H. unfold upd. destruct (_ && _) eqn:E; [|zify_bools; lia].
  destruct (lookup_lt_is_Some_2 bs (Z.to_nat (a - l)) ltac:(lia)) as [b Hl]. rewrite Hl. cbn.
  apply wrap8_small. by apply (Forall_lookup_1 _ _ _ _ Hb Hl).
Qed.

(** Bytes that are put back. *)
Lemma upd_vbytes v w l n a :
  (∀ b, l ≤ b < l + Z.of_nat n → 0 ≤ w b < 256) → l ≤ a < l + Z.of_nat n → upd v l (vbytes w l n) a = w a.
Proof.
  intros Hw Ha. rewrite upd_in; rewrite ?length_vbytes; [|apply Forall_lookup|done].
  - rewrite vbytes_lookup by lia. cbn. f_equal. lia.
  - intros i b Hi. assert (i < n)%nat by (apply lookup_lt_Some in Hi; by rewrite length_vbytes in Hi).
    rewrite vbytes_lookup in Hi by done. injection Hi as <-. apply Hw. lia.
Qed.

Lemma stages_written_eq img l w a :
  Forall (λ b, 0 ≤ b < 256) img → 512 < Z.of_nat (length img) → 0 ≤ l → 0 ≤ a → (∀ b, 0 ≤ b < 512 → 0 ≤ w b < 256) →
  stages_written img l w a = with_stages img l w a.
Proof.
  intros Hi Hn Hl Ha Hw. unfold stages_written, with_stages.
  destruct ((218 <=? a) && (a <? 224) || (440 <=? a) && (a <? 510)) eqn:E1.
  { destruct (decide (440 ≤ a)).
    - rewrite upd_vbytes; [done|intros; apply Hw; lia|zify_bools; lia].
    - rewrite upd_out by (rewrite length_vbytes; lia). rewrite upd_vbytes; [done|intros; apply Hw; lia|zify_bools; lia]. }
  rewrite !(upd_out _ _ (vbytes _ _ _)) by (rewrite length_vbytes; zify_bools; lia).
  destruct ((0x1a4 <=? a) && (a <? 0x1ac)) eqn:E2.
  { apply upd_in; [apply le_bytes_range|]. rewrite le_bytes_length. zify_bools; lia. }
  rewrite (upd_out _ _ (le_bytes _ _)) by (rewrite le_bytes_length; zify_bools; lia).
  destruct ((l <=? a) && _) eqn:E3.
  { rewrite upd_in; [|by apply Forall_drop|rewrite length_drop; zify_bools; lia]. rewrite lookup_drop. do 2 f_equal. zify_bools; lia. }
  rewrite upd_out by (rewrite length_drop; zify_bools; lia). destruct (Z.ltb_spec a 512).
  - rewrite upd_in; [|by apply Forall_take|rewrite length_take; lia]. rewrite lookup_take_lt by lia. do 2 f_equal. lia.
  - rewrite upd_out by (rewrite length_take; lia). done.
Qed.

Lemma le_byte v a : le (vbytes v a (Z.to_nat 1)) = v a.
Proof. change (v (a + 0) + 256 * 0 = v a). by rewrite !Z.add_0_r. Qed.

Section stages.
Context (A : gmap Z block) (n : string) (L : Z) (v0 : Z → Z) (oth : gmap string file) (uf : option string) (bsz : Z).

Abbreviation at_ := (going_at A n L v0 oth uf bsz).
Abbreviation going' := (going A n L v0 oth uf bsz).
Abbreviation failed' := (failed A n L v0 oth uf bsz).

(** A step that goes on with [P], or fails with a device that can be restored. *)
Definition ends {R} (P : R → lim → Prop) (r : option R) (s : lim) : Prop :=
  if r is Some a then P a s else failed' s.

Lemma at_read {R} v s l c (k : list Z → step R) P :
  at_ v s → 0 ≤ l < 2 ^ 64 → 0 ≤ c →
  (∀ s', at_ v s' → bytes_of c (vbytes v l (Z.to_nat c)) → runs (k (vbytes v l (Z.to_nat c))) s' (ends P) bad_number) →
  runs (bs ←? device_read l c; k bs) s (ends P) bad_number.
Proof.
  intros Hv Hl Hc Hk. destruct (going_read _ _ _ _ _ _ _ v s l c Hv Hl Hc) as (r & s' & He & Hr).
  eapply runs_bind_Ok; [exact He|]. destruct r as [bs|]; [|exact Hr]. destruct Hr as (Hs & Hb & ->). by apply Hk.
Qed.

Lemma at_write {R} v s buf l (k : step R) P :
  at_ v s → 0 ≤ l < 2 ^ 64 → 0 < Z.of_nat (length buf) < 2 ^ 63 →
  (∀ s', at_ (upd v l buf) s' → runs k s' (ends P) bad_number) → runs (device_write buf l ;? k) s (ends P) bad_number.
Proof.
  intros Hv Hl Hb Hk. destruct (going_write _ _ _ _ _ _ _ v s l buf Hv Hl ltac:(lia) ltac:(lia)) as (ok & s' & He & Hr).
  unfold or_cleanup, device_write. apply runs_bind. eapply runs_bind_Ok; [exact He|].
  destruct ok; (eapply runs_ret; [done|]); [by apply Hk|exact Hr].
Qed.

Lemma at_chat {R} v s fmt (k : step R) P :
  at_ v s → (∀ s', at_ v s' → quietly s s' → runs k s' (ends P) bad_number) → runs (call (chat fmt) ;? k) s (ends P) bad_number.
Proof.
  intros Hv Hk. destruct (chat_run fmt s) as (s' & He & Hq). unfold or_cleanup, call. apply runs_bind.
  eapply runs_bind_Ok; [exact He|]. eapply runs_ret; [done|]. apply Hk; [|done].
  eapply going_alike; [by apply alike_quietly|by apply quietly_core|done].
Qed.

Lemma at_byte v s a : at_ v s → 0 ≤ a < L → 0 ≤ v a < 256.
Proof. intros (J & _ & Hs & _). by eapply showing_byte. Qed.

(** [write_stages], from a device that shows [w]. *)
Lemma write_stages_at img l w s :
  512 < Z.of_nat (length img) < 2 ^ 63 → Forall (λ b, 0 ≤ b < 256) img → 0 ≤ l < 2 ^ 64 → 512 ≤ L → at_ w s →
  runs (write_stages img l) s
    (ends (λ _ s', going' s' ∧ ∃ v, written s' n L v ∧ ∀ a, 0 ≤ a < L → v a = with_stages img l w a)) bad_number.
Proof.
  intros Hn Hi Hl HL Hw. unfold write_stages. change (ENDSWAP 8 l) with l. eapply at_chat; [done|]. intros s1 H1 _.
  do 2 (eapply at_read; [done|lia|lia|]; clear dependent s1; intros s1 H1 _).
  do 5 (eapply at_write; [eassumption|lia|rewrite ?length_take, ?length_drop, ?length_vbytes, ?le_bytes_length; lia|];
    clear dependent s1; intros s1 H1).
  destruct (going_flush _ _ _ _ _ _ _ _ _ H1) as (s2 & Hf & H2 & Hwr). unfold or_cleanup at 1, call at 1.
  apply runs_bind. eapply runs_bind_Ok; [exact Hf|]. eapply runs_ret; [done|]. cbn [negb].
  eapply at_chat; [exact H2|]. intros s3 H3 Q3. destruct (chat_run "Limine BIOS stages installed successfully.\n" s3) as (s4 & He & Q4).
  eapply runs_bind_Ok; [exact He|]. pose proof (quietly_trans _ _ _ Q3 Q4) as Hq. split.
  - eexists. eapply going_alike; [by apply alike_quietly|by apply quietly_core|exact H2].
  - eexists. split; [by eapply quietly_written|]. intros a Ha. apply stages_written_eq; [done|lia|lia|lia|].
    intros b Hb. eapply at_byte; [exact Hw|lia].
Qed.

(** ** Steps before the stages are written *)

(** Reads of a device that shows [w0]. *)
Definition on_disk (w0 : Z → Z) (l : Z) (bs : list Z) : Prop := bs = vbytes w0 l (length bs).

Lemma at_on_disk w0 s l c :
  at_ w0 s → 0 ≤ l < 2 ^ 64 → 0 ≤ c →
  ∃ r s', _device_read l c s = Ok r s' ∧ (if r is Some bs then at_ w0 s' ∧ bytes_of c bs ∧ on_disk w0 l bs else failed' s').
Proof.
  intros Hs Hl Hc. destruct (going_read _ _ _ _ _ _ _ w0 s l c Hs Hl Hc) as (r & s' & He & Hr). exists r, s'.
  split; [done|]. destruct r; [|done]. destruct Hr as (? & ? & ->). unfold on_disk. by rewrite length_vbytes.
Qed.

(** A partition for the boot loader in a GPT on the device. *)
Definition boot_partition (w0 : Z → Z) (lb : Z) (e : gpt_entry) : Prop :=
  ∃ h i, lb ∈ [512; 4096] ∧ h = header_of (vbytes w0 lb 96) ∧ signature h = EFI_PART ∧
    0 ≤ i < number_of_partition_entries h ∧
    e = entry_of (vbytes w0 ((partition_entry_lba h * lb) +w (i *w size_of_partition_entry h)) 128) ∧
    partition_type_guid e = BIOS_BOOT.

Lemma gpt_stage2_at w0 o h lb s :
  force o = false → lb ∈ [512; 4096] → header_at (on_disk w0) h lb → at_ w0 s →
  runs (gpt_stage2 o h lb) s (ends (λ l s', at_ w0 s' ∧ ∃ e, boot_partition w0 lb e ∧ 0 ≤ l < 2 ^ 64 ∧
    l = starting_lba e * lb ∧ l + 32768 ≤ (ending_lba e + 1) * lb)) bad_number.
Proof.
  intros Hf Hlb Hh Hs. pose proof (lb_range _ Hlb). eapply runs_mono.
  - apply (keeps_gpt (at_ w0) failed' (λ _ _, False) (on_disk w0)) with (1 := going_failed _ _ _ _ _ _ _ _); try done;
      eauto using going_alike, at_on_disk; try lia. congruence.
  - intros [l|] t Ht; [|done]. destruct Ht as (Ht & base & e & Hb & (i & bs & Hi & [Hlen _] & Hod & ->) & Hty & Hl & Hr & He).
    split; [done|]. exists (entry_of bs). split_and!; try done; [|by destruct Hr..].
    destruct Hh as (hb & [Hhl Hhb] & Hho & -> & Hsig). unfold on_disk in *. rewrite Hlen in Hod. rewrite Hhl in Hho.
    pose proof (member_range hb 72 8 Hhb). apply mul_overflow_false in Hb as [-> _]; [|done|lia].
    exists (header_of hb), i. split_and!; try done; [by f_equal|apply Hi|apply Hi|by f_equal|by apply Hty].
  - done.
Qed.

(** An entry of the MBR that is empty or starts after the first track. *)
Definition entry_spared (w0 : Z → Z) (base : Z) : Prop := w0 (base + 4) ≠ 0 → 63 ≤ le (vbytes w0 (base + 8) 4).

(** The device shows [w0], except perhaps for the flag of the first partition. *)
Definition but_flag (w0 : Z → Z) (s : lim) : Prop := ∃ v, at_ v s ∧ ∀ a, a ≠ 446 → v a = w0 a.

Definition off_flag (w0 : Z → Z) (l : Z) (bs : list Z) : Prop :=
  (446 < l ∨ l + Z.of_nat (length bs) ≤ 446) → bs = vbytes w0 l (length bs).

Lemma mbr_stage2_at w0 o s :
  force o = false → 512 ≤ L → at_ w0 s →
  runs (mbr ←? check_mbr (force o);
    if negb mbr then
      abort_with ["error: Could not determine if the device has a valid partition table.\n";
                  "       Please ensure the device has a valid MBR or GPT.\n";
                  "       Alternatively, pass `--force` to override these checks.\n";
                  "       **ONLY DO THIS AT YOUR OWN RISK, DATA LOSS MAY OCCUR!**\n"]
    else call (chat "Installing to MBR.\n") ;? go_on 512) s
    (ends (λ l s', but_flag w0 s' ∧ l = 512 ∧ ∀ base, base ∈ MBR_ENTRIES → entry_spared w0 base)) bad_number.
Proof.
  intros Hf HL Hs. eapply runs_mono.
  - apply (keeps_mbr_stage2 (but_flag w0) failed' (λ l k, l = 446 ∧ k = 1%nat) (off_flag w0)); try done; try congruence.
    + intros t (v & Hv & _). by eapply going_failed.
    + intros t t' Hal Hc (v & Hv & Hb). exists v. split; [by eapply going_alike|done].
    + intros t l c (v & Hv & Hb) Hl Hc. destruct (going_read _ _ _ _ _ _ _ v t l c Hv Hl Hc) as (r & t' & He & Hr).
      exists r, t'. split; [done|]. destruct r; [|done]. destruct Hr as (? & ? & ->). split_and!; [by exists v|done|].
      intros Ho. rewrite length_vbytes in *. apply vbytes_ext. intros b Hb'. apply Hb. lia.
    + intros t l buf (v & Hv & Hb) Hl Hlen [-> H1].
      destruct (going_write _ _ _ _ _ _ _ v t 446 buf Hv Hl Hlen ltac:(lia)) as (ok & t' & He & Hr).
      exists ok, t'. split; [done|]. destruct ok; [|done]. exists (upd v 446 buf). split; [done|].
      intros a Ha. rewrite upd_out by lia. auto.
    + intros t (v & Hv & Hb). destruct (going_flush _ _ _ _ _ _ _ _ _ Hv) as (t' & He & Hr & _). exists true, t'.
      split; [done|by exists v].
    + exists w0. by split.
  - intros [l|] t Ht; [|done]. destruct Ht as (Ht & -> & He). split_and!; [done|done|]. intros base Hb Hty.
    assert (446 ≤ base) as Hb0 by (apply list_elem_of_In in Hb as [<-|[<-|[<-|[<-|[]]]]]; lia).
    destruct (He base Hb) as (ty & [Hl1 _] & Hoff & Hst). unfold off_flag in *. rewrite Hl1 in Hoff.
    rewrite Hoff in Hst by lia. destruct Hst as (start & [Hl4 _] & Hoff4 & H63).
    { by rewrite le_byte. }
    rewrite Hl4 in Hoff4. by rewrite Hoff4 in H63 by lia.
  - done.
Qed.

End stages.
End LimineStages.
