(* ===== verification/LimineConvert.v ===== *)
(** * Converting the GPT of a hybrid image

    The MBR that [convert] writes lists the partitions of the GPT, and the whole
    of an installation that was not forced. *)

From S2P Require Import Prelude Host Limine LimineFacts LimineUndo LimineInstall LimineSteps LimineJournal LimineStart LimineFile LimineRestore LimineStages.

Module LimineConvert.
Import Host Limine LimineFacts LimineUndo LimineInstall LimineSteps LimineJournal LimineStart LimineFile LimineRestore LimineStages.

(** ** The partitions of a GPT *)

(** The entries [i], ..., [i + n - 1] of the table at [base] that are in use. *)
Fixpoint used (w0 : Z → Z) (h : gpt_table_header) (base i : Z) (n : nat) : list gpt_entry :=
  match n with
  | O => []
  | S n =>
      let e := entry_of (vbytes w0 (base +w (i *w size_of_partition_entry h)) 128) in
      (if no_guid e then [] else [e]) ++ used w0 h base (i + 1) n
  end.

(** The type of the MBR for a type of the GPT. *)
Definition mbr_type_of (e : gpt_entry) : Z :=
  gpt2mbr_type (member (partition_type_guid e) 0 8) (member (partition_type_guid e) 8 8).

Definition part_of (e : gpt_entry) : part :=
  Part (starting_lba e) (ending_lba e) (lba2chs (starting_lba e)) (lba2chs (ending_lba e)) (wrap8 (mbr_type_of e)).

(** What an MBR can describe. *)
Definition describable (e : gpt_entry) : Prop :=
  0 ≤ starting_lba e ≤ UINT32_MAX ∧ 0 ≤ ending_lba e ≤ UINT32_MAX ∧
  (ending_lba e -w starting_lba e) +w 1 ≤ UINT32_MAX ∧ mbr_type_of e ≠ -1.

Lemma conv_part_eq e k s :
  0 ≤ starting_lba e → 0 ≤ ending_lba e →
  ∃ r s', conv_part e k s = Ok r s' ∧ quietly s s' ∧ ∀ p, r = Some p → k ≠ 4%nat ∧ p = part_of e ∧ describable e.
Proof.
  intros Hst Hen. unfold conv_part. change (ENDSWAP 8 (starting_lba e)) with (starting_lba e).
  change (ENDSWAP 8 (ending_lba e)) with (ending_lba e).
  change (gpt2mbr_type _ _) with (mbr_type_of e).
  repeat match goal with |- context [if ?b then _ else _] =>
    destruct b eqn:?; [edestruct chat_run as (s' & He & Hq); erewrite bind_Ok_eq by exact He; exists None, s'; done|] end.
  eexists _, s. split; [reflexivity|]. split; [apply quietly_refl|]. intros p [= <-].
  split; [by apply Nat.eqb_neq|]. split; [done|]. unfold describable. zify_bools. lia.
Qed.

(** The entry of the MBR for an entry of the GPT. *)
Definition mbr_entry (e : gpt_entry) : list Z :=
  [0] ++ lba2chs (starting_lba e) ++ [wrap8 (mbr_type_of e)] ++ lba2chs (ending_lba e) ++
  le_bytes 4 (starting_lba e) ++ le_bytes 4 (ending_lba e - starting_lba e + 1).

Lemma lba2chs_bytes lba : Forall (λ b, 0 ≤ b < 256) (lba2chs lba).
Proof. unfold lba2chs. destruct (_ || _); repeat constructor; lia || apply wrap8_range. Qed.

Lemma vbytes_upd_in v l bs : Forall (λ b, 0 ≤ b < 256) bs → vbytes (upd v l bs) l (length bs) = bs.
Proof.
  intros Hb. apply list_eq. intros i. destruct (decide (i < length bs)%nat) as [Hi|Hi].
  - rewrite vbytes_lookup, upd_in by (done || lia). replace (Z.to_nat _) with i by lia.
    destruct (lookup_lt_is_Some_2 bs i Hi) as [b ->]. done.
  - by rewrite !lookup_ge_None_2 by (rewrite ?length_vbytes; lia).
Qed.

Lemma vbytes_upd_out v l bs a k :
  a + Z.of_nat k ≤ l ∨ l + Z.of_nat (length bs) ≤ a → vbytes (upd v l bs) a k = vbytes v a k.
Proof. intros H. apply vbytes_ext. intros b Hb. apply upd_out. lia. Qed.

(** The writes of [write_part]. *)
Definition part_written (e : gpt_entry) (base : Z) (v : Z → Z) : Z → Z :=
  upd (upd (upd (upd (upd v (base + 4) [wrap8 (mbr_type_of e)]) (base + 8) (le_bytes 4 (starting_lba e)))
    (base + 12) (le_bytes 4 (ending_lba e - starting_lba e + 1))) (base + 1) (lba2chs (starting_lba e)))
    (base + 5) (lba2chs (ending_lba e)).

Lemma part_written_out e base v a : ¬ (base ≤ a < base + 16) → part_written e base v a = v a.
Proof. intros H. unfold part_written. by rewrite !upd_out by (rewrite ?length_lba2chs, ?le_bytes_length; cbn; lia). Qed.

Lemma part_written_in e base v : v base = 0 → vbytes (part_written e base v) base 16 = mbr_entry e.
Proof.
  intros H0. assert (∀ v' l bs c, length bs = c → Forall (λ b, 0 ≤ b < 256) bs → vbytes (upd v' l bs) l c = bs) as Hin
    by (intros v' l bs c <-; apply vbytes_upd_in).
  change 16%nat with (1 + (3 + (1 + (3 + (4 + 4)))))%nat. rewrite !vbytes_app.
  replace (base + Z.of_nat 1 + Z.of_nat 3) with (base + 4) by lia. replace (base + 4 + Z.of_nat 1) with (base + 5) by lia.
  replace (base + 5 + Z.of_nat 3) with (base + 8) by lia. replace (base + 8 + Z.of_nat 4) with (base + 12) by lia.
  unfold mbr_entry, part_written. f_equal; [|f_equal; [|f_equal; [|f_equal; [|f_equal]]]].
  - rewrite !vbytes_upd_out by (rewrite ?length_lba2chs, ?le_bytes_length; cbn; lia). cbn. by rewrite Z.add_0_r, H0.
  - rewrite vbytes_upd_out by (rewrite ?length_lba2chs, ?le_bytes_length; cbn; lia). apply Hin; [apply length_lba2chs|apply lba2chs_bytes].
  - do 4 rewrite vbytes_upd_out by (rewrite ?length_lba2chs, ?le_bytes_length; cbn; lia). apply Hin; [done|].
    constructor; [apply wrap8_range|done].
  - apply Hin; [apply length_lba2chs|apply lba2chs_bytes].
  - do 3 rewrite vbytes_upd_out by (rewrite ?length_lba2chs, ?le_bytes_length; cbn; lia). apply Hin; [done|apply le_bytes_range].
  - do 2 rewrite vbytes_upd_out by (rewrite ?length_lba2chs, ?le_bytes_length; cbn; lia). apply Hin; [done|apply le_bytes_range].
Qed.

Section convert.
Context (A : gmap Z block) (n : string) (L : Z) (v0 : Z → Z) (oth : gmap string file) (uf : option string) (bsz : Z).

Abbreviation at_ := (going_at A n L v0 oth uf bsz).
Abbreviation failed' := (failed A n L v0 oth uf bsz).
Abbreviation ends' := (ends A n L v0 oth uf bsz).

Lemma at_quietly v s s' : quietly s s' → at_ v s → at_ v s'.
Proof. intros Hq. apply going_alike; [by apply alike_quietly|by apply quietly_core]. Qed.

Lemma gather_at w0 k i base h acc s :
  at_ w0 s → (length acc ≤ 4)%nat →
  runs (gather k i base h acc) s (ends' (λ r s', at_ w0 s' ∧ ∀ ps, r = Some ps →
    ps = acc ++ (part_of <$> used w0 h base i k) ∧ (length ps ≤ 4)%nat ∧ Forall describable (used w0 h base i k))) bad_number.
Proof.
  revert i acc s. induction k as [|k IH]; intros i acc s Hs Ha; cbn [gather used].
  { split; [done|]. intros ps [= <-]. by rewrite app_nil_r. }
  destruct (add_u64_overflow _ _) as [off over] eqn:E. destruct over; [by split; [|intros ps [=]]|]. injection E as <- _.
  eapply at_read; [done|apply wrap64_range|done|]. clear s Hs. intros s Hs [_ Hby].
  change (Z.to_nat SIZEOF_ENTRY) with 128%nat. change (ENDSWAP 4 (size_of_partition_entry h)) with (size_of_partition_entry h).
  set (e := entry_of _). destruct (no_guid e); cbn [app]; [by apply IH|].
  destruct (conv_part_eq e (length acc) s (proj1 (member_range _ 32 8 Hby)) (proj1 (member_range _ 40 8 Hby))) as (r & s' & He & Hq & Hr). unfold or_cleanup, call. apply runs_bind.
  eapply runs_bind_Ok; [exact He|]. eapply runs_ret; [done|]. apply (at_quietly _ _ _ Hq) in Hs.
  destruct r as [p|]; [|by split; [|intros ps [=]]]. destruct (Hr p eq_refl) as (H4 & -> & Hd).
  eapply runs_mono; [apply (IH (i + 1) (acc ++ [part_of e]) s' Hs); rewrite length_app; cbn; lia| |done].
  intros [o|] t Ht; [|done]. destruct Ht as [Ht Ho]. split; [done|]. intros ps Hps. destruct (Ho ps Hps) as (-> & Hl & Hf).
  split_and!; [by rewrite <-app_assoc|done|by constructor].
Qed.

Lemma ends_then {R T} (m : step R) (k : R → step T) P Q s :
  runs m s (ends' P) bad_number → (∀ a s', P a s' → runs (k a) s' (ends' Q) bad_number) →
  runs (or_cleanup m k) s (ends' Q) bad_number.
Proof.
  intros Hm Hk. unfold or_cleanup. apply runs_bind. eapply runs_mono; [exact Hm| |done].
  intros [a|] s' H; [by apply Hk|exact H].
Qed.

Lemma for_at (Inv : Z → (Z → Z) → Prop) k i body v s :
  at_ v s → Inv i v →
  (∀ j v s, i ≤ j < i + Z.of_nat k → at_ v s → Inv j v →
     runs (body j) s (ends' (λ _ s', ∃ v', at_ v' s' ∧ Inv (j + 1) v')) bad_number) →
  runs (for_step k i body) s (ends' (λ _ s', ∃ v', at_ v' s' ∧ Inv (i + Z.of_nat k) v')) bad_number.
Proof.
  revert i v s. induction k as [|k IH]; intros i v s Hs Hi Hb; cbn [for_step].
  { exists v. by rewrite Z.add_0_r. }
  eapply ends_then; [apply (Hb i v s); [lia|done|done]|]. intros _ s' (v' & Hs' & Hi').
  replace (i + Z.of_nat (S k)) with (i + 1 + Z.of_nat k) by lia. apply (IH (i + 1) v' s' Hs' Hi').
  intros j w t Hj. apply Hb. lia.
Qed.

Lemma write_at v s buf l :
  at_ v s → 0 ≤ l < 2 ^ 64 → 0 < Z.of_nat (length buf) < 2 ^ 63 →
  runs (device_write buf l) s (ends' (λ _ s', at_ (upd v l buf) s')) bad_number.
Proof.
  intros Hv Hl Hb. destruct (going_write _ _ _ _ _ _ _ v s l buf Hv Hl ltac:(lia) ltac:(lia)) as (ok & s' & He & Hr).
  eapply runs_bind_Ok; [exact He|]. by destruct ok.
Qed.

(** The partitions. *)
Lemma count_small e : describable e → wrap32 ((ending_lba e -w starting_lba e) +w 1) = ending_lba e - starting_lba e + 1.
Proof.
  intros (Hs & He & Hc & _). unfold UINT32_MAX in *.
  assert ((ending_lba e -w starting_lba e) +w 1 = wrap64 (ending_lba e - starting_lba e + 1)) as Hw.
  { unfold wrap64. by rewrite Zplus_mod_idemp_l. }
  rewrite Hw in *. destruct (decide (0 ≤ ending_lba e - starting_lba e + 1)).
  - rewrite wrap64_small in * by lia. apply wrap32_small. lia.
  - unfold wrap64 in Hc. rewrite <-(Z.mod_unique_pos _ _ (-1) (2 ^ 64 + (ending_lba e - starting_lba e + 1))) in Hc by lia. lia.
Qed.

Lemma write_part_at e i v s :
  describable e → 0 ≤ i < 4 → at_ v s →
  runs (write_part i (part_of e)) s (ends' (λ _ s', at_ (part_written e (446 + 16 * i) v) s')) bad_number.
Proof.
  intros Hd Hi Hs. pose proof (count_small e Hd) as Hc. destruct Hd as ((? & ?) & ? & _). unfold UINT32_MAX in *.
  unfold write_part, part_of. cbn [type lba_start lba_end chs_start chs_end].
  change (ENDSWAP 4 (wrap32 (starting_lba e))) with (wrap32 (starting_lba e)).
  change (ENDSWAP 4 (wrap32 ((ending_lba e -w starting_lba e) +w 1))) with (wrap32 ((ending_lba e -w starting_lba e) +w 1)).
  rewrite Hc, wrap32_small by lia. unfold part_written.
  replace (446 + 16 * i + 4) with (0x1be + i * 16 + 0x04) by lia. replace (446 + 16 * i + 8) with (0x1be + i * 16 + 0x08) by lia.
  replace (446 + 16 * i + 12) with (0x1be + i * 16 + 0x0c) by lia. replace (446 + 16 * i + 1) with (0x1be + i * 16 + 1) by lia.
  replace (446 + 16 * i + 5) with (0x1be + i * 16 + 5) by lia.
  do 4 (eapply at_write; [eassumption|lia|rewrite ?length_lba2chs, ?le_bytes_length; cbn; lia|]; clear dependent s; intros s Hs).
  apply write_at; [done|lia|rewrite length_lba2chs; lia].
Qed.

Lemma write_parts_at es i v s :
  Forall describable es → 0 ≤ i → i + Z.of_nat (length es) ≤ 4 → at_ v s →
  (∀ a, 446 + 16 * i ≤ a < 510 → v a = 0) →
  runs (write_parts i (part_of <$> es)) s (ends' (λ _ s', ∃ v', at_ v' s' ∧
    (∀ k e, es !! k = Some e → vbytes v' (446 + 16 * (i + Z.of_nat k)) 16 = mbr_entry e) ∧
    (∀ a, ¬ (446 + 16 * i ≤ a < 446 + 16 * (i + Z.of_nat (length es))) → v' a = v a))) bad_number.
Proof.
  intros Hd. revert i v s. induction Hd as [|e es He _ IH]; intros i v s Hi Hn Hs Hz; cbn [write_parts fmap list_fmap].
  { exists v. by split_and!; [|intros k e' ?|]. }
  cbn [length] in Hn. eapply ends_then; [apply write_part_at; [done|lia|exact Hs]|]. intros [] s1 H1.
  eapply runs_mono; [apply (IH (i + 1) (part_written e (446 + 16 * i) v) s1); [lia|lia|exact H1|]| |done].
  { intros a Ha. rewrite part_written_out by lia. apply Hz. lia. }
  intros [[]|] t Ht; [|exact Ht]. destruct Ht as (v' & Ht & Hes & Hout). exists v'. split_and!; [done| |].
  - intros [|k] e' Hk.
    + injection Hk as <-. rewrite Z.add_0_r. rewrite <-(part_written_in e (446 + 16 * i) v) by (apply Hz; lia).
      apply vbytes_ext. intros b Hb. apply Hout. lia.
    + rewrite <-(Hes k e' Hk). f_equal. lia.
  - intros a Ha. cbn [length] in Ha. rewrite Hout, part_written_out by lia. done.
Qed.

(** The blocks of the second table. *)
Definition second_table (h : gpt_table_header) (lb a : Z) : Prop :=
  ∃ i, 0 ≤ i < 33 ∧ 32 ≤ alternate_lba h ∧
    (alternate_lba h - 32 + i) *w lb ≤ a < (alternate_lba h - 32 + i) *w lb + lb.

(** [v'] is [v] with the tables [h] erased and the partitions [es] in the MBR. *)
Record converted (h : gpt_table_header) (lb : Z) (es : list gpt_entry) (v v' : Z → Z) : Prop := Converted {
  cv_entries : ∀ k e, es !! k = Some e → vbytes v' (446 + 16 * Z.of_nat k) 16 = mbr_entry e;
  cv_empty : ∀ a, 446 + 16 * Z.of_nat (length es) ≤ a < 510 → v' a = 0;
  cv_erased : ∀ a, 0 ≤ a < 34 * lb → a < 440 ∨ 510 ≤ a → v' a = 0;
  cv_rest : ∀ a, 34 * lb ≤ a → v' a = v a ∨ second_table h lb a ∧ v' a = 0;
}.

(** Erasing the tables. *)
Lemma zero_at lb j v s :
  0 < lb < 2 ^ 32 → at_ v s →
  runs (device_write (replicate (Z.to_nat lb) 0) (wrap64 j)) s
    (ends' (λ _ s', ∃ v', at_ v' s' ∧ ∀ a, v' a = if (wrap64 j <=? a) && (a <? wrap64 j + lb) then 0 else v a)) bad_number.
Proof.
  intros Hlb Hs. pose proof (wrap64_range j). eapply runs_mono; [by apply write_at; [exact Hs|lia|rewrite length_replicate; lia]| |done].
  intros [[]|] t Ht; [|exact Ht]. eexists. split; [exact Ht|]. intros a. unfold upd. rewrite length_replicate, Z2Nat.id by lia.
  destruct (_ && _) eqn:E; [|done]. rewrite lookup_replicate_2; [done|]. zify_bools. lia.
Qed.

Lemma first_at lb v s :
  lb ∈ [512; 4096] → at_ v s →
  runs (for_step 34 0 (λ i, device_write (replicate (Z.to_nat lb) 0) (i *w lb))) s
    (ends' (λ _ s', ∃ v', at_ v' s' ∧ (∀ a, 0 ≤ a < 34 * lb → v' a = 0) ∧ ∀ a, 34 * lb ≤ a → v' a = v a)) bad_number.
Proof.
  intros Hlb Hs. apply list_elem_of_In in Hlb. assert (0 < lb ≤ 4096) by (destruct Hlb as [<-|[<-|[]]]; lia). clear Hlb.
  apply (for_at (λ j w, (∀ a, 0 ≤ a < j * lb → w a = 0) ∧ ∀ a, j * lb ≤ a → w a = v a) 34 0 _ v s Hs); [by split; [lia|]|].
  intros j w t Hj Ht [Hz Hw]. eapply runs_mono; [apply zero_at; [lia|exact Ht]| |done].
  intros [[]|] t' Ht'; [|exact Ht']. destruct Ht' as (w' & Ht' & He). exists w'. split; [done|].
  rewrite wrap64_small in He by nia. split; intros a Ha; rewrite He; destruct (_ && _) eqn:E; zify_bools; try done; try (apply Hz || apply Hw); lia.
Qed.

Lemma second_at h lb v s :
  0 < lb < 2 ^ 32 → at_ v s →
  runs (if 32 <=? alternate_lba h then
          for_step 33 0 (λ i, device_write (replicate (Z.to_nat lb) 0) ((alternate_lba h - 32 + i) *w lb))
        else go_on tt) s
    (ends' (λ _ s', ∃ v', at_ v' s' ∧ ∀ a, v' a = v a ∨ second_table h lb a ∧ v' a = 0)) bad_number.
Proof.
  intros Hlb Hs. destruct (Z.leb_spec 32 (alternate_lba h)); [|exists v; by split; [|left]].
  apply (for_at (λ _ w, ∀ a, w a = v a ∨ second_table h lb a ∧ w a = 0) 33 0 _ v s Hs); [by left|].
  intros j w t Hj Ht Hw. eapply runs_mono; [apply zero_at; [lia|exact Ht]| |done].
  intros [[]|] t' Ht'; [|exact Ht']. destruct Ht' as (w' & Ht' & He). exists w'. split; [done|].
  intros a. rewrite He. destruct (_ && _) eqn:E; [|apply Hw]. right. split; [|done]. exists j. zify_bools. lia.
Qed.

Lemma rands_at v s :
  at_ v s →
  runs (for_step 4 0 (λ i, r ←? call (lifti rand); device_write [wrap8 r] (0x1b8 + i))) s
    (ends' (λ _ s', ∃ v', at_ v' s' ∧ ∀ a, ¬ (440 ≤ a < 444) → v' a = v a)) bad_number.
Proof.
  intros Hs. apply (for_at (λ _ w, ∀ a, ¬ (440 ≤ a < 444) → w a = v a) 4 0 _ v s Hs); [done|].
  intros j w t Hj Ht Hw. destruct (rand_run t) as (r & t1 & He & Hal & Hc). unfold or_cleanup, call. apply runs_bind.
  eapply runs_bind_Ok; [exact He|]. eapply runs_ret; [done|].
  eapply runs_mono; [by apply write_at; [by eapply going_alike|lia|cbn; lia]| |done].
  intros [[]|] t' Ht'; [|exact Ht']. eexists. split; [exact Ht'|]. intros a Ha. rewrite upd_out by (cbn; lia). auto.
Qed.

Lemma replace_gpt_at h lb es v s :
  lb ∈ [512; 4096] → (length es ≤ 4)%nat → Forall describable es → at_ v s →
  runs (replace_gpt h lb (part_of <$> es)) s (ends' (λ _ s', ∃ v', at_ v' s' ∧ converted h lb es v v')) bad_number.
Proof.
  intros Hlb Hn Hd Hs. pose proof (lb_range lb Hlb) as Hlr. unfold replace_gpt.
  destruct (event_run s) as (e & s1 & He & Hal & Hc). eapply runs_bind_Ok; [exact He|].
  apply (going_alike _ _ _ _ _ _ _ _ _ _ Hal Hc) in Hs. destruct e as [|k].
  2:{ destruct (perror_run "error: bios_install(): malloc()" s1) as (s2 & Hp & Hq). eapply runs_bind_Ok; [exact Hp|].
      eapply going_failed, at_quietly; [exact Hq|done]. }
  change (ENDSWAP 8 (alternate_lba h)) with (alternate_lba h).
  eapply ends_then; [by apply first_at|]. intros [] t1 (v1 & H1 & Hz & Hk).
  eapply ends_then; [by apply second_at|]. intros [] t2 (v2 & H2 & Hv2).
  eapply ends_then; [by apply rands_at|]. intros [] t3 (v3 & H3 & Hv3).
  assert (34 * 512 ≤ 34 * lb) by (apply list_elem_of_In in Hlb as [<-|[<-|[]]]; lia).
  assert (∀ a, 0 ≤ a < 34 * lb → v2 a = 0) as Hz2 by (intros a Ha; destruct (Hv2 a) as [->|[_ ?]]; auto).
  eapply ends_then; [apply (write_parts_at es 0 v3 t3 Hd); [lia|lia|done|]|].
  { intros a Ha. rewrite Hv3 by lia. apply Hz2. lia. }
  intros [] t4 (v4 & H4 & Hes & Hout). destruct (chat_run "Conversion successful.\n" t4) as (t5 & H5 & Hq).
  eapply runs_bind_Ok; [exact H5|]. exists v4. split; [by eapply at_quietly|]. split.
  - intros k e Hk'. by rewrite <-(Hes k e Hk').
  - intros a Ha. rewrite Hout, Hv3 by lia. apply Hz2. lia.
  - intros a Ha Hne. rewrite Hout, Hv3 by lia. by apply Hz2.
  - intros a Ha. rewrite Hout, Hv3 by lia. destruct (Hv2 a) as [->|?]; [left; by apply Hk|by right].
Qed.

(** The entries in use of the table [h] describes. *)
Definition partitions (w0 : Z → Z) (h : gpt_table_header) (lb : Z) : list gpt_entry :=
  used w0 h (partition_entry_lba h * lb) 0 (Z.to_nat (number_of_partition_entries h)).

(** [w] is [w0] after the conversion of a GPT with at most four partitions. *)
Definition conversion (w0 w : Z → Z) : Prop :=
  ∃ lb, lb ∈ [512; 4096] ∧
    let h := header_of (vbytes w0 lb 96) in let es := partitions w0 h lb in
    signature h = EFI_PART ∧ vbytes w0 32769 5 = chars "CD001" ∧ (length es ≤ 4)%nat ∧ Forall describable es ∧
    converted h lb es w0 w.

Lemma convert_at w0 h lb s :
  lb ∈ [512; 4096] → header_at (on_disk w0) h lb → at_ w0 s →
  runs (convert h lb) s (ends' (λ (gpt : bool) s', if gpt then at_ w0 s' else ∃ w, at_ w s' ∧ conversion w0 w)) bad_number.
Proof.
  intros Hlb (hb & [Hhl Hhb] & Hho & -> & Hsig) Hs. pose proof (lb_range lb Hlb) as Hlr.
  unfold on_disk in Hho. rewrite Hhl in Hho. set (h := header_of hb) in *.
  assert (h = header_of (vbytes w0 lb 96)) as Hh by (unfold h; by f_equal).
  unfold convert. eapply at_read; [done|lia|lia|]. clear s Hs. intros s Hs _. change (Z.to_nat 5) with 5%nat.
  destruct (bool_decide _) eqn:Ed; cbn [negb]; [|done]. apply bool_decide_eq_true in Ed.
  do 2 (eapply at_chat; [exact Hs|]; intros s' Hs' _; clear s Hs; rename s' into s, Hs' into Hs).
  change (ENDSWAP 8 (partition_entry_lba h)) with (partition_entry_lba h).
  change (ENDSWAP 4 (number_of_partition_entries h)) with (number_of_partition_entries h).
  destruct (mul_u64_overflow _ _) as [base over] eqn:E. destruct over; [done|].
  apply mul_overflow_false in E as [-> _]; [|apply (member_range hb 72 8 Hhb)|lia].
  eapply ends_then; [apply gather_at; [exact Hs|cbn; lia]|]. intros [ps|] t [Ht Hps]; [|done].
  destruct (Hps ps eq_refl) as (-> & Hl & Hf). cbn [app] in *. rewrite length_fmap in Hl.
  eapply ends_then; [by apply replace_gpt_at|]. intros [] t' (w & Hw & Hcv). exists w. split; [done|].
  exists lb. split; [done|]. cbv zeta. rewrite <-Hh. done.
Qed.

(** ** The whole installation *)

(** The table the stages are installed to: that of [v0], or its conversion. *)
Definition table (conv : bool) (w : Z → Z) : Prop := w = v0 ∨ conv = true ∧ conversion v0 w.

Lemma find_gpt_at o s :
  at_ v0 s →
  runs (find_gpt o) s (ends' (λ r s', match r with
    | Some (h, lb) => at_ v0 s' ∧ lb ∈ [512; 4096] ∧ header_at (on_disk v0) h lb
    | None => ∃ w, at_ w s' ∧ table (gpt2mbr_allowed o) w
    end)) bad_number.
Proof.
  intros Hs. unfold find_gpt. eapply ends_then.
  { apply (keeps_probe (at_ v0) failed' (on_disk v0)); eauto using going_alike, at_on_disk. repeat constructor; lia. }
  intros [[h lb]|] t [Ht Hg]; [|exists v0; by split; [|left]]. destruct (Hg h lb eq_refl) as [Hlb Hh].
  eapply ends_then.
  { apply (keeps_secondary (at_ v0) failed' (on_disk v0)); eauto using going_failed, going_alike, at_on_disk. }
  intros [] t1 [H1 _]. destruct (gpt2mbr_allowed o) eqn:Ha.
  - eapply ends_then; [by apply convert_at|]. intros [] t2 H2; [done|]. destruct H2 as (w & Hw & Hc).
    exists w. split; [done|]. right. by split.
  - by eapply runs_ret.
Qed.

(** Where stage 2 goes: behind the MBR, or to a partition of the GPT. *)
Definition stage2_area (w0 : Z → Z) (l : Z) : Prop :=
  (l = 512 ∧ ∀ base, base ∈ MBR_ENTRIES → entry_spared w0 base) ∨
  (w0 = v0 ∧ ∃ lb e, boot_partition v0 lb e ∧ l = starting_lba e * lb ∧ l + 32768 ≤ (ending_lba e + 1) * lb).

(** The bytes after an installation that was not forced. *)
Definition result (conv : bool) (img : list Z) (v : Z → Z) : Prop :=
  ∃ l w0 w, (∀ a, 0 ≤ a < L → v a = with_stages img l w a) ∧ (∀ a, a ≠ 446 → w a = w0 a) ∧ table conv w0 ∧ stage2_area w0 l.

Lemma installs_result img o s :
  512 < Z.of_nat (length img) < 2 ^ 63 → Forall (λ b, 0 ≤ b < 256) img → 512 ≤ L → force o = false → at_ v0 s →
  installs A n L v0 oth uf bsz (result (gpt2mbr_allowed o) img) img o s.
Proof.
  intros Hn Hi HL Hf Hs. unfold installs, install.
  apply (runs_mono _ _ (ends' (λ _ s', going A n L v0 oth uf bsz s' ∧
    ∃ v, written s' n L v ∧ result (gpt2mbr_allowed o) img v)) _ bad_number); [|by intros [[]|] t Ht|done].
  eapply ends_then; [by apply find_gpt_at|]. intros g s1 H1.
  eapply (ends_then _ _ (λ l s', ∃ w0 w, at_ w s' ∧ 0 ≤ l < 2 ^ 64 ∧ (∀ a, a ≠ 446 → w a = w0 a) ∧
    table (gpt2mbr_allowed o) w0 ∧ stage2_area w0 l)).
  - destruct g as [[h lb]|].
    + destruct H1 as (H1 & Hlb & Hh). eapply runs_mono; [by apply gpt_stage2_at| |done]. intros [l|] t Ht; [|exact Ht].
      destruct Ht as (Ht & e & Hb & Hl & He). exists v0, v0. split_and!; [done|lia|lia|done|by left|right]. split; [done|by exists lb, e].
    + destruct H1 as (w0 & H1 & Ht0). eapply runs_mono; [by apply mbr_stage2_at| |done]. intros [l|] t Ht; [|exact Ht].
      destruct Ht as ((v & Ht & Hv) & -> & He). exists w0, v. split_and!; [done|lia|lia|done|done|by left].
  - intros l t (w0 & w & Ht & Hl & Hw & Hta & Har).
    eapply runs_mono; [by apply (write_stages_at A n L v0 oth uf bsz img l w)| |done]. intros [[]|] t' Ht'; [|exact Ht'].
    destruct Ht' as [Hgo (v & Hv & He)]. split; [done|]. exists v. split; [done|]. by exists l, w0, w.
Qed.

End convert.
End LimineConvert.
