(* ===== verification/LimineProps.v ===== *)
(** * Correctness of [bios_install]

    Whatever calls of the host fail, an installation uses its memory correctly
    and releases it.  When none fails, an installation that fails leaves every
    file as it was, and one that succeeds can be undone. *)

From S2P Require Import Prelude Host Limine LimineFacts LimineUndo LimineInstall LimineSteps LimineJournal LimineStart LimineFile LimineRestore LimineStages LimineConvert.

Module LimineProps.
Import Host Limine LimineFacts LimineUndo LimineInstall LimineSteps LimineJournal LimineStart LimineFile LimineRestore
  LimineStages LimineConvert.

(** ** Memory *)

(** The tool while it installs: the blocks are those of the journal and [A]. *)
Definition owns (A : gmap Z block) (s : lim) : Prop :=
  env_ok s ∧ uninstalling s = false ∧ ∃ J, journal A s J.

Lemma install_owns A img o s :
  512 < Z.of_nat (length img) < 2 ^ 63 → owns A s → runs (install img o) s (λ _ s', owns A s') bad_number.
Proof.
  intros Hn Hs. eapply runs_mono; [eapply (keeps_install (owns A) (owns A) (λ _ _, True) (λ _ _, True)); try done| |done].
  - intros t t' Hal Hc (He & Hu & J & Hj). split; [by eapply alike_env|]. split; [by rewrite (al_un _ _ Hal)|].
    exists J. by eapply journal_core.
  - intros t l n (He & Hu & J & Hj) Hl Hc. destruct (tame_read l n Hc t He) as (r & t' & Hr & Hco & He' & Hb).
    exists r, t'. split; [done|]. assert (owns A t') as Ho.
    { split; [done|]. split; [by rewrite (core_un _ _ Hco)|]. exists J. by eapply journal_core. }
    destruct r; auto.
  - intros t l buf (He & Hu & J & Hj) Hl Hb _.
    destruct (device_write_run A t J buf l He Hj Hu Hl Hb) as (ok & t' & Hw & He' & Hf & Hend).
    exists ok, t'. split; [done|]. assert (∃ J', journal A t' J') as HJ.
    { destruct ok; [|by destruct Hend; eexists]. destruct Hend as (? & ? & ? & ? & ? & _ & _ & _ & _ & _ & _ & ?). by eexists. }
    assert (owns A t') by (split; [done|]; split; [by rewrite (fixed_un _ _ Hf)|done]). by destruct ok.
  - intros t (He & Hu & J & Hj). destruct (tame_flush t He) as (ok & t' & Hfl & Hc & He' & _). exists ok, t'.
    split; [done|]. assert (owns A t'); [|by destruct ok]. split; [done|].
    split; [by rewrite (core_un _ _ Hc)|]. exists J. by eapply journal_core.
  - intros r t' Ht. by destruct r as [[]|]; [destruct Ht|].
Qed.

Lemma install_or_undo_owns A img o s :
  512 < Z.of_nat (length img) < 2 ^ 63 → owns A s →
  runs (install_or_undo img o) s (λ _ s', ∃ J, journal A s' J) bad_number.
Proof.
  intros Hn Hs. unfold install_or_undo. apply runs_bind. eapply runs_mono; [by apply install_owns| |done].
  intros r t (He & Hu & J & Hj). cbn beta.
  destruct (reverse_run A t J Hj) as (t1 & Hr & Hj1 & Hal). eapply runs_bind_Ok; [exact Hr|].
  apply (alike_env _ _ Hal) in He. destruct r as [[]|].
  - eapply runs_bind_Ok; [reflexivity|]. destruct (uninstall_file t1) as [f|]; [|by eexists].
    destruct (store_tame A t1 _ f Hj1) as (b & t2 & Hst & Hj2). apply runs_bind. eapply runs_bind_Ok; [exact Hst|].
    eexists. exact Hj2.
  - edestruct print_run as (t2 & Hp & Hq). eapply runs_bind_Ok; [exact Hp|].
    destruct (uninstall_tame A t2 (reverse J) true) as (b & t3 & Hun & Hj3 & _).
    { eapply journal_core; [by apply quietly_core|done]. } { by eapply quietly_env. }
    eapply runs_bind_Ok; [exact Hun|]. eexists. exact Hj3.
Qed.

(** [bios_install] up to the probe of the device: it ends early with the files as
    they are, or it goes on with the options. *)
Lemma bios_install_runs img argv h (Q : Z → lim → Prop) F :
  "--uninstall" ∉ argv → (∀ c s, starting h s → Q c s) →
  (∀ o s st, starting h s → device s = Some st → said (drop 1 argv) (Opts false true false None) o →
     runs (ready ← device_init; code ← (if negb ready then mret EXIT_FAILURE else install_or_undo img o);
           release ;; mret code) s Q F) →
  runs (bios_install img argv) (lim_start h) Q F.
Proof.
  intros Hun HQ Hgo. unfold bios_install. destruct (_ <? _)%nat.
  { destruct (usage_run (lim_start h)) as (s' & He & Hq). eapply runs_bind_Ok; [exact He|].
    eapply HQ, starting_quietly; [exact Hq|apply starting_start]. }
  destruct (parse_run h (drop 1 argv) (Opts false true false None) _ (starting_start h)) as (r & s1 & He & Hs1 & Hr).
  eapply runs_bind_Ok; [exact He|]. destruct r as [c|o]; [by apply HQ|].
  eapply runs_bind_Ok; [reflexivity|]. destruct (device s1) eqn:Hd.
  2:{ edestruct print_run as (s2 & H2 & Q2). eapply runs_bind_Ok; [exact H2|].
      edestruct usage_run as (s3 & H3 & Q3). eapply runs_bind_Ok; [exact H3|].
      by eapply HQ, starting_quietly; [exact (quietly_trans _ _ _ Q2 Q3)|]. }
  assert (uninstall_mode o = false) as Ho; [|rewrite Ho; by eapply Hgo].
  apply (sd_uninstall _ _ _ Hr). intros Hin. apply Hun. destruct argv; [done|]. by right.
Qed.


(** ** Failure *)

(** C13 An installation is all or nothing.  When no call of the host fails and
    [bios_install] (without [--uninstall]) does not report success, for whatever
    reason, every file has the bytes it had: what had been written to the device
    is undone. *)
Theorem bios_install_all_or_nothing (img : list Z) (argv : list string) (h : host) :
  512 < Z.of_nat (length img) < 2 ^ 63 → "--uninstall" ∉ argv → faults h = [] →
  (∀ n f, files h !! n = Some f → 0 ≤ flen f < 2 ^ 63) →
  runs (bios_install img argv) (lim_start h)
    (λ code s', code ≠ EXIT_SUCCESS → ∀ n, same_file (files h !! n) (files (io s') !! n)) bad_number.
Proof.
  intros Hn Hun Hw HL. apply bios_install_runs; [done| |].
  { intros c s Hs _ n. rewrite (sg_files _ _ Hs). apply same_file_refl. }
  intros o s st Hs Hd _. destruct (sg_device _ _ Hs st Hd) as [_ [f Hf]].
  eapply runs_mono; [eapply (install_end (λ _, True)); eauto; intros; by apply install_going; [|eexists]| |done]. intros c s' Hc Hne. cbn beta in Hc.
  by rewrite (proj2 (Z.eqb_neq _ _) Hne) in Hc.
Qed.

(** ** Undoing an installation *)

Lemma undoable_storable A n L v0 oth uf bsz s J :
  undoable A n L v0 oth uf bsz s J → Forall storable (reverse J).
Proof.
  intros []. apply Forall_forall. intros r Hr. pose proof (jn_entries _ _ _ ub_journal0) as Hen.
  apply list_elem_of_lookup in Hr as Hr'. destruct Hr' as [i Hi].
  destruct (Forall2_lookup_r _ _ _ _ _ (en_ok _ _ _ _ Hen) Hi) as (u & _ & _ & Hl & _ & Hb & _).
  rewrite reverse_Permutation in Hr. unfold all_fit in ub_fit0. rewrite Forall_forall in ub_fit0, ub_some0.
  destruct ub_written0 as [_ _ Hm _ _ Hbs]. pose proof (Z.mul_div_le L (block_size s) ltac:(lia)).
  pose proof (ub_some0 r Hr) as Hne. destruct (ub_fit0 r Hr) as [H0|Hfit].
  - destruct r as [l [|b bs]]; [done|]. cbn in H0. lia.
  - split_and!; try done; lia.
Qed.

(** The arguments of the two runs. *)
Lemma parse_uninstall args o s :
  uninstall_mode o = false →
  parse_args ("--uninstall" :: args) o s = parse_args args (Opts (force o) (gpt2mbr_allowed o) true (part_ndx o)) s.
Proof. intros H. cbn [parse_args String.eqb Ascii.eqb Bool.eqb orb]. by rewrite H. Qed.

Lemma uninstall_args h dev u :
  faults h = [] → is_Some (files h !! dev) → plain dev = true → u ≠ "" →
  ∃ s, parse_args [dev; "--uninstall"; UNINSTALL_FILE_ARG +:+ u] (Opts false true false None) (lim_start h) =
      Ok (inr (Opts false true true None)) s ∧
    starting h s ∧ device s = Some (Stream dev 0 false) ∧ uninstall_file s = Some u.
Proof.
  intros Hw [f Hf] Hd Hu. rewrite parse_plain by done.
  erewrite bind_Ok_eq by (rewrite (positional_device h), Hf by (done || apply starting_start); reflexivity).
  cbv iota beta. rewrite parse_uninstall by done.
  rewrite parse_file by done. eexists. split; [reflexivity|]. split_and!; [|done|done].
  split; try done. intros st [= <-]. by split; [|exists f].
Qed.

Lemma install_args h dev u args :
  faults h = [] → plain dev = true → u ≠ "" → forallb further args = true →
  ∃ r s, parse_args (dev :: (UNINSTALL_FILE_ARG +:+ u) :: args) (Opts false true false None) (lim_start h) = Ok r s ∧
    if files h !! dev is Some _ then ∃ o, r = inr o ∧ uninstall_mode o = false ∧
      starting h s ∧ device s = Some (Stream dev 0 false) ∧ uninstall_file s = Some u
    else r = inl EXIT_FAILURE.
Proof.
  intros Hw Hd Hu Hfl. rewrite parse_plain by done. destruct (files h !! dev) as [f|] eqn:Hf.
  - erewrite bind_Ok_eq by (rewrite (positional_device h), Hf by (done || apply starting_start); reflexivity).
    cbv iota beta. rewrite parse_file by done.
    match goal with |- context [parse_args args ?o ?s] =>
      destruct (parse_further h args o s) as (o' & s' & He & Hs & Hde & Hfi & Ho); [done| |by eexists|] end.
    { split; try done. intros st [= <-]. by split; [|exists f]. }
    exists (inr o'), s'. split; [exact He|]. by exists o'.
  - edestruct perror_run as (s' & He & _). erewrite bind_Ok_eq.
    2:{ rewrite (positional_device h), Hf by (done || apply starting_start). erewrite bind_Ok_eq by exact He. reflexivity. }
    by eexists _, s'.
Qed.

(** The second run: [h1] is the host the first run left. *)
Lemma uninstall_mode_run A h h1 t J dev u g img f :
  undoable A dev (flen f) (ld8 (fdata f)) (delete dev (files h)) (Some u) 512 t J →
  files h !! dev = Some f → dev ≠ u → plain dev = true → u ≠ "" → 512 ≤ flen f →
  files h1 = <[u := g]> (files (io t)) → faults h1 = [] → file_is g (encode (reverse J)) →
  ∃ s2, bios_install img ["bios-install"; dev; "--uninstall"; UNINSTALL_FILE_ARG +:+ u] (lim_start h1) = Ok EXIT_SUCCESS s2 ∧
    ∀ m, m ≠ u → same_file (files h !! m) (files (io s2) !! m).
Proof.
  intros Hub Hf Hne Hpl Hu HL Hf1 Hw1 Hg.
  destruct (ub_written _ _ _ _ _ _ _ _ _ Hub) as [(st & Hst & Hsn) (f' & Hf' & Hl' & Hv') Hm' _ _ _].
  assert (files h1 !! dev = Some f') as Hf1' by (by rewrite Hf1, lookup_insert_ne).
  destruct (uninstall_args h1 dev u Hw1 ltac:(by eexists) Hpl Hu) as (sa & Ha & Hsa & Hda & Hua).
  destruct (init_shows h1 sa _ f' Hsa Hw1 Hda Hf1' ltac:(lia)) as (b & sb & Hb & Hfb & Hwb & Hub' & Hob & Hsb & -> & Hbb).
  destruct (init_run h1 sa Hsa ltac:(by rewrite Hda)) as (b' & sb' & Hb' & Hjb & _ & _).
  rewrite Hb in Hb'. injection Hb' as <- <-. rewrite (proj2 (Z.leb_le _ _)) in Hb, Hsb, Hbb by lia.
  specialize (Hsb eq_refl). specialize (Hbb eq_refl). cbn [sname] in *. rewrite Hl' in Hsb.
  destruct (load_undo_run (allocs h1) sb (reverse J) u g) as (sc & Hc & Hjc & Halc);
    [split; apply Hjb|apply Hjb|by eapply jn_max, Hub|by eapply undoable_storable|done|by rewrite Hfb, Hf1, lookup_insert_eq|done|].
  apply (showing_raw dev (flen f) sb _), (alike_written _ _ _ _ _ Halc) in Hsb as Hwc.
  destruct (uninstall_run (allocs h1) sc (reverse J) false dev (flen f) _ Hjc Hwc) as (sd & Hd & Hjd & Hwd & Hod).
  { unfold all_fit. rewrite reverse_Permutation. eapply Forall_impl; [apply (ub_fit _ _ _ _ _ _ _ _ _ Hub)|]. intros r.
    unfold fits. by rewrite (al_bs _ _ Halc), Hbb, (ub_bs _ _ _ _ _ _ _ _ _ Hub). }
  destruct (release_run _ _ _ Hjd) as (se & He & _ & Hfe & _).
  exists se. split.
  - unfold bios_install. cbn [length Nat.ltb Nat.leb drop]. erewrite bind_Ok_eq by exact Ha. cbv iota beta.
    erewrite bind_Ok_eq by reflexivity. rewrite Hda. erewrite bind_Ok_eq by exact Hb. cbn [negb uninstall_mode].
    erewrite bind_Ok_eq.
    2:{ unfold run_uninstall. erewrite bind_Ok_eq by reflexivity. rewrite Hub', Hua. erewrite bind_Ok_eq by exact Hc.
        cbn [negb]. erewrite bind_Ok_eq by exact Hd. reflexivity. }
    erewrite bind_Ok_eq by exact He. reflexivity.
  - intros m Hm. rewrite Hfe. assert (files h !! m = files (set_files (<[u := g]> (files h)) h) !! m) as ->
      by (cbn; by rewrite lookup_insert_ne). apply (written_same _ sd dev f); cbn.
    + by rewrite lookup_insert_ne.
    + eapply written_ext; [|exact Hwd]. apply (ub_undoes _ _ _ _ _ _ _ _ _ Hub).
      intros a Ha0 Hna. rewrite <-(ub_agrees _ _ _ _ _ _ _ _ _ Hub a Ha0 Hna). unfold raw. by rewrite Hfb, Hf1', Hf'.
    + rewrite Hod. unfold others at 1. rewrite (al_device _ _ Halc), (al_files _ _ Halc). fold (others sb).
      rewrite Hob, Hf1, !delete_insert_ne by done. f_equal. rewrite <-(ub_others _ _ _ _ _ _ _ _ _ Hub).
      unfold others. by rewrite Hst, Hsn.
Qed.

(** C12 An installation can be undone.  When no call of the host fails and
    [bios-install <dev> --uninstall-data-file=<u>] (with any flags and partition) reports success,
    then [bios-install <dev> --uninstall --uninstall-data-file=<u>], run on what
    the first left, reports success and gives every file but [<u>] the bytes it
    had before the installation. *)
Theorem bios_install_roundtrip (img : list Z) (dev u : string) (args : list string) (h : host) :
  512 < Z.of_nat (length img) < 2 ^ 63 → faults h = [] → (∀ n f, files h !! n = Some f → 0 ≤ flen f < 2 ^ 63) →
  plain dev = true → u ≠ "" → dev ≠ u → forallb further args = true →
  runs (bios_install img ("bios-install" :: dev :: (UNINSTALL_FILE_ARG +:+ u) :: args)) (lim_start h)
    (λ code s1, code = EXIT_SUCCESS →
      ∃ s2, bios_install img ["bios-install"; dev; "--uninstall"; UNINSTALL_FILE_ARG +:+ u] (lim_start (io s1)) = Ok EXIT_SUCCESS s2 ∧
        ∀ m, m ≠ u → same_file (files h !! m) (files (io s2) !! m)) bad_number.
Proof.
  intros Hn Hw HL Hpl Hu Hne Hfl. destruct (install_args h dev u args Hw Hpl Hu Hfl) as (r & s & He & Hr).
  unfold bios_install at 1. cbn [length Nat.ltb Nat.leb drop]. eapply runs_bind_Ok; [exact He|].
  destruct (files h !! dev) as [f|] eqn:Hf; [|subst r; by intros [=]].
  destruct Hr as (o & -> & Ho & Hs & Hd & Huf). eapply runs_bind_Ok; [reflexivity|]. rewrite Hd, Ho.
  eapply runs_mono; [eapply (install_end (λ _, True)); eauto; intros; by apply install_going; [|eexists]| |done]. intros code s1 Hc ->. cbn beta in Hc. rewrite Z.eqb_refl, Huf in Hc.
  destruct Hc as (t & J & _ & s3 & _ & _ & Hub & [b Hst] & Hf3 & Hw3 & H512). cbn [sname] in *.
  destruct (store_undo_run _ t (reverse J) u (ub_journal _ _ _ _ _ _ _ _ _ Hub)) as (s3' & g & Hst' & [x ->] & Hg).
  { rewrite reverse_Permutation. apply (ub_some _ _ _ _ _ _ _ _ _ Hub). } { by destruct (ub_written _ _ _ _ _ _ _ _ _ Hub). }
  rewrite Hst in Hst'. injection Hst' as -> ->. eapply (uninstall_mode_run _ _ (io s1)); try done; [exact Hf3|].
  apply Hw3. by destruct (ub_written _ _ _ _ _ _ _ _ _ Hub).
Qed.

(** ** The bytes of the device *)

Lemma device_args h dev args f :
  faults h = [] → files h !! dev = Some f → plain dev = true → forallb further args = true →
  ∃ o s, parse_args (dev :: args) (Opts false true false None) (lim_start h) = Ok (inr o) s ∧
    said (dev :: args) (Opts false true false None) o ∧ uninstall_mode o = false ∧
    starting h s ∧ device s = Some (Stream dev 0 false) ∧ uninstall_file s = None.
Proof.
  intros Hw Hf Hpl Hfu. destruct (parse_run h (dev :: args) (Opts false true false None) _ (starting_start h)) as (r & s & He & Hs & Hr).
  rewrite parse_plain in He by done. erewrite bind_Ok_eq in He by (rewrite (positional_device h), Hf by (done || apply starting_start); reflexivity).
  destruct (parse_further h args (Opts false true false None) (set_device (Some (Stream dev 0 false)) (lim_start h)) Hfu)
    as (o & s' & He' & Hs' & Hd & Hu & Ho).
  { split; try done. intros st [= <-]. by split; [|exists f]. } { by eexists. }
  cbv iota beta in He. rewrite He' in He. injection He as <- <-. exists o, s'. split_and!; try done.
  rewrite parse_plain by done. erewrite bind_Ok_eq by (rewrite (positional_device h), Hf by (done || apply starting_start); reflexivity).
  exact He'.
Qed.

Lemma bios_install_result img dev args h f :
  512 < Z.of_nat (length img) < 2 ^ 63 → Forall (λ b, 0 ≤ b < 256) img → faults h = [] →
  files h !! dev = Some f → 0 ≤ flen f < 2 ^ 63 → plain dev = true → forallb further args = true → "--force" ∉ args →
  runs (bios_install img ("bios-install" :: dev :: args)) (lim_start h)
    (λ code s', code = EXIT_SUCCESS →
      ∃ g, files (io s') = <[dev := g]> (files h) ∧ flen g = flen f ∧
        result (flen f) (ld8 (fdata f)) (bool_decide (NO_CONVERSION ∉ args)) img (ld8 (fdata g))) bad_number.
Proof.
  intros Hn Hi Hw Hf HL Hpl Hfu Hfo. destruct (device_args h dev args f Hw Hf Hpl Hfu) as (o & s & He & Hsa & Ho & Hs & Hd & Huf).
  unfold bios_install. cbn [length Nat.ltb Nat.leb drop]. eapply runs_bind_Ok; [exact He|].
  eapply runs_bind_Ok; [reflexivity|]. rewrite Hd, Ho.
  assert (force o = false) as Hfo'.
  { apply (sd_force _ _ _ Hsa). apply not_elem_of_cons. split; [|done]. intros <-. done. }
  eapply runs_mono; [eapply (install_end (result (flen f) (ld8 (fdata f)) (gpt2mbr_allowed o) img) h s _ f img o Hs Hw Hd Hf HL)| |done].
  { intros t Ht H512. by apply installs_result. }
  intros code s1 Hc ->. cbn beta in Hc. rewrite Z.eqb_refl, Huf in Hc.
  destruct Hc as (t & J & v & s3 & [(st & Hst & Hsn) (g & Hg & Hl & Hv) _ _ _ _] & HC & Hub & -> & Hf3 & _ & H512). cbn [sname] in *.
  exists g. split_and!; [|done|].
  - pose proof (ub_others _ _ _ _ _ _ _ _ _ Hub) as Ho'. unfold others in Ho'. rewrite Hst, Hsn in Ho'.
    by rewrite Hf3, <-(insert_delete_id _ _ _ Hg), Ho', insert_delete_eq.
  - destruct HC as (l & w0 & w & Hvw & Hww & Ht & Har). exists l, w0, w. split_and!; try done.
    + intros a Ha. by rewrite <-Hvw, Hv.
    + destruct Ht as [->|[Ha Ht]]; [by left|]. right. split; [|done]. apply bool_decide_eq_true. intros Hin.
      rewrite (sd_convert _ _ _ Hsa) in Ha; [done|]. left. by right.
Qed.

(** C11 What an installation writes.  When no call of the host fails,
    [bios-install <dev> ...] without [--force] and without a file for the undo
    data changes no other file, and when it reports success the device holds:
    the first stage in its first sector around the time stamp and the partition
    table that were there, the place of stage 2 at 0x1a4, stage 2 at that place,
    which is sector 1 of a device whose partitions all start at sector 63 or
    later or the start of a partition of the boot type of its GPT, and its own
    bytes everywhere else, but for the active flag of the first partition.  On an
    ISO image the partition table may be the MBR made of its GPT. *)
Theorem bios_install_contents (img : list Z) (dev : string) (args : list string) (h : host) (f : file) :
  512 < Z.of_nat (length img) < 2 ^ 63 → Forall (λ b, 0 ≤ b < 256) img → faults h = [] →
  files h !! dev = Some f → 0 ≤ flen f < 2 ^ 63 → plain dev = true → forallb further args = true → "--force" ∉ args →
  runs (bios_install img ("bios-install" :: dev :: args)) (lim_start h)
    (λ code s', code = EXIT_SUCCESS →
      ∃ g, files (io s') = <[dev := g]> (files h) ∧ flen g = flen f ∧
        result (flen f) (ld8 (fdata f)) (bool_decide (NO_CONVERSION ∉ args)) img (ld8 (fdata g))) bad_number.
Proof. apply bios_install_result. Qed.

(** C19 An installation spares the partitions.  When no call of the host fails and
    [bios-install <dev> ...] without [--force] succeeds on a device whose GPT is not
    converted, every byte that changes lies before the partition table, is the
    active flag of the first partition, is in the boot signature, lies in the
    first 63 sectors of a device on which every MBR partition starts at sector 63 or
    later, or lies inside a partition of the boot type of the device's GPT. *)
Theorem bios_install_spares_partitions (img : list Z) (dev : string) (args : list string) (h : host) (f : file) :
  512 < Z.of_nat (length img) ≤ 63 * 512 → Forall (λ b, 0 ≤ b < 256) img → faults h = [] →
  files h !! dev = Some f → 0 ≤ flen f < 2 ^ 63 → plain dev = true → forallb further args = true → "--force" ∉ args →
  NO_CONVERSION ∈ args ∨ vbytes (ld8 (fdata f)) 32769 5 ≠ chars "CD001" →
  runs (bios_install img ("bios-install" :: dev :: args)) (lim_start h)
    (λ code s', code = EXIT_SUCCESS → ∃ g, files (io s') !! dev = Some g ∧ flen g = flen f ∧
      ∀ a, 0 ≤ a < flen f → ld8 (fdata g) a ≠ ld8 (fdata f) a →
        a < 440 ∨ a = 446 ∨ 510 ≤ a < 512 ∨
        512 ≤ a < 63 * 512 ∧ (∀ base, base ∈ MBR_ENTRIES → entry_spared (ld8 (fdata f)) base) ∨
        ∃ lb e, boot_partition (ld8 (fdata f)) lb e ∧ starting_lba e * lb ≤ a < (ending_lba e + 1) * lb) bad_number.
Proof.
  intros Hn Hi Hw Hf HL Hpl Hfu Hfo Hnc.
  eapply runs_mono; [apply (bios_install_result img dev args h f); (done || lia)| |done]. intros code s' Hc Hok.
  destruct (Hc Hok) as (g & Hg & Hlen & l & w0 & w & Hv & Hw0 & Ht & Har). exists g.
  split_and!; [by rewrite Hg, lookup_insert_eq|done|]. intros a Ha Hne.
  assert (w0 = ld8 (fdata f)) as ->.
  { destruct Ht as [?|[Hcv (lb & _ & _ & Hcd & _)]]; [done|]. apply bool_decide_eq_true in Hcv. by destruct Hnc. }
  destruct (decide (a = 446)) as [|H446]; [by right; left|]. rewrite Hv in Hne by done. unfold with_stages in Hne.
  destruct (_ || _) eqn:E1; [by rewrite (Hw0 a H446) in Hne|].
  destruct (decide (a < 512)); [zify_bools; lia|]. do 3 right.
  destruct ((0x1a4 <=? a) && _) eqn:E2; [zify_bools; lia|]. destruct ((l <=? a) && _) eqn:E3; zify_bools.
  - destruct Har as [[-> Hsp]|[_ (lb & e & Hb & -> & He)]]; [left; split; [lia|done]|right; exists lb, e; split; [done|lia]].
  - destruct (Z.ltb_spec a 512); [lia|]. by rewrite (Hw0 a H446) in Hne.
Qed.

End LimineProps.
