(* ===== verification/LimineEnroll.v ===== *)
(** * Correctness of [enroll_config]

    The search of the installer finds the first place of the signature that is
    far enough from the end of the executable, and the command replaces the 128
    bytes after it and nothing else. *)

From S2P Require Import Prelude Host Limine LimineFacts LimineUndo LimineInstall LimineJournal LimineTool.

Module LimineEnroll.
Import Host Limine LimineFacts LimineUndo LimineInstall LimineJournal LimineTool.

(** ** The search *)

(** The signature is at [p]. *)
Definition matches (b : list Z) (p : nat) : bool := bool_decide (take 26 (drop p b) = CONFIG_B2SUM_SIGNATURE).

(** The byte after the first signature at [p], ..., [p + n - 1]. *)
Fixpoint first_from (b : list Z) (p n : nat) : option Z :=
  match n with
  | O => None
  | S n => if matches b p then Some (Z.of_nat p + 26) else first_from b (S p) n
  end.

(** The first signature that at least 153 bytes follow. *)
Definition first_place (b : list Z) : option Z := first_from b 0 (length b - 178).

Lemma matches_iff b p :
  matches b p = true ↔ ∀ k, (k < 26)%nat → b !! (p + k)%nat = CONFIG_B2SUM_SIGNATURE !! k.
Proof.
  unfold matches. rewrite bool_decide_eq_true. split.
  - intros H k Hk. by rewrite <-H, lookup_take_lt, lookup_drop by done.
  - intros H. apply list_eq. intros k. destruct (decide (k < 26)%nat).
    + by rewrite lookup_take_lt, lookup_drop, H by done.
    + rewrite !lookup_ge_None_2; [done| |rewrite length_take; lia]. change (length CONFIG_B2SUM_SIGNATURE) with 26%nat. lia.
Qed.

(** The loop with [c] bytes of a match that starts at [p]. *)
Lemma search_loop_run (fuel : nat) b (p c : nat) s :
  26 * (Z.of_nat (length b) - 153 - Z.of_nat p) - Z.of_nat c + 1 ≤ Z.of_nat fuel → (0 < fuel)%nat → (c ≤ 25)%nat →
  (∀ k, (k < c)%nat → b !! (p + k)%nat = CONFIG_B2SUM_SIGNATURE !! k) →
  search_loop fuel b (Z.of_nat p + Z.of_nat c) (Z.of_nat c) s = Ok (first_from b p (length b - 178 - p)) s.
Proof.
  revert p c. induction fuel as [|fuel IH]; intros p c Hf H0 Hc Hm; [lia|]. cbn [search_loop]. unfold min_size, SIG_LEN.
  destruct (Z.leb_spec (Z.of_nat (length b) - (26 + 128) + 1) (Z.of_nat p + Z.of_nat c)).
  { by replace (length b - 178 - p)%nat with O by lia. }
  replace (Z.to_nat (Z.of_nat p + Z.of_nat c)) with (p + c)%nat by lia. rewrite Nat2Z.id.
  assert (∀ fuel', 26 * (Z.of_nat (length b) - 153 - Z.of_nat (S p)) + 1 ≤ Z.of_nat fuel' → (0 < fuel')%nat → fuel' = fuel →
    matches b p = false →
    search_loop fuel' b (Z.of_nat (S p) + Z.of_nat 0) (Z.of_nat 0) s = Ok (first_from b p (length b - 178 - p)) s) as Hnext.
  { intros fuel' Hf' H0' -> Hp. rewrite IH; [|lia|lia|lia|lia]. destruct (length b - 178 - p)%nat as [|n] eqn:En.
    - by replace (length b - 178 - S p)%nat with O by lia.
    - cbn [first_from]. rewrite Hp. by replace (length b - 178 - S p)%nat with n by lia. }
  destruct (bool_decide _) eqn:Ed; cbn [negb].
  - apply bool_decide_eq_true in Ed. destruct (Z.eqb_spec (Z.of_nat c + 1) 26).
    + destruct (length b - 178 - p)%nat as [|n] eqn:En; [lia|]. cbn [first_from].
      rewrite (proj2 (matches_iff b p)); [do 2 f_equal; lia|]. intros k Hk. destruct (decide (k = c)) as [->|]; [done|apply Hm; lia].
    + replace (Z.of_nat p + Z.of_nat c + 1) with (Z.of_nat p + Z.of_nat (S c)) by lia.
      replace (Z.of_nat c + 1) with (Z.of_nat (S c)) by lia. apply IH; [lia|lia|lia|].
      intros k Hk. destruct (decide (k = c)) as [->|]; [done|apply Hm; lia].
  - apply bool_decide_eq_false in Ed. assert (matches b p = false) as Hp.
    { apply not_true_iff_false. rewrite matches_iff. intros H'. apply Ed, H'. lia. }
    assert (∀ j, j = Z.of_nat (S p) + Z.of_nat 0 → search_loop fuel b j 0 s = Ok (first_from b p (length b - 178 - p)) s) as Hgo
      by (intros j ->; apply Hnext; (done || lia)).
    destruct (Z.ltb_spec 0 (Z.of_nat c)); apply Hgo; lia.
Qed.

Lemma enroll_search_run b s : enroll_search b s = Ok (first_place b) s.
Proof.
  unfold enroll_search, first_place. rewrite <-(Nat.sub_0_r (length b - 178)). apply (search_loop_run _ b 0 0); [lia|lia|lia|lia].
Qed.

Lemma first_from_range b p n i : first_from b p n = Some i → Z.of_nat p + 26 ≤ i < Z.of_nat (p + n) + 26.
Proof.
  revert p. induction n as [|n IH]; intros p; cbn [first_from]; [done|]. destruct (matches b p); [intros [= <-]; lia|].
  intros H%IH. lia.
Qed.

Lemma first_from_Some b p n i :
  first_from b p n = Some i → ∃ r, i = Z.of_nat r + 26 ∧ (p ≤ r)%nat ∧ matches b r = true ∧ ∀ q, (p ≤ q < r)%nat → matches b q = false.
Proof.
  revert p. induction n as [|n IH]; intros p; cbn [first_from]; [done|]. destruct (matches b p) eqn:Em.
  - intros [= <-]. exists p. split_and!; [done|lia|done|lia].
  - intros (r & -> & Hr & Hm & Hq)%IH. exists r. split_and!; [done|lia|done|]. intros q Hlt.
    destruct (decide (q = p)) as [->|]; [done|apply Hq; lia].
Qed.

Lemma first_from_None b p n : first_from b p n = None → ∀ q, (p ≤ q < p + n)%nat → matches b q = false.
Proof.
  revert p. induction n as [|n IH]; intros p; cbn [first_from]; [lia|]. destruct (matches b p) eqn:Em; [done|].
  intros H q Hq. destruct (decide (q = p)) as [->|]; [done|]. apply (IH (S p)); [done|lia].
Qed.

(** ** The command *)

Definition file_bytes (f : file) : list Z := ld_bytes (Z.to_nat (flen f)) (fdata f) 0.

Lemma length_splice b i x : 0 ≤ i → i + Z.of_nat (length x) ≤ Z.of_nat (length b) → length (splice b i x) = length b.
Proof. intros H0 H. unfold splice. rewrite !length_app, length_take, length_drop. lia. Qed.

Lemma chars_bytes x : Forall (λ b, 0 ≤ b < 256) (chars x).
Proof.
  induction x as [|c x IH]; cbn; constructor; [|done]. pose proof (Ascii.nat_ascii_bounded c). lia.
Qed.

Lemma enroll_patch_run st b sum q s f :
  faults (io s) = [] → files (io s) !! sname st = Some f → b = file_bytes f → 0 ≤ flen f < 2 ^ 63 → length sum = 128%nat →
  Forall (λ c, 0 ≤ c < 256) sum →
  ∃ s', enroll_patch st b (Some sum) q s = Ok (if first_place b is Some _ then EXIT_SUCCESS else EXIT_FAILURE) s' ∧
    allocs (io s') = allocs (io s) ∧ faults (io s') = [] ∧
    match first_place b with
    | Some i => ∃ g, files (io s') = <[sname st := g]> (files (io s)) ∧ file_bytes g = splice b i sum
    | None => files (io s') = files (io s)
    end.
Proof.
  intros Hw Hf Hb HL Hn Hs. unfold enroll_patch. erewrite bind_Ok_eq by apply enroll_search_run.
  destruct (first_place b) as [i|] eqn:Hp.
  2:{ unfold fails_with. edestruct print_run as (s' & He & [o ->]). erewrite bind_Ok_eq by exact He. eexists. by split_and!. }
  assert (length b = Z.to_nat (flen f)) as Hlb by (rewrite Hb; apply length_ld_bytes).
  apply first_from_range in Hp. erewrite bind_Ok_eq by (apply lifti_Ok, fseek_works; [done|lia]). cbn [fst snd negb Z.eqb].
  assert (length (splice b i sum) = length b) as Hls by (apply length_splice; lia).
  erewrite bind_Ok_eq by (apply lifti_Ok, fwrite_works; [done|]; intros E; rewrite E in Hls; cbn in Hls; lia).
  cbn [fst snd negb Z.eqb Pos.eqb].
  edestruct (perhaps (negb q)) as (s' & He & [o ->]); [apply (print_run "Config file BLAKE2B successfully %s.\n")|].
  erewrite bind_Ok_eq; [|destruct q; exact He]. eexists. split; [reflexivity|]. cbn. split_and!; [done|done|].
  eexists. split; [reflexivity|]. unfold file_bytes, file_of. cbn. rewrite Hf. cbn.
  rewrite Hls, Hlb, Z2Nat.id, Z.max_id by lia. rewrite Z.add_0_l, <-Hlb, <-Hls. apply ld_bytes_st_bytes.
  unfold splice. rewrite Hb. apply Forall_app. split; [apply Forall_take, ld_bytes_range|].
  apply Forall_app. split; [done|apply Forall_drop, ld_bytes_range].
Qed.

Lemma first_place_short b : (length b < 154)%nat → first_place b = None.
Proof. intros H. unfold first_place. by replace (length b - 178)%nat with O by lia. Qed.

(** What the command does to the file [name] with the bytes of [f]. *)
Definition enrolled (name : string) (f : file) (sum : list Z) (s : lim) (code : Z) (s' : lim) : Prop :=
  allocs (io s') = allocs (io s) ∧
  match first_place (file_bytes f) with
  | Some i => code = EXIT_SUCCESS ∧
      ∃ g, files (io s') = <[name := g]> (files (io s)) ∧ file_bytes g = splice (file_bytes f) i sum
  | None => code = EXIT_FAILURE ∧ files (io s') = files (io s)
  end.

Lemma enroll_file_run st sum q s f :
  faults (io s) = [] → files (io s) !! sname st = Some f → 0 ≤ flen f < 2 ^ 63 → length sum = 128%nat →
  Forall (λ c, 0 ≤ c < 256) sum →
  ∃ code s', enroll_file st (Some sum) q s = Ok code s' ∧ enrolled (sname st) f sum s code s'.
Proof.
  intros Hw Hf HL Hn Hs. unfold enroll_file, enrolled. set (L := flen f) in *.
  assert (lifti (fseek_end st) s = Ok (0, Stream (sname st) L (serr st)) s) as H1.
  { rewrite (lifti_Ok _ _ (0, Stream (sname st) L (serr st)) (io s)); [by destruct s|].
    unfold fseek_end, file_of. by rewrite next_event_works, Hf. }
  erewrite bind_Ok_eq by exact H1. cbn [fst snd negb Z.eqb].
  assert (lifti (ftell (Stream (sname st) L (serr st))) s = Ok L s) as H2.
  { rewrite (lifti_Ok _ _ L (io s)); [by destruct s|]. unfold ftell. by rewrite next_event_works. }
  erewrite bind_Ok_eq by exact H2. rewrite (proj2 (Z.ltb_ge _ _)) by lia.
  assert (length (file_bytes f) = Z.to_nat L) as Hlb by apply length_ld_bytes.
  destruct (Z.ltb_spec L min_size) as [Hsm|Hsm]; unfold min_size, SIG_LEN in Hsm.
  { rewrite first_place_short by lia. unfold fails_with. edestruct print_run as (s' & He & [o ->]).
    erewrite bind_Ok_eq by exact He. by eexists _, _. }
  destruct (malloc_run L (io s) ltac:(lia)) as (p & h & Hm & Hfh & Hfa & Hpp).
  destruct (Hfa Hw) as [Hwh Hp0]. destruct Hpp as [[? _]|(_ & Hpn & Hah)]; [done|].
  erewrite bind_Ok_eq by (apply lifti_Ok; exact Hm). rewrite (proj2 (Z.eqb_neq p 0)) by done. cbn [rewind sname].
  set (s1 := set_io h s).
  assert (lifti (fread (Stream (sname st) 0 false) L) s1 = Ok (1, file_bytes f, Stream (sname st) L false) s1) as H3.
  { rewrite (lifti_Ok _ _ (1, file_bytes f, Stream (sname st) L false) h); [done|].
    rewrite (fread_works _ L f h Hwh); [|cbn; by rewrite Hfh|done|lia]. cbn [spos sname serr]. fold L. rewrite Z.sub_0_r, Z.min_id, Z.max_r by lia.
    rewrite (proj2 (Z.ltb_lt 0 L)), Z.eqb_refl by lia. done. }
  erewrite bind_Ok_eq by exact H3. cbn [fst snd negb Z.eqb Pos.eqb].
  set (h2 := set_allocs (<[p := Block L (file_bytes f)]> (allocs h)) h).
  erewrite (bind_Ok_eq (lifti (fill p (file_bytes f)))).
  2:{ apply lifti_Ok. unfold fill. cbn [io s1 set_io]. rewrite Hah, lookup_insert_eq. cbn [bsize].
      rewrite Hlb, Z2Nat.id, Z.ltb_irrefl by lia. rewrite <-Hah. reflexivity. }
  fold h2. set (s2 := set_io h2 s1).
  destruct (enroll_patch_run (Stream (sname st) L false) (file_bytes f) sum q s2 f) as (s3 & He & Ha3 & Hw3 & Hf3);
    [done|cbn; by rewrite Hfh|done|done|done|done|].
  erewrite bind_Ok_eq.
  2:{ erewrite bind_Ok_eq; [exact He|]. rewrite (lifti_Ok _ s2 (file_bytes f) h2); [done|]. unfold deref. cbn [io s2 set_io h2 allocs set_allocs].
      rewrite lookup_insert_eq. cbn [bdata]. rewrite Hlb, Z2Nat.id, Z.ltb_irrefl by lia. rewrite <-Hlb, firstn_all. done. }
  erewrite (bind_Ok_eq (lifti (free p))); [|eapply free_run; [rewrite Ha3; cbn; apply lookup_insert_eq|done]].
  eexists _, _. split; [reflexivity|]. cbn [io set_io allocs files set_allocs]. rewrite Ha3. cbn [io s2 set_io h2 allocs set_allocs].
  split; [by rewrite delete_insert_eq, Hah, delete_insert_id|].
  destruct (first_place (file_bytes f)); cbn in Hf3; rewrite Hfh in Hf3; done.
Qed.

(** An argument that is no option. *)
Definition ordinary (arg : string) : bool :=
  negb (existsb (String.eqb arg) ["--help"; "-h"; "--quiet"; "--reset"]).

Lemma ordinary_long arg : (7 < String.length arg)%nat → ordinary arg = true.
Proof.
  intros H. unfold ordinary. apply negb_true_iff. cbn [existsb].
  repeat (rewrite (proj2 (String.eqb_neq arg _)); [|intros ->; cbn in H; lia]). done.
Qed.

Lemma enroll_args_plain fuel i arg argv q r :
  argv !! i = Some arg → ordinary arg = true → enroll_args (S fuel) i argv q r = enroll_args fuel (S i) argv q r.
Proof.
  intros Hi H. unfold ordinary in H. apply negb_true_iff in H. cbn [existsb] in H.
  repeat (apply orb_false_iff in H as [? H]). cbn [enroll_args]. rewrite Hi.
  by repeat match goal with H : _ = false |- _ => rewrite H; clear H end.
Qed.

Lemma length_chars x : length (chars x) = String.length x.
Proof. induction x; cbn; auto. Qed.


(** C33 The search of [enroll_config] ends, and finds the first place at which all
    26 bytes of the signature stand with at least 153 bytes behind them. *)
Theorem enroll_search_first (b : list Z) (s : lim) :
  enroll_search b s = Ok (first_place b) s ∧
  (∀ i, first_place b = Some i → ∃ p, i = Z.of_nat p + 26 ∧ i + 153 ≤ Z.of_nat (length b) ∧
     take 26 (drop p b) = CONFIG_B2SUM_SIGNATURE ∧ ∀ q, (q < p)%nat → take 26 (drop q b) ≠ CONFIG_B2SUM_SIGNATURE) ∧
  (first_place b = None → ∀ q, Z.of_nat q + 26 + 153 ≤ Z.of_nat (length b) → take 26 (drop q b) ≠ CONFIG_B2SUM_SIGNATURE).
Proof.
  split; [apply enroll_search_run|]. unfold first_place. split.
  - intros i Hi. pose proof (first_from_range _ _ _ _ Hi). apply first_from_Some in Hi as (p & -> & _ & Hm & Hq).
    exists p. unfold matches in *. apply bool_decide_eq_true in Hm. split_and!; [done|lia|done|].
    intros q Hlt. apply (bool_decide_eq_false (take 26 (drop q b) = CONFIG_B2SUM_SIGNATURE)), Hq. lia.
  - intros Hi q Hlt. apply (bool_decide_eq_false (take 26 (drop q b) = CONFIG_B2SUM_SIGNATURE)).
    apply (first_from_None _ _ _ Hi). lia.
Qed.

End LimineEnroll.
