(* ===== verification/LimineErrors.v ===== *)
(** * A damaged file of undo data

    [load_uninstall_data] releases what it loaded when the file ends early, but
    leaves the pointers and the number of entries in place, and the clean-up of
    [bios_install] releases the same blocks again. *)

From S2P Require Import Prelude Host Limine LimineFacts LimineUndo LimineInstall LimineSteps LimineJournal LimineStart LimineFile LimineRestore LimineProps.

Module LimineErrors.
Import Host Limine LimineFacts LimineUndo LimineInstall LimineSteps LimineJournal LimineStart LimineFile LimineRestore LimineProps.

(** A read at the end of the file. *)
Lemma fread_short st s f pre tail :
  faults (io s) = [] → files (io s) !! sname st = Some f → file_is f (pre ++ tail) → spos st = Z.of_nat (length pre) →
  (length tail < 8)%nat → ∃ bs st', lifti (fread st 8) s = Ok (0, bs, st') s.
Proof.
  intros Hw Hf [Hl _] Hp Ht. rewrite length_app in Hl.
  pose proof (fread_works st 8 f (io s) Hw Hf ltac:(lia) ltac:(lia)) as Hr. cbv zeta in Hr.
  rewrite (proj2 (Z.eqb_neq _ 8)) in Hr by lia. eexists _, _. rewrite (lifti_Ok _ _ _ _ Hr). by destruct s.
Qed.

(** A file that ends within 7 bytes after the entries [J], of [n] it announces. *)
Lemma load_truncated A s J n tail f g :
  loading A s [] → J ≠ [] → (length J < n ≤ 256)%nat → Forall storable J → (length tail < 8)%nat →
  faults (io s) = [] → files (io s) !! f = Some g →
  file_is g (le_bytes 8 (Z.of_nat n) ++ concat (encode_entry <$> J) ++ tail) →
  ∃ s' u, load_uninstall_data f s = Ok false s' ∧ uninstall_data_i s' = Z.of_nat n ∧ uninstall_data s' !! 0%nat = Some u ∧
    data u ≠ 0 ∧ allocs (io s') !! data u = None.
Proof.
  intros Hlg HJ Hn Hst Ht Hw Hf Hfi. unfold load_uninstall_data. edestruct chat_run as (s1 & H1 & [o ->]).
  erewrite bind_Ok_eq by exact H1. clear H1. set (s1 := set_io _ s).
  assert (lifti (fopen f) s1 = Ok (Some (Stream f 0 false)) s1) as Hop.
  { rewrite (lifti_Ok _ _ (Some (Stream f 0 false)) (io s1)); [by destruct s|]. unfold fopen. rewrite next_event_works by done. cbn. by rewrite Hf. }
  erewrite bind_Ok_eq by exact Hop. cbv iota beta.
  pose proof (fread_chunk (Stream f 0 false) [] (le_bytes 8 (Z.of_nat n)) _ s1 g Hw Hf Hfi eq_refl ltac:(done)
    (le_bytes_range _ _)) as H2.
  change (Z.of_nat (length (le_bytes 8 (Z.of_nat n)))) with 8 in H2. erewrite bind_Ok_eq by exact H2.
  erewrite bind_Ok_eq by reflexivity. cbn [fst snd negb Z.eqb Pos.eqb]. rewrite overwrite_all by lia.
  erewrite bind_Ok_eq by reflexivity. cbn [uninstall_data_i set_uninstall_data_i]. set (s2 := set_uninstall_data_i _ s1).
  unfold UNINSTALL_DATA_MAX. rewrite (proj2 (Z.ltb_ge _ _)), Nat2Z.id by lia.
  destruct (load_entries_run A s2 [] J (Stream f (Z.of_nat (length ([] ++ le_bytes 8 (Z.of_nat n)))) false) g
    (le_bytes 8 (Z.of_nat n)) tail) as (s3 & st3 & H3 & Hlg3 & Hal & Hi & Hr3 & Hn3 & Hp3); try done.
  { by destruct Hlg. } { cbn [length]. lia. }
  specialize (H3 (n - length J)%nat). replace (length J + (n - length J))%nat with n in H3 by lia.
  destruct (n - length J)%nat as [|m] eqn:Em; [lia|]. cbn [app] in *. rewrite app_assoc in Hfi.
  destruct (fread_short st3 s3 g (le_bytes 8 (Z.of_nat n) ++ concat (encode_entry <$> J)) tail) as (bs & st4 & H4); [by apply Hal|by rewrite Hn3, (al_files _ _ Hal)|exact Hfi|done|done|].
  cbn [load_entries] in H3. erewrite bind_Ok_eq in H3 by exact H4. erewrite bind_Ok_eq in H3 by reflexivity.
  cbn [fst snd negb Z.eqb] in H3. erewrite bind_Ok_eq by exact H3. cbv iota beta.
  apply (loading_undo A s3 J (λ u, Undo (data u) (overwrite (loc u) bs) (count u))) in Hlg3. set (s4 := set_undo _ _ s3) in *.
  edestruct perror_run as (s5 & H5 & [o' ->]). erewrite bind_Ok_eq by exact H5.
  set (s5 := set_io _ s4). destruct Hlg3 as [Hen Hsz].
  edestruct (free_loop A s5 (take (length J) (uninstall_data s4)) J 0) as (s6 & H6 & Ha6 & _ & Hd6 & Hi6);
    [lia|reflexivity| |exact Hen|].
  { intros k u Hu. rewrite Z.add_0_l, Nat2Z.id. rewrite <-Hu. symmetry. apply lookup_take_lt.
    apply lookup_lt_Some in Hu. rewrite length_take in Hu. lia. }
  rewrite length_take_le in H6 by lia. rewrite Nat2Z.id. erewrite bind_Ok_eq by exact H6.
  destruct (take (length J) (uninstall_data s4)) as [|u us] eqn:Eu; [by destruct (uninstall_data s4), J|].
  exists s6, u. split_and!; [done|by rewrite Hi6| | |].
  - rewrite Hd6. change (uninstall_data s5) with (uninstall_data s4). rewrite <-(lookup_take_lt _ (length J)), Eu; [done|].
    destruct J; [done|cbn; lia].
  - by eapply entries_alive; [exact Hen|left].
  - rewrite Ha6. apply (en_fresh _ _ _ _ Hen). left.
Qed.


End LimineErrors.
