(* ===== verification/LimineSamples.v ===== *)
(** * Runs of the installer on sample devices

    The theorems on [bios_install] and [enroll_config] at concrete hosts, with the
    boot loader that the repository embeds. *)

From S2P Require Import Prelude Host Limine LimineInstall LimineImage LimineTool LimineFacts LimineUndo LimineSteps LimineStart LimineFile LimineRestore LimineStages LimineConvert LimineProps LimineEnroll LimineErrors.

Module LimineSamples.
Import Host Limine LimineInstall LimineImage LimineTool LimineFacts LimineUndo LimineSteps LimineStart LimineFile LimineRestore
  LimineStages LimineConvert LimineProps LimineEnroll LimineErrors.

Abbreviation image := binary_limine_hdd_bin_data.

(** A disk of 64 KiB with one partition that starts at sector [start]. *)
Definition disk (start : Z) : file := File (st_bytes 446 [0; 0; 0; 0; 7; 0; 0; 0; start; 0; 0; 0] ∅) 65536.

Definition host_with (fs : gmap string file) (es : list io_event) : host := HostSt fs es [] ∅ [].

Definition sample : host := host_with {[ "disk" := disk 100 ]} [].

Definition code_of (r : outcome lim Z) : option Z := if r is Ok c _ then Some c else None.

Lemma image_size : 512 < Z.of_nat (length image) < 2 ^ 63.
Proof. rewrite image_length. lia. Qed.

Lemma disk_size start n f : files (host_with {[ "disk" := disk start ]} []) !! n = Some f → 0 ≤ flen f < 2 ^ 63.
Proof. cbn. intros [_ <-]%lookup_singleton_Some. cbn. lia. Qed.

Ltac not_in := apply (bool_decide_unpack _); vm_compute; exact Logic.I.

(** The third call fails after 7 bytes. *)
Definition faulty : host := host_with {[ "disk" := disk 100 ]} [Works; Works; Fails 7].


(** A partition that starts at sector 10. *)
Definition crowded : host := host_with {[ "disk" := disk 10 ]} [].

Lemma bios_install_all_or_nothing_witness :
  ∃ s', bios_install image ["bios-install"; "disk"; "--force"] (lim_start crowded) = Ok EXIT_FAILURE s' ∧
    ∀ n, same_file (files crowded !! n) (files (io s') !! n).
Proof.
  assert (code_of (bios_install image ["bios-install"; "disk"; "--force"] (lim_start crowded)) = Some EXIT_FAILURE) as Hc
    by (vm_compute; reflexivity).
  pose proof (bios_install_all_or_nothing image ["bios-install"; "disk"; "--force"] crowded image_size ltac:(not_in)
    eq_refl (disk_size 10)) as H. unfold runs in H.
  destruct (bios_install _ _ _) as [c s'|]; [|discriminate]. injection Hc as ->. exists s'. split; [done|]. by apply H.
Defined.

Lemma sample_disk : files sample !! "disk" = Some (disk 100).
Proof. apply lookup_singleton_eq. Qed.

Lemma bios_install_roundtrip_witness :
  ∃ s1 s2, bios_install image ["bios-install"; "disk"; "--uninstall-data-file=u"; "--quiet"] (lim_start sample) = Ok EXIT_SUCCESS s1 ∧
    bios_install image ["bios-install"; "disk"; "--uninstall"; "--uninstall-data-file=u"] (lim_start (io s1)) = Ok EXIT_SUCCESS s2 ∧
    ∀ m, m ≠ "u" → same_file (files sample !! m) (files (io s2) !! m).
Proof.
  assert (code_of (bios_install image ["bios-install"; "disk"; "--uninstall-data-file=u"; "--quiet"] (lim_start sample)) = Some EXIT_SUCCESS)
    as Hc by (vm_compute; reflexivity).
  pose proof (bios_install_roundtrip image "disk" "u" ["--quiet"] sample image_size eq_refl (disk_size 100) eq_refl
    ltac:(discriminate) ltac:(discriminate) eq_refl) as H. unfold runs in H.
  change (UNINSTALL_FILE_ARG +:+ "u") with "--uninstall-data-file=u" in H.
  destruct (bios_install image ["bios-install"; "disk"; "--uninstall-data-file=u"; "--quiet"] (lim_start sample)) as [c s1|]; [|discriminate].
  injection Hc as ->. destruct (H eq_refl) as [s2 H2]. by exists s1, s2.
Defined.

Lemma bios_install_contents_witness :
  ∃ s' g, bios_install image ["bios-install"; "disk"; "2"] (lim_start sample) = Ok EXIT_SUCCESS s' ∧
    files (io s') = <["disk" := g]> (files sample) ∧ flen g = 65536 ∧
    result 65536 (ld8 (fdata (disk 100))) true image (ld8 (fdata g)).
Proof.
  assert (code_of (bios_install image ["bios-install"; "disk"; "2"] (lim_start sample)) = Some EXIT_SUCCESS) as Hc
    by (vm_compute; reflexivity).
  pose proof (bios_install_contents image "disk" ["2"] sample (disk 100) image_size image_bytes eq_refl sample_disk
    ltac:(cbn; lia) eq_refl eq_refl ltac:(not_in)) as H. unfold runs in H.
  destruct (bios_install image _ _) as [c s'|]; [|discriminate].
  injection Hc as ->. destruct (H eq_refl) as [g Hg]. by exists s', g.
Defined.

Lemma bios_install_spares_partitions_witness :
  ∃ s' g, bios_install image ["bios-install"; "disk"] (lim_start sample) = Ok EXIT_SUCCESS s' ∧
    files (io s') !! "disk" = Some g ∧ ld8 (fdata g) 51200 = ld8 (fdata (disk 100)) 51200.
Proof.
  assert (code_of (bios_install image ["bios-install"; "disk"] (lim_start sample)) = Some EXIT_SUCCESS) as Hc
    by (vm_compute; reflexivity).
  assert (512 < Z.of_nat (length image) ≤ 63 * 512) as Hn by (rewrite image_length; lia).
  assert (vbytes (ld8 (fdata (disk 100))) 32769 5 ≠ chars "CD001") as Hcd by (vm_compute; discriminate).
  pose proof (bios_install_spares_partitions image "disk" [] sample (disk 100) Hn image_bytes eq_refl sample_disk
    ltac:(cbn; lia) eq_refl eq_refl ltac:(not_in) (or_intror Hcd)) as H. unfold runs in H.
  destruct (bios_install image _ _) as [c s'|]; [|discriminate].
  injection Hc as ->. destruct (H eq_refl) as (g & Hg & _ & Hs). exists s', g. split_and!; [done|done|].
  destruct (decide (ld8 (fdata g) 51200 = ld8 (fdata (disk 100)) 51200)) as [|Hne]; [done|exfalso].
  destruct (Hs 51200 ltac:(cbn; lia) Hne) as [?|[?|[?|[[? _]|(lb & e & (h & i & Hlb & -> & Hsig & _) & _)]]]]; try lia.
  apply list_elem_of_In in Hlb as [<-|[<-|[]]]; vm_compute in Hsig; discriminate.
Defined.

(** An ISO image of 128 KiB with a GPT: one partition for EFI, at sectors 100 to 150. *)
Definition iso : file := File
  (st_bytes 32769 (chars "CD001")
  (st_bytes 1024 (le_bytes 8 0x11d2f81fc12a7328 ++ le_bytes 8 0x3bc93ec9a0004bba ++ le_bytes 8 1 ++ le_bytes 8 2 ++
                  le_bytes 8 100 ++ le_bytes 8 150)
  (st_bytes (200 * 512) EFI_PART
  (st_bytes (512 + 72) (le_bytes 8 2 ++ le_bytes 4 4 ++ le_bytes 4 128)
  (st_bytes (512 + 32) (le_bytes 8 200)
  (st_bytes 512 EFI_PART ∅)))))) 131072.

(** The code of a run, and bytes of a file after it. *)
Definition shown (r : outcome lim Z) (name : string) (places : list (Z * nat)) : option (Z * list (list Z)) :=
  match r with
  | Ok code s => g ← files (io s) !! name; Some (code, (λ p, ld_bytes p.2 (fdata g) p.1) <$> places)
  | Stop _ _ => None
  end.

(** Its GPT is converted: the MBR lists the partition, which is active, the GPT
    is gone, and stage 2 follows the MBR. *)
Example iso_converted :
  shown (bios_install image ["bios-install"; "uix.iso"] (lim_start (host_with {[ "uix.iso" := iso ]} []))) "uix.iso"
    [(446, 16%nat); (462, 48%nat); (0x1a4, 8%nat); (512, 8%nat); (200 * 512, 8%nat)] =
  Some (EXIT_SUCCESS, [[0x80; 1; 38; 0; 0xef; 2; 25; 0; 100; 0; 0; 0; 51; 0; 0; 0]; replicate 48 0; le_bytes 8 512;
    take 8 (drop 512 image); replicate 8 0]).
Proof. vm_compute. reflexivity. Qed.

(** An executable of 340 bytes with the signature at 30. *)
Definition loader : file := File (st_bytes 30 CONFIG_B2SUM_SIGNATURE ∅) 340.
Definition tool_host : host := host_with {[ "loader" := loader ]} [].
Definition checksum : string := Nat.iter 128 (String.String (Ascii.ascii_of_nat 97)) EmptyString.


(** Two entries announced, one there. *)
Definition cut : file := File (st_bytes 0 (le_bytes 8 2 ++ encode_entry (0, [5])) ∅) 25.


End LimineSamples.
